(* ===== verification/_CoqProject ===== *)
-Q . S2P
Prelude.v
PyRuntime.v
PyText.v
PyUrl.v
PyUuid.v
PyBytes.v
PyDate.v
PyInt.v
JsonText.v
PyFloat.v
PyConfig.v
PyRegex.v
PyIso.v
PyGen.v
Dataclass.v
Pydantic.v
CanonicalJson.v
PyNumbers.v
Locks.v
ErrorCodes.v
ErrorHandlers.v
EnhancedErrors.v
ValueObjects.v
DomainEvents.v
MrzValidation.v
HttpErrors.v
ApiErrors.v
ServiceRegistry.v
ConfigManager.v
Notify.v
KeyVault.v
CircuitBreaker.v
AdvancedRetry.v
ResilienceConfig.v
ResilienceMonitor.v
Outbound.v
RateLimiter.v
GrpcHandlers.v
RetryPolicy.v
GrpcTls.v
GrpcAuth.v
RoleSeparation.v
AccessControl.v
OrgAuthorization.v
CedarActions.v
CedarMiddleware.v
Authorization.v
Interceptors.v
EnhancedInterceptors.v
ResilienceMetrics.v
ClientInterceptors.v
KeyRotation.v
KeyAnomaly.v
IncidentMonitor.v
GracefulDegradation.v
HealthMonitor.v
TrustMonitor.v
HealthChecks.v
SecurityTesting.v
StructuredLogging.v
ServiceMonitor.v
Annex9.v
Outbox.v
Passport.v
PydanticModels.v
Cmc.v
WebMiddleware.v
Idempotency.v
ErrorHandling.v
Biometrics.v
Certificates.v
Signatures.v
BiometricData.v
Authentication.v
