(* ===== verification/Prelude.v ===== *)
(** * Verification of the Marty shared infrastructure

    Marty issues and verifies travel documents and digital credentials. Its
    services share one Python package,
    [src/packages/marty-common/marty_common], and this development models the
    parts of it that carry logic of their own: how calls to other services are
    protected and replaced by fallbacks (resilience), how callers are limited
    (rate limiting), who may do what and what is recorded of it (access control
    and audit, organisations), how cryptographic keys are separated by role,
    rotated, revoked and watched, how a service watches its own health and raises
    alerts and incidents, how errors are classified, how events reach the message
    bus, how calls are authenticated, guarded and measured, and the documents themselves: passports, their biometric data groups,
    certificates and signatures, and the records that Annex 9 of the Chicago
    Convention asks for.
    Paths below are relative to that directory.

    ** Files

    - [Prelude.v] (this file): the libraries, tactics, the boolean order on the
      rationals, list lemmas, the hint database [marty].
    - [PyRuntime.v]: Python itself. Exceptions with their class hierarchy;
      [M S A], the monad of a method over an object state [S], in which a raised
      exception keeps the state changes made before it; insertion-ordered
      dictionaries ([pydict]); truth values; [datetime] as microseconds;
      [str.split]/[join]; JSON values; the environment classes [World] (clock,
      sleep, [secrets.randbelow]) and [Env] ([uuid4], [datetime.now]).
    - [PyText.v]: strings and their formatting ([str], [repr], [lower], dates in
      ISO format, JSON of labels), sorted lists of strings, the class [Sha256],
      and [CaseMapping], the capitals of the characters outside ASCII, which may
      be several characters ([upper]); [PyUrl.v]: [urllib.parse.urlsplit];
      [JsonText.v]: the texts that [json.dumps] gives for strings and for labels
      can be told apart ([labelled_inj]).
    - [PyBytes.v]: byte strings and Base64 as Python encodes and leniently decodes
      it, UTF-8; [PyUuid.v]: [uuid.UUID]; [PyDate.v]: dates as days, their ISO
      text and its reading; [PyInt.v]: [str.strip] and the integers [int] reads;
      [PyIso.v]: [datetime] with a time zone, its text, reading and order;
      [PyFloat.v]: the texts that [float] reads; [PyConfig.v]: the values that YAML
      and dictionaries of settings hold; [PyGen.v]: generators as trees of
      what they yield, raise and do, and their consumers.
    - [PyRegex.v]: [re.match] for the patterns of the source. [parse] reads a
      pattern, [run] matches by backtracking in the order of Python's engine;
      [trace] is the relation it decides ([matches_iff]).
    - [Dataclass.v]: data classes and their dictionaries. [DictCodec] is the pair
      [to_dict], [from_dict], [RoundTrip] its laws, [PyEnum] an enumeration with
      its values; the tactic [look_up] evaluates the reading of what was written.
    - [Pydantic.v]: pydantic models as lists of fields with types and validators;
      [construct] builds an object, [Pydantic]/[PydanticLaws] is what pydantic
      makes of a value of another type; [model_dump] turns the models inside an
      object into dictionaries; [json_dumps] is the JSON text of a value.
      [CanonicalJson.v]: two values have one JSON text with sorted keys exactly
      when they are the same up to the order of entries ([same_text]).
    - [PyNumbers.v]: mean, median, deviation, rounding and fixed formatting.
    - [Locks.v]: the monad [LM S A] of methods that take a non-reentrant lock and
      may therefore never return ([Blocks]), over any state with a [Lock].
    - [ErrorCodes.v]: [resilience/error_codes.py] and [exceptions.py], the two
      exception hierarchies and their gRPC status.
    - [EnhancedErrors.v]: [resilience/enhanced_errors.py], errors with category,
      severity and recovery action; contexts are shared objects in a heap.
      [ValueObjects.v]: [value_objects.py]; [DomainEvents.v]: [events.py], a class
      of events is a value of [EventClass]; [MrzValidation.v]:
      [models/mrz_validation.py], what is reported of a machine-readable zone.
    - [ErrorHandlers.v]: [errors/handlers.py], the wrappers of functions that make
      every exception one of the package; [HttpErrors.v]: [errors/schema.py] and
      [errors/fastapi_handlers.py], what a client gets for an exception;
      [ApiErrors.v]: [api_errors.py], errors as data classes;
      [ServiceRegistry.v]: [service_registry.py]; [ConfigManager.v]:
      [config_manager.py], files merged into the configuration of a service;
      [Notify.v]: [notify.py], notifications by mail, webhook and Slack; [KeyVault.v]: [infrastructure/key_vault.py], over any
      [VaultHost] and any [Transit] engine.
    - [CircuitBreaker.v]: [resilience/circuit_breaker.py]. [cb] is the state of
      a [CircuitBreaker]; [allow_request], [record_success], [record_failure],
      [reset], [decorate] (and its async twin), [stats], [health_check] are its
      methods with the time of the call as an argument. [Breaker] and
      [BreakerLaws] are the interface its clients use.
    - [AdvancedRetry.v]: [resilience/advanced_retry.py]. [manager] is an
      [AdvancedRetryManager] with its metrics and an optional breaker (any
      [Breaker]); [retry_sync] with [is_async] covers [retry_async]. Sleeping may
      raise ([Sleeper]), as [asyncio.sleep] does when its task is cancelled. The
      theorems read a log of what a call did: clock readings, sleeps, calls of the
      function with their outcomes ([event], [logged]).
    - [ResilienceConfig.v]: [resilience/config.py], whose fields hold whatever was
      read ([cfg]); [ResilienceMonitor.v]: [resilience/monitoring.py], over
      references to the breakers and managers of the two files above
      ([Components], [ClockLaws]).
    - [RetryPolicy.v]: [resilience/retry.py] and [retry_enhanced.py], over any
      [Tenacity]; [GrpcTls.v]: [grpc_tls.py], credentials of clients and servers.
    - [Outbound.v]: [resilience/outbound.py], the helper that combines a named
      breaker with a retry policy, over the real [CircuitBreaker.v].
    - [RateLimiter.v]: [middleware/rate_limiter.py]. [limiter S] is a
      [RateLimiter] over a storage backend [S]; [RateLimitBackend] is the
      storage interface with [BackendLaws], [Memory] and [RedisBackend] its two
      implementations; the gRPC middleware is at the end. [check_limit] holds no
      lock, so a call is a sequence of accesses to what the calls share ([phase],
      [advance]), and the theorems are about accesses of many calls in any order;
      [check_limit] itself is a call that runs its seven accesses undisturbed.
    - [GrpcHandlers.v]: what gRPC hands to an interceptor, handlers of the four
      shapes, contexts that abort, and the consumers of streams. [GrpcAuth.v]:
      [auth_interceptor.py]. [Interceptors.v]: [grpc_interceptors.py] and
      [resilience/interceptors.py]; [EnhancedInterceptors.v]:
      [resilience/enhanced_interceptors.py]; [ResilienceMetrics.v]:
      [resilience/metrics.py]; [ClientInterceptors.v]:
      [resilience/comprehensive_interceptors.py], over the breaker, the retries
      and the metrics of the files above.
    - [RoleSeparation.v]: [crypto/role_separation.py], roles, purposes, policies
      and key identifiers.
    - [AccessControl.v]: [security/access_control.py]. [manager L W] is an
      [AccessControlManager] over an [AuditLogger] [L]; [FileAuditLogger] is the
      file logger. The data of an entry may be anything ([pydata]): JSON, or another
      object with what [json.dumps] writes for it, if it does.
    - [OrgAuthorization.v]: [org_authorization.py]. The client with its Redis
      cache and the dependencies of the routes run in [M W] over any [W] with a
      [RedisClient] and an [OrganizationServiceStub]; [CloudLaws] is what is
      relied on of them, [Demo] a concrete deployment.
    - [CedarActions.v]: [cedar_actions.py], the tables of routes and permissions,
      and [CedarMiddleware.v]: [cedar_middleware.py], the gateway in front of the
      services. [dispatch] asks [OrgAuthorization.v] for memberships; the HTTP
      client and the secrets are [Gateway], the service behind is [call_next].
    - [Authorization.v]: [authorization.py], [cedar_engine.py] and
      [cedar_entities.py]: the guard of a method asks an engine for the identity
      that [GrpcAuth.v] installed. The evaluator of policies is the parameter
      [Cedarpy]/[CedarLaws]; the bundled policies are written out.
    - [KeyRotation.v]: [security/key_rotation.py] and the interface of
      [security/hsm.py]. [KeyStore]/[KeyStoreLaws] is the store interface;
      [DatabaseKeyStore] implements it over a database ([Db]/[DbLaws]), and
      [Table] is a database in memory; [krm K W] is a [KeyRotationManager].
    - [KeyAnomaly.v]: [security/key_anomaly_detector.py]. The detectors run in
      the environment's monad, [monitor W] is a [KeyUsageAnomalyMonitor] with
      its collector and pattern learner.
    - [IncidentMonitor.v]: [security/incident_monitor.py]. [monitor W] is a
      [SecurityMonitor] fed with the entries of [AccessControl.v]; its methods run
      in [LM] because one takes the lock the other holds.
    - [GracefulDegradation.v]: [resilience/graceful_degradation.py]. The fallback
      providers are objects shared by the features that use them, so they live
      in a store ([objects]) under the identifiers the features hold.
    - [HealthMonitor.v]: [monitoring/health_monitor.py], with psutil as the class
      [PsUtil]; and [ServiceMonitor.v]: [monitoring/service_monitor.py], whose
      alert manager runs in [LM], since callbacks run under its lock.
      [TrustMonitor.v]: [monitoring/trust_monitoring.py]; [HealthChecks.v]:
      [health_checks.py]; [SecurityTesting.v]: the tests of a running service of
      [security/security_testing.py]; [StructuredLogging.v]:
      [logging/structured_logging.py], whose middleware runs an application that is a
      tree of the messages it sends ([asgi]).
    - [Annex9.v]: [policies/annex9_policies.py]. [manager W] is an
      [Annex9PolicyManager].
    - [Outbox.v]: the transactional outbox of [infrastructure/outbox.py] with
      [event_bus.py] and the session of [database.py]. [dispatcher W] holds the
      open session's unit of work and the producer; the database and Kafka are
      [OutboxWorld]/[OutboxLaws], and [Demo] a database in memory.
    - [Passport.v]: [models/passport.py] up to the verification result; [Cmc.v]:
      its crew member certificates; [PydanticModels.v]: the second set of models of
      [models/pydantic_models.py], over the fields and validators of the first.
    - [WebMiddleware.v]: [web_middleware.py] but for the idempotency keys, which
      are in [Idempotency.v]. A middleware is a function of the next application.
      Requests that share the store of responses interleave at their [await]s:
      in memory they are cut into [begin] and [finish], with Redis into the
      operations of [advance]; [drive] runs one request alone.
    - [ErrorHandling.v]: [error_handling.py], the classification of exceptions,
      the handler with its history and statistics, and its decorators.
    - [Biometrics.v]: [security/enhanced_biometric_processing.py], the reading of
      the biometric data groups DG2 to DG5 and their quality; NumPy and the image
      library are [Imaging]/[ImagingLaws].
    - [Certificates.v], [Signatures.v], [BiometricData.v], [Authentication.v]: the
      data classes of [models/certificates.py], [digital_signatures.py],
      [biometrics.py] and [authentication.py], all over [Dataclass.v].

    ** How the code is represented

    A class is a record of its fields, a method a function or a computation of
    [M] over that record, in the order of the code's statements, with the
    code's guards and early returns. A method that holds its lock throughout is
    one step and its lock is left out, unless the method can meet the lock it
    holds, by calling another method or a callback: then it runs in [LM] with
    the lock in its state. Where the code releases the lock
    between two critical sections ([CircuitBreaker.decorate]) the interleaving
    of threads is a step relation ([thread_step]); where it takes none
    ([RateLimiter.check_limit]) every access to shared state is a step ([advance]).
    Work that runs later (the 24-hour grace period of a rotated key, the jobs of a thread pool) is pending
    work in the state, run by its own operation. Where Python shares one mutable
    object between two containers and the sharing matters (a user and its
    sessions), the object lives in one store and the other container refers to
    it.

    Floats are exact rationals ([Q]); [min] and [max] keep Python's choice of
    operand. Python's integers are [Z]. Times are rationals in seconds where the
    code uses [time.time] and integers in microseconds where it uses [datetime].
    A time written to JSON by [isoformat] and read back by [fromisoformat] is
    the JSON value [JTime], except in the data classes, where it is the text that
    [PyIso.v] writes and reads. An attribute of a data class that is only stored
    holds any JSON value, since Python does not check annotations. Log messages
    are left out.

    Code outside the repository is a parameter: the Redis client, the database
    connector, the HSM provider, gRPC, SHA-256, callbacks, handlers and the
    functions passed to a decorator. What is relied on of them is in the classes
    [DbLaws], [BackendLaws], [BreakerLaws], [KeyStoreLaws], [CloudLaws],
    [MembershipJsonLaws], [OutboxLaws], [PydanticLaws], [UuidLaws], [UuidText],
    [IdemRedisLaws], [Sha256Laws], [ImagingLaws], [CedarLaws], [BreakerStoreLaws],
    [MetricsStoreLaws], [CollectorLaws], [TransitLaws], [ClockLaws], [RequestLaws], [TenacityLaws], [ContextLaws], each with an instance, or in a named hypothesis of the theorem ([tame], [hsm_generates],
    [clock_shows] and the like) that the theorem's witness discharges.

    Fuel: [retry_loop] takes as fuel the number of attempts configured, and its
    counter grows by one each turn, so it never runs out: [retry_outcome] shows
    that the call produces one of the code's results. [check_limit] gives a call the
    seven accesses of the longest path ([advances]). [drive] gets eight steps,
    one more than the longest request takes ([redis_request_ends]). The loop
    over the templates of a data group gets as many turns as there are bytes
    ([each_fuel]). The parser of patterns gets four steps for each character and
    four more; that all patterns of the source are read is checked by evaluation
    ([rules_parse], [skip_patterns_parse]). All other recursion is structural.

    ** What the theorems show

    - Circuit breaker: it refines a three-phase automaton over any sequence of
      calls ([run_refines_spec]); invariants; failing fast while open; opening
      exactly at the threshold; client errors never open it; a decorated
      function is called at most once and its outcome is passed on. It also
      leaks a slot for each cancelled call, and its limit on concurrent requests
      can be exceeded by racing threads.
    - Retry: the delay is bounded for every strategy; the loop's outcome is the
      first success, the first exception that ends it, or exhaustion, which is
      found at a reading of the clock beyond the budget; an open breaker refuses
      without a call ([retry_outcome]). The manager releases a slot of the breaker
      that it never took. The simple
      decorators count a call that gave up as retries only ([call_counted]), and
      their predicate is never used. An interrupted attempt is counted as nothing.
    - Transport security: a server asks for certificates unless both options say no
      ([server_is_secured]); a client without a key connects all the same.
    - Configuration and monitoring: what a saved configuration is when it is read
      back, the fields that are not written included ([config_roundtrip]), and that no
      exception named in one is ever used; what merged files hold
      ([merge_leaves]); when the whole is
      healthy, and which failures it never sees.
    - Key vault and services: no key is touched and nothing signed unless the vault
      accepts the client; signatures are read back; addresses of services differ,
      and which of their ports clash.
    - Outbound: a breaker that has opened never closes again.
    - Rate limiter: as long as calls of one client do not overlap, what is
      admitted for it is bounded by the burst and the refill rate
      ([admission_bound]) and the minute and hour windows hold
      ([windows_enforced]), whatever the calls of other clients do in between;
      overlapping calls exceed the burst ([overlapping_calls_exceed_burst]). The
      waiting time reported for the bucket is exact. The Redis backend loses the
      windows.
    - Role separation: which keys can exist for which roles, what may be shared,
      and the parsing of key identifiers.
    - Access control: complete mediation of protected functions; what
      authentication does in every reachable state; the lifetime of a session
      and how a logout elsewhere makes one permanent; the audit file returns
      what was logged and JSON could write, unless a line in it ends the reading.
    - Organisation authorization: who passes [require_permission] and
      [require_api_key_or_session]; what an API key can obtain; how old a
      membership from the cache can be, and that it is never another member's.
    - Gateway: complete mediation ([gateway_mediation]): the service is called
      only for a request that is cleared, whatever fails on the way; the owner of
      a resource decides its organisation; keys that only read change nothing,
      with three exceptions; which permissions only [admin:full] grants. Requests
      that no rule resolves are not checked at all.
    - gRPC authentication and authorization: a method behind the interceptor runs
      only for a caller it admits, whatever the shape of the call, and for whom is
      stated exactly; a guarded method runs only for a role that a policy permits,
      and otherwise fails the same whatever it is.
      The identities of certificates have no roles and pass no guard.
    - Interceptors and metrics: which status an exception becomes; that a
      method's breaker rejects without a call and moves as a call ends, in a
      handler of any shape ([resilience_interceptor]); the numbers of requests add up, also
      for streams that a client leaves. Errors are never counted in the totals,
      and with metrics no client call ever returns.
    - Errors, events and values: which statuses survive a hop from service to
      service; what an event sends; addresses have a normal form; an age counts
      anniversaries, and what is reported of a zone is complete. The decorator and
      the context manager agree on the class of an error, which alone decides the
      status of the answer ([wrapped_answered]). A request keeps its identifier to
      the answer of any exception that can be caught, whose status is the one of its
      kind ([request_answered]); refused data that JSON cannot write is answered
      as a failure of the service.
    - Key rotation: the database store implements the interface; a rotation
      that works replaces the key, and whatever fails in it loses no key; which
      keys the check submits; what revocation does. A failed rotation
      reactivates a revoked key, and the end of the grace period undoes a
      revocation.
    - Key anomalies: hours are grouped exactly; the four policy rules are
      reported exactly; confidence scores stay in range. The periodic analysis
      can never report a deviation in time, operation or location, and old
      alerts suppress new ones at the same time of day.
    - Incident monitoring: what an event does to a monitor with any rules, that no
      sequence of operations ever records an incident, and which calls wait for
      ever: the first event that a rule matches and whatever needs the lock after it.
    - Graceful degradation: what a call of a feature gives on every path; the
      level chosen from the share of healthy checks falls as health falls; a feature
      that failed once is never tried again, and decorated calls with different
      arguments are answered from one cache entry.
    - Health and service monitoring: the bounded histories implement the log of
      all measurements of a series; one round of alerts takes the step promised for
      each ([moves], [rounds]), and the triggers keep the cooldown. Resource alerts never fire, failing
      checks count as healthy, old errors alert again, and a callback that asks
      for the active alerts hangs. The health of the trust services is that of the PKD
      alone; a database is never healthy inside an event loop; a service that answers
      nothing passes half of the security tests; the records of a request name what the scopes around
      them were opened with ([context_names_user]), but behind the middleware that of
      a log-in names no user. A notification reaches every sink, whatever fails
      ([notify_reaches_all]).
    - Annex 9: records stay well formed; what the compliance verdict means; which
      findings and countries are ignored.
    - Outbox: no stored event is lost, whatever fails; a working flush delivers
      its batch; the retries are bounded; a failed commit sends its events twice.
    - Passport models: what every built object satisfies, and which conversions
      to dictionaries and texts give it back, given that capitals of country codes
      are one character each (the sharp s is accepted and not read back).
      The expiry check of the ICAO format
      is ineffective, and short dates forget the century. The text a seal is
      signed over determines all of it but the signature, up to the order of entries
      ([canonical_data_canonical]); no crew member certificate is ever verified.
    - Web middleware: what a client gets that sends an ETag back; with an
      idempotency key no two runs overlap and what is replayed is an earlier
      response, with the store in memory and, as far as the lock goes, in Redis.
      There a request can run twice all the same, and a failed renewal of the
      lock loses the response.
    - Error handling: the statistics are exact; what is suggested for which
      error. A logged error is masked by an [AttributeError], and the gRPC
      decorator never answers.
    - Biometric processing: data groups and minutiae are read back, and what is
      read is bounded by what is there. A truncated group passes as a shorter one,
      templates without minutiae can be excellent, and no fingerprint or iris is
      ever poor.
    - Data classes: every one that reads its dictionary reads what it wrote, up to
      empty optional parts, which become [None]. A text can come back as bytes,
      a comma in a name becomes another part of it, certificates count as
      self-signed by their names alone, and times with a time zone cannot be
      compared with the clock.

    ** What is not modelled

    The services, the generated gRPC code, storage and messaging clients, the
    user interfaces and the cryptographic primitives themselves, which are
    libraries or thin glue around them; the evaluator of Cedar policies; the JSON texts that stand for DER and CBEFF encodings;
    [models/rfid.py], which cannot be imported (a data class with a default before
    a field without one); and the modules of the shared package that read
    configuration, export telemetry or start servers. *)

From Stdlib Require Export ZArith QArith Qround Lqa Ascii.
From stdpp Require Export base tactics list strings gmap sets.
#[export] Set Default Goal Selector "!".

Declare Scope marty_scope.
Delimit Scope marty_scope with marty.

(** ** Tactics *)

Create HintDb marty.

(** Case analysis on the innermost [match]/[if] of the goal or of a
    hypothesis, keeping the equation. *)
Ltac split_match :=
  match goal with
  | |- context [match ?x with _ => _ end] =>
      lazymatch x with
      | context [match _ with _ => _ end] => fail
      | _ => destruct x eqn:?
      end
  | H : context [match ?x with _ => _ end] |- _ =>
      lazymatch x with
      | context [match _ with _ => _ end] => fail
      | _ => destruct x eqn:?
      end
  end.

(** Case analysis on the innermost boolean test of the goal. *)
Ltac split_if :=
  match goal with
  | |- context [if ?x then _ else _] =>
      lazymatch x with
      | context [if _ then _ else _] => fail
      | _ => destruct x eqn:?
      end
  end.

Ltac split_matches := repeat (split_match; simplify_eq/=; try done).

(** Turns boolean tests on [Z] and [Q] in the context into propositions. *)
Ltac bool_props :=
  repeat match goal with
  | H : andb _ _ = true |- _ => apply andb_true_iff in H; destruct H
  | H : andb _ _ = false |- _ => apply andb_false_iff in H
  | H : orb _ _ = true |- _ => apply orb_true_iff in H
  | H : orb _ _ = false |- _ => apply orb_false_iff in H; destruct H
  | H : negb _ = true |- _ => apply negb_true_iff in H
  | H : negb _ = false |- _ => apply negb_false_iff in H
  | H : Z.leb _ _ = true |- _ => apply Z.leb_le in H
  | H : Z.leb _ _ = false |- _ => apply Z.leb_gt in H
  | H : Z.ltb _ _ = true |- _ => apply Z.ltb_lt in H
  | H : Z.ltb _ _ = false |- _ => apply Z.ltb_ge in H
  | H : Z.eqb _ _ = true |- _ => apply Z.eqb_eq in H
  | H : Z.eqb _ _ = false |- _ => apply Z.eqb_neq in H
  | H : Qle_bool _ _ = true |- _ => apply Qle_bool_iff in H
  | H : String.eqb _ _ = true |- _ => apply String.eqb_eq in H
  | H : String.eqb _ _ = false |- _ => apply String.eqb_neq in H
  | H : bool_decide _ = true |- _ => apply bool_decide_eq_true in H
  | H : bool_decide _ = false |- _ => apply bool_decide_eq_false in H
  end.

(** ** Rational comparisons as booleans (Python's [<], [<=], [min], [max]) *)

Definition Qltb (a b : Q) : bool := negb (Qle_bool b a).

Lemma Qltb_lt a b : Qltb a b = true <-> (a < b)%Q.
Proof.
  unfold Qltb. rewrite negb_true_iff. split.
  - intros H. apply Qnot_le_lt. intros Hle%Qle_bool_iff. congruence.
  - intros H. destruct (Qle_bool b a) eqn:E; [|done].
    apply Qle_bool_iff in E. lra.
Qed.

Lemma Qltb_ge a b : Qltb a b = false <-> (b <= a)%Q.
Proof. unfold Qltb. rewrite negb_false_iff. apply Qle_bool_iff. Qed.

Lemma Qle_bool_gt a b : Qle_bool a b = false <-> (b < a)%Q.
Proof. rewrite <- Qltb_lt. unfold Qltb. by rewrite negb_true_iff. Qed.

(** Python's [min(a, b)] returns [b] when [b < a], otherwise [a]; [max(a, b)]
    returns [b] when [b > a], otherwise [a]. *)
Definition py_min (a b : Q) : Q := if Qltb b a then b else a.
Definition py_max (a b : Q) : Q := if Qltb a b then b else a.

Ltac q_cases :=
  unfold py_min, py_max in *;
  repeat match goal with
  | |- context [if Qltb ?a ?b then _ else _] => destruct (Qltb a b) eqn:?
  | H : context [if Qltb ?a ?b then _ else _] |- _ => destruct (Qltb a b) eqn:?
  | H : Qltb _ _ = true |- _ => apply Qltb_lt in H
  | H : Qltb _ _ = false |- _ => apply Qltb_ge in H
  | H : Qle_bool _ _ = true |- _ => apply Qle_bool_iff in H
  | H : Qle_bool _ _ = false |- _ => apply Qle_bool_gt in H
  end.

Lemma py_min_le_l a b : (py_min a b <= a)%Q.
Proof. q_cases; lra. Qed.

Lemma py_min_le_r a b : (py_min a b <= b)%Q.
Proof. q_cases; lra. Qed.

Lemma py_min_glb a b c : (c <= a -> c <= b -> c <= py_min a b)%Q.
Proof. intros. q_cases; lra. Qed.

Lemma py_max_ge_l a b : (a <= py_max a b)%Q.
Proof. q_cases; lra. Qed.

Lemma py_max_ge_r a b : (b <= py_max a b)%Q.
Proof. q_cases; lra. Qed.

#[export] Hint Resolve py_min_le_l py_min_le_r py_min_glb py_max_ge_l py_max_ge_r : marty.

(** Python's [int(x)] on a float truncates towards zero. *)
Definition py_int (x : Q) : Z := Z.quot (Qnum x) (Zpos (Qden x)).

Lemma py_int_bounds x : (0 <= x)%Q -> (inject_Z (py_int x) <= x)%Q /\ (0 <= py_int x)%Z.
Proof.
  intros H. unfold py_int, Qle, inject_Z in *; simpl in *.
  rewrite Z.mul_1_r in *. split.
  - rewrite Z.mul_comm. apply Z.mul_quot_le; lia.
  - apply Z.quot_pos; lia.
Qed.

(** ** List lemmas the components share *)

Section lists.
Context {A : Type}.
Implicit Types (f : A -> bool) (l : list A).

(** Python's list comprehension [x for x in l if f(x)]. *)
Definition lfilter f l : list A := List.filter f l.

Lemma lfilter_In f l x : In x (lfilter f l) <-> In x l /\ f x = true.
Proof. apply filter_In. Qed.

Lemma lfilter_nil f l : lfilter f l = [] <-> (forall x, In x l -> f x = false).
Proof.
  induction l as [|a l IH]; simpl; [naive_solver|].
  destruct (f a) eqn:E; split.
  - done.
  - intros H. specialize (H a (or_introl eq_refl)). congruence.
  - intros H x [->|Hx]; [done|]. by apply IH.
  - intros H. apply IH. auto.
Qed.

Lemma lfilter_length f l : (length (lfilter f l) <= length l)%nat.
Proof. induction l; simpl; [lia|]. destruct (f _); simpl; lia. Qed.

Lemma lfilter_app f l1 l2 : lfilter f (l1 ++ l2) = lfilter f l1 ++ lfilter f l2.
Proof. induction l1; simpl; [done|]. destruct (f _); simpl; congruence. Qed.

Lemma lfilter_all f l : (forall x, In x l -> f x = true) -> lfilter f l = l.
Proof.
  induction l as [|a l IH]; simpl; [done|]. intros H.
  rewrite (H a (or_introl eq_refl)). f_equal. auto.
Qed.

Lemma lfilter_ext f g l :
  (forall x, In x l -> f x = g x) -> lfilter f l = lfilter g l.
Proof.
  induction l as [|a l IH]; simpl; [done|]. intros H.
  rewrite (H a (or_introl eq_refl)), IH by auto. done.
Qed.
End lists.
