(* ===== verification/PyRuntime.v ===== *)
(** * Python runtime notions

    The parts of the language and its standard library the modelled code
    relies on: exceptions with their class hierarchy, the state-and-exception
    monad in which methods run (a raised exception keeps the state changes made
    before it), insertion-ordered dictionaries, truth values, and the integer
    arithmetic of [datetime] and [timedelta] (microseconds since the epoch). *)

From S2P Require Import Prelude.

(** ** Exceptions *)

(** A class is its name followed by the names of its bases, nearest first
    (the method resolution order; the code only uses single inheritance). *)
Record pyclass := PyClass { cls_name : string; cls_bases : list string }.

Definition mro (c : pyclass) : list string := cls_name c :: cls_bases c.
Definition subclass (name : string) (base : pyclass) : pyclass := PyClass name (mro base).

Definition BaseException := PyClass "BaseException" [].
Definition Exception_ := subclass "Exception" BaseException.
Definition KeyboardInterrupt := subclass "KeyboardInterrupt" BaseException.
Definition CancelledError := subclass "CancelledError" BaseException.
Definition ValueError := subclass "ValueError" Exception_.
Definition TypeError := subclass "TypeError" Exception_.
Definition LookupError := subclass "LookupError" Exception_.
Definition KeyError := subclass "KeyError" LookupError.
Definition RuntimeError := subclass "RuntimeError" Exception_.
Definition ArithmeticError := subclass "ArithmeticError" Exception_.
Definition ZeroDivisionError := subclass "ZeroDivisionError" ArithmeticError.
Definition OSError := subclass "OSError" Exception_.
Definition ConnectionError := subclass "ConnectionError" OSError.
Definition TimeoutError := subclass "TimeoutError" OSError.

(** An exception object: its class, its message, and the attributes the code
    reads from it ([category] of a [MartyError], [status_code] of an
    [HTTPException]) as strings. *)
Record exn := Exn { exn_class : pyclass; exn_message : string;
                    exn_attrs : list (string * string) }.

Definition raise_ (c : pyclass) (msg : string) : exn := Exn c msg [].

Definition isinstance (e : exn) (c : pyclass) : bool :=
  existsb (String.eqb (cls_name c)) (mro (exn_class e)).

Definition isinstance_any (e : exn) (cs : list pyclass) : bool :=
  existsb (isinstance e) cs.

(** [except Exception] catches this exception. *)
Definition catchable (e : exn) : bool := isinstance e Exception_.

(** ** Results and the state-and-exception monad *)

Inductive result (A : Type) :=
| Ok (a : A)
| Raise (e : exn).
Arguments Ok {_} _.
Arguments Raise {_} _.

Definition is_ok {A} (r : result A) : bool := match r with Ok _ => true | Raise _ => false end.

Definition M (S A : Type) : Type := S -> result A * S.

#[export] Instance result_ret : MRet result := fun A a => Ok a.
#[export] Instance result_bind : MBind result := fun A B f r =>
  match r with Ok a => f a | Raise e => Raise e end.
#[export] Instance M_ret {S} : MRet (M S) := fun A a s => (Ok a, s).
#[export] Instance M_bind {S} : MBind (M S) := fun A B f m s =>
  match m s with
  | (Ok a, s') => f a s'
  | (Raise e, s') => (Raise e, s')
  end.

Section monad.
Context {S : Type}.

Definition get : M S S := fun s => (Ok s, s).
Definition gets {A} (f : S -> A) : M S A := fun s => (Ok (f s), s).
Definition modify (f : S -> S) : M S unit := fun s => (Ok tt, f s).
Definition raise {A} (e : exn) : M S A := fun s => (Raise e, s).
Definition lift {A} (r : result A) : M S A := fun s => (r, s).

(** [try: m except Exception as e: h(e)] *)
Definition try_except {A} (m : M S A) (h : exn -> M S A) : M S A := fun s =>
  match m s with
  | (Raise e, s') => if catchable e then h e s' else (Raise e, s')
  | r => r
  end.

(** [try: m except C as e: h(e)] *)
Definition try_class {A} (c : pyclass) (m : M S A) (h : exn -> M S A) : M S A := fun s =>
  match m s with
  | (Raise e, s') => if isinstance e c then h e s' else (Raise e, s')
  | r => r
  end.

(** [try: m finally: f] *)
Definition try_finally {A} (m : M S A) (f : M S unit) : M S A := fun s =>
  let '(r, s') := m s in
  match f s' with
  | (Ok _, s'') => (r, s'')
  | (Raise e, s'') => (Raise e, s'')
  end.

(** A computation keeps a property of the state, whatever it returns. *)
Definition preserves (I : S -> Prop) {A} (m : M S A) : Prop := forall s, I s -> I (snd (m s)).

Lemma preserves_ret I {A} (a : A) : preserves I (mret a).
Proof. by intros s. Qed.

Lemma preserves_raise I {A} e : preserves I (@raise A e).
Proof. by intros s. Qed.

Lemma preserves_bind I {A B} (m : M S A) (f : A -> M S B) :
  preserves I m -> (forall a, preserves I (f a)) -> preserves I (m ≫= f).
Proof.
  intros Hm Hf s Hs. specialize (Hm s Hs). unfold mbind, M_bind.
  destruct (m s) as [[a|e] s']; simpl in *; [by apply Hf|done].
Qed.

Lemma preserves_bind_ret I {A B} (a : A) (f : A -> M S B) :
  preserves I (f a) -> preserves I (mret a ≫= f).
Proof. done. Qed.

Lemma preserves_try_except I {A} (m : M S A) h :
  preserves I m -> (forall e, preserves I (h e)) -> preserves I (try_except m h).
Proof.
  intros Hm Hh s Hs. specialize (Hm s Hs). unfold try_except.
  destruct (m s) as [[a|e] s']; simpl in *; [done|]. destruct (catchable e); [by apply Hh|done].
Qed.

Lemma preserves_try_class I {A} c (m : M S A) h :
  preserves I m -> (forall e, preserves I (h e)) -> preserves I (try_class c m h).
Proof.
  intros Hm Hh s Hs. specialize (Hm s Hs). unfold try_class.
  destruct (m s) as [[a|e] s']; simpl in *; [done|]. destruct (isinstance e c); [by apply Hh|done].
Qed.

Lemma bind_ret_l {A B} (a : A) (f : A -> M S B) s : (mret a ≫= f) s = f a s.
Proof. done. Qed.

Lemma bind_ret_r {A} (m : M S A) s : (m ≫= mret) s = m s.
Proof. unfold mbind, M_bind, mret, M_ret. by destruct (m s) as [[] ]. Qed.

Lemma bind_assoc {A B C} (m : M S A) (f : A -> M S B) (g : B -> M S C) s :
  ((m ≫= f) ≫= g) s = (m ≫= (fun a => f a ≫= g)) s.
Proof. unfold mbind, M_bind. by destruct (m s) as [[] ]. Qed.

Lemma bind_inv_ok {A B} (m : M S A) (f : A -> M S B) s b s' :
  (m ≫= f) s = (Ok b, s') ->
  exists a s0, m s = (Ok a, s0) /\ f a s0 = (Ok b, s').
Proof. unfold mbind, M_bind. destruct (m s) as [[] ]; naive_solver. Qed.
(** The computation returns, with a value that satisfies [P], from every state. *)
Definition yields {A} (m : M S A) (P : A -> Prop) : Prop := forall s, exists a s', m s = (Ok a, s') /\ P a.

Lemma yields_ret {A} (a : A) (P : A -> Prop) : P a -> yields (mret a) P.
Proof. intros Ha s. by exists a, s. Qed.

Lemma yields_bind {A B} (m : M S A) (f : A -> M S B) P Q :
  yields m P -> (forall a, P a -> yields (f a) Q) -> yields (m ≫= f) Q.
Proof.
  intros Hm Hf s. destruct (Hm s) as (a & s1 & Hs & Ha). destruct (Hf a Ha s1) as (b & s2 & Hb & Hq).
  exists b, s2. unfold mbind, M_bind. by rewrite Hs, Hb.
Qed.

Lemma yields_weaken {A} (m : M S A) (P Q : A -> Prop) : yields m P -> (forall a, P a -> Q a) -> yields m Q.
Proof. intros Hm HPQ s. destruct (Hm s) as (a & s' & ? & ?). eauto. Qed.

Lemma yields_try {A} (m : M S A) h P : yields m P -> yields (try_except m h) P.
Proof. intros Hm s. destruct (Hm s) as (a & s1 & Hs & Ha). exists a, s1. unfold try_except. by rewrite Hs. Qed.

Lemma yields_lift {A} (r : result A) a (P : A -> Prop) : r = Ok a -> P a -> yields (lift r) P.
Proof. intros -> Ha s. by exists a, s. Qed.
End monad.

#[export] Hint Resolve preserves_ret preserves_raise preserves_bind preserves_try_except
  preserves_try_class yields_ret yields_try : marty.

Ltac run_m := unfold mbind, M_bind, mret, M_ret, get, gets, modify, raise, lift in *; simpl in *.

(** ** Insertion-ordered dictionaries *)

Definition pydict (V : Type) : Type := list (string * V).

Section pydict.
Context {V : Type}.
Implicit Types (d : pydict V) (k : string) (v : V).

Fixpoint dget k d : option V :=
  match d with
  | [] => None
  | (k', v) :: d => if String.eqb k k' then Some v else dget k d
  end.

(** [d[k] = v]: an existing key keeps its position. *)
Fixpoint dset k v d : pydict V :=
  match d with
  | [] => [(k, v)]
  | (k', v') :: d => if String.eqb k k' then (k', v) :: d else (k', v') :: dset k v d
  end.

(** [d.pop(k, None)] *)
Definition dpop k d : pydict V := List.filter (fun kv => negb (String.eqb k (fst kv))) d.

Definition din k d : bool := match dget k d with Some _ => true | None => false end.
Definition dkeys d : list string := map fst d.
Definition dvalues d : list V := map snd d.

(** The dictionaries a program builds have distinct keys. *)
Definition dwf d : Prop := NoDup (dkeys d).

Lemma dget_dset_eq k v d : dget k (dset k v d) = Some v.
Proof.
  induction d as [|[k' v'] d IH]; simpl; [by rewrite String.eqb_refl|].
  destruct (String.eqb k k') eqn:E; simpl; by rewrite E.
Qed.

Lemma dget_dset_ne k k' v d : k <> k' -> dget k' (dset k v d) = dget k' d.
Proof.
  intros Hne. induction d as [|[k2 v2] d IH]; simpl.
  - apply String.eqb_neq in Hne. by rewrite String.eqb_sym, Hne.
  - destruct (String.eqb k k2) eqn:E; simpl; [|by rewrite IH].
    apply String.eqb_eq in E as ->. destruct (String.eqb_spec k' k2); congruence.
Qed.

Lemma dget_dset k k' v d :
  dget k' (dset k v d) = if String.eqb k k' then Some v else dget k' d.
Proof.
  destruct (String.eqb_spec k k') as [->|]; [apply dget_dset_eq|by apply dget_dset_ne].
Qed.

Lemma dget_dpop_eq k d : dget k (dpop k d) = None.
Proof.
  induction d as [|[k' v'] d IH]; simpl; [done|].
  destruct (String.eqb k k') eqn:E; simpl; [done|]. by rewrite E.
Qed.

Lemma dget_dpop_ne k k' d : k <> k' -> dget k' (dpop k d) = dget k' d.
Proof.
  intros Hne. induction d as [|[k2 v2] d IH]; simpl; [done|].
  destruct (String.eqb_spec k k2); simpl; destruct (String.eqb_spec k' k2); congruence.
Qed.

Lemma dget_In k v d : dget k d = Some v -> In (k, v) d.
Proof.
  induction d as [|[k' v'] d IH]; simpl; [done|].
  destruct (String.eqb_spec k k'); naive_solver.
Qed.

Lemma dkeys_dset_in k v d : In k (dkeys d) -> dkeys (dset k v d) = dkeys d.
Proof.
  induction d as [|[k' v'] d IH]; simpl; [done|]. intros Hin.
  destruct (String.eqb_spec k k') as [->|Hne]; simpl; [done|]. rewrite IH; [done|]. by destruct Hin.
Qed.

Lemma dget_app k d d' : dget k (d ++ d') = match dget k d with Some v => Some v | None => dget k d' end.
Proof. induction d as [|[k' v'] d IH]; simpl; [done|]. by destruct (String.eqb k k'). Qed.

Lemma dget_None_In k d : dget k d = None <-> ~ In k (dkeys d).
Proof.
  induction d as [|[k' v'] d IH]; simpl; [naive_solver|].
  destruct (String.eqb_spec k k'); naive_solver.
Qed.

Lemma In_dget k v d : dwf d -> In (k, v) d -> dget k d = Some v.
Proof.
  unfold dwf. induction d as [|[k' v'] d IH]; simpl; [done|].
  intros [Hni Hnd]%NoDup_cons [Heq|Hin].
  - simplify_eq. by rewrite String.eqb_refl.
  - destruct (String.eqb_spec k k') as [->|]; [|auto].
    destruct Hni. apply list_elem_of_In. apply (in_map fst) in Hin. done.
Qed.

Lemma dset_values k v d x : In x (dvalues (dset k v d)) -> x = v \/ In x (dvalues d).
Proof.
  induction d as [|[k' v'] d IH]; simpl; [naive_solver|].
  destruct (String.eqb k k'); simpl; naive_solver.
Qed.

Lemma dset_keys k v d x : In x (dkeys (dset k v d)) <-> x = k \/ In x (dkeys d).
Proof.
  induction d as [|[k' v'] d IH]; simpl; [naive_solver|].
  destruct (String.eqb_spec k k'); simpl; naive_solver.
Qed.

Lemma dset_wf k v d : dwf d -> dwf (dset k v d).
Proof.
  unfold dwf. induction d as [|[k' v'] d IH]; simpl; intros Hwf.
  - apply NoDup_singleton.
  - apply NoDup_cons in Hwf as [Hni Hnd].
    destruct (String.eqb_spec k k'); simpl; apply NoDup_cons; split; auto.
    rewrite list_elem_of_In in *. rewrite dset_keys. naive_solver.
Qed.

Lemma dpop_In k kv d : In kv (dpop k d) <-> In kv d /\ k <> fst kv.
Proof. unfold dpop. rewrite filter_In, negb_true_iff, String.eqb_neq. done. Qed.

Lemma dpop_wf k d : dwf d -> dwf (dpop k d).
Proof.
  unfold dwf. induction d as [|[k' v'] d IH]; simpl; [done|].
  intros [Hni Hnd]%NoDup_cons. destruct (String.eqb k k'); simpl; [auto|].
  apply NoDup_cons; split; [|auto]. rewrite list_elem_of_In in *.
  intros [[k2 v2] [? [Hin _]%dpop_In]]%in_map_iff; simpl in *; subst.
  apply Hni. by apply (in_map fst) in Hin.
Qed.

Lemma dset_lookup_length k v d :
  dget k d = None -> dset k v d = d ++ [(k, v)].
Proof.
  induction d as [|[k' v'] d IH]; simpl; [done|].
  destruct (String.eqb k k'); [done|]. intros. by rewrite IH.
Qed.

(** [d[k]] and [d.get(k)] after an update of the same value. *)
Lemma dset_dset k v v' d : dset k v (dset k v' d) = dset k v d.
Proof.
  induction d as [|[k' v2] d IH]; simpl; [by rewrite String.eqb_refl|].
  destruct (String.eqb k k') eqn:E; simpl; rewrite E; congruence.
Qed.

Lemma dget_dvalues k v d : dget k d = Some v -> In v (dvalues d).
Proof. intros Hin%dget_In. by apply (in_map snd) in Hin. Qed.

(** The keys and the values, taken together, are the look-ups. *)
Lemma entries_lookup d d' : (forall kv, In kv d' -> dget (fst kv) d = Some (snd kv)) ->
  Forall2 (fun k v => dget k d = Some v) (dkeys d') (dvalues d').
Proof.
  unfold dkeys, dvalues. induction d' as [|kv d' IH]; simpl; intros Hall; constructor;
    [apply Hall; by left|]. apply IH. intros. apply Hall. by right.
Qed.

Lemma dwf_entries d : dwf d -> Forall2 (fun k v => dget k d = Some v) (dkeys d) (dvalues d).
Proof. intros Hwf. apply entries_lookup. intros [k v] Hin. by apply In_dget. Qed.
End pydict.

#[export] Hint Resolve dget_dset_eq dget_dset_ne dget_dpop_eq dget_dpop_ne
  dset_wf dpop_wf : marty.

(** ** Truth values *)

(** [if s:] for [s : str | None]. *)
Definition str_truthy (s : option string) : bool :=
  match s with None => false | Some s => negb (String.eqb s "") end.

Definition opt_is_some {A} (o : option A) : bool :=
  match o with Some _ => true | None => false end.

(** [a or b] on [str | None]: the first truthy operand, else the last. *)
Definition str_or (a b : option string) : option string := if str_truthy a then a else b.

(** [key in collection] for a Python set or list of a type with decidable
    equality, kept as a list. *)
Definition mem {A} `{EqDecision A} (x : A) (l : list A) : bool := bool_decide (x ∈ l).

Lemma mem_true {A} `{EqDecision A} (x : A) l : mem x l = true <-> In x l.
Proof. unfold mem. by rewrite bool_decide_eq_true, list_elem_of_In. Qed.

Lemma mem_false {A} `{EqDecision A} (x : A) l : mem x l = false <-> ~ In x l.
Proof. unfold mem. by rewrite bool_decide_eq_false, list_elem_of_In. Qed.

(** ** [datetime] and [timedelta] *)

Definition microsecond : Z := 1.
Definition second : Z := 1000000.
Definition minute : Z := 60 * second.
Definition hour : Z := 3600 * second.
Definition day : Z := 86400 * second.

Definition timedelta_days (n : Z) : Z := n * day.
Definition timedelta_hours (n : Z) : Z := n * hour.

(** [td.days] and [td.seconds] of the normalised representation
    days, 0 <= seconds < 86400, 0 <= microseconds < 10^6. *)
Definition td_days (td : Z) : Z := td / day.
Definition td_seconds (td : Z) : Z := td mod day / second.

Definition dt_hour (t : Z) : Z := t mod day / hour.
Definition dt_date (t : Z) : Z := t / day.

Lemma dt_hour_range t : (0 <= dt_hour t < 24)%Z.
Proof.
  unfold dt_hour. assert (0 <= t mod day < day)%Z by (apply Z.mod_pos_bound; done).
  split; [apply Z.div_pos; unfold hour, second in *; lia|].
  apply Z.div_lt_upper_bound; unfold hour, day, second in *; lia.
Qed.

Lemma td_seconds_range td : (0 <= td_seconds td < 86400)%Z.
Proof.
  unfold td_seconds. assert (0 <= td mod day < day)%Z by (apply Z.mod_pos_bound; done).
  split; [apply Z.div_pos; unfold second in *; lia|].
  apply Z.div_lt_upper_bound; unfold day, second in *; lia.
Qed.

(** [td.seconds] forgets whole days. *)
Lemma td_seconds_days td n : td_seconds (td + n * day) = td_seconds td.
Proof. unfold td_seconds. by rewrite Z.mod_add. Qed.

(** ** The outside world

    What a method asks of its environment: the clock in seconds, sleeping, and
    the random source of [secrets]. *)
Class World (W : Type) := {
  time_time : W -> Q * W;
  sleep : Q -> W -> W;
  randbelow : Z -> W -> Z * W }.

(** ** Strings *)

Definition startswith (p s : string) : bool := String.prefix p s.

(** [s.split(sep)] for a one-character separator. *)
Fixpoint split_on (sep : Ascii.ascii) (s : string) : list string :=
  match s with
  | EmptyString => [""]
  | String c s' =>
      if Ascii.eqb c sep then "" :: split_on sep s'
      else match split_on sep s' with
           | h :: t => String c h :: t
           | [] => [String c ""]
           end
  end.

(** [sep.join(parts)] *)
Fixpoint join (sep : string) (parts : list string) : string :=
  match parts with
  | [] => ""
  | [p] => p
  | p :: ps => p +:+ sep +:+ join sep ps
  end.

(** The character does not occur in the string. *)
Fixpoint free_of (c : Ascii.ascii) (s : string) : Prop :=
  match s with EmptyString => True | String c' s => c' <> c /\ free_of c s end.

Section strings.
Context (sep : Ascii.ascii).
Local Abbreviation sep_str := (String sep "").

Lemma split_free s : free_of sep s -> split_on sep s = [s].
Proof.
  induction s as [|c s IH]; simpl; [done|]. intros [Hne Hs].
  rewrite (IH Hs). by destruct (Ascii.eqb_spec c sep).
Qed.

Lemma split_cons s t : free_of sep s -> split_on sep (s +:+ sep_str +:+ t) = s :: split_on sep t.
Proof.
  induction s as [|c s IH]; simpl; intros Hs; [by rewrite Ascii.eqb_refl|].
  destruct Hs as [Hne Hs]. specialize (IH Hs). simpl in IH.
  destruct (Ascii.eqb_spec c sep); [done|]. by rewrite IH.
Qed.

Lemma split_join l : l <> [] -> Forall (free_of sep) l -> split_on sep (join sep_str l) = l.
Proof.
  intros Hne Hl. induction Hl as [|p l Hp Hl IH]; [done|]. destruct l as [|q l].
  - by apply split_free.
  - change (join sep_str (p :: q :: l)) with (p +:+ sep_str +:+ join sep_str (q :: l)).
    rewrite split_cons by done. by rewrite IH.
Qed.

Lemma join_inj l1 l2 : l1 <> [] -> l2 <> [] -> Forall (free_of sep) l1 -> Forall (free_of sep) l2 ->
  join sep_str l1 = join sep_str l2 -> l1 = l2.
Proof. intros. rewrite <- (split_join l1), <- (split_join l2) by done. by f_equal. Qed.

(** [split] is never empty, and joining it back gives the string. *)
Lemma split_on_ne s : split_on sep s <> [].
Proof. destruct s; simpl; repeat case_match; done. Qed.

Lemma join_split s : join sep_str (split_on sep s) = s.
Proof.
  induction s as [|c s IH]; simpl; [done|]. pose proof (split_on_ne s) as Hne.
  destruct (Ascii.eqb_spec c sep) as [->|].
  - destruct (split_on sep s); [done|]. simpl in *. by rewrite IH.
  - destruct (split_on sep s) as [|h [|h2 t]]; [done| |]; simpl in *; exact (f_equal (String c) IH).
Qed.

Lemma split_on_app a b : split_on sep (a +:+ sep_str +:+ b) = split_on sep a ++ split_on sep b.
Proof.
  induction a as [|x a IH]; simpl; [by rewrite Ascii.eqb_refl|]. simpl in IH.
  rewrite IH. destruct (Ascii.eqb x sep); [done|].
  pose proof (split_on_ne a). by destruct (split_on sep a).
Qed.

Lemma split_on_single a p : split_on sep a = [p] -> a = p.
Proof. intros Ha. rewrite <- (join_split a), Ha. done. Qed.

Lemma split_one_free s p : split_on sep s = [p] -> free_of sep s.
Proof.
  revert p. induction s as [|c s IH]; intros p; simpl; [done|]. pose proof (split_on_ne s) as Hne.
  destruct (Ascii.eqb_spec c sep) as [->|Hc]; [by destruct (split_on sep s)|].
  destruct (split_on sep s) as [|h [|]]; try done. intros _. split; [done|]. by eapply IH.
Qed.
End strings.

Lemma prefix_app p s : startswith p (p +:+ s) = true.
Proof.
  unfold startswith. induction p as [|c p IH]; simpl; [by destruct s|].
  by destruct (Ascii.ascii_dec c c).
Qed.

Lemma prefix_split p s : startswith p s = true -> exists t, s = p +:+ t.
Proof.
  unfold startswith. revert s. induction p as [|c p IH]; intros s Hp; [by exists s|].
  destruct s as [|c' s]; simpl in Hp; [done|].
  destruct (Ascii.ascii_dec c c') as [->|]; [|done].
  apply IH in Hp as [t ->]. by exists t.
Qed.

(** ** JSON values

    What [json.loads] gives back for what [json.dumps] wrote. [JTime] stands for
    the ISO 8601 string of a [datetime], which [fromisoformat] reads back. *)
Inductive json :=
| JNull
| JBool (b : bool)
| JInt (z : Z)
| JStr (s : string)
| JTime (t : Z)
| JList (l : list json)
| JDict (d : list (string * json)).

(** [s] or [None]. *)
Definition jopt (s : option string) : json := match s with Some s => JStr s | None => JNull end.

(** [value == s] *)
Definition jeq_str (j : json) (s : string) : bool :=
  match j with JStr s' => String.eqb s' s | _ => false end.

(** ** Unique identifiers and the wall clock *)
Class Env (W : Type) := {
  uuid4 : W -> string * W;
  datetime_now : W -> Z * W }.

(** A scripted environment for concrete runs: identifiers from a list, and a
    clock that advances by one second at each reading. *)
Record script := { script_ids : list string; script_clock : Z }.

#[export] Instance script_env : Env script := {
  uuid4 s := match script_ids s with
             | [] => ("", s)
             | i :: rest => (i, {| script_ids := rest; script_clock := script_clock s |})
             end;
  datetime_now s := (script_clock s,
    {| script_ids := script_ids s; script_clock := script_clock s + second |}) }.
