(* ===== verification/PyText.v ===== *)
(** * Texts Python builds

    Decimal numbers, [repr] and [str] of plain values, the JSON text of a
    dictionary of strings, the Gregorian calendar behind [isoformat] and
    [strftime], and sorting of strings. Characters are Latin-1. *)

From stdpp Require Import sorting pretty.
From S2P Require Import Prelude PyRuntime.
Local Open Scope Z_scope.

(** ** Numbers *)

Definition z_str (n : Z) : string := pretty n.
Definition len_str {A} (l : list A) : string := z_str (Z.of_nat (length l)).

(** [f"{n:0<w>d}"] for [n >= 0]. *)
Definition zero_pad (w : nat) (n : Z) : string :=
  let s := z_str n in
  String.concat "" (replicate (w - String.length s) "0") +:+ s.

(** ** Characters *)

Definition nl : string := String (ascii_of_nat 10) "".
Definition backslash : ascii := ascii_of_nat 92.
Definition quote1 : ascii := ascii_of_nat 39.
Definition quote2 : ascii := ascii_of_nat 34.

Definition hex_digit (n : nat) : string :=
  String (ascii_of_nat (if (n <? 10)%nat then 48 + n else 87 + n)) "".
Definition hex2 (c : ascii) : string :=
  hex_digit (nat_of_ascii c / 16) +:+ hex_digit (nat_of_ascii c mod 16).

Definition chars (f : ascii -> string) (s : string) : string :=
  String.concat "" (map f (String.list_ascii_of_string s)).

Definition has_char (c : ascii) (s : string) : bool :=
  existsb (Ascii.eqb c) (String.list_ascii_of_string s).

(** [c in s] for a string [c]. *)
Fixpoint contains (p s : string) : bool :=
  startswith p s || match s with EmptyString => false | String _ s' => contains p s' end.

(** [s.replace(old, new)] for a text [old] that is not empty; [skip] characters
    of an occurrence are left to be dropped. *)
Fixpoint replace_from (old new : string) (skip : nat) (s : string) : string :=
  match s with
  | EmptyString => ""
  | String c s' =>
      match skip with
      | S n => replace_from old new n s'
      | O => if startswith old s then new +:+ replace_from old new (pred (String.length old)) s'
             else String c (replace_from old new 0 s')
      end
  end.
Definition str_replace (old new s : string) : string := replace_from old new 0 s.

(** [s.partition(sep)] for a one-character separator, without the separator. *)
Fixpoint partition_on (sep : ascii) (s : string) : string * string :=
  match s with
  | EmptyString => ("", "")
  | String c s => if Ascii.eqb c sep then ("", s) else let '(a, b) := partition_on sep s in (String c a, b)
  end.

Definition lower_char (c : ascii) : ascii :=
  let n := nat_of_ascii c in
  if (65 <=? n)%nat && (n <=? 90)%nat || (192 <=? n)%nat && (n <=? 222)%nat && negb (n =? 215)%nat
  then ascii_of_nat (n + 32) else c.
Definition str_lower (s : string) : string :=
  chars (fun c => String (lower_char c) "") s.

(** [s.upper()] for a text of ASCII characters. *)
Definition upper_char (c : ascii) : ascii :=
  let n := nat_of_ascii c in if (97 <=? n)%nat && (n <=? 122)%nat then ascii_of_nat (n - 32) else c.
Definition str_upper (s : string) : string := chars (fun c => String (upper_char c) "") s.

(** [s.upper()] for any text of Latin-1: the capital of the sharp s is two characters,
    and [upper_other] stands for the capitals of the micro sign and of y with diaeresis,
    which are not in Latin-1. *)
Class CaseMapping := { upper_other : ascii -> string }.

Definition upper_text `{CaseMapping} (c : ascii) : string :=
  let n := nat_of_ascii c in
  if (97 <=? n)%nat && (n <=? 122)%nat || (224 <=? n)%nat && (n <=? 254)%nat && negb (n =? 247)%nat
  then String (ascii_of_nat (n - 32)) ""
  else if (n =? 223)%nat then "SS"
  else if (n =? 181)%nat || (n =? 255)%nat then upper_other c
  else String c "".
Definition upper `{CaseMapping} (s : string) : string := chars upper_text s.

(** The characters whose capital is one character of Latin-1. *)
Definition plain_char (c : ascii) : bool :=
  let n := nat_of_ascii c in negb ((n =? 223)%nat || (n =? 181)%nat || (n =? 255)%nat).
Definition plain_text (s : string) : bool := forallb plain_char (String.list_ascii_of_string s).

(** ** Concatenation *)

Lemma append_cons c a b : String c a +:+ b = String c (a +:+ b).
Proof. reflexivity. Qed.

Lemma append_empty b : "" +:+ b = b.
Proof. reflexivity. Qed.

Lemma append_nil s : s +:+ "" = s.
Proof. induction s as [|c s IH]; [done|]. by rewrite append_cons, IH. Qed.

Lemma append_assoc a b c : (a +:+ b) +:+ c = a +:+ (b +:+ c).
Proof. induction a as [|x a IH]; [done|]. by rewrite !append_cons, IH. Qed.

Lemma concat_cons x l : String.concat "" (x :: l) = x +:+ String.concat "" l.
Proof. destruct l; [|done]. simpl. by rewrite append_nil. Qed.

Lemma chars_single (g : ascii -> ascii) c s :
  chars (fun c => String (g c) "") (String c s) = String (g c) (chars (fun c => String (g c) "") s).
Proof. unfold chars. cbn [String.list_ascii_of_string map]. by rewrite concat_cons. Qed.

(** ** [repr] and [str] *)

(** Latin-1 characters [repr] escapes as [\xNN]: controls, the no-break space
    and the soft hyphen. *)
Definition unprintable (c : ascii) : bool :=
  let n := nat_of_ascii c in
  (n <? 32)%nat || (127 <=? n)%nat && (n <=? 160)%nat || (n =? 173)%nat.

Definition repr_char (quote c : ascii) : string :=
  if Ascii.eqb c backslash || Ascii.eqb c quote then String backslash (String c "")
  else if (nat_of_ascii c =? 9)%nat then String backslash "t"
  else if (nat_of_ascii c =? 10)%nat then String backslash "n"
  else if (nat_of_ascii c =? 13)%nat then String backslash "r"
  else if unprintable c then String backslash ("x" +:+ hex2 c)
  else String c "".

Definition repr_str (s : string) : string :=
  let quote := if has_char quote1 s && negb (has_char quote2 s) then quote2 else quote1 in
  String quote (chars (repr_char quote) s +:+ String quote "").

(** ** The calendar

    The proleptic Gregorian date of a number of days since 1970-01-01, by
    400-year eras of 146097 days that start on 1 March. *)
Definition civil (days : Z) : Z * Z * Z :=
  let z := days + 719468 in
  let era := z / 146097 in
  let doe := z mod 146097 in
  let yoe := (doe - doe / 1460 + doe / 36524 - doe / 146096) / 365 in
  let doy := doe - (365 * yoe + yoe / 4 - yoe / 100) in
  let mp := (5 * doy + 2) / 153 in
  let d := doy - (153 * mp + 2) / 5 + 1 in
  let m := if mp <? 10 then mp + 3 else mp - 9 in
  (yoe + era * 400 + (if m <=? 2 then 1 else 0), m, d).

Definition dt_minute (t : Z) : Z := t mod hour / minute.
Definition dt_second (t : Z) : Z := t mod minute / second.
Definition dt_microsecond (t : Z) : Z := t mod second.

(** [t.isoformat()] without a time zone. *)
Definition isoformat (t : Z) : string :=
  let '(y, m, d) := civil (dt_date t) in
  zero_pad 4 y +:+ "-" +:+ zero_pad 2 m +:+ "-" +:+ zero_pad 2 d +:+ "T" +:+
  zero_pad 2 (dt_hour t) +:+ ":" +:+ zero_pad 2 (dt_minute t) +:+ ":" +:+ zero_pad 2 (dt_second t) +:+
  (if dt_microsecond t =? 0 then "" else "." +:+ zero_pad 6 (dt_microsecond t)).

(** [t.isoformat()] of a time in UTC. *)
Definition isoformat_utc (t : Z) : string := isoformat t +:+ "+00:00".

(** [t.strftime("%Y%m%d")] and [t.strftime("%Y%m%d%H%M")] *)
Definition yyyymmdd (t : Z) : string :=
  let '(y, m, d) := civil (dt_date t) in zero_pad 4 y +:+ zero_pad 2 m +:+ zero_pad 2 d.
Definition yyyymmddhhmm (t : Z) : string :=
  yyyymmdd t +:+ zero_pad 2 (dt_hour t) +:+ zero_pad 2 (dt_minute t).

Example isoformat_epoch : isoformat 0 = "1970-01-01T00:00:00".
Proof. vm_compute. reflexivity. Qed.

Example isoformat_leap_day : isoformat (1709208000 * second + 5) = "2024-02-29T12:00:00.000005".
Proof. vm_compute. reflexivity. Qed.

(** ** JSON values as texts *)

Fixpoint py_repr (j : json) : string :=
  match j with
  | JNull => "None"
  | JBool true => "True"
  | JBool false => "False"
  | JInt z => z_str z
  | JStr s => repr_str s
  | JTime t => repr_str (isoformat t)
  | JList l => "[" +:+ String.concat ", " (map py_repr l) +:+ "]"
  | JDict d =>
      "{" +:+ String.concat ", " (map (fun kv => match kv with (k, v) =>
        repr_str k +:+ ": " +:+ py_repr v end) d) +:+ "}"
  end.

(** [str(value)] and [f"{value}"] *)
Definition py_str (j : json) : string :=
  match j with JStr s => s | JTime t => isoformat t | _ => py_repr j end.

Definition json_truthy (j : json) : bool :=
  match j with
  | JNull => false
  | JBool b => b
  | JInt z => negb (z =? 0)
  | JStr s => negb (String.eqb s "")
  | JTime _ => true
  | JList l => match l with [] => false | _ => true end
  | JDict d => match d with [] => false | _ => true end
  end.

(** [value or s] *)
Definition json_or (j : json) (s : string) : json := if json_truthy j then j else JStr s.

(** ** Digests *)

(** [hashlib.sha256(text.encode()).hexdigest()] *)
Class Sha256 := { sha256_hexdigest : string -> string }.

(** ** Sorted strings *)

Definition str_le (a b : string) : Prop := Is_true (String.leb a b).
#[export] Instance str_le_dec : RelDecision str_le.
Proof. intros a b. unfold str_le. apply _. Defined.

(** [sorted] on strings. *)
Definition py_sorted (l : list string) : list string := merge_sort str_le l.

Definition key_le {A} (a b : string * A) : Prop := str_le (fst a) (fst b).
#[export] Instance key_le_dec {A} : RelDecision (@key_le A).
Proof. intros a b. unfold key_le. apply _. Defined.

(** [sorted(d.items())] for distinct keys. *)
Definition sorted_items {A} (d : list (string * A)) : list (string * A) := merge_sort key_le d.

Lemma str_le_cons a s b t : str_le (String a s) (String b t) <->
  (N_of_ascii a < N_of_ascii b)%N \/ a = b /\ str_le s t.
Proof.
  unfold str_le, String.leb. simpl. unfold Ascii.compare.
  destruct (N.compare_spec (N_of_ascii a) (N_of_ascii b)) as [E|E|E].
  - apply (f_equal ascii_of_N) in E as Ha. rewrite !ascii_N_embedding in Ha.
    split; [by right|]. by intros [?|[_ ?]]; [lia|].
  - split; [by left|done].
  - split; [done|]. by intros [?|[-> _]]; lia.
Qed.

#[export] Instance str_le_trans : Transitive str_le.
Proof.
  intros s. induction s as [|a s IH]; intros [|b t] [|c u]; try done. rewrite !str_le_cons.
  intros [Hab|[-> Hst]] [Hbc|[-> Htu]]; [left; lia|by left|by left|right; split; [done|by eapply IH]].
Qed.

#[export] Instance str_le_total : Total str_le.
Proof. intros a b. unfold str_le. destruct (String.leb_total a b) as [->| ->]; [by left|by right]. Qed.

Lemma str_le_antisym a b : str_le a b -> str_le b a -> a = b.
Proof. unfold str_le. intros H1%Is_true_true H2%Is_true_true. by apply String.leb_antisym. Qed.

#[export] Instance key_le_trans {A} : Transitive (@key_le A).
Proof. intros [a x] [b y] [c z]. unfold key_le. simpl. apply transitivity. Qed.
#[export] Instance key_le_total {A} : Total (@key_le A).
Proof. intros [a x] [b y]. unfold key_le. simpl. apply total, _. Qed.

(** Entries with distinct keys have one sorted order. *)
Lemma sorted_items_unique {A} (d d' : pydict A) : NoDup (dkeys d) -> Permutation d d' ->
  sorted_items d = sorted_items d'.
Proof.
  intros Hnd Hp. assert (Hs : forall l : pydict A, Permutation (sorted_items l) l) by (intros; apply merge_sort_Permutation).
  apply (StronglySorted_unique_strong key_le).
  - intros [a x] [b y] Hx Hy Hab Hba. assert (a = b) as <- by (by apply str_le_antisym).
    f_equal. rewrite Hs, list_elem_of_In in Hx. rewrite Hs, <- Hp, list_elem_of_In in Hy.
    apply In_dget in Hx, Hy; [|done..]. congruence.
  - apply Sorted_StronglySorted; [apply _|]. apply Sorted_merge_sort. apply _.
  - apply Sorted_StronglySorted; [apply _|]. apply Sorted_merge_sort. apply _.
  - by rewrite !Hs, Hp.
Qed.

(** ** [json.dumps] of a dictionary of strings *)

Definition json_char (c : ascii) : string :=
  if Ascii.eqb c backslash || Ascii.eqb c quote2 then String backslash (String c "")
  else match nat_of_ascii c with
       | 8%nat => String backslash "b"
       | 9%nat => String backslash "t"
       | 10%nat => String backslash "n"
       | 12%nat => String backslash "f"
       | 13%nat => String backslash "r"
       | n => if (n <? 32)%nat || (127 <=? n)%nat
              then String backslash ("u00" +:+ hex2 c) else String c ""
       end.

Definition json_str (s : string) : string := String quote2 (chars json_char s +:+ String quote2 "").

(** [json.dumps(labels, sort_keys=True)] *)
Definition json_labels (labels : pydict string) : string :=
  "{" +:+ String.concat ", " (map (fun kv => json_str (fst kv) +:+ ": " +:+ json_str (snd kv))
    (sorted_items labels)) +:+ "}".

Example json_labels_two : json_labels [("b", "x"); ("a", "y" +:+ String quote2 "")] =
  chars (fun c => if Ascii.eqb c quote1 then String quote2 "" else String c "")
    ("{'a': 'y" +:+ String backslash ("'" +:+ "', 'b': 'x'}")).
Proof. vm_compute. reflexivity. Qed.

(** ** Where a character occurs *)

Lemma has_char_cons c x s : has_char c (String x s) = Ascii.eqb c x || has_char c s.
Proof. reflexivity. Qed.

Lemma has_char_app c a b : has_char c (a +:+ b) = has_char c a || has_char c b.
Proof.
  induction a as [|x a IH]; [done|]. change (String x a +:+ b) with (String x (a +:+ b)).
  by rewrite !has_char_cons, IH, orb_assoc.
Qed.

Lemma has_char_concat c sep x l : In x l -> has_char c x = true -> has_char c (String.concat sep l) = true.
Proof.
  induction l as [|y l IH]; intros Hin Hx; [done|]. destruct l as [|z l].
  - by destruct Hin as [->|[]].
  - change (String.concat sep (y :: z :: l)) with (y +:+ sep +:+ String.concat sep (z :: l)).
    rewrite !has_char_app. destruct Hin as [->|Hin]; [by rewrite Hx|].
    by rewrite (IH Hin Hx), !orb_true_r.
Qed.

(** The text of a dictionary with an entry has a double quote. *)
Lemma json_labels_quote labels : labels <> [] -> has_char quote2 (json_labels labels) = true.
Proof.
  intros Hne. unfold json_labels. rewrite !has_char_app.
  destruct (sorted_items labels) as [|kv rest] eqn:E.
  { destruct Hne. apply Permutation_nil. rewrite <- E. apply merge_sort_Permutation. }
  apply orb_true_iff; right. apply orb_true_iff; left.
  eapply has_char_concat; [by left|]. by rewrite !has_char_app.
Qed.
