(* ===== verification/PyUrl.v ===== *)
(** * Addresses of the web

    [urllib.parse.urlsplit] as far as the code uses it: the scheme and the network
    location of an address. *)

From S2P Require Import Prelude PyRuntime PyText.
Local Open Scope Z_scope.

(** Whether the text between brackets is an address of the Internet Protocol. *)
Class BracketedHosts := { bracketed_host_ok : string -> bool }.

Definition colon : ascii := ":"%char.

(** Controls and the space are dropped in front, three of them everywhere. *)
Fixpoint lstrip_controls (s : string) : string :=
  match s with
  | String c s' => if (nat_of_ascii c <=? 32)%nat then lstrip_controls s' else s
  | EmptyString => s
  end.
Definition drop_unsafe (s : string) : string :=
  chars (fun c => if mem (nat_of_ascii c) [9; 10; 13]%nat then "" else String c "") s.

Definition ascii_letter (c : ascii) : bool :=
  let n := nat_of_ascii c in (65 <=? n)%nat && (n <=? 90)%nat || (97 <=? n)%nat && (n <=? 122)%nat.
Definition scheme_char (c : ascii) : bool :=
  let n := nat_of_ascii c in ascii_letter c || (48 <=? n)%nat && (n <=? 57)%nat || mem c ["+"%char; "-"%char; "."%char].

(** The scheme in front of the first colon, and what follows it. *)
Definition split_scheme (url : string) : string * string :=
  let '(before, after) := partition_on colon url in
  match before with
  | String c _ =>
      if has_char colon url && ascii_letter c && forallb scheme_char (String.list_ascii_of_string before)
      then (str_lower before, after) else ("", url)
  | EmptyString => ("", url)
  end.

(** The text up to one of the delimiters of a path, a query or a fragment. *)
Fixpoint up_to_path (s : string) : string :=
  match s with
  | String c s => if mem c ["/"%char; "?"%char; "#"%char] then "" else String c (up_to_path s)
  | EmptyString => ""
  end.

(** [url.scheme, url.netloc] *)
Definition urlsplit `{BracketedHosts} (url : string) : result (string * string) :=
  let '(scheme, rest) := split_scheme (drop_unsafe (lstrip_controls url)) in
  if startswith "//" rest then
    let netloc := up_to_path (String.substring 2 (String.length rest - 2) rest) in
    let opened := has_char "["%char netloc in
    if negb (eqb opened (has_char "]"%char netloc)) then Raise (raise_ ValueError "Invalid IPv6 URL")
    else if opened && negb (bracketed_host_ok netloc) then Raise (raise_ ValueError "Invalid IPv6 URL")
    else Ok (scheme, netloc)
  else Ok (scheme, "").
