(* ===== verification/PyUuid.v ===== *)
(** * [uuid.UUID]

    An identifier is its 32 hexadecimal digits; [str] writes it with dashes, and
    [UUID(s)] reads a text with dashes anywhere. *)

From S2P Require Import Prelude PyRuntime PyText.
Local Open Scope Z_scope.

Definition is_hex (c : ascii) : bool :=
  let n := nat_of_ascii c in (48 <=? n)%nat && (n <=? 57)%nat || (97 <=? n)%nat && (n <=? 102)%nat.

Definition dash : ascii := ascii_of_nat 45.

(** The 32 digits of an identifier. *)
Definition uuid_hex (hex : string) : bool :=
  (String.length hex =? 32)%nat && forallb is_hex (String.list_ascii_of_string hex).

(** [str(uuid)] of the 32 digits, and the digits of a text [UUID(s)] accepts. *)
Definition uuid_str (hex : string) : string :=
  String.substring 0 8 hex +:+ "-" +:+ String.substring 8 4 hex +:+ "-" +:+ String.substring 12 4 hex +:+
  "-" +:+ String.substring 16 4 hex +:+ "-" +:+ String.substring 20 12 hex.
Definition uuid_digits (s : string) : string :=
  chars (fun c => if Ascii.eqb c dash then "" else String c "") (str_lower s).
Definition parse_uuid (s : string) : result string :=
  let hex := uuid_digits s in
  if uuid_hex hex then Ok hex else Raise (raise_ ValueError "badly formed hexadecimal UUID string").

Lemma hex_char c : is_hex c = true -> lower_char c = c /\ Ascii.eqb c dash = false.
Proof. destruct c as [[] [] [] [] [] [] [] []]; by vm_compute. Qed.

Lemma uuid_digits_cons c s : uuid_digits (String c s) =
  (if Ascii.eqb (lower_char c) dash then "" else String (lower_char c) "") +:+ uuid_digits s.
Proof.
  unfold uuid_digits, str_lower. rewrite (chars_single lower_char). unfold chars.
  cbn [String.list_ascii_of_string map]. by rewrite concat_cons.
Qed.

Lemma uuid_digits_hex c s : is_hex c = true -> uuid_digits (String c s) = String c (uuid_digits s).
Proof. intros Hc. rewrite uuid_digits_cons. destruct (hex_char c Hc) as [-> ->]. done. Qed.

Lemma uuid_digits_dash s : uuid_digits ("-" +:+ s) = uuid_digits s.
Proof. change ("-" +:+ s) with (String dash s). by rewrite uuid_digits_cons. Qed.

(** What [str] wrote is read. *)
Lemma parse_uuid_str hex : uuid_hex hex = true -> parse_uuid (uuid_str hex) = Ok hex.
Proof.
  intros Ht. assert (Hd : uuid_digits (uuid_str hex) = hex).
  { unfold uuid_hex in Ht. apply andb_true_iff in Ht as [Hl%Nat.eqb_eq Hx].
    do 32 (destruct hex as [|? hex]; [discriminate|]). destruct hex; [|discriminate]. clear Hl.
    cbn [String.list_ascii_of_string forallb] in Hx. rewrite !andb_true_iff in Hx.
    unfold uuid_str. cbn [String.substring].
    repeat first [rewrite uuid_digits_dash | rewrite append_cons, uuid_digits_hex by tauto
                 | rewrite append_empty | rewrite uuid_digits_hex by tauto]. done. }
  unfold parse_uuid. by rewrite Hd, Ht.
Qed.
