(* ===== verification/PyBytes.v ===== *)
(** * Bytes and Base64

    [bytes] as lists of [Byte.byte], and [base64.b64encode]/[b64decode] of the
    standard library. Decoding is the lenient one Python uses by default: it
    skips every character outside the alphabet and stops at the padding. *)

From Stdlib Require Export Strings.Byte.
From S2P Require Import Prelude PyRuntime PyText.
Local Open Scope Z_scope.

Notation bytes := (list Byte.byte).

Definition byte_val (b : Byte.byte) : Z := Z.of_N (Byte.to_N b).
Definition byte_of (z : Z) : Byte.byte := default Byte.x00 (Byte.of_N (Z.to_N z)).

#[export] Instance byte_eq_dec : EqDecision Byte.byte.
Proof. intros a b. apply Byte.byte_eq_dec. Defined.

Lemma byte_of_val b : byte_of (byte_val b) = b.
Proof. unfold byte_of, byte_val. by rewrite N2Z.id, Byte.of_to_N. Qed.

Lemma byte_val_range b : 0 <= byte_val b < 256.
Proof. unfold byte_val. pose proof (Byte.to_N_bounded b). lia. Qed.

(** [hashlib.sha256(bs).hexdigest()]: 64 hexadecimal digits. *)
Class Sha256Bytes := { sha256 : bytes -> string }.
Class Sha256Laws `{Sha256Bytes} := { sha256_length bs : String.length (sha256 bs) = 64%nat }.

(** ** Big-endian integers *)

(** [struct.unpack] of an unsigned integer *)
Definition be (bs : bytes) : Z := foldl (fun n b => n * 256 + byte_val b) 0 bs.

(** [struct.pack] into [n] bytes *)
Fixpoint be_bytes (n : nat) (z : Z) : bytes :=
  match n with O => [] | S n => be_bytes n (z / 256) ++ [byte_of (z mod 256)] end.

Lemma be_app a b : be (a ++ b) = be a * 256 ^ Z.of_nat (length b) + be b.
Proof.
  unfold be. rewrite foldl_app. generalize (foldl (fun n b => n * 256 + byte_val b) 0 a). intros z.
  induction b as [|x b IH] using rev_ind; simpl; [lia|].
  rewrite !foldl_snoc, IH, length_app. simpl. rewrite Nat2Z.inj_add, Z.pow_add_r by lia. simpl. lia.
Qed.

Lemma val_of_byte z : 0 <= z < 256 -> byte_val (byte_of z) = z.
Proof.
  intros Hz. unfold byte_of, byte_val. destruct (Byte.of_N (Z.to_N z)) as [b|] eqn:E.
  - apply Byte.to_of_N in E. simpl. rewrite E. lia.
  - apply Byte.of_N_None_iff in E. lia.
Qed.

Lemma be_bytes_length n : forall z, length (be_bytes n z) = n.
Proof. induction n as [|n IH]; intros z; [done|]. simpl. rewrite length_app, IH. simpl. lia. Qed.

Lemma be_be_bytes n : forall z, 0 <= z < 256 ^ Z.of_nat n -> be (be_bytes n z) = z.
Proof.
  induction n as [|n IH]; intros z Hz; [simpl in *; unfold be; simpl; lia|]. simpl be_bytes.
  rewrite Nat2Z.inj_succ, Z.pow_succ_r in Hz by lia.
  rewrite be_app, IH by (split; [apply Z.div_pos; lia|apply Z.div_lt_upper_bound; lia]). simpl.
  pose proof (Z.mod_pos_bound z 256 ltac:(lia)). unfold be at 1. simpl. rewrite val_of_byte by lia.
  pose proof (Z.div_mod z 256 ltac:(lia)). lia.
Qed.

Lemma be_range bs : 0 <= be bs < 256 ^ Z.of_nat (length bs).
Proof.
  induction bs as [|b bs IH] using rev_ind; [unfold be; simpl; lia|].
  rewrite be_app, length_app, Nat2Z.inj_add, Z.pow_add_r by lia. simpl. unfold be at 2 4. simpl.
  pose proof (byte_val_range b). lia.
Qed.

(** ** Encoding *)

(** The character of a six-bit value. *)
Definition b64_char (n : Z) : ascii :=
  ascii_of_nat (Z.to_nat
    (if n <? 26 then 65 + n else if n <? 52 then 71 + n else if n <? 62 then n - 4
     else if n =? 62 then 43 else 47)).

Definition b64_index (c : ascii) : option Z :=
  let n := Z.of_nat (nat_of_ascii c) in
  if (65 <=? n) && (n <=? 90) then Some (n - 65)
  else if (97 <=? n) && (n <=? 122) then Some (n - 71)
  else if (48 <=? n) && (n <=? 57) then Some (n + 4)
  else if n =? 43 then Some 62 else if n =? 47 then Some 63 else None.

Definition pad : ascii := ascii_of_nat 61.

(** [base64.b64encode(bs).decode()] *)
Fixpoint b64encode (bs : bytes) : string :=
  match bs with
  | [] => ""
  | [a] =>
      let a := byte_val a in
      String (b64_char (a / 4)) (String (b64_char (a mod 4 * 16)) (String pad (String pad "")))
  | [a; b] =>
      let a := byte_val a in let b := byte_val b in
      String (b64_char (a / 4)) (String (b64_char (a mod 4 * 16 + b / 16))
        (String (b64_char (b mod 16 * 4)) (String pad "")))
  | a :: b :: c :: rest =>
      let a := byte_val a in let b := byte_val b in let c := byte_val c in
      String (b64_char (a / 4)) (String (b64_char (a mod 4 * 16 + b / 16))
        (String (b64_char (b mod 16 * 4 + c / 64)) (String (b64_char (c mod 64)) (b64encode rest))))
  end.

(** ** Decoding *)

Definition binascii_Error := subclass "Error" ValueError.

(** The decoder of [binascii.a2b_base64]: [quad] characters of a group of four
    have been read, [left] holds the bits not yet written, [pads] padding
    characters have been met since. *)
Fixpoint a2b (s : string) (quad : nat) (left : Z) (pads : nat) : result bytes :=
  match s with
  | EmptyString =>
      match quad with
      | O => Ok []
      | 1%nat => Raise (raise_ binascii_Error
                   "Invalid base64-encoded string: number of data characters cannot be 1 more than a multiple of 4")
      | _ => Raise (raise_ binascii_Error "Incorrect padding")
      end
  | String c s =>
      if Ascii.eqb c pad
      then if (2 <=? quad)%nat
           then if (4 <=? quad + S pads)%nat then Ok [] else a2b s quad left (S pads)
           else a2b s quad left pads
      else match b64_index c with
           | None => a2b s quad left pads
           | Some v =>
               match quad with
               | O => a2b s 1 v 0
               | 1%nat => bs ← a2b s 2 (v mod 16) 0; Ok (byte_of (left * 4 + v / 16) :: bs)
               | 2%nat => bs ← a2b s 3 (v mod 4) 0; Ok (byte_of (left * 16 + v / 4) :: bs)
               | _ => bs ← a2b s 0 0 0; Ok (byte_of (left * 64 + v) :: bs)
               end
           end
  end.

Definition is_ascii (s : string) : bool :=
  forallb (fun c => nat_of_ascii c <? 128)%nat (String.list_ascii_of_string s).

(** [base64.b64decode(s)] for a string. *)
Definition b64decode (s : string) : result bytes :=
  if is_ascii s then a2b s 0 0 0
  else Raise (raise_ ValueError "string argument should contain only ASCII characters").

(** [s.encode()] of a text of Latin-1 characters. *)
Definition utf8_char (c : ascii) : bytes :=
  let n := Z.of_nat (nat_of_ascii c) in
  if n <? 128 then [byte_of n] else [byte_of (192 + n / 64); byte_of (128 + n mod 64)].
Definition utf8 (s : string) : bytes := concat (map utf8_char (String.list_ascii_of_string s)).

(** ** Decoding an encoded text *)

(** A property of the six-bit values, by evaluation. *)
Lemma sextet_forall (f : Z -> bool) : forallb f (seqZ 0 64) = true -> forall n, 0 <= n < 64 -> f n = true.
Proof.
  intros Hf n Hn. rewrite forallb_forall in Hf. apply Hf. apply list_elem_of_In, elem_of_seqZ. lia.
Qed.

Lemma b64_index_char n : 0 <= n < 64 -> b64_index (b64_char n) = Some n.
Proof.
  intros Hn. apply (sextet_forall (fun n => bool_decide (b64_index (b64_char n) = Some n))) in Hn;
    [by apply bool_decide_eq_true in Hn|vm_compute; reflexivity].
Qed.

Lemma b64_char_not_pad n : 0 <= n < 64 -> Ascii.eqb (b64_char n) pad = false.
Proof.
  intros Hn. apply (sextet_forall (fun n => negb (Ascii.eqb (b64_char n) pad))) in Hn;
    [by apply negb_true_iff|vm_compute; reflexivity].
Qed.

Lemma b64_char_ascii n : 0 <= n < 64 -> (nat_of_ascii (b64_char n) <? 128)%nat = true.
Proof.
  apply (sextet_forall (fun n => nat_of_ascii (b64_char n) <? 128)%nat). vm_compute. reflexivity.
Qed.

(** A data character in each of the four positions. *)
Lemma a2b_data n s quad left pads : 0 <= n < 64 ->
  a2b (String (b64_char n) s) quad left pads =
  match quad with
  | O => a2b s 1 n 0
  | 1%nat => bs ← a2b s 2 (n mod 16) 0; Ok (byte_of (left * 4 + n / 16) :: bs)
  | 2%nat => bs ← a2b s 3 (n mod 4) 0; Ok (byte_of (left * 16 + n / 4) :: bs)
  | _ => bs ← a2b s 0 0 0; Ok (byte_of (left * 64 + n) :: bs)
  end.
Proof.
  intros Hn. cbn [a2b]. by rewrite b64_char_not_pad, b64_index_char by done.
Qed.

Ltac byte_bounds :=
  repeat match goal with b : Byte.byte |- _ =>
    lazymatch goal with H : 0 <= byte_val b < 256 |- _ => fail | _ => pose proof (byte_val_range b) end
  end;
  Z.to_euclidean_division_equations; lia.

Lemma byte_of_eq z b : z = byte_val b -> byte_of z = b.
Proof. intros ->. apply byte_of_val. Qed.

(** Lists by threes. *)
Lemma list_ind3 {A} (P : list A -> Prop) :
  P [] -> (forall a, P [a]) -> (forall a b, P [a; b]) ->
  (forall a b c l, P l -> P (a :: b :: c :: l)) -> forall l, P l.
Proof.
  intros H0 H1 H2 H3. fix IH 1. intros [|a [|b [|c l]]]; [done..|]. apply H3, IH.
Qed.

Lemma a2b_b64encode bs : a2b (b64encode bs) 0 0 0 = Ok bs.
Proof.
  induction bs as [|a|a b|a b c bs IH] using list_ind3; [done|..];
    cbn [b64encode]; rewrite !a2b_data by byte_bounds.
  - simpl. f_equal. f_equal. apply byte_of_eq. byte_bounds.
  - simpl. f_equal. f_equal; [|f_equal]; apply byte_of_eq; byte_bounds.
  - rewrite IH. simpl. f_equal. f_equal; [|f_equal; [|f_equal]]; apply byte_of_eq; byte_bounds.
Qed.

Lemma b64encode_ascii bs : is_ascii (b64encode bs) = true.
Proof.
  unfold is_ascii. induction bs as [|a|a b|a b c bs IH] using list_ind3; [done|..];
    cbn [b64encode String.list_ascii_of_string forallb]; rewrite !b64_char_ascii by byte_bounds; [done..|].
  by rewrite IH.
Qed.

Lemma b64decode_encode bs : b64decode (b64encode bs) = Ok bs.
Proof. unfold b64decode. by rewrite b64encode_ascii, a2b_b64encode. Qed.

#[export] Hint Rewrite b64decode_encode : marty.

Example b64_hello : b64encode [Byte.x68; Byte.x65; Byte.x6c; Byte.x6c; Byte.x6f] = "aGVsbG8=".
Proof. reflexivity. Qed.

(** Characters outside the alphabet are skipped, so a text of such characters
    decodes to nothing. *)
Lemma a2b_skips s : forallb (fun c => negb (opt_is_some (b64_index c))) (String.list_ascii_of_string s) = true ->
  forall pads, a2b s 0 0 pads = Ok [].
Proof.
  induction s as [|c s IH]; simpl; [done|]. intros [Hc Hs]%andb_true_iff pads.
  destruct (Ascii.eqb c pad); [by apply IH|]. destruct (b64_index c); [done|by apply IH].
Qed.
