(* ===== verification/PyDate.v ===== *)
(** * Dates

    [datetime.date] as a number of days since 1970-01-01: its ISO text and the
    text back, and [strftime("%y%m%d")]. *)

From stdpp Require Import pretty.
From S2P Require Import Prelude PyRuntime PyText.
Local Open Scope Z_scope.

(** ** From a civil date to days *)

Definition from_civil (y m d : Z) : Z :=
  let y := if m <=? 2 then y - 1 else y in
  let era := y / 400 in
  let yoe := y mod 400 in
  let mp := if m <=? 2 then m + 9 else m - 3 in
  let doy := (153 * mp + 2) / 5 + d - 1 in
  let doe := 365 * yoe + yoe / 4 - yoe / 100 + doy in
  era * 146097 + doe - 719468.

(** [f] on the [n] numbers from [z]. *)
Fixpoint all_from (f : Z -> bool) (n : nat) (z : Z) : bool :=
  match n with O => true | S n => f z && all_from f n (z + 1) end.

Lemma all_from_spec f n z x : all_from f n z = true -> z <= x < z + Z.of_nat n -> f x = true.
Proof.
  revert z. induction n as [|n IH]; intros z; [lia|]. cbn [all_from]. intros [Hf Hall]%andb_true_iff Hx.
  destruct (Z.eq_dec x z) as [->|]; [done|]. apply (IH (z + 1)); [done|lia].
Qed.

(** The year of a day of the 400-year era, and the day of that year. *)
Lemma era_bounds doe : 0 <= doe < 146097 ->
  let yoe := (doe - doe / 1460 + doe / 36524 - doe / 146096) / 365 in
  0 <= yoe <= 399 /\ 0 <= doe - (365 * yoe + yoe / 4 - yoe / 100) <= 365.
Proof.
  intros H yoe. subst yoe.
  assert (0 <= doe / 36524 <= 4) by (Z.to_euclidean_division_equations; lia).
  set (b := doe / 36524) in *. assert (Hb : b = doe / 36524) by done. clearbody b.
  set (c := doe / 146096) in *. assert (Hc : c = doe / 146096) by done. clearbody c.
  set (y := (doe - doe / 1460 + b - c) / 365) in *.
  assert (Hy : y = (doe - doe / 1460 + b - c) / 365) by done. clearbody y.
  assert (0 <= c <= 1) by (Z.to_euclidean_division_equations; lia).
  split; [Z.to_euclidean_division_equations; lia|].
  assert (Hf : 0 <= y / 100 <= 3) by (Z.to_euclidean_division_equations; lia).
  assert (Hb' : b = 0 \/ b = 1 \/ b = 2 \/ b = 3 \/ b = 4) by lia.
  assert (Hc' : c = 0 \/ c = 1) by lia.
  assert (Hf' : y / 100 = 0 \/ y / 100 = 1 \/ y / 100 = 2 \/ y / 100 = 3) by lia.
  destruct Hb' as [->|[->|[->|[->| ->]]]], Hc' as [->| ->], Hf' as [E|[E|[E|E]]];
    rewrite E; Z.to_euclidean_division_equations; lia.
Qed.

(** Month, counted from March, and day of a day of the year. *)
Definition doy_ok (doy : Z) : bool :=
  let mp := (5 * doy + 2) / 153 in
  let d := doy - (153 * mp + 2) / 5 + 1 in
  (0 <=? mp) && (mp <=? 11) && (1 <=? d) && (d <=? 31).

Lemma doy_bounds doy : 0 <= doy <= 365 ->
  0 <= (5 * doy + 2) / 153 <= 11 /\ 1 <= doy - (153 * ((5 * doy + 2) / 153) + 2) / 5 + 1 <= 31.
Proof.
  intros Hd. assert (Ha : all_from doy_ok 366 0 = true) by (vm_compute; reflexivity).
  apply (all_from_spec _ _ _ doy) in Ha; [|lia]. unfold doy_ok in Ha. bool_props. lia.
Qed.

(** The civil date determines the day, and its month and day are in range. *)
Lemma civil_spec days : let '(y, m, d) := civil days in
  from_civil y m d = days /\ 1 <= m <= 12 /\ 1 <= d <= 31.
Proof.
  unfold civil. set (z := days + 719468).
  assert (Hr : 0 <= z mod 146097 < 146097) by (apply Z.mod_pos_bound; lia).
  pose proof (Z.div_mod z 146097 ltac:(lia)) as Hz. revert Hr Hz.
  generalize (z mod 146097) (z / 146097). intros doe era Hr Hz. pose proof (era_bounds doe Hr) as Hb.
  cbv zeta in *. set (yoe := (doe - doe / 1460 + doe / 36524 - doe / 146096) / 365) in *. clearbody yoe.
  set (doy := doe - (365 * yoe + yoe / 4 - yoe / 100)) in *. destruct Hb as [Hy Hd].
  destruct (doy_bounds doy Hd) as [Hmp Hday]. set (mp := (5 * doy + 2) / 153) in *. clearbody mp.
  set (m := if mp <? 10 then mp + 3 else mp - 9).
  assert (Hm : 1 <= m <= 12 /\ (if m <=? 2 then m + 9 else m - 3) = mp).
  { unfold m. destruct (Z.ltb_spec mp 10); [destruct (Z.leb_spec (mp + 3) 2)|destruct (Z.leb_spec (mp - 9) 2)]; lia. }
  destruct Hm as [Hm Hmb]. split; [|lia]. unfold from_civil. rewrite Hmb.
  replace (if m <=? 2 then yoe + era * 400 + (if m <=? 2 then 1 else 0) - 1
           else yoe + era * 400 + (if m <=? 2 then 1 else 0)) with (yoe + era * 400) by (destruct (m <=? 2); lia).
  rewrite Z.div_add, Z.mod_add, Z.div_small, Z.mod_small by lia. unfold doy, z in *. lia.
Qed.

(** ** Texts *)

(** [date.isoformat()] *)
Definition date_isoformat (d : Z) : string :=
  let '(y, m, d) := civil d in zero_pad 4 y +:+ "-" +:+ zero_pad 2 m +:+ "-" +:+ zero_pad 2 d.

(** [date.strftime("%y%m%d")] *)
Definition yymmdd (d : Z) : string :=
  let '(y, m, d) := civil d in zero_pad 2 (y mod 100) +:+ zero_pad 2 m +:+ zero_pad 2 d.

Definition digit_of (c : ascii) : option Z :=
  let n := Z.of_nat (nat_of_ascii c) in if (48 <=? n) && (n <=? 57) then Some (n - 48) else None.

Fixpoint digits (acc : Z) (s : string) : option Z :=
  match s with
  | EmptyString => Some acc
  | String c s => v ← digit_of c; digits (acc * 10 + v) s
  end.

(** The text [YYYY-MM-DD] of an existing date. *)
Definition parse_date (s : string) : option Z :=
  if (String.length s =? 10)%nat && String.eqb (String.substring 4 1 s) "-" &&
     String.eqb (String.substring 7 1 s) "-"
  then
    y ← digits 0 (String.substring 0 4 s);
    m ← digits 0 (String.substring 5 2 s);
    d ← digits 0 (String.substring 8 2 s);
    let days := from_civil y m d in
    if bool_decide (civil days = (y, m, d)) && (1 <=? y) then Some days else None
  else None.

(** The dates Python has: years 1 to 9999. *)
Definition valid_date (d : Z) : Prop := 1 <= fst (fst (civil d)) <= 9999.
#[export] Instance valid_date_dec d : Decision (valid_date d).
Proof. unfold valid_date. apply _. Defined.

(** *** Reading a padded number back *)

Definition padded_ok (w : nat) (n : Z) : bool :=
  (String.length (zero_pad w n) =? w)%nat && bool_decide (digits 0 (zero_pad w n) = Some n).

Lemma digit_of_pretty n : (n < 10)%N -> digit_of (pretty_N_char n) = Some (Z.of_N n).
Proof. intros Hn. destruct n as [|[[[[]|[]|]|[[]|[]|]|]|[[[]|[]|]|[[]|[]|]|]|]]; try lia; reflexivity. Qed.

Lemma digits_pretty x : forall s, (0 < x)%N -> digits 0 (pretty_N_go x s) = digits (Z.of_N x) s.
Proof.
  induction x as [x IH] using (well_founded_induction N.lt_wf_0). intros s Hx.
  rewrite pretty_N_go_step by done. pose proof (N.mod_lt x 10 ltac:(done)) as Hm.
  pose proof (N.div_mod x 10 ltac:(done)) as Hd.
  assert (Hstep : forall acc, digits acc (String (pretty_N_char (x mod 10)) s) = digits (acc * 10 + Z.of_N (x mod 10)) s)
    by (intros acc; cbn [digits]; by rewrite digit_of_pretty).
  destruct (N.eq_dec (x / 10)%N 0%N) as [E|E].
  - rewrite E, pretty_N_go_0, Hstep. f_equal. lia.
  - rewrite IH; [|apply N.div_lt; lia|apply N.neq_0_lt_0; exact E]. rewrite Hstep. f_equal. lia.
Qed.

Lemma pretty_length w : forall x s, (x < 10 ^ N.of_nat w)%N ->
  (String.length (pretty_N_go x s) <= w + String.length s)%nat.
Proof.
  induction w as [|w IH]; intros x s Hx.
  - assert (x = 0)%N as -> by (simpl in Hx; lia). by rewrite pretty_N_go_0.
  - destruct (N.eq_dec x 0%N) as [->|Hne]; [rewrite pretty_N_go_0; lia|]. rewrite pretty_N_go_step by lia.
    etrans; [apply IH|simpl; lia]. apply N.Div0.div_lt_upper_bound.
    rewrite Nat2N.inj_succ, N.pow_succ_r' in Hx. done.
Qed.

Lemma zeros_spec k : let s := String.concat "" (replicate k "0") in
  String.length s = k /\ forall t, digits 0 (s +:+ t) = digits 0 t /\ String.length (s +:+ t) = (k + String.length t)%nat.
Proof.
  simpl. induction k as [|[|k] [IH1 IH2]]; [done|by split|]. cbn [replicate] in *.
  change (String.concat "" ("0" :: "0" :: replicate k "0")) with (String "0" (String.concat "" ("0" :: replicate k "0"))).
  split; [cbn [String.length]; by rewrite IH1|]. intros t. destruct (IH2 t) as [Hd Hl].
  change (String "0" ?a +:+ t) with (String "0" (a +:+ t)). cbn [String.length]. by rewrite Hl.
Qed.

Lemma z_str_spec w n : (0 < w)%nat -> 0 <= n < 10 ^ Z.of_nat w ->
  (String.length (z_str n) <= w)%nat /\ digits 0 (z_str n) = Some n.
Proof.
  intros Hw Hn. unfold z_str. destruct n as [|p|p]; [by split; [simpl; lia|]| |lia].
  change (pretty (Z.pos p)) with (pretty_N_go (N.pos p) ""). split.
  - etrans; [apply (pretty_length w)|simpl; lia]. apply N2Z.inj_lt. rewrite N2Z.inj_pow, nat_N_Z. apply Hn.
  - by rewrite digits_pretty.
Qed.

Lemma padded w n : (0 < w)%nat -> 0 <= n < 10 ^ Z.of_nat w -> padded_ok w n = true.
Proof.
  intros Hw Hn. destruct (z_str_spec w n Hw Hn) as [Hl Hd]. unfold padded_ok, zero_pad.
  destruct (zeros_spec (w - String.length (z_str n))) as [_ Hz]. destruct (Hz (z_str n)) as [-> ->].
  rewrite Hd, bool_decide_eq_true_2 by done. apply andb_true_iff. split; [apply Nat.eqb_eq; lia|done].
Qed.

Lemma padded4 n : 0 <= n < 10000 -> padded_ok 4 n = true.
Proof. intros Hn. by apply padded; [lia|]. Qed.

Lemma padded2 n : 0 <= n < 100 -> padded_ok 2 n = true.
Proof. intros Hn. by apply padded; [lia|]. Qed.

Lemma padded_inv w n : padded_ok w n = true ->
  String.length (zero_pad w n) = w /\ digits 0 (zero_pad w n) = Some n.
Proof.
  intros [Hl Hd]%andb_true_iff. apply Nat.eqb_eq in Hl. by apply bool_decide_eq_true in Hd.
Qed.

Lemma parse_date_isoformat d : valid_date d -> parse_date (date_isoformat d) = Some d.
Proof.
  intros Hv. unfold valid_date, date_isoformat in *. pose proof (civil_spec d) as Hs.
  destruct (civil d) as [[y m] dd] eqn:Ec. destruct Hs as (Hf & Hm & Hd). simpl in Hv.
  destruct (padded_inv _ _ (padded4 y ltac:(lia))) as [Hly Hdy].
  destruct (padded_inv _ _ (padded2 m ltac:(lia))) as [Hlm Hdm].
  destruct (padded_inv _ _ (padded2 dd ltac:(lia))) as [Hld Hdd].
  revert Hly Hdy Hlm Hdm Hld Hdd. generalize (zero_pad 4 y) (zero_pad 2 m) (zero_pad 2 dd).
  intros sy sm sd Hly Hdy Hlm Hdm Hld Hdd.
  do 4 (destruct sy as [|? sy]; [discriminate|]). destruct sy; [|discriminate].
  do 2 (destruct sm as [|? sm]; [discriminate|]). destruct sm; [|discriminate].
  do 2 (destruct sd as [|? sd]; [discriminate|]). destruct sd; [|discriminate].
  unfold parse_date. cbn [String.append String.length String.substring String.eqb].
  change (String.append ?a ?b) with (a +:+ b).
  replace (_ && _ && _) with true by reflexivity.
  cbv beta iota. simpl String.substring. rewrite Hdy. cbn [mbind option_bind]. rewrite Hdm.
  cbn [mbind option_bind]. rewrite Hdd. cbn [mbind option_bind]. rewrite Hf, Ec.
  rewrite bool_decide_eq_true_2 by done. by destruct (Z.leb_spec 1 y); [|lia].
Qed.
