(* ===== verification/PyInt.v ===== *)
(** * Integers as texts

    [str.strip], [int] of a text, and that it reads back what [str] of an integer
    wrote. *)

From stdpp Require Import pretty.
From S2P Require Import Prelude PyRuntime PyText PyDate.
Local Open Scope Z_scope.

Definition underscore : ascii := ascii_of_nat 95.

(** [int(s)] for Latin-1: blanks around, a sign, digits with single underscores. *)
Fixpoint int_digits (acc : Z) (after_digit : bool) (s : string) : option Z :=
  match s with
  | EmptyString => if after_digit then Some acc else None
  | String c s =>
      if Ascii.eqb c underscore then if after_digit then int_digits acc false s else None
      else v ← digit_of c; int_digits (acc * 10 + v) true s
  end.

Definition is_blank (c : ascii) : bool :=
  let n := nat_of_ascii c in (n =? 32)%nat || (9 <=? n)%nat && (n <=? 13)%nat || (28 <=? n)%nat && (n <=? 31)%nat ||
  (n =? 133)%nat || (n =? 160)%nat.
Fixpoint lstrip (s : string) : string :=
  match s with String c s' => if is_blank c then lstrip s' else s | EmptyString => "" end.
Fixpoint rstrip (s : string) : string :=
  match s with
  | EmptyString => ""
  | String c s => match rstrip s with EmptyString => if is_blank c then "" else String c "" | s => String c s end
  end.

(** [s.strip()] *)
Definition strip (s : string) : string := rstrip (lstrip s).

Definition parse_int (s : string) : result Z :=
  match match strip s with
        | String c s' =>
            if Ascii.eqb c (ascii_of_nat 45) then option_map Z.opp (int_digits 0 false s')
            else if Ascii.eqb c (ascii_of_nat 43) then int_digits 0 false s'
            else int_digits 0 false (String c s')
        | EmptyString => None
        end with
  | Some z => Ok z
  | None => Raise (raise_ ValueError "invalid literal for int() with base 10")
  end.

(** ** Digits *)

Definition all_digits (s : string) : Prop :=
  forallb (fun c => opt_is_some (digit_of c)) (String.list_ascii_of_string s) = true.

Lemma list_ascii_app a b : String.list_ascii_of_string (a +:+ b) =
  String.list_ascii_of_string a ++ String.list_ascii_of_string b.
Proof. induction a as [|c a IH]; [done|]. change (String c a +:+ b) with (String c (a +:+ b)). simpl. by rewrite IH. Qed.

Lemma string_length_app a b : String.length (a +:+ b) = (String.length a + String.length b)%nat.
Proof. induction a as [|c a IH]; [done|]. change (String c a +:+ b) with (String c (a +:+ b)). simpl. by rewrite IH. Qed.

Lemma all_digits_app a b : all_digits a -> all_digits b -> all_digits (a +:+ b).
Proof. unfold all_digits. rewrite list_ascii_app, forallb_app. by intros -> ->. Qed.

Lemma below_all (f : N -> bool) k n : forallb (fun i => f (N.of_nat i)) (seq 0 k) = true ->
  (n < N.of_nat k)%N -> f n = true.
Proof.
  rewrite forallb_forall. intros Hf Hn. rewrite <- (N2Nat.id n). apply Hf, in_seq. lia.
Qed.

Definition digit_char (n : N) : bool :=
  bool_decide (digit_of (pretty_N_char n) = Some (Z.of_N n)) && negb (Ascii.eqb (pretty_N_char n) underscore).

Lemma digit_of_val n : (n < 10)%N ->
  digit_of (pretty_N_char n) = Some (Z.of_N n) /\ Ascii.eqb (pretty_N_char n) underscore = false.
Proof.
  intros Hn. assert (Hd : digit_char n = true) by (by apply (below_all digit_char 10)).
  unfold digit_char in Hd. apply andb_true_iff in Hd as [Hd%bool_decide_eq_true Hu]. by apply negb_true_iff in Hu.
Qed.

(** Decimal texts, read on from [acc], give the number. *)
Lemma int_digits_pretty x : forall s, (0 < x)%N ->
  int_digits 0 false (pretty_N_go x s) = int_digits (Z.of_N x) true s.
Proof.
  induction x as [x IH] using (well_founded_induction N.lt_wf_0). intros s Hx.
  rewrite pretty_N_go_step by done. pose proof (N.mod_lt x 10 ltac:(done)) as Hm.
  pose proof (N.div_mod x 10 ltac:(done)) as Hd.
  assert (Hstep : forall b acc, int_digits acc b (String (pretty_N_char (x mod 10)) s) =
    int_digits (acc * 10 + Z.of_N (x mod 10)) true s).
  { intros b acc. cbn [int_digits]. destruct (digit_of_val _ Hm) as [-> ->]. done. }
  destruct (N.eq_dec (x / 10)%N 0%N) as [E|E].
  - rewrite E, pretty_N_go_0, Hstep. f_equal. lia.
  - rewrite IH; [|apply N.div_lt; lia|apply N.neq_0_lt_0; exact E]. rewrite Hstep. f_equal. lia.
Qed.

Lemma all_digits_pretty x : forall s, all_digits s -> all_digits (pretty_N_go x s).
Proof.
  induction x as [x IH] using (well_founded_induction N.lt_wf_0). intros s Hs.
  destruct (N.eq_dec x 0%N) as [->|Hx]; [by rewrite pretty_N_go_0|]. rewrite pretty_N_go_step by lia.
  apply IH; [apply N.div_lt; lia|]. unfold all_digits in *. simpl.
  destruct (digit_of_val (x mod 10)) as [-> _]; [by apply N.mod_lt|done].
Qed.

Lemma digit_plain c : opt_is_some (digit_of c) = true ->
  is_blank c = false /\ Ascii.eqb c (ascii_of_nat 45) = false /\ Ascii.eqb c (ascii_of_nat 43) = false /\
  Ascii.eqb c (ascii_of_nat 46) = false.
Proof. destruct c as [[] [] [] [] [] [] [] []]; by vm_compute. Qed.

Lemma rstrip_plain s : forallb (fun c => negb (is_blank c)) (String.list_ascii_of_string s) = true -> rstrip s = s.
Proof.
  induction s as [|c s IH]; [done|]. cbn [rstrip String.list_ascii_of_string forallb].
  intros [Hc Hs]%andb_true_iff. rewrite (IH Hs). apply negb_true_iff in Hc. destruct s; [by rewrite Hc|done].
Qed.

Lemma strip_plain c s : is_blank c = false ->
  forallb (fun c => negb (is_blank c)) (String.list_ascii_of_string s) = true ->
  rstrip (lstrip (String c s)) = String c s.
Proof. intros Hc Hs. cbn [lstrip]. rewrite Hc. apply rstrip_plain. cbn. by rewrite Hc. Qed.

Lemma digits_plain s : all_digits s -> forallb (fun c => negb (is_blank c)) (String.list_ascii_of_string s) = true.
Proof.
  unfold all_digits. rewrite !forallb_forall. intros Hs c Hc.
  destruct (digit_plain c (Hs c Hc)) as [-> _]. done.
Qed.

(** [int(str(z)) = z] *)
Lemma parse_int_z_str z : parse_int (z_str z) = Ok z.
Proof.
  assert (Hpos : forall p, exists c s, pretty_N_go (N.pos p) "" = String c s /\ all_digits (String c s)).
  { intros p. pose proof (all_digits_pretty (N.pos p) "" eq_refl) as Hd.
    pose proof (int_digits_pretty (N.pos p) "" ltac:(lia)) as Hi.
    destruct (pretty_N_go (N.pos p) "") as [|c s]; [done|]. by exists c, s. }
  assert (Hdig : forall p, int_digits 0 false (pretty_N_go (N.pos p) "") = Some (Z.pos p)).
  { intros p. by rewrite int_digits_pretty. }
  unfold parse_int, z_str, strip. destruct z as [|p|p]; [reflexivity| |].
  - change (pretty (Z.pos p)) with (pretty_N_go (N.pos p) ""). specialize (Hdig p).
    destruct (Hpos p) as (c & s & E & Hd). rewrite E in *. pose proof (digits_plain _ Hd) as Hpl. cbn in Hpl.
    apply andb_true_iff in Hpl as [Hc Hs]. apply negb_true_iff in Hc. rewrite strip_plain by done.
    unfold all_digits in Hd. cbn in Hd. apply andb_true_iff in Hd as [Hd _].
    destruct (digit_plain c Hd) as (_ & Hm & Hp & _). rewrite Hm, Hp, Hdig. done.
  - change (pretty (Z.neg p)) with (String (ascii_of_nat 45) (pretty_N_go (N.pos p) "")). specialize (Hdig p).
    destruct (Hpos p) as (c & s & E & Hd). rewrite strip_plain; [|done|rewrite E; by apply digits_plain].
    rewrite Ascii.eqb_refl, Hdig. done.
Qed.

Lemma no_dot s : all_digits s -> free_of (ascii_of_nat 46) s.
Proof.
  induction s as [|c s IH]; [done|]. unfold all_digits. cbn. intros [Hc Hs]%andb_true_iff. split; [|by apply IH].
  intros ->. destruct (digit_plain _ Hc) as (_ & _ & _ & Hx). by rewrite Ascii.eqb_refl in Hx.
Qed.

Lemma z_str_no_dot z : free_of (ascii_of_nat 46) (z_str z).
Proof.
  unfold z_str. destruct z as [|p|p].
  - by vm_compute.
  - apply no_dot. change (pretty (Z.pos p)) with (pretty_N_go (N.pos p) ""). by apply all_digits_pretty.
  - change (pretty (Z.neg p)) with (String (ascii_of_nat 45) (pretty_N_go (N.pos p) "")). split; [done|].
    apply no_dot. by apply all_digits_pretty.
Qed.
