(* ===== verification/JsonText.v ===== *)
(** * Reading JSON texts back

    A text that [json.dumps] writes tells where it ends: of a string, a number, a list
    of texts between separators. Two dictionaries of strings have the same text exactly
    when they have the same entries, and the text cannot be taken for a part of another
    one ([json_labels_tail]). *)

From S2P Require Import Prelude PyRuntime PyText PyDate PyInt.
From stdpp Require Import sorting pretty.
Local Open Scope Z_scope.

Lemma str_app_assoc (a b c : string) : (a +:+ b) +:+ c = a +:+ (b +:+ c).
Proof. induction a as [|x a IH]; [done|]. exact (f_equal (String x) IH). Qed.

Lemma str_app_cons x (a b : string) : String x a +:+ b = String x (a +:+ b).
Proof. done. Qed.

Lemma str_app_nil_r (a : string) : a +:+ "" = a.
Proof. induction a as [|x a IH]; [done|]. exact (f_equal (String x) IH). Qed.

(** ** Strings *)

Definition unhex1 (c : ascii) : nat := let n := nat_of_ascii c in (if n <? 58 then n - 48 else n - 87)%nat.

(** The character that a text begins with, as it is written in a string. *)
Definition next_char (s : string) : option (ascii * string) :=
  match s with
  | String x r =>
      if Ascii.eqb x quote2 then None
      else if Ascii.eqb x backslash then
        match r with
        | String u (String z1 (String z2 (String a (String b r')))) =>
            if Ascii.eqb u "u" then Some (ascii_of_nat (unhex1 a * 16 + unhex1 b), r')
            else Some (if Ascii.eqb u "b" then ascii_of_nat 8 else if Ascii.eqb u "t" then ascii_of_nat 9 else if Ascii.eqb u "n" then ascii_of_nat 10
                       else if Ascii.eqb u "f" then ascii_of_nat 12 else if Ascii.eqb u "r" then ascii_of_nat 13 else u,
                       String z1 (String z2 (String a (String b r'))))
        | String u r' =>
            Some (if Ascii.eqb u "b" then ascii_of_nat 8 else if Ascii.eqb u "t" then ascii_of_nat 9 else if Ascii.eqb u "n" then ascii_of_nat 10
                  else if Ascii.eqb u "f" then ascii_of_nat 12 else if Ascii.eqb u "r" then ascii_of_nat 13 else u, r')
        | EmptyString => None
        end
      else Some (x, r)
  | EmptyString => None
  end.

Lemma next_char_json c r : next_char (json_char c +:+ r) = Some (c, r).
Proof. destruct c as [[] [] [] [] [] [] [] []]; vm_compute; try reflexivity; by destruct r as [|? [|? [|? [|? ?]]]]. Qed.

Lemma json_str_cons s r : json_str s +:+ r = String quote2 (chars json_char s +:+ String quote2 r).
Proof. unfold json_str. rewrite str_app_cons, str_app_assoc. done. Qed.

Lemma chars_cons f c s : chars f (String c s) = f c +:+ chars f s.
Proof. unfold chars. simpl. by destruct (map f (String.list_ascii_of_string s)); [rewrite str_app_nil_r|]. Qed.

(** A string ends where its text does. *)
Lemma json_str_inj s s' r r' : json_str s +:+ r = json_str s' +:+ r' -> s = s' /\ r = r'.
Proof.
  rewrite !json_str_cons. intros [= He]. revert s' He. induction s as [|c s IH]; intros [|c' s'].
  - intros [= Hr]. done.
  - rewrite chars_cons, str_app_assoc. intros He. apply (f_equal next_char) in He. rewrite next_char_json in He. done.
  - rewrite chars_cons, str_app_assoc. intros He. apply (f_equal next_char) in He. rewrite next_char_json in He. done.
  - rewrite !chars_cons, !str_app_assoc. intros He. apply (f_equal next_char) in He. rewrite !next_char_json in He.
    injection He as -> He. by destruct (IH _ He) as [-> ->].
Qed.

(** ** What follows a text *)

Definition head (s : string) : option ascii := match s with String c _ => Some c | EmptyString => None end.

(** The end, a comma or a closing bracket. *)
Definition stops (r : string) : Prop :=
  match head r with None => True | Some c => Ascii.eqb c "," || Ascii.eqb c "]" || Ascii.eqb c "}" = true end.

(** ** Numbers *)

Definition numeric (c : ascii) : bool := Ascii.eqb c "-" || opt_is_some (digit_of c).
Definition all_numeric (s : string) : Prop := forallb numeric (String.list_ascii_of_string s) = true.

Lemma span_unique (p : ascii -> bool) t t' r r' :
  forallb p (String.list_ascii_of_string t) = true -> forallb p (String.list_ascii_of_string t') = true ->
  (forall c, head r = Some c -> p c = false) -> (forall c, head r' = Some c -> p c = false) ->
  t +:+ r = t' +:+ r' -> t = t' /\ r = r'.
Proof.
  revert t'. induction t as [|c t IH]; intros [|c' t'] Ht Ht' Hr Hr' He; simpl in Ht, Ht'.
  - done.
  - change (r = String c' (t' +:+ r')) in He. subst r. apply andb_true_iff in Ht' as [Hc _]. by rewrite (Hr c' eq_refl) in Hc.
  - change (String c (t +:+ r) = r') in He. subst r'. apply andb_true_iff in Ht as [Hc _]. by rewrite (Hr' c eq_refl) in Hc.
  - apply andb_true_iff in Ht as [_ Ht], Ht' as [_ Ht']. injection He as -> He. by destruct (IH _ Ht Ht' Hr Hr' He) as [-> ->].
Qed.

Lemma all_digits_numeric s : all_digits s -> all_numeric s.
Proof.
  unfold all_digits, all_numeric. rewrite !forallb_forall. intros Hs c Hc. unfold numeric. by rewrite (Hs c Hc), orb_true_r.
Qed.

Lemma z_str_numeric z : all_numeric (z_str z) /\ z_str z <> "".
Proof.
  assert (forall p, all_numeric (pretty_N_go (N.pos p) "") /\ pretty_N_go (N.pos p) "" <> "") as Hpos.
  { intros p. split; [by apply all_digits_numeric, all_digits_pretty|]. intros Hn.
    pose proof (int_digits_pretty (N.pos p) "" ltac:(lia)) as Hi. by rewrite Hn in Hi. }
  destruct z as [|p|p]; [done|apply Hpos|]. destruct (Hpos p) as [Hp _].
  change (z_str (Z.neg p)) with (String "-" (pretty_N_go (N.pos p) "")). split; [exact Hp|done].
Qed.

Lemma stops_not_numeric r c : stops r -> head r = Some c -> numeric c = false.
Proof.
  unfold stops. intros Hs Hc. rewrite Hc in Hs. rewrite !orb_true_iff in Hs.
  destruct Hs as [[Hs|Hs]|Hs]; apply Ascii.eqb_eq in Hs; by subst.
Qed.

Lemma z_str_inj z z' r r' : stops r -> stops r' -> z_str z +:+ r = z_str z' +:+ r' -> z = z' /\ r = r'.
Proof.
  intros Hr Hr' He. apply (span_unique numeric) in He as [Hz ->];
    [|apply z_str_numeric|apply z_str_numeric|intros c; by apply stops_not_numeric|intros c; by apply stops_not_numeric].
  split; [|done]. unfold z_str in Hz. by apply (inj pretty) in Hz.
Qed.

(** ** Texts between separators *)

Section sequences.
Context {A : Type} (R : A -> string -> Prop) (comma : string) (close : ascii).
Context (Hclose : close = "]"%char \/ close = "}"%char).

Definition separated (ts : list string) : string := String.concat (String "," comma) ts +:+ String close "".

(** What follows an element. *)
Fixpoint tail (ts : list string) : string :=
  match ts with [] => String close "" | t :: ts => String "," comma +:+ t +:+ tail ts end.

Lemma separated_tail t ts : separated (t :: ts) = t +:+ tail ts.
Proof.
  unfold separated. revert t. induction ts as [|t' ts IH]; intros t; [done|].
  change (String.concat (String "," comma) (t :: t' :: ts)) with (t +:+ String "," comma +:+ String.concat (String "," comma) (t' :: ts)).
  rewrite !str_app_assoc. by rewrite IH.
Qed.

Lemma tail_stops ts r : stops (tail ts +:+ r).
Proof using Hclose. destruct ts as [|t ts]; [|done]. unfold stops. simpl. by destruct Hclose as [-> | ->]. Qed.

(** A text tells its element and where it ends. *)
Definition tells (x : A) : Prop := forall x' t t' r r', R x t -> R x' t' -> stops r -> stops r' -> t +:+ r = t' +:+ r' -> x = x' /\ r = r'.

Lemma str_app_inv (a b c : string) : a +:+ b = a +:+ c -> b = c.
Proof. induction a as [|x a IH]; [done|]. simpl. intros [= He]. by apply IH. Qed.

Lemma close_not_comma : close <> ","%char.
Proof using Hclose. by destruct Hclose as [-> | ->]. Qed.

Lemma tail_inj l l' ts ts' r r' : Forall tells l -> Forall2 R l ts -> Forall2 R l' ts' ->
  tail ts +:+ r = tail ts' +:+ r' -> l = l' /\ r = r'.
Proof using Hclose.
  intros Ht Hl. revert l' ts'. induction Hl as [|x t l ts Hx Hl IH]; intros l' ts' Hl' He;
    destruct Hl' as [|x' t' l' ts' Hx' Hl']; cbn [tail] in He.
  - change (String close r = String close r') in He. by injection He as ->.
  - apply (f_equal head) in He. simpl in He. injection He as He. by destruct close_not_comma.
  - apply (f_equal head) in He. simpl in He. injection He as He. by destruct close_not_comma.
  - apply Forall_cons in Ht as [Htx Htl]. rewrite !str_app_assoc in He. apply str_app_inv in He.
    destruct (Htx x' t t' (tail ts +:+ r) (tail ts' +:+ r') Hx Hx' (tail_stops _ _) (tail_stops _ _) He) as [-> Hr].
    destruct (IH Htl l' ts' Hl' Hr) as [-> ->]. done.
Qed.

(** No element's text is empty or begins with what closes the sequence. *)
Context (Hstart : forall x t, R x t -> exists c t', t = String c t' /\ c <> close).

Lemma separated_inj l l' ts ts' r r' : Forall tells l -> Forall2 R l ts -> Forall2 R l' ts' ->
  separated ts +:+ r = separated ts' +:+ r' -> l = l' /\ r = r'.
Proof using Hclose Hstart.
  intros Ht Hl Hl' He. destruct Hl as [|x t l ts Hx Hl], Hl' as [|x' t' l' ts' Hx' Hl']; rewrite ?separated_tail, ?str_app_assoc in He.
  - change (String close r = String close r') in He. by injection He as ->.
  - destruct (Hstart x' t' Hx') as (c & t0 & -> & Hc). apply (f_equal head) in He. simpl in He. injection He as He. by destruct Hc.
  - destruct (Hstart x t Hx) as (c & t0 & -> & Hc). apply (f_equal head) in He. simpl in He. injection He as He. by destruct Hc.
  - apply Forall_cons in Ht as [Htx Htl].
    destruct (Htx x' t t' (tail ts +:+ r) (tail ts' +:+ r') Hx Hx' (tail_stops _ _) (tail_stops _ _) He) as [-> Hr].
    by destruct (tail_inj l l' ts ts' r r' Htl Hl Hl' Hr) as [-> ->].
Qed.
End sequences.

(** ** Dictionaries of strings *)

Definition label_text (kv : string * string) : string := json_str (fst kv) +:+ ": " +:+ json_str (snd kv).
Definition is_label (kv : string * string) (t : string) : Prop := t = label_text kv.

Lemma json_labels_separated labels : json_labels labels = String "{" (separated " " "}" (map label_text (sorted_items labels))).
Proof. reflexivity. Qed.

Lemma label_tells kv : tells is_label kv.
Proof.
  intros kv' t t' r r' -> -> _ _ He. unfold label_text in He. rewrite !str_app_assoc in He.
  apply json_str_inj in He as [Hk He]. apply str_app_inv in He. apply json_str_inj in He as [Hv ->].
  split; [|done]. destruct kv, kv'. simpl in *. by subst.
Qed.

Lemma are_labels l : Forall2 is_label l (map label_text l).
Proof. induction l as [|kv l IH]; constructor; done. Qed.

Lemma json_labels_inj l l' : json_labels l = json_labels l' -> Permutation l l'.
Proof.
  rewrite !json_labels_separated. intros [= He].
  destruct (separated_inj is_label " " "}" (or_intror eq_refl)) with (l := sorted_items l) (l' := sorted_items l')
    (ts := map label_text (sorted_items l)) (ts' := map label_text (sorted_items l')) (r := ""%string) (r' := ""%string) as [Hs _].
  - intros kv t ->. unfold label_text. rewrite json_str_cons. by eexists _, _.
  - apply Forall_forall. intros kv _. apply label_tells.
  - apply are_labels.
  - apply are_labels.
  - by rewrite !str_app_nil_r.
  - assert (forall d : pydict string, Permutation (sorted_items d) d) as Hp by (intros; apply merge_sort_Permutation).
    by rewrite <- (Hp l), <- (Hp l'), Hs.
Qed.

(** *** No such text ends another

    A text is read with the state of being inside of a string or behind a backslash;
    outside of strings neither a backslash nor a brace behind a colon is found. *)

Record reading := Reading { inside : bool; escaped : bool; colon : bool; strange : bool }.

Definition read1 (q : reading) (c : ascii) : reading :=
  if escaped q then Reading (inside q) false false (strange q)
  else if Ascii.eqb c quote2 then Reading (negb (inside q)) false false (strange q)
  else if Ascii.eqb c backslash then Reading (inside q) true false (strange q || negb (inside q))
  else Reading (inside q) false (negb (inside q) && Ascii.eqb c ":") (strange q || (colon q && Ascii.eqb c "{")).

Definition read (q : reading) (s : string) : reading := foldl read1 q (String.list_ascii_of_string s).

Lemma read_app q a b : read q (a +:+ b) = read (read q a) b.
Proof. unfold read. by rewrite list_ascii_app, foldl_app. Qed.

Definition plain_at (i : bool) : reading := Reading i false false false.

(** What is strange stays so. *)
Lemma strange_read q s : strange q = true -> strange (read q s) = true.
Proof.
  unfold read. revert q. induction (String.list_ascii_of_string s) as [|c l IH]; intros q Hq; [done|]. simpl. apply IH.
  unfold read1. repeat case_match; simpl; by rewrite ?Hq.
Qed.

Lemma read_char c : read (plain_at true) (json_char c) = plain_at true.
Proof. destruct c as [[] [] [] [] [] [] [] []]; vm_compute; reflexivity. Qed.

Lemma read_chars s : read (plain_at true) (chars json_char s) = plain_at true.
Proof. induction s as [|c s IH]; [done|]. by rewrite chars_cons, read_app, read_char. Qed.

Lemma read_str s : read (plain_at false) (json_str s) = plain_at false.
Proof.
  unfold json_str. change (String quote2 (chars json_char s +:+ String quote2 "")) with (String quote2 "" +:+ (chars json_char s +:+ String quote2 "")).
  rewrite !read_app. change (read (plain_at false) (String quote2 "")) with (plain_at true). by rewrite read_chars.
Qed.

Lemma read_label kv : read (plain_at false) (label_text kv) = plain_at false.
Proof. unfold label_text. rewrite read_app, read_str, read_app. change (read (plain_at false) ": ") with (plain_at false). apply read_str. Qed.

Lemma read_tail ls : read (plain_at false) (tail " " "}" (map label_text ls)) = plain_at false.
Proof.
  induction ls as [|kv ls IH]; [done|]. cbn [map tail]. rewrite read_app. change (read (plain_at false) (String "," " ")) with (plain_at false).
  by rewrite read_app, read_label.
Qed.

Lemma read_labels labels : read (plain_at false) (json_labels labels) = plain_at false.
Proof.
  rewrite json_labels_separated. change (String "{" ?s) with ("{" +:+ s). rewrite read_app. change (read (plain_at false) "{") with (plain_at false).
  destruct (map label_text (sorted_items labels)) as [|t ts] eqn:E; [done|]. rewrite separated_tail.
  destruct (sorted_items labels) as [|kv ls]; [done|]. injection E as <- <-. by rewrite read_app, read_label, read_tail.
Qed.

(** The strings of a text, taken for what is between them and the other way round. *)
Definition inverted (q q' : reading) : Prop := inside q = negb (inside q') /\ escaped q = escaped q'.

Lemma read_inverted s q q' : inverted q q' -> inverted (read q s) (read q' s).
Proof.
  unfold read. revert q q'. induction (String.list_ascii_of_string s) as [|c l IH]; intros q q' Hq; [done|]. simpl. apply IH.
  destruct Hq as [Hi He]. unfold read1, inverted. rewrite He. repeat case_match; simpl; split; by rewrite ?Hi.
Qed.

(** A backslash outside of a string is strange. *)
Lemma escaped_read s q : (escaped q = true -> inside q || strange q = true) -> escaped (read q s) = true -> inside (read q s) || strange (read q s) = true.
Proof.
  unfold read. revert q. induction (String.list_ascii_of_string s) as [|c l IH]; intros q Hq; [done|]. simpl. apply IH.
  unfold read1. repeat case_match; simpl; try done. intros _. by destruct (inside q), (strange q).
Qed.

Lemma json_labels_tail l l' z : json_labels l <> z +:+ ":" +:+ json_labels l'.
Proof.
  intros He. pose proof (read_labels l) as Hl. rewrite He, !read_app in Hl.
  pose proof (escaped_read z (plain_at false)) as Hesc. set (q := read (plain_at false) z) in *.
  destruct (strange q) eqn:Hs; [apply (strange_read q ":"), (strange_read _ (json_labels l')) in Hs; by rewrite Hl in Hs|].
  destruct q as [i e co st]. simpl in Hs, Hesc. subst st. destruct i.
  - assert (inverted (read (Reading true e co false) ":") (plain_at false)) as Hc by (by destruct e, co).
    apply (read_inverted (json_labels l')) in Hc. rewrite read_labels, Hl in Hc. by destruct Hc.
  - destruct e; [by specialize (Hesc ltac:(done) eq_refl)|]. change (read (Reading false false co false) ":") with (Reading false false true (false || (co && false))) in Hl.
    rewrite json_labels_separated in Hl. change (String "{" ?s) with ("{" +:+ s) in Hl. rewrite read_app in Hl.
    set (rest := separated _ _ _) in Hl. assert (strange (read (Reading false false true (false || (co && false))) "{") = true) as Hs by (by destruct co).
    apply (strange_read _ rest) in Hs. by rewrite Hl in Hs.
Qed.

(** A name in front of such a text is told by both together, whatever it holds. *)
Lemma labelled_inj n n' l l' : n +:+ ":" +:+ json_labels l = n' +:+ ":" +:+ json_labels l' -> n = n' /\ Permutation l l'.
Proof.
  assert (forall m d d', ":" +:+ json_labels d = m +:+ ":" +:+ json_labels d' -> m = ""%string) as Hone.
  { intros [|c m] d d' He; [done|]. change (String ":" (json_labels d) = String c (m +:+ ":" +:+ json_labels d')) in He.
    injection He as _ He. by destruct (json_labels_tail d d' m He). }
  revert n'. induction n as [|c n IH]; intros n' He.
  - pose proof (Hone n' l l' He) as ->. split; [done|]. apply json_labels_inj.
    exact (str_app_inv ":" _ _ He).
  - destruct n' as [|c' n'].
    + by pose proof (Hone (String c n) l' l (eq_sym He)).
    + change (String c (n +:+ ":" +:+ json_labels l) = String c' (n' +:+ ":" +:+ json_labels l')) in He.
      injection He as -> He. by destruct (IH n' He) as [-> ?].
Qed.
