(* ===== verification/PyFloat.v ===== *)
(** * Floats as texts

    [float] of a text. A float is an exact rational, an infinity or a NaN; the
    rounding of a literal to double precision is not modelled. *)

From S2P Require Import Prelude PyRuntime PyText PyDate PyInt.
Local Open Scope Z_scope.

Inductive pyfloat := Finite (q : Q) | Infinite (negative : bool) | NaN.

(** [float < float]: no comparison with a NaN holds. *)
Definition float_lt (x y : pyfloat) : bool :=
  match x, y with
  | NaN, _ | _, NaN => false
  | Finite a, Finite b => Qltb a b
  | Infinite true, Infinite true | Infinite false, _ => false
  | Infinite true, _ => true
  | Finite _, Infinite n => negb n
  end.

(** [max(x, y)] and [min(x, y)] keep [x] unless [y] is strictly better. *)
Definition float_max (x y : pyfloat) : pyfloat := if float_lt x y then y else x.
Definition float_min (x y : pyfloat) : pyfloat := if float_lt y x then y else x.

(** The digits at the front of a text, single underscores between them: their value,
    how many they are, and the rest. *)
Fixpoint span_digits (acc : Z) (count : nat) (s : string) : Z * nat * string :=
  match s with
  | String c s' =>
      match digit_of c with
      | Some d => span_digits (acc * 10 + d) (S count) s'
      | None =>
          match s' with
          | String c' s'' =>
              match digit_of c' with
              | Some d => if Ascii.eqb c underscore && (0 <? Z.of_nat count) then span_digits (acc * 10 + d) (S count) s''
                          else (acc, count, s)
              | None => (acc, count, s)
              end
          | EmptyString => (acc, count, s)
          end
      end
  | EmptyString => (acc, count, "")
  end.

(** A sign in front of a text. *)
Definition split_sign (s : string) : bool * string :=
  match s with
  | String c s' => if Ascii.eqb c (ascii_of_nat 45) then (true, s') else if Ascii.eqb c (ascii_of_nat 43) then (false, s') else (false, s)
  | EmptyString => (false, s)
  end.

(** 10 to an integer power. *)
Definition power10 (n : Z) : Q := if 0 <=? n then inject_Z (10 ^ n) else (1 / inject_Z (10 ^ (- n)))%Q.

(** The exponent at the end of a literal. *)
Definition exponent (s : string) : option Z :=
  match s with
  | EmptyString => Some 0
  | String c s' =>
      if Ascii.eqb (lower_char c) (ascii_of_nat 101) then
        let '(negative, s') := split_sign s' in
        match span_digits 0 0 s' with
        | (e, S _, EmptyString) => Some (if negative then - e else e)
        | _ => None
        end
      else None
  end.

Definition unsigned_float (s : string) : option pyfloat :=
  if mem (str_lower s) ["inf"; "infinity"] then Some (Infinite false)
  else if String.eqb (str_lower s) "nan" then Some NaN
  else
    let '(whole, n, s) := span_digits 0 0 s in
    let '(scaled, m, s) :=
      match s with
      | String c s' =>
          if Ascii.eqb c (ascii_of_nat 46) then
            match s', span_digits whole 0 s' with
            | String c' _, (v, m, rest) => if opt_is_some (digit_of c') then (v, m, rest) else (whole, O, s')
            | EmptyString, _ => (whole, O, "")
            end
          else (whole, O, s)
      | EmptyString => (whole, O, "")
      end in
    if (n + m =? 0)%nat then None
    else e ← exponent s; Some (Finite (inject_Z scaled * power10 (e - Z.of_nat m)))%Q.

(** [float(s)] *)
Definition parse_float (s : string) : result pyfloat :=
  let '(negative, body) := split_sign (strip s) in
  match unsigned_float body with
  | None => Raise (raise_ ValueError "could not convert string to float")
  | Some (Finite q) => Ok (Finite (if negative then - q else q)%Q)
  | Some (Infinite _) => Ok (Infinite negative)
  | Some NaN => Ok NaN
  end.

(** [max(0.0, min(1.0, x))] is a number between 0 and 1, and 1 for a NaN. *)
Definition clamp01 (x : pyfloat) : Q := match float_max (Finite 0) (float_min (Finite 1) x) with Finite q => q | _ => 0%Q end.

Lemma clamp01_range x : (0 <= clamp01 x <= 1)%Q.
Proof.
  unfold clamp01, float_max, float_min. destruct x as [q|[]|]; simpl; [|lra..].
  destruct (Qltb q 1) eqn:H1; simpl.
  - destruct (Qltb 0 q) eqn:H0; [|lra]. apply Qltb_lt in H0, H1. lra.
  - destruct (Qltb 0 1); lra.
Qed.

Lemma parse_half : parse_float " 5e-1 " = Ok (Finite (5 * (1 / 10))). Proof. by vm_compute. Qed.
Lemma parse_fraction : parse_float "-1_0.25" = Ok (Finite (- (1025 * (1 / 100)))). Proof. by vm_compute. Qed.
Lemma parse_dot : parse_float "." = Raise (raise_ ValueError "could not convert string to float"). Proof. by vm_compute. Qed.
Lemma clamp_nan : (x ← parse_float "NaN"; Ok (clamp01 x)) = Ok 1%Q. Proof. by vm_compute. Qed.
