(* ===== verification/PyConfig.v ===== *)
(** * Values of configurations

    What YAML gives and dictionaries of settings hold, with the operations that the
    code applies to values of any kind. *)

From S2P Require Import Prelude PyRuntime PyText PyFloat.
Local Open Scope Z_scope.

Inductive cfg :=
| CNone | CBool (b : bool) | CInt (z : Z) | CFloat (x : pyfloat) | CStr (s : string)
| CList (l : list cfg) | CDict (d : list (string * cfg)).

Definition CQ (q : Q) : cfg := CFloat (Finite q).

Definition attribute_error (name : string) : exn := raise_ (subclass "AttributeError" Exception_) name.

Definition cfg_truthy (v : cfg) : bool :=
  match v with
  | CNone => false | CBool b => b | CInt z => negb (z =? 0)
  | CFloat (Finite q) => negb (Qeq_bool q 0) | CFloat _ => true
  | CStr s => negb (String.eqb s "") | CList l => match l with [] => false | _ => true end
  | CDict d => match d with [] => false | _ => true end
  end.

(** [data.get(k, fallback)] *)
Definition cget (k : string) (fallback data : cfg) : result cfg :=
  match data with CDict d => Ok (default fallback (dget k d)) | _ => Raise (attribute_error "get") end.

Definition number (v : cfg) : option pyfloat :=
  match v with
  | CBool b => Some (Finite (if b then 1 else 0)) | CInt z => Some (Finite (inject_Z z)) | CFloat x => Some x
  | _ => None
  end.

(** The elements a loop sees. *)
Definition elements (v : cfg) : result (list cfg) :=
  match v with
  | CList l => Ok l
  | CStr s => Ok (map (fun c => CStr (String c "")) (String.list_ascii_of_string s))
  | CDict d => Ok (map (fun kv => CStr (fst kv)) d)
  | _ => Raise (raise_ TypeError "object is not iterable")
  end.

