(* ===== verification/PyRegex.v ===== *)
(** * Regular expressions

    What the routes use of Python's [re]: classes of characters, groups,
    alternatives, the greedy quantifiers [?], [+], [*], [{n}] and [{n,}], [$] (the end, or
    a newline at the end), and [re.match], which looks for a match at the start
    of a text. A pattern is parsed from its source text, and matched by
    backtracking in the order Python tries the ways to match. *)

From S2P Require Import Prelude PyRuntime PyText PyDate PyInt.

Inductive regex :=
| Empty
| Class_ (f : ascii -> bool)
| Seq (r1 r2 : regex)
| Alt (r1 r2 : regex)
| Opt (r : regex)
| Many (f : ascii -> bool)
| AtEnd
| Group (r : regex).

(** ** Matching *)

(** [s] without its end [s']. *)
Definition consumed (s s' : string) : string := String.substring 0 (String.length s - String.length s') s.

Definition at_end (s : string) : bool := String.eqb s "" || String.eqb s nl.

Section run.
Context {R : Type}.
Implicit Types (k : string -> list string -> option R).

(** The longest run of characters first. *)
Fixpoint run_many (f : ascii -> bool) (s : string) (g : list string) k : option R :=
  match s with
  | String c s' =>
      if f c then match run_many f s' g k with Some x => Some x | None => k s g end else k s g
  | EmptyString => k s g
  end.

(** [k] goes on with the rest of the text and the groups matched so far. *)
Fixpoint run (r : regex) (s : string) (g : list string) k : option R :=
  match r with
  | Empty => k s g
  | Class_ f => match s with String c s' => if f c then k s' g else None | EmptyString => None end
  | Seq r1 r2 => run r1 s g (fun s g => run r2 s g k)
  | Alt r1 r2 => match run r1 s g k with Some x => Some x | None => run r2 s g k end
  | Opt r => match run r s g k with Some x => Some x | None => k s g end
  | Many f => run_many f s g k
  | AtEnd => if at_end s then k s g else None
  | Group r => run r s g (fun s' g' => k s' (g' ++ [consumed s s']))
  end.
End run.

(** [re.match(r, s)], and the texts of its groups. *)
Definition match_groups (r : regex) (s : string) : option (list string) := run r s [] (fun _ g => Some g).
Definition matches (r : regex) (s : string) : bool := opt_is_some (match_groups r s).

(** ** Parsing *)

Definition lit (c : ascii) : regex := Class_ (Ascii.eqb c).
Fixpoint repeat_class (n : nat) (f : ascii -> bool) : regex :=
  match n with O => Empty | S n => Seq (Class_ f) (repeat_class n f) end.

Definition in_range (a b c : ascii) : bool :=
  (nat_of_ascii a <=? nat_of_ascii c)%nat && (nat_of_ascii c <=? nat_of_ascii b)%nat.

(** The items of a class up to its bracket. *)
Fixpoint parse_items (fuel : nat) (s : string) : option ((ascii -> bool) * string) :=
  match fuel with
  | O => None
  | S fuel =>
      match s with
      | String "]" s => Some (fun _ => false, s)
      | String "\" (String c s) =>
          '(f, s) ← parse_items fuel s; Some (fun x => Ascii.eqb c x || f x, s)
      | String a (String "-" (String "]" s)) => Some (fun x => Ascii.eqb a x || Ascii.eqb "-" x, s)
      | String a (String "-" (String b s)) =>
          '(f, s) ← parse_items fuel s; Some (fun x => in_range a b x || f x, s)
      | String c s => '(f, s) ← parse_items fuel s; Some (fun x => Ascii.eqb c x || f x, s)
      | EmptyString => None
      end
  end.

Definition parse_class (fuel : nat) (s : string) : option ((ascii -> bool) * string) :=
  match s with
  | String "^" s => '(f, s) ← parse_items fuel s; Some (fun x => negb (f x), s)
  | _ => parse_items fuel s
  end.

(** A decimal number before a brace, or before a comma and a brace: no upper bound. *)
Fixpoint parse_count (acc : nat) (s : string) : option (nat * bool * string) :=
  match s with
  | String "}" s => Some (acc, false, s)
  | String "," (String "}" s) => Some (acc, true, s)
  | String c s =>
      let n := nat_of_ascii c in
      if (48 <=? n)%nat && (n <=? 57)%nat then parse_count (acc * 10 + (n - 48)) s else None
  | EmptyString => None
  end.

(** The quantifier behind an atom; all but [?] only after one character. *)
Definition quantified (r : regex) (s : string) : option (regex * string) :=
  match s, r with
  | String "?" s, _ => Some (Opt r, s)
  | String "+" s, Class_ f => Some (Seq (Class_ f) (Many f), s)
  | String "*" s, Class_ f => Some (Many f, s)
  | String "{" s, Class_ f =>
      '(n, open, s) ← parse_count 0 s;
      Some (if (open : bool) then Seq (repeat_class n f) (Many f) else repeat_class n f, s)
  | String "+" _, _ | String "*" _, _ | String "{" _, _ => None
  | _, _ => Some (r, s)
  end.

Fixpoint parse_alt (fuel : nat) (s : string) : option (regex * string) :=
  match fuel with
  | O => None
  | S fuel =>
      '(r, s) ← parse_seq fuel s;
      match s with
      | String "|" s => '(r', s) ← parse_alt fuel s; Some (Alt r r', s)
      | _ => Some (r, s)
      end
  end
with parse_seq (fuel : nat) (s : string) : option (regex * string) :=
  match fuel with
  | O => None
  | S fuel =>
      match s with
      | EmptyString | String ")" _ | String "|" _ => Some (Empty, s)
      | _ =>
          '(a, s) ← parse_atom fuel s;
          '(a, s) ← quantified a s;
          '(r, s) ← parse_seq fuel s;
          Some (Seq a r, s)
      end
  end
with parse_atom (fuel : nat) (s : string) : option (regex * string) :=
  match fuel with
  | O => None
  | S fuel =>
      match s with
      | String "(" (String "?" (String ":" s)) =>
          '(r, s) ← parse_alt fuel s;
          match s with String ")" s => Some (r, s) | _ => None end
      | String "(" s =>
          '(r, s) ← parse_alt fuel s;
          match s with String ")" s => Some (Group r, s) | _ => None end
      | String "[" s => '(f, s) ← parse_class fuel s; Some (Class_ f, s)
      | String "." s => Some (Class_ (fun c => negb (Ascii.eqb c (ascii_of_nat 10))), s)
      | String "\" (String c s) => Some (lit c, s)
      | String "$" s => Some (AtEnd, s)
      | String "^" s => Some (Empty, s)
      | String c s => Some (lit c, s)
      | EmptyString => None
      end
  end.

Definition parse (p : string) : option regex :=
  match parse_alt (4 * S (String.length p)) p with Some (r, EmptyString) => Some r | _ => None end.

(** [re.compile(p)]; a pattern that is no regular expression matches nothing. *)
Definition compile (p : string) : regex := default (Class_ (fun _ => false)) (parse p).

(** ** What matches *)

(** [trace r s g s' g']: [r] matches [s] up to [s'], which makes the groups [g]
    into [g']. *)
Inductive trace : regex -> string -> list string -> string -> list string -> Prop :=
| trace_empty s g : trace Empty s g s g
| trace_class f c s g : f c = true -> trace (Class_ f) (String c s) g s g
| trace_seq r1 r2 s s1 s2 g g1 g2 : trace r1 s g s1 g1 -> trace r2 s1 g1 s2 g2 -> trace (Seq r1 r2) s g s2 g2
| trace_left r1 r2 s s' g g' : trace r1 s g s' g' -> trace (Alt r1 r2) s g s' g'
| trace_right r1 r2 s s' g g' : trace r2 s g s' g' -> trace (Alt r1 r2) s g s' g'
| trace_some r s s' g g' : trace r s g s' g' -> trace (Opt r) s g s' g'
| trace_none r s g : trace (Opt r) s g s g
| trace_many_nil f s g : trace (Many f) s g s g
| trace_many_cons f c s s' g : f c = true -> trace (Many f) s g s' g -> trace (Many f) (String c s) g s' g
| trace_end s g : at_end s = true -> trace AtEnd s g s g
| trace_group r s s' g g' : trace r s g s' g' -> trace (Group r) s g s' (g' ++ [consumed s s']).

Lemma many_sound {R} f s g (k : string -> list string -> option R) x : run_many f s g k = Some x ->
  exists s', trace (Many f) s g s' g /\ k s' g = Some x.
Proof.
  induction s as [|c s IH]; simpl.
  - intros Hk. exists "". split; [constructor|done].
  - destruct (f c) eqn:Hc; [|intros Hk; exists (String c s); split; [constructor|done]].
    destruct (run_many f s g k) as [y|] eqn:E.
    + intros [= <-]. destruct (IH eq_refl) as (s' & Ht & Hk). exists s'. split; [by constructor|done].
    + intros Hk. exists (String c s). split; [constructor|done].
Qed.

(** The matcher finds only matches of the relation. *)
Lemma run_sound {R} r : forall s g (k : string -> list string -> option R) x, run r s g k = Some x ->
  exists s' g', trace r s g s' g' /\ k s' g' = Some x.
Proof.
  induction r as [|f|r1 IH1 r2 IH2|r1 IH1 r2 IH2|r IH|f| |r IH]; intros s g k x; simpl.
  - intros Hk. exists s, g. split; [constructor|done].
  - destruct s as [|c s]; [done|]. destruct (f c) eqn:Hc; [|done]. intros Hk. exists s, g. split; [by constructor|done].
  - intros (s1 & g1 & Ht1 & Hr)%IH1. apply IH2 in Hr as (s2 & g2 & Ht2 & Hk). exists s2, g2. split; [by econstructor|done].
  - destruct (run r1 s g k) as [y|] eqn:E.
    + intros [= <-]. apply IH1 in E as (s1 & g1 & Ht & Hk). exists s1, g1. split; [by constructor|done].
    + intros (s1 & g1 & Ht & Hk)%IH2. exists s1, g1. split; [by apply trace_right|done].
  - destruct (run r s g k) as [y|] eqn:E.
    + intros [= <-]. apply IH in E as (s1 & g1 & Ht & Hk). exists s1, g1. split; [by constructor|done].
    + intros Hk. exists s, g. split; [apply trace_none|done].
  - intros (s' & Ht & Hk)%many_sound. by exists s', g.
  - destruct (at_end s) eqn:E; [|done]. intros Hk. exists s, g. split; [by constructor|done].
  - intros (s' & g' & Ht & Hk)%IH. exists s', (g' ++ [consumed s s']). split; [by constructor|done].
Qed.

(** And it finds one whenever there is one with which the rest succeeds. *)
Lemma run_complete {R} r s g s' g' : trace r s g s' g' -> forall (k : string -> list string -> option R),
  k s' g' <> None -> run r s g k <> None.
Proof.
  induction 1; intros k Hk; simpl; try done.
  - by rewrite H.
  - apply IHtrace1. by apply IHtrace2.
  - specialize (IHtrace k Hk). by destruct (run r1 s g k).
  - specialize (IHtrace k Hk). by destruct (run r1 s g k).
  - specialize (IHtrace k Hk). by destruct (run r s g k).
  - by destruct (run r s g k).
  - destruct s as [|c s]; simpl; [done|]. destruct (f c); [|done]. by destruct (run_many f s g k).
  - rewrite H. specialize (IHtrace k Hk). simpl in IHtrace. by destruct (run_many f s g k).
  - by rewrite H.
  - by apply IHtrace.
Qed.

(** [re.match] finds a match exactly when there is one. *)
Theorem matches_iff r s : matches r s = true <-> exists s' g', trace r s [] s' g'.
Proof.
  unfold matches, match_groups. split.
  - destruct (run r s [] _) as [g|] eqn:E; [|done]. intros _. apply run_sound in E as (s' & g' & Ht & _). by exists s', g'.
  - intros (s' & g' & Ht). assert (Hn : run r s [] (fun _ g => Some g) <> None) by by eapply run_complete.
    by destruct (run r s [] _).
Qed.

Example parses_uuid : matches (compile "^/v1/([a-f0-9\-]{4})(?:/|$)") "/v1/0a-f/x" = true.
Proof. vm_compute. reflexivity. Qed.
Example class_ends : matches (compile "^/a/[^/]+$") "/a/b/c" = false.
Proof. vm_compute. reflexivity. Qed.
Example groups_found : match_groups (compile "^/v1/([^/]+)/([^/]+)(?:/|$)") "/v1/flows/7/x" = Some ["flows"; "7"].
Proof. vm_compute. reflexivity. Qed.
Example dollar_newline : matches (compile "^/a$") ("/a" +:+ nl) = true.
Proof. vm_compute. reflexivity. Qed.

(** ** Patterns of literal texts and repeated classes *)

(** The literal text [p], then [r]. *)
Fixpoint literal (p : string) (r : regex) : regex :=
  match p with EmptyString => r | String c p => Seq (lit c) (literal p r) end.

Fixpoint strip_prefix (p s : string) : option string :=
  match p, s with
  | EmptyString, _ => Some s
  | String c p, String d s => if Ascii.eqb c d then strip_prefix p s else None
  | String _ _, EmptyString => None
  end.

Lemma run_literal {R} p r : forall s g (k : string -> list string -> option R),
  run (literal p r) s g k = match strip_prefix p s with Some s' => run r s' g k | None => None end.
Proof. induction p as [|c p IH]; intros s g k; [done|]. destruct s as [|d s]; [done|]. simpl. by destruct (Ascii.eqb c d). Qed.

Lemma strip_prefix_some p : forall s s', strip_prefix p s = Some s' <-> s = p +:+ s'.
Proof.
  induction p as [|c p IH]; intros s s'; simpl; [split; [by intros [= ->]|by intros ->]|].
  change (String c p +:+ s') with (String c (p +:+ s')). destruct s as [|d s]; [done|].
  destruct (Ascii.eqb_spec c d) as [->|Hne]; [rewrite IH; split; [by intros ->|by intros [= ->]]|].
  split; [done|by intros [= ->]].
Qed.

(** [n] characters of a class, and what follows them. *)
Fixpoint take_class (n : nat) (f : ascii -> bool) (s : string) : option (string * string) :=
  match n, s with
  | O, _ => Some ("", s)
  | S n, String c s => if f c then '(t, s) ← take_class n f s; Some (String c t, s) else None
  | S _, EmptyString => None
  end.

Lemma run_repeat {R} n f : forall s g (k : string -> list string -> option R),
  run (repeat_class n f) s g k = match take_class n f s with Some (_, s') => k s' g | None => None end.
Proof.
  induction n as [|n IH]; intros s g k; [done|]. destruct s as [|c s]; [done|]. simpl.
  destruct (f c); [|done]. rewrite IH. by destruct (take_class n f s) as [[t s']|].
Qed.

Definition all_chars (f : ascii -> bool) (s : string) : bool := forallb f (String.list_ascii_of_string s).

Lemma take_class_some n f : forall s t s', take_class n f s = Some (t, s') <->
  s = t +:+ s' /\ String.length t = n /\ all_chars f t = true.
Proof.
  induction n as [|n IH]; intros s t s'; simpl.
  - split; [by intros [= <- <-]|]. intros (-> & Hl & _). by destruct t.
  - destruct s as [|c s].
    + split; [done|]. intros (Hs & Hl & _). by destruct t.
    + split.
      * destruct (f c) eqn:Hc; [|done]. destruct (take_class n f s) as [[t1 s1]|] eqn:E; [|done]. intros [= <- <-].
        apply IH in E as (-> & <- & Ha). split; [done|]. split; [done|]. unfold all_chars. simpl. by rewrite Hc.
      * intros (Hs & Hl & Ha). destruct t as [|d t]; [done|]. change (String d t +:+ s') with (String d (t +:+ s')) in Hs.
        injection Hs as -> ->. unfold all_chars in Ha. simpl in Ha, Hl. apply andb_true_iff in Ha as [-> Ha].
        injection Hl as Hl. rewrite (proj2 (IH _ t s')); [done|by split].
Qed.

Lemma consumed_app t s : consumed (t +:+ s) s = t.
Proof.
  unfold consumed. rewrite string_length_app. replace (String.length t + String.length s - String.length s)%nat with (String.length t) by lia.
  induction t as [|c t IH]; [by destruct s|]. change (String c t +:+ s) with (String c (t +:+ s)). simpl. by rewrite IH.
Qed.

Lemma trace_many_iff f s g s' g' : trace (Many f) s g s' g' <-> g' = g /\ exists t, s = t +:+ s' /\ all_chars f t = true.
Proof.
  split.
  - remember (Many f) as r eqn:Hr. induction 1; try done; injection Hr as ->.
    + split; [done|]. by exists "".
    + destruct (IHtrace eq_refl) as (_ & t & -> & Ht). split; [done|]. exists (String c t). split; [done|].
      unfold all_chars. simpl. by rewrite H.
  - intros (-> & t & -> & Ht). revert Ht. induction t as [|c t IH]; [constructor|].
    unfold all_chars. simpl. intros [Hc Ht]%andb_true_iff. change (String c t +:+ s') with (String c (t +:+ s')).
    constructor; [done|by apply IH].
Qed.

Lemma all_chars_app f a b : all_chars f (a +:+ b) = all_chars f a && all_chars f b.
Proof. unfold all_chars. by rewrite list_ascii_app, forallb_app. Qed.

Lemma trace_repeat_iff n f s g s' g' : trace (repeat_class n f) s g s' g' <->
  g' = g /\ exists t, s = t +:+ s' /\ all_chars f t = true /\ String.length t = n.
Proof.
  revert s. induction n as [|n IH]; intros s; simpl; split.
  - inversion 1; subst. split; [done|]. by exists "".
  - intros (-> & [|c t] & -> & _ & Hl); [constructor|done].
  - inversion 1 as [| |r1 r2 x s1 y h g1 h' H1 H2| | | | | | | |]; subst. inversion H1; subst.
    apply IH in H2 as (-> & t & -> & Ht & <-). split; [done|]. exists (String c t). split_and!; [done| |done].
    unfold all_chars in *. simpl. by rewrite Ht, andb_true_r.
  - intros (-> & [|c t] & -> & Ht & Hl); [done|]. unfold all_chars in Ht. simpl in Ht. apply andb_true_iff in Ht as [Hc Ht].
    change (String c t +:+ s') with (String c (t +:+ s')). econstructor; [by constructor|]. apply IH. split; [done|].
    exists t. split_and!; [done|done|]. by injection Hl.
Qed.

Lemma trace_seq_iff r1 r2 s g s' g' : trace (Seq r1 r2) s g s' g' <->
  exists s1 g1, trace r1 s g s1 g1 /\ trace r2 s1 g1 s' g'.
Proof. split; [inversion 1; eauto|]. intros (s1 & g1 & H1 & H2). by econstructor. Qed.

Lemma trace_lit_iff c s g s' g' : trace (lit c) s g s' g' <-> g' = g /\ s = String c s'.
Proof.
  split; [inversion 1 as [|f d x y Hc| | | | | | | | |]; subst; by apply Ascii.eqb_eq in Hc as ->|].
  intros [-> ->]. constructor. apply Ascii.eqb_refl.
Qed.

(** At least [n] characters of a class. *)
Lemma trace_at_least n f s g s' g' : trace (Seq (repeat_class n f) (Many f)) s g s' g' <->
  g' = g /\ exists t, s = t +:+ s' /\ all_chars f t = true /\ (n <= String.length t)%nat.
Proof.
  rewrite trace_seq_iff. split.
  - intros (s1 & g1 & (-> & t & -> & Ht & Hl)%trace_repeat_iff & (-> & u & -> & Hu)%trace_many_iff). split; [done|].
    exists (t +:+ u). rewrite all_chars_app, Ht, Hu, string_length_app. split_and!; [by rewrite append_assoc|done|lia].
  - intros (-> & t & -> & Ht & Hl).
    assert (exists a b, t = a +:+ b /\ String.length a = n) as (a & b & -> & Ha).
    { clear Ht. revert t Hl. induction n as [|n IH]; intros t Hl; [by exists "", t|].
      destruct t as [|c t]; simpl in Hl; [lia|]. destruct (IH t) as (a & b & -> & Ha); [lia|].
      exists (String c a), b. split; [done|]. simpl. by rewrite Ha. }
    rewrite all_chars_app in Ht. apply andb_true_iff in Ht as [Hta Htb].
    exists (b +:+ s'), g. split; [apply trace_repeat_iff|apply trace_many_iff]; (split; [done|]).
    + exists a. split_and!; [by rewrite append_assoc|done|done].
    + by exists b.
Qed.

Lemma trace_plus f s g s' g' : trace (Seq (Class_ f) (Many f)) s g s' g' <->
  g' = g /\ exists t, s = t +:+ s' /\ all_chars f t = true /\ (1 <= String.length t)%nat.
Proof.
  rewrite <- (trace_at_least 1). rewrite !trace_seq_iff. simpl. split.
  - intros (s1 & g1 & H1 & H2). exists s1, g1. split; [|done]. econstructor; [done|constructor].
  - intros (s1 & g1 & H1 & H2). apply trace_seq_iff in H1 as (s2 & g2 & H1 & H3). inversion H3; subst. by exists s1, g1.
Qed.
