(* ===== verification/PyIso.v ===== *)
(** * [datetime] with a time zone

    A [datetime] object is the time its clock shows, in microseconds since 1970,
    and its offset from UTC in minutes when it has one. [isoformat] writes it,
    [fromisoformat] reads it back; two of them compare when both have an offset
    or neither has. *)

From S2P Require Import Prelude PyRuntime PyText PyDate PyInt PyRegex.
Local Open Scope Z_scope.

Record datetime := DateTime { dt_local : Z; dt_offset : option Z }.

(** The years Python has, and offsets of less than a day. *)
Definition valid_datetime (t : datetime) : Prop :=
  valid_date (dt_date (dt_local t)) /\ match dt_offset t with Some m => -1440 < m < 1440 | None => True end.

Definition valid_optional (t : option datetime) : Prop := match t with Some t => valid_datetime t | None => True end.

(** [datetime.now()] *)
Definition naive (t : Z) : datetime := DateTime t None.

(** ** Comparison *)

(** [a <= b] *)
Definition dt_le (a b : datetime) : result bool :=
  match dt_offset a, dt_offset b with
  | None, None => Ok (dt_local a <=? dt_local b)
  | Some x, Some y => Ok (dt_local a - x * minute <=? dt_local b - y * minute)
  | _, _ => Raise (raise_ TypeError "can't compare offset-naive and offset-aware datetimes")
  end.

(** [a > b] *)
Definition dt_gt (a b : datetime) : result bool := match dt_le a b with Ok le => Ok (negb le) | Raise e => Raise e end.

(** [a <= t <= b]: the second comparison is made if the first holds. *)
Definition dt_between (a t b : datetime) : result bool :=
  match dt_le a t with Ok true => dt_le t b | r => r end.

(** ** Texts *)

Definition offset_text (m : Z) : string :=
  (if m <? 0 then "-" else "+") +:+ zero_pad 2 (Z.abs m / 60) +:+ ":" +:+ zero_pad 2 (Z.abs m mod 60).

(** [t.isoformat()] *)
Definition dt_isoformat (t : datetime) : string :=
  isoformat (dt_local t) +:+ match dt_offset t with Some m => offset_text m | None => "" end.

(** Reading [n] characters that are a number, and one character. *)
Definition read_number (n : nat) (s : string) : option (Z * string) :=
  '(t, rest) ← take_class n (fun _ => true) s; v ← digits 0 t; Some (v, rest).
Definition read_char (c : ascii) (s : string) : option string :=
  match s with String c' rest => if Ascii.eqb c c' then Some rest else None | EmptyString => None end.

Definition read_fraction (s : string) : option (Z * string) :=
  match read_char "." s with Some rest => read_number 6 rest | None => Some (0, s) end.

Definition read_offset (s : string) : option (option Z) :=
  match s with
  | EmptyString => Some None
  | String c rest =>
      sign ← (if Ascii.eqb c "+" then Some 1 else if Ascii.eqb c "-" then Some (-1) else None);
      '(h, rest) ← read_number 2 rest; rest ← read_char ":" rest; '(m, rest) ← read_number 2 rest;
      if String.eqb rest "" && (h <? 24) && (m <? 60) then Some (Some (sign * (h * 60 + m))) else None
  end.

(** The text [YYYY-MM-DDTHH:MM:SS[.ffffff][+HH:MM]]. *)
Definition parse_iso (s : string) : option datetime :=
  '(day_text, rest) ← take_class 10 (fun _ => true) s;
  d ← parse_date day_text;
  rest ← read_char "T" rest;
  '(h, rest) ← read_number 2 rest; rest ← read_char ":" rest;
  '(mi, rest) ← read_number 2 rest; rest ← read_char ":" rest;
  '(sec, rest) ← read_number 2 rest; '(us, rest) ← read_fraction rest;
  tz ← read_offset rest;
  if (h <? 24) && (mi <? 60) && (sec <? 60)
  then Some (DateTime (d * day + h * hour + mi * minute + sec * second + us) tz) else None.

(** What [datetime.fromisoformat] makes of the other texts it reads, or refuses. *)
Class IsoTimes := { iso_time_other : string -> result datetime }.

Definition dt_fromisoformat `{IsoTimes} (s : string) : result datetime :=
  match parse_iso s with Some t => Ok t | None => iso_time_other s end.

(** ** A text is read back *)

Lemma take_any n t s' : String.length t = n -> take_class n (fun _ => true) (t +:+ s') = Some (t, s').
Proof.
  intros Hl. apply take_class_some. split_and!; [done|done|]. unfold all_chars. apply forallb_forall. done.
Qed.

Lemma read_padded n z s' : (0 < n)%nat -> 0 <= z < 10 ^ Z.of_nat n -> read_number n (zero_pad n z +:+ s') = Some (z, s').
Proof.
  intros Hn Hz. destruct (padded_inv _ _ (padded n z Hn Hz)) as [Hl Hd]. unfold read_number.
  rewrite take_any by done. simpl. by rewrite Hd.
Qed.

Lemma read_char_eq c s' : read_char c (String c "" +:+ s') = Some s'.
Proof. change (String c "" +:+ s') with (String c s'). simpl. by rewrite Ascii.eqb_refl. Qed.

(** The digits of an offset, read with its sign. *)
Lemma read_offset_digits sign m : -1440 < m < 1440 ->
  ('(h, rest) ← read_number 2 (zero_pad 2 (Z.abs m / 60) +:+ ":" +:+ zero_pad 2 (Z.abs m mod 60));
   rest ← read_char ":" rest; '(k, rest) ← read_number 2 rest;
   if String.eqb rest "" && (h <? 24) && (k <? 60) then Some (Some (sign * (h * 60 + k))) else None) =
  Some (Some (sign * Z.abs m)).
Proof.
  intros Hm. pose proof (Z.mod_pos_bound (Z.abs m) 60 ltac:(lia)). pose proof (Z.div_mod (Z.abs m) 60 ltac:(lia)).
  assert (0 <= Z.abs m / 60 < 24) by (split; [apply Z.div_pos; lia|apply Z.div_lt_upper_bound; lia]).
  rewrite read_padded by lia. cbn [mbind option_bind]. rewrite read_char_eq. cbn [mbind option_bind].
  rewrite <- (append_nil (zero_pad 2 (Z.abs m mod 60))), read_padded by lia. cbn [mbind option_bind].
  rewrite (proj2 (Z.ltb_lt _ _)), (proj2 (Z.ltb_lt _ _)) by lia. cbn [String.eqb andb]. do 3 f_equal. lia.
Qed.

Lemma read_offset_text m : -1440 < m < 1440 -> read_offset (offset_text m) = Some (Some m).
Proof.
  intros Hm. unfold offset_text. destruct (Z.ltb_spec m 0).
  - etrans; [exact (read_offset_digits (-1) m Hm)|]. do 2 f_equal. lia.
  - etrans; [exact (read_offset_digits 1 m Hm)|]. do 2 f_equal. lia.
Qed.

Definition offset_part (tz : option Z) : string := match tz with Some m => offset_text m | None => "" end.

Lemma read_offset_part tz : match tz with Some m => -1440 < m < 1440 | None => True end ->
  read_offset (offset_part tz) = Some tz.
Proof. destruct tz; [apply read_offset_text|done]. Qed.

Lemma read_fraction_part us tz : 0 <= us < second ->
  read_fraction ((if us =? 0 then "" else "." +:+ zero_pad 6 us) +:+ offset_part tz) = Some (us, offset_part tz).
Proof.
  intros Hus. unfold read_fraction. destruct (Z.eqb_spec us 0) as [->|].
  - change ("" +:+ ?x) with x. destruct tz as [m|]; [|done]. simpl. unfold offset_text. by destruct (m <? 0).
  - change (("." +:+ ?x) +:+ ?y) with ("." +:+ (x +:+ y)). rewrite read_char_eq. apply read_padded; [lia|done].
Qed.

(** The parts of a time. *)
Lemma time_parts t : 0 <= dt_hour t < 24 /\ 0 <= dt_minute t < 60 /\ 0 <= dt_second t < 60 /\
  0 <= dt_microsecond t < second /\
  dt_date t * day + dt_hour t * hour + dt_minute t * minute + dt_second t * second + dt_microsecond t = t.
Proof.
  unfold dt_date, dt_hour, dt_minute, dt_second, dt_microsecond, day, hour, minute, second.
  pose proof (Z.div_mod t 86400000000 ltac:(lia)). pose proof (Z.mod_pos_bound t 86400000000 ltac:(lia)).
  Z.div_mod_to_equations. lia.
Qed.

Lemma date_isoformat_length d : valid_date d -> String.length (date_isoformat d) = 10%nat.
Proof.
  intros Hv. unfold valid_date, date_isoformat in *. pose proof (civil_spec d) as Hs.
  destruct (civil d) as [[y m] dd]. destruct Hs as (_ & Hm & Hd). simpl in Hv. rewrite !string_length_app.
  by rewrite (proj1 (padded_inv _ _ (padded 4 y ltac:(lia) ltac:(lia)))),
    (proj1 (padded_inv _ _ (padded 2 m ltac:(lia) ltac:(lia)))), (proj1 (padded_inv _ _ (padded 2 dd ltac:(lia) ltac:(lia)))).
Qed.

Lemma isoformat_date t : isoformat t = date_isoformat (dt_date t) +:+ "T" +:+ zero_pad 2 (dt_hour t) +:+ ":" +:+
  zero_pad 2 (dt_minute t) +:+ ":" +:+ zero_pad 2 (dt_second t) +:+
  (if dt_microsecond t =? 0 then "" else "." +:+ zero_pad 6 (dt_microsecond t)).
Proof. unfold isoformat, date_isoformat. destruct (civil (dt_date t)) as [[y m] d]. by rewrite !append_assoc. Qed.

(** [fromisoformat] reads what [isoformat] wrote. *)
Theorem fromisoformat_isoformat `{IsoTimes} t : valid_datetime t -> dt_fromisoformat (dt_isoformat t) = Ok t.
Proof.
  destruct t as [t tz]. intros [Hd Hz]. simpl in Hd, Hz. unfold dt_fromisoformat.
  destruct (time_parts t) as (Hh & Hm & Hs & Hu & Ht).
  enough (parse_iso (dt_isoformat (DateTime t tz)) = Some (DateTime t tz)) as -> by done.
  unfold dt_isoformat. cbn [dt_local dt_offset]. fold (offset_part tz). rewrite isoformat_date, !append_assoc.
  unfold parse_iso. rewrite take_any by (by apply date_isoformat_length). cbn [mbind option_bind].
  rewrite parse_date_isoformat by done. cbn [mbind option_bind].
  repeat (rewrite read_char_eq || rewrite read_padded by lia; cbn [mbind option_bind]).
  rewrite read_fraction_part by done. cbn [mbind option_bind]. rewrite read_offset_part by done. cbn [mbind option_bind].
  rewrite !(proj2 (Z.ltb_lt _ _)) by lia. cbn [andb]. by rewrite Ht.
Qed.

Example reads_utc `{IsoTimes} : dt_fromisoformat "2024-02-29T12:30:00.000005+05:30" =
  Ok (DateTime (1709209800 * second + 5) (Some 330)).
Proof. vm_compute. reflexivity. Qed.

(** ** Order *)

(** Times of the same kind are ordered in one way or the other. *)
Lemma dt_le_total a b : opt_is_some (dt_offset a) = opt_is_some (dt_offset b) ->
  dt_le a b = Ok true \/ dt_le b a = Ok true.
Proof.
  unfold dt_le. destruct (dt_offset a), (dt_offset b); try done; intros _.
  - match goal with |- Ok (?x <=? ?y) = _ \/ _ => destruct (Z.leb_spec x y); [by left|right; f_equal; apply Z.leb_le; lia] end.
  - match goal with |- Ok (?x <=? ?y) = _ \/ _ => destruct (Z.leb_spec x y); [by left|right; f_equal; apply Z.leb_le; lia] end.
Qed.

(** [a <= t <= b] raises for a mixture of kinds, but for [t] before [a]. *)
Lemma dt_between_raises a t b e : dt_between a t b = Raise e ->
  opt_is_some (dt_offset a) <> opt_is_some (dt_offset t) \/ opt_is_some (dt_offset t) <> opt_is_some (dt_offset b).
Proof.
  unfold dt_between, dt_le. destruct (dt_offset a), (dt_offset t), (dt_offset b); simpl; try (by left); try (by right);
    by case_match.
Qed.
