(* ===== verification/PyGen.v ===== *)
(** * Generators

    Generator objects of Python, synchronous or asynchronous, as the trees of
    what happens when they are resumed or closed, and the statements the code
    puts around a [yield]: loops, [try ... finally] and [try ... except ... else]. *)

From S2P Require Import Prelude PyRuntime.

(** A generator object: its code up to the next [yield], and what closing it
    where it stands does. A generator that has not started closes at once. *)
Inductive Gen (W A : Type) :=
| GenOf (next : W -> Step W A) (close : W -> result unit * W)
with Step (W A : Type) :=
| Yield (item : A) (rest : Gen W A) (w : W)
| Return (w : W)
| Throw (e : exn) (w : W).
Arguments GenOf {_ _} _ _.
Arguments Yield {_ _} _ _ _.
Arguments Return {_ _} _.
Arguments Throw {_ _} _ _.

(** How a consumer leaves a generator: it is exhausted, it was closed, or it failed. *)
Inductive ending := Exhausted | Closed (r : result unit) | Crashed (e : exn).

Section generators.
Context {W A : Type}.

Definition gen_close (g : Gen W A) : W -> result unit * W := match g with GenOf _ close => close end.
Definition unstarted : W -> result unit * W := fun w => (Ok tt, w).

Definition empty_gen : Gen W A := GenOf Return unstarted.

(** The end of a generator's code. *)
Definition finish (m : W -> result unit * W) (w : W) : Step W A :=
  match m w with (Ok _, w) => Return w | (Raise e, w) => Throw e w end.

(** A generator whose first part computes what it goes on with. *)
Definition start_with (m : M W (Gen W A)) : Gen W A :=
  GenOf (fun w => match m w with
                  | (Ok (GenOf next _), w) => next w
                  | (Raise e, w) => Throw e w
                  end) unstarted.

(** [try: ... finally: f()] around the code of a generator. *)
Fixpoint with_finally (f : W -> W) (g : Gen W A) : Gen W A :=
  match g with
  | GenOf next close => GenOf (fun w => finally_step f (next w)) (fun w => let '(r, w) := close w in (r, f w))
  end
with finally_step (f : W -> W) (s : Step W A) : Step W A :=
  match s with
  | Yield a g w => Yield a (with_finally f g) w
  | Return w => Return (f w)
  | Throw e w => Throw e (f w)
  end.

(** [try: ... except: on_error(e) else: on_end()]; [on_error] re-raises what its
    clauses do not catch. Closing raises [GeneratorExit], which they do not catch,
    but they catch what closing an inner generator raises. *)
Fixpoint with_except (on_error : exn -> M W unit) (on_end : M W unit) (g : Gen W A) : Gen W A :=
  match g with
  | GenOf next close =>
      GenOf (fun w => except_step on_error on_end (next w))
        (fun w => match close w with (Ok _, w) => (Ok tt, w) | (Raise e, w) => on_error e w end)
  end
with except_step (on_error : exn -> M W unit) (on_end : M W unit) (s : Step W A) : Step W A :=
  match s with
  | Yield a g w => Yield a (with_except on_error on_end g) w
  | Return w => finish on_end w
  | Throw e w => finish (on_error e) w
  end.

(** [for item in g: yield item]: closing the loop leaves [g] as it is, for the
    interpreter to finalise. *)
Fixpoint loop_over (g : Gen W A) : Gen W A :=
  match g with GenOf next close => GenOf (fun w => loop_step (next w)) unstarted end
with loop_step (s : Step W A) : Step W A :=
  match s with Yield a g w => Yield a (loop_over g) w | _ => s end.

(** What a consumer sees of a generator: after each item it decides to go on or
    to close the generator, and may change the world. *)
Fixpoint consume (k : A -> W -> bool * W) (g : Gen W A) (w : W) : list A * ending * W :=
  match g with GenOf next _ => consume_step k (next w) end
with consume_step (k : A -> W -> bool * W) (s : Step W A) : list A * ending * W :=
  match s with
  | Yield a g w =>
      let '(more, w) := k a w in
      if more then let '(items, e, w) := consume k g w in (a :: items, e, w)
      else let '(r, w) := gen_close g w in ([a], Closed r, w)
  | Return w => ([], Exhausted, w)
  | Throw e w => ([], Crashed e, w)
  end.

(** The ending of a computation that follows a generator. *)
Definition ends (x : result unit * W) : ending * W :=
  match x with (Ok _, w) => (Exhausted, w) | (Raise e, w) => (Crashed e, w) end.

Lemma consume_finally (k : A -> W -> bool * W) (f : W -> W) g w :
  consume k (with_finally f g) w = let '(items, e, w') := consume k g w in (items, e, f w').
Proof.
  revert g w. fix IH 1. intros [next close] w. simpl.
  destruct (next w) as [a g w'|w'|e w']; [|done..]. simpl.
  destruct (k a w') as [[] w2]; [rewrite IH; by destruct (consume k g w2) as [[items e] w3]|].
  destruct g as [next' close']. simpl. by destruct (close' w2).
Qed.

Lemma consume_except (k : A -> W -> bool * W) on_error on_end g w :
  consume k (with_except on_error on_end g) w =
  let '(items, e, w') := consume k g w in
  match e with
  | Exhausted => let '(e', w2) := ends (on_end w') in (items, e', w2)
  | Crashed exc => let '(e', w2) := ends (on_error exc w') in (items, e', w2)
  | Closed (Ok _) => (items, Closed (Ok tt), w')
  | Closed (Raise exc) => let '(r, w2) := on_error exc w' in (items, Closed r, w2)
  end.
Proof.
  revert g w. fix IH 1. intros [next close] w. simpl.
  destruct (next w) as [a g w'|w'|e w']; simpl.
  - destruct (k a w') as [[] w2].
    + rewrite IH. destruct (consume k g w2) as [[items e] w3].
      destruct e as [|[ [] |exc]|exc]; simpl; [by destruct (ends (on_end w3))|done|by destruct (on_error exc w3)|by destruct (ends (on_error exc w3))].
    + destruct g as [next' close']. simpl. destruct (close' w2) as [[ [] |e] w3]; [done|by destruct (on_error e w3)].
  - unfold finish. by destruct (on_end w') as [[] w2].
  - unfold finish. by destruct (on_error e w') as [[] w2].
Qed.

Lemma consume_start (k : A -> W -> bool * W) (m : M W (Gen W A)) w :
  consume k (start_with m) w = match m w with (Ok g, w') => consume k g w' | (Raise e, w') => ([], Crashed e, w') end.
Proof. simpl. by destruct (m w) as [[ [next close] |e] w']. Qed.
End generators.
