(* ===== verification/Dataclass.v ===== *)
(** * Data classes and their dictionaries

    The data classes of the models write themselves as dictionaries ([to_dict])
    and are read back ([from_dict]). Python does not check the annotations of a
    data class: an attribute that is only stored and copied holds any JSON value
    here, and reading subscripts whatever it is given. Numbers with a fraction are
    no JSON values of the model. A class of two operations and its laws,
    [DictCodec] and [RoundTrip], are what one model asks of another. *)

From S2P Require Import Prelude PyRuntime PyText PyDate PyInt PyRegex PyIso.
Local Open Scope Z_scope.

(** ** JSON values as Python objects *)

Definition AttributeError := subclass "AttributeError" Exception_.
Definition type_error : exn := raise_ TypeError "".
Definition key_error (k : string) : exn := raise_ KeyError k.

(** [a == b]: a boolean equals its number, the order of keys does not matter. *)
Fixpoint json_eq (a b : json) : bool :=
  match a, b with
  | JNull, JNull => true
  | JBool x, JBool y => eqb x y
  | JInt x, JInt y => x =? y
  | JBool x, JInt y | JInt y, JBool x => Z.b2z x =? y
  | JStr x, JStr y => String.eqb x y
  | JTime x, JTime y => x =? y
  | JList l, JList l' =>
      (fix go l l' := match l, l' with
                      | [], [] => true
                      | x :: l, y :: l' => json_eq x y && go l l'
                      | _, _ => false
                      end) l l'
  | JDict d, JDict d' =>
      (length d =? length d')%nat &&
      (fix go d := match d with
                   | [] => true
                   | (k, x) :: d => match dget k d' with Some y => json_eq x y | None => false end && go d
                   end) d
  | _, _ => false
  end.

(** [data[k]] *)
Definition item (k : string) (data : json) : result json :=
  match data with
  | JDict d => match dget k d with Some v => Ok v | None => Raise (key_error k) end
  | _ => Raise type_error
  end.

(** [data.get(k, fallback)] *)
Definition get_or (k : string) (fallback : json) (data : json) : result json :=
  match data with
  | JDict d => Ok (default fallback (dget k d))
  | _ => Raise (raise_ AttributeError "get")
  end.

(** [data.get(k)] *)
Definition get_item (k : string) : json -> result json := get_or k JNull.

(** [k in data] *)
Definition has_key (k : string) (data : json) : result bool :=
  match data with
  | JDict d => Ok (din k d)
  | JStr s => Ok (contains k s)
  | JList l => Ok (existsb (fun x => jeq_str x k) l)
  | _ => Raise type_error
  end.

(** [for x in data] *)
Definition elems (data : json) : result (list json) :=
  match data with
  | JList l => Ok l
  | JDict d => Ok (map JStr (dkeys d))
  | JStr s => Ok (map (fun c => JStr (String c "")) (String.list_ascii_of_string s))
  | _ => Raise type_error
  end.

(** [[f(x) for x in l]] *)
Fixpoint each {A B} (f : A -> result B) (l : list A) : result (list B) :=
  match l with
  | [] => Ok []
  | x :: l => y ← f x; ys ← each f l; Ok (y :: ys)
  end.

Definition read_list {A} (f : json -> result A) (data : json) : result (list A) := l ← elems data; each f l.

(** [f(data[k]) if k in data else fallback] *)
Definition if_present {A} (k : string) (f : json -> result A) (fallback : A) (data : json) : result A :=
  present ← has_key k data; if (present : bool) then (v ← item k data; f v) else Ok fallback.

Definition option_of {A} (f : json -> result A) (data : json) : result (option A) := x ← f data; Ok (Some x).

(** [datetime.fromisoformat(v)] *)
Definition read_time `{IsoTimes} (v : json) : result datetime :=
  match v with JStr s => dt_fromisoformat s | _ => Raise type_error end.
Definition time_json (t : datetime) : json := JStr (dt_isoformat t).

(** ** What a dictionary holds *)

(** [if v: result[k] = v], and [if v is not None: result[k] = v] *)
Definition if_truthy (k : string) (v : json) : pydict json := if json_truthy v then [(k, v)] else [].
Definition unless_none (k : string) (v : json) : pydict json := match v with JNull => [] | _ => [(k, v)] end.
Definition if_some {A} (k : string) (f : A -> json) (v : option A) : pydict json :=
  match v with Some x => [(k, f x)] | None => [] end.
Definition if_any {A} (k : string) (f : A -> json) (l : list A) : pydict json :=
  match l with [] => [] | _ => [(k, JList (map f l))] end.

(** What is left of an attribute that was written only if it was true. *)
Definition kept (v : json) : json := if json_truthy v then v else JNull.

(** ** Enumerations *)

Class PyEnum (A : Type) := { enum_value : A -> json; enum_members : list A }.
Class PyEnumLaws (A : Type) `{PyEnum A} := {
  enum_find a : List.find (fun b => json_eq (enum_value b) (enum_value a)) enum_members = Some a }.

(** [A(value)] *)
Definition enum_of {A} `{PyEnum A} (v : json) : result A :=
  match List.find (fun a => json_eq (enum_value a) v) enum_members with
  | Some a => Ok a
  | None => Raise (raise_ ValueError "not a valid member")
  end.

Lemma enum_of_value {A} `{PyEnumLaws A} (a : A) : enum_of (enum_value a) = Ok a.
Proof. unfold enum_of. by rewrite enum_find. Qed.

(** ** Models *)

Class DictCodec (A : Type) := { to_dict : A -> json; from_dict : json -> result A }.

(** What is written is read back, but for what [settle] forgets, and that does not
    show in what is written. *)
Class RoundTrip (A : Type) `{DictCodec A} := {
  settle : A -> A;
  admissible : A -> Prop;
  read_back a : admissible a -> from_dict (to_dict a) = Ok (settle a);
  settle_written a : admissible a -> to_dict (settle a) = to_dict a }.

(** ** Lemmas *)

Lemma item_dict k d : item k (JDict d) = match dget k d with Some v => Ok v | None => Raise (key_error k) end.
Proof. done. Qed.

Lemma dget_if_truthy k k' v d : dget k (if_truthy k' v ++ d) =
  if String.eqb k k' then (if json_truthy v then Some v else dget k d) else dget k d.
Proof. unfold if_truthy. destruct (json_truthy v), (String.eqb k k') eqn:E; simpl; by rewrite ?E. Qed.

Lemma dget_unless_none k k' v d : dget k (unless_none k' v ++ d) =
  if String.eqb k k' then match v with JNull => dget k d | _ => Some v end else dget k d.
Proof. unfold unless_none. destruct v, (String.eqb k k') eqn:E; simpl; by rewrite ?E. Qed.

Lemma dget_if_some {A} k k' (f : A -> json) v d : dget k (if_some k' f v ++ d) =
  if String.eqb k k' then match v with Some x => Some (f x) | None => dget k d end else dget k d.
Proof. unfold if_some. destruct v, (String.eqb k k') eqn:E; simpl; by rewrite ?E. Qed.

Lemma dget_if_any {A} k k' (f : A -> json) l d : dget k (if_any k' f l ++ d) =
  if String.eqb k k' then match l with [] => dget k d | _ => Some (JList (map f l)) end else dget k d.
Proof. unfold if_any. destruct l, (String.eqb k k') eqn:E; simpl; by rewrite ?E. Qed.

#[export] Hint Rewrite @dget_if_truthy @dget_unless_none @dget_if_some @dget_if_any : codec.

Lemma each_map {A B C} (f : A -> result B) (g : C -> A) (h : C -> B) l :
  (forall c, In c l -> f (g c) = Ok (h c)) -> each f (map g l) = Ok (map h l).
Proof.
  induction l as [|c l IH]; intros Hl; [done|]. simpl. rewrite Hl by (by left). simpl. rewrite IH; [done|].
  intros. apply Hl. by right.
Qed.

Lemma read_list_map {A B} (f : json -> result A) (g : B -> json) (h : B -> A) l :
  (forall b, In b l -> f (g b) = Ok (h b)) -> read_list f (JList (map g l)) = Ok (map h l).
Proof. intros Hl. unfold read_list. simpl. by apply each_map. Qed.

Lemma read_enums {A} `{PyEnumLaws A} (l : list A) : read_list enum_of (JList (map enum_value l)) = Ok l.
Proof. rewrite (read_list_map _ _ id); [by rewrite map_id|]. intros. apply enum_of_value. Qed.

Lemma read_models {A} `{RoundTrip A} (l : list A) : Forall admissible l ->
  read_list from_dict (JList (map to_dict l)) = Ok (map settle l).
Proof. intros Ha. apply read_list_map. intros a Hin. apply read_back. by eapply Forall_forall, list_elem_of_In. Qed.

Lemma settle_all {A} `{RoundTrip A} (l : list A) : Forall admissible l -> map to_dict (map settle l) = map to_dict l.
Proof. intros Hl. induction Hl as [|a l Ha Hl IH]; [done|]. simpl. by rewrite settle_written, IH. Qed.

Lemma read_time_json `{IsoTimes} t : valid_datetime t -> read_time (time_json t) = Ok t.
Proof. apply fromisoformat_isoformat. Qed.

Lemma kept_or v : (if json_truthy v then v else JNull) = kept v.
Proof. done. Qed.
Lemma kept_truthy k v : if_truthy k (kept v) = if_truthy k v.
Proof. unfold if_truthy, kept. destruct (json_truthy v) eqn:E; by rewrite ?E. Qed.
Lemma json_truthy_kept v : json_truthy (kept v) = json_truthy v.
Proof. unfold kept. by destruct (json_truthy v) eqn:E; rewrite ?E. Qed.
Lemma default_kept v : default JNull (if json_truthy v then Some v else None) = kept v.
Proof. unfold kept. by destruct (json_truthy v). Qed.
Lemma default_none v : default JNull (match v with JNull => None | _ => Some v end) = v.
Proof. by destruct v. Qed.

#[export] Hint Rewrite @read_enums @enum_of_value @kept_truthy @json_truthy_kept @default_kept @default_none
  @map_id : codec.

(** A key that is written on a condition, read on the same condition. *)
Definition reading {A} (f : json -> result A) (fallback : A) (v : option json) : result A :=
  match v with Some v => f v | None => Ok fallback end.

Lemma if_present_dict {A} k f (a : A) d : if_present k f a (JDict d) = reading f a (dget k d).
Proof. unfold if_present, has_key, din, item, reading. by destruct (dget k d). Qed.

Lemma reading_some {A} f (a : A) v : reading f a (Some v) = f v.
Proof. done. Qed.

Lemma reading_truthy v : reading Ok JNull (if json_truthy v then Some v else None) = Ok (kept v).
Proof. unfold kept. by destruct (json_truthy v). Qed.

Lemma reading_truthy_or fallback v : reading Ok fallback (if json_truthy v then Some v else None) =
  Ok (if json_truthy v then v else fallback).
Proof. by destruct (json_truthy v). Qed.

Lemma reading_optional {A B} (f : json -> result B) (g : A -> json) (h : A -> B) v :
  (forall x, v = Some x -> f (g x) = Ok (h x)) ->
  reading (option_of f) None (match v with Some x => Some (g x) | None => None end) = Ok (option_map h v).
Proof. intros Hf. destruct v as [x|]; [|done]. simpl. unfold option_of. by rewrite Hf. Qed.

Lemma reading_optional_enum {A} `{PyEnumLaws A} (v : option A) :
  reading (option_of enum_of) None (match v with Some x => Some (enum_value x) | None => None end) = Ok v.
Proof. rewrite (reading_optional _ _ id); [by destruct v|]. intros. apply enum_of_value. Qed.

Lemma reading_optional_model {A} `{RoundTrip A} (v : option A) : (forall x, v = Some x -> admissible x) ->
  reading (option_of from_dict) None (match v with Some x => Some (to_dict x) | None => None end) = Ok (option_map settle v).
Proof. intros Hv. apply reading_optional. intros x E. by apply read_back, Hv. Qed.

Lemma reading_any {A B} (f : json -> result B) (g : A -> json) (h : A -> B) l :
  (forall x, In x l -> f (g x) = Ok (h x)) ->
  reading (read_list f) [] (match l with [] => None | _ => Some (JList (map g l)) end) = Ok (map h l).
Proof. intros Hf. destruct l as [|x l]; [done|]. exact (read_list_map f g h (x :: l) Hf). Qed.

Lemma reading_any_enum {A} `{PyEnumLaws A} (l : list A) :
  reading (read_list enum_of) [] (match l with [] => None | _ => Some (JList (map enum_value l)) end) = Ok l.
Proof. rewrite (reading_any _ _ id); [by rewrite map_id|]. intros. apply enum_of_value. Qed.

#[export] Hint Rewrite @if_present_dict @reading_some @reading_truthy @reading_optional_enum @reading_any_enum : codec.

(** Looks the keys of a written dictionary up. *)
Ltac look_up :=
  unfold get_item, get_or, has_key, din;
  repeat progress (rewrite ?item_dict; autorewrite with codec;
    cbn [dget String.eqb Ascii.eqb eqb app default from_option id mbind result_bind opt_is_some]);
  try match goal with |- PyEnumLaws _ => apply _ end.
