(* ===== verification/Pydantic.v ===== *)
(** * Pydantic models

    The document models are classes of typed fields with validators. An object
    is the dictionary of its fields, in the order of their declaration, as
    [model_dump] gives it. Building an object checks its fields in that order;
    what pydantic makes of a value that does not have the declared type is the
    parameter [coerce]. [json.dumps] of the standard library closes the file. *)

From S2P Require Import Prelude PyRuntime PyText PyUuid PyBytes PyDate.
Local Open Scope Z_scope.

(** ** Values *)

(** [VEnum cls value]: a member of a [StrEnum]; [VUUID] holds the 32 digits. *)
Inductive pyval :=
| VNone
| VBool (b : bool)
| VInt (z : Z)
| VStr (s : string)
| VBytes (bs : bytes)
| VEnum (cls value : string)
| VDate (d : Z)
| VTime (t : Z)
| VUUID (hex : string)
| VList (l : list pyval)
| VDict (d : list (string * pyval))
| VModel (cls : string) (d : list (string * pyval)).

(** The values inside a list or a dictionary. *)
Definition inner (v : pyval) : list pyval :=
  match v with VList l => l | VDict d => map snd d | _ => [] end.

Lemma pyval_inner_ind (P : pyval -> Prop) : (forall v, Forall P (inner v) -> P v) -> forall v, P v.
Proof.
  intros HP. fix IH 1. intros v. apply HP.
  destruct v as [| | | | | | | | |l|d|]; try exact (Forall_nil_2 _); simpl.
  - induction l as [|x l IHl]; [exact (Forall_nil_2 _)|]. exact (Forall_cons_2 _ _ _ (IH x) IHl).
  - induction d as [|[k x] d IHd]; [exact (Forall_nil_2 _)|]. exact (Forall_cons_2 _ _ _ (IH x) IHd).
Qed.

Definition val_truthy (v : pyval) : bool :=
  match v with
  | VNone => false
  | VBool b => b
  | VInt z => negb (z =? 0)
  | VStr s => negb (String.eqb s "")
  | VBytes bs => match bs with [] => false | _ => true end
  | VList l => match l with [] => false | _ => true end
  | VDict d => match d with [] => false | _ => true end
  | VEnum _ v => negb (String.eqb v "")
  | VDate _ | VTime _ | VUUID _ | VModel _ _ => true
  end.

(** ** Types *)

Inductive ftype :=
| TNone | TBool | TInt | TStr | TBytes | TDate | TTime | TUUID | TAny
| TEnum (cls : string) (values : list string)
| TModel (cls : string)
| TList (t : ftype)
| TDict (t : ftype)
| TUnion (a b : ftype).

Definition optional (t : ftype) : ftype := TUnion t TNone.

Fixpoint has_type (t : ftype) (v : pyval) : bool :=
  match t, v with
  | TNone, VNone | TBool, VBool _ | TInt, VInt _ | TStr, VStr _ | TBytes, VBytes _ | TTime, VTime _ => true
  | TAny, _ => true
  | TDate, VDate d => bool_decide (valid_date d)
  | TUUID, VUUID u => (String.length u =? 32)%nat && forallb is_hex (String.list_ascii_of_string u)
  | TEnum c vs, VEnum c' v => String.eqb c c' && mem v vs
  | TModel c, VModel c' _ => String.eqb c c'
  | TList t, VList l => forallb (has_type t) l
  | TDict t, VDict d => forallb (fun kv => has_type t (snd kv)) d
  | TUnion a b, v => has_type a v || has_type b v
  | _, _ => false
  end.

(** What pydantic makes of a value for a field of a type. *)
Class Pydantic := { coerce : ftype -> pyval -> option pyval }.

(** A value of the type is kept, and what is made of another has the type. *)
Class PydanticLaws `{Pydantic} := {
  coerce_typed t v : has_type t v = true -> coerce t v = Some v;
  coerce_sound t v v' : coerce t v = Some v' -> has_type t v' = true }.

(** Strict validation. *)
#[export] Instance strict : Pydantic := { coerce t v := if has_type t v then Some v else None }.
#[export] Instance strict_laws : PydanticLaws.
Proof.
  split; simpl.
  - by intros t v ->.
  - intros t v v'. destruct (has_type t v) eqn:E; [by intros [= <-]|done].
Qed.

(** ** Models *)

Definition ValidationError := subclass "ValidationError" ValueError.
Definition invalid (what : string) : exn := raise_ ValidationError what.

Definition validator : Type := pydict pyval -> pyval -> result pyval.

Section models.
Context {W : Type} `{Pydantic}.

(** A default is given as it is, or made by a factory; it is not validated. *)
Record field := Field {
  f_name : string; f_type : ftype; f_default : option (M W pyval); f_validators : list validator }.

(** The validators of a field run in order, on the value and the fields before it. *)
Fixpoint run_validators (gs : list validator) (data : pydict pyval) (v : pyval) : result pyval :=
  match gs with
  | [] => Ok v
  | g :: gs => v ← g data v; run_validators gs data v
  end.

(** The value of a field, or the error it is reported with; an exception of a
    validator that is not a [ValueError] ends the construction. *)
Definition check_field (f : field) (data : pydict pyval) (v : pyval) : result (pyval + string) :=
  match coerce (f_type f) v with
  | None => Ok (inr (f_name f))
  | Some v =>
      match run_validators (f_validators f) data v with
      | Ok v => Ok (inl v)
      | Raise e => if isinstance e ValueError then Ok (inr (f_name f)) else Raise e
      end
  end.

Definition field_value (f : field) (kwargs data : pydict pyval) : M W (pyval + string) :=
  match dget (f_name f) kwargs with
  | Some v => lift (check_field f data v)
  | None => match f_default f with
            | Some make => v ← make; mret (inl v)
            | None => mret (inr (f_name f))
            end
  end.

(** The fields in their order; a field with an error is reported, and is not in
    the data later validators see. The message is the first error's. *)
Fixpoint process (fs : list field) (kwargs data : pydict pyval) (errors : list string) : M W (pydict pyval) :=
  match fs with
  | [] => match errors with [] => mret data | what :: _ => raise (invalid what) end
  | f :: fs =>
      r ← field_value f kwargs data;
      match r with
      | inl v => process fs kwargs (data ++ [(f_name f, v)]) errors
      | inr what => process fs kwargs data (errors ++ [what])
      end
  end.

Definition names (fs : list field) : list string := map f_name fs.

(** [cls( **kwargs)], with [extra="forbid"]. *)
Definition construct (fs : list field) (kwargs : pydict pyval) : M W (pydict pyval) :=
  process fs kwargs [] (if forallb (fun k => mem k (names fs)) (dkeys kwargs) then [] else ["extra"]).

(** ** Valid objects *)

(** Every field has its type and passes its validators unchanged. *)
Inductive valid : list field -> pydict pyval -> pydict pyval -> Prop :=
| valid_nil data : valid [] data []
| valid_cons f fs data v rest :
    has_type (f_type f) v = true -> run_validators (f_validators f) data v = Ok v ->
    valid fs (data ++ [(f_name f, v)]) rest ->
    valid (f :: fs) data ((f_name f, v) :: rest).

Definition valid_object (fs : list field) (o : pydict pyval) : Prop := valid fs [] o.

(** The validators of a well-behaved field accept what they return, which has
    the type of the field, and so does the default. *)
Definition settled (f : field) : Prop :=
  (forall data v v', has_type (f_type f) v = true -> run_validators (f_validators f) data v = Ok v' ->
     has_type (f_type f) v' = true /\ run_validators (f_validators f) data v' = Ok v') /\
  (forall make data w v w', f_default f = Some make -> make w = (Ok v, w') ->
     has_type (f_type f) v = true /\ run_validators (f_validators f) data v = Ok v).

(** The same of a field whose validators may refuse what they return, if it is not [P]. *)
Definition settled_if (P : pyval -> Prop) (f : field) : Prop :=
  (forall data v v', has_type (f_type f) v = true -> run_validators (f_validators f) data v = Ok v' ->
     has_type (f_type f) v' = true /\ (P v' -> run_validators (f_validators f) data v' = Ok v')) /\
  (forall make data w v w', f_default f = Some make -> make w = (Ok v, w') ->
     has_type (f_type f) v = true /\ run_validators (f_validators f) data v = Ok v).

Lemma settled_always P f : settled f -> settled_if P f.
Proof. intros [Hv Hd]. split; [|done]. intros data v v' Ht Hr. by destruct (Hv data v v' Ht Hr). Qed.

(** What the fields of a constructed object are: values of the type that passed the
    validators, which may have changed them, and defaults. *)
Definition produced (f : field) (data : pydict pyval) (v : pyval) : Prop :=
  (exists v0, has_type (f_type f) v0 = true /\ run_validators (f_validators f) data v0 = Ok v) \/
  (exists make w w', f_default f = Some make /\ make w = (Ok v, w')).

Inductive made : list field -> pydict pyval -> pydict pyval -> Prop :=
| made_nil data : made [] data []
| made_cons f fs data v rest : produced f data v -> made fs (data ++ [(f_name f, v)]) rest ->
    made (f :: fs) data ((f_name f, v) :: rest).

Lemma made_keys fs data o : made fs data o -> dkeys o = names fs.
Proof. induction 1; simpl; [done|]. by f_equal. Qed.

(** The fields of a constructed object, one by one. *)
Lemma made_nth fs data o n f : made fs data o -> nth_error fs n = Some f ->
  exists pre v post, o = pre ++ (f_name f, v) :: post /\ dkeys pre = names (take n fs) /\ produced f (data ++ pre) v.
Proof.
  intros Hv. revert n. induction Hv as [data|f0 fs data v rest Hp Hv IH]; intros [|n]; try done; simpl.
  - intros [= ->]. exists [], v, rest. by rewrite app_nil_r.
  - intros Hn. destruct (IH n Hn) as (pre & x & post & -> & Hk & Hx).
    exists ((f_name f0, v) :: pre), x, post. rewrite <- app_assoc in Hx. simpl. by rewrite Hk.
Qed.

Lemma made_field fs o n f : made fs [] o -> NoDup (names fs) -> nth_error fs n = Some f ->
  exists v data, dget (f_name f) o = Some v /\ produced f data v /\
    forall k, In k (names (take n fs)) -> dget k data = dget k o.
Proof.
  intros Hv Hnd Hn. pose proof (made_keys _ _ _ Hv) as Hk.
  destruct (made_nth _ _ _ _ _ Hv Hn) as (pre & v & post & -> & Hpre & Hp). exists v, pre. split_and!; [|done|].
  - apply In_dget; [unfold dwf; by rewrite Hk|]. apply in_app_iff. right. by left.
  - intros k Hin. rewrite <- Hpre in Hin. rewrite dget_app. destruct (dget k pre) eqn:E; [done|].
    by apply dget_None_In in E.
Qed.

Lemma made_valid (P : string -> pyval -> Prop) fs data o : Forall (fun f => settled_if (P (f_name f)) f) fs ->
  made fs data o -> (forall k v, In (k, v) o -> P k v) -> valid fs data o.
Proof.
  intros Hfs Hm. induction Hm as [data|f fs data v rest Hp Hm IH]; intros HP; [constructor|].
  apply Forall_cons in Hfs as [[Hv Hd] Hfs].
  assert (Hok : has_type (f_type f) v = true /\ run_validators (f_validators f) data v = Ok v).
  { destruct Hp as [(v0 & Ht & Hr)|(make & w & w' & Hdef & Hmake)]; [|by eapply Hd].
    destruct (Hv data v0 v Ht Hr) as [Ht' Hr']. split; [done|]. apply Hr', HP. by left. }
  destruct Hok. constructor; [done..|]. apply IH; [done|]. intros k x Hx. apply HP. by right.
Qed.

Lemma valid_made fs data o : valid fs data o -> made fs data o.
Proof. induction 1 as [|f fs data v rest Ht Hr _ IH]; [constructor|]. constructor; [left; by exists v|done]. Qed.

Lemma valid_keys fs data o : valid fs data o -> dkeys o = names fs.
Proof. induction 1; simpl; [done|]. by f_equal. Qed.

Lemma process_errors fs kwargs : forall data errors w, errors <> [] -> forall o w',
  process fs kwargs data errors w <> (Ok o, w').
Proof.
  induction fs as [|f fs IH]; intros data errors w He o w'; cbn [process]; [by destruct errors|].
  intros (r & w1 & _ & Hp)%bind_inv_ok. destruct r as [v|what]; [by apply IH in Hp|].
  apply IH in Hp; [done|]. by destruct errors.
Qed.

Lemma process_made `{!PydanticLaws} fs kwargs : forall data errors w o w',
  process fs kwargs data errors w = (Ok o, w') -> errors = [] /\ exists rest, o = data ++ rest /\ made fs data rest.
Proof.
  induction fs as [|f fs IH]; intros data errors w o w'; cbn [process].
  - destruct errors; [|done]. intros [= <- _]. split; [done|]. exists []. split; [by rewrite app_nil_r|constructor].
  - intros (r & w1 & Hval & Hp)%bind_inv_ok. destruct r as [v|what].
    2: { apply process_errors in Hp; [done|]. by destruct errors. }
    apply IH in Hp as (-> & rest & -> & Hrest). split; [done|].
    exists ((f_name f, v) :: rest). split; [by rewrite <- app_assoc|]. constructor; [|done].
    unfold field_value in Hval. destruct (dget (f_name f) kwargs) as [v0|].
    + left. unfold lift, check_field in Hval. destruct (coerce (f_type f) v0) as [v1|] eqn:Ec; [|done].
      apply coerce_sound in Ec. destruct (run_validators _ _ v1) as [v2|e] eqn:Er.
      * injection Hval as -> _. by exists v1.
      * by destruct (isinstance e ValueError).
    + right. destruct (f_default f) as [make|] eqn:Ed; [|done].
      apply bind_inv_ok in Hval as (v1 & w2 & Hm & [= -> ->]). by eexists make, w, _.
Qed.

Lemma construct_made `{!PydanticLaws} fs kwargs w o w' : construct fs kwargs w = (Ok o, w') -> made fs [] o.
Proof. intros Hp. by destruct (process_made fs kwargs _ _ w o w' Hp) as (_ & rest & -> & ?). Qed.

(** An object is valid when what the validators made of its fields is [P]. *)
Lemma construct_valid_if `{!PydanticLaws} (P : string -> pyval -> Prop) fs kwargs w o w' :
  Forall (fun f => settled_if (P (f_name f)) f) fs -> construct fs kwargs w = (Ok o, w') ->
  (forall k v, In (k, v) o -> P k v) -> valid_object fs o.
Proof. intros Hfs Hp. by apply (made_valid P), construct_made with kwargs w w'. Qed.

(** Whatever an object is built from, it is valid. *)
Lemma construct_valid `{!PydanticLaws} fs kwargs w o w' : Forall settled fs ->
  construct fs kwargs w = (Ok o, w') -> valid_object fs o.
Proof.
  intros Hfs Hp. apply (construct_valid_if (fun _ _ => True) fs kwargs w o w'); [|done..].
  eapply Forall_impl; [exact Hfs|]. intros f. apply settled_always.
Qed.

(** A field given a value it accepts, and one left out. *)
Lemma process_coerced f fs kwargs data errors v v' w : dget (f_name f) kwargs = Some v ->
  coerce (f_type f) v = Some v' -> run_validators (f_validators f) data v' = Ok v' ->
  process (f :: fs) kwargs data errors w = process fs kwargs (data ++ [(f_name f, v')]) errors w.
Proof.
  intros Hg Hc Hr. cbn [process]. unfold field_value. rewrite Hg. unfold mbind, M_bind, lift, check_field.
  by rewrite Hc, Hr.
Qed.

Lemma process_given `{!PydanticLaws} f fs kwargs data errors v w : dget (f_name f) kwargs = Some v ->
  has_type (f_type f) v = true -> run_validators (f_validators f) data v = Ok v ->
  process (f :: fs) kwargs data errors w = process fs kwargs (data ++ [(f_name f, v)]) errors w.
Proof. intros Hg Ht Hr. by apply (process_coerced _ _ _ _ _ v); [|apply coerce_typed|]. Qed.

Lemma process_default f fs kwargs data errors make v w w' : dget (f_name f) kwargs = None ->
  f_default f = Some make -> make w = (Ok v, w') ->
  process (f :: fs) kwargs data errors w = process fs kwargs (data ++ [(f_name f, v)]) errors w'.
Proof. intros Hg Hd Hm. cbn [process]. unfold field_value. rewrite Hg, Hd. unfold mbind, M_bind. by rewrite Hm. Qed.

Lemma process_self `{!PydanticLaws} fs data rest kwargs : valid fs data rest ->
  (forall k v, In (k, v) rest -> dget k kwargs = Some v) ->
  forall w, process fs kwargs data [] w = (Ok (data ++ rest), w).
Proof.
  induction 1 as [data|f fs data v rest Ht Hr Hv IH]; intros Hk w.
  - cbn [process]. by rewrite app_nil_r.
  - rewrite (process_given f fs kwargs data [] v) by (done || (apply Hk; by left)). rewrite IH by (intros; apply Hk; by right). by rewrite <- app_assoc.
Qed.

(** Building an object from the fields of a valid one gives it back. *)
Lemma construct_self `{!PydanticLaws} fs o kwargs w : NoDup (names fs) -> valid_object fs o ->
  (forall k, dget k kwargs = dget k o) -> (forall k, In k (dkeys kwargs) -> In k (dkeys o)) ->
  construct fs kwargs w = (Ok o, w).
Proof.
  intros Hnd Hv Hget Hkeys. unfold construct. assert (Hko : dkeys o = names fs) by (by eapply valid_keys).
  replace (forallb _ _) with true.
  - rewrite (process_self fs [] o) by (done || (intros; rewrite Hget; apply In_dget; [unfold dwf; by rewrite Hko|done])).
    done.
  - symmetry. apply forallb_forall. intros k Hk. apply mem_true. rewrite <- Hko. by apply Hkeys.
Qed.
End models.
Arguments field : clear implicits.

(** ** Validators that only check *)

(** A validator that returns its argument when it accepts it. *)
Definition checks (g : validator) : Prop := forall data v v', g data v = Ok v' -> v' = v.

Lemma checks_stable gs data v v' : Forall checks gs -> run_validators gs data v = Ok v' ->
  v' = v /\ run_validators gs data v = Ok v.
Proof.
  intros Hgs. revert v. induction Hgs as [|g gs Hg Hgs IH]; intros v; simpl; [by intros [= ->]|].
  destruct (g data v) as [v1|e] eqn:E; simpl; [|done]. apply Hg in E as ->. intros Hr.
  by destruct (IH v Hr) as [-> Hr'].
Qed.

Lemma settled_checks {W} (f : field W) : Forall checks (f_validators f) ->
  (forall make data w v w', f_default f = Some make -> make w = (Ok v, w') ->
     has_type (f_type f) v = true /\ run_validators (f_validators f) data v = Ok v) ->
  settled f.
Proof.
  intros Hc Hd. split; [|done]. intros data v v' Ht Hr.
  by destruct (checks_stable _ _ _ _ Hc Hr) as [-> ?].
Qed.

(** ** [model_dump]

    The dictionary of a model: the models inside its values, also inside a field of
    any type, become dictionaries. *)

Fixpoint dump (v : pyval) : pyval :=
  match v with
  | VList l => VList (map dump l)
  | VDict d => VDict (map (fun kv => (fst kv, dump (snd kv))) d)
  | VModel _ d => VDict (map (fun kv => (fst kv, dump (snd kv))) d)
  | v => v
  end.

Definition model_dump (o : pydict pyval) : pydict pyval := map (fun kv => (fst kv, dump (snd kv))) o.

(** No model inside. *)
Fixpoint no_models (v : pyval) : bool :=
  match v with
  | VList l => forallb no_models l
  | VDict d => forallb (fun kv => no_models (snd kv)) d
  | VModel _ _ => false
  | _ => true
  end.

Lemma dump_no_models v : no_models v = true -> dump v = v.
Proof.
  induction v as [v IH] using pyval_inner_ind. destruct v as [| | | | | | | | |l|d|]; try done; simpl in *; intros Hn; f_equal.
  - rewrite <- (map_id l) at 2. apply map_ext_in. intros x Hx. rewrite forallb_forall in Hn. rewrite Forall_forall in IH.
    apply IH; [by apply list_elem_of_In|by apply Hn].
  - rewrite <- (map_id d) at 2. apply map_ext_in. intros [k x] Hx. simpl. f_equal. rewrite forallb_forall in Hn. rewrite Forall_forall in IH.
    apply IH; [by apply list_elem_of_In, (in_map snd _ _ Hx)|exact (Hn _ Hx)].
Qed.

Lemma model_dump_id o : forallb (fun kv => no_models (snd kv)) o = true -> model_dump o = o.
Proof.
  intros Hn. unfold model_dump. rewrite <- (map_id o) at 2. apply map_ext_in. intros [k v] Hx. simpl. f_equal.
  apply dump_no_models. rewrite forallb_forall in Hn. exact (Hn _ Hx).
Qed.

Lemma model_dump_keys o : dkeys (model_dump o) = dkeys o.
Proof. unfold model_dump, dkeys. rewrite map_map. done. Qed.

(** Values of a type without models and without [Any] have none inside. *)
Fixpoint simple (t : ftype) : bool :=
  match t with
  | TAny | TModel _ => false
  | TList t | TDict t => simple t
  | TUnion a b => simple a && simple b
  | _ => true
  end.

Lemma simple_no_models v : forall t, simple t = true -> has_type t v = true -> no_models v = true.
Proof.
  induction v as [v IH] using pyval_inner_ind. intros t. induction t as [| | | | | | | | |c vs|c|t IHt|t IHt|a IHa b IHb]; intros Hs Ht;
    try (by destruct v); simpl in *.
  - destruct v as [| | | | | | | | |l| |]; try done. simpl in *. rewrite forallb_forall in *. rewrite Forall_forall in IH.
    intros x Hx. apply (IH x (proj2 (list_elem_of_In _ _) Hx) t); [done|by apply Ht].
  - destruct v as [| | | | | | | | | |d|]; try done. simpl in *. rewrite forallb_forall in *. rewrite Forall_forall in IH.
    intros [k x] Hx. apply (IH x (proj2 (list_elem_of_In _ _) (in_map snd _ _ Hx)) t); [done|exact (Ht _ Hx)].
  - apply andb_true_iff in Hs as [Hsa Hsb]. destruct v; apply orb_true_iff in Ht as [?|?]; by auto.
Qed.

Lemma valid_no_models {W} (fs : list (field W)) data o : forallb (fun f => simple (f_type f)) fs = true -> valid fs data o ->
  forallb (fun kv => no_models (snd kv)) o = true.
Proof.
  intros Hs Hv. induction Hv as [|f fs data v rest Ht _ _ IH]; [done|]. simpl in *. apply andb_true_iff in Hs as [Hf Hs].
  rewrite (simple_no_models v (f_type f) Hf Ht). by apply IH.
Qed.

(** ** JSON texts *)

Definition not_serializable : exn := raise_ TypeError "Object is not JSON serializable".

(** [json.dumps(v, sort_keys=sort, separators=(comma, colon))] *)
Fixpoint json_dumps (sort : bool) (comma colon : string) (v : pyval) : result string :=
  match v with
  | VNone => Ok "null"
  | VBool b => Ok (if b then "true" else "false")
  | VInt z => Ok (z_str z)
  | VStr s | VEnum _ s => Ok (json_str s)
  | VList l =>
      ts ← (fix all l := match l with
                         | [] => Ok []
                         | v :: l => t ← json_dumps sort comma colon v; ts ← all l; Ok (t :: ts)
                         end) l;
      Ok ("[" +:+ String.concat comma ts +:+ "]")
  | VDict d =>
      ts ← (fix all d := match d with
                         | [] => Ok []
                         | (k, v) :: d => t ← json_dumps sort comma colon v; ts ← all d; Ok ((k, t) :: ts)
                         end) d;
      let items := if sort then sorted_items ts else ts in
      Ok ("{" +:+ String.concat comma (map (fun kv => json_str (fst kv) +:+ colon +:+ snd kv) items) +:+ "}")
  | VBytes _ | VDate _ | VTime _ | VUUID _ | VModel _ _ => Raise not_serializable
  end.
