(* ===== verification/CanonicalJson.v ===== *)
(** * Canonical JSON texts

    What the compact, sorted text of [json.dumps] tells of a value: the value up to the
    order of the entries of its dictionaries. [normal] is the value with its dictionaries
    sorted; two values that can be written have the same text exactly when they have the
    same normal form. *)

From stdpp Require Import sorting.
From S2P Require Import Prelude PyRuntime PyText PyDate PyInt JsonText Pydantic.
Local Open Scope Z_scope.

(** ** Texts of lists and dictionaries *)

Section texts.
Context (sort : bool) (comma colon : string).
Local Abbreviation dumps := (json_dumps sort comma colon).

Fixpoint dump_list (l : list pyval) : result (list string) :=
  match l with [] => Ok [] | v :: l => t ← dumps v; ts ← dump_list l; Ok (t :: ts) end.
Fixpoint dump_items (d : pydict pyval) : result (list (string * string)) :=
  match d with [] => Ok [] | (k, v) :: d => t ← dumps v; ts ← dump_items d; Ok ((k, t) :: ts) end.

Definition entry (kv : string * string) : string := json_str (fst kv) +:+ colon +:+ snd kv.

Lemma dumps_list l : dumps (VList l) = (ts ← dump_list l; Ok ("[" +:+ String.concat comma ts +:+ "]")).
Proof. reflexivity. Qed.

Lemma dumps_dict d : dumps (VDict d) =
  (ts ← dump_items d; Ok ("{" +:+ String.concat comma (map entry (if sort then sorted_items ts else ts)) +:+ "}")).
Proof. reflexivity. Qed.

Lemma dump_items_keys d ts : dump_items d = Ok ts -> map fst ts = dkeys d.
Proof.
  revert ts. induction d as [|[k v] d IH]; simpl; intros ts; [by intros [= <-]|].
  destruct (dumps v); [|done]. simpl. destruct (dump_items d) as [ts'|]; [|done]. simpl. intros [= <-].
  simpl. by rewrite (IH ts').
Qed.
End texts.

(** Every failure is the same. *)
Lemma dumps_error sort comma colon v : forall e, json_dumps sort comma colon v = Raise e -> e = not_serializable.
Proof.
  induction v as [v IH] using pyval_inner_ind. intros e.
  destruct v as [| | | | | | | | |l|d|]; try done; try (by intros [= <-]).
  - rewrite dumps_list. enough (Hl : forall e, dump_list sort comma colon l = Raise e -> e = not_serializable).
    { destruct (dump_list _ _ _ l); [done|]. intros [= <-]. by apply Hl. }
    clear e. induction l as [|v l IHl]; simpl; [done|]. apply Forall_cons in IH as [Hv Hl]. intros e.
    destruct (json_dumps sort comma colon v) eqn:E; [|intros [= <-]; by apply Hv]. simpl.
    destruct (dump_list _ _ _ l); [done|]. intros [= <-]. by apply IHl.
  - rewrite dumps_dict. enough (Hd : forall e, dump_items sort comma colon d = Raise e -> e = not_serializable).
    { destruct (dump_items _ _ _ d); [done|]. intros [= <-]. by apply Hd. }
    clear e. induction d as [|[k v] d IHd]; simpl; [done|]. apply Forall_cons in IH as [Hv Hd]. intros e.
    destruct (json_dumps sort comma colon v) eqn:E; [|intros [= <-]; by apply Hv]. simpl.
    destruct (dump_items _ _ _ d); [done|]. intros [= <-]. by apply IHd.
Qed.

Lemma dump_items_error sort comma colon d e : dump_items sort comma colon d = Raise e -> e = not_serializable.
Proof. intros E. apply (dumps_error sort comma colon (VDict d)). by rewrite dumps_dict, E. Qed.

(** The texts of the entries of a reordered dictionary, or no text of either. *)
Lemma dump_items_permuted sort comma colon d d' : Permutation d d' ->
  match dump_items sort comma colon d, dump_items sort comma colon d' with
  | Ok ts, Ok ts' => Permutation ts ts'
  | Raise _, Raise _ => True
  | _, _ => False
  end.
Proof.
  induction 1 as [|[k v] d d' _ IH|[k v] [k' v'] d|d d' d'' _ IH _ IH']; simpl; [done| | |].
  - destruct (json_dumps _ _ _ v); [|done]. simpl.
    destruct (dump_items _ _ _ d), (dump_items _ _ _ d'); try done. by constructor.
  - destruct (json_dumps _ _ _ v), (json_dumps _ _ _ v'); simpl; try done;
      destruct (dump_items _ _ _ d); try done. by constructor.
  - destruct (dump_items _ _ _ d), (dump_items _ _ _ d'), (dump_items _ _ _ d''); try done. by etrans.
Qed.

(** ** Normal forms *)

(** Members of a [StrEnum] are written as their texts. *)
Fixpoint normal (v : pyval) : pyval :=
  match v with
  | VEnum _ s => VStr s
  | VList l => VList (map normal l)
  | VDict d => VDict (sorted_items (map (fun kv => (fst kv, normal (snd kv))) d))
  | v => v
  end.

Definition normal_items (d : pydict pyval) : pydict pyval := map (fun kv => (fst kv, normal (snd kv))) d.

(** Every dictionary has distinct keys, as those of Python have. *)
Fixpoint distinct (v : pyval) : bool :=
  match v with
  | VList l => forallb distinct l
  | VDict d => bool_decide (NoDup (dkeys d)) && forallb (fun kv => distinct (snd kv)) d
  | _ => true
  end.

Lemma sorted_keys {A B} (l : list (string * A)) (l' : list (string * B)) : map fst l = map fst l' ->
  StronglySorted key_le l -> StronglySorted key_le l'.
Proof.
  intros Hk Hs. revert l' Hk. induction Hs as [|[k x] l Hs IH Hall]; intros [|[k' x'] l'] Hk; try done; [constructor|].
  injection Hk as <- Hk. constructor; [by apply IH|]. apply Forall_forall. intros [k2 x2] Hin.
  assert (In k2 (map fst l)) as (y & <- & Hy)%in_map_iff
    by (rewrite Hk; apply list_elem_of_In in Hin; by apply (in_map fst) in Hin).
  rewrite Forall_forall in Hall. apply list_elem_of_In in Hy. exact (Hall y Hy).
Qed.

Lemma sorted_items_sorted {A} (d : pydict A) : StronglySorted key_le (sorted_items d).
Proof. apply Sorted_StronglySorted; [apply _|]. apply Sorted_merge_sort. apply _. Qed.

Lemma sorted_items_perm {A} (d : pydict A) : Permutation (sorted_items d) d.
Proof. apply merge_sort_Permutation. Qed.

Lemma sorted_items_fixed {A} (d : pydict A) : NoDup (dkeys d) -> StronglySorted key_le d -> sorted_items d = d.
Proof.
  intros Hnd Hs. apply (StronglySorted_unique_strong key_le); [|apply sorted_items_sorted|done|apply sorted_items_perm].
  intros [a x] [b y] Hx Hy Hab Hba. assert (a = b) as <- by (by apply str_le_antisym). f_equal.
  rewrite sorted_items_perm, list_elem_of_In in Hx. rewrite list_elem_of_In in Hy. apply In_dget in Hx, Hy; [|done..]. congruence.
Qed.

(** Sorting the entries and writing them, in either order. *)
Lemma dump_sorted sort comma colon (d : pydict pyval) : NoDup (dkeys d) ->
  dump_items sort comma colon (sorted_items d) = (ts ← dump_items sort comma colon d; Ok (sorted_items ts)).
Proof.
  intros Hnd. pose proof (dump_items_permuted sort comma colon _ _ (sorted_items_perm d)) as Hp.
  destruct (dump_items sort comma colon (sorted_items d)) as [ts'|e'] eqn:E', (dump_items sort comma colon d) as [ts|e] eqn:E; try done; simpl.
  - f_equal. pose proof (dump_items_keys _ _ _ _ _ E) as Hk. pose proof (dump_items_keys _ _ _ _ _ E') as Hk'.
    rewrite (sorted_items_unique ts ts') by (done || by rewrite <- Hk in Hnd). symmetry. apply sorted_items_fixed.
    + unfold dkeys in *. by rewrite Hp, Hk.
    + eapply sorted_keys; [|apply (sorted_items_sorted d)]. by rewrite Hk'.
  - by rewrite (dump_items_error _ _ _ _ _ E), (dump_items_error _ _ _ _ _ E').
Qed.

Lemma normal_items_keys d : dkeys (normal_items d) = dkeys d.
Proof. unfold normal_items, dkeys. by rewrite map_map. Qed.

(** The sorted text of a value is the text of its normal form. *)
Lemma dumps_normal comma colon v : distinct v = true -> json_dumps true comma colon v = json_dumps false comma colon (normal v).
Proof.
  induction v as [v IH] using pyval_inner_ind. intros Hd. destruct v as [| | | | | | | | |l|d|]; try done.
  - cbn [normal]. rewrite !dumps_list. f_equal. simpl in IH, Hd. induction l as [|v l IHl]; [done|].
    simpl in Hd. apply andb_true_iff in Hd as [Hv Hl]. apply Forall_cons in IH as [IHv IH]. simpl. by rewrite IHv, IHl.
  - cbn [normal distinct inner] in *. apply andb_true_iff in Hd as [Hnd Hd]. bool_props. fold (normal_items d). rewrite !dumps_dict.
    rewrite dump_sorted by (by rewrite normal_items_keys).
    assert (Hi : dump_items true comma colon d = dump_items false comma colon (normal_items d)).
    { clear Hnd. induction d as [|[k v] d IHd]; [done|]. simpl in Hd. apply andb_true_iff in Hd as [Hv Hd].
      simpl in IH. apply Forall_cons in IH as [IHv IH]. simpl. by rewrite IHv, IHd. }
    rewrite Hi. by destruct (dump_items false comma colon (normal_items d)).
Qed.

(** ** Texts tell their values *)

(** No member of an enumeration, whose text is that of a string. *)
Fixpoint no_enums (v : pyval) : bool :=
  match v with
  | VEnum _ _ => false
  | VList l => forallb no_enums l
  | VDict d => forallb (fun kv => no_enums (snd kv)) d
  | _ => true
  end.

Lemma normal_no_enums v : no_enums (normal v) = true.
Proof.
  induction v as [v IH] using pyval_inner_ind. destruct v as [| | | | | | | | |l|d|]; try done; simpl in *.
  - apply forallb_forall. intros x Hx. apply in_map_iff in Hx as (v & <- & Hv). rewrite Forall_forall in IH. apply IH. by apply list_elem_of_In.
  - apply forallb_forall. intros [k v] Hin. apply list_elem_of_In in Hin. rewrite sorted_items_perm in Hin. apply list_elem_of_In, in_map_iff in Hin as ([k' v'] & [= -> <-] & Hin).
    rewrite Forall_forall in IH. apply IH. apply list_elem_of_In. by apply (in_map snd) in Hin.
Qed.

Local Abbreviation text := (json_dumps false "," ":").
Definition written (v : pyval) (t : string) : Prop := no_enums v = true /\ text v = Ok t.
Definition written_item (kv : string * pyval) (t : string) : Prop := exists t', written (snd kv) t' /\ t = entry ":" (fst kv, t').

(** What a text begins with. *)
Definition kind (c : ascii) : nat :=
  if Ascii.eqb c "n" then 0 else if Ascii.eqb c "t" then 1 else if Ascii.eqb c "f" then 2 else if Ascii.eqb c quote2 then 4
  else if Ascii.eqb c "[" then 5 else if Ascii.eqb c "{" then 6 else 3.
Definition kind_of (v : pyval) : nat :=
  match v with VNone => 0 | VBool true => 1 | VBool false => 2 | VInt _ => 3 | VStr _ => 4 | VList _ => 5 | VDict _ => 6 | _ => 7 end.

Lemma numeric_kind c : numeric c = true -> kind c = 3%nat /\ c <> "]"%char /\ c <> "}"%char.
Proof. destruct c as [[] [] [] [] [] [] [] []]; vm_compute; by intros. Qed.

Lemma written_begins v t : written v t -> exists c t', t = String c t' /\ kind c = kind_of v /\ c <> "]"%char /\ c <> "}"%char.
Proof.
  intros [Hn Ht]. destruct v as [|b|z|s|bs|d|d|u|c s|l|d|c d]; try done.
  - injection Ht as <-. by eexists _, _.
  - injection Ht as <-. destruct b; by eexists _, _.
  - injection Ht as <-. destruct (z_str_numeric z) as [Hz Hne]. destruct (z_str z) as [|c t]; [done|].
    apply andb_true_iff in Hz as [Hc _]. exists c, t. split; [done|]. by apply numeric_kind.
  - injection Ht as <-. by eexists _, _.
  - rewrite dumps_list in Ht. destruct (dump_list _ _ _ l); [|done]. injection Ht as <-. by eexists _, _.
  - rewrite dumps_dict in Ht. destruct (dump_items _ _ _ d); [|done]. injection Ht as <-. by eexists _, _.
Qed.

Lemma dump_list_written l ts : forallb no_enums l = true -> dump_list false "," ":" l = Ok ts -> Forall2 written l ts.
Proof.
  revert ts. induction l as [|v l IH]; intros ts Hn; simpl in *; [by intros [= <-]|]. apply andb_true_iff in Hn as [Hv Hl].
  destruct (text v) as [t|] eqn:Ht; [|done]. simpl. destruct (dump_list false "," ":" l) as [ts'|]; [|done]. simpl. intros [= <-].
  constructor; [done|]. by apply IH.
Qed.

Lemma dump_items_written d ts : forallb (fun kv => no_enums (snd kv)) d = true -> dump_items false "," ":" d = Ok ts ->
  Forall2 written_item d (map (entry ":") ts).
Proof.
  revert ts. induction d as [|[k v] d IH]; intros ts Hn; simpl in *; [by intros [= <-]|]. apply andb_true_iff in Hn as [Hv Hd].
  destruct (text v) as [t|] eqn:Ht; [|done]. simpl. destruct (dump_items false "," ":" d) as [ts'|]; [|done]. simpl. intros [= <-].
  constructor; [by exists t|]. by apply IH.
Qed.

Lemma item_tells kv : tells written (snd kv) -> tells written_item kv.
Proof.
  intros Hv kv' t t' r r' (s & Hs & ->) (s' & Hs' & ->) Hr Hr' He. unfold entry in He. cbn [fst snd] in He. rewrite !str_app_assoc in He.
  apply json_str_inj in He as [Hk He]. apply str_app_inv in He. destruct (Hv (snd kv') s s' r r' Hs Hs' Hr Hr' He) as [Hsnd ->].
  split; [|done]. destruct kv, kv'. simpl in *. by subst.
Qed.

Lemma item_begins kv t : written_item kv t -> exists c t', t = String c t' /\ c <> "}"%char.
Proof. intros (s & _ & ->). unfold entry. cbn [fst]. rewrite json_str_cons. by eexists _, _. Qed.

Lemma value_tells v : tells written v.
Proof.
  induction v as [v IH] using pyval_inner_ind. intros v' t t' r r' Hw Hw' Hr Hr' He.
  destruct (written_begins _ _ Hw) as (c & s & Hc & Hk & _), (written_begins _ _ Hw') as (c' & s' & Hc' & Hk' & _).
  assert (c = c') as <- by (apply (f_equal head) in He; rewrite Hc, Hc' in He; simpl in He; congruence).
  clear s s' Hc Hc'. rewrite Hk in Hk'. clear Hk. destruct Hw as [Hn Ht], Hw' as [Hn' Ht'].
  destruct v as [|b|z|str|bs|d0|d0|u|e str|l|d|e d], v' as [|b'|z'|str'|bs'|d0'|d0'|u'|e' str'|l'|d'|e' d']; try done;
    try (by destruct b); try (by destruct b').
  - injection Ht as <-. injection Ht' as <-. split; [done|]. by apply str_app_inv in He.
  - injection Ht as <-. injection Ht' as <-. destruct b, b'; try done; (split; [done|]); by apply str_app_inv in He.
  - injection Ht as <-. injection Ht' as <-. by destruct (z_str_inj z z' r r' Hr Hr' He) as [-> ->].
  - injection Ht as <-. injection Ht' as <-. by destruct (json_str_inj str str' r r' He) as [-> ->].
  - rewrite dumps_list in Ht, Ht'. destruct (dump_list _ _ _ l) as [ts|] eqn:E; [|done]. destruct (dump_list _ _ _ l') as [ts'|] eqn:E'; [|done].
    injection Ht as <-. injection Ht' as <-. rewrite !str_app_assoc in He. apply str_app_inv in He.
    destruct (separated_inj written "" "]" (or_introl eq_refl)) with (l := l) (l' := l') (ts := ts) (ts' := ts') (r := r) (r' := r') as [-> ->]; try done.
    + intros x t Hx. destruct (written_begins x t Hx) as (c1 & t1 & -> & _ & Hc1 & _). by exists c1, t1.
    + by apply dump_list_written.
    + by apply dump_list_written.
    + unfold separated. by rewrite !str_app_assoc.
  - rewrite dumps_dict in Ht, Ht'. destruct (dump_items _ _ _ d) as [ts|] eqn:E; [|done]. destruct (dump_items _ _ _ d') as [ts'|] eqn:E'; [|done].
    injection Ht as <-. injection Ht' as <-. rewrite !str_app_assoc in He. apply str_app_inv in He.
    destruct (separated_inj written_item "" "}" (or_intror eq_refl)) with (l := d) (l' := d') (ts := map (entry ":") ts) (ts' := map (entry ":") ts')
      (r := r) (r' := r') as [-> ->]; try done.
    + apply item_begins.
    + simpl in IH. apply Forall_forall. intros kv Hin. apply item_tells. rewrite Forall_forall in IH. apply IH.
      apply list_elem_of_In. apply list_elem_of_In in Hin. by apply (in_map snd) in Hin.
    + by apply dump_items_written.
    + by apply dump_items_written.
    + unfold separated. by rewrite !str_app_assoc.
Qed.

(** The compact sorted texts of two values are the same exactly when their normal forms are. *)
Theorem same_text v v' t : distinct v = true -> distinct v' = true -> json_dumps true "," ":" v = Ok t ->
  json_dumps true "," ":" v' = Ok t <-> normal v = normal v'.
Proof.
  intros Hd Hd' Ht. rewrite dumps_normal in Ht by done. rewrite dumps_normal by done. split.
  - intros Ht'. destruct (value_tells (normal v) (normal v') t t "" "") as [Hn _]; try done; (split; [apply normal_no_enums|done]).
  - intros Hn. by rewrite <- Hn.
Qed.

(** ** Dictionaries without their order *)

Lemma dicts_permuted {A} (d d' : pydict A) : dwf d -> dwf d' -> Permutation d d' <-> (forall k, dget k d = dget k d').
Proof.
  intros Hd Hd'. split.
  - intros Hp k. destruct (dget k d) as [v|] eqn:Hv.
    + symmetry. apply In_dget; [done|]. apply dget_In, list_elem_of_In in Hv. rewrite Hp in Hv. by apply list_elem_of_In.
    + symmetry. apply dget_None_In. apply dget_None_In in Hv. unfold dkeys in *. intros Hin. apply Hv. by rewrite Hp.
  - intros Hk. apply NoDup_Permutation; [by apply (NoDup_fmap_1 fst)|by apply (NoDup_fmap_1 fst)|]. intros [k v]. rewrite !list_elem_of_In. split; intros Hin.
    + apply dget_In. rewrite <- Hk. by apply In_dget.
    + apply dget_In. rewrite Hk. by apply In_dget.
Qed.

Lemma normal_dict d : normal (VDict d) = VDict (sorted_items (normal_items d)).
Proof. reflexivity. Qed.

Lemma normal_items_get k d : dget k (normal_items d) = normal <$> dget k d.
Proof. unfold normal_items. induction d as [|[k' v] d IH]; [done|]. simpl. by destruct (String.eqb k k'). Qed.

(** The normal forms of dictionaries are the same when their entries' are. *)
Lemma normal_dicts d d' : dwf d -> dwf d' -> normal (VDict d) = normal (VDict d') <-> (forall k, normal <$> dget k d = normal <$> dget k d').
Proof.
  intros Hd Hd'. assert (forall d, dwf d -> dwf (normal_items d)) as Hn by (intros x Hx; unfold dwf; by rewrite normal_items_keys).
  rewrite !normal_dict. transitivity (Permutation (normal_items d) (normal_items d')).
  - split; [|intros Hp; by rewrite (sorted_items_unique _ _ (Hn d Hd) Hp)]. intros [= He]. by rewrite <- (sorted_items_perm (normal_items d)), He, sorted_items_perm.
  - rewrite dicts_permuted by auto. split; intros Hk k; specialize (Hk k); by rewrite !normal_items_get in *.
Qed.

(** Two values that differ in the order of the entries of dictionaries, however deep. *)
Inductive reordered : pyval -> pyval -> Prop :=
| reordered_refl v : reordered v v
| reordered_trans v1 v2 v3 : reordered v1 v2 -> reordered v2 v3 -> reordered v1 v3
| reordered_order d d' : NoDup (dkeys d) -> Permutation d d' -> reordered (VDict d) (VDict d')
| reordered_entry pre k v v' post : reordered v v' -> reordered (VDict (pre ++ (k, v) :: post)) (VDict (pre ++ (k, v') :: post))
| reordered_element pre v v' post : reordered v v' -> reordered (VList (pre ++ v :: post)) (VList (pre ++ v' :: post)).

Lemma reordered_normal v v' : reordered v v' -> normal v = normal v'.
Proof.
  induction 1 as [v|v1 v2 v3 _ IH _ IH'|d d' Hnd Hp|pre k v v' post _ IH|pre v v' post _ IH]; [done|congruence|..].
  - rewrite !normal_dict. f_equal. apply sorted_items_unique; [by rewrite normal_items_keys|]. unfold normal_items. by rewrite Hp.
  - simpl. rewrite !map_app. simpl. by rewrite IH.
  - simpl. rewrite !map_app. simpl. by rewrite IH.
Qed.
