(* ===== verification/PyNumbers.v ===== *)
(** * Numbers of Python's standard library

    The [statistics] module on integers and on floats (exact rationals), with
    its square root, and one-decimal formatting. *)

From stdpp Require Import sorting pretty.
From S2P Require Import Prelude PyRuntime.
Local Open Scope Z_scope.

(** ** Integers *)

Definition sumZ (l : list Z) : Z := foldr Z.add 0 l.
Definition lenQ {A} (l : list A) : Q := inject_Z (Z.of_nat (length l)).

Definition mean (l : list Z) : Q := (inject_Z (sumZ l) / lenQ l)%Q.

(** [n.bit_length()] *)
Definition bit_length (n : Z) : Z := if n <=? 0 then 0 else Z.log2 n + 1.

(** [_integer_sqrt_of_frac_rto(n, m)]: the square root of n/m rounded to odd. *)
Definition integer_sqrt_of_frac_rto (n m : Z) : Z :=
  let a := Z.sqrt (n / m) in Z.lor a (if a * a * m =? n then 0 else 1).

(** [_float_sqrt_of_frac(n, m)], before the last rounding to a float. *)
Definition float_sqrt_of_frac (n m : Z) : Q :=
  let q := (bit_length n - bit_length m - 109) / 2 in
  if 0 <=? q
  then inject_Z (Z.shiftl (integer_sqrt_of_frac_rto n (Z.shiftl m (2 * q))) q)
  else (inject_Z (integer_sqrt_of_frac_rto (Z.shiftl n (- 2 * q)) m)
        / inject_Z (Z.shiftl 1 (- q)))%Q.

(** The sample variance of n >= 2 integers, as a reduced fraction: n times the sum of squares
    less the square of the sum, over n (n - 1). *)
Definition variance (l : list Z) : Q :=
  let n := Z.of_nat (length l) in
  Qred (Qmake (n * sumZ (map (fun x => x * x) l) - sumZ l * sumZ l) (Z.to_pos (n * (n - 1)))).

Definition stdev (l : list Z) : Q :=
  let v := variance l in float_sqrt_of_frac (Qnum v) (Zpos (Qden v)).

(** ** Formatting *)

(** [f"{x:.1f}"]: one decimal, ties to even. *)
Definition round_half_even (x : Q) : Z :=
  let f := Qfloor x in
  let r := (x - inject_Z f)%Q in
  if Qltb r (1 # 2) then f
  else if Qltb (1 # 2) r then f + 1
  else if Z.even f then f else f + 1.

Definition fmt_1f (x : Q) : string :=
  let n := round_half_even (x * 10) in
  (if n <? 0 then "-" else "") +:+ pretty (Z.abs n / 10) +:+ "." +:+ pretty (Z.abs n mod 10).

(** ** Floats *)

Definition sumQ (l : list Q) : Q := foldr Qplus 0%Q l.
Definition meanQ (l : list Q) : Q := (sumQ l / lenQ l)%Q.

(** The first of the least, and of the greatest, elements. *)
Definition minQ (l : list Q) : Q := match l with [] => 0%Q | x :: l => foldl py_min x l end.
Definition maxQ (l : list Q) : Q := match l with [] => 0%Q | x :: l => foldl py_max x l end.

Definition Qle_rel (a b : Q) : Prop := Is_true (Qle_bool a b).
#[export] Instance Qle_rel_dec : RelDecision Qle_rel.
Proof. intros a b. unfold Qle_rel. apply _. Defined.

Definition medianQ (l : list Q) : Q :=
  let s := merge_sort Qle_rel l in
  let n := length l in
  if Nat.odd n then nth (n / 2) s 0%Q
  else ((nth (n / 2 - 1) s 0 + nth (n / 2) s 0) / 2)%Q.

Definition varianceQ (l : list Q) : Q :=
  Qred ((sumQ (map (fun x => x * x) l) - sumQ l * sumQ l / lenQ l) / (lenQ l - 1))%Q.

Definition stdevQ (l : list Q) : Q :=
  let v := varianceQ l in float_sqrt_of_frac (Qnum v) (Zpos (Qden v)).

(** ** Two decimals *)

(** [f"{x:.2f}"] *)
Definition fmt_2f (x : Q) : string :=
  let n := round_half_even (x * 100) in
  let cents := Z.abs n mod 100 in
  (if n <? 0 then "-" else "") +:+ pretty (Z.abs n / 100) +:+ "."
    +:+ (if cents <? 10 then "0" else "") +:+ pretty cents.
