(* ===== verification/Locks.v ===== *)
(** * Methods under a [threading.Lock]

    [threading.Lock] is not re-entrant: acquiring a lock that is held waits
    until it is released. [LM S A] is a method over a state with one lock that
    returns, raises, or waits for ever. Methods run one at a time: each that
    ends has released what it took, so a lock found held at the start of a
    method is held by a thread that waits for ever itself. *)

From S2P Require Import Prelude PyRuntime.

Inductive outcome (A : Type) :=
| Done (r : result A)
| Blocks.
Arguments Done {_} _.
Arguments Blocks {_}.

Definition LM (S A : Type) : Type := S -> outcome A * S.

#[export] Instance LM_ret {S} : MRet (LM S) := fun A a s => (Done (Ok a), s).
#[export] Instance LM_bind {S} : MBind (LM S) := fun A B f m s =>
  match m s with
  | (Done (Ok a), s') => f a s'
  | (Done (Raise e), s') => (Done (Raise e), s')
  | (Blocks, s') => (Blocks, s')
  end.

(** The lock of an object. *)
Class Lock (S : Type) := { held : S -> bool; set_held : bool -> S -> S }.

Class LockLaws (S : Type) `{Lock S} := {
  held_set b s : held (set_held b s) = b;
  set_held_same s : set_held (held s) s = s;
  set_held_twice b b' s : set_held b (set_held b' s) = set_held b s }.

Section locks.
Context {S : Type}.

(** A method that takes no lock. *)
Definition lock_free {A} (m : M S A) : LM S A := fun s => let '(r, s') := m s in (Done r, s').

Definition lget : LM S S := fun s => (Done (Ok s), s).
Definition lmodify (f : S -> S) : LM S unit := fun s => (Done (Ok tt), f s).
Definition lraise {A} (e : exn) : LM S A := fun s => (Done (Raise e), s).

(** [try: m except Exception as e: h(e)] *)
Definition ltry {A} (m : LM S A) (h : exn -> LM S A) : LM S A := fun s =>
  match m s with
  | (Done (Raise e), s') => if catchable e then h e s' else (Done (Raise e), s')
  | r => r
  end.

Context `{Lock S}.

(** [with self._lock: m] *)
Definition with_lock {A} (m : LM S A) : LM S A := fun s =>
  if held s then (Blocks, s)
  else match m (set_held true s) with
       | (Done r, s') => (Done r, set_held false s')
       | (Blocks, s') => (Blocks, s')
       end.

(** A method that starts while the lock is held never returns and changes nothing. *)
Lemma with_lock_held {A} (m : LM S A) s : held s = true -> with_lock m s = (Blocks, s).
Proof. intros Hs. unfold with_lock. by rewrite Hs. Qed.

(** A method that takes the lock while holding it never returns. *)
Lemma with_lock_nested {A B} (m : LM S A) (f : A -> LM S B) `{!LockLaws S} s :
  held s = false -> with_lock (with_lock m ≫= f) s = (Blocks, set_held true s).
Proof.
  intros Hs. unfold with_lock at 1. rewrite Hs. unfold mbind, LM_bind.
  by rewrite with_lock_held by apply held_set.
Qed.

Lemma lbind_ret {A B} (a : A) (f : A -> LM S B) s : (mret a ≫= f) s = f a s.
Proof. done. Qed.
End locks.

Ltac run_lm := unfold mbind, LM_bind, mret, LM_ret, lget, lmodify, lraise in *; simpl in *.
