(* ===== verification/ErrorCodes.v ===== *)
(** * Application errors and their gRPC status ([resilience/error_codes.py],
    [exceptions.py])

    The [MartyError] hierarchy carries a category, the older
    [MartyServiceException] hierarchy a status code; [map_exception_to_status]
    turns either into a canonical gRPC status. *)

From S2P Require Import Prelude PyRuntime.

(** The members of [grpc.StatusCode] the code names. *)
Inductive StatusCode :=
| INVALID_ARGUMENT | NOT_FOUND | ALREADY_EXISTS | PERMISSION_DENIED | UNAVAILABLE
| INTERNAL | FAILED_PRECONDITION | UNAUTHENTICATED | DEADLINE_EXCEEDED
| RESOURCE_EXHAUSTED | ABORTED | UNKNOWN.

#[export] Instance StatusCode_eq_dec : EqDecision StatusCode.
Proof. solve_decision. Defined.

Definition status_name (c : StatusCode) : string :=
  match c with
  | INVALID_ARGUMENT => "INVALID_ARGUMENT" | NOT_FOUND => "NOT_FOUND"
  | ALREADY_EXISTS => "ALREADY_EXISTS" | PERMISSION_DENIED => "PERMISSION_DENIED"
  | UNAVAILABLE => "UNAVAILABLE" | INTERNAL => "INTERNAL"
  | FAILED_PRECONDITION => "FAILED_PRECONDITION" | UNAUTHENTICATED => "UNAUTHENTICATED"
  | DEADLINE_EXCEEDED => "DEADLINE_EXCEEDED" | RESOURCE_EXHAUSTED => "RESOURCE_EXHAUSTED"
  | ABORTED => "ABORTED" | UNKNOWN => "UNKNOWN"
  end.

Definition all_status : list StatusCode :=
  [INVALID_ARGUMENT; NOT_FOUND; ALREADY_EXISTS; PERMISSION_DENIED; UNAVAILABLE; INTERNAL;
   FAILED_PRECONDITION; UNAUTHENTICATED; DEADLINE_EXCEEDED; RESOURCE_EXHAUSTED; ABORTED; UNKNOWN].

Definition status_of_name (s : string) : option StatusCode :=
  List.find (fun c => String.eqb (status_name c) s) all_status.

Inductive ErrorCategory :=
| VALIDATION | CAT_NOT_FOUND | CONFLICT | UNAUTHORIZED | TRANSIENT | CAT_INTERNAL.

#[export] Instance ErrorCategory_eq_dec : EqDecision ErrorCategory.
Proof. solve_decision. Defined.

Definition category_value (c : ErrorCategory) : string :=
  match c with
  | VALIDATION => "validation" | CAT_NOT_FOUND => "not_found" | CONFLICT => "conflict"
  | UNAUTHORIZED => "unauthorized" | TRANSIENT => "transient" | CAT_INTERNAL => "internal"
  end.

Definition all_categories : list ErrorCategory :=
  [VALIDATION; CAT_NOT_FOUND; CONFLICT; UNAUTHORIZED; TRANSIENT; CAT_INTERNAL].

Definition category_of_value (s : string) : option ErrorCategory :=
  List.find (fun c => String.eqb (category_value c) s) all_categories.

(** ** [MartyError] and its subclasses *)

Definition MartyError_cls := subclass "MartyError" Exception_.
Definition ValidationError_cls := subclass "ValidationError" MartyError_cls.
Definition NotFoundError_cls := subclass "NotFoundError" MartyError_cls.
Definition ConflictError_cls := subclass "ConflictError" MartyError_cls.
Definition UnauthorizedError_cls := subclass "UnauthorizedError" MartyError_cls.
Definition TransientBackendError_cls := subclass "TransientBackendError" MartyError_cls.

Definition marty_exn (cls : pyclass) (message : string) (category : ErrorCategory) : exn :=
  Exn cls message [("category", category_value category)].

Definition MartyError (message : string) (category : ErrorCategory) : exn :=
  marty_exn MartyError_cls message category.
Definition ValidationError (message : string) : exn :=
  marty_exn ValidationError_cls message VALIDATION.
Definition NotFoundError (message : string) : exn :=
  marty_exn NotFoundError_cls message CAT_NOT_FOUND.
Definition ConflictError (message : string) : exn :=
  marty_exn ConflictError_cls message CONFLICT.
Definition UnauthorizedError (message : string) : exn :=
  marty_exn UnauthorizedError_cls message UNAUTHORIZED.
Definition TransientBackendError (message : string) : exn :=
  marty_exn TransientBackendError_cls message TRANSIENT.

(** [exc.category]; only read on instances of [MartyError]. *)
Definition exc_category (e : exn) : option ErrorCategory :=
  dget "category" (exn_attrs e) ≫= category_of_value.

(** ** [MartyServiceException] and its subclasses *)

Definition MartyServiceException_cls := subclass "MartyServiceException" Exception_.

Definition service_exn (cls : pyclass) (message : string) (status_code : option StatusCode) : exn :=
  Exn cls message [("status_code", status_name (default INTERNAL status_code))].

Definition MartyServiceException (message : string) (status_code : option StatusCode) : exn :=
  service_exn MartyServiceException_cls message status_code.
Definition InvalidInputError (message : string) : exn :=
  service_exn (subclass "InvalidInputError" MartyServiceException_cls) message (Some INVALID_ARGUMENT).
Definition ResourceNotFoundError (message : string) : exn :=
  service_exn (subclass "ResourceNotFoundError" MartyServiceException_cls) message (Some NOT_FOUND).
Definition OperationFailedError_cls := subclass "OperationFailedError" MartyServiceException_cls.
Definition OperationFailedError (message : string) : exn :=
  service_exn OperationFailedError_cls message (Some INTERNAL).
Definition ConfigurationError (message : string) : exn :=
  service_exn (subclass "ConfigurationError" MartyServiceException_cls) message (Some FAILED_PRECONDITION).
Definition AuthenticationError (message : string) : exn :=
  service_exn (subclass "AuthenticationError" MartyServiceException_cls) message (Some UNAUTHENTICATED).
Definition PermissionDeniedError (message : string) : exn :=
  service_exn (subclass "PermissionDeniedError" MartyServiceException_cls) message (Some PERMISSION_DENIED).
Definition ServiceUnavailableError (message : string) : exn :=
  service_exn (subclass "ServiceUnavailableError" MartyServiceException_cls) message (Some UNAVAILABLE).
Definition MartyTimeoutError (message : string) : exn :=
  service_exn (subclass "MartyTimeoutError" MartyServiceException_cls) message (Some DEADLINE_EXCEEDED).
Definition ServiceCommunicationError (message : string) : exn :=
  service_exn (subclass "ServiceCommunicationError" MartyServiceException_cls) message (Some UNAVAILABLE).
Definition CertificateGenerationError (reason : string) : exn :=
  service_exn (subclass "CertificateGenerationError" OperationFailedError_cls)
    ("Certificate generation failed: " +:+ reason) (Some INTERNAL).

Definition exc_status_code (e : exn) : option StatusCode :=
  dget "status_code" (exn_attrs e) ≫= status_of_name.

(** ** The mapping *)

Definition CATEGORY_TO_STATUS (c : ErrorCategory) : option StatusCode :=
  match c with
  | VALIDATION => Some INVALID_ARGUMENT
  | CAT_NOT_FOUND => Some NOT_FOUND
  | CONFLICT => Some ALREADY_EXISTS
  | UNAUTHORIZED => Some PERMISSION_DENIED
  | TRANSIENT => Some UNAVAILABLE
  | CAT_INTERNAL => Some INTERNAL
  end.

Definition map_exception_to_status (exc : exn) : StatusCode * string :=
  if isinstance exc MartyError_cls then
    (default INTERNAL (exc_category exc ≫= CATEGORY_TO_STATUS), exn_message exc)
  else if isinstance exc MartyServiceException_cls then
    (default INTERNAL (exc_status_code exc), exn_message exc)
  else (INTERNAL, exn_message exc).

Definition exception_is_transient (exc : exn) : bool :=
  isinstance exc TransientBackendError_cls
  || (isinstance exc MartyError_cls && bool_decide (exc_category exc = Some TRANSIENT)).

(** ** Lemmas *)

Lemma category_roundtrip c : category_of_value (category_value c) = Some c.
Proof. by destruct c. Qed.

Lemma status_roundtrip c : status_of_name (status_name c) = Some c.
Proof. by destruct c. Qed.

Lemma exc_category_marty cls msg c : exc_category (marty_exn cls msg c) = Some c.
Proof. apply category_roundtrip. Qed.

Lemma isinstance_refl cls msg attrs : isinstance (Exn cls msg attrs) cls = true.
Proof. unfold isinstance; simpl. by rewrite String.eqb_refl. Qed.

Lemma isinstance_subclass name base msg attrs c :
  isinstance (Exn base msg attrs) c = true ->
  isinstance (Exn (subclass name base) msg attrs) c = true.
Proof. unfold isinstance; simpl. intros ->. apply orb_true_r. Qed.

#[export] Hint Rewrite exc_category_marty : marty.

(** C-status: every exception built by the constructors of either hierarchy
    maps to the status its class declares, and the transient test agrees with
    the status [UNAVAILABLE] on the [MartyError] side. *)
Lemma map_marty_error name msg c :
  let e := marty_exn (subclass name MartyError_cls) msg c in
  isinstance e MartyError_cls = true ->
  map_exception_to_status e = (default INTERNAL (CATEGORY_TO_STATUS c), msg) /\
  (exception_is_transient e = true <->
     isinstance e TransientBackendError_cls = true \/ c = TRANSIENT).
Proof.
  simpl. intros Hi. split.
  - unfold map_exception_to_status. rewrite Hi, exc_category_marty. done.
  - unfold exception_is_transient. rewrite Hi, exc_category_marty.
    rewrite orb_true_iff. simpl. rewrite bool_decide_eq_true. naive_solver.
Qed.
