(* ===== verification/ErrorHandlers.v ===== *)
(** * Common error handling ([errors/handlers.py])

    A third hierarchy of exceptions, and the wrappers that turn any exception of the
    code they guard into one of it: a decorator, a context manager, and the decorators
    for databases and certificates; retries, and the check of required fields. The
    guarded function runs in any state; [exn_message] is [str(e)]. *)

From S2P Require Import Prelude PyRuntime PyText.
Local Open Scope Z_scope.

(** ** Exceptions

    The base class shares its name with one of [exceptions.py], hence the prefix. *)
Definition MartyError_cls : pyclass := subclass "errors.MartyError" Exception_.
Definition MartyConfigurationError_cls : pyclass := subclass "MartyConfigurationError" MartyError_cls.
Definition MartyValidationError_cls : pyclass := subclass "MartyValidationError" MartyError_cls.
Definition MartyServiceError_cls : pyclass := subclass "MartyServiceError" MartyError_cls.
Definition MartyNetworkError_cls : pyclass := subclass "MartyNetworkError" MartyError_cls.
Definition MartyDatabaseError_cls : pyclass := subclass "MartyDatabaseError" MartyError_cls.
Definition MartyCertificateError_cls : pyclass := subclass "MartyCertificateError" MartyError_cls.

Definition FileNotFoundError : pyclass := subclass "FileNotFoundError" OSError.
Definition PermissionError : pyclass := subclass "PermissionError" OSError.

(** The constructor of every class. *)
Definition marty_error (c : pyclass) (message : string) (error_code : option string) : exn :=
  Exn c message (match error_code with Some code => [("error_code", code)] | None => [] end).

Section wrappers.
Context {W A : Type}.

(** ** Wrappers

    A call that returns [None] because its exception was swallowed is [None]. *)

(** What is raised, or nothing when the exception is swallowed. *)
Definition raise_if (reraise : bool) (e : exn) : M W (option A) := if reraise then raise e else mret None.

Definition handle_common_exceptions (reraise : bool) (name : string) (func : M W A) : M W (option A) := fun w =>
  match func w with
  | (Ok a, w) => (Ok (Some a), w)
  | (Raise e, w) =>
      (if isinstance e MartyError_cls then raise_if reraise e
       else if isinstance_any e [ConnectionError; TimeoutError] then
         raise_if reraise (marty_error MartyNetworkError_cls ("Network error in " +:+ name +:+ ": " +:+ exn_message e) None)
       else if isinstance_any e [ValueError; TypeError] then
         raise_if reraise (marty_error MartyValidationError_cls ("Validation error in " +:+ name +:+ ": " +:+ exn_message e) None)
       else if isinstance e FileNotFoundError then
         raise_if reraise (marty_error MartyConfigurationError_cls ("File not found in " +:+ name +:+ ": " +:+ exn_message e) None)
       else if isinstance e PermissionError then
         raise_if reraise (marty_error MartyConfigurationError_cls ("Permission denied in " +:+ name +:+ ": " +:+ exn_message e) None)
       else if catchable e then
         raise_if reraise (marty_error MartyServiceError_cls ("Unexpected error in " +:+ name +:+ ": " +:+ exn_message e) None)
       else raise e) w
  end.

Definition log_and_raise (c : pyclass) (message : string) (error_code : option string) : M W unit :=
  raise (marty_error c message error_code).

(** [name] is [func.__name__], which a callable object need not have. *)
Definition safe_execute (func : M W A) (default_value : A) (error_message : option string) (name : result string) : M W A :=
  try_except func (fun _ => if str_truthy error_message then mret default_value else _ ← lift name; mret default_value).

(** [with ErrorContext(operation_name, reraise=reraise): body] *)
Definition context_exit (reraise : bool) (operation_name : string) (e : exn) : option exn :=
  let raised c text := if reraise then Some (marty_error c (text +:+ " error in " +:+ operation_name +:+ ": " +:+ exn_message e) None) else None in
  if isinstance e MartyError_cls then if reraise then Some e else None
  else if isinstance_any e [ConnectionError; TimeoutError] then raised MartyNetworkError_cls "Network"
  else if isinstance_any e [ValueError; TypeError] then raised MartyValidationError_cls "Validation"
  else if isinstance_any e [FileNotFoundError; PermissionError] then raised MartyConfigurationError_cls "Configuration"
  else raised MartyServiceError_cls "Unexpected".

Definition with_context (reraise : bool) (operation_name : string) (body : M W A) : M W (option A) := fun w =>
  match body w with
  | (Ok a, w) => (Ok (Some a), w)
  | (Raise e, w) => (match context_exit reraise operation_name e with Some e => Raise e | None => Ok None end, w)
  end.

Definition handle_grpc_errors (name : string) (func : M W A) : M W (option A) := handle_common_exceptions true name func.

Definition handle_database_errors (func : M W A) : M W A :=
  try_except func (fun e => raise (marty_error MartyDatabaseError_cls ("Database operation failed: " +:+ exn_message e) None)).

Definition handle_certificate_errors (func : M W A) : M W A :=
  try_except func (fun e => raise (marty_error MartyCertificateError_cls ("Certificate operation failed: " +:+ exn_message e) None)).
End wrappers.

(** ** Required fields *)

(** [present] is whether the field is in the data and not [None]. *)
Definition validate_required_fields {V} (is_none : V -> bool) (data : pydict V) (required_fields : list string) : result unit :=
  let missing_fields := lfilter (fun f => match dget f data with Some v => is_none v | None => true end) required_fields in
  if bool_decide (missing_fields = []) then Ok tt
  else Raise (marty_error MartyValidationError_cls ("Missing required fields: " +:+ join ", " missing_fields) (Some "MISSING_REQUIRED_FIELDS")).

(** ** Retries *)

Section retries.
Context {W A : Type} `{World W}.
Context (max_attempts : Z) (delay_seconds backoff_multiplier : Q) (exceptions : list pyclass) (name : string) (func : M W A).

(** [time.sleep] *)
Definition time_sleep (d : Q) : M W unit := fun w =>
  if Qltb d 0 then (Raise (raise_ ValueError "sleep length must be non-negative"), w) else (Ok tt, sleep d w).

Definition give_up_with (tried : bool) : exn :=
  marty_error MartyServiceError_cls
    ("Function " +:+ name +:+ (if tried then " failed after " +:+ z_str max_attempts +:+ " attempts" else " failed unexpectedly")) None.

(** The loop: [n] attempts are left. *)
Fixpoint attempts (n : nat) (tried : bool) (current_delay : Q) : M W A := fun w =>
  match n with
  | O => (Raise (give_up_with tried), w)
  | S n =>
      match func w with
      | (Ok a, w) => (Ok a, w)
      | (Raise e, w) =>
          if isinstance_any e exceptions then
            match n with
            | O => attempts n true current_delay w
            | S _ => (_ ← time_sleep current_delay; attempts n true (current_delay * backoff_multiplier)%Q) w
            end
          else (Raise e, w)
      end
  end.

Definition retry_on_failure : M W A := attempts (Z.to_nat max_attempts) false delay_seconds.

(** The state after [k] attempts that failed with a listed exception, each of them
    followed by its wait. *)
Inductive failed_attempts : nat -> Q -> W -> W -> Prop :=
| no_attempt d w : failed_attempts 0 d w w
| one_more k d e w w1 w2 : func w = (Raise e, w1) -> isinstance_any e exceptions = true ->
    failed_attempts k (d * backoff_multiplier) (sleep d w1) w2 -> failed_attempts (S k) d w w2.

Lemma attempts_outcome n : forall tried d w, (0 <= d)%Q -> (0 <= backoff_multiplier)%Q -> (0 < n)%nat ->
  exists k w1, (k < n)%nat /\ failed_attempts k d w w1 /\
    match func w1 with
    | (Ok a, w2) => attempts n tried d w = (Ok a, w2)
    | (Raise e, w2) =>
        if isinstance_any e exceptions then k = (n - 1)%nat /\ attempts n tried d w = (Raise (give_up_with true), w2)
        else attempts n tried d w = (Raise e, w2)
    end.
Proof.
  induction n as [|n IH]; intros tried d w Hd Hm Hn; [lia|]. simpl.
  destruct (func w) as [[a|e] w1] eqn:Hf; [|destruct (isinstance_any e exceptions) eqn:He].
  - exists 0%nat, w. split; [lia|]. split; [constructor|]. by rewrite Hf.
  - destruct n as [|n'].
    + exists 0%nat, w. split; [lia|]. split; [constructor|]. by rewrite Hf, He.
    + assert (0 <= d * backoff_multiplier)%Q as Hd' by (apply Qmult_le_0_compat; done).
      destruct (IH true (d * backoff_multiplier)%Q (sleep d w1) Hd' Hm ltac:(lia)) as (k & w2 & Hk & Hfa & Hr).
      exists (S k), w2. split; [lia|]. split; [by econstructor|].
      assert (Qltb d 0 = false) as Hs by by apply Qltb_ge. unfold time_sleep, mbind, M_bind. rewrite Hs.
      destruct (func w2) as [[a|e'] w3]; [done|]. destruct (isinstance_any e' exceptions); [|done].
      destruct Hr as [-> Hr]. split; [lia|done].
  - exists 0%nat, w. split; [lia|]. split; [constructor|]. by rewrite Hf, He.
Qed.

(** C32: A retried function is called after so many waits of the growing delay until it
    returns, or raises what is not retried, or has used up its attempts; without any
    attempt it is not called. *)
Theorem retried_call w : (0 <= delay_seconds)%Q -> (0 <= backoff_multiplier)%Q ->
  if max_attempts <=? 0 then retry_on_failure w = (Raise (give_up_with false), w)
  else exists k w1, Z.of_nat k < max_attempts /\ failed_attempts k delay_seconds w w1 /\
    match func w1 with
    | (Ok a, w2) => retry_on_failure w = (Ok a, w2)
    | (Raise e, w2) =>
        if isinstance_any e exceptions then Z.of_nat k = max_attempts - 1 /\ retry_on_failure w = (Raise (give_up_with true), w2)
        else retry_on_failure w = (Raise e, w2)
    end.
Proof.
  intros Hd Hm. unfold retry_on_failure. destruct (max_attempts <=? 0) eqn:Hn.
  - apply Z.leb_le in Hn. replace (Z.to_nat max_attempts) with 0%nat by lia. done.
  - apply Z.leb_gt in Hn.
    destruct (attempts_outcome (Z.to_nat max_attempts) false delay_seconds w Hd Hm ltac:(lia)) as (k & w1 & Hk & Hf & Hr).
    exists k, w1. split; [lia|]. split; [done|]. destruct (func w1) as [[a|e] w2]; [done|].
    destruct (isinstance_any e exceptions); [|done]. destruct Hr as [-> Hr]. split; [lia|done].
Qed.
End retries.

(** ** What is raised *)

Section translation.
Context {W A : Type}.
Implicit Types (func : M W A) (e : exn).

Lemma marty_error_is c msg code : In (cls_name MartyError_cls) (mro c) -> isinstance (marty_error c msg code) MartyError_cls = true.
Proof. intros Hin. unfold isinstance. apply existsb_exists. eexists. split; [exact Hin|apply String.eqb_refl]. Qed.

(** The decorator and the context manager make the same class of error of every
    exception, one of the hierarchy, which is passed on if it already was of it; or
    else both swallow it. What was done before the exception stays done. *)
Theorem wrappers_agree func name e w w' : func w = (Raise e, w') -> catchable e = true ->
  handle_common_exceptions false name func w = (Ok None, w') /\ with_context false name func w = (Ok None, w') /\
  exists e1 e2, handle_common_exceptions true name func w = (Raise e1, w') /\ with_context true name func w = (Raise e2, w') /\
    exn_class e1 = exn_class e2 /\ isinstance e1 MartyError_cls = true /\ (isinstance e MartyError_cls = true -> e1 = e /\ e2 = e).
Proof.
  intros Hf Hc. unfold handle_common_exceptions, with_context, context_exit. rewrite Hf, Hc. simpl existsb.
  destruct (isinstance e MartyError_cls) eqn:Hm; [by split_and!; try eexists _, _|].
  destruct (isinstance_any e [ConnectionError; TimeoutError]); [by split_and!; try eexists _, _|].
  destruct (isinstance_any e [ValueError; TypeError]); [by split_and!; try eexists _, _|].
  assert (isinstance_any e [FileNotFoundError; PermissionError] = isinstance e FileNotFoundError || isinstance e PermissionError) as ->
    by (unfold isinstance_any; simpl; by rewrite orb_false_r).
  destruct (isinstance e FileNotFoundError); [by split_and!; try eexists _, _|].
  destruct (isinstance e PermissionError); by split_and!; try eexists _, _.
Qed.

Lemma handled_error func name e w w' : handle_common_exceptions true name func w = (Raise e, w') ->
  isinstance e MartyError_cls = true \/ isinstance_any e [ConnectionError; TimeoutError; ValueError; TypeError; FileNotFoundError; PermissionError] = false /\
    catchable e = false.
Proof.
  unfold handle_common_exceptions. destruct (func w) as [[a|e0] w0]; [done|]. unfold raise_if, raise.
  destruct (isinstance e0 MartyError_cls) eqn:Hm; [intros [= <- _]; by left|].
  destruct (isinstance_any e0 [ConnectionError; TimeoutError]) eqn:Hn; [intros [= <- _]; by left|].
  destruct (isinstance_any e0 [ValueError; TypeError]) eqn:Hv; [intros [= <- _]; by left|].
  destruct (isinstance e0 FileNotFoundError) eqn:Hi; [intros [= <- _]; by left|].
  destruct (isinstance e0 PermissionError) eqn:Hp; [intros [= <- _]; by left|].
  destruct (catchable e0) eqn:Hc; intros [= <- _]; [by left|]. right. split; [|done].
  unfold isinstance_any in *. simpl in *. rewrite !orb_false_iff in *. tauto.
Qed.

(** A second layer of the decorator changes nothing. *)
Theorem wrapped_twice func name name' w :
  handle_common_exceptions true name' (handle_common_exceptions true name func) w =
  match handle_common_exceptions true name func w with
  | (Ok a, w') => (Ok (Some a), w')
  | (Raise e, w') => (Raise e, w')
  end.
Proof.
  unfold handle_common_exceptions at 1. destruct (handle_common_exceptions true name func w) as [[a|e] w'] eqn:Hh; [done|].
  apply handled_error in Hh as [Hm|[Hn Hc]]; [by rewrite Hm|].
  unfold isinstance_any in *. simpl in *. rewrite !orb_false_iff in *.
  destruct Hn as (H1 & H2 & H3 & H4 & H5 & H6 & _). rewrite H1, H2, H3, H4, H5, H6, Hc. simpl.
  by destruct (isinstance e MartyError_cls).
Qed.

(** Required fields are accepted exactly when every one is there and not [None]; the
    error names the others in their order. *)
Theorem required_fields_iff {V} (is_none : V -> bool) data required :
  validate_required_fields is_none data required = Ok tt <->
  forall f, In f required -> exists v, dget f data = Some v /\ is_none v = false.
Proof.
  unfold validate_required_fields. case_bool_decide as Hm.
  - split; [|done]. intros _ f Hin. apply (proj1 (lfilter_nil _ _) Hm) in Hin. destruct (dget f data) as [v|]; [by exists v|done].
  - split; [done|]. intros Hall. destruct Hm. apply lfilter_nil. intros f Hin. by destruct (Hall f Hin) as (v & -> & ?).
Qed.
End translation.

Module Demo.
#[export] Instance demo_clock : World Q := { time_time w := (w, w); sleep d w := (w + d)%Q; randbelow _ w := (0, w) }.

(** A context that does not raise again swallows what stops a program, which the
    decorator lets through; one that raises again makes an error of it. *)
Definition interrupted : M Q Z := raise (raise_ KeyboardInterrupt "").

Lemma interrupt_swallowed : with_context false "work" interrupted 0%Q = (Ok None, 0%Q) /\
  handle_common_exceptions false "work" interrupted 0%Q = (Raise (raise_ KeyboardInterrupt ""), 0%Q).
Proof. by vm_compute. Qed.

Lemma wrappers_agree_witness : exists e1 e2,
  handle_common_exceptions (A:=Z) true "read" (raise (raise_ PermissionError "/etc/key")) 0%Q = (Raise e1, 0%Q) /\
  with_context (A:=Z) true "read" (raise (raise_ PermissionError "/etc/key")) 0%Q = (Raise e2, 0%Q) /\
  exn_class e1 = exn_class e2 /\ isinstance e1 MartyError_cls = true.
Proof.
  destruct (wrappers_agree (A:=Z) (raise (raise_ PermissionError "/etc/key")) "read" (raise_ PermissionError "/etc/key") 0%Q 0%Q eq_refl eq_refl)
    as (_ & _ & e1 & e2 & H1 & H2 & H3 & H4 & _). exists e1, e2. repeat (split; [assumption|]). assumption.
Defined.

(** A database error that was already named as one is named again. *)
Lemma database_error_twice : fst (handle_database_errors (A:=Z) (handle_database_errors (raise (raise_ OSError "disk"))) 0%Q) =
  Raise (marty_error MartyDatabaseError_cls "Database operation failed: Database operation failed: disk" None).
Proof. by vm_compute. Qed.

(** Succeeds in the third attempt, three seconds later. *)
Definition third_time : M Q Z := fun w => if Qle_bool 3 w then (Ok 7, w) else (Raise (raise_ TimeoutError ""), w).

Lemma third_attempt : retry_on_failure 3 1 2 [OSError] "f" third_time 0%Q = (Ok 7, 3%Q).
Proof. by vm_compute. Qed.

Lemma retried_call_witness : exists k w1, Z.of_nat k < 3 /\ failed_attempts 2 [OSError] third_time k 1 0%Q w1 /\
  match third_time w1 with
  | (Ok a, w2) => retry_on_failure 3 1 2 [OSError] "f" third_time 0%Q = (Ok a, w2)
  | (Raise e, w2) =>
      if isinstance_any e [OSError] then Z.of_nat k = 3 - 1 /\ retry_on_failure 3 1 2 [OSError] "f" third_time 0%Q = (Raise (give_up_with 3 "f" true), w2)
      else retry_on_failure 3 1 2 [OSError] "f" third_time 0%Q = (Raise e, w2)
  end.
Proof. apply (retried_call 3 1 2 [OSError] "f" third_time 0%Q); discriminate. Defined.
End Demo.
