(* ===== verification/EnhancedErrors.v ===== *)
(** * Enhanced errors ([resilience/enhanced_errors.py])

    The errors with a category, a severity and a recovery action, their constructors,
    the details that are sent to clients, and the way to gRPC statuses and back. An
    error holds a reference to its context, an object that its constructor changes
    and that a caller can share between errors: contexts live in a heap. *)

From S2P Require Import Prelude PyRuntime PyText PyDate Pydantic ErrorCodes.
Local Open Scope Z_scope.

Inductive ErrorSeverity := LOW | MEDIUM | HIGH | CRITICAL.
Definition severity_value (s : ErrorSeverity) : string :=
  match s with LOW => "low" | MEDIUM => "medium" | HIGH => "high" | CRITICAL => "critical" end.

Inductive ErrorRecoveryAction :=
| RETRY | RETRY_WITH_BACKOFF | FAIL_FAST | CIRCUIT_BREAK | GRACEFUL_DEGRADATION | MANUAL_INTERVENTION.
Definition action_value (a : ErrorRecoveryAction) : string :=
  match a with
  | RETRY => "retry" | RETRY_WITH_BACKOFF => "retry_with_backoff" | FAIL_FAST => "fail_fast"
  | CIRCUIT_BREAK => "circuit_break" | GRACEFUL_DEGRADATION => "graceful_degradation"
  | MANUAL_INTERVENTION => "manual_intervention"
  end.

Module Category.
Inductive EnhancedErrorCategory :=
| VALIDATION | AUTHENTICATION | AUTHORIZATION | NOT_FOUND | CONFLICT | RATE_LIMITED
| INTERNAL | TRANSIENT | EXTERNAL_SERVICE | DATABASE | NETWORK | CONFIGURATION | RESOURCE_EXHAUSTED
| BUSINESS_RULE | WORKFLOW | INFRASTRUCTURE | SECURITY.
End Category.
Notation EnhancedErrorCategory := Category.EnhancedErrorCategory.

#[export] Instance category_eq_dec : EqDecision EnhancedErrorCategory.
Proof. solve_decision. Defined.
#[export] Instance action_eq_dec : EqDecision ErrorRecoveryAction.
Proof. solve_decision. Defined.

Definition category_value (c : EnhancedErrorCategory) : string :=
  match c with
  | Category.VALIDATION => "validation" | Category.AUTHENTICATION => "authentication"
  | Category.AUTHORIZATION => "authorization" | Category.NOT_FOUND => "not_found" | Category.CONFLICT => "conflict"
  | Category.RATE_LIMITED => "rate_limited" | Category.INTERNAL => "internal" | Category.TRANSIENT => "transient"
  | Category.EXTERNAL_SERVICE => "external_service" | Category.DATABASE => "database" | Category.NETWORK => "network"
  | Category.CONFIGURATION => "configuration" | Category.RESOURCE_EXHAUSTED => "resource_exhausted"
  | Category.BUSINESS_RULE => "business_rule" | Category.WORKFLOW => "workflow"
  | Category.INFRASTRUCTURE => "infrastructure" | Category.SECURITY => "security"
  end.

Definition ENHANCED_CATEGORY_TO_GRPC_STATUS (c : EnhancedErrorCategory) : StatusCode :=
  match c with
  | Category.VALIDATION => INVALID_ARGUMENT
  | Category.AUTHENTICATION => UNAUTHENTICATED
  | Category.AUTHORIZATION | Category.SECURITY => PERMISSION_DENIED
  | Category.NOT_FOUND => NOT_FOUND
  | Category.CONFLICT => ALREADY_EXISTS
  | Category.RATE_LIMITED | Category.RESOURCE_EXHAUSTED => RESOURCE_EXHAUSTED
  | Category.INTERNAL | Category.DATABASE | Category.INFRASTRUCTURE => INTERNAL
  | Category.TRANSIENT | Category.EXTERNAL_SERVICE | Category.NETWORK => UNAVAILABLE
  | Category.CONFIGURATION | Category.BUSINESS_RULE | Category.WORKFLOW => FAILED_PRECONDITION
  end.

(** ** Contexts *)

Record ErrorContext := {
  timestamp : Q; request_id : option string; user_id : option string; service_name : option string;
  method_name : option string; operation_name : option string; additional_context : pydict pyval }.

Definition blank_context (now : Q) : ErrorContext := {|
  timestamp := now; request_id := None; user_id := None; service_name := None; method_name := None;
  operation_name := None; additional_context := [] |}.

Definition add_context (k : string) (v : pyval) (c : ErrorContext) : ErrorContext := {|
  timestamp := timestamp c; request_id := request_id c; user_id := user_id c; service_name := service_name c;
  method_name := method_name c; operation_name := operation_name c; additional_context := dset k v (additional_context c) |}.

(** What dictionaries for clients hold. *)
Inductive tree := Leaf (v : pyval) | Time (t : Q) | Node (d : list (string * tree)).

Definition text (s : string) : tree := Leaf (VStr s).
Definition optional_text (s : option string) : tree := Leaf (match s with Some s => VStr s | None => VNone end).

Definition context_to_dict (c : ErrorContext) : tree := Node [
  ("timestamp", Time (timestamp c)); ("request_id", optional_text (request_id c)); ("user_id", optional_text (user_id c));
  ("service_name", optional_text (service_name c)); ("method_name", optional_text (method_name c));
  ("operation_name", optional_text (operation_name c)); ("additional_context", Leaf (VDict (additional_context c)))].

Class ContextHeap (W : Type) := { heap : W -> list ErrorContext; set_heap : list ErrorContext -> W -> W }.

(** ** Errors *)

(** The fields of an error; [context] is its place in the heap. *)
Record ErrorFields := {
  code : string; message : string; category : EnhancedErrorCategory; severity : ErrorSeverity;
  recovery_action : ErrorRecoveryAction; context : nat; user_facing_message : option string; documentation_url : option string }.

(** An error of the class of that name, with the exception it was made for. *)
Inductive EnhancedMartyError := Err (class : string) (f : ErrorFields) (inner_exception : option (EnhancedMartyError + exn)).

Definition fields (e : EnhancedMartyError) : ErrorFields := let 'Err _ f _ := e in f.

Definition error_str (e : EnhancedMartyError) : string := "[" +:+ code (fields e) +:+ "] " +:+ message (fields e).

(** [ErrorDetails] shares the fields of its error. *)
Inductive ErrorDetails := Details (f : ErrorFields) (stack_trace : option string) (inner_error : option ErrorDetails).

(** [trace] is the text of [traceback.format_exc]. *)
Fixpoint to_error_details (include_stack_trace : bool) (trace : string) (e : EnhancedMartyError) : ErrorDetails :=
  let 'Err _ f inner := e in
  Details f (if include_stack_trace then Some trace else None)
    (match inner with Some (inl e') => Some (to_error_details include_stack_trace trace e') | _ => None end).

Definition context_of (h : list ErrorContext) (i : nat) : ErrorContext := default (blank_context 0) (h !! i).

Definition if_text (k : string) (s : option string) : list (string * tree) :=
  if str_truthy s then [(k, text (default "" s))] else [].

Fixpoint details_to_dict (h : list ErrorContext) (d : ErrorDetails) : tree :=
  let 'Details f trace inner := d in
  Node ([("code", text (code f)); ("message", text (message f)); ("category", text (category_value (category f)));
         ("severity", text (severity_value (severity f))); ("recovery_action", text (action_value (recovery_action f)));
         ("context", context_to_dict (context_of h (context f)))] ++
        if_text "user_message" (user_facing_message f) ++ if_text "documentation_url" (documentation_url f) ++
        match inner with Some d' => [("inner_error", details_to_dict h d')] | None => [] end ++
        if_text "stack_trace" trace).

(** ** Constructors *)

(** The keyword arguments a constructor passes on; [k_other] are further names. *)
Record kwargs := {
  k_context : option nat; k_user_message : option string; k_documentation_url : option string;
  k_inner : option (EnhancedMartyError + exn); k_other : list string }.

Definition no_kwargs : kwargs :=
  {| k_context := None; k_user_message := None; k_documentation_url := None; k_inner := None; k_other := [] |}.

Section constructors.
Context {W : Type} `{World W, ContextHeap W}.

(** [ErrorContext()] *)
Definition new_context : M W nat := fun w =>
  let '(now, w) := time_time w in
  (Ok (length (heap w)), set_heap (heap w ++ [blank_context now]) w).

(** [kwargs.pop("context", ErrorContext())]: the default is made in any case. *)
Definition pop_context (kw : kwargs) : M W nat := fresh ← new_context; mret (default fresh (k_context kw)).

(** [context.additional_context[k] = v] *)
Definition annotate (i : nat) (k : string) (v : pyval) : M W unit := fun w =>
  (Ok tt, set_heap (alter (add_context k v) i (heap w)) w).

Definition annotate_text (i : nat) (k : string) (s : option string) : M W unit :=
  if str_truthy s then annotate i k (VStr (default "" s)) else mret tt.

(** The constructor of the base class: [given] is the context a subclass passes, and
    [user_message] the message it passes, which must not be given twice. *)
Definition init_error (class code message : string) (category : EnhancedErrorCategory) (severity : ErrorSeverity)
    (action : ErrorRecoveryAction) (given : option nat) (user_message : option string) (kw : kwargs) : M W EnhancedMartyError :=
  match k_other kw with
  | k :: _ => raise (raise_ TypeError ("unexpected or repeated keyword argument '" +:+ k +:+ "'"))
  | [] =>
      if opt_is_some user_message && opt_is_some (k_user_message kw)
      then raise (raise_ TypeError "multiple values for keyword argument 'user_facing_message'") else
      i ← match given, k_context kw with Some i, _ => mret i | None, Some i => mret i | None, None => new_context end;
      mret (Err class {| code := code; message := message; category := category; severity := severity;
                         recovery_action := action; context := i;
                         user_facing_message := match user_message with Some _ => user_message | None => k_user_message kw end;
                         documentation_url := k_documentation_url kw |} (k_inner kw))
  end.

Definition ValidationError (message : string) (field_name : option string) (kw : kwargs) : M W EnhancedMartyError :=
  i ← pop_context kw;
  _ ← annotate_text i "field_name" field_name;
  init_error "ValidationError" "VALIDATION_ERROR" message Category.VALIDATION LOW FAIL_FAST (Some i)
    (Some ("Invalid input: " +:+ message)) kw.

Definition AuthenticationError (message : string) (kw : kwargs) : M W EnhancedMartyError :=
  init_error "AuthenticationError" "AUTHENTICATION_ERROR" message Category.AUTHENTICATION HIGH FAIL_FAST None
    (Some "Authentication required") kw.

Definition AuthorizationError (message : string) (kw : kwargs) : M W EnhancedMartyError :=
  init_error "AuthorizationError" "AUTHORIZATION_ERROR" message Category.AUTHORIZATION HIGH FAIL_FAST None
    (Some "Insufficient permissions") kw.

Definition NotFoundError (message : string) (resource_type resource_id : option string) (kw : kwargs) : M W EnhancedMartyError :=
  i ← pop_context kw;
  _ ← annotate_text i "resource_type" resource_type;
  _ ← annotate_text i "resource_id" resource_id;
  init_error "NotFoundError" "NOT_FOUND" message Category.NOT_FOUND LOW FAIL_FAST (Some i)
    (Some "Requested resource not found") kw.

Definition ConflictError (message : string) (kw : kwargs) : M W EnhancedMartyError :=
  init_error "ConflictError" "CONFLICT_ERROR" message Category.CONFLICT MEDIUM FAIL_FAST None
    (Some "Conflict with existing resource") kw.

Definition TransientError (message : string) (kw : kwargs) : M W EnhancedMartyError :=
  init_error "TransientError" "TRANSIENT_ERROR" message Category.TRANSIENT MEDIUM RETRY_WITH_BACKOFF None
    (Some "Temporary service issue, please try again") kw.

Definition ExternalServiceError (message : string) (service : option string) (kw : kwargs) : M W EnhancedMartyError :=
  i ← pop_context kw;
  _ ← annotate_text i "external_service" service;
  init_error "ExternalServiceError" "EXTERNAL_SERVICE_ERROR" message Category.EXTERNAL_SERVICE HIGH CIRCUIT_BREAK (Some i)
    (Some "External service temporarily unavailable") kw.

Definition DatabaseError (message : string) (kw : kwargs) : M W EnhancedMartyError :=
  init_error "DatabaseError" "DATABASE_ERROR" message Category.DATABASE HIGH RETRY_WITH_BACKOFF None
    (Some "Database operation failed") kw.

Definition RateLimitError (message : string) (retry_after : option Z) (kw : kwargs) : M W EnhancedMartyError :=
  let retry_after := match retry_after with Some 0 => None | r => r end in
  i ← pop_context kw;
  _ ← match retry_after with Some s => annotate i "retry_after_seconds" (VInt s) | None => mret tt end;
  init_error "RateLimitError" "RATE_LIMIT_EXCEEDED" message Category.RATE_LIMITED MEDIUM RETRY_WITH_BACKOFF (Some i)
    (Some ("Rate limit exceeded, try again in " +:+ z_str (default 60 retry_after) +:+ " seconds")) kw.

Definition BusinessRuleError (message : string) (rule_name : option string) (kw : kwargs) : M W EnhancedMartyError :=
  i ← pop_context kw;
  _ ← annotate_text i "rule_name" rule_name;
  init_error "BusinessRuleError" "BUSINESS_RULE_VIOLATION" message Category.BUSINESS_RULE MEDIUM FAIL_FAST (Some i) None kw.

(** ** Statuses *)

Definition map_enhanced_exception_to_status (exc : EnhancedMartyError + exn) (h : list ErrorContext) : StatusCode * string * option tree :=
  match exc with
  | inl e => (ENHANCED_CATEGORY_TO_GRPC_STATUS (category (fields e)), message (fields e),
              Some (details_to_dict h (to_error_details false "" e)))
  | inr exc => let '(status_code, message) := map_exception_to_status exc in (status_code, message, None)
  end.

(** A gRPC error by the name of its code and its details. *)
Record GrpcError := { code_name : string; details : option string }.

Definition grpc_to_category (code_name : string) : EnhancedErrorCategory :=
  match status_of_name code_name with
  | Some INVALID_ARGUMENT => Category.VALIDATION
  | Some UNAUTHENTICATED => Category.AUTHENTICATION
  | Some PERMISSION_DENIED => Category.AUTHORIZATION
  | Some NOT_FOUND => Category.NOT_FOUND
  | Some ALREADY_EXISTS => Category.CONFLICT
  | Some RESOURCE_EXHAUSTED => Category.RATE_LIMITED
  | Some UNAVAILABLE | Some DEADLINE_EXCEEDED => Category.TRANSIENT
  | _ => Category.INTERNAL
  end.

Definition create_error_from_grpc_error (e : GrpcError) : M W EnhancedMartyError :=
  let category := grpc_to_category (code_name e) in
  init_error "EnhancedMartyError" ("GRPC_" +:+ code_name e)
    (default "" (str_or (details e) (Some ("gRPC error: " +:+ code_name e)))) category
    (if bool_decide (category = Category.INTERNAL) then HIGH else MEDIUM)
    (if bool_decide (category = Category.TRANSIENT) then RETRY_WITH_BACKOFF else FAIL_FAST) None None no_kwargs.

Definition is_retriable_error (e : EnhancedMartyError) : bool :=
  bool_decide (category (fields e) ∈ [Category.TRANSIENT; Category.NETWORK; Category.EXTERNAL_SERVICE; Category.DATABASE]) ||
  bool_decide (recovery_action (fields e) ∈ [RETRY; RETRY_WITH_BACKOFF]).
End constructors.

(** ** Statuses that survive a hop *)

Section statuses.
Context {W : Type} `{World W, ContextHeap W}.

(** The codes that a service passes on unchanged. *)
Definition surviving_codes : list string := [
  "INVALID_ARGUMENT"; "UNAUTHENTICATED"; "PERMISSION_DENIED"; "NOT_FOUND"; "ALREADY_EXISTS"; "RESOURCE_EXHAUSTED";
  "UNAVAILABLE"; "INTERNAL"].

Lemma status_of_name_some s c : status_of_name s = Some c -> s = status_name c.
Proof. intros Hf. apply find_some in Hf as [_ He]. by apply String.eqb_eq in He. Qed.

Lemma init_runs class code message category severity action given user kw (w : W) :
  k_other kw = [] -> user = None \/ k_user_message kw = None ->
  exists i w', init_error class code message category severity action given user kw w =
    (Ok (Err class {| code := code; message := message; category := category; severity := severity;
                      recovery_action := action; context := i;
                      user_facing_message := match user with Some _ => user | None => k_user_message kw end;
                      documentation_url := k_documentation_url kw |} (k_inner kw)), w').
Proof.
  intros Hk Hu. unfold init_error. rewrite Hk.
  assert (opt_is_some user && opt_is_some (k_user_message kw) = false) as ->
    by (destruct Hu as [-> | ->]; [done|by destruct user]).
  unfold mbind, M_bind, new_context. destruct given as [i|], (k_context kw) as [j|]; try by eexists _, w.
  destruct (time_time w). by eexists _, _.
Qed.

(** A status received from a service is passed on to the caller unchanged exactly
    for eight codes; a missed deadline becomes UNAVAILABLE, any other code INTERNAL.
    The details survive when there are any, and exactly the two transient codes are
    retried. *)
Theorem status_after_hop (g : GrpcError) (w : W) :
  exists e w', create_error_from_grpc_error g w = (Ok e, w') /\
    let '(status, text, _) := map_enhanced_exception_to_status (inl e) (heap w') in
    status_name status = (if mem (code_name g) surviving_codes then code_name g
                          else if String.eqb (code_name g) "DEADLINE_EXCEEDED" then "UNAVAILABLE" else "INTERNAL") /\
    text = (if str_truthy (details g) then default "" (details g) else "gRPC error: " +:+ code_name g) /\
    is_retriable_error e = mem (code_name g) ["UNAVAILABLE"; "DEADLINE_EXCEEDED"].
Proof.
  unfold create_error_from_grpc_error. set (cat := grpc_to_category (code_name g)).
  edestruct init_runs as (i & w' & ->); [done|by right|]. eexists _, w'. split; [reflexivity|]. simpl. unfold str_or.
  assert (status_name (ENHANCED_CATEGORY_TO_GRPC_STATUS cat) =
      (if mem (code_name g) surviving_codes then code_name g
       else if String.eqb (code_name g) "DEADLINE_EXCEEDED" then "UNAVAILABLE" else "INTERNAL") /\
    (bool_decide (cat = Category.TRANSIENT) = mem (code_name g) ["UNAVAILABLE"; "DEADLINE_EXCEEDED"] /\
     bool_decide (cat ∈ [Category.TRANSIENT; Category.NETWORK; Category.EXTERNAL_SERVICE; Category.DATABASE]) =
       mem (code_name g) ["UNAVAILABLE"; "DEADLINE_EXCEEDED"])) as (-> & Ht & Hr).
  { unfold cat, grpc_to_category. destruct (status_of_name (code_name g)) as [c|] eqn:Hc.
    - rewrite (status_of_name_some _ _ Hc). by destruct c; vm_compute.
    - assert (forall c, String.eqb (code_name g) (status_name c) = false) as Hne.
      { intros c. apply String.eqb_neq. intros He. by rewrite He, status_roundtrip in Hc. }
      assert (forall c, bool_decide (code_name g = status_name c) = false) as Hd
        by (intros c; apply bool_decide_eq_false; by apply String.eqb_neq).
      assert (mem (code_name g) surviving_codes = false /\ mem (code_name g) ["UNAVAILABLE"; "DEADLINE_EXCEEDED"] = false) as [-> ->].
      { unfold mem. rewrite !bool_decide_eq_false. split; intros Hin.
        - unfold surviving_codes in Hin. change (code_name g ∈ map status_name
            [INVALID_ARGUMENT; UNAUTHENTICATED; PERMISSION_DENIED; NOT_FOUND; ALREADY_EXISTS; RESOURCE_EXHAUSTED; UNAVAILABLE; INTERNAL]) in Hin.
          apply list_elem_of_fmap in Hin as (c & He & _). specialize (Hne c). by apply String.eqb_neq in Hne.
        - change (code_name g ∈ map status_name [UNAVAILABLE; DEADLINE_EXCEEDED]) in Hin.
          apply list_elem_of_fmap in Hin as (c & He & _). specialize (Hne c). by apply String.eqb_neq in Hne. }
      change "DEADLINE_EXCEEDED" with (status_name DEADLINE_EXCEEDED). rewrite Hne. done. }
  split; [done|]. split.
  - by destruct (str_truthy (details g)).
  - unfold is_retriable_error. simpl. rewrite Hr, Ht. by destruct (mem _ _).
Qed.
End statuses.

(** ** What each constructor makes *)

(** The constructors with their own arguments. *)
Inductive constructor :=
| CValidation (field_name : option string) | CAuthentication | CAuthorization
| CNotFound (resource_type resource_id : option string) | CConflict | CTransient | CExternalService (service : option string)
| CDatabase | CRateLimit (retry_after : option Z) | CBusinessRule (rule_name : option string).

Definition status_of (c : constructor) : StatusCode :=
  match c with
  | CValidation _ => INVALID_ARGUMENT | CAuthentication => UNAUTHENTICATED | CAuthorization => PERMISSION_DENIED
  | CNotFound _ _ => NOT_FOUND | CConflict => ALREADY_EXISTS | CTransient | CExternalService _ => UNAVAILABLE
  | CDatabase => INTERNAL | CRateLimit _ => RESOURCE_EXHAUSTED | CBusinessRule _ => FAILED_PRECONDITION
  end.

Definition retried (c : constructor) : bool :=
  match c with CTransient | CExternalService _ | CDatabase | CRateLimit _ => true | _ => false end.

Section made.
Context {W : Type} `{World W, ContextHeap W}.

Definition make (c : constructor) (message : string) (kw : kwargs) : M W EnhancedMartyError :=
  match c with
  | CValidation f => ValidationError message f kw
  | CAuthentication => AuthenticationError message kw
  | CAuthorization => AuthorizationError message kw
  | CNotFound t i => NotFoundError message t i kw
  | CConflict => ConflictError message kw
  | CTransient => TransientError message kw
  | CExternalService s => ExternalServiceError message s kw
  | CDatabase => DatabaseError message kw
  | CRateLimit r => RateLimitError message r kw
  | CBusinessRule r => BusinessRuleError message r kw
  end.

(** A computation makes an error with that text, category and action. *)
Definition makes (text : string) (cat : EnhancedErrorCategory) (action : ErrorRecoveryAction) (m : M W EnhancedMartyError) : Prop :=
  yields m (fun e => message (fields e) = text /\ category (fields e) = cat /\ recovery_action (fields e) = action).

Lemma makes_init class code text cat severity action given user kw : k_other kw = [] -> k_user_message kw = None ->
  makes text cat action (init_error class code text cat severity action given user kw).
Proof.
  intros Hk Hu w. destruct (init_runs class code text cat severity action given user kw w Hk (or_intror Hu)) as (i & w' & ->).
  by eexists _, w'.
Qed.

Lemma makes_pop text cat action kw f : (forall i, makes text cat action (f i)) -> makes text cat action (i ← pop_context kw; f i).
Proof.
  intros Hf w. unfold pop_context, new_context, mbind, M_bind. destruct (time_time w). simpl. apply Hf.
Qed.

Lemma makes_annotated text cat action i k v f : makes text cat action f -> makes text cat action (_ ← annotate i k v; f).
Proof. intros Hf w. apply Hf. Qed.

Lemma makes_annotated_text text cat action i k s f : makes text cat action f -> makes text cat action (_ ← annotate_text i k s; f).
Proof. intros Hf w. unfold annotate_text. destruct (str_truthy s); apply Hf. Qed.

Definition category_of (c : constructor) : EnhancedErrorCategory :=
  match c with
  | CValidation _ => Category.VALIDATION | CAuthentication => Category.AUTHENTICATION | CAuthorization => Category.AUTHORIZATION
  | CNotFound _ _ => Category.NOT_FOUND | CConflict => Category.CONFLICT | CTransient => Category.TRANSIENT
  | CExternalService _ => Category.EXTERNAL_SERVICE | CDatabase => Category.DATABASE | CRateLimit _ => Category.RATE_LIMITED
  | CBusinessRule _ => Category.BUSINESS_RULE
  end.
Definition action_of (c : constructor) : ErrorRecoveryAction :=
  match c with
  | CTransient | CDatabase | CRateLimit _ => RETRY_WITH_BACKOFF | CExternalService _ => CIRCUIT_BREAK | _ => FAIL_FAST
  end.

Lemma make_makes c text kw : k_other kw = [] -> k_user_message kw = None -> makes text (category_of c) (action_of c) (make c text kw).
Proof.
  intros Hk Hu. destruct c; simpl; try (by apply makes_init); apply makes_pop; intros i.
  all: repeat apply makes_annotated_text; try (by apply makes_init).
  destruct (match retry_after with Some 0 => None | r => r end); [apply makes_annotated|intros w]; by apply makes_init.
Qed.

(** Every constructor with regular arguments makes an error with its status and its
    message, which is retried for four of them only. *)
Theorem constructed_errors c text kw (w : W) : k_other kw = [] -> k_user_message kw = None ->
  exists e w', make c text kw w = (Ok e, w') /\
    fst (map_enhanced_exception_to_status (inl e) (heap w')) = (status_of c, text) /\ is_retriable_error e = retried c.
Proof.
  intros Hk Hu. destruct (make_makes c text kw Hk Hu w) as (e & w' & -> & Hm & Hc & Ha). exists e, w'.
  split; [done|]. simpl. unfold is_retriable_error. rewrite Hm, Hc, Ha. by destruct c.
Qed.
End made.

Module Demo.
Definition world := list ErrorContext.
#[export] Instance demo_clock : World world := { time_time w := (0%Q, w); sleep _ w := w; randbelow _ w := (0, w) }.
#[export] Instance demo_heap : ContextHeap world := { heap w := w; set_heap h _ := h }.

Definition sharing (i : nat) : kwargs :=
  {| k_context := Some i; k_user_message := None; k_documentation_url := None; k_inner := None; k_other := [] |}.

Definition resource_shown (r : result EnhancedMartyError * world) : option pyval :=
  match r with
  | (Ok e, w) => dget "resource_id" (additional_context (context_of w (context (fields e))))
  | _ => None
  end.

(** Two errors with one context: the first one names the resource of the second. *)
Definition two_missing : M world EnhancedMartyError :=
  i ← new_context;
  first ← NotFoundError "no passport" (Some "passport") (Some "P1") (sharing i);
  _ ← NotFoundError "no visa" (Some "visa") (Some "V2") (sharing i);
  mret first.

Lemma shared_context_overwritten : resource_shown (two_missing []) = Some (VStr "V2").
Proof. by vm_compute. Qed.

(** A message for the user cannot be given to a class that has its own. *)
Lemma user_message_given_twice :
  exists msg, fst (AuthenticationError "no" {| k_context := None; k_user_message := Some "Log in"; k_documentation_url := None;
    k_inner := None; k_other := [] |} []) = Raise (raise_ TypeError msg).
Proof. by eexists. Qed.

Lemma constructed_errors_witness :
  exists e w', make (CRateLimit (Some 5)) "slow down" no_kwargs ([] : world) = (Ok e, w') /\
    fst (map_enhanced_exception_to_status (inl e) (heap w')) = (RESOURCE_EXHAUSTED, "slow down") /\ is_retriable_error e = true.
Proof. apply (constructed_errors (CRateLimit (Some 5)) "slow down" no_kwargs ([] : world)); reflexivity. Defined.
End Demo.
