(* ===== verification/ValueObjects.v ===== *)
(** * Value objects ([value_objects.py])

    Identifiers of users, organisations and the like, and e-mail addresses: texts that
    are checked when the object is made. [==] is modelled on every kind of operand,
    and the hash of an object by the text it is the hash of. *)

From S2P Require Import Prelude PyRuntime PyText PyUuid PyInt PyRegex.
Local Open Scope Z_scope.

(** ** Identifiers *)

Inductive id_class := UserId_ | OrganizationId_ | CredentialTypeId_ | TransactionId_ | ApiKeyId_ | ApplicantId_.

#[export] Instance id_class_eq_dec : EqDecision id_class.
Proof. solve_decision. Defined.

Definition class_name (c : id_class) : string :=
  match c with
  | UserId_ => "UserId" | OrganizationId_ => "OrganizationId" | CredentialTypeId_ => "CredentialTypeId"
  | TransactionId_ => "TransactionId" | ApiKeyId_ => "ApiKeyId" | ApplicantId_ => "ApplicantId"
  end.

Record Identifier := { id_of : id_class; value : string }.

(** [__post_init__] of every class of identifiers. *)
Definition make_id (c : id_class) (v : string) : result Identifier :=
  if String.eqb v "" || String.eqb (strip v) "" then Raise (raise_ ValueError (class_name c +:+ " cannot be empty"))
  else Ok {| id_of := c; value := v |}.

Definition UserId : string -> result Identifier := make_id UserId_.
Definition OrganizationId : string -> result Identifier := make_id OrganizationId_.
Definition CredentialTypeId : string -> result Identifier := make_id CredentialTypeId_.
Definition TransactionId : string -> result Identifier := make_id TransactionId_.
Definition ApiKeyId : string -> result Identifier := make_id ApiKeyId_.
Definition ApplicantId : string -> result Identifier := make_id ApplicantId_.

(** [secrets.token_urlsafe] *)
Class Tokens (W : Type) := { token_urlsafe : Z -> W -> string * W }.

(** [generate] of the classes. *)
Definition generate {W} `{Env W, Tokens W} (c : id_class) : M W Identifier := fun w =>
  let '(text, w) := match c with
                    | TransactionId_ => token_urlsafe 32 w
                    | _ => let '(hex, w) := uuid4 w in (uuid_str hex, w)
                    end in
  (make_id c text, w).

(** ** E-mail addresses *)

Definition EMAIL_PATTERN : regex := compile "^[a-zA-Z0-9._%+-]+@[a-zA-Z0-9.-]+\.[a-zA-Z]{2,}$".

Record Email := { address : string }.

Definition make_Email (v : string) : result Email :=
  if String.eqb v "" then Raise (raise_ ValueError "Email cannot be empty") else
  let normalized := strip (str_lower v) in
  if negb (matches EMAIL_PATTERN normalized) then Raise (raise_ ValueError ("Invalid email format: " +:+ v))
  else Ok {| address := normalized |}.

(** [self.value.split("@")[i]] *)
Definition part (i : nat) (e : Email) : result string :=
  match nth_error (split_on "@"%char (address e)) i with
  | Some s => Ok s
  | None => Raise (raise_ (subclass "IndexError" LookupError) "list index out of range")
  end.

Definition domain (e : Email) : result string := part 1 e.
Definition local_part (e : Email) : result string := part 0 e.

(** ** Equality and hashes *)

Inductive operand := OId (i : Identifier) | OEmail (e : Email) | OStr (s : string) | OOther.

(** The two classes whose [__eq__] also compares with texts. *)
Definition compares_texts (c : id_class) : bool := match c with UserId_ | OrganizationId_ => true | _ => false end.

Definition id_eq (i : Identifier) (other : operand) : bool :=
  match other with
  | OId j => bool_decide (id_of i = id_of j) && String.eqb (value i) (value j)
  | OStr s => compares_texts (id_of i) && String.eqb (value i) s
  | _ => false
  end.

Definition email_eq (e : Email) (other : operand) : bool :=
  match other with
  | OEmail e' => String.eqb (address e) (address e')
  | OStr s => String.eqb (address e) (str_lower s)
  | _ => false
  end.

(** [x == y]: the methods of a text and of other objects give way to those above. *)
Definition py_eq (x y : operand) : bool :=
  match x, y with
  | OId i, _ => id_eq i y
  | OEmail e, _ => email_eq e y
  | OStr s, OId i => id_eq i x
  | OStr s, OEmail e => email_eq e x
  | OStr s, OStr s' => String.eqb s s'
  | _, _ => false
  end.

(** The text that [hash(x)] is the hash of. *)
Definition hash_text (x : operand) : option string :=
  match x with OId i => Some (value i) | OEmail e => Some (address e) | OStr s => Some s | OOther => None end.

(** ** The form of an address *)

Definition local_char (x : ascii) : bool :=
  in_range "a" "z" x || (in_range "A" "Z" x || (in_range "0" "9" x || (Ascii.eqb "." x || (Ascii.eqb "_" x ||
  (Ascii.eqb "%" x || (Ascii.eqb "+" x || Ascii.eqb "-" x)))))).
Definition host_char (x : ascii) : bool :=
  in_range "a" "z" x || (in_range "A" "Z" x || (in_range "0" "9" x || (Ascii.eqb "." x || Ascii.eqb "-" x))).
Definition letter (x : ascii) : bool := in_range "a" "z" x || (in_range "A" "Z" x || false).

Lemma email_pattern_compiled : EMAIL_PATTERN =
  Seq Empty (Seq (Seq (Class_ local_char) (Many local_char)) (Seq (lit "@") (Seq (Seq (Class_ host_char) (Many host_char))
    (Seq (lit ".") (Seq (Seq (repeat_class 2 letter) (Many letter)) (Seq AtEnd Empty)))))).
Proof. reflexivity. Qed.

Definition email_form (v : string) : Prop := exists local host tld,
  v = local +:+ String "@" (host +:+ String "." tld) /\
  (all_chars local_char local = true /\ (1 <= String.length local)%nat) /\
  (all_chars host_char host = true /\ (1 <= String.length host)%nat) /\
  (all_chars letter tld = true /\ (2 <= String.length tld)%nat).

Lemma email_matches v : matches EMAIL_PATTERN v = true <-> exists u e, v = u +:+ e /\ email_form u /\ at_end e = true.
Proof.
  rewrite email_pattern_compiled, matches_iff. split.
  - intros (s' & g' & Ht). repeat (apply trace_seq_iff in Ht as (? & ? & ? & Ht)).
    repeat match goal with
    | H : trace Empty _ _ _ _ |- _ => inversion H; subst; clear H
    | H : trace (lit _) _ _ _ _ |- _ => apply trace_lit_iff in H as [-> ->]
    | H : trace (Seq (Class_ _) _) _ _ _ _ |- _ => apply trace_plus in H as (-> & ? & -> & ? & ?)
    | H : trace (Seq (repeat_class _ _) _) _ _ _ _ |- _ => apply trace_at_least in H as (-> & ? & -> & ? & ?)
    | H : trace AtEnd _ _ _ _ |- _ => inversion H; subst; clear H
    end.
    eexists (_ +:+ String "@" (_ +:+ String "." _)), s'. split; [|split; [by eexists _, _, _|done]].
    by rewrite append_assoc, append_cons, append_assoc, append_cons.
  - intros (u & e & -> & (local & host & tld & -> & [Hl Hl1] & [Hh Hh1] & [Ht Ht2]) & He).
    exists e, []. rewrite append_assoc, append_cons, append_assoc, append_cons.
    apply trace_seq_iff. eexists _, []. split; [constructor|].
    apply trace_seq_iff. eexists _, []. split; [apply trace_plus; split; [done|by exists local]|].
    apply trace_seq_iff. eexists _, []. split; [by apply trace_lit_iff|].
    apply trace_seq_iff. eexists _, []. split; [apply trace_plus; split; [done|by exists host]|].
    apply trace_seq_iff. eexists _, []. split; [by apply trace_lit_iff|].
    apply trace_seq_iff. eexists _, []. split; [apply trace_at_least; split; [done|by exists tld]|].
    apply trace_seq_iff. eexists _, []. split; [by constructor|constructor].
Qed.

(** ** What [strip] leaves *)

Lemma rstrip_last s : forall t c, rstrip s = t +:+ String c "" -> is_blank c = false.
Proof.
  induction s as [|d s IH]; intros t c; simpl; [by destruct t|].
  destruct (rstrip s) as [|x y] eqn:Hs.
  - destruct (is_blank d) eqn:Hd; [by destruct t|]. destruct t as [|a [|b t]]; [|done..]. by intros [= <-].
  - destruct t as [|a t]; [by intros [= ]|]. change (String a t +:+ String c "") with (String a (t +:+ String c "")).
    intros [= _ Heq]. by apply (IH t).
Qed.

Lemma strip_last s t c : strip s = t +:+ String c "" -> is_blank c = false.
Proof. apply rstrip_last. Qed.

Lemma strip_nonblank s : all_chars (fun c => negb (is_blank c)) s = true -> strip s = s.
Proof. intros Hs. destruct s as [|c s]; [done|]. unfold all_chars in Hs. simpl in Hs. apply andb_true_iff in Hs as [Hc Hs].
  apply strip_plain; [by apply negb_true_iff|done]. Qed.

Lemma strip_chars f s : all_chars f s = true -> all_chars f (strip s) = true.
Proof.
  intros Hs. unfold strip. assert (all_chars f (lstrip s) = true) as Hl.
  { induction s as [|c s IH]; [done|]. cbn [lstrip]. destruct (is_blank c); [|done]. apply IH.
    unfold all_chars in *. simpl in Hs. by apply andb_true_iff in Hs as [_ Hs]. }
  revert Hl. generalize (lstrip s). clear s Hs. intros s. induction s as [|c s IH]; [done|]. unfold all_chars in *. simpl.
  intros [Hc Hs]%andb_true_iff. specialize (IH Hs). destruct (rstrip s) eqn:Hr; simpl in *; [by destruct (is_blank c); simpl; rewrite ?Hc|].
  by rewrite Hc.
Qed.

(** ** What an address is *)

Definition lowered_char (c : ascii) : bool := Ascii.eqb (lower_char c) c.

Lemma lower_lowered s : all_chars lowered_char (str_lower s) = true.
Proof.
  unfold str_lower. induction s as [|c s IH]; [done|]. rewrite (chars_single lower_char). unfold all_chars in *. simpl.
  rewrite IH, andb_true_r. destruct c as [[] [] [] [] [] [] [] []]; reflexivity.
Qed.

Lemma lowered_lower s : all_chars lowered_char s = true -> str_lower s = s.
Proof.
  unfold str_lower. induction s as [|c s IH]; [done|]. unfold all_chars. simpl. intros [Hc%Ascii.eqb_eq Hs]%andb_true_iff.
  rewrite (chars_single lower_char), Hc. f_equal. by apply IH.
Qed.

Lemma all_chars_weaken (f g : ascii -> bool) s : (forall c, f c = true -> g c = true) -> all_chars f s = true -> all_chars g s = true.
Proof. intros Hfg. unfold all_chars. rewrite !forallb_forall. eauto. Qed.

Lemma free_of_chars f c s : f c = false -> all_chars f s = true -> free_of c s.
Proof.
  intros Hc. induction s as [|d s IH]; [done|]. unfold all_chars. simpl. intros [Hd Hs]%andb_true_iff.
  split; [by intros ->; congruence|by apply IH].
Qed.

Lemma form_nonblank v : email_form v -> all_chars (fun c => negb (is_blank c)) v = true.
Proof.
  intros (local & host & tld & -> & [Hl _] & [Hh _] & [Ht _]).
  rewrite all_chars_app, (all_chars_weaken local_char _ local) by
    first [done|by intros [[] [] [] [] [] [] [] []]].
  unfold all_chars at 1. simpl. fold (all_chars (fun c => negb (is_blank c)) (host +:+ String "." tld)).
  rewrite all_chars_app, (all_chars_weaken host_char _ host) by first [done|by intros [[] [] [] [] [] [] [] []]].
  unfold all_chars at 1. simpl. fold (all_chars (fun c => negb (is_blank c)) tld).
  by rewrite (all_chars_weaken letter _ tld) by first [done|by intros [[] [] [] [] [] [] [] []]].
Qed.

Lemma stripped_matches s : matches EMAIL_PATTERN (strip s) = true <-> email_form (strip s).
Proof.
  rewrite email_matches. split.
  - intros (u & e & Hs & Hu & He). unfold at_end in He. apply orb_true_iff in He as [->%String.eqb_eq | ->%String.eqb_eq].
    + by rewrite append_nil in Hs; rewrite Hs.
    + unfold nl in Hs. by apply strip_last in Hs.
  - intros Hf. exists (strip s), "". split; [by rewrite append_nil|done].
Qed.

(** An address is made of exactly the texts that are one once they are in lower case
    and without blanks around them. *)
Theorem email_iff s e : make_Email s = Ok e <-> address e = strip (str_lower s) /\ email_form (address e).
Proof.
  unfold make_Email. destruct (String.eqb_spec s "") as [->|Hs].
  { split; [done|]. intros [Ha Hf]. exfalso. rewrite Ha in Hf. destruct Hf as ([|] & ? & ? & [= ] & _). }
  destruct (matches EMAIL_PATTERN (strip (str_lower s))) eqn:Hm; simpl.
  - apply stripped_matches in Hm. split; [by intros [= <-]|]. intros [Ha _]. destruct e. by simpl in Ha; subst.
  - split; [done|]. intros [Ha Hf]. rewrite Ha in Hf. apply stripped_matches in Hf. congruence.
Qed.

(** Its parts are the texts around its only at sign, and making an address of it
    again changes nothing. *)
Theorem email_normal_form s e : make_Email s = Ok e ->
  exists local host, local_part e = Ok local /\ domain e = Ok host /\ address e = local +:+ "@" +:+ host /\
    make_Email (address e) = Ok e.
Proof.
  intros [Ha Hf]%email_iff. destruct (Hf) as (local & host & tld & Hv & [Hl _] & [Hh _] & [Ht _]).
  exists local, (host +:+ String "." tld).
  assert (split_on "@"%char (address e) = [local; host +:+ String "." tld]) as Hsplit.
  { rewrite Hv. change (String "@" (host +:+ String "." tld)) with (String "@" "" +:+ (host +:+ String "." tld)).
    rewrite split_cons by by apply (free_of_chars local_char). f_equal. apply split_free.
    apply (free_of_chars (fun c => host_char c || letter c)); [done|]. rewrite all_chars_app.
    rewrite (all_chars_weaken host_char _ host) by first [done|by intros c ->].
    unfold all_chars. simpl. apply (all_chars_weaken letter _ tld); [|done]. intros c ->. apply orb_true_r. }
  unfold local_part, domain, part. rewrite Hsplit. split_and!; [done|done|done|].
  apply email_iff. split; [|done].
  rewrite lowered_lower; [|rewrite Ha; apply strip_chars, lower_lowered]. symmetry. by apply strip_nonblank, form_nonblank.
Qed.

(** Equal objects have equal hashes, except that an address equals every text that is
    the address once it is in lower case, and has the hash of that one only. *)
Theorem hash_agreement x y : py_eq x y = true ->
  (hash_text x = hash_text y <->
   match x, y with OEmail _, OStr s | OStr s, OEmail _ => str_lower s = s | _, _ => True end).
Proof.
  destruct x as [i|e|s|], y as [j|e'|s'|]; simpl; try done.
  - intros [_ Hv%String.eqb_eq]%andb_true_iff. by rewrite Hv.
  - intros [_ Hv%String.eqb_eq]%andb_true_iff. by rewrite Hv.
  - intros Hv%String.eqb_eq. by rewrite Hv.
  - intros Hv%String.eqb_eq. rewrite Hv. split; [by intros [= ?]|by intros ->].
  - intros [_ Hv%String.eqb_eq]%andb_true_iff. by rewrite Hv.
  - intros Hv%String.eqb_eq. rewrite Hv. split; [by intros [= ?]|by intros ->].
  - intros Hv%String.eqb_eq. by rewrite Hv.
Qed.

Module Demo.
Lemma address_normalised : make_Email " Ann.Lee@Example.ORG " = Ok {| address := "ann.lee@example.org" |}.
Proof. by vm_compute. Qed.
Lemma one_letter_refused : is_ok (make_Email "ann@example.o") = false.
Proof. by vm_compute. Qed.

Lemma email_normal_form_witness : exists local host,
  local_part {| address := "ann@example.org" |} = Ok local /\ domain {| address := "ann@example.org" |} = Ok host /\
  "ann@example.org" = local +:+ "@" +:+ host /\ make_Email "ann@example.org" = Ok {| address := "ann@example.org" |}.
Proof. apply (email_normal_form "Ann@Example.org" {| address := "ann@example.org" |}). vm_compute. reflexivity. Defined.

(** An address is equal to a text that a dictionary will not find it under. *)
Lemma hash_agreement_witness :
  hash_text (OEmail {| address := "ann@example.org" |}) = hash_text (OStr "Ann@example.org") <->
  str_lower "Ann@example.org" = "Ann@example.org".
Proof. apply (hash_agreement (OEmail {| address := "ann@example.org" |}) (OStr "Ann@example.org")). vm_compute. reflexivity. Defined.

(** Equality is not transitive. *)
Lemma equality_not_transitive :
  py_eq (OId {| id_of := UserId_; value := "7" |}) (OStr "7") = true /\
  py_eq (OStr "7") (OId {| id_of := OrganizationId_; value := "7" |}) = true /\
  py_eq (OId {| id_of := UserId_; value := "7" |}) (OId {| id_of := OrganizationId_; value := "7" |}) = false.
Proof. by vm_compute. Qed.
End Demo.
