(* ===== verification/DomainEvents.v ===== *)
(** * Domain events ([events.py])

    The events of the services: data classes whose first fields are those of
    [DomainEvent], and the dictionary that is sent. Delivery is owned by other code. *)

From S2P Require Import Prelude PyRuntime PyText PyUuid Pydantic.
Local Open Scope Z_scope.

(** ** The type of an event *)

Definition is_upper (c : ascii) : bool := let n := nat_of_ascii c in (65 <=? n)%nat && (n <=? 90)%nat.
Definition is_lower (c : ascii) : bool := let n := nat_of_ascii c in (97 <=? n)%nat && (n <=? 122)%nat.

(** [re.findall(r"[A-Z][a-z]*", s)]: [word] is the match that is being extended. *)
Fixpoint find_words (word : option string) (s : string) : list string :=
  let finished := match word with Some w => [w] | None => [] end in
  match s with
  | EmptyString => finished
  | String c s =>
      if is_upper c then finished ++ find_words (Some (String c "")) s
      else match word with
           | Some w => if is_lower c then find_words (Some (w +:+ String c "")) s else finished ++ find_words None s
           | None => find_words None s
           end
  end.

Definition _derive_event_type (name : string) : string := join "." (map str_lower (find_words None name)).

(** ** Classes *)

(** The default of a field: a text, nothing, the time, or a new list. *)
Inductive default_value := DText (s : string) | DNone | DNow | DList.

(** An event class: its own fields follow those of [DomainEvent], of which it changes
    the default of [source_service]. *)
Record EventClass := { class_name : string; source : string; own : list (string * default_value) }.

Definition texts (names : list string) : list (string * default_value) := map (fun n => (n, DText "")) names.

Definition UserAuthenticated : EventClass := {|
  class_name := "UserAuthenticated"; source := "auth"; own := texts ["user_id"; "email"] ++ [("organization_id", DNone)] |}.
Definition UserLoggedOut : EventClass := {| class_name := "UserLoggedOut"; source := "auth"; own := texts ["user_id"; "session_id"] |}.
Definition SessionCreated : EventClass := {|
  class_name := "SessionCreated"; source := "auth"; own := texts ["session_id"; "user_id"] ++ [("expires_at", DNow)] |}.
Definition OrganizationCreated : EventClass := {|
  class_name := "OrganizationCreated"; source := "organization"; own := texts ["organization_id"; "name"; "owner_id"] |}.
Definition MemberAdded : EventClass := {|
  class_name := "MemberAdded"; source := "organization"; own := texts ["organization_id"; "user_id"; "role"; "added_by"] |}.
Definition MemberRemoved : EventClass := {|
  class_name := "MemberRemoved"; source := "organization"; own := texts ["organization_id"; "user_id"; "removed_by"] |}.
Definition ApiKeyCreated : EventClass := {|
  class_name := "ApiKeyCreated"; source := "organization";
  own := texts ["organization_id"; "api_key_id"; "name"] ++ [("scopes", DList)] ++ texts ["created_by"] |}.
Definition ApiKeyRevoked : EventClass := {|
  class_name := "ApiKeyRevoked"; source := "organization"; own := texts ["organization_id"; "api_key_id"; "revoked_by"] |}.
Definition CredentialTypeConfigured : EventClass := {|
  class_name := "CredentialTypeConfigured"; source := "credential";
  own := texts ["organization_id"; "credential_type_id"; "credential_type"; "configured_by"] |}.
Definition CredentialTypeDisabled : EventClass := {|
  class_name := "CredentialTypeDisabled"; source := "credential"; own := texts ["organization_id"; "credential_type_id"; "disabled_by"] |}.
Definition TrustConfigured : EventClass := {|
  class_name := "TrustConfigured"; source := "trust"; own := texts ["organization_id"; "trust_framework"; "configured_by"] |}.
Definition IssuerKeyGenerated : EventClass := {|
  class_name := "IssuerKeyGenerated"; source := "trust"; own := texts ["organization_id"; "key_id"; "algorithm"; "did"] |}.
Definition CredentialOfferCreated : EventClass := {|
  class_name := "CredentialOfferCreated"; source := "issuance";
  own := texts ["organization_id"; "transaction_id"; "credential_type"; "applicant_id"] |}.
Definition CredentialIssued : EventClass := {|
  class_name := "CredentialIssued"; source := "issuance";
  own := texts ["organization_id"; "transaction_id"; "credential_type"; "applicant_id"; "credential_id"] |}.
Definition CredentialIssuanceFailed : EventClass := {|
  class_name := "CredentialIssuanceFailed"; source := "issuance";
  own := texts ["organization_id"; "transaction_id"; "error_code"; "error_message"] |}.
Definition ApplicantCreated : EventClass := {|
  class_name := "ApplicantCreated"; source := "applicant"; own := texts ["organization_id"; "applicant_id"; "email"] |}.
Definition ApplicationSubmitted : EventClass := {|
  class_name := "ApplicationSubmitted"; source := "applicant";
  own := texts ["organization_id"; "applicant_id"; "application_id"; "application_type"] |}.
Definition ApplicantApproved : EventClass := {|
  class_name := "ApplicantApproved"; source := "applicant";
  own := texts ["organization_id"; "applicant_id"; "application_id"; "approved_by"] |}.
Definition ApplicantRejected : EventClass := {|
  class_name := "ApplicantRejected"; source := "applicant";
  own := texts ["organization_id"; "applicant_id"; "application_id"; "rejected_by"; "reason"] |}.

Definition event_classes : list EventClass := [
  UserAuthenticated; UserLoggedOut; SessionCreated; OrganizationCreated; MemberAdded; MemberRemoved; ApiKeyCreated;
  ApiKeyRevoked; CredentialTypeConfigured; CredentialTypeDisabled; TrustConfigured; IssuerKeyGenerated;
  CredentialOfferCreated; CredentialIssued; CredentialIssuanceFailed; ApplicantCreated; ApplicationSubmitted;
  ApplicantApproved; ApplicantRejected].

(** ** Events *)

Record DomainEvent := {
  event_id : string; event_type : string; source_service : string; timestamp : Z;
  correlation_id : option string; causation_id : option string; version : string; extra : pydict pyval }.

(** The arguments for the fields of [DomainEvent]. *)
Record base_args := {
  a_event_id : option string; a_event_type : option string; a_source_service : option string; a_timestamp : option Z;
  a_correlation_id : option string; a_causation_id : option string; a_version : option string }.

Definition no_args : base_args := {|
  a_event_id := None; a_event_type := None; a_source_service := None; a_timestamp := None; a_correlation_id := None;
  a_causation_id := None; a_version := None |}.

Section events.
Context {W : Type} `{Env W}.

Definition default_of (d : default_value) : M W pyval :=
  match d with
  | DText s => mret (VStr s)
  | DNone => mret VNone
  | DNow => fun w => let '(t, w) := datetime_now w in (Ok (VTime t), w)
  | DList => mret (VList [])
  end.

(** The own fields, in their order, given or by default. *)
Fixpoint own_values (fs : list (string * default_value)) (args : pydict pyval) : M W (pydict pyval) :=
  match fs with
  | [] => mret []
  | (name, d) :: fs =>
      v ← match dget name args with Some v => mret v | None => default_of d end;
      vs ← own_values fs args;
      mret ((name, v) :: vs)
  end.

Definition given {A} (o : option A) (m : M W A) : M W A := match o with Some a => mret a | None => m end.

(** The generated constructor and [__post_init__]. *)
Definition create (c : EventClass) (base : base_args) (args : pydict pyval) : M W DomainEvent :=
  match List.find (fun k => negb (mem k (map fst (own c)))) (dkeys args) with
  | Some k => raise (raise_ TypeError ("got an unexpected keyword argument '" +:+ k +:+ "'"))
  | None =>
      id ← given (a_event_id base) (fun w => let '(hex, w) := uuid4 w in (Ok (PyUuid.uuid_str hex), w));
      time ← given (a_timestamp base) (fun w => let '(t, w) := datetime_now w in (Ok t, w));
      values ← own_values (own c) args;
      mret {| event_id := id;
              event_type := if str_truthy (a_event_type base) then default "" (a_event_type base) else _derive_event_type (class_name c);
              source_service := default (source c) (a_source_service base); timestamp := time;
              correlation_id := a_correlation_id base; causation_id := a_causation_id base;
              version := default "1.0" (a_version base); extra := values |}
  end.

Definition opt_str (o : option string) : pyval := match o with Some s => VStr s | None => VNone end.

(** [self.__dict__] *)
Definition attributes (e : DomainEvent) : pydict pyval :=
  [("event_id", VStr (event_id e)); ("event_type", VStr (event_type e)); ("source_service", VStr (source_service e));
   ("timestamp", VTime (timestamp e)); ("correlation_id", opt_str (correlation_id e)); ("causation_id", opt_str (causation_id e));
   ("version", VStr (version e))] ++ extra e.

Definition base_fields : list string :=
  ["event_id"; "event_type"; "source_service"; "timestamp"; "correlation_id"; "causation_id"; "version"].

Definition _get_event_data (e : DomainEvent) : pydict pyval := lfilter (fun kv => negb (mem (fst kv) base_fields)) (attributes e).

Definition to_dict (e : DomainEvent) : pydict pyval :=
  [("event_id", VStr (event_id e)); ("event_type", VStr (event_type e)); ("source_service", VStr (source_service e));
   ("timestamp", VStr (isoformat_utc (timestamp e))); ("correlation_id", opt_str (correlation_id e));
   ("causation_id", opt_str (causation_id e)); ("version", VStr (version e)); ("data", VDict (_get_event_data e))].
End events.

(** ** Types come from names *)

Definition is_word (w : string) : bool :=
  match w with String c s => is_upper c && forallb is_lower (String.list_ascii_of_string s) | EmptyString => false end.

Lemma lower_not_upper c : is_lower c = true -> is_upper c = false.
Proof. by destruct c as [[] [] [] [] [] [] [] []]. Qed.

Lemma find_word_rest t : forall w rest, forallb is_lower (String.list_ascii_of_string t) = true ->
  find_words (Some w) (t +:+ rest) = find_words (Some (w +:+ t)) rest.
Proof.
  induction t as [|c t IH]; intros w rest; simpl; [by rewrite append_nil|].
  intros [Hc Ht]%andb_true_iff. change (String c t +:+ rest) with (String c (t +:+ rest)). simpl.
  rewrite (lower_not_upper c Hc), Hc, IH by done. by rewrite append_assoc.
Qed.

Lemma find_words_camel ws : forallb is_word ws = true -> forall w, find_words (Some w) (String.concat "" ws) = w :: ws.
Proof.
  induction ws as [|[|c t] ws IH]; [done|done|]. intros [Hw Hws]%andb_true_iff w. simpl in Hw. apply andb_true_iff in Hw as [Hc Ht].
  rewrite concat_cons. change (String c t +:+ ?r) with (String c (t +:+ r)). simpl. rewrite Hc. simpl. f_equal.
  rewrite find_word_rest by done. by apply IH.
Qed.

(** The type of an event whose class is named by capitalised words is these words in
    lower case with dots between them. *)
Theorem derived_type ws : forallb is_word ws = true ->
  _derive_event_type (String.concat "" ws) = join "." (map str_lower ws).
Proof.
  intros Hws. unfold _derive_event_type. do 2 f_equal. destruct ws as [|[|c t] ws]; [done|done|]. simpl in Hws.
  apply andb_true_iff in Hws as [[Hc Ht]%andb_true_iff Hws]. rewrite concat_cons.
  change (String c t +:+ ?r) with (String c (t +:+ r)). simpl. rewrite Hc, find_word_rest by done. by apply find_words_camel.
Qed.

(** No two classes share a type, so none is taken for another. *)
Lemma event_types_distinct : NoDup (map (fun c => _derive_event_type (class_name c)) event_classes).
Proof. apply (bool_decide_unpack _). by vm_compute. Qed.

(** ** What is sent *)

Section sent.
Context {W : Type} `{Env W}.

Lemma own_values_keys fs args (w : W) : exists vs w', own_values fs args w = (Ok vs, w') /\ map fst vs = map fst fs /\
  forall k v, dget k args = Some v -> In k (map fst fs) -> dget k vs = Some v.
Proof.
  revert w. induction fs as [|[name d] fs IH]; intros w; [by exists [], w|]. simpl. unfold mbind at 1, M_bind at 1.
  assert (exists x w1, (match dget name args with Some v => mret v | None => default_of d end) w = (Ok x, w1) /\
    forall v, dget name args = Some v -> x = v) as (x & w1 & -> & Hx).
  { destruct (dget name args) as [v|]; [exists v, w; split; [done|congruence]|].
    destruct d; simpl; try by eexists _, _. destruct (datetime_now w). by eexists _, _. }
  destruct (IH w1) as (vs & w2 & Hvs & Hk & Hget). unfold mbind, M_bind. rewrite Hvs. eexists _, _. split; [done|]. simpl.
  rewrite Hk. split; [done|]. intros k v Hv Hin. destruct (String.eqb_spec k name) as [->|Hne]; [by rewrite (Hx v)|].
  destruct Hin as [Hin|Hin]; [congruence|by apply Hget].
Qed.

(** An event of the services takes exactly the arguments its class declares, and what
    is sent as its data are exactly its own fields, in their order, with the values
    that were given. *)
Theorem event_data_sent c base args (w : W) : c ∈ event_classes ->
  if forallb (fun k => mem k (map fst (own c))) (dkeys args) then
    exists e w' d, create c base args w = (Ok e, w') /\ dget "data" (to_dict e) = Some (VDict d) /\
      map fst d = map fst (own c) /\ (forall k v, dget k args = Some v -> dget k d = Some v) /\
      event_type e = (if str_truthy (a_event_type base) then default "" (a_event_type base) else _derive_event_type (class_name c)) /\
      source_service e = default (source c) (a_source_service base)
  else exists msg, create c base args w = (Raise (raise_ TypeError msg), w).
Proof.
  intros Hc. unfold create. destruct (List.find _ (dkeys args)) as [k|] eqn:Hf.
  - apply find_some in Hf as [Hin Hk]. destruct (forallb _ _) eqn:Hall; [|by eexists].
    rewrite forallb_forall in Hall. by rewrite (Hall k Hin) in Hk.
  - assert (forallb (fun k => mem k (map fst (own c))) (dkeys args) = true) as Hall.
    { apply forallb_forall. intros k Hk. pose proof (find_none _ _ Hf k Hk) as Hn. by apply negb_false_iff in Hn. }
    rewrite Hall. unfold mbind, M_bind.
    assert (forall A (o : option A) (m : M W A), yields m (fun _ => True) -> yields (given o m) (fun _ => True)) as Hgiven
      by (intros A [a|] m Hm w0; [by exists a, w0|apply Hm]).
    destruct (Hgiven _ (a_event_id base) (fun w => let '(hex, w) := uuid4 w in (Ok (uuid_str hex), w))
      ltac:(intros w0; destruct (uuid4 w0); by eexists _, _) w) as (id & w1 & -> & _).
    destruct (Hgiven _ (a_timestamp base) (fun w => let '(t, w) := datetime_now w in (Ok t, w))
      ltac:(intros w0; destruct (datetime_now w0); by eexists _, _) w1) as (t & w2 & -> & _).
    destruct (own_values_keys (own c) args w2) as (vs & w3 & -> & Hkeys & Hget).
    eexists _, w3, vs. split; [reflexivity|]. simpl. split; [|split_and!; [done| |done|done]].
    + do 2 f_equal. unfold _get_event_data, attributes. simpl extra. rewrite lfilter_app. simpl. apply lfilter_all.
      intros [k v] Hin. apply (in_map fst) in Hin. rewrite Hkeys in Hin. simpl in *.
      assert (forallb (fun c => forallb (fun k => negb (mem k base_fields)) (map fst (own c))) event_classes = true) as Hdisj
        by by vm_compute.
      rewrite forallb_forall in Hdisj. specialize (Hdisj c). rewrite forallb_forall in Hdisj.
      apply Hdisj; [by apply list_elem_of_In|done].
    + intros k v Hv. apply Hget; [done|]. rewrite forallb_forall in Hall. apply mem_true, Hall.
      apply dget_In in Hv. by apply (in_map fst) in Hv.
Qed.
End sent.

Module Demo.
#[export] Instance demo_env : Env Z := { uuid4 w := ("0123456789abcdef0123456789abcdef", w); datetime_now w := (w, w) }.

Definition member_added := create MemberAdded no_args [("user_id", VStr "u1"); ("role", VStr "admin")] 0.

Lemma member_added_data : match member_added with (Ok e, _) => dget "data" (to_dict e) | _ => None end =
  Some (VDict [("organization_id", VStr ""); ("user_id", VStr "u1"); ("role", VStr "admin"); ("added_by", VStr "")]).
Proof. by vm_compute. Qed.

Lemma event_data_sent_witness : exists e w' d, create MemberAdded no_args [("role", VStr "admin")] 0 = (Ok e, w') /\
  dget "data" (to_dict e) = Some (VDict d) /\ map fst d = ["organization_id"; "user_id"; "role"; "added_by"] /\
  (forall k v, dget k [("role", VStr "admin")] = Some v -> dget k d = Some v) /\
  event_type e = "member.added" /\ source_service e = "organization".
Proof.
  apply (event_data_sent MemberAdded no_args [("role", VStr "admin")] 0). unfold event_classes. do 4 right. left.
Defined.

Lemma derived_type_witness : _derive_event_type "ApiKeyCreated" = "api.key.created".
Proof. apply (derived_type ["Api"; "Key"; "Created"]). reflexivity. Defined.

(** The time of a session's end is sent as an object, which is no JSON. *)
Lemma session_created_not_serializable :
  match create SessionCreated no_args [] 0 with
  | (Ok e, _) => json_dumps false ", " ": " (VDict (to_dict e))
  | (Raise e, _) => Raise e
  end = Raise not_serializable.
Proof. by vm_compute. Qed.
End Demo.
