(* ===== verification/MrzValidation.v ===== *)
(** * Results of reading machine-readable zones ([models/mrz_validation.py])

    The models that report errors, inferred document types, dates and statistics, with
    their computed properties. A date is its year, month and day, which is how dates
    are compared; scores are rationals. *)

From Stdlib Require Import Lqa Qabs.
From stdpp Require Import sorting.
From S2P Require Import Prelude PyRuntime PyText PyDate Pydantic.
Local Open Scope Z_scope.

(** ** Codes and document types *)

Inductive MRZErrorCode :=
| INVALID_LINE_COUNT | INVALID_LINE_LENGTH | INVALID_CHARACTER | MISSING_SEPARATOR
| INVALID_DOCUMENT_TYPE | UNSUPPORTED_DOCUMENT_TYPE | DOCUMENT_TYPE_MISMATCH
| CHECKSUM_MISMATCH | COMPOSITE_CHECKSUM_MISMATCH | INVALID_CHECK_DIGIT_FORMAT
| INVALID_DATE_FORMAT | INVALID_DATE_VALUE | DATE_OUT_OF_RANGE | EXPIRY_BEFORE_BIRTH
| INVALID_COUNTRY_CODE | INVALID_GENDER_CODE | INVALID_NATIONALITY | INVALID_DOCUMENT_NUMBER
| INVALID_NAME_FORMAT | NAME_TOO_LONG | MISSING_NAME_SEPARATOR
| MALFORMED_MRZ_STRUCTURE | INCONSISTENT_DATA.

#[export] Instance code_eq_dec : EqDecision MRZErrorCode.
Proof. solve_decision. Defined.

Inductive MRZDocumentType := TD1 | TD2 | TD3.

Definition line_count (t : MRZDocumentType) : Z := match t with TD1 => 3 | TD2 | TD3 => 2 end.
Definition line_length (t : MRZDocumentType) : Z := match t with TD1 => 30 | TD2 => 36 | TD3 => 44 end.
Definition total_length (t : MRZDocumentType) : Z := line_count t * line_length t.

(** ** Positions and errors *)

Record MRZPosition := { line : Z; column : Z; length_ : Z }.

Definition position_str (p : MRZPosition) : string := "Line " +:+ z_str (line p + 1) +:+ ", Column " +:+ z_str (column p + 1).

Record MRZValidationError := {
  code : MRZErrorCode; message : string; position : option MRZPosition; field_name : option string;
  expected_value : option string; actual_value : option string; suggestion : option string; severity : string }.

Definition is_critical (e : MRZValidationError) : bool :=
  bool_decide (code e ∈ [INVALID_LINE_COUNT; INVALID_LINE_LENGTH; MALFORMED_MRZ_STRUCTURE; UNSUPPORTED_DOCUMENT_TYPE]).

(** ** Fields *)

(** A number that is checked against the bounds of its field. *)
Definition bounded (lo hi x : Q) : result Q :=
  if Qle_bool lo x && Qle_bool x hi then Ok x else Raise (raise_ ValueError "validation error: number out of bounds").

Record MRZFieldValidation := {
  fv_name : string; fv_value : option string; fv_position : option MRZPosition; fv_valid : bool;
  fv_errors : list MRZValidationError; fv_warnings : list MRZValidationError; fv_confidence : Q; checksum_valid : option bool }.

Definition make_field (name : string) (value : option string) (pos : option MRZPosition) (valid : bool)
    (errors warnings : list MRZValidationError) (confidence : Q) (checksum : option bool) : result MRZFieldValidation :=
  c ← bounded 0 1 confidence;
  Ok {| fv_name := name; fv_value := value; fv_position := pos; fv_valid := valid; fv_errors := errors;
        fv_warnings := warnings; fv_confidence := c; checksum_valid := checksum |}.

Definition has_errors (f : MRZFieldValidation) : bool := negb (bool_decide (fv_errors f = [])).
Definition has_warnings (f : MRZFieldValidation) : bool := negb (bool_decide (fv_warnings f = [])).

#[export] Instance position_eq_dec : EqDecision MRZPosition.
Proof. solve_decision. Defined.
#[export] Instance error_eq_dec : EqDecision MRZValidationError.
Proof. solve_decision. Defined.

(** ** Inference of the document type *)

Record MRZDocumentTypeInference := {
  inferred_type : option MRZDocumentType; ti_confidence : Q; candidates : list (MRZDocumentType * Q); reasons : list string }.

Definition make_inference (type : option MRZDocumentType) (confidence : Q) (candidates : list (MRZDocumentType * Q))
    (reasons : list string) : result MRZDocumentTypeInference :=
  c ← bounded 0 1 confidence;
  Ok {| inferred_type := type; ti_confidence := c; candidates := candidates; reasons := reasons |}.

Definition is_confident (t : MRZDocumentTypeInference) : bool := Qle_bool (8 # 10) (ti_confidence t).

(** The order [sorted(..., key=score, reverse=True)] sorts by. *)
Definition better (a b : MRZDocumentType * Q) : Prop := Qle_bool (snd b) (snd a) = true.

#[export] Instance better_dec a b : Decision (better a b).
Proof. unfold better. apply _. Defined.
#[export] Instance better_total : Total better.
Proof. intros a b. unfold better. rewrite !Qle_bool_iff. destruct (Qlt_le_dec (snd a) (snd b)); [right|left]; lra. Qed.
#[export] Instance better_trans : Transitive better.
Proof. intros a b c. unfold better. rewrite !Qle_bool_iff. lra. Qed.

Definition is_ambiguous (t : MRZDocumentTypeInference) : bool :=
  match merge_sort better (candidates t) with
  | a :: b :: _ => Qltb (Qabs (snd a - snd b)) (2 # 10)
  | _ => false
  end.

(** ** Results *)

Record MRZValidationResult := {
  is_valid : bool; document_type : option MRZDocumentType; type_inference : option MRZDocumentTypeInference;
  parsed_data : option (pydict pyval); field_validations : pydict MRZFieldValidation;
  errors : list MRZValidationError; warnings : list MRZValidationError; confidence : Q;
  parsing_time_ms : option Q; raw_mrz : string; normalized_mrz : option string }.

(** The constructor checks the confidence and nothing else. *)
Definition make_result (r : MRZValidationResult) : result MRZValidationResult := _ ← bounded 0 1 (confidence r); Ok r.

Definition error_count (r : MRZValidationResult) : Z := Z.of_nat (length (errors r)).
Definition warning_count (r : MRZValidationResult) : Z := Z.of_nat (length (warnings r)).
Definition critical_error_count (r : MRZValidationResult) : Z := Z.of_nat (length (lfilter is_critical (errors r))).
Definition field_error_count (r : MRZValidationResult) : Z :=
  foldr Z.add 0 (map (fun kv => Z.of_nat (length (fv_errors (snd kv)))) (field_validations r)).
Definition successful_fields (r : MRZValidationResult) : list string :=
  map fst (lfilter (fun kv => fv_valid (snd kv)) (field_validations r)).
Definition failed_fields (r : MRZValidationResult) : list string :=
  map fst (lfilter (fun kv => negb (fv_valid (snd kv))) (field_validations r)).
Definition get_field_errors (name : string) (r : MRZValidationResult) : list MRZValidationError :=
  match dget name (field_validations r) with Some f => fv_errors f | None => [] end.

Definition suggested (e : MRZValidationError) : option string := if str_truthy (suggestion e) then suggestion e else None.

(** A list without duplicates whose order the code leaves open. *)
Definition get_suggestions (r : MRZValidationResult) : list string :=
  remove_dups (omap suggested (errors r) ++ concat (map (fun kv => omap suggested (fv_errors (snd kv))) (field_validations r))).

(** ** Dates *)

Record date := { year : Z; month : Z; day : Z }.

Definition date_lt (a b : date) : bool :=
  (year a <? year b) || (year a =? year b) && ((month a <? month b) || (month a =? month b) && (day a <? day b)).

Record MRZNormalizedDate := {
  original_value : string; nd_year : Z; nd_month : Z; nd_day : Z; date_object : date; century_inferred : bool;
  inference_reason : option string }.

Definition make_normalized_date (original : string) (y m d : Z) (object : date) (inferred : bool) (reason : option string) : result MRZNormalizedDate :=
  _ ← bounded 1 12 (inject_Z m);
  _ ← bounded 1 31 (inject_Z d);
  Ok {| original_value := original; nd_year := y; nd_month := m; nd_day := d; date_object := object;
        century_inferred := inferred; inference_reason := reason |}.

Definition is_future (today : date) (n : MRZNormalizedDate) : bool := date_lt today (date_object n).

Definition age_years (today : date) (n : MRZNormalizedDate) : option Z :=
  let born := date_object n in
  if date_lt today born then None else
  let age := year today - year born in
  Some (if (month today <? month born) || (month today =? month born) && (day today <? day born) then age - 1 else age).

(** ** Characters and statistics *)

Record MRZCharacterValidation := {
  character : string; ch_position : MRZPosition; ch_valid : bool; is_filler : bool; expected_type : option string;
  ch_suggestion : option string }.

Definition ascii_letter (c : ascii) : bool :=
  let n := nat_of_ascii c in (65 <=? n)%nat && (n <=? 90)%nat || (97 <=? n)%nat && (n <=? 122)%nat.
Definition ascii_digit (c : ascii) : bool := let n := nat_of_ascii c in (48 <=? n)%nat && (n <=? 57)%nat.

(** [isalnum], [isalpha] and [isdigit] of a text of ASCII characters: not empty, and
    every character of the kind. *)
Definition every (f : ascii -> bool) (s : string) : bool :=
  negb (String.eqb s "") && forallb f (String.list_ascii_of_string s).
Definition is_alphanumeric (c : MRZCharacterValidation) : bool := every (fun x => ascii_letter x || ascii_digit x) (character c).
Definition is_letter (c : MRZCharacterValidation) : bool := every ascii_letter (character c).
Definition is_digit (c : MRZCharacterValidation) : bool := every ascii_digit (character c).

Record MRZParsingStats := {
  total_characters : Z; valid_characters : Z; filler_characters : Z; error_characters : Z;
  checksum_validations : Z; checksum_failures : Z; date_validations : Z; date_failures : Z }.

Definition percentage (part whole : Z) : Q := (if whole =? 0 then 0 else inject_Z part / inject_Z whole * 100)%Q.

Definition character_accuracy (s : MRZParsingStats) : Q := percentage (valid_characters s) (total_characters s).
Definition checksum_accuracy (s : MRZParsingStats) : Q :=
  percentage (checksum_validations s - checksum_failures s) (checksum_validations s).
Definition date_accuracy (s : MRZParsingStats) : Q := percentage (date_validations s - date_failures s) (date_validations s).

(** ** What the properties compute *)

(** The anniversary of a date in a year. *)
Definition anniversary (born : date) (y : Z) : date := {| year := y; month := month born; day := day born |}.

Lemma date_lt_true a b : date_lt a b = true <->
  year a < year b \/ year a = year b /\ (month a < month b \/ month a = month b /\ day a < day b).
Proof. unfold date_lt. rewrite !orb_true_iff, !andb_true_iff, orb_true_iff, andb_true_iff, !Z.ltb_lt, !Z.eqb_eq. tauto. Qed.

Lemma date_lt_false a b : date_lt a b = false <->
  year b < year a \/ year b = year a /\ (month b < month a \/ month b = month a /\ day b <= day a).
Proof. rewrite <- not_true_iff_false, date_lt_true. lia. Qed.

(** The age is the number of anniversaries that have been reached, the day of the
    anniversary included; before birth there is none. *)
Theorem age_counts_anniversaries today n :
  match age_years today n with
  | None => date_lt today (date_object n) = true
  | Some a => 0 <= a /\ forall k, 0 <= k ->
      (k <= a <-> date_lt today (anniversary (date_object n) (year (date_object n) + k)) = false)
  end.
Proof.
  unfold age_years. destruct (date_lt today (date_object n)) eqn:Hb; [done|]. apply date_lt_false in Hb.
  destruct ((month today <? month (date_object n)) || _) eqn:He.
  - apply orb_true_iff in He. rewrite andb_true_iff, !Z.ltb_lt, Z.eqb_eq in He. split; [lia|]. intros k Hk.
    rewrite date_lt_false. simpl. lia.
  - apply orb_false_iff in He as [H1 H2]. apply Z.ltb_ge in H1. apply andb_false_iff in H2. rewrite Z.eqb_neq, Z.ltb_ge in H2.
    split; [lia|]. intros k Hk. rewrite date_lt_false. simpl. lia.
Qed.

(** An inference is ambiguous exactly when two candidates that no other one beats
    have scores less than 0.2 apart. *)
Theorem ambiguous_iff t : is_ambiguous t = true <->
  exists a b rest, candidates t ≡ₚ a :: b :: rest /\ (snd b <= snd a)%Q /\ Forall (fun c => (snd c <= snd b)%Q) rest /\
    (snd a - snd b < 2 # 10)%Q.
Proof.
  unfold is_ambiguous. pose proof (merge_sort_Permutation better (candidates t)) as Hp.
  pose proof (StronglySorted_merge_sort better (candidates t)) as Hs.
  split.
  - destruct (merge_sort better (candidates t)) as [|a [|b rest]]; [done|done|]. intros Hab%Qltb_lt.
    inversion Hs as [|? ? Hs' Ha]; subst. inversion Hs' as [|? ? _ Hb]; subst. inversion Ha as [|? ? Hba _]; subst.
    apply Qle_bool_iff in Hba. exists a, b, rest. split_and!; [by rewrite Hp|done| |].
    + eapply Forall_impl; [exact Hb|]. intros c Hc. by apply Qle_bool_iff in Hc.
    + rewrite Qabs_pos in Hab by lra. done.
  - intros (a & b & rest & Hperm & Hba & Hrest & Hab).
    destruct (merge_sort better (candidates t)) as [|x [|y l]].
    + rewrite Hperm in Hp. by apply Permutation_nil_cons in Hp.
    + rewrite Hperm in Hp. apply Permutation_length in Hp. done.
    + apply Qltb_lt. rewrite Hperm in Hp. clear Hperm.
      inversion Hs as [|? ? Hs' Hx]; subst. inversion Hs' as [|? ? _ Hy]; subst. inversion Hx as [|? ? Hyx _]; subst.
      apply Qle_bool_iff in Hyx. rewrite Qabs_pos by lra.
      assert (forall c, c ∈ a :: b :: rest -> (snd c <= snd a)%Q) as Hmax.
      { intros c [->|[->|Hc]%elem_of_cons]%elem_of_cons; [lra|done|].
        rewrite Forall_forall in Hrest. specialize (Hrest c Hc). simpl in Hrest. lra. }
      assert (snd x <= snd a)%Q as Hxa by (apply Hmax; rewrite <- Hp; left).
      assert (forall c, c ∈ x :: y :: l -> c = x \/ (snd c <= snd y)%Q) as Htop.
      { intros c [->|[->|Hc]%elem_of_cons]%elem_of_cons; [by left|right; lra|right].
        rewrite Forall_forall in Hy. specialize (Hy c Hc). by apply Qle_bool_iff in Hy. }
      assert (snd b <= snd y)%Q; [|lra].
      assert (a ∈ x :: y :: l) as Hina by (rewrite Hp; left).
      assert (b ∈ x :: y :: l) as Hinb by (rewrite Hp; right; left).
      destruct (Htop b Hinb) as [->|]; [|done]. destruct (Htop a Hina) as [->|]; [|lra].
      apply Permutation_cons_inv in Hp. assert (x ∈ y :: l) as Hx2 by (rewrite Hp; left).
      apply elem_of_cons in Hx2 as [->|Hx2]; [lra|]. rewrite Forall_forall in Hy. specialize (Hy x Hx2). by apply Qle_bool_iff in Hy.
Qed.

(** Every field is listed as successful or as failed, and the suggestions are those
    of the errors of the whole and of the fields, each of them once. *)
Theorem result_reports (r : MRZValidationResult) :
  successful_fields r ++ failed_fields r ≡ₚ dkeys (field_validations r) /\
  NoDup (get_suggestions r) /\
  forall s, s ∈ get_suggestions r <-> s <> "" /\
    exists e, suggestion e = Some s /\ (e ∈ errors r \/ exists k f, (k, f) ∈ field_validations r /\ e ∈ fv_errors f).
Proof.
  split; [|split].
  - unfold successful_fields, failed_fields, dkeys. induction (field_validations r) as [|[k f] l IH]; [done|]. simpl.
    destruct (fv_valid f); simpl; [by constructor|]. rewrite <- Permutation_middle. by constructor.
  - apply NoDup_remove_dups.
  - assert (forall e s, suggested e = Some s <-> s <> "" /\ suggestion e = Some s) as Hsug.
    { intros e s. unfold suggested, str_truthy. destruct (suggestion e) as [t|]; [|naive_solver].
      destruct (String.eqb_spec t "") as [->|Hne]; simpl; split; [done|intros [? [=]]; congruence|intros [=]; by subst|intros [_ [=]]; by subst]. }
    assert (forall (l : list MRZValidationError) s, s ∈ omap suggested l <-> exists e, e ∈ l /\ s <> "" /\ suggestion e = Some s) as Homap.
    { intros l s. rewrite list_elem_of_omap. by setoid_rewrite Hsug. }
    intros s. unfold get_suggestions. rewrite elem_of_remove_dups, elem_of_app, Homap. split.
    + intros [(e & He & Hs & Hse)|Hin]; [by eauto 6|]. apply list_elem_of_In, in_concat in Hin as (l & Hl & Hin).
      apply in_map_iff in Hl as ([k f] & <- & Hkf). apply list_elem_of_In, Homap in Hin as (e & He & Hs & Hse).
      split; [done|]. exists e. split; [done|]. right. exists k, f. split; [by apply list_elem_of_In|done].
    + intros (Hs & e & Hse & [He|(k & f & Hkf & He)]); [left; by eauto|right].
      apply list_elem_of_In, in_concat. exists (omap suggested (fv_errors f)). split.
      * apply (in_map (fun kv => omap suggested (fv_errors (snd kv))) _ (k, f)). by apply list_elem_of_In.
      * apply list_elem_of_In, Homap. by eauto.
Qed.

(** An accuracy is a percentage whenever its counts are consistent, which no
    constructor checks. *)
Theorem accuracy_in_range part whole : 0 <= part <= whole -> (0 <= percentage part whole <= 100)%Q.
Proof.
  intros [H0 H1]. unfold percentage. destruct (whole =? 0) eqn:Hw; [lra|]. apply Z.eqb_neq in Hw.
  assert (0 < inject_Z whole)%Q as Hpos by (change 0%Q with (inject_Z 0); rewrite <- Zlt_Qlt; lia).
  assert (0 <= inject_Z part)%Q as Hp by (change 0%Q with (inject_Z 0); rewrite <- Zle_Qle; lia).
  assert (inject_Z part <= inject_Z whole)%Q as Hle by (rewrite <- Zle_Qle; lia).
  assert (0 <= inject_Z part / inject_Z whole)%Q by (apply Qle_shift_div_l; [done|lra]).
  assert (inject_Z part / inject_Z whole <= 1)%Q by (apply Qle_shift_div_r; [done|lra]). lra.
Qed.

Module Demo.
(** More failures than validations are accepted, and give a negative accuracy. *)
Lemma negative_accuracy : (checksum_accuracy {| total_characters := 88; valid_characters := 88; filler_characters := 0;
  error_characters := 0; checksum_validations := 1; checksum_failures := 2; date_validations := 0; date_failures := 0 |} == -100)%Q.
Proof. reflexivity. Qed.

(** The date object is not compared with the year, month and day beside it. *)
Lemma date_parts_unrelated : exists n, make_normalized_date "740812" 1974 8 12 {| year := 2074; month := 2; day := 1 |} true None = Ok n /\
  is_future {| year := 2025; month := 1; day := 1 |} n = true.
Proof. by eexists. Qed.
End Demo.
