(* ===== verification/HttpErrors.v ===== *)
(** * Errors of the HTTP interfaces ([errors/schema.py], [errors/fastapi_handlers.py])

    The codes of errors with their statuses, the bodies that are sent, the handlers
    that answer exceptions of each kind, and the identifier of a request, which lives
    in a context variable. The choice of the handler is the framework's. *)

From S2P Require Import Prelude PyRuntime PyText PyUuid PyDate Pydantic ErrorHandlers.
Local Open Scope Z_scope.

(** ** Codes *)

Inductive ErrorSeverity := LOW | MEDIUM | HIGH | CRITICAL.
Definition severity_value (s : ErrorSeverity) : string :=
  match s with LOW => "low" | MEDIUM => "medium" | HIGH => "high" | CRITICAL => "critical" end.

Inductive ErrorRecoveryAction := RETRY | RETRY_WITH_BACKOFF | REAUTHENTICATE | CONTACT_SUPPORT | FAIL_FAST.
Definition action_value (a : ErrorRecoveryAction) : string :=
  match a with
  | RETRY => "retry" | RETRY_WITH_BACKOFF => "retry_with_backoff" | REAUTHENTICATE => "reauthenticate"
  | CONTACT_SUPPORT => "contact_support" | FAIL_FAST => "fail_fast"
  end.

Inductive ErrorCode :=
| AUTH_INVALID_TOKEN | AUTH_TOKEN_EXPIRED | AUTH_SESSION_EXPIRED | AUTH_INVALID_CREDENTIALS | AUTH_MFA_REQUIRED | AUTH_ACCOUNT_LOCKED
| AUTHZ_PERMISSION_DENIED | AUTHZ_INSUFFICIENT_SCOPE | AUTHZ_RESOURCE_FORBIDDEN
| ORG_NOT_FOUND | ORG_INVITE_EXPIRED | ORG_INVITE_INVALID | ORG_MEMBERSHIP_EXISTS | ORG_NAME_TAKEN | ORG_LIMIT_REACHED
| USER_NOT_FOUND | USER_ALREADY_EXISTS | USER_VALIDATION_FAILED | USER_ONBOARDING_INCOMPLETE
| APP_NOT_FOUND | APP_INVALID_STATUS | APP_DOCUMENT_MISSING | APP_SUBMISSION_FAILED
| CRED_ISSUANCE_FAILED | CRED_VERIFICATION_FAILED | CRED_REVOKED | CRED_EXPIRED | CRED_INVALID_FORMAT
| VAL_REQUIRED_FIELD | VAL_INVALID_FORMAT | VAL_OUT_OF_RANGE | VAL_CONSTRAINT_VIOLATED
| API_RATE_LIMITED | API_INVALID_REQUEST | API_METHOD_NOT_ALLOWED | API_NOT_FOUND | API_VERSION_UNSUPPORTED
| SRV_INTERNAL_ERROR | SRV_DATABASE_ERROR | SRV_EXTERNAL_SERVICE | SRV_TEMPORARILY_UNAVAILABLE | SRV_TIMEOUT
| CLIENT_ERROR_REPORTED | CLIENT_RATE_LIMITED.

Definition code_text (c : ErrorCode) : string :=
  match c with
  | AUTH_INVALID_TOKEN => "AUTH.INVALID_TOKEN" | AUTH_TOKEN_EXPIRED => "AUTH.TOKEN_EXPIRED"
  | AUTH_SESSION_EXPIRED => "AUTH.SESSION_EXPIRED" | AUTH_INVALID_CREDENTIALS => "AUTH.INVALID_CREDENTIALS"
  | AUTH_MFA_REQUIRED => "AUTH.MFA_REQUIRED" | AUTH_ACCOUNT_LOCKED => "AUTH.ACCOUNT_LOCKED"
  | AUTHZ_PERMISSION_DENIED => "AUTHZ.PERMISSION_DENIED" | AUTHZ_INSUFFICIENT_SCOPE => "AUTHZ.INSUFFICIENT_SCOPE"
  | AUTHZ_RESOURCE_FORBIDDEN => "AUTHZ.RESOURCE_FORBIDDEN"
  | ORG_NOT_FOUND => "ORG.NOT_FOUND" | ORG_INVITE_EXPIRED => "ORG.INVITE_EXPIRED" | ORG_INVITE_INVALID => "ORG.INVITE_INVALID"
  | ORG_MEMBERSHIP_EXISTS => "ORG.MEMBERSHIP_EXISTS" | ORG_NAME_TAKEN => "ORG.NAME_TAKEN" | ORG_LIMIT_REACHED => "ORG.LIMIT_REACHED"
  | USER_NOT_FOUND => "USER.NOT_FOUND" | USER_ALREADY_EXISTS => "USER.ALREADY_EXISTS"
  | USER_VALIDATION_FAILED => "USER.VALIDATION_FAILED" | USER_ONBOARDING_INCOMPLETE => "USER.ONBOARDING_INCOMPLETE"
  | APP_NOT_FOUND => "APP.NOT_FOUND" | APP_INVALID_STATUS => "APP.INVALID_STATUS" | APP_DOCUMENT_MISSING => "APP.DOCUMENT_MISSING"
  | APP_SUBMISSION_FAILED => "APP.SUBMISSION_FAILED"
  | CRED_ISSUANCE_FAILED => "CRED.ISSUANCE_FAILED" | CRED_VERIFICATION_FAILED => "CRED.VERIFICATION_FAILED"
  | CRED_REVOKED => "CRED.REVOKED" | CRED_EXPIRED => "CRED.EXPIRED" | CRED_INVALID_FORMAT => "CRED.INVALID_FORMAT"
  | VAL_REQUIRED_FIELD => "VAL.REQUIRED_FIELD" | VAL_INVALID_FORMAT => "VAL.INVALID_FORMAT" | VAL_OUT_OF_RANGE => "VAL.OUT_OF_RANGE"
  | VAL_CONSTRAINT_VIOLATED => "VAL.CONSTRAINT_VIOLATED"
  | API_RATE_LIMITED => "API.RATE_LIMITED" | API_INVALID_REQUEST => "API.INVALID_REQUEST"
  | API_METHOD_NOT_ALLOWED => "API.METHOD_NOT_ALLOWED" | API_NOT_FOUND => "API.NOT_FOUND"
  | API_VERSION_UNSUPPORTED => "API.VERSION_UNSUPPORTED"
  | SRV_INTERNAL_ERROR => "SRV.INTERNAL_ERROR" | SRV_DATABASE_ERROR => "SRV.DATABASE_ERROR"
  | SRV_EXTERNAL_SERVICE => "SRV.EXTERNAL_SERVICE" | SRV_TEMPORARILY_UNAVAILABLE => "SRV.TEMPORARILY_UNAVAILABLE"
  | SRV_TIMEOUT => "SRV.TIMEOUT"
  | CLIENT_ERROR_REPORTED => "CLIENT.ERROR_REPORTED" | CLIENT_RATE_LIMITED => "CLIENT.RATE_LIMITED"
  end.

(** The codes of the table with their statuses. *)
Definition ERROR_CODE_TO_HTTP_STATUS : pydict Z := map (fun kv => (code_text (fst kv), snd kv)) [
  (VAL_REQUIRED_FIELD, 400); (VAL_INVALID_FORMAT, 400); (VAL_OUT_OF_RANGE, 400); (VAL_CONSTRAINT_VIOLATED, 400); (API_INVALID_REQUEST, 400);
  (AUTH_INVALID_TOKEN, 401); (AUTH_TOKEN_EXPIRED, 401); (AUTH_SESSION_EXPIRED, 401); (AUTH_INVALID_CREDENTIALS, 401); (AUTH_MFA_REQUIRED, 401);
  (AUTHZ_PERMISSION_DENIED, 403); (AUTHZ_INSUFFICIENT_SCOPE, 403); (AUTHZ_RESOURCE_FORBIDDEN, 403); (AUTH_ACCOUNT_LOCKED, 403);
  (ORG_NOT_FOUND, 404); (USER_NOT_FOUND, 404); (APP_NOT_FOUND, 404); (API_NOT_FOUND, 404);
  (ORG_MEMBERSHIP_EXISTS, 409); (ORG_NAME_TAKEN, 409); (USER_ALREADY_EXISTS, 409);
  (ORG_INVITE_EXPIRED, 410); (ORG_INVITE_INVALID, 410);
  (APP_INVALID_STATUS, 422); (APP_DOCUMENT_MISSING, 422); (CRED_INVALID_FORMAT, 422);
  (API_RATE_LIMITED, 429); (CLIENT_RATE_LIMITED, 429); (ORG_LIMIT_REACHED, 429);
  (SRV_INTERNAL_ERROR, 500); (SRV_DATABASE_ERROR, 500); (CRED_ISSUANCE_FAILED, 500);
  (SRV_EXTERNAL_SERVICE, 502); (SRV_TEMPORARILY_UNAVAILABLE, 503); (SRV_TIMEOUT, 504)].

Definition get_http_status_for_error_code (code : string) : Z := default 500 (dget code ERROR_CODE_TO_HTTP_STATUS).

Definition DOCS_BASE_URL : string := "https://docs.marty.io/errors".
Definition get_documentation_url (code : string) : string := DOCS_BASE_URL +:+ "/" +:+ str_replace "." "/" code.

(** ** Bodies *)

Record ErrorDetail := {
  code : string; message : string; user_message : string; severity : ErrorSeverity; recovery_action : ErrorRecoveryAction;
  field : option string; details : option (pydict pyval); documentation_url : option string }.

Record ErrorResponse := { error : ErrorDetail; request_id : string; timestamp : Q }.
Record ValidationErrorResponse := { errors : list ErrorDetail; v_request_id : string; v_timestamp : Q }.

(** A report of an error in a browser, whose texts are limited. *)
Record ClientErrorReport := {
  error_code : string; cr_message : string; stack_trace : option string; component_stack : option string; url : string;
  user_agent : option string; user_id : option string; session_id : option string; cr_timestamp : Q; cr_context : option (pydict pyval) }.

Definition within (n : Z) (s : option string) : bool := Z.of_nat (String.length (default "" s)) <=? n.

Definition make_client_report (r : ClientErrorReport) : result ClientErrorReport :=
  if within 2000 (Some (cr_message r)) && within 10000 (stack_trace r) && within 5000 (component_stack r) &&
     within 500 (Some (url r)) && within 500 (user_agent r)
  then Ok r else Raise (raise_ ValueError "validation error: text too long").

Inductive body := EBody (e : ErrorResponse) | VBody (v : ValidationErrorResponse) | OBody (text : string).
Record response := { status_code : Z; content : body; headers : pydict string }.

(** ** Handlers *)

Class RequestVar (W : Type) := { request_id_ctx : W -> string; set_ctx : string -> W -> W }.

Section handlers.
Context {W : Type} `{World W, Env W, RequestVar W}.

Definition new_uuid : M W string := fun w => let '(hex, w) := uuid4 w in (Ok (uuid_str hex), w).

Definition get_request_id : M W string :=
  current ← gets request_id_ctx;
  if String.eqb current "" then new_uuid else mret current.

Definition set_request_id (id : string) : M W unit := modify (set_ctx id).

Definition detail_of (code msg user : string) (s : ErrorSeverity) (a : ErrorRecoveryAction) : ErrorDetail := {|
  code := code; message := msg; user_message := user; severity := s; recovery_action := a; field := None; details := None;
  documentation_url := Some (get_documentation_url code) |}.

(** [JSONResponse(status, ErrorResponse(error, id).model_dump(), headers)] *)
Definition answer (status : Z) (error : ErrorDetail) (id : string) : M W response := fun w =>
  let '(t, w) := time_time w in
  (Ok {| status_code := status; content := EBody {| error := error; request_id := id; timestamp := t |};
         headers := [("X-Request-ID", id)] |}, w).

Definition status_to_code (status : Z) : ErrorCode :=
  if status =? 400 then API_INVALID_REQUEST else if status =? 401 then AUTH_INVALID_TOKEN
  else if status =? 403 then AUTHZ_PERMISSION_DENIED else if status =? 404 then API_NOT_FOUND
  else if status =? 405 then API_METHOD_NOT_ALLOWED else if status =? 409 then ORG_MEMBERSHIP_EXISTS
  else if status =? 422 then VAL_CONSTRAINT_VIOLATED else if status =? 429 then API_RATE_LIMITED
  else if status =? 500 then SRV_INTERNAL_ERROR else if status =? 502 then SRV_EXTERNAL_SERVICE
  else if status =? 503 then SRV_TEMPORARILY_UNAVAILABLE else if status =? 504 then SRV_TIMEOUT else SRV_INTERNAL_ERROR.

Definition user_message_for (status : Z) : string :=
  if status =? 400 then "The request was invalid. Please check your input and try again."
  else if status =? 401 then "You need to log in to access this resource."
  else if status =? 403 then "You don't have permission to access this resource."
  else if status =? 404 then "The requested resource was not found."
  else if status =? 405 then "This action is not allowed."
  else if status =? 409 then "This action conflicts with an existing resource."
  else if status =? 422 then "The request data could not be processed."
  else if status =? 429 then "Too many requests. Please slow down."
  else if status =? 500 then "An unexpected error occurred. Please try again later."
  else if status =? 502 then "A dependent service is temporarily unavailable."
  else if status =? 503 then "The service is temporarily unavailable. Please try again later."
  else if status =? 504 then "The request timed out. Please try again."
  else "An error occurred. Please try again.".

Definition http_severity (status : Z) : ErrorSeverity :=
  if status <? 500 then LOW else if mem status [502; 503; 504] then MEDIUM else HIGH.
Definition http_action (status : Z) : ErrorRecoveryAction :=
  if status =? 401 then REAUTHENTICATE else if status =? 429 then RETRY_WITH_BACKOFF
  else if status <? 500 then FAIL_FAST else if mem status [502; 503; 504] then RETRY_WITH_BACKOFF else CONTACT_SUPPORT.

(** [detail] is [str(exc.detail)]. *)
Definition http_exception_handler (status : Z) (detail : string) : M W response :=
  id ← get_request_id;
  answer status (detail_of (code_text (status_to_code status)) detail (user_message_for status) (http_severity status) (http_action status)) id.

(** One entry of [exc.errors()] of the validation library. *)
Record field_error := { loc : list (string + Z); error_type : string; msg : string; input : option pyval }.

Definition loc_text (l : string + Z) : string := match l with inl s => s | inr z => z_str z end.
Definition field_path (l : list (string + Z)) : string :=
  join "." (map loc_text (lfilter (fun x => match x with inl s => negb (String.eqb s "body") | inr _ => true end) l)).

(** [str.title] for texts of ASCII letters. *)
Fixpoint title_from (in_word : bool) (s : string) : string :=
  match s with
  | EmptyString => ""
  | String c s =>
      let letter := negb (Ascii.eqb (lower_char c) (upper_char c)) in
      String (if in_word then lower_char c else upper_char c) (title_from letter s)
  end.

Definition _get_validation_user_message (type field : string) : string :=
  let field_display := if String.eqb field "" then "This field" else title_from false (str_replace "_" " " field) in
  field_display +:+
  (if mem type ["missing"; "value_error.missing"] then " is required."
   else if String.eqb type "string_too_short" then " is too short."
   else if String.eqb type "string_too_long" then " is too long."
   else if String.eqb type "string_pattern_mismatch" then " format is invalid."
   else if String.eqb type "value_error.email" then " must be a valid email address."
   else if String.eqb type "type_error.integer" then " must be a number."
   else if String.eqb type "type_error.string" then " must be text."
   else if String.eqb type "value_error.number.not_ge" then " must be greater than or equal to the minimum value."
   else if String.eqb type "value_error.number.not_le" then " must be less than or equal to the maximum value."
   else if String.eqb type "value_error.url" then " must be a valid URL."
   else if String.eqb type "value_error.uuid" then " must be a valid ID."
   else " is invalid.").

Definition field_detail (e : field_error) : ErrorDetail :=
  let path := field_path (loc e) in {|
  code := code_text VAL_INVALID_FORMAT; message := msg e; user_message := _get_validation_user_message (error_type e) path;
  severity := LOW; recovery_action := FAIL_FAST; field := Some path;
  details := Some [("type", VStr (error_type e)); ("input", default VNone (input e))];
  documentation_url := Some (get_documentation_url (code_text VAL_INVALID_FORMAT)) |}.

(** What [json.dumps] writes of a dumped value; enumerations are of strings. *)
Fixpoint json_able (v : pyval) : bool :=
  match v with
  | VNone | VBool _ | VInt _ | VStr _ | VEnum _ _ => true
  | VBytes _ | VDate _ | VTime _ | VUUID _ => false
  | VList l => forallb json_able l
  | VDict d | VModel _ d => forallb (fun kv => match kv with (_, v) => json_able v end) d
  end.

(** Whether the refused inputs can be sent back. *)
Definition sendable (es : list field_error) : bool := forallb (fun e => json_able (default VNone (input e))) es.

Definition answer_fields (es : list field_error) (id : string) : M W response := fun w =>
  let '(t, w) := time_time w in
  (if sendable es then
     Ok {| status_code := 422; content := VBody {| errors := map field_detail es; v_request_id := id; v_timestamp := t |};
           headers := [("X-Request-ID", id)] |}
   else Raise (raise_ TypeError "Object is not JSON serializable"), w).

Definition validation_exception_handler (es : list field_error) : M W response := id ← get_request_id; answer_fields es id.

(** [exc.error_code], an attribute of every error of the package. *)
Definition code_of (exc : exn) : option string := snd <$> List.find (fun kv => String.eqb (fst kv) "error_code") (exn_attrs exc).
Definition code_or (exc : exn) (c : ErrorCode) : string := if str_truthy (code_of exc) then default "" (code_of exc) else code_text c.

Definition marty_error_handler (exc : exn) : M W response :=
  id ← get_request_id;
  let reply c status user s a := answer status (detail_of (code_or exc c) (exn_message exc) user s a) id in
  if isinstance exc MartyValidationError_cls then reply VAL_CONSTRAINT_VIOLATED 400 "The provided data is invalid." LOW FAIL_FAST
  else if isinstance exc MartyConfigurationError_cls then
    reply SRV_INTERNAL_ERROR 500 "A configuration error occurred. Please contact support." HIGH CONTACT_SUPPORT
  else if isinstance exc MartyNetworkError_cls then
    reply SRV_EXTERNAL_SERVICE 502 "A network error occurred. Please try again." MEDIUM RETRY_WITH_BACKOFF
  else if isinstance exc MartyDatabaseError_cls then
    reply SRV_DATABASE_ERROR 500 "A database error occurred. Please try again." HIGH RETRY_WITH_BACKOFF
  else if isinstance exc MartyCertificateError_cls then
    reply CRED_ISSUANCE_FAILED 500 "A certificate error occurred. Please contact support." HIGH CONTACT_SUPPORT
  else if isinstance exc MartyServiceError_cls then
    reply SRV_INTERNAL_ERROR 500 "An unexpected error occurred. Please try again." MEDIUM RETRY
  else reply SRV_INTERNAL_ERROR (get_http_status_for_error_code (default "" (code_of exc))) "An error occurred. Please try again." MEDIUM RETRY.

(** [debug] is whether the logger shows debug messages. *)
Definition unhandled_exception_handler (debug : bool) (exc : exn) : M W response :=
  id ← get_request_id;
  answer 500 (detail_of (code_text SRV_INTERNAL_ERROR) (if debug then exn_message exc else "Internal server error")
    "An unexpected error occurred. Our team has been notified." CRITICAL CONTACT_SUPPORT) id.

(** ** The identifier of a request *)

Definition set_header (k v : string) (r : response) : response :=
  {| status_code := status_code r; content := content r; headers := dset k v (headers r) |}.

Definition request_id_middleware (header : option string) (call_next : M W response) : M W response :=
  id ← (if str_truthy header then mret (default "" header) else new_uuid);
  _ ← set_request_id id;
  r ← call_next;
  mret (set_header "X-Request-ID" id r).

(** ** Registration *)

Inductive handler := OnValidation | OnHttp | OnMarty | OnOther.

(** What is raised under the framework: its own two kinds, and any other exception. *)
Inductive raised := RHttp (status : Z) (detail : string) | RInvalid (es : list field_error) | RExn (e : exn).

Definition RequestValidationError_cls : pyclass := subclass "RequestValidationError" ValueError.
Definition HTTPException_cls : pyclass := subclass "HTTPException" Exception_.

Definition class_of (r : raised) : pyclass :=
  match r with RHttp _ _ => HTTPException_cls | RInvalid _ => RequestValidationError_cls | RExn e => exn_class e end.

Definition register_exception_handlers : list (pyclass * handler) := [
  (RequestValidationError_cls, OnValidation); (HTTPException_cls, OnHttp); (MartyValidationError_cls, OnMarty);
  (MartyConfigurationError_cls, OnMarty); (MartyNetworkError_cls, OnMarty); (MartyDatabaseError_cls, OnMarty);
  (MartyCertificateError_cls, OnMarty); (MartyServiceError_cls, OnMarty); (MartyError_cls, OnMarty); (Exception_, OnOther)].

(** The framework takes the handler of the nearest class that has one. *)
Definition handler_for (table : list (pyclass * handler)) (c : pyclass) : option handler :=
  (fix go (names : list string) : option handler :=
     match names with
     | [] => None
     | n :: ns => match List.find (fun kv => String.eqb (cls_name (fst kv)) n) table with Some kv => Some (snd kv) | None => go ns end
     end) (mro c).

Definition handle (debug : bool) (r : raised) : option (M W response) :=
  match handler_for register_exception_handlers (class_of r), r with
  | Some OnValidation, RInvalid es => Some (validation_exception_handler es)
  | Some OnHttp, RHttp s d => Some (http_exception_handler s d)
  | Some OnMarty, RExn e => Some (marty_error_handler e)
  | Some OnOther, RExn e => Some (unhandled_exception_handler debug e)
  | _, _ => None
  end.
End handlers.

(** ** What is answered *)

(** The code of an answered HTTP exception leads back to its status for ten statuses
    only; a method that is not allowed and refused data lead to others. *)
Theorem http_code_status status :
  get_http_status_for_error_code (code_text (status_to_code status)) = status <->
  In status [400; 401; 403; 404; 409; 429; 500; 502; 503; 504].
Proof.
  unfold status_to_code.
  repeat match goal with |- context [status =? ?n] =>
    destruct (Z.eqb_spec status n); [subst; split; [intros Hs; vm_compute in Hs; simpl; lia|simpl; intros Hs; vm_compute; lia]|]
  end.
  split; [intros Hs; vm_compute in Hs; lia|simpl; lia].
Qed.

Section answers.
Context {W : Type} `{World W, Env W, RequestVar W}.

(** What holds of every answer: the identifier in its header and body. *)
Definition identified (id : string) (r : response) : Prop :=
  dget "X-Request-ID" (headers r) = Some id /\
  match content r with EBody e => request_id e = id | VBody v => v_request_id v = id | OBody _ => False end.

Lemma answer_identified status d id (w : W) : exists r w', answer status d id w = (Ok r, w') /\ status_code r = status /\
  identified id r /\ exists e, content r = EBody e /\ error e = d.
Proof. unfold answer. destruct (time_time w) as [t w']. eexists _, w'. split; [done|]. split; [done|]. split; [by split|]. by eexists. Qed.

(** ** A request through the framework

    The identifier is set outside, the handlers of all kinds but [Exception] run
    inside, and that of [Exception] outside of both. An application gives a response or
    what it raised. *)

Definition exception_middleware (app : W -> (response + raised) * W) : M W response := fun w =>
  match app w with
  | (inl r, w) => (Ok r, w)
  | (inr x, w) =>
      match handler_for register_exception_handlers (class_of x), x with
      | Some OnValidation, RInvalid es => validation_exception_handler es w
      | Some OnHttp, RHttp s d => http_exception_handler s d w
      | Some OnMarty, RExn e => marty_error_handler e w
      | _, RExn e => (Raise e, w)
      | _, _ => (Raise (raise_ (class_of x) ""), w)
      end
  end.

Definition serve (debug : bool) (header : option string) (app : W -> (response + raised) * W) : M W response :=
  try_except (request_id_middleware header (exception_middleware app)) (unhandled_exception_handler debug).

(** The status of each kind of exception. *)
Definition marty_status (e : exn) : Z :=
  if isinstance e MartyValidationError_cls then 400
  else if isinstance e MartyConfigurationError_cls then 500
  else if isinstance e MartyNetworkError_cls then 502
  else if isinstance e MartyDatabaseError_cls then 500
  else if isinstance e MartyCertificateError_cls then 500
  else if isinstance e MartyServiceError_cls then 500
  else get_http_status_for_error_code (default "" (code_of e)).

Definition expected_status (x : raised) : Z :=
  match x with
  | RHttp s _ => s
  | RInvalid es => if sendable es then 422 else 500
  | RExn e => if isinstance e MartyError_cls then marty_status e else 500
  end.

(** Python's order of the bases of a class: each once, and a class before its own; and
    the two kinds of the framework are those of [RHttp] and [RInvalid]. *)
Definition linearized (c : pyclass) : Prop :=
  NoDup (mro c) /\
  forall kv l r, In kv register_exception_handlers -> mro c = l ++ cls_name (fst kv) :: r -> incl (cls_bases (fst kv)) r.

Definition python_raised (x : raised) : Prop :=
  match x with
  | RExn e => linearized (exn_class e) /\ isinstance e HTTPException_cls = false /\ isinstance e RequestValidationError_cls = false
  | _ => True
  end.

Definition can_be_caught (x : raised) : bool := match x with RExn e => catchable e | _ => true end.

Lemma current_id (w : W) id : request_id_ctx w = id -> id <> "" -> get_request_id w = (Ok id, w).
Proof.
  intros Hw Hne. unfold get_request_id, mbind, M_bind, gets. rewrite Hw. by destruct (String.eqb_spec id "").
Qed.

(** A handler answers with that status under the identifier of the request. *)
Definition answers (id : string) (status : Z) (m : M W response) (w : W) : Prop :=
  exists r w', m w = (Ok r, w') /\ status_code r = status /\ identified id r.

Lemma answers_detail id status d (w : W) : request_id_ctx w = id -> id <> "" -> answers id status (i ← get_request_id; answer status d i) w.
Proof.
  intros Hw Hne. unfold answers, mbind, M_bind. rewrite (current_id w id Hw Hne).
  destruct (answer_identified status d id w) as (r & w' & He & Hs & Hi & _). by exists r, w'.
Qed.

Lemma http_answers id s d (w : W) : request_id_ctx w = id -> id <> "" -> answers id s (http_exception_handler s d) w.
Proof. apply answers_detail. Qed.

Lemma unhandled_answers id debug e (w : W) : request_id_ctx w = id -> id <> "" -> answers id 500 (unhandled_exception_handler debug e) w.
Proof. apply answers_detail. Qed.

Lemma validation_answers id es (w : W) : request_id_ctx w = id -> id <> "" -> sendable es = true ->
  answers id 422 (validation_exception_handler es) w.
Proof.
  intros Hw Hne Hs. unfold validation_exception_handler, answers, mbind, M_bind. rewrite (current_id w id Hw Hne). unfold answer_fields.
  destruct (time_time w) as [t w']. rewrite Hs. eexists _, w'. by split_and!.
Qed.

Lemma marty_answers id e (w : W) : request_id_ctx w = id -> id <> "" -> answers id (marty_status e) (marty_error_handler e) w.
Proof. intros Hw Hne. unfold marty_error_handler, marty_status. repeat case_match; by apply answers_detail. Qed.

Fixpoint linearb (names : list string) : bool :=
  match names with
  | [] => true
  | n :: ns => negb (mem n ns) && linearb ns &&
      forallb (fun kv => negb (String.eqb (cls_name (fst kv)) n) || forallb (fun b => mem b ns) (cls_bases (fst kv))) register_exception_handlers
  end.

Lemma linearb_linearized c : linearb (mro c) = true -> linearized c.
Proof.
  unfold linearized. induction (mro c) as [|n ns IH]; intros Hb.
  - split; [constructor|]. by intros ? [] ?.
  - cbn [linearb] in Hb. rewrite !andb_true_iff, negb_true_iff, forallb_forall in Hb. destruct Hb as [[Hn Hns] Hrows].
    destruct (IH Hns) as [Hnd Hall]. split.
    + apply NoDup_cons. split; [|done]. rewrite list_elem_of_In. intros Hin. apply mem_true in Hin. congruence.
    + intros kv [|m l] r Hkv [= -> Hl]; [|by apply (Hall kv l)]. subst ns. specialize (Hrows kv Hkv). rewrite String.eqb_refl in Hrows.
      simpl in Hrows. rewrite forallb_forall in Hrows. intros b Hbase. by apply mem_true, Hrows.
Qed.

(** Which handler an exception has. *)
Lemma isinstance_In e c : isinstance e c = true <-> In (cls_name c) (mro (exn_class e)).
Proof.
  unfold isinstance. rewrite existsb_exists. split.
  - intros (x & Hx & He). by apply String.eqb_eq in He as ->.
  - intros Hin. exists (cls_name c). split; [done|]. by apply String.eqb_eq.
Qed.

Fixpoint nearest (table : list (pyclass * handler)) (names : list string) : option handler :=
  match names with
  | [] => None
  | n :: ns => match List.find (fun kv => String.eqb (cls_name (fst kv)) n) table with Some kv => Some (snd kv) | None => nearest table ns end
  end.

Lemma handler_for_nearest table c : handler_for table c = nearest table (mro c).
Proof. unfold handler_for. by induction (mro c) as [|n ns IH]; [|simpl; destruct (List.find _ table)]. Qed.

(** What the first registered name of a list decides. *)
Lemma nearest_found table names h : nearest table names = Some h ->
  exists l n r kv, names = l ++ n :: r /\ In kv table /\ cls_name (fst kv) = n /\ snd kv = h /\ (forall kv', In kv' table -> ~ In (cls_name (fst kv')) l).
Proof.
  induction names as [|n ns IH]; [done|]. cbn [nearest]. destruct (List.find _ table) as [kv|] eqn:Hf.
  - intros [= <-]. apply find_some in Hf as [Hin He]. apply String.eqb_eq in He. exists [], n, ns, kv. split_and!; [done|done|done|done|]. by intros ? ? [].
  - intros Hn. destruct (IH Hn) as (l & m & r & kv & -> & Hin & He & Hs & Hl). exists (n :: l), m, r, kv. split_and!; [done|done|done|done|].
    intros kv' Hkv [Hh|Ht]; [|by eapply Hl]. pose proof (find_none _ _ Hf kv' Hkv) as Hno. simpl in Hno. rewrite Hh in Hno. by rewrite String.eqb_refl in Hno.
Qed.

Lemma nearest_none table names : nearest table names = None -> forall kv, In kv table -> ~ In (cls_name (fst kv)) names.
Proof.
  induction names as [|n ns IH]; [by intros _ kv _ []|]. cbn [nearest]. destruct (List.find _ table) as [kv|] eqn:Hf; [done|].
  intros Hn kv Hkv [Hh|Ht]; [|by eapply IH]. pose proof (find_none _ _ Hf kv Hkv) as Hno. simpl in Hno. rewrite Hh in Hno. by rewrite String.eqb_refl in Hno.
Qed.

(** An element of a list without repetitions has one place. *)
Lemma NoDup_split_unique {A} (x : A) l r l' r' : NoDup (l ++ x :: r) -> l ++ x :: r = l' ++ x :: r' -> l = l'.
Proof.
  revert l'. induction l as [|y l IH]; intros [|z l'] Hnd He; [done| | |]; simpl in *; apply NoDup_cons in Hnd as [Hy Hnd]; injection He.
  - intros -> <-. destruct Hy. apply list_elem_of_In, in_elt.
  - intros <- ->. destruct Hy. apply list_elem_of_In, in_elt.
  - intros Hr <-. f_equal. by apply IH.
Qed.

(** What each registered class is for. *)
Definition row_kind (kv : pyclass * handler) : bool :=
  match snd kv with
  | OnValidation => String.eqb (cls_name (fst kv)) (cls_name RequestValidationError_cls)
  | OnHttp => String.eqb (cls_name (fst kv)) (cls_name HTTPException_cls)
  | OnMarty => String.eqb (cls_name (fst kv)) (cls_name MartyError_cls) || mem (cls_name MartyError_cls) (cls_bases (fst kv))
  | OnOther => String.eqb (cls_name (fst kv)) (cls_name Exception_)
  end.
Lemma rows_kind kv : In kv register_exception_handlers -> row_kind kv = true.
Proof. revert kv. apply forallb_forall. by vm_compute. Qed.

Lemma exn_handler e : python_raised (RExn e) -> catchable e = true ->
  handler_for register_exception_handlers (exn_class e) = Some (if isinstance e MartyError_cls then OnMarty else OnOther).
Proof.
  intros (Hlin & Hhttp & Hval) Hc. rewrite handler_for_nearest. destruct Hlin as [Hnd Hbases].
  apply isinstance_In in Hc. destruct (nearest _ _) as [h|] eqn:Hn.
  2: { exfalso. apply (nearest_none _ _ Hn (Exception_, OnOther)); [by apply (nth_error_In _ 9)|done]. }
  apply nearest_found in Hn as (l & n & r & kv & Hm & Hin & He & <- & Hl). f_equal.
  pose proof (rows_kind kv Hin) as Hk. unfold row_kind in Hk. subst n.
  assert (In (cls_name (fst kv)) (mro (exn_class e))) as Hhas by (rewrite Hm; apply in_elt).
  destruct (snd kv).
  - apply String.eqb_eq in Hk. rewrite Hk in Hhas. apply isinstance_In in Hhas. congruence.
  - apply String.eqb_eq in Hk. rewrite Hk in Hhas. apply isinstance_In in Hhas. congruence.
  - assert (isinstance e MartyError_cls = true) as ->; [|done]. apply isinstance_In. apply orb_true_iff in Hk as [Hk|Hk].
    + apply String.eqb_eq in Hk. by rewrite <- Hk.
    + apply mem_true in Hk. rewrite Hm. apply in_or_app. right. right. by apply (Hbases kv l r).
  - apply String.eqb_eq in Hk. destruct (isinstance e MartyError_cls) eqn:Hi; [|done]. apply isinstance_In in Hi.
    (* [Exception] is listed after [MartyError], which is registered *)
    exfalso. apply in_split in Hi as (l1 & r1 & Hm1). set (row := (MartyError_cls, OnMarty)).
    assert (In row register_exception_handlers) as Hrow by (by apply (nth_error_In _ 8)).
    assert (In (cls_name Exception_) r1) as Hr1 by (apply (Hbases row l1 r1 Hrow Hm1); by left).
    apply in_split in Hr1 as (l2 & r2 & ->). rewrite Hk in Hm.
    assert (l = l1 ++ cls_name MartyError_cls :: l2) as ->.
    { apply (NoDup_split_unique (cls_name Exception_) l r _ r2); [by rewrite <- Hm|]. rewrite <- Hm, Hm1. by rewrite <- app_assoc. }
    apply (Hl row Hrow). apply in_elt.
Qed.

Lemma exn_unhandled e : python_raised (RExn e) -> catchable e = false -> handler_for register_exception_handlers (exn_class e) = None.
Proof.
  intros (Hlin & Hhttp & Hval) Hc. rewrite handler_for_nearest. destruct Hlin as [Hnd Hbases]. destruct (nearest _ _) as [h|] eqn:Hn; [|done].
  exfalso. apply nearest_found in Hn as (l & n & r & kv & Hm & Hin & He & _ & _). subst n.
  assert (In (cls_name Exception_) (cls_name (fst kv) :: r)) as Hex.
  { assert (forallb (fun kv => mem (cls_name Exception_) (cls_name (fst kv) :: cls_bases (fst kv))) register_exception_handlers = true) as Hall by (by vm_compute).
    rewrite forallb_forall in Hall. pose proof (Hall kv Hin) as Hx. apply mem_true in Hx. destruct Hx as [Hx|Hx]; [by left|right].
    by apply (Hbases kv l r). }
  assert (catchable e = true); [|congruence]. apply isinstance_In. rewrite Hm. apply in_or_app. by right.
Qed.
End answers.

Class RequestLaws (W : Type) `{World W, Env W, RequestVar W} := {
  ctx_set id w : request_id_ctx (set_ctx id w) = id;
  ctx_time w t w' : time_time w = (t, w') -> request_id_ctx w' = request_id_ctx w;
  uuid_named w hex w' : uuid4 w = (hex, w') -> uuid_str hex <> "" }.

Section requests.
Context {W : Type} `{HL : RequestLaws W}.

Lemma header_named header (w : W) : exists id w1,
  (if str_truthy header then mret (default "" header) else new_uuid) w = (Ok id, w1) /\ id <> "" /\
  (str_truthy header = true -> header = Some id /\ w1 = w).
Proof.
  destruct header as [h|]; simpl; [destruct (String.eqb_spec h "") as [->|Hne]; simpl|].
  - unfold new_uuid. destruct (uuid4 w) as [hex w'] eqn:Hu. exists (uuid_str hex), w'. split; [done|]. split; [by eapply uuid_named|done].
  - by exists h, w.
  - unfold new_uuid. destruct (uuid4 w) as [hex w'] eqn:Hu. exists (uuid_str hex), w'. split; [done|]. split; [by eapply uuid_named|done].
Qed.

(** Setting the header of an answer keeps what it is. *)
Lemma headed id s m (w : W) : answers id s m w ->
  exists r w', m w = (Ok r, w') /\ status_code (set_header "X-Request-ID" id r) = s /\ identified id (set_header "X-Request-ID" id r).
Proof. intros (r & w' & He & Hs & _ & Hc). exists r, w'. split; [done|]. split; [done|]. split; [apply dget_dset_eq|done]. Qed.

(** An input that cannot be sent back ends the handler. *)
Lemma validation_fails id es (w : W) : request_id_ctx w = id -> id <> "" -> sendable es = false ->
  exists e w', validation_exception_handler es w = (Raise e, w') /\ catchable e = true /\ request_id_ctx w' = id.
Proof.
  intros Hw Hne Hs. unfold validation_exception_handler, mbind, M_bind. rewrite (current_id w id Hw Hne). unfold answer_fields.
  destruct (time_time w) as [t w'] eqn:Ht. rewrite Hs. eexists _, w'. split; [done|]. split; [done|]. by rewrite (ctx_time w t w' Ht).
Qed.

End requests.

(** ** Exceptions that were wrapped before

    A function under [handle_common_exceptions] fails with a status that its own
    exception decides: a lost connection is the fault of a service behind, a [ValueError]
    the client's, whoever it was raised for. *)
Definition wrapped_status (e : exn) : Z :=
  if isinstance_any e [ConnectionError; TimeoutError] then 502
  else if isinstance_any e [ValueError; TypeError] then 400 else 500.

Theorem wrapped_answered {W A : Type} name (func : M W A) w e w' :
  func w = (Raise e, w') -> isinstance e MartyError_cls = false -> catchable e = true ->
  exists x, handle_common_exceptions true name func w = (Raise x, w') /\ expected_status (RExn x) = wrapped_status e.
Proof.
  intros Hf Hm Hc. unfold handle_common_exceptions, wrapped_status, raise_if. rewrite Hf, Hm, Hc.
  repeat match goal with |- context [if ?b then _ else _] => is_var b + destruct b end.
  all: eexists; split; [reflexivity|vm_compute; reflexivity].
Qed.

Module Demo.
(** A world with the time zero, one identifier, and the context variable. *)
Definition world := string.
#[export] Instance demo_clock : World world := { time_time w := (0%Q, w); sleep _ w := w; randbelow _ w := (0, w) }.
#[export] Instance demo_env : Env world := { uuid4 w := ("0f0f0f0f0f0f4f0f8f0f0f0f0f0f0f0f", w); datetime_now w := (0, w) }.
#[export] Instance demo_var : RequestVar world := { request_id_ctx w := w; set_ctx id _ := id }.

#[export] Instance demo_laws : RequestLaws world.
Proof. split; [done|by intros w t w' [= _ <-]|]. intros w hex w' Hu. injection Hu as <- <-. vm_compute. discriminate. Qed.

Definition refused : exn := marty_error MartyValidationError_cls "no number" (Some "VAL.REQUIRED_FIELD").
Definition failing (e : exn) : world -> (response + raised) * world := fun w => (inr (RExn e), w).

Lemma refused_python w x w' : failing refused w = (inr x, w') -> python_raised x.
Proof. intros [= <- _]. split; [by apply linearb_linearized|by vm_compute]. Qed.


Lemma wrapped_answered_witness :
  exists x, handle_common_exceptions true "load" (@raise world Z (raise_ ConnectionError "reset")) "" = (Raise x, "") /\
    expected_status (RExn x) = 502.
Proof. apply (wrapped_answered "load" (raise (raise_ ConnectionError "reset")) "" (raise_ ConnectionError "reset") ""); by vm_compute. Defined.

(** An unknown exception shows its text to clients only when debugging. *)
Definition text_sent (r : result response * world) : option string :=
  match r with (Ok {| content := EBody b |}, _) => Some (message (error b)) | _ => None end.

Lemma unknown_exception_hidden :
  text_sent (serve false None (failing (raise_ KeyError "db password")) "") = Some "Internal server error".
Proof. by vm_compute. Qed.

(** A body that was not read as JSON is refused with the status of a failed service. *)
Definition raw_body : field_error := {| loc := [inl "body"]; error_type := "model_attributes_type"; msg := "Input should be a valid dictionary"; input := Some (VBytes []) |}.
Definition status_sent (r : result response * world) : option Z := match r with (Ok r, _) => Some (status_code r) | _ => None end.

Lemma raw_body_fails : status_sent (serve false None (fun w => (inr (RInvalid [raw_body]), w)) "") = Some 500.
Proof. by vm_compute. Qed.

(** Wrapped, the same exception shows its text. *)
Definition wrapped_key_error : world -> (response + raised) * world := fun w =>
  match handle_common_exceptions true "load" (@raise world Z (raise_ KeyError "db password")) w with
  | (Raise x, w) => (inr (RExn x), w)
  | (Ok _, w) => (inl {| status_code := 200; content := OBody ""; headers := [] |}, w)
  end.

Lemma wrapped_exception_shown :
  text_sent (serve false None wrapped_key_error "") = Some "Unexpected error in load: db password".
Proof. by vm_compute. Qed.
End Demo.
