(* ===== verification/ApiErrors.v ===== *)
(** * Errors of the interfaces ([api_errors.py])

    A further hierarchy of exceptions, which are data classes: every class has its own
    defaults, and what is not given to a constructor is taken from them. The dictionary
    of an error is what a client gets. *)

From S2P Require Import Prelude PyRuntime PyText.
Local Open Scope Z_scope.

Inductive ErrorSeverity := LOW | MEDIUM | HIGH | CRITICAL.
Definition severity_value (s : ErrorSeverity) : string :=
  match s with LOW => "low" | MEDIUM => "medium" | HIGH => "high" | CRITICAL => "critical" end.

Inductive RecoveryAction := RETRY | RETRY_WITH_BACKOFF | CONTACT_SUPPORT | FIX_INPUT | REAUTHENTICATE | REQUEST_ACCESS | NO_ACTION.
Definition action_value (a : RecoveryAction) : string :=
  match a with
  | RETRY => "retry" | RETRY_WITH_BACKOFF => "retry_with_backoff" | CONTACT_SUPPORT => "contact_support" | FIX_INPUT => "fix_input"
  | REAUTHENTICATE => "reauthenticate" | REQUEST_ACCESS => "request_access" | NO_ACTION => "none"
  end.

Record ErrorDetail := { d_field : option string; d_message : string; d_code : option string; d_value : json }.

(** ** Classes *)

Inductive class :=
| MartyError | ValidationError | NotFoundError | AuthenticationError | AuthorizationError | ConflictError | RateLimitError
| ServiceUnavailableError | InternalError.

(** [retry_after] is a field of one class only. *)
Record error := {
  class_of : class; code : string; message : string; user_message : string; severity : ErrorSeverity; recovery_action : RecoveryAction;
  details : list ErrorDetail; http_status : Z; retry_after : Z }.

Record defaults := {
  def_code : option string; def_message : option string; def_user_message : option string; def_severity : ErrorSeverity;
  def_action : RecoveryAction; def_status : Z }.

Definition class_defaults (c : class) : defaults :=
  let d code message user s a status := {| def_code := Some code; def_message := Some message; def_user_message := Some user;
    def_severity := s; def_action := a; def_status := status |} in
  match c with
  | MartyError => {| def_code := None; def_message := None; def_user_message := None; def_severity := MEDIUM; def_action := NO_ACTION; def_status := 500 |}
  | ValidationError => d "VALIDATION_ERROR" "Validation failed" "Please check your input and try again" LOW FIX_INPUT 422
  | NotFoundError => d "NOT_FOUND" "Resource not found" "The requested resource was not found" LOW NO_ACTION 404
  | AuthenticationError => d "AUTHENTICATION_ERROR" "Authentication failed" "Please log in to continue" MEDIUM REAUTHENTICATE 401
  | AuthorizationError => d "AUTHORIZATION_ERROR" "Access denied" "You don't have permission to perform this action" MEDIUM NO_ACTION 403
  | ConflictError => d "CONFLICT" "Resource conflict" "The operation conflicts with the current state" LOW NO_ACTION 409
  | RateLimitError => d "RATE_LIMIT_EXCEEDED" "Rate limit exceeded" "Too many requests. Please try again later." LOW RETRY_WITH_BACKOFF 429
  | ServiceUnavailableError =>
      d "SERVICE_UNAVAILABLE" "Service temporarily unavailable" "The service is temporarily unavailable. Please try again later." HIGH RETRY_WITH_BACKOFF 503
  | InternalError => d "INTERNAL_ERROR" "An internal error occurred" "Something went wrong. Please try again or contact support." HIGH CONTACT_SUPPORT 500
  end.

(** The arguments of a constructor; [Some None] is a message for the user that is
    given as [None]. *)
Record arguments := {
  a_code : option string; a_message : option string; a_user_message : option (option string); a_severity : option ErrorSeverity;
  a_action : option RecoveryAction; a_details : list ErrorDetail; a_status : option Z; a_retry_after : option Z }.

Definition nothing_given : arguments := {|
  a_code := None; a_message := None; a_user_message := None; a_severity := None; a_action := None; a_details := []; a_status := None; a_retry_after := None |}.

Definition given {A} (a d : option A) : option A := match a with Some v => Some v | None => d end.

Definition construct (c : class) (a : arguments) : result error :=
  let d := class_defaults c in
  match given (a_code a) (def_code d), given (a_message a) (def_message d) with
  | Some code, Some message => Ok {|
      class_of := c; code := code; message := message;
      user_message := default message (match a_user_message a with Some u => u | None => def_user_message d end);
      severity := default (def_severity d) (a_severity a); recovery_action := default (def_action d) (a_action a);
      details := a_details a; http_status := default (def_status d) (a_status a); retry_after := default 60 (a_retry_after a) |}
  | _, _ => Raise (raise_ TypeError "missing required positional argument")
  end.

(** ** Special constructors *)

Definition detail (field : option string) (message : string) (value : json) : ErrorDetail :=
  {| d_field := field; d_message := message; d_code := None; d_value := value |}.

(** [cls(code=..., message=..., user_message=..., details=...)], code and message for
    the user as far as they are given. *)
Definition with_texts (c : class) (code : option string) (message : string) (user_message : option string) (ds : list ErrorDetail) : result error :=
  construct c {| a_code := code; a_message := Some message; a_user_message := Some <$> user_message; a_severity := None;
    a_action := None; a_details := ds; a_status := None; a_retry_after := None |}.

Definition for_field (field message : string) (value : json) : result error :=
  with_texts ValidationError None ("Validation failed for field '" +:+ field +:+ "': " +:+ message) (Some message) [detail (Some field) message value].

Definition for_fields (field_errors : pydict string) : result error :=
  with_texts ValidationError None ("Validation failed for " +:+ len_str field_errors +:+ " field(s)") None
    (map (fun kv => detail (Some (fst kv)) (snd kv) JNull) field_errors).

Definition for_resource (resource_type resource_id : string) : result error :=
  with_texts NotFoundError None (resource_type +:+ " with ID '" +:+ resource_id +:+ "' not found")
    (Some ("The " +:+ str_lower resource_type +:+ " you requested was not found")) [].

Definition invalid_credentials : result error :=
  with_texts AuthenticationError (Some "INVALID_CREDENTIALS") "Invalid credentials provided" (Some "The email or password you entered is incorrect") [].
Definition session_expired : result error :=
  with_texts AuthenticationError (Some "SESSION_EXPIRED") "Session has expired" (Some "Your session has expired. Please log in again.") [].
Definition invalid_token : result error :=
  with_texts AuthenticationError (Some "INVALID_TOKEN") "Invalid or expired token" (Some "Your authentication token is invalid or has expired") [].

Definition insufficient_permissions (required_permission : string) : result error :=
  with_texts AuthorizationError (Some "INSUFFICIENT_PERMISSIONS") ("Missing required permission: " +:+ required_permission)
    (Some "You don't have permission to perform this action") [].
Definition not_organization_member (org_id : string) : result error :=
  with_texts AuthorizationError (Some "NOT_ORGANIZATION_MEMBER") ("User is not a member of organization " +:+ org_id)
    (Some "You are not a member of this organization") [].

Definition duplicate_resource (resource_type identifier : string) : result error :=
  with_texts ConflictError (Some "DUPLICATE_RESOURCE") (resource_type +:+ " with identifier '" +:+ identifier +:+ "' already exists")
    (Some ("A " +:+ str_lower resource_type +:+ " with this identifier already exists")) [].
Definition invalid_state_transition (resource_type current_state target_state : string) : result error :=
  with_texts ConflictError (Some "INVALID_STATE_TRANSITION")
    ("Cannot transition " +:+ resource_type +:+ " from '" +:+ current_state +:+ "' to '" +:+ target_state +:+ "'")
    (Some "This operation cannot be performed in the current state") [].

(** ** What a client gets *)

Definition detail_dict (d : ErrorDetail) : json :=
  JDict [("field", jopt (d_field d)); ("message", JStr (d_message d)); ("code", jopt (d_code d))].

Definition to_dict (e : error) : pydict json :=
  [("code", JStr (code e)); ("message", JStr (message e)); ("user_message", JStr (user_message e));
   ("severity", JStr (severity_value (severity e))); ("recovery_action", JStr (action_value (recovery_action e)));
   ("details", JList (map detail_dict (details e)))] ++
  match class_of e with RateLimitError => [("retry_after", JInt (retry_after e))] | _ => [] end.

(** The same errors for other values of the refused fields. *)
Definition same_but_values (a b : ErrorDetail) : Prop := d_field a = d_field b /\ d_message a = d_message b /\ d_code a = d_code b.

(** The values that were refused are never sent: clients cannot tell two errors apart
    that differ in them alone. *)
Theorem values_not_sent c a b :
  Forall2 same_but_values (a_details a) (a_details b) ->
  a_code a = a_code b -> a_message a = a_message b -> a_user_message a = a_user_message b -> a_severity a = a_severity b ->
  a_action a = a_action b -> a_retry_after a = a_retry_after b ->
  match construct c a, construct c b with
  | Ok e, Ok f => to_dict e = to_dict f
  | Raise e, Raise f => e = f
  | _, _ => False
  end.
Proof.
  intros Hd Hc Hm Hu Hs Ha Hr. unfold construct. rewrite Hc, Hm, Hu, Hs, Ha, Hr.
  assert (map detail_dict (a_details a) = map detail_dict (a_details b)) as Hl.
  { clear -Hd. induction Hd as [|x y l k (Hf & Hx & Hy) _ IH]; [done|]. simpl. rewrite IH. unfold detail_dict. by rewrite Hf, Hx, Hy. }
  destruct (given (a_code b) (def_code (class_defaults c))); [|done].
  destruct (given (a_message b) (def_message (class_defaults c))); [|done]. unfold to_dict. cbn. by rewrite Hl.
Qed.

(** Every class but the base class can be raised without arguments, and has a status
    of its own. *)
Theorem class_statuses c d e f :
  construct c nothing_given = Ok e -> construct d nothing_given = Ok f -> http_status e = http_status f -> c = d.
Proof. destruct c, d; vm_compute; intros He Hf; try done; injection He as <-; injection Hf as <-; done. Qed.

Module Demo.
Definition refused (v : json) : arguments := {|
  a_code := None; a_message := None; a_user_message := None; a_severity := None; a_action := None;
  a_details := [detail (Some "password") "too short" v]; a_status := None; a_retry_after := None |}.

Lemma values_not_sent_witness :
  match construct ValidationError (refused (JStr "abc")), construct ValidationError (refused JNull) with
  | Ok e, Ok f => to_dict e = to_dict f
  | Raise e, Raise f => e = f
  | _, _ => False
  end.
Proof. apply (values_not_sent ValidationError (refused (JStr "abc")) (refused JNull)); try reflexivity. by repeat constructor. Defined.

(** The base class needs a code and a message. *)
Lemma base_class_needs_texts : is_ok (construct MartyError nothing_given) = false /\
  is_ok (for_fields [("mrz", "wrong check digit"); ("dob", "in the future")]) = true.
Proof. by vm_compute. Qed.
End Demo.
