(* ===== verification/ServiceRegistry.v ===== *)
(** * The registry of services ([service_registry.py])

    The services with their ports, and their addresses in each environment. *)

From stdpp Require Import pretty.
From S2P Require Import Prelude PyRuntime PyText PyDate PyInt.
Local Open Scope Z_scope.

Inductive ServiceType := GRPC | HTTP | UI | INFRASTRUCTURE.

#[export] Instance type_eq_dec : EqDecision ServiceType.
Proof. solve_decision. Defined.

Record ServiceDefinition := { name : string; service_type : ServiceType; base_port : Z; description : string }.

Definition grpc_port (s : ServiceDefinition) : Z := base_port s.
Definition health_port (s : ServiceDefinition) : Z := base_port s + 1.
Definition metrics_port (s : ServiceDefinition) : Z := base_port s + 1000.
Definition http_endpoint (s : ServiceDefinition) : string := "http://localhost:" +:+ z_str (base_port s).
Definition grpc_endpoint (s : ServiceDefinition) : string := "localhost:" +:+ z_str (grpc_port s).
Definition metrics_endpoint (s : ServiceDefinition) : string := "http://localhost:" +:+ z_str (metrics_port s) +:+ "/metrics".
Definition health_endpoint (s : ServiceDefinition) : string := "http://localhost:" +:+ z_str (health_port s) +:+ "/health".

(** An entry of the registry, under its own name. *)
Definition service (name : string) (type : ServiceType) (port : Z) (description : string) : string * ServiceDefinition :=
  (name, {| name := name; service_type := type; base_port := port; description := description |}).

Definition SERVICES : pydict ServiceDefinition := [
  service "trust-svc" GRPC 8090 "Trust service for certificate management";
  service "trust-anchor" GRPC 9080 "Trust anchor service";
  service "csca-service" GRPC 8081 "CSCA certificate authority service";
  service "document-signer" GRPC 8082 "Document signing service";
  service "inspection-system" GRPC 8083 "Document inspection service";
  service "passport-engine" GRPC 8084 "Passport processing engine";
  service "mdl-engine" GRPC 8085 "Mobile driver's license engine";
  service "mdoc-engine" GRPC 8086 "Mobile document engine";
  service "dtc-engine" GRPC 8087 "Digital travel credential engine";
  service "pkd-service" GRPC 8088 "Public key directory service";
  service "open-badges" GRPC 8091 "Open Badges issuance and verification service";
  service "credential-ledger" GRPC 8089 "Credential ledger service";
  service "ui-app" UI 8000 "Web user interface application"].

Definition get_service (service_name : string) : option ServiceDefinition := dget service_name SERVICES.
Definition get_all_services : pydict ServiceDefinition := SERVICES.
Definition get_services_by_type (t : ServiceType) : pydict ServiceDefinition :=
  lfilter (fun kv => bool_decide (service_type (snd kv) = t)) SERVICES.

Definition ports (f : ServiceDefinition -> Z) : pydict Z := map (fun kv => (fst kv, f (snd kv))) SERVICES.
Definition get_service_ports : pydict Z := ports base_port.
Definition get_grpc_ports : pydict Z := ports grpc_port.
Definition get_metrics_ports : pydict Z := ports metrics_port.
Definition get_health_ports : pydict Z := ports health_port.

(** [environment.split(":")[-1] if ":" in environment else "marty"] *)
Definition namespace (environment : string) : string :=
  if has_char ":" environment then List.last (split_on ":" environment) "" else "marty".

Definition endpoint (environment : string) (name : string) (s : ServiceDefinition) : string :=
  if String.eqb environment "local" then http_endpoint s
  else if startswith "k8s" environment then
    "http://" +:+ name +:+ "." +:+ namespace environment +:+ ".svc.cluster.local:" +:+ z_str (base_port s)
  else "http://" +:+ name +:+ ":" +:+ z_str (base_port s).

Definition get_service_endpoints (environment : string) : pydict string :=
  map (fun kv => (fst kv, endpoint environment (fst kv) (snd kv))) SERVICES.

Definition port_or (f : ServiceDefinition -> Z) (service_name : string) (fallback : Z) : Z :=
  match get_service service_name with Some s => f s | None => fallback end.
Definition get_service_port : string -> Z -> Z := port_or base_port.
Definition get_grpc_port : string -> Z -> Z := port_or grpc_port.
Definition get_metrics_port : string -> Z -> Z := port_or metrics_port.
Definition get_service_endpoint (service_name environment : string) : option string :=
  dget service_name (get_service_endpoints environment).

(** ** Addresses *)

Lemma get_mapped {A} (f : string -> ServiceDefinition -> A) n (d : pydict ServiceDefinition) :
  dget n (map (fun kv => (fst kv, f (fst kv) (snd kv))) d) = f n <$> dget n d.
Proof. induction d as [|[k s] d IH]; simpl; [done|]. by destruct (String.eqb_spec n k) as [->|]. Qed.

Lemma digits_free c s : all_digits s -> opt_is_some (digit_of c) = false -> free_of c s.
Proof.
  intros Hs Hc. induction s as [|x s IH]; [done|]. unfold all_digits in Hs. cbn in Hs. apply andb_true_iff in Hs as [Hx Hs].
  split; [|by apply IH]. intros ->. congruence.
Qed.

Lemma z_str_no_colon z : free_of ":" (z_str z).
Proof.
  unfold z_str. destruct z as [|p|p]; [by cbn|..].
  - change (pretty (Z.pos p)) with (pretty_N_go (N.pos p) ""). apply digits_free; [by apply all_digits_pretty|done].
  - change (pretty (Z.neg p)) with (String (ascii_of_nat 45) (pretty_N_go (N.pos p) "")). split; [done|].
    apply digits_free; [by apply all_digits_pretty|done].
Qed.

(** The digits after the last colon of an address are the port of the service. *)
Lemma endpoint_port environment n s : List.last (split_on ":" (endpoint environment n s)) "" = z_str (base_port s).
Proof.
  assert (forall t, List.last (split_on ":" (t +:+ ":" +:+ z_str (base_port s))) "" = z_str (base_port s)) as Hlast.
  { intros t. rewrite split_on_app, (split_free ":" (z_str (base_port s))); [apply last_last|apply z_str_no_colon]. }
  unfold endpoint, http_endpoint. destruct (String.eqb environment "local"); [|destruct (startswith "k8s" environment)].
  - apply (Hlast "http://localhost").
  - pose proof (Hlast ("http://" +:+ n +:+ "." +:+ namespace environment +:+ ".svc.cluster.local")) as Hl.
    rewrite !append_assoc in Hl. exact Hl.
  - pose proof (Hlast ("http://" +:+ n)) as Hl. rewrite !append_assoc in Hl. exact Hl.
Qed.

Lemma registry_names : forall n s, dget n SERVICES = Some s -> name s = n.
Proof.
  intros n s Hs%dget_In. apply (proj1 (Forall_forall (fun kv => name (snd kv) = fst kv) SERVICES)) with (x := (n, s));
    [|by apply list_elem_of_In]. repeat constructor.
Qed.

(** The base port determines the service. *)
Lemma base_port_injective n1 s1 n2 s2 : get_service n1 = Some s1 -> get_service n2 = Some s2 -> base_port s1 = base_port s2 -> n1 = n2.
Proof.
  unfold get_service. intros H1 H2 Hp. rewrite <- (registry_names _ _ H1), <- (registry_names _ _ H2). apply dget_In in H1, H2.
  apply (in_map snd) in H1, H2. simpl in H1, H2.
  assert (forallb (fun s => forallb (fun s' => negb (base_port s =? base_port s') || String.eqb (name s) (name s')) (map snd SERVICES))
    (map snd SERVICES) = true) as Hall by by vm_compute.
  rewrite forallb_forall in Hall. specialize (Hall s1 H1). rewrite forallb_forall in Hall. specialize (Hall s2 H2).
  apply orb_true_iff in Hall as [Hne|He]; [|by apply String.eqb_eq]. apply negb_true_iff, Z.eqb_neq in Hne. done.
Qed.

(** In every environment exactly the registered services have an address, and two
    services never have the same one. *)
Theorem endpoints_distinct environment :
  (forall n, is_Some (get_service_endpoint n environment) <-> is_Some (get_service n)) /\
  (forall n1 n2 u, get_service_endpoint n1 environment = Some u -> get_service_endpoint n2 environment = Some u -> n1 = n2).
Proof.
  assert (forall n, get_service_endpoint n environment = endpoint environment n <$> get_service n) as Hget
    by (intros n; apply (get_mapped (endpoint environment))).
  split.
  - intros n. rewrite Hget. apply fmap_is_Some.
  - intros n1 n2 u. rewrite !Hget. intros (s1 & H1 & Hu1)%fmap_Some (s2 & H2 & Hu2)%fmap_Some.
    eapply base_port_injective; [exact H1|exact H2|].
    pose proof (endpoint_port environment n1 s1) as Hp1. rewrite <- Hu1, Hu2, endpoint_port in Hp1.
    assert (parse_int (z_str (base_port s2)) = parse_int (z_str (base_port s1))) as Hz by by rewrite Hp1.
    rewrite !parse_int_z_str in Hz. by injection Hz.
Qed.

(** ** Ports in conflict

    Two listeners of services that run on one host with the same port. *)
Definition listeners : list (string * Z) :=
  flat_map (fun kv => [(fst kv +:+ " grpc", grpc_port (snd kv)); (fst kv +:+ " health", health_port (snd kv));
                       (fst kv +:+ " metrics", metrics_port (snd kv))]) SERVICES.

Fixpoint clashes (l : list (string * Z)) : list (string * string) :=
  match l with
  | [] => []
  | (n, p) :: l => map (fun kv => (n, fst kv)) (lfilter (fun kv => snd kv =? p) l) ++ clashes l
  end.

Lemma clashes_iff l n n' : NoDup (map fst l) ->
  In (n, n') (clashes l) \/ In (n', n) (clashes l) <-> n <> n' /\ exists p, In (n, p) l /\ In (n', p) l.
Proof.
  induction l as [|[m p] l IH]; simpl; [naive_solver|]. intros [Hm Hnd]%NoDup_cons. specialize (IH Hnd).
  assert (forall q, In (m, q) l -> False) as Hfresh by (intros q Hq; apply Hm, list_elem_of_In; by apply (in_map fst) in Hq).
  assert (forall x y, In (x, y) (map (fun kv => (m, fst kv)) (lfilter (fun kv => snd kv =? p) l)) <-> x = m /\ In (y, p) l) as Hin.
  { intros x y. rewrite in_map_iff. setoid_rewrite lfilter_In. setoid_rewrite Z.eqb_eq. split.
    - intros ([y' q] & [= <- <-] & Hy & Hq). simpl in *. by subst.
    - intros [-> Hy]. by exists (y, p). }
  rewrite !in_app_iff, !Hin. split.
  - intros [[[-> Hn]|Hc]|[[-> Hn]|Hc]].
    + split; [intros ->; by eapply Hfresh|]. exists p. auto.
    + destruct (proj1 IH (or_introl Hc)) as (Hne & q & H1 & H2). split; [done|]. exists q. auto.
    + split; [intros <-; by eapply Hfresh|]. exists p. auto.
    + destruct (proj1 IH (or_intror Hc)) as (Hne & q & H1 & H2). split; [done|]. exists q. auto.
  - intros (Hne & q & [E1|H1] & [E2|H2]); simplify_eq; [by left; left|by right; left|].
    destruct (proj2 IH) as [Hc|Hc]; [by eauto|by left; right|by right; right].
Qed.

Definition known_clashes : list (string * string) := [
  ("trust-svc grpc", "credential-ledger health"); ("trust-svc health", "open-badges grpc");
  ("trust-anchor health", "csca-service metrics"); ("csca-service health", "document-signer grpc");
  ("document-signer health", "inspection-system grpc"); ("inspection-system health", "passport-engine grpc");
  ("passport-engine health", "mdl-engine grpc"); ("mdl-engine health", "mdoc-engine grpc");
  ("mdoc-engine health", "dtc-engine grpc"); ("dtc-engine health", "pkd-service grpc");
  ("pkd-service health", "credential-ledger grpc")].

(** All services on one host, as the local addresses assume: the health port of a
    service is the port of another one in ten cases, and a metrics port in one; no
    other two listeners have the same port. *)
Theorem port_clashes n n' :
  (n <> n' /\ exists p, In (n, p) listeners /\ In (n', p) listeners) <-> In (n, n') known_clashes \/ In (n', n) known_clashes.
Proof.
  rewrite <- clashes_iff by (apply (bool_decide_unpack _); by vm_compute).
  by assert (clashes listeners = known_clashes) as -> by by vm_compute.
Qed.
