(* ===== verification/ConfigManager.v ===== *)
(** * Configuration of the services ([config_manager.py])

    The files of an environment and of a service, merged with overrides into the
    configuration object of the service, its validation and what is derived from it.
    Files, YAML and the environment are parameters; fields hold whatever was read. *)

From S2P Require Import Prelude PyRuntime PyText PyDate PyInt PyFloat PyConfig.
Local Open Scope Z_scope.

(** ** Merging *)

(** What a value of the override makes of the value under its key. *)
Fixpoint merge_value (old : option cfg) (value : cfg) : cfg :=
  match value, old with
  | CDict override, Some (CDict base) =>
      CDict ((fix go (result : pydict cfg) (items : list (string * cfg)) : pydict cfg :=
                match items with
                | [] => result
                | (key, v) :: items => go (dset key (merge_value (dget key result) v) result) items
                end) base override)
  | _, _ => value
  end.

Fixpoint merge_items (result : pydict cfg) (items : list (string * cfg)) : pydict cfg :=
  match items with
  | [] => result
  | (key, v) :: items => merge_items (dset key (merge_value (dget key result) v) result) items
  end.

(** [_merge_configs(base, override)] for what a file may hold. *)
Definition _merge_configs (base override : cfg) : result cfg :=
  match base, override with
  | CDict b, CDict o => Ok (CDict (merge_items b o))
  | CList l, CDict [] => Ok base
  | CList l, CDict _ => Raise (raise_ TypeError "list indices must be integers or slices")
  | CList _, _ => Raise (attribute_error "items")
  | _, _ => Raise (attribute_error "copy")
  end.

(** ** The configuration of a service *)

Definition field_defaults : pydict cfg := [
  ("environment", CStr "development"); ("debug", CBool false); ("log_level", CStr "INFO");
  ("grpc_port", CInt 50051); ("grpc_max_workers", CInt 10); ("grpc_enable_health_check", CBool true);
  ("grpc_enable_logging_streamer", CBool true); ("hosts", CDict []); ("ports", CDict []);
  ("enable_tls", CBool false); ("cert_file", CNone); ("key_file", CNone); ("ca_file", CNone);
  ("database_url", CNone); ("database_pool_size", CInt 5); ("trust_store_path", CNone); ("pkd_service_url", CNone);
  ("enable_online_verification", CBool false); ("enable_caching", CBool true); ("cache_ttl_seconds", CInt 3600);
  ("enable_metrics", CBool true); ("metrics_port", CInt 8080)].

Record ServiceConfig := { service_name : string; attributes : pydict cfg }.

Definition attr (k : string) (c : ServiceConfig) : cfg := default CNone (dget k (attributes c)).
Definition set_attr (k : string) (v : cfg) (c : ServiceConfig) : ServiceConfig :=
  {| service_name := service_name c; attributes := dset k v (attributes c) |}.

(** [int(v)] *)
Definition int_of (v : cfg) : result Z :=
  match v with
  | CInt z => Ok z
  | CBool b => Ok (if b then 1 else 0)
  | CFloat (Finite q) => Ok (py_int q)
  | CFloat (Infinite _) => Raise (raise_ (subclass "OverflowError" ArithmeticError) "cannot convert float infinity to integer")
  | CFloat NaN => Raise (raise_ ValueError "cannot convert float NaN to integer")
  | CStr s => parse_int s
  | _ => Raise (raise_ TypeError "int() argument must be a string, a bytes-like object or a real number")
  end.

(** [if name in ports: port = ports[name]] *)
Definition own_port (name : string) (ports port : cfg) : result cfg :=
  match ports with
  | CDict d => Ok (default port (dget name d))
  | CList l => if existsb (fun v => match v with CStr s => String.eqb s name | _ => false end) l
               then Raise (raise_ TypeError "list indices must be integers or slices") else Ok port
  | CStr s => if contains name s then Raise (raise_ TypeError "string indices must be integers") else Ok port
  | _ => Raise (raise_ TypeError "argument is not iterable")
  end.

Definition __post_init__ (environ : string -> option string) (c : ServiceConfig) : result ServiceConfig :=
  port ← int_of (match environ "GRPC_PORT" with Some s => CStr s | None => attr "grpc_port" c end);
  let from_env k v := match environ k with Some s => CStr s | None => v end in
  let c := set_attr "grpc_port" (CInt port) c in
  let c := set_attr "log_level" (from_env "LOG_LEVEL" (attr "log_level" c)) c in
  let c := set_attr "environment" (from_env "ENV" (attr "environment" c)) c in
  let c := set_attr "debug" (CBool (String.eqb (str_lower (default "false" (environ "DEBUG"))) "true")) c in
  p ← own_port (service_name c) (attr "ports" c) (attr "grpc_port" c);
  Ok (set_attr "grpc_port" p c).

(** [ServiceConfig(service_name=name, environment=env, **kwargs)] *)
Definition new_service_config (environ : string -> option string) (name env : string) (kwargs : cfg) : result ServiceConfig :=
  match kwargs with
  | CDict d =>
      match List.find (fun k => mem k ["service_name"; "environment"] || negb (din k field_defaults)) (dkeys d) with
      | Some k => Raise (raise_ TypeError ("unexpected or repeated keyword argument '" +:+ k +:+ "'"))
      | None =>
          __post_init__ environ {| service_name := name;
            attributes := map (fun kv => (fst kv, if String.eqb (fst kv) "environment" then CStr env
                                                  else default (snd kv) (dget (fst kv) d))) field_defaults |}
      end
  | _ => Raise (raise_ TypeError "argument after ** must be a mapping")
  end.

(** ** The manager *)

Class ConfigFiles (W : Type) := {
  environ : W -> string -> option string;
  exists_ : string -> M W bool;
  safe_load : string -> M W cfg }.

Section manager.
Context {W : Type} `{ConfigFiles W} (config_dir : string).

(** [_cache] and the world. *)
Definition S_ : Type := pydict cfg * W.
Definition outer {A} (m : M W A) : M S_ A := fun s => let '(r, w) := m (snd s) in (r, (fst s, w)).

Definition path (filename : string) : string := config_dir +:+ "/" +:+ filename.

Definition read_file (filename : string) : M S_ cfg :=
  config ← outer (safe_load (path filename));
  let config := if cfg_truthy config then config else CDict [] in
  _ ← modify (fun s => (dset filename config (fst s), snd s));
  mret config.

Definition _load_config_file (filename : string) : M S_ cfg :=
  cached ← gets (fun s => dget filename (fst s));
  match cached with
  | Some config => mret config
  | None =>
      there ← outer (exists_ (path filename));
      if (there : bool) then try_except (read_file filename) (fun _ => mret (CDict [])) else mret (CDict [])
  end.

Definition load_service_config (name : string) (environment : option string) (config_overrides : option cfg) : M S_ ServiceConfig :=
  variables ← gets (fun s => environ (snd s));
  let env := if str_truthy environment then default "" environment else default "development" (variables "ENV") in
  base_config ← _load_config_file (env +:+ ".yaml");
  there ← outer (exists_ (path (name +:+ ".yaml")));
  service_config ← (if (there : bool) then _load_config_file (name +:+ ".yaml") else mret (CDict []));
  merged ← lift (_merge_configs base_config service_config);
  merged ← lift (match config_overrides with
                 | Some o => if cfg_truthy o then _merge_configs merged o else Ok merged
                 | None => Ok merged
                 end);
  lift (new_service_config variables name env merged).
End manager.

(** ** Use of a configuration *)

(** The text of a value in an address; [None] is the text of a float or a container,
    which no address has. *)
Definition plain_text (v : cfg) : option string :=
  match v with
  | CStr s => Some s | CInt z => Some (z_str z) | CNone => Some "None" | CBool b => Some (if b then "True" else "False")
  | _ => None
  end.

Definition get_service_target (service : string) (config : ServiceConfig) : result (option string) :=
  host ← cget service (CStr "localhost") (attr "hosts" config);
  port ← cget service (CInt 50051) (attr "ports" config);
  Ok (h ← plain_text host; p ← plain_text port; Some (h +:+ ":" +:+ p)).

(** [v < z] *)
Definition below (v : cfg) (z : Z) : result bool :=
  match number v with Some x => Ok (float_lt x (Finite (inject_Z z))) | None => Raise (raise_ TypeError "'<' not supported") end.
(** [v > z] *)
Definition above (v : cfg) (z : Z) : result bool :=
  match number v with Some x => Ok (float_lt (Finite (inject_Z z)) x) | None => Raise (raise_ TypeError "'>' not supported") end.

Inductive complaint := NoName | InvalidPort | NoCertificate | NoKey | SmallPool.

Definition complain (c : bool) (e : complaint) : list complaint := if c then [e] else [].

Definition validate_config (config : ServiceConfig) : result (list complaint) :=
  low ← below (attr "grpc_port" config) 1;
  high ← (if (low : bool) then Ok true else above (attr "grpc_port" config) 65535);
  let tls := cfg_truthy (attr "enable_tls" config) in
  pool ← (if cfg_truthy (attr "database_url" config) then below (attr "database_pool_size" config) 1 else Ok false);
  Ok (complain (String.eqb (service_name config) "") NoName ++ complain high InvalidPort ++
      complain (tls && negb (cfg_truthy (attr "cert_file" config))) NoCertificate ++
      complain (tls && negb (cfg_truthy (attr "key_file" config))) NoKey ++ complain pool SmallPool).

Definition validate_service_config (config : ServiceConfig) : result unit :=
  errors ← validate_config config;
  match errors with [] => Ok tt | _ => Raise (raise_ ValueError "Configuration validation failed") end.

Definition get_database_url (environ : string -> option string) (config : ServiceConfig) : result cfg :=
  let db_url := match environ "DATABASE_URL" with Some s => CStr s | None => attr "database_url" config end in
  if cfg_truthy db_url then Ok db_url else Raise (raise_ ValueError "Database URL not configured").

Definition create_service_targets (config : ServiceConfig) : result (pydict (option string)) :=
  names ← elements (attr "ports" config);
  foldr (fun n rest => targets ← rest;
           match n with
           | CStr s => t ← get_service_target s config; Ok ((s, t) :: targets)
           | _ => Raise (attribute_error "get")
           end) (Ok []) names.

(** ** What a merge gives *)

(** Following keys from a value: the value there, nothing because a dictionary lacks a
    key, or nothing because another value is in the way. *)
Inductive found := Found (v : cfg) | Missing | Blocked.

Fixpoint walk (p : list string) (v : cfg) : found :=
  match p with
  | [] => Found v
  | k :: p =>
      match v with
      | CDict d => match dget k d with Some v => walk p v | None => Missing end
      | _ => Blocked
      end
  end.

Definition is_dict (v : cfg) : bool := match v with CDict _ => true | _ => false end.

(** The dictionaries in a value have distinct keys, as all dictionaries. *)
Inductive well_keyed : cfg -> Prop :=
| keyed_dict d : dwf d -> (forall k v, dget k d = Some v -> well_keyed v) -> well_keyed (CDict d)
| keyed_other v : is_dict v = false -> well_keyed v.

Lemma merge_value_dict b o : merge_value (Some (CDict b)) (CDict o) = CDict (merge_items b o).
Proof. reflexivity. Qed.

Lemma merge_items_lookup o : dwf o -> forall b k,
  dget k (merge_items b o) = match dget k o with Some v => Some (merge_value (dget k b) v) | None => dget k b end.
Proof.
  unfold dwf. induction o as [|[k' v] o IH]; [done|]. simpl. intros [Hni Hnd]%NoDup_cons b k. rewrite IH by done.
  destruct (String.eqb_spec k k') as [->|Hne].
  - destruct (dget k' o) as [v'|] eqn:Hv; [|by rewrite dget_dset_eq].
    destruct Hni. apply list_elem_of_In. apply dget_In in Hv. by apply (in_map fst) in Hv.
  - by rewrite dget_dset_ne by congruence.
Qed.

Lemma merge_value_other old v : is_dict v = false -> merge_value old v = v.
Proof. by destruct v. Qed.

Lemma merge_value_onto old v : (forall b, old <> Some (CDict b)) -> merge_value old v = v.
Proof. destruct v; try done. destruct old as [[]|]; try done. intros Hn. by edestruct Hn. Qed.

Lemma merged_leaf p : forall b o v, well_keyed (CDict o) -> is_dict v = false ->
  walk p (CDict (merge_items b o)) = Found v <->
  walk p (CDict o) = Found v \/ walk p (CDict o) = Missing /\ walk p (CDict b) = Found v.
Proof.
  induction p as [|k p IH]; intros b o v Hw Hv.
  - simpl. split; [intros [= <-]; done|]. intros [[= <-]|[? _]]; done.
  - inversion Hw as [d Hd Hin|]; [subst|done]. simpl. rewrite merge_items_lookup by done.
    destruct (dget k o) as [x|] eqn:Hx; [|naive_solver].
    destruct (is_dict x) eqn:Hdx.
    + destruct x as [| | | | | |o']; try done. destruct (dget k b) as [[| | | | | |b']|] eqn:Hb.
      7: { rewrite merge_value_dict. rewrite IH by (try done; by eapply Hin). done. }
      all: rewrite merge_value_onto by (intros ?; congruence).
      all: split; [by left|]; intros [Hl|[Hm Hl]]; [done|].
      all: destruct p; simpl in *; simplify_eq; done.
    + rewrite merge_value_other by done. split; [by left|]. intros [Hl|[Hm Hl]]; [done|].
      destruct p; simpl in Hm; [done|]. destruct x; done.
Qed.

(** C36: A value that is no dictionary is in the merged configuration exactly where the
    override has it, or where the base has it and the override says nothing: an
    override is never lost, and it replaces nothing beside its own path. *)
Theorem merge_leaves base override merged p v :
  _merge_configs (CDict base) (CDict override) = Ok merged -> well_keyed (CDict override) -> is_dict v = false ->
  walk p merged = Found v <->
  walk p (CDict override) = Found v \/ walk p (CDict override) = Missing /\ walk p (CDict base) = Found v.
Proof. intros [= <-]. apply merged_leaf. Qed.

(** A merge keeps the keys distinct. *)
Lemma merge_items_wf o : forall b, dwf b -> dwf (merge_items b o).
Proof. induction o as [|[k v] o IH]; intros b Hb; [done|]. simpl. apply IH. by apply dset_wf. Qed.

Module Demo.
#[export] Instance demo_files : ConfigFiles (pydict cfg) := {
  environ _ _ := None; exists_ p := gets (din p); safe_load p := fun w => match dget p w with Some v => (Ok v, w) | None => (Raise (raise_ OSError p), w) end }.

Definition disk : pydict cfg := [
  ("config/production.yaml", CDict [("log_level", CStr "WARNING"); ("hosts", CDict [("pkd", CStr "pkd1")]); ("debug", CBool true)]);
  ("config/signer.yaml", CDict [("hosts", CDict [("trust", CStr "t1")]); ("grpc_port", CInt 8082)])].

Definition loaded (r : result ServiceConfig * (pydict cfg * pydict cfg)) (k : string) : option cfg :=
  match r with (Ok c, _) => Some (attr k c) | _ => None end.

(** The files are merged; that the service is to be debugged is forgotten. *)
Lemma signer_loaded : let r := load_service_config "config" "signer" (Some "production") None ([], disk) in
  loaded r "hosts" = Some (CDict [("pkd", CStr "pkd1"); ("trust", CStr "t1")]) /\ loaded r "log_level" = Some (CStr "WARNING") /\
  loaded r "grpc_port" = Some (CInt 8082) /\ loaded r "debug" = Some (CBool false).
Proof. by vm_compute. Qed.

(** A file that names its environment cannot be loaded. *)
Lemma named_environment_refused : exists e, new_service_config (fun _ => None) "signer" "production" (CDict [("environment", CStr "production")]) = Raise e /\
  isinstance e TypeError = true.
Proof. eexists. split; [reflexivity|done]. Qed.

(** Merging three layers depends on how they are grouped: an override by a plain value
    hides the base from later layers only when it is merged first. *)
Lemma merge_not_associative :
  let a := [("tls", CDict [("cert", CStr "a.pem")])] in let b := [("tls", CNone)] in let c := [("tls", CDict [("key", CStr "c.key")])] in
  merge_items (merge_items a b) c = [("tls", CDict [("key", CStr "c.key")])] /\
  merge_items a (merge_items b c) = [("tls", CDict [("cert", CStr "a.pem"); ("key", CStr "c.key")])].
Proof. by vm_compute. Qed.

Lemma merge_leaves_witness :
  walk ["hosts"; "pkd"] (CDict [("hosts", CDict [("pkd", CStr "pkd1"); ("trust", CStr "t1")])]) = Found (CStr "pkd1") <->
  walk ["hosts"; "pkd"] (CDict [("hosts", CDict [("trust", CStr "t1")])]) = Found (CStr "pkd1") \/
  walk ["hosts"; "pkd"] (CDict [("hosts", CDict [("trust", CStr "t1")])]) = Missing /\
  walk ["hosts"; "pkd"] (CDict [("hosts", CDict [("pkd", CStr "pkd1")])]) = Found (CStr "pkd1").
Proof.
  apply (merge_leaves [("hosts", CDict [("pkd", CStr "pkd1")])] [("hosts", CDict [("trust", CStr "t1")])]); [reflexivity| |reflexivity].
  constructor; [repeat constructor; set_solver|]. intros k v. simpl. destruct (String.eqb k "hosts"); [|discriminate].
  intros [= <-]. constructor; [repeat constructor; set_solver|]. intros k' v'. simpl. destruct (String.eqb k' "trust"); [|discriminate].
  intros [= <-]. by constructor 2.
Defined.
End Demo.
