(* ===== verification/Notify.v ===== *)
(** * Notifications ([notify.py])

    Sinks for e-mail, webhooks and Slack, made from dictionaries of settings, and the
    manager that sends every notification to all of them. The mail server and the HTTP
    client are parameters; the settings hold whatever was configured. *)

From stdpp Require Import pretty.
From S2P Require Import Prelude PyRuntime PyText PyInt PyDate PyFloat PyConfig PyUrl.
Local Open Scope Z_scope.

(** ** Messages *)

(** A text of which [str.splitlines] gives several lines; such texts are no headers. *)
Definition ends_line (c : ascii) : bool := mem (nat_of_ascii c) [10; 11; 12; 13; 28; 29; 30]%nat.

Fixpoint several_lines (s : string) : bool :=
  match s with
  | EmptyString => false
  | String c rest =>
      if ends_line c then
        match rest with
        | EmptyString => false
        | String d rest' =>
            if ((nat_of_ascii c =? 13) && (nat_of_ascii d =? 10))%nat then negb (String.eqb rest' "") else true
        end
      else several_lines rest
  end.

Record email := { email_headers : list (string * string); email_content : string }.

Definition header (name value : string) : result (string * string) :=
  if several_lines value then Raise (raise_ ValueError "Header values may not contain linefeed or carriage return characters")
  else Ok (name, value).

(** [", ".join(v)] *)
Definition join_addresses (v : cfg) : result string :=
  vs ← elements v;
  texts ← foldr (fun v rest => texts ← rest; match v with CStr s => Ok (s :: texts) | _ => Raise (raise_ TypeError "sequence item: expected str instance") end)
            (Ok []) vs;
  Ok (join ", " texts).

(** ** The outside *)

(** [login], [send_message] and the others of an open session; [post] sends a request
    and raises unless the answer is a success ([raise_for_status]). *)
Class Mailbox (W : Type) := {
  connect : string -> cfg -> M W unit;
  starttls : M W unit;
  login : cfg -> cfg -> M W unit;
  send_message : email -> M W unit;
  quit : M W unit;
  post : cfg -> string -> pydict cfg -> pydict cfg -> M W unit }.

(** ** Sinks *)

Record EmailNotifier := {
  recipients : cfg; smtp_server : string; smtp_port : cfg; sender_email : string; use_tls : cfg; username : cfg; password : cfg }.

Definition make_EmailNotifier (config : cfg) : result EmailNotifier :=
  recipients ← cget "recipients" (CList []) config;
  smtp_server ← cget "smtp_server" (CStr "") config;
  smtp_port ← cget "smtp_port" (CInt 587) config;
  sender_email ← cget "sender_email" (CStr "") config;
  use_tls ← cget "use_tls" (CBool true) config;
  username ← cget "username" CNone config;
  password ← cget "password" CNone config;
  if negb (cfg_truthy recipients) || negb (cfg_truthy smtp_server) || negb (cfg_truthy sender_email)
  then Raise (raise_ ValueError "Email configuration missing required fields")
  else match smtp_server, sender_email with
       | CStr server, CStr sender => Ok {| recipients := recipients; smtp_server := server; smtp_port := smtp_port;
           sender_email := sender; use_tls := use_tls; username := username; password := password |}
       | _, _ => Raise (raise_ ValueError "SMTP server and sender email must be strings")
       end.

Record WebhookNotifier := { url : string; wh_timeout : cfg; wh_headers : cfg }.

Definition make_WebhookNotifier `{BracketedHosts} (config : cfg) : result WebhookNotifier :=
  url ← cget "url" (CStr "") config;
  timeout ← cget "timeout" (CInt 30) config;
  headers ← cget "headers" (CDict []) config;
  if negb (cfg_truthy url) then Raise (raise_ ValueError "Webhook URL is required")
  else match url with
       | CStr url =>
           parsed ← urlsplit url;
           if String.eqb (fst parsed) "" || String.eqb (snd parsed) "" then Raise (raise_ ValueError ("Invalid webhook URL: " +:+ url))
           else Ok {| url := url; wh_timeout := timeout; wh_headers := headers |}
       | _ => Raise (raise_ ValueError "Webhook URL must be a string")
       end.

Record SlackNotifier := { webhook_url : string; channel : cfg; bot_name : cfg; sl_timeout : cfg }.

Definition make_SlackNotifier (config : cfg) : result SlackNotifier :=
  url ← cget "webhook_url" (CStr "") config;
  channel ← cget "channel" CNone config;
  username ← cget "username" (CStr "Marty Certificate Monitor") config;
  timeout ← cget "timeout" (CInt 30) config;
  if negb (cfg_truthy url) then Raise (raise_ ValueError "Slack webhook URL is required")
  else match url with
       | CStr url => Ok {| webhook_url := url; channel := channel; bot_name := username; sl_timeout := timeout |}
       | _ => Raise (raise_ ValueError "Slack webhook URL must be a string")
       end.

Section sending.
Context {W : Type} `{Env W, Mailbox W}.

(** [try: ...; return True except Exception: return False] *)
Definition succeeds (m : M W unit) : M W bool := try_except (_ ← m; mret true) (fun _ => mret false).

Definition build_email (n : EmailNotifier) (subject message level : string) : result email :=
  s ← header "Subject" ("[" +:+ level +:+ "] " +:+ subject);
  f ← header "From" (sender_email n);
  addresses ← join_addresses (recipients n);
  t ← header "To" addresses;
  l ← header "X-Marty-Notification-Level" level;
  c ← header "X-Marty-Component" "certificate-lifecycle-monitor";
  Ok {| email_headers := [s; f; t; l; c]; email_content := message |}.

(** The session between connecting and quitting. *)
Definition mail_session (n : EmailNotifier) (msg : email) : M W unit :=
  _ ← (if cfg_truthy (use_tls n) then starttls else mret tt);
  _ ← (if cfg_truthy (username n) && cfg_truthy (password n) then login (username n) (password n) else mret tt);
  send_message msg.

Definition EmailNotifier_send (n : EmailNotifier) (subject message level : string) : M W bool := succeeds (
  msg ← lift (build_email n subject message level);
  _ ← connect (smtp_server n) (smtp_port n);
  try_finally (mail_session n msg) quit).

Definition utc_now : M W string := fun w => let '(t, w) := datetime_now w in (Ok (isoformat_utc t), w).

(** [{"Content-Type": ..., "User-Agent": ..., **headers}] *)
Definition with_headers (headers : cfg) : result (pydict cfg) :=
  match headers with
  | CDict d => Ok (foldl (fun acc kv => dset (fst kv) (snd kv) acc)
      [("Content-Type", CStr "application/json"); ("User-Agent", CStr "Marty/1.0 (Certificate Lifecycle Monitor)")] d)
  | _ => Raise (raise_ TypeError "argument is not a mapping")
  end.

Definition WebhookNotifier_send (n : WebhookNotifier) (subject message level : string) : M W bool := succeeds (
  now ← utc_now;
  headers ← lift (with_headers (wh_headers n));
  post (wh_timeout n) (url n)
    [("subject", CStr subject); ("message", CStr message); ("level", CStr level); ("timestamp", CStr now);
     ("component", CStr "certificate-lifecycle-monitor")] headers).

Definition emoji_for (level : string) : string :=
  if String.eqb level "WARNING" then ":warning:" else if String.eqb level "ERROR" then ":rotating_light:" else ":information_source:".

Definition slack_payload (n : SlackNotifier) (subject message level : string) : pydict cfg :=
  [("text", CStr (emoji_for level +:+ " *" +:+ subject +:+ "*" +:+ nl +:+ message)); ("username", bot_name n)] ++
  (if cfg_truthy (channel n) then [("channel", channel n)] else []).

Definition SlackNotifier_send (n : SlackNotifier) (subject message level : string) : M W bool := succeeds (
  post (sl_timeout n) (webhook_url n) (slack_payload n subject message level) []).

(** ** The manager *)

Inductive sink := Email (n : EmailNotifier) | Webhook (n : WebhookNotifier) | Slack (n : SlackNotifier).

Definition class_name (s : sink) : string :=
  match s with Email _ => "EmailNotifier" | Webhook _ => "WebhookNotifier" | Slack _ => "SlackNotifier" end.

Definition send (s : sink) : string -> string -> string -> M W bool :=
  match s with Email n => EmailNotifier_send n | Webhook n => WebhookNotifier_send n | Slack n => SlackNotifier_send n end.

(** The sinks from place [i] on. *)
Fixpoint notify_from (i : Z) (sinks : list sink) (results : pydict bool) (subject message level : string) : M W (pydict bool) :=
  match sinks with
  | [] => mret results
  | s :: sinks =>
      success ← try_except (send s subject message level) (fun _ => mret false);
      notify_from (i + 1) sinks (dset (class_name s +:+ "_" +:+ z_str i) success results) subject message level
  end.

Definition notify (sinks : list sink) (subject message level : string) : M W (pydict bool) :=
  notify_from 0 sinks [] subject message level.

Definition expiry_level (days_remaining : Z) : string :=
  if days_remaining <=? 1 then "ERROR" else if days_remaining <=? 7 then "WARNING" else "INFO".

Definition notify_certificate_expiry (sinks : list sink) (certificate_id subject_name : string) (days_remaining : Z) (expiry_date : string) : M W (pydict bool) :=
  notify sinks ("Certificate Expiring in " +:+ z_str days_remaining +:+ " day" +:+ (if days_remaining =? 1 then "" else "s"))
    ("Certificate ID: " +:+ certificate_id +:+ nl +:+ "Subject: " +:+ subject_name +:+ nl +:+ "Expires: " +:+ expiry_date +:+ nl +:+
     "Days remaining: " +:+ z_str days_remaining) (expiry_level days_remaining).

Definition notify_certificate_renewal (sinks : list sink) (old_certificate_id new_certificate_id subject_name : string) : M W (pydict bool) :=
  notify sinks "Certificate Renewed Successfully"
    ("Old Certificate ID: " +:+ old_certificate_id +:+ nl +:+ "New Certificate ID: " +:+ new_certificate_id +:+ nl +:+
     "Subject: " +:+ subject_name +:+ nl +:+ "Renewal completed successfully") "INFO".

Definition notify_certificate_revocation (sinks : list sink) (certificate_id subject_name revocation_date reason : string) : M W (pydict bool) :=
  notify sinks "Certificate Revoked"
    ("Certificate ID: " +:+ certificate_id +:+ nl +:+ "Subject: " +:+ subject_name +:+ nl +:+ "Revoked: " +:+ revocation_date +:+ nl +:+
     "Reason: " +:+ reason) "WARNING".
End sending.

(** A sink whose section is enabled; one that cannot be made is left out. *)
Definition section_sink {A} (make : cfg -> result A) (wrap : A -> sink) (section : string) (config : cfg) : result (list sink) :=
  settings ← cget section (CDict []) config;
  enabled ← cget "enabled" (CBool false) settings;
  if cfg_truthy enabled then
    match make settings with
    | Ok s => Ok [wrap s]
    | Raise e => if catchable e then Ok [] else Raise e
    end
  else Ok [].

Definition create_notification_manager `{BracketedHosts} (config : cfg) : result (list sink) :=
  e ← section_sink make_EmailNotifier Email "email" config;
  w ← section_sink make_WebhookNotifier Webhook "webhook" config;
  s ← section_sink make_SlackNotifier Slack "slack" config;
  Ok (e ++ w ++ s).

(** ** Every sink is tried *)

Definition sink_name (i : Z) (s : sink) : string := class_name s +:+ "_" +:+ z_str i.

Fixpoint sink_names (i : Z) (sinks : list sink) : list string :=
  match sinks with [] => [] | s :: sinks => sink_name i s :: sink_names (i + 1) sinks end.

Lemma partition_name a b : free_of underscore a -> partition_on underscore (a +:+ "_" +:+ b) = (a, b).
Proof.
  induction a as [|c a IH]; [done|]. intros [Hc Ha]. rewrite append_cons. cbn [partition_on].
  destruct (Ascii.eqb_spec c underscore) as [->|_]; [done|]. by rewrite IH.
Qed.

#[local] Instance z_str_injective : Inj (=) (=) z_str.
Proof. unfold z_str. apply _. Qed.

Lemma class_name_free s : free_of underscore (class_name s).
Proof. by destruct s; vm_compute. Qed.

Lemma sink_name_inj i j s t : sink_name i s = sink_name j t -> i = j.
Proof.
  intros Hn. apply (f_equal (partition_on underscore)) in Hn. unfold sink_name in Hn.
  rewrite !partition_name in Hn by apply class_name_free. injection Hn as _ Hz. exact (inj z_str _ _ Hz).
Qed.

Section tried.
Context {W : Type} `{Env W, Mailbox W}.

(** One after the other the sinks are asked to send, each in the world the last one
    left, and report what became of it. *)
Inductive tried (subject message level : string) : list sink -> W -> list bool -> W -> Prop :=
| tried_none w : tried subject message level [] w [] w
| tried_next s sinks w b w1 bs w' : send s subject message level w = (Ok b, w1) -> tried subject message level sinks w1 bs w' ->
    tried subject message level (s :: sinks) w (b :: bs) w'.

(** A sink answers, unless it is interrupted. *)
Lemma succeeds_answers (m : M W unit) w : match succeeds m w with (Ok _, _) => True | (Raise e, _) => catchable e = false end.
Proof. unfold succeeds, try_except, mbind, M_bind. destruct (m w) as [[[]|e] w']; [done|]. by destruct (catchable e) eqn:He. Qed.

Lemma send_answers s subject message level (w : W) :
  match send s subject message level w with (Ok _, _) => True | (Raise e, _) => catchable e = false end.
Proof. destruct s; apply succeeds_answers. Qed.

Lemma notify_from_tried subject message level sinks : forall i results (w : W),
  (forall k, In k (dkeys results) -> exists j s, k = sink_name j s /\ j < i) ->
  match notify_from i sinks results subject message level w with
  | (Ok r, w') => exists bs, r = results ++ zip (sink_names i sinks) bs /\ tried subject message level sinks w bs w'
  | (Raise e, _) => catchable e = false
  end.
Proof.
  induction sinks as [|s sinks IH]; intros i results w Hk; simpl.
  { exists []. rewrite app_nil_r. by split; [|constructor]. }
  pose proof (send_answers s subject message level w) as Hs. unfold mbind, M_bind, try_except.
  destruct (send s subject message level w) as [[b|e] w1] eqn:Hw; [|by rewrite Hs]. fold (sink_name i s).
  assert (dget (sink_name i s) results = None) as Hf.
  { apply dget_None_In. intros (j & t & Hn & Hj)%Hk. apply sink_name_inj in Hn. lia. }
  rewrite (dset_lookup_length _ _ _ Hf).
  specialize (IH (i + 1) (results ++ [(sink_name i s, b)]) w1). destruct (notify_from _ _ _ _ _ _ w1) as [[r|e] w'].
  - destruct IH as (bs & -> & Ht).
    + intros k. unfold dkeys. rewrite map_app, in_app_iff. intros [(j & t & -> & Hj)%Hk|[<-|[]]]; [exists j, t|exists i, s]; split; [done|lia|done|lia].
    + exists (b :: bs). rewrite <- app_assoc. by split; [|econstructor].
  - apply IH. intros k. unfold dkeys. rewrite map_app, in_app_iff. intros [(j & t & -> & Hj)%Hk|[<-|[]]]; [exists j, t|exists i, s]; split; [done|lia|done|lia].
Qed.

Lemma tried_length subject message level sinks w bs w' : tried subject message level sinks w bs w' -> length bs = length sinks.
Proof. induction 1; simpl; lia. Qed.

Lemma sink_names_length sinks : forall i, length (sink_names i sinks) = length sinks.
Proof. induction sinks; intros i; simpl; [done|by rewrite IHsinks]. Qed.

Lemma sink_names_later s sinks i : forall j, i < j -> ~ In (sink_name i s) (sink_names j sinks).
Proof.
  induction sinks as [|t sinks IH]; intros j Hj; simpl; [intros []|]. intros [Hn|Hn]; [apply sink_name_inj in Hn; lia|].
  apply (IH (j + 1)); [lia|done].
Qed.

Lemma sink_names_distinct sinks : forall i, NoDup (sink_names i sinks).
Proof.
  induction sinks as [|s sinks IH]; intros i; simpl; [constructor|]. apply NoDup_cons. split; [|done].
  rewrite list_elem_of_In. apply sink_names_later. lia.
Qed.

(** C40: Whatever fails, every sink is tried once, in order, and has its own entry in the
    results; only an interruption ends the notification. *)
Theorem notify_reaches_all sinks subject message level (w : W) :
  match notify sinks subject message level w with
  | (Ok results, w') => dkeys results = sink_names 0 sinks /\ NoDup (dkeys results) /\
      tried subject message level sinks w (dvalues results) w'
  | (Raise e, _) => catchable e = false
  end.
Proof.
  pose proof (notify_from_tried subject message level sinks 0 [] w) as Hn. unfold notify.
  destruct (notify_from _ _ _ _ _ _ w) as [[r|e] w']; [|by apply Hn].
  destruct Hn as (bs & -> & Ht); [done|]. simpl. unfold dkeys, dvalues.
  pose proof (tried_length _ _ _ _ _ _ _ Ht) as Hl. pose proof (sink_names_length sinks 0) as Hl'.
  rewrite fst_zip, snd_zip by lia. split; [done|]. split; [apply sink_names_distinct|done].
Qed.
End tried.

(** ** What is sent *)

(** Nothing that is given for a subject or a level adds a header. *)
Theorem headers_are_lines n subject message level msg :
  build_email n subject message level = Ok msg ->
  map fst (email_headers msg) = ["Subject"; "From"; "To"; "X-Marty-Notification-Level"; "X-Marty-Component"] /\
  Forall (fun h => several_lines (snd h) = false) (email_headers msg).
Proof.
  unfold build_email. assert (forall k v h, header k v = Ok h -> fst h = k /\ several_lines (snd h) = false) as Hh.
  { unfold header. intros k v h. destruct (several_lines v) eqn:Hv; [done|]. by intros [= <-]. }
  destruct (header "Subject" _) as [s|] eqn:Hs; [|done]. destruct (header "From" _) as [f|] eqn:Hf; [|done].
  destruct (join_addresses _) as [a|]; [|done]. simpl. destruct (header "To" a) as [t|] eqn:Ht; [|done].
  destruct (header _ level) as [l|] eqn:Hl; [|done]. intros Heq. injection Heq as <-. cbn [email_headers map fst].
  apply Hh in Hs as [-> ?], Hf as [-> ?], Ht as [-> ?], Hl as [-> ?]. split; [done|]. by repeat constructor.
Qed.

Module Demo.
(** Posts are counted and fail for one address; the mail server accepts everything. *)
#[export] Instance demo_env : Env Z := { uuid4 w := ("", w); datetime_now w := (w, w) }.
#[export] Instance demo_mail : Mailbox Z := {
  connect _ _ := mret tt; starttls := mret tt; login _ _ := mret tt; send_message _ := mret tt; quit := mret tt;
  post _ url _ _ := fun w => if String.eqb url "https://down.example" then (Raise (raise_ ConnectionError url), w + 1) else (Ok tt, w + 1) }.
#[export] Instance demo_hosts : BracketedHosts := { bracketed_host_ok _ := false }.

Definition settings : cfg := CDict [
  ("email", CDict [("enabled", CBool true); ("recipients", CStr "ops@marty.example"); ("smtp_server", CStr "mail"); ("sender_email", CStr "m@marty.example")]);
  ("webhook", CDict [("enabled", CBool true); ("url", CStr "https://down.example")]);
  ("slack", CDict [("enabled", CBool true); ("webhook_url", CStr "hooks.slack.example")])].

Definition results (m : result (list sink)) : result (pydict bool) * Z :=
  match m with Ok sinks => notify_certificate_expiry sinks "C1" "CN=x" 1 "2026-01-01" 0 | Raise e => (Raise e, 0) end.

(** One failed sink does not keep the others from sending. *)
Lemma failing_webhook : results (create_notification_manager settings) =
  (Ok [("EmailNotifier_0", true); ("WebhookNotifier_1", false); ("SlackNotifier_2", true)], 2).
Proof. by vm_compute. Qed.

(** A single recipient that is no list is taken for a list of characters. *)
Lemma single_recipient_spelled : join_addresses (CStr "ops") = Ok "o, p, s".
Proof. by vm_compute. Qed.

(** A line break in a subject keeps the message from being sent. *)
Definition mailer : EmailNotifier := {| recipients := CList [CStr "ops@marty.example"]; smtp_server := "mail"; smtp_port := CInt 25;
  sender_email := "m@marty.example"; use_tls := CBool false; username := CNone; password := CNone |}.

Lemma broken_subject_not_sent : fst (EmailNotifier_send mailer ("a" +:+ nl +:+ "Bcc: x") "" "INFO" 0) = Ok false.
Proof. by vm_compute. Qed.

Lemma headers_are_lines_witness :
  exists msg, build_email mailer "Certificate Revoked" "" "WARNING" = Ok msg /\ Forall (fun h => several_lines (snd h) = false) (email_headers msg).
Proof. eexists. split; [reflexivity|]. by apply (headers_are_lines mailer "Certificate Revoked" "" "WARNING"). Defined.

(** Without brackets that belong together there is no address. *)
Lemma address_parts : urlsplit "HTTPS://hooks.example:443/x?y" = Ok ("https", "hooks.example:443") /\ is_ok (urlsplit "http://[::1") = false /\
  urlsplit "hooks.slack.example" = Ok ("", "").
Proof. by vm_compute. Qed.
End Demo.
