(* ===== verification/KeyVault.v ===== *)
(** * The key vault ([infrastructure/key_vault.py])

    The client of a managed vault that creates keys, signs and gives public keys, its
    authentication, and the choice of the provider. The hvac library, the environment
    and the files are parameters; private keys are never held. *)

From S2P Require Import Prelude PyRuntime PyText PyBytes PyInt Dataclass.
Local Open Scope Z_scope.

Definition KeyVaultOperationError_cls : pyclass := subclass "KeyVaultOperationError" RuntimeError.
Definition NotImplementedError : pyclass := subclass "NotImplementedError" RuntimeError.
Definition VaultError : pyclass := subclass "VaultError" Exception_.

Definition retired : exn := raise_ KeyVaultOperationError_cls "File-backed private-key custody is retired; use an explicit managed provider".

(** ** Configuration *)

(** The fields are whatever the dictionary holds. *)
Record KeyVaultConfig := {
  provider : json; file_path : json; hsm_config_path : json; vault_addr : json;
  vault_auth_method : json; vault_role : json; vault_mount_point : json }.

Definition KeyVaultConfig_from_dict (raw : json) : result KeyVaultConfig :=
  p ← get_or "provider" (JStr "") raw;
  f ← get_item "file_path" raw;
  h ← get_item "hsm_config_path" raw;
  a ← get_item "vault_addr" raw;
  m ← get_or "vault_auth_method" (JStr "token") raw;
  r ← get_item "vault_role" raw;
  mp ← get_or "vault_mount_point" (JStr "transit") raw;
  Ok {| provider := p; file_path := f; hsm_config_path := h; vault_addr := a; vault_auth_method := m;
        vault_role := r; vault_mount_point := mp |}.

(** [FileKeyVaultClient(base_path)] *)
Definition FileKeyVaultClient (base_path : string) : result unit := Raise retired.

(** ** The client of the vault *)

(** The environment, files, and the session of the hvac client. *)
Class VaultHost (W : Type) := {
  getenv : string -> W -> option string;
  read_text : string -> M W string;
  set_token : json -> W -> W;
  is_authenticated : M W bool;
  kubernetes_login : json -> string -> M W json }.

(** The operations of the transit engine, each with its mount point. *)
Record Transit (W : Type) := {
  read_key : string -> json -> M W json;
  create_key : string -> string -> json -> M W unit;
  sign_data : string -> string -> json -> M W json }.
Arguments read_key {_} _ _ _ _.
Arguments create_key {_} _ _ _ _ _.
Arguments sign_data {_} _ _ _ _ _.

Record HashiCorpKeyVaultClient := {
  addr : json; auth_method : json; mount_point : json; role : json }.

(** [a or b] *)
Definition value_or (a b : json) : json := if json_truthy a then a else b.

Definition JWT_PATH : string := "/var/run/secrets/kubernetes.io/serviceaccount/token".

Section client.
Context {W : Type} `{VaultHost W} (self : HashiCorpKeyVaultClient).

(** Methods run over [_authenticated] and the host. *)
Definition S_ : Type := bool * W.
Definition outer {A} (m : M W A) : M S_ A := fun s => let '(r, w) := m (snd s) in (r, (fst s, w)).
Definition set_authenticated : M S_ unit := modify (fun s => (true, snd s)).

Definition log_in_with_token : M W unit :=
  token ← gets (getenv "VAULT_TOKEN");
  if str_truthy token then modify (set_token (JStr (default "" token)))
  else raise (raise_ ValueError "VAULT_TOKEN environment variable not set").

Definition log_in_to_kubernetes : M W unit :=
  env_role ← gets (getenv "VAULT_ROLE");
  let role := value_or (role self) (jopt env_role) in
  if negb (json_truthy role) then raise (raise_ ValueError "VAULT_ROLE not provided for Kubernetes auth") else
  jwt ← read_text JWT_PATH;
  response ← kubernetes_login role (strip jwt);
  token ← lift (auth ← item "auth" response; item "client_token" auth);
  modify (set_token token).

Definition _ensure_authenticated : M S_ unit :=
  known ← gets fst;
  still ← (if (known : bool) then outer is_authenticated else mret false);
  if (still : bool) then mret tt else
  env_method ← gets (fun s => getenv "VAULT_AUTH_METHOD" (snd s));
  let method := value_or (auth_method self) (JStr (default "token" env_method)) in
  _ ← (if jeq_str method "token" then outer log_in_with_token
       else if jeq_str method "kubernetes" then outer log_in_to_kubernetes
       else raise (raise_ ValueError ("Unsupported VAULT_AUTH_METHOD: " +:+ py_str method)));
  valid ← outer is_authenticated;
  if (valid : bool) then set_authenticated
  else raise (raise_ RuntimeError ("Vault authentication failed with method: " +:+ py_str method)).

Definition key_type_map : pydict string := [
  ("rsa", "rsa-2048"); ("rsa2048", "rsa-2048"); ("rsa4096", "rsa-4096"); ("ecdsa", "ecdsa-p256");
  ("ecdsa-p256", "ecdsa-p256"); ("ecdsa-p384", "ecdsa-p384"); ("ed25519", "ed25519"); ("eddsa", "ed25519")].

Definition vault_key_type (algorithm : string) : string := default "ecdsa-p256" (dget (str_lower algorithm) key_type_map).

Definition find_or_create (t : Transit W) (key_id algorithm : string) : M W unit :=
  try_class VaultError (_ ← read_key t key_id (mount_point self); mret tt)
    (fun _ => create_key t key_id (vault_key_type algorithm) (mount_point self)).

Definition ensure_key (t : Transit W) (key_id algorithm : string) : M S_ unit :=
  _ ← _ensure_authenticated; outer (find_or_create t key_id algorithm).

(** The text after the last colon is the signature. *)
Definition read_signature (response : json) : result bytes :=
  data ← item "data" response;
  signature ← item "signature" data;
  match signature with
  | JStr s => b64decode (List.last (split_on ":" s) "")
  | _ => Raise (raise_ (subclass "AttributeError" Exception_) "split")
  end.

Definition sign (t : Transit W) (key_id : string) (payload : bytes) (algorithm : string) : M S_ bytes :=
  _ ← _ensure_authenticated;
  response ← outer (sign_data t key_id (b64encode payload) (mount_point self));
  lift (read_signature response).

Definition read_public_key (response : json) : result bytes :=
  data ← item "data" response;
  keys ← item "keys" data;
  latest ← item "latest_version" data;
  key ← item (py_str latest) keys;
  public_key_pem ← item "public_key" key;
  match public_key_pem with
  | JStr pem => Ok (utf8 pem)
  | _ => Raise (raise_ (subclass "AttributeError" Exception_) "encode")
  end.

Definition public_material (t : Transit W) (key_id : string) : M S_ bytes :=
  _ ← _ensure_authenticated;
  response ← outer (read_key t key_id (mount_point self));
  lift (read_public_key response).

Definition store_private_key (key_id : string) (pem : bytes) : M S_ unit :=
  raise (raise_ NotImplementedError "Vault Transit does not support importing private keys. Use ensure_key() to create keys in Vault.").
Definition load_private_key (key_id : string) : M S_ bytes :=
  raise (raise_ NotImplementedError "Vault Transit private keys cannot be exported. Use sign() for signing operations.").
End client.

(** [build_key_vault_client(config)]: the new client is not authenticated yet. *)
Definition build_key_vault_client (environment : string -> option string) (config : KeyVaultConfig) : result HashiCorpKeyVaultClient :=
  match provider config with
  | JStr p =>
      if String.eqb (strip p) "" then Raise (raise_ ValueError "An explicit managed key-vault provider is required") else
      let name := str_lower (strip p) in
      if String.eqb name "file" then Raise retired
      else if mem name ["hashicorp"; "vault"] then
        let a := value_or (vault_addr config) (jopt (environment "VAULT_ADDR")) in
        if json_truthy a then
          Ok {| addr := a; auth_method := vault_auth_method config; mount_point := vault_mount_point config; role := vault_role config |}
        else Raise (raise_ ValueError "vault_addr or VAULT_ADDR environment variable required for HashiCorp provider")
      else Raise (raise_ NotImplementedError ("Provider " +:+ p +:+ " is not implemented yet"))
  | _ => Raise (raise_ ValueError "An explicit managed key-vault provider is required")
  end.

(** ** No operation without authentication *)

Section mediation.
Context {W : Type} `{VaultHost W} (self : HashiCorpKeyVaultClient).

(** The states in which the vault has just been found to accept the client, or in
    which a key was looked for since. *)
Inductive Live (t : Transit W) : W -> Prop :=
| live_checked w0 w : is_authenticated w0 = (Ok true, w) -> Live t w
| live_missing w key_id m e w' : Live t w -> read_key t key_id m w = (Raise e, w') -> Live t w'.

Lemma outer_ok {A} (m : M W A) (s : S_ (W:=W)) a s' : outer m s = (Ok a, s') -> m (snd s) = (Ok a, snd s') /\ fst s' = fst s.
Proof. unfold outer. destruct s as [f w0], s' as [f' w']. simpl. destruct (m w0) as [r w]. by intros [= -> <- <-]. Qed.

Lemma ensured_live t s s' : _ensure_authenticated self s = (Ok tt, s') -> fst s' = true /\ Live t (snd s').
Proof.
  unfold _ensure_authenticated. intros Hm. apply bind_inv_ok in Hm as (known & s1 & [= <- <-] & Hm).
  apply bind_inv_ok in Hm as (still & s2 & Hs & Hm). destruct still.
  - injection Hm as <-. destruct (fst s) eqn:Hk; [|done]. apply outer_ok in Hs as [Hs ->]. split; [done|by econstructor].
  - apply bind_inv_ok in Hm as (env & s3 & _ & Hm). apply bind_inv_ok in Hm as ([] & s4 & _ & Hm).
    apply bind_inv_ok in Hm as (valid & s5 & Hv & Hm). destruct valid; [|done]. injection Hm as <-.
    apply outer_ok in Hv as [Hv _]. split; [done|]. by econstructor.
Qed.

Lemma bind_agree {A} (m1 m2 : M W A) (s : S_ (W:=W)) t : (forall w, Live t w -> m1 w = m2 w) ->
  (_ ← _ensure_authenticated self; outer m1) s = (_ ← _ensure_authenticated self; outer m2) s.
Proof.
  intros Hag. unfold mbind, M_bind. destruct (_ensure_authenticated self s) as [[[]|e] s'] eqn:He; [|done].
  apply (ensured_live t) in He as [_ Hl]. unfold outer. by rewrite (Hag _ Hl).
Qed.

(** C33: The transit engine is asked only in states in which the vault accepts the client:
    engines that agree in these states make all operations equal, whatever they would
    answer in others. *)
Theorem vault_mediation t1 t2 s :
  (forall w, Live t1 w -> (forall k m, read_key t1 k m w = read_key t2 k m w) /\
    (forall k y m, create_key t1 k y m w = create_key t2 k y m w) /\ (forall k p m, sign_data t1 k p m w = sign_data t2 k p m w)) ->
  (forall k alg, ensure_key self t1 k alg s = ensure_key self t2 k alg s) /\
  (forall k p alg, sign self t1 k p alg s = sign self t2 k p alg s) /\
  (forall k, public_material self t1 k s = public_material self t2 k s).
Proof.
  intros Hag. split_and!; intros.
  - unfold ensure_key. apply (bind_agree _ _ _ t1). intros w Hl. unfold find_or_create, try_class, mbind, M_bind.
    destruct (Hag w Hl) as (Hr & _). rewrite <- Hr. destruct (read_key t1 k (mount_point self) w) as [[j|e] w'] eqn:Hk; [done|].
    destruct (isinstance e VaultError); [|done]. destruct (Hag w') as (_ & Hc & _); [by eapply live_missing|]. apply Hc.
  - unfold sign. rewrite <- !bind_assoc. unfold mbind at 1 3, M_bind at 1 3.
    rewrite (bind_agree _ (sign_data t2 k (b64encode p) (mount_point self)) s t1); [done|]. intros w Hl. by apply Hag.
  - unfold public_material. rewrite <- !bind_assoc. unfold mbind at 1 3, M_bind at 1 3.
    rewrite (bind_agree _ (read_key t2 k (mount_point self)) s t1); [done|]. intros w Hl. by apply Hag.
Qed.

(** ** Signatures *)

Lemma b64_char_not_colon n : 0 <= n < 64 -> b64_char n <> ":"%char.
Proof.
  intros Hn. apply (sextet_forall (fun n => negb (Ascii.eqb (b64_char n) ":"))) in Hn; [|by vm_compute].
  apply negb_true_iff in Hn. by apply Ascii.eqb_neq.
Qed.

Lemma b64_free_of_colon bs : free_of ":" (b64encode bs).
Proof.
  induction bs as [|a|a b|a b c bs IH] using list_ind3; [done|..]; cbn [b64encode free_of].
  all: repeat split; try done; apply b64_char_not_colon; byte_bounds.
Qed.

Lemma last_part t s : free_of ":" s -> List.last (split_on ":" (t +:+ ":" +:+ s)) "" = s.
Proof. intros Hs. rewrite split_on_app, (split_free ":" s Hs). apply last_last. Qed.

(** The vault is sent the payload in Base64, which gives it back, and the signature
    that is returned is the one whose Base64 text follows the last colon of the vault's
    answer, whatever prefix the vault puts before it. *)
Theorem signature_read (t : Transit W) key_id payload algorithm s s1 w2 prefix signature :
  _ensure_authenticated self s = (Ok tt, s1) ->
  sign_data t key_id (b64encode payload) (mount_point self) (snd s1) =
    (Ok (JDict [("data", JDict [("signature", JStr (prefix +:+ ":" +:+ b64encode signature))])]), w2) ->
  sign self t key_id payload algorithm s = (Ok signature, (true, w2)) /\ b64decode (b64encode payload) = Ok payload.
Proof.
  intros He Hs. split; [|apply b64decode_encode]. destruct (ensured_live t _ _ He) as [Hf _].
  unfold sign, outer, mbind, M_bind. rewrite He. cbn beta iota. rewrite Hs, Hf. unfold lift, read_signature. simpl.
  unfold mbind, result_bind. change (String ":" (b64encode signature)) with (":" +:+ b64encode signature).
  rewrite last_part by apply b64_free_of_colon. by rewrite b64decode_encode.
Qed.
End mediation.

(** ** Keys that are ensured *)

(** What is relied on of the engine: it knows the type of each key, reading changes
    none of them and fails for a key that is not there, and creating makes a key of the
    type unless there is one already. *)
Class TransitLaws {W} (t : Transit W) := {
  key_type : string -> W -> option string;
  read_found k m w j w' : read_key t k m w = (Ok j, w') -> is_Some (key_type k w);
  read_keeps k m w r w' k' : read_key t k m w = (r, w') -> key_type k' w' = key_type k' w;
  create_makes k y m w w' : create_key t k y m w = (Ok tt, w') -> key_type k w' = Some (default y (key_type k w));
  create_keeps k y m w r w' k' : create_key t k y m w = (r, w') -> k' <> k -> key_type k' w' = key_type k' w }.

(** When a key has been ensured it is there, with the type it had, or else with that of
    the algorithm; other keys stay as they are, also when it fails. *)
Theorem ensured_key {W} `{VaultHost W} self (t : Transit W) `{!TransitLaws t} k algorithm s s1 r s2 :
  _ensure_authenticated self s = (Ok tt, s1) -> ensure_key self t k algorithm s = (r, s2) ->
  (r = Ok tt -> key_type k (snd s2) = Some (default (vault_key_type algorithm) (key_type k (snd s1)))) /\
  (forall k', k' <> k -> key_type k' (snd s2) = key_type k' (snd s1)).
Proof.
  intros He. unfold ensure_key, outer, find_or_create, try_class, mbind, M_bind. rewrite He.
  destruct (read_key t k (mount_point self) (snd s1)) as [[j|e] w1] eqn:Hr.
  - intros [= <- <-]. simpl. split.
    + intros _. rewrite (read_keeps _ _ _ _ _ _ Hr). by destruct (read_found _ _ _ _ _ Hr) as [y ->].
    + intros k' _. by rewrite (read_keeps _ _ _ _ _ _ Hr).
  - destruct (isinstance e VaultError).
    + destruct (create_key t k _ (mount_point self) w1) as [r' w2] eqn:Hc. intros [= <- <-]. simpl. split.
      * intros ->. rewrite (create_makes _ _ _ _ _ Hc). by rewrite (read_keeps _ _ _ _ _ _ Hr).
      * intros k' Hk'. by rewrite (create_keeps _ _ _ _ _ _ _ Hc Hk'), (read_keeps _ _ _ _ _ _ Hr).
    + intros [= <- <-]. simpl. split; [done|]. intros k' _. by rewrite (read_keeps _ _ _ _ _ _ Hr).
Qed.

Module Demo.
(** A vault that accepts one token. *)
Record world := { token : json; keys : pydict string }.

Definition forbidden : exn := raise_ VaultError "permission denied".

#[export] Instance demo_host : VaultHost world := {
  getenv k _ := if String.eqb k "VAULT_TOKEN" then Some "s.1" else if String.eqb k "VAULT_AUTH_METHOD" then Some "kubernetes" else None;
  read_text _ := mret "jwt"; set_token t w := {| token := t; keys := keys w |};
  is_authenticated w := (Ok (jeq_str (token w) "s.1"), w);
  kubernetes_login _ _ := raise forbidden }.

(** [checked] is whether the engine asks for the token. *)
Definition engine (checked : bool) : Transit world :=
  let guard {A} (m : M world A) : M world A := fun w => if checked && negb (jeq_str (token w) "s.1") then (Raise forbidden, w) else m w in {|
  read_key k _ := guard (fun w => match dget k (keys w) with
                                  | Some y => (Ok (JDict [("data", JDict [("type", JStr y)])]), w)
                                  | None => (Raise (raise_ VaultError "no such key"), w) end);
  create_key k y _ := guard (fun w => (Ok tt, if din k (keys w) then w else {| token := token w; keys := dset k y (keys w) |}));
  sign_data k p _ := guard (fun w => (Ok (JDict [("data", JDict [("signature", JStr ("vault:v1:" +:+ b64encode (utf8 p)))])]), w)) |}.

Definition me : HashiCorpKeyVaultClient := {| addr := JStr "http://vault"; auth_method := JStr "token"; mount_point := JStr "transit"; role := JNull |}.
Definition start : bool * world := (false, {| token := JNull; keys := [] |}).

Lemma live_has_token w : Live (engine true) w -> jeq_str (token w) "s.1" = true.
Proof.
  induction 1 as [w0 w Hc|w k m e w' Hl IH Hr]; [by injection Hc as Ht <-|]. simpl in Hr. rewrite IH in Hr. simpl in Hr.
  destruct (dget k (keys w)); simplify_eq. done.
Qed.

(** Nothing changes for the client when the engine stops asking. *)
Lemma vault_mediation_witness :
  ensure_key me (engine true) "k" "RSA4096" start = ensure_key me (engine false) "k" "RSA4096" start.
Proof.
  apply (vault_mediation me (engine true) (engine false) start). intros w Hl. apply live_has_token in Hl. simpl. rewrite Hl. simpl.
  split; [|split]; intros; reflexivity.
Defined.

Lemma signature_read_witness :
  sign me (engine true) "k" [Byte.x61] "rsa" start = (Ok (utf8 "YQ=="), (true, {| token := JStr "s.1"; keys := [] |})) /\
  b64decode (b64encode [Byte.x61]) = Ok [Byte.x61].
Proof.
  apply (signature_read me (engine true) "k" [Byte.x61] "rsa" start (true, {| token := JStr "s.1"; keys := [] |})
    {| token := JStr "s.1"; keys := [] |} "vault:v1" (utf8 "YQ==")); reflexivity.
Defined.

#[export] Instance engine_laws c : TransitLaws (engine c).
Proof.
  refine {| key_type k w := dget k (keys w) |}; intros *; simpl; destruct (c && _); try (by intros [= <- <-]); try done.
  - destruct (dget k (keys w)) eqn:Hk; by intros [= <- <-].
  - destruct (dget k (keys w)) eqn:Hk; by intros [= <- <-].
  - intros [= <-]. unfold din. destruct (dget k (keys w)) as [y'|] eqn:Hk; simpl; [done|by rewrite dget_dset_eq].
  - intros [= <- <-] Hne. unfold din. destruct (dget k (keys w)) as [y'|] eqn:Hk; simpl; [done|]. by rewrite dget_dset_ne.
Defined.

Lemma ensured_key_witness : dget "k" (keys (snd (snd (ensure_key me (engine true) "k" "RSA4096" start)))) = Some "rsa-4096".
Proof.
  destruct (ensured_key me (engine true) "k" "RSA4096" start (true, {| token := JStr "s.1"; keys := [] |}) (Ok tt)
    (true, {| token := JStr "s.1"; keys := [("k", "rsa-4096")] |})) as [H _]; [reflexivity|reflexivity|exact (H eq_refl)].
Defined.

(** The environment variable for the method is not read: the default is a token. *)
Lemma method_of_environment_ignored : exists c, KeyVaultConfig_from_dict (JDict [("provider", JStr " Vault "); ("vault_addr", JStr "http://vault")]) = Ok c /\
  (client ← build_key_vault_client (fun k => getenv k (snd start)) c; Ok (fst (_ensure_authenticated client start))) = Ok (Ok tt).
Proof. eexists. split; [reflexivity|by vm_compute]. Qed.

(** An algorithm that is not in the table gets an elliptic curve. *)
Lemma unknown_algorithm : vault_key_type "RSA-3072" = "ecdsa-p256".
Proof. by vm_compute. Qed.

Lemma file_custody_refused c : provider c = JStr " File " -> build_key_vault_client (fun _ => None) c = Raise retired.
Proof. unfold build_key_vault_client. by intros ->. Qed.
End Demo.
