(* ===== verification/CircuitBreaker.v ===== *)
(** * The circuit breaker ([resilience/circuit_breaker.py])

    [cb] is the mutable part of a [CircuitBreaker] object, one field per
    attribute. Every method takes the configuration, the value [now] it reads
    from [time.time()], and the state; each is one critical section of the
    breaker's lock. The decorators are sequences of such sections with the
    call of the wrapped function in between. *)

From S2P Require Import Prelude PyRuntime ErrorCodes.
Local Open Scope Z_scope.

Inductive CircuitBreakerState := CLOSED | OPEN | HALF_OPEN.

#[export] Instance CircuitBreakerState_eq_dec : EqDecision CircuitBreakerState.
Proof. solve_decision. Defined.

Definition state_value (s : CircuitBreakerState) : string :=
  match s with CLOSED => "closed" | OPEN => "open" | HALF_OPEN => "half_open" end.

(** [DefaultErrorClassifier.should_trip_circuit] *)
Definition should_trip_circuit (exception : exn) : bool :=
  negb (isinstance_any exception [ValidationError_cls; UnauthorizedError_cls; ValueError]).

Record CircuitBreakerConfig := {
  failure_threshold : Z;
  recovery_timeout : Q;
  half_open_success_threshold : Z;
  failure_reset_timeout : Q;
  max_concurrent_requests : Z;
  error_classifier : exn -> bool;
  enable_metrics : bool }.

Definition default_config : CircuitBreakerConfig := {|
  failure_threshold := 5; recovery_timeout := 30; half_open_success_threshold := 2;
  failure_reset_timeout := 60; max_concurrent_requests := 10;
  error_classifier := should_trip_circuit; enable_metrics := true |}.

Record durations := { dur_closed : Q; dur_open : Q; dur_half_open : Q }.

Record cb := {
  _state : CircuitBreakerState;
  _failure_count : Z;
  _success_count : Z;
  _opened_at : Q;
  _last_failure_at : Q;
  _total_requests : Z;
  _total_failures : Z;
  _total_successes : Z;
  _total_rejected : Z;
  _concurrent_requests : Z;
  _last_state_change : Q;
  _state_durations : durations }.

Definition init (now : Q) : cb := {|
  _state := CLOSED; _failure_count := 0; _success_count := 0; _opened_at := 0;
  _last_failure_at := 0; _total_requests := 0; _total_failures := 0;
  _total_successes := 0; _total_rejected := 0; _concurrent_requests := 0;
  _last_state_change := now;
  _state_durations := {| dur_closed := 0; dur_open := 0; dur_half_open := 0 |} |}.

(** ** Field updates *)

Definition set_counts (f s : Z) (b : cb) : cb := {|
  _state := _state b; _failure_count := f; _success_count := s; _opened_at := _opened_at b;
  _last_failure_at := _last_failure_at b; _total_requests := _total_requests b;
  _total_failures := _total_failures b; _total_successes := _total_successes b;
  _total_rejected := _total_rejected b; _concurrent_requests := _concurrent_requests b;
  _last_state_change := _last_state_change b; _state_durations := _state_durations b |}.

Definition set_opened_at (t : Q) (b : cb) : cb := {|
  _state := _state b; _failure_count := _failure_count b; _success_count := _success_count b;
  _opened_at := t; _last_failure_at := _last_failure_at b; _total_requests := _total_requests b;
  _total_failures := _total_failures b; _total_successes := _total_successes b;
  _total_rejected := _total_rejected b; _concurrent_requests := _concurrent_requests b;
  _last_state_change := _last_state_change b; _state_durations := _state_durations b |}.

Definition set_totals (requests failures successes rejected concurrent : Z) (last_failure : Q)
    (b : cb) : cb := {|
  _state := _state b; _failure_count := _failure_count b; _success_count := _success_count b;
  _opened_at := _opened_at b; _last_failure_at := last_failure; _total_requests := requests;
  _total_failures := failures; _total_successes := successes;
  _total_rejected := rejected; _concurrent_requests := concurrent;
  _last_state_change := _last_state_change b; _state_durations := _state_durations b |}.

Definition reject (b : cb) : cb :=
  set_totals (_total_requests b) (_total_failures b) (_total_successes b)
    (_total_rejected b + 1) (_concurrent_requests b) (_last_failure_at b) b.

(** [self._total_requests += 1; self._concurrent_requests += 1] of the decorators. *)
Definition enter (b : cb) : cb :=
  set_totals (_total_requests b + 1) (_total_failures b) (_total_successes b)
    (_total_rejected b) (_concurrent_requests b + 1) (_last_failure_at b) b.

Definition add_duration (st : CircuitBreakerState) (d : Q) (ds : durations) : durations :=
  match st with
  | CLOSED => {| dur_closed := dur_closed ds + d; dur_open := dur_open ds; dur_half_open := dur_half_open ds |}
  | OPEN => {| dur_closed := dur_closed ds; dur_open := dur_open ds + d; dur_half_open := dur_half_open ds |}
  | HALF_OPEN => {| dur_closed := dur_closed ds; dur_open := dur_open ds; dur_half_open := dur_half_open ds + d |}
  end%Q.

(** ** Methods *)

Section methods.
Context (config : CircuitBreakerConfig).

Definition _can_make_request (b : cb) : bool * cb :=
  if max_concurrent_requests config <=? _concurrent_requests b
  then (false, reject b)
  else (true, b).

Definition _transition_to (new_state : CircuitBreakerState) (now : Q) (b : cb) : cb :=
  if bool_decide (_state b <> new_state) then
    let duration := (now - _last_state_change b)%Q in
    {| _state := new_state; _failure_count := _failure_count b;
       _success_count := _success_count b; _opened_at := _opened_at b;
       _last_failure_at := _last_failure_at b; _total_requests := _total_requests b;
       _total_failures := _total_failures b; _total_successes := _total_successes b;
       _total_rejected := _total_rejected b; _concurrent_requests := _concurrent_requests b;
       _last_state_change := now;
       _state_durations := add_duration (_state b) duration (_state_durations b) |}
  else b.

Definition allow_request (now : Q) (b : cb) : bool * cb :=
  match _state b with
  | OPEN =>
      if Qle_bool (recovery_timeout config) (now - _opened_at b)
      then _can_make_request (set_counts 0 0 (_transition_to HALF_OPEN now b))
      else (false, reject b)
  | HALF_OPEN => _can_make_request b
  | CLOSED =>
      let b :=
        if (0 <? _failure_count b)
           && Qltb (failure_reset_timeout config) (now - _last_failure_at b)
        then set_counts 0 (_success_count b) b else b in
      _can_make_request b
  end.

Definition record_success (now : Q) (b : cb) : cb :=
  let b := set_totals (_total_requests b) (_total_failures b) (_total_successes b + 1)
             (_total_rejected b) (Z.max 0 (_concurrent_requests b - 1)) (_last_failure_at b) b in
  match _state b with
  | HALF_OPEN =>
      let b := set_counts (_failure_count b) (_success_count b + 1) b in
      if half_open_success_threshold config <=? _success_count b
      then set_counts 0 0 (_transition_to CLOSED now b)
      else b
  | _ => b
  end.

Definition record_failure (exception : option exn) (now : Q) (b : cb) : cb :=
  let b := set_totals (_total_requests b) (_total_failures b) (_total_successes b)
             (_total_rejected b) (Z.max 0 (_concurrent_requests b - 1)) (_last_failure_at b) b in
  if match exception with Some e => negb (error_classifier config e) | None => false end
  then b
  else
    let b := set_totals (_total_requests b) (_total_failures b + 1) (_total_successes b)
               (_total_rejected b) (_concurrent_requests b) now b in
    match _state b with
    | HALF_OPEN => set_counts 1 0 (set_opened_at now (_transition_to OPEN now b))
    | CLOSED =>
        let b := set_counts (_failure_count b + 1) (_success_count b) b in
        if failure_threshold config <=? _failure_count b
        then set_opened_at now (_transition_to OPEN now b)
        else b
    | OPEN => b
    end.

Definition reset (now : Q) (b : cb) : cb := {|
  _state := CLOSED; _failure_count := 0; _success_count := 0; _opened_at := 0;
  _last_failure_at := 0; _total_requests := _total_requests b;
  _total_failures := _total_failures b; _total_successes := _total_successes b;
  _total_rejected := _total_rejected b; _concurrent_requests := 0;
  _last_state_change := now; _state_durations := _state_durations b |}.

(** [decorate] and [decorate_async]: the gate, the entry, the call, and the
    recording of its outcome. [t1] is read by the gate, [t2] when the
    outcome is recorded. An exception outside [Exception] (a cancellation)
    is not caught, so nothing is recorded for it. *)
Definition decorate {T} (name : string) (func : result T) (t1 t2 : Q) : M cb T := fun b =>
  let '(allowed, b) := allow_request t1 b in
  if negb allowed then
    (Raise (raise_ RuntimeError ("Circuit '" +:+ name +:+ "' is OPEN")), b)
  else
    let b := enter b in
    match func with
    | Raise exc =>
        if catchable exc then (Raise exc, record_failure (Some exc) t2 b) else (Raise exc, b)
    | Ok r => (Ok r, record_success t2 b)
    end.

Record stats_t := {
  st_state : string; st_failures : Z; st_success_trial : Z; st_opened_at : Q;
  st_last_failure_at : Q; st_total_requests : Z; st_total_successes : Z;
  st_total_failures : Z; st_total_rejected : Z; st_concurrent_requests : Z;
  st_success_rate : Q; st_current_state_duration : Q; st_state_durations : durations }.

Definition stats (now : Q) (b : cb) : stats_t :=
  let total_completed := _total_successes b + _total_failures b in
  {| st_state := state_value (_state b); st_failures := _failure_count b;
     st_success_trial := _success_count b; st_opened_at := _opened_at b;
     st_last_failure_at := _last_failure_at b; st_total_requests := _total_requests b;
     st_total_successes := _total_successes b; st_total_failures := _total_failures b;
     st_total_rejected := _total_rejected b; st_concurrent_requests := _concurrent_requests b;
     st_success_rate := if 0 <? total_completed
       then inject_Z (_total_successes b) / inject_Z total_completed else 0;
     st_current_state_duration := now - _last_state_change b;
     st_state_durations := _state_durations b |}%Q.

Record health_t := {
  hc_healthy : bool; hc_state : string; hc_time_until_recovery : option Q;
  hc_failure_count : Z; hc_success_count : Z; hc_concurrent_requests : Z }.

Definition health_check (now : Q) (b : cb) : health_t :=
  {| hc_healthy := bool_decide (_state b <> OPEN); hc_state := state_value (_state b);
     hc_time_until_recovery := match _state b with
       | OPEN => Some (py_max 0 (recovery_timeout config - (now - _opened_at b)))
       | _ => None end;
     hc_failure_count := _failure_count b; hc_success_count := _success_count b;
     hc_concurrent_requests := _concurrent_requests b |}%Q.
End methods.

(** ** Operation sequences *)

(** One critical section of the lock: the gate, the entry of the decorators,
    the recording of an outcome, a manual reset. *)
Inductive op :=
| Allow
| Enter
| Succ
| Failed (e : option exn)
| Reset.

Section runs.
Context (config : CircuitBreakerConfig).

(** The state after one operation, and the gate's answer. *)
Definition exec (o : op) (now : Q) (b : cb) : option bool * cb :=
  match o with
  | Allow => let '(r, b) := allow_request config now b in (Some r, b)
  | Enter => (None, enter b)
  | Succ => (None, record_success config now b)
  | Failed e => (None, record_failure config e now b)
  | Reset => (None, reset now b)
  end.

Fixpoint run (ops : list (op * Q)) (b : cb) : list (option bool) * cb :=
  match ops with
  | [] => ([], b)
  | (o, now) :: ops =>
      let '(r, b) := exec o now b in
      let '(rs, b) := run ops b in (r :: rs, b)
  end.

(** ** The specification: a three-phase automaton *)

Inductive phase := SClosed (failures : Z) | SOpen (since : Q) | SHalf (successes : Z).

Record spec := Spec { sp_phase : phase; sp_last_failure : Q; sp_in_flight : Z }.

Definition spec_gate (now : Q) (s : spec) : option phase :=
  match sp_phase s with
  | SOpen since =>
      if Qle_bool (recovery_timeout config) (now - since) then Some (SHalf 0) else None
  | SClosed f =>
      Some (if (0 <? f) && Qltb (failure_reset_timeout config) (now - sp_last_failure s)
            then SClosed 0 else SClosed f)
  | SHalf n => Some (SHalf n)
  end.

Definition spec_counts (e : option exn) : bool :=
  match e with Some e => error_classifier config e | None => true end.

Definition spec_step (o : op) (now : Q) (s : spec) : option bool * spec :=
  let n := sp_in_flight s in
  let dec := Z.max 0 (n - 1) in
  match o with
  | Allow =>
      match spec_gate now s with
      | None => (Some false, s)
      | Some p => (Some (negb (max_concurrent_requests config <=? n)), Spec p (sp_last_failure s) n)
      end
  | Enter => (None, Spec (sp_phase s) (sp_last_failure s) (n + 1))
  | Succ =>
      (None, Spec match sp_phase s with
                  | SHalf k => if half_open_success_threshold config <=? k + 1
                               then SClosed 0 else SHalf (k + 1)
                  | p => p
                  end (sp_last_failure s) dec)
  | Failed e =>
      if spec_counts e then
        (None, Spec match sp_phase s with
                    | SHalf _ => SOpen now
                    | SClosed f => if failure_threshold config <=? f + 1
                                   then SOpen now else SClosed (f + 1)
                    | p => p
                    end now dec)
      else (None, Spec (sp_phase s) (sp_last_failure s) dec)
  | Reset => (None, Spec (SClosed 0) 0 0)
  end.

Fixpoint spec_run (ops : list (op * Q)) (s : spec) : list (option bool) * spec :=
  match ops with
  | [] => ([], s)
  | (o, now) :: ops =>
      let '(r, s) := spec_step o now s in
      let '(rs, s) := spec_run ops s in (r :: rs, s)
  end.

Definition abs (b : cb) : spec :=
  Spec match _state b with
       | CLOSED => SClosed (_failure_count b)
       | OPEN => SOpen (_opened_at b)
       | HALF_OPEN => SHalf (_success_count b)
       end (_last_failure_at b) (_concurrent_requests b).

(** ** Shared lemmas *)

Lemma exec_refines o now b :
  fst (exec o now b) = fst (spec_step o now (abs b)) /\
  abs (snd (exec o now b)) = snd (spec_step o now (abs b)).
Proof.
  destruct b as [st f s oa lf tr tf ts tj c ls ds], o as [| | |[e|]|], st;
    unfold abs, exec, spec_step, spec_gate, spec_counts, allow_request, _can_make_request,
      record_success, record_failure, _transition_to; simpl;
    repeat (split_if; simpl); done.
Qed.

Lemma run_app ops1 ops2 b :
  run (ops1 ++ ops2) b =
    let '(r1, b1) := run ops1 b in let '(r2, b2) := run ops2 b1 in (r1 ++ r2, b2).
Proof.
  revert b. induction ops1 as [|[o t] ops1 IH]; intros b; simpl.
  - by destruct (run ops2 b).
  - destruct (exec o t b) as [r b']. rewrite IH.
    destruct (run ops1 b') as [r1 b1]. by destruct (run ops2 b1).
Qed.

(** An invariant preserved by [exec] holds along runs. *)
Lemma run_invariant (I : cb -> Prop) (P : op -> Q -> Prop) ops b :
  (forall o now b, P o now -> I b -> I (snd (exec o now b))) ->
  Forall (fun '(o, now) => P o now) ops -> I b -> I (snd (run ops b)).
Proof.
  intros Hstep. revert b. induction ops as [|[o t] ops IH]; intros b Hall Hb; simpl; [done|].
  apply Forall_cons in Hall as [HP Hall].
  specialize (Hstep o t b HP Hb). destruct (exec o t b) as [r b']; simpl in *.
  specialize (IH b' Hall Hstep). by destruct (run ops b').
Qed.

(** ** Well-formed states *)

Record wf (b : cb) : Prop := {
  wf_failures : 0 <= _failure_count b;
  wf_successes : 0 <= _success_count b;
  wf_in_flight : 0 <= _concurrent_requests b;
  wf_totals : 0 <= _total_requests b /\ 0 <= _total_failures b /\
              0 <= _total_successes b /\ 0 <= _total_rejected b;
  wf_closed : _state b = CLOSED -> _failure_count b < failure_threshold config;
  wf_half : _state b = HALF_OPEN ->
            _failure_count b = 0 /\ _success_count b < half_open_success_threshold config;
  wf_open : _state b = OPEN -> 1 <= _failure_count b }.

Context (Hft : 1 <= failure_threshold config) (Hst : 1 <= half_open_success_threshold config).

Lemma wf_init now : wf (init now).
Proof. split; simpl; intros; try done; lia. Qed.

Lemma exec_wf o now b : wf b -> wf (snd (exec o now b)).
Proof using Hft Hst.
  intros [Hf Hs Hc (Ht1 & Ht2 & Ht3 & Ht4) Hcl Hhf Hop].
  destruct b as [st f s oa lf tr tf ts tj c ls ds], o as [| | |[e|]|], st; simpl in *;
    unfold allow_request, _can_make_request, record_success, record_failure, reject,
      enter, reset, _transition_to; simpl;
    try specialize (Hcl eq_refl); try specialize (Hhf eq_refl); try specialize (Hop eq_refl);
    repeat (split_if; simpl); bool_props; split; simpl; intros; try done; lia.
Qed.

Lemma run_wf ops b : wf b -> wf (snd (run ops b)).
Proof using Hft Hst.
  apply (run_invariant wf (fun _ _ => True)); [auto using exec_wf|].
  apply Forall_forall. by intros [].
Qed.
End runs.

(** ** Correctness of the state machine *)

(** C1: Refinement. Over any sequence of operations, whatever their times, the
    breaker gives the same admission answers as the three-phase automaton
    [spec_run] and ends in the state the automaton ends in: closed with a
    failure count, open since an instant, or half open with a success count,
    together with the last failure time and the number of requests in flight. *)
Theorem run_refines_spec config ops b :
  fst (run config ops b) = fst (spec_run config ops (abs b)) /\
  abs (snd (run config ops b)) = snd (spec_run config ops (abs b)).
Proof.
  revert b. induction ops as [|[o t] ops IH]; intros b; simpl; [done|].
  destruct (exec_refines config o t b) as [Hr Hb].
  destruct (exec config o t b) as [r b'], (spec_step config o t (abs b)) as [r2 s']; simpl in *.
  subst. destruct (IH b') as [Hrs Hb'].
  destruct (run config ops b'), (spec_run config ops (abs b')); simpl in *. by subst.
Qed.

(** Invariant. From a new breaker with positive thresholds, every reachable
    state is well formed: no negative counter, fewer failures than the threshold
    while closed, no failure and fewer successes than the threshold while half
    open, at least one failure while open. *)
Theorem reachable_wf config t0 ops :
  1 <= failure_threshold config -> 1 <= half_open_success_threshold config ->
  wf config (snd (run config ops (init t0))).
Proof. intros. by apply run_wf, wf_init. Qed.

Lemma reachable_wf_witness :
  let b := snd (run default_config [(Failed None, 1%Q); (Allow, 2%Q)] (init 0)) in
  wf default_config b /\ _failure_count b = 1.
Proof. split; [apply (reachable_wf default_config 0); vm_compute; discriminate|reflexivity]. Defined.

(** An operation other than a manual reset, at a time before the recovery
    timeout of the current opening. *)
Definition before_recovery (config : CircuitBreakerConfig) (opened : Q) (o : op) (now : Q) : Prop :=
  o <> Reset /\ (now - opened < recovery_timeout config)%Q.

Lemma exec_open_stays config opened o now b :
  before_recovery config opened o now -> _state b = OPEN -> _opened_at b = opened ->
  let '(r, b') := exec config o now b in
  _state b' = OPEN /\ _opened_at b' = opened /\ r <> Some true /\
  (o = Allow -> _total_rejected b' = _total_rejected b + 1).
Proof.
  intros [Hne Hlt] Hst Ho. destruct b, o; simpl in *; subst; try done.
  - unfold allow_request; simpl. apply Qle_bool_gt in Hlt. by rewrite Hlt.
  - unfold record_failure; simpl. by repeat (split_if; simpl).
Qed.

(** Fail fast. While open, and until the recovery timeout has elapsed, no
    sequence of operations other than a manual reset makes the breaker admit a
    request, leave the open state or change the opening time: late outcomes of
    requests admitted earlier do not prolong or shorten the opening. *)
Theorem open_rejects_until_timeout config opened ops b :
  _state b = OPEN -> _opened_at b = opened ->
  Forall (fun '(o, now) => before_recovery config opened o now) ops ->
  Forall (fun r => r <> Some true) (fst (run config ops b)) /\
  _state (snd (run config ops b)) = OPEN /\ _opened_at (snd (run config ops b)) = opened.
Proof.
  revert b. induction ops as [|[o t] ops IH]; intros b Hst Ho Hall; simpl; [done|].
  apply Forall_cons in Hall as [HP Hall].
  pose proof (exec_open_stays config opened o t b HP Hst Ho) as Hex.
  destruct (exec config o t b) as [r b'], Hex as (Hst' & Ho' & Hr & _).
  specialize (IH b' Hst' Ho' Hall). destruct (run config ops b'); simpl in *.
  destruct IH as [? []]. auto using Forall_cons_2.
Qed.

Definition opened_breaker : cb :=
  snd (run default_config (replicate 5 (Failed None, 1%Q)) (init 0)).

Lemma open_rejects_until_timeout_witness :
  fst (run default_config [(Allow, 2%Q); (Failed None, 3%Q); (Allow, 30%Q)] opened_breaker)
    = [Some false; None; Some false] /\
  _state (snd (run default_config [(Allow, 2%Q); (Failed None, 3%Q); (Allow, 30%Q)] opened_breaker)) = OPEN.
Proof.
  split; [reflexivity|].
  apply (open_rejects_until_timeout default_config 1); try reflexivity.
  repeat constructor; done.
Defined.

(** [n] failures that count, at the given times. *)
Definition failures (es : list (exn * Q)) : list (op * Q) := map (fun '(e, t) => (Failed (Some e), t)) es.

Lemma closed_failure config e t b :
  _state b = CLOSED -> error_classifier config e = true ->
  let b' := record_failure config (Some e) t b in
  _failure_count b' = _failure_count b + 1 /\
  if failure_threshold config <=? _failure_count b + 1
  then _state b' = OPEN /\ _opened_at b' = t
  else _state b' = CLOSED.
Proof.
  intros Hst He. unfold record_failure, _transition_to. rewrite He. destruct b; simpl in *; subst; simpl.
  by split_if.
Qed.

Lemma failures_stay_closed config es b :
  _state b = CLOSED -> Forall (fun '(e, _) => error_classifier config e = true) es ->
  _failure_count b + Z.of_nat (length es) < failure_threshold config ->
  _state (snd (run config (failures es) b)) = CLOSED /\
  _failure_count (snd (run config (failures es) b)) = _failure_count b + Z.of_nat (length es).
Proof.
  revert b. induction es as [|[e1 t1] es IH]; intros b Hst Hes Hb; simpl; [split; [done|lia]|].
  apply Forall_cons in Hes as [He1 Hes].
  destruct (closed_failure config e1 t1 b Hst He1) as [Hc Hs].
  simpl in Hb. destruct (Z.leb_spec (failure_threshold config) (_failure_count b + 1)); [lia|].
  destruct (IH (record_failure config (Some e1) t1 b) Hs Hes) as [? ?]; [lia|].
  destruct (run config (failures es) _); simpl in *. split; [done|lia].
Qed.

(** Tripping. Starting closed with no failure counted, consecutive failures
    that the classifier counts keep the breaker closed while there are fewer
    than [failure_threshold] of them, and the one that reaches the threshold
    opens it at its own time. *)
Theorem trips_exactly_at_threshold config es e t b :
  _state b = CLOSED -> _failure_count b = 0 ->
  Forall (fun '(e, _) => error_classifier config e = true) (es ++ [(e, t)]) ->
  Z.of_nat (length es) + 1 = failure_threshold config ->
  _state (snd (run config (failures es) b)) = CLOSED /\
  _failure_count (snd (run config (failures es) b)) = Z.of_nat (length es) /\
  _state (snd (run config (failures (es ++ [(e, t)])) b)) = OPEN /\
  _opened_at (snd (run config (failures (es ++ [(e, t)])) b)) = t.
Proof.
  intros Hst Hf0 Hall Hlen. apply Forall_app in Hall as [Hes He].
  apply Forall_cons in He as [He _].
  destruct (failures_stay_closed config es b Hst Hes) as [Hs Hc]; [lia|].
  rewrite Hf0 in Hc. unfold failures. rewrite map_app, run_app. fold (failures es).
  destruct (run config (failures es) b) as [rs b'] eqn:E; simpl in *.
  destruct (closed_failure config e t b' Hs He) as [_ Ht].
  destruct (Z.leb_spec (failure_threshold config) (_failure_count b' + 1)); [|lia].
  split_and!; try done; tauto.
Qed.

Lemma trips_exactly_at_threshold_witness :
  let e := raise_ ConnectionError "refused" in
  _state (snd (run default_config (failures (replicate 4 (e, 1%Q) ++ [(e, 7%Q)])) (init 0))) = OPEN /\
  _opened_at (snd (run default_config (failures (replicate 4 (e, 1%Q) ++ [(e, 7%Q)])) (init 0))) = 7%Q.
Proof.
  apply (trips_exactly_at_threshold default_config
           (replicate 4 (raise_ ConnectionError "refused", 1%Q))
           (raise_ ConnectionError "refused") 7 (init 0)); try reflexivity.
  repeat constructor.
Defined.

(** Client errors. With the default classifier, recording any number of
    validation, authorisation or value errors, at any times, leaves the phase,
    the failure and success counts, the opening time, the last failure time and
    the failure total as they were. *)
Theorem client_errors_never_trip config es b :
  error_classifier config = should_trip_circuit ->
  Forall (fun '(e, _) => isinstance_any e [ValidationError_cls; UnauthorizedError_cls; ValueError] = true) es ->
  let b' := snd (run config (failures es) b) in
  _state b' = _state b /\ _failure_count b' = _failure_count b /\
  _success_count b' = _success_count b /\ _opened_at b' = _opened_at b /\
  _last_failure_at b' = _last_failure_at b /\ _total_failures b' = _total_failures b.
Proof.
  intros Hcl Hall. simpl.
  apply (run_invariant config
    (fun b' => _state b' = _state b /\ _failure_count b' = _failure_count b /\
      _success_count b' = _success_count b /\ _opened_at b' = _opened_at b /\
      _last_failure_at b' = _last_failure_at b /\ _total_failures b' = _total_failures b)
    (fun o _ => exists e, o = Failed (Some e) /\ error_classifier config e = false)); [|..|done].
  - intros o now b' [e [-> He]] Hb. simpl. unfold record_failure. rewrite He. by destruct b'.
  - unfold failures. apply Forall_map. eapply Forall_impl; [exact Hall|].
    intros [e t] He; simpl. exists e. split; [done|]. rewrite Hcl. unfold should_trip_circuit.
    by rewrite He.
Qed.

Lemma client_errors_never_trip_witness :
  _state (snd (run default_config
    (failures (replicate 9 (ValidationError "bad", 1%Q) ++ [(raise_ ValueError "v", 2%Q)])) (init 0))) = CLOSED.
Proof. apply (client_errors_never_trip default_config); [reflexivity|]. repeat constructor. Defined.

(** ** The decorators *)

Lemma allow_request_counts config t b :
  let '(r, b') := allow_request config t b in
  _concurrent_requests b' = _concurrent_requests b /\ _total_requests b' = _total_requests b /\
  _total_successes b' = _total_successes b /\ _total_failures b' = _total_failures b /\
  _total_rejected b' = _total_rejected b + (if r then 0 else 1) /\
  (r = true -> _concurrent_requests b < max_concurrent_requests config).
Proof.
  unfold allow_request, _can_make_request, _transition_to. destruct b as [[] ]; simpl;
    repeat (split_if; simpl); bool_props; split_and!; intros; done || lia.
Qed.

Lemma record_success_counts config t b :
  let b' := record_success config t b in
  _concurrent_requests b' = Z.max 0 (_concurrent_requests b - 1) /\
  _total_requests b' = _total_requests b /\ _total_successes b' = _total_successes b + 1 /\
  _total_failures b' = _total_failures b /\ _total_rejected b' = _total_rejected b.
Proof.
  unfold record_success, _transition_to. destruct b as [[] ]; simpl; repeat (split_if; simpl); done.
Qed.

Lemma record_failure_counts config e t b :
  let b' := record_failure config (Some e) t b in
  _concurrent_requests b' = Z.max 0 (_concurrent_requests b - 1) /\
  _total_requests b' = _total_requests b /\ _total_successes b' = _total_successes b /\
  _total_failures b' = _total_failures b + (if error_classifier config e then 1 else 0) /\
  _total_rejected b' = _total_rejected b.
Proof.
  unfold record_failure, _transition_to.
  destruct b as [[] ], (error_classifier config e); simpl; repeat (split_if; simpl);
    split_and!; done || lia.
Qed.

Definition open_error (name : string) : exn := raise_ RuntimeError ("Circuit '" +:+ name +:+ "' is OPEN").

(** The change a decorated call makes to the counters. *)
Record accounting (config : CircuitBreakerConfig) (b b' : cb)
    (requests successes failures rejected : Z) : Prop := {
  acc_in_flight : _concurrent_requests b' = _concurrent_requests b;
  acc_requests : _total_requests b' = _total_requests b + requests;
  acc_successes : _total_successes b' = _total_successes b + successes;
  acc_failures : _total_failures b' = _total_failures b + failures;
  acc_rejected : _total_rejected b' = _total_rejected b + rejected }.

(** Transparency and accounting of a decorated call. If the wrapped function
    returns or raises an [Exception], the caller gets exactly that result when
    the gate admits it and the open-circuit [RuntimeError] otherwise; the number
    of requests in flight is restored, and exactly one of the counters of
    successes, counted failures, uncounted failures and rejections accounts for
    the call. *)
Theorem decorate_transparent config {T} name (func : result T) t1 t2 b :
  0 <= _concurrent_requests b ->
  match func with Ok _ => True | Raise e => catchable e = true end ->
  let admitted := fst (allow_request config t1 b) in
  let '(r, b') := decorate config name func t1 t2 b in
  if admitted then
    r = func /\
    accounting config b b' 1 (if is_ok func then 1 else 0)
      (match func with Raise e => if error_classifier config e then 1 else 0 | Ok _ => 0 end) 0
  else r = Raise (open_error name) /\ accounting config b b' 0 0 0 1.
Proof.
  intros Hc Hf. unfold decorate. pose proof (allow_request_counts config t1 b) as Ha.
  destruct (allow_request config t1 b) as [[] b1]; simpl in *; destruct_and!.
  - destruct func as [r|e]; simpl.
    + pose proof (record_success_counts config t2 (enter b1)) as Hs; simpl in Hs; destruct_and!.
      split; [done|]. split; lia.
    + rewrite Hf. pose proof (record_failure_counts config e t2 (enter b1)) as Hs.
      simpl in Hs; destruct_and!. split; [done|]. split; destruct (error_classifier config e); lia.
  - split; [done|]. split; lia.
Qed.

Lemma decorate_transparent_witness :
  fst (decorate default_config "svc" (Ok 42) 1 2 (init 0)) = Ok 42.
Proof.
  pose proof (decorate_transparent default_config "svc" (Ok 42) 1 2 (init 0)
    ltac:(vm_compute; discriminate) I) as H.
  vm_compute in H |- *. exact (proj1 H).
Defined.

Fixpoint run_calls config {T} name (calls : list (result T * Q * Q)) : M cb (list (result T)) :=
  fun b => match calls with
  | [] => (Ok [], b)
  | (func, t1, t2) :: calls =>
      let '(r, b) := decorate config name func t1 t2 b in
      let '(rs, b) := run_calls config name calls b in
      (match rs with Ok rs => Ok (r :: rs) | Raise e => Raise e end, b)
  end.

Definition cancelled {T} : result T := Raise (raise_ CancelledError "").

(** Closed with no failure and [n] requests counted as in flight. *)
Definition stuck (n : Z) (b : cb) : Prop :=
  _state b = CLOSED /\ _failure_count b = 0 /\ _concurrent_requests b = n.

Lemma cancelled_call_leaks config {T} name t1 t2 n b :
  n < max_concurrent_requests config -> stuck n b ->
  stuck (n + 1) (snd (decorate config name (@cancelled T) t1 t2 b)).
Proof.
  intros Hlt (Hs & Hf & Hn). destruct b as [st f s oa lf tr tf ts tj c lc ds]; simpl in *; subst.
  unfold decorate, allow_request, _can_make_request; simpl.
  destruct (Z.leb_spec (max_concurrent_requests config) n); [lia|]. done.
Qed.

Lemma full_rejects config {T} name (func : result T) t1 t2 n b :
  max_concurrent_requests config <= n -> stuck n b ->
  fst (decorate config name func t1 t2 b) = Raise (open_error name) /\
  stuck n (snd (decorate config name func t1 t2 b)).
Proof.
  intros Hle (Hs & Hf & Hn). destruct b as [st f s oa lf tr tf ts tj c lc ds]; simpl in *; subst.
  unfold decorate, allow_request, _can_make_request; simpl.
  destruct (Z.leb_spec (max_concurrent_requests config) n); [|lia]. done.
Qed.

(** Cancellation leak. A decorated call that is cancelled (it raises outside
    [Exception]) never gives its in-flight slot back: after
    [max_concurrent_requests] cancelled calls a new breaker, which stays closed
    and has counted no failure, rejects every later call at every later time. *)
Theorem cancellations_exhaust_breaker config {T} name t0 times (calls : list (result T * Q * Q)) :
  Z.of_nat (length times) = max_concurrent_requests config ->
  let b := snd (run_calls config name (map (fun '(t1, t2) => (@cancelled T, t1, t2)) times) (init t0)) in
  _state b = CLOSED /\
  fst (run_calls config name calls b) = Ok (map (fun _ => Raise (open_error name)) calls).
Proof.
  intros Hlen.
  assert (Hleak : forall n b, stuck n b -> n + Z.of_nat (length times) <= max_concurrent_requests config ->
    stuck (n + Z.of_nat (length times))
      (snd (run_calls config name (map (fun '(t1, t2) => (@cancelled T, t1, t2)) times) b))).
  { clear. induction times as [|[t1 t2] times IH]; intros n b Hb Hle; simpl in *.
    - by rewrite Z.add_0_r.
    - pose proof (cancelled_call_leaks config (T:=T) name t1 t2 n b ltac:(lia) Hb) as Hd.
      destruct (decorate _ _ _ _ _ b) as [r b']; simpl in *.
      specialize (IH _ _ Hd ltac:(lia)). destruct (run_calls _ _ _ b') as [rs b2]; simpl in *.
      by replace (n + Z.of_nat (S (length times))) with (n + 1 + Z.of_nat (length times)) by lia. }
  specialize (Hleak 0 (init t0) ltac:(done) ltac:(lia)). simpl in Hleak.
  set (b := snd _) in *. clearbody b. split; [apply Hleak|]. rewrite Hlen in Hleak.
  clear times Hlen. revert b Hleak. induction calls as [|[[f t1] t2] calls IH]; intros b Hb; simpl; [done|].
  destruct (full_rejects config name f t1 t2 _ b (Z.le_refl _) Hb) as [Hr Hb'].
  destruct (decorate _ _ _ _ _ b) as [r b']; simpl in *. specialize (IH b' Hb').
  destruct (run_calls _ _ calls b') as [rs b2]; simpl in *. by subst.
Qed.

Lemma cancellations_exhaust_breaker_witness :
  fst (run_calls default_config "svc" [(Ok 1, 100%Q, 101%Q); (Ok 2, 1000%Q, 1001%Q)]
    (snd (run_calls default_config "svc"
      (map (fun '(t1, t2) => (@cancelled Z, t1, t2)) (replicate 10 (1%Q, 2%Q))) (init 0))))
  = Ok [Raise (open_error "svc"); Raise (open_error "svc")].
Proof.
  apply (cancellations_exhaust_breaker default_config (T:=Z) "svc" 0 (replicate 10 (1%Q, 2%Q))
           [(Ok 1, 100%Q, 101%Q); (Ok 2, 1000%Q, 1001%Q)]).
  reflexivity.
Defined.

(** ** Interleavings of the decorators

    The gate and the entry are two critical sections, so other threads can run
    in between. Threads are alike, so a configuration counts those that have
    passed the gate and not yet entered, and those running the function. *)

Record threads := { gated : nat; running : nat; shared : cb }.

Inductive thread_step (config : CircuitBreakerConfig) : threads -> threads -> Prop :=
| ts_gate g r b t b' : allow_request config t b = (true, b') ->
    thread_step config {| gated := g; running := r; shared := b |}
                       {| gated := S g; running := r; shared := b' |}
| ts_rejected g r b t b' : allow_request config t b = (false, b') ->
    thread_step config {| gated := g; running := r; shared := b |}
                       {| gated := g; running := r; shared := b' |}
| ts_enter g r b :
    thread_step config {| gated := S g; running := r; shared := b |}
                       {| gated := g; running := S r; shared := enter b |}
| ts_return g r b t :
    thread_step config {| gated := g; running := S r; shared := b |}
                       {| gated := g; running := r; shared := record_success config t b |}
| ts_raise g r b e t :
    thread_step config {| gated := g; running := S r; shared := b |}
                       {| gated := g; running := r; shared := record_failure config (Some e) t b |}.

Definition start (t : Q) : threads := {| gated := 0; running := 0; shared := init t |}.

(** No lost update. In every interleaving of decorated calls, the breaker's
    in-flight counter is the number of threads running the wrapped function. *)
Theorem in_flight_is_running config t s :
  rtc (thread_step config) (start t) s ->
  _concurrent_requests (shared s) = Z.of_nat (running s).
Proof.
  intros Hr. assert (Hi : _concurrent_requests (shared (start t)) = Z.of_nat (running (start t))) by done.
  induction Hr as [|s1 s2 s3 Hs _ IH]; [done|]. apply IH. clear IH.
  destruct Hs as [g r b t' b' Ha|g r b t' b' Ha|g r b|g r b t'|g r b e t']; simpl in *.
  - pose proof (allow_request_counts config t' b) as Hc. rewrite Ha in Hc. destruct_and!. lia.
  - pose proof (allow_request_counts config t' b) as Hc. rewrite Ha in Hc. destruct_and!. lia.
  - lia.
  - pose proof (record_success_counts config t' b) as Hc; simpl in Hc. destruct_and!. lia.
  - pose proof (record_failure_counts config e t' b) as Hc; simpl in Hc. destruct_and!. lia.
Qed.

Lemma in_flight_is_running_witness :
  _concurrent_requests (shared {| gated := 0; running := 1; shared := enter (init 0) |}) = 1.
Proof.
  apply (in_flight_is_running default_config 0 {| gated := 0; running := 1; shared := enter (init 0) |}).
  eapply rtc_l; [apply (ts_gate default_config 0 0 (init 0) 1 (init 0)); reflexivity|].
  eapply rtc_l; [apply ts_enter|apply rtc_refl].
Defined.

Lemma gate_idle config g t :
  0 < max_concurrent_requests config ->
  rtc (thread_step config) (start t) {| gated := g; running := 0; shared := init t |}.
Proof.
  intros Hm. induction g as [|g IH]; [apply rtc_refl|]. eapply rtc_r; [exact IH|].
  apply (ts_gate _ _ _ _ t). unfold allow_request, _can_make_request; simpl.
  destruct (Z.leb_spec (max_concurrent_requests config) 0); [lia|done].
Qed.

(** The concurrency limit does not hold between threads. Whatever the
    positive [max_concurrent_requests], any number [n] of threads can pass the
    gate before the first of them is counted, and then run the wrapped function
    at the same time. *)
Theorem concurrency_limit_race config t n :
  0 < max_concurrent_requests config ->
  exists s, rtc (thread_step config) (start t) s /\ running s = n /\
            _concurrent_requests (shared s) = Z.of_nat n.
Proof.
  intros Hm.
  assert (He : forall g r b, rtc (thread_step config) {| gated := g; running := r; shared := b |}
    {| gated := 0; running := g + r; shared := Nat.iter g enter b |}).
  { induction g as [|g IH]; intros r b; [apply rtc_refl|].
    eapply rtc_l; [apply ts_enter|]. specialize (IH (S r) (enter b)).
    rewrite Nat.add_succ_r in IH. simpl. by rewrite <- Nat.iter_succ_r in IH. }
  eexists. split; [etrans; [apply (gate_idle config n t Hm)|apply He]|].
  split; [apply Nat.add_0_r|]. simpl.
  induction n as [|n IH]; [done|]. simpl in *. lia.
Qed.

Lemma concurrency_limit_race_witness :
  0 < max_concurrent_requests default_config /\
  exists s, rtc (thread_step default_config) (start 0) s /\ running s = 100%nat /\
            _concurrent_requests (shared s) = 100.
Proof. split; [reflexivity|]. apply (concurrency_limit_race default_config 0 100). reflexivity. Defined.

(** Health check. The reported time until recovery is absent unless the
    breaker is open; otherwise it is never negative, and it is exactly the least
    delay after which the gate leaves the open state: asked [d] later the gate
    moves to half open if and only if [d] is at least the reported time. *)
Theorem health_predicts_recovery config now b d :
  (0 <= d)%Q ->
  match hc_time_until_recovery (health_check config now b) with
  | None => _state b <> OPEN
  | Some w => _state b = OPEN /\ (0 <= w)%Q /\
      (_state (snd (allow_request config (now + d) b)) = HALF_OPEN <-> (w <= d)%Q)
  end.
Proof.
  intros Hd. destruct b as [[] f s oa lf tr tf ts tj c lc ds]; simpl; [done| |done].
  split_and!; [done|apply py_max_ge_l|]. unfold allow_request, _can_make_request, _transition_to; simpl.
  destruct (Qle_bool (recovery_timeout config) (now + d - oa)) eqn:E; simpl.
  - apply Qle_bool_iff in E. split; [intros _; q_cases; lra|]. by split_if.
  - apply Qle_bool_gt in E. split; [done|]. intros Hle. exfalso. q_cases; lra.
Qed.

Lemma health_predicts_recovery_witness :
  hc_time_until_recovery (health_check default_config 11 opened_breaker) = Some (20 # 1)%Q /\
  _state (snd (allow_request default_config (11 + 20) opened_breaker)) = HALF_OPEN.
Proof.
  split; [reflexivity|].
  pose proof (health_predicts_recovery default_config 11 opened_breaker 20 ltac:(discriminate)) as H.
  vm_compute hc_time_until_recovery in H. apply H. vm_compute. discriminate.
Defined.

(** ** The interface the breaker offers to its clients

    What the retry manager and the outbound helper rely on: the gate and the
    two recordings, and how each moves the in-flight counter. *)

Class Breaker (B : Type) := {
  br_allow : Q -> B -> bool * B;
  br_success : Q -> B -> B;
  br_failure : option exn -> Q -> B -> B;
  br_in_flight : B -> Z }.

Class BreakerLaws (B : Type) `{Breaker B} := {
  br_allow_in_flight t b : br_in_flight (snd (br_allow t b)) = br_in_flight b;
  br_success_in_flight t b : br_in_flight (br_success t b) = Z.max 0 (br_in_flight b - 1);
  br_failure_in_flight e t b : br_in_flight (br_failure e t b) = Z.max 0 (br_in_flight b - 1) }.

(** The circuit breaker of a given configuration. *)
Definition circuit_breaker (config : CircuitBreakerConfig) : Breaker cb := {|
  br_allow := allow_request config; br_success := record_success config;
  br_failure := record_failure config; br_in_flight := _concurrent_requests |}.

Lemma circuit_breaker_laws config : @BreakerLaws cb (circuit_breaker config).
Proof.
  split; simpl.
  - intros t b. pose proof (allow_request_counts config t b) as H.
    destruct (allow_request config t b); simpl. tauto.
  - intros t b. apply (record_success_counts config t b).
  - intros [e|] t b; [apply (record_failure_counts config e t b)|].
    unfold record_failure, _transition_to. destruct b as [[] ]; simpl; repeat (split_if; simpl); done.
Qed.
