(* ===== verification/AdvancedRetry.v ===== *)
(** * Retries with back-off ([resilience/advanced_retry.py])

    [AdvancedRetryManager.retry_sync] runs a callable under a circuit breaker,
    sleeping between attempts. The outside world (clock, sleep, random source,
    the callable) is a state [W] with operations; the manager's own state is its
    metrics and its breaker, used through the [Breaker] interface. A sleep may raise
    ([Sleeper]), the cancellation of an awaiting task for one. The loop is a
    fixpoint on fuel; [retry_sync] gives it [max_attempts], and
    [retry_outcome] shows it never runs out. [retry_async] has the same body
    with awaited calls; its only difference is the text of the final error, hence
    the flag [is_async]. *)

From Stdlib Require Import Qpower.
From stdpp Require Import pretty.
From S2P Require Import Prelude PyRuntime ErrorCodes CircuitBreaker.
Local Open Scope Z_scope.

(** [time.sleep] and [asyncio.sleep]: the task can be cancelled or interrupted, and a
    length can be too large. *)
Class Sleeper (W : Type) := { sleep_for : Q -> W -> result unit * W }.

Definition CircuitBreakerOpenError_cls := subclass "CircuitBreakerOpenError" Exception_.
Definition CircuitBreakerOpenError (name : string) : exn :=
  Exn CircuitBreakerOpenError_cls ("Circuit breaker for " +:+ name +:+ " is open") [("name", name)].

Inductive BackoffStrategy :=
| FIXED | LINEAR | EXPONENTIAL | EXPONENTIAL_JITTER | FIBONACCI | POLYNOMIAL | ADAPTIVE.

#[export] Instance BackoffStrategy_eq_dec : EqDecision BackoffStrategy.
Proof. solve_decision. Defined.

Record AdvancedRetryConfig := {
  max_attempts : Z;
  base_delay : Q;
  max_delay : Q;
  total_timeout : Q;
  backoff_strategy : BackoffStrategy;
  jitter_factor : Q;
  multiplier : Q;
  retry_on_exceptions : list pyclass;
  abort_on_exceptions : list pyclass;
  enable_circuit_breaker : bool;
  enable_adaptive_delays : bool;
  success_rate_threshold : Q;
  circuit_breaker_config : option CircuitBreakerConfig;
  failure_window_size : Z;
  max_concurrent_retries : Z;
  enable_per_host_limits : bool }.

Definition default_retry_config : AdvancedRetryConfig := {|
  max_attempts := 5; base_delay := 1 # 10; max_delay := 60; total_timeout := 300;
  backoff_strategy := EXPONENTIAL_JITTER; jitter_factor := 1 # 10; multiplier := 2;
  retry_on_exceptions := [TransientBackendError_cls; ConnectionError; TimeoutError; OSError];
  abort_on_exceptions := [ValueError; TypeError; KeyError];
  enable_circuit_breaker := true; enable_adaptive_delays := false;
  success_rate_threshold := 8 # 10;
  circuit_breaker_config := None; failure_window_size := 100; max_concurrent_retries := 50;
  enable_per_host_limits := true |}.

(** ** Metrics *)

(** [min_delay] starts at infinity, here [None]. *)
Record metrics := {
  total_attempts : Z; total_retries : Z; successful_operations : Z; failed_operations : Z;
  circuit_breaker_rejections : Z; total_delay_time : Q; total_execution_time : Q;
  min_delay : option Q; max_delay_seen : Q;
  recent_outcomes : list bool; recent_delays : list Q; exception_counts : pydict Z }.

Definition window_size : nat := 100.

Definition init_metrics : metrics := {|
  total_attempts := 0; total_retries := 0; successful_operations := 0; failed_operations := 0;
  circuit_breaker_rejections := 0; total_delay_time := 0; total_execution_time := 0;
  min_delay := None; max_delay_seen := 0; recent_outcomes := []; recent_delays := [];
  exception_counts := [] |}.

(** [l.append(x); if len(l) > window_size: l.pop(0)] *)
Definition push_window {A} (x : A) (l : list A) : list A :=
  let l := l ++ [x] in if (window_size <? length l)%nat then tail l else l.

Definition record_attempt (delay : Q) (m : metrics) : metrics :=
  if Qltb 0 delay then
    {| total_attempts := total_attempts m + 1; total_retries := total_retries m + 1;
       successful_operations := successful_operations m; failed_operations := failed_operations m;
       circuit_breaker_rejections := circuit_breaker_rejections m;
       total_delay_time := total_delay_time m + delay;
       total_execution_time := total_execution_time m;
       min_delay := Some (match min_delay m with None => delay | Some d => py_min d delay end);
       max_delay_seen := py_max (max_delay_seen m) delay;
       recent_outcomes := recent_outcomes m;
       recent_delays := push_window delay (recent_delays m);
       exception_counts := exception_counts m |}
  else
    {| total_attempts := total_attempts m + 1; total_retries := total_retries m;
       successful_operations := successful_operations m; failed_operations := failed_operations m;
       circuit_breaker_rejections := circuit_breaker_rejections m;
       total_delay_time := total_delay_time m; total_execution_time := total_execution_time m;
       min_delay := min_delay m; max_delay_seen := max_delay_seen m;
       recent_outcomes := recent_outcomes m; recent_delays := recent_delays m;
       exception_counts := exception_counts m |}.

Definition record_exception (exc : exn) (m : metrics) : metrics :=
  let exc_type := cls_name (exn_class exc) in
  {| total_attempts := total_attempts m; total_retries := total_retries m;
     successful_operations := successful_operations m; failed_operations := failed_operations m;
     circuit_breaker_rejections := circuit_breaker_rejections m;
     total_delay_time := total_delay_time m; total_execution_time := total_execution_time m;
     min_delay := min_delay m; max_delay_seen := max_delay_seen m;
     recent_outcomes := recent_outcomes m; recent_delays := recent_delays m;
     exception_counts := dset exc_type (default 0 (dget exc_type (exception_counts m)) + 1)
                           (exception_counts m) |}.

Definition record_outcome (success : bool) (execution_time : Q) (m : metrics) : metrics :=
  {| total_attempts := total_attempts m; total_retries := total_retries m;
     successful_operations := successful_operations m + (if success then 1 else 0);
     failed_operations := failed_operations m + (if success then 0 else 1);
     circuit_breaker_rejections := circuit_breaker_rejections m;
     total_delay_time := total_delay_time m;
     total_execution_time := total_execution_time m + execution_time;
     min_delay := min_delay m; max_delay_seen := max_delay_seen m;
     recent_outcomes := push_window success (recent_outcomes m);
     recent_delays := recent_delays m; exception_counts := exception_counts m |}.

Definition record_circuit_breaker_rejection (m : metrics) : metrics :=
  {| total_attempts := total_attempts m; total_retries := total_retries m;
     successful_operations := successful_operations m; failed_operations := failed_operations m;
     circuit_breaker_rejections := circuit_breaker_rejections m + 1;
     total_delay_time := total_delay_time m; total_execution_time := total_execution_time m;
     min_delay := min_delay m; max_delay_seen := max_delay_seen m;
     recent_outcomes := recent_outcomes m; recent_delays := recent_delays m;
     exception_counts := exception_counts m |}.

Definition qsum (l : list Q) : Q := List.fold_right Qplus 0%Q l.
Definition qlen {A} (l : list A) : Q := inject_Z (Z.of_nat (length l)).

Definition get_success_rate (m : metrics) : Q :=
  match recent_outcomes m with
  | [] => 1
  | l => qlen (List.filter id l) / qlen l
  end%Q.

Definition get_average_delay (m : metrics) : Q :=
  match recent_delays m with [] => 0 | l => qsum l / qlen l end%Q.

Definition should_adapt_delays (threshold : Q) (m : metrics) : bool :=
  Qltb (get_success_rate m) threshold && (10 <=? length (recent_outcomes m))%nat.

Record retry_stats := {
  rs_name : string; rs_uptime : Q;
  rs_total_attempts : Z; rs_total_retries : Z; rs_successful_operations : Z;
  rs_failed_operations : Z; rs_circuit_breaker_rejections : Z; rs_overall_success_rate : Q;
  rs_recent_success_rate : Q; rs_total_delay_time : Q; rs_average_delay : Q; rs_min_delay : Q;
  rs_max_delay : Q; rs_average_execution_time : Q; rs_exception_counts : pydict Z }.

Definition get_stats (name : string) (start_time now : Q) (m : metrics) : retry_stats :=
  let total_operations := successful_operations m + failed_operations m in
  {| rs_name := name; rs_uptime := now - start_time;
     rs_total_attempts := total_attempts m; rs_total_retries := total_retries m;
     rs_successful_operations := successful_operations m;
     rs_failed_operations := failed_operations m;
     rs_circuit_breaker_rejections := circuit_breaker_rejections m;
     rs_overall_success_rate := if 0 <? total_operations
       then inject_Z (successful_operations m) / inject_Z total_operations else 0;
     rs_recent_success_rate := get_success_rate m; rs_total_delay_time := total_delay_time m;
     rs_average_delay := get_average_delay m; rs_min_delay := default 0%Q (min_delay m);
     rs_max_delay := max_delay_seen m;
     rs_average_execution_time := if 0 <? total_operations
       then total_execution_time m / inject_Z total_operations else 0;
     rs_exception_counts := exception_counts m |}%Q.

(** ** Delays *)

(** [for _ in range(3, n + 1): a, b = b, a + b] *)
Definition _fibonacci (n : Z) : Z :=
  if n <=? 2 then 1
  else snd (Nat.iter (Z.to_nat (n - 2)) (fun '(a, b) => (b, a + b)) (1, 1)).

Definition _adaptive_delay (config : AdvancedRetryConfig) (m : metrics) (attempt : Z) (base : Q) : Q :=
  (if negb (enable_adaptive_delays config) then base * Qpower (multiplier config) (attempt - 1)
   else
     let success_rate := get_success_rate m in
     let avg_delay := get_average_delay m in
     let base := if Qltb success_rate (success_rate_threshold config)
                 then base * (1 + (1 - success_rate)) else base in
     let base := if Qltb 0 avg_delay && Qltb avg_delay (max_delay config)
                 then (base + avg_delay) / 2 else base in
     py_min (base * Qpower (multiplier config) (attempt - 1)) (max_delay config))%Q.

Section delay.
Context {W : Type} `{World W} (config : AdvancedRetryConfig).

(** [x * self.config.jitter_factor * (secrets.randbelow(1000) / 1000.0)] *)
Definition jitter_of (x : Q) (w : W) : Q * W :=
  let '(r, w) := randbelow 1000 w in
  (x * jitter_factor config * (inject_Z r / 1000), w)%Q.

Definition _calculate_delay (m : metrics) (attempt : Z) (base : Q) (w : W) : Q * W :=
  (if attempt <=? 1 then (0, w)
   else
     let '(delay, w) :=
       match backoff_strategy config with
       | FIXED => (base, w)
       | LINEAR => (base * inject_Z attempt, w)
       | EXPONENTIAL => (base * Qpower (multiplier config) (attempt - 1), w)
       | FIBONACCI => (base * inject_Z (_fibonacci attempt), w)
       | POLYNOMIAL => (base * inject_Z (attempt ^ 2), w)
       | ADAPTIVE => (_adaptive_delay config m attempt base, w)
       | EXPONENTIAL_JITTER =>
           let exponential := base * Qpower (multiplier config) (attempt - 1) in
           let '(jitter, w) := jitter_of exponential w in (exponential + jitter, w)
       end in
     let '(delay, w) :=
       if bool_decide (backoff_strategy config <> ADAPTIVE) && Qltb 0 (jitter_factor config)
       then let '(jitter_amount, w) := jitter_of delay w in (delay + jitter_amount, w)
       else (delay, w) in
     (py_min delay (max_delay config), w))%Q.
End delay.

(** ** The manager *)

Definition _is_retryable_exception (config : AdvancedRetryConfig) (exc : exn) : bool :=
  if isinstance_any exc (abort_on_exceptions config) then false
  else if isinstance_any exc (retry_on_exceptions config) then true
  else exception_is_transient exc.

Section manager.
Context {W : Type} `{World W, Sleeper W} {B : Type} `{Breaker B} {T : Type}.
Context (is_async : bool) (name : string) (config : AdvancedRetryConfig).
Context (func : W -> result T * W).

Record manager := Mgr { mg_metrics : metrics; mg_breaker : option B; mg_world : W }.

Definition world_op {A} (f : W -> A * W) : M manager A := fun s =>
  let '(a, w) := f (mg_world s) in (Ok a, Mgr (mg_metrics s) (mg_breaker s) w).

Definition metrics_op (f : metrics -> metrics) : M manager unit :=
  modify (fun s => Mgr (f (mg_metrics s)) (mg_breaker s) (mg_world s)).

Definition now : M manager Q := world_op time_time.

(** [if self.circuit_breaker: self.circuit_breaker.record_...()]; the
    breaker reads the clock itself. *)
Definition on_breaker (f : Q -> B -> B) : M manager unit := fun s =>
  match mg_breaker s with
  | None => (Ok tt, s)
  | Some b => let '(t, w) := time_time (mg_world s) in
              (Ok tt, Mgr (mg_metrics s) (Some (f t b)) w)
  end.

Definition _check_circuit_breaker : M manager bool := fun s =>
  match mg_breaker s with
  | None => (Ok true, s)
  | Some b =>
      let '(t, w) := time_time (mg_world s) in
      let '(allowed, b) := br_allow t b in
      if allowed then (Ok true, Mgr (mg_metrics s) (Some b) w)
      else (Ok false, Mgr (record_circuit_breaker_rejection (mg_metrics s)) (Some b) w)
  end.

(** The delay before attempt [attempt]: the time slept, or what ended the sleep. *)
Definition wait_before (attempt : Z) : M manager (result Q) :=
  if 1 <? attempt then
    m ← gets mg_metrics;
    delay ← world_op (_calculate_delay config m attempt (base_delay config));
    if Qltb 0 delay then
      slept ← world_op (sleep_for delay);
      match slept with
      | Ok _ => metrics_op (record_attempt delay) ≫= fun _ => mret (Ok delay)
      | Raise e => mret (Raise e)
      end
    else mret (Ok 0%Q)
  else metrics_op (record_attempt 0) ≫= fun _ => mret (Ok 0%Q).

Definition exhausted_error : exn :=
  raise_ RuntimeError
    ("All " +:+ pretty (max_attempts config) +:+ (if is_async then " async" else "") +:+
     " retry attempts exhausted for " +:+ name).
Definition circuit_open_error : exn :=
  raise_ RuntimeError ("Circuit breaker for " +:+ name +:+ " is open").
Definition out_of_fuel : exn := raise_ BaseException "out of fuel".

Definition exhausted (start_time : Q) : M manager T :=
  t ← now;
  metrics_op (record_outcome false (t - start_time)) ≫= fun _ => raise exhausted_error.

(** The [except] clause: [started] is when a call of the function last began, if one
    did. [inl] the outcome that leaves the loop, [inr] the exception after which it
    goes on. *)
Definition handle_failure (attempt : Z) (started : option Q) (exc : exn) : M manager (result T + exn) :=
  if negb (catchable exc) then mret (inl (Raise exc))
  else
    execution_time ← match started with
                     | Some execution_start => t ← now; mret (t - execution_start)%Q
                     | None => mret 0%Q
                     end;
    metrics_op (record_exception exc) ≫= fun _ =>
    on_breaker (br_failure (Some exc)) ≫= fun _ =>
    if negb (_is_retryable_exception config exc) || (max_attempts config <=? attempt)
    then metrics_op (record_outcome false execution_time) ≫= fun _ => mret (inl (Raise exc))
    else mret (inr exc).

(** The call of the function, begun at [execution_start]. *)
Definition attempt_once (attempt : Z) (execution_start : Q) : M manager (result T + exn) :=
  r ← world_op func;
  match r with
  | Ok v =>
      t ← now;
      metrics_op (record_outcome true (t - execution_start)) ≫= fun _ =>
      on_breaker br_success ≫= fun _ => mret (inl (Ok v))
  | Raise exc => handle_failure attempt (Some execution_start) exc
  end.

Fixpoint retry_loop (fuel : nat) (start_time total_delay : Q) (started : option Q) (attempt : Z) : M manager T :=
  if attempt <? max_attempts config then
    match fuel with
    | O => raise out_of_fuel
    | S fuel =>
        let attempt := attempt + 1 in
        t ← now;
        if Qltb (total_timeout config) (t - start_time + total_delay)
        then exhausted start_time
        else
          delay ← wait_before attempt;
          match delay with
          | Ok delay =>
              execution_start ← now;
              o ← attempt_once attempt execution_start;
              match o with
              | inl r => lift r
              | inr _ => retry_loop fuel start_time (total_delay + delay) (Some execution_start) attempt
              end
          | Raise exc =>
              o ← handle_failure attempt started exc;
              match o with
              | inl r => lift r
              | inr _ => retry_loop fuel start_time total_delay started attempt
              end
          end
    end
  else exhausted start_time.

Definition retry_sync : M manager T :=
  allowed ← _check_circuit_breaker;
  if negb allowed then raise circuit_open_error
  else start_time ← now; retry_loop (Z.to_nat (max_attempts config)) start_time 0 None 0.
End manager.
Arguments manager W B : clear implicits.
Arguments Mgr {W B} _ _ _.

(** ** Delays are bounded *)

Lemma fib_pair k : snd (Nat.iter k (fun '(a, b) => (b, a + b)) (1, 1)) =
  fst (Nat.iter (S k) (fun '(a, b) => (b, a + b)) (1, 1)).
Proof. simpl. by destruct (Nat.iter k _ _). Qed.

(** The textbook recurrence. *)
Fixpoint fib (n : nat) : Z :=
  match n with
  | O => 0
  | S O => 1
  | S (S k as m) => fib m + fib k
  end.

Lemma fib_iter k :
  Nat.iter k (fun '(a, b) => (b, a + b)) (1, 1) = (fib (S k), fib (S (S k))).
Proof.
  induction k as [|k IH]; [done|].
  change (Nat.iter (S k) _ _) with ((fun '(a, b) => (b, a + b)) (Nat.iter k (fun '(a, b) => (b, a + b)) (1, 1))).
  rewrite IH. f_equal. by rewrite Z.add_comm.
Qed.

Lemma fibonacci_nonneg n : 0 <= _fibonacci n.
Proof.
  unfold _fibonacci. destruct (n <=? 2); [lia|].
  rewrite fib_iter. cut (forall k, 0 <= fib k /\ 0 <= fib (S k)); [intros Hc; apply Hc|].
  induction k as [|k [IH1 IH2]]; [done|]. split; [done|]. simpl in *. lia.
Qed.

(** equivalence. The iterative Fibonacci of the back-off computes the
    recurrence for every positive attempt number. *)
Theorem fibonacci_correct n : 1 <= n -> _fibonacci n = fib (Z.to_nat n).
Proof.
  intros Hn. unfold _fibonacci. destruct (Z.leb_spec n 2).
  - by assert (n = 1 \/ n = 2) as [-> | ->] by lia.
  - rewrite fib_iter. cbn [snd]. f_equal. lia.
Qed.

Lemma fibonacci_correct_witness : _fibonacci 10 = fib (Z.to_nat 10) /\ _fibonacci 10 = 55.
Proof. split; [apply (fibonacci_correct 10); lia|reflexivity]. Defined.

Lemma Qpower_nonneg (q : Q) (n : Z) : (0 <= q)%Q -> (0 <= Qpower q n)%Q.
Proof. intros. by apply Qpower_0_le. Qed.

Lemma qsum_nonneg l : Forall (fun q => 0 <= q)%Q l -> (0 <= qsum l)%Q.
Proof. induction 1; simpl; [done|lra]. Qed.

Lemma qlen_pos {A} (l : list A) : (0 <= qlen l)%Q.
Proof. unfold qlen. rewrite <- (Zle_Qle 0). lia. Qed.

Lemma Qdiv_nonneg (a b : Q) : (0 <= a)%Q -> (0 <= b)%Q -> (0 <= a / b)%Q.
Proof. intros. apply Qmult_le_0_compat; [done|]. by apply Qinv_le_0_compat. Qed.

Lemma filter_rate_le_1 (l : list bool) : (qlen (List.filter id l) / qlen l <= 1)%Q.
Proof.
  destruct l as [|b l]; [done|]. apply Qle_shift_div_r.
  - unfold qlen. rewrite <- (Zlt_Qlt 0). simpl. lia.
  - rewrite Qmult_1_l. unfold qlen. rewrite <- Zle_Qle.
    pose proof (lfilter_length id (b :: l)). unfold lfilter in *. lia.
Qed.

Lemma success_rate_range m : (0 <= get_success_rate m <= 1)%Q.
Proof.
  unfold get_success_rate. destruct (recent_outcomes m) as [|b l] eqn:E; [split; discriminate|].
  split; [apply Qdiv_nonneg; apply qlen_pos|apply filter_rate_le_1].
Qed.

Record config_ok (config : AdvancedRetryConfig) : Prop := {
  ok_max_delay : (0 <= max_delay config)%Q;
  ok_jitter : (0 <= jitter_factor config)%Q;
  ok_multiplier : (0 <= multiplier config)%Q }.

#[export] Hint Resolve Qmult_le_0_compat Qpower_nonneg Qdiv_nonneg py_min_glb : marty.

Lemma adaptive_nonneg config m attempt base :
  config_ok config -> Forall (fun q => 0 <= q)%Q (recent_delays m) -> (0 <= base)%Q ->
  (0 <= _adaptive_delay config m attempt base)%Q.
Proof.
  intros [Hmd Hj Hmu] Hrd Hb. unfold _adaptive_delay.
  pose proof (success_rate_range m) as Hr.
  assert (0 <= base * (1 + (1 - get_success_rate m)))%Q by (apply Qmult_le_0_compat; lra).
  assert (Hd2 : forall x y : Q, (0 <= x -> 0 <= y -> 0 <= (x + y) / 2)%Q)
    by (intros; apply Qdiv_nonneg; lra).
  split_if; [auto with marty|].
  destruct (Qltb 0 (get_average_delay m) && _) eqn:Ea; split_if.
  all: apply py_min_glb; [|done]; apply Qmult_le_0_compat; [|auto with marty].
  all: bool_props; try done; apply Hd2; try done; q_cases; lra.
Qed.

Section delay_bounds.
Context {W : Type} `{World W}.
Context (Hrand : forall n w, 0 < n -> 0 <= fst (randbelow n w) < n).

Lemma jitter_nonneg config x (w : W) :
  (0 <= jitter_factor config)%Q -> (0 <= x)%Q -> (0 <= fst (jitter_of config x w))%Q.
Proof using Hrand.
  intros Hj Hx. unfold jitter_of. pose proof (Hrand 1000 w ltac:(done)) as Hr.
  destruct (randbelow 1000 w) as [r w']; simpl in *.
  apply Qmult_le_0_compat; [auto with marty|]. apply Qdiv_nonneg; [|done].
  rewrite <- (Zle_Qle 0). lia.
Qed.

(** Bounds. Whatever the back-off strategy, the metrics and the random
    source (which returns a number below its argument), the delay before an
    attempt is never negative and never exceeds [max_delay], and there is none
    before the first attempt. *)
Theorem delay_bounds config m attempt base (w : W) :
  config_ok config -> Forall (fun q => 0 <= q)%Q (recent_delays m) -> (0 <= base)%Q ->
  (0 <= fst (_calculate_delay config m attempt base w) <= max_delay config)%Q /\
  (attempt <= 1 -> fst (_calculate_delay config m attempt base w) = 0%Q).
Proof using Hrand.
  intros Hok Hrd Hb. destruct (Hok) as [Hmd Hj Hmu]. unfold _calculate_delay.
  destruct (Z.leb_spec attempt 1) as [|Ha]; [by split|]. split; [|lia].
  assert (Hi : (0 <= inject_Z attempt)%Q) by (rewrite <- (Zle_Qle 0); lia).
  assert (Hi2 : (0 <= inject_Z (attempt ^ 2))%Q) by (rewrite <- (Zle_Qle 0); lia).
  assert (Hf : (0 <= inject_Z (_fibonacci attempt))%Q)
    by (rewrite <- (Zle_Qle 0); apply fibonacci_nonneg).
  destruct (match backoff_strategy config with FIXED => _ | _ => _ end) as [d w1] eqn:Ed.
  assert (Hd : (0 <= d)%Q).
  { destruct (backoff_strategy config); simplify_eq; auto using adaptive_nonneg with marty.
    match type of Ed with context [jitter_of config ?x w] =>
      pose proof (jitter_nonneg config x w Hj ltac:(auto with marty)) as Hn;
      destruct (jitter_of config x w) end.
    simplify_eq/=. pose proof (Qpower_nonneg (multiplier config) (attempt - 1) Hmu).
    assert (0 <= base * Qpower (multiplier config) (attempt - 1))%Q by auto with marty. lra. }
  pose proof (jitter_nonneg config d w1 Hj Hd) as Hn. destruct (jitter_of config d w1) as [j w2].
  simpl in *. split_if; simpl; split; auto with marty; apply py_min_glb; auto; lra.
Qed.
End delay_bounds.

(** ** The retry loop *)

(** Actions that neither raise nor step outside a preorder on states. *)
Section quiet.
Context {S : Type} (R : S -> S -> Prop) `{!PreOrder R}.

Definition quiet {A} (m : M S A) : Prop := forall s, exists a s', m s = (Ok a, s') /\ R s s'.

Lemma quiet_ret {A} (a : A) : quiet (mret a).
Proof using PreOrder0. intros s. eexists _, _. split; [done|reflexivity]. Qed.

Lemma quiet_gets {A} (f : S -> A) : quiet (gets f).
Proof using PreOrder0. intros s. eexists _, _. split; [done|reflexivity]. Qed.

Lemma quiet_bind {A C} (m : M S A) (f : A -> M S C) :
  quiet m -> (forall a, quiet (f a)) -> quiet (m ≫= f).
Proof using PreOrder0.
  intros Hm Hf s. destruct (Hm s) as (a & s1 & E1 & H1), (Hf a s1) as (c & s2 & E2 & H2).
  exists c, s2. unfold mbind, M_bind. rewrite E1. split; [done|by etrans].
Qed.

Lemma quiet_if {A} (b : bool) (m1 m2 : M S A) : quiet m1 -> quiet m2 -> quiet (if b then m1 else m2).
Proof. by destruct b. Qed.
End quiet.
Ltac quiet_done := eexists _, _; split; [reflexivity|done].
#[export] Hint Resolve quiet_ret quiet_gets quiet_bind quiet_if : marty.

(** A world that also remembers what it was asked for: readings of the clock, sleeps
    and calls of the wrapped function. *)
Inductive event (T : Type) :=
| Clock (t : Q)
| Slept (d : Q) (r : result unit)
| Called (r : result T).
Arguments Clock {T} t.
Arguments Slept {T} d r.
Arguments Called {T} r.

Definition logged (W T : Type) : Type := W * list (event T).

#[local] Instance logged_world {W T} `{World W} : World (logged W T) := {
  time_time := fun w => let '(t, w') := time_time (fst w) in (t, (w', snd w ++ [Clock t]));
  sleep := fun d w => (sleep d (fst w), snd w);
  randbelow := fun n w => let '(r, w') := randbelow n (fst w) in (r, (w', snd w)) }.

#[local] Instance logged_sleeper {W T} `{Sleeper W} : Sleeper (logged W T) := {
  sleep_for := fun d w => let '(r, w') := sleep_for d (fst w) in (r, (w', snd w ++ [Slept d r])) }.

Definition logged_func {W T} (func : W -> result T * W) (w : logged W T) : result T * logged W T :=
  let '(r, w') := func (fst w) in (r, (w', snd w ++ [Called r])).

(** How the attempts ended: by a call of the function, or in the sleep before it. *)
Definition outcome_of {T} (e : event T) : list (result T) :=
  match e with Called r => [r] | Slept _ (Raise e) => [Raise e] | _ => [] end.
Definition outcomes {T} (es : list (event T)) : list (result T) := flat_map outcome_of es.

(** The time slept. *)
Definition slept_in {T} (e : event T) : Q := match e with Slept d (Ok _) => d | _ => 0%Q end.
Definition slept {T} (es : list (event T)) : Q := List.fold_right (fun e q => slept_in e + q)%Q 0%Q es.

Lemma slept_app {T} (es es' : list (event T)) : (slept (es ++ es') == slept es + slept es')%Q.
Proof. induction es as [|e es IH]; simpl; [ring|]. rewrite IH. ring. Qed.

Lemma outcomes_app {T} (es es' : list (event T)) : outcomes (es ++ es') = outcomes es ++ outcomes es'.
Proof. apply flat_map_app. Qed.

Section spec.
Context {T : Type} (is_async : bool) (name : string) (config : AdvancedRetryConfig) (start : Q).

(** A reading of the clock, with the time slept before it added, is past the budget. *)
Definition over_budget (before : Q) (t : Q) : Prop := (total_timeout config < t - start + before)%Q.

(** Every call of the function is preceded, after the outcome before it, by a reading
    of the clock within the budget; [checked] if there has been one. *)
Fixpoint budgeted (before : Q) (checked : Prop) (es : list (event T)) : Prop :=
  match es with
  | [] => True
  | Clock t :: es => budgeted before (checked \/ ~ over_budget before t) es
  | Slept d (Ok _) :: es => checked /\ budgeted (before + d) checked es
  | Slept _ (Raise _) :: es => checked /\ budgeted before False es
  | Called _ :: es => checked /\ budgeted before False es
  end.

(** The exception asks for another attempt. *)
Definition retryable (o : result T) : Prop :=
  match o with
  | Raise e => catchable e = true /\ _is_retryable_exception config e = true
  | Ok _ => False
  end.

(** What the events [es] of [budget] attempts and the result [r] may be: the last
    attempt decides; or none is left; or the last reading of the clock but the one for
    the metrics is past the budget. *)
Definition retry_spec (budget : Z) (before : Q) (es : list (event T)) (r : result T) : Prop :=
  (exists pre o, outcomes es = pre ++ [o] /\ Forall retryable pre /\ r = o /\
     Z.of_nat (length (outcomes es)) <= budget /\
     (retryable o -> Z.of_nat (length (outcomes es)) = budget)) \/
  (Forall retryable (outcomes es) /\ r = Raise (exhausted_error is_async name config) /\
     (budget <= 0 /\ outcomes es = [] \/
      Z.of_nat (length (outcomes es)) < budget /\
      exists pre t t', es = pre ++ [Clock t; Clock t'] /\ over_budget (before + slept pre) t)).

(** An attempt that is over in [es1], followed by others. *)
Lemma retry_spec_cons budget before es1 e es r : outcomes es1 = [Raise e] -> retryable (Raise e) -> 1 < budget ->
  retry_spec (budget - 1) (before + slept es1) es r -> retry_spec budget before (es1 ++ es) r.
Proof using.
  intros He Hr Hb [(pre & o & Ho & Hpre & -> & Hle & Hlast)|(Hall & -> & Hcase)]; unfold retry_spec; rewrite outcomes_app, He.
  - left. exists (Raise e :: pre), o. rewrite Ho in *. split_and!; try done; [by constructor|simpl in *; lia|].
    intros Hro. specialize (Hlast Hro). simpl in *. lia.
  - right. split; [by constructor|]. split; [done|]. right. destruct Hcase as [[? _]|[Hlt (pre & t & t' & -> & Ht)]]; [lia|].
    split; [simpl in *; lia|]. exists (es1 ++ pre), t, t'. rewrite <- app_assoc. split; [done|].
    unfold over_budget in *. rewrite slept_app. lra.
Qed.

Lemma budgeted_weaken before before' (checked checked' : Prop) es : (before' == before)%Q -> (checked -> checked') ->
  budgeted before checked es -> budgeted before' checked' es.
Proof using.
  revert before before' checked checked'. induction es as [|e es IH]; intros b b' c c' Hb Hc; simpl; [done|].
  destruct e as [t|d [[]|e]|o]; unfold over_budget.
  - apply IH; [done|]. intros [?|?]; [by left; auto|right]. by rewrite Hb.
  - intros [? ?]. split; [by auto|]. eapply IH; [|exact Hc|done]. by rewrite Hb.
  - intros [? ?]. split; [by auto|]. by eapply IH; [exact Hb| |].
  - intros [? ?]. split; [by auto|]. by eapply IH; [exact Hb| |].
Qed.

Definition is_clock (e : event T) : Prop := match e with Clock _ => True | _ => False end.

Lemma budgeted_clocks before checked ts es : Forall is_clock ts -> budgeted before checked es -> budgeted before checked (ts ++ es).
Proof using.
  intros Hts Hes. induction Hts as [|e ts He Hts IH]; [done|]. destruct e; try done. simpl.
  eapply budgeted_weaken; [reflexivity| |exact IH]. auto.
Qed.

Lemma retry_spec_before budget before before' es r : (before' == before)%Q -> retry_spec budget before es r -> retry_spec budget before' es r.
Proof using.
  intros Hb [?|(Hall & -> & Hc)]; [by left|right]. split; [done|]. split; [done|].
  destruct Hc as [|[Hlt (pre & t & t' & -> & Ht)]]; [by left|right]. split; [done|]. exists pre, t, t'. split; [done|].
  unfold over_budget in *. by rewrite Hb.
Qed.
End spec.

Lemma clocks_none {T} (ts : list (event T)) : Forall is_clock ts -> outcomes ts = [] /\ (slept ts == 0)%Q.
Proof. induction 1 as [|e ts He _ [IH1 IH2]]; [done|]. destruct e; try done. split; [done|]. simpl. rewrite IH2. ring. Qed.

Section outcome.
Context {W : Type} `{World W, Sleeper W} {B : Type} `{Breaker B} {T : Type}.
Context (is_async : bool) (name : string) (config : AdvancedRetryConfig).
Context (func : W -> result T * W).
Local Abbreviation st := (manager (logged W T) B).
Local Abbreviation attempt_ := (attempt_once config (logged_func func)).
Local Abbreviation loop := (retry_loop is_async name config (logged_func func)).

Definition log (s : st) : list (event T) := snd (mg_world s).

(** Nothing but readings of the clock in between. *)
Definition ticks (s s' : st) : Prop := exists ts, Forall is_clock ts /\ log s' = log s ++ ts.

#[local] Instance ticks_preorder : PreOrder ticks.
Proof.
  split; unfold ticks.
  - intros s. exists []. by rewrite app_nil_r.
  - intros s1 s2 s3 (ts & Hts & E1) (ts' & Hts' & E2). exists (ts ++ ts'). rewrite E2, E1, app_assoc.
    split; [by apply Forall_app|done].
Qed.

Lemma now_log (s : st) : exists t s', now s = (Ok t, s') /\ log s' = log s ++ [Clock t].
Proof. destruct s as [m b [w l]]. unfold now, world_op; simpl. destruct (time_time w). by eexists _, _. Qed.

Lemma now_quiet : quiet ticks (now (B:=B)).
Proof. intros s. destruct (now_log s) as (t & s' & E & Hl). exists t, s'. split; [done|]. exists [Clock t]. by repeat constructor. Qed.

Lemma same_ticks (s s' : st) : log s' = log s -> ticks s s'.
Proof. intros E. exists []. by rewrite app_nil_r. Qed.

Lemma metrics_quiet f : quiet ticks (metrics_op f).
Proof. intros [m b w]. eexists _, _. split; [done|]. by apply same_ticks. Qed.

Lemma delay_log m attempt base (s : st) : exists d s', world_op (_calculate_delay config m attempt base) s = (Ok d, s') /\ log s' = log s.
Proof.
  destruct s as [m' b [w l]]. unfold world_op, log. simpl.
  cut (snd (snd (_calculate_delay config m attempt base (w, l))) = l).
  - destruct (_calculate_delay _ _ _ _ _) as [d w']; simpl. intros <-. by eexists _, _.
  - assert (Hj : forall x w1, snd (snd (jitter_of config x (w1, l))) = l).
    { intros x w1. unfold jitter_of; simpl. by destruct (randbelow 1000 w1). }
    unfold _calculate_delay. split_if; [done|].
    destruct (match backoff_strategy config with FIXED => _ | _ => _ end) as [d [w1 l1]] eqn:Ed.
    assert (l1 = l) as ->.
    { destruct (backoff_strategy config); simplify_eq; try done.
      pose proof (Hj (base * Qpower (multiplier config) (attempt - 1))%Q w) as Hl.
      destruct (jitter_of config _ (w, l)) as [j []]; by simplify_eq/=. }
    pose proof (Hj d w1) as Hl. destruct (jitter_of config d (w1, l)) as [j w2]. by split_if.
Qed.

Lemma breaker_quiet f : quiet ticks (on_breaker f).
Proof.
  intros [m [b|] [w l]]; unfold on_breaker; simpl; [destruct (time_time w) as [t w']|]; eexists _, _; (split; [done|]).
  - exists [Clock t]. by repeat constructor.
  - by apply same_ticks.
Qed.

(** The answer of the breaker, if there is one. *)
Definition breaker_allows (s : st) : bool :=
  match mg_breaker s with Some b => fst (br_allow (fst (time_time (mg_world s))) b) | None => true end.

Lemma check_log s : exists s', _check_circuit_breaker s = (Ok (breaker_allows s), s') /\
  log s' = log s ++ match mg_breaker s with Some _ => [Clock (fst (time_time (mg_world s)))] | None => [] end.
Proof.
  destruct s as [m [b|] [w l]]; unfold _check_circuit_breaker, breaker_allows; simpl.
  - destruct (time_time w) as [t w']; simpl. destruct (br_allow t b) as [[] b']; eexists; by split.
  - eexists. split; [done|]. by rewrite app_nil_r.
Qed.

#[local] Hint Resolve now_quiet metrics_quiet breaker_quiet : marty.

(** The wait before an attempt sleeps once, or not at all. *)
Lemma wait_log attempt (s : st) : exists r s' es, wait_before config attempt s = (Ok r, s') /\ log s' = log s ++ es /\
  match r with
  | Ok d => (es = [] /\ d = 0%Q) \/ exists u, es = [Slept d (Ok u)]
  | Raise e => exists d, es = [Slept d (Raise e)]
  end.
Proof.
  unfold wait_before. destruct (1 <? attempt).
  2:{ exists (Ok 0%Q). eexists _, []. split; [done|]. rewrite app_nil_r. split; [by destruct s|by left]. }
  unfold mbind, M_bind, gets. destruct (delay_log (mg_metrics s) attempt (base_delay config) s) as (d & s1 & -> & Hl1).
  destruct (Qltb 0 d).
  2:{ exists (Ok 0%Q), s1, []. rewrite app_nil_r. split; [done|]. split; [done|by left]. }
  destruct s1 as [m b [w l]]. unfold world_op, log in *. simpl in *. subst l. destruct (sleep_for d w) as [[u|e] w']; simpl.
  - exists (Ok d). eexists _, [Slept d (Ok u)]. split; [done|]. split; [done|]. right. by eexists.
  - exists (Raise e). eexists _, [Slept d (Raise e)]. split; [done|]. split; [done|]. by eexists.
Qed.

(** What leaves the loop, or goes on in it, after a failure. *)
Definition decided (attempt : Z) (r : result T) (o : result T + exn) : Prop :=
  match o with
  | inl r' => r' = r /\ (retryable config r -> max_attempts config <= attempt)
  | inr e => r = Raise e /\ retryable config r /\ attempt < max_attempts config
  end.

Lemma started_quiet (started : option Q) :
  quiet ticks (match started with Some execution_start => t ← now (B:=B); mret (t - execution_start)%Q | None => mret 0%Q end).
Proof. destruct started; eauto 12 with marty typeclass_instances. Qed.

Lemma failure_outcome attempt started e (s : st) :
  exists o s', handle_failure config attempt started e s = (Ok o, s') /\ ticks s s' /\ decided attempt (Raise e) o.
Proof.
  unfold handle_failure. destruct (catchable e) eqn:Ec; cbn [negb].
  2:{ eexists (inl (Raise e)), s. split; [done|]. split; [reflexivity|]. split; [done|]. intros []; congruence. }
  unfold mbind at 1, M_bind at 1. destruct (started_quiet started s) as (x & s1 & -> & K1). unfold mbind, M_bind.
  destruct (metrics_quiet (record_exception e) s1) as ([] & s2 & -> & K2), (breaker_quiet (br_failure (Some e)) s2) as ([] & s3 & -> & K3).
  assert (K13 : ticks s s3) by (do 2 (etrans; [eassumption|]); done). split_if.
  - destruct (metrics_quiet (record_outcome false x) s3) as ([] & s4 & -> & K4). eexists (inl (Raise e)), s4.
    split; [done|]. split; [by etrans|]. split; [done|]. intros [_ Hr]. bool_props. rewrite Hr in *. destruct_or!; [done|lia].
  - bool_props. by eexists (inr e), s3.
Qed.

Lemma attempt_outcome attempt start (s : st) : exists o r s' ts,
  attempt_ attempt start s = (Ok o, s') /\ log s' = log s ++ Called r :: ts /\ Forall is_clock ts /\ decided attempt r o.
Proof.
  unfold attempt_once. unfold mbind at 1, M_bind at 1. unfold world_op at 1, logged_func. destruct s as [m b [w l]]; simpl.
  destruct (func w) as [r w']. set (s1 := Mgr _ _ _). assert (Hl1 : log s1 = l ++ [Called r]) by done. clearbody s1.
  cut (exists o s', match r with
      | Ok v => t ← now; metrics_op (record_outcome true (t - start)) ≫= fun _ =>
                on_breaker br_success ≫= fun _ => mret (inl (Ok v))
      | Raise exc => handle_failure config attempt (Some start) exc end s1 = (Ok o, s') /\ ticks s1 s' /\ decided attempt r o).
  { intros (o & s' & E & (ts & Hts & Hl) & Hd). exists o, r, s', ts. split; [exact E|]. rewrite Hl, Hl1, <- app_assoc. done. }
  destruct r as [v|e]; [|apply failure_outcome]. unfold mbind, M_bind.
  destruct (now_quiet s1) as (t & s2 & -> & K2), (metrics_quiet (record_outcome true (t - start)) s2) as ([] & s3 & -> & K3),
    (breaker_quiet br_success s3) as ([] & s4 & -> & K4). exists (inl (Ok v)), s4.
  split; [done|]. split; [do 2 (etrans; [eassumption|]); done|]. by split.
Qed.

Lemma exhausted_log start (s : st) : exists t s',
  exhausted is_async name config (T:=T) start s = (Raise (exhausted_error is_async name config), s') /\ log s' = log s ++ [Clock t].
Proof.
  unfold exhausted, mbind, M_bind. destruct (now_log s) as (t & s1 & -> & K1).
  destruct s1 as [m b w]. eexists t, _. split; [done|]. exact K1.
Qed.

(** After an attempt that ended in [es1] with [r], the loop is left, or goes on with [k]. *)
Lemma after_attempt start before attempt r o es1 (s3 : st) (k : M st T) :
  decided (attempt + 1) r o -> outcomes es1 = [r] -> attempt < max_attempts config ->
  (forall es, budgeted config start (before + slept es1) False es -> budgeted config start before False (es1 ++ es)) ->
  (forall e, o = inr e -> attempt + 1 < max_attempts config -> exists es s' r', k s3 = (r', s') /\ log s' = log s3 ++ es /\
     retry_spec is_async name config start (max_attempts config - (attempt + 1)) (before + slept es1) es r' /\
     budgeted config start (before + slept es1) False es) ->
  exists es s' r', (match o with inl r => lift r | inr _ => k end) s3 = (r', s') /\ log s' = log s3 ++ es /\
    retry_spec is_async name config start (max_attempts config - attempt) before (es1 ++ es) r' /\
    budgeted config start before False (es1 ++ es).
Proof.
  intros Hd Ho Hlt Hbud Hk. destruct o as [r'|e].
  - destruct Hd as [-> Hstop]. exists [], s3, r. rewrite !app_nil_r. split; [done|]. split; [done|]. split.
    + left. exists [], r. rewrite Ho. split_and!; simpl; try done; [lia|]. intros Hr. specialize (Hstop Hr). lia.
    + specialize (Hbud [] I). by rewrite app_nil_r in Hbud.
  - destruct Hd as (-> & Hr & Hlt2). destruct (Hk e eq_refl Hlt2) as (es & s' & r' & E & Hl & Hs & Hb).
    exists es, s', r'. split; [exact E|]. split; [done|]. split; [|by apply Hbud].
    eapply retry_spec_cons; try done; [lia|]. by replace (max_attempts config - attempt - 1) with (max_attempts config - (attempt + 1)) by lia.
Qed.

(** What the loop promises from a state in which so many attempts have been made. *)
Local Definition promised start attempt delay (k : M st T) : Prop := forall s, exists es s' r,
  k s = (r, s') /\ log s' = log s ++ es /\
  retry_spec is_async name config start (max_attempts config - attempt) delay es r /\ budgeted config start delay False es.

Lemma called_turn start delay attempt t d es (s s2 : st) (k : Q -> M st T) :
  attempt < max_attempts config -> ~ over_budget config start delay t -> log s2 = (log s ++ [Clock t]) ++ es ->
  (es = [] /\ d = 0%Q) \/ (exists u, es = [Slept d (Ok u)]) ->
  (forall t2, promised start (attempt + 1) (delay + d)%Q (k t2)) ->
  exists es s' r,
    (execution_start ← now; o ← attempt_ (attempt + 1) execution_start;
     match o with inl r => lift r | inr _ => k execution_start end) s2 = (r, s') /\ log s' = log s ++ es /\
    retry_spec is_async name config start (max_attempts config - attempt) delay es r /\ budgeted config start delay False es.
Proof.
  intros Hlt Hin Hl2 Hw Hk. unfold mbind at 1, M_bind at 1. destruct (now_log s2) as (t2 & s3 & -> & Hl3). rewrite Hl2 in Hl3.
  unfold mbind at 1, M_bind at 1.
  destruct (attempt_outcome (attempt + 1) t2 s3) as (o & r & s4 & ts & -> & Hl4 & Hts & Hd). rewrite Hl3 in Hl4.
  destruct (clocks_none ts Hts) as [Hno Hns].
  assert (Hes : outcomes es = [] /\ (slept es == d)%Q) by (destruct Hw as [[-> ->]|(u & ->)]; simpl; split; [done|ring|done|ring]).
  destruct Hes as [Heo Hesl]. set (es1 := Clock t :: es ++ Clock t2 :: Called r :: ts).
  assert (Hsl : (slept es1 == d)%Q) by (unfold es1; simpl; rewrite slept_app; simpl; rewrite Hesl, Hns; ring).
  assert (Hl4' : log s4 = log s ++ es1) by (unfold es1; rewrite Hl4, <- !app_assoc; simpl; by rewrite <- ?app_assoc).
  destruct (after_attempt start delay attempt r o es1 s4 (k t2)) as (es2 & s' & r' & E & Hl & Hs & Hb); try done.
  - unfold es1. simpl. rewrite outcomes_app. simpl. by rewrite Heo, Hno.
  - intros es' Hb. unfold es1. simpl. rewrite <- app_assoc.
    assert (Hrest : forall b c, (b == delay + d)%Q -> (c : Prop) -> budgeted config start b c (Clock t2 :: Called r :: ts ++ es')).
    { intros b c Hbd Hc. simpl. split; [by left|]. apply budgeted_clocks; [done|].
      eapply budgeted_weaken; [|intros Hx; exact Hx|exact Hb]. rewrite Hsl. done. }
    destruct Hw as [[-> ->]|(u & ->)]; simpl; [apply Hrest; [ring|by right]|]. split; [by right|]. apply Hrest; [done|by right].
  - intros e -> _. destruct (Hk t2 s4) as (es' & s' & r' & E & Hl & Hs & Hb). exists es', s', r'. split; [exact E|]. split; [done|]. split.
    + eapply retry_spec_before; [|exact Hs]. by rewrite Hsl.
    + eapply budgeted_weaken; [|intros Hx; exact Hx|exact Hb]. by rewrite Hsl.
  - exists (es1 ++ es2), s', r'. split; [exact E|]. split; [by rewrite Hl, Hl4', app_assoc|done].
Qed.

Lemma sleepless_turn start delay attempt t d e started (s s2 : st) (k : M st T) :
  attempt < max_attempts config -> ~ over_budget config start delay t -> log s2 = (log s ++ [Clock t]) ++ [Slept d (Raise e)] ->
  promised start (attempt + 1) delay k ->
  exists es s' r,
    (o ← handle_failure config (attempt + 1) started e; match o with inl r => lift r | inr _ => k end) s2 = (r, s') /\
    log s' = log s ++ es /\
    retry_spec is_async name config start (max_attempts config - attempt) delay es r /\ budgeted config start delay False es.
Proof.
  intros Hlt Hin Hl2 Hk. unfold mbind at 1, M_bind at 1.
  destruct (failure_outcome (attempt + 1) started e s2) as (o & s3 & -> & (ts & Hts & Hl3) & Hd). rewrite Hl2 in Hl3.
  destruct (clocks_none ts Hts) as [Hno Hns]. set (es1 := Clock t :: Slept d (Raise e) :: ts).
  assert (Hsl : (slept es1 == 0)%Q) by (unfold es1; simpl; rewrite Hns; ring).
  assert (Hl3' : log s3 = log s ++ es1) by (unfold es1; by rewrite Hl3, <- !app_assoc).
  destruct (after_attempt start delay attempt (Raise e) o es1 s3 k) as (es2 & s' & r' & E & Hl & Hs & Hb); try done.
  - unfold es1. simpl. by rewrite Hno.
  - intros es' Hb. unfold es1. simpl. split; [by right|]. apply budgeted_clocks; [done|].
    eapply budgeted_weaken; [|intros Hx; exact Hx|exact Hb]. rewrite Hsl. ring.
  - intros e' -> _. destruct (Hk s3) as (es' & s' & r' & E & Hl & Hs & Hb). exists es', s', r'. split; [exact E|]. split; [done|]. split.
    + eapply retry_spec_before; [|exact Hs]. rewrite Hsl. ring.
    + eapply budgeted_weaken; [|intros Hx; exact Hx|exact Hb]. rewrite Hsl. ring.
  - exists (es1 ++ es2), s', r'. split; [exact E|]. split; [by rewrite Hl, Hl3', app_assoc|done].
Qed.

Lemma loop_outcome fuel start delay started attempt :
  (Z.to_nat (max_attempts config - attempt) <= fuel)%nat -> promised start attempt delay (loop fuel start delay started attempt).
Proof.
  revert delay started attempt. induction fuel as [|fuel IH]; intros delay started attempt Hf s; simpl;
    destruct (Z.ltb_spec attempt (max_attempts config)); try lia.
  1,3: destruct (exhausted_log start s) as (t & s' & E & Hl); exists [Clock t], s'; eexists; split; [exact E|];
       split; [done|]; split; [right; split_and!; try done; left; split; [lia|done]|done].
  unfold mbind at 1, M_bind at 1. destruct (now_log s) as (t & s1 & -> & Hl1). destruct (Qltb _ _) eqn:Et.
  { apply Qltb_lt in Et. destruct (exhausted_log start s1) as (t' & s' & E & Hl). exists [Clock t; Clock t'], s'.
    eexists. split; [exact E|]. rewrite Hl, Hl1, <- app_assoc. split; [done|]. split; [|done]. right. split_and!; try done. right.
    split; [simpl; lia|]. exists [], t, t'. split; [done|]. unfold over_budget. simpl. lra. }
  apply Qltb_ge in Et. assert (Hin : ~ over_budget config start delay t) by (unfold over_budget; lra).
  unfold mbind at 1, M_bind at 1. destruct (wait_log (attempt + 1) s1) as (w & s2 & es & -> & Hl2 & Hw). rewrite Hl1 in Hl2.
  destruct w as [d|e].
  - eapply (called_turn start delay attempt t d es s s2 (fun t2 => loop fuel start (delay + d)%Q (Some t2) (attempt + 1))); try done.
    intros t2. apply IH. lia.
  - destruct Hw as (d & ->). eapply (sleepless_turn start delay attempt t d e); try done. apply IH. lia.
Qed.
End outcome.

(** C5: Termination and outcome of the retry loop. Whatever the world, the breaker and
    the wrapped function do, a call of [retry_sync] or [retry_async] returns. When the
    breaker refuses, the function is not called and the call is refused. Otherwise there
    are at most [max_attempts] attempts, each ended by a call of the function or by an
    exception of the sleep before it, and every attempt but the last ended with a
    retryable exception; either the last one decides the result, which is a retryable
    exception only when the attempts are used up, or the result is exhaustion, and then
    there were no attempts to make or the elapsed time plus the time slept was found to
    exceed the time budget. No sleep and no call begins without such a reading of the
    clock within the budget since the attempt before. *)
Theorem retry_outcome {W} `{World W, Sleeper W} {B} `{Breaker B} {T} is_async name config
    (func : W -> result T * W) (s : manager (logged W T) B) :
  exists checked es s' r, log s' = log s ++ checked ++ es /\ outcomes checked = [] /\
    retry_sync is_async name config (logged_func func) s = (r, s') /\
    if breaker_allows s then
      exists start rest, es = Clock start :: rest /\
        retry_spec is_async name config start (max_attempts config) 0 rest r /\
        budgeted config start 0 False rest
    else es = [] /\ r = Raise (circuit_open_error name).
Proof.
  unfold retry_sync, mbind, M_bind. destruct (check_log s) as (s1 & -> & Hl1).
  eexists (match mg_breaker s with Some _ => _ | None => [] end).
  assert (Hno : outcomes (match mg_breaker s with Some _ => [Clock (T:=T) (fst (time_time (mg_world s)))] | None => [] end) = [])
    by (by destruct (mg_breaker s)).
  destruct (breaker_allows s); simpl.
  - destruct (now_log s1) as (t & s2 & -> & Hl2).
    destruct (loop_outcome is_async name config func (Z.to_nat (max_attempts config)) t 0 None 0 ltac:(lia) s2)
      as (es & s3 & r & E & Hl & Hs & Hb). rewrite Z.sub_0_r in Hs.
    exists (Clock t :: es), s3, r. split; [rewrite Hl, Hl2, Hl1, <- !app_assoc; reflexivity|]. split; [exact Hno|].
    split; [exact E|]. by eexists t, es.
  - exists [], s1. eexists. rewrite app_nil_r. split; [exact Hl1|]. by repeat split.
Qed.

(** A simulated world: the clock is advanced by sleeping only, the random source
    returns 0, and the wrapped function takes no time. *)
#[export] Instance sim_world : World Q := {
  time_time := fun w => (w, w); sleep := fun d w => (w + d)%Q; randbelow := fun _ w => (0, w) }.
#[export] Instance sim_sleeper : Sleeper Q := { sleep_for d w := (Ok tt, (w + d)%Q) }.

Definition no_breaker : Breaker unit := {|
  br_allow := fun _ b => (true, b); br_success := fun _ b => b;
  br_failure := fun _ _ b => b; br_in_flight := fun _ => 0 |}.

Definition always_fails (w : Q) : result Z * Q := (Raise (raise_ ConnectionError "refused"), w).

Definition fixed_config (d timeout : Q) : AdvancedRetryConfig := {|
  max_attempts := 5; base_delay := d; max_delay := d; total_timeout := timeout;
  backoff_strategy := FIXED; jitter_factor := 0; multiplier := 2;
  retry_on_exceptions := [ConnectionError]; abort_on_exceptions := [];
  enable_circuit_breaker := false; enable_adaptive_delays := false;
  success_rate_threshold := 8 # 10;
  circuit_breaker_config := None; failure_window_size := 100; max_concurrent_retries := 50;
  enable_per_host_limits := true |}.

(** The sleeps are counted twice against [total_timeout]: the elapsed wall time
    already contains them and [total_delay] adds them again. With a budget of
    300 seconds, fixed waits of 100 seconds and a function that fails at once,
    the manager gives up after 200 seconds and three of the five attempts. *)
Lemma timeout_counts_sleeps_twice :
  let '(r, s) := retry_sync (H1 := no_breaker) false "op" (fixed_config 100 300)
                   (logged_func always_fails) (Mgr init_metrics None (0%Q, [])) in
  r = Raise (exhausted_error false "op" (fixed_config 100 300)) /\
  length (outcomes (log s)) = 3%nat /\ (fst (mg_world s) == 200)%Q.
Proof. vm_compute. done. Qed.

(** ** The manager and the breaker's in-flight counter *)

Section in_flight.
Context {W : Type} `{World W, Sleeper W} {B : Type} `{Breaker B, !BreakerLaws B} {T : Type}.
Context (is_async : bool) (name : string) (config : AdvancedRetryConfig).
Context (func : W -> result T * W).
Local Abbreviation st := (manager W B).

Definition in_flight (s : st) : Z := match mg_breaker s with Some b => br_in_flight b | None => 0 end.
Definition has_breaker (s : st) : bool := opt_is_some (mg_breaker s).

(** The counter does not grow. *)
Definition shrinks (s s' : st) : Prop :=
  has_breaker s' = has_breaker s /\ in_flight s' <= Z.max 0 (in_flight s).

#[local] Instance shrinks_preorder : PreOrder shrinks.
Proof.
  split; unfold shrinks; [intros s; split; [done|lia]|].
  intros s1 s2 s3 [] []. split; [congruence|lia].
Qed.

Lemma world_op_shrinks {A} (f : W -> A * W) : quiet shrinks (world_op f).
Proof.
  intros [m b w]. unfold world_op; simpl. destruct (f w). eexists _, _. split; [done|].
  split; [done|]. unfold in_flight; simpl. lia.
Qed.

Lemma metrics_shrinks f : quiet shrinks (metrics_op f).
Proof.
  intros [m b w]. eexists _, _. split; [done|]. split; [done|]. unfold in_flight; simpl. lia.
Qed.

Definition releases (f : Q -> B -> B) : Prop :=
  forall t b, br_in_flight (f t b) = Z.max 0 (br_in_flight b - 1).

Lemma breaker_release f s : releases f ->
  exists s', on_breaker f s = (Ok tt, s') /\ has_breaker s' = has_breaker s /\
    in_flight s' <= Z.max 0 (in_flight s) /\
    (has_breaker s = true -> in_flight s' <= Z.max 0 (in_flight s - 1)).
Proof.
  intros Hf. destruct s as [m [b|] w]; unfold on_breaker, in_flight; simpl.
  - destruct (time_time w). eexists. split; [done|]. simpl. rewrite Hf.
    split; [done|]. split; [lia|]. lia.
  - eexists. split; [done|]. simpl. split_and!; done || lia.
Qed.

Lemma breaker_shrinks f : releases f -> quiet shrinks (on_breaker f).
Proof.
  intros Hf s. destruct (breaker_release f s Hf) as (s' & E & Hb & Hi & _).
  exists tt, s'. by split.
Qed.

#[local] Hint Resolve world_op_shrinks metrics_shrinks breaker_shrinks
  br_success_in_flight br_failure_in_flight : marty.

Lemma wait_shrinks attempt : quiet shrinks (wait_before config attempt).
Proof.
  unfold wait_before. apply quiet_if; [|eauto 12 with marty typeclass_instances].
  apply (quiet_bind _); [eauto with marty typeclass_instances|]. intros m. apply (quiet_bind _); [auto with marty|]. intros d.
  apply quiet_if; [|eauto with marty typeclass_instances]. apply (quiet_bind _); [auto with marty|].
  intros [u|e]; eauto 12 with marty typeclass_instances.
Qed.

Lemma failure_in_flight attempt started e s :
  exists o s', handle_failure (T := T) config attempt started e s = (Ok o, s') /\ shrinks s s' /\ forall v, o <> inl (Ok v).
Proof using BreakerLaws0.
  unfold handle_failure. split_if; [by eexists (inl (Raise e)), s|]. unfold mbind at 1, M_bind at 1.
  assert (Hq : quiet shrinks (match started with Some execution_start => t ← now (B:=B); mret (t - execution_start)%Q | None => mret 0%Q end))
    by (destruct started; unfold now; eauto 12 with marty typeclass_instances).
  destruct (Hq s) as (x & s1 & -> & K1). unfold mbind, M_bind.
  destruct (metrics_shrinks (record_exception e) s1) as ([] & s2 & -> & K2),
    (breaker_shrinks (br_failure (Some e)) (br_failure_in_flight _) s2) as ([] & s3 & -> & K3).
  assert (K13 : shrinks s s3) by (do 2 (etrans; [eassumption|]); done). split_if; [|by eexists (inr e), s3].
  destruct (metrics_shrinks (record_outcome false x) s3) as ([] & s4 & -> & K4).
  eexists (inl (Raise e)), s4. split_and!; [done|by etrans|done].
Qed.

(** An attempt lets the counter shrink, and a successful one gives back a slot. *)
Lemma attempt_in_flight attempt start s :
  exists o s', attempt_once config func attempt start s = (Ok o, s') /\ shrinks s s' /\
    (has_breaker s = true -> forall v, o = inl (Ok v) -> in_flight s' <= Z.max 0 (in_flight s - 1)).
Proof using BreakerLaws0.
  unfold attempt_once. unfold mbind at 1, M_bind at 1.
  destruct (world_op_shrinks func s) as (r & s2 & -> & K2). destruct r as [v|e].
  - unfold mbind, M_bind. destruct (world_op_shrinks time_time s2) as (t2 & s3 & E & K3). unfold now at 1. rewrite E. clear E.
    destruct (metrics_shrinks (record_outcome true (t2 - start)) s3) as ([] & s4 & -> & K4).
    assert (K14 : shrinks s s4) by (do 2 (etrans; [eassumption|]); done).
    destruct (breaker_release br_success s4) as (s5 & -> & Hb & Hi & Hr);
      [intros ??; apply br_success_in_flight|].
    eexists (inl (Ok v)), s5. destruct K14 as [Hb4 Hi4]. split_and!; [done| |].
    + split; [congruence|lia].
    + intros Hhas _ _. specialize (Hr ltac:(congruence)). lia.
  - destruct (failure_in_flight attempt (Some start) e s2) as (o & s3 & -> & K3 & Ho).
    exists o, s3. split_and!; [done|by etrans|]. intros _ v ->. by destruct (Ho v).
Qed.

Lemma exhausted_raises start (s : st) v s' : exhausted (T := T) is_async name config start s <> (Ok v, s').
Proof using. intros (? & ? & _ & E)%bind_inv_ok. by apply bind_inv_ok in E as (? & ? & _ & E). Qed.

Lemma loop_in_flight fuel start delay started attempt s v s' :
  has_breaker s = true ->
  retry_loop is_async name config func fuel start delay started attempt s = (Ok v, s') ->
  in_flight s' <= Z.max 0 (in_flight s - 1).
Proof using BreakerLaws0.
  revert delay started attempt s. induction fuel as [|fuel IH]; intros delay started attempt s Hb; simpl;
    (split_if; [|by intros E%exhausted_raises]); [done|].
  unfold mbind at 1, M_bind at 1, now at 1.
  destruct (world_op_shrinks time_time s) as (t & s1 & -> & Hs1). destruct (Qltb _ _); [by intros E%exhausted_raises|].
  unfold mbind at 1, M_bind at 1. destruct (wait_shrinks (attempt + 1) s1) as (d & s2 & -> & Hs2).
  assert (Hb1 : shrinks s s2) by (by etrans). destruct d as [d|e].
  - unfold mbind at 1, M_bind at 1, now at 1. destruct (world_op_shrinks time_time s2) as (t2 & s3 & -> & Hs3).
    assert (Hb2 : shrinks s s3) by (by etrans). destruct Hb2 as [Hb2 Hi2].
    unfold mbind at 1, M_bind at 1. destruct (attempt_in_flight (attempt + 1) t2 s3) as (o & s4 & -> & Hs4 & Hok).
    destruct o as [[v'|e]|e]; simpl; [|done|].
    + unfold lift. intros [= -> ->]. specialize (Hok ltac:(congruence) v eq_refl). lia.
    + intros E. apply IH in E; [|destruct Hs4; congruence]. destruct Hs4. lia.
  - destruct Hb1 as [Hb1 Hi1]. unfold mbind at 1, M_bind at 1.
    destruct (failure_in_flight (attempt + 1) started e s2) as (o & s3 & -> & Hs3 & Ho).
    destruct o as [[v'|e']|e']; simpl; [by destruct (Ho v')|done|].
    intros E. apply IH in E; [|destruct Hs3; congruence]. destruct Hs3. lia.
Qed.
End in_flight.

(** The retry manager does not take a slot of the breaker but gives one
    back. A successful call of [retry_sync] leaves the in-flight counter of its
    breaker at most one below its previous value (never below zero), whatever
    breaker implements the interface: the concurrency limit does not apply to
    retried calls, and each success frees a slot another caller holds. *)
Theorem retry_releases_foreign_slot {W} `{World W, Sleeper W} {B} `{Breaker B, !BreakerLaws B} {T}
    is_async name config (func : W -> result T * W) (s s' : manager W B) b v :
  mg_breaker s = Some b ->
  retry_sync is_async name config func s = (Ok v, s') ->
  in_flight s' <= Z.max 0 (br_in_flight b - 1).
Proof.
  intros Hb Hr. destruct s as [m ob w]; simpl in Hb; subst.
  unfold retry_sync in Hr. apply bind_inv_ok in Hr as (allowed & s1 & Hc & Hr).
  unfold _check_circuit_breaker in Hc; simpl in Hc. destruct (time_time w) as [t w1].
  pose proof (br_allow_in_flight t b) as Ha.
  destruct (br_allow t b) as [[] b1]; simplify_eq. simpl in Hr, Ha.
  apply bind_inv_ok in Hr as (t1 & s2 & Hn & Hr). unfold now, world_op in Hn; simpl in Hn.
  destruct (time_time w1); simplify_eq. apply loop_in_flight in Hr; [|done].
  unfold in_flight at 2 in Hr; simpl in Hr. lia.
Qed.

(** ** What comes back was returned by the function *)

Section returned.
Context {W : Type} `{World W, Sleeper W} {B : Type} `{Breaker B} {T : Type}.
Context (is_async : bool) (name : string) (config : AdvancedRetryConfig).
Context (func : W -> result T * W).

Definition returned (v : T) : Prop := exists w w', func w = (Ok v, w').

Lemma failure_returned attempt started e (s : manager W B) v s' :
  handle_failure (T := T) config attempt started e s <> (Ok (inl (Ok v)), s').
Proof.
  unfold handle_failure. destruct (negb (catchable e)); [done|]. do 3 (intros (? & ? & _ & E)%bind_inv_ok; revert E).
  destruct (_ || _); [|done]. by intros (? & ? & _ & E)%bind_inv_ok.
Qed.

Lemma attempt_returned attempt start (s : manager W B) v s' :
  attempt_once config func attempt start s = (Ok (inl (Ok v)), s') -> returned v.
Proof.
  intros (r & s2 & Hf & E)%bind_inv_ok.
  unfold world_op in Hf. destruct (func (mg_world s)) as [r' w] eqn:Hw. injection Hf as <- <-.
  destruct r' as [v'|e]; [|by apply failure_returned in E].
  repeat (apply bind_inv_ok in E as (? & ? & _ & E)). injection E as -> _. by eexists _, _.
Qed.

Lemma loop_returned fuel start delay started attempt (s : manager W B) v s' :
  retry_loop is_async name config func fuel start delay started attempt s = (Ok v, s') -> returned v.
Proof.
  revert delay started attempt s. induction fuel as [|fuel IH]; intros delay started attempt s; simpl;
    (split_if; [|by intros E%exhausted_raises]); [done|].
  intros (t & s1 & _ & E)%bind_inv_ok. destruct (Qltb _ _); [by apply exhausted_raises in E|].
  apply bind_inv_ok in E as (d & s2 & _ & E). destruct d as [d|e].
  - apply bind_inv_ok in E as (t2 & s3 & _ & E). apply bind_inv_ok in E as (o & s4 & Ha & E).
    destruct o as [r|e]; [|by apply IH in E]. unfold lift in E. injection E as -> _. by apply attempt_returned in Ha.
  - apply bind_inv_ok in E as (o & s3 & Ha & E). destruct o as [r|e']; [|by apply IH in E].
    unfold lift in E. injection E as -> _. by apply failure_returned in Ha.
Qed.

Lemma retry_returned (s : manager W B) v s' : retry_sync is_async name config func s = (Ok v, s') -> returned v.
Proof.
  intros (allowed & s1 & _ & E)%bind_inv_ok. destruct (negb allowed); [done|].
  apply bind_inv_ok in E as (t & s2 & _ & E). by apply loop_returned in E.
Qed.
End returned.

Definition returns_7 (w : Q) : result Z * Q := (Ok 7, w).

Lemma retry_releases_foreign_slot_witness :
  let s := Mgr init_metrics (Some (enter (enter (init 0)))) 0%Q in
  let '(r, s') := retry_sync (H1 := circuit_breaker default_config) false "op" default_retry_config
                    returns_7 s in
  r = Ok 7 /\ @in_flight Q cb (circuit_breaker default_config) s' <= 1.
Proof.
  cbv zeta. destruct (retry_sync _ _ _ _ _) as [r s'] eqn:E.
  assert (r = Ok 7) as -> by (apply (f_equal fst) in E; vm_compute in E; by rewrite <- E).
  split; [reflexivity|].
  pose proof (circuit_breaker_laws default_config) as Hlaws.
  pose proof (@retry_releases_foreign_slot Q sim_world sim_sleeper cb (circuit_breaker default_config) Hlaws
    Z false "op" default_retry_config returns_7 (Mgr init_metrics (Some (enter (enter (init 0)))) 0%Q) s' (enter (enter (init 0))) 7 eq_refl E) as H.
  exact H.
Defined.

Lemma delay_bounds_witness :
  config_ok default_retry_config /\
  (0 <= fst (_calculate_delay default_retry_config init_metrics 3 1 (0 : Q))
     <= max_delay default_retry_config)%Q.
Proof.
  assert (Hok : config_ok default_retry_config) by (split; discriminate).
  split; [exact Hok|].
  assert (Hrand : forall n (w : Q), 0 < n -> 0 <= fst (randbelow n w) < n) by (simpl; lia).
  apply (delay_bounds Hrand default_retry_config init_metrics 3 1%Q 0%Q).
  - exact Hok.
  - vm_compute. constructor.
  - discriminate.
Defined.
