(* ===== verification/ResilienceConfig.v ===== *)
(** * Configuration of the resilience patterns ([resilience/config.py])

    The configuration of a service, read from dictionaries, files and the environment
    and written back. Python does not check annotations, so that its fields hold
    whatever was read; YAML and the file system are parameters. *)

From S2P Require Import Prelude PyRuntime PyText PyDate PyInt PyFloat PyConfig ErrorCodes CircuitBreaker AdvancedRetry.
Local Open Scope Z_scope.

(** [max(0.0, min(1.0, v))], which keeps the object that wins. *)
Definition clamp (v : cfg) : result cfg :=
  match number v with
  | None => Raise (raise_ TypeError "'<' not supported")
  | Some x =>
      let least := if float_lt x (Finite 1) then v else CQ 1 in
      Ok (if float_lt (Finite 0) (default NaN (number least)) then least else CQ 0)
  end.

(** ** The configuration *)

Record BreakerSection := {
  failure_threshold : cfg; recovery_timeout : cfg; half_open_success_threshold : cfg; failure_reset_timeout : cfg;
  max_concurrent_requests : cfg; error_classifier : exn -> bool; enable_metrics : cfg }.

(** What the tuples of exceptions hold: classes, or another attribute of a name. *)
Inductive listed := LClass (c : pyclass) | LAttribute (name : string).

Record RetrySection := {
  max_attempts : cfg; base_delay : cfg; max_delay : cfg; total_timeout : cfg; backoff_strategy : BackoffStrategy;
  jitter_factor : cfg; multiplier : cfg; retry_on_exceptions : list listed; abort_on_exceptions : list listed;
  enable_circuit_breaker : cfg; enable_adaptive_delays : cfg; success_rate_threshold : cfg; failure_window_size : cfg;
  max_concurrent_retries : cfg; circuit_breaker_config : option BreakerSection; enable_per_host_limits : cfg }.

Record InjectionSection := {
  enabled : cfg; base_failure_rate : cfg; method_specific_rates : cfg; error_types : list pyclass; target_metadata_key : cfg }.

Record ResilienceConfig := {
  service_name : cfg; environment : cfg; circuit_breaker : BreakerSection; retry : RetrySection;
  failure_injection : InjectionSection; metrics_enabled : cfg; enable_health_checks : cfg; enable_request_logging : cfg;
  max_requests : cfg; request_timeout_seconds : cfg }.

Definition default_breaker : BreakerSection := {|
  failure_threshold := CInt 5; recovery_timeout := CQ 30; half_open_success_threshold := CInt 2;
  failure_reset_timeout := CQ 60; max_concurrent_requests := CInt 10; error_classifier := should_trip_circuit;
  enable_metrics := CBool true |}.

Definition default_retry : RetrySection := {|
  max_attempts := CInt 5; base_delay := CQ (1 # 10); max_delay := CQ 60; total_timeout := CQ 300;
  backoff_strategy := EXPONENTIAL_JITTER; jitter_factor := CQ (1 # 10); multiplier := CQ 2;
  retry_on_exceptions := map LClass [TransientBackendError_cls; ConnectionError; TimeoutError; OSError];
  abort_on_exceptions := map LClass [ValueError; TypeError; KeyError];
  enable_circuit_breaker := CBool true; enable_adaptive_delays := CBool false; success_rate_threshold := CQ (8 # 10);
  failure_window_size := CInt 100; max_concurrent_retries := CInt 50; circuit_breaker_config := None;
  enable_per_host_limits := CBool true |}.

(** The constructor of the injection clamps the rate. *)
Definition make_injection (on rate rates : cfg) (types : option (list pyclass)) (key : cfg) : result InjectionSection :=
  r ← clamp rate;
  Ok {| enabled := on; base_failure_rate := r; method_specific_rates := if cfg_truthy rates then rates else CDict [];
        error_types := match types with None | Some [] => [TransientBackendError_cls] | Some ts => ts end;
        target_metadata_key := key |}.

Definition default_injection : InjectionSection := {|
  enabled := CBool false; base_failure_rate := CQ 0; method_specific_rates := CDict []; error_types := [TransientBackendError_cls];
  target_metadata_key := CStr "x-failure-inject" |}.

Definition default_resilience : ResilienceConfig := {|
  service_name := CStr "default_service"; environment := CStr "development"; circuit_breaker := default_breaker;
  retry := default_retry; failure_injection := default_injection; metrics_enabled := CBool true;
  enable_health_checks := CBool true; enable_request_logging := CBool true; max_requests := CInt 100;
  request_timeout_seconds := CQ 30 |}.

(** ** Reading dictionaries *)

Definition strategies : list BackoffStrategy := [FIXED; LINEAR; EXPONENTIAL; EXPONENTIAL_JITTER; FIBONACCI; POLYNOMIAL; ADAPTIVE].
Definition strategy_value (s : BackoffStrategy) : string :=
  match s with
  | FIXED => "fixed" | LINEAR => "linear" | EXPONENTIAL => "exponential" | EXPONENTIAL_JITTER => "exponential_jitter"
  | FIBONACCI => "fibonacci" | POLYNOMIAL => "polynomial" | ADAPTIVE => "adaptive"
  end.

(** [BackoffStrategy(v)] *)
Definition read_strategy (v : cfg) : result BackoffStrategy :=
  match v with
  | CStr s => match List.find (fun b => String.eqb s (strategy_value b)) strategies with
              | Some b => Ok b
              | None => Raise (raise_ ValueError (s +:+ " is not a valid BackoffStrategy"))
              end
  | _ => Raise (raise_ ValueError "not a valid BackoffStrategy")
  end.

Section reading.
(** What [__builtins__] has under a name. *)
Context (builtins : string -> option listed).

(** [getattr(__builtins__, exc_name, fallback)] for each name. *)
Fixpoint resolve (fallback : pyclass) (exc_names : list cfg) : result (list listed) :=
  match exc_names with
  | [] => Ok []
  | CStr n :: ns => rest ← resolve fallback ns; Ok (default (LClass fallback) (builtins n) :: rest)
  | _ :: _ => Raise (raise_ TypeError "getattr(): attribute name must be string")
  end.

Definition read_exceptions (k : string) (names : list string) (fallback : pyclass) (data : cfg) : result (list listed) :=
  v ← cget k (CList (map CStr names)) data;
  ns ← elements v;
  resolve fallback ns.

Definition read_breaker (data : cfg) : result BreakerSection :=
  a ← cget "failure_threshold" (CInt 5) data;
  b ← cget "recovery_timeout" (CQ 30) data;
  c ← cget "half_open_success_threshold" (CInt 2) data;
  d ← cget "failure_reset_timeout" (CQ 60) data;
  e ← cget "max_concurrent_requests" (CInt 10) data;
  f ← cget "enable_metrics" (CBool true) data;
  Ok {| failure_threshold := a; recovery_timeout := b; half_open_success_threshold := c; failure_reset_timeout := d;
        max_concurrent_requests := e; error_classifier := should_trip_circuit; enable_metrics := f |}.

Definition read_retry (data : cfg) : result RetrySection :=
  s ← (v ← cget "backoff_strategy" (CStr "exponential_jitter") data; read_strategy v);
  on ← read_exceptions "retry_on_exceptions" ["ConnectionError"; "TimeoutError"] Exception_ data;
  ab ← read_exceptions "abort_on_exceptions" ["ValueError"; "TypeError"] ValueError data;
  a ← cget "max_attempts" (CInt 5) data;
  b ← cget "base_delay" (CQ (1 # 10)) data;
  c ← cget "max_delay" (CQ 60) data;
  d ← cget "total_timeout" (CQ 300) data;
  j ← cget "jitter_factor" (CQ (1 # 10)) data;
  m ← cget "multiplier" (CQ 2) data;
  ec ← cget "enable_circuit_breaker" (CBool true) data;
  ea ← cget "enable_adaptive_delays" (CBool false) data;
  st ← cget "success_rate_threshold" (CQ (8 # 10)) data;
  fw ← cget "failure_window_size" (CInt 100) data;
  mc ← cget "max_concurrent_retries" (CInt 50) data;
  Ok {| max_attempts := a; base_delay := b; max_delay := c; total_timeout := d; backoff_strategy := s; jitter_factor := j;
        multiplier := m; retry_on_exceptions := on; abort_on_exceptions := ab; enable_circuit_breaker := ec;
        enable_adaptive_delays := ea; success_rate_threshold := st; failure_window_size := fw; max_concurrent_retries := mc;
        circuit_breaker_config := None; enable_per_host_limits := CBool true |}.

Definition read_injection (data : cfg) : result InjectionSection :=
  a ← cget "enabled" (CBool false) data;
  b ← cget "base_failure_rate" (CQ 0) data;
  c ← cget "method_specific_rates" (CDict []) data;
  d ← cget "target_metadata_key" (CStr "x-failure-inject") data;
  make_injection a b c None d.

(** A section is read when its key is there. *)
Definition read_section {A} (k : string) (absent : A) (read : cfg -> result A) (data : cfg) : result A :=
  match data with
  | CDict d => match dget k d with Some v => read v | None => Ok absent end
  | _ => Raise (raise_ TypeError "argument is not iterable")
  end.

Definition from_dict (data : cfg) : result ResilienceConfig :=
  a ← cget "service_name" (CStr "default_service") data;
  b ← cget "environment" (CStr "development") data;
  c ← cget "enable_metrics" (CBool true) data;
  d ← cget "enable_health_checks" (CBool true) data;
  e ← cget "enable_request_logging" (CBool true) data;
  f ← cget "max_concurrent_requests" (CInt 100) data;
  g ← cget "request_timeout_seconds" (CQ 30) data;
  cb ← read_section "circuit_breaker" default_breaker read_breaker data;
  rt ← read_section "retry" default_retry read_retry data;
  fi ← read_section "failure_injection" default_injection read_injection data;
  Ok {| service_name := a; environment := b; circuit_breaker := cb; retry := rt; failure_injection := fi; metrics_enabled := c;
        enable_health_checks := d; enable_request_logging := e; max_requests := f; request_timeout_seconds := g |}.
End reading.

Definition to_dict (c : ResilienceConfig) : cfg :=
  let cb := circuit_breaker c in let r := retry c in let fi := failure_injection c in
  CDict [
    ("service_name", service_name c); ("environment", environment c); ("enable_metrics", metrics_enabled c);
    ("enable_health_checks", enable_health_checks c); ("enable_request_logging", enable_request_logging c);
    ("max_concurrent_requests", max_requests c); ("request_timeout_seconds", request_timeout_seconds c);
    ("circuit_breaker", CDict [
      ("failure_threshold", failure_threshold cb); ("recovery_timeout", recovery_timeout cb);
      ("half_open_success_threshold", half_open_success_threshold cb); ("failure_reset_timeout", failure_reset_timeout cb);
      ("max_concurrent_requests", max_concurrent_requests cb); ("enable_metrics", enable_metrics cb)]);
    ("retry", CDict [
      ("max_attempts", max_attempts r); ("base_delay", base_delay r); ("max_delay", max_delay r); ("total_timeout", total_timeout r);
      ("backoff_strategy", CStr (strategy_value (backoff_strategy r))); ("jitter_factor", jitter_factor r); ("multiplier", multiplier r);
      ("enable_circuit_breaker", enable_circuit_breaker r); ("enable_adaptive_delays", enable_adaptive_delays r);
      ("success_rate_threshold", success_rate_threshold r); ("failure_window_size", failure_window_size r);
      ("max_concurrent_retries", max_concurrent_retries r)]);
    ("failure_injection", CDict [
      ("enabled", enabled fi); ("base_failure_rate", base_failure_rate fi); ("method_specific_rates", method_specific_rates fi);
      ("target_metadata_key", target_metadata_key fi)])].

(** ** The environment and files *)

Class ConfigHost (W : Type) := {
  getenv : string -> W -> option string;
  path_exists : string -> M W bool;
  load_yaml : string -> M W cfg;
  dump_yaml : string -> cfg -> M W unit }.

Definition FileNotFoundError : pyclass := subclass "FileNotFoundError" OSError.

Section sources.
Context {W : Type} `{ConfigHost W} (builtins : string -> option listed).

Definition from_yaml_file (file_path : string) : M W ResilienceConfig :=
  there ← path_exists file_path;
  if negb (there : bool) then raise (raise_ FileNotFoundError ("Configuration file not found: " +:+ file_path)) else
  data ← load_yaml file_path;
  lift (from_dict builtins data).

(** [os.getenv(name, fallback)] as a text in the configuration. *)
Definition env_or (name : string) (fallback : cfg) (w : W) : cfg :=
  match getenv name w with Some s => CStr s | None => fallback end.

(** [os.getenv(name, fallback).lower() == "true"] *)
Definition env_flag (name fallback : string) (w : W) : cfg := CBool (String.eqb (str_lower (default fallback (getenv name w))) "true").

(** [if os.getenv(name): field = read(os.getenv(name))] *)
Definition env_value (read : string -> result cfg) (name : string) (current : cfg) (w : W) : result cfg :=
  match getenv name w with Some s => if String.eqb s "" then Ok current else read s | None => Ok current end.

Definition env_int (name : string) : cfg -> W -> result cfg := env_value (fun s => z ← parse_int s; Ok (CInt z)) name.
Definition env_float (name : string) : cfg -> W -> result cfg := env_value (fun s => x ← parse_float s; Ok (CFloat x)) name.

Definition with_breaker (threshold timeout : cfg) (b : BreakerSection) : BreakerSection := {|
  failure_threshold := threshold; recovery_timeout := timeout; half_open_success_threshold := half_open_success_threshold b;
  failure_reset_timeout := failure_reset_timeout b; max_concurrent_requests := max_concurrent_requests b;
  error_classifier := error_classifier b; enable_metrics := enable_metrics b |}.

Definition with_retry (attempts base longest : cfg) (r : RetrySection) : RetrySection := {|
  max_attempts := attempts; base_delay := base; max_delay := longest; total_timeout := total_timeout r;
  backoff_strategy := backoff_strategy r; jitter_factor := jitter_factor r; multiplier := multiplier r;
  retry_on_exceptions := retry_on_exceptions r; abort_on_exceptions := abort_on_exceptions r;
  enable_circuit_breaker := enable_circuit_breaker r; enable_adaptive_delays := enable_adaptive_delays r;
  success_rate_threshold := success_rate_threshold r; failure_window_size := failure_window_size r;
  max_concurrent_retries := max_concurrent_retries r; circuit_breaker_config := circuit_breaker_config r;
  enable_per_host_limits := enable_per_host_limits r |}.

Definition with_injection (on rate : cfg) (i : InjectionSection) : InjectionSection := {|
  enabled := on; base_failure_rate := rate; method_specific_rates := method_specific_rates i;
  error_types := error_types i; target_metadata_key := target_metadata_key i |}.

Definition from_environment (prefix : string) : M W ResilienceConfig := fun w =>
  let d := default_resilience in
  ((ft ← env_int (prefix +:+ "_CIRCUIT_BREAKER_FAILURE_THRESHOLD") (failure_threshold default_breaker) w;
    rt ← env_float (prefix +:+ "_CIRCUIT_BREAKER_RECOVERY_TIMEOUT") (recovery_timeout default_breaker) w;
    ma ← env_int (prefix +:+ "_RETRY_MAX_ATTEMPTS") (max_attempts default_retry) w;
    bd ← env_float (prefix +:+ "_RETRY_BASE_DELAY") (base_delay default_retry) w;
    md ← env_float (prefix +:+ "_RETRY_MAX_DELAY") (max_delay default_retry) w;
    fr ← env_float (prefix +:+ "_FAILURE_INJECTION_BASE_FAILURE_RATE") (base_failure_rate default_injection) w;
    Ok {| service_name := env_or (prefix +:+ "_SERVICE_NAME") (service_name d) w;
          environment := env_or (prefix +:+ "_ENVIRONMENT") (environment d) w;
          circuit_breaker := with_breaker ft rt default_breaker;
          retry := with_retry ma bd md default_retry;
          failure_injection := with_injection (env_flag (prefix +:+ "_FAILURE_INJECTION_ENABLED") "false" w) fr default_injection;
          metrics_enabled := env_flag (prefix +:+ "_ENABLE_METRICS") "true" w;
          enable_health_checks := env_flag (prefix +:+ "_ENABLE_HEALTH_CHECKS") "true" w;
          enable_request_logging := env_flag (prefix +:+ "_ENABLE_REQUEST_LOGGING") "true" w;
          max_requests := max_requests d; request_timeout_seconds := request_timeout_seconds d |}), w).

Definition save_to_yaml_file (c : ResilienceConfig) (file_path : string) : M W unit := dump_yaml file_path (to_dict c).

Definition load_config (config_file : option string) (environment_prefix : string) (use_defaults : bool) : M W ResilienceConfig :=
  if str_truthy config_file then from_yaml_file (default "" config_file)
  else try_except (from_environment environment_prefix) (fun e => if use_defaults then mret default_resilience else raise e).
End sources.

Definition tuned (env : string) (threshold : Z) (timeout : Q) (attempts : Z) (base longest : Q) (injecting : bool) (rate : Q)
    (logging : bool) : ResilienceConfig := {|
  service_name := service_name default_resilience; environment := CStr env;
  circuit_breaker := with_breaker (CInt threshold) (CQ timeout) default_breaker;
  retry := with_retry (CInt attempts) (CQ base) (CQ longest) default_retry;
  failure_injection := with_injection (CBool injecting) (CQ rate) default_injection;
  metrics_enabled := CBool true; enable_health_checks := CBool true; enable_request_logging := CBool logging;
  max_requests := max_requests default_resilience; request_timeout_seconds := request_timeout_seconds default_resilience |}.

Definition get_development_config : ResilienceConfig := tuned "development" 10 10 3 (1 # 10) 5 true (5 # 100) true.
Definition get_production_config : ResilienceConfig := tuned "production" 5 30 5 (2 # 10) 60 false 0 false.
Definition get_testing_config : ResilienceConfig := tuned "testing" 3 5 2 (5 # 100) 1 true (1 # 10) true.

(** ** What is read back *)

Lemma read_strategy_value s : read_strategy (CStr (strategy_value s)) = Ok s.
Proof. by destruct s. Qed.

(** C34: What a configuration keeps when it is written to a dictionary and read back:
    everything but what is not written, which gets its default (the exceptions of the
    retries, found among the builtins by their names, the breaker and the limits per
    host of the retries, the classifier of the breaker and the injected exceptions), the
    failure rate, which is clamped, and empty rates of methods. *)
Theorem config_roundtrip (builtins : string -> option listed) (c : ResilienceConfig) :
  let cb := circuit_breaker c in let r := retry c in let fi := failure_injection c in
  from_dict builtins (to_dict c) =
  rate ← clamp (base_failure_rate fi);
  Ok {| service_name := service_name c; environment := environment c;
        circuit_breaker := {|
          failure_threshold := failure_threshold cb; recovery_timeout := recovery_timeout cb;
          half_open_success_threshold := half_open_success_threshold cb; failure_reset_timeout := failure_reset_timeout cb;
          max_concurrent_requests := max_concurrent_requests cb; error_classifier := should_trip_circuit;
          enable_metrics := enable_metrics cb |};
        retry := {|
          max_attempts := max_attempts r; base_delay := base_delay r; max_delay := max_delay r; total_timeout := total_timeout r;
          backoff_strategy := backoff_strategy r; jitter_factor := jitter_factor r; multiplier := multiplier r;
          retry_on_exceptions := map (fun n => default (LClass Exception_) (builtins n)) ["ConnectionError"; "TimeoutError"];
          abort_on_exceptions := map (fun n => default (LClass ValueError) (builtins n)) ["ValueError"; "TypeError"];
          enable_circuit_breaker := enable_circuit_breaker r; enable_adaptive_delays := enable_adaptive_delays r;
          success_rate_threshold := success_rate_threshold r; failure_window_size := failure_window_size r;
          max_concurrent_retries := max_concurrent_retries r; circuit_breaker_config := None;
          enable_per_host_limits := CBool true |};
        failure_injection := {| enabled := enabled fi; base_failure_rate := rate;
          method_specific_rates := if cfg_truthy (method_specific_rates fi) then method_specific_rates fi else CDict [];
          error_types := [TransientBackendError_cls]; target_metadata_key := target_metadata_key fi |};
        metrics_enabled := metrics_enabled c; enable_health_checks := enable_health_checks c;
        enable_request_logging := enable_request_logging c; max_requests := max_requests c;
        request_timeout_seconds := request_timeout_seconds c |}.
Proof.
  destruct c as [a b [] [ma bd md tt s jf mu on ab ec ea st fw mc cbc eh] [en rate rates types key] c d e f g].
  unfold from_dict, to_dict, read_section, read_retry, read_breaker, read_injection, make_injection. simpl cget. simpl dget.
  cbn [failure_injection base_failure_rate]. by destruct s; simpl; destruct (clamp rate).
Qed.

(** ** Exceptions named in a configuration

    In an imported module of CPython, [__builtins__] is the dictionary of the builtins,
    so that [getattr] finds the methods of dictionaries and no exception. *)

Definition dict_attributes : list string := [
  "clear"; "copy"; "fromkeys"; "get"; "items"; "keys"; "pop"; "popitem"; "setdefault"; "update"; "values"].

Definition dunder (n : string) : bool := startswith "__" n.

Definition builtins_dict (n : string) : option listed :=
  if mem n dict_attributes || dunder n then Some (LAttribute n) else None.

Lemma resolve_ignores fallback names : forallb (fun n => negb (mem n dict_attributes || dunder n)) names = true ->
  resolve builtins_dict fallback (map CStr names) = Ok (map LClass (replicate (length names) fallback)).
Proof.
  induction names as [|n names IH]; [done|]. simpl. intros [Hn Hns]%andb_true_iff. rewrite (IH Hns). simpl.
  unfold builtins_dict. apply negb_true_iff in Hn. by rewrite Hn.
Qed.

(** The retries with these lists of classes. *)
Definition retrying (on ab : list pyclass) : AdvancedRetryConfig := {|
  AdvancedRetry.max_attempts := 5; AdvancedRetry.base_delay := 1 # 10; AdvancedRetry.max_delay := 60;
  AdvancedRetry.total_timeout := 300; AdvancedRetry.backoff_strategy := EXPONENTIAL_JITTER;
  AdvancedRetry.jitter_factor := 1 # 10; AdvancedRetry.multiplier := 2; AdvancedRetry.retry_on_exceptions := on;
  AdvancedRetry.abort_on_exceptions := ab; AdvancedRetry.enable_circuit_breaker := true;
  AdvancedRetry.enable_adaptive_delays := false; AdvancedRetry.success_rate_threshold := 8 # 10;
  AdvancedRetry.circuit_breaker_config := None; AdvancedRetry.failure_window_size := 100;
  AdvancedRetry.max_concurrent_retries := 50; AdvancedRetry.enable_per_host_limits := true |}.

Lemma any_replicate exc c n : isinstance_any exc (replicate n c) = negb (n =? 0)%nat && isinstance exc c.
Proof.
  induction n as [|n IH]; [done|]. unfold isinstance_any in *. simpl in *. rewrite IH. destruct (isinstance exc c); [done|]. by rewrite andb_false_r.
Qed.

(** Whatever exceptions a dictionary names for its retries, every exception is retried
    but [ValueError], also those that are to end the retries. *)
Theorem named_exceptions_ignored names aborts : names <> [] ->
  forallb (fun n => negb (mem n dict_attributes || dunder n)) (names ++ aborts) = true ->
  exists c on ab, from_dict builtins_dict (CDict [("retry", CDict [
      ("retry_on_exceptions", CList (map CStr names)); ("abort_on_exceptions", CList (map CStr aborts))])]) = Ok c /\
    retry_on_exceptions (retry c) = map LClass on /\ abort_on_exceptions (retry c) = map LClass ab /\
    forall exc, catchable exc = true ->
      _is_retryable_exception (retrying on ab) exc = negb (negb (length aborts =? 0)%nat && isinstance exc ValueError).
Proof.
  intros Hne Hall. rewrite forallb_app in Hall. apply andb_true_iff in Hall as [Hn Ha].
  unfold from_dict, read_section, read_retry, read_exceptions. simpl.
  rewrite (resolve_ignores Exception_ names Hn), (resolve_ignores ValueError aborts Ha). simpl.
  eexists _, (replicate (length names) Exception_), (replicate (length aborts) ValueError). split; [reflexivity|]. simpl.
  split; [done|]. split; [done|]. intros exc Hc. unfold _is_retryable_exception. simpl. rewrite !any_replicate.
  change (isinstance exc Exception_) with (catchable exc). rewrite Hc.
  destruct names; [done|]. simpl. by destruct (_ && _).
Qed.

Module Demo.
Lemma named_exceptions_ignored_witness : exists c on ab, from_dict builtins_dict (CDict [("retry", CDict [
      ("retry_on_exceptions", CList [CStr "OSError"]); ("abort_on_exceptions", CList [CStr "TypeError"])])]) = Ok c /\
    retry_on_exceptions (retry c) = map LClass on /\ abort_on_exceptions (retry c) = map LClass ab /\
    forall exc, catchable exc = true -> _is_retryable_exception (retrying on ab) exc = negb (isinstance exc ValueError).
Proof. apply (named_exceptions_ignored ["OSError"] ["TypeError"]); [discriminate|vm_compute; reflexivity]. Defined.

(** An environment of variables. *)
Definition variables := pydict string.
#[export] Instance demo_host : ConfigHost variables := {
  getenv := dget; path_exists _ := mret false; load_yaml _ := mret CNone; dump_yaml _ _ := mret tt }.

(** One number that cannot be read discards all other settings, without an error. *)
Lemma malformed_number_discards_all :
  load_config builtins_dict None "P" true [("P_SERVICE_NAME", "pkd"); ("P_RETRY_MAX_ATTEMPTS", "three")] =
  (Ok default_resilience, [("P_SERVICE_NAME", "pkd"); ("P_RETRY_MAX_ATTEMPTS", "three")]).
Proof. by vm_compute. Qed.

(** The failure rate of the environment is not clamped. *)
Lemma rate_not_clamped : exists c, fst (from_environment "P" [("P_FAILURE_INJECTION_BASE_FAILURE_RATE", "5")]) = Ok c /\
  clamp (base_failure_rate (failure_injection c)) = Ok (CQ 1) /\ base_failure_rate (failure_injection c) <> CQ 1.
Proof. eexists. split; [by vm_compute|]. by vm_compute. Qed.

(** A breaker that the retries were given of their own is lost. *)
Lemma breaker_of_retries_lost : exists c,
  from_dict builtins_dict (to_dict {|
    service_name := CStr "s"; environment := CStr "e"; circuit_breaker := default_breaker;
    retry := {| max_attempts := CInt 5; base_delay := CQ (1 # 10); max_delay := CQ 60; total_timeout := CQ 300;
      backoff_strategy := FIXED; jitter_factor := CQ 0; multiplier := CQ 2; retry_on_exceptions := []; abort_on_exceptions := [];
      enable_circuit_breaker := CBool true; enable_adaptive_delays := CBool false; success_rate_threshold := CQ 1;
      failure_window_size := CInt 100; max_concurrent_retries := CInt 50; circuit_breaker_config := Some default_breaker;
      enable_per_host_limits := CBool false |};
    failure_injection := default_injection; metrics_enabled := CBool true; enable_health_checks := CBool true;
    enable_request_logging := CBool true; max_requests := CInt 100; request_timeout_seconds := CQ 30 |}) = Ok c /\
  circuit_breaker_config (retry c) = None /\ enable_per_host_limits (retry c) = CBool true.
Proof. eexists. split; [by vm_compute|]. done. Qed.

(** The configuration for development does not survive saving and loading: what it
    retries changes. *)
Lemma development_changes : exists c, from_dict builtins_dict (to_dict get_development_config) = Ok c /\
  retry_on_exceptions (retry c) = [LClass Exception_; LClass Exception_].
Proof. eexists. split; [by vm_compute|]. done. Qed.
End Demo.
