(* ===== verification/ResilienceMonitor.v ===== *)
(** * Monitoring of the resilience patterns ([resilience/monitoring.py])

    The health of the circuit breakers and retry managers of a process, over the
    breakers of [CircuitBreaker.v] and the metrics of [AdvancedRetry.v]. The monitor
    holds references to them: other code goes on using the same objects, so that they
    live in the world, as does the monitor itself. *)

From stdpp Require Import pretty.
From S2P Require Import Prelude PyRuntime PyText PyNumbers ErrorCodes CircuitBreaker AdvancedRetry.
Local Open Scope Z_scope.

(** A manager, of which its metrics with their name and start are of interest. *)
Record watched_manager := { wm_name : string; wm_start : Q; wm_metrics : metrics }.

(** The components behind the references. *)
Class Components (W : Type) := {
  breaker_of : nat -> W -> CircuitBreakerConfig * cb;
  manager_of : nat -> W -> watched_manager }.

Inductive details :=
| NoDetails
| BreakerDetails (state : string) (failure_rate : Q) (total_requests : Z) (time_until_recovery : option Q) (stats : stats_t)
| RetryDetails (stats : retry_stats).

Record ResilienceHealthCheck := {
  component_name : string; healthy : bool; status : string; check_details : details; last_check_time : Q }.

Record ResilienceMonitor := {
  _circuit_breakers : pydict nat; _retry_managers : pydict nat;
  circuit_breaker_failure_threshold : Q; retry_failure_threshold : Q }.

Definition new_monitor : ResilienceMonitor := {|
  _circuit_breakers := []; _retry_managers := []; circuit_breaker_failure_threshold := 8 # 10; retry_failure_threshold := 7 # 10 |}.

Definition register_circuit_breaker (name : string) (breaker : nat) (m : ResilienceMonitor) : ResilienceMonitor := {|
  _circuit_breakers := dset name breaker (_circuit_breakers m); _retry_managers := _retry_managers m;
  circuit_breaker_failure_threshold := circuit_breaker_failure_threshold m; retry_failure_threshold := retry_failure_threshold m |}.

Definition register_retry_manager (name : string) (manager : nat) (m : ResilienceMonitor) : ResilienceMonitor := {|
  _circuit_breakers := _circuit_breakers m; _retry_managers := dset name manager (_retry_managers m);
  circuit_breaker_failure_threshold := circuit_breaker_failure_threshold m; retry_failure_threshold := retry_failure_threshold m |}.

(** [f"{x:.2%}"] *)
Definition percent (x : Q) : string := fmt_2f (x * 100) +:+ "%".

Section monitor.
Context {W : Type} `{World W, Components W} (self : ResilienceMonitor).

Definition now : M W Q := fun w => let '(t, w) := time_time w in (Ok t, w).

Definition checked (name : string) (ok : bool) (text : string) (d : details) : M W ResilienceHealthCheck :=
  t ← now; mret {| component_name := name; healthy := ok; status := text; check_details := d; last_check_time := t |}.

Definition failure_rate (s : stats_t) : Q :=
  if 0 <? st_total_requests s then (inject_Z (st_total_failures s) / inject_Z (st_total_requests s))%Q else 0%Q.

Definition get_circuit_breaker_health (name : string) : M W ResilienceHealthCheck :=
  match dget name (_circuit_breakers self) with
  | None => checked name false "Circuit breaker not found" NoDetails
  | Some ref =>
      t1 ← now;
      health_info ← gets (fun w => let '(config, b) := breaker_of ref w in health_check config t1 b);
      t2 ← now;
      s ← gets (fun w => stats t2 (snd (breaker_of ref w)));
      let rate := failure_rate s in
      checked name (hc_healthy health_info && Qltb rate (circuit_breaker_failure_threshold self))
        ("State: " +:+ hc_state health_info +:+ ", Failure rate: " +:+ percent rate)
        (BreakerDetails (hc_state health_info) rate (st_total_requests s) (hc_time_until_recovery health_info) s)
  end.

Definition manager_stats (ref : nat) : M W retry_stats :=
  t ← now; gets (fun w => let m := manager_of ref w in get_stats (wm_name m) (wm_start m) t (wm_metrics m)).

Definition get_retry_manager_health (name : string) : M W ResilienceHealthCheck :=
  match dget name (_retry_managers self) with
  | None => checked name false "Retry manager not found" NoDetails
  | Some ref =>
      s ← manager_stats ref;
      let success_rate := rs_overall_success_rate s in
      checked name (Qle_bool (retry_failure_threshold self) success_rate) ("Success rate: " +:+ percent success_rate) (RetryDetails s)
  end.

(** The reports of all names, in their order. *)
Fixpoint reports {A} (report : string -> M W A) (names : list string) : M W (pydict A) :=
  match names with
  | [] => mret []
  | n :: ns => r ← report n; rs ← reports report ns; mret ((n, r) :: rs)
  end.

(** The entries of the report show the health, status and details of each check. *)
Record overall := {
  overall_healthy : bool; circuit_breakers : pydict ResilienceHealthCheck; retry_managers : pydict ResilienceHealthCheck;
  overall_timestamp : Q }.

Definition get_overall_health : M W overall :=
  cbs ← reports get_circuit_breaker_health (dkeys (_circuit_breakers self));
  rms ← reports get_retry_manager_health (dkeys (_retry_managers self));
  t ← now;
  mret {| overall_healthy := forallb healthy (dvalues cbs) && forallb healthy (dvalues rms);
          circuit_breakers := cbs; retry_managers := rms; overall_timestamp := t |}.

Record summary := {
  cb_metrics : pydict stats_t; rm_metrics : pydict retry_stats; total_circuit_breakers : Z; total_retry_managers : Z;
  summary_timestamp : Q }.

Definition breaker_stats (name : string) : M W stats_t :=
  t ← now; gets (fun w => stats t (snd (breaker_of (default 0%nat (dget name (_circuit_breakers self))) w))).

Definition get_metrics_summary : M W summary :=
  cbs ← reports breaker_stats (dkeys (_circuit_breakers self));
  rms ← reports (fun n => manager_stats (default 0%nat (dget n (_retry_managers self)))) (dkeys (_retry_managers self));
  t ← now;
  mret {| cb_metrics := cbs; rm_metrics := rms; total_circuit_breakers := Z.of_nat (length (_circuit_breakers self));
          total_retry_managers := Z.of_nat (length (_retry_managers self)); summary_timestamp := t |}.

Definition repeated (n : nat) (s : string) : string := String.concat "" (replicate n s).

(** A part of the report: a title, a rule, and a line for each component. *)
Definition report_section (title : string) (components : pydict ResilienceHealthCheck) : list string :=
  match components with
  | [] => []
  | _ => [title; repeated 20 "-"] ++
         map (fun kv => (if healthy (snd kv) then "✅" else "❌") +:+ " " +:+ fst kv +:+ ": " +:+ status (snd kv)) components ++ [""]
  end.

(** [ctime] is [time.ctime], which depends on the local time zone. *)
Definition generate_health_report (ctime : Q -> string) : M W string :=
  health ← get_overall_health;
  mret (join nl
    (["Resilience Health Report"; repeated 50 "=";
      "Overall Status: " +:+ (if overall_healthy health then "HEALTHY" else "UNHEALTHY");
      "Generated at: " +:+ ctime (overall_timestamp health); ""] ++
     report_section "Circuit Breakers:" (circuit_breakers health) ++ report_section "Retry Managers:" (retry_managers health))).
End monitor.

(** ** The monitor of the process *)

Class GlobalMonitor (W : Type) := { _global_monitor : W -> ResilienceMonitor; set_global_monitor : ResilienceMonitor -> W -> W }.

Section global.
Context {W : Type} `{World W, Components W, GlobalMonitor W}.

Definition get_global_monitor : M W ResilienceMonitor := gets _global_monitor.
Definition register_circuit_breaker_for_monitoring (name : string) (breaker : nat) : M W unit :=
  modify (fun w => set_global_monitor (register_circuit_breaker name breaker (_global_monitor w)) w).
Definition register_retry_manager_for_monitoring (name : string) (manager : nat) : M W unit :=
  modify (fun w => set_global_monitor (register_retry_manager name manager (_global_monitor w)) w).
Definition get_resilience_health_status : M W overall := m ← get_global_monitor; get_overall_health m.
Definition generate_resilience_health_report (ctime : Q -> string) : M W string :=
  m ← get_global_monitor; generate_health_report m ctime.
End global.

(** ** When everything is healthy *)

Class ClockLaws (W : Type) `{World W, Components W} := {
  clock_breaker w t w' r : time_time w = (t, w') -> breaker_of r w' = breaker_of r w;
  clock_manager w t w' r : time_time w = (t, w') -> manager_of r w' = manager_of r w }.

Section health.
Context {W : Type} `{HL : ClockLaws W} (self : ResilienceMonitor).

(** The components are as they were. *)
Definition same (w w' : W) : Prop := (forall r, breaker_of r w' = breaker_of r w) /\ (forall r, manager_of r w' = manager_of r w).

Lemma same_trans w1 w2 w3 : same w1 w2 -> same w2 w3 -> same w1 w3.
Proof. intros [H1 H2] [H3 H4]. split; intros r; [by rewrite H3|by rewrite H4]. Qed.

Definition share (a b : Z) : Q := if 0 <? b then (inject_Z a / inject_Z b)%Q else 0%Q.

Definition breaker_fine (b : cb) : Prop :=
  _state b <> OPEN /\ (share (_total_failures b) (_total_requests b) < circuit_breaker_failure_threshold self)%Q.
Definition manager_fine (m : watched_manager) : Prop :=
  (retry_failure_threshold self <= share (successful_operations (wm_metrics m)) (successful_operations (wm_metrics m) + failed_operations (wm_metrics m)))%Q.

(** Reads the components without changing them, and gives a value with [P]. *)
Definition observes {A} (m : M W A) (P : W -> A -> Prop) : Prop := forall w, exists a w', m w = (Ok a, w') /\ same w w' /\ P w a.

Lemma observes_ret {A} (a : A) (P : W -> A -> Prop) : (forall w, P w a) -> observes (mret a) P.
Proof. intros HP w. by exists a, w. Qed.

Lemma observes_gets {A} (f : W -> A) (P : W -> A -> Prop) : (forall w, P w (f w)) -> observes (gets f) P.
Proof. intros HP w. by exists (f w), w. Qed.

Lemma observes_now P : (forall w t, P w t) -> observes now P.
Proof.
  intros HP w. unfold now. destruct (time_time w) as [t w'] eqn:Ht. exists t, w'. split; [done|]. split; [|done].
  split; intros r; [by eapply clock_breaker|by eapply clock_manager].
Qed.

Lemma observes_bind {A B} (m : M W A) (f : A -> M W B) P Q :
  observes m P -> (forall w a, P w a -> forall w', same w w' -> exists b w2, f a w' = (Ok b, w2) /\ same w' w2 /\ Q w b) -> observes (m ≫= f) Q.
Proof.
  intros Hm Hf w. destruct (Hm w) as (a & w1 & He & Hs & Hp). destruct (Hf w a Hp w1 Hs) as (b & w2 & Hb & Hs2 & Hq).
  exists b, w2. unfold mbind, M_bind. rewrite He. split; [done|]. split; [by eapply same_trans|done].
Qed.

Lemma observes_checked name ok text d (P : W -> bool -> Prop) : (forall w, P w ok) -> observes (checked name ok text d) (fun w h => P w (healthy h)).
Proof.
  intros HP w. unfold checked. destruct (observes_now (fun _ _ => True) ltac:(done) w) as (t & w' & He & Hs & _).
  unfold mbind, M_bind. rewrite He. eexists _, w'. split; [done|]. by split.
Qed.

Lemma breaker_health name ref : dget name (_circuit_breakers self) = Some ref ->
  observes (get_circuit_breaker_health self name) (fun w h => healthy h = true <-> breaker_fine (snd (breaker_of ref w))).
Proof.
  intros Hr w. unfold get_circuit_breaker_health. rewrite Hr.
  destruct (observes_now (fun _ _ => True) ltac:(done) w) as (t1 & w1 & H1 & [Hb1 Hm1] & _).
  destruct (observes_now (fun _ _ => True) ltac:(done) w1) as (t2 & w2 & H2 & Hs2 & _).
  unfold mbind, M_bind, gets. rewrite H1. cbn beta iota. rewrite H2. cbn beta iota zeta.
  destruct (breaker_of ref w1) as [config b] eqn:Hb.
  edestruct (observes_checked name) as (h & w3 & Hh & Hs3 & Hp); [|rewrite Hh; exists h, w3; split; [done|split]].
  { intros w3. instantiate (1 := fun _ x => x = _). reflexivity. }
  - eapply same_trans; [|exact Hs3]. eapply same_trans; [|exact Hs2]. by split.
  - destruct Hs2 as [Hb2 _]. rewrite <- (Hb1 ref), Hb. simpl in Hp. rewrite Hp. rewrite andb_true_iff, Qltb_lt, (Hb2 ref), Hb. simpl.
    unfold breaker_fine, failure_rate, share. simpl. by rewrite bool_decide_eq_true.
Qed.

Lemma manager_health name ref : dget name (_retry_managers self) = Some ref ->
  observes (get_retry_manager_health self name) (fun w h => healthy h = true <-> manager_fine (manager_of ref w)).
Proof.
  intros Hr w. unfold get_retry_manager_health, manager_stats. rewrite Hr.
  destruct (observes_now (fun _ _ => True) ltac:(done) w) as (t1 & w1 & H1 & [Hb1 Hm1] & _).
  unfold mbind, M_bind, gets. rewrite H1. cbn beta iota zeta.
  edestruct (observes_checked name) as (h & w3 & Hh & Hs3 & Hp); [|rewrite Hh; exists h, w3; split; [done|split]].
  { intros w3. instantiate (1 := fun _ x => x = _). reflexivity. }
  - eapply same_trans; [|exact Hs3]. by split.
  - rewrite <- (Hm1 ref). simpl in Hp. rewrite Hp, Qle_bool_iff. done.
Qed.

Lemma reports_observe {A} (report : string -> M W A) (ok : A -> bool) (fine : W -> string -> Prop) names :
  (forall n w w', In n names -> same w w' -> fine w' n <-> fine w n) ->
  (forall n, In n names -> observes (report n) (fun w a => ok a = true <-> fine w n)) ->
  observes (reports report names) (fun w l => forallb ok (dvalues l) = true <-> forall n, In n names -> fine w n).
Proof.
  induction names as [|n ns IH]; intros Hsame Hrep; [by apply observes_ret|].
  change (reports report (n :: ns)) with (r ← report n; rs ← reports report ns; mret ((n, r) :: rs)).
  eapply observes_bind; [apply Hrep; by left|]. intros w a Ha w1 Hs1.
  destruct (IH ltac:(intros; apply Hsame; [by right|done]) ltac:(intros; apply Hrep; by right) w1) as (l & w2 & Hl & Hs2 & Hiff).
  unfold mbind, M_bind. rewrite Hl. eexists _, w2. split; [done|]. split; [done|]. simpl. rewrite andb_true_iff, Ha, Hiff. split.
  - intros [Hn Hns] n' [<-|Hin]; [done|]. apply (Hsame n' w w1); [by right|done|by apply Hns].
  - intros Hall. split; [apply Hall; by left|]. intros n' Hin. apply (Hsame n' w w1); [by right|done|]. apply Hall. by right.
Qed.

Lemma key_found {A} n (d : pydict A) : In n (dkeys d) -> exists v, dget n d = Some v.
Proof. intros Hin. destruct (dget n d) as [v|] eqn:Hv; [by exists v|]. by apply dget_None_In in Hv. Qed.

(** Everything is healthy exactly when no breaker is open or has failed in too large a
    share of its requests, and every manager has succeeded in a large enough share of
    its operations; without any operation a share is zero. *)
Theorem overall_health_iff w : exists h w', get_overall_health self w = (Ok h, w') /\ same w w' /\
  (overall_healthy h = true <->
   (forall name ref, dget name (_circuit_breakers self) = Some ref -> breaker_fine (snd (breaker_of ref w))) /\
   (forall name ref, dget name (_retry_managers self) = Some ref -> manager_fine (manager_of ref w))).
Proof.
  set (bf := fun w n => exists ref, dget n (_circuit_breakers self) = Some ref /\ breaker_fine (snd (breaker_of ref w))).
  set (mf := fun w n => exists ref, dget n (_retry_managers self) = Some ref /\ manager_fine (manager_of ref w)).
  assert (observes (reports (get_circuit_breaker_health self) (dkeys (_circuit_breakers self)))
    (fun w l => forallb healthy (dvalues l) = true <-> forall n, In n (dkeys (_circuit_breakers self)) -> bf w n)) as Hcb.
  { apply reports_observe; unfold bf.
    - intros n w1 w2 _ [Hs _]. by setoid_rewrite Hs.
    - intros n [ref Hr]%key_found w1. destruct (breaker_health n ref Hr w1) as (h & w2 & He & Hs & Hp). exists h, w2.
      split; [done|]. split; [done|]. rewrite Hp. naive_solver. }
  assert (observes (reports (get_retry_manager_health self) (dkeys (_retry_managers self)))
    (fun w l => forallb healthy (dvalues l) = true <-> forall n, In n (dkeys (_retry_managers self)) -> mf w n)) as Hrm.
  { apply reports_observe; unfold mf.
    - intros n w1 w2 _ [_ Hs]. by setoid_rewrite Hs.
    - intros n [ref Hr]%key_found w1. destruct (manager_health n ref Hr w1) as (h & w2 & He & Hs & Hp). exists h, w2.
      split; [done|]. split; [done|]. rewrite Hp. naive_solver. }
  destruct (Hcb w) as (cbs & w1 & He1 & Hs1 & Hp1). destruct (Hrm w1) as (rms & w2 & He2 & Hs2 & Hp2).
  destruct (observes_now (fun _ _ => True) ltac:(done) w2) as (t & w3 & He3 & Hs3 & _).
  unfold get_overall_health, mbind, M_bind. rewrite He1, He2, He3. eexists _, w3. split; [done|].
  split; [by eapply same_trans; [|exact Hs3]; eapply same_trans|]. simpl. rewrite andb_true_iff, Hp1, Hp2.
  assert (forall {A} n (v : A) d, dget n d = Some v -> In n (dkeys d)) as Hkey
    by (intros A n v d Hv; apply dget_In in Hv; by apply (in_map fst) in Hv).
  unfold bf, mf. destruct Hs1 as [_ Hm1]. setoid_rewrite Hm1. split; intros [Hall1 Hall2]; split.
  - intros n r Hr. destruct (Hall1 n (Hkey _ _ _ _ Hr)) as (r' & Hr' & Hf). by simplify_eq.
  - intros n r Hr. destruct (Hall2 n (Hkey _ _ _ _ Hr)) as (r' & Hr' & Hf). by simplify_eq.
  - intros n [r Hr]%key_found. exists r. split; [done|by eapply Hall1].
  - intros n [r Hr]%key_found. exists r. split; [done|by eapply Hall2].
Qed.
End health.

(** ** Requests that are not counted

    Only the decorators of a breaker count requests. A breaker that is asked and told
    the outcomes, as retries and interceptors do, never has a failure rate. *)
Theorem undecorated_failures_invisible config ops t0 t :
  Forall (fun o => fst o <> Enter) ops -> failure_rate (stats t (snd (run config ops (init t0)))) = 0%Q.
Proof.
  intros Hops. assert (forall b, _total_requests b = 0 -> _total_requests (snd (run config ops b)) = 0) as Hrun.
  { induction Hops as [|[o t'] ops Ho Hops IH]; intros b Hb; [done|]. simpl.
    assert (_total_requests (snd (exec config o t' b)) = 0) as Hx.
    { destruct o; simpl in *; try done.
      - unfold allow_request, _can_make_request, _transition_to, reject, set_counts. by repeat case_match; simplify_eq/=.
      - unfold record_success, set_counts, _transition_to. by repeat case_match; simplify_eq/=.
      - unfold record_failure, set_counts, set_opened_at, _transition_to. by repeat case_match; simplify_eq/=. }
    destruct (exec config o t' b) as [r b']. specialize (IH b' Hx). by destruct (run config ops b'). }
  unfold failure_rate, stats. simpl. by rewrite Hrun.
Qed.

Module Demo.
(** The clock, and one breaker and one manager that have not been used. *)
#[export] Instance demo_clock : World Q := { time_time w := (w, (w + 1)%Q); sleep d w := (w + d)%Q; randbelow _ w := (0, w) }.
#[export] Instance demo_components : Components Q := {
  breaker_of _ _ := (default_config, init 0); manager_of _ _ := {| wm_name := "pkd"; wm_start := 0; wm_metrics := init_metrics |} }.
#[export] Instance demo_laws : ClockLaws Q.
Proof. by split. Qed.

Definition shown (r : result overall * Q) : option bool := match r with (Ok h, _) => Some (overall_healthy h) | _ => None end.

(** A manager that has not done anything yet makes the whole unhealthy. *)
Lemma idle_manager_unhealthy :
  shown (get_overall_health (register_circuit_breaker "db" 0 new_monitor) 0%Q) = Some true /\
  shown (get_overall_health (register_retry_manager "pkd" 0 (register_circuit_breaker "db" 0 new_monitor)) 0%Q) = Some false.
Proof. by vm_compute. Qed.

(** Here the manager is the reason. *)
Definition idle : ResilienceMonitor := register_retry_manager "pkd" 0 (register_circuit_breaker "db" 0 new_monitor).

Lemma overall_health_iff_witness : exists h w', get_overall_health idle 0%Q = (Ok h, w') /\ same 0%Q w' /\
  (overall_healthy h = true <->
   (forall name ref, dget name (_circuit_breakers idle) = Some ref -> breaker_fine idle (snd (breaker_of ref 0%Q))) /\
   (forall name ref, dget name (_retry_managers idle) = Some ref -> manager_fine idle (manager_of ref 0%Q))).
Proof. exact (overall_health_iff idle 0%Q). Defined.

(** Three failures without one counted request. *)
Lemma undecorated_failures_invisible_witness :
  failure_rate (stats 5 (snd (run default_config [(Allow, 1%Q); (Failed None, 2%Q); (Failed None, 3%Q); (Failed None, 4%Q)] (init 0)))) = 0%Q.
Proof. apply undecorated_failures_invisible. repeat constructor; discriminate. Defined.
End Demo.
