(* ===== verification/Outbound.v ===== *)
(** * Outbound calls ([resilience/outbound.py])

    [async_call_with_resilience] gates a call with a named breaker and hands
    the attempt to a retry policy of the tenacity library. The policy is a
    parameter: what is used of it is that it runs the attempt one or more times,
    again only after an exception, and ends with the last result
    ([reraise=True]). *)

From S2P Require Import Prelude PyRuntime ErrorCodes CircuitBreaker.
Local Open Scope Z_scope.

Section outbound.
Context {W : Type} `{World W} {T : Type}.

(** The module's [_OUTBOUND_BREAKERS] and the world. *)
Record state := St { breakers : pydict cb; world : W }.

Definition clock : M state Q := fun s =>
  let '(t, w) := time_time (world s) in (Ok t, St (breakers s) w).

Definition _get_breaker (name : string) : M state cb := fun s =>
  match dget name (breakers s) with
  | Some b => (Ok b, s)
  | None => let '(t, w) := time_time (world s) in
            (Ok (init t), St (dset name (init t) (breakers s)) w)
  end.

Definition set_breaker (name : string) (b : cb) : M state unit :=
  modify (fun s => St (dset name b (breakers s)) (world s)).

(** A method call on the breaker registered under [name]. *)
Definition with_breaker {A} (name : string) (f : Q -> cb -> A * cb) : M state A :=
  b ← _get_breaker name;
  t ← clock;
  let '(a, b) := f t b in
  set_breaker name b ≫= fun _ => mret a.

(** The body of [_attempt]: the [return] of the [try] block leaves the
    function, so the [else] block with [record_success] is not reached. *)
Definition _attempt (name : string) (call_factory : W -> result T * W) : M state T := fun s =>
  let '(r, w) := call_factory (world s) in
  let s := St (breakers s) w in
  match r with
  | Ok v => (Ok v, s)
  | Raise e =>
      if catchable e
      then (with_breaker name (fun t b => (tt, record_failure default_config None t b)) ≫=
            fun _ => raise e) s
      else (Raise e, s)
  end.

(** One or more runs of [m], each but the last ending in an exception. *)
Inductive repeats (m : M state T) : state -> result T -> state -> Prop :=
| rep_last s r s' : m s = (r, s') -> repeats m s r s'
| rep_again s e s1 r s' : m s = (Raise e, s1) -> repeats m s1 r s' -> repeats m s r s'.

Definition is_policy (policy : M state T -> M state T) : Prop :=
  forall m s, repeats m s (fst (policy m s)) (snd (policy m s)).

Context (policy : M state T -> M state T).

Definition async_call_with_resilience (breaker_name : string)
    (call_factory : W -> result T * W) : M state T :=
  allowed ← with_breaker breaker_name (allow_request default_config);
  if negb allowed
  then raise (raise_ RuntimeError ("Circuit '" +:+ breaker_name +:+ "' is OPEN"))
  else policy (_attempt breaker_name call_factory).

(** Several calls one after the other, through any breakers. *)
Fixpoint calls (cs : list (string * (W -> result T * W))) (s : state) : state :=
  match cs with
  | [] => s
  | (name, f) :: cs => calls cs (snd (async_call_with_resilience name f s))
  end.

(** ** No outbound breaker ever closes again *)

(** The breaker registered under [name] has left the closed state, having
    recorded [k] successes. *)
Definition tripped (name : string) (k : Z) (s : state) : Prop :=
  exists b, dget name (breakers s) = Some b /\ _state b <> CLOSED /\ _total_successes b = k.

Lemma with_breaker_tripped {A} name name' k (f : Q -> cb -> A * cb) s :
  (forall t b, _state b <> CLOSED -> _state (snd (f t b)) <> CLOSED /\
     _total_successes (snd (f t b)) = _total_successes b) ->
  tripped name k s ->
  exists a s', with_breaker name' f s = (Ok a, s') /\ tripped name k s'.
Proof.
  intros Hf (b & Hb & Ho & Hk). unfold with_breaker, _get_breaker, clock, mbind, M_bind.
  destruct (String.eqb_spec name' name) as [->|Hne].
  - rewrite Hb. destruct (time_time (world s)) as [t w].
    destruct (Hf t b Ho) as [Ho' Hk']. destruct (f t b) as [a b'].
    eexists a, _. split; [done|]. exists b'. simpl in *. rewrite dget_dset_eq. split_and!; congruence.
  - destruct (dget name' (breakers s)) as [b0|]; simpl.
    + destruct (time_time (world s)) as [t w]. destruct (f t b0) as [a b'].
      eexists a, _. split; [done|]. exists b. simpl. by rewrite dget_dset_ne by done.
    + destruct (time_time (world s)) as [t w]; simpl. destruct (time_time w) as [t2 w2].
      destruct (f t2 _) as [a b']. eexists a, _. split; [done|]. exists b. simpl.
      by rewrite !dget_dset_ne by done.
Qed.

Lemma failure_open_or_half t b : _state b <> CLOSED ->
  _state (record_failure default_config None t b) <> CLOSED /\
  _total_successes (record_failure default_config None t b) = _total_successes b.
Proof. unfold record_failure, _transition_to. by destruct b as [[] ]. Qed.

Lemma gate_open_or_half t b : _state b <> CLOSED ->
  _state (snd (allow_request default_config t b)) <> CLOSED /\
  _total_successes (snd (allow_request default_config t b)) = _total_successes b.
Proof.
  unfold allow_request, _can_make_request, _transition_to.
  destruct b as [[] ]; simpl; repeat (split_if; simpl); done.
Qed.

Lemma attempt_tripped name name' k f s r s' :
  tripped name k s -> _attempt name' f s = (r, s') -> tripped name k s'.
Proof.
  unfold _attempt. destruct (f (world s)) as [[v|e] w]; intros Ht.
  - intros; by simplify_eq.
  - split_if; [|intros; by simplify_eq].
    destruct (with_breaker_tripped name name' k
      (fun t b => (tt, record_failure default_config None t b)) (St (breakers s) w))
      as ([] & s1 & E & Ht1); [apply failure_open_or_half|done|].
    unfold mbind, M_bind. rewrite E. unfold raise. intros; by simplify_eq.
Qed.

Lemma repeats_tripped name name' k f s r s' :
  repeats (_attempt name' f) s r s' -> tripped name k s -> tripped name k s'.
Proof. induction 1; eauto using attempt_tripped. Qed.

(** An outbound breaker that has opened never closes again. Whatever the
    later calls do, and however many of them succeed, no sequence of outbound
    calls through any breakers makes it closed, and none of their successes
    is recorded: the half-open trial cannot complete. *)
Theorem outbound_never_closes name k cs s :
  is_policy policy -> tripped name k s -> tripped name k (calls cs s).
Proof.
  intros Hp. revert s. induction cs as [|[name' f] cs IH]; intros s Ht; simpl; [done|].
  apply IH. unfold async_call_with_resilience, mbind, M_bind.
  destruct (with_breaker_tripped name name' k _ s gate_open_or_half Ht) as ([] & s1 & -> & Ht1);
    simpl; [|done].
  eapply repeats_tripped; [apply Hp|done].
Qed.
End outbound.

(** A policy that makes one attempt. *)
Definition once {W T} (m : M (@state W) T) : M (@state W) T := m.

Lemma once_is_policy {W T} : is_policy (@once W T).
Proof. intros m s. apply rep_last. unfold once. by destruct (m s). Qed.

#[local] Instance clock_world : World Q := {
  time_time := fun w => (w, (w + 1)%Q); sleep := fun d w => (w + d)%Q; randbelow := fun _ w => (0, w) }.

Lemma outbound_never_closes_witness :
  tripped "svc" 0
    (calls once (replicate 20 ("svc", fun w : Q => (Ok 1, w)))
       {| breakers := [("svc", opened_breaker)]; world := 1000%Q |}).
Proof.
  apply (outbound_never_closes once); [apply once_is_policy|].
  exists opened_breaker. split; [reflexivity|]. split; [discriminate|reflexivity].
Defined.
