(* ===== verification/RateLimiter.v ===== *)
(** * Rate limiting ([middleware/rate_limiter.py])

    A token bucket per client with minute and hour windows. Storage is an
    interface, [RateLimitBackend], with the in-memory and the Redis
    implementations of the source as instances. A backend that hands out
    references sees mutations of the bucket it returned ([write_through]); the
    in-memory one does, the Redis one returns copies. [check_limit] takes no lock:
    a call goes through the [phase]s of [advance], one access to what the calls share
    at a time, and the accesses of many calls interleave ([access], [admissions]).
    Times and token counts are rationals. *)

From S2P Require Import Prelude PyRuntime ErrorCodes.
Local Open Scope Z_scope.

Record RateLimitRule := {
  requests_per_second : Q;
  requests_per_minute : Q;
  requests_per_hour : Q;
  burst_size : Z;
  client_type : string;
  priority : Z }.

Record RateLimitStatus := {
  allowed : bool;
  remaining_requests : Z;
  reset_time : option Q;
  retry_after : option Q;
  rule_applied : option string }.

Record ClientBucket := {
  tokens : Q;
  last_refill : Q;
  requests_in_window : list Q;
  total_requests : Z }.

(** ** Storage *)

Class RateLimitBackend (S : Type) := {
  get_client_data : string -> S -> option ClientBucket;
  set_client_data : string -> ClientBucket -> S -> S;
  cleanup_expired : Q -> S -> S;
  write_through : string -> ClientBucket -> S -> S }.

Module Memory.
Definition clients : Type := pydict ClientBucket.

Definition get_client_data (client_id : string) (s : clients) : option ClientBucket := dget client_id s.

Definition set_client_data (client_id : string) (bucket : ClientBucket) (s : clients) : clients :=
  dset client_id bucket s.

Definition cleanup_expired (before_timestamp : Q) (s : clients) : clients :=
  let expired_clients :=
    map fst (List.filter (fun kv => Qltb (last_refill (snd kv)) before_timestamp) s) in
  fold_left (fun s client_id => dpop client_id s) expired_clients s.

(** A stored bucket is the object that was handed out. *)
Definition write_through (client_id : string) (bucket : ClientBucket) (s : clients) : clients :=
  if din client_id s then dset client_id bucket s else s.
End Memory.

#[export] Instance memory_backend : RateLimitBackend (pydict ClientBucket) := {
  get_client_data := Memory.get_client_data;
  set_client_data := Memory.set_client_data;
  cleanup_expired := Memory.cleanup_expired;
  write_through := Memory.write_through }.

(** The Redis client is a parameter: hashes of numbers under a key, operations
    of which can raise. *)
Class Redis (R : Type) := {
  hgetall : string -> R -> result (pydict Q);
  hset : string -> pydict Q -> R -> result R;
  expire : string -> Z -> R -> result R }.

Module RedisBackend.
Section redis.
Context {R : Type} `{Redis R} (key_prefix : string).

Definition _get_key (client_id : string) : string := key_prefix +:+ client_id.

Definition get_client_data (client_id : string) (r : R) : option ClientBucket :=
  match hgetall (_get_key client_id) r with
  | Raise _ => None
  | Ok [] => None
  | Ok data =>
      Some {| tokens := default 0%Q (dget "tokens" data);
              last_refill := default 0%Q (dget "last_refill" data);
              requests_in_window := [];
              total_requests := py_int (default 0%Q (dget "total_requests" data)) |}
  end.

Definition set_client_data (client_id : string) (bucket : ClientBucket) (r : R) : R :=
  let key := _get_key client_id in
  let data := [("tokens", tokens bucket); ("last_refill", last_refill bucket);
               ("total_requests", inject_Z (total_requests bucket))] in
  match hset key data r with
  | Raise _ => r
  | Ok r => match expire key 3600 r with Raise _ => r | Ok r => r end
  end.

Definition cleanup_expired (before_timestamp : Q) (r : R) : R := r.

Definition backend : RateLimitBackend R := {|
  RateLimiter.get_client_data := get_client_data;
  RateLimiter.set_client_data := set_client_data;
  RateLimiter.cleanup_expired := cleanup_expired;
  RateLimiter.write_through := fun _ _ r => r |}.
End redis.
End RedisBackend.

(** ** The limiter *)

Definition q_of_Z (z : Z) : Q := inject_Z z.

(** [a / b] on floats. *)
Definition py_div (a b : Q) : result Q :=
  if Qeq_bool b 0 then Raise (raise_ ZeroDivisionError "float division by zero") else Ok (a / b)%Q.

Definition default_rule : RateLimitRule := {|
  requests_per_second := 10; requests_per_minute := 600; requests_per_hour := 3600;
  burst_size := 20; client_type := "default"; priority := 0 |}.

(** [max(rules, key=lambda r: r.priority)]: the first of the best. *)
Definition max_priority (r : RateLimitRule) (rs : list RateLimitRule) : RateLimitRule :=
  fold_left (fun best r => if priority best <? priority r then r else best) rs r.

Definition get_rule_for_client (rules : pydict RateLimitRule) (ctype : string) : RateLimitRule :=
  let matching_rules := List.filter
    (fun rule => String.eqb (client_type rule) ctype || String.eqb (client_type rule) "default")
    (dvalues rules) in
  match matching_rules with
  | [] => default_rule
  | r :: rs => max_priority r rs
  end.

Definition _refill_bucket (bucket : ClientBucket) (rule : RateLimitRule) (now : Q) : ClientBucket :=
  (let time_passed := now - last_refill bucket in
   if Qle_bool time_passed 0 then bucket
   else
     let tokens_to_add := time_passed * requests_per_second rule in
     {| tokens := py_min (q_of_Z (burst_size rule)) (tokens bucket + tokens_to_add);
        last_refill := now; requests_in_window := requests_in_window bucket;
        total_requests := total_requests bucket |})%Q.

(** [while window and window[0] < hour_ago: window.popleft()] *)
Fixpoint drop_before (hour_ago : Q) (window : list Q) : list Q :=
  match window with
  | t :: rest => if Qltb t hour_ago then drop_before hour_ago rest else window
  | [] => []
  end.

Definition count_since (since : Q) (window : list Q) : Q :=
  inject_Z (Z.of_nat (length (List.filter (fun t => Qle_bool since t) window))).

Definition set_window (w : list Q) (b : ClientBucket) : ClientBucket := {|
  tokens := tokens b; last_refill := last_refill b; requests_in_window := w;
  total_requests := total_requests b |}.

Definition _check_window_limits (bucket : ClientBucket) (rule : RateLimitRule) (now : Q) :
    bool * option Q * ClientBucket :=
  (let minute_ago := now - 60 in
   let hour_ago := now - 3600 in
   let window := drop_before hour_ago (requests_in_window bucket) in
   let bucket := set_window window bucket in
   let requests_last_minute := count_since minute_ago window in
   let requests_last_hour := inject_Z (Z.of_nat (length window)) in
   if Qle_bool (requests_per_minute rule) requests_last_minute
   then (false, Some (minute_ago + 60), bucket)
   else if Qle_bool (requests_per_hour rule) requests_last_hour
   then (false, Some (match window with t :: _ => t | [] => now end + 3600), bucket)
   else (true, None, bucket))%Q.

Record limiter (S : Type) := Limiter {
  backend : S; rules : pydict RateLimitRule; _last_cleanup : Q }.
Arguments Limiter {S} _ _ _.
Arguments backend {S} _.
Arguments rules {S} _.
Arguments _last_cleanup {S} _.

Section limiter.
Context {S : Type} `{RateLimitBackend S}.

Definition add_rule (name : string) (rule : RateLimitRule) (l : limiter S) : limiter S :=
  Limiter (backend l) (dset name rule (rules l)) (_last_cleanup l).

Definition remove_rule (name : string) (l : limiter S) : limiter S :=
  Limiter (backend l) (dpop name (rules l)) (_last_cleanup l).

Definition new_bucket (rule : RateLimitRule) (now : Q) : ClientBucket := {|
  tokens := q_of_Z (burst_size rule); last_refill := now; requests_in_window := [];
  total_requests := 0 |}.

Definition consume (request_cost : Z) (now : Q) (b : ClientBucket) : ClientBucket := {|
  tokens := (tokens b - q_of_Z request_cost)%Q; last_refill := last_refill b;
  requests_in_window := requests_in_window b ++ [now]; total_requests := total_requests b + 1 |}.

Definition set_bucket (client_id : string) (b : ClientBucket) (l : limiter S) : limiter S :=
  Limiter (set_client_data client_id b (backend l)) (rules l) (_last_cleanup l).

(** The periodic cleanup of [check_limit]: when it is due, what it removes, and the
    stamp that makes the next one due later. *)
Definition cleanup_due (now : Q) (l : limiter S) : bool := Qltb 300 (now - _last_cleanup l)%Q.

Definition clean (now : Q) (l : limiter S) : limiter S :=
  Limiter (cleanup_expired (now - 3600)%Q (backend l)) (rules l) (_last_cleanup l).

Definition stamp (now : Q) (l : limiter S) : limiter S := Limiter (backend l) (rules l) now.

Definition burst_status (rule : RateLimitRule) (bucket : ClientBucket) (cost : Z) (now : Q) :
    result RateLimitStatus :=
  wait ← py_div (q_of_Z cost - tokens bucket) (requests_per_second rule);
  mret {| allowed := false; remaining_requests := py_int (tokens bucket);
          reset_time := Some (now + wait)%Q; retry_after := Some wait;
          rule_applied := Some "burst_limit" |}.

Definition window_status (retry_after_time : option Q) (now : Q) : RateLimitStatus :=
  {| allowed := false; remaining_requests := 0; reset_time := retry_after_time;
     retry_after := match retry_after_time with
       | Some t => if Qeq_bool t 0 then None else Some (t - now)%Q
       | None => None end;
     rule_applied := Some "window_limit" |}.

Definition allowed_status (rule : RateLimitRule) (bucket : ClientBucket) (now : Q) :
    result RateLimitStatus :=
  refill ← py_div (q_of_Z (burst_size rule) - tokens bucket) (requests_per_second rule);
  mret {| allowed := true; remaining_requests := py_int (tokens bucket);
          reset_time := Some (now + refill)%Q; retry_after := None; rule_applied := None |}.

(** The decision on a fetched bucket: what becomes of the bucket and the answer. *)
Definition decide_limit (rule : RateLimitRule) (request_cost : Z) (now : Q) (ob : option ClientBucket) :
    ClientBucket * result RateLimitStatus :=
  let bucket := _refill_bucket (default (new_bucket rule now) ob) rule now in
  if Qltb (tokens bucket) (q_of_Z request_cost) then (bucket, burst_status rule bucket request_cost now)
  else
    let '(window_ok, retry_after_time, bucket) := _check_window_limits bucket rule now in
    if negb window_ok then (bucket, Ok (window_status retry_after_time now))
    else
      let bucket := consume request_cost now bucket in
      (bucket, allowed_status rule bucket now).

(** [check_limit] holds no lock of its own: where a call stands between the accesses
    to what the calls share. *)
Inductive phase :=
| Begin
| Cleaning (now : Q)
| Stamping (now : Q)
| Selecting (now : Q)
| Fetching (now : Q) (rule : RateLimitRule)
| Deciding (now : Q) (rule : RateLimitRule) (ob : option ClientBucket)
| Storing (now : Q) (bucket : ClientBucket) (answer : result RateLimitStatus)
| Finished (answer : result RateLimitStatus).

(** The next access of a call, the clock at [clock]. A bucket that was fetched is the
    object of the backend when that hands out references; it is then as it was fetched
    unless another call of the same client is under way, which the theorems exclude. *)
Definition advance (client_id ctype : string) (request_cost : Z) (clock : Q) (ph : phase) (l : limiter S) :
    phase * limiter S :=
  match ph with
  | Begin => (if cleanup_due clock l then Cleaning clock else Selecting clock, l)
  | Cleaning now => (Stamping now, clean now l)
  | Stamping now => (Selecting now, stamp now l)
  | Selecting now => (Fetching now (get_rule_for_client (rules l) ctype), l)
  | Fetching now rule => (Deciding now rule (get_client_data client_id (backend l)), l)
  | Deciding now rule ob =>
      let '(bucket, answer) := decide_limit rule request_cost now ob in
      (Storing now bucket answer,
       match ob with
       | Some _ => Limiter (write_through client_id bucket (backend l)) (rules l) (_last_cleanup l)
       | None => l
       end)
  | Storing now bucket answer => (Finished answer, set_bucket client_id bucket l)
  | Finished answer => (Finished answer, l)
  end.

(** Every phase moves on to a later one: seven accesses at most. *)
Fixpoint advances (n : nat) (client_id ctype : string) (request_cost : Z) (clock : Q) (ph : phase)
    (l : limiter S) : phase * limiter S :=
  match n with
  | O => (ph, l)
  | Datatypes.S n =>
      let '(ph, l) := advance client_id ctype request_cost clock ph l in
      advances n client_id ctype request_cost clock ph l
  end.

(** A call that no other one interrupts. *)
Definition check_limit (client_id ctype : string) (request_cost : Z) (now : Q) :
    M (limiter S) RateLimitStatus := fun l =>
  match advances 7 client_id ctype request_cost now Begin l with
  | (Finished answer, l) => (answer, l)
  | (_, l) => (Raise (raise_ RuntimeError "unfinished"), l)
  end.

Record client_stats := {
  cs_total_requests : Z; cs_current_tokens : Z; cs_requests_last_minute : option Q;
  cs_requests_last_hour : option Z; cs_last_request : option Q }.

Definition get_client_stats (client_id : string) (now : Q) (l : limiter S) :
    client_stats * limiter S :=
  match get_client_data client_id (backend l) with
  | None => ({| cs_total_requests := 0; cs_current_tokens := 0; cs_requests_last_minute := None;
                cs_requests_last_hour := None; cs_last_request := None |}, l)
  | Some bucket =>
      let window := drop_before (now - 3600)%Q (requests_in_window bucket) in
      ({| cs_total_requests := total_requests bucket; cs_current_tokens := py_int (tokens bucket);
          cs_requests_last_minute := Some (count_since (now - 60)%Q window);
          cs_requests_last_hour := Some (Z.of_nat (length window));
          cs_last_request := Some (last_refill bucket) |},
       Limiter (write_through client_id (set_window window bucket) (backend l))
         (rules l) (_last_cleanup l))
  end.
End limiter.

(** ** The gRPC middleware *)

Section middleware.
(** [hashlib.sha256(s.encode()).hexdigest()] *)
Context (sha256_hexdigest : string -> string).

Definition hash16 (s : string) : string := String.substring 0 16 (sha256_hexdigest s).

Definition _default_extract_client_id (metadata : pydict string) (peer : string) : string :=
  match dget "client-id" metadata with
  | Some id => id
  | None =>
      match dget "x-client-id" metadata with
      | Some id => id
      | None =>
          match dget "authorization" metadata with
          | Some a => hash16 a
          | None => if String.eqb peer "" then "anonymous" else hash16 peer
          end
      end
  end.

Definition _default_extract_client_type (metadata : pydict string) : string :=
  match dget "client-type" metadata with
  | Some t => t
  | None => default "default" (dget "x-client-type" metadata)
  end.
End middleware.

(** What the handler does with the gRPC context, in order. *)
Inductive ctx_action :=
| SetTrailing (headers : list (string * Z))
| AbortCall (code : StatusCode) (details : string)
| Continue.

(** [if status.retry_after:] *)
Definition q_truthy (x : option Q) : option Q :=
  match x with Some q => if Qeq_bool q 0 then None else Some q | None => None end.

Definition rate_headers (status : RateLimitStatus) : ctx_action :=
  SetTrailing [("x-ratelimit-remaining", remaining_requests status);
               ("x-ratelimit-reset", py_int (default 0%Q (reset_time status)))].

(** [context.abort] raises, so nothing follows it. *)
Definition rate_limited_handler (status : RateLimitStatus) : list ctx_action :=
  if negb (allowed status) then
    rate_headers status ::
    match q_truthy (retry_after status) with
    | Some r => [SetTrailing [("retry-after", py_int r)]]
    | None => []
    end ++
    [AbortCall RESOURCE_EXHAUSTED
       ("Rate limit exceeded. Rule: " +:+ default "None" (rule_applied status))]
  else [rate_headers status; Continue].

Definition create_default_rate_limiter {S} (backend : S) (now : Q) : limiter S :=
  add_rule "premium" {| requests_per_second := 100; requests_per_minute := 6000;
    requests_per_hour := 50000; burst_size := 200; client_type := "premium"; priority := 30 |}
  (add_rule "authenticated" {| requests_per_second := 20; requests_per_minute := 1200;
    requests_per_hour := 10000; burst_size := 50; client_type := "authenticated"; priority := 20 |}
  (add_rule "public_api" {| requests_per_second := 5; requests_per_minute := 300;
    requests_per_hour := 1000; burst_size := 10; client_type := "public"; priority := 10 |}
  (Limiter backend [] now))).

(** ** What the limiter relies on in its storage *)

Class BackendLaws (S : Type) `{RateLimitBackend S} := {
  bk_ok : S -> Prop;
  bk_get_set_eq c b s : get_client_data c (set_client_data c b s) = Some b;
  bk_get_set_ne c c' b s : c <> c' -> get_client_data c' (set_client_data c b s) = get_client_data c' s;
  bk_set_ok c b s : bk_ok s -> bk_ok (set_client_data c b s);
  bk_through_ne c c' b s : c <> c' -> get_client_data c' (write_through c b s) = get_client_data c' s;
  bk_through_ok c b s : bk_ok s -> bk_ok (write_through c b s);
  bk_cleanup_ok t s : bk_ok s -> bk_ok (cleanup_expired t s);
  bk_cleanup c t s : bk_ok s ->
    get_client_data c (cleanup_expired t s) = get_client_data c s \/
    (get_client_data c (cleanup_expired t s) = None /\
     exists b, get_client_data c s = Some b /\ (last_refill b < t)%Q) }.

Lemma dpop_all_get {V} c ks (s : pydict V) :
  dget c (fold_left (fun s k => dpop k s) ks s) = if mem c ks then None else dget c s.
Proof.
  revert s. induction ks as [|k ks IH]; intros s; simpl.
  - by unfold mem.
  - rewrite IH. destruct (mem c ks) eqn:E.
    + apply mem_true in E. assert (mem c (k :: ks) = true) as -> by (apply mem_true; by right). done.
    + apply mem_false in E. destruct (String.eqb_spec k c) as [->|Hne].
      * assert (mem c (c :: ks) = true) as -> by (apply mem_true; by left). apply dget_dpop_eq.
      * assert (mem c (k :: ks) = false) as -> by (apply mem_false; intros [|]; done).
        by apply dget_dpop_ne.
Qed.

#[export] Instance memory_laws : BackendLaws (pydict ClientBucket).
Proof.
  refine {| bk_ok := dwf |}; simpl; unfold Memory.get_client_data, Memory.set_client_data.
  - intros. apply dget_dset_eq.
  - intros. by apply dget_dset_ne.
  - intros. by apply dset_wf.
  - intros c c' b s Hne. unfold Memory.write_through. destruct (din c s); [by apply dget_dset_ne|done].
  - intros c b s Hs. unfold Memory.write_through. destruct (din c s); [by apply dset_wf|done].
  - intros t s Hs. unfold Memory.cleanup_expired.
    generalize (map fst (List.filter (fun kv => Qltb (last_refill (snd kv)) t) s)).
    intros ks. revert s Hs. induction ks; simpl; auto using dpop_wf.
  - intros c t s Hs. unfold Memory.cleanup_expired. rewrite dpop_all_get.
    destruct (mem c _) eqn:E; [right|by left]. apply mem_true, in_map_iff in E.
    destruct E as ([k b] & <- & [Hin Hlt]%filter_In). split; [done|].
    exists b. split; [by apply In_dget|]. by apply Qltb_lt.
Defined.

(** ** One client *)

Definition admitted (r : result RateLimitStatus) : bool :=
  match r with Ok st => allowed st | Raise _ => false end.

Lemma py_div_ok a b : ~ (b == 0)%Q -> py_div a b = Ok (a / b)%Q.
Proof. intros Hb. unfold py_div. destruct (Qeq_bool b 0) eqn:E; [|done]. by apply Qeq_bool_iff in E. Qed.

(** What a call does to the bucket of its client. *)
Definition client_step (rule : RateLimitRule) (cost : Z) (now : Q) (ob : option ClientBucket) :
    bool * ClientBucket :=
  let bucket := _refill_bucket (default (new_bucket rule now) ob) rule now in
  if Qltb (tokens bucket) (q_of_Z cost) then (false, bucket)
  else
    let '(ok, _, bucket) := _check_window_limits bucket rule now in
    if ok then (true, consume cost now bucket) else (false, bucket).

Lemma decide_client rule cost now ob : ~ (requests_per_second rule == 0)%Q ->
  let '(b, answer) := decide_limit rule cost now ob in client_step rule cost now ob = (admitted answer, b).
Proof.
  intros Hr. unfold decide_limit, client_step. set (b0 := _refill_bucket _ rule now). clearbody b0.
  unfold burst_status, allowed_status. rewrite !(py_div_ok _ _ Hr). split_if; [done|].
  destruct (_check_window_limits b0 rule now) as [[[] t] b1]; simpl; by rewrite ?(py_div_ok _ _ Hr).
Qed.

(** The accesses of a call alone, one after the other. *)
Lemma check_limit_alone {S} `{RateLimitBackend S} c ctype cost now (l : limiter S) :
  check_limit c ctype cost now l =
  let l := if cleanup_due now l then stamp now (clean now l) else l in
  let rule := get_rule_for_client (rules l) ctype in
  let ob := get_client_data c (backend l) in
  let '(b, answer) := decide_limit rule cost now ob in
  (answer, set_bucket c b
    (match ob with Some _ => Limiter (write_through c b (backend l)) (rules l) (_last_cleanup l) | None => l end)).
Proof.
  unfold check_limit. cbn [advances advance].
  destruct (cleanup_due now l); cbn [advances advance]; by destruct (decide_limit _ _ _ _).
Qed.

(** ** Calls side by side *)

Record request := { rq_client : string; rq_type : string; rq_cost : Z }.

(** The calls with where each stands, and the limiter they share; an event is an
    access of one of them, at a time. *)
Definition thread : Type := request * phase.
Definition config (S : Type) : Type := list thread * limiter S.
Definition event : Type := nat * Q.

(** When a call that is under way has read the clock. *)
Definition began (ph : phase) : option Q :=
  match ph with
  | Begin | Finished _ => None
  | Cleaning now | Stamping now | Selecting now | Fetching now _ | Deciding now _ _ | Storing now _ _ => Some now
  end.

Section threads.
Context {S : Type} `{RateLimitBackend S}.
Implicit Types l : limiter S.

Definition lookup_client (c : string) l : option ClientBucket := get_client_data c (backend l).

Definition begin_all (rqs : list request) l : config S := (map (fun rq => (rq, Begin)) rqs, l).

Definition access (e : event) (cf : config S) : config S :=
  match fst cf !! fst e with
  | Some (rq, ph) =>
      let '(ph, l) := advance (rq_client rq) (rq_type rq) (rq_cost rq) (snd e) ph (snd cf) in
      (<[fst e := (rq, ph)]> (fst cf), l)
  | None => cf
  end.

(** The admission an event completes for client [c]: when its call read the clock, and its cost. *)
Definition admission (c : string) (e : event) (cf : config S) : list (Q * Z) :=
  match fst cf !! fst e with
  | Some (rq, Storing now _ answer) =>
      if String.eqb (rq_client rq) c && admitted answer then [(now, rq_cost rq)] else []
  | _ => []
  end.

(** The admissions of client [c], oldest first, with the final state. *)
Fixpoint admissions (c : string) (es : list event) (cf : config S) : list (Q * Z) * config S :=
  match es with
  | [] => ([], cf)
  | e :: es => let '(adm, cf') := admissions c es (access e cf) in (admission c e cf ++ adm, cf')
  end.

(** Times do not decrease, from [t] to [t']. *)
Fixpoint timed (t : Q) (es : list event) (t' : Q) : Prop :=
  match es with
  | [] => (t <= t')%Q
  | e :: es => (t <= snd e)%Q /\ timed (snd e) es t'
  end.

(** A call of [c] is under way. *)
Definition under_way (c : string) (th : thread) : Prop :=
  rq_client (fst th) = c /\ began (snd th) <> None.

(** No call of [c] begins while another one of [c] is under way, and none is under way
    for longer than [d]. *)
Fixpoint serial (c : string) (d : Q) (es : list event) (cf : config S) : Prop :=
  match es with
  | [] => True
  | e :: es =>
      (forall rq, fst cf !! fst e = Some (rq, Begin) -> rq_client rq = c ->
         Forall (fun th => ~ under_way c th) (fst cf)) /\
      Forall (fun th => rq_client (fst th) = c ->
         match began (snd th) with Some now => (snd e <= now + d)%Q | None => True end) (fst cf) /\
      serial c d es (access e cf)
  end.

(** The same, to be evaluated. *)
Definition idleb (c : string) (ths : list thread) : bool :=
  forallb (fun th => negb (String.eqb (rq_client (fst th)) c && opt_is_some (began (snd th)))) ths.

Definition in_time (c : string) (d t : Q) (th : thread) : bool :=
  negb (String.eqb (rq_client (fst th)) c) ||
  match began (snd th) with Some now => Qle_bool t (now + d) | None => true end.

Fixpoint serialb (c : string) (d : Q) (es : list event) (cf : config S) : bool :=
  match es with
  | [] => true
  | e :: es =>
      match fst cf !! fst e with
      | Some (rq, Begin) => negb (String.eqb (rq_client rq) c) || idleb c (fst cf)
      | _ => true
      end && forallb (in_time c d (snd e)) (fst cf) && serialb c d es (access e cf)
  end.

Lemma serial_checked c d es cf : serialb c d es cf = true -> serial c d es cf.
Proof.
  revert cf. induction es as [|e es IH]; intros cf; simpl; [done|].
  intros [[Hb Ht]%andb_true_iff Hs]%andb_true_iff. split_and!; [|apply Forall_forall|by apply IH].
  - intros rq Hi Hc. rewrite Hi in Hb. apply String.eqb_eq in Hc as Hc'. rewrite Hc' in Hb. simpl in Hb.
    apply Forall_forall. intros th Hth [Hc2 Hu]. unfold idleb in Hb. rewrite forallb_forall in Hb.
    specialize (Hb th). apply String.eqb_eq in Hc2. rewrite list_elem_of_In in Hth. specialize (Hb Hth).
    rewrite Hc2 in Hb. by destruct (began (snd th)).
  - intros th Hth Hc. rewrite forallb_forall in Ht. rewrite list_elem_of_In in Hth. specialize (Ht th Hth).
    unfold in_time in Ht. apply String.eqb_eq in Hc. rewrite Hc in Ht. simpl in Ht.
    destruct (began (snd th)); [by apply Qle_bool_iff|done].
Qed.

(** Every request of [c] falls under [rule] and has a non-negative cost. *)
Definition uses_rule (c : string) (rule : RateLimitRule) (rs : pydict RateLimitRule) (rq : request) : Prop :=
  rq_client rq = c -> get_rule_for_client rs (rq_type rq) = rule /\ 0 <= rq_cost rq.
End threads.

(** What one access does to the buckets of the other clients: nothing, or its cleanup drops one. *)
Lemma advance_other {S} `{RateLimitBackend S, !BackendLaws S} c c' ctype cost clock ph (l : limiter S) :
  bk_ok (backend l) -> c' <> c ->
  let l' := snd (advance c' ctype cost clock ph l) in
  lookup_client c l' = lookup_client c l \/
  exists now b, began ph = Some now /\ lookup_client c l' = None /\ lookup_client c l = Some b /\
    (last_refill b < now - 3600)%Q.
Proof.
  intros Hok Hne. unfold lookup_client. destruct ph as [|now|now|now|now rule|now rule ob|now b ans|ans]; simpl; auto.
  - destruct (bk_cleanup c (now - 3600)%Q (backend l) Hok) as [|(Hn & b & Hb & Hlt)]; [by left|right]. by exists now, b.
  - left. destruct (decide_limit _ _ _ _) as [b ans]. destruct ob; simpl; [|done]. by apply bk_through_ne.
  - left. by apply bk_get_set_ne.
Qed.

Lemma advance_keeps {S} `{RateLimitBackend S, !BackendLaws S} c ctype cost clock ph (l : limiter S) :
  bk_ok (backend l) ->
  let '(ph', l') := advance c ctype cost clock ph l in
  bk_ok (backend l') /\ rules l' = rules l /\
  (forall now, began ph' = Some now -> now = clock \/ began ph = Some now).
Proof.
  intros Hok. destruct ph as [|now|now|now|now rule|now rule ob|now b ans|ans]; simpl; auto.
  - split_and!; try done. intros now. destruct (cleanup_due clock l); intros [= ->]; auto.
  - split_and!; auto. by apply bk_cleanup_ok.
  - destruct (decide_limit _ _ _ _) as [b ans]. destruct ob; simpl; auto using bk_through_ok.
  - split_and!; auto; [by apply bk_set_ok|done].
Qed.

Section client_invariant.
Context {S : Type} `{RateLimitBackend S, !BackendLaws S}.
Context (c : string) (rule : RateLimitRule) (d : Q) (rs : pydict RateLimitRule).
Context (I : list (Q * Z) -> Q -> option ClientBucket -> Prop).
Context (Hrate : ~ (requests_per_second rule == 0)%Q) (Hd : (0 <= d)%Q).
Context (Htime : forall adm t t' ob, I adm t ob -> (t <= t')%Q -> I adm t' ob).
Context (Hclean : forall adm t t' b, I adm t (Some b) -> (t' <= t + d)%Q -> (last_refill b < t' - 3600)%Q -> I adm t None).
Context (Hstep : forall adm t cost ob, 0 <= cost -> I adm t ob ->
  let '(ok, b) := client_step rule cost t ob in
  I (if ok then adm ++ [(t, cost)] else adm) t (Some b)).
Implicit Types l : limiter S.

(** What is known while a call of the client is under way. *)
Definition stands (adm : list (Q * Z)) l (th : thread) : Prop :=
  match snd th with
  | Begin | Finished _ => False
  | Cleaning now | Stamping now | Selecting now => I adm now (lookup_client c l)
  | Fetching now r => r = rule /\ I adm now (lookup_client c l)
  | Deciding now r ob => r = rule /\ I adm now ob
  | Storing now b answer => I (if admitted answer then adm ++ [(now, rq_cost (fst th))] else adm) now (Some b)
  end.

Record holds (adm : list (Q * Z)) (t : Q) (cf : config S) : Prop := {
  h_ok : bk_ok (backend (snd cf));
  h_rules : rules (snd cf) = rs;
  h_uses : Forall (fun th => uses_rule c rule rs (fst th)) (fst cf);
  h_clocks : Forall (fun th => forall now, began (snd th) = Some now -> (now <= t)%Q) (fst cf);
  h_client :
    (Forall (fun th => ~ under_way c th) (fst cf) /\ I adm t (lookup_client c (snd cf))) \/
    (exists i th, fst cf !! i = Some th /\ rq_client (fst th) = c /\ stands adm (snd cf) th /\
       forall j th', fst cf !! j = Some th' -> j <> i -> ~ under_way c th') }.

(** An access of another client's call leaves it standing. *)
Lemma stands_other adm l l' th :
  match began (snd th) with Some now => forall adm, I adm now (lookup_client c l) -> I adm now (lookup_client c l') | None => True end ->
  stands adm l th -> stands adm l' th.
Proof using. destruct th as [rq []]; unfold stands; simpl; naive_solver. Qed.

(** An access of the client's own call. *)
Lemma stands_own adm l rq ph now clock : bk_ok (backend l) -> rules l = rs -> uses_rule c rule rs rq -> rq_client rq = c ->
  began ph = Some now -> stands adm l (rq, ph) -> (now <= clock)%Q ->
  let '(ph', l') := advance c (rq_type rq) (rq_cost rq) clock ph l in
  match ph' with
  | Finished _ => I (adm ++ match ph with
      | Storing now _ answer => if admitted answer then [(now, rq_cost rq)] else [] | _ => [] end) now (lookup_client c l')
  | _ => stands adm l' (rq, ph') /\ match ph with Storing _ _ _ => False | _ => True end
  end.
Proof using Hrate Hd Hclean Hstep.
  intros Hok Hrs Hu Hc Hb Hst Hle. destruct (Hu Hc) as [Hrule Hcost].
  destruct ph as [|n|n|n|n r|n r ob|n b ans|ans]; simplify_eq/=; unfold stands in *; simpl in *.
  - split; [|done]. unfold lookup_client in *. simpl.
    destruct (bk_cleanup c (now - 3600)%Q (backend l) Hok) as [->|(-> & b & Hb & Hlt)]; [done|].
    rewrite Hb in Hst. eapply Hclean; [exact Hst| |exact Hlt]. lra.
  - done.
  - done.
  - done.
  - destruct Hst as [-> Hi]. pose proof (decide_client rule (rq_cost rq) now ob Hrate) as Hdc.
    destruct (decide_limit _ _ _ _) as [b ans]. pose proof (Hstep adm now (rq_cost rq) ob Hcost Hi) as Hs.
    rewrite Hdc in Hs. done.
  - unfold lookup_client. simpl. rewrite bk_get_set_eq. destruct (admitted ans); [done|by rewrite app_nil_r].
Qed.

Lemma under_way_began rq ph : under_way c (rq, ph) <-> rq_client rq = c /\ exists now, began ph = Some now.
Proof using. unfold under_way. simpl. destruct (began ph); naive_solver. Qed.

Lemma idle_not_under_way th : began (snd th) = None -> ~ under_way c th.
Proof using. unfold under_way. by intros -> []. Qed.

(** The client's part after an access of its own call, which was the only one under way. *)
Lemma own_access adm t e ths l rq ph now : bk_ok (backend l) -> rules l = rs -> uses_rule c rule rs rq -> rq_client rq = c ->
  ths !! fst e = Some (rq, ph) -> began ph = Some now -> stands adm l (rq, ph) -> (now <= t)%Q -> (t <= snd e)%Q ->
  (forall j th', ths !! j = Some th' -> j <> fst e -> ~ under_way c th') ->
  let '(ph', l') := advance c (rq_type rq) (rq_cost rq) (snd e) ph l in
  let adm' := adm ++ admission c e (ths, l) in
  let ths' := <[fst e := (rq, ph')]> ths in
  (Forall (fun th => ~ under_way c th) ths' /\ I adm' (snd e) (lookup_client c l')) \/
  (exists i th, ths' !! i = Some th /\ rq_client (fst th) = c /\ stands adm' l' th /\
     forall j th', ths' !! j = Some th' -> j <> i -> ~ under_way c th').
Proof using Hrate Hd Hclean Hstep Htime.
  intros Hok Hrs Hu Hc Hi Hb Hst Hle1 Hle2 Hoth.
  assert (Hlt : (fst e < length ths)%nat) by (by eapply lookup_lt_Some).
  pose proof (stands_own adm l rq ph now (snd e) Hok Hrs Hu Hc Hb Hst ltac:(lra)) as Hown.
  unfold admission. simpl. rewrite Hi, Hc, String.eqb_refl. simpl.
  destruct (advance _ _ _ _ _ _) as [ph' l'] eqn:Ea.
  assert (Hrest : forall j th', <[fst e := (rq, ph')]> ths !! j = Some th' -> j <> fst e -> ~ under_way c th').
  { intros j th' Hj Hne. rewrite list_lookup_insert_ne in Hj by done. by eapply Hoth. }
  assert (Hin : (stands adm l' (rq, ph') /\ match ph with Storing _ _ _ => False | _ => True end) ->
    exists i th, <[fst e := (rq, ph')]> ths !! i = Some th /\ rq_client (fst th) = c /\
      stands (adm ++ match ph with Storing now _ answer => if admitted answer then [(now, rq_cost rq)] else [] | _ => [] end) l' th /\
      forall j th', <[fst e := (rq, ph')]> ths !! j = Some th' -> j <> i -> ~ under_way c th').
  { intros [Hs Hp]. exists (fst e), (rq, ph'). split; [by apply list_lookup_insert_eq|]. split; [done|]. split; [|done].
    destruct ph; try done; by rewrite app_nil_r. }
  destruct ph'; try (right; by apply Hin). left. split.
  - apply Forall_lookup. intros j th' Hj. destruct (decide (j = fst e)) as [->|Hne]; [|by eapply Hrest].
    rewrite list_lookup_insert_eq in Hj by done. injection Hj as <-. by apply idle_not_under_way.
  - eapply Htime; [exact Hown|]. lra.
Qed.

(** What is known of the client survives an access of another client's call. *)
Lemma other_access adm t e ths l rq ph : bk_ok (backend l) -> rq_client rq <> c ->
  ths !! fst e = Some (rq, ph) -> (t <= snd e)%Q ->
  (forall now, began ph = Some now -> (now <= t)%Q) ->
  Forall (fun th => rq_client (fst th) = c ->
    match began (snd th) with Some now => (snd e <= now + d)%Q | None => True end) ths ->
  (Forall (fun th => ~ under_way c th) ths /\ I adm t (lookup_client c l)) \/
  (exists i th, ths !! i = Some th /\ rq_client (fst th) = c /\ stands adm l th /\
     forall j th', ths !! j = Some th' -> j <> i -> ~ under_way c th') ->
  let '(ph', l') := advance (rq_client rq) (rq_type rq) (rq_cost rq) (snd e) ph l in
  let ths' := <[fst e := (rq, ph')]> ths in
  (Forall (fun th => ~ under_way c th) ths' /\ I adm (snd e) (lookup_client c l')) \/
  (exists i th, ths' !! i = Some th /\ rq_client (fst th) = c /\ stands adm l' th /\
     forall j th', ths' !! j = Some th' -> j <> i -> ~ under_way c th').
Proof using Hclean Htime Hd.
  intros Hok Hne Hi Hle Hnow Hd' Hcl.
  pose proof (advance_other c (rq_client rq) (rq_type rq) (rq_cost rq) (snd e) ph l Hok Hne) as Hl.
  destruct (advance _ _ _ _ _ _) as [ph' l']; simpl in Hl.
  assert (Hkeep : forall adm s, (match began ph with Some now => (now <= s + d)%Q | None => True end) ->
    I adm s (lookup_client c l) -> I adm s (lookup_client c l')).
  { intros adm0 s Hs HI. destruct Hl as [->|(now & b & Hb & -> & Hb2 & Hlt)]; [done|]. rewrite Hb in Hs. rewrite Hb2 in HI. eauto. }
  assert (Hnot : forall j th', <[fst e := (rq, ph')]> ths !! j = Some th' -> under_way c th' -> j <> fst e /\ ths !! j = Some th').
  { intros j th' Hj Hu. destruct (decide (j = fst e)) as [->|Hj'].
    - rewrite list_lookup_insert_eq in Hj by (by eapply lookup_lt_Some). injection Hj as <-. by destruct Hu.
    - by rewrite list_lookup_insert_ne in Hj. }
  destruct Hcl as [[Hidle HI]|(i & [rq2 ph2] & Hth & Hc2 & Hst & Hoth)].
  - left. split.
    + apply Forall_lookup. intros j th' Hj Hu. destruct (Hnot j th' Hj Hu) as [_ Hj'].
      by eapply Forall_lookup in Hidle; [|exact Hj'].
    + apply Hkeep; [|by eapply Htime]. destruct (began ph) as [now|]; [|done]. specialize (Hnow now eq_refl). lra.
  - right. exists i, (rq2, ph2). assert (Hie : i <> fst e) by (intros ->; simpl in *; congruence).
    rewrite list_lookup_insert_ne by done. split; [done|]. split; [done|]. split.
    + apply (stands_other _ l); [|done]. simpl. eapply Forall_lookup in Hd'; [|exact Hth]. specialize (Hd' Hc2). simpl in Hd'.
      destruct (began ph2) as [n2|]; [|done]. intros adm0. apply Hkeep.
      destruct (began ph) as [now|]; [|done]. specialize (Hnow now eq_refl). lra.
    + intros j th' Hj Hji Hu. destruct (Hnot j th' Hj Hu) as [_ Hj']. by eapply Hoth.
Qed.

(** Where the client stands after an access, its own or that of another one. *)
Lemma access_stands adm t e ths l rq ph : holds adm t (ths, l) -> (t <= snd e)%Q -> ths !! fst e = Some (rq, ph) ->
  (forall rq', Some (rq, ph) = Some (rq', Begin) -> rq_client rq' = c -> Forall (fun th => ~ under_way c th) ths) ->
  Forall (fun th => rq_client (fst th) = c ->
    match began (snd th) with Some now => (snd e <= now + d)%Q | None => True end) ths ->
  let '(ph', l') := advance (rq_client rq) (rq_type rq) (rq_cost rq) (snd e) ph l in
    let adm' := adm ++ admission c e (ths, l) in
    let ths' := <[fst e := (rq, ph')]> ths in
    (Forall (fun th => ~ under_way c th) ths' /\ I adm' (snd e) (lookup_client c l')) \/
    (exists i th, ths' !! i = Some th /\ rq_client (fst th) = c /\ stands adm' l' th /\
       forall j th', ths' !! j = Some th' -> j <> i -> ~ under_way c th').
Proof using Hrate Hd Hclean Hstep Htime.
  intros [Hok Hrs Hu Hck Hcl] Hle Hi Hser Hd'. simpl in Hok, Hrs, Hu, Hck, Hcl.
  pose proof (Forall_lookup_1 _ _ _ _ Hu Hi) as Hurq. pose proof (Forall_lookup_1 _ _ _ _ Hck Hi) as Hnow. simpl in Hurq, Hnow.
  destruct (decide (rq_client rq = c)) as [Hc|Hne].
  2:{ unfold admission. simpl. rewrite Hi. apply String.eqb_neq in Hne as Hne'. rewrite Hne'. simpl.
    replace (adm ++ _) with adm by (by destruct ph; rewrite app_nil_r). by eapply (other_access adm t). }
  rewrite Hc. destruct (began ph) as [now|] eqn:Hb.
  - destruct Hcl as [[Hidle _]|(i & th & Hth & Hc2 & Hst & Hoth)].
    { eapply Forall_lookup in Hidle; [|exact Hi]. destruct Hidle. split; [done|]. simpl. by rewrite Hb. }
    assert (i = fst e) as -> by (destruct (decide (i = fst e)) as [|Hne]; [done|];
      destruct (Hoth (fst e) _ Hi ltac:(done)); split; [done|]; simpl; by rewrite Hb).
    rewrite Hi in Hth. injection Hth as <-. by eapply (own_access adm t e ths l rq ph now); eauto.
  - destruct ph; try done.
    + specialize (Hser rq eq_refl Hc). destruct Hcl as [[_ HI]|(i & th & Hth & Hc2 & Hst & _)].
      2:{ eapply Forall_lookup in Hser; [|exact Hth]. destruct Hser. split; [done|]. destruct th as [rq2 []]; done. }
      simpl. assert (Hlt : (fst e < length ths)%nat) by (by eapply lookup_lt_Some).
      right. exists (fst e), (rq, if cleanup_due (snd e) l then Cleaning (snd e) else Selecting (snd e)).
      split; [by apply list_lookup_insert_eq|]. split; [done|].
      assert (admission c e (ths, l) = []) as -> by (unfold admission; simpl; by rewrite Hi). rewrite app_nil_r. split.
      { eapply Htime in HI; [|exact Hle]. unfold stands. simpl. by destruct (cleanup_due _ _). }
      intros j th' Hj Hne. rewrite list_lookup_insert_ne in Hj by done. by eapply Forall_lookup in Hser; [|exact Hj].
    + simpl. assert (admission c e (ths, l) = []) as -> by (unfold admission; simpl; by rewrite Hi).
      rewrite app_nil_r, list_insert_id by done. destruct Hcl as [[? HI]|]; [left; split; [done|by eapply Htime]|by right].
Qed.

Lemma access_holds adm t e cf : holds adm t cf -> (t <= snd e)%Q ->
  (forall rq, fst cf !! fst e = Some (rq, Begin) -> rq_client rq = c -> Forall (fun th => ~ under_way c th) (fst cf)) ->
  Forall (fun th => rq_client (fst th) = c ->
    match began (snd th) with Some now => (snd e <= now + d)%Q | None => True end) (fst cf) ->
  holds (adm ++ admission c e cf) (snd e) (access e cf).
Proof using Hrate Hd Hclean Hstep Htime.
  destruct cf as [ths l]. intros [Hok Hrs Hu Hck Hcl] Hle Hser Hd'. unfold access. simpl in *.
  destruct (ths !! fst e) as [[rq ph]|] eqn:Hi.
  2:{ unfold admission. simpl. rewrite Hi, app_nil_r. split; simpl; try done.
    - eapply Forall_impl; [exact Hck|]. intros th Hth now Hn. specialize (Hth now Hn). lra.
    - destruct Hcl as [[Hidle HI]|Hst]; [left; split; [done|by eapply Htime]|by right]. }
  pose proof (Forall_lookup_1 _ _ _ _ Hu Hi) as Hurq. pose proof (Forall_lookup_1 _ _ _ _ Hck Hi) as Hnow. simpl in Hurq, Hnow.
  pose proof (advance_keeps (rq_client rq) (rq_type rq) (rq_cost rq) (snd e) ph l Hok) as Hkeep.
  pose proof (access_stands adm t e ths l rq ph ltac:(by split) Hle Hi Hser Hd') as Hstands. clear Hcl.
  destruct (advance _ _ _ _ _ _) as [ph' l']. destruct Hkeep as (Hok' & Hrs' & Hb'). split; simpl; try done.
  - by rewrite Hrs'.
  - by apply Forall_insert.
  - apply Forall_insert.
    + eapply Forall_impl; [exact Hck|]. intros th Hth now Hn. specialize (Hth now Hn). lra.
    + simpl. intros now Hn. destruct (Hb' now Hn) as [->|Hb]; [lra|]. specialize (Hnow now Hb). lra.
Qed.

Lemma trace_invariant es adm t t' cf : timed t es t' -> serial c d es cf -> holds adm t cf ->
  exists t2, (t <= t2 <= t')%Q /\ holds (adm ++ fst (admissions c es cf)) t2 (snd (admissions c es cf)).
Proof using Hrate Hd Hclean Hstep Htime.
  revert adm t cf. induction es as [|e es IH]; intros adm t cf Ht Hs Hh; simpl in *.
  { exists t. rewrite app_nil_r. split; [lra|done]. }
  destruct Ht as [Hle Ht], Hs as (Hs1 & Hs2 & Hs). pose proof (access_holds adm t e cf Hh Hle Hs1 Hs2) as Hh'.
  destruct (IH _ _ _ Ht Hs Hh') as (t2 & Hr & H2). exists t2. split; [lra|].
  destruct (admissions c es (access e cf)) as [adm2 cf2]. simpl in *. by rewrite app_assoc.
Qed.

(** Before any access, and what there is in the end. *)
Lemma holds_begin rqs t l : bk_ok (backend l) -> rules l = rs -> Forall (uses_rule c rule rs) rqs ->
  I [] t (lookup_client c l) -> holds [] t (begin_all rqs l).
Proof using.
  intros Hok Hrs Hu HI. split; simpl; try done.
  - by apply Forall_map.
  - by apply Forall_map, Forall_true.
  - left. split; [|done]. apply Forall_map, Forall_true. intros rq. by apply idle_not_under_way.
Qed.

Lemma holds_end adm t cf : holds adm t cf ->
  exists now ob, (now <= t)%Q /\ (I adm now ob \/ exists cost, 0 <= cost /\ I (adm ++ [(now, cost)]) now ob).
Proof using.
  intros [_ _ Hu Hck [[_ HI]|(i & [rq ph] & Hi & Hc & Hst & _)]].
  - exists t, (lookup_client c (snd cf)). split; [lra|by left].
  - pose proof (Forall_lookup_1 _ _ _ _ Hck Hi) as Hnow. pose proof (Forall_lookup_1 _ _ _ _ Hu Hi Hc) as [_ Hcost].
    simpl in *. unfold stands in Hst. simpl in Hst.
    destruct ph as [|now|now|now|now r|now r ob|now b ans|ans]; try done; simpl in Hnow;
      exists now; [exists (lookup_client c (snd cf))..|exists ob|exists (Some b)];
      (split; [by apply Hnow|]); first [by left|left; by destruct Hst|destruct (admitted ans); [right; eauto|by left]].
Qed.
End client_invariant.
(** ** The token bucket bounds what is admitted *)

Definition admitted_cost (adm : list (Q * Z)) : Q :=
  List.fold_right (fun a s => q_of_Z (snd a) + s)%Q 0%Q adm.

Lemma admitted_cost_snoc adm t cost :
  (admitted_cost (adm ++ [(t, cost)]) == admitted_cost adm + q_of_Z cost)%Q.
Proof. induction adm as [|[t' c'] adm IH]; simpl; [ring|]. rewrite IH. ring. Qed.

Lemma check_window_bucket b rule now :
  exists w, snd (_check_window_limits b rule now) = set_window w b.
Proof.
  unfold _check_window_limits. cbv zeta. repeat split_if; by eexists.
Qed.

Section budget.
Context (rule : RateLimitRule) (t0 d : Q).
Local Notation rate := (requests_per_second rule).
Local Notation burst := (q_of_Z (burst_size rule)).
Context (Hrate : (0 <= rate)%Q) (Hburst : (0 <= burst)%Q) (Hidle : (burst <= (3600 - d) * rate)%Q).

(** The cost admitted so far and the tokens left are covered by one burst and
    the refill since [t0]. *)
Definition budget (adm : list (Q * Z)) (t : Q) (ob : option ClientBucket) : Prop :=
  (t0 <= t)%Q /\
  match ob with
  | None => (admitted_cost adm <= rate * (t - t0))%Q
  | Some b => (0 <= tokens b <= burst)%Q /\ (t0 <= last_refill b <= t)%Q /\
              (admitted_cost adm + tokens b <= burst + rate * (last_refill b - t0))%Q
  end.

Lemma budget_time adm t t' ob : budget adm t ob -> (t <= t')%Q -> budget adm t' ob.
Proof.
  intros [Ht Hob] Hle. split; [lra|]. destruct ob as [b|]; [|nra].
  destruct Hob as (? & ? & ?). split_and!; lra.
Qed.

Lemma budget_clean adm t t' b :
  budget adm t (Some b) -> (t' <= t + d)%Q -> (last_refill b < t' - 3600)%Q -> budget adm t None.
Proof.
  intros (Ht & Htok & Hlr & Hadm) Ht' Hlt. split; [done|].
  assert ((3600 - d) * rate <= (t - last_refill b) * rate)%Q by (apply Qmult_le_compat_r; lra). nra.
Qed.

Lemma budget_refill adm t ob : budget adm t ob ->
  budget adm t (Some (_refill_bucket (default (new_bucket rule t) ob) rule t)).
Proof.
  intros [Ht Hob]. split; [done|]. destruct ob as [b|]; simpl.
  - destruct Hob as (? & ? & ?). unfold _refill_bucket. cbv zeta.
    destruct (Qle_bool (t - last_refill b) 0) eqn:E; [done|]. simpl.
    apply Qle_bool_gt in E.
    assert (0 <= (t - last_refill b) * rate)%Q by (apply Qmult_le_0_compat; lra).
    q_cases; split_and!; try lra; nra.
  - unfold _refill_bucket. cbv zeta. simpl.
    assert (Qle_bool (t - t) 0 = true) as -> by (apply Qle_bool_iff; lra). simpl.
    split_and!; lra.
Qed.

Lemma budget_step adm t cost ob : 0 <= cost -> budget adm t ob ->
  let '(ok, b) := client_step rule cost t ob in
  budget (if ok then adm ++ [(t, cost)] else adm) t (Some b).
Proof.
  intros Hcost Hb. apply budget_refill in Hb. unfold client_step.
  set (b0 := _refill_bucket _ rule t) in *. clearbody b0.
  destruct (Qltb (tokens b0) (q_of_Z cost)) eqn:Et; [done|]. apply Qltb_ge in Et.
  destruct (check_window_bucket b0 rule t) as [w Hw].
  destruct (_check_window_limits b0 rule t) as [[[] ra] b1]; simpl in Hw; subst b1; [|done].
  destruct Hb as (Ht & ? & ? & ?). unfold budget; simpl. rewrite admitted_cost_snoc.
  assert (0 <= q_of_Z cost)%Q by (unfold q_of_Z; rewrite <- (Zle_Qle 0); lia).
  split_and!; lra.
Qed.

Lemma budget_admitted adm t ob : budget adm t ob -> (admitted_cost adm <= burst + rate * (t - t0))%Q.
Proof.
  intros [Ht Hb]. destruct ob as [b|]; [|lra]. destruct Hb as ([? _] & [_ ?] & ?).
  assert (rate * (last_refill b - t0) <= rate * (t - t0))%Q by (rewrite !(Qmult_comm rate); apply Qmult_le_compat_r; lra). lra.
Qed.
End budget.

(** C2: The admission bound. Calls of any clients access the limiter in any order, at
    times that do not decrease, through any backend that satisfies the storage laws and
    with cleanups at any point. When a client's requests have one rule and no negative
    cost, no call of it begins while another one is under way (nothing in the limiter
    ensures that), none lasts more than [d] seconds, and a burst is refilled in less
    than an hour by [d], the total cost admitted for a client that starts without a
    bucket is at most one burst plus the rate times the elapsed time. *)
Theorem admission_bound {S} `{RateLimitBackend S, !BackendLaws S}
    c rule d rqs es t0 t1 (l : limiter S) :
  bk_ok (backend l) -> lookup_client c l = None ->
  timed t0 es t1 -> serial c d es (begin_all rqs l) -> Forall (uses_rule c rule (rules l)) rqs ->
  (0 < requests_per_second rule)%Q -> (0 <= d)%Q ->
  (0 <= q_of_Z (burst_size rule) <= (3600 - d) * requests_per_second rule)%Q ->
  (admitted_cost (fst (admissions c es (begin_all rqs l))) <=
     q_of_Z (burst_size rule) + requests_per_second rule * (t1 - t0))%Q.
Proof.
  intros Hok Hc Ht Hs Hall Hrate Hd [Hb Hidle].
  assert (Hr0 : (0 <= requests_per_second rule)%Q) by lra.
  destruct (trace_invariant c rule d (rules l) (budget rule t0)) with (es := es) (adm := @nil (Q * Z)) (t := t0) (t' := t1)
    (cf := begin_all rqs l) as (t2 & Ht2 & Hh); try done.
  - lra.
  - intros. by eapply budget_time.
  - intros. by eapply (budget_clean rule t0 d).
  - intros. by apply budget_step.
  - apply holds_begin; try done. rewrite Hc. split; simpl; lra.
  - simpl in Hh. apply holds_end in Hh as (now & ob & Hn & HI).
    assert (Hle : (admitted_cost (fst (admissions c es (begin_all rqs l))) <=
      q_of_Z (burst_size rule) + requests_per_second rule * (now - t0))%Q).
    { destruct HI as [HI|(cost & Hcost & HI)]; apply budget_admitted in HI; try done.
      rewrite admitted_cost_snoc in HI. assert (0 <= q_of_Z cost)%Q by (unfold q_of_Z; rewrite <- (Zle_Qle 0); lia). lra. }
    assert (requests_per_second rule * (now - t0) <= requests_per_second rule * (t1 - t0))%Q
      by (rewrite !(Qmult_comm (requests_per_second rule)); apply Qmult_le_compat_r; lra). lra.
Qed.

Definition public_rule : RateLimitRule := {| requests_per_second := 5; requests_per_minute := 300;
  requests_per_hour := 1000; burst_size := 10; client_type := "public"; priority := 10 |}.

Definition public_limiter : limiter (pydict ClientBucket) := create_default_rate_limiter [] 0.

Definition from (c : string) : request := {| rq_client := c; rq_type := "public"; rq_cost := 1 |}.

(** Call [i] from its beginning to its end at [t]. *)
Definition whole (t : Q) (i : nat) : list event := replicate 7 (i, t).

(** Twelve calls of a client, with a call of another between the accesses of the first. *)
Definition calls : list request := from "b" :: replicate 12 (from "a").
Definition run_of_calls : list event :=
  [(1%nat, 1); (0%nat, 1); (1%nat, 1); (0%nat, 1); (0%nat, 1); (1%nat, 1); (0%nat, 1); (1%nat, 1); (0%nat, 1); (1%nat, 1)]%Q ++
  concat (map (whole 1) (seq 2 11)).

Lemma admission_bound_witness :
  length (fst (admissions "a" run_of_calls (begin_all calls public_limiter))) = 10%nat /\
  (admitted_cost (fst (admissions "a" run_of_calls (begin_all calls public_limiter))) <= 10 + 5 * (1 - 1))%Q.
Proof.
  split; [vm_compute; reflexivity|].
  apply (admission_bound "a" public_rule 60 calls run_of_calls 1 1 public_limiter).
  - apply NoDup_nil_2.
  - reflexivity.
  - vm_compute. repeat split; discriminate.
  - apply serial_checked. vm_compute. reflexivity.
  - repeat constructor; discriminate.
  - reflexivity.
  - discriminate.
  - split; discriminate.
Defined.

(** ** The sliding windows *)

(** Each admission found fewer than the allowed number of earlier admissions in the
    minute and in the hour, less [d] seconds, before it. *)
Inductive paced (rule : RateLimitRule) (d : Q) : list (Q * Z) -> Prop :=
| paced_nil : paced rule d []
| paced_snoc adm t cost : paced rule d adm ->
    (count_since (t - 60) (map fst adm) < requests_per_minute rule)%Q ->
    (count_since (t - (3600 - d)) (map fst adm) < requests_per_hour rule)%Q ->
    paced rule d (adm ++ [(t, cost)]).

Lemma count_since_app s l1 l2 : (count_since s (l1 ++ l2) == count_since s l1 + count_since s l2)%Q.
Proof.
  unfold count_since. rewrite List.filter_app, length_app, Nat2Z.inj_add, inject_Z_plus. reflexivity.
Qed.

Lemma count_since_old s l : Forall (fun x => x < s)%Q l -> count_since s l = 0%Q.
Proof.
  intros Hl. unfold count_since. assert (List.filter (fun t => Qle_bool s t) l = []) as ->; [|done].
  apply lfilter_nil. intros x Hx. apply Qle_bool_gt. by eapply Forall_forall in Hl; [|apply list_elem_of_In].
Qed.

Lemma count_since_length s l : (count_since s l <= inject_Z (Z.of_nat (length l)))%Q.
Proof. unfold count_since. rewrite <- Zle_Qle. apply inj_le. apply lfilter_length. Qed.

Lemma drop_before_split h w : exists old, w = old ++ drop_before h w /\ Forall (fun x => x < h)%Q old.
Proof.
  induction w as [|t w IH]; simpl; [by exists []|].
  destruct (Qltb t h) eqn:E; [|by exists []]. destruct IH as (old & Hw & Hold).
  exists (t :: old). simpl. apply Qltb_lt in E. split; [congruence|auto].
Qed.

(** The bucket remembers every admission of the last hour, less [d] seconds. *)
Definition remembers (rule : RateLimitRule) (d : Q) (adm : list (Q * Z)) (t : Q) (ob : option ClientBucket) : Prop :=
  paced rule d adm /\ Forall (fun a => fst a <= t)%Q adm /\
  exists old, map fst adm = old ++ match ob with Some b => requests_in_window b | None => [] end /\
    Forall (fun x => x < t - (3600 - d))%Q old /\
    match ob with
    | Some b => Forall (fun x => x <= last_refill b)%Q (requests_in_window b)
    | None => True end.

Section windows.
Context (rule : RateLimitRule) (d : Q) (Hd : (0 <= d <= 3540)%Q).

Lemma remembers_time adm t t' ob :
  remembers rule d adm t ob -> (t <= t')%Q -> remembers rule d adm t' ob.
Proof using.
  intros (Hp & Ha & old & Hm & Ho & Hb) Hle. split; [done|]. split.
  - eapply Forall_impl; [exact Ha|]. simpl; intros; lra.
  - exists old. split_and!; try done. eapply Forall_impl; [exact Ho|]. simpl; intros; lra.
Qed.

Lemma remembers_clean adm t t' b :
  remembers rule d adm t (Some b) -> (t' <= t + d)%Q -> (last_refill b < t' - 3600)%Q -> remembers rule d adm t None.
Proof using.
  intros (Hp & Ha & old & Hm & Ho & Hb) Ht' Hlt. split_and!; try done.
  exists (map fst adm). rewrite app_nil_r. split_and!; try done. rewrite Hm.
  apply Forall_app. split; [done|]. eapply Forall_impl; [exact Hb|]. simpl; intros; lra.
Qed.

Lemma refill_window b r t :
  requests_in_window (_refill_bucket b r t) = requests_in_window b /\
  (last_refill b <= last_refill (_refill_bucket b r t))%Q /\
  (t <= last_refill (_refill_bucket b r t))%Q.
Proof using.
  unfold _refill_bucket. cbv zeta. destruct (Qle_bool (t - last_refill b) 0) eqn:E; simpl.
  - apply Qle_bool_iff in E. split_and!; [done|lra|lra].
  - apply Qle_bool_gt in E. split_and!; [done|lra|lra].
Qed.

Lemma remembers_refill adm t ob : remembers rule d adm t ob ->
  remembers rule d adm t (Some (_refill_bucket (default (new_bucket rule t) ob) rule t)) /\
  (t <= last_refill (_refill_bucket (default (new_bucket rule t) ob) rule t))%Q.
Proof using.
  intros (Hp & Ha & old & Hm & Ho & Hb).
  destruct (refill_window (default (new_bucket rule t) ob) rule t) as (Hw & Hl & Ht).
  split; [|done]. split_and!; try done. exists old. rewrite Hw. split_and!; try done.
  - by destruct ob.
  - destruct ob as [b|]; simpl in *; [|constructor]. eapply Forall_impl; [exact Hb|]. simpl; intros; lra.
Qed.

(** The counts the window check computes are those of the whole history. *)
Lemma window_counts (adm : list (Q * Z)) (old w : list Q) (t : Q) :
  map fst adm = old ++ w -> Forall (fun x => x < t - (3600 - d))%Q old ->
  (count_since (t - 60) (map fst adm) == count_since (t - 60) (drop_before (t - 3600) w))%Q /\
  (count_since (t - (3600 - d)) (map fst adm) <= inject_Z (Z.of_nat (length (drop_before (t - 3600) w))))%Q.
Proof using Hd.
  intros -> Ho. destruct (drop_before_split (t - 3600) w) as (old2 & Hw & Ho2).
  assert (Ho3 : Forall (fun x => x < t - (3600 - d))%Q old2) by (eapply Forall_impl; [exact Ho2|]; simpl; intros; lra).
  rewrite Hw at 1 3. rewrite !count_since_app.
  rewrite (count_since_old (t - (3600 - d)) old), (count_since_old (t - (3600 - d)) old2) by done.
  rewrite (count_since_old (t - 60) old), (count_since_old (t - 60) old2)
    by (eapply Forall_impl; [eassumption|]; simpl; intros; lra).
  pose proof (count_since_length (t - (3600 - d)) (drop_before (t - 3600) w)). split; lra.
Qed.

Lemma remembers_step adm t cost ob : 0 <= cost -> remembers rule d adm t ob ->
  let '(ok, b) := client_step rule cost t ob in
  remembers rule d (if ok then adm ++ [(t, cost)] else adm) t (Some b).
Proof using Hd.
  intros _ Hr. apply remembers_refill in Hr as [Hr Ht]. unfold client_step.
  set (b0 := _refill_bucket _ rule t) in *. clearbody b0.
  split_if; [done|]. destruct Hr as (Hp & Ha & old & Hm & Ho & Hb).
  destruct (window_counts adm old _ t Hm Ho) as [Hmin Hhour].
  destruct (drop_before_split (t - 3600) (requests_in_window b0)) as (old2 & Hw & Ho2).
  assert (Ho3 : Forall (fun x => x < t - (3600 - d))%Q old2) by (eapply Forall_impl; [exact Ho2|]; simpl; intros; lra).
  assert (Hk : remembers rule d adm t (Some (set_window (drop_before (t - 3600) (requests_in_window b0)) b0))).
  { split_and!; try done. exists (old ++ old2). simpl. split_and!; [|by apply Forall_app|].
    - rewrite Hm, <- app_assoc. f_equal. exact Hw.
    - rewrite Hw in Hb. by apply Forall_app in Hb as [_ Hb]. }
  unfold _check_window_limits. cbv zeta. repeat split_if; try done.
  q_cases. destruct Hk as (_ & _ & old3 & Hm3 & Ho4 & Hb3). simpl in *.
  split_and!.
  - apply paced_snoc; [done|lra|lra].
  - apply Forall_app. split; [done|]. constructor; [simpl; lra|done].
  - exists old3. rewrite map_app. simpl. rewrite Hm3, app_assoc. split_and!; try done.
    apply Forall_app. auto.
Qed.
End windows.

Lemma paced_inv rule d adm t cost : paced rule d (adm ++ [(t, cost)]) -> paced rule d adm.
Proof.
  intros Hp. inversion Hp as [Hn|adm' t' cost' Hp' _ _ Heq]; [by destruct adm|].
  by apply app_inj_tail in Heq as [-> _].
Qed.

(** C20: The minute and hour limits. Calls of any clients access the limiter in any
    order, at times that do not decrease, through any backend that satisfies the storage
    laws and with cleanups at any point. When a client's requests have one rule with a
    rate that is not zero, no call of it begins while another one is under way (nothing
    in the limiter ensures that) and none lasts more than [d] seconds, at most 59
    minutes, every admission of the client finds fewer than [requests_per_minute] earlier
    ones in the sixty seconds before it and fewer than [requests_per_hour] in the hour,
    less [d] seconds, before it. *)
Theorem windows_enforced {S} `{RateLimitBackend S, !BackendLaws S}
    c rule d rqs es t0 t1 (l : limiter S) :
  bk_ok (backend l) -> lookup_client c l = None ->
  timed t0 es t1 -> serial c d es (begin_all rqs l) -> Forall (uses_rule c rule (rules l)) rqs ->
  ~ (requests_per_second rule == 0)%Q -> (0 <= d <= 3540)%Q ->
  paced rule d (fst (admissions c es (begin_all rqs l))).
Proof.
  intros Hok Hc Ht Hs Hall Hrate Hd.
  destruct (trace_invariant c rule d (rules l) (remembers rule d)) with (es := es) (adm := @nil (Q * Z)) (t := t0) (t' := t1)
    (cf := begin_all rqs l) as (t2 & Ht2 & Hh); try done; try lra.
  - intros. by eapply remembers_time.
  - intros. by eapply remembers_clean.
  - intros. by apply remembers_step.
  - apply holds_begin; try done. rewrite Hc. split; [constructor|]. split; [done|]. by exists [].
  - simpl in Hh. apply holds_end in Hh as (now & ob & Hn & [[HI _]|(cost & Hcost & [HI _])]); [done|by apply paced_inv in HI].
Qed.

Lemma windows_enforced_witness :
  length (fst (admissions "a" run_of_calls (begin_all calls public_limiter))) = 10%nat /\
  paced public_rule 60 (fst (admissions "a" run_of_calls (begin_all calls public_limiter))).
Proof.
  split; [vm_compute; reflexivity|]. apply (windows_enforced "a" public_rule 60 calls run_of_calls 1 1 public_limiter).
  - apply NoDup_nil_2.
  - reflexivity.
  - vm_compute. repeat split; discriminate.
  - apply serial_checked. vm_compute. reflexivity.
  - repeat constructor; discriminate.
  - discriminate.
  - split; discriminate.
Defined.

(** Calls of one client that overlap are all admitted: each fetches the bucket before
    another stores it. Fifteen of them on a full bucket of ten. *)
Definition redis_demo : Redis (pydict (pydict Q)) := {|
  hgetall key r := Ok (default [] (dget key r));
  hset key h r := Ok (dset key h r);
  expire _ _ r := Ok r |}.

Definition overlapping : list event := concat (replicate 5 (map (fun i => (i, 1%Q)) (seq 0 15))).

Lemma overlapping_calls_exceed_burst :
  let backend := @RedisBackend.backend _ redis_demo "marty:ratelimit:" in
  length (fst (@admissions _ backend "a" overlapping
    (begin_all (replicate 15 (from "a")) (create_default_rate_limiter [] 0)))) = 15%nat /\ burst_size public_rule = 10.
Proof. split; vm_compute; reflexivity. Qed.

(** ** Rule selection *)

Lemma max_priority_spec r rs :
  let m := max_priority r rs in
  In m (r :: rs) /\ (forall r', In r' (r :: rs) -> priority r' <= priority m) /\
  exists pre post, r :: rs = pre ++ m :: post /\ Forall (fun r' => priority r' < priority m) pre.
Proof.
  unfold max_priority. revert r. induction rs as [|r2 rs IH]; intros r; simpl.
  - split_and!; [auto|naive_solver lia|]. by exists [], [].
  - destruct (Z.ltb_spec (priority r) (priority r2)) as [Hlt|Hge].
    + destruct (IH r2) as (Hin & Hmax & pre & post & Heq & Hpre).
      assert (Hr2 := Hmax r2 (or_introl eq_refl)).
      split_and!; [naive_solver|intros r' [<-|Hr']; [lia|by apply Hmax]|].
      exists (r :: pre), post. simpl in *. rewrite Heq. split; [done|]. constructor; [lia|done].
    + destruct (IH r) as (Hin & Hmax & pre & post & Heq & Hpre).
      assert (Hr := Hmax r (or_introl eq_refl)).
      set (m := fold_left _ rs r) in *. clearbody m.
      split_and!; [naive_solver|intros r' [<-|[<-|Hr']]; [lia|lia|apply Hmax; by right]|].
      destruct pre as [|p pre]; simplify_eq/=.
      * by exists [], (r2 :: post).
      * exists (p :: r2 :: pre), post. simpl. split; [done|]. apply Forall_cons in Hpre as [? ?].
        repeat constructor; [done|lia|done].
Qed.

(** The rule applies to clients of this type. *)
Definition applies (ctype : string) (rule : RateLimitRule) : Prop :=
  client_type rule = ctype \/ client_type rule = "default".

(** Rule selection. The rule used for a client type is the default rule if no
    registered rule applies; otherwise it is a registered rule that applies, no
    applicable rule has a higher priority, and among those of the same priority
    it is the one registered first. *)
Theorem rule_selection (rs : pydict RateLimitRule) ctype :
  let rule := get_rule_for_client rs ctype in
  (rule = default_rule /\ forall r, In r (dvalues rs) -> ~ applies ctype r) \/
  (applies ctype rule /\
   (forall r, In r (dvalues rs) -> applies ctype r -> priority r <= priority rule) /\
   exists pre post, dvalues rs = pre ++ rule :: post /\
     Forall (fun r => applies ctype r -> priority r < priority rule) pre).
Proof.
  unfold get_rule_for_client. set (f := fun rule => _).
  assert (Hf : forall r, f r = true <-> applies ctype r).
  { intros r. unfold f, applies. rewrite orb_true_iff, !String.eqb_eq. done. }
  destruct (List.filter f (dvalues rs)) as [|r0 rs0] eqn:E; simpl.
  - left. split; [done|]. intros r Hin Ha. apply lfilter_nil with (x := r) in E; [|done].
    apply Hf in Ha. congruence.
  - right. destruct (max_priority_spec r0 rs0) as (Hin & Hmax & pre & post & Heq & Hpre).
    rewrite <- E in *. set (m := max_priority r0 rs0) in *. clearbody m.
    pose proof (proj1 (filter_In f m _) Hin) as [_ Ham]. split_and!; [by apply Hf| |].
    + intros r Hr Ha. apply Hmax, filter_In. split; [done|by apply Hf].
    + clear Hin Hmax E r0 rs0. generalize dependent pre.
      induction (dvalues rs) as [|x l IH]; intros pre Heq Hpre; simpl in Heq; [by destruct pre|].
      destruct (f x) eqn:Ex.
      * destruct pre as [|p pre]; injection Heq as Heq1 Heq2; subst.
        { by exists [], l. }
        apply Forall_cons in Hpre as [Hp Hpre].
        destruct (IH pre Heq2 Hpre) as (p1 & p2 & -> & Hall).
        exists (p :: p1), p2. split; [done|]. by constructor.
      * destruct (IH pre Heq Hpre) as (p1 & p2 & -> & Hall). exists (x :: p1), p2. split; [done|].
        constructor; [|done]. intros Ha%Hf. congruence.
Qed.

(** ** What a rejected client is told *)

(** The burst wait is exact. When a request is refused for lack of tokens,
    the reported wait is positive, and a client that stays idle and retries [d]
    later finds enough tokens if and only if [d] is at least the reported wait
    (for a cost within the burst size). *)
Theorem burst_wait_exact rule bucket cost now status d :
  (0 < requests_per_second rule)%Q -> (tokens bucket < q_of_Z cost)%Q ->
  (q_of_Z cost <= q_of_Z (burst_size rule))%Q -> last_refill bucket = now -> (0 < d)%Q ->
  burst_status rule bucket cost now = Ok status ->
  exists w, retry_after status = Some w /\ (0 < w)%Q /\
    ((q_of_Z cost <= tokens (_refill_bucket bucket rule (now + d)))%Q <-> (w <= d)%Q).
Proof.
  intros Hr Hlt Hb <- Hd Hs. unfold burst_status in Hs.
  rewrite py_div_ok in Hs by (intros ?; lra). injection Hs as <-.
  eexists. split; [reflexivity|].
  set (x := (q_of_Z cost - tokens bucket)%Q). assert (Hx : (0 < x)%Q) by (unfold x; lra).
  split; [by apply Qlt_shift_div_l; [|lra]|].
  unfold _refill_bucket. cbv zeta.
  destruct (Qle_bool (last_refill bucket + d - last_refill bucket) 0) eqn:E; simpl.
  { apply Qle_bool_iff in E. lra. }
  assert (Hw : (x / requests_per_second rule <= d)%Q <-> (x <= d * requests_per_second rule)%Q).
  { split; intros H.
    - apply (Qmult_le_r _ _ (requests_per_second rule) Hr) in H.
      assert ((x / requests_per_second rule * requests_per_second rule == x)%Q) by (field; lra). lra.
    - by apply Qle_shift_div_r. }
  rewrite Hw. unfold x in *. q_cases; split; intros; try lra; nra.
Qed.

Lemma burst_wait_exact_witness :
  let b := {| tokens := 1 # 2; last_refill := 10; requests_in_window := []; total_requests := 3 |} in
  exists w, (w == 1 # 10)%Q /\ (0 < w)%Q /\
    ((q_of_Z 1 <= tokens (_refill_bucket b public_rule (10 + (1 # 5))))%Q <-> (w <= 1 # 5)%Q).
Proof.
  destruct (burst_wait_exact public_rule
    {| tokens := 1 # 2; last_refill := 10; requests_in_window := []; total_requests := 3 |}
    1 10 _ (1 # 5) eq_refl eq_refl ltac:(discriminate) eq_refl eq_refl eq_refl) as (w & Hw & Hp & Hi).
  exists w. split; [|by split]. injection Hw as <-. reflexivity.
Defined.

Lemma zero_wait_handler status w :
  allowed status = false -> retry_after status = Some w -> (w == 0)%Q ->
  rule_applied status = Some "window_limit" ->
  rate_limited_handler status =
    [rate_headers status;
     AbortCall RESOURCE_EXHAUSTED "Rate limit exceeded. Rule: window_limit"].
Proof.
  intros Ha Hw H0%Qeq_bool_iff Hr. unfold rate_limited_handler, q_truthy. by rewrite Ha, Hw, H0, Hr.
Qed.

(** the minute limit tells the client to retry at once. A request refused
    because of the minute window is told a reset time equal to now and a wait of
    zero, so the middleware sends no retry-after header before it aborts. *)
Theorem minute_limit_has_no_wait rule bucket now ok t b :
  _check_window_limits bucket rule now = (ok, t, b) -> ~ (now == 0)%Q ->
  (requests_per_minute rule <= count_since (now - 60) (requests_in_window b))%Q ->
  let status := window_status t now in
  allowed status = false /\
  (exists reset, reset_time status = Some reset /\ (reset == now)%Q) /\
  (exists wait, retry_after status = Some wait /\ (wait == 0)%Q) /\
  rate_limited_handler status =
    [rate_headers status;
     AbortCall RESOURCE_EXHAUSTED "Rate limit exceeded. Rule: window_limit"].
Proof.
  unfold _check_window_limits. cbv zeta. intros Hc Hnow Hm.
  assert (Hmin : (requests_per_minute rule <= count_since (now - 60)
            (drop_before (now - 3600) (requests_in_window bucket)))%Q)
    by (clear Hnow; revert Hc; repeat split_if; intros; by simplify_eq).
  apply Qle_bool_iff in Hmin. rewrite Hmin in Hc. simplify_eq/=.
  destruct (Qeq_bool (now - 60 + 60) 0) eqn:E; [apply Qeq_bool_iff in E; exfalso; apply Hnow; lra|].
  assert (Hw : (now - 60 + 60 - now == 0)%Q) by lra.
  assert (Hs : window_status (Some (now - 60 + 60)%Q) now =
    {| allowed := false; remaining_requests := 0; reset_time := Some (now - 60 + 60)%Q;
       retry_after := Some (now - 60 + 60 - now)%Q; rule_applied := Some "window_limit" |})
    by (unfold window_status; by rewrite E).
  rewrite Hs. split_and!; [done|eexists; split; [done|lra]|by eexists|].
  by eapply zero_wait_handler.
Qed.

Definition full_minute : ClientBucket := {|
  tokens := 5; last_refill := 100; requests_in_window := replicate 300 99%Q; total_requests := 300 |}.

Lemma minute_limit_has_no_wait_witness :
  allowed (window_status (Some (100 - 60 + 60)%Q) 100) = false.
Proof.
  apply (minute_limit_has_no_wait public_rule full_minute 100 false _ full_minute); try reflexivity.
  - discriminate.
  - vm_compute. discriminate.
Defined.

(** With Redis storage the windows are not enforced. The bucket read back has
    an empty window, so no request is ever refused by the minute or the hour
    limit when those are positive, whatever the Redis operations do. *)
Theorem redis_ignores_windows {R} `{Redis R} key_prefix c ctype cost now (l : limiter R) status :
  let rule := get_rule_for_client (rules l) ctype in
  (0 < requests_per_minute rule)%Q -> (0 < requests_per_hour rule)%Q ->
  fst (@check_limit R (RedisBackend.backend key_prefix) c ctype cost now l) = Ok status ->
  rule_applied status <> Some "window_limit".
Proof.
  intros rule Hm Hh. rewrite check_limit_alone. cbv zeta.
  match goal with |- context[rules ?x] => set (l1 := x) end.
  assert (Hrl : rules l1 = rules l) by (unfold l1; by split_if).
  rewrite Hrl. fold rule. clearbody l1. set (ob := @get_client_data R (RedisBackend.backend key_prefix) c (backend l1)).
  assert (Hw : requests_in_window (default (new_bucket rule now) ob) = []).
  { unfold ob. simpl. unfold RedisBackend.get_client_data.
    destruct (hgetall _ _) as [[|p d]|]; done. }
  destruct (decide_limit rule cost now ob) as [b2 ans] eqn:Ed. simpl. intros ->. revert Ed. unfold decide_limit.
  set (b := default _ ob) in *. clearbody b. destruct (refill_window b rule now) as (Hw2 & _). rewrite Hw in Hw2.
  set (b3 := _refill_bucket b rule now) in *. clearbody b3. split_if; simpl.
  - unfold burst_status, py_div. destruct (Qeq_bool _ _); simpl; intros [= _ <-] [=].
  - unfold _check_window_limits. cbv zeta. rewrite Hw2. cbn [drop_before].
    apply Qle_bool_gt in Hm, Hh.
    change (count_since (now - 60) []) with 0%Q.
    change (inject_Z (Z.of_nat (length []))) with 0%Q. rewrite Hm, Hh. simpl.
    unfold allowed_status, py_div. destruct (Qeq_bool _ _); simpl; intros [= _ <-] [=].
Qed.

(** A Redis that is always down. *)
#[local] Instance broken_redis : Redis unit := {
  hgetall := fun _ _ => Raise (raise_ ConnectionError "down");
  hset := fun _ _ _ => Raise (raise_ ConnectionError "down");
  expire := fun _ _ _ => Raise (raise_ ConnectionError "down") }.

Lemma redis_ignores_windows_witness :
  exists status,
    fst (@check_limit unit (RedisBackend.backend "marty:ratelimit:") "a" "public" 1 5
           (create_default_rate_limiter tt 0)) = Ok status /\
    rule_applied status <> Some "window_limit".
Proof.
  eexists. split; [vm_compute; reflexivity|].
  apply (redis_ignores_windows "marty:ratelimit:" "a" "public" 1 5 (create_default_rate_limiter tt 0));
    vm_compute; reflexivity.
Defined.
