(* ===== verification/GrpcHandlers.v ===== *)
(** * gRPC method handlers

    The objects the interceptors of the services work on: the context of a call,
    the handler of a method in its four shapes, what calling it gives, and what a
    server sees of it. Contexts and handlers are made by the gRPC library. *)

From S2P Require Import Prelude PyRuntime PyText PyBytes PyGen ErrorCodes.
Local Open Scope Z_scope.

(** One of the identities of the peer: its bytes, and what decoding them as UTF-8
    returns or raises. *)
Record PeerIdentity := { raw : bytes; decoded : result string }.

(** The [ServicerContext] of a call. *)
Record ServicerContext (W : Type) := {
  auth_context : result (pydict (list bytes));
  peer_identity_key : result (option string);
  peer_identities : result (option (list PeerIdentity));
  context_metadata : list (string * string);
  abort : StatusCode -> string -> M W unit }.
Arguments auth_context {_} _.
Arguments peer_identity_key {_} _.
Arguments peer_identities {_} _.
Arguments context_metadata {_} _.
Arguments abort {_} _ _ _.

Definition RpcError : pyclass := subclass "RpcError" Exception_.

Record HandlerCallDetails := { method : string; invocation_metadata : list (string * string) }.

Section handlers.
Context {W Req Msg Codec : Type}.

(** What a call of a handler gives: nothing, a message, or messages from an
    asynchronous or a plain iterator. *)
Inductive Response :=
| RNone
| RMessage (m : Msg)
| RAsyncIter (g : Gen W Msg)
| RIter (g : Gen W Msg).

(** A value, or an awaitable of one. *)
Inductive Outcome :=
| Now (r : Response)
| Later (m : M W Response).

Inductive FunctionKind := Plain | CoroutineFunction | AsyncGenFunction.

Record Behavior := { kind : FunctionKind; call : Req -> ServicerContext W -> M W Outcome }.

Record Handler := {
  request_streaming : bool; response_streaming : bool;
  unary_unary : option Behavior; unary_stream : option Behavior;
  stream_unary : option Behavior; stream_stream : option Behavior;
  request_deserializer : option Codec; response_serializer : option Codec }.

(** The gRPC factory of each of the four shapes. *)
Definition factory (req_streaming resp_streaming : bool) (b : Behavior) (d s : option Codec) : Handler := {|
  request_streaming := req_streaming; response_streaming := resp_streaming;
  unary_unary := if negb req_streaming && negb resp_streaming then Some b else None;
  unary_stream := if negb req_streaming && resp_streaming then Some b else None;
  stream_unary := if req_streaming && negb resp_streaming then Some b else None;
  stream_stream := if req_streaming && resp_streaming then Some b else None;
  request_deserializer := d; response_serializer := s |}.

Definition not_callable : exn := raise_ TypeError "'NoneType' object is not callable".
Definition not_iterable : exn := raise_ TypeError "object is not iterable".

(** The behaviour in the slot of the handler's shape. *)
Definition behavior_of (h : Handler) : Behavior :=
  let slot := if request_streaming h && response_streaming h then stream_stream h
              else if request_streaming h then stream_unary h
              else if response_streaming h then unary_stream h
              else unary_unary h in
  default {| kind := Plain; call := fun _ _ => raise not_callable |} slot.

Lemma behavior_of_factory rs ws (b : Behavior) (d s : option Codec) : behavior_of (factory rs ws b d s) = b.
Proof. by destruct rs, ws. Qed.

(** [inspect.iscoroutinefunction(b) or inspect.isasyncgenfunction(b)] *)
Definition asynchronous (b : Behavior) : bool := match kind b with Plain => false | _ => true end.

(** [await response if inspect.isawaitable(response) else response] *)
Definition settle (o : Outcome) : M W Response := match o with Now r => mret r | Later m => m end.

(** The items of an asynchronous handler: [response] may be an awaitable, nothing,
    or an iterator of either sort. *)
Definition async_items (b : Behavior) (request : Req) (c : ServicerContext W) : M W (Gen W Msg) :=
  o ← call b request c;
  response ← settle o;
  match response with
  | RNone => mret empty_gen
  | RAsyncIter g | RIter g => mret g
  | RMessage _ => raise not_iterable
  end.

(** [yield from b(request, context)] *)
Definition sync_items (b : Behavior) (request : Req) (c : ServicerContext W) : M W (Gen W Msg) :=
  o ← call b request c;
  match o with Now (RIter g) => mret g | _ => raise not_iterable end.

(** [async for]/[for item in b(request, context): yield item], whichever iterator it is. *)
Definition iter_items (b : Behavior) (request : Req) (c : ServicerContext W) : M W (Gen W Msg) :=
  o ← call b request c;
  match o with Now (RAsyncIter g) | Now (RIter g) => mret (loop_over g) | _ => raise not_iterable end.

(** [async for item in b(request, context): yield item] *)
Definition aiter_items (b : Behavior) (request : Req) (c : ServicerContext W) : M W (Gen W Msg) :=
  o ← call b request c;
  match o with Now (RAsyncIter g) => mret (loop_over g) | _ => raise not_iterable end.

(** ** What a server sees *)

(** The reply of a unary call, or the ending of a stream. *)
Inductive answer := Replied (r : result Outcome) | Streamed (e : ending).

Definition observation : Type := list Msg * answer * W.

Definition streamed (x : list Msg * ending * W) : observation := let '(ms, e, w) := x in (ms, Streamed e, w).

(** The server calls the handler and consumes its messages, which the consumer [k]
    may stop; [closes] tells whether the handler's own stream is closed then. *)
Definition serve (closes resp_streaming : bool) (b : Behavior) (k : Msg -> W -> bool * W)
    (request : Req) (c : ServicerContext W) (w : W) : observation :=
  if resp_streaming then
    let items := if asynchronous b then async_items b request c else sync_items b request c in
    streamed (consume k (start_with (if closes then items else g ← items; mret (loop_over g))) w)
  else
    let m := if asynchronous b then o ← call b request c; r ← settle o; mret (Now r) else call b request c in
    let '(r, w) := m w in ([], Replied r, w).

(** A function of the library as a handler. *)
Definition coroutine (f : Req -> ServicerContext W -> M W Response) : Behavior :=
  {| kind := CoroutineFunction; call := fun r c => mret (Later (f r c)) |}.
Definition async_generator (f : Req -> ServicerContext W -> Gen W Msg) : Behavior :=
  {| kind := AsyncGenFunction; call := fun r c => mret (Now (RAsyncIter (f r c))) |}.
Definition generator (f : Req -> ServicerContext W -> Gen W Msg) : Behavior :=
  {| kind := Plain; call := fun r c => mret (Now (RIter (f r c))) |}.

(** Awaiting what a call returned. *)
Lemma settle_bind (m : M W Outcome) w :
  (o ← m; r ← settle o; mret (Now r)) w = let '(r, w') := (o ← m; settle o) w in ((x ← r; Ok (Now x)), w').
Proof.
  unfold mbind, M_bind. destruct (m w) as [[o|e] w']; [|done]. by destruct (settle o w') as [[] w2].
Qed.

Lemma serve_coroutine closes f k request c w :
  serve closes false (coroutine f) k request c w = let '(r, w') := f request c w in ([], Replied (x ← r; Ok (Now x)), w').
Proof. unfold serve. cbn [asynchronous kind coroutine call]. rewrite settle_bind, bind_ret_l. simpl. by destruct (f request c w). Qed.

Lemma serve_async_generator f k request c w :
  serve true true (async_generator f) k request c w = streamed (consume k (f request c) w).
Proof. unfold serve. rewrite consume_start. done. Qed.

Lemma serve_generator f k request c w :
  serve true true (generator f) k request c w = streamed (consume k (f request c) w).
Proof. unfold serve. rewrite consume_start. done. Qed.
End handlers.
