(* ===== verification/RetryPolicy.v ===== *)
(** * Retry policies ([resilience/retry.py], [resilience/retry_enhanced.py])

    Policies of the tenacity library made from a configuration, the exceptions that
    are worth another attempt, and the numbers that the decorators keep of attempts.
    What a policy does is the library's: [Tenacity] runs one, and [retried] is what is
    relied on. Synchronous and asynchronous decorators do the same. *)

From S2P Require Import Prelude PyRuntime PyText ErrorCodes GrpcHandlers.
Local Open Scope Z_scope.

(** ** Configuration *)

Record RetryConfig := {
  max_attempts : Z; base_delay : Q; max_delay : Q; jitter : bool; exponential_backoff : bool; max_total_delay : Q;
  retry_on_exceptions : list pyclass }.

Definition default_config : RetryConfig := {|
  max_attempts := 5; base_delay := 2 # 10; max_delay := 3; jitter := true; exponential_backoff := true; max_total_delay := 30;
  retry_on_exceptions := [TransientBackendError_cls; ConnectionError; TimeoutError] |}.

(** ** Numbers *)

Record RetryMetrics := {
  total_attempts : Z; total_retries : Z; successful_calls : Z; failed_calls : Z; last_attempt_time : Q }.

Definition new_metrics : RetryMetrics :=
  {| total_attempts := 0; total_retries := 0; successful_calls := 0; failed_calls := 0; last_attempt_time := 0 |}.

Definition record_attempt (now : Q) (m : RetryMetrics) : RetryMetrics := {|
  total_attempts := total_attempts m + 1; total_retries := total_retries m; successful_calls := successful_calls m;
  failed_calls := failed_calls m; last_attempt_time := now |}.
Definition record_retry (m : RetryMetrics) : RetryMetrics := {|
  total_attempts := total_attempts m; total_retries := total_retries m + 1; successful_calls := successful_calls m;
  failed_calls := failed_calls m; last_attempt_time := last_attempt_time m |}.
Definition record_success (m : RetryMetrics) : RetryMetrics := {|
  total_attempts := total_attempts m; total_retries := total_retries m; successful_calls := successful_calls m + 1;
  failed_calls := failed_calls m; last_attempt_time := last_attempt_time m |}.
Definition record_failure (m : RetryMetrics) : RetryMetrics := {|
  total_attempts := total_attempts m; total_retries := total_retries m; successful_calls := successful_calls m;
  failed_calls := failed_calls m + 1; last_attempt_time := last_attempt_time m |}.

Definition success_rate (m : RetryMetrics) : Q :=
  let n := successful_calls m + failed_calls m in
  if 0 <? n then inject_Z (successful_calls m) / inject_Z n else 0.

(** [get_stats], whose other entries are the fields. *)
Definition get_stats (m : RetryMetrics) : RetryMetrics * Q := (m, success_rate m).

(** ** Exceptions worth another attempt

    [status_code e] is what [e.code()] gives, nothing when [e] has no [code]. *)

Section retry.
Context (status_code : exn -> option StatusCode).

Definition retryable_grpc_codes : list StatusCode := [UNAVAILABLE; DEADLINE_EXCEEDED; RESOURCE_EXHAUSTED; ABORTED].

Definition is_retryable_exception (exc : exn) : result bool :=
  if isinstance exc TransientBackendError_cls || exception_is_transient exc then Ok true
  else if isinstance_any exc [ConnectionError; TimeoutError; OSError] then Ok true
  else if isinstance exc RpcError then
    match status_code exc with
    | Some c => Ok (mem c retryable_grpc_codes)
    | None => Raise (raise_ (subclass "AttributeError" Exception_) "code")
    end
  else Ok false.

(** ** Policies *)

Inductive wait_strategy :=
| WaitExponentialJitter (exp_base max : Q)
| WaitExponential (exp_base max : Q)
| WaitFixed (d : Q)
| WaitFixedPlusRandom (d low high : Q).

Definition _create_wait_strategy (config : RetryConfig) : wait_strategy :=
  if exponential_backoff config then
    if jitter config then WaitExponentialJitter (base_delay config) (max_delay config)
    else WaitExponential (base_delay config) (max_delay config)
  else if jitter config then WaitFixedPlusRandom (base_delay config) 0 (base_delay config * (1 # 10))
  else WaitFixed (base_delay config).

(** When to stop: after a number of attempts, and after a total delay if there is one. *)
Record stop_strategy := { after_attempt : Z; after_delay : option Q }.

Definition _create_stop_strategy (config : RetryConfig) : stop_strategy :=
  {| after_attempt := max_attempts config; after_delay := if Qltb 0 (max_total_delay config) then Some (max_total_delay config) else None |}.

(** The condition for another attempt. *)
Inductive condition := IfException (predicate : exn -> result bool) | IfType (classes : list pyclass).

Definition condition_holds (c : condition) (e : exn) : result bool :=
  match c with IfException p => p e | IfType cs => Ok (isinstance_any e cs) end.

Record policy := { retry : condition; stop : stop_strategy; wait : wait_strategy; logged_by : option string }.

Definition _create_retry_policy (config : option RetryConfig) (name : option string) (enable_logging : bool)
    (predicate : exn -> result bool) (policy_logger : string) : policy :=
  let config := default default_config config in {|
  retry := match retry_on_exceptions config with [] => IfException predicate | cs => IfType cs end;
  stop := _create_stop_strategy config;
  wait := _create_wait_strategy config;
  logged_by := if enable_logging && str_truthy name then Some policy_logger else None |}.

Definition create_retry_policy (config : option RetryConfig) (name : option string) (enable_logging : bool) : policy :=
  _create_retry_policy config name enable_logging is_retryable_exception "resilience.retry".
Definition create_retry_policy_enhanced (config : option RetryConfig) (name : option string) (enable_logging : bool) : policy :=
  _create_retry_policy config name enable_logging is_retryable_exception "resilience.retry_enhanced".

Definition default_retry (attempts : Z) (base max_wait : Q) : policy :=
  create_retry_policy (Some {| max_attempts := attempts; base_delay := base; max_delay := max_wait; jitter := true;
    exponential_backoff := true; max_total_delay := 30; retry_on_exceptions := retry_on_exceptions default_config |}) None true.

(** ** Decorators *)

Context {W T : Type} `{World W}.

(** [_retry_metrics] and the world. Metrics are never removed, so the object that a
    decorated function holds is the one of its name. *)
Record state := St { registry : pydict RetryMetrics; world : W }.

Definition metrics_of (name : string) (s : state) : RetryMetrics := default new_metrics (dget name (registry s)).
Definition with_metrics (name : string) (f : RetryMetrics -> RetryMetrics) (s : state) : state :=
  St (dset name (f (metrics_of name s)) (registry s)) (world s).

Definition get_retry_metrics (name : string) : M state RetryMetrics := fun s =>
  let s := if din name (registry s) then s else with_metrics name id s in (Ok (metrics_of name s), s).

Definition get_all_retry_metrics : M state (pydict (RetryMetrics * Q)) :=
  gets (fun s => map (fun kv => (fst kv, get_stats (snd kv))) (registry s)).

(** The function that the policy runs. *)
Definition wrapper (name : string) (fn : W -> result T * W) : M state T := fun s =>
  let '(now, w) := time_time (world s) in
  let '(r, w) := fn w in
  let s := with_metrics name (record_attempt now) (St (registry s) w) in
  match r with
  | Ok result => (Ok result, with_metrics name record_success s)
  | Raise exc =>
      if catchable exc then
        match is_retryable_exception exc with
        | Ok true => (Raise exc, with_metrics name record_retry s)
        | Ok false => (Raise exc, with_metrics name record_failure s)
        | Raise other => (Raise other, s)
        end
      else (Raise exc, s)
  end.

(** What a policy does with a function: attempts, with waits between them that leave
    the metrics alone, until one succeeds, fails with an exception that is not worth
    another, or the policy stops and passes the last exception on ([reraise=True]). *)
Inductive retried (p : policy) (m : M state T) : Z -> state -> result T -> state -> Prop :=
| retried_ok n s a s' : m s = (Ok a, s') -> retried p m n s (Ok a) s'
| retried_not n s e s' : m s = (Raise e, s') -> condition_holds (retry p) e = Ok false -> retried p m n s (Raise e) s'
| retried_error n s e e' s' : m s = (Raise e, s') -> condition_holds (retry p) e = Raise e' -> retried p m n s (Raise e') s'
| retried_stop n s e s' : m s = (Raise e, s') -> condition_holds (retry p) e = Ok true ->
    after_attempt (stop p) <= n \/ after_delay (stop p) <> None -> retried p m n s (Raise e) s'
| retried_again n s e s1 s2 r s' : m s = (Raise e, s1) -> condition_holds (retry p) e = Ok true -> n < after_attempt (stop p) ->
    registry s2 = registry s1 -> retried p m (n + 1) s2 r s' -> retried p m n s r s'.

Class Tenacity := { run_policy : policy -> M state T -> M state T }.
Class TenacityLaws `{Tenacity} := {
  run_retried p m s : retried p m 1 s (fst (run_policy p m s)) (snd (run_policy p m s)) }.

(** A call of the decorated function; the metrics are made when it is decorated. *)
Definition retry_sync `{Tenacity} (p : policy) (name : string) (fn : W -> result T * W) : M state T :=
  _ ← get_retry_metrics name;
  run_policy p (wrapper name fn).

(** The same with [await] in front of the calls. *)
Definition retry_async `{Tenacity} (p : policy) (name : string) (fn : W -> result T * W) : M state T := retry_sync p name fn.
End retry.

(** ** What is counted *)

Section laws.
Context (status_code : exn -> option StatusCode) {W T : Type} `{World W}.
Notation retryable := (is_retryable_exception status_code).

(** The exceptions of the default configuration are all worth another attempt. *)
Lemma default_classes_retryable e : isinstance_any e (retry_on_exceptions default_config) = true -> retryable e = Ok true.
Proof.
  unfold isinstance_any, is_retryable_exception. cbn [existsb retry_on_exceptions default_config]. rewrite !orb_true_iff.
  intros [Ht|[Hc|[Hd|Hf]]]; [by rewrite Ht| | |done].
  - destruct (_ || exception_is_transient e); [done|]. unfold isinstance_any. cbn [existsb]. by rewrite Hc.
  - destruct (_ || exception_is_transient e); [done|]. unfold isinstance_any. cbn [existsb]. rewrite Hd. by rewrite orb_true_r.
Qed.

(** Whether a call ended with an exception that is not worth another attempt, or was
    ended by one that no [except Exception] catches, as an interruption or a
    cancellation is. *)
Definition transient (e : exn) : bool := match retryable e with Ok b => b | Raise _ => false end.
Definition refused (r : result T) : bool := match r with Ok _ => false | Raise e => catchable e && negb (transient e) end.
Definition interrupted (r : result T) : bool := match r with Ok _ => false | Raise e => negb (catchable e) end.

(** By how much the numbers grew. *)
Definition grew (m m' : RetryMetrics) (attempts retries successes failures : Z) : Prop :=
  total_attempts m' = total_attempts m + attempts /\ total_retries m' = total_retries m + retries /\
  successful_calls m' = successful_calls m + successes /\ failed_calls m' = failed_calls m + failures.

Definition one (b : bool) : Z := if b then 1 else 0.

(** What the function may raise: anything, if the errors of gRPC have a code, and what is
    derived from an exception of the default configuration is an [Exception]. *)
Definition ordinary (fn : W -> result T * W) : Prop :=
  forall w e w', fn w = (Raise e, w') ->
    if catchable e then is_ok (retryable e) = true else isinstance_any e (retry_on_exceptions default_config) = false.

Lemma metrics_with name f (s : state (W := W)) : metrics_of name (with_metrics name f s) = f (metrics_of name s).
Proof. unfold metrics_of at 1, with_metrics. simpl. by rewrite dget_dset_eq. Qed.

Lemma others_with name other f (s : state (W := W)) : other <> name -> dget other (registry (with_metrics name f s)) = dget other (registry s).
Proof. intros Hn. unfold with_metrics. simpl. rewrite dget_dset_ne; [done|congruence]. Qed.

Lemma wrapper_grew name fn s r s' : ordinary fn -> wrapper status_code name fn s = (r, s') ->
  grew (metrics_of name s) (metrics_of name s') 1 (one (negb (is_ok r || refused r || interrupted r))) (one (is_ok r)) (one (refused r)) /\
  (forall other, other <> name -> dget other (registry s') = dget other (registry s)).
Proof.
  intros Hfn. unfold wrapper. destruct (time_time (world s)) as [now w] eqn:Ht. destruct (fn w) as [r1 w1] eqn:Hr.
  assert (metrics_of name (St (registry s) w1) = metrics_of name s) as Hm by done.
  destruct r1 as [a|e].
  { intros [= <- <-]. rewrite !metrics_with, Hm. split; [repeat split; simpl; lia|]. intros other Hn. by rewrite !others_with. }
  specialize (Hfn w e w1 Hr). destruct (catchable e) eqn:Hc; unfold refused, interrupted, transient.
  2: { intros [= <- <-]. rewrite Hc, metrics_with, Hm. split; [repeat split; simpl; lia|]. intros other Hn. by rewrite others_with. }
  destruct (retryable e) as [[]|] eqn:Hret; [| |done]; intros [= <- <-]; rewrite Hc, Hret, !metrics_with, Hm.
  all: split; [repeat split; simpl; lia|]; intros other Hn; by rewrite !others_with.
Qed.

Lemma grew_trans m1 m2 m3 a b c d a' b' c' d' : grew m1 m2 a b c d -> grew m2 m3 a' b' c' d' -> grew m1 m3 (a + a') (b + b') (c + c') (d + d').
Proof. unfold grew. lia. Qed.

Lemma ordinary_caught name fn s e s' : ordinary fn -> wrapper status_code name fn s = (Raise e, s') ->
  isinstance_any e (retry_on_exceptions default_config) = true -> catchable e = true.
Proof.
  intros Hfn. unfold wrapper. destruct (time_time (world s)) as [now w]. destruct (fn w) as [r1 w1] eqn:Hr.
  destruct r1 as [a|e1]; [done|]. specialize (Hfn w e1 w1 Hr). destruct (catchable e1) eqn:Hc.
  - destruct (retryable e1) as [[]|] eqn:Hret; [| |done]; by intros [= <- <-].
  - intros [= <- <-]. rewrite Hfn. done.
Qed.

Lemma retried_grew p name fn n s r s' : ordinary fn ->
  (forall e, condition_holds (retry p) e = Ok (isinstance_any e (retry_on_exceptions default_config))) ->
  retried p (wrapper status_code name fn) n s r s' ->
  exists k, 1 <= k <= Z.max 1 (after_attempt (stop p) - n + 1) /\
    grew (metrics_of name s) (metrics_of name s') k (k - one (is_ok r || refused r || interrupted r)) (one (is_ok r)) (one (refused r)) /\
    (forall other, other <> name -> dget other (registry s') = dget other (registry s)).
Proof.
  intros Hfn Hp. induction 1 as [n s a s' Hm|n s e s' Hm Hc|n s e e' s' Hm Hc|n s e s' Hm Hc Hs|n s e s1 s2 r s' Hm Hc Hn Hr Hrest IH].
  1, 2, 4: destruct (wrapper_grew _ _ _ _ _ Hfn Hm) as [Hg Ho]; exists 1; split; [lia|]; split; [|done].
  1-3: by destruct (is_ok _ || refused _ || interrupted _).
  - by rewrite Hp in Hc.
  - destruct (wrapper_grew _ _ _ _ _ Hfn Hm) as [Hg Ho]. destruct IH as (k & Hk & Hg' & Ho').
    assert (metrics_of name s2 = metrics_of name s1) as Hsame by (unfold metrics_of; by rewrite Hr).
    rewrite Hp in Hc. injection Hc as Hc. pose proof (ordinary_caught _ _ _ _ _ Hfn Hm Hc) as Hcatch.
    assert (refused (Raise e) = false /\ interrupted (Raise e) = false) as [Href Hint].
    { unfold refused, transient, interrupted. by rewrite Hcatch, (default_classes_retryable e Hc). }
    rewrite Href, Hint in Hg. rewrite Hsame in Hg'. pose proof (grew_trans _ _ _ _ _ _ _ _ _ _ _ Hg Hg') as Htr.
    exists (1 + k). split; [lia|]. split; [|intros other Hne; rewrite Ho', Hr by done; by apply Ho].
    unfold grew in *. simpl in Htr. lia.
Qed.

(** C39: A call makes at least one attempt and at most as many as configured. It counts as a
    success when it returns, as a failure when its last exception was an [Exception] not
    worth another attempt, and every other attempt counts as a retry, but for one that an
    interruption ended, which is counted as nothing but an attempt: a call that gives up
    after all of its attempts, and one that is interrupted, is no failure. The function may
    raise anything, with a code if it is an error of gRPC. *)
Theorem call_counted `{HL : TenacityLaws (W := W) (T := T)} attempts base max_wait name (fn : W -> result T * W) (s : state) :
  ordinary fn ->
  let '(r, s') := retry_sync status_code (default_retry status_code attempts base max_wait) name fn s in
  exists k, 1 <= k <= Z.max 1 attempts /\
    grew (metrics_of name s) (metrics_of name s') k (k - one (is_ok r || refused r || interrupted r)) (one (is_ok r)) (one (refused r)) /\
    (forall other, other <> name -> dget other (registry s') = dget other (registry s)).
Proof.
  intros Hfn. unfold retry_sync, get_retry_metrics, mbind, M_bind. set (s0 := if din name (registry s) then s else _).
  assert (metrics_of name s0 = metrics_of name s /\ forall other, other <> name -> dget other (registry s0) = dget other (registry s)) as [Hm Ho].
  { subst s0. destruct (din name (registry s)); [done|]. split; [by rewrite metrics_with|]. intros other Hne. by apply others_with. }
  set (p := default_retry _ _ _ _). pose proof (run_retried p (wrapper status_code name fn) s0) as Hr.
  destruct (run_policy p (wrapper status_code name fn) s0) as [r s'].
  destruct (retried_grew p name fn 1 s0 r s' Hfn) as (k & Hk & Hg & Hoth); [|done|].
  - done.
  - exists k. rewrite <- Hm. split; [change (after_attempt (stop p)) with attempts in Hk; lia|]. split; [done|].
    intros other Hne. by rewrite Hoth, Ho.
Qed.
End laws.

(** ** A policy that does not wait

    The simplest implementation of what is relied on, with the attempts as fuel. *)

Module Demo.
#[export] Instance demo_clock : World Z := { time_time w := (inject_Z w, w); sleep _ w := w; randbelow _ w := (0, w) }.
Definition no_codes : exn -> option StatusCode := fun e => if String.eqb (exn_message e) "unavailable" then Some UNAVAILABLE else Some INTERNAL.

Fixpoint attempt_until (p : policy) (m : M (state (W := Z)) Z) (fuel : nat) (n : Z) (s : state) : result Z * state :=
  let '(r, s') := m s in
  match r with
  | Ok a => (Ok a, s')
  | Raise e =>
      match condition_holds (retry p) e with
      | Raise e' => (Raise e', s')
      | Ok false => (Raise e, s')
      | Ok true => if after_attempt (stop p) <=? n then (Raise e, s')
                   else match fuel with O => (Raise e, s') | S fuel => attempt_until p m fuel (n + 1) s' end
      end
  end.

#[export] Instance demo_tenacity : Tenacity (W := Z) (T := Z) := {
  run_policy p m s := attempt_until p m (Z.to_nat (after_attempt (stop p))) 1 s }.

Lemma attempt_until_retried p m fuel : forall n s, after_attempt (stop p) <= n + Z.of_nat fuel ->
  retried p m n s (fst (attempt_until p m fuel n s)) (snd (attempt_until p m fuel n s)).
Proof.
  induction fuel as [|fuel IH]; intros n s Hf; simpl; destruct (m s) as [[a|e] s'] eqn:Hm; try (by apply retried_ok);
    destruct (condition_holds (retry p) e) as [[]|] eqn:Hc; simpl; try (by apply retried_not); try (by eapply retried_error);
    destruct (Z.leb_spec (after_attempt (stop p)) n) as [Hle|Hlt]; simpl; try (apply retried_stop; [done|done|left; lia]).
  eapply retried_again; [done|done|done|reflexivity|]. apply IH. lia.
Qed.

#[export] Instance demo_laws : TenacityLaws (W := Z) (T := Z).
Proof. split. intros p m s. apply attempt_until_retried. destruct (Z.leb_spec 0 (after_attempt (stop p))); lia. Qed.

Definition lost (w : Z) : result Z * Z := (Raise (raise_ ConnectionError "lost"), w + 1).
Definition unavailable (w : Z) : result Z * Z := (Raise (raise_ RpcError "unavailable"), w + 1).
Definition policy5 : policy := default_retry no_codes 5 (2 # 10) 3.

(** Five failed attempts, and the statistics of an operation that never failed. *)
Lemma exhausted_call_not_counted :
  let '(r, s) := retry_sync no_codes policy5 "load" lost (St [] 0) in
  is_ok r = false /\ world s = 5 /\ total_retries (metrics_of "load" s) = 5 /\ failed_calls (metrics_of "load" s) = 0.
Proof. by vm_compute. Qed.

(** An unavailable service is worth another attempt, and gets none. *)
Lemma unavailable_gets_no_retry :
  is_retryable_exception no_codes (raise_ RpcError "unavailable") = Ok true /\
  let '(r, s) := retry_sync no_codes policy5 "load" unavailable (St [] 0) in
  is_ok r = false /\ world s = 1 /\ total_retries (metrics_of "load" s) = 1.
Proof. by vm_compute. Qed.

Lemma call_counted_witness :
  let '(r, s') := retry_sync no_codes policy5 "load" lost (St [] 0) in
  exists k, 1 <= k <= Z.max 1 5 /\
    grew (metrics_of "load" (St [] 0)) (metrics_of "load" s') k (k - one (is_ok r || refused no_codes r || interrupted r)) (one (is_ok r)) (one (refused no_codes r)) /\
    (forall other, other <> "load" -> dget other (registry s') = dget other []).
Proof. apply (call_counted no_codes 5 (2 # 10) 3 "load" lost (St [] 0)). intros w e w' [= <- _]. by vm_compute. Defined.

(** A cancelled call is one attempt, and neither a failure nor a retry. *)
Definition cancelled (w : Z) : result Z * Z := (Raise (raise_ CancelledError ""), w + 1).
Lemma cancelled_call_not_counted :
  let '(r, s) := retry_sync no_codes policy5 "load" cancelled (St [] 0) in
  interrupted r = true /\ metrics_of "load" s = {| total_attempts := 1; total_retries := 0; successful_calls := 0; failed_calls := 0;
    last_attempt_time := 0 |}.
Proof. by vm_compute. Qed.
End Demo.
