(* ===== verification/GrpcTls.v ===== *)
(** * Transport security of the gRPC services ([grpc_tls.py])

    The credentials of clients and servers from the options of a service, whose values
    can be anything. Files, the environment and the credentials themselves, which gRPC
    makes, are parameters. *)

From S2P Require Import Prelude PyRuntime PyText PyBytes PyFloat PyConfig.
Local Open Scope Z_scope.

(** What gRPC is asked for. *)
Record client_credentials := { root_certificates : option bytes; private_key : option bytes; certificate_chain : option bytes }.
Record server_credentials := { key_and_certificate : bytes * bytes; client_roots : option bytes; require_client_auth : bool }.

Class TlsFiles (W : Type) := {
  text_of : cfg -> string;
  file_exists : string -> M W bool;
  read_bytes : string -> M W bytes }.

Section tls.
Context {W : Type} `{TlsFiles W}.

Definition nonempty (b : option bytes) : bool := match b with Some (_ :: _) => true | _ => false end.

Definition _read_file_if_exists (path_value : cfg) : M W (option bytes) :=
  if negb (cfg_truthy path_value) then mret None else
  there ← file_exists (text_of path_value);
  if negb there then mret None else b ← read_bytes (text_of path_value); mret (Some b).

(** [tls_options.get(k, d)] *)
Definition option_of (k : string) (d : cfg) (tls_options : pydict cfg) : cfg := default d (dget k tls_options).

Definition build_client_credentials (tls_options : pydict cfg) : M W client_credentials :=
  ca_bytes ← _read_file_if_exists (option_of "client_ca" CNone tls_options);
  cert_bytes ← _read_file_if_exists (option_of "client_cert" CNone tls_options);
  key_bytes ← _read_file_if_exists (option_of "client_key" CNone tls_options);
  let both := nonempty cert_bytes && nonempty key_bytes in
  mret {| root_certificates := ca_bytes; private_key := if both then key_bytes else None;
          certificate_chain := if both then cert_bytes else None |}.

Definition is_acme_enabled (tls_options : pydict cfg) : bool := cfg_truthy (option_of "acme_enabled" (CBool false) tls_options).

Definition configure_server_security (tls_options : pydict cfg) : M W server_credentials :=
  if is_acme_enabled tls_options then raise (raise_ RuntimeError "Automatic Python ACME issuance is retired") else
  cert_bytes ← _read_file_if_exists (option_of "server_cert" CNone tls_options);
  key_bytes ← _read_file_if_exists (option_of "server_key" CNone tls_options);
  match cert_bytes, key_bytes with
  | Some (c :: cert), Some (k :: key) =>
      let require_client := cfg_truthy (option_of "require_client_auth" (CBool true) tls_options) in
      ca_bytes ← _read_file_if_exists (option_of "client_ca" CNone tls_options);
      let mtls_enabled := cfg_truthy (option_of "mtls" (CBool true) tls_options) in
      if mtls_enabled && negb (nonempty ca_bytes)
      then raise (raise_ RuntimeError "mTLS is enabled but client CA certificate missing.")
      else mret {| key_and_certificate := (k :: key, c :: cert); client_roots := ca_bytes;
                   require_client_auth := mtls_enabled || require_client |}
  | _, _ => raise (raise_ RuntimeError "TLS is required but server certificate/key missing.")
  end.

(** ** The environment *)

Definition get_acme_config_from_env (getenv : string -> option string) : pydict cfg :=
  let text o := match o with Some s => CStr s | None => CNone end in
  if mem (str_lower (default "" (getenv "ACME_ENABLED"))) ["true"; "1"; "yes"] then
    [("acme_enabled", CBool true); ("acme_domain", text (getenv "ACME_DOMAIN")); ("acme_server", CStr (default "pebble" (getenv "ACME_SERVER")));
     ("acme_email", text (getenv "ACME_EMAIL")); ("acme_cert_dir", CStr (default "data/acme_certs" (getenv "ACME_CERT_DIR")))]
  else [].

(** ** What is guaranteed *)

(** C38: A server starts only with a certificate and a key of its own. It accepts clients
    without a certificate only if both options of client authentication are turned off,
    and knows the authority of its clients unless mutual TLS is turned off. *)
Theorem server_is_secured tls_options (w w' : W) c :
  configure_server_security tls_options w = (Ok c, w') ->
  fst (key_and_certificate c) <> [] /\ snd (key_and_certificate c) <> [] /\ is_acme_enabled tls_options = false /\
  (require_client_auth c = false ->
     cfg_truthy (option_of "mtls" (CBool true) tls_options) = false /\
     cfg_truthy (option_of "require_client_auth" (CBool true) tls_options) = false) /\
  (nonempty (client_roots c) = false -> cfg_truthy (option_of "mtls" (CBool true) tls_options) = false).
Proof.
  unfold configure_server_security. destruct (is_acme_enabled tls_options); [done|].
  intros (cert & w1 & _ & (key & w2 & _ & Hc)%bind_inv_ok)%bind_inv_ok.
  destruct cert as [[|c0 cert]|], key as [[|k0 key]|]; try done.
  apply bind_inv_ok in Hc as (ca & w3 & _ & Hc). set (m := cfg_truthy (option_of "mtls" _ _)) in *.
  destruct (m && negb (nonempty ca)) eqn:Hm; [done|]. injection Hc as <- _. simpl. split_and!; try done.
  - by intros [-> ->]%orb_false_iff.
  - intros Hn. rewrite Hn, andb_true_r in Hm. done.
Qed.

(** A client is authenticated only if both of its files are there; else it connects
    without a certificate, and no error says so. *)
Theorem client_falls_back tls_options (w : W) ca cert key w1 w2 w3 :
  _read_file_if_exists (option_of "client_ca" CNone tls_options) w = (Ok ca, w1) ->
  _read_file_if_exists (option_of "client_cert" CNone tls_options) w1 = (Ok cert, w2) ->
  _read_file_if_exists (option_of "client_key" CNone tls_options) w2 = (Ok key, w3) ->
  exists c, build_client_credentials tls_options w = (Ok c, w3) /\ root_certificates c = ca /\
    (nonempty cert = true /\ nonempty key = true /\ certificate_chain c = cert /\ private_key c = key \/
     (nonempty cert = false \/ nonempty key = false) /\ certificate_chain c = None /\ private_key c = None).
Proof.
  intros Hca Hcert Hkey. unfold build_client_credentials, mbind, M_bind. rewrite Hca, Hcert, Hkey. eexists. split; [done|]. simpl.
  split; [done|]. destruct (nonempty cert), (nonempty key); simpl; tauto.
Qed.
End tls.

Module Demo.
#[export] Instance demo_files : TlsFiles (list string) := {
  text_of v := match v with CStr s => s | _ => "" end; file_exists p := gets (fun fs => mem p fs); read_bytes p := mret [Byte.x01] }.

Definition mutual : pydict cfg := [("server_cert", CStr "c.pem"); ("server_key", CStr "k.pem"); ("client_ca", CStr "ca.pem")].

Lemma server_is_secured_witness : exists c w, configure_server_security mutual ["c.pem"; "k.pem"; "ca.pem"] = (Ok c, w) /\ fst (key_and_certificate c) <> [].
Proof.
  assert (configure_server_security mutual ["c.pem"; "k.pem"; "ca.pem"] = (Ok {| key_and_certificate := ([Byte.x01], [Byte.x01]);
    client_roots := Some [Byte.x01]; require_client_auth := true |}, ["c.pem"; "k.pem"; "ca.pem"])) as Hc by (vm_compute; reflexivity).
  eexists _, _. split; [exact Hc|]. by apply (server_is_secured mutual _ _ _ Hc).
Defined.

(** A client without its key connects all the same. *)
Lemma keyless_client : fst (build_client_credentials [("client_cert", CStr "c.pem"); ("client_key", CStr "k.pem")] ["c.pem"]) =
  Ok {| root_certificates := None; private_key := None; certificate_chain := None |}.
Proof. by vm_compute. Qed.
End Demo.
