(* ===== verification/GrpcAuth.v ===== *)
(** * Authentication of gRPC calls ([auth_interceptor.py])

    Who a call is from, decided from its verified TLS transport, and the context
    variable that holds the identity while the handler of the call runs, for
    every shape of handler of [GrpcHandlers.v]. *)

From S2P Require Import Prelude PyRuntime PyText PyBytes Pydantic PyGen ErrorCodes GrpcHandlers.
Local Open Scope Z_scope.

(** ** Data *)

Record AuthContext := {
  authenticated : bool; identity : option string; auth_method : option string; claims : pydict pyval }.

(** [AuthContext()] *)
Definition anonymous : AuthContext := {|
  authenticated := false; identity := None; auth_method := None; claims := [] |}.

(** The context variable [_REQUEST_AUTH]. *)
Class RequestVar (W : Type) := {
  get_auth_context : W -> option AuthContext;
  set_request_auth : option AuthContext -> W -> W }.

Record AuthServerInterceptor := { require_auth : bool; bypass_health_checks : bool }.

Definition value_error (msg : string) : exn := raise_ ValueError msg.

(** ** Configuration *)

Definition retired : exn := value_error "Python JWT authentication is retired; use the Rust service authentication owner".

Definition AuthServerInterceptor_init (jwt_secret : option string) (jwt_algorithm : string)
    (jwt_public_key : option string) (require_auth_ bypass : bool) (jwt_jwks : option pyval)
    (jwt_issuer jwt_audience jwt_key_id : option string) : result AuthServerInterceptor :=
  if negb require_auth_ then Raise (value_error "Authentication cannot be disabled; expose standard health RPCs separately")
  else if opt_is_some jwt_jwks || existsb opt_is_some [jwt_secret; jwt_public_key; jwt_issuer; jwt_audience; jwt_key_id]
       || negb (String.eqb jwt_algorithm "RS256") then Raise retired
  else Ok {| require_auth := true; bypass_health_checks := bypass |}.

Definition create_auth_interceptor (getenv : string -> option string) (require_auth_ : option bool)
    (jwt_secret jwt_algorithm jwt_public_key : option string) (jwt_jwks : option pyval)
    (jwt_issuer jwt_audience jwt_key_id : option string) : result AuthServerInterceptor :=
  match require_auth_ with
  | Some false => Raise (value_error "Authentication cannot be disabled")
  | _ =>
      let jwks := match jwt_jwks with None => VStr <$> getenv "MARTY_JWT_JWKS_FILE" | _ => jwt_jwks end in
      AuthServerInterceptor_init
        (str_or jwt_secret (getenv "MARTY_JWT_SECRET"))
        (default "RS256" (str_or jwt_algorithm (getenv "MARTY_JWT_ALGORITHM")))
        (str_or jwt_public_key (getenv "MARTY_JWT_PUBLIC_KEY"))
        true true jwks
        (str_or jwt_issuer (getenv "MARTY_JWT_ISSUER"))
        (str_or jwt_audience (getenv "MARTY_JWT_AUDIENCE"))
        (str_or jwt_key_id (getenv "MARTY_JWT_KEY_ID"))
  end.

(** ** Authentication *)

Definition identity_keys : list string := ["x509_subject_alternative_name"; "x509_common_name"; "x509_subject"].

Definition ssl : bytes := utf8 "ssl".

Definition mtls (id : string) : AuthContext := {|
  authenticated := true; identity := Some id; auth_method := Some "mtls"; claims := [("cert_subject", VStr id)] |}.

Section interceptor.
Context {W : Type} `{RequestVar W}.

(** The body of the [try]. *)
Definition peer_auth (c : ServicerContext W) : result AuthContext :=
  transport ← auth_context c;
  if negb (mem ssl (default [] (dget "transport_security_type" transport))) then Ok anonymous else
  key ← peer_identity_key c;
  if negb (existsb (fun k => bool_decide (key = Some k)) identity_keys) then Ok anonymous else
  identities ← peer_identities c;
  match identities with
  | Some (i :: rest) =>
      if negb (forallb (fun j => bool_decide (raw j = raw i)) rest) then Ok anonymous else
      id ← decoded i;
      if String.eqb id "" then Ok anonymous else Ok (mtls id)
  | _ => Ok anonymous
  end.

Definition _authenticate_mtls_sync (grpc_context : option (ServicerContext W)) : result AuthContext :=
  match grpc_context with
  | None => Ok anonymous
  | Some c => match peer_auth c with
              | Raise e => if catchable e then Ok anonymous else Raise e
              | r => r
              end
  end.

Definition _authenticate_request_sync (details : HandlerCallDetails) (grpc_context : option (ServicerContext W)) : result AuthContext :=
  let values := lfilter (fun nv => String.eqb (str_lower (fst nv)) "authorization") (invocation_metadata details) in
  match values with
  | _ :: _ => Ok anonymous
  | [] => _authenticate_mtls_sync grpc_context
  end.

Definition _is_health_check (details : HandlerCallDetails) : bool :=
  existsb (String.eqb (method details)) ["/grpc.health.v1.Health/Check"; "/grpc.health.v1.Health/Watch"].

Context (it : AuthServerInterceptor) (details : HandlerCallDetails).

(** [authenticate] and [authenticate_sync]: [None] when [abort] returned. *)
Definition authenticate (c : ServicerContext W) : M W (option AuthContext) :=
  if bypass_health_checks it && _is_health_check details then mret (Some anonymous) else
  auth ← lift (_authenticate_request_sync details (Some c));
  if negb (authenticated auth) then
    _ ← abort c UNAUTHENTICATED "Authentication required"; mret None
  else mret (Some auth).

(** ** Handlers *)

Section handlers.
Context {Req Msg Codec : Type}.

Local Abbreviation behavior := (Behavior (W := W) (Req := Req) (Msg := Msg)).
Local Abbreviation handler := (Handler (W := W) (Req := Req) (Msg := Msg) (Codec := Codec)).
Local Abbreviation outcome := (Outcome (W := W) (Msg := Msg)).
Local Abbreviation response := (Response (W := W) (Msg := Msg)).

(** The identity is set, the call runs, and the variable is reset. *)
Definition scoped {A} (auth : AuthContext) (m : M W A) : M W A := fun w =>
  let token := get_auth_context w in
  try_finally m (modify (set_request_auth token)) (set_request_auth (Some auth) w).

Definition unary (b : behavior) (request : Req) (c : ServicerContext W) : M W response :=
  auth ← authenticate c;
  match auth with
  | None => mret RNone
  | Some auth => scoped auth (o ← call b request c; settle o)
  end.

Definition sync_unary (b : behavior) (request : Req) (c : ServicerContext W) : M W outcome :=
  auth ← authenticate c;
  match auth with
  | None => mret (Now RNone)
  | Some auth => scoped auth (call b request c)
  end.

(** The identity is set, and the items follow under a [finally] that resets it. *)
Definition enter (auth : AuthContext) (items : M W (Gen W Msg)) : M W (Gen W Msg) := fun w =>
  let token := get_auth_context w in
  (Ok (with_finally (set_request_auth token) (start_with items)), set_request_auth (Some auth) w).

(** A generator that authenticates first and then delivers [items]. *)
Definition gated (c : ServicerContext W) (items : M W (Gen W Msg)) : Gen W Msg :=
  start_with (auth ← authenticate c;
              match auth with
              | None => mret empty_gen
              | Some auth => enter auth items
              end).

Definition streaming (b : behavior) (request : Req) (c : ServicerContext W) : Gen W Msg :=
  gated c (g ← async_items b request c; mret (loop_over g)).

Definition sync_streaming (b : behavior) (request : Req) (c : ServicerContext W) : Gen W Msg :=
  gated c (sync_items b request c).

Definition wrapped (h : handler) : behavior :=
  let b := behavior_of h in
  if asynchronous b then if response_streaming h then async_generator (streaming b) else coroutine (unary b)
  else if response_streaming h then generator (sync_streaming b) else {| kind := Plain; call := sync_unary b |}.

Definition intercept_service (continuation : HandlerCallDetails -> M W (option handler)) : M W (option handler) :=
  found ← continuation details;
  match found with
  | None => mret None
  | Some h => mret (Some (factory (request_streaming h) (response_streaming h) (wrapped h)
                                  (request_deserializer h) (response_serializer h)))
  end.
End handlers.
End interceptor.

(** ** Calls of the handlers that are installed *)

Section mediation.
Context {W : Type} `{RequestVar W} {Req Msg Codec : Type}.

Local Abbreviation observed := (observation (W := W) (Msg := Msg)).

(** Who a call is admitted as. *)
Definition admission (it : AuthServerInterceptor) (details : HandlerCallDetails) (c : ServicerContext W) : result (option AuthContext) :=
  if bypass_health_checks it && _is_health_check details then Ok (Some anonymous) else
  auth ← _authenticate_request_sync details (Some c);
  Ok (if authenticated auth then Some auth else None).

(** What the server sees of a call that is not admitted, and of one that cannot be
    authenticated at all. *)
Definition refused (resp_streaming : bool) (c : ServicerContext W) (w : W) : observed :=
  let '(r, w) := abort c UNAUTHENTICATED "Authentication required" w in
  let reply : result (Outcome (W := W) (Msg := Msg)) := _ ← r; Ok (Now RNone) in
  ([], (if resp_streaming then Streamed (fst (ends (r, w))) else Replied reply), w).

Definition failed (resp_streaming : bool) (e : exn) (w : W) : observed :=
  ([], (if resp_streaming then Streamed (Crashed e) else Replied (Raise e)), w).

(** The observation of a call whose identity is [auth] and is reset afterwards. *)
Definition within (auth : AuthContext) (run : W -> observed) (w : W) : observed :=
  let '(ms, a, w') := run (set_request_auth (Some auth) w) in (ms, a, set_request_auth (get_auth_context w) w').

Lemma authenticate_admission it details c w : authenticate it details c w =
  match admission it details c with
  | Raise e => (Raise e, w)
  | Ok (Some auth) => (Ok (Some auth), w)
  | Ok None => let '(r, w') := abort c UNAUTHENTICATED "Authentication required" w in ((_ ← r; Ok None), w')
  end.
Proof.
  unfold authenticate, admission. destruct (_ && _); [done|].
  unfold lift, mbind, M_bind, result_bind. destruct (_authenticate_request_sync _ _) as [auth|e]; [|done].
  destruct (authenticated auth); simpl; [done|]. by destruct (abort c _ _ w) as [ [] w'].
Qed.

Lemma scoped_run {A} auth (m : M W A) w :
  scoped auth m w = let '(r, w') := m (set_request_auth (Some auth) w) in (r, set_request_auth (get_auth_context w) w').
Proof. unfold scoped, try_finally. by destruct (m _) as [r w']. Qed.

(** The stream of the wrapper. *)
Lemma serve_gated (k : Msg -> W -> bool * W) it details c (items : M W (Gen W Msg)) w :
  streamed (consume k (gated it details c items) w) =
  match admission it details c with
  | Raise e => failed true e w
  | Ok None => refused true c w
  | Ok (Some auth) => within auth (fun w => streamed (consume k (start_with items) w)) w
  end.
Proof.
  unfold gated. rewrite consume_start. unfold mbind at 1, M_bind at 1. rewrite authenticate_admission.
  destruct (admission _ _ _) as [[auth|]|e]; [| |done].
  - unfold enter, within. rewrite consume_finally. by destruct (consume k (start_with _) _) as [[ms e] w'].
  - unfold refused. by destruct (abort c _ _ w) as [ [] w'].
Qed.

(** A unary call of either wrapper. *)
Lemma unary_gated {A} it details c (none : A) (m : M W A) w :
  (auth ← authenticate it details c; match auth with None => mret none | Some auth => scoped auth m end) w =
  match admission it details c with
  | Raise e => (Raise e, w)
  | Ok None => let '(r, w') := abort c UNAUTHENTICATED "Authentication required" w in ((_ ← r; Ok none), w')
  | Ok (Some auth) =>
      let '(r, w') := m (set_request_auth (Some auth) w) in (r, set_request_auth (get_auth_context w) w')
  end.
Proof.
  unfold mbind at 1, M_bind at 1. rewrite authenticate_admission.
  destruct (admission it details c) as [[auth|]|e]; [apply scoped_run| |done].
  by destruct (abort c _ _ w) as [ [] w'].
Qed.

(** A call of the wrapped handler, by its shape. *)
Lemma serve_wrapped it details (h : Handler (W := W) (Req := Req) (Msg := Msg) (Codec := Codec)) k request c w :
  serve true (response_streaming h) (wrapped it details h) k request c w =
  match admission it details c with
  | Raise e => failed (response_streaming h) e w
  | Ok None => refused (response_streaming h) c w
  | Ok (Some auth) =>
      within auth (serve (negb (asynchronous (behavior_of h))) (response_streaming h) (behavior_of h) k request c) w
  end.
Proof.
  unfold wrapped. set (b := behavior_of h).
  destruct (asynchronous b) eqn:Hb, (response_streaming h) eqn:Hs.
  - rewrite serve_async_generator. unfold streaming. rewrite serve_gated.
    destruct (admission it details c) as [[auth|]|e]; [|done..]. unfold within, serve. by rewrite Hb.
  - rewrite serve_coroutine. unfold unary. rewrite unary_gated.
    destruct (admission it details c) as [[auth|]|e]; [| |done].
    + unfold within, serve. rewrite Hb, settle_bind. by destruct ((o ← call b request c; settle o) _) as [[] w'].
    + unfold refused. by destruct (abort c _ _ w) as [ [] w'].
  - rewrite serve_generator. unfold sync_streaming. rewrite serve_gated.
    destruct (admission it details c) as [[auth|]|e]; [|done..]. unfold within, serve. by rewrite Hb.
  - unfold serve at 1. cbn [asynchronous kind call]. unfold sync_unary. rewrite unary_gated.
    destruct (admission it details c) as [[auth|]|e]; [| |done].
    + unfold within, serve. rewrite Hb. by destruct (call b request c _) as [[] w'].
    + unfold refused. by destruct (abort c _ _ w) as [ [] w'].
Qed.

(** C27: The handler that is installed for a handler of the service serves a call as
    its admission says. *)
Theorem interceptor_mediation it details (continuation : HandlerCallDetails -> M W (option Handler))
    (h : Handler (W := W) (Req := Req) (Msg := Msg) (Codec := Codec)) w w1 :
  continuation details w = (Ok (Some h), w1) ->
  exists h', intercept_service it details continuation w = (Ok (Some h'), w1) /\
    request_streaming h' = request_streaming h /\ response_streaming h' = response_streaming h /\
    request_deserializer h' = request_deserializer h /\ response_serializer h' = response_serializer h /\
    forall k request c w, serve true (response_streaming h') (behavior_of h') k request c w =
      match admission it details c with
      | Raise e => failed (response_streaming h) e w
      | Ok None => refused (response_streaming h) c w
      | Ok (Some auth) =>
          within auth (serve (negb (asynchronous (behavior_of h))) (response_streaming h) (behavior_of h) k request c) w
      end.
Proof.
  intros Hc. unfold intercept_service, mbind, M_bind. rewrite Hc.
  eexists. split; [done|]. do 4 (split; [done|]). intros k request c w2.
  rewrite behavior_of_factory. exact (serve_wrapped it details h k request c w2).
Qed.
End mediation.

(** ** Who is admitted *)

Section admitted.
Context {W : Type} `{RequestVar W}.

(** The transport is TLS and has exactly one verified identity, whose text is [id]. *)
Definition verified_peer (c : ServicerContext W) (id : string) : Prop :=
  exists transport key i rest,
    auth_context c = Ok transport /\ ssl ∈ default [] (dget "transport_security_type" transport) /\
    peer_identity_key c = Ok (Some key) /\ key ∈ identity_keys /\
    peer_identities c = Ok (Some (i :: rest)) /\ Forall (fun j => raw j = raw i) rest /\
    decoded i = Ok id /\ id <> "".

Lemma peer_auth_cases (c : ServicerContext W) :
  match peer_auth c with
  | Ok a => a = anonymous \/ exists id, a = mtls id /\ verified_peer c id
  | Raise e => auth_context c = Raise e \/ peer_identity_key c = Raise e \/ peer_identities c = Raise e \/
               exists i rest, peer_identities c = Ok (Some (i :: rest)) /\ decoded i = Raise e
  end.
Proof.
  unfold peer_auth, mbind, result_bind.
  destruct (auth_context c) as [transport|e] eqn:Ht; [|by left].
  destruct (mem ssl _) eqn:Hssl; cbn [negb]; [|by left].
  destruct (peer_identity_key c) as [key|e] eqn:Hk; [|by right; left].
  destruct (existsb _ identity_keys) eqn:Hin; cbn [negb]; [|by left].
  destruct (peer_identities c) as [[ [|i rest]|]|e] eqn:Hi; [by left| |by left|by right; right; left].
  destruct (forallb _ rest) eqn:Hall; cbn [negb]; [|by left].
  destruct (decoded i) as [id|e] eqn:Hd; [|right; right; right; by exists i, rest].
  destruct (String.eqb id "") eqn:Hne; [by left|]. right. exists id. split; [done|].
  apply existsb_exists in Hin as (k & Hin & Hkey%bool_decide_eq_true). subst key.
  exists transport, k, i, rest. split_and!; try done.
  - by apply bool_decide_eq_true in Hssl.
  - by apply list_elem_of_In.
  - apply Forall_forall. intros j Hj%list_elem_of_In. rewrite forallb_forall in Hall. by apply Hall, bool_decide_eq_true in Hj.
  - by apply String.eqb_neq.
Qed.

Lemma peer_auth_verified (c : ServicerContext W) id : verified_peer c id -> peer_auth c = Ok (mtls id).
Proof.
  intros (transport & key & i & rest & Ht & Hssl & Hk & Hin & Hi & Hall & Hd & Hne).
  unfold peer_auth, mbind, result_bind. rewrite Ht.
  unfold mem. rewrite bool_decide_true by done. cbn [negb]. rewrite Hk.
  assert (existsb (fun k => bool_decide (Some key = Some k)) identity_keys = true) as ->.
  { apply existsb_exists. exists key. split; [by apply list_elem_of_In|by apply bool_decide_eq_true]. }
  cbn [negb]. rewrite Hi.
  assert (forallb (fun j => bool_decide (raw j = raw i)) rest = true) as ->.
  { apply forallb_forall. intros j Hj. apply bool_decide_eq_true. rewrite Forall_forall in Hall. by apply Hall, list_elem_of_In. }
  cbn [negb]. rewrite Hd. by apply String.eqb_neq in Hne as ->.
Qed.

(** Whom an admitted call acts for. *)
Lemma admitted_identity it details (c : ServicerContext W) auth :
  admission it details c = Ok (Some auth) -> auth = anonymous \/ exists id, auth = mtls id.
Proof.
  unfold admission. destruct (_ && _); [intros [= <-]; by left|]. unfold _authenticate_request_sync, mbind, result_bind.
  destruct (lfilter _ (invocation_metadata details)) as [|nv rest]; [|done]. unfold _authenticate_mtls_sync.
  pose proof (peer_auth_cases c) as Hcases. destruct (peer_auth c) as [a|e]; [|by destruct (catchable e)].
  destruct Hcases as [->|(id & -> & _)]; [done|]. intros [= <-]. right. by exists id.
Qed.

(** C28: Metadata never admit a call: only a health check, or a verified peer that
    sends no authorization header. *)
Theorem admission_iff it details (c : ServicerContext W) auth :
  admission it details c = Ok (Some auth) <->
  if bypass_health_checks it && _is_health_check details then auth = anonymous
  else Forall (fun nv => str_lower (fst nv) <> "authorization") (invocation_metadata details) /\
       exists id, verified_peer c id /\ auth = mtls id.
Proof.
  unfold admission. destruct (_ && _); [split; [by intros [=]|by intros ->]|].
  unfold _authenticate_request_sync, mbind, result_bind.
  destruct (lfilter _ (invocation_metadata details)) as [|nv rest] eqn:Hf.
  - assert (Forall (fun nv => str_lower (fst nv) <> "authorization") (invocation_metadata details)) as Hno.
    { apply Forall_forall. intros nv Hnv Heq. apply list_elem_of_In in Hnv.
      assert (In nv []) as [].
      rewrite <- Hf. apply filter_In. split; [done|by apply String.eqb_eq]. }
    unfold _authenticate_mtls_sync. pose proof (peer_auth_cases c) as Hcases. split.
    + destruct (peer_auth c) as [a|e]; [|by destruct (catchable e)].
      destruct Hcases as [->|(id & -> & Hv)]; [done|]. intros [= <-]. split; [done|]. by exists id.
    + intros (_ & id & Hv & ->). by rewrite (peer_auth_verified _ _ Hv).
  - split; [done|]. intros (Hno & _). rewrite Forall_forall in Hno.
    assert (In nv (lfilter (fun nv => String.eqb (str_lower (fst nv)) "authorization") (invocation_metadata details))) as Hin
      by (rewrite Hf; by left).
    apply filter_In in Hin as (Hin & Heq%String.eqb_eq). by destruct (Hno nv); [apply list_elem_of_In|].
Qed.
End admitted.

(** A configuration that mentions none of the retired settings. *)
Theorem create_iff getenv required jwt_secret jwt_algorithm jwt_public_key jwks issuer audience key_id it :
  create_auth_interceptor getenv required jwt_secret jwt_algorithm jwt_public_key jwks issuer audience key_id = Ok it <->
  it = {| require_auth := true; bypass_health_checks := true |} /\ required <> Some false /\
  jwks = None /\ getenv "MARTY_JWT_JWKS_FILE" = None /\
  Forall (fun sn => str_truthy (fst sn) = false /\ getenv (snd sn) = None)
    [(jwt_secret, "MARTY_JWT_SECRET"); (jwt_public_key, "MARTY_JWT_PUBLIC_KEY"); (issuer, "MARTY_JWT_ISSUER");
     (audience, "MARTY_JWT_AUDIENCE"); (key_id, "MARTY_JWT_KEY_ID")] /\
  default "RS256" (str_or jwt_algorithm (getenv "MARTY_JWT_ALGORITHM")) = "RS256".
Proof.
  assert (forall s n, opt_is_some (str_or s (getenv n)) = false <-> str_truthy s = false /\ getenv n = None) as Hset.
  { intros s n. unfold str_or. destruct (str_truthy s) eqn:Hs.
    - split; [|by intros []]. destruct s; [done|]. done.
    - split; [intros Hn; split; [done|by destruct (getenv n)]|by intros (_ & ->)]. }
  unfold create_auth_interceptor.
  destruct (decide (required = Some false)) as [->|Hreq]; [naive_solver|].
  transitivity (AuthServerInterceptor_init
    (str_or jwt_secret (getenv "MARTY_JWT_SECRET"))
    (default "RS256" (str_or jwt_algorithm (getenv "MARTY_JWT_ALGORITHM")))
    (str_or jwt_public_key (getenv "MARTY_JWT_PUBLIC_KEY"))
    true true (match jwks with None => VStr <$> getenv "MARTY_JWT_JWKS_FILE" | _ => jwks end)
    (str_or issuer (getenv "MARTY_JWT_ISSUER"))
    (str_or audience (getenv "MARTY_JWT_AUDIENCE"))
    (str_or key_id (getenv "MARTY_JWT_KEY_ID")) = Ok it); [by destruct required as [ [] |]|].
  unfold AuthServerInterceptor_init. cbn [negb].
  rewrite !Forall_cons, Forall_nil. cbn [fst snd]. rewrite <- !Hset.
  destruct (opt_is_some (match jwks with None => _ | _ => _ end)) eqn:Hj.
  { simpl. split; [done|]. intros (_ & _ & -> & Hn & _). by rewrite Hn in Hj. }
  assert (jwks = None /\ getenv "MARTY_JWT_JWKS_FILE" = None) as (-> & Hn).
  { destruct jwks; [done|]. by destruct (getenv "MARTY_JWT_JWKS_FILE"). }
  cbn [orb existsb].
  destruct (opt_is_some (str_or jwt_secret _)); [split; [done|by intros (_ & _ & _ & _ & (? & _) & _)]|].
  destruct (opt_is_some (str_or jwt_public_key _)); [split; [done|by intros (_ & _ & _ & _ & (_ & ? & _) & _)]|].
  destruct (opt_is_some (str_or issuer _)); [split; [done|by intros (_ & _ & _ & _ & (_ & _ & ? & _) & _)]|].
  destruct (opt_is_some (str_or audience _)); [split; [done|by intros (_ & _ & _ & _ & (_ & _ & _ & ? & _) & _)]|].
  destruct (opt_is_some (str_or key_id _)); [split; [done|by intros (_ & _ & _ & _ & (_ & _ & _ & _ & ? & _) & _)]|].
  cbn [orb]. destruct (String.eqb _ "RS256") eqn:Ha; cbn [negb].
  - apply String.eqb_eq in Ha. split; [by intros [= <-]|by intros (-> & _)].
  - apply String.eqb_neq in Ha. split; [done|]. by intros (_ & _ & _ & _ & _ & ?).
Qed.

(** ** A concrete server *)

Module Demo.
Definition world := option AuthContext.

#[export] Instance demo_var : RequestVar world := { get_auth_context w := w; set_request_auth a _ := a }.

Definition alice : ServicerContext world := {|
  auth_context := Ok [("transport_security_type", [ssl])];
  peer_identity_key := Ok (Some "x509_common_name");
  peer_identities := Ok (Some [{| raw := utf8 "alice"; decoded := Ok "alice" |}]);
  context_metadata := [];
  abort code _ := raise (raise_ Exception_ (status_name code)) |}.

Definition interceptor : AuthServerInterceptor := {| require_auth := true; bypass_health_checks := true |}.
Definition probe (metadata : list (string * string)) : HandlerCallDetails := {|
  method := "/probe/call"; invocation_metadata := metadata |}.

Definition who (w : world) : string := default "nobody" (a ← w; identity a).

(** A stream that tells twice who it is for. *)
Definition twice : Gen world string :=
  GenOf (fun w => Yield (who w) (GenOf (fun w => Yield (who w) (GenOf Return unstarted) w) unstarted) w) unstarted.

Definition handler : Handler (W := world) (Req := unit) (Msg := string) (Codec := unit) :=
  factory false true (async_generator (fun _ _ => twice)) None None.

Definition seen (metadata : list (string * string)) (k : string -> world -> bool * world) :=
  match intercept_service interceptor (probe metadata) (fun _ => mret (Some handler)) None with
  | (Ok (Some h'), w) => serve true true (behavior_of h') k tt alice w
  | _ => ([], Streamed Exhausted, None)
  end.

Lemma alice_served : seen [] (fun _ w => (true, w)) = (["alice"; "alice"], Streamed Exhausted, None).
Proof. by vm_compute. Qed.

Lemma bearer_refused : fst (seen [("Authorization", "Bearer alice")] (fun _ w => (true, w))) =
  ([], Streamed (Crashed (raise_ Exception_ "UNAUTHENTICATED"))).
Proof. by vm_compute. Qed.

Lemma interceptor_mediation_witness :
  exists h', intercept_service interceptor (probe []) (fun _ => mret (Some handler)) None = (Ok (Some h'), None) /\
    serve true true (behavior_of h') (fun _ w => (false, w)) tt alice None = (["alice"], Streamed (Closed (Ok tt)), None).
Proof.
  destruct (interceptor_mediation interceptor (probe []) (fun _ => mret (Some handler)) handler None None eq_refl)
    as (h' & Hi & _ & Hs & _ & _ & Hserve).
  exists h'. split; [exact Hi|]. cbn in Hs. rewrite Hs in Hserve. rewrite Hserve. by vm_compute.
Defined.
End Demo.
