(* ===== verification/RoleSeparation.v ===== *)
(** * Cryptographic role separation ([crypto/role_separation.py])

    Roles, key purposes, the policy table, the construction of key identities,
    the two validators of [RoleSeparationEnforcer], and the key identifier
    name spaces. Exceptions are results. *)

From stdpp Require Import pretty.
From S2P Require Import Prelude PyRuntime.
Local Open Scope Z_scope.

Definition CREDENTIAL_KEY_PREFIX : string := "cred:".
Definition AUTH_KEY_PREFIX : string := "auth:".

Inductive CryptoRole :=
| CSCA | DSC | READER | VERIFIER | WALLET | HOLDER | AUDIT | EVIDENCE.

#[export] Instance CryptoRole_eq_dec : EqDecision CryptoRole.
Proof. solve_decision. Defined.

Definition role_value (r : CryptoRole) : string :=
  match r with
  | CSCA => "csca" | DSC => "dsc" | READER => "reader" | VERIFIER => "verifier"
  | WALLET => "wallet" | HOLDER => "holder" | AUDIT => "audit" | EVIDENCE => "evidence"
  end.

Inductive KeyPurpose :=
| CERTIFICATE_SIGNING | DOCUMENT_SIGNING | VDS_NC_SIGNING
| SIGNATURE_VERIFICATION | CERTIFICATE_VALIDATION
| DEVICE_BINDING | SESSION_ESTABLISHMENT | EPHEMERAL_COMMUNICATION
| AUDIT_LOGGING | EVIDENCE_SIGNING | SECURE_MESSAGING.

#[export] Instance KeyPurpose_eq_dec : EqDecision KeyPurpose.
Proof. solve_decision. Defined.

(** [purpose.name.lower()] *)
Definition purpose_name (p : KeyPurpose) : string :=
  match p with
  | CERTIFICATE_SIGNING => "certificate_signing" | DOCUMENT_SIGNING => "document_signing"
  | VDS_NC_SIGNING => "vds_nc_signing" | SIGNATURE_VERIFICATION => "signature_verification"
  | CERTIFICATE_VALIDATION => "certificate_validation" | DEVICE_BINDING => "device_binding"
  | SESSION_ESTABLISHMENT => "session_establishment"
  | EPHEMERAL_COMMUNICATION => "ephemeral_communication" | AUDIT_LOGGING => "audit_logging"
  | EVIDENCE_SIGNING => "evidence_signing" | SECURE_MESSAGING => "secure_messaging"
  end.

Inductive SecurityLevel := HSM_REQUIRED | HSM_PREFERRED | SOFTWARE_OK | EPHEMERAL_ONLY.

#[export] Instance SecurityLevel_eq_dec : EqDecision SecurityLevel.
Proof. solve_decision. Defined.

Record RoleKeyPolicy := {
  pol_role : CryptoRole;
  purposes : list KeyPurpose;
  security_level : SecurityLevel;
  max_key_lifetime_days : option Z;
  requires_audit : bool;
  can_cross_boundaries : bool }.

Definition is_compatible_purpose (p : RoleKeyPolicy) (purpose : KeyPurpose) : bool :=
  mem purpose (purposes p).

Definition requires_hsm (p : RoleKeyPolicy) : bool := bool_decide (security_level p = HSM_REQUIRED).

Definition ROLE_POLICIES (r : CryptoRole) : RoleKeyPolicy :=
  match r with
  | CSCA => {| pol_role := CSCA; purposes := [CERTIFICATE_SIGNING]; security_level := HSM_REQUIRED;
      max_key_lifetime_days := Some 3650; requires_audit := true; can_cross_boundaries := false |}
  | DSC => {| pol_role := DSC; purposes := [DOCUMENT_SIGNING; VDS_NC_SIGNING];
      security_level := HSM_REQUIRED; max_key_lifetime_days := Some 1095; requires_audit := true;
      can_cross_boundaries := false |}
  | READER => {| pol_role := READER; purposes := [SIGNATURE_VERIFICATION; CERTIFICATE_VALIDATION];
      security_level := SOFTWARE_OK; max_key_lifetime_days := None; requires_audit := true;
      can_cross_boundaries := false |}
  | VERIFIER => {| pol_role := VERIFIER; purposes := [SIGNATURE_VERIFICATION; CERTIFICATE_VALIDATION];
      security_level := SOFTWARE_OK; max_key_lifetime_days := None; requires_audit := true;
      can_cross_boundaries := false |}
  | WALLET => {| pol_role := WALLET; purposes := [DEVICE_BINDING; SESSION_ESTABLISHMENT];
      security_level := SOFTWARE_OK; max_key_lifetime_days := Some 365; requires_audit := false;
      can_cross_boundaries := false |}
  | HOLDER => {| pol_role := HOLDER; purposes := [EPHEMERAL_COMMUNICATION; SESSION_ESTABLISHMENT];
      security_level := EPHEMERAL_ONLY; max_key_lifetime_days := Some 1; requires_audit := false;
      can_cross_boundaries := false |}
  | AUDIT => {| pol_role := AUDIT; purposes := [AUDIT_LOGGING]; security_level := HSM_PREFERRED;
      max_key_lifetime_days := Some 1095; requires_audit := true; can_cross_boundaries := false |}
  | EVIDENCE => {| pol_role := EVIDENCE; purposes := [EVIDENCE_SIGNING]; security_level := HSM_PREFERRED;
      max_key_lifetime_days := Some 1095; requires_audit := true; can_cross_boundaries := false |}
  end.

Definition RoleBoundaryViolation := subclass "RoleBoundaryViolation" Exception_.
Definition KeyPurposeMismatch := subclass "KeyPurposeMismatch" Exception_.

Record KeyIdentity := {
  role : CryptoRole;
  purpose : KeyPurpose;
  key_id : string;
  issuer_identifier : option string;
  device_identifier : option string }.

(** The constructor with its [__post_init__] check. *)
Definition make_KeyIdentity (r : CryptoRole) (p : KeyPurpose) (kid : string)
    (issuer device : option string) : result KeyIdentity :=
  if negb (is_compatible_purpose (ROLE_POLICIES r) p)
  then Raise (raise_ KeyPurposeMismatch
         ("Purpose " +:+ purpose_name p +:+ " not allowed for role " +:+ role_value r))
  else Ok {| role := r; purpose := p; key_id := kid; issuer_identifier := issuer;
             device_identifier := device |}.

(** [if x: parts.append(x)] *)
Definition optional_part (x : option string) : list string :=
  match x with Some s => if String.eqb s "" then [] else [s] | None => [] end.

Definition key_parts (k : KeyIdentity) : list string :=
  [role_value (role k); purpose_name (purpose k); key_id k] ++
  optional_part (issuer_identifier k) ++ optional_part (device_identifier k).

Definition full_key_id (k : KeyIdentity) : string := join ":" (key_parts k).

Definition validate_key_operation (k : KeyIdentity) (operation : string)
    (requesting_role : CryptoRole) : result unit :=
  if bool_decide (role k <> requesting_role) && negb (can_cross_boundaries (ROLE_POLICIES (role k)))
  then Raise (raise_ RoleBoundaryViolation
         ("Role " +:+ role_value requesting_role +:+ " cannot use " +:+ role_value (role k) +:+ " keys"))
  else if String.eqb operation "sign" && mem (role k) [READER; VERIFIER]
  then Raise (raise_ RoleBoundaryViolation "Reader/Verifier roles cannot perform signing operations")
  else Ok tt.

Definition validate_key_sharing (source_role target_role : CryptoRole) (key_purpose : KeyPurpose) :
    result unit :=
  if mem source_role [CSCA; DSC] && mem key_purpose [CERTIFICATE_SIGNING; DOCUMENT_SIGNING]
  then Raise (raise_ RoleBoundaryViolation
         ("Private keys from " +:+ role_value source_role +:+ " cannot be shared"))
  else if mem key_purpose [SIGNATURE_VERIFICATION; CERTIFICATE_VALIDATION] then Ok tt
  else if mem source_role [WALLET; HOLDER] && negb (mem target_role [WALLET; HOLDER])
  then Raise (raise_ RoleBoundaryViolation
         ("Wallet/Holder keys cannot be shared with " +:+ role_value target_role))
  else Ok tt.

Definition get_role_policy (r : CryptoRole) : RoleKeyPolicy := ROLE_POLICIES r.

Definition validate_role_compatibility (r : CryptoRole) (p : KeyPurpose) : bool :=
  is_compatible_purpose (ROLE_POLICIES r) p.

(** ** Factories *)

Definition create_csca_key_identity (country_code : string) (generation : Z) : result KeyIdentity :=
  make_KeyIdentity CSCA CERTIFICATE_SIGNING
    ("csca-" +:+ country_code +:+ "-gen" +:+ pretty generation) (Some country_code) None.

Definition create_dsc_key_identity (country_code signer_id : string) (generation : Z) : result KeyIdentity :=
  make_KeyIdentity DSC DOCUMENT_SIGNING
    ("dsc-" +:+ country_code +:+ "-" +:+ signer_id +:+ "-gen" +:+ pretty generation)
    (Some country_code) None.

Definition create_wallet_key_identity (device_id : string) : result KeyIdentity :=
  make_KeyIdentity WALLET DEVICE_BINDING ("wallet-" +:+ device_id) None (Some device_id).

Definition create_evidence_key_identity (service_id : string) : result KeyIdentity :=
  make_KeyIdentity EVIDENCE EVIDENCE_SIGNING ("evidence-" +:+ service_id) None None.

(** ** Key identifier name spaces *)

Definition is_credential_key (key_id : string) : bool := startswith CREDENTIAL_KEY_PREFIX key_id.
Definition is_auth_key (key_id : string) : bool := startswith AUTH_KEY_PREFIX key_id.

Definition validate_credential_key_namespace (key_id : string) : result unit :=
  if negb (is_credential_key key_id) then
    if is_auth_key key_id
    then Raise (raise_ ValueError ("Key '" +:+ key_id +:+ "' is an authentication key (auth:*). " +:+
           "Use MMF's IAuthKeyManager for auth keys, not credential operations."))
    else Raise (raise_ ValueError ("Key '" +:+ key_id +:+ "' must use the credential namespace (cred:*). " +:+
           "Valid prefixes: cred:issuer:, cred:holder:, cred:vdsnc:, cred:evidence:"))
  else Ok tt.

Definition get_credential_key_type (key_id : string) : option string :=
  if negb (is_credential_key key_id) then None
  else
    let parts := split_on ":"%char key_id in
    if (2 <=? length parts)%nat then parts !! 1%nat else None.

Definition credential_mapping : pydict CryptoRole :=
  [("issuer", DSC); ("csca", CSCA); ("holder", HOLDER); ("wallet", WALLET); ("vdsnc", DSC);
   ("evidence", EVIDENCE); ("audit", AUDIT)].

Definition credential_key_to_role (key_id : string) : option CryptoRole :=
  match get_credential_key_type key_id with
  | None => None
  | Some key_type => dget key_type credential_mapping
  end.

Definition make_credential_key_id (key_type : string) (parts : list string) : string :=
  CREDENTIAL_KEY_PREFIX +:+ key_type +:+ ":" +:+ join ":" parts.

(** ** Properties *)

Lemma purpose_in_policy r p : is_compatible_purpose (ROLE_POLICIES r) p = true <-> In p (purposes (ROLE_POLICIES r)).
Proof. apply mem_true. Qed.

(** The roles of the issuing authority. *)
Definition issuing (r : CryptoRole) : Prop := r = CSCA \/ r = DSC.

(** Separation by construction. A key identity can be built for two
    different roles with the same purpose only for a reader and a verifier, or a
    wallet and a holder: issuing-authority keys share no purpose with any other
    role, and a built identity has a purpose its role's policy lists. *)
Theorem identities_separate_roles r1 r2 p key1 key2 i1 i2 d1 d2 id1 id2 :
  make_KeyIdentity r1 p key1 i1 d1 = Ok id1 -> make_KeyIdentity r2 p key2 i2 d2 = Ok id2 ->
  In p (purposes (ROLE_POLICIES r1)) /\
  (r1 = r2 \/ (~ issuing r1 /\ ~ issuing r2 /\
     ((In r1 [READER; VERIFIER] /\ In r2 [READER; VERIFIER]) \/
      (In r1 [WALLET; HOLDER] /\ In r2 [WALLET; HOLDER])))).
Proof.
  unfold make_KeyIdentity. intros H1 H2.
  assert (Hp1 : is_compatible_purpose (ROLE_POLICIES r1) p = true) by (by destruct (is_compatible_purpose _ _)).
  assert (Hp2 : is_compatible_purpose (ROLE_POLICIES r2) p = true)
    by (destruct (is_compatible_purpose (ROLE_POLICIES r2) p); done).
  clear H1 H2. apply purpose_in_policy in Hp1, Hp2. split; [done|].
  unfold issuing. destruct r1, r2; simpl in *; intuition congruence.
Qed.

Lemma identities_separate_roles_witness :
  In SIGNATURE_VERIFICATION (purposes (ROLE_POLICIES READER)) /\
  (READER = VERIFIER \/ (~ issuing READER /\ ~ issuing VERIFIER /\
     ((In READER [READER; VERIFIER] /\ In VERIFIER [READER; VERIFIER]) \/
      (In READER [WALLET; HOLDER] /\ In VERIFIER [WALLET; HOLDER])))).
Proof.
  eapply (identities_separate_roles READER VERIFIER SIGNATURE_VERIFICATION "r1" "v1" None None None None);
    reflexivity.
Defined.

(** role boundaries. A key operation passes validation exactly when the
    requesting role is the key's own role and it is not a signature with a
    reader or verifier key. *)
Theorem key_operation_allowed_iff k operation requesting :
  validate_key_operation k operation requesting = Ok tt <->
  role k = requesting /\ ~ (operation = "sign" /\ (role k = READER \/ role k = VERIFIER)).
Proof.
  unfold validate_key_operation.
  assert (can_cross_boundaries (ROLE_POLICIES (role k)) = false) as -> by (by destruct (role k)).
  destruct (decide (role k = requesting)) as [<-|Hne].
  - rewrite bool_decide_eq_false_2 by naive_solver. simpl.
    destruct (String.eqb_spec operation "sign") as [->|Ho]; simpl; [|naive_solver].
    destruct (mem (role k) [READER; VERIFIER]) eqn:E.
    + apply mem_true in E. simpl in E. split; [done|]. intros [_ []]. naive_solver.
    + apply mem_false in E. simpl in E. split; [|done]. intros _. split; [done|]. intros [_ []]; naive_solver.
  - rewrite bool_decide_eq_true_2 by done. simpl. naive_solver.
Qed.

(** Sharing. Which key material may be shared between roles: verification
    purposes always; a signing key of an issuing role for certificates or
    documents never; a wallet or holder key only within those two roles; and
    everything else, which includes the private VDS-NC signing keys of the
    document signer, to any role at all. *)
Theorem key_sharing_allowed_iff source target p :
  validate_key_sharing source target p = Ok tt <->
  In p [SIGNATURE_VERIFICATION; CERTIFICATE_VALIDATION] \/
  (~ (issuing source /\ In p [CERTIFICATE_SIGNING; DOCUMENT_SIGNING]) /\
   (In source [WALLET; HOLDER] -> In target [WALLET; HOLDER])).
Proof.
  unfold validate_key_sharing, issuing.
  destruct source, p; vm_compute mem; simpl; try (destruct target; vm_compute mem; simpl);
    intuition congruence.
Qed.

(** The private VDS-NC signing key of a document signer passes the sharing check
    for every target role, though the policy forbids sharing issuing keys. *)
Lemma vds_nc_signing_key_shareable target :
  validate_key_sharing DSC target VDS_NC_SIGNING = Ok tt /\
  validate_role_compatibility DSC VDS_NC_SIGNING = true.
Proof. done. Qed.

(** ** Identifiers *)

Lemma role_value_free r : free_of ":"%char (role_value r).
Proof. destruct r; simpl; repeat split; discriminate. Qed.

Lemma purpose_name_free p : free_of ":"%char (purpose_name p).
Proof. destruct p; simpl; repeat split; discriminate. Qed.

Lemma role_value_inj r1 r2 : role_value r1 = role_value r2 -> r1 = r2.
Proof. by destruct r1, r2. Qed.

Lemma purpose_name_inj p1 p2 : purpose_name p1 = purpose_name p2 -> p1 = p2.
Proof. by destruct p1, p2. Qed.

(** Non-empty and without the separator. *)
Definition plain (x : option string) : Prop :=
  match x with Some s => s <> "" /\ free_of ":"%char s | None => True end.

Lemma optional_part_plain x : plain x -> optional_part x = match x with Some s => [s] | None => [] end.
Proof. destruct x as [s|]; simpl; [|done]. intros [Hne _]. by destruct (String.eqb_spec s ""). Qed.

Lemma key_parts_free k : free_of ":"%char (key_id k) -> plain (issuer_identifier k) ->
  plain (device_identifier k) -> Forall (free_of ":"%char) (key_parts k).
Proof.
  intros Hk Hi Hd. unfold key_parts. rewrite !optional_part_plain by done.
  repeat constructor; auto using role_value_free, purpose_name_free.
  destruct (issuer_identifier k), (device_identifier k); simpl in *; repeat constructor; tauto.
Qed.

(** key identifiers. Between identities whose components are non-empty and
    contain no colon, equal full identifiers imply equal identities, provided
    both have an issuer or neither has one. *)
Theorem full_key_id_injective k1 k2 :
  free_of ":"%char (key_id k1) -> free_of ":"%char (key_id k2) ->
  plain (issuer_identifier k1) -> plain (issuer_identifier k2) ->
  plain (device_identifier k1) -> plain (device_identifier k2) ->
  is_Some (issuer_identifier k1) <-> is_Some (issuer_identifier k2) ->
  full_key_id k1 = full_key_id k2 -> k1 = k2.
Proof.
  intros Hk1 Hk2 Hi1 Hi2 Hd1 Hd2 Hsome Heq.
  apply join_inj in Heq; auto using key_parts_free. unfold key_parts in Heq.
  rewrite !optional_part_plain in Heq by done.
  destruct k1 as [r1 p1 i1 s1 d1], k2 as [r2 p2 i2 s2 d2]; simpl in *.
  destruct s1, s2, d1, d2; simplify_eq/=; try (by destruct Hsome as [H1 H2]; first
    [destruct H1; [by eexists|done]|destruct H2; [by eexists|done]]).
  all: f_equal; auto using role_value_inj, purpose_name_inj.
Qed.

Lemma full_key_id_injective_witness :
  let k := {| role := CSCA; purpose := CERTIFICATE_SIGNING; key_id := "csca-US-gen1";
              issuer_identifier := Some "US"; device_identifier := None |} in
  k = k.
Proof.
  apply full_key_id_injective; simpl; repeat split; try discriminate; auto.
Defined.

(** Without the proviso it is not unique: an issuer and a device of the same name
    give the same identifier. *)
Lemma full_key_id_not_unique :
  exists k1 k2,
    make_KeyIdentity WALLET DEVICE_BINDING "k" (Some "x") None = Ok k1 /\
    make_KeyIdentity WALLET DEVICE_BINDING "k" None (Some "x") = Ok k2 /\
    k1 <> k2 /\ full_key_id k1 = full_key_id k2.
Proof. do 2 eexists. repeat split. discriminate. Qed.

Lemma cred_not_auth key : is_credential_key key = true -> is_auth_key key = false.
Proof. unfold is_credential_key, is_auth_key. by intros [t ->]%prefix_split. Qed.

Lemma made_key_is_credential key_type parts : is_credential_key (make_credential_key_id key_type parts) = true.
Proof. apply prefix_app. Qed.

(** Round trip. Parsing a made credential key identifier gives back its type
    (for a type without a colon), it passes the name space check, it is not an
    authentication key, and its role is the one the mapping gives the type. *)
Theorem credential_key_roundtrip key_type parts :
  free_of ":"%char key_type ->
  let key := make_credential_key_id key_type parts in
  get_credential_key_type key = Some key_type /\
  validate_credential_key_namespace key = Ok tt /\ is_auth_key key = false /\
  credential_key_to_role key = dget key_type credential_mapping.
Proof.
  intros Hf. cbv zeta. pose proof (made_key_is_credential key_type parts) as Hc.
  assert (Ht : get_credential_key_type (make_credential_key_id key_type parts) = Some key_type).
  { unfold get_credential_key_type. rewrite Hc. unfold make_credential_key_id. simpl negb. cbv iota.
    change (CREDENTIAL_KEY_PREFIX +:+ key_type +:+ ":" +:+ join ":" parts)
      with ("cred" +:+ ":" +:+ (key_type +:+ ":" +:+ join ":" parts)).
    rewrite split_cons by (simpl; repeat split; discriminate). by rewrite split_cons. }
  unfold validate_credential_key_namespace, credential_key_to_role. rewrite Ht, Hc.
  split_and!; auto using cred_not_auth.
Qed.

Lemma credential_key_roundtrip_witness :
  let key := make_credential_key_id "issuer" ["US"; "key1"] in
  key = "cred:issuer:US:key1" /\ get_credential_key_type key = Some "issuer" /\
  validate_credential_key_namespace key = Ok tt /\ is_auth_key key = false /\
  credential_key_to_role key = Some DSC.
Proof.
  split; [reflexivity|]. apply (credential_key_roundtrip "issuer" ["US"; "key1"]).
  simpl. repeat split; discriminate.
Defined.
