(* ===== verification/AccessControl.v ===== *)
(** * Access control and audit logging ([security/access_control.py])

    [manager] is the state of an [AccessControlManager]: its users, its sessions
    and its audit logger, with the environment that supplies identifiers and
    times. Python shares one [User] object between [users] and [sessions];
    users are never removed or replaced, so a session here holds the user's
    identifier and [users] is the store the shared object lives in. *)

From S2P Require Import Prelude PyRuntime.
Local Open Scope Z_scope.

Inductive Permission :=
| CREATE_DOCUMENT | READ_DOCUMENT | SIGN_DOCUMENT | REVOKE_DOCUMENT
| ISSUE_CERTIFICATE | REVOKE_CERTIFICATE | VALIDATE_CERTIFICATE
| GENERATE_KEY | ROTATE_KEY | DELETE_KEY
| UPDATE_PKD | QUERY_PKD
| MANAGE_USERS | VIEW_AUDIT_LOGS | CONFIGURE_SYSTEM
| MANAGE_TRUST_ANCHORS | VERIFY_TRUST_CHAIN.

#[export] Instance Permission_eq_dec : EqDecision Permission.
Proof. solve_decision. Defined.

Definition permission_value (p : Permission) : string :=
  match p with
  | CREATE_DOCUMENT => "create_document" | READ_DOCUMENT => "read_document"
  | SIGN_DOCUMENT => "sign_document" | REVOKE_DOCUMENT => "revoke_document"
  | ISSUE_CERTIFICATE => "issue_certificate" | REVOKE_CERTIFICATE => "revoke_certificate"
  | VALIDATE_CERTIFICATE => "validate_certificate" | GENERATE_KEY => "generate_key"
  | ROTATE_KEY => "rotate_key" | DELETE_KEY => "delete_key" | UPDATE_PKD => "update_pkd"
  | QUERY_PKD => "query_pkd" | MANAGE_USERS => "manage_users" | VIEW_AUDIT_LOGS => "view_audit_logs"
  | CONFIGURE_SYSTEM => "configure_system" | MANAGE_TRUST_ANCHORS => "manage_trust_anchors"
  | VERIFY_TRUST_CHAIN => "verify_trust_chain"
  end.

Inductive Role := ADMIN | OPERATOR | AUDITOR | DOCUMENT_ISSUER | VALIDATOR | READ_ONLY.

#[export] Instance Role_eq_dec : EqDecision Role.
Proof. solve_decision. Defined.

Definition role_value (r : Role) : string :=
  match r with
  | ADMIN => "admin" | OPERATOR => "operator" | AUDITOR => "auditor"
  | DOCUMENT_ISSUER => "document_issuer" | VALIDATOR => "validator" | READ_ONLY => "read_only"
  end.

Inductive AuditEvent :=
| USER_LOGIN | USER_LOGOUT | PERMISSION_DENIED | DOCUMENT_CREATED | DOCUMENT_SIGNED
| DOCUMENT_VERIFIED | DOCUMENT_REVOKED | CERTIFICATE_ISSUED | CERTIFICATE_REVOKED
| KEY_GENERATED | KEY_ROTATED | KEY_DELETED | PKD_UPDATE | CONFIGURATION_CHANGED
| SECURITY_INCIDENT | ANOMALY_DETECTED.

#[export] Instance AuditEvent_eq_dec : EqDecision AuditEvent.
Proof. solve_decision. Defined.

Definition event_value (e : AuditEvent) : string :=
  match e with
  | USER_LOGIN => "user_login" | USER_LOGOUT => "user_logout"
  | PERMISSION_DENIED => "permission_denied" | DOCUMENT_CREATED => "document_created"
  | DOCUMENT_SIGNED => "document_signed" | DOCUMENT_VERIFIED => "document_verified"
  | DOCUMENT_REVOKED => "document_revoked" | CERTIFICATE_ISSUED => "certificate_issued"
  | CERTIFICATE_REVOKED => "certificate_revoked" | KEY_GENERATED => "key_generated"
  | KEY_ROTATED => "key_rotated" | KEY_DELETED => "key_deleted" | PKD_UPDATE => "pkd_update"
  | CONFIGURATION_CHANGED => "configuration_changed" | SECURITY_INCIDENT => "security_incident"
  | ANOMALY_DETECTED => "anomaly_detected"
  end.

Definition all_events : list AuditEvent :=
  [USER_LOGIN; USER_LOGOUT; PERMISSION_DENIED; DOCUMENT_CREATED; DOCUMENT_SIGNED;
   DOCUMENT_VERIFIED; DOCUMENT_REVOKED; CERTIFICATE_ISSUED; CERTIFICATE_REVOKED; KEY_GENERATED;
   KEY_ROTATED; KEY_DELETED; PKD_UPDATE; CONFIGURATION_CHANGED; SECURITY_INCIDENT; ANOMALY_DETECTED].

(** [AuditEvent(value)]; [None] for the [ValueError] of an unknown value. *)
Definition event_of_value (s : string) : option AuditEvent :=
  List.find (fun e => String.eqb (event_value e) s) all_events.

Record User := {
  user_id : string;
  username : string;
  email : string;
  roles : list Role;
  custom_permissions : list Permission;
  is_active : bool;
  created_at : Z;
  last_login : option Z;
  failed_login_attempts : Z;
  account_locked_until : option Z;
  session_token : option string;
  session_expires_at : option Z }.

(** What a caller gives as additional data: a JSON value, or any other object with what
    [json.dumps] writes of it, nothing when it raises, and its text. *)
Inductive pydata := DJson (j : json) | DOther (written : option json) (text : string).

Definition data_written (d : pydata) : option json := match d with DJson j => Some j | DOther w _ => w end.

(** The fields Python leaves untyped when reading a log back are JSON values. *)
Record AuditLogEntry := {
  ev_id : json;
  event_type : AuditEvent;
  timestamp : Z;
  ev_user_id : json;
  ev_username : json;
  service_name : json;
  resource_id : json;
  resource_type : json;
  action : json;
  ev_result : json;
  error_message : json;
  ip_address : json;
  user_agent : json;
  additional_data : pydata;
  risk_level : json }.

Definition AccessControlException := subclass "AccessControlException" Exception_.

(** ** Audit loggers *)

Record query := {
  q_start : option Z; q_end : option Z; q_types : list AuditEvent;
  q_user : option string; q_risk : option string }.

Class AuditLogger (L : Type) := {
  log_event : AuditLogEntry -> L -> L;
  query_events : query -> L -> list AuditLogEntry }.

Module FileAuditLogger.
(** A line of the file: a JSON document, or text that is not JSON. The file may
    be absent, and opening it for writing may fail. *)
Record file := { lines : option (list (option json)); writable : bool }.

Definition encode_with (data : json) (e : AuditLogEntry) : json := JDict [
  ("event_id", ev_id e); ("event_type", JStr (event_value (event_type e)));
  ("timestamp", JTime (timestamp e)); ("user_id", ev_user_id e); ("username", ev_username e);
  ("service_name", service_name e); ("resource_id", resource_id e);
  ("resource_type", resource_type e); ("action", action e); ("result", ev_result e);
  ("error_message", error_message e); ("ip_address", ip_address e);
  ("user_agent", user_agent e); ("additional_data", data);
  ("risk_level", risk_level e)].

(** [json.dumps(log_data)], if it does not raise. *)
Definition encode (e : AuditLogEntry) : option json := data ← data_written (additional_data e); Some (encode_with data e).

(** Opening the file makes it; an entry that cannot be written is logged as a failure
    elsewhere, and the caller does not hear of it. *)
Definition log_event (e : AuditLogEntry) (f : file) : file :=
  if writable f
  then {| lines := Some (default [] (lines f) ++ match encode e with Some j => [Some j] | None => [] end); writable := true |}
  else f.

(** What happens to one line: an entry, a line filtered out or skipped with a
    warning ([JSONDecodeError], [KeyError]), or any other exception, which
    leaves the loop. *)
Inductive line_result := Entry (e : AuditLogEntry) | Skip | Stop.

Definition time_of (j : json) : option Z := match j with JTime t => Some t | _ => None end.
Definition type_of (j : json) : option AuditEvent :=
  match j with JStr s => event_of_value s | _ => None end.

(** [d[key]]: skip the line on [KeyError]. *)
Definition field (d : list (string * json)) (key : string) (k : json -> line_result) : line_result :=
  match dget key d with Some v => k v | None => Skip end.

Definition out_of_range (q : query) (t : Z) : bool :=
  match q_start q with Some s => t <? s | None => false end
  || match q_end q with Some e => e <? t | None => false end.

Definition decode (d : list (string * json)) (event_time : Z) : line_result :=
  field d "event_id" (fun ev_id =>
  field d "event_type" (fun ty =>
  match type_of ty with
  | None => Stop
  | Some event_type =>
      field d "user_id" (fun ev_user_id => field d "username" (fun ev_username =>
      field d "service_name" (fun service_name => field d "resource_id" (fun resource_id =>
      field d "resource_type" (fun resource_type => field d "action" (fun action =>
      field d "result" (fun ev_result => field d "error_message" (fun error_message =>
      field d "ip_address" (fun ip_address => field d "user_agent" (fun user_agent =>
      field d "additional_data" (fun additional_data => field d "risk_level" (fun risk_level =>
      Entry {| ev_id := ev_id; event_type := event_type; timestamp := event_time;
               ev_user_id := ev_user_id; ev_username := ev_username;
               service_name := service_name; resource_id := resource_id;
               resource_type := resource_type; action := action; ev_result := ev_result;
               error_message := error_message; ip_address := ip_address;
               user_agent := user_agent; additional_data := DJson additional_data;
               risk_level := risk_level |}))))))))))))
  end)).

Definition user_filtered (q : query) (d : list (string * json)) (k : line_result) : line_result :=
  if str_truthy (q_user q)
  then field d "user_id" (fun u => if jeq_str u (default "" (q_user q)) then k else Skip) else k.

Definition risk_filtered (q : query) (d : list (string * json)) (k : line_result) : line_result :=
  if str_truthy (q_risk q)
  then field d "risk_level" (fun u => if jeq_str u (default "" (q_risk q)) then k else Skip) else k.

Definition type_filtered (q : query) (d : list (string * json)) (k : line_result) : line_result :=
  match q_types q with
  | [] => k
  | types => field d "event_type" (fun ty =>
      match type_of ty with
      | None => Stop
      | Some e => if mem e types then k else Skip
      end)
  end.

Definition read_line (q : query) (line : option json) : line_result :=
  match line with
  | None => Skip
  | Some (JDict d) =>
      field d "timestamp" (fun ts =>
      match time_of ts with
      | None => Stop
      | Some event_time =>
          if out_of_range q event_time then Skip
          else type_filtered q d (user_filtered q d (risk_filtered q d (decode d event_time)))
      end)
  | Some _ => Stop
  end.

Fixpoint read_lines (q : query) (ls : list (option json)) : list AuditLogEntry :=
  match ls with
  | [] => []
  | l :: ls =>
      match read_line q l with
      | Entry e => e :: read_lines q ls
      | Skip => read_lines q ls
      | Stop => []
      end
  end.

Definition query_events (q : query) (f : file) : list AuditLogEntry :=
  match lines f with None => [] | Some ls => read_lines q ls end.
End FileAuditLogger.

#[export] Instance file_audit_logger : AuditLogger FileAuditLogger.file := {
  log_event := FileAuditLogger.log_event;
  query_events := FileAuditLogger.query_events }.

(** ** Permissions *)

Definition all_permissions : list Permission :=
  [CREATE_DOCUMENT; READ_DOCUMENT; SIGN_DOCUMENT; REVOKE_DOCUMENT; ISSUE_CERTIFICATE;
   REVOKE_CERTIFICATE; VALIDATE_CERTIFICATE; GENERATE_KEY; ROTATE_KEY; DELETE_KEY; UPDATE_PKD;
   QUERY_PKD; MANAGE_USERS; VIEW_AUDIT_LOGS; CONFIGURE_SYSTEM; MANAGE_TRUST_ANCHORS;
   VERIFY_TRUST_CHAIN].

Definition ROLE_PERMISSIONS (r : Role) : list Permission :=
  match r with
  | ADMIN => [CREATE_DOCUMENT; READ_DOCUMENT; SIGN_DOCUMENT; REVOKE_DOCUMENT; ISSUE_CERTIFICATE;
      REVOKE_CERTIFICATE; VALIDATE_CERTIFICATE; GENERATE_KEY; ROTATE_KEY; DELETE_KEY; UPDATE_PKD;
      QUERY_PKD; MANAGE_USERS; VIEW_AUDIT_LOGS; CONFIGURE_SYSTEM; MANAGE_TRUST_ANCHORS;
      VERIFY_TRUST_CHAIN]
  | OPERATOR => [CREATE_DOCUMENT; READ_DOCUMENT; SIGN_DOCUMENT; VALIDATE_CERTIFICATE; QUERY_PKD;
      VERIFY_TRUST_CHAIN]
  | AUDITOR => [READ_DOCUMENT; VIEW_AUDIT_LOGS; QUERY_PKD]
  | DOCUMENT_ISSUER => [CREATE_DOCUMENT; READ_DOCUMENT; SIGN_DOCUMENT; ISSUE_CERTIFICATE;
      VALIDATE_CERTIFICATE]
  | VALIDATOR => [READ_DOCUMENT; VALIDATE_CERTIFICATE; VERIFY_TRUST_CHAIN]
  | READ_ONLY => [READ_DOCUMENT; QUERY_PKD]
  end.

Definition has_permission (user : User) (permission : Permission) : bool :=
  if negb (is_active user) then false
  else if mem permission (custom_permissions user) then true
  else existsb (fun role => mem permission (ROLE_PERMISSIONS role)) (roles user).

(** ** The manager *)

Section manager.
Context {L W : Type} `{AuditLogger L, Env W}.

Record manager := Mgr {
  users : pydict User; sessions : pydict string; audit : L; env : W }.

Definition now : M manager Z := fun s =>
  let '(t, w) := datetime_now (env s) in (Ok t, Mgr (users s) (sessions s) (audit s) w).
Definition uuid : M manager string := fun s =>
  let '(u, w) := uuid4 (env s) in (Ok u, Mgr (users s) (sessions s) (audit s) w).

(** [self.audit_logger.log_event(AuditLogEntry(...))] with the given fields. *)
Definition audit_event (ty : AuditEvent) (uid uname : option string) (act res : string)
    (err : option string) (data : json) (risk : string) : M manager unit :=
  id ← uuid;
  t ← now;
  modify (fun s => Mgr (users s) (sessions s)
    (log_event {| ev_id := JStr id; event_type := ty; timestamp := t; ev_user_id := jopt uid;
       ev_username := jopt uname; service_name := JNull; resource_id := JNull;
       resource_type := JNull; action := JStr act; ev_result := JStr res;
       error_message := jopt err; ip_address := JNull; user_agent := JNull;
       additional_data := DJson data; risk_level := JStr risk |} (audit s)) (env s)).

Definition set_user (uid : string) (u : User) : M manager unit :=
  modify (fun s => Mgr (dset uid u (users s)) (sessions s) (audit s) (env s)).

Definition set_sessions (f : pydict string -> pydict string) : M manager unit :=
  modify (fun s => Mgr (users s) (f (sessions s)) (audit s) (env s)).

Definition create_user (uid uname mail : string) (rs : list Role) (cp : list Permission) :
    M manager User :=
  s ← get;
  if din uid (users s) then
    raise (raise_ AccessControlException ("User " +:+ uid +:+ " already exists"))
  else
    t ← now;
    let user := {| user_id := uid; username := uname; email := mail; roles := rs;
      custom_permissions := cp; is_active := true; created_at := t; last_login := None;
      failed_login_attempts := 0; account_locked_until := None; session_token := None;
      session_expires_at := None |} in
    set_user uid user ≫= fun _ =>
    audit_event USER_LOGIN (Some uid) (Some uname) "create_user" "success" None
      (JDict [("roles", JList (map (fun r => JStr (role_value r)) rs))]) "low" ≫= fun _ =>
    mret user.

Definition find_user (uname : string) (us : pydict User) : option User :=
  List.find (fun u => String.eqb (username u) uname && is_active u) (dvalues us).

Definition start_session (token : string) (expires login : Z) (u : User) : User := {|
  user_id := user_id u; username := username u; email := email u; roles := roles u;
  custom_permissions := custom_permissions u; is_active := is_active u;
  created_at := created_at u; last_login := Some login; failed_login_attempts := 0;
  account_locked_until := None; session_token := Some token;
  session_expires_at := Some expires |}.

Definition end_session (u : User) : User := {|
  user_id := user_id u; username := username u; email := email u; roles := roles u;
  custom_permissions := custom_permissions u; is_active := is_active u;
  created_at := created_at u; last_login := last_login u;
  failed_login_attempts := failed_login_attempts u;
  account_locked_until := account_locked_until u; session_token := None;
  session_expires_at := None |}.

(** [user.account_locked_until and datetime.now() < user.account_locked_until] *)
Definition locked (u : User) : M manager bool :=
  match account_locked_until u with
  | None => mret false
  | Some until => t ← now; mret (t <? until)
  end.

Definition authenticate_user (uname password_hash : string) : M manager (option string) :=
  s ← get;
  match find_user uname (users s) with
  | None =>
      audit_event USER_LOGIN None (Some uname) "authentication" "failure"
        (Some "User not found or inactive") (JDict []) "medium" ≫= fun _ => mret None
  | Some user =>
      is_locked ← locked user;
      if (is_locked : bool) then
        audit_event USER_LOGIN (Some (user_id user)) (Some uname) "authentication" "failure"
          (Some "Account locked") (JDict []) "medium" ≫= fun _ => mret None
      else
        token ← uuid;
        expires ← now;
        login ← now;
        set_user (user_id user)
          (start_session token (expires + timedelta_hours 8) login user) ≫= fun _ =>
        set_sessions (dset token (user_id user)) ≫= fun _ =>
        audit_event USER_LOGIN (Some (user_id user)) (Some uname) "authentication" "success"
          None (JDict []) "low" ≫= fun _ =>
        mret (Some token)
  end.

(** The [User] object [self.sessions] holds for a token. *)
Definition session_user (s : manager) (token : string) : option User :=
  dget token (sessions s) ≫= fun uid => dget uid (users s).

Definition logout_user (token : string) : M manager unit :=
  s ← get;
  let holder := session_user s token in
  set_sessions (dpop token) ≫= fun _ =>
  match holder with
  | None => mret tt
  | Some user =>
      set_user (user_id user) (end_session user) ≫= fun _ =>
      audit_event USER_LOGOUT (Some (user_id user)) (Some (username user)) "logout" "success"
        None (JDict []) "low"
  end.

Definition get_user_by_session (token : string) : M manager (option User) :=
  s ← get;
  match session_user s token with
  | None => mret None
  | Some user =>
      match session_expires_at user with
      | None => mret (Some user)
      | Some expires =>
          t ← now;
          if expires <? t then logout_user token ≫= fun _ => mret None else mret (Some user)
      end
  end.

(** The wrapper of [require_permission] around [func], called with [user]. *)
Definition require_permission {T} (permission : Permission) (func_name : string)
    (user : option User) (func : M manager T) : M manager T :=
  match user with
  | None =>
      audit_event PERMISSION_DENIED None None func_name "failure" (Some "No user provided")
        (JDict []) "high" ≫= fun _ =>
      raise (raise_ AccessControlException "Authentication required")
  | Some user =>
      if negb (has_permission user permission) then
        audit_event PERMISSION_DENIED (Some (user_id user)) (Some (username user)) func_name
          "failure" (Some ("Permission denied: " +:+ permission_value permission))
          (JDict [("required_permission", JStr (permission_value permission))]) "medium" ≫= fun _ =>
        raise (raise_ AccessControlException ("Permission denied: " +:+ permission_value permission))
      else func
  end.

Definition setup_default_users : M manager unit :=
  create_user "admin-001" "admin" "admin@marty.example.com" [ADMIN] [] ≫= fun _ =>
  create_user "op-001" "operator" "operator@marty.example.com" [OPERATOR] [] ≫= fun _ =>
  create_user "audit-001" "auditor" "auditor@marty.example.com" [AUDITOR] [] ≫= fun _ => mret tt.
End manager.
Arguments manager L W : clear implicits.
Arguments Mgr {L W} _ _ _ _.

(** ** Permissions: the guard around protected functions *)

(** The declarative meaning of [has_permission]. *)
Definition authorized (u : User) (p : Permission) : Prop :=
  is_active u = true /\
  (In p (custom_permissions u) \/ exists r, In r (roles u) /\ In p (ROLE_PERMISSIONS r)).

Lemma has_permission_authorized u p : has_permission u p = true <-> authorized u p.
Proof.
  unfold has_permission, authorized. destruct (is_active u); simpl; [|naive_solver].
  destruct (mem p (custom_permissions u)) eqn:E.
  - apply mem_true in E. naive_solver.
  - apply mem_false in E. rewrite existsb_exists. setoid_rewrite mem_true. naive_solver.
Qed.

Lemma admin_grants_all p : In p (ROLE_PERMISSIONS ADMIN).
Proof. apply list_elem_of_In. destruct p; apply (bool_decide_unpack _); vm_compute; exact I. Qed.

Lemma roles_within_admin r p : In p (ROLE_PERMISSIONS r) -> In p (ROLE_PERMISSIONS ADMIN).
Proof. intros _. apply admin_grants_all. Qed.

#[local] Arguments audit_event : simpl never.

Section theorems.
Context {L W : Type} `{AuditLogger L, Env W}.
Implicit Types (s : manager L W) (u : User).

Lemma audit_event_run ty uid uname act res err data risk s :
  exists e w, audit_event ty uid uname act res err data risk s =
    (Ok tt, Mgr (users s) (sessions s) (log_event e (audit s)) w) /\
    event_type e = ty /\ ev_user_id e = jopt uid /\ ev_username e = jopt uname /\
    action e = JStr act /\ ev_result e = JStr res.
Proof.
  unfold audit_event, uuid, now. run_m. destruct (uuid4 _) as [i w]. simpl.
  destruct (datetime_now w) as [t w']. simpl. eexists _, w'. split; [reflexivity|done].
Qed.

(** C8: Complete mediation of a function protected by [require_permission]. With a user who
    is authorized (active, and holding the permission directly or through a role) the call is
    exactly the function's call. Without a user, or with one who is not authorized, the
    function does not run: users and sessions are unchanged, exactly one [PERMISSION_DENIED]
    failure naming the function (and the user) is added to the audit log, and
    [AccessControlException] is raised. *)
Theorem permission_mediation {T} p fname user (func : M (manager L W) T) s :
  match user with
  | Some u => authorized u p -> require_permission p fname user func s = func s
  | None => True
  end /\
  (match user with Some u => ~ authorized u p | None => True end ->
   exists e w msg,
     require_permission p fname user func s =
       (Raise (raise_ AccessControlException msg),
        Mgr (users s) (sessions s) (log_event e (audit s)) w) /\
     event_type e = PERMISSION_DENIED /\ ev_result e = JStr "failure" /\
     action e = JStr fname /\ ev_user_id e = jopt (user_id <$> user)).
Proof.
  unfold require_permission. split.
  - destruct user as [u|]; [|done]. intros ->%has_permission_authorized. done.
  - intros Hna. destruct user as [u|].
    + destruct (has_permission u p) eqn:E; [by apply has_permission_authorized in E|]. simpl.
      match goal with |- context [audit_event ?a ?b ?c ?d ?e ?f ?g ?h] =>
        destruct (audit_event_run a b c d e f g h s) as (en & w & Hrun & ?) end.
      unfold mbind, M_bind. rewrite Hrun. naive_solver.
    + match goal with |- context [audit_event ?a ?b ?c ?d ?e ?f ?g ?h] =>
        destruct (audit_event_run a b c d e f g h s) as (en & w & Hrun & ?) end.
      unfold mbind, M_bind. rewrite Hrun. naive_solver.
Qed.

(** ** Reachable managers *)

Definition initial (s : manager L W) : Prop := users s = [] /\ sessions s = [].

Inductive step : manager L W -> manager L W -> Prop :=
| step_create uid uname mail rs cp s : step s (snd (create_user uid uname mail rs cp s))
| step_authenticate uname pw s : step s (snd (authenticate_user uname pw s))
| step_logout token s : step s (snd (logout_user token s))
| step_get token s : step s (snd (get_user_by_session token s))
| step_guarded p fname user s :
    step s (snd (require_permission p fname user (mret tt) s)).

Definition reachable (s : manager L W) : Prop := exists s0, initial s0 /\ rtc step s0 s.

(** A user record as the manager keeps it. *)
Definition user_ok (uid : string) (u : User) : Prop :=
  user_id u = uid /\ failed_login_attempts u = 0 /\ account_locked_until u = None.

Record wf_state (us : pydict User) (ss : pydict string) : Prop := {
  wf_users : dwf us;
  wf_user uid u : dget uid us = Some u -> user_ok uid u;
  wf_session tok uid : dget tok ss = Some uid -> is_Some (dget uid us) }.
Definition wf s : Prop := wf_state (users s) (sessions s).

Lemma wf_set_user us ss uid u : user_ok uid u -> wf_state us ss -> wf_state (dset uid u us) ss.
Proof.
  intros Hu [Hwf Hus Hs]. split.
  - by apply dset_wf.
  - intros uid' u'. rewrite dget_dset. destruct (String.eqb_spec uid uid'); naive_solver.
  - intros tok uid' Htok. rewrite dget_dset. destruct (String.eqb uid uid'); [done|eauto].
Qed.

Lemma wf_add_session us ss tok uid :
  is_Some (dget uid us) -> wf_state us ss -> wf_state us (dset tok uid ss).
Proof.
  intros Hu [Hwf Hus Hs]. split; [done|done|].
  intros tok' uid'. rewrite dget_dset. destruct (String.eqb tok tok'); naive_solver.
Qed.

Lemma wf_drop_session us ss tok : wf_state us ss -> wf_state us (dpop tok ss).
Proof.
  intros [Hwf Hus Hs]. split; [done|done|].
  intros tok' uid'. destruct (String.eqb_spec tok tok') as [->|].
  - by rewrite dget_dpop_eq.
  - rewrite dget_dpop_ne by done. eauto.
Qed.

Lemma find_user_In uname us u :
  dwf us -> (forall uid u, dget uid us = Some u -> user_id u = uid) ->
  find_user uname us = Some u ->
  dget (user_id u) us = Some u /\ username u = uname /\ is_active u = true.
Proof.
  intros Hwf Hids Hf. apply List.find_some in Hf as [Hin Hu]. bool_props.
  apply in_map_iff in Hin as [[uid u'] [? Hin]]; simpl in *; subst u'.
  apply In_dget in Hin; [|done]. by rewrite (Hids _ _ Hin).
Qed.

(** The manager after an operation that only logs. *)
Ltac run_audit :=
  match goal with |- context [audit_event ?a ?b ?c ?d ?e ?f ?g ?h ?s] =>
    let en := fresh "en" in let w := fresh "w" in let Hrun := fresh "Hrun" in
    destruct (audit_event_run a b c d e f g h s) as (en & w & Hrun & ?);
    rewrite Hrun; clear Hrun end.

Lemma session_user_set us ss (a : L) (w : W) tok uid u :
  session_user (Mgr (dset uid u us) (dset tok uid ss) a w) tok = Some u.
Proof. unfold session_user. simpl. rewrite dget_dset_eq. simpl. apply dget_dset_eq. Qed.

Lemma create_user_run uid uname mail rs cp s :
  match dget uid (users s) with
  | Some _ => create_user uid uname mail rs cp s =
      (Raise (raise_ AccessControlException ("User " +:+ uid +:+ " already exists")), s)
  | None => exists u e w, create_user uid uname mail rs cp s =
      (Ok u, Mgr (dset uid u (users s)) (sessions s) (log_event e (audit s)) w) /\
      user_ok uid u /\ username u = uname /\ roles u = rs /\ custom_permissions u = cp /\
      is_active u = true
  end.
Proof.
  unfold create_user, set_user, now, din. run_m. destruct (dget uid (users s)); [done|].
  destruct (datetime_now _) as [t w]. simpl. run_audit.
  eexists _, _, _. split; [reflexivity|done].
Qed.

Lemma authenticate_run uname pw s :
  wf s ->
  match find_user uname (users s) with
  | None => exists e w, authenticate_user uname pw s =
      (Ok None, Mgr (users s) (sessions s) (log_event e (audit s)) w) /\
      event_type e = USER_LOGIN /\ ev_username e = JStr uname /\ ev_result e = JStr "failure"
  | Some u =>
      let '(tok, w1) := uuid4 (env s) in
      let '(t, w2) := datetime_now w1 in
      exists login e w, authenticate_user uname pw s =
        (Ok (Some tok),
         Mgr (dset (user_id u) (start_session tok (t + timedelta_hours 8) login u) (users s))
             (dset tok (user_id u) (sessions s)) (log_event e (audit s)) w) /\
        event_type e = USER_LOGIN /\ ev_username e = JStr uname /\
        ev_result e = JStr "success"
  end.
Proof.
  intros [Hwf Hus _]. unfold authenticate_user, locked, set_user, set_sessions, uuid, now.
  run_m. destruct (find_user uname (users s)) as [u|] eqn:Hf.
  - apply find_user_In in Hf as (Hu & _ & _); [|done|naive_solver].
    destruct (Hus _ _ Hu) as (_ & _ & ->). simpl.
    destruct (uuid4 _) as [tok w1]; simpl. destruct (datetime_now w1) as [t w2]; simpl.
    destruct (datetime_now w2) as [login w3]; simpl. run_audit.
    eexists _, _, _. split; [reflexivity|naive_solver].
  - run_audit. eexists _, _. split; [reflexivity|naive_solver].
Qed.

Lemma logout_run token s :
  exists a w, logout_user token s = (Ok tt,
    Mgr (match session_user s token with
         | Some u => dset (user_id u) (end_session u) (users s) | None => users s end)
        (dpop token (sessions s)) a w).
Proof.
  unfold logout_user, set_user, set_sessions. run_m.
  destruct (session_user s token) as [u|]; [run_audit|]; eauto.
Qed.

(** Looking a session up: unknown token, expired session, or the user. *)
Lemma session_lookup_run token s :
  match session_user s token with
  | None => get_user_by_session token s = (Ok None, s)
  | Some u =>
      match session_expires_at u with
      | None => get_user_by_session token s = (Ok (Some u), s)
      | Some expires =>
          let '(t, w) := datetime_now (env s) in
          let s' := Mgr (users s) (sessions s) (audit s) w in
          get_user_by_session token s =
            if expires <? t then (Ok None, snd (logout_user token s')) else (Ok (Some u), s')
      end
  end.
Proof.
  unfold get_user_by_session, now. run_m. destruct (session_user s token) as [u|]; [|done].
  destruct (session_expires_at u) as [ex|]; [|done].
  destruct (datetime_now (env s)) as [t w]. destruct (ex <? t); [|done].
  destruct (logout_run token (Mgr (users s) (sessions s) (audit s) w)) as (a & w' & ->). done.
Qed.

Lemma wf_logout token s : wf s -> wf (snd (logout_user token s)).
Proof.
  intros Hwf. destruct (logout_run token s) as (a & w & ->).
  apply wf_drop_session. unfold session_user.
  destruct (dget token (sessions s) ≫= _) as [u|] eqn:Hu; [|done].
  apply bind_Some in Hu as (uid & Htok & Hu).
  destruct (wf_user _ _ Hwf _ _ Hu) as (Hid & ? & ?). by apply wf_set_user.
Qed.

Lemma wf_step s s' : step s s' -> wf s -> wf s'.
Proof.
  intros Hstep Hwf. destruct Hstep as
    [uid uname mail rs cp s|uname pw s|token s|token s|p fname user s].
  - pose proof (create_user_run uid uname mail rs cp s) as Hr.
    destruct (dget uid (users s)); [by rewrite Hr|].
    destruct Hr as (u & e & w & -> & Hu & _). by apply wf_set_user.
  - pose proof (authenticate_run uname pw s Hwf) as Hr.
    destruct (find_user uname (users s)) as [u|] eqn:Hf.
    + destruct (uuid4 _) as [tok w1], (datetime_now w1) as [t w2].
      destruct Hr as (login & e & w & -> & _). apply wf_add_session; simpl.
      * by rewrite dget_dset_eq.
      * by apply wf_set_user.
    + by destruct Hr as (e & w & -> & _).
  - by apply wf_logout.
  - pose proof (session_lookup_run token s) as Hr. destruct (session_user s token) as [u|]; [|by rewrite Hr].
    destruct (session_expires_at u) as [ex|]; [|by rewrite Hr].
    destruct (datetime_now _) as [t w]. rewrite Hr.
    destruct (ex <? t); [by apply wf_logout|done].
  - unfold require_permission. run_m. destruct user as [u|]; [destruct (has_permission u p)|];
      simpl; [done|run_audit|run_audit]; done.
Qed.

Lemma reachable_state_wf s : reachable s -> wf s.
Proof.
  intros (s0 & [Hu Hs] & Hsteps).
  assert (Hwf : wf s0).
  { unfold wf. rewrite Hu, Hs. split; [apply NoDup_nil_2|done|done]. }
  clear Hu Hs. induction Hsteps; eauto using wf_step.
Qed.

Lemma authenticated uname pw s tok s1 :
  wf s -> authenticate_user uname pw s = (Ok (Some tok), s1) ->
  exists u login, find_user uname (users s) = Some u /\
    session_user s1 tok = Some (start_session tok
      (fst (datetime_now (snd (uuid4 (env s)))) + timedelta_hours 8) login u).
Proof.
  intros Hwf Hauth. pose proof (authenticate_run uname pw s Hwf) as Hr.
  destruct (find_user uname (users s)) as [u|] eqn:Hf; [|destruct Hr as (? & ? & Hr & _); rewrite Hr in Hauth; simplify_eq].
  destruct (uuid4 _) as [tok' w1]; simpl. destruct (datetime_now w1) as [t w2]; simpl.
  destruct Hr as (login & e & w & Hrun & _). rewrite Hrun in Hauth. simplify_eq.
  exists u, login. split; [done|]. apply session_user_set.
Qed.

(** Authentication never refuses a reachable manager's active user: whatever
    [password_hash] is, [authenticate_user] returns the fresh token, the user is logged in
    under it, and the log gains one successful [USER_LOGIN]. In particular the account lockout
    the code checks for never happens: no operation sets [account_locked_until] or counts a
    failed attempt. A username without an active user gets [None] and one logged failure, and
    no session. *)
Theorem authentication_ignores_password uname s (Hs : reachable s) pw :
  (forall uid u, dget uid (users s) = Some u ->
    failed_login_attempts u = 0 /\ account_locked_until u = None) /\
  match find_user uname (users s) with
  | Some u =>
      let tok := fst (uuid4 (env s)) in
      exists s1 e,
      authenticate_user uname pw s = (Ok (Some tok), s1) /\
      user_id <$> session_user s1 tok = Some (user_id u) /\
      audit s1 = log_event e (audit s) /\ event_type e = USER_LOGIN /\
      ev_result e = JStr "success"
  | None => exists s1 e, authenticate_user uname pw s = (Ok None, s1) /\
      users s1 = users s /\ sessions s1 = sessions s /\ audit s1 = log_event e (audit s) /\
      event_type e = USER_LOGIN /\ ev_result e = JStr "failure"
  end.
Proof.
  pose proof (reachable_state_wf s Hs) as Hwf. split.
  { intros uid u Hu. by destruct (wf_user _ _ Hwf _ _ Hu) as (_ & ? & ?). }
  pose proof (authenticate_run uname pw s Hwf) as Hr.
  destruct (find_user uname (users s)) as [u|].
  - destruct (uuid4 _) as [tok w1]; simpl. destruct (datetime_now w1) as [t w2]; simpl.
    destruct Hr as (login & e & w & Hrun & ? & _ & ?). rewrite Hrun. eexists _, e. split_and!; try done.
    by rewrite session_user_set.
  - destruct Hr as (e & w & Hrun & ? & _ & ?). rewrite Hrun. by eexists _, e.
Qed.

(** The lifetime of a session. After a successful login at time [t], the token stands for
    the logged-in user as long as the clock is at most [t] + 8 hours, and looking it up changes
    nothing else; at the first look-up after that the token is refused, removed from the
    sessions, and the user's session fields are cleared. (The clock is read at the look-up: the
    environment of the second state is arbitrary.) *)
Theorem session_lifetime uname pw s tok s1 (Hs : reachable s)
    (Hauth : authenticate_user uname pw s = (Ok (Some tok), s1)) w :
  let t := fst (datetime_now (snd (uuid4 (env s)))) in
  let '(now, w') := datetime_now w in
  exists u, username u = uname /\ is_active u = true /\
  let r := get_user_by_session tok (Mgr (users s1) (sessions s1) (audit s1) w) in
  if t + timedelta_hours 8 <? now
  then fst r = Ok None /\ session_user (snd r) tok = None /\
    (exists u', dget (user_id u) (users (snd r)) = Some u' /\
      session_token u' = None /\ session_expires_at u' = None)
  else r = (Ok (Some u), Mgr (users s1) (sessions s1) (audit s1) w').
Proof.
  pose proof (reachable_state_wf s Hs) as Hwf.
  destruct (authenticated _ _ _ _ _ Hwf Hauth) as (u & login & Hf & Hsess).
  pose proof (session_lookup_run tok (Mgr (users s1) (sessions s1) (audit s1) w)) as Hr.
  unfold session_user in Hr, Hsess; simpl in Hr. rewrite Hsess in Hr; simpl in Hr.
  destruct (datetime_now w) as [now w'] eqn:Hnow.
  eexists. split; [|split].
  3: { rewrite Hr. destruct (_ <? now); [|reflexivity].
       destruct (logout_run tok (Mgr (users s1) (sessions s1) (audit s1) w')) as (a & w2 & ->).
       unfold session_user; simpl. rewrite dget_dpop_eq, Hsess. simpl.
       split_and!; [done|done|]. rewrite dget_dset_eq. eauto. }
  all: apply find_user_In in Hf; [naive_solver|apply Hwf|].
  all: intros ? ? Hu; by destruct (wf_user _ _ Hwf _ _ Hu).
Qed.

(** Logging out of one of two sessions of the same user makes the other one permanent:
    [logout_user] clears [session_expires_at] of the [User] object both sessions share, so the
    other token keeps standing for the user at every later time. *)
Theorem logout_makes_other_session_permanent s tok1 tok2 u (Hs : reachable s)
    (Hne : tok1 <> tok2) (H1 : session_user s tok1 = Some u) (H2 : session_user s tok2 = Some u) :
  let s1 := snd (logout_user tok1 s) in
  session_user s1 tok1 = None /\
  forall w, get_user_by_session tok2 (Mgr (users s1) (sessions s1) (audit s1) w) =
    (Ok (Some (end_session u)), Mgr (users s1) (sessions s1) (audit s1) w).
Proof.
  pose proof (reachable_state_wf s Hs) as Hwf. destruct (logout_run tok1 s) as (a & w0 & ->). simpl.
  rewrite H1. split; [unfold session_user; simpl; by rewrite dget_dpop_eq|]. intros w.
  apply bind_Some in H2 as (uid & Htok2 & Hu). destruct (wf_user _ _ Hwf _ _ Hu) as (Hid & _).
  pose proof (session_lookup_run tok2 (Mgr (dset (user_id u) (end_session u) (users s))
    (dpop tok1 (sessions s)) a w)) as Hr.
  unfold session_user in Hr; simpl in Hr. rewrite dget_dpop_ne, Htok2 in Hr by done.
  simpl in Hr. rewrite Hid, dget_dset_eq in Hr. simpl in Hr. by rewrite Hid.
Qed.
End theorems.

(** ** The file audit log *)

Module FileLogTheorems.
Import FileAuditLogger.

(** What a query asks for. *)
Definition selected (q : query) (e : AuditLogEntry) : bool :=
  negb (out_of_range q (timestamp e))
  && match q_types q with [] => true | ts => mem (event_type e) ts end
  && (if str_truthy (q_user q) then jeq_str (ev_user_id e) (default "" (q_user q)) else true)
  && (if str_truthy (q_risk q) then jeq_str (risk_level e) (default "" (q_risk q)) else true).

Lemma event_roundtrip ty : event_of_value (event_value ty) = Some ty.
Proof. by destruct ty. Qed.

(** An entry as its line tells it, if there is one. *)
Definition as_written (e : AuditLogEntry) : option AuditLogEntry :=
  match data_written (additional_data e) with
  | Some data => Some {| ev_id := ev_id e; event_type := event_type e; timestamp := timestamp e; ev_user_id := ev_user_id e;
      ev_username := ev_username e; service_name := service_name e; resource_id := resource_id e; resource_type := resource_type e;
      action := action e; ev_result := ev_result e; error_message := error_message e; ip_address := ip_address e;
      user_agent := user_agent e; additional_data := DJson data; risk_level := risk_level e |}
  | None => None
  end.

Lemma read_encoded q e j : encode e = Some j ->
  exists e', as_written e = Some e' /\ read_line q (Some j) = if selected q e' then Entry e' else Skip.
Proof.
  destruct e as [i ty t u un sv ri rt ac rs er ip ua ad rl]. unfold encode, as_written. simpl.
  destruct (data_written ad) as [data|]; [|done]. simpl. intros [= <-]. eexists. split; [done|].
  unfold read_line, encode_with, selected, type_filtered, user_filtered, risk_filtered, field, decode; simpl.
  unfold field; simpl. rewrite event_roundtrip.
  destruct (out_of_range q t); [done|]. simpl.
  destruct (q_types q) as [|ty0 tys]; [|destruct (mem ty (ty0 :: tys)); [|done]]; simpl;
    destruct (str_truthy (q_user q)); simpl; try (destruct (jeq_str u _); [|done]); simpl;
    destruct (str_truthy (q_risk q)); simpl; try (destruct (jeq_str rl _)); done.
Qed.

Lemma not_encoded e : encode e = None -> as_written e = None.
Proof. unfold encode, as_written. by destruct (data_written (additional_data e)). Qed.

(** A file none of whose lines ends the reading. *)
Definition readable (q : query) (f : file) : Prop :=
  Forall (fun l => read_line q l <> Stop) (default [] (lines f)).

Lemma read_lines_app q ls1 ls2 :
  Forall (fun l => read_line q l <> Stop) ls1 ->
  read_lines q (ls1 ++ ls2) = read_lines q ls1 ++ read_lines q ls2.
Proof. induction 1 as [|l ls Hl _ IH]; simpl; [done|]. by destruct (read_line q l); simpl; rewrite ?IH. Qed.

Lemma log_events_lines es f :
  writable f = true -> es <> [] ->
  lines (foldl (fun f e => log_event e f) f es) =
    Some (default [] (lines f) ++ map Some (omap encode es)).
Proof.
  revert f. induction es as [|e es IH]; intros f Hw Hne; [done|]. simpl.
  destruct es as [|e' es]; [unfold log_event; rewrite Hw; by destruct (encode e)|].
  unfold log_event at 2. rewrite Hw, IH by done. simpl. rewrite <- app_assoc. by destruct (encode e).
Qed.

Lemma read_encoded_lines q es :
  read_lines q (map Some (omap encode es)) = lfilter (selected q) (omap as_written es).
Proof.
  assert (forall {A B} (f : A -> option B) x l, omap f (x :: l) = match f x with Some y => y :: omap f l | None => omap f l end) as Hcons by done.
  induction es as [|e es IH]; [done|]. rewrite !Hcons. destruct (encode e) as [j|] eqn:He.
  - destruct (read_encoded q e j He) as (e' & -> & Hr). cbn [map read_lines lfilter List.filter]. rewrite Hr. by destruct (selected q e'); rewrite IH.
  - by rewrite (not_encoded e He).
Qed.

(** C14: The audit file gives back what was logged, if nothing that is in it ends the
    reading. After logging a sequence of entries to a writable file none of whose lines
    makes a query give up, a query returns what it returned before followed by exactly
    those of the new entries it asks for (time range with both ends included, event
    types, user, risk level; an empty filter selects everything) that JSON can write,
    in the order they were logged: entries with JSON data complete and unchanged, other
    data as what was written of them; an entry that cannot be written is not there. *)
Theorem query_returns_logged q f es (Hw : writable f = true) (Hf : readable q f) :
  AccessControl.query_events q (foldl (fun f e => AccessControl.log_event e f) f es) =
    AccessControl.query_events q f ++ lfilter (selected q) (omap as_written es) /\
  (forall e j, additional_data e = DJson j -> as_written e = Some e) /\
  (forall e text, additional_data e = DOther None text -> as_written e = None).
Proof.
  split; [|split].
  - simpl. destruct es as [|e es]; [by rewrite app_nil_r|]. unfold query_events at 1.
    rewrite log_events_lines by done. rewrite read_lines_app by done.
    rewrite read_encoded_lines. unfold query_events. by destruct (lines f).
  - intros e j Hd. unfold as_written. rewrite Hd. simpl. rewrite <- Hd. by destruct e.
  - intros e text Hd. unfold as_written. by rewrite Hd.
Qed.

(** One line with an event type the program does not know ends every query that reaches it:
    [AuditEvent(value)] raises [ValueError], which the per-line handler does not catch, so
    whatever was logged after that line is never returned. *)
Theorem unknown_event_hides_later_entries q ls1 d ls2 w ty t
    (Hf : Forall (fun l => read_line q l <> Stop) ls1)
    (Hty : dget "event_type" d = Some (JStr ty)) (Hun : event_of_value ty = None)
    (Ht : dget "timestamp" d = Some (JTime t)) (Hrange : out_of_range q t = false)
    (Hfilters : q_types q <> [] \/ (q_user q = None /\ q_risk q = None))
    (Hid : din "event_id" d = true) :
  query_events q {| lines := Some (ls1 ++ Some (JDict d) :: ls2); writable := w |} =
    query_events q {| lines := Some ls1; writable := w |}.
Proof.
  unfold query_events; simpl. rewrite read_lines_app by done. simpl.
  enough (read_line q (Some (JDict d)) = Stop) as Hstop.
  { unfold read_line in Hstop. rewrite Hstop. by rewrite app_nil_r. }
  unfold read_line, field. rewrite Ht; simpl. rewrite Hrange. unfold type_filtered, field.
  destruct (q_types q); [|by rewrite Hty; simpl; rewrite Hun].
  destruct Hfilters as [|[Hu Hr] ]; [done|]. unfold user_filtered, risk_filtered. rewrite Hu, Hr.
  simpl. unfold decode, field. unfold din in Hid. destruct (dget "event_id" d); [|done].
  by rewrite Hty; simpl; rewrite Hun.
Qed.
End FileLogTheorems.

(** ** Concrete runs *)

(** A manager writing its audit log to a file, with a user created in it. *)
Definition demo_start : manager FileAuditLogger.file script :=
  Mgr [] [] {| FileAuditLogger.lines := None; FileAuditLogger.writable := true |}
    {| script_ids := ["e1"; "t1"; "e2"; "t2"; "e3"; "e4"; "e5"]; script_clock := 0 |}.
Definition demo_created := snd (create_user "op-001" "operator" "op@marty" [OPERATOR] [] demo_start).
Definition demo_login := snd (authenticate_user "operator" "pw" demo_created).
Definition demo_two_logins := snd (authenticate_user "operator" "pw" demo_login).

Lemma demo_created_reachable : reachable demo_created.
Proof. exists demo_start. split; [done|]. apply rtc_once. exact (step_create _ _ _ _ _ demo_start). Qed.

Lemma demo_two_logins_reachable : reachable demo_two_logins.
Proof.
  exists demo_start. split; [done|].
  apply (rtc_l _ _ demo_created); [exact (step_create _ _ _ _ _ demo_start)|].
  apply (rtc_l _ _ demo_login); [exact (step_authenticate "operator" "pw" demo_created)|].
  apply rtc_once. exact (step_authenticate "operator" "pw" demo_login).
Qed.

Lemma permission_mediation_witness :
  exists u e w msg, find_user "operator" (users demo_created) = Some u /\
    require_permission SIGN_DOCUMENT "sign" (Some u) (mret 7) demo_created =
      (Ok 7, demo_created) /\
    require_permission ROTATE_KEY "rotate" (Some u) (mret 7) demo_created =
      (Raise (raise_ AccessControlException msg),
       Mgr (users demo_created) (sessions demo_created) (log_event e (audit demo_created)) w) /\
    event_type e = PERMISSION_DENIED.
Proof.
  destruct (find_user "operator" (users demo_created)) as [u|] eqn:Hu; [|vm_compute in Hu; discriminate].
  destruct (proj2 (permission_mediation ROTATE_KEY "rotate" (Some u) (mret 7) demo_created))
    as (e & w & msg & Hrun & Hty & _).
  - vm_compute in Hu. injection Hu as <-. rewrite <- has_permission_authorized. vm_compute. discriminate.
  - exists u, e, w, msg. split; [done|]. split; [|done].
    refine (eq_trans (proj1 (permission_mediation SIGN_DOCUMENT "sign" (Some u) (mret 7)
      demo_created) _) eq_refl).
    vm_compute in Hu. injection Hu as <-. apply has_permission_authorized. vm_compute. reflexivity.
Defined.

Lemma authentication_ignores_password_witness :
  reachable demo_created /\
  exists u s1, find_user "operator" (users demo_created) = Some u /\
    authenticate_user "operator" "any password" demo_created = (Ok (Some "t1"), s1).
Proof.
  split; [apply demo_created_reachable|].
  destruct (authentication_ignores_password "operator" demo_created demo_created_reachable
    "any password") as [_ Hauth].
  destruct (find_user "operator" (users demo_created)) as [u|] eqn:Hu; [|vm_compute in Hu; discriminate].
  destruct Hauth as (s1 & e & Hrun & _). exists u, s1. done.
Defined.

Lemma session_lifetime_witness :
  reachable demo_created /\
  authenticate_user "operator" "pw" demo_created = (Ok (Some "t1"), demo_login) /\
  exists u, username u = "operator" /\ is_active u = true /\
    session_user (snd (get_user_by_session "t1"
      (Mgr (users demo_login) (sessions demo_login) (audit demo_login)
        {| script_ids := []; script_clock := 9 * hour |}))) "t1" = None.
Proof.
  split; [apply demo_created_reachable|]. split; [reflexivity|].
  pose proof (session_lifetime "operator" "pw" demo_created "t1" demo_login demo_created_reachable
    eq_refl {| script_ids := []; script_clock := 9 * hour |}) as Hlife.
  cbn [datetime_now script_env script_clock script_ids] in Hlife.
  destruct Hlife as (u & Hname & Hact & Hr). exists u. split; [done|]. split; [done|].
  match type of Hr with if ?b then _ else _ =>
    assert (Hb : b = true) by (vm_compute; reflexivity); rewrite Hb in Hr end.
  exact (proj1 (proj2 Hr)).
Defined.

Lemma logout_makes_other_session_permanent_witness :
  exists u, session_user demo_two_logins "t1" = Some u /\ session_user demo_two_logins "t2" = Some u /\
    forall w, fst (get_user_by_session "t2"
      (let s1 := snd (logout_user "t1" demo_two_logins) in
       Mgr (users s1) (sessions s1) (audit s1) w)) = Ok (Some (end_session u)).
Proof.
  destruct (session_user demo_two_logins "t1") as [u|] eqn:H1; [|vm_compute in H1; discriminate].
  assert (H2 : session_user demo_two_logins "t2" = Some u) by (rewrite <- H1; vm_compute; reflexivity).
  exists u. split; [done|]. split; [done|]. intros w.
  destruct (logout_makes_other_session_permanent demo_two_logins "t1" "t2" u
    demo_two_logins_reachable) as [_ Hp]; [done|done|done|].
  by rewrite Hp.
Defined.

Definition demo_entry (ty : AuditEvent) (t : Z) : AuditLogEntry := {|
  ev_id := JStr "e"; event_type := ty; timestamp := t; ev_user_id := JNull; ev_username := JNull;
  service_name := JNull; resource_id := JNull; resource_type := JNull; action := JStr "a";
  ev_result := JStr "success"; error_message := JNull; ip_address := JNull; user_agent := JNull;
  additional_data := DJson (JDict []); risk_level := JStr "low" |}.

(** An entry whose data hold a time, which JSON does not write. *)
Definition timed_entry : AuditLogEntry := {|
  ev_id := JStr "e2"; event_type := KEY_ROTATED; timestamp := 9; ev_user_id := JNull; ev_username := JNull;
  service_name := JNull; resource_id := JNull; resource_type := JNull; action := JStr "a";
  ev_result := JStr "success"; error_message := JNull; ip_address := JNull; user_agent := JNull;
  additional_data := DOther None "{'at': datetime.datetime(1970, 1, 1, 0, 0)}"; risk_level := JStr "low" |}.

Lemma query_returns_logged_witness :
  let f := {| FileAuditLogger.lines := Some [None]; FileAuditLogger.writable := true |} in
  let q := {| q_start := Some 5; q_end := None; q_types := [KEY_ROTATED]; q_user := None;
              q_risk := Some "low" |} in
  query_events q (foldl (fun f e => log_event e f) f
    [demo_entry KEY_ROTATED 3; demo_entry KEY_ROTATED 7; timed_entry; demo_entry USER_LOGIN 8]) =
  [demo_entry KEY_ROTATED 7].
Proof.
  intros f q. refine (eq_trans (proj1 (FileLogTheorems.query_returns_logged q f _ _ _)) _); [reflexivity| |reflexivity].
  unfold FileLogTheorems.readable. simpl. apply Forall_cons; done.
Defined.

Lemma unknown_event_hides_later_entries_witness :
  let q := {| q_start := None; q_end := None; q_types := []; q_user := None; q_risk := None |} in
  let bad := [("event_id", JStr "e"); ("event_type", JStr "user_created"); ("timestamp", JTime 4)] in
  FileAuditLogger.query_events q {| FileAuditLogger.lines :=
    Some [FileAuditLogger.encode (demo_entry USER_LOGIN 3); Some (JDict bad);
          FileAuditLogger.encode (demo_entry USER_LOGIN 5)];
    FileAuditLogger.writable := true |} = [demo_entry USER_LOGIN 3].
Proof.
  intros q bad.
  refine (eq_trans (FileLogTheorems.unknown_event_hides_later_entries q
    [FileAuditLogger.encode (demo_entry USER_LOGIN 3)] bad
    [FileAuditLogger.encode (demo_entry USER_LOGIN 5)] true "user_created" 4
    _ eq_refl eq_refl eq_refl eq_refl (or_intror (conj eq_refl eq_refl)) eq_refl) eq_refl).
  apply Forall_cons; done.
Defined.
