(* ===== verification/OrgAuthorization.v ===== *)
(** * Organisation authorization ([org_authorization.py])

    Who may act for an organisation: memberships answered by the organisation
    service and cached in Redis, API keys bound by the gateway, and the
    dependencies that guard the routes. The Redis client, the gRPC stub, the
    JSON of the pydantic model and the application state are parameters; a
    request is its header lookup and the application's client. Strings are
    sequences of Latin-1 characters, as headers are. *)

From stdpp Require Import sorting.
From S2P Require Import Prelude PyRuntime PyText PyDate PyInt.
Local Open Scope Z_scope.

(** ** Data *)

Record OrganizationRoleSummary := { role_id : string; role_name : string; display_name : option string }.

Record OrganizationMembership := {
  user_id : string; organization_id : string; status : string;
  roles : list OrganizationRoleSummary; permissions : gset string;
  has_org_console_access : bool; is_owner : bool }.

Definition is_active (m : OrganizationMembership) : bool := String.eqb (status m) "active".

Definition role_names (m : OrganizationMembership) : gset string :=
  list_to_set (map role_name (roles m)).

Definition has_role (allowed_roles : list string) (m : OrganizationMembership) : bool :=
  bool_decide (role_names m ∩ list_to_set allowed_roles <> ∅).

(** [resource if action is None else f"{resource}:{action}"] *)
Definition permission_key (resource : string) (action : option string) : string :=
  match action with None => resource | Some a => resource +:+ ":" +:+ a end.

Definition has_permission (m : OrganizationMembership) (resource : string) (action : option string) : bool :=
  bool_decide (permission_key resource action ∈ permissions m).

Record OrganizationContext := {
  ctx_user_id : string; ctx_organization_id : string;
  membership : option OrganizationMembership; source : string;
  ctx_permissions : option (gset string) }.

Definition ctx_roles (c : OrganizationContext) : list OrganizationRoleSummary :=
  match membership c with Some m => roles m | None => [] end.
Definition ctx_role_names (c : OrganizationContext) : gset string :=
  match membership c with Some m => role_names m | None => ∅ end.
Definition ctx_console_access (c : OrganizationContext) : bool :=
  match membership c with Some m => has_org_console_access m | None => false end.
Definition ctx_is_owner (c : OrganizationContext) : bool :=
  match membership c with Some m => is_owner m | None => false end.

Definition effective_permissions (c : OrganizationContext) : gset string :=
  match ctx_permissions c, membership c with
  | Some ps, _ => ps
  | None, Some m => permissions m
  | None, None => ∅
  end.

Definition ctx_has_permission (c : OrganizationContext) (resource : string) (action : option string) : bool :=
  bool_decide (permission_key resource action ∈ effective_permissions c).

Record ApiKeyContext := {
  api_key_id : string; key_organization_id : string; key_prefix : string; scopes : list string }.

Definition has_scope (required_scopes : list string) (k : ApiKeyContext) : bool :=
  forallb (fun scope => mem scope (scopes k)) required_scopes.

(** ** Errors *)

Definition HTTPException := subclass "HTTPException" Exception_.
Definition AioRpcError := subclass "AioRpcError" Exception_.

Definition http (status_code detail : string) : exn :=
  Exn HTTPException detail [("status_code", status_code)].

(** [exc.code()] *)
Definition code (e : exn) : string := default "" (dget "code" (exn_attrs e)).

Definition unavailable : exn := http "503" "Organization service unavailable".

(** ** Outside services *)

(** A text in Redis: empty, not JSON, or the text of a JSON value. *)
Inductive text := EmptyText | Malformed | JsonText (j : json).

Definition text_truthy (t : text) : bool := match t with EmptyText => false | _ => true end.

(** [json.loads] *)
Definition json_loads (t : text) : result json :=
  match t with JsonText j => Ok j | _ => Raise (raise_ ValueError "JSONDecodeError") end.

Definition hashable (j : json) : bool := match j with JList _ | JDict _ => false | _ => true end.

(** The strings in [set(value)]; only the membership of strings is ever asked. *)
Definition string_set (j : json) : result (gset string) :=
  match j with
  | JList l =>
      if forallb hashable l
      then Ok (list_to_set (omap (fun x => match x with JStr s => Some s | _ => None end) l))
      else Raise (raise_ TypeError "unhashable type")
  | JDict d => Ok (list_to_set (dkeys d))
  | JStr s => Ok (list_to_set (map (fun c => String c "") (String.list_ascii_of_string s)))
  | _ => Raise (raise_ TypeError "object is not iterable")
  end.

(** The redis.asyncio client. *)
Class RedisClient (W : Type) := {
  redis_get : string -> M W (option text);
  redis_setex : string -> Z -> text -> M W unit;
  redis_delete : string -> M W unit }.

Record RoleMessage := { rm_id : string; rm_name : string; rm_display_name : string }.
Record MemberResponse := {
  mr_user_id : string; mr_organization_id : string; mr_status : string;
  mr_roles : list RoleMessage; mr_permissions : list string;
  mr_has_org_console_access : bool; mr_is_owner : bool }.
Record ValidateApiKeyResponse := {
  kr_valid : bool; kr_api_key_id : string; kr_organization_id : string;
  kr_key_prefix : string; kr_scopes : list string }.

(** The stub of the organisation service; the first argument of [GetMember]
    is the organisation. *)
Class OrganizationServiceStub (W : Type) := {
  GetMember : string -> string -> M W MemberResponse;
  ValidateApiKey : string -> M W ValidateApiKeyResponse }.

(** The JSON of the pydantic model. *)
Class MembershipJson := {
  model_dump_json : OrganizationMembership -> text;
  model_validate_json : text -> result OrganizationMembership }.

(** [redis_client] says whether a Redis client was given. *)
Record OrganizationClient := { redis_client : bool; cache_ttl : Z }.

Record Request := {
  org_client : option OrganizationClient;
  headers_get : string -> option string }.

Definition role_of (r : RoleMessage) : OrganizationRoleSummary := {|
  role_id := rm_id r; role_name := rm_name r;
  display_name := if String.eqb (rm_display_name r) "" then None else Some (rm_display_name r) |}.

Definition membership_of (resp : MemberResponse) : OrganizationMembership := {|
  user_id := mr_user_id resp; organization_id := mr_organization_id resp; status := mr_status resp;
  roles := map role_of (mr_roles resp); permissions := list_to_set (mr_permissions resp);
  has_org_console_access := mr_has_org_console_access resp; is_owner := mr_is_owner resp |}.

Definition _cache_key (user_id organization_id : string) : string :=
  "org_membership:" +:+ user_id +:+ ":" +:+ organization_id.

Definition permissions_key (user_id organization_id : string) : string :=
  "member_permissions:" +:+ user_id +:+ ":" +:+ organization_id.

(** ** The client *)

Section client.
Context {W : Type} `{RedisClient W, OrganizationServiceStub W, MembershipJson}.

Section methods.
Context (cl : OrganizationClient).

Definition _get_from_cache (user_id organization_id : string) : M W (option OrganizationMembership) :=
  if negb (redis_client cl) then mret None
  else try_except
    (data ← redis_get (_cache_key user_id organization_id);
     match data with
     | Some t => if text_truthy t then m ← lift (model_validate_json t); mret (Some m) else mret None
     | None => mret None
     end)
    (fun _ => mret None).

Definition _set_in_cache (m : OrganizationMembership) : M W unit :=
  if negb (redis_client cl) then mret tt
  else try_except
    (redis_setex (_cache_key (user_id m) (organization_id m)) (cache_ttl cl) (model_dump_json m))
    (fun _ => mret tt).

Definition invalidate_cache (user_id organization_id : string) : M W unit :=
  if negb (redis_client cl) then mret tt
  else try_except
    (_ ← redis_delete (_cache_key user_id organization_id);
     redis_delete (permissions_key user_id organization_id))
    (fun _ => mret tt).

(** The part of [get_membership] after a cache miss. *)
Definition fetch_membership (user_id organization_id : string) : M W (option OrganizationMembership) :=
  try_class AioRpcError
    (resp ← GetMember organization_id user_id;
     _ ← _set_in_cache (membership_of resp);
     mret (Some (membership_of resp)))
    (fun exc => if mem (code exc) ["NOT_FOUND"; "UNKNOWN"; "INVALID_ARGUMENT"] then mret None
                else raise unavailable).

Definition get_membership (user_id organization_id : string) : M W (option OrganizationMembership) :=
  cached ← _get_from_cache user_id organization_id;
  match cached with
  | Some m => mret (Some m)
  | None => fetch_membership user_id organization_id
  end.

(** Both handlers of the code raise the same error. *)
Definition validate_api_key (api_key : string) : M W (option ApiKeyContext) :=
  try_except
    (resp ← ValidateApiKey api_key;
     if negb (kr_valid resp) then mret None
     else mret (Some {| api_key_id := kr_api_key_id resp; key_organization_id := kr_organization_id resp;
                        key_prefix := kr_key_prefix resp; scopes := kr_scopes resp |}))
    (fun _ => raise unavailable).
End methods.

Definition get_organization_client (rq : Request) : M W OrganizationClient :=
  match org_client rq with
  | None => raise (http "500" "Organization client not configured")
  | Some cl => mret cl
  end.

(** ** The dependencies of the routes *)

(** The headers FastAPI resolves for [require_org_membership]; absent when
    the function is called directly. *)
Record header_args := {
  x_user_id : option string; x_organization_id : option string;
  x_api_key_id : option string; x_required_permission : option string }.

(** The argument, or the header of the request. *)
Definition recovered (arg : option string) (rq : Request) (header : string) : option string :=
  str_or arg (headers_get rq header).

Definition api_key_context (user org permission : string) : OrganizationContext := {|
  ctx_user_id := user; ctx_organization_id := org; membership := None; source := "api_key";
  ctx_permissions := Some {[ permission ]} |}.

Definition session_context (user org : string) (m : OrganizationMembership) : OrganizationContext := {|
  ctx_user_id := user; ctx_organization_id := org; membership := Some m; source := "session";
  ctx_permissions := Some (permissions m) |}.

(** The branch of an API key bound by the gateway. *)
Definition machine_principal (org user key_id : string) (x_org x_perm : option string) : result OrganizationContext :=
  if negb (String.eqb user ("api_key:" +:+ key_id))
  then Raise (http "403" "API key identity context is inconsistent")
  else if negb (str_truthy x_org) || negb (String.eqb (default "" x_org) org)
  then Raise (http "403" "API key does not have access to this organization")
  else
    let required_permission := strip (default "" x_perm) in
    if String.eqb required_permission ""
    then Raise (http "403" "API key request is missing an authorized permission")
    else Ok (api_key_context user org required_permission).

(** The branch of a member. *)
Definition member_principal (org user : string) (rq : Request) : M W OrganizationContext :=
  cl ← get_organization_client rq;
  mb ← get_membership cl user org;
  match mb with
  | None => raise (http "403" "Not a member of this organization")
  | Some m =>
      if negb (is_active m) then raise (http "403" ("Organization membership is " +:+ status m))
      else mret (session_context user org m)
  end.

Definition require_org_membership (org : string) (rq : Request) (a : header_args) : M W OrganizationContext :=
  if negb (str_truthy (x_user_id a))
  then raise (http "401" "Authentication required - missing user context")
  else
    let user := default "" (x_user_id a) in
    let x_org := recovered (x_organization_id a) rq "X-Organization-ID" in
    let x_key := recovered (x_api_key_id a) rq "X-Api-Key-Id" in
    let x_perm := recovered (x_required_permission a) rq "X-Required-Permission" in
    if str_truthy x_key
    then lift (machine_principal org user (default "" x_key) x_org x_perm)
    else member_principal org user rq.

(** The inner function of [require_org_role]. *)
Definition check_role (allowed_roles : list string) (ctx : OrganizationContext) : result OrganizationContext :=
  if match membership ctx with None => true | Some m => negb (has_role allowed_roles m) end
  then Raise (http "403" ("Requires one of these roles: " +:+ join ", " (py_sorted allowed_roles)))
  else Ok ctx.

Definition require_org_role (allowed_roles : list string) (org : string) (rq : Request)
    (a : header_args) : M W OrganizationContext :=
  ctx ← require_org_membership org rq a;
  lift (check_role allowed_roles ctx).

Definition ensure_active_membership (mb : option OrganizationMembership) (detail : string) :
    result OrganizationMembership :=
  match mb with
  | None => Raise (http "403" detail)
  | Some m =>
      if negb (is_active m) then Raise (http "403" ("Organization membership is " +:+ status m))
      else Ok m
  end.

Definition ensure_membership_permission (mb : option OrganizationMembership) (resource action : string)
    (detail : option string) : result OrganizationMembership :=
  m ← ensure_active_membership mb "Not a member of this organization";
  if negb (has_permission m resource (Some action))
  then Raise (http "403" (default "" (str_or detail
         (Some ("Missing required permission: " +:+ permission_key resource (Some action))))))
  else Ok m.

Definition _load_member_permissions (rq : Request) (user org : string) : M W (gset string) :=
  cl ← get_organization_client rq;
  cached ← (if redis_client cl
            then try_except
              (data ← redis_get (permissions_key user org);
               match data with
               | Some t => if text_truthy t
                           then j ← lift (json_loads t); s ← lift (string_set j); mret (Some s)
                           else mret None
               | None => mret None
               end)
              (fun _ => mret None)
            else mret None);
  match cached with
  | Some perms => mret perms
  | None =>
      mb ← get_membership cl user org;
      match mb with
      | None => mret ∅
      | Some m =>
          let perms := permissions m in
          _ ← (if redis_client cl && negb (bool_decide (perms = ∅))
               then try_except
                 (redis_setex (permissions_key user org) 60
                    (JsonText (JList (map JStr (py_sorted (elements perms))))))
                 (fun _ => mret tt)
               else mret tt);
          mret perms
      end
  end.

Definition set_permissions (ps : gset string) (c : OrganizationContext) : OrganizationContext := {|
  ctx_user_id := ctx_user_id c; ctx_organization_id := ctx_organization_id c;
  membership := membership c; source := source c; ctx_permissions := Some ps |}.

(** The inner function of [require_permission]. *)
Definition _check_permission (resource action : string) (rq : Request) (ctx : OrganizationContext) :
    M W OrganizationContext :=
  ctx ← match ctx_permissions ctx with
        | Some _ => mret ctx
        | None => ps ← _load_member_permissions rq (ctx_user_id ctx) (ctx_organization_id ctx);
                  mret (set_permissions ps ctx)
        end;
  let required_key := permission_key resource (Some action) in
  if bool_decide (required_key ∈ default ∅ (ctx_permissions ctx)) then mret ctx
  else raise (http "403" ("Missing required permission: " +:+ required_key)).

Definition require_permission (resource action : string) (org : string) (rq : Request)
    (a : header_args) : M W OrganizationContext :=
  ctx ← require_org_membership org rq a;
  _check_permission resource action rq ctx.

Definition require_org_admin (org : string) (rq : Request) (a : header_args) : M W OrganizationContext :=
  require_permission "organization" "edit" org rq a.

Definition check_owner (ctx : OrganizationContext) : result OrganizationContext :=
  if negb (ctx_is_owner ctx) then Raise (http "403" "Organization owner access required") else Ok ctx.

Definition require_org_owner (org : string) (rq : Request) (a : header_args) : M W OrganizationContext :=
  ctx ← require_org_membership org rq a;
  lift (check_owner ctx).

(** The key presented in the [Authorization] or the [X-API-Key] header; the
    empty string after [Bearer] is a key that is not truthy. *)
Definition presented_key (authorization x_api_key : option string) : option string :=
  if str_truthy authorization && startswith "Bearer " (default "" authorization)
  then let s := default "" authorization in Some (String.substring 7 (String.length s - 7) s)
  else if str_truthy x_api_key then x_api_key else None.

Definition require_api_key (rq : Request) (authorization x_api_key : option string) : M W ApiKeyContext :=
  let api_key := presented_key authorization x_api_key in
  if negb (str_truthy api_key)
  then raise (http "401" "API key required. Provide in Authorization header (Bearer <key>) or X-API-Key header.")
  else
    _ ← get_organization_client rq;
    api_ctx ← validate_api_key (default "" api_key);
    match api_ctx with
    | None => raise (http "401" "Invalid or expired API key")
    | Some k => mret k
    end.

(** The inner function of [require_api_key_with_scope]. *)
Definition check_scopes (required_scopes : list string) (k : ApiKeyContext) : result ApiKeyContext :=
  if negb (has_scope required_scopes k)
  then Raise (http "403" ("API key missing required scopes: " +:+ join ", " required_scopes))
  else Ok k.

(** The context of a valid API key: no membership and no permissions. *)
Definition bare_key_context (org : string) : OrganizationContext := {|
  ctx_user_id := "api_key"; ctx_organization_id := org; membership := None; source := "api_key";
  ctx_permissions := None |}.

(** The session part of [require_api_key_or_session]. *)
Definition session_principal (org : string) (rq : Request) (x_user : option string) : M W OrganizationContext :=
  if negb (str_truthy x_user)
  then raise (http "401" "Authentication required. Provide API key or valid session.")
  else member_principal org (default "" x_user) rq.

Definition require_api_key_or_session (org : string) (rq : Request)
    (authorization x_api_key x_user : option string) : M W OrganizationContext :=
  let api_key := presented_key authorization x_api_key in
  if str_truthy api_key
  then
    _ ← get_organization_client rq;
    api_ctx ← validate_api_key (default "" api_key);
    match api_ctx with
    | Some k =>
        if negb (String.eqb (key_organization_id k) org)
        then raise (http "403" "API key does not have access to this organization")
        else mret (bare_key_context (key_organization_id k))
    | None => session_principal org rq x_user
    end
  else session_principal org rq x_user.
End client.

(** ** Cache keys *)

Local Abbreviation colon := ":"%char.

(** The key of a pair without colons is the key of no other pair. *)
Lemma cache_key_inj u o u' o' : free_of colon u -> free_of colon o ->
  _cache_key u o = _cache_key u' o' -> u' = u /\ o' = o.
Proof.
  intros Hu Ho Heq. unfold _cache_key in Heq.
  assert (Hs : forall x y, split_on colon ("org_membership:" +:+ x +:+ ":" +:+ y)
    = "org_membership" :: split_on colon x ++ split_on colon y).
  { intros x y. rewrite <- (split_on_app colon).
    exact (split_on_app colon "org_membership" (x +:+ ":" +:+ y)). }
  apply (f_equal (split_on colon)) in Heq. rewrite !Hs, (split_free _ u), (split_free _ o) in Heq by done.
  injection Heq as Heq. clear Hs. pose proof (split_on_ne colon o') as Hne.
  destruct (split_on colon u') as [|a l] eqn:Eu; [by destruct (split_on_ne colon u')|].
  simpl in Heq. injection Heq as -> Heq. symmetry in Heq. apply app_singleton in Heq as [[-> Eo]|[_ ?]]; [|done].
  split; by apply (split_on_single colon).
Qed.

(** ** What is relied on of the services

    [entries] is the content of Redis with the expiry of each entry, [now] the
    clock, [answers] what the organisation service has answered and when. An
    operation takes at most [latency]. An entry may vanish at any time; an
    operation that fails may have taken effect or not. *)
Class CloudLaws (W : Type) `{RedisClient W, OrganizationServiceStub W} := {
  entries : W -> gmap string (text * Z);
  now : W -> Z;
  answers : W -> list (OrganizationMembership * Z);
  latency : Z;
  get_law k w : match redis_get k w with (r, w') =>
    entries w' ⊆ entries w /\ answers w' = answers w /\ now w <= now w' <= now w + latency /\
    (forall t, r = Ok (Some t) -> exists exp, entries w !! k = Some (t, exp) /\ now w <= exp) end;
  setex_law k ttl t w : match redis_setex k ttl t w with (r, w') =>
    answers w' = answers w /\ now w <= now w' <= now w + latency /\
    (forall k' t' exp, entries w' !! k' = Some (t', exp) ->
       k' = k /\ t' = t /\ exp <= now w' + ttl \/ entries w !! k' = Some (t', exp)) end;
  delete_law k w : match redis_delete k w with (r, w') =>
    entries w' ⊆ entries w /\ answers w' = answers w /\ now w <= now w' <= now w + latency /\
    (r = Ok tt -> entries w' !! k = None) end;
  member_law org user w : match GetMember org user w with (r, w') =>
    entries w' ⊆ entries w /\ now w <= now w' <= now w + latency /\
    match r with
    | Ok resp => answers w' = answers w ++ [(membership_of resp, now w')] /\
                 mr_user_id resp = user /\ mr_organization_id resp = org
    | Raise _ => answers w' = answers w
    end end;
  key_law api_key w : match ValidateApiKey api_key w with (r, w') =>
    entries w' ⊆ entries w /\ answers w' = answers w /\ now w <= now w' end }.

(** Validating the dumped JSON of a membership gives it back. *)
Class MembershipJsonLaws `{MembershipJson} := {
  json_roundtrip m : model_validate_json (model_dump_json m) = Ok m }.

Section cache.
Context {W : Type} `{CloudLaws W, MembershipJson, !MembershipJsonLaws}.
Context (cl : OrganizationClient).

(** Every cached membership was answered by the service for the key's member,
    and expires at most [cache_ttl] and one operation after the answer. *)
Definition sound (w : W) : Prop :=
  forall k t exp m, startswith "org_membership:" k = true -> entries w !! k = Some (t, exp) ->
  model_validate_json t = Ok m ->
  exists at_, (m, at_) ∈ answers w /\ exp <= at_ + latency + cache_ttl cl /\
    _cache_key (user_id m) (organization_id m) = k.

Lemma sound_mono w w' : sound w -> entries w' ⊆ entries w -> answers w ⊆ answers w' -> sound w'.
Proof.
  intros Hs He Ha k t exp m Hk Hl Hv.
  destruct (Hs k t exp m Hk (lookup_weaken _ _ _ _ Hl He) Hv) as (at_ & Hin & ? & ?).
  exists at_. auto.
Qed.

(** What happens between two calls: time passes, entries expire, others store
    under other keys, the service answers others. *)
Definition elapses (w w' : W) : Prop :=
  now w <= now w' /\ answers w ⊆ answers w' /\
  forall k v, startswith "org_membership:" k = true -> entries w' !! k = Some v -> entries w !! k = Some v.

Lemma sound_elapses w w' : sound w -> elapses w w' -> sound w'.
Proof.
  intros Hs (_ & Ha & He) k t exp m Hk Hl Hv.
  destruct (Hs k t exp m Hk (He _ _ Hk Hl) Hv) as (at_ & Hin & ? & ?). exists at_. auto.
Qed.

(** The calls that touch the cache. *)
Inductive call :=
| GetMembership (user org : string)
| Invalidate (user org : string)
| LoadPermissions (user org : string)
| ValidateKey (api_key : string).

Definition request_of : Request := {| org_client := Some cl; headers_get := fun _ => None |}.

Definition run_call (c : call) (w : W) : W :=
  match c with
  | GetMembership u o => snd (get_membership cl u o w)
  | Invalidate u o => snd (invalidate_cache cl u o w)
  | LoadPermissions u o => snd (_load_member_permissions request_of u o w)
  | ValidateKey k => snd (validate_api_key k w)
  end.

(** The states reached from one without cached memberships. *)
Inductive reachable : W -> Prop :=
| reach_start w : (forall k, startswith "org_membership:" k = true -> entries w !! k = None) -> reachable w
| reach_call c w : reachable w -> reachable (run_call c w)
| reach_elapse w w' : reachable w -> elapses w w' -> reachable w'.

Lemma latency_nonneg (w : W) : 0 <= latency.
Proof. pose proof (get_law "" w) as Hg. destruct (redis_get "" w). destruct_and!. lia. Qed.

Lemma get_from_cache_spec u o w : match _get_from_cache cl u o w with (r, w') =>
  entries w' ⊆ entries w /\ answers w' = answers w /\ now w <= now w' <= now w + latency /\
  (forall m, r = Ok (Some m) -> exists t exp, entries w !! _cache_key u o = Some (t, exp) /\
     model_validate_json t = Ok m /\ now w <= exp) end.
Proof.
  pose proof (latency_nonneg w). unfold _get_from_cache. destruct (redis_client cl); simpl.
  2:{ unfold mret, M_ret. split_and!; try done; lia. }
  pose proof (get_law (_cache_key u o) w) as Hg. unfold try_except, mbind, M_bind.
  destruct (redis_get (_cache_key u o) w) as [[data|e] w']; destruct Hg as (He & Ha & Hn & Hd).
  2:{ destruct (catchable e); unfold mret, M_ret; split_and!; naive_solver. }
  unfold lift, mret, M_ret. destruct data as [t|]; [|split_and!; naive_solver].
  destruct (text_truthy t); [|split_and!; naive_solver].
  destruct (model_validate_json t) as [m|e] eqn:Ev; [|destruct (catchable e); split_and!; naive_solver].
  split_and!; [done|done|lia|lia|]. intros m' [= <-].
  destruct (Hd t eq_refl) as (exp & ? & ?). by exists t, exp.
Qed.

Lemma cache_key_prefix u o : startswith "org_membership:" (_cache_key u o) = true.
Proof. apply prefix_app. Qed.

Lemma set_in_cache_spec m w : sound w -> (m, now w) ∈ answers w ->
  match _set_in_cache cl m w with (r, w') =>
    sound w' /\ answers w' = answers w /\ now w <= now w' <= now w + latency end.
Proof.
  intros Hs Hin. pose proof (latency_nonneg w). unfold _set_in_cache.
  destruct (redis_client cl); simpl; [|split_and!; try done; lia].
  pose proof (setex_law (_cache_key (user_id m) (organization_id m)) (cache_ttl cl) (model_dump_json m) w) as Hx.
  unfold try_except. destruct (redis_setex _ _ _ w) as [r w']. destruct Hx as (Ha & Hn & He).
  assert (sound w').
  { intros k t exp m' Hk Hl Hv. rewrite Ha. destruct (He k t exp Hl) as [(-> & -> & Hexp)|Hold].
    - rewrite json_roundtrip in Hv. simplify_eq. exists (now w). split_and!; [done|lia|done].
    - by apply (Hs k t exp m'). }
  destruct r as [|e]; [naive_solver|]. destruct (catchable e); naive_solver.
Qed.

Lemma fetch_membership_spec u o w : sound w ->
  match fetch_membership cl u o w with (r, w') =>
    sound w' /\ (forall m, r = Ok (Some m) -> user_id m = u /\ organization_id m = o /\
      exists at_, (m, at_) ∈ answers w' /\ now w' <= at_ + latency) end.
Proof.
  intros Hs. unfold fetch_membership, try_class, mbind, M_bind.
  pose proof (member_law o u w) as Hg. destruct (GetMember o u w) as [[resp|e] w1];
    destruct Hg as (He & Hn & Hr); simpl.
  - destruct Hr as (Ha & Hu & Ho).
    assert (Hs1 : sound w1) by (apply (sound_mono w); [done..|rewrite Ha; set_solver]).
    pose proof (set_in_cache_spec (membership_of resp) w1 Hs1) as Hx.
    destruct (_set_in_cache cl (membership_of resp) w1) as [[[]|e] w2];
      destruct Hx as (Hs2 & Ha2 & Hn2); try (rewrite Ha; set_solver).
    + split; [done|]. intros m [= <-]. split_and!; [done..|].
      exists (now w1). split; [rewrite Ha2, Ha; set_solver|lia].
    + destruct (isinstance e AioRpcError); [|done]. by destruct (mem (code e) _).
  - assert (sound w1) by (apply (sound_mono w); [done..|by rewrite Hr]).
    destruct (isinstance e AioRpcError); [|done]. by destruct (mem (code e) _).
Qed.

Lemma get_membership_spec u o w : 0 <= cache_ttl cl -> sound w ->
  match get_membership cl u o w with (r, w') =>
    sound w' /\ (forall m, r = Ok (Some m) ->
      _cache_key (user_id m) (organization_id m) = _cache_key u o /\
      exists at_, (m, at_) ∈ answers w' /\ now w' <= at_ + cache_ttl cl + 2 * latency) end.
Proof.
  intros Httl Hs. pose proof (latency_nonneg w). unfold get_membership, mbind, M_bind.
  pose proof (get_from_cache_spec u o w) as Hc.
  destruct (_get_from_cache cl u o w) as [r w1]. destruct Hc as (He & Ha & Hn & Hm).
  assert (Hs1 : sound w1) by (apply (sound_mono w); [done..|by rewrite Ha]).
  destruct r as [[m|]|e]; [| |done].
  - unfold mret, M_ret. split; [done|]. intros m' [= <-].
    destruct (Hm m eq_refl) as (t & exp & Hl & Hv & Hexp).
    destruct (Hs _ t exp m (cache_key_prefix u o) Hl Hv) as (at_ & Hin & Hle & Hkey).
    split; [done|]. exists at_. rewrite Ha. split; [done|lia].
  - pose proof (fetch_membership_spec u o w1 Hs1) as Hf.
    destruct (fetch_membership cl u o w1) as [r w2]. destruct Hf as [Hs2 Hf]. split; [done|].
    intros m Hr. destruct (Hf m Hr) as (-> & -> & at_ & Hin & Hle). split; [done|].
    exists at_. split; [done|lia].
Qed.

Lemma setex_other_sound k ttl t w : sound w -> startswith "org_membership:" k = false ->
  sound (snd (redis_setex k ttl t w)).
Proof.
  intros Hs Hk. pose proof (setex_law k ttl t w) as Hx.
  destruct (redis_setex k ttl t w) as [r w']. destruct Hx as (Ha & _ & He). simpl.
  intros k' t' exp m Hk' Hl Hv. rewrite Ha.
  destruct (He k' t' exp Hl) as [(-> & _)|Hold]; [congruence|]. by apply (Hs k' t' exp m).
Qed.

Lemma get_sound k : preserves sound (redis_get k).
Proof.
  intros w Hs. pose proof (get_law k w) as Hg. destruct (redis_get k w) as [r w']; simpl.
  destruct Hg as (? & Ha & _). apply (sound_mono w); [done..|by rewrite Ha].
Qed.

Lemma delete_sound k : preserves sound (redis_delete k).
Proof.
  intros w Hs. pose proof (delete_law k w) as Hg. destruct (redis_delete k w) as [r w']; simpl.
  destruct Hg as (? & Ha & _). apply (sound_mono w); [done..|by rewrite Ha].
Qed.

Lemma validate_key_sound k : preserves sound (ValidateApiKey k).
Proof.
  intros w Hs. pose proof (key_law k w) as Hg. destruct (ValidateApiKey k w) as [r w']; simpl.
  destruct Hg as (? & Ha & _). apply (sound_mono w); [done..|by rewrite Ha].
Qed.

Lemma lift_sound {A} (r : result A) : preserves sound (lift r).
Proof. by intros w. Qed.

Lemma permissions_setex_sound u o ttl t : preserves sound (redis_setex (permissions_key u o) ttl t).
Proof. intros w Hs. by apply setex_other_sound. Qed.

Context (Httl : 0 <= cache_ttl cl).

Lemma get_membership_sound u o : preserves sound (get_membership cl u o).
Proof using All.
  intros w Hs. pose proof (get_membership_spec u o w Httl Hs) as Hg.
  destruct (get_membership cl u o w). naive_solver.
Qed.

Ltac sound_steps :=
  repeat first
    [ apply preserves_ret | apply preserves_raise | apply lift_sound | apply get_sound
    | apply delete_sound | apply validate_key_sound | apply get_membership_sound
    | apply permissions_setex_sound
    | apply preserves_bind_ret
    | apply preserves_bind; [|intros ?] | apply preserves_try_except; [|intros ?]
    | progress cbv beta zeta | case_match ].

Lemma run_call_sound c w : sound w -> sound (run_call c w).
Proof using All.
  intros Hs. destruct c as [u o|u o|u o|k]; simpl.
  - by apply get_membership_sound.
  - assert (Hp : preserves sound (invalidate_cache cl u o)); [|by apply Hp].
    unfold invalidate_cache. sound_steps.
  - assert (Hp : preserves sound (_load_member_permissions request_of u o)); [|by apply Hp].
    unfold _load_member_permissions, get_organization_client. simpl. sound_steps.
  - assert (Hp : preserves sound (validate_api_key k)); [|by apply Hp].
    unfold validate_api_key. sound_steps.
Qed.

Lemma reachable_sound w : reachable w -> sound w.
Proof using All.
  induction 1 as [w Hn|c w _ IH|w w' _ IH He].
  - intros k t exp m Hk Hl. by rewrite Hn in Hl.
  - by apply run_call_sound.
  - by eapply sound_elapses.
Qed.
End cache.

(** C13: In every state reached by any calls of the client and anything others do,
    whatever Redis loses, refuses or delays: the membership [get_membership]
    returns for a user and an organisation whose identifiers have no colon is
    theirs, and the organisation service has answered exactly it no longer ago
    than [cache_ttl] and two operations. *)
Theorem membership_is_recent {W} `{CloudLaws W, MembershipJson, !MembershipJsonLaws}
    (cl : OrganizationClient) u o (w w' : W) m :
  0 <= cache_ttl cl -> reachable cl w -> free_of ":"%char u -> free_of ":"%char o ->
  get_membership cl u o w = (Ok (Some m), w') ->
  user_id m = u /\ organization_id m = o /\
  exists at_, (m, at_) ∈ answers w' /\ now w' <= at_ + cache_ttl cl + 2 * latency.
Proof.
  intros Httl Hr Hu Ho Hg. pose proof (reachable_sound cl Httl w Hr) as Hs.
  pose proof (get_membership_spec cl u o w Httl Hs) as Hm. rewrite Hg in Hm.
  destruct Hm as [_ Hm]. destruct (Hm m eq_refl) as [Hkey Hat].
  destruct (cache_key_inj u o _ _ Hu Ho (eq_sym Hkey)). naive_solver.
Qed.

(** ** The dependencies *)

Section dependencies.
Context {W : Type} `{RedisClient W, OrganizationServiceStub W, MembershipJson}.

Definition caller (a : header_args) : string := default "" (x_user_id a).
Definition bound_org (rq : Request) a : option string := recovered (x_organization_id a) rq "X-Organization-ID".
Definition bound_key (rq : Request) a : option string := recovered (x_api_key_id a) rq "X-Api-Key-Id".
Definition bound_permission (rq : Request) a : string :=
  strip (default "" (recovered (x_required_permission a) rq "X-Required-Permission")).

(** The gateway has bound the key, the organisation and a permission. *)
Definition machine_bound (org : string) (rq : Request) (a : header_args) : Prop :=
  caller a = "api_key:" +:+ default "" (bound_key rq a) /\ bound_org rq a = Some org /\ org <> "" /\
  bound_permission rq a <> "".

(** The user is an active member, in the answer of [get_membership]. *)
Definition member_answer (org user : string) (rq : Request) (w : W) (m : OrganizationMembership) (w' : W) : Prop :=
  exists cl, org_client rq = Some cl /\ get_membership cl user org w = (Ok (Some m), w') /\
    status m = "active".

Lemma str_truthy_default (s : option string) x : str_truthy s = true -> default "" s = x -> s = Some x /\ x <> "".
Proof.
  destruct s as [s|]; simpl; [|done]. intros Hs ->. split; [done|]. by apply negb_true_iff, String.eqb_neq in Hs.
Qed.

Lemma machine_principal_iff org user key x_org x_perm ctx :
  machine_principal org user key x_org x_perm = Ok ctx <->
  user = "api_key:" +:+ key /\ x_org = Some org /\ org <> "" /\ strip (default "" x_perm) <> "" /\
  ctx = api_key_context user org (strip (default "" x_perm)).
Proof.
  unfold machine_principal. cbv zeta.
  destruct (String.eqb_spec user ("api_key:" +:+ key)) as [Hu|Hu]; cbn [negb].
  2:{ split; [done|]. intros [? _]. done. }
  destruct (str_truthy x_org) eqn:Et; cbn [negb orb].
  2:{ split; [done|]. intros (_ & -> & Hne & _). apply negb_false_iff, String.eqb_eq in Et. done. }
  destruct (String.eqb_spec (default "" x_org) org) as [Ho|Ho]; cbn [negb].
  2:{ split; [done|]. intros (_ & -> & _). done. }
  destruct (str_truthy_default _ _ Et Ho) as [-> Hne].
  destruct (String.eqb_spec (strip (default "" x_perm)) "") as [Hp|Hp].
  - split; [done|]. naive_solver.
  - split; [intros [= <-]; done|]. by intros (_ & _ & _ & _ & ->).
Qed.

Lemma member_principal_iff org user rq w ctx w' :
  member_principal org user rq w = (Ok ctx, w') <->
  exists m, member_answer org user rq w m w' /\ ctx = session_context user org m.
Proof.
  unfold member_principal, get_organization_client, is_active.
  destruct (org_client rq) as [cl|] eqn:Ec; unfold mbind, M_bind, mret, M_ret, raise;
    [|split; [done|intros (m & (cl & ? & _) & _); congruence]].
  split.
  - destruct (get_membership cl user org w) as [[[m|]|e] w1] eqn:Eg; [|done..].
    destruct (String.eqb_spec (status m) "active") as [Ha|Ha]; simpl; [|done].
    intros [= <- <-]. exists m. split; [|done]. by exists cl.
  - intros (m & (cl' & Hc & Hg & Ha) & ->). simplify_eq. rewrite Hg, Ha. done.
Qed.

(** Who gets a context for an organisation, which one, and in which state. *)
Lemma require_org_membership_iff org rq a w ctx w' :
  require_org_membership org rq a w = (Ok ctx, w') <->
  str_truthy (x_user_id a) = true /\
  (str_truthy (bound_key rq a) = true /\ w' = w /\ machine_bound org rq a /\
     ctx = api_key_context (caller a) org (bound_permission rq a) \/
   str_truthy (bound_key rq a) = false /\
     exists m, member_answer org (caller a) rq w m w' /\ ctx = session_context (caller a) org m).
Proof.
  unfold require_org_membership, machine_bound, caller, bound_org, bound_key, bound_permission. cbv zeta.
  destruct (str_truthy (x_user_id a)); cbn [negb]; [|unfold raise; naive_solver].
  destruct (str_truthy (recovered (x_api_key_id a) rq "X-Api-Key-Id")).
  - unfold lift. split.
    + intros [= Hr <-]. apply machine_principal_iff in Hr. naive_solver.
    + intros [_ [(_ & -> & (? & ? & ? & ?) & ->)|[? _]]]; [|done]. f_equal.
      by apply machine_principal_iff.
  - rewrite member_principal_iff. naive_solver.
Qed.

Lemma check_permission_loaded resource action rq ctx ps w : ctx_permissions ctx = Some ps ->
  _check_permission resource action rq ctx w =
  (if bool_decide (permission_key resource (Some action) ∈ ps) then Ok ctx
   else Raise (http "403" ("Missing required permission: " +:+ permission_key resource (Some action))), w).
Proof.
  intros Hps. unfold _check_permission. rewrite Hps. unfold mbind, M_bind, mret, M_ret. cbv zeta.
  rewrite Hps. simpl. by destruct (bool_decide _).
Qed.

Lemma require_org_membership_permissions org rq a w ctx w' :
  require_org_membership org rq a w = (Ok ctx, w') -> exists ps, ctx_permissions ctx = Some ps.
Proof. rewrite require_org_membership_iff. intros [_ [(_ & _ & _ & ->)|(_ & m & _ & ->)]]; by eexists. Qed.
End dependencies.

Section theorems.
Context {W : Type} `{RedisClient W, OrganizationServiceStub W, MembershipJson}.

(** A request with an API key identifier never reaches the organisation
    service or the cache, whatever its other headers say, and the context it
    can obtain is confined to what the gateway bound: the key's own identity,
    the bound organisation, the one authorized permission, no role, no console
    access and no ownership. *)
Theorem machine_principal_confined org (rq : Request) (a : header_args) (w : W) :
  str_truthy (bound_key rq a) = true ->
  exists r, require_org_membership org rq a w = (r, w) /\
    forall ctx, r = Ok ctx ->
      machine_bound org rq a /\ ctx_organization_id ctx = org /\
      (forall resource action, ctx_has_permission ctx resource action = true <->
         permission_key resource action = bound_permission rq a) /\
      (forall allowed, is_ok (check_role allowed ctx) = false) /\
      ctx_role_names ctx = ∅ /\ ctx_console_access ctx = false /\ is_ok (check_owner ctx) = false.
Proof.
  intros Hk. assert (Hw : snd (require_org_membership org rq a w) = w).
  { unfold require_org_membership. cbv zeta. unfold bound_key in Hk. rewrite Hk.
    by destruct (str_truthy (x_user_id a)). }
  destruct (require_org_membership org rq a w) as [r w'] eqn:Er. simpl in Hw. subst w'.
  exists r. split; [done|]. intros ctx ->.
  apply require_org_membership_iff in Er as [_ [(_ & _ & Hb & ->)|[? _]]]; [|congruence].
  split_and!; try done. intros resource action. unfold ctx_has_permission.
  rewrite bool_decide_eq_true. cbn. by rewrite elem_of_singleton.
Qed.

(** C12: Who passes [require_permission]: exactly a key the gateway has
    bound to the organisation and to this very permission, and an active member
    who holds it in the answer of [get_membership]; nothing else is asked, so
    the permissions cached separately for members are never consulted. *)
Theorem require_permission_iff resource action org (rq : Request) (a : header_args) (w w' : W) ctx :
  require_permission resource action org rq a w = (Ok ctx, w') <->
  str_truthy (x_user_id a) = true /\
  (str_truthy (bound_key rq a) = true /\ w' = w /\ machine_bound org rq a /\
     bound_permission rq a = permission_key resource (Some action) /\
     ctx = api_key_context (caller a) org (bound_permission rq a) \/
   str_truthy (bound_key rq a) = false /\
     exists m, member_answer org (caller a) rq w m w' /\
       permission_key resource (Some action) ∈ permissions m /\
       ctx = session_context (caller a) org m).
Proof.
  unfold require_permission, mbind, M_bind.
  destruct (require_org_membership org rq a w) as [[c|e] w1] eqn:Er.
  - pose proof Er as Hiff. apply require_org_membership_iff in Hiff as [Hu Hc].
    destruct (require_org_membership_permissions _ _ _ _ _ _ Er) as [ps Hps].
    rewrite (check_permission_loaded _ _ _ _ _ _ Hps).
    destruct (bool_decide_reflect (permission_key resource (Some action) ∈ ps)) as [Hin|Hin]; split.
    + intros [= -> ->]. split; [done|].
      destruct Hc as [(Hk & -> & Hb & ->)|(Hk & m & Hm & ->)]; simplify_eq/=.
      * left. split_and!; try done. set_solver.
      * right. split; [done|]. by exists m.
    + intros [_ Hg]. assert (Er' : require_org_membership org rq a w = (Ok ctx, w')).
      { apply require_org_membership_iff. split; [done|]. naive_solver. }
      rewrite Er in Er'. by simplify_eq.
    + done.
    + intros [_ Hg]. assert (Er' : require_org_membership org rq a w = (Ok ctx, w')).
      { apply require_org_membership_iff. split; [done|]. naive_solver. }
      rewrite Er in Er'. simplify_eq. destruct Hin.
      destruct Hg as [(_ & _ & _ & Hp & ->)|(_ & m & _ & Hp & ->)]; simplify_eq/=; set_solver.
  - split; [done|]. intros [Hu Hg].
    assert (Er' : require_org_membership org rq a w = (Ok ctx, w')).
    { apply require_org_membership_iff. split; [done|]. naive_solver. }
    congruence.
Qed.

(** The state in which the session is looked up: no key is presented, or the
    service rejects it. *)
Definition no_valid_key (rq : Request) (key : option string) (w w1 : W) : Prop :=
  str_truthy key = false /\ w1 = w \/
  str_truthy key = true /\ org_client rq <> None /\ validate_api_key (default "" key) w = (Ok None, w1).

(** [require_api_key_or_session]: a context is given exactly to a key
    the service validates for this very organisation, or, when there is no key
    or the service rejects it, to an active member named by the session header.
    The context of a key holds no permission at all: the key's scopes are
    dropped. *)
Theorem api_key_or_session_iff org (rq : Request) authorization x_key x_user (w w' : W) ctx :
  (require_api_key_or_session org rq authorization x_key x_user w = (Ok ctx, w') <->
    (exists k, str_truthy (presented_key authorization x_key) = true /\ org_client rq <> None /\
       validate_api_key (default "" (presented_key authorization x_key)) w = (Ok (Some k), w') /\
       key_organization_id k = org /\ ctx = bare_key_context org) \/
    (exists w1 m, no_valid_key rq (presented_key authorization x_key) w w1 /\ str_truthy x_user = true /\
       member_answer org (default "" x_user) rq w1 m w' /\ ctx = session_context (default "" x_user) org m)) /\
  (forall resource action, ctx_has_permission (bare_key_context org) resource action = false).
Proof.
  split; [|done]. unfold require_api_key_or_session, no_valid_key. cbv zeta.
  assert (Hsess : forall w1, session_principal org rq x_user w1 = (Ok ctx, w') <->
    exists m, str_truthy x_user = true /\ member_answer org (default "" x_user) rq w1 m w' /\
      ctx = session_context (default "" x_user) org m).
  { intros w1. unfold session_principal. destruct (str_truthy x_user); simpl.
    - rewrite member_principal_iff. naive_solver.
    - unfold raise. naive_solver. }
  destruct (str_truthy (presented_key authorization x_key)).
  2:{ rewrite Hsess. split.
      - intros (m & ? & ? & ?). right. exists w, m. split_and!; auto.
      - intros [(k & ? & _)|(w1 & m & [[_ ->]|[? _]] & ?)]; [done| |done]. by exists m. }
  unfold get_organization_client.
  destruct (org_client rq) as [cl|]; unfold mbind, M_bind, mret, M_ret, raise.
  2:{ split; [done|]. intros [(k & _ & ? & _)|(w1 & m & [[? _]|(_ & ? & _)] & _)]; done. }
  destruct (validate_api_key _ w) as [[[k|]|e] w1].
  - split.
    + destruct (String.eqb_spec (key_organization_id k) org) as [Ho|Ho]; simpl; [|done].
      intros [= <- <-]. left. exists k. rewrite Ho. by split_and!.
    + intros [(k' & _ & _ & [= -> ->] & Ho & ->)|(w2 & m & [[? _]|(_ & _ & ?)] & _)]; [|done..].
      rewrite Ho, String.eqb_refl. done.
  - rewrite Hsess. split.
    + intros (m & ? & ? & ?). right. exists w1, m. split_and!; auto.
    + intros [(k & _ & _ & ? & _)|(w2 & m & [[? _]|(_ & _ & [= <-])] & ?)]; [done..|]. by exists m.
  - split; [done|]. intros [(k & _ & _ & ? & _)|(w2 & m & [[? _]|(_ & _ & ?)] & _)]; done.
Qed.

(** A Redis that is down is invisible: when its operations raise ordinary
    exceptions, [get_membership] answers exactly as a client without a cache. *)
Theorem redis_outage_invisible (cl : OrganizationClient) u o (w : W) :
  (forall k w, exists e, redis_get k w = (Raise e, w) /\ catchable e = true) ->
  (forall k ttl t w, exists e, redis_setex k ttl t w = (Raise e, w) /\ catchable e = true) ->
  get_membership cl u o w =
  get_membership {| redis_client := false; cache_ttl := cache_ttl cl |} u o w.
Proof.
  intros Hget Hset. unfold get_membership, mbind, M_bind.
  assert (Hc : _get_from_cache cl u o w = (Ok None, w)).
  { unfold _get_from_cache. destruct (redis_client cl); [|done]. simpl.
    unfold try_except, mbind, M_bind. destruct (Hget (_cache_key u o) w) as (e & -> & ->). done. }
  rewrite Hc. simpl. unfold fetch_membership, try_class, mbind, M_bind.
  destruct (GetMember o u w) as [[resp|e] w1]; [|done].
  assert (Hs : forall m w, _set_in_cache cl m w = (Ok tt, w)).
  { intros m w2. unfold _set_in_cache. destruct (redis_client cl); [|done]. simpl. unfold try_except.
    destruct (Hset (_cache_key (user_id m) (organization_id m)) (cache_ttl cl) (model_dump_json m) w2)
      as (e & -> & ->). done. }
  by rewrite Hs.
Qed.
End theorems.

(** ** A concrete deployment

    Redis as a map with expiries that can be down, an organisation service with
    a list of members and of keys; every operation takes one second. *)
Module Demo.

Record world := { clock : Z; store : gmap string (text * Z); up : bool;
  members : list MemberResponse; api_keys : pydict ValidateApiKeyResponse;
  answered : list (OrganizationMembership * Z) }.

Definition set_store (s : gmap string (text * Z)) (w : world) : world := {|
  clock := clock w + 1; store := s; up := up w; members := members w; api_keys := api_keys w;
  answered := answered w |}.

Definition tick (w : world) : world := set_store (store w) w.

Definition answer (m : OrganizationMembership) (w : world) : world := {|
  clock := clock w + 1; store := store w; up := up w; members := members w; api_keys := api_keys w;
  answered := answered w ++ [(m, clock w + 1)] |}.

Definition down : exn := raise_ ConnectionError "redis".

#[export] Instance world_redis : RedisClient world := {
  redis_get k w :=
    if up w then
      (Ok (match store w !! k with
           | Some (t, exp) => if clock w <=? exp then Some t else None
           | None => None
           end), tick w)
    else (Raise down, w);
  redis_setex k ttl t w :=
    if up w then (Ok tt, set_store (<[k := (t, clock w + 1 + ttl)]> (store w)) w) else (Raise down, w);
  redis_delete k w :=
    if up w then (Ok tt, set_store (delete k (store w)) w) else (Raise down, w) }.

#[export] Instance world_stub : OrganizationServiceStub world := {
  GetMember org user w :=
    match List.find (fun r => String.eqb (mr_user_id r) user && String.eqb (mr_organization_id r) org)
            (members w) with
    | Some r => (Ok r, answer (membership_of r) w)
    | None => (Raise (Exn AioRpcError "" [("code", "NOT_FOUND")]), tick w)
    end;
  ValidateApiKey k w :=
    (Ok (default {| kr_valid := false; kr_api_key_id := ""; kr_organization_id := ""; kr_key_prefix := "";
                    kr_scopes := [] |} (dget k (api_keys w))), tick w) }.

#[export] Program Instance world_laws : CloudLaws world := {
  entries := store; now := clock; answers := answered; latency := 1 }.
Next Obligation.
  intros k w. unfold redis_get, world_redis. destruct (up w); simpl; [|split_and!; [done..|lia|lia|done]].
  split_and!; [done..|lia|lia|]. intros t. destruct (store w !! k) as [[t' exp]|]; [|done].
  destruct (Z.leb_spec (clock w) exp); [|done]. intros [= <-]. by exists exp.
Qed.
Next Obligation.
  intros k ttl t w. unfold redis_setex, world_redis.
  destruct (up w); simpl; (split_and!; [done|lia|lia|]); intros k' t' exp; [|auto].
  destruct (decide (k' = k)) as [->|]; [rewrite lookup_insert_eq|rewrite lookup_insert_ne by done]; [|auto].
  intros [= <- <-]. left. split_and!; [done..|lia].
Qed.
Next Obligation.
  intros k w. unfold redis_delete, world_redis. destruct (up w); simpl.
  - split_and!; [apply delete_subseteq|done|lia|lia|]. intros _. apply lookup_delete_eq.
  - split_and!; [done..|lia|lia|done].
Qed.
Next Obligation.
  intros org user w. unfold GetMember, world_stub.
  destruct (List.find _ (members w)) as [r|] eqn:E; simpl; [|split_and!; [done|lia..|done]].
  apply find_some in E as [_ E]. bool_props. split_and!; [done|lia..|done|done|done].
Qed.
Next Obligation. intros k w. simpl. split_and!; [done..|lia]. Qed.

(** *** The JSON of a membership *)

Definition dump_role (r : OrganizationRoleSummary) : json :=
  JDict [("id", JStr (role_id r)); ("name", JStr (role_name r)); ("display_name", jopt (display_name r))].

Definition load_role (j : json) : option OrganizationRoleSummary :=
  match j with
  | JDict [(_, JStr i); (_, JStr n); (_, JStr d)] =>
      Some {| role_id := i; role_name := n; display_name := Some d |}
  | JDict [(_, JStr i); (_, JStr n); (_, JNull)] =>
      Some {| role_id := i; role_name := n; display_name := None |}
  | _ => None
  end.

Definition load_str (j : json) : option string := match j with JStr s => Some s | _ => None end.

Lemma load_roles l : mapM load_role (map dump_role l) = Some l.
Proof.
  induction l as [|[i n [d|]] l IH]; simpl; [done|..]; by rewrite IH.
Qed.

Lemma load_strs l : mapM load_str (map JStr l) = Some l.
Proof. induction l as [|s l IH]; simpl; [done|]. by rewrite IH. Qed.

Definition load (t : text) : option OrganizationMembership :=
  match t with
  | JsonText (JDict [(_, JStr u); (_, JStr o); (_, JStr st); (_, JList rs); (_, JList ps);
                     (_, JBool c); (_, JBool ow)]) =>
      rs ← mapM load_role rs; ps ← mapM load_str ps;
      Some {| user_id := u; organization_id := o; status := st; roles := rs;
              permissions := list_to_set ps; has_org_console_access := c; is_owner := ow |}
  | _ => None
  end.

#[export] Instance membership_json : MembershipJson := {
  model_dump_json m := JsonText (JDict [
    ("user_id", JStr (user_id m)); ("organization_id", JStr (organization_id m));
    ("status", JStr (status m)); ("roles", JList (map dump_role (roles m)));
    ("permissions", JList (map JStr (elements (permissions m))));
    ("has_org_console_access", JBool (has_org_console_access m)); ("is_owner", JBool (is_owner m))]);
  model_validate_json t :=
    match load t with Some m => Ok m | None => Raise (raise_ ValueError "ValidationError") end }.

#[export] Instance membership_json_laws : MembershipJsonLaws.
Proof.
  constructor. intros m. unfold model_validate_json, membership_json, model_dump_json, load.
  rewrite load_roles, load_strs. simpl. rewrite list_to_set_elements_L. by destruct m.
Qed.

(** *** Runs *)

Definition alice : MemberResponse := {|
  mr_user_id := "alice"; mr_organization_id := "acme"; mr_status := "active";
  mr_roles := [{| rm_id := "r1"; rm_name := "issuer"; rm_display_name := "" |}];
  mr_permissions := ["credential:view"]; mr_has_org_console_access := true; mr_is_owner := false |}.

Definition start (redis_up : bool) : world := {|
  clock := 0; store := ∅; up := redis_up; members := [alice]; api_keys := []; answered := [] |}.

Definition client : OrganizationClient := {| redis_client := true; cache_ttl := 120 |}.
Definition request (hs : pydict string) : Request := {|
  org_client := Some client; headers_get := fun k => dget k hs |}.

(** One look-up fills the cache; a minute later, the member gone from the
    service, the second look-up is answered from it. *)
Definition later (w : world) : world := {|
  clock := clock w + 60; store := store w; up := up w; members := []; api_keys := api_keys w;
  answered := answered w |}.

Definition after_first : world := later (run_call client (GetMembership "alice" "acme") (start true)).

Lemma membership_is_recent_witness :
  fst (get_membership client "alice" "acme" after_first) = Ok (Some (membership_of alice)) /\
  user_id (membership_of alice) = "alice" /\ organization_id (membership_of alice) = "acme" /\
  exists at_, (membership_of alice, at_) ∈ answers (snd (get_membership client "alice" "acme" after_first)) /\
    now (snd (get_membership client "alice" "acme" after_first)) <= at_ + 120 + 2 * latency.
Proof.
  assert (Hf : fst (get_membership client "alice" "acme" after_first) = Ok (Some (membership_of alice)))
    by (vm_compute; reflexivity).
  split; [exact Hf|].
  assert (Hr : reachable client after_first).
  { apply (reach_elapse client (run_call client (GetMembership "alice" "acme") (start true)));
      [apply reach_call, reach_start|split; [|split]].
    - intros k _. apply lookup_empty.
    - unfold after_first, later. simpl. lia.
    - done.
    - done. }
  assert (Hg : get_membership client "alice" "acme" after_first =
    (Ok (Some (membership_of alice)), snd (get_membership client "alice" "acme" after_first))).
  { rewrite <- Hf. apply surjective_pairing. }
  apply (membership_is_recent client "alice" "acme" after_first
    (snd (get_membership client "alice" "acme" after_first)) (membership_of alice));
    [simpl; lia|exact Hr|repeat split; discriminate..|exact Hg].
Defined.

Definition bound_headers : pydict string :=
  [("X-Organization-ID", "acme"); ("X-Api-Key-Id", "k1"); ("X-Required-Permission", " credential:view ")].
Definition user_header (u : string) : header_args := {|
  x_user_id := Some u; x_organization_id := None; x_api_key_id := None; x_required_permission := None |}.

Lemma machine_principal_confined_witness :
  fst (require_org_membership "acme" (request bound_headers) (user_header "api_key:k1") (start true))
    = Ok (api_key_context "api_key:k1" "acme" "credential:view") /\
  exists r, require_org_membership "acme" (request bound_headers) (user_header "api_key:k1") (start true)
    = (r, start true) /\
    forall ctx, r = Ok ctx ->
      machine_bound "acme" (request bound_headers) (user_header "api_key:k1") /\
      ctx_organization_id ctx = "acme" /\
      (forall resource action, ctx_has_permission ctx resource action = true <->
         permission_key resource action = bound_permission (request bound_headers) (user_header "api_key:k1")) /\
      (forall allowed, is_ok (check_role allowed ctx) = false) /\
      ctx_role_names ctx = ∅ /\ ctx_console_access ctx = false /\ is_ok (check_owner ctx) = false.
Proof.
  split; [vm_compute; reflexivity|].
  apply (machine_principal_confined "acme" (request bound_headers) (user_header "api_key:k1") (start true)).
  vm_compute. reflexivity.
Defined.

(** A service that answers in one state, next to a Redis that is down. *)
#[local] Instance unit_redis : RedisClient unit := {
  redis_get _ w := (Raise down, w); redis_setex _ _ _ w := (Raise down, w);
  redis_delete _ w := (Raise down, w) }.
#[local] Instance unit_stub : OrganizationServiceStub unit := {
  GetMember _ _ w := (Ok alice, w);
  ValidateApiKey _ w := (Raise down, w) }.

Lemma redis_outage_invisible_witness :
  fst (get_membership client "alice" "acme" tt) = Ok (Some (membership_of alice)) /\
  get_membership client "alice" "acme" tt =
  get_membership {| redis_client := false; cache_ttl := cache_ttl client |} "alice" "acme" tt.
Proof.
  split; [reflexivity|].
  apply (redis_outage_invisible client "alice" "acme" tt).
  - intros k w. exists down. split; reflexivity.
  - intros k ttl t w. exists down. split; reflexivity.
Defined.
End Demo.
