(* ===== verification/CedarActions.v ===== *)
(** * Routes and permissions ([cedar_actions.py])

    Which permission and resource a gateway request needs, the organisation its
    path names, and where the owner of its resource is looked up. The patterns are
    the texts of the source, parsed by [PyRegex.v]. *)

From S2P Require Import Prelude PyRuntime PyText PyInt PyRegex.

Definition _UUID_RE : string := "([a-f0-9\-]{36})".

Definition RESOURCE_LOOKUP_MAP : pydict (string * string * list string) := [
  ("credential-templates", ("credential-templates", "/v1/credential-templates/{resource_id}", []));
  ("trust-profiles", ("trust-profiles", "/internal/v1/resource-owners/trust-profiles/{resource_id}", []));
  ("issuer-entities", ("trust-profiles", "/internal/v1/resource-owners/issuer-entities/{resource_id}", []));
  ("compliance-profiles", ("compliance-profiles", "/v1/compliance-profiles/{resource_id}", []));
  ("presentation-policies", ("presentation-policies", "/v1/presentation-policies/{resource_id}", ["evaluate"]));
  ("deployment-profiles", ("deployment-profiles", "/v1/deployment-profiles/{resource_id}", []));
  ("revocation-profiles", ("revocation-profiles", "/v1/revocation-profiles/{resource_id}", []));
  ("flows", ("flows", "/v1/flows/{resource_id}", ["capabilities"; "definitions"; "instances"; "siop"; "verify";
    "webhooks"]));
  ("application-templates", ("issuance", "/internal/v1/resource-owners/application-templates/{resource_id}", ["validate-artifacts"]));
  ("issued-credentials", ("issuance", "/internal/v1/resource-owners/issued-credentials/{resource_id}", ["mine"]));
  ("issuance", ("issuance", "/internal/v1/resource-owners/issuance-transactions/{resource_id}", ["offers"; "token";
    "credential"; "nonce"; "notification"; "deferred-credential"; "authorize"; "par"; "didcomm"; "initiate";
    "transactions"; "delivery-records"; "oid4vci-clients"; "organizations"]));
  ("policy-sets", ("organizations", "/v1/policy-sets/{resource_id}", ["validate"]))].

Definition SPECIAL_ROUTE_RULES : list (string * pydict string * string) := [
  ("^/v1/integrations/canvas/platforms/[^/]+/(?:registration-config|readiness)$",
   [("GET", "integration-connector:view")], "integration-connector");
  ("^/v1/integrations/canvas/platforms/[^/]+/scope-discovery$",
   [("POST", "integration-connector:view")], "integration-connector");
  ("^/v1/integrations/canvas/platforms/[^/]+/(?:sandbox-probe|jwks-refresh|oauth/start|oauth/authorizations)$",
   [("POST", "integration-connector:edit")], "integration-connector");
  ("^/v1/integrations/canvas/platforms/[^/]+/lti-installation$",
   [("PUT", "integration-connector:edit")], "integration-connector");
  ("^/v1/integrations/canvas/program-bindings/[^/]+/(?:validate|activate|deactivate)$",
   [("POST", "integration-connector:edit")], "integration-connector");
  ("^/v1/integrations/canvas/applications/[^/]+/(?:approve|canvas-sync)$",
   [("POST", "integration-connector:edit")], "integration-connector");
  ("^/v1/integrations/canvas/canvas-sync-jobs/[^/]+/(?:retry|resolve)$",
   [("POST", "integration-connector:edit")], "integration-connector");
  ("^/v1/integrations/canvas/evidence-policy-reviews/[^/]+/resolve$",
   [("POST", "integration-connector:edit")], "integration-connector");
  ("^/v1/integrations/canvas/platforms/[^/]+/oauth$",
   [("DELETE", "integration-connector:edit")], "integration-connector");
  ("^/v1/integrations/canvas/canvas-credentials/validate$",
   [("POST", "integration-connector:view")], "integration-connector");
  ("^/v1/credential-templates/[^/]+/activate$",
   [("POST", "credential-template:activate")], "credential-template");
  ("^/v1/credential-templates/[^/]+/deprecate$",
   [("POST", "credential-template:deprecate")], "credential-template");
  ("^/v1/credential-templates/[^/]+/new-version$",
   [("POST", "credential-template:version")], "credential-template");
  ("^/v1/revocation-profiles/[^/]+/activate$",
   [("POST", "revocation-profile:activate")], "revocation-profile");
  ("^/v1/issued-credentials/[^/]+/(revoke|suspend|reinstate)$",
   [("POST", "issuance:revoke")], "issued-credential");
  ("^/v1/issued-credentials/[^/]+/renew$",
   [("POST", "issuance:initiate")], "issued-credential");
  ("^/v1/issued-credentials(?:/[^/]+)?$",
   [("GET", "issuance:view"); ("HEAD", "issuance:view"); ("OPTIONS", "issuance:view")], "issued-credential");
  ("^/v1/issuance/didcomm/deliver$",
   [("POST", "issuance:initiate")], "issuance");
  ("^/v1/issuance/[^/]+/revocation-status$",
   [("GET", "issuance:view"); ("HEAD", "issuance:view"); ("OPTIONS", "issuance:view")], "issuance");
  ("^/v1/issuance/[^/]+/revoke$",
   [("POST", "issuance:revoke")], "issued-credential");
  ("^/v1/issuance(?:/[^/]+)?$",
   [("GET", "issuance:view"); ("POST", "issuance:initiate"); ("HEAD", "issuance:view");
    ("OPTIONS", "issuance:view")], "issuance");
  ("^/v1/organizations/[^/]+/dashboard/applicant-stats$",
   [("GET", "application:review")], "application");
  ("^/v1/organizations/[^/]+/applicants(?:/[^/]+)?/issue$",
   [("POST", "issuance:initiate")], "application");
  ("^/v1/organizations/[^/]+/applicants/[^/]+/approve$",
   [("POST", "application:approve")], "application");
  ("^/v1/organizations/[^/]+/applicants/[^/]+/reject$",
   [("POST", "application:reject")], "application");
  ("^/v1/organizations/[^/]+/applicants(?:/.*)?$",
   [("GET", "application:review"); ("POST", "application:review"); ("PATCH", "application:review");
    ("DELETE", "application:review"); ("HEAD", "application:review");
    ("OPTIONS", "application:review")], "application");
  ("^/v1/flows/verify$",
   [("POST", "verification:execute")], "verification");
  ("^/v1/flows/definitions/[^/]+/activate$",
   [("POST", "flow-definition:activate")], "flow-definition");
  ("^/v1/flows/instances(?:/[^/]+)?(?:/advance)?$",
   [("GET", "flow-instance:view"); ("POST", "flow-instance:start"); ("HEAD", "flow-instance:view");
    ("OPTIONS", "flow-instance:view")], "flow-instance");
  ("^/v1/flows/definitions(?:/[^/]+)?(?:/activate)?$",
   [("GET", "flow-definition:view"); ("POST", "flow-definition:create"); ("PUT", "flow-definition:edit");
    ("PATCH", "flow-definition:edit"); ("DELETE", "flow-definition:delete")], "flow-definition");
  ("^/v1/organizations/" +:+ _UUID_RE +:+ "/transfer-ownership$",
   [("POST", "organization:transfer-ownership")], "organization");
  ("^/v1/organizations/" +:+ _UUID_RE +:+ "/members/me/permissions$",
   [("GET", "organization:view")], "organization");
  ("^/v1/organizations/" +:+ _UUID_RE +:+ "/members/[^/]+/roles(?:/[^/]+)?$",
   [("PUT", "role:assign"); ("POST", "role:assign"); ("DELETE", "role:assign")], "role");
  ("^/v1/organizations/" +:+ _UUID_RE +:+ "/roles(?:/[^/]+)?$",
   [("GET", "role:view"); ("POST", "role:create"); ("PUT", "role:edit"); ("PATCH", "role:edit");
    ("DELETE", "role:delete")], "role");
  ("^/v1/organizations/" +:+ _UUID_RE +:+ "/permissions$",
   [("GET", "role:view")], "role");
  ("^/v1/organizations/" +:+ _UUID_RE +:+ "/members(?:/[^/]+)?$",
   [("GET", "team:view"); ("POST", "team:invite"); ("PUT", "team:manage"); ("PATCH", "team:manage");
    ("DELETE", "team:manage")], "team");
  ("^/v1/organizations/" +:+ _UUID_RE +:+ "/api-keys(?:/[^/]+)?$",
   [("GET", "api-key:view"); ("POST", "api-key:create"); ("PUT", "api-key:edit"); ("PATCH", "api-key:edit");
    ("DELETE", "api-key:revoke")], "api-key");
  ("^/v1(?:/organizations/" +:+ _UUID_RE +:+ ")?/policy-sets/[^/]+/activate$",
   [("POST", "policy-set:activate")], "policy-set");
  ("^/v1(?:/organizations/" +:+ _UUID_RE +:+ ")?/policy-sets/[^/]+/archive$",
   [("POST", "policy-set:archive")], "policy-set");
  ("^/v1(?:/organizations/" +:+ _UUID_RE +:+ ")?/policy-sets/validate$",
   [("POST", "policy-set:validate")], "policy-set");
  ("^/v1(?:/organizations/" +:+ _UUID_RE +:+ ")?/policy-sets/[^/]+/validate$",
   [("POST", "policy-set:validate")], "policy-set");
  ("^/v1/organizations/" +:+ _UUID_RE +:+ "/lifecycle$",
   [("GET", "organization:view")], "organization");
  ("^/v1/organizations/" +:+ _UUID_RE +:+ "/audit-events/export$",
   [("GET", "audit:export")], "audit");
  ("^/v1/organizations/" +:+ _UUID_RE +:+ "/audit-events(?:/[^/]+)?$",
   [("GET", "audit:view")], "audit");
  ("^/v1/organizations/" +:+ _UUID_RE +:+ "/scim/v2/Users(?:/[^/]+)?$",
   [("GET", "team:view"); ("POST", "team:invite"); ("PUT", "team:manage"); ("PATCH", "team:manage");
    ("DELETE", "team:manage")], "team");
  ("^/v1/organizations/" +:+ _UUID_RE +:+ "/scim/v2/Groups(?:/[^/]+)?$",
   [("GET", "role:view"); ("POST", "role:create"); ("PUT", "role:edit"); ("PATCH", "role:edit");
    ("DELETE", "role:delete")], "role");
  ("^/v1/organizations/" +:+ _UUID_RE +:+ "/scim/v2/(ServiceProviderConfig|Schemas|ResourceTypes)$",
   [("GET", "organization:view")], "organization")].

Definition GENERIC_RESOURCE_MAP : pydict (string * string) := [
  ("credential-templates", ("credential-template", "credential-template"));
  ("trust-profiles", ("trust-profile", "trust-profile"));
  ("issuer-entities", ("trusted-issuer", "issuer-entity"));
  ("compliance-profiles", ("compliance-profile", "compliance-profile"));
  ("presentation-policies", ("presentation-policy", "presentation-policy"));
  ("revocation-profiles", ("revocation-profile", "revocation-profile"));
  ("deployment-profiles", ("deployment-profile", "deployment-profile"));
  ("flows", ("flow-definition", "flow-definition"));
  ("flow-instances", ("flow-instance", "flow-instance"));
  ("application-templates", ("application-template", "application-template"));
  ("verification", ("verification", "verification"));
  ("integrations", ("integration-connector", "integration-connector"));
  ("policy-sets", ("policy-set", "policy-set"))].

(** ** Permissions *)

Definition _resolve_generic_org_permission (method segment : string) : option (string * string) :=
  match dget segment GENERIC_RESOURCE_MAP with
  | None => None
  | Some (permission_resource, resource_name) =>
      let normalized_method := str_upper method in
      let needs action := Some (permission_resource +:+ ":" +:+ action, resource_name) in
      if mem normalized_method ["GET"; "HEAD"; "OPTIONS"] then needs "view"
      else if String.eqb normalized_method "POST"
      then if String.eqb permission_resource "verification" then needs "execute"
           else if String.eqb permission_resource "flow-instance" then needs "start"
           else needs "create"
      else if mem normalized_method ["PUT"; "PATCH"]
      then if String.eqb permission_resource "verification" then needs "execute" else needs "edit"
      else if String.eqb normalized_method "DELETE" then needs "delete"
      else None
  end.

(** The first rule whose pattern matches decides. *)
Fixpoint special_rule (rules : list (string * pydict string * string)) (path : string) : option (pydict string * string) :=
  match rules with
  | [] => None
  | (pattern, method_map, resource_name) :: rules =>
      if matches (compile pattern) path then Some (method_map, resource_name) else special_rule rules path
  end.

Definition resolve_action_and_resource (method path : string) : option (string * string) :=
  match special_rule SPECIAL_ROUTE_RULES path with
  | Some (method_map, resource_name) =>
      match dget (str_upper method) method_map with
      | Some permission_key => if String.eqb permission_key "" then None else Some (permission_key, resource_name)
      | None => None
      end
  | None =>
      match match_groups (compile ("^/v1/organizations/" +:+ _UUID_RE +:+ "/([^/]+)")) path with
      | Some groups => _resolve_generic_org_permission method (nth 1 groups "")
      | None =>
          match match_groups (compile "^/v1/([^/]+)(?:/|$)") path with
          | Some groups => _resolve_generic_org_permission method (nth 0 groups "")
          | None => None
          end
      end
  end.

Definition resolve_action (method path : string) : option string := option_map fst (resolve_action_and_resource method path).

(** ** Organisations and owners *)

Definition _ORG_PATH_RE : string := "^/v1/organizations/" +:+ _UUID_RE +:+ "(?:/|$)".

Definition extract_org_id (path : string) : option string :=
  if matches (compile _ORG_PATH_RE) path
  then match match_groups (compile ("^/v1/organizations/" +:+ _UUID_RE)) path with
       | Some groups => Some (nth 0 groups "")
       | None => None
       end
  else None.

Definition _TOP_LEVEL_RESOURCE_RE : string := "^/v1/([^/]+)/([^/]+)(?:/|$)".
Definition _FLOW_RESOURCE_RE : string := "^/v1/flows/(definitions|instances)/([^/]+)(?:/|$)".
Definition _CANVAS_PLATFORM_RESOURCE_RE : string := "^/v1/integrations/canvas/platforms/([^/]+)(?:/|$)".
Definition _CANVAS_BINDING_RESOURCE_RE : string := "^/v1/integrations/canvas/program-bindings/([^/]+)(?:/|$)".

(** The service and the path at which it answers for the resource. *)
Definition resolve_resource_lookup (path : string) : option (string * string) :=
  match match_groups (compile _CANVAS_PLATFORM_RESOURCE_RE) path with
  | Some groups => Some ("issuance", "/v1/integrations/canvas/platforms/" +:+ nth 0 groups "")
  | None =>
  match match_groups (compile _CANVAS_BINDING_RESOURCE_RE) path with
  | Some groups => Some ("issuance", "/v1/integrations/canvas/program-bindings/" +:+ nth 0 groups "")
  | None =>
  match match_groups (compile _FLOW_RESOURCE_RE) path with
  | Some groups => Some ("flows", "/v1/flows/" +:+ nth 0 groups "" +:+ "/" +:+ nth 1 groups "")
  | None =>
  match match_groups (compile _TOP_LEVEL_RESOURCE_RE) path with
  | Some groups =>
      match dget (nth 0 groups "") RESOURCE_LOOKUP_MAP with
      | Some (service_name, lookup_template, reserved_segments) =>
          if mem (nth 1 groups "") reserved_segments then None
          else Some (service_name, str_replace "{resource_id}" (nth 1 groups "") lookup_template)
      | None => None
      end
  | None => None
  end end end end.

(** ** Theorems *)

(** Every pattern is a regular expression. *)
Lemma rules_parse : forallb (fun '(p, _, _) => opt_is_some (parse p)) SPECIAL_ROUTE_RULES = true.
Proof. vm_compute. reflexivity. Qed.

(** *** The organisation of a path *)

Definition uuid_char (c : ascii) : bool := in_range "a" "f" c || (in_range "0" "9" c || (Ascii.eqb "-" c || false)).

(** Lower-case digits and dashes; nothing more is asked of an identifier. *)
Definition uuid_shaped (id : string) : Prop := String.length id = 36%nat /\ all_chars uuid_char id = true.

Definition segment_end (rest : string) : Prop := at_end rest = true \/ startswith "/" rest = true.

Lemma org_prefix_compiled : compile ("^/v1/organizations/" +:+ _UUID_RE) =
  Seq Empty (literal "/v1/organizations/" (Seq (Group (Seq (repeat_class 36 uuid_char) Empty)) Empty)).
Proof. reflexivity. Qed.
Lemma org_path_compiled : compile _ORG_PATH_RE =
  Seq Empty (literal "/v1/organizations/" (Seq (Group (Seq (repeat_class 36 uuid_char) Empty))
    (Seq (Alt (Seq (lit "/") Empty) (Seq AtEnd Empty)) Empty))).
Proof. reflexivity. Qed.

Lemma segment_end_run {R} rest g (k : string -> list string -> option R) :
  (forall s, k s g <> None) ->
  run (Alt (Seq (lit "/") Empty) (Seq AtEnd Empty)) rest g k <> None <-> segment_end rest.
Proof.
  intros Hk. unfold segment_end, lit. cbn [run]. destruct rest as [|c rest].
  - cbn. split; [by left|]. intros _. apply Hk.
  - change (startswith "/" (String c rest)) with (if ascii_dec "/" c then String.prefix "" rest else false).
    destruct (Ascii.eqb_spec "/" c) as [<-|Hne].
    + destruct (ascii_dec "/" "/"); [|done]. split; [intros _; right; by destruct rest|].
      intros _. specialize (Hk rest). by destruct (k rest g).
    + destruct (ascii_dec "/" c); [done|]. destruct (at_end (String c rest)).
      * split; [by left|]. intros _. apply Hk.
      * split; [intros Hn; by destruct Hn|by intros [?|?]].
Qed.

(** The organisation of a path is the identifier right after the prefix, when it
    has the shape of a UUID in lower case and the segment ends with it. *)
Theorem extract_org_id_iff path id : extract_org_id path = Some id <->
  exists rest, path = "/v1/organizations/" +:+ id +:+ rest /\ uuid_shaped id /\ segment_end rest.
Proof.
  unfold extract_org_id, matches, match_groups. rewrite org_prefix_compiled, org_path_compiled.
  cbn [run]. rewrite !run_literal.
  destruct (strip_prefix "/v1/organizations/" path) as [rest|] eqn:Ep.
  2: { split; [done|]. intros (rest & -> & _). by rewrite (proj2 (strip_prefix_some _ _ _) eq_refl) in Ep. }
  apply strip_prefix_some in Ep as ->. cbn [run]. rewrite !run_repeat.
  destruct (take_class 36 uuid_char rest) as [[t s']|] eqn:Et.
  2: { split; [done|]. intros (rest' & Hp & [Hl Ha] & _). apply strip_prefix_some in Hp.
       rewrite (proj2 (strip_prefix_some _ _ _) eq_refl) in Hp. injection Hp as ->.
       by rewrite (proj2 (take_class_some _ _ _ id rest') ltac:(by split)) in Et. }
  apply take_class_some in Et as (-> & Hl & Ha). rewrite consumed_app. cbn [app nth].
  assert (Hsame : forall rest', "/v1/organizations/" +:+ (t +:+ s') = "/v1/organizations/" +:+ (id +:+ rest') ->
    uuid_shaped id -> t = id /\ s' = rest').
  { intros rest' Hp Hid. apply strip_prefix_some in Hp. rewrite (proj2 (strip_prefix_some _ _ _) eq_refl) in Hp.
    injection Hp as Hp. assert (Htc : take_class 36 uuid_char (t +:+ s') = Some (id, rest')) by (by apply take_class_some).
    rewrite (proj2 (take_class_some 36 uuid_char (t +:+ s') t s') ltac:(by split)) in Htc. by injection Htc. }
  pose proof (segment_end_run (R:=list string) s' [t] (fun _ g => Some g) ltac:(done)) as Hrun. cbn [run] in Hrun.
  match goal with |- context [opt_is_some ?x] => destruct x as [g|] eqn:E end; simpl.
  - split.
    + intros [= <-]. exists s'. split; [done|]. split; [by split|]. by apply Hrun.
    + intros (rest' & Hp & Hid & _). f_equal. by apply (Hsame rest').
  - split; [done|]. intros (rest' & Hp & Hid & He). exfalso. destruct (Hsame rest' Hp Hid) as [-> ->].
    by apply Hrun in He.
Qed.

(** *** Methods and actions *)

(** The permissions, with their resources, that the rules and the generic mapping
    can ask of a method. *)
Definition rule_permission (method : string) (rule : string * pydict string * string) : option (string * string) :=
  let '(_, method_map, resource_name) := rule in
  match dget method method_map with Some p => Some (p, resource_name) | None => None end.

Definition generic_permission (method : string) (entry : string * (string * string)) : option (string * string) :=
  _resolve_generic_org_permission method (fst entry).

Definition resolvable (method : string) : list (string * string) :=
  omap (rule_permission method) SPECIAL_ROUTE_RULES ++ omap (generic_permission method) GENERIC_RESOURCE_MAP.

Lemma special_rule_in rules path mm res : special_rule rules path = Some (mm, res) -> exists p, In (p, mm, res) rules.
Proof.
  induction rules as [|[[p m] r] rules IH]; simpl; [done|].
  destruct (matches (compile p) path); [intros [= <- <-]; exists p; by left|]. intros (p' & Hin)%IH. exists p'. by right.
Qed.

Lemma generic_in method segment x : _resolve_generic_org_permission method segment = Some x ->
  In x (omap (generic_permission method) GENERIC_RESOURCE_MAP).
Proof.
  intros Hr. pose proof Hr as Hg. unfold _resolve_generic_org_permission in Hr.
  destruct (dget segment GENERIC_RESOURCE_MAP) as [v|] eqn:E; [|done].
  apply list_elem_of_In, list_elem_of_omap. exists (segment, v). split; [apply list_elem_of_In; by apply dget_In|].
  exact Hg.
Qed.

Lemma resolve_in method path m x : str_upper method = m -> str_upper m = m ->
  resolve_action_and_resource method path = Some x -> In x (resolvable m).
Proof.
  intros Hm Hu. assert (Hg : forall segment, _resolve_generic_org_permission method segment = _resolve_generic_org_permission m segment).
  { intros segment. unfold _resolve_generic_org_permission. by rewrite Hm, Hu. }
  unfold resolve_action_and_resource, resolvable. rewrite in_app_iff.
  destruct (special_rule SPECIAL_ROUTE_RULES path) as [[mm res]|] eqn:Es.
  - destruct (special_rule_in _ _ _ _ Es) as [p Hp]. rewrite Hm. destruct (dget m mm) as [perm|] eqn:Ed; [|done].
    destruct (String.eqb perm ""); [done|]. intros [= <-]. left. apply list_elem_of_In, list_elem_of_omap.
    exists (p, mm, res). split; [by apply list_elem_of_In|]. unfold rule_permission. by rewrite Ed.
  - destruct (match_groups _ path) as [g|]; [rewrite Hg; intros Hx; right; by eapply generic_in|].
    destruct (match_groups _ path) as [g|]; [rewrite Hg; intros Hx; right; by eapply generic_in|done].
Qed.

Definition action_of (permission : string) : string := snd (partition_on ":" permission).

Definition reading : list string := ["view"; "review"; "export"].
Definition READ_METHODS : list string := ["GET"; "HEAD"; "OPTIONS"].
Definition CHANGE_METHODS : list string := ["POST"; "PUT"; "PATCH"; "DELETE"].

Lemma resolvable_checked (f : string -> string -> bool) methods method path perm res :
  forallb (fun m => String.eqb (str_upper m) m && forallb (fun x => f m (fst x)) (resolvable m)) methods = true ->
  In (str_upper method) methods -> resolve_action_and_resource method path = Some (perm, res) ->
  f (str_upper method) perm = true.
Proof.
  intros Hall Hin Hr. rewrite forallb_forall in Hall. specialize (Hall _ Hin). apply andb_true_iff in Hall as [Hu Hf].
  apply String.eqb_eq in Hu. rewrite forallb_forall in Hf. by apply (Hf (perm, res)), (resolve_in method path).
Qed.

(** A method that reads needs a permission to view, review or export; one that
    changes something needs such a permission only where it is a POST request that
    views the Canvas integration, or the review of an application. *)
Theorem methods_fit_actions method path perm res : resolve_action_and_resource method path = Some (perm, res) ->
  (In (str_upper method) READ_METHODS -> In (action_of perm) reading) /\
  (In (str_upper method) CHANGE_METHODS -> In (action_of perm) reading ->
    str_upper method = "POST" /\ perm = "integration-connector:view" \/ perm = "application:review").
Proof.
  intros Hr. split.
  - intros Hin. apply (resolvable_checked (fun _ p => mem (action_of p) reading) READ_METHODS) in Hr; [|by vm_compute|done].
    by apply mem_true.
  - intros Hin Ha. apply (resolvable_checked (fun m p => negb (mem (action_of p) reading) ||
      (String.eqb m "POST" && String.eqb p "integration-connector:view" || String.eqb p "application:review")) CHANGE_METHODS) in Hr;
      [|by vm_compute|done].
    apply mem_true in Ha. rewrite Ha in Hr. simpl in Hr. apply orb_true_iff in Hr as [Hr|Hr]; [left|right].
    + apply andb_true_iff in Hr as [H1 H2]. by apply String.eqb_eq in H1, H2.
    + by apply String.eqb_eq in Hr.
Qed.

(** *** Requests without a permission *)

Definition lower_org : string := "/v1/organizations/0a1b2c3d-0000-4000-8000-00000000000f".
Definition upper_org : string := "/v1/organizations/0A1B2C3D-0000-4000-8000-00000000000F".

(** The same request for an organisation needs a permission or none, depending on
    the case of the identifier, a slash at the end, and a method the rule does
    not list. *)
Theorem unresolved_requests :
  resolve_action_and_resource "DELETE" (lower_org +:+ "/api-keys/k") = Some ("api-key:revoke", "api-key") /\
  resolve_action_and_resource "DELETE" (upper_org +:+ "/api-keys/k") = None /\ extract_org_id (upper_org +:+ "/api-keys/k") = None /\
  resolve_action_and_resource "DELETE" (lower_org +:+ "/api-keys/k/") = None /\
  resolve_action_and_resource "GET" (lower_org +:+ "/members") = Some ("team:view", "team") /\
  resolve_action_and_resource "HEAD" (lower_org +:+ "/members") = None.
Proof. vm_compute. repeat split. Qed.

(** What is looked up where. *)
Example flow_owner : resolve_resource_lookup "/v1/flows/instances/7/advance" = Some ("flows", "/v1/flows/instances/7").
Proof. vm_compute. reflexivity. Qed.
Example issuer_owner : resolve_resource_lookup "/v1/issuer-entities/x" =
  Some ("trust-profiles", "/internal/v1/resource-owners/issuer-entities/x").
Proof. vm_compute. reflexivity. Qed.
Example reserved_segment : resolve_resource_lookup "/v1/issuance/token" = None.
Proof. vm_compute. reflexivity. Qed.

Lemma methods_fit_actions_witness :
  (In (str_upper "get") READ_METHODS -> In (action_of "policy-set:view") reading) /\
  (In (str_upper "get") CHANGE_METHODS -> In (action_of "policy-set:view") reading ->
    str_upper "get" = "POST" /\ "policy-set:view" = "integration-connector:view" \/ "policy-set:view" = "application:review").
Proof. apply (methods_fit_actions "get" "/v1/policy-sets/p" _ "policy-set"). by vm_compute. Defined.
