(* ===== verification/CedarMiddleware.v ===== *)
(** * The gateway middleware ([cedar_middleware.py])

    Whether a request of the gateway reaches its route: the paths that are not
    checked, the organisation a request is for, the scopes of an API key and the
    permissions of a member. Routes and permissions are those of [CedarActions.v],
    memberships those of [OrgAuthorization.v]. The service registry, the HTTP
    client, the environment and the files of secrets are parameters; the route
    behind the middleware is [call_next]. *)

From S2P Require Import Prelude PyRuntime PyText PyDate PyInt PyRegex OrgAuthorization CedarActions.
Local Open Scope Z_scope.

(** ** Data *)

(** [request.state]: an attribute nobody has set is [None]. *)
Record RequestState := {
  st_user_id : option string; st_user_email : option string; st_user_domain : option string;
  st_organization_id : option string; st_session_organization_id : option string;
  st_api_key_id : option string; st_api_key_organization_id : option string;
  st_api_key_scopes : option (list string); st_auth_source : option string;
  st_required_permission : option string; st_org_roles : list string;
  st_org_permissions : list string; st_org_resource : option string }.

(** A request with the state of its application. Header names are in lower case;
    [request_json] is what [request.json()] returns or raises. *)
Record Request := {
  method : string; url_path : string; header : string -> option string;
  query_params : string -> option string; request_json : result json; state : RequestState;
  service_registry : option (string -> result (option string));
  http_client : bool; app_org_client : option OrganizationClient }.

Record HttpResponse := { status_code : Z; response_json : result json }.

(** What the middleware gives back: the response of the route, or its own. *)
Inductive reply (R : Type) :=
| Passed (r : R)
| JSONResponse (status_code detail : string).
Arguments Passed {_} _.
Arguments JSONResponse {_} _ _.

(** The environment, the files of secrets and the HTTP client. *)
Class Gateway (W : Type) := {
  getenv : string -> W -> option string;
  read_file : string -> M W string;
  http_get : string -> Q -> pydict string -> M W HttpResponse }.

Definition SKIP_PATTERNS : list string := [
  "^/v1/flows/capabilities$";
  "^/v1/issued-credentials/mine$";
  "^/v1/organizations$";
  "^/v1/organizations/mine$";
  "^/v1/organizations/discover";
  "^/v1/organizations/join/";
  "^/v1/organizations/[^/]+/join$";
  "^/v1/organizations/invitations/";
  "^/v1/organizations/[^/]+/revocation-profiles/[^/]+/status-lists/[^/]+/[^/]+$";
  "^/v1/integrations/canvas/lti/jwks/?$";
  "^/v1/integrations/canvas/lti/config/[^/]+/?$";
  "^/v1/integrations/canvas/lti/platforms/[^/]+/(?:login|experience-login|launch|experience)/?$";
  "^/v1/integrations/canvas/oauth/callback/?$";
  "^/v1/integrations/canvas/lti/experience-sessions/(?:exchange|current(?:/(?:bootstrap|evidence-sync|deep-linking-response))?)/?$";
  "^/health";
  "^/.well-known/"].

Definition skipped (path : string) : bool := existsb (fun pattern => matches (compile pattern) path) SKIP_PATTERNS.

(** Every pattern is a regular expression. *)
Lemma skip_patterns_parse : forallb (fun p => opt_is_some (parse p)) SKIP_PATTERNS = true.
Proof. vm_compute. reflexivity. Qed.

(** ** The scopes of an API key *)

Definition resource_scopes : pydict (string * string) := [
  ("credential-template", ("templates:read", "templates:write"));
  ("application-template", ("applications:read", "applications:write"));
  ("application", ("applications:read", "applications:write"));
  ("trust-profile", ("trust:read", "trust:write"));
  ("trusted-issuer", ("trust:read", "trust:write"));
  ("presentation-policy", ("trust:read", "trust:write"));
  ("compliance-profile", ("compliance:read", "compliance:write"));
  ("deployment-profile", ("deployment:read", "deployment:write"));
  ("webhook", ("webhooks:read", "webhooks:write"));
  ("notification", ("notifications:read", "notifications:send"));
  ("team", ("users:read", "users:invite"));
  ("role", ("roles:read", "roles:write"));
  ("policy-set", ("trust:read", "trust:admin"));
  ("organization", ("users:read", "users:invite"));
  ("integration-connector", ("integrations:read", "integrations:write"))].

Definition has_any (scope_set wanted : list string) : bool := existsb (fun s => mem s scope_set) wanted.

Definition _api_key_allowed (required_permission : string) (scope_set : list string) : bool :=
  if mem "admin:full" scope_set then true else
  let '(resource, action) := partition_on ":" required_permission in
  let read_action := mem action ["view"; "read"; "list"] in
  let write_action := mem action ["create"; "edit"; "delete"; "write"; "activate"; "archive"; "validate"] in
  if String.eqb resource "flow-instance" then has_any scope_set ["flows:execute"; "flows:write"]
  else if String.eqb resource "flow-definition"
  then if read_action then has_any scope_set ["flows:read"; "flows:write"; "flows:execute"]
       else mem "flows:write" scope_set
  else if String.eqb resource "api-key" then false
  else if String.eqb resource "verification" then has_any scope_set ["flows:execute"; "credentials:read"]
  else if String.eqb resource "issued-credential"
  then if mem action ["issue"; "create"] then mem "credentials:issue" scope_set
       else if mem action ["revoke"; "delete"] then mem "credentials:revoke" scope_set
       else has_any scope_set ["credentials:read"; "credentials:issue"]
  else if String.eqb resource "issuance"
  then if String.eqb action "initiate" then mem "credentials:issue" scope_set
       else if String.eqb action "revoke" then mem "credentials:revoke" scope_set
       else has_any scope_set ["credentials:read"; "credentials:issue"]
  else match dget resource resource_scopes with
  | None => false
  | Some (read_scope, write_scope) =>
      if read_action then has_any scope_set [read_scope; write_scope]
      else if write_action then mem write_scope scope_set
      else false
  end.

(** ** The middleware *)

Definition add_header (name : string) (value : option string) (headers : pydict string) : pydict string :=
  if str_truthy value then dset name (default "" value) headers else headers.

Definition unavailable_owner : exn := http "503" "Resource owner lookup unavailable".
Definition failed_lookup : exn := http "502" "Resource owner lookup failed".

Definition set_state (s : RequestState) (rq : Request) : Request := {|
  method := method rq; url_path := url_path rq; header := header rq; query_params := query_params rq;
  request_json := request_json rq; state := s; service_registry := service_registry rq;
  http_client := http_client rq; app_org_client := app_org_client rq |}.

(** The attributes an authorized request carries on to its route. *)
Definition stamp (org_id required_permission : string) (org_roles org_permissions : list string) (resource_name : string)
    (rq : Request) : Request :=
  let s := state rq in
  set_state {|
    st_user_id := st_user_id s; st_user_email := st_user_email s; st_user_domain := st_user_domain s;
    st_organization_id := Some org_id; st_session_organization_id := st_session_organization_id s;
    st_api_key_id := st_api_key_id s; st_api_key_organization_id := st_api_key_organization_id s;
    st_api_key_scopes := st_api_key_scopes s; st_auth_source := st_auth_source s;
    st_required_permission := Some required_permission; st_org_roles := org_roles;
    st_org_permissions := org_permissions; st_org_resource := Some resource_name |} rq.

Section middleware.
Context {W : Type} `{Gateway W, RedisClient W, OrganizationServiceStub W, MembershipJson}.

Definition _read_secret_value (name : string) : M W string :=
  direct ← gets (getenv name);
  if str_truthy direct then mret (default "" direct) else
  file_path ← gets (getenv (name +:+ "_FILE"));
  if negb (str_truthy file_path) then mret "" else
  try_class OSError (contents ← read_file (default "" file_path); mret (strip contents)) (fun _ => mret "").

Definition _forward_headers (rq : Request) (service_name : option string) : M W (pydict string) :=
  let s := state rq in
  let scopes := match st_api_key_scopes s with
                | Some (_ :: _ as l) => Some (String.concat "," l) | _ => None end in
  let headers :=
    add_header "Authorization" (header rq "authorization")
    ((match scopes with Some v => dset "X-Api-Key-Scopes" v | None => id end)
    (add_header "X-Api-Key-Id" (st_api_key_id s)
    (add_header "X-Organization-ID" (st_organization_id s)
    (add_header "X-User-Domain" (st_user_domain s)
    (add_header "X-User-Email" (st_user_email s)
    (add_header "X-User-Id" (st_user_id s) [])))))) in
  let with_key name := key ← _read_secret_value name; mret (add_header "X-API-Key" (Some key) headers) in
  if bool_decide (service_name = Some "issuance") then with_key "ISSUANCE_API_KEY"
  else if bool_decide (service_name = Some "trust-profiles") then with_key "SIGNING_KEYS_INTERNAL_API_KEY"
  else mret headers.

Definition _extract_body_org_id (rq : Request) : M W (option string) :=
  if negb (mem (str_upper (method rq)) ["POST"; "PUT"; "PATCH"; "DELETE"]) then mret None else
  let content_type := str_lower (strip (fst (partition_on ";" (default "" (header rq "content-type"))))) in
  if negb (mem content_type ["application/json"; "application/scim+json"]) then mret None else
  payload ← try_except (payload ← lift (request_json rq); mret (Some payload)) (fun _ => mret None);
  match payload with
  | Some (JDict d) =>
      match dget "organization_id" d with
      | Some (JStr org_id) => mret (if String.eqb org_id "" then None else Some org_id)
      | _ => mret None
      end
  | _ => mret None
  end.

(** The body of the service's answer. *)
Definition owner_of_payload (payload : json) : M W (option string) :=
  let org_id := match payload with JDict d => dget "organization_id" d | _ => None end in
  let normalized_org_id := match org_id with Some (JStr s) => strip s | _ => "" end in
  if String.eqb normalized_org_id "" then raise failed_lookup else mret (Some normalized_org_id).

Definition owner_of_response (response : HttpResponse) : M W (option string) :=
  if status_code response =? 404 then raise (http "404" "Resource not found")
  else if status_code response =? 403 then raise (http "403" "Resource access denied")
  else if 400 <=? status_code response then raise failed_lookup
  else
    payload ← try_except (lift (response_json response)) (fun _ => raise failed_lookup);
    owner_of_payload payload.

Definition _lookup_resource_org_id (rq : Request) (path required_permission : string) : M W (option string) :=
  match resolve_resource_lookup path with
  | None => mret None
  | Some (service_name, lookup_path) =>
      match service_registry rq with
      | Some get_service_url =>
          if negb (http_client rq) then raise unavailable_owner else
          service_url ← try_except (lift (get_service_url service_name)) (fun _ => raise unavailable_owner);
          if negb (str_truthy service_url) then raise unavailable_owner else
          headers ← _forward_headers rq (Some service_name);
          response ← try_except
            (http_get (default "" service_url +:+ lookup_path) 10 (dset "X-Required-Permission" required_permission headers))
            (fun _ => raise unavailable_owner);
          owner_of_response response
      | None => raise unavailable_owner
      end
  end.

Definition _resolve_request_org_id (rq : Request) (path required_permission : string) : M W (option string) :=
  let org_id := extract_org_id path in
  if str_truthy org_id then mret org_id else
  org_id ← _lookup_resource_org_id rq path required_permission;
  if str_truthy org_id then mret org_id else
  let query_org_id := query_params rq "organization_id" in
  if str_truthy query_org_id then mret query_org_id else
  body_org_id ← _extract_body_org_id rq;
  if str_truthy body_org_id then mret body_org_id else
  let s := state rq in
  let state_org_id := str_or (str_or (st_organization_id s) (st_session_organization_id s)) (st_api_key_organization_id s) in
  mret (if str_truthy state_org_id then state_org_id else None).

Section dispatch.
Context {R : Type} (call_next : Request -> M W R).

Definition pass (rq : Request) : M W (reply R) := response ← call_next rq; mret (Passed response).
Definition deny (status detail : string) : M W (reply R) := mret (JSONResponse status detail).
Definition exception_reply (exc : exn) : reply R :=
  JSONResponse (default "" (dget "status_code" (exn_attrs exc))) (exn_message exc).

(** The branch of a request with an API key. *)
Definition dispatch_api_key (rq : Request) (required_permission resource_name org_id : string) : M W (reply R) :=
  let s := state rq in
  if negb (bool_decide (st_api_key_organization_id s = Some org_id))
  then deny "403" "API key does not have access to this organization" else
  let api_key_scopes := default [] (st_api_key_scopes s) in
  if negb (_api_key_allowed required_permission api_key_scopes)
  then deny "403" ("API key missing required permission: " +:+ required_permission)
  else pass (stamp org_id required_permission ["api_key"] (py_sorted api_key_scopes) resource_name rq).

Definition permits (m : OrganizationMembership) (required_permission : string) : bool :=
  if String.eqb required_permission "organization:transfer-ownership" then is_owner m
  else has_permission m required_permission None.

(** The branch of a user. *)
Definition dispatch_member (rq : Request) (required_permission resource_name org_id : string) : M W (reply R) :=
  if negb (str_truthy (st_user_id (state rq))) then deny "401" "Authentication required" else
  match app_org_client rq with
  | None => deny "500" "Organization client not configured"
  | Some org_client =>
      answer ← try_except
        (m ← get_membership org_client (default "" (st_user_id (state rq))) org_id; mret (inl m))
        (fun exc => mret (inr (if isinstance exc HTTPException then exception_reply exc
                               else JSONResponse "500" "Internal server error")));
      match answer with
      | inr response => mret response
      | inl None => deny "403" "Not a member of this organization"
      | inl (Some m) =>
          if negb (is_active m) then deny "403" ("Organization membership is " +:+ status m)
          else if negb (permits m required_permission) then deny "403" "Action not authorized"
          else pass (stamp org_id required_permission (py_sorted (elements (role_names m)))
                       (py_sorted (elements (permissions m))) resource_name rq)
      end
  end.

Definition dispatch (rq : Request) : M W (reply R) :=
  let path := url_path rq in
  if skipped path then pass rq else
  match resolve_action_and_resource (method rq) path with
  | None => pass rq
  | Some (required_permission, resource_name) =>
      answer ← try_class HTTPException
        (org_id ← _resolve_request_org_id rq path required_permission; mret (inl org_id))
        (fun exc => mret (inr (exception_reply exc)));
      match answer with
      | inr response => mret response
      | inl org_id =>
          if negb (str_truthy org_id) then pass rq
          else if bool_decide (st_auth_source (state rq) = Some "api_key")
          then dispatch_api_key rq required_permission resource_name (default "" org_id)
          else dispatch_member rq required_permission resource_name (default "" org_id)
      end
  end.
End dispatch.
End middleware.

(** ** Theorems *)

(** *** The scopes of a key *)

(** The scopes the table and the rules name. *)
Definition known_scopes : list string :=
  ["admin:full"; "flows:read"; "flows:write"; "flows:execute"; "credentials:read"; "credentials:issue"; "credentials:revoke"] ++
  flat_map (fun entry => [fst (snd entry); snd (snd entry)]) resource_scopes.

Definition read_scopes : list string := lfilter (fun s => String.eqb (snd (partition_on ":" s)) "read") known_scopes.

(** [l'] grants the scopes of [known_scopes] that [l] grants. *)
Definition grants_more (l l' : list string) : Prop := forall s, In s known_scopes -> mem s l = true -> mem s l' = true.

Lemma has_any_more wanted l l' : grants_more l l' -> forallb (fun s => mem s known_scopes) wanted = true ->
  has_any l wanted = true -> has_any l' wanted = true.
Proof.
  intros Hm Hw. unfold has_any. rewrite !existsb_exists, forallb_forall in *. intros (s & Hin & Hs).
  exists s. split; [done|]. apply Hm; [|done]. by apply mem_true, Hw.
Qed.

Lemma mem_more s l l' : grants_more l l' -> mem s known_scopes = true -> mem s l = true -> mem s l' = true.
Proof. intros Hm Hs. apply Hm. by apply mem_true. Qed.

Lemma scopes_known resource r w : dget resource resource_scopes = Some (r, w) ->
  mem r known_scopes = true /\ mem w known_scopes = true.
Proof.
  intros Hd%dget_In. assert (Hin : forall s, s = r \/ s = w -> In s known_scopes).
  { intros s Hs. unfold known_scopes. apply in_app_iff. right. apply in_flat_map. exists (resource, (r, w)). split; [done|].
    simpl. naive_solver. }
  rewrite !mem_true. auto.
Qed.

(** More scopes never allow less. *)
Lemma api_key_allowed_mono perm l l' : grants_more l l' -> _api_key_allowed perm l = true -> _api_key_allowed perm l' = true.
Proof.
  intros Hm. unfold _api_key_allowed. destruct (mem "admin:full" l) eqn:Ea.
  { by rewrite (mem_more "admin:full" l l' Hm eq_refl Ea). }
  destruct (mem "admin:full" l'); [done|]. destruct (partition_on ":" perm) as [resource action].
  repeat case_match; try done; try (by apply has_any_more); try (by apply mem_more).
  all: match goal with E : dget _ resource_scopes = _ |- _ => destruct (scopes_known _ _ _ E) as [Hr Hw] end.
  - apply has_any_more; [done|]. simpl. by rewrite Hr, Hw.
  - by apply mem_more.
Qed.

(** A key whose scopes all read, as [credentials:read] does, never allows a
    request that changes something, but for three permissions: the two requests
    to Canvas that only view, and executing or deleting a verification. *)
Theorem read_keys_change_nothing method path perm res scopes :
  resolve_action_and_resource method path = Some (perm, res) -> In (str_upper method) CHANGE_METHODS ->
  (forall s, In s scopes -> snd (partition_on ":" s) = "read") -> _api_key_allowed perm scopes = true ->
  In perm ["integration-connector:view"; "verification:execute"; "verification:delete"].
Proof.
  intros Hr Hin Hs Ha. assert (Hm : grants_more scopes read_scopes).
  { intros s Hk Hsc. apply mem_true in Hsc. apply mem_true, lfilter_In. split; [done|]. by apply String.eqb_eq, Hs. }
  apply (api_key_allowed_mono _ _ _ Hm) in Ha.
  apply (resolvable_checked (fun _ p => negb (_api_key_allowed p read_scopes) ||
    mem p ["integration-connector:view"; "verification:execute"; "verification:delete"]) CHANGE_METHODS) in Hr;
    [|by vm_compute|done].
  rewrite Ha in Hr. by apply mem_true.
Qed.

(** The permissions that routes ask for and that only the scope [admin:full] grants. *)
Definition admin_only : list string :=
  ["api-key:view"; "api-key:create"; "api-key:edit"; "api-key:revoke"; "audit:export"; "audit:view";
   "revocation-profile:view"; "revocation-profile:create"; "revocation-profile:edit"; "revocation-profile:activate";
   "revocation-profile:delete"; "credential-template:deprecate"; "credential-template:version";
   "application:approve"; "application:reject"; "application:review"; "organization:transfer-ownership";
   "team:invite"; "team:manage"; "role:assign"].

Definition every_scope : list string := lfilter (fun s => negb (String.eqb s "admin:full")) known_scopes.

(** Which permissions of routes need the scope [admin:full]; inviting to a team is
    one of them, whatever the scope [users:invite] says. *)
Theorem admin_only_iff method path perm res : resolve_action_and_resource method path = Some (perm, res) ->
  In (str_upper method) (READ_METHODS ++ CHANGE_METHODS) ->
  In perm admin_only <-> forall scopes, _api_key_allowed perm scopes = true -> In "admin:full" scopes.
Proof.
  intros Hr Hin.
  apply (resolvable_checked (fun _ p => eqb (_api_key_allowed p every_scope) (negb (mem p admin_only)))
    (READ_METHODS ++ CHANGE_METHODS)) in Hr; [|by vm_compute|done]. apply eqb_prop in Hr.
  split.
  - intros Hp%mem_true scopes Ha. rewrite Hp in Hr. destruct (mem "admin:full" scopes) eqn:Ef; [by apply mem_true|].
    apply (api_key_allowed_mono _ _ every_scope) in Ha; [by rewrite Hr in Ha|].
    intros s Hk Hs. apply mem_true, lfilter_In. split; [done|]. apply negb_true_iff, String.eqb_neq. intros ->. by rewrite Ef in Hs.
  - intros Hall. destruct (mem perm admin_only) eqn:E; [by apply mem_true|]. simpl in Hr.
    specialize (Hall every_scope Hr). apply mem_true in Hall. by vm_compute in Hall.
Qed.

(** *** Which requests reach their route *)

Section mediation.
Context {W : Type} `{Gateway W, RedisClient W, OrganizationServiceStub W, MembershipJson}.

(** The request needs a permission on a resource, for what [_resolve_request_org_id]
    answers. *)
Definition needs (rq : Request) (w : W) (perm res : string) (org : option string) (w1 : W) : Prop :=
  skipped (url_path rq) = false /\ resolve_action_and_resource (method rq) (url_path rq) = Some (perm, res) /\
  _resolve_request_org_id rq (url_path rq) perm w = (Ok org, w1).

(** The reasons to call the route, with the request and the world it is called
    with. *)
Inductive cleared (rq : Request) (w : W) : Request -> W -> Prop :=
| cleared_skipped : skipped (url_path rq) = true -> cleared rq w rq w
| cleared_unresolved : resolve_action_and_resource (method rq) (url_path rq) = None -> cleared rq w rq w
| cleared_unowned perm res org w1 : needs rq w perm res org w1 -> str_truthy org = false -> cleared rq w rq w1
| cleared_key perm res org w1 scopes : needs rq w perm res (Some org) w1 -> org <> "" ->
    st_auth_source (state rq) = Some "api_key" -> st_api_key_organization_id (state rq) = Some org ->
    scopes = default [] (st_api_key_scopes (state rq)) -> _api_key_allowed perm scopes = true ->
    cleared rq w (stamp org perm ["api_key"] (py_sorted scopes) res rq) w1
| cleared_member perm res org w1 user cl m w2 : needs rq w perm res (Some org) w1 -> org <> "" ->
    st_auth_source (state rq) <> Some "api_key" -> st_user_id (state rq) = Some user -> user <> "" ->
    app_org_client rq = Some cl -> get_membership cl user org w1 = (Ok (Some m), w2) -> is_active m = true ->
    permits m perm = true ->
    cleared rq w (stamp org perm (py_sorted (elements (role_names m))) (py_sorted (elements (permissions m))) res rq) w2.

(** A computation that has nothing to do with the route. *)
Definition without_route {R} (o : result (reply R) * W) : Prop := match fst o with Ok (Passed _) => False | _ => True end.

Lemma str_truthy_some s : str_truthy s = true -> exists x, s = Some x /\ x <> "".
Proof. destruct s as [x|]; simpl; [|done]. rewrite negb_true_iff. intros ?%String.eqb_neq. eauto. Qed.

Lemma key_mediation {R} (rq : Request) w w1 perm res org : needs rq w perm res (Some org) w1 -> org <> "" ->
  st_auth_source (state rq) = Some "api_key" ->
  (exists rq', cleared rq w rq' w1 /\
     forall call_next : Request -> M W R, dispatch_api_key call_next rq perm res org w1 = pass call_next rq' w1) \/
  (exists o : result (reply R) * W, without_route o /\ forall call_next, dispatch_api_key call_next rq perm res org w1 = o).
Proof.
  intros Hn Ho Hs. unfold dispatch_api_key, deny. case_bool_decide as Hk; simpl.
  - destruct (_api_key_allowed perm _) eqn:Ea; simpl.
    + left. eexists. split; [by eapply cleared_key|done].
    + right. by eexists (Ok (JSONResponse _ _), w1).
  - right. by eexists (Ok (JSONResponse _ _), w1).
Qed.

Lemma member_mediation {R} (rq : Request) w w1 perm res org : needs rq w perm res (Some org) w1 -> org <> "" ->
  st_auth_source (state rq) <> Some "api_key" ->
  (exists rq' w2, cleared rq w rq' w2 /\
     forall call_next : Request -> M W R, dispatch_member call_next rq perm res org w1 = pass call_next rq' w2) \/
  (exists o : result (reply R) * W, without_route o /\ forall call_next, dispatch_member call_next rq perm res org w1 = o).
Proof.
  intros Hn Ho Hs. unfold dispatch_member, deny.
  destruct (str_truthy (st_user_id (state rq))) eqn:Eu; simpl; [|right; by eexists (Ok (JSONResponse _ _), w1)].
  apply str_truthy_some in Eu as (user & Eu & Hu). rewrite Eu. simpl.
  destruct (app_org_client rq) as [cl|] eqn:Ec; [|right; by eexists (Ok (JSONResponse _ _), w1)].
  unfold try_except. unfold mbind, M_bind. destruct (get_membership cl user org w1) as [[[m|]|e] w2] eqn:Em; simpl.
  - destruct (is_active m) eqn:Ea; simpl; [|right; by eexists (Ok (JSONResponse _ _), w2)].
    destruct (permits m perm) eqn:Ep; simpl; [|right; by eexists (Ok (JSONResponse _ _), w2)].
    left. eexists _, w2. split; [by eapply cleared_member|done].
  - right. by eexists (Ok (JSONResponse _ _), w2).
  - destruct (catchable e); simpl; [|right; by exists (Raise e, w2)].
    destruct (isinstance e HTTPException); right; [by exists (Ok (exception_reply e), w2)|].
    by eexists (Ok (JSONResponse _ _), w2).
Qed.

(** C3: Complete mediation: either the request is cleared, and the middleware is the
    route called with the request it is cleared with; or the middleware answers
    itself, or raises, whatever the route is. *)
Theorem gateway_mediation {R} (rq : Request) (w : W) :
  (exists rq' w', cleared rq w rq' w' /\
     forall call_next : Request -> M W R, dispatch call_next rq w = pass call_next rq' w') \/
  (exists o : result (reply R) * W, without_route o /\ forall call_next, dispatch call_next rq w = o).
Proof.
  unfold dispatch. destruct (skipped (url_path rq)) eqn:Es.
  { left. exists rq, w. split; [by apply cleared_skipped|done]. }
  destruct (resolve_action_and_resource (method rq) (url_path rq)) as [[perm res]|] eqn:Er.
  2: { left. exists rq, w. split; [by apply cleared_unresolved|done]. }
  unfold try_class, mbind, M_bind.
  destruct (_resolve_request_org_id rq (url_path rq) perm w) as [[org|e] w1] eqn:Eo; simpl.
  - pose proof (conj Es (conj Er Eo) : needs rq w perm res org w1) as Hn. destruct (str_truthy org) eqn:Et; simpl.
    + apply str_truthy_some in Et as (o & -> & Ho). simpl. case_bool_decide as Hs.
      * destruct (key_mediation (R:=R) rq w w1 perm res o Hn Ho Hs) as [(rq' & ? & ?)|?]; [left; eauto|by right].
      * destruct (member_mediation (R:=R) rq w w1 perm res o Hn Ho Hs) as [(rq' & w2 & ? & ?)|?]; [left; eauto|by right].
    + left. exists rq, w1. split; [by eapply cleared_unowned|done].
  - right. destruct (isinstance e HTTPException);
      [exists (Ok (exception_reply e), w1)|exists (Raise e, w1)]; (split; [exact I|reflexivity]).
Qed.

(** *** The owner of the resource *)

(** A failed look-up: the status is one of four. *)
Definition lookup_error (e : exn) : Prop :=
  exists status detail, e = http status detail /\ In status ["403"; "404"; "502"; "503"].

(** The answer of the service names this organisation. *)
Definition names_owner (response : HttpResponse) (org : option string) : Prop :=
  status_code response < 400 /\ exists d id, response_json response = Ok (JDict d) /\
  dget "organization_id" d = Some (JStr id) /\ org = Some (strip id) /\ strip id <> "".

Ltac is_lookup_error := try intros _; do 2 eexists; split; [reflexivity|simpl; tauto].

Lemma owner_of_payload_spec payload (w : W) : match fst (owner_of_payload payload w) with
  | Ok org => exists d id, payload = JDict d /\ dget "organization_id" d = Some (JStr id) /\ org = Some (strip id) /\ strip id <> ""
  | Raise e => catchable e = true -> lookup_error e
  end.
Proof.
  unfold owner_of_payload. match goal with |- context [String.eqb ?s ""] => destruct (String.eqb_spec s "") as [E|E] end;
    simpl; [is_lookup_error|].
  destruct payload; try done. destruct (dget "organization_id" _) as [[]|] eqn:Ed; try done. eauto 6.
Qed.

Lemma owner_of_response_spec response (w : W) : match fst (owner_of_response response w) with
  | Ok org => names_owner response org
  | Raise e => catchable e = true -> lookup_error e
  end.
Proof.
  unfold owner_of_response, names_owner.
  do 3 (match goal with |- context [if ?b then raise _ else _] => destruct b eqn:? end; [by is_lookup_error|]).
  unfold try_except, lift, mbind, M_bind. destruct (response_json response) as [payload|e].
  - pose proof (owner_of_payload_spec payload w) as Hp. destruct (owner_of_payload payload w) as [[org|e] w']; simpl in *; [|done].
    split; [lia|]. naive_solver.
  - destruct (catchable e) eqn:Ec; simpl; [is_lookup_error|]. by rewrite Ec.
Qed.

Lemma secret_raise name (w w' : W) e : _read_secret_value name w = (Raise e, w') ->
  exists file w1, fst (read_file file w1) = Raise e.
Proof.
  unfold _read_secret_value, try_class, mbind, M_bind, gets. destruct (str_truthy (getenv name w)); [done|].
  destruct (negb _); [done|]. destruct (read_file _ w) as [[contents|e'] w1] eqn:E; [done|].
  destruct (isinstance e' OSError); [done|]. intros [= <- <-]. eexists _, w. by rewrite E.
Qed.

(** The headers fail only as the file of a secret does. *)
Lemma forward_headers_raise (rq : Request) service_name (w w' : W) e :
  _forward_headers rq service_name w = (Raise e, w') -> exists file w1, fst (read_file file w1) = Raise e.
Proof.
  unfold _forward_headers, mbind, M_bind. do 2 (case_bool_decide; [
    match goal with |- context [_read_secret_value ?n w] => destruct (_read_secret_value n w) as [[key|e'] w1] eqn:E end;
    [done|intros [= <- <-]; by eapply secret_raise]|]).
  done.
Qed.

(** The answer comes from the service that the registry names. *)
Definition answered (rq : Request) (service_name lookup_path perm : string) (org : option string) : Prop :=
  exists registry url headers w1 w2 response,
    service_registry rq = Some registry /\ registry service_name = Ok (Some url) /\
    http_get (url +:+ lookup_path) 10 headers w1 = (Ok response, w2) /\
    dget "X-Required-Permission" headers = Some perm /\ names_owner response org.

Lemma lookup_spec (rq : Request) path perm (w : W) service_name lookup_path :
  resolve_resource_lookup path = Some (service_name, lookup_path) ->
  match fst (_lookup_resource_org_id rq path perm w) with
  | Ok org => answered rq service_name lookup_path perm org
  | Raise e => catchable e = true -> lookup_error e \/ exists file w1, fst (read_file file w1) = Raise e
  end.
Proof.
  intros Hl. unfold _lookup_resource_org_id. rewrite Hl. destruct (service_registry rq) as [registry|] eqn:Er.
  2: { intros _. left. by is_lookup_error. }
  destruct (http_client rq); cbn [negb]; [|intros _; left; by is_lookup_error].
  unfold mbind at 1, M_bind at 1, try_except at 1, lift at 1.
  destruct (registry service_name) as [url|e] eqn:Eu.
  2: { destruct (catchable e) eqn:Ec; simpl; [intros _; left; by is_lookup_error|by rewrite Ec]. }
  destruct (str_truthy url) eqn:Et; cbn [negb]; [|intros _; left; by is_lookup_error].
  apply str_truthy_some in Et as (u & -> & _). cbn [default].
  unfold mbind at 1, M_bind at 1. destruct (_forward_headers rq (Some service_name) w) as [[headers|e] w1] eqn:Ef.
  2: { intros _. right. by eapply forward_headers_raise. }
  unfold mbind at 1, M_bind at 1, try_except at 1.
  destruct (http_get _ _ _ w1) as [[response|e] w2] eqn:Eg.
  - pose proof (owner_of_response_spec response w2) as Ho. destruct (owner_of_response response w2) as [[org|e] w3]; simpl in *.
    + exists registry, u, (dset "X-Required-Permission" perm headers), w1, w2, response.
      exact (conj Er (conj Eu (conj Eg (conj (dget_dset_eq _ _ _) Ho)))).
    + auto.
  - destruct (catchable e) eqn:Ec; simpl; [intros _; left; by is_lookup_error|by rewrite Ec].
Qed.

(** C26: Where the resource of a path has an owner to look up, and the path names no
    organisation, the organisation is the one the service answered, and neither
    the query, the body nor the session can put another one in its place; it is
    a failed look-up, or the file of a secret cannot be read, otherwise. *)
Theorem owner_decides_organization (rq : Request) path perm (w : W) service_name lookup_path :
  extract_org_id path = None -> resolve_resource_lookup path = Some (service_name, lookup_path) ->
  match fst (_resolve_request_org_id rq path perm w) with
  | Ok org => answered rq service_name lookup_path perm org
  | Raise e => catchable e = true -> lookup_error e \/ exists file w1, fst (read_file file w1) = Raise e
  end.
Proof.
  intros Hp Hl. unfold _resolve_request_org_id. rewrite Hp. cbn [str_truthy]. unfold mbind at 1, M_bind at 1.
  pose proof (lookup_spec rq path perm w _ _ Hl) as Hs.
  destruct (_lookup_resource_org_id rq path perm w) as [[org|e] w1]; [|exact Hs].
  assert (Ht : str_truthy org = true).
  { destruct Hs as (? & ? & ? & ? & ? & ? & _ & _ & _ & _ & _ & d & id & _ & _ & -> & Hne). simpl. by apply negb_true_iff, String.eqb_neq. }
  rewrite Ht. exact Hs.
Qed.
End mediation.

(** ** Runs *)

Module Demo.
Import OrgAuthorization.Demo.

(** The policy service names the owner of policy "p"; no secret is set. *)
#[export] Instance demo_gateway : Gateway world := {
  getenv name w := None;
  read_file name w := (Raise (raise_ OSError name), w);
  http_get url timeout headers w :=
    (if String.eqb url "http://policies/v1/presentation-policies/p"
     then Ok {| status_code := 200; response_json := Ok (JDict [("organization_id", JStr " acme ")]) |}
     else Ok {| status_code := 404; response_json := Ok JNull |}, w) }.

Definition session (user : option string) : RequestState := {|
  st_user_id := user; st_user_email := None; st_user_domain := None; st_organization_id := None;
  st_session_organization_id := Some "evil"; st_api_key_id := None; st_api_key_organization_id := None;
  st_api_key_scopes := None; st_auth_source := Some "session"; st_required_permission := None; st_org_roles := [];
  st_org_permissions := []; st_org_resource := None |}.

Definition api_key (org : string) (key_scopes : list string) : RequestState := {|
  st_user_id := Some "api_key:k"; st_user_email := None; st_user_domain := None; st_organization_id := None;
  st_session_organization_id := None; st_api_key_id := Some "k"; st_api_key_organization_id := Some org;
  st_api_key_scopes := Some key_scopes; st_auth_source := Some "api_key"; st_required_permission := None; st_org_roles := [];
  st_org_permissions := []; st_org_resource := None |}.

(** A request whose query names another organisation. *)
Definition ask (m path : string) (s : RequestState) : Request := {|
  method := m; url_path := path; header := fun _ => None;
  query_params := fun k => dget k [("organization_id", "evil")]; request_json := Raise (raise_ ValueError "no body"); state := s;
  service_registry := Some (fun name => if String.eqb name "presentation-policies" then Ok (Some "http://policies")
                                        else Raise (raise_ KeyError name));
  http_client := true; app_org_client := Some client |}.

Definition policy_path : string := "/v1/presentation-policies/p".

(** The route answers with the organisation it is called for. *)
Definition route (rq : Request) : M world (option string) := mret (st_organization_id (state rq)).
Definition answer_of (rq : Request) : result (reply (option string)) := fst (dispatch route rq (start true)).

Lemma owner_decides_organization_witness :
  match fst (_resolve_request_org_id (ask "GET" policy_path (session None)) policy_path "presentation-policy:view" (start true)) with
  | Ok org => CedarMiddleware.answered (ask "GET" policy_path (session None)) "presentation-policies" policy_path "presentation-policy:view" org
  | Raise e => catchable e = true -> lookup_error e \/ exists file w1, fst (read_file (W:=world) file w1) = Raise e
  end.
Proof. apply owner_decides_organization; vm_compute; reflexivity. Defined.

(** A key of the owner, a key of another organisation, a key without the scope, a
    user who is no member's permission, nobody. *)
Example key_of_owner : answer_of (ask "GET" policy_path (api_key "acme" ["trust:read"])) = Ok (Passed (Some "acme")).
Proof. vm_compute. reflexivity. Qed.
Example key_of_other : answer_of (ask "GET" policy_path (api_key "evil" ["admin:full"])) =
  Ok (JSONResponse "403" "API key does not have access to this organization").
Proof. vm_compute. reflexivity. Qed.
Example key_without_scope : answer_of (ask "DELETE" policy_path (api_key "acme" ["trust:read"])) =
  Ok (JSONResponse "403" "API key missing required permission: presentation-policy:delete").
Proof. vm_compute. reflexivity. Qed.
Example member_without_permission : answer_of (ask "GET" policy_path (session (Some "alice"))) =
  Ok (JSONResponse "403" "Action not authorized").
Proof. vm_compute. reflexivity. Qed.
Example no_member : answer_of (ask "GET" policy_path (session (Some "mallory"))) =
  Ok (JSONResponse "403" "Not a member of this organization").
Proof. vm_compute. reflexivity. Qed.
Example nobody : answer_of (ask "GET" policy_path (session None)) = Ok (JSONResponse "401" "Authentication required").
Proof. vm_compute. reflexivity. Qed.
Example unknown_owner : answer_of (ask "GET" "/v1/trust-profiles/t" (session (Some "alice"))) =
  Ok (JSONResponse "503" "Resource owner lookup unavailable").
Proof. vm_compute. reflexivity. Qed.

(** The organisation named in upper case: the request of nobody reaches the route. *)
Example unchecked : answer_of (ask "DELETE" (upper_org +:+ "/api-keys/k") (session None)) = Ok (Passed None).
Proof. vm_compute. reflexivity. Qed.

Lemma read_keys_change_nothing_witness :
  In "verification:delete" ["integration-connector:view"; "verification:execute"; "verification:delete"].
Proof.
  apply (read_keys_change_nothing "delete" "/v1/verification/x" _ "verification" ["credentials:read"]);
    [by vm_compute|simpl; tauto|by intros s [<-|[] ]|by vm_compute].
Defined.

Lemma admin_only_iff_witness :
  In "team:invite" admin_only <-> forall key_scopes, _api_key_allowed "team:invite" key_scopes = true -> In "admin:full" key_scopes.
Proof.
  apply (admin_only_iff "POST" (lower_org +:+ "/members") _ "team"); [by vm_compute|simpl; tauto].
Defined.
End Demo.
