(* ===== verification/Authorization.v ===== *)
(** * Authorization of gRPC calls ([authorization.py], [cedar_engine.py], [cedar_entities.py])

    The Cedar policy engine of the backend services, the entities it is asked
    about, the decorator that guards a method, and the bundled policies of
    [cedar/backend_policies.cedar]. Identities are those of [GrpcAuth.v]. The
    cedarpy library, the files of policies and the environment are parameters. *)

From S2P Require Import Prelude PyRuntime PyText PyBytes Pydantic GrpcHandlers GrpcAuth.
Local Open Scope Z_scope.

(** ** Entities *)

Definition entity_uid : Type := string * string.

(** An entity dictionary: its [uid] (type and id), [attrs] and [parents]. *)
Record Entity := { uid : entity_uid; attrs : pydict pyval; parents : list entity_uid }.

Definition uid_json (u : entity_uid) : pyval := VDict [("type", VStr (fst u)); ("id", VStr (snd u))].
Definition entity_json (e : Entity) : pyval :=
  VDict [("uid", uid_json (uid e)); ("attrs", VDict (attrs e)); ("parents", VList (map uid_json (parents e)))].

Definition build_user_entities (user_id email status org_id role : string) : list Entity :=
  let role_id := str_lower role in
  [{| uid := ("MIP::User", user_id);
      attrs := [("email", VStr email); ("status", VStr (str_upper status)); ("user_id", VStr user_id)];
      parents := [("MIP::Organization", org_id); ("MIP::Role", role_id)] |};
   {| uid := ("MIP::Organization", org_id); attrs := []; parents := [] |};
   {| uid := ("MIP::Role", role_id); attrs := [("is_system_role", VBool true)];
      parents := [("MIP::Organization", org_id)] |}].

Definition build_apikey_entities (api_key_id org_id scope_type : string) (enabled : bool)
    (deployment_profile_id : option string) : list Entity :=
  let profile := if str_truthy deployment_profile_id then deployment_profile_id else None in
  let uid_of p := ("MIP::DeploymentProfile", p) in
  [{| uid := ("MIP::ApiKey", api_key_id);
      attrs := [("scope_type", VStr (str_upper scope_type)); ("enabled", VBool enabled)];
      parents := ("MIP::Organization", org_id) :: match profile with Some p => [uid_of p] | None => [] end |};
   {| uid := ("MIP::Organization", org_id); attrs := []; parents := [] |}] ++
  match profile with
  | Some p => [{| uid := uid_of p; attrs := []; parents := [("MIP::Organization", org_id)] |}]
  | None => []
  end.

(** A Cedar [ipaddr]. *)
Definition ip_value (arg : pyval) : pyval := VDict [("__extn", VDict [("fn", VStr "ip"); ("arg", arg)])].

Definition optional_entry (k : string) (v : option string) : pydict pyval :=
  match v with Some s => [(k, VStr s)] | None => [] end.

(** ** cedarpy *)

Record CedarRequest := {
  principal : string; action : string; resource : string; context : pydict pyval }.

Record CedarResult := { cr_allowed : bool; diagnostics_reasons : list string; diagnostics_errors : list string }.

Record AuthzDecision := { allowed : bool; reasons : list string; errors : list string }.

(** [cedarpy.is_authorized(request, policies, json.dumps(entities), schema)]: Cedar
    reads the entities back from their JSON text. *)
Class Cedarpy (W : Type) := {
  cedar_is_authorized : CedarRequest -> string -> list Entity -> string -> M W CedarResult }.

(** The file system and the environment. [glob_cedar] gives the names of the
    [*.cedar] files of a directory. *)
Class PolicyFiles (W : Type) := {
  env_get : string -> W -> option string;
  path_exists : string -> W -> bool;
  path_is_dir : string -> W -> bool;
  read_text : string -> M W string;
  glob_cedar : string -> M W (list string) }.

Definition str_quoted (s : string) : string := String quote2 (s +:+ String quote2 "").
Definition blank_line : string := nl +:+ nl.
Definition bundled (name : string) : string := "cedar/" +:+ name.

Section files.
Context {W : Type} `{PolicyFiles W}.

Fixpoint read_all (paths : list string) : M W (list string) :=
  match paths with
  | [] => mret []
  | p :: rest => t ← read_text p; ts ← read_all rest; mret (t :: ts)
  end.

(** [for f in sorted(Path(dir).glob('*.cedar')): parts.append(f.read_text())] *)
Definition read_directory (dir : string) : M W (list string) :=
  names ← glob_cedar dir; read_all (map (fun n => dir +:+ "/" +:+ n) (py_sorted names)).

(** The sources of one path: a directory, a file, or nothing. *)
Definition policy_part (p : string) : M W (list string) := fun w =>
  if path_is_dir p w then read_directory p w
  else if path_exists p w then (t ← read_text p; mret [t]) w
  else (Ok [], w).

Fixpoint policy_parts (policy_paths : list string) : M W (list string) :=
  match policy_paths with
  | [] => mret []
  | p :: rest =>
      part ← policy_part p;
      parts ← policy_parts rest;
      mret (part ++ parts)
  end.

Definition _load_policy_files (schema_path : string) (policy_paths : list string) : M W (string * string) :=
  schema ← read_text schema_path;
  parts ← policy_parts policy_paths;
  mret (schema, String.concat blank_line parts).

Definition default_schema (schema_path : option string) : M W string := fun w =>
  if str_truthy schema_path && path_exists (default "" schema_path) w then read_text (default "" schema_path) w
  else read_text (bundled "mip_backend.cedarschema") w.

Definition default_policies (policies_dir : option string) : M W string := fun w =>
  if str_truthy policies_dir && path_is_dir (default "" policies_dir) w
  then (parts ← read_directory (default "" policies_dir); mret (String.concat blank_line parts)) w
  else read_text (bundled "backend_policies.cedar") w.

Definition _load_default_cedar_config : M W (string * string) :=
  schema_path ← gets (env_get "CEDAR_SCHEMA_PATH");
  policies_dir ← gets (env_get "CEDAR_POLICIES_DIR");
  schema ← default_schema schema_path;
  policies ← default_policies policies_dir;
  mret (schema, policies).

(** ** Engines *)

(** [PolicyEngine] and [CedarEngine] hold a schema and policies. *)
Record PolicyEngine := { _schema : string; _policies : string }.

Definition PolicyEngine_init (schema policies : option string) : M W PolicyEngine :=
  match schema, policies with
  | Some s, Some p => mret {| _schema := s; _policies := p |}
  | _, _ =>
      '(loaded_schema, loaded_policies) ← _load_default_cedar_config;
      mret {| _schema := if str_truthy schema then default "" schema else loaded_schema;
              _policies := if str_truthy policies then default "" policies else loaded_policies |}
  end.

Definition PolicyEngine_from_files (schema_path : string) (policy_paths : list string) : M W PolicyEngine :=
  '(schema, policies) ← _load_policy_files schema_path policy_paths;
  PolicyEngine_init (Some schema) (Some policies).

Definition set_policies (value : string) (e : PolicyEngine) : PolicyEngine :=
  {| _schema := _schema e; _policies := value |}.

Definition CedarEngine_from_files (schema_path : string) (policy_paths : list string) : M W PolicyEngine :=
  '(schema, policies) ← _load_policy_files schema_path policy_paths;
  mret {| _schema := schema; _policies := policies |}.

Definition append_policies (additional : string) (e : PolicyEngine) : PolicyEngine :=
  set_policies (_policies e +:+ blank_line +:+ additional) e.

Definition with_approval_policy_text (policies : string) : M W PolicyEngine :=
  schema ← read_text (bundled "mip.cedarschema");
  mret {| _schema := schema; _policies := policies |}.

Definition bundled_engine (name : string) : M W PolicyEngine :=
  schema ← read_text (bundled "mip.cedarschema");
  policies ← read_text (bundled name);
  mret {| _schema := schema; _policies := policies |}.

Definition with_defaults : M W PolicyEngine := bundled_engine "gateway_policies.cedar".
Definition with_approval_rules : M W PolicyEngine := bundled_engine "approval_rules.cedar".

Definition with_credential_verification : M W PolicyEngine :=
  engine ← with_defaults;
  verification_policies ← read_text (bundled "credential_verification.cedar");
  mret (append_policies verification_policies engine).
End files.

(** ** Evaluation *)

Definition AuthorizationError := subclass "AuthorizationError" Exception_.
Definition PolicyEvaluationError := subclass "PolicyEvaluationError" Exception_.

(** Roles and attributes come from claims, so they may be of any type. *)
Record AuthorizationContext := {
  ac_identity : option string; roles : list pyval; attributes : pydict pyval;
  ac_resource : option string; ac_action : option string }.

(** [role.lower()] *)
Definition role_lower (role : pyval) : result string :=
  match role with
  | VStr s | VEnum _ s => Ok (str_lower s)
  | _ => Raise (raise_ (subclass "AttributeError" Exception_) "no attribute 'lower'")
  end.

Fixpoint lower_all (l : list pyval) : result (list string) :=
  match l with
  | [] => Ok []
  | role :: rest => r ← role_lower role; rs ← lower_all rest; Ok (r :: rs)
  end.

Definition role_entity (role_id : string) : Entity :=
  {| uid := ("MIP::Role", role_id); attrs := [("is_system_role", VBool true)]; parents := [] |}.

(** [d.get(k, v)] *)
Definition get_or (k : string) (v : pyval) (d : pydict pyval) : pyval := default v (dget k d).

Definition resource_or_default (c : AuthorizationContext) : string := default "default" (str_or (ac_resource c) (Some "default")).

Definition _build_entities (c : AuthorizationContext) : result (list Entity) :=
  role_ids ← lower_all (roles c);
  Ok (map role_entity role_ids ++
      [{| uid := ("MIP::User", default "" (ac_identity c));
          attrs := [("email", get_or "email" (VStr "") (attributes c)); ("status", get_or "status" (VStr "ACTIVE") (attributes c))];
          parents := map (fun r => ("MIP::Role", r)) role_ids |};
       {| uid := ("MIP::ServiceResource", resource_or_default c); attrs := []; parents := [] |}]).

Section engine.
Context {W : Type} `{Cedarpy W, World W}.

Definition time_int : M W Z := fun w => let '(t, w) := time_time w in (Ok (py_int t), w).

Definition build_request_context (ip_address : string) (mfa_authenticated : bool) (session_id user_agent : option string) : M W (pydict pyval) :=
  timestamp ← time_int;
  mret ([("ip_address", ip_value (VStr (if String.eqb ip_address "" then "0.0.0.0" else ip_address)));
         ("timestamp", VInt timestamp); ("mfa_authenticated", VBool mfa_authenticated)] ++
        optional_entry "session_id" session_id ++ optional_entry "user_agent" user_agent).

(** [cedarpy.is_authorized(request, self._policies, json.dumps(entities), self._schema)] *)
Definition ask_cedar (e : PolicyEngine) (request : CedarRequest) (entities : list Entity) : M W CedarResult :=
  _ ← lift (json_dumps false ", " ": " (VList (map entity_json entities)));
  cedar_is_authorized request (_policies e) entities (_schema e).

(** The body of the [try] of [PolicyEngine.evaluate]. *)
Definition evaluate_body (e : PolicyEngine) (c : AuthorizationContext) : M W bool :=
  if negb (str_truthy (ac_identity c)) then mret false
  else if negb (str_truthy (ac_action c)) then mret false else
  entities ← lift (_build_entities c);
  timestamp ← time_int;
  r ← ask_cedar e {|
    principal := "MIP::User::" +:+ str_quoted (default "" (ac_identity c));
    action := "MIP::Action::" +:+ str_quoted (default "" (ac_action c));
    resource := "MIP::ServiceResource::" +:+ str_quoted (resource_or_default c);
    context := [("ip_address", ip_value (get_or "ip_address" (VStr "0.0.0.0") (attributes c)));
                ("timestamp", VInt timestamp);
                ("mfa_authenticated", get_or "mfa_authenticated" (VBool false) (attributes c))] |} entities;
  mret (cr_allowed r).

Definition evaluate (e : PolicyEngine) (c : AuthorizationContext) : M W bool :=
  try_except (evaluate_body e c) (fun exc =>
    raise (raise_ PolicyEvaluationError ("Policy evaluation failed: " +:+ exn_message exc))).

Definition decision (r : CedarResult) : AuthzDecision :=
  {| allowed := cr_allowed r; reasons := diagnostics_reasons r; errors := diagnostics_errors r |}.

(** [PolicyEngine.is_authorized] and [CedarEngine.is_authorized]. *)
Definition is_authorized (e : PolicyEngine) (principal action resource : string) (context : pydict pyval) (entities : list Entity) : M W AuthzDecision :=
  try_except
    (r ← ask_cedar e {| principal := principal; action := action; resource := resource; context := context |} entities;
     mret (decision r))
    (fun exc => mret {| allowed := false; reasons := []; errors := [exn_message exc] |}).
End engine.

(** ** The guard of a method *)

(** The global [_default_policy_engine]. *)
Class DefaultEngine (W : Type) := {
  default_policy_engine : W -> option PolicyEngine;
  set_default_policy_engine : PolicyEngine -> W -> W }.

(** A positional argument of a method: a gRPC context, or anything without
    [invocation_metadata]. *)
Inductive Arg := GrpcContext | Other.

Record Func (W R : Type) := { qualname : option string; func_name : string; body : list Arg -> M W R }.
Arguments qualname {_ _} _.
Arguments func_name {_ _} _.
Arguments body {_ _} _ _.

Definition denied (msg : string) : exn := raise_ AuthorizationError msg.

(** [list(v)] *)
Definition py_list (v : pyval) : result (list pyval) :=
  match v with
  | VList l => Ok l
  | VStr s | VEnum _ s => Ok (map (fun c => VStr (String c "")) (String.list_ascii_of_string s))
  | VDict d => Ok (map (fun kv => VStr (fst kv)) d)
  | VBytes bs => Ok (map (fun b => VInt (byte_val b)) bs)
  | _ => Raise (raise_ TypeError "object is not iterable")
  end.

Definition endswith (suffix s : string) : bool :=
  bool_decide (String.length suffix <= String.length s)%nat &&
  String.eqb (String.substring (String.length s - String.length suffix) (String.length suffix) s) suffix.

(** [s[:-len(suffix)]] *)
Definition drop_end (suffix s : string) : string := String.substring 0 (String.length s - String.length suffix) s.

Definition _extract_resource_from_method (qualname : option string) (func_name : string) : string :=
  match qualname with
  | None => func_name
  | Some q =>
      match rev (split_on "." q) with
      | _ :: class_name :: _ =>
          str_lower (if endswith "Service" class_name then drop_end "Service" class_name
                     else if endswith "Servicer" class_name then drop_end "Servicer" class_name
                     else class_name)
      | _ => func_name
      end
  end.

Section require.
Context {W : Type} `{Cedarpy W, World W, PolicyFiles W, RequestVar W, DefaultEngine W}.

Definition _find_grpc_context (args : list Arg) : result Arg :=
  match lfilter (fun a => match a with GrpcContext => true | Other => false end) (rev args) with
  | a :: _ => Ok a
  | [] => Raise (denied "gRPC context not found")
  end.

Definition _extract_auth_context (grpc_context : Arg) : M W (string * list pyval * pydict pyval) := fun w =>
  match get_auth_context w with
  | Some auth =>
      if negb (authenticated auth) || negb (str_truthy (identity auth)) then (Raise (denied "Authenticated request context is required"), w)
      else (rs ← py_list (get_or "roles" (VList []) (claims auth));
            Ok (default "" (identity auth), rs,
                lfilter (fun kv => negb (mem (fst kv) ["sub"; "user_id"; "roles"])) (claims auth)), w)
  | None => (Raise (denied "Authenticated request context is required"), w)
  end.

Definition _get_default_policy_engine : M W PolicyEngine := fun w =>
  match default_policy_engine w with
  | Some e => (Ok e, w)
  | None => (e ← PolicyEngine_init None None; _ ← modify (set_default_policy_engine e); mret e) w
  end.

(** [policy_engine or _get_default_policy_engine()] *)
Definition engine_in_use (policy_engine : option PolicyEngine) : M W PolicyEngine :=
  match policy_engine with Some e => mret e | None => _get_default_policy_engine end.

(** What the wrappers do before the call. *)
Definition check_permission {R} (permission : string) (resource : option string) (policy_engine : option PolicyEngine)
    (func : Func W R) (args : list Arg) : M W unit :=
  grpc_context ← lift (_find_grpc_context args);
  '(identity, roles, attributes) ← _extract_auth_context grpc_context;
  engine ← engine_in_use policy_engine;
  ok ← evaluate engine {|
    ac_identity := Some identity; roles := roles; attributes := attributes;
    ac_resource := str_or resource (Some (_extract_resource_from_method (qualname func) (func_name func)));
    ac_action := Some permission |};
  if negb ok then raise (denied ("Access denied for permission: " +:+ permission)) else mret tt.

(** The asynchronous and the synchronous wrapper of [require]. *)
Definition require {R} (permission : string) (resource : option string) (policy_engine : option PolicyEngine)
    (func : Func W R) : list Arg -> M W R := fun args =>
  _ ← check_permission permission resource policy_engine func args; body func args.
End require.

(** ** The bundled policies *)

Inductive Effect := Permit | Forbid.

(** [principal in MIP::Role::"r"], [true], and a test of [principal.status]. *)
Inductive Condition :=
| PrincipalInRole (role : string)
| Always
| StatusIn (statuses : list string).

(** A policy: [None] for the actions stands for every action. *)
Record Policy := {
  policy_id : string; effect : Effect; principal_is : string;
  policy_actions : option (list string); condition : Condition }.

Definition role_policy (id role : string) (actions : option (list string)) : Policy := {|
  policy_id := id; effect := Permit; principal_is := "MIP::User"; policy_actions := actions;
  condition := PrincipalInRole role |}.

Definition backend_policies : list Policy := [
  role_policy "role-admin-full-access" "admin" None;
  role_policy "role-document-signer" "document_signer"
    (Some ["document:sign"; "document:verify"; "certificate:validate"]);
  role_policy "role-inspection-officer" "inspection_officer"
    (Some ["document:inspect"; "document:verify"; "passport:verify"; "mdl:verify"]);
  role_policy "role-trust-manager" "trust_manager"
    (Some ["trust:manage"; "trust:query"; "certificate:issue"; "certificate:revoke"]);
  {| policy_id := "role-service-account"; effect := Permit; principal_is := "MIP::ServiceAccount";
     policy_actions := Some ["service:health"; "service:metrics"]; condition := Always |};
  role_policy "role-administrator" "administrator"
    (Some ["document:create"; "document:read"; "document:update"; "document:sign"; "document:verify"; "document:revoke";
           "applicant:read"; "applicant:update"; "applicant:vet"; "application:read"; "application:create";
           "application:update"; "application:approve"; "application:reject"; "vetting:create"; "vetting:read";
           "vetting:update"; "biometric:enroll"; "biometric:verify"; "kyc:review"; "kyc:approve"; "kyc:reject"]);
  role_policy "role-applicant" "applicant"
    (Some ["application:create"; "application:read"; "application:update"; "document:read"; "kyc:submit";
           "profile:read"; "profile:update"]);
  {| policy_id := "deny-suspended-users"; effect := Forbid; principal_is := "MIP::User";
     policy_actions := None; condition := StatusIn ["SUSPENDED"; "DEACTIVATED"] |}].

(** *** What Cedar makes of them *)

(** [u in v]: the entity itself or one of its ancestors. *)
Inductive member_of (es : list Entity) : entity_uid -> entity_uid -> Prop :=
| member_self u : member_of es u u
| member_parent e p v : e ∈ es -> p ∈ parents e -> member_of es p v -> member_of es (uid e) v.

Definition covers (p : Policy) (act : string) : Prop :=
  match policy_actions p with None => True | Some l => act ∈ l end.

Definition condition_holds (es : list Entity) (u : entity_uid) (c : Condition) : Prop :=
  match c with
  | PrincipalInRole r => member_of es u ("MIP::Role", r)
  | Always => True
  | StatusIn l => exists e s, e ∈ es /\ uid e = u /\ dget "status" (attrs e) = Some (VStr s) /\ s ∈ l
  end.

Definition applies (es : list Entity) (u : entity_uid) (act : string) (p : Policy) : Prop :=
  fst u = principal_is p /\ covers p act /\ condition_holds es u (condition p).

(** How Cedar reads policies and entity identifiers, and that it denies by default:
    a request is allowed only if a permit applies and no forbid does. *)
Class CedarReader := {
  cedar_policies : string -> list Policy;
  cedar_uid : string -> option entity_uid }.

Class CedarLaws (W : Type) `{Cedarpy W, CedarReader} := {
  deny_by_default request policies es schema w r w' :
    cedar_is_authorized request policies es schema w = (Ok r, w') -> cr_allowed r = true ->
    exists u act, cedar_uid (principal request) = Some u /\ cedar_uid (action request) = Some ("MIP::Action", act) /\
      Exists (fun p => effect p = Permit /\ applies es u act p) (cedar_policies policies) /\
      Forall (fun p => effect p = Forbid -> ~ applies es u act p) (cedar_policies policies);
  user_uid id u : cedar_uid ("MIP::User::" +:+ str_quoted id) = Some u -> fst u = "MIP::User" }.

(** ** Roles decide *)

Lemma lower_all_spec l ids : lower_all l = Ok ids -> Forall2 (fun v r => role_lower v = Ok r) l ids.
Proof.
  revert ids. induction l as [|v l IH]; intros ids; simpl; [by intros [= <-]|].
  destruct (role_lower v) as [r|] eqn:Hr; simpl; [|done].
  destruct (lower_all l) as [rs|] eqn:Hl; simpl; [|done]. intros [= <-]. constructor; [done|by apply IH].
Qed.

(** The entities of a request: roles and the resource have no parents. *)
Lemma built_parents c es e : _build_entities c = Ok es -> e ∈ es -> forall p, p ∈ parents e ->
  uid e = ("MIP::User", default "" (ac_identity c)) /\ exists v r, v ∈ roles c /\ role_lower v = Ok r /\ p = ("MIP::Role", r).
Proof.
  unfold _build_entities. destruct (lower_all (roles c)) as [ids|] eqn:Hl; simpl; [|done]. intros [= <-].
  apply lower_all_spec in Hl. rewrite elem_of_app. intros [He|He] p Hp.
  - apply list_elem_of_fmap in He as (r & -> & _). simpl in Hp. by apply not_elem_of_nil in Hp.
  - rewrite !elem_of_cons in He. destruct He as [->|[->|He]]; [| |by apply not_elem_of_nil in He]; simpl in *.
    + split; [done|]. apply list_elem_of_fmap in Hp as (r & -> & Hr).
      apply list_elem_of_lookup in Hr as (i & Hr). destruct (Forall2_lookup_r _ _ _ _ _ Hl Hr) as (v & Hv & Hvr).
      exists v, r. split; [by eapply list_elem_of_lookup_2|done].
    + by apply not_elem_of_nil in Hp.
Qed.

Lemma built_roles c es u r : _build_entities c = Ok es -> fst u = "MIP::User" ->
  member_of es u ("MIP::Role", r) -> exists v, v ∈ roles c /\ role_lower v = Ok r.
Proof.
  intros Hb Hu Hm. inversion Hm as [|e p v He Hp Hpv]; subst; [done|].
  destruct (built_parents c es e Hb He p Hp) as (_ & v & r' & Hv & Hr' & ->).
  exists v. split; [done|]. inversion Hpv as [|e' p' v' He' Hp' Hpv' Huid]; subst; [done|].
  destruct (built_parents c es e' Hb He' p' Hp') as (Huid' & _). congruence.
Qed.

Section guard.
Context {W : Type} `{Cedarpy W, CedarReader, !CedarLaws W, World W}.

Lemma ask_cedar_inv e request es (w : W) r w' : ask_cedar e request es w = (Ok r, w') ->
  cedar_is_authorized request (_policies e) es (_schema e) w = (Ok r, w').
Proof. unfold ask_cedar, lift, mbind, M_bind. by destruct (json_dumps _ _ _ _). Qed.

Lemma evaluate_true e c (w w' : W) : evaluate e c w = (Ok true, w') ->
  exists es u act, _build_entities c = Ok es /\ fst u = "MIP::User" /\
    cedar_uid ("MIP::Action::" +:+ str_quoted (default "" (ac_action c))) = Some ("MIP::Action", act) /\
    Exists (fun p => effect p = Permit /\ applies es u act p) (cedar_policies (_policies e)) /\
    Forall (fun p => effect p = Forbid -> ~ applies es u act p) (cedar_policies (_policies e)).
Proof.
  unfold evaluate, try_except. destruct (evaluate_body e c w) as [[b|exc] w1] eqn:Hb; [|by destruct (catchable exc)].
  intros [= -> ->]. revert Hb. unfold evaluate_body.
  destruct (negb (str_truthy (ac_identity c))); [done|]. destruct (negb (str_truthy (ac_action c))); [done|].
  intros (es & w2 & He & Hb)%bind_inv_ok. unfold lift in He. injection He as He <-.
  apply bind_inv_ok in Hb as (ts & w3 & _ & Hb). apply bind_inv_ok in Hb as (r & w4 & Hr & Hb).
  injection Hb as Hr' ->. apply ask_cedar_inv in Hr.
  destruct (deny_by_default _ _ _ _ _ _ _ Hr Hr') as (u & act & Hu & Ha & Hp & Hf).
  exists es, u, act. split; [done|]. split; [|done]. by apply (user_uid (default "" (ac_identity c))).
Qed.

(** Under the bundled policies a user is allowed an action only for a role that has it. *)
Lemma evaluate_needs_role e c (w w' : W) :
  cedar_policies (_policies e) = backend_policies -> evaluate e c w = (Ok true, w') ->
  exists p v r act, p ∈ backend_policies /\ v ∈ roles c /\ role_lower v = Ok r /\ condition p = PrincipalInRole r /\
    cedar_uid ("MIP::Action::" +:+ str_quoted (default "" (ac_action c))) = Some ("MIP::Action", act) /\ covers p act.
Proof.
  intros Hps Hev. destruct (evaluate_true e c w w' Hev) as (es & u & act & Hes & Hu & Ha & Hex & _).
  rewrite Hps in Hex. apply Exists_exists in Hex as (p & Hp & Heff & Hty & Hcov & Hcond).
  assert (exists r, condition p = PrincipalInRole r) as (r & Hr).
  { clear Hcov Hcond Ha. unfold backend_policies in Hp. rewrite Hu in Hty.
    repeat (apply elem_of_cons in Hp as [->|Hp]; [simpl in *; first [done|by eexists]|]). by apply not_elem_of_nil in Hp. }
  rewrite Hr in Hcond. destruct (built_roles c es u r Hes Hu Hcond) as (v & Hv & Hvr).
  by exists p, v, r, act.
Qed.

Context `{PolicyFiles W, RequestVar W, DefaultEngine W}.

(** The bundled policies are the ones in use, wherever the engine comes from. *)
Definition bundled_policies_in_use (policy_engine : option PolicyEngine) : Prop :=
  forall w e w', engine_in_use policy_engine w = (Ok e, w') -> cedar_policies (_policies e) = backend_policies.

(** Where the roles of a call come from. *)
Definition claimed_roles (auth : AuthContext) : result (list pyval) := py_list (get_or "roles" (VList []) (claims auth)).

(** The caller whose context is installed has a role that the bundled policies name for
    the permission. *)
Definition has_role_for (permission : string) (w : W) : Prop :=
  exists auth rs p v r act,
    get_auth_context w = Some auth /\ authenticated auth = true /\ str_truthy (identity auth) = true /\
    claimed_roles auth = Ok rs /\ v ∈ rs /\ role_lower v = Ok r /\
    p ∈ backend_policies /\ condition p = PrincipalInRole r /\
    cedar_uid ("MIP::Action::" +:+ str_quoted permission) = Some ("MIP::Action", act) /\ covers p act.

Lemma check_needs_role {R} permission resource policy_engine (func : Func W R) args (w w' : W) :
  bundled_policies_in_use policy_engine ->
  check_permission permission resource policy_engine func args w = (Ok tt, w') -> has_role_for permission w.
Proof.
  intros Hbundled Hcheck. unfold check_permission in Hcheck.
  apply bind_inv_ok in Hcheck as (g & w1 & Hg & Hcheck). unfold lift in Hg. injection Hg as _ <-.
  apply bind_inv_ok in Hcheck as (x & w2 & Hx & Hcheck). destruct x as [[id rs] attrs].
  unfold _extract_auth_context in Hx. destruct (get_auth_context w) as [auth|] eqn:Hauth; [|done].
  destruct (authenticated auth) eqn:Ha; [|done]. destruct (str_truthy (identity auth)) eqn:Hid; [|done]. cbn [negb orb] in Hx.
  fold (claimed_roles auth) in Hx. destruct (claimed_roles auth) as [l|] eqn:Hl; [|done]. injection Hx as <- <- <- <-.
  apply bind_inv_ok in Hcheck as (e & w3 & He & Hcheck). apply bind_inv_ok in Hcheck as (ok & w4 & Hev & Hok).
  destruct ok; [|done].
  destruct (evaluate_needs_role _ _ _ _ (Hbundled _ _ _ He) Hev) as (p & v & r & act & Hp & Hv & Hr & Hc & Hact & Hcov).
  by exists auth, l, p, v, r, act.
Qed.

(** The check does not look into the body. *)
Definition with_body {R} (func : Func W R) (body : list Arg -> M W R) : Func W R :=
  {| qualname := qualname func; func_name := func_name func; body := body |}.

(** C29: A call of a guarded method either runs its body, unchanged and once, after the
    check has passed, which it does only for an authenticated identity with a role that
    the bundled policies name for the permission, or fails in a way that no body can
    influence. *)
Theorem guarded_call_needs_role {R} permission resource policy_engine (func : Func W R) args (w : W) :
  bundled_policies_in_use policy_engine ->
  (has_role_for permission w /\
   exists w', forall body, require permission resource policy_engine (with_body func body) args w = body args w') \/
  (exists e w', forall body, require permission resource policy_engine (with_body func body) args w = (Raise e, w')).
Proof.
  intros Hbundled. destruct (check_permission permission resource policy_engine func args w) as [[ [] |e] w'] eqn:Hcheck; [left|right].
  - split; [by eapply check_needs_role|]. exists w'. intros body. unfold require, with_body, mbind, M_bind.
    unfold check_permission in *. cbn [qualname func_name]. by rewrite Hcheck.
  - exists e, w'. intros body. unfold require, with_body, mbind, M_bind. unfold check_permission in *. cbn [qualname func_name]. by rewrite Hcheck.
Qed.

(** No admitted call passes a guard of the bundled policies: the identities that the
    interceptor installs carry no roles. *)
Theorem certificates_pass_no_guard {R} it details (c : ServicerContext W) auth permission resource policy_engine (func : Func W R) args (w : W) :
  admission it details c = Ok (Some auth) -> get_auth_context w = Some auth -> bundled_policies_in_use policy_engine ->
  exists e w', forall body : list Arg -> M W R, require permission resource policy_engine
    {| qualname := qualname func; func_name := func_name func; body := body |} args w = (Raise e, w').
Proof.
  intros Hadm Hauth Hbundled.
  destruct (check_permission permission resource policy_engine func args w) as [[ [] |e] w'] eqn:Hcheck.
  - exfalso. destruct (check_needs_role _ _ _ _ _ _ _ Hbundled Hcheck)
      as (auth' & rs & p & v & r & act & Hauth' & Ha & _ & Hrs & Hv & _).
    assert (auth' = auth) as -> by congruence. apply admitted_identity in Hadm as [->|[id ->]]; [done|].
    injection Hrs as <-. by apply not_elem_of_nil in Hv.
  - exists e, w'. intros body. unfold require, mbind, M_bind. unfold check_permission in *. cbn [qualname func_name] in *.
    by rewrite Hcheck.
Qed.
End guard.

(** ** A concrete policy engine *)

Module Demo.
Definition world := option AuthContext.

#[export] Instance demo_var : RequestVar world := { get_auth_context w := w; set_request_auth a _ := a }.
#[export] Instance demo_clock : World world := { time_time w := (0%Q, w); sleep _ w := w; randbelow _ w := (0, w) }.
#[export] Instance demo_files : PolicyFiles world := {
  env_get _ _ := None; path_exists _ _ := false; path_is_dir _ _ := false; read_text p := mret p; glob_cedar _ := mret [] }.
#[export] Instance demo_default : DefaultEngine world := { default_policy_engine _ := None; set_default_policy_engine _ w := w }.

(** The text between the quotes. *)
Definition inside (prefix s : string) : string :=
  String.substring (String.length prefix + 1) (String.length s - String.length prefix - 2) s.

Definition read_uid (s : string) : option entity_uid :=
  if startswith "MIP::User::" s then Some ("MIP::User", inside "MIP::User::" s)
  else if startswith "MIP::Action::" s then Some ("MIP::Action", inside "MIP::Action::" s)
  else None.

#[export] Instance demo_reader : CedarReader := { cedar_policies _ := backend_policies; cedar_uid := read_uid }.

Definition holds (es : list Entity) (u : entity_uid) (c : Condition) : bool :=
  match c with
  | PrincipalInRole r => existsb (fun e => bool_decide (uid e = u) && mem ("MIP::Role", r) (parents e)) es
  | Always => true
  | StatusIn l => existsb (fun e => bool_decide (uid e = u) &&
                    match dget "status" (attrs e) with Some (VStr s) => mem s l | _ => false end) es
  end.

Definition matches_policy (es : list Entity) (u : entity_uid) (act : string) (p : Policy) : bool :=
  String.eqb (fst u) (principal_is p) && match policy_actions p with None => true | Some l => mem act l end &&
  holds es u (condition p).

Definition permitted (es : list Entity) (u : entity_uid) (act : string) : bool :=
  existsb (fun p => match effect p with Permit => matches_policy es u act p | Forbid => false end) backend_policies &&
  forallb (fun p => match effect p with Forbid => negb (matches_policy es u act p) | Permit => true end) backend_policies.

#[export] Instance demo_cedar : Cedarpy world := {
  cedar_is_authorized request _ es _ := mret {|
    cr_allowed := match read_uid (principal request), read_uid (action request) with
                  | Some u, Some ("MIP::Action", act) => permitted es u act
                  | _, _ => false
                  end;
    diagnostics_reasons := []; diagnostics_errors := [] |} }.

Lemma holds_sound es u c : holds es u c = true -> condition_holds es u c.
Proof.
  destruct c as [r| |l]; simpl; [|done|].
  - intros (e & He & (Hu%bool_decide_eq_true & Hp%bool_decide_eq_true)%andb_prop)%existsb_exists. subst u.
    eapply member_parent; [by apply list_elem_of_In|done|constructor].
  - intros (e & He & (Hu%bool_decide_eq_true & Hs)%andb_prop)%existsb_exists. exists e.
    destruct (dget "status" (attrs e)) as [[]|] eqn:Hd; try done.
    eexists. split_and!; [by apply list_elem_of_In|done|done|by apply bool_decide_eq_true in Hs].
Qed.

Lemma matches_sound es u act p : matches_policy es u act p = true -> applies es u act p.
Proof.
  intros ((Hp%String.eqb_eq & Ha)%andb_prop & Hc%holds_sound)%andb_prop. split_and!; [done| |done].
  unfold covers. destruct (policy_actions p); [by apply bool_decide_eq_true in Ha|done].
Qed.

Lemma forbid_complete es u l : condition_holds es u (StatusIn l) -> holds es u (StatusIn l) = true.
Proof.
  intros (e & s & He & Hu & Hs & Hl). apply existsb_exists. exists e. split; [by apply list_elem_of_In|].
  rewrite bool_decide_true by done. rewrite Hs. simpl. by apply bool_decide_eq_true.
Qed.

#[export] Instance demo_laws : CedarLaws world.
Proof.
  split.
  - intros request policies es schema w r w' [= <- <-]. simpl.
    destruct (read_uid (principal request)) as [u|] eqn:Hu; [|done].
    destruct (read_uid (action request)) as [[ty act]|] eqn:Ha; [|done].
    destruct (decide (ty = "MIP::Action")) as [->|Hty].
    2: { unfold read_uid in Ha. destruct (startswith _ (action request)); [by injection Ha as <- <-|].
         destruct (startswith _ (action request)); [|done]. injection Ha as <- <-. done. }
    intros (Hex & Hall)%andb_prop. exists u, act. split_and!; try done.
    + apply existsb_exists in Hex as (p & Hp & Hm). apply Exists_exists. exists p. split; [by apply list_elem_of_In|].
      destruct (effect p); [|done]. split; [done|by apply matches_sound].
    + apply Forall_forall. intros p Hp Heff (Hty & Hcov & Hc). rewrite forallb_forall in Hall.
      specialize (Hall p ltac:(by apply list_elem_of_In)). rewrite Heff in Hall. apply negb_true_iff in Hall.
      unfold backend_policies in Hp.
      repeat (apply elem_of_cons in Hp as [->|Hp]; [try done|]); [|by apply not_elem_of_nil in Hp].
      unfold matches_policy in Hall. cbn [policy_actions condition principal_is] in *. rewrite Hty in Hall.
      rewrite (forbid_complete es u) in Hall; done.
  - intros id u. simpl. unfold read_uid. cbn. by intros [= <-].
Qed.

Definition engine : PolicyEngine := {| _schema := "schema"; _policies := "policies" |}.

Definition health : Func world string := {|
  qualname := Some "PassportServiceServicer.Health"; func_name := "Health"; body := fun _ => mret "serving" |}.

Definition administrator : AuthContext := {|
  authenticated := true; identity := Some "root"; auth_method := None; claims := [("roles", VList [VStr "Admin"])] |}.

Lemma administrator_served : fst (require "service:health" None (Some engine) health [GrpcContext] (Some administrator)) = Ok "serving".
Proof. by vm_compute. Qed.

Lemma bundled_engine_in_use : bundled_policies_in_use (Some engine).
Proof. by intros w e w'. Qed.

Lemma guarded_call_needs_role_witness : fst (require "document:sign" None (Some engine) health [Other; GrpcContext] (Some administrator)) = Ok "serving" /\
  has_role_for "document:sign" (Some administrator : world).
Proof.
  split; [by vm_compute|].
  destruct (guarded_call_needs_role "document:sign" None (Some engine) health [Other; GrpcContext] (Some administrator) bundled_engine_in_use)
    as [ [Hr _] |(e & w' & Hr)]; [exact Hr|]. specialize (Hr (body health)). exfalso. vm_compute in Hr. discriminate Hr.
Defined.

Lemma certificates_pass_no_guard_witness :
  exists e w', forall body : list Arg -> M world string,
    require "service:health" None (Some engine)
      {| qualname := qualname health; func_name := func_name health; body := body |} [GrpcContext] (Some (mtls "alice")) = (Raise e, w').
Proof.
  apply certificates_pass_no_guard with (it := GrpcAuth.Demo.interceptor) (details := GrpcAuth.Demo.probe []) (c := GrpcAuth.Demo.alice) (auth := mtls "alice");
    [by vm_compute|done|exact bundled_engine_in_use].
Defined.
End Demo.
