(* ===== verification/Interceptors.v ===== *)
(** * Server interceptors ([grpc_interceptors.py], [resilience/interceptors.py])

    Interceptors wrap the handler of a method: the first two turn the exceptions of
    the application into gRPC statuses, the third also puts a circuit breaker of
    [CircuitBreaker.v] around every method and can inject failures. The breakers of
    the module, the environment and the random source are parts of the world. *)

From S2P Require Import Prelude PyRuntime PyText PyInt PyFloat PyGen ErrorCodes CircuitBreaker GrpcHandlers.
Local Open Scope Z_scope.

(** [try: m except ...: h(e)] where [h] re-raises what no clause catches. *)
Definition try_clauses {W A} (m : M W A) (h : exn -> M W A) : M W A := fun w =>
  match m w with (Raise e, w) => h e w | r => r end.

Section wrapping.
Context {W Req Msg Codec : Type}.

Local Abbreviation behavior := (Behavior (W := W) (Req := Req) (Msg := Msg)).
Local Abbreviation handler := (Handler (W := W) (Req := Req) (Msg := Msg) (Codec := Codec)).
Local Abbreviation outcome := (Outcome (W := W) (Msg := Msg)).
Local Abbreviation response := (Response (W := W) (Msg := Msg)).
Local Abbreviation observed := (observation (W := W) (Msg := Msg)).

(** The handler of the first slot that is filled, wrapped; a handler without a
    behaviour is left as it is. *)
Definition rewrap (uu us su ss : behavior -> behavior) (h : handler) : handler :=
  match unary_unary h, unary_stream h, stream_unary h, stream_stream h with
  | Some f, _, _, _ => factory false false (uu f) (request_deserializer h) (response_serializer h)
  | _, Some f, _, _ => factory false true (us f) (request_deserializer h) (response_serializer h)
  | _, _, Some f, _ => factory true false (su f) (request_deserializer h) (response_serializer h)
  | _, _, _, Some f => factory true true (ss f) (request_deserializer h) (response_serializer h)
  | _, _, _, _ => h
  end.

(** ** Exceptions to statuses *)

(** The [except] clauses of the wrappers. *)
Definition to_status (c : ServicerContext W) (exc : exn) : M W unit :=
  if isinstance exc MartyServiceException_cls then abort c (default INTERNAL (exc_status_code exc)) (exn_message exc)
  else if isinstance exc RpcError then raise exc
  else if catchable exc then abort c INTERNAL (exn_message exc)
  else raise exc.

(** [ExceptionToStatusInterceptor]. *)
Definition _wrap_unary (func : behavior) : behavior := {|
  kind := Plain;
  call := fun request c => try_clauses (call func request c) (fun exc => _ ← to_status c exc; mret (Now RNone)) |}.

Definition _wrap_stream (func : behavior) : behavior :=
  generator (fun request c => with_except (to_status c) (mret tt) (start_with (sync_items func request c))).

Definition _wrap_unary_unary : behavior -> behavior := _wrap_unary.
Definition _wrap_unary_stream : behavior -> behavior := _wrap_stream.
Definition _wrap_stream_unary : behavior -> behavior := _wrap_unary.
Definition _wrap_stream_stream : behavior -> behavior := _wrap_stream.

Definition exception_intercept_service (continuation : HandlerCallDetails -> M W (option handler)) (details : HandlerCallDetails) : M W (option handler) :=
  found ← continuation details;
  mret (rewrap _wrap_unary_unary _wrap_unary_stream _wrap_stream_unary _wrap_stream_stream <$> found).

(** [AsyncExceptionToStatusInterceptor]. *)
Definition _maybe_await (result : outcome) : M W response := settle result.

Definition async_wrap_unary (func : behavior) : behavior :=
  coroutine (fun request c =>
    try_clauses (result ← call func request c; _maybe_await result) (fun exc => _ ← to_status c exc; mret RNone)).

Definition async_wrap_stream (func : behavior) : behavior :=
  async_generator (fun request c => with_except (to_status c) (mret tt) (loop_over (start_with (iter_items func request c)))).

Definition async_unary_unary : behavior -> behavior := async_wrap_unary.
Definition async_unary_stream : behavior -> behavior := async_wrap_stream.
Definition async_stream_unary : behavior -> behavior := async_wrap_unary.
Definition async_stream_stream : behavior -> behavior := async_wrap_stream.

(** It takes its factories from the module [grpc.aio]: [grpc_aio] tells which names
    that module has. *)
Definition no_attribute (name : string) : exn :=
  raise_ (subclass "AttributeError" Exception_) ("module 'grpc.aio' has no attribute '" +:+ name +:+ "'").

Definition aio_factory (grpc_aio : list string) (name : string) (h : handler) : M W (option handler) :=
  if mem name grpc_aio then mret (Some h) else raise (no_attribute name).

Definition async_exception_intercept_service (grpc_aio : list string) (continuation : HandlerCallDetails -> M W (option handler))
    (details : HandlerCallDetails) : M W (option handler) :=
  found ← continuation details;
  match found with
  | None => mret None
  | Some h =>
      let wrapped := rewrap async_unary_unary async_unary_stream async_stream_unary async_stream_stream h in
      match unary_unary h, unary_stream h, stream_unary h, stream_stream h with
      | Some f, _, _, _ => aio_factory grpc_aio "unary_unary_rpc_method_handler" wrapped
      | _, Some f, _, _ => aio_factory grpc_aio "unary_stream_rpc_method_handler" wrapped
      | _, _, Some f, _ => aio_factory grpc_aio "stream_unary_rpc_method_handler" wrapped
      | _, _, _, Some f => aio_factory grpc_aio "stream_stream_rpc_method_handler" wrapped
      | _, _, _, _ => mret (Some h)
      end
  end.
End wrapping.

(** ** Failure injection *)

Class Environ (W : Type) := { environ_get : string -> W -> option string }.

(** [random.random()], and the index [random.choice] picks below a length. *)
Class RandomSource (W : Type) := {
  random_random : W -> Q * W;
  random_index : nat -> W -> nat * W }.

Record FailureInjectionConfig := { enabled : bool; rate : Q }.

Section injection.
Context {W : Type} `{Environ W, RandomSource W}.

Definition FailureInjectionConfig_init : M W FailureInjectionConfig := fun w =>
  let text := default "0.0" (environ_get "MARTY_FAILURE_INJECTION_RATE" w) in
  (Ok {| enabled := mem (str_lower (default "false" (environ_get "MARTY_FAILURE_INJECTION" w))) ["1"; "true"; "yes"; "enabled"];
         rate := clamp01 (match parse_float text with Ok x => x | Raise _ => Finite 0 end) |}, w).

(** [random.random() < rate] *)
Definition random_below (rate : Q) : M W bool := fun w =>
  let '(x, w) := random_random w in (Ok (Qltb x rate), w).

Definition should_fail (config : FailureInjectionConfig) (force : bool) : M W bool :=
  if negb (enabled config) then mret false
  else if force then mret true
  else random_below (rate config).

(** [dict(pairs)] *)
Definition dict_of {V} (pairs : list (string * V)) : pydict V := foldl (fun d kv => dset (fst kv) (snd kv) d) [] pairs.

(** Whether the metadata of a call ask for a failure. *)
Definition forced (key : string) (c : ServicerContext W) : bool :=
  mem (str_lower (default "false" (dget key (dict_of (context_metadata c))))) ["1"; "true"; "yes"].

Definition _inject_failure_if_needed (config : FailureInjectionConfig) (c : ServicerContext W) : M W unit :=
  fail ← should_fail config (forced "x-failure-inject" c);
  if (fail : bool) then raise (TransientBackendError "Injected failure for resilience testing") else mret tt.
End injection.

(** ** Circuit breakers of methods *)

(** A dictionary of breakers by method, each with its configuration. *)
Class BreakerStore (W : Type) := {
  find_breaker : string -> W -> option (CircuitBreakerConfig * cb);
  put_breaker : string -> CircuitBreakerConfig * cb -> W -> W }.

Definition with_limits (threshold : Z) (timeout : Q) : CircuitBreakerConfig := {|
  failure_threshold := threshold; recovery_timeout := timeout;
  half_open_success_threshold := half_open_success_threshold default_config;
  failure_reset_timeout := failure_reset_timeout default_config;
  max_concurrent_requests := max_concurrent_requests default_config;
  error_classifier := error_classifier default_config; enable_metrics := enable_metrics default_config |}.

Section breakers.
Context {W : Type} `{World W, BreakerStore W}.

(** A method of the breaker of [name], which reads the clock. *)
Definition on_breaker {A} (name : string) (f : CircuitBreakerConfig -> Q -> cb -> A * cb) : M W A := fun w =>
  match find_breaker name w with
  | None => (Raise (raise_ KeyError name), w)
  | Some (config, b) =>
      let '(now, w) := time_time w in
      let '(a, b) := f config now b in (Ok a, put_breaker name (config, b) w)
  end.

Definition allow (name : string) : M W bool := on_breaker name allow_request.
Definition success (name : string) : M W unit := on_breaker name (fun config now b => (tt, record_success config now b)).
Definition failure (name : string) (exception : option exn) : M W unit :=
  on_breaker name (fun config now b => (tt, record_failure config exception now b)).

(** [CircuitBreaker(name, config)] under its name, if there is none yet. *)
Definition ensure_breaker (name : string) (config : CircuitBreakerConfig) : M W unit := fun w =>
  match find_breaker name w with
  | Some _ => (Ok tt, w)
  | None => let '(now, w) := time_time w in (Ok tt, put_breaker name (config, init now) w)
  end.

Context `{Environ W}.

Definition get_circuit_breaker (method_name : string) : M W unit := fun w =>
  let enabled := mem (str_lower (default "true" (environ_get "MARTY_CIRCUIT_BREAKER_ENABLED" w))) ["1"; "true"; "yes"] in
  ensure_breaker method_name (if enabled then default_config else with_limits 10 5) w.
End breakers.

(** ** The resilience interceptor *)

Section resilience.
Context {W : Type} `{World W, BreakerStore W, Environ W, RandomSource W} {Req Msg Codec : Type}.

Local Abbreviation behavior := (Behavior (W := W) (Req := Req) (Msg := Msg)).
Local Abbreviation handler := (Handler (W := W) (Req := Req) (Msg := Msg) (Codec := Codec)).
Local Abbreviation response := (Response (W := W) (Msg := Msg)).
Local Abbreviation observed := (observation (W := W) (Msg := Msg)).

Context (injection : FailureInjectionConfig).

(** The first statement of every wrapper. *)
Definition gate (name : string) (c : ServicerContext W) : M W unit :=
  allowed ← allow name;
  if negb allowed then abort c UNAVAILABLE ("Circuit open for " +:+ name) else mret tt.

(** The [except] clauses of every wrapper. *)
Definition on_exception (name : string) (c : ServicerContext W) (exc : exn) : M W unit :=
  if isinstance exc RpcError then raise exc
  else if catchable exc then
    let '(status, message) := map_exception_to_status exc in
    _ ← failure name None; abort c status message
  else raise exc.

(** [try: m except ...: ... else: breaker.record_success()] *)
Definition record_result (name : string) (c : ServicerContext W) (m : M W response) : M W response := fun w =>
  match m w with
  | (Ok result, w) => (_ ← success name; mret result) w
  | (Raise exc, w) => (_ ← on_exception name c exc; mret RNone) w
  end.

Definition resilient_unary (name : string) (func : behavior) : behavior :=
  coroutine (fun request c =>
    _ ← gate name c;
    record_result name c (_ ← _inject_failure_if_needed injection c; result ← call func request c; settle result)).

Definition resilient_stream (name : string) (func : behavior) : behavior :=
  async_generator (fun request c =>
    start_with (_ ← gate name c;
      mret (with_except (on_exception name c) (success name)
             (start_with (_ ← _inject_failure_if_needed injection c; iter_items func request c))))).

(** The wrappers of the four slots. *)
Definition resilient_unary_unary : string -> behavior -> behavior := resilient_unary.
Definition resilient_unary_stream : string -> behavior -> behavior := resilient_stream.
Definition resilient_stream_unary : string -> behavior -> behavior := resilient_unary.
Definition resilient_stream_stream : string -> behavior -> behavior := resilient_stream.

Definition resilient (name : string) : handler -> handler :=
  rewrap (resilient_unary_unary name) (resilient_unary_stream name) (resilient_stream_unary name) (resilient_stream_stream name).

Definition resilience_intercept_service (continuation : HandlerCallDetails -> M W (option handler)) (details : HandlerCallDetails) : M W (option handler) :=
  found ← continuation details;
  match found with
  | None => mret None
  | Some h =>
      _ ← get_circuit_breaker (method details);
      mret (Some (resilient (method details) h))
  end.
End resilience.

(** ** What a server sees through them *)

Section observed.
Context {W : Type} {Req Msg Codec : Type}.

Local Abbreviation behavior := (Behavior (W := W) (Req := Req) (Msg := Msg)).
Local Abbreviation handler := (Handler (W := W) (Req := Req) (Msg := Msg) (Codec := Codec)).
Local Abbreviation observed := (observation (W := W) (Msg := Msg)).

(** [try: ... except: on_error(e) else: on_end()] around a call: a stream that its
    consumer closes runs neither, unless closing fails. *)
Definition clauses (on_error : exn -> M W unit) (on_end : M W unit) (x : observed) : observed :=
  let '(ms, a, w) := x in
  match a with
  | Replied (Ok o) => let '(r, w) := on_end w in (ms, Replied (_ ← r; Ok o), w)
  | Replied (Raise e) => let '(r, w) := on_error e w in (ms, Replied (_ ← r; Ok (Now RNone)), w)
  | Streamed Exhausted => let '(e, w) := ends (on_end w) in (ms, Streamed e, w)
  | Streamed (Crashed e) => let '(e, w) := ends (on_error e w) in (ms, Streamed e, w)
  | Streamed (Closed (Ok _)) => (ms, Streamed (Closed (Ok tt)), w)
  | Streamed (Closed (Raise e)) => let '(r, w) := on_error e w in (ms, Streamed (Closed r), w)
  end.

(** What a call gives that raises before it does anything. *)
Definition raised (resp_streaming : bool) (e : exn) (w : W) : observed :=
  ([], (if resp_streaming then Streamed (Crashed e) else Replied (Raise e)), w).

Definition then_serve {A} (resp_streaming : bool) (m : M W A) (run : W -> observed) (w : W) : observed :=
  match m w with (Ok _, w) => run w | (Raise e, w) => raised resp_streaming e w end.

Lemma streamed_except (k : Msg -> W -> bool * W) on_error on_end g w :
  streamed (consume k (with_except on_error on_end g) w) = clauses on_error on_end (streamed (consume k g w)).
Proof.
  rewrite consume_except. destruct (consume k g w) as [[ms e] w']. destruct e as [|[ [] |e]|e]; simpl; try done.
  - by destruct (ends (on_end w')).
  - by destruct (on_error e w').
  - by destruct (ends (on_error e w')).
Qed.

Lemma streamed_start (k : Msg -> W -> bool * W) {A} (m : M W A) (f : A -> M W (Gen W Msg)) w :
  streamed (consume k (start_with (m ≫= f)) w) =
  match m w with (Ok a, w) => streamed (consume k (start_with (f a)) w) | (Raise e, w) => raised true e w end.
Proof. rewrite consume_start. unfold mbind, M_bind. destruct (m w) as [[a|e] w']; [|done]. by rewrite consume_start. Qed.

Lemma rewrap_factory (uu us su ss : behavior -> behavior) rs ws (b : behavior) (d e : option Codec) :
  rewrap uu us su ss (factory rs ws b d e) =
  factory rs ws (if rs then if ws then ss b else su b else if ws then us b else uu b) d e.
Proof. by destruct rs, ws. Qed.

(** A handler that a factory made is served as before, its exceptions as statuses. *)
Theorem exceptions_become_statuses details (continuation : HandlerCallDetails -> M W (option handler)) rs ws (b : behavior) d s w w1 :
  asynchronous b = false -> continuation details w = (Ok (Some (factory rs ws b d s)), w1) ->
  exists b', exception_intercept_service continuation details w = (Ok (Some (factory rs ws b' d s)), w1) /\
    forall k request c w, serve true ws b' k request c w = clauses (to_status c) (mret tt) (serve true ws b k request c w).
Proof.
  intros Hb Hc. exists (if ws then _wrap_stream b else _wrap_unary b). split.
  { unfold exception_intercept_service, mbind, M_bind. rewrite Hc. simpl. rewrite rewrap_factory. by destruct rs, ws. }
  intros k request c w2. destruct ws.
  - unfold _wrap_stream. rewrite serve_generator, streamed_except. unfold serve. by rewrite Hb.
  - unfold serve. rewrite Hb. cbn [asynchronous kind _wrap_unary call]. unfold try_clauses.
    destruct (call b request c w2) as [[o|e] w3]; [done|]. simpl. unfold mbind, M_bind. by destruct (to_status c e w3) as [ [] w4].
Qed.

(** An abort of the handler itself does not get through: its exception is an
    unhandled one, and the call is aborted a second time. *)
Theorem handler_aborts_are_overwritten (b : behavior) status message request c w e w1 :
  call b request c w = (_ ← abort c status message; mret (Now RNone)) w ->
  abort c status message w = (Raise e, w1) ->
  isinstance e MartyServiceException_cls = false -> isinstance e RpcError = false -> catchable e = true ->
  call (_wrap_unary b) request c w = (_ ← abort c INTERNAL (exn_message e); mret (Now RNone)) w1.
Proof.
  intros Hcall Habort Hm Hr He. cbn [_wrap_unary call]. unfold try_clauses. rewrite Hcall.
  unfold mbind at 1, M_bind at 1. rewrite Habort. unfold mbind, M_bind, to_status. by rewrite Hm, Hr, He.
Qed.

(** The asynchronous interceptor installs nothing: [grpc.aio] has no such factories. *)
Theorem async_interceptor_fails grpc_aio details (continuation : HandlerCallDetails -> M W (option handler)) rs ws (b : behavior) d s w w1 :
  Forall (fun n => n ∉ grpc_aio) ["unary_unary_rpc_method_handler"; "unary_stream_rpc_method_handler";
    "stream_unary_rpc_method_handler"; "stream_stream_rpc_method_handler"] ->
  continuation details w = (Ok (Some (factory rs ws b d s)), w1) ->
  exists n, async_exception_intercept_service grpc_aio continuation details w = (Raise (no_attribute n), w1).
Proof.
  rewrite !Forall_cons. intros (H1 & H2 & H3 & H4 & _) Hc.
  unfold async_exception_intercept_service, mbind, M_bind. rewrite Hc. unfold aio_factory, mem.
  destruct rs, ws; simpl; rewrite bool_decide_false by done; by eexists.
Qed.
End observed.

Section protected.
Context {W : Type} `{World W, BreakerStore W, Environ W, RandomSource W} {Req Msg Codec : Type}.

Local Abbreviation behavior := (Behavior (W := W) (Req := Req) (Msg := Msg)).
Local Abbreviation handler := (Handler (W := W) (Req := Req) (Msg := Msg) (Codec := Codec)).
Local Abbreviation observed := (observation (W := W) (Msg := Msg)).

Context (injection : FailureInjectionConfig).

(** A call of the handler, the failure that may be injected included. *)
Definition injected_call (ws : bool) (b : behavior) k request c : W -> observed :=
  then_serve ws (_inject_failure_if_needed injection c) (fun w =>
    if ws then streamed (consume k (start_with (iter_items b request c)) w)
    else let '(r, w) := (o ← call b request c; settle o) w in ([], Replied (x ← r; Ok (Now x)), w)).

(** The wrapper as a composition of what it does before and after the call. *)
Lemma resilient_serve name rs ws (b : behavior) (d s : option Codec) k request c w :
  serve true ws (behavior_of (resilient injection name (factory rs ws b d s))) k request c w =
  then_serve ws (gate name c)
    (fun w => clauses (on_exception name c) (success name) (injected_call ws b k request c w)) w.
Proof.
  unfold resilient. rewrite rewrap_factory, behavior_of_factory. unfold injected_call, then_serve.
  transitivity (serve true ws (if ws then resilient_stream injection name b else resilient_unary injection name b) k request c w); [by destruct rs, ws|].
  destruct ws.
  - unfold resilient_stream. rewrite serve_async_generator, streamed_start.
    destruct (gate name c w) as [[ [] |e] w1]; [|done]. rewrite consume_start. cbn [mret M_ret].
    rewrite streamed_except, streamed_start. by destruct (_inject_failure_if_needed injection c w1) as [[ [] |e] w2].
  - unfold resilient_unary. rewrite serve_coroutine. unfold mbind at 1, M_bind at 1.
    destruct (gate name c w) as [[ [] |e] w1]; [|done]. unfold record_result. unfold mbind at 1, M_bind at 1.
    destruct (_inject_failure_if_needed injection c w1) as [[ [] |e] w2].
    + destruct ((o ← call b request c; settle o) w2) as [[o|e] w3]; simpl; unfold mbind, M_bind.
      * by destruct (success name w3) as [[] w4].
      * by destruct (on_exception name c e w3) as [[] w4].
    + simpl. unfold mbind, M_bind. by destruct (on_exception name c e w2) as [[] w4].
Qed.
End protected.

Class BreakerStoreLaws (W : Type) `{World W, BreakerStore W} := {
  find_put name b w : find_breaker name (put_breaker name b w) = Some b;
  find_put_ne name name' b w : name <> name' -> find_breaker name' (put_breaker name b w) = find_breaker name' w;
  find_time name w : find_breaker name (snd (time_time w)) = find_breaker name w }.

(** ** What a resilient handler promises *)

Section promised.
Context {W : Type} `{World W, BreakerStore W, !BreakerStoreLaws W, Environ W, RandomSource W} {Req Msg Codec : Type}.

Local Abbreviation behavior := (Behavior (W := W) (Req := Req) (Msg := Msg)).
Local Abbreviation handler := (Handler (W := W) (Req := Req) (Msg := Msg) (Codec := Codec)).
Local Abbreviation observed := (observation (W := W) (Msg := Msg)).
Local Abbreviation answered := (answer (W := W) (Msg := Msg)).

Context (injection : FailureInjectionConfig).

(** The breaker of a method after a call of one of its operations. *)
Definition moved (name : string) (f : CircuitBreakerConfig -> Q -> cb -> cb) (w w' : W) : Prop :=
  exists config b, find_breaker name w = Some (config, b) /\
    w' = put_breaker name (config, f config (fst (time_time w)) b) (snd (time_time w)).

(** The last metadata entry of the name, if it says yes. *)
Definition asks_failure (c : ServicerContext W) : bool :=
  match List.find (fun kv => String.eqb (fst kv) "x-failure-inject") (rev (context_metadata c)) with
  | Some kv => existsb (String.eqb (str_lower (snd kv))) ["1"; "true"; "yes"]
  | None => false
  end.

(** A failure is injected only when that is enabled: when the client asks, else by chance. *)
Inductive injects (c : ServicerContext W) : W -> bool -> W -> Prop :=
| injects_off w : enabled injection = false -> injects c w false w
| injects_asked w : enabled injection = true -> asks_failure c = true -> injects c w true w
| injects_chance w x w' : enabled injection = true -> asks_failure c = false -> random_random w = (x, w') ->
    injects c w (Qltb x (rate injection)) w'.

(** The handler's own answer. *)
Definition own_call (ws : bool) (b : behavior) k request c (w : W) : observed :=
  if ws then streamed (consume k (start_with (iter_items b request c)) w)
  else let '(r, w) := (o ← call b request c; settle o) w in ([], Replied (x ← r; Ok (Now x)), w).

(** The exception that ends a call, and the same end by another exception. *)
Definition fails_with (a : answered) : option exn :=
  match a with
  | Replied (Raise e) | Streamed (Crashed e) | Streamed (Closed (Raise e)) => Some e
  | _ => None
  end.
Definition fails_by (e : exn) (a : answered) : answered :=
  match a with
  | Replied _ => Replied (Raise e)
  | Streamed (Closed _) => Streamed (Closed (Raise e))
  | Streamed _ => Streamed (Crashed e)
  end.

(** What is made of an answer: a reply and a finished stream are successes; an exception
    of the application is a failure, and the call is aborted with its status; errors of
    gRPC, interruptions, and streams that the client stops, pass unrecorded. *)
Inductive settled (name : string) (c : ServicerContext W) : observed -> observed -> Prop :=
| settled_reply ms o w w' : moved name record_success w w' -> settled name c (ms, Replied (Ok o), w) (ms, Replied (Ok o), w')
| settled_end ms w w' : moved name record_success w w' -> settled name c (ms, Streamed Exhausted, w) (ms, Streamed Exhausted, w')
| settled_stopped ms u w : settled name c (ms, Streamed (Closed (Ok u)), w) (ms, Streamed (Closed (Ok u)), w)
| settled_passed ms a e w : fails_with a = Some e -> isinstance e RpcError || negb (catchable e) = true -> settled name c (ms, a, w) (ms, a, w)
| settled_aborted ms a e w w1 e' w' :
    fails_with a = Some e -> isinstance e RpcError || negb (catchable e) = false ->
    moved name (fun config now => record_failure config None now) w w1 ->
    abort c (fst (map_exception_to_status e)) (snd (map_exception_to_status e)) w1 = (Raise e', w') ->
    settled name c (ms, a, w) (ms, fails_by e' a, w').

(** A call: turned away while the breaker is open, without the handler; else the handler's,
    or the failure in its place. *)
Inductive guarded (name : string) (ws : bool) (b : behavior) k request (c : ServicerContext W) (w : W) : observed -> Prop :=
| guarded_open config br br' e w' :
    find_breaker name w = Some (config, br) -> allow_request config (fst (time_time w)) br = (false, br') ->
    abort c UNAVAILABLE ("Circuit open for " +:+ name) (put_breaker name (config, br') (snd (time_time w))) = (Raise e, w') ->
    guarded name ws b k request c w ([], (if ws then Streamed (Crashed e) else Replied (Raise e)), w')
| guarded_injected config br br' w1 x :
    find_breaker name w = Some (config, br) -> allow_request config (fst (time_time w)) br = (true, br') ->
    injects c (put_breaker name (config, br') (snd (time_time w))) true w1 ->
    (let e := TransientBackendError "Injected failure for resilience testing" in
     settled name c ([], (if ws then Streamed (Crashed e) else Replied (Raise e)), w1) x) ->
    guarded name ws b k request c w x
| guarded_called config br br' w1 x :
    find_breaker name w = Some (config, br) -> allow_request config (fst (time_time w)) br = (true, br') ->
    injects c (put_breaker name (config, br') (snd (time_time w))) false w1 ->
    settled name c (own_call ws b k request c w1) x ->
    guarded name ws b k request c w x.

(** The abort of a call raises, as gRPC documents, and breakers are not removed, neither
    by the handler nor by chance. *)
Definition aborts (c : ServicerContext W) : Prop := forall status message w, exists e w', abort c status message w = (Raise e, w').
Definition registered (name : string) (w : W) : Prop := exists br, find_breaker name w = Some br.
Definition keeps_registered (name : string) (ws : bool) (b : behavior) (k : Msg -> W -> bool * W) request (c : ServicerContext W) : Prop :=
  (forall w, registered name w -> registered name (snd (own_call ws b k request c w))) /\
  (forall w, registered name w -> registered name (snd (random_random w))).

Lemma find_last {A} (p : A -> bool) l x : List.find p (l ++ [x]) = match List.find p l with Some y => Some y | None => if p x then Some x else None end.
Proof. induction l as [|y l IH]; [done|]. simpl. by destruct (p y). Qed.

Lemma forced_asks c : forced "x-failure-inject" c = asks_failure c.
Proof.
  unfold forced, asks_failure, dict_of. generalize (context_metadata c) as l. intros l.
  assert (forall d, dget "x-failure-inject" (foldl (fun d kv => dset (fst kv) (snd kv) d) d l) =
    match List.find (fun kv => String.eqb (fst kv) "x-failure-inject") (rev l) with Some kv => Some (snd kv) | None => dget "x-failure-inject" d end) as Hl.
  { induction l as [|kv l IH]; intros d; [done|]. cbn [foldl rev]. rewrite IH, find_last.
    destruct (List.find _ (rev l)); [done|]. destruct (String.eqb_spec (fst kv) "x-failure-inject") as [->|Hne]; [by rewrite dget_dset_eq|].
    by rewrite dget_dset_ne. }
  rewrite Hl. destruct (List.find _ (rev l)) as [kv|]; [|done]. simpl default. apply eq_true_iff_eq. rewrite mem_true, existsb_exists. split.
  - intros Hin. eexists. split; [exact Hin|]. by apply String.eqb_eq.
  - intros (x & Hx & He). apply String.eqb_eq in He as ->. exact Hx.
Qed.

Lemma injection_injects c w : exists hit w1, injects c w hit w1 /\
  _inject_failure_if_needed injection c w = (if hit then Raise (TransientBackendError "Injected failure for resilience testing") else Ok tt, w1).
Proof.
  unfold _inject_failure_if_needed, should_fail, mbind, M_bind. rewrite forced_asks. destruct (enabled injection) eqn:He; simpl.
  - destruct (asks_failure c) eqn:Ha; simpl; [exists true, w; split; [by apply injects_asked|done]|].
    unfold random_below. destruct (random_random w) as [x w1] eqn:Hr. exists (Qltb x (rate injection)), w1.
    split; [by apply injects_chance|]. by destruct (Qltb x (rate injection)).
  - exists false, w. split; [by apply injects_off|done].
Qed.

Lemma on_breaker_moved {A} name (f : CircuitBreakerConfig -> Q -> cb -> A * cb) w config b : find_breaker name w = Some (config, b) ->
  on_breaker name f w = (Ok (fst (f config (fst (time_time w)) b)), put_breaker name (config, snd (f config (fst (time_time w)) b)) (snd (time_time w))).
Proof. intros Hb. unfold on_breaker. rewrite Hb. destruct (time_time w) as [now w']. simpl. by destruct (f config now b). Qed.

Lemma success_moved name w : registered name w -> exists w', success name w = (Ok tt, w') /\ moved name record_success w w'.
Proof.
  intros [[config b] Hb]. unfold success. rewrite (on_breaker_moved _ _ _ _ _ Hb). eexists. split; [done|]. by exists config, b.
Qed.

Lemma exception_settled name c e w : aborts c -> registered name w ->
  (isinstance e RpcError || negb (catchable e) = true /\ on_exception name c e w = (Raise e, w)) \/
  (isinstance e RpcError || negb (catchable e) = false /\
   exists w1 e' w', moved name (fun config now => record_failure config None now) w w1 /\
     abort c (fst (map_exception_to_status e)) (snd (map_exception_to_status e)) w1 = (Raise e', w') /\ on_exception name c e w = (Raise e', w')).
Proof.
  intros Ha [[config b] Hb]. unfold on_exception. destruct (isinstance e RpcError); [by left|]. destruct (catchable e); [right|by left].
  split; [done|]. destruct (map_exception_to_status e) as [status message]. unfold failure, mbind, M_bind.
  rewrite (on_breaker_moved _ _ _ _ _ Hb). simpl. set (w1 := put_breaker _ _ _). destruct (Ha status message w1) as (e' & w' & He).
  exists w1, e', w'. split; [by exists config, b|]. by rewrite He.
Qed.

Lemma clauses_settled name c x : aborts c -> registered name (snd x) -> settled name c x (clauses (on_exception name c) (success name) x).
Proof.
  intros Ha. destruct x as [[ms a] w]. simpl snd. intros Hreg. destruct a as [[o|e]|[|[u|e]|e]]; simpl.
  - destruct (success_moved name w Hreg) as (w' & -> & Hm). by apply settled_reply.
  - destruct (exception_settled name c e w Ha Hreg) as [[He ->]|(He & w1 & e' & w' & Hm & Hab & ->)]; [by eapply settled_passed|].
    by apply (settled_aborted name c ms (Replied (Raise e)) e w w1 e' w').
  - destruct (success_moved name w Hreg) as (w' & -> & Hm). by apply settled_end.
  - destruct u. apply settled_stopped.
  - destruct (exception_settled name c e w Ha Hreg) as [[He ->]|(He & w1 & e' & w' & Hm & Hab & ->)]; [by eapply settled_passed|].
    by apply (settled_aborted name c ms (Streamed (Closed (Raise e))) e w w1 e' w').
  - destruct (exception_settled name c e w Ha Hreg) as [[He ->]|(He & w1 & e' & w' & Hm & Hab & ->)]; [by eapply settled_passed|].
    by apply (settled_aborted name c ms (Streamed (Crashed e)) e w w1 e' w').
Qed.

End promised.

(** ** The breaker of a method *)

Section verdict.
Context {W : Type} `{World W, BreakerStore W, !BreakerStoreLaws W, Environ W, RandomSource W} {Req Msg Codec : Type}.

Local Abbreviation behavior := (Behavior (W := W) (Req := Req) (Msg := Msg)).
Local Abbreviation observed := (observation (W := W) (Msg := Msg)).

(** The time the next reading of the clock gives. *)
Definition clock (w : W) : Q := fst (time_time w).

(** A computation leaves the breaker of [name] alone. *)
Definition leaves {A} (name : string) (f : W -> A * W) : Prop :=
  forall w, find_breaker name (snd (f w)) = find_breaker name w.

Lemma on_breaker_spec {A} name (f : CircuitBreakerConfig -> Q -> cb -> A * cb) config b w :
  find_breaker name w = Some (config, b) ->
  let '(a, b') := f config (clock w) b in
  on_breaker name f w = (Ok a, put_breaker name (config, b') (snd (time_time w))).
Proof.
  intros Hb. unfold on_breaker, clock. rewrite Hb. destruct (time_time w) as [now w']. simpl. by destruct (f config now b).
Qed.

(** What is recorded for an answer. *)
Definition verdict (config : CircuitBreakerConfig) (now : Q) (a : answer (W := W) (Msg := Msg)) (b : cb) : cb :=
  match a with
  | Replied (Ok _) | Streamed Exhausted => record_success config now b
  | Replied (Raise e) | Streamed (Crashed e) | Streamed (Closed (Raise e)) =>
      if negb (isinstance e RpcError) && catchable e then record_failure config None now b else b
  | Streamed (Closed (Ok _)) => b
  end.

Lemma recorded name c x config b : (forall status message, leaves name (abort c status message)) ->
  find_breaker name (snd x) = Some (config, b) ->
  find_breaker name (snd (clauses (on_exception name c) (success name) x)) =
  Some (config, verdict config (clock (snd x)) (snd (fst x)) b).
Proof.
  intros Habort Hb. destruct x as [[ms a] w]. simpl in *.
  assert (find_breaker name (snd (success name w)) = Some (config, record_success config (clock w) b)) as Hs.
  { unfold success. pose proof (on_breaker_spec name (fun config now b => (tt, record_success config now b)) config b w Hb) as ->.
    apply find_put. }
  assert (forall e, find_breaker name (snd (on_exception name c e w)) =
    Some (config, if negb (isinstance e RpcError) && catchable e then record_failure config None (clock w) b else b)) as He.
  { intros e. unfold on_exception. destruct (isinstance e RpcError); [done|]. destruct (catchable e); [|done]. cbn [negb andb].
    destruct (map_exception_to_status e) as [status message]. unfold failure, mbind, M_bind.
    rewrite (on_breaker_spec name (fun config now b => (tt, record_failure config None now b)) config b w Hb).
    rewrite Habort. apply find_put. }
  destruct a as [[o|e]|[|[ [] |e]|e]]; simpl.
  - by destruct (success name w) as [[] w'].
  - specialize (He e). by destruct (on_exception name c e w) as [[] w'].
  - by destruct (success name w) as [[] w'].
  - done.
  - specialize (He e). by destruct (on_exception name c e w) as [[] w'].
  - specialize (He e). by destruct (on_exception name c e w) as [[] w'].
Qed.

(** The breaker of a method moves as its calls go, and an open one answers for the
    handler. Every exception of the application counts, whatever its class. *)
Theorem method_breaker name c ws (run : W -> observed) config b w :
  (forall status message, leaves name (abort c status message)) -> leaves name run ->
  find_breaker name w = Some (config, b) ->
  let '(ok, b1) := allow_request config (clock w) b in
  let w1 := put_breaker name (config, b1) (snd (time_time w)) in
  if ok then
    let x := run w1 in
    let x' := then_serve ws (gate name c) (fun w => clauses (on_exception name c) (success name) (run w)) w in
    x' = clauses (on_exception name c) (success name) x /\
    find_breaker name (snd x') = Some (config, verdict config (clock (snd x)) (snd (fst x)) b1)
  else
    forall e w2, abort c UNAVAILABLE ("Circuit open for " +:+ name) w1 = (Raise e, w2) ->
    forall run' : W -> observed, then_serve ws (gate name c) run' w = raised ws e w2.
Proof.
  intros Habort Hrun Hb. destruct (allow_request config (clock w) b) as [ok b1] eqn:Hallow.
  pose proof (on_breaker_spec name allow_request config b w Hb) as Hgate. rewrite Hallow in Hgate.
  assert (gate name c w = (if ok then mret tt else abort c UNAVAILABLE ("Circuit open for " +:+ name))
                            (put_breaker name (config, b1) (snd (time_time w)))) as Hg.
  { unfold gate, allow, mbind, M_bind. rewrite Hgate. by destruct ok. }
  destruct ok; simpl.
  - unfold then_serve. rewrite Hg. cbn [mret M_ret]. split; [done|].
    apply recorded; [done|]. rewrite Hrun. apply find_put.
  - intros e w2 He run'. unfold then_serve. by rewrite Hg, He.
Qed.

(** Client errors open the breaker as any failure does: the last one before the
    threshold opens a closed breaker. *)
Lemma any_exception_opens config now (e : exn) b :
  isinstance e RpcError = false -> catchable e = true -> _state b = CLOSED ->
  failure_threshold config <= _failure_count b + 1 ->
  _state (verdict config now (Replied (Raise e)) b) = OPEN.
Proof.
  intros Hr He Hs Hf. unfold verdict. rewrite Hr, He. simpl. unfold record_failure. simpl.
  destruct b; simpl in *; subst. simpl. rewrite (proj2 (Z.leb_le _ _)) by lia. done.
Qed.
End verdict.

(** ** A concrete server *)

Module Demo.
(** The breakers, the status a call ends with, and the setting of the breaker. *)
Record world := { store : pydict (CircuitBreakerConfig * cb); status : option StatusCode; switch : option string }.

Definition empty_world : world := {| store := []; status := None; switch := Some "false" |}.

#[export] Instance demo_world : World world := { time_time w := (0%Q, w); sleep _ w := w; randbelow _ w := (0, w) }.
#[export] Instance demo_environ : Environ world := {
  environ_get n w := if String.eqb n "MARTY_CIRCUIT_BREAKER_ENABLED" then switch w else None }.
#[export] Instance demo_random : RandomSource world := { random_random w := (0%Q, w); random_index _ w := (O, w) }.
#[export] Instance demo_store : BreakerStore world := {
  find_breaker n w := dget n (store w);
  put_breaker n b w := {| store := dset n b (store w); status := status w; switch := switch w |} }.

#[export] Instance demo_laws : BreakerStoreLaws world.
Proof. split; simpl; [intros; apply dget_dset_eq|intros; by apply dget_dset_ne|done]. Qed.

Definition context : ServicerContext world := {|
  auth_context := Ok []; peer_identity_key := Ok None; peer_identities := Ok None; context_metadata := [];
  abort code _ w := (Raise (raise_ Exception_ ""), {| store := store w; status := Some code; switch := switch w |}) |}.

Definition details : HandlerCallDetails := {| method := "/svc/Get"; invocation_metadata := [] |}.

Definition handler : Type := Handler (W := world) (Req := unit) (Msg := string) (Codec := unit).

Definition unary_handler (m : M world (Outcome (W := world) (Msg := string))) : handler :=
  factory false false {| kind := Plain; call := fun _ _ => m |} None None.

Definition serve_once (f : handler) (w : world) : world :=
  snd (serve true false (behavior_of f) (fun (_ : string) w => (true, w)) tt context w).

(** A handler that reports that nothing was found. *)
Definition not_found : handler := unary_handler (_ ← abort context NOT_FOUND "no such document"; mret (Now RNone)).

(** It ends with an internal error. *)
Lemma not_found_is_internal :
  match exception_intercept_service (fun _ => mret (Some not_found)) details empty_world with
  | (Ok (Some h), w) => status (serve_once h w)
  | _ => None
  end = Some INTERNAL.
Proof. by vm_compute. Qed.

(** A handler that is given bad input, behind a breaker that is switched off. *)
Definition bad_input : handler := unary_handler (raise (ValidationError "bad")).

Definition after_calls (n : nat) : option (CircuitBreakerState * StatusCode) :=
  match resilience_intercept_service {| enabled := false; rate := 0 |} (fun _ => mret (Some bad_input)) details empty_world with
  | (Ok (Some h), w) =>
      let w := Nat.iter n (serve_once h) w in
      '(_, b) ← find_breaker "/svc/Get" w; s ← status w; Some (_state b, s)
  | _ => None
  end.

Lemma switched_off_breaker_opens :
  after_calls 9 = Some (CLOSED, INVALID_ARGUMENT) /\ after_calls 10 = Some (OPEN, INVALID_ARGUMENT) /\
  after_calls 11 = Some (OPEN, UNAVAILABLE).
Proof. by vm_compute. Qed.

Lemma exceptions_become_statuses_witness :
  exists b', exception_intercept_service (fun _ => mret (Some not_found)) details empty_world =
      (Ok (Some (factory false false b' None None)), empty_world) /\
    status (snd (serve true false b' (fun (_ : string) w => (true, w)) tt context empty_world)) = Some INTERNAL.
Proof.
  destruct (exceptions_become_statuses details (fun _ => mret (Some not_found)) false false
    (behavior_of not_found) None None empty_world empty_world eq_refl eq_refl) as (b' & Hi & Hs).
  exists b'. split; [exact Hi|]. rewrite Hs. by vm_compute.
Defined.

Definition off : FailureInjectionConfig := {| enabled := false; rate := 0 |}.
Definition always_more (_ : string) (w : world) : bool * world := (true, w).


Lemma method_breaker_witness :
  let w := put_breaker "m" (with_limits 1 5, init 0) empty_world in
  let run w := ([] : list string, Replied (Raise (ValidationError "bad")), w) in
  find_breaker "m" (snd (then_serve false (gate "m" context) (fun w => clauses (on_exception "m" context) (success "m") (run w)) w)) =
  Some (with_limits 1 5, record_failure (with_limits 1 5) None 0 (init 0)).
Proof.
  exact (proj2 (method_breaker "m" context false (fun w => ([] : list string, Replied (Raise (ValidationError "bad")), w))
    (with_limits 1 5) (init 0) (put_breaker "m" (with_limits 1 5, init 0) empty_world)
    (fun _ _ _ => eq_refl) (fun _ => eq_refl) eq_refl)).
Defined.
End Demo.
