(* ===== verification/EnhancedInterceptors.v ===== *)
(** * The enhanced resilience interceptor ([resilience/enhanced_interceptors.py])

    An interceptor with a breaker and request metrics for every method, injected
    failures of several classes, and a classification of errors of its own: a client's
    errors do not reach the breaker. Breakers, the random source and the handlers are
    those of [Interceptors.v] and [GrpcHandlers.v]; metrics are parts of the world. *)

From S2P Require Import Prelude PyRuntime PyText PyNumbers PyGen ErrorCodes CircuitBreaker GrpcHandlers Interceptors.
Local Open Scope Z_scope.

(** ** Failure injection *)

(** A class of errors with its constructor. *)
Record ErrorType := { error_class : pyclass; construct : string -> exn }.

Definition TransientType : ErrorType := {| error_class := TransientBackendError_cls; construct := TransientBackendError |}.

Record AdvancedFailureInjectionConfig := {
  inj_enabled : bool; base_failure_rate : Q; method_specific_rates : pydict Q;
  error_types : list ErrorType; target_metadata_key : string }.

(** The constructor clamps the base rate and replaces an empty list of classes. *)
Definition AdvancedFailureInjectionConfig_init (enabled : bool) (rate : Q) (rates : option (pydict Q))
    (types : option (list ErrorType)) (key : string) : AdvancedFailureInjectionConfig := {|
  inj_enabled := enabled; base_failure_rate := py_max 0 (py_min 1 rate);
  method_specific_rates := default [] rates;
  error_types := match types with Some (_ :: _ as l) => l | _ => [TransientType] end;
  target_metadata_key := key |}.

Section injection.
Context {W : Type} `{RandomSource W}.

Definition adv_should_fail (config : AdvancedFailureInjectionConfig) (method : string) (force : bool) : M W bool :=
  if negb (inj_enabled config) then mret false
  else if force then mret true
  else random_below (default (base_failure_rate config) (dget method (method_specific_rates config))).

Definition get_error_to_inject (config : AdvancedFailureInjectionConfig) : M W exn := fun w =>
  let '(i, w) := random_index (length (error_types config)) w in
  match error_types config !! i with
  | None => (Raise (raise_ (subclass "IndexError" LookupError) "Cannot choose from an empty sequence"), w)
  | Some t =>
      (Ok (if String.eqb (cls_name (error_class t)) "TransientBackendError" then TransientBackendError "Injected failure for resilience testing"
           else construct t "Injected failure for testing"), w)
  end.

Definition _should_inject_failure (config : AdvancedFailureInjectionConfig) (c : ServicerContext W) (method : string) : M W bool :=
  adv_should_fail config method (forced (target_metadata_key config) c).
End injection.

(** ** Request metrics *)

Record RequestMetrics := {
  total_requests : Z; successful_requests : Z; failed_requests : Z; circuit_breaker_rejections : Z;
  injected_failures : Z; error_counts_by_type : pydict Z; last_request_time : Q;
  average_response_time : Q; _response_times : list Q }.

Definition new_metrics : RequestMetrics := {|
  total_requests := 0; successful_requests := 0; failed_requests := 0; circuit_breaker_rejections := 0;
  injected_failures := 0; error_counts_by_type := []; last_request_time := 0;
  average_response_time := 0; _response_times := [] |}.

Definition record_request_start (now : Q) (m : RequestMetrics) : Q * RequestMetrics := (now, {|
  total_requests := total_requests m + 1; successful_requests := successful_requests m;
  failed_requests := failed_requests m; circuit_breaker_rejections := circuit_breaker_rejections m;
  injected_failures := injected_failures m; error_counts_by_type := error_counts_by_type m;
  last_request_time := now; average_response_time := average_response_time m; _response_times := _response_times m |}).

Definition _record_response_time (start_time now : Q) (m : RequestMetrics) : RequestMetrics :=
  let times := _response_times m ++ [(now - start_time)%Q] in
  let times := if (100 <? length times)%nat then tail times else times in {|
  total_requests := total_requests m; successful_requests := successful_requests m;
  failed_requests := failed_requests m; circuit_breaker_rejections := circuit_breaker_rejections m;
  injected_failures := injected_failures m; error_counts_by_type := error_counts_by_type m;
  last_request_time := last_request_time m; average_response_time := meanQ times; _response_times := times |}.

Definition record_request_success (start_time now : Q) (m : RequestMetrics) : RequestMetrics :=
  _record_response_time start_time now {|
  total_requests := total_requests m; successful_requests := successful_requests m + 1;
  failed_requests := failed_requests m; circuit_breaker_rejections := circuit_breaker_rejections m;
  injected_failures := injected_failures m; error_counts_by_type := error_counts_by_type m;
  last_request_time := last_request_time m; average_response_time := average_response_time m; _response_times := _response_times m |}.

Definition record_request_failure (start_time : Q) (error_type : string) (is_injected : bool) (now : Q) (m : RequestMetrics) : RequestMetrics :=
  _record_response_time start_time now {|
  total_requests := total_requests m; successful_requests := successful_requests m;
  failed_requests := failed_requests m + 1; circuit_breaker_rejections := circuit_breaker_rejections m;
  injected_failures := if is_injected then injected_failures m + 1 else injected_failures m;
  error_counts_by_type := dset error_type (default 0 (dget error_type (error_counts_by_type m)) + 1) (error_counts_by_type m);
  last_request_time := last_request_time m; average_response_time := average_response_time m; _response_times := _response_times m |}.

Definition record_circuit_breaker_rejection (m : RequestMetrics) : RequestMetrics := {|
  total_requests := total_requests m; successful_requests := successful_requests m;
  failed_requests := failed_requests m; circuit_breaker_rejections := circuit_breaker_rejections m + 1;
  injected_failures := injected_failures m; error_counts_by_type := error_counts_by_type m;
  last_request_time := last_request_time m; average_response_time := average_response_time m; _response_times := _response_times m |}.

Definition success_rate (m : RequestMetrics) : Q :=
  if 0 <? total_requests m then (inject_Z (successful_requests m) / inject_Z (total_requests m))%Q else 0%Q.

(** ** The classification of errors *)

Definition type_of (e : exn) : string := cls_name (exn_class e).

Definition _classify_error (exc : exn) : bool * string :=
  if isinstance_any exc [ValueError; TypeError] then (false, type_of exc)
  else if isinstance exc MartyError_cls then
    let category := default CAT_INTERNAL (exc_category exc) in
    (bool_decide (category ∈ [TRANSIENT; CAT_INTERNAL]), "MartyError." +:+ category_value category)
  else (true, type_of exc).

(** ** The interceptor *)

Class MetricsStore (W : Type) := {
  find_metrics : string -> W -> option RequestMetrics;
  put_metrics : string -> RequestMetrics -> W -> W }.

Section interceptor.
Context {W : Type} `{World W, BreakerStore W, MetricsStore W, RandomSource W} {Req Msg Codec : Type}.

Local Abbreviation behavior := (Behavior (W := W) (Req := Req) (Msg := Msg)).
Local Abbreviation handler := (Handler (W := W) (Req := Req) (Msg := Msg) (Codec := Codec)).
Local Abbreviation response := (Response (W := W) (Msg := Msg)).

Context (injection : AdvancedFailureInjectionConfig) (config : CircuitBreakerConfig).

Definition get_method_metrics (name : string) : M W unit := fun w =>
  match find_metrics name w with
  | Some _ => (Ok tt, w)
  | None => (Ok tt, put_metrics name new_metrics w)
  end.

(** A method of the metrics of [name]. *)
Definition on_metrics {A} (name : string) (f : RequestMetrics -> A * RequestMetrics) : M W A := fun w =>
  match find_metrics name w with
  | None => (Raise (raise_ KeyError name), w)
  | Some m => let '(a, m) := f m in (Ok a, put_metrics name m w)
  end.

(** [time.time()] *)
Definition now : M W Q := fun w => let '(t, w) := time_time w in (Ok t, w).

Definition start_request (name : string) : M W Q := t ← now; on_metrics name (record_request_start t).
Definition count_success (name : string) (start : Q) : M W unit :=
  t ← now; on_metrics name (fun m => (tt, record_request_success start t m)).
Definition count_failure (name : string) (start : Q) (error_type : string) (injected : bool) : M W unit :=
  t ← now; on_metrics name (fun m => (tt, record_request_failure start error_type injected t m)).
Definition count_rejection (name : string) : M W unit := on_metrics name (fun m => (tt, record_circuit_breaker_rejection m)).

(** The unary-unary wrapper also reads the clock for the duration it logs. *)
Definition duration (logged : bool) : M W unit := if logged then _ ← now; mret tt else mret tt.

Definition breaker_gate (name : string) (c : ServicerContext W) : M W unit :=
  allowed ← allow name;
  if negb allowed then
    _ ← count_rejection name; abort c UNAVAILABLE ("Circuit breaker is open for " +:+ name)
  else mret tt.

Definition inject (logged : bool) (name : string) (c : ServicerContext W) (start : Q) : M W unit :=
  fail ← _should_inject_failure injection c name;
  if (fail : bool) then
    injected_error ← get_error_to_inject injection;
    _ ← failure name (Some injected_error);
    _ ← duration logged;
    _ ← count_failure name start (type_of injected_error) true;
    let '(status, message) := map_exception_to_status injected_error in
    abort c status message
  else mret tt.

(** The statements after the handler's own, and the [except] clauses. *)
Definition completed (logged : bool) (name : string) (start : Q) : M W unit :=
  _ ← success name; _ ← duration logged; count_success name start.

Definition on_error (logged : bool) (name : string) (c : ServicerContext W) (start : Q) (exc : exn) : M W unit :=
  if isinstance exc RpcError then
    _ ← duration logged; _ ← count_failure name start "gRPC.RpcError" false; raise exc
  else if catchable exc then
    let '(should_trip, error_type) := _classify_error exc in
    _ ← duration logged;
    _ ← (if should_trip then failure name (Some exc) else mret tt);
    _ ← count_failure name start error_type false;
    let '(status, message) := map_exception_to_status exc in
    abort c status message
  else raise exc.

(** What precedes the [try] of every wrapper. *)
Definition let_in (logged : bool) (name : string) (c : ServicerContext W) : M W Q :=
  start ← start_request name;
  _ ← breaker_gate name c;
  _ ← inject logged name c start;
  mret start.

Definition enhanced_unary (logged : bool) (name : string) (func : behavior) : behavior :=
  coroutine (fun request c =>
    start ← let_in logged name c;
    try_clauses (result ← call func request c; result ← settle result; _ ← completed logged name start; mret result)
      (fun exc => _ ← on_error logged name c start exc; mret RNone)).

Definition enhanced_stream (name : string) (func : behavior) : behavior :=
  async_generator (fun request c =>
    start_with (start ← let_in false name c;
      mret (with_except (on_error false name c start) (mret tt)
             (with_except (fun exc => raise exc) (completed false name start) (start_with (aiter_items func request c)))))).

(** The wrappers of the four slots, of which only the first logs. *)
Definition _wrap_unary_unary : string -> behavior -> behavior := enhanced_unary true.
Definition _wrap_unary_stream : string -> behavior -> behavior := enhanced_stream.
Definition _wrap_stream_unary : string -> behavior -> behavior := enhanced_unary false.
Definition _wrap_stream_stream : string -> behavior -> behavior := enhanced_stream.

Definition enhanced (name : string) : handler -> handler :=
  rewrap (_wrap_unary_unary name) (_wrap_unary_stream name) (_wrap_stream_unary name) (_wrap_stream_stream name).

Definition enhanced_intercept_service (continuation : HandlerCallDetails -> M W (option handler)) (details : HandlerCallDetails) : M W (option handler) :=
  found ← continuation details;
  match found with
  | None => mret None
  | Some h =>
      let name := method details in
      _ ← ensure_breaker name config;
      _ ← get_method_metrics name;
      mret (Some (enhanced name h))
  end.
End interceptor.

(** ** What a server sees *)

Section observed.
Context {W : Type} `{World W, BreakerStore W, MetricsStore W, RandomSource W} {Req Msg Codec : Type}.

Local Abbreviation behavior := (Behavior (W := W) (Req := Req) (Msg := Msg)).
Local Abbreviation observed := (observation (W := W) (Msg := Msg)).

Context (injection : AdvancedFailureInjectionConfig).

(** A call of the handler itself. *)
Definition handler_call (ws : bool) (b : behavior) k request c : W -> observed := fun w =>
  if ws then streamed (consume k (start_with (aiter_items b request c)) w)
  else let '(r, w) := (o ← call b request c; settle o) w in ([], Replied (x ← r; Ok (Now x)), w).

(** A call and what is recorded of it. *)
Definition recorded_call (logged : bool) (name : string) (c : ServicerContext W) (start : Q) (x : observed) : observed :=
  clauses (on_error logged name c start) (mret tt)
    (clauses (fun exc => raise exc) (completed logged name start) x).

(** Only unary calls with unary answers are logged. *)
Definition logs (rs ws : bool) : bool := negb rs && negb ws.

(** Every shape of handler is admitted, called and recorded in the same way. *)
Lemma enhanced_serve name rs ws (b : behavior) (d s : option Codec) k request c w :
  let logged := logs rs ws in
  serve true ws (behavior_of (enhanced injection name (factory rs ws b d s))) k request c w =
  match let_in injection logged name c w with
  | (Raise e, w') => raised ws e w'
  | (Ok start, w') => recorded_call logged name c start (handler_call ws b k request c w')
  end.
Proof.
  intros logged. unfold enhanced. rewrite rewrap_factory, behavior_of_factory.
  transitivity (serve true ws (if ws then enhanced_stream injection name b else enhanced_unary injection logged name b) k request c w);
    [by destruct rs, ws|].
  assert (ws = true -> logged = false) as Hlog by (unfold logged, logs; by destruct rs, ws).
  clearbody logged. unfold handler_call. destruct ws.
  - rewrite Hlog by done. unfold enhanced_stream. rewrite serve_async_generator, streamed_start.
    destruct (let_in injection false name c w) as [[start|e] w1]; [|done]. rewrite consume_start. cbn [mret M_ret].
    unfold recorded_call. by rewrite !streamed_except.
  - unfold enhanced_unary. rewrite serve_coroutine. unfold mbind at 1, M_bind at 1.
    destruct (let_in injection logged name c w) as [[start|e] w1]; [|done]. unfold try_clauses.
    assert ((result ← call b request c; result ← settle result; _ ← completed logged name start; mret result) w1 =
      (result ← (o ← call b request c; settle o); _ ← completed logged name start; mret result) w1) as ->
      by (by rewrite bind_assoc).
    unfold recorded_call. unfold mbind at 1, M_bind at 1.
    destruct ((o ← call b request c; settle o) w1) as [[o|e] w2]; simpl; unfold mbind, M_bind.
    + destruct (completed logged name start w2) as [[ [] |e] w3]; simpl; [done|]. by destruct (on_error logged name c start e w3) as [[] w4].
    + by destruct (on_error logged name c start e w2) as [[] w3].
Qed.
End observed.

(** ** Every request is counted once *)

Class MetricsStoreLaws (W : Type) `{World W, BreakerStore W, MetricsStore W, RandomSource W} := {
  metrics_put name m w : find_metrics name (put_metrics name m w) = Some m;
  metrics_put_breaker name name' b w : find_metrics name (put_breaker name' b w) = find_metrics name w;
  metrics_time name w : find_metrics name (snd (time_time w)) = find_metrics name w;
  metrics_random name w : find_metrics name (snd (random_random w)) = find_metrics name w;
  metrics_index name n w : find_metrics name (snd (random_index n w)) = find_metrics name w;
  breaker_put_metrics name name' m w : find_breaker name (put_metrics name' m w) = find_breaker name w;
  breaker_random name w : find_breaker name (snd (random_random w)) = find_breaker name w;
  breaker_index name n w : find_breaker name (snd (random_index n w)) = find_breaker name w;
  index_bound n w : (0 < n)%nat -> (fst (random_index n w) < n)%nat }.

(** The requests that are over. *)
Definition finished (m : RequestMetrics) : Z := successful_requests m + failed_requests m + circuit_breaker_rejections m.

Section accounting.
Context {W : Type} `{World W, BreakerStore W, MetricsStore W, RandomSource W, !BreakerStoreLaws W, !MetricsStoreLaws W}.
Context (name : string).

(** The breaker and the metrics of the method exist. *)
Definition ready (w : W) (m : RequestMetrics) : Prop := find_metrics name w = Some m /\ opt_is_some (find_breaker name w) = true.

(** How far a computation moves the number of requests and of finished ones. *)
Definition moves {A} (P : result A -> Z -> Z -> Prop) (f : W -> result A * W) : Prop := forall w m, ready w m ->
  exists m', ready (snd (f w)) m' /\ P (fst (f w)) (total_requests m' - total_requests m) (finished m' - finished m).

Lemma moves_weaken {A} (P Q : result A -> Z -> Z -> Prop) f : moves P f -> (forall r t c, P r t c -> Q r t c) -> moves Q f.
Proof. intros Hf HPQ w m Hw. destruct (Hf w m Hw) as (m' & ? & ?). eauto. Qed.

Lemma moves_quiet {A} (f : W -> result A * W) (P : result A -> Prop) :
  (forall w, find_metrics name (snd (f w)) = find_metrics name w) -> (forall w, find_breaker name (snd (f w)) = find_breaker name w) ->
  (forall w, P (fst (f w))) -> moves (fun r t c => P r /\ t = 0 /\ c = 0) f.
Proof. intros Hm Hb HP w m (Hw & Hr). exists m. split; [by split; rewrite ?Hm, ?Hb|]. split; [done|lia]. Qed.

Lemma moves_ret {A} (a : A) : moves (fun r t c => r = Ok a /\ t = 0 /\ c = 0) (mret a : M W A).
Proof. by apply moves_quiet. Qed.

Lemma moves_bind {A B} (P : result A -> Z -> Z -> Prop) (Q : result B -> Z -> Z -> Prop) (f : M W A) (g : A -> M W B) :
  moves P f -> (forall a t c, P (Ok a) t c -> moves (fun r t' c' => Q r (t + t') (c + c')) (g a)) ->
  (forall e t c, P (Raise e) t c -> Q (Raise e) t c) -> moves Q (f ≫= g).
Proof.
  intros Hf Hg He w m Hw. destruct (Hf w m Hw) as (m1 & Hw1 & HP). unfold mbind, M_bind.
  destruct (f w) as [[a|e] w1]; simpl in *; [|exists m1; eauto].
  destruct (Hg a _ _ HP w1 m1 Hw1) as (m2 & Hw2 & HQ). exists m2. split; [done|].
  replace (total_requests m2 - total_requests m) with (total_requests m1 - total_requests m + (total_requests m2 - total_requests m1)) by lia.
  by replace (finished m2 - finished m) with (finished m1 - finished m + (finished m2 - finished m1)) by lia.
Qed.

Lemma moves_now : moves (fun r t c => is_ok r = true /\ t = 0 /\ c = 0) now.
Proof.
  apply moves_quiet; intros w; unfold now.
  - pose proof (metrics_time name w) as Ht. by destruct (time_time w).
  - pose proof (find_time name w) as Ht. by destruct (time_time w).
  - by destruct (time_time w).
Qed.

(** A method of the metrics. *)
Lemma moves_metrics {A} (f : RequestMetrics -> A * RequestMetrics) t c :
  (forall m, total_requests (snd (f m)) = total_requests m + t /\ finished (snd (f m)) = finished m + c) ->
  moves (fun r t' c' => is_ok r = true /\ t' = t /\ c' = c) (on_metrics name f).
Proof.
  intros Hf w m (Hw & Hr). unfold on_metrics. rewrite Hw. specialize (Hf m). destruct (f m) as [a m']. exists m'. simpl in *.
  split; [|split; [done|lia]]. split; [apply metrics_put|by rewrite breaker_put_metrics].
Qed.

(** A method of the breaker. *)
Lemma moves_breaker {A} (f : CircuitBreakerConfig -> Q -> cb -> A * cb) :
  moves (fun r t c => is_ok r = true /\ t = 0 /\ c = 0) (on_breaker name f).
Proof.
  intros w m (Hw & Hr). destruct (find_breaker name w) as [[config b]|] eqn:Hb; [|done].
  pose proof (on_breaker_spec name f config b w Hb) as Hf. destruct (f config (clock w) b) as [a b'].
  rewrite Hf. exists m. simpl. split; [|split; [done|lia]]. split; [by rewrite metrics_put_breaker, metrics_time|by rewrite find_put].
Qed.

Context (injection : AdvancedFailureInjectionConfig).
Hypothesis some_type : error_types injection <> [].
Context (c : ServicerContext W).
Hypothesis abort_raises : forall status message, moves (fun r t k => is_ok r = false /\ t = 0 /\ k = 0) (abort c status message).

Local Abbreviation plain := (fun r t k => is_ok r = true /\ t = 0 /\ k = 0).

Lemma moves_start : moves (fun r t k => is_ok r = true /\ t = 1 /\ k = 0) (start_request name).
Proof.
  eapply moves_bind; [apply moves_now| |by intros e t k (? & _)].
  intros now t k (_ & -> & ->). eapply moves_weaken; [apply (moves_metrics (record_request_start now) 1 0)|].
  - intros m. unfold finished. simpl. lia.
  - intros r t k (? & -> & ->). split; [done|lia].
Qed.

(** Every counter of a request that is over moves one of them. *)
Lemma moves_count (f : Q -> RequestMetrics -> RequestMetrics) :
  (forall t m, total_requests (f t m) = total_requests m /\ finished (f t m) = finished m + 1) ->
  moves (fun r t k => is_ok r = true /\ t = 0 /\ k = 1) (t ← now; on_metrics name (fun m => (tt, f t m))).
Proof.
  intros Hf. eapply moves_bind; [apply moves_now| |by intros e t k (? & _)].
  intros now t k (_ & -> & ->). eapply moves_weaken; [apply (moves_metrics (fun m => (tt, f now m)) 0 1)|].
  - intros m. simpl. destruct (Hf now m). lia.
  - intros r t k (? & -> & ->). split; [done|lia].
Qed.

Lemma moves_success start : moves (fun r t k => is_ok r = true /\ t = 0 /\ k = 1) (count_success name start).
Proof. apply moves_count. intros t m. unfold finished. simpl. lia. Qed.

Lemma moves_failure start ty inj : moves (fun r t k => is_ok r = true /\ t = 0 /\ k = 1) (count_failure name start ty inj).
Proof. apply moves_count. intros t m. unfold finished. simpl. lia. Qed.

Lemma moves_duration logged : moves plain (duration logged).
Proof.
  unfold duration. destruct logged.
  - eapply moves_bind; [apply moves_now| |by intros e t k (? & _)].
    intros x t k (_ & -> & ->). eapply moves_weaken; [apply moves_ret|]. by intros r t k (-> & -> & ->).
  - eapply moves_weaken; [apply moves_ret|]. by intros r t k (-> & -> & ->).
Qed.

(** One computation after another, when the first succeeds. *)
Lemma moves_then {A B} (Q : result B -> Z -> Z -> Prop) t1 k1 (f : M W A) (g : A -> M W B) :
  moves (fun r t k => is_ok r = true /\ t = t1 /\ k = k1) f ->
  (forall a, moves (fun r t k => Q r (t1 + t) (k1 + k)) (g a)) -> moves Q (f ≫= g).
Proof.
  intros Hf Hg. eapply moves_bind; [exact Hf| |by intros e t k (? & _)]. intros a t k (_ & -> & ->). apply Hg.
Qed.

(** Either the computation passes and counts nothing, or it raises and counts one. *)
Definition passes {A} (t0 : Z) (r : result A) (t k : Z) : Prop := t = t0 /\ k = if is_ok r then 0 else 1.

Lemma moves_gate : moves (passes 0) (breaker_gate name c).
Proof.
  unfold breaker_gate, allow. eapply moves_then; [apply moves_breaker|]. intros allowed. destruct (negb allowed).
  - unfold count_rejection. eapply moves_then; [apply (moves_metrics _ 0 1); intros m; unfold finished; simpl; lia|].
    intros []. eapply moves_weaken; [apply abort_raises|]. unfold passes. intros r t k (-> & -> & ->). lia.
  - eapply moves_weaken; [apply moves_ret|]. unfold passes. intros r t k (-> & -> & ->). simpl. lia.
Qed.

Lemma moves_should_fail method : moves plain (_should_inject_failure injection c method).
Proof.
  unfold _should_inject_failure, adv_should_fail.
  assert (forall b, moves plain (mret b : M W bool)) as Hret.
  { intros b. eapply moves_weaken; [apply moves_ret|]. by intros r t k (-> & -> & ->). }
  destruct (negb _); [apply Hret|]. destruct (forced _ _); [apply Hret|]. unfold random_below. apply moves_quiet.
  - intros w. pose proof (metrics_random name w) as Hm. by destruct (random_random w).
  - intros w. pose proof (breaker_random name w) as Hb. by destruct (random_random w).
  - intros w. by destruct (random_random w).
Qed.

Lemma moves_get_error : moves plain (get_error_to_inject injection).
Proof.
  unfold get_error_to_inject. apply moves_quiet; intros w.
  - pose proof (metrics_index name (length (error_types injection)) w) as Hm. destruct (random_index _ w) as [i w']. by destruct (_ !! i).
  - pose proof (breaker_index name (length (error_types injection)) w) as Hm. destruct (random_index _ w) as [i w']. by destruct (_ !! i).
  - assert (0 < length (error_types injection))%nat as Hpos by (by destruct (error_types injection); simpl; [|lia]).
    pose proof (index_bound (length (error_types injection)) w Hpos) as Hi. destruct (random_index _ w) as [i w']. simpl in Hi.
    destruct (lookup_lt_is_Some_2 (error_types injection) i Hi) as (ty & ->). done.
Qed.

Lemma moves_inject logged start : moves (passes 0) (inject injection logged name c start).
Proof.
  unfold inject. eapply moves_then; [apply moves_should_fail|]. intros fail. destruct fail.
  - eapply moves_then; [apply moves_get_error|]. intros e. unfold failure. eapply moves_then; [apply moves_breaker|]. intros [].
    eapply moves_then; [apply moves_duration|]. intros []. eapply moves_then; [apply moves_failure|]. intros [].
    destruct (map_exception_to_status e) as [status message]. eapply moves_weaken; [apply abort_raises|].
    unfold passes. intros r t k (-> & -> & ->). lia.
  - eapply moves_weaken; [apply moves_ret|]. unfold passes. intros r t k (-> & -> & ->). simpl. lia.
Qed.

Lemma moves_let_in logged : moves (passes 1) (let_in injection logged name c).
Proof.
  unfold let_in. eapply moves_then; [apply moves_start|]. intros start.
  eapply moves_bind; [apply moves_gate| |unfold passes; simpl; lia]. intros [] t k (-> & ->).
  eapply moves_bind; [apply moves_inject| |unfold passes; simpl; lia]. intros [] t k (-> & ->).
  eapply moves_weaken; [apply moves_ret|]. unfold passes. intros r t k (-> & -> & ->). simpl. lia.
Qed.

Lemma moves_completed logged start : moves (fun r t k => is_ok r = true /\ t = 0 /\ k = 1) (completed logged name start).
Proof.
  unfold completed, success. eapply moves_then; [apply moves_breaker|]. intros [].
  eapply moves_then; [apply moves_duration|]. intros []. eapply moves_weaken; [apply moves_success|]. intros r t k (? & -> & ->). split; [done|lia].
Qed.

(** Only what no [except] clause sees is not counted. *)
Definition unseen (e : exn) : bool := negb (isinstance e RpcError) && negb (catchable e).

Lemma moves_on_error logged start e :
  moves (fun r t k => is_ok r = false /\ t = 0 /\ k = if unseen e then 0 else 1) (on_error logged name c start e).
Proof.
  assert (forall e', moves (fun (r : result unit) t k => is_ok r = false /\ t = 0 /\ k = 0) (raise e' : M W unit)) as Hraise
    by (intros e'; by apply moves_quiet).
  unfold on_error, unseen. destruct (isinstance e RpcError).
  - eapply moves_then; [apply moves_duration|]. intros []. eapply moves_then; [apply moves_failure|]. intros [].
    eapply moves_weaken; [apply Hraise|]. simpl. intros r t k (-> & -> & ->). split; [done|lia].
  - destruct (catchable e).
    + destruct (_classify_error e) as [trip ty]. eapply moves_then; [apply moves_duration|]. intros [].
      eapply (moves_then _ 0 0).
      * destruct trip; [apply moves_breaker|]. eapply moves_weaken; [apply moves_ret|]. by intros r t k (-> & -> & ->).
      * intros []. eapply moves_then; [apply moves_failure|]. intros [].
        destruct (map_exception_to_status e) as [status message]. eapply moves_weaken; [apply abort_raises|].
        simpl. intros r t k (-> & -> & ->). split; [done|lia].
    + apply Hraise.
Qed.

Section calls.
Context {Req Msg : Type}.
Local Abbreviation behavior := (Behavior (W := W) (Req := Req) (Msg := Msg)).
Local Abbreviation observed := (observation (W := W) (Msg := Msg)).

(** The answers that leave a request open: a stream that its consumer closed, and an
    exception that no clause catches. *)
Definition lost (a : answer (W := W) (Msg := Msg)) : bool :=
  match a with
  | Replied (Raise e) | Streamed (Crashed e) | Streamed (Closed (Raise e)) => unseen e
  | Streamed (Closed (Ok _)) => true
  | Replied (Ok _) | Streamed Exhausted => false
  end.

(** A computation that ends a call, with [k] requests finished. *)
Lemma ready_after {A} (P : result A -> Z -> Z -> Prop) (f : M W A) w m k :
  moves P f -> (forall r t c, P r t c -> t = 0 /\ c = k) -> ready w m ->
  exists m', ready (snd (f w)) m' /\ total_requests m' = total_requests m /\ finished m' = finished m + k.
Proof.
  intros Hf HP Hw. destruct (Hf w m Hw) as (m' & Hw' & H'). exists m'. split; [done|]. destruct (HP _ _ _ H'). lia.
Qed.

Lemma recorded_counts logged start (x : observed) m : ready (snd x) m ->
  exists m', ready (snd (recorded_call logged name c start x)) m' /\ total_requests m' = total_requests m /\
    finished m' = finished m + if lost (snd (fst x)) then 0 else 1.
Proof.
  intros Hm. destruct x as [[ms a] w]. unfold recorded_call.
  assert (exists m', ready (snd (completed logged name start w)) m' /\ total_requests m' = total_requests m /\ finished m' = finished m + 1) as Hdone
    by (eapply ready_after; [apply moves_completed|by intros r t k (_ & ?)|done]).
  assert (is_ok (fst (completed logged name start w)) = true) as Hok.
  { destruct (moves_completed logged start w m Hm) as (? & _ & ? & _). done. }
  assert (forall e, exists m', ready (snd (on_error logged name c start e w)) m' /\ total_requests m' = total_requests m /\
    finished m' = finished m + if unseen e then 0 else 1) as Herr
    by (intros e; eapply ready_after; [apply moves_on_error|by intros r t k (_ & ?)|done]).
  destruct a as [[o|e]|[|[ [] |e]|e]]; simpl.
  - by destruct (completed logged name start w) as [[ [] |e] w'].
  - specialize (Herr e). by destruct (on_error logged name c start e w) as [[] w'].
  - by destruct (completed logged name start w) as [[ [] |e] w'].
  - exists m. split; [done|lia].
  - specialize (Herr e). by destruct (on_error logged name c start e w) as [[] w'].
  - specialize (Herr e). by destruct (on_error logged name c start e w) as [[] w'].
Qed.

(** C31: Every call counts one request, and finishes it unless it is lost. *)
Theorem requests_accounted rs ws (b : behavior) (d s : option unit) k request w m :
  (forall w m, ready w m -> ready (snd (handler_call ws b k request c w)) m) -> ready w m ->
  exists m', ready (snd (serve true ws (behavior_of (enhanced injection name (factory rs ws b d s))) k request c w)) m' /\
    total_requests m' = total_requests m + 1 /\
    finished m' = finished m +
      match let_in injection (logs rs ws) name c w with
      | (Ok _, w1) => if lost (snd (fst (handler_call ws b k request c w1))) then 0 else 1
      | (Raise _, _) => 1
      end.
Proof.
  intros Hkeep Hw. rewrite enhanced_serve. cbv zeta. set (logged := logs rs ws).
  destruct (moves_let_in logged w m Hw) as (m1 & Hw1 & Ht & Hf).
  destruct (let_in injection logged name c w) as [[start|e] w1]; simpl in *.
  - destruct (recorded_counts logged start (handler_call ws b k request c w1) m1 (Hkeep w1 m1 Hw1)) as (m2 & Hw2 & Ht2 & Hf2).
    exists m2. split; [done|lia].
  - exists m1. split; [done|lia].
Qed.
End calls.
End accounting.

(** ** The window of response times *)

Definition timed (m : RequestMetrics) : Prop :=
  (length (_response_times m) <= 100)%nat /\ average_response_time m = meanQ (_response_times m).

Lemma response_time_window start t m : (length (_response_times m) <= 100)%nat -> timed (_record_response_time start t m).
Proof.
  intros Hm. unfold timed, _record_response_time. simpl. rewrite length_app. simpl.
  destruct (100 <? _)%nat eqn:Hlen.
  - apply Nat.ltb_lt in Hlen. split; [|done]. destruct (_response_times m); simpl in *; [lia|]. rewrite length_app. simpl. lia.
  - apply Nat.ltb_ge in Hlen. rewrite length_app. simpl. split; [lia|done].
Qed.

(** ** A concrete server *)

Module Demo.
Record world := { breakers : pydict (CircuitBreakerConfig * cb); metrics : pydict RequestMetrics }.

#[export] Instance demo_world : World world := { time_time w := (0%Q, w); sleep _ w := w; randbelow _ w := (0, w) }.
#[export] Instance demo_random : RandomSource world := { random_random w := (0%Q, w); random_index _ w := (O, w) }.
#[export] Instance demo_breakers : BreakerStore world := {
  find_breaker n w := dget n (breakers w);
  put_breaker n b w := {| breakers := dset n b (breakers w); metrics := metrics w |} }.
#[export] Instance demo_metrics : MetricsStore world := {
  find_metrics n w := dget n (metrics w);
  put_metrics n m w := {| breakers := breakers w; metrics := dset n m (metrics w) |} }.

#[export] Instance demo_breaker_laws : BreakerStoreLaws world.
Proof. split; simpl; [intros; apply dget_dset_eq|intros; by apply dget_dset_ne|done]. Qed.

#[export] Instance demo_metrics_laws : MetricsStoreLaws world.
Proof. split; simpl; try done. intros. apply dget_dset_eq. Qed.

Definition context : ServicerContext world := {|
  auth_context := Ok []; peer_identity_key := Ok None; peer_identities := Ok None; context_metadata := [];
  abort _ _ w := (Raise (raise_ Exception_ ""), w) |}.

Definition quiet_injection : AdvancedFailureInjectionConfig := AdvancedFailureInjectionConfig_init false 0 None None "x-failure-inject".

(** A stream of two items. *)
Definition two : Gen world string :=
  GenOf (fun w => Yield "a" (GenOf (fun w => Yield "b" empty_gen w) unstarted) w) unstarted.
Definition stream : Behavior (W := world) (Req := unit) (Msg := string) := async_generator (fun _ _ => two).
Definition fresh : world := {| breakers := [("m", (default_config, init 0))]; metrics := [("m", new_metrics)] |}.

Definition counted (k : string -> world -> bool * world) : option (Z * Z) :=
  m ← find_metrics "m" (snd (serve true true
    (behavior_of (enhanced quiet_injection "m" (factory false true stream None (None : option unit)))) k tt context fresh));
  Some (total_requests m, finished m).

(** A stream that is read to its end is finished, one that is not is never. *)
Lemma abandoned_streams_never_finish :
  counted (fun _ w => (true, w)) = Some (1, 1) /\ counted (fun _ w => (false, w)) = Some (1, 0).
Proof. by vm_compute. Qed.

Lemma two_ready k w m : ready "m" w m -> (forall a w, snd (k a w) = w) -> ready "m" (snd (handler_call true stream k tt context w)) m.
Proof.
  intros Hw Hk. unfold handler_call. rewrite consume_start. simpl.
  pose proof (Hk "a" w) as Ha. destruct (k "a" w) as [[] w1]; simpl in *; subst w1; [|done].
  pose proof (Hk "b" w) as Hb. destruct (k "b" w) as [[] w1]; simpl in *; by subst w1.
Qed.

Lemma requests_accounted_witness :
  exists m', ready "m" (snd (serve true true
      (behavior_of (enhanced quiet_injection "m" (factory false true stream None (None : option unit)))) (fun _ w => (false, w)) tt context fresh)) m' /\
    total_requests m' = 1 /\ finished m' = 0.
Proof.
  apply (requests_accounted "m" quiet_injection ltac:(done)
    context (fun _ _ w m Hw => ex_intro _ m (conj Hw (conj eq_refl (conj (Z.sub_diag _) (Z.sub_diag _)))))
    false true stream None None (fun _ w => (false, w)) tt fresh new_metrics
    (fun w m Hw => two_ready (fun _ w => (false, w)) w m Hw (fun _ _ => eq_refl)) (conj eq_refl eq_refl)).
Defined.
End Demo.
