(* ===== verification/ResilienceMetrics.v ===== *)
(** * Metrics of the resilience patterns ([resilience/metrics.py])

    A collector of counters, gauges and histograms under keys made of a name and its
    labels, with a bounded history of every key, and the interface the resilience
    patterns record through. The collector's lock serialises its methods, each of
    which is one step here; the collector is a part of the world. *)

From Stdlib Require Import Lqa.
From S2P Require Import Prelude PyRuntime PyText PyNumbers PyFloat.
Local Open Scope Z_scope.

(** ** Data *)

Record MetricValue := { value : Q; timestamp : Q; labels : pydict string }.
Record HistogramBucket := { upper_bound : pyfloat; count : Z }.

Record collector := {
  max_history : nat;
  _metrics : pydict (list MetricValue); _counters : pydict Q; _gauges : pydict Q;
  _histograms : pydict (list HistogramBucket) }.

Definition set_metrics v c := {| max_history := max_history c; _metrics := v; _counters := _counters c; _gauges := _gauges c; _histograms := _histograms c |}.
Definition set_counters v c := {| max_history := max_history c; _metrics := _metrics c; _counters := v; _gauges := _gauges c; _histograms := _histograms c |}.
Definition set_gauges v c := {| max_history := max_history c; _metrics := _metrics c; _counters := _counters c; _gauges := v; _histograms := _histograms c |}.
Definition set_histograms v c := {| max_history := max_history c; _metrics := _metrics c; _counters := _counters c; _gauges := _gauges c; _histograms := v |}.

Definition default_latency_buckets : list pyfloat :=
  map (fun z => Finite (inject_Z z)) [1; 2; 5; 10; 25; 50; 100; 250; 500; 1000; 2500; 5000; 10000] ++ [Infinite false].

(** ** Registration *)

Definition register_counter (name : string) (c : collector) : collector :=
  if din name (_counters c) then c else set_counters (dset name 0%Q (_counters c)) c.

Definition register_gauge (name : string) (c : collector) : collector :=
  if din name (_gauges c) then c else set_gauges (dset name 0%Q (_gauges c)) c.

Definition register_histogram (name : string) (buckets : option (list pyfloat)) (c : collector) : collector :=
  if din name (_histograms c) then c else
  let limits := match buckets with Some (_ :: _ as l) => l | _ => default_latency_buckets end in
  set_histograms (dset name (map (fun limit => {| upper_bound := limit; count := 0 |}) limits) (_histograms c)) c.

Definition common_counters : list string := [
  "circuit_breaker_requests_total"; "circuit_breaker_failures_total"; "circuit_breaker_successes_total";
  "circuit_breaker_rejections_total"; "retry_attempts_total"; "retry_successes_total"; "retry_exhausted_total";
  "degradation_fallback_total"; "degradation_primary_success_total"; "errors_total"; "error_recovery_total"].
Definition common_gauges : list string := ["circuit_breaker_state"; "degradation_level"].
Definition common_histograms : list string := [
  "circuit_breaker_request_duration_ms"; "retry_delay_ms"; "retry_total_duration_ms"; "degradation_response_time_ms";
  "error_recovery_duration_ms"].

(** The three dictionaries are independent, so the order between them is immaterial. *)
Definition _initialize_resilience_metrics (c : collector) : collector :=
  foldl (fun c n => register_histogram n None c)
    (foldl (fun c n => register_gauge n c) (foldl (fun c n => register_counter n c) c common_counters) common_gauges)
    common_histograms.

Definition MetricsCollector_init (max_history : nat) : collector :=
  _initialize_resilience_metrics {| max_history := max_history; _metrics := []; _counters := []; _gauges := []; _histograms := [] |}.

Definition _get_metric_key (name : string) (labels : pydict string) : string :=
  match labels with
  | [] => name
  | _ => name +:+ "{" +:+ String.concat "," (map (fun kv => fst kv +:+ "=" +:+ snd kv) (sorted_items labels)) +:+ "}"
  end.

(** ** Recording *)

Class CollectorStore (W : Type) := { collector_of : W -> collector; set_collector : collector -> W -> W }.

(** [deque.append] on a deque of bounded length. *)
Definition push_bounded {A} (n : nat) (x : A) (l : list A) : list A := drop (length l + 1 - n) (l ++ [x]).

(** What a caller passes as the value of a counter: a number, or something that
    cannot be added to one. *)
Inductive amount := Number (q : Q) | NotANumber.

Definition cannot_add : exn := raise_ TypeError "unsupported operand type(s) for +=: 'float' and 'dict'".

(** [float <= float] *)
Definition float_le (x y : pyfloat) : bool := match x, y with NaN, _ | _, NaN => false | _, _ => negb (float_lt y x) end.

#[global] Arguments float_le : simpl never.

Definition bump (v : Q) (b : HistogramBucket) : HistogramBucket :=
  {| upper_bound := upper_bound b; count := if float_le (Finite v) (upper_bound b) then count b + 1 else count b |}.

Section recording.
Context {W : Type} `{World W, CollectorStore W}.

(** [self._metrics[key].append(MetricValue(value, time.time(), labels))] *)
Definition remember (key : string) (v : Q) (labels : pydict string) : M W unit := fun w =>
  let '(now, w) := time_time w in
  let c := collector_of w in
  let history := push_bounded (max_history c) {| value := v; timestamp := now; labels := labels |} (default [] (dget key (_metrics c))) in
  (Ok tt, set_collector (set_metrics (dset key history (_metrics c)) c) w).

Definition update (f : collector -> collector) : M W unit := fun w => (Ok tt, set_collector (f (collector_of w)) w).

(** Reading a missing counter for [+=] creates it, even when the addition fails. *)
Definition increment_counter (name : string) (v : amount) (labels : pydict string) : M W unit := fun w =>
  let key := _get_metric_key name labels in
  let old := default 0%Q (dget key (_counters (collector_of w))) in
  match v with
  | NotANumber => (_ ← update (fun c => set_counters (dset key old (_counters c)) c); raise cannot_add) w
  | Number q => (_ ← update (fun c => set_counters (dset key (old + q)%Q (_counters c)) c); remember key (old + q)%Q labels) w
  end.

Definition increment (name : string) (labels : pydict string) : M W unit := increment_counter name (Number 1) labels.

Definition set_gauge (name : string) (v : Q) (labels : pydict string) : M W unit :=
  let key := _get_metric_key name labels in
  _ ← update (fun c => set_gauges (dset key v (_gauges c)) c); remember key v labels.

Definition observe_histogram (name : string) (v : Q) (labels : pydict string) : M W unit :=
  let key := _get_metric_key name labels in
  _ ← update (fun c => match dget key (_histograms c) with
                       | Some buckets => set_histograms (dset key (map (bump v) buckets) (_histograms c)) c
                       | None => c
                       end);
  remember key v labels.

Definition reset_metrics : M W unit := update (fun c => {|
  max_history := max_history c; _metrics := []; _counters := []; _gauges := [];
  _histograms := map (fun kv => (fst kv, map (fun b => {| upper_bound := upper_bound b; count := 0 |}) (snd kv))) (_histograms c) |}).
End recording.

(** ** Queries *)

Definition get_counter_value (name : string) (labels : pydict string) (c : collector) : Q :=
  default 0%Q (dget (_get_metric_key name labels) (_counters c)).

Definition get_gauge_value (name : string) (labels : pydict string) (c : collector) : Q :=
  default 0%Q (dget (_get_metric_key name labels) (_gauges c)).

Record histogram_stats := {
  hs_count : Z; hs_sum : Q; hs_range : option (Q * Q * Q); hs_buckets : list (pyfloat * Z) }.

Definition no_stats : histogram_stats := {| hs_count := 0; hs_sum := 0; hs_range := None; hs_buckets := [] |}.

(** [hs_range] holds [min], [max] and [avg], which the empty answer lacks. *)
Definition get_histogram_stats (name : string) (labels : pydict string) (c : collector) : histogram_stats :=
  let key := _get_metric_key name labels in
  match map value (default [] (dget key (_metrics c))) with
  | [] => no_stats
  | values => {|
      hs_count := Z.of_nat (length values); hs_sum := sumQ values;
      hs_range := Some (minQ values, maxQ values, (sumQ values / lenQ values)%Q);
      hs_buckets := map (fun b => (upper_bound b, count b)) (default [] (dget key (_histograms c))) |}
  end.

Definition get_metric_history (name : string) (labels : pydict string) (limit : nat) (c : collector) : list MetricValue :=
  let history := default [] (dget (_get_metric_key name labels) (_metrics c)) in
  match limit with O => history | _ => drop (length history - limit) history end.

Inductive metric := MCounter (v : Q) | MGauge (v : Q) | MHistogram (s : histogram_stats).

Definition get_all_metrics (c : collector) : pydict metric :=
  foldl (fun d n => dset n (MHistogram (get_histogram_stats n [] c)) d)
    (foldl (fun d kv => dset (fst kv) (MGauge (snd kv)) d)
      (foldl (fun d kv => dset (fst kv) (MCounter (snd kv)) d) [] (_counters c)) (_gauges c))
    (dkeys (_histograms c)).

(** ** The interface of the resilience patterns *)

Section patterns.
Context {W : Type} `{World W, CollectorStore W}.

Definition record_circuit_breaker_request (circuit_name : string) (duration_ms : Q) (success : bool) (state : string) : M W unit :=
  let labels := [("circuit_name", circuit_name)] in
  _ ← increment "circuit_breaker_requests_total" labels;
  _ ← observe_histogram "circuit_breaker_request_duration_ms" duration_ms labels;
  _ ← increment (if success then "circuit_breaker_successes_total" else "circuit_breaker_failures_total") labels;
  set_gauge "circuit_breaker_state" (default 0%Q (dget state [("closed", 0%Q); ("open", 1%Q); ("half_open", 2%Q)])) labels.

Definition record_circuit_breaker_rejection (circuit_name : string) : M W unit :=
  increment "circuit_breaker_rejections_total" [("circuit_name", circuit_name)].

Definition record_retry_attempt (operation_name : string) (delay_ms : Q) (success exhausted : bool) : M W unit :=
  let labels := [("operation", operation_name)] in
  _ ← increment "retry_attempts_total" labels;
  _ ← observe_histogram "retry_delay_ms" delay_ms labels;
  if success then increment "retry_successes_total" labels
  else if exhausted then increment "retry_exhausted_total" labels
  else mret tt.

Definition record_retry_total_duration (operation_name : string) (total_duration_ms : Q) : M W unit :=
  observe_histogram "retry_total_duration_ms" total_duration_ms [("operation", operation_name)].

Definition record_degradation_event (feature_name event_type : string) (response_time_ms : Q) (degradation_level : Z) : M W unit :=
  let labels := [("feature", feature_name)] in
  _ ← (if String.eqb event_type "fallback" then increment "degradation_fallback_total" labels
       else if String.eqb event_type "primary_success" then increment "degradation_primary_success_total" labels
       else mret tt);
  _ ← observe_histogram "degradation_response_time_ms" response_time_ms labels;
  set_gauge "degradation_level" (inject_Z degradation_level) labels.

Definition record_error (service_name error_type : string) (recovery_duration_ms : option Q) : M W unit :=
  let labels := [("service", service_name); ("error_type", error_type)] in
  _ ← increment "errors_total" labels;
  match recovery_duration_ms with
  | Some d => _ ← increment "error_recovery_total" labels; observe_histogram "error_recovery_duration_ms" d labels
  | None => mret tt
  end.
End patterns.

(** The text after the first occurrence of [p]. *)
Fixpoint after (p s : string) : option string :=
  if String.prefix p s then Some (String.substring (String.length p) (String.length s - String.length p) s)
  else match s with String _ s' => after p s' | EmptyString => None end.

(** The value of a label in a key: up to the next comma, or the brace, or (as
    [find] gives -1) all but the last character. *)
Definition label_value (label key : string) : option string :=
  rest ← after (label +:+ "=") key;
  Some (if has_char "," rest then fst (partition_on "," rest)
        else if has_char "}" rest then fst (partition_on "}" rest)
        else String.substring 0 (String.length rest - 1) rest).

Record circuit_stats := {
  cs_requests : Q; cs_successes : Q; cs_failures : Q; cs_rejections : Q; cs_state : Q; cs_durations : histogram_stats }.

Definition get_circuit_breaker_stats (circuit_name : string) (c : collector) : circuit_stats :=
  let labels := [("circuit_name", circuit_name)] in {|
  cs_requests := get_counter_value "circuit_breaker_requests_total" labels c;
  cs_successes := get_counter_value "circuit_breaker_successes_total" labels c;
  cs_failures := get_counter_value "circuit_breaker_failures_total" labels c;
  cs_rejections := get_counter_value "circuit_breaker_rejections_total" labels c;
  cs_state := get_gauge_value "circuit_breaker_state" labels c;
  cs_durations := get_histogram_stats "circuit_breaker_request_duration_ms" labels c |}.

Record retry_summary := { rs_attempts : Q; rs_successes : Q; rs_exhausted : Q; rs_delays : histogram_stats; rs_durations : histogram_stats }.

Definition get_retry_stats (operation_name : string) (c : collector) : retry_summary :=
  let labels := [("operation", operation_name)] in {|
  rs_attempts := get_counter_value "retry_attempts_total" labels c;
  rs_successes := get_counter_value "retry_successes_total" labels c;
  rs_exhausted := get_counter_value "retry_exhausted_total" labels c;
  rs_delays := get_histogram_stats "retry_delay_ms" labels c;
  rs_durations := get_histogram_stats "retry_total_duration_ms" labels c |}.

Record degradation_summary := { ds_fallbacks : Q; ds_primary : Q; ds_level : Q; ds_times : histogram_stats }.

Definition get_degradation_stats (feature_name : string) (c : collector) : degradation_summary :=
  let labels := [("feature", feature_name)] in {|
  ds_fallbacks := get_counter_value "degradation_fallback_total" labels c;
  ds_primary := get_counter_value "degradation_primary_success_total" labels c;
  ds_level := get_gauge_value "degradation_level" labels c;
  ds_times := get_histogram_stats "degradation_response_time_ms" labels c |}.

Record error_summary := {
  es_total : Q; es_recoveries : Q; es_durations : histogram_stats; es_breakdown : list (string * (Q * Q)) }.

(** The error types of a service, from the keys of all metrics. *)
Definition error_types_of (service_name : string) (c : collector) : list string :=
  remove_dups (omap (fun key =>
    if contains "errors_total" key && contains ("service=" +:+ service_name) key then label_value "error_type" key else None)
    (dkeys (get_all_metrics c))).

Definition get_error_stats (service_name : string) (c : collector) : error_summary :=
  let labels := [("service", service_name)] in
  let typed t := [("service", service_name); ("error_type", t)] in {|
  es_total := get_counter_value "errors_total" labels c;
  es_recoveries := get_counter_value "error_recovery_total" labels c;
  es_durations := get_histogram_stats "error_recovery_duration_ms" labels c;
  es_breakdown := map (fun t => (t, (get_counter_value "errors_total" (typed t) c, get_counter_value "error_recovery_total" (typed t) c)))
                    (error_types_of service_name c) |}.

(** The values of a label over all keys; a set, here without an order. *)
Definition label_values (label : string) (c : collector) : list string :=
  remove_dups (omap (label_value label) (dkeys (get_all_metrics c))).

Record resilience_summary := {
  sm_circuits : list (string * circuit_stats); sm_retries : list (string * retry_summary);
  sm_degradation : list (string * degradation_summary); sm_errors : list (string * error_summary) }.

Definition get_resilience_summary (c : collector) : resilience_summary := {|
  sm_circuits := map (fun n => (n, get_circuit_breaker_stats n c)) (label_values "circuit_name" c);
  sm_retries := map (fun n => (n, get_retry_stats n c)) (label_values "operation" c);
  sm_degradation := map (fun n => (n, get_degradation_stats n c)) (label_values "feature" c);
  sm_errors := map (fun n => (n, get_error_stats n c)) (label_values "service" c) |}.

(** ** Runs *)

Inductive pattern_op :=
| CircuitRequest (circuit : string) (duration_ms : Q) (success : bool) (state : string)
| CircuitRejection (circuit : string)
| RetryAttempt (operation : string) (delay_ms : Q) (success exhausted : bool)
| RetryDuration (operation : string) (duration_ms : Q)
| Degradation (feature event_type : string) (response_time_ms : Q) (level : Z)
| ErrorRecord (service error_type : string) (recovery : option Q).

Class CollectorLaws (W : Type) `{World W, CollectorStore W} := {
  collector_set c w : collector_of (set_collector c w) = c;
  collector_time w : collector_of (snd (time_time w)) = collector_of w }.

Section runs.
Context {W : Type} `{World W, CollectorStore W, !CollectorLaws W}.

Definition exec (o : pattern_op) : M W unit :=
  match o with
  | CircuitRequest n d ok st => record_circuit_breaker_request n d ok st
  | CircuitRejection n => record_circuit_breaker_rejection n
  | RetryAttempt n d ok ex => record_retry_attempt n d ok ex
  | RetryDuration n d => record_retry_total_duration n d
  | Degradation n ty d l => record_degradation_event n ty d l
  | ErrorRecord s ty r => record_error s ty r
  end.

Fixpoint run (ops : list pattern_op) (w : W) : W := match ops with [] => w | o :: ops => run ops (snd (exec o w)) end.

(** A computation returns and changes the collector under keys of [P] only. *)
Definition confined (P : string -> Prop) (f : M W unit) : Prop := forall w,
  fst (f w) = Ok tt /\ let c := collector_of w in let c' := collector_of (snd (f w)) in
  dkeys (_histograms c') = dkeys (_histograms c) /\
  forall k, ~ P k -> dget k (_counters c') = dget k (_counters c) /\ dget k (_metrics c') = dget k (_metrics c).

Lemma confined_ret P : confined P (mret tt).
Proof. by intros w. Qed.

Lemma confined_bind P f g : confined P f -> confined P g -> confined P (_ ← f; g).
Proof.
  intros Hf Hg w. destruct (Hf w) as (Hr & Hh & Hk). unfold mbind, M_bind. destruct (f w) as [r w1]. simpl in *. subst r.
  destruct (Hg w1) as (Hr2 & Hh2 & Hk2). split; [done|]. split; [congruence|].
  intros k HP. destruct (Hk k HP), (Hk2 k HP). split; congruence.
Qed.

Lemma remember_collector key v l w :
  fst (remember key v l w) = Ok tt /\ exists h,
  collector_of (snd (remember key v l w)) = set_metrics (dset key h (_metrics (collector_of w))) (collector_of w).
Proof.
  unfold remember. pose proof (collector_time w) as Ht. destruct (time_time w) as [now w']. simpl in *.
  split; [done|]. eexists. by rewrite collector_set, Ht.
Qed.

Lemma confined_remember (P : string -> Prop) key v l : P key -> confined P (remember key v l).
Proof.
  intros HP w. destruct (remember_collector key v l w) as (Hr & h & Hc). split; [done|]. simpl. rewrite Hc.
  split; [done|]. intros k Hk. simpl. split; [done|]. apply dget_dset_ne. by intros ->.
Qed.

Lemma confined_update (P : string -> Prop) f :
  (forall c, dkeys (_histograms (f c)) = dkeys (_histograms c) /\ _metrics (f c) = _metrics c /\
     forall k, ~ P k -> dget k (_counters (f c)) = dget k (_counters c)) -> confined P (update f).
Proof.
  intros Hf w. split; [done|]. simpl. rewrite collector_set. destruct (Hf (collector_of w)) as (Hh & Hm & Hc).
  split; [done|]. intros k Hk. rewrite Hm. split; [by apply Hc|done].
Qed.

Lemma confined_increment (P : string -> Prop) name l : P (_get_metric_key name l) -> confined P (increment name l).
Proof.
  intros HP. unfold increment, increment_counter. intros w. apply confined_bind; [|by apply confined_remember].
  apply confined_update. intros c. split; [done|]. split; [done|]. intros k Hk. simpl. apply dget_dset_ne. by intros <-.
Qed.

Lemma confined_gauge (P : string -> Prop) name v l : P (_get_metric_key name l) -> confined P (set_gauge name v l).
Proof. intros HP. apply confined_bind; [by apply confined_update|by apply confined_remember]. Qed.

Lemma confined_histogram (P : string -> Prop) name v l : P (_get_metric_key name l) -> confined P (observe_histogram name v l).
Proof.
  intros HP. apply confined_bind; [|by apply confined_remember]. apply confined_update. intros c.
  destruct (dget _ (_histograms c)) as [bs|] eqn:Hd; [|done]. simpl. split; [|done].
  apply dkeys_dset_in, in_map_iff. eexists (_, bs). split; [done|]. by apply dget_In.
Qed.

(** The keys the code asks for when it sums the errors of a service. *)
Definition service_key (k : string) : Prop :=
  exists s, k = "errors_total{service=" +:+ s \/ k = "error_recovery_total{service=" +:+ s \/
            k = "error_recovery_duration_ms{service=" +:+ s.

(** Keys of the patterns are not of that form. *)
Ltac not_service := intros (? & [Heq|[Heq|Heq]]); cbv [String.append] in Heq; discriminate Heq.

Lemma key_of_error n s t : _get_metric_key n [("service", s); ("error_type", t)] =
  n +:+ "{" +:+ (("error_type=" +:+ t) +:+ "," +:+ ("service=" +:+ s)) +:+ "}".
Proof. done. Qed.

Ltac confine :=
  match goal with
  | |- confined _ (increment _ _) => apply confined_increment; rewrite ?key_of_error; not_service
  | |- confined _ (set_gauge _ _ _) => apply confined_gauge; not_service
  | |- confined _ (observe_histogram _ _ _) => apply confined_histogram; rewrite ?key_of_error; not_service
  | |- confined _ (mret _) => apply confined_ret
  | |- confined _ (if ?b then _ else _) => destruct b; confine
  | |- confined _ (match ?o with Some _ => _ | None => _ end) => destruct o; confine
  | |- confined _ (mbind _ _) => apply confined_bind; confine
  end.

Lemma exec_confined o : confined (fun k => ~ service_key k) (exec o).
Proof. destruct o as [n d ok st|n|n d ok ex|n d|n ty d l|s ty [d|] ]; cbn [exec]; unfold record_circuit_breaker_request,
    record_circuit_breaker_rejection, record_retry_attempt, record_retry_total_duration, record_degradation_event, record_error;
    cbv zeta; try destruct ok; confine.
Qed.

Lemma run_confined ops w : let c := collector_of w in let c' := collector_of (run ops w) in
  dkeys (_histograms c') = dkeys (_histograms c) /\
  forall k, service_key k -> dget k (_counters c') = dget k (_counters c) /\ dget k (_metrics c') = dget k (_metrics c).
Proof.
  revert w. induction ops as [|o ops IH]; intros w; [done|]. cbn [run].
  destruct (exec_confined o w) as (_ & Hh & Hk). destruct (IH (snd (exec o w))) as (Hh' & Hk').
  split; [congruence|]. intros k Hs. destruct (Hk k (fun H => H Hs)), (Hk' k Hs). split; congruence.
Qed.

(** Whatever is recorded, the totals of the errors of a service stay zero: errors are
    counted under their type, and the totals are read without one. *)
Theorem error_totals_stay_zero n ops w service : collector_of w = MetricsCollector_init n ->
  let s := get_error_stats service (collector_of (run ops w)) in
  es_total s = 0%Q /\ es_recoveries s = 0%Q /\ es_durations s = no_stats.
Proof.
  intros Hw. destruct (run_confined ops w) as (_ & Hk). rewrite Hw in Hk.
  set (c := collector_of (run ops w)) in *. clearbody c. clear Hw.
  assert (forall m x, _get_metric_key m [("service", x)] = m +:+ "{service=" +:+ x +:+ "}") as Hkey by reflexivity.
  cbv zeta. unfold get_error_stats. cbn [es_total es_recoveries es_durations].
  unfold get_counter_value, get_histogram_stats. rewrite !Hkey.
  destruct (Hk ("errors_total" +:+ "{service=" +:+ service +:+ "}")) as (-> & _); [exists (service +:+ "}"); left; reflexivity|].
  destruct (Hk ("error_recovery_total" +:+ "{service=" +:+ service +:+ "}")) as (-> & _); [exists (service +:+ "}"); right; left; reflexivity|].
  destruct (Hk ("error_recovery_duration_ms" +:+ "{service=" +:+ service +:+ "}")) as (_ & ->); [exists (service +:+ "}"); right; right; reflexivity|].
  split_and!; reflexivity.
Qed.

Lemma common_keys n : dkeys (_histograms (MetricsCollector_init n)) = common_histograms.
Proof. reflexivity. Qed.

Lemma common_plain n k : In k (dkeys (_histograms (MetricsCollector_init n))) -> has_char "{" k = false.
Proof. rewrite common_keys. intros Hin. repeat destruct Hin as [<-|Hin]; [reflexivity..|destruct Hin]. Qed.

(** A histogram under labels never has buckets, and the interface always has labels. *)
Theorem labelled_histograms_have_no_buckets n ops w name labels : labels <> [] -> collector_of w = MetricsCollector_init n ->
  hs_buckets (get_histogram_stats name labels (collector_of (run ops w))) = [].
Proof.
  intros Hl Hw. destruct (run_confined ops w) as (Hh & _). rewrite Hw in Hh.
  assert (dget (_get_metric_key name labels) (_histograms (collector_of (run ops w))) = None) as Hnone.
  { apply dget_None_In. rewrite Hh. intros Hin. assert (has_char "{" (_get_metric_key name labels) = true) as Hbrace.
    { destruct labels; [destruct (Hl eq_refl)|]. unfold _get_metric_key. rewrite has_char_app. apply orb_true_intro. right. reflexivity. }
    rewrite (common_plain n _ Hin) in Hbrace. discriminate Hbrace. }
  unfold get_histogram_stats. destruct (map value _); [done|]. simpl. by rewrite Hnone.
Qed.
End runs.

(** ** Histograms *)

Section histograms.
Context {W : Type} `{World W, CollectorStore W, !CollectorLaws W}.

Fixpoint observe_all (name : string) (vs : list Q) (labels : pydict string) (w : W) : W :=
  match vs with [] => w | v :: vs => observe_all name vs labels (snd (observe_histogram name v labels w)) end.

(** How many of the values a bucket takes. *)
Definition taken (bound : pyfloat) (vs : list Q) : Z := sumZ (map (fun v => if float_le (Finite v) bound then 1 else 0) vs).

Lemma observe_buckets name v labels w : let key := _get_metric_key name labels in
  dget key (_histograms (collector_of (snd (observe_histogram name v labels w)))) =
  map (bump v) <$> dget key (_histograms (collector_of w)).
Proof.
  simpl. unfold observe_histogram, mbind, M_bind. cbn [update].
  destruct (remember_collector (_get_metric_key name labels) v labels (snd (update (fun c =>
    match dget (_get_metric_key name labels) (_histograms c) with
    | Some buckets => set_histograms (dset (_get_metric_key name labels) (map (bump v) buckets) (_histograms c)) c
    | None => c
    end) w))) as (_ & h & Hc).
  unfold update in *. simpl in *. rewrite Hc. simpl. rewrite collector_set.
  destruct (dget _ (_histograms (collector_of w))) as [bs|] eqn:Hd; [simpl; apply dget_dset_eq|]. simpl. by rewrite Hd.
Qed.

(** The buckets of a registered histogram count the observed values up to their
    bounds, beyond what the bounded history remembers. *)
Theorem histogram_counts_values name vs labels w limits :
  dget (_get_metric_key name labels) (_histograms (collector_of w)) = Some (map (fun l => {| upper_bound := l; count := 0 |}) limits) ->
  dget (_get_metric_key name labels) (_histograms (collector_of (observe_all name vs labels w))) =
  Some (map (fun l => {| upper_bound := l; count := taken l vs |}) limits).
Proof.
  enough (forall n : pyfloat -> Z,
    dget (_get_metric_key name labels) (_histograms (collector_of w)) = Some (map (fun l => {| upper_bound := l; count := n l |}) limits) ->
    dget (_get_metric_key name labels) (_histograms (collector_of (observe_all name vs labels w))) =
    Some (map (fun l => {| upper_bound := l; count := n l + taken l vs |}) limits)) as Hgen by exact (Hgen (fun _ => 0)).
  revert w. induction vs as [|v vs IH]; intros w n Hw.
  - simpl. rewrite Hw. f_equal. apply map_ext. intros l. f_equal. unfold taken. simpl. lia.
  - cbn [observe_all]. erewrite (IH _ (fun l => n l + if float_le (Finite v) l then 1 else 0)).
    + f_equal. apply map_ext. intros l. f_equal. unfold taken, sumZ. cbn [map foldr]. lia.
    + rewrite observe_buckets, Hw. simpl. rewrite map_map. f_equal. apply map_ext. intros l. unfold bump. cbn [upper_bound count].
      destruct (float_le (Finite v) l); f_equal; lia.
Qed.
End histograms.

(** ** A concrete collector *)

Module Demo.
#[export] Instance demo_world : World collector := { time_time w := (0%Q, w); sleep _ w := w; randbelow _ w := (0, w) }.
#[export] Instance demo_store : CollectorStore collector := { collector_of w := w; set_collector c _ := c }.
#[export] Instance demo_laws : CollectorLaws collector.
Proof. by split. Qed.

Definition fresh : collector := MetricsCollector_init 1000.
Definition failing : list pattern_op := [ErrorRecord "pkd" "Timeout" (Some 5%Q); ErrorRecord "pkd" "Timeout" None].

(** Two errors are counted under their type, and none in the total. *)
Lemma timeouts_counted : let s := get_error_stats "pkd" (run failing fresh) in
  es_breakdown s = [("Timeout", (2%Q, 1%Q))] /\ es_total s = 0%Q.
Proof. by vm_compute. Qed.

Lemma error_totals_stay_zero_witness : es_total (get_error_stats "pkd" (collector_of (run failing fresh))) = 0%Q.
Proof.
  assert (collector_of fresh = MetricsCollector_init 1000) as Hfresh by reflexivity.
  exact (proj1 (error_totals_stay_zero 1000 failing fresh "pkd" Hfresh)).
Defined.

Lemma histogram_counts_values_witness :
  dget "retry_delay_ms" (_histograms (collector_of (observe_all "retry_delay_ms" [3%Q; 7%Q] [] fresh))) =
  Some (map (fun l => {| upper_bound := l; count := taken l [3%Q; 7%Q] |}) default_latency_buckets).
Proof. apply (histogram_counts_values "retry_delay_ms" [3%Q; 7%Q] [] fresh default_latency_buckets). by vm_compute. Defined.
End Demo.
