(* ===== verification/ClientInterceptors.v ===== *)
(** * Interceptors that combine the patterns ([resilience/comprehensive_interceptors.py])

    The client interceptors, which put the breaker of the service and that of the
    method in front of a call and retry it with a manager of [AdvancedRetry.v], and
    the server interceptor that injects failures; all of them record in a collector of
    [ResilienceMetrics.v]. The state of a client is its retry manager's, over a world
    with its breakers and its collector. The classes of gRPC's errors are parameters. *)

From S2P Require Import Prelude PyRuntime PyText PyNumbers PyFloat PyGen ErrorCodes CircuitBreaker AdvancedRetry GrpcHandlers.
From S2P Require Import Interceptors EnhancedInterceptors ResilienceMetrics.
Local Open Scope Z_scope.

(** What the code uses of gRPC's errors: the name of the status code an error
    carries, if it has a [code] at all, and what constructing an [AioRpcError] of a
    code and a text gives. *)
Class GrpcErrors := {
  error_code : exn -> option string;
  aio_rpc_error : StatusCode -> string -> exn }.

Definition AioRpcError : pyclass := subclass "AioRpcError" RpcError.

Definition retryable_codes : list string :=
  map status_name [UNAVAILABLE; DEADLINE_EXCEEDED; RESOURCE_EXHAUSTED; ABORTED; INTERNAL].

Definition _should_retry_grpc_error `{GrpcErrors} (error : exn) : bool :=
  match error_code error with None => false | Some code => mem code retryable_codes end.

(** The breakers of a client: its own and those of the methods. *)
Definition service_key : string := "service".
Definition method_key (method : string) : string := "method:" +:+ method.

(** What of a client interceptor stays as it is; [retry_breaker] is the configuration
    of the retry manager's own breaker. *)
Record client := {
  service_name : string; retry_config : AdvancedRetryConfig; retry_breaker : CircuitBreakerConfig; metered : bool }.

Section client.
Context {W : Type} `{World W, Sleeper W, BreakerStore W, CollectorStore W, GrpcErrors} {Call : Type}.

(** A new interceptor: the retry manager with its breaker, the breaker of the
    service, and a collector when metrics are enabled. *)
Definition client_init (service_name : string) (config : option AdvancedRetryConfig) (own_breaker breaker : option CircuitBreakerConfig)
    (enable_metrics : bool) (w : W) : client * manager W cb :=
  let config := default default_retry_config config in
  let '(_, w) := time_time w in
  let '(own, w) := if enable_circuit_breaker config then let '(t, w) := time_time w in (Some (init t), w) else (None, w) in
  let '(t, w) := time_time w in
  let w := put_breaker service_key (default default_config breaker, init t) w in
  ({| service_name := service_name; retry_config := config; retry_breaker := default default_config own_breaker; metered := enable_metrics |},
   Mgr init_metrics own (if enable_metrics then set_collector (MetricsCollector_init 1000) w else w)).

Context (cl : client).

Definition _get_method_circuit_breaker (method : string) : M W unit := ensure_breaker (method_key method) (with_limits 3 15).

(** The labels are passed in the place of the counter's value. *)
Definition _record_request_metrics (prefix : string) (error_base : pyclass) (method : string) (start_time : Q) (success : bool)
    (error : option exn) : M W unit :=
  if negb (metered cl) then mret tt else
  now ← EnhancedInterceptors.now;
  let labels := [("service", service_name cl); ("method", method); ("success", if success then "True" else "False")] in
  _ ← increment_counter (prefix +:+ "_requests_total") NotANumber [];
  _ ← observe_histogram (prefix +:+ "_request_duration_ms") ((now - start_time) * 1000) labels;
  match error with
  | None => mret tt
  | Some e =>
      if isinstance e error_base && opt_is_some (error_code e)
      then increment_counter (prefix +:+ "_errors_total") NotANumber []
      else mret tt
  end.

Definition record_metrics : string -> Q -> bool -> option exn -> M W unit := _record_request_metrics "grpc_client" RpcError.
Definition async_record_metrics : string -> Q -> bool -> option exn -> M W unit :=
  _record_request_metrics "grpc_async_client" AioRpcError.

Definition both_succeed (method : string) : M W unit := _ ← success service_key; success (method_key method).
Definition both_fail (method : string) (error : exn) : M W unit :=
  _ ← failure service_key (Some error); failure (method_key method) (Some error).

(** The [except] clauses around a call. *)
Definition call_failed (base : pyclass) (record : string -> Q -> bool -> option exn -> M W unit)
    (method : string) (start_time : Q) (error : exn) : M W Call :=
  if isinstance error base then
    _ ← (if _should_retry_grpc_error error then both_fail method error else mret tt);
    _ ← record method start_time false (Some error); raise error
  else if catchable error then
    _ ← both_fail method error;
    _ ← record method start_time false (Some error); raise error
  else raise error.

(** Both gates, with the errors of the two circuits. *)
Definition gates (method : string) (open : string -> exn) (m : M W Call) : M W Call :=
  allowed ← allow service_key;
  if negb allowed then raise (open ("Service circuit breaker is open for " +:+ service_name cl)) else
  allowed ← allow (method_key method);
  if negb allowed then raise (open ("Method circuit breaker is open for " +:+ method)) else m.

Context (continuation : M W Call) (call_result : Call -> M W unit).

(** [continuation(client_call_details, request)], whose result is waited for. *)
Definition make_call (method : string) (start_time : Q) : M W Call :=
  gates method (raise_ RpcError)
    (try_clauses
       (call ← continuation; _ ← call_result call; _ ← both_succeed method; _ ← record_metrics method start_time true None; mret call)
       (call_failed RpcError record_metrics method start_time)).

(** The asynchronous client does not wait for the response. *)
Definition async_make_call (method : string) (start_time : Q) : M W Call :=
  gates method (aio_rpc_error UNAVAILABLE)
    (try_clauses
       (call ← continuation; _ ← both_succeed method; _ ← async_record_metrics method start_time true None; mret call)
       (call_failed AioRpcError async_record_metrics method start_time)).

(** A computation of the world below a retry manager. *)
Definition in_world {A} (m : M W A) : M (manager W cb) A := fun s =>
  let '(r, w) := m (mg_world s) in (r, Mgr (mg_metrics s) (mg_breaker s) w).

(** [start_time = time.time()], the method's breaker, and the retries. *)
Definition retried (is_async : bool) (suffix : string) (attempt : Q -> M W Call) (method : string) : M (manager W cb) Call :=
  start_time ← in_world EnhancedInterceptors.now;
  _ ← in_world (_get_method_circuit_breaker method);
  retry_sync (H1 := circuit_breaker (retry_breaker cl)) is_async (service_name cl +:+ suffix) (retry_config cl) (attempt start_time).

Definition intercept_unary_unary (method : string) : M (manager W cb) Call := retried false "_client" (make_call method) method.
Definition async_intercept_unary_unary (method : string) : M (manager W cb) Call :=
  retried true "_async_client" (async_make_call method) method.
End client.

(** ** The server *)

(** The number of requests that are being handled. *)
Class ActiveRequests (W : Type) := { active : W -> Z; set_active : Z -> W -> W }.

Section server.
Context {W : Type} `{World W, RandomSource W, CollectorStore W, ActiveRequests W} {Req Msg Codec : Type}.

Local Abbreviation behavior := (Behavior (W := W) (Req := Req) (Msg := Msg)).
Local Abbreviation handler := (Handler (W := W) (Req := Req) (Msg := Msg) (Codec := Codec)).
Local Abbreviation outcome := (Outcome (W := W) (Msg := Msg)).

Context (service : string) (injection : AdvancedFailureInjectionConfig) (enable_metrics : bool).

Definition server_should_inject (method : string) (c : ServicerContext W) : M W bool :=
  if negb (inj_enabled injection) then mret false else
  let force_failure := bool_decide (dget (target_metadata_key injection) (dict_of (context_metadata c)) = Some "true") in
  adv_should_fail injection method force_failure.

(** [random.choice] of the configured classes, which [error_types] lists. *)
Definition random_type : M W ErrorType := fun w =>
  let '(i, w) := random_index (length (error_types injection)) w in
  match error_types injection !! i with
  | Some t => (Ok t, w)
  | None => (Raise (raise_ (subclass "IndexError" LookupError) "Cannot choose from an empty sequence"), w)
  end.

Definition is_subclass (c base : pyclass) : bool := existsb (String.eqb (cls_name base)) (mro c).

Definition _inject_failure (method : string) (c : ServicerContext W) : M W unit :=
  match error_types injection with
  | [] => mret tt
  | _ =>
      t ← random_type;
      let error_msg := "Injected failure for " +:+ method +:+ " (testing)" in
      if is_subclass (error_class t) RpcError then abort c INTERNAL error_msg else raise (construct t error_msg)
  end.

Definition _record_server_metrics (method : string) (start_time : Q) (success : bool) (error : option exn) : M W unit :=
  if negb enable_metrics then mret tt else
  now ← EnhancedInterceptors.now;
  let labels := [("service", service); ("method", method); ("success", if success then "True" else "False")] in
  _ ← increment_counter "grpc_server_requests_total" NotANumber [];
  _ ← observe_histogram "grpc_server_request_duration_ms" ((now - start_time) * 1000) labels;
  n ← gets active;
  _ ← set_gauge "grpc_server_active_requests" (inject_Z n) [("service", service)];
  match error with None => mret tt | Some _ => increment_counter "grpc_server_errors_total" NotANumber [] end.

Definition count_active (f : Z -> Z) : M W unit := fun w => (Ok tt, set_active (f (active w)) w).

(** The [except] clause of the handler. *)
Definition answer_error (method : string) (start_time : Q) (c : ServicerContext W) (error : exn) : M W outcome :=
  if catchable error then
    let '(status, details) := map_exception_to_status error in
    _ ← _record_server_metrics method start_time false (Some error);
    _ ← abort c status details; mret (Now RNone)
  else raise error.

Definition enhanced_unary_unary (method : string) (original : behavior) : behavior := {|
  kind := Plain;
  call := fun request c =>
    start_time ← EnhancedInterceptors.now;
    _ ← count_active (fun n => n + 1);
    try_finally
      (try_clauses
         (fail ← server_should_inject method c;
          _ ← (if (fail : bool) then _inject_failure method c else mret tt);
          result ← call original request c;
          _ ← _record_server_metrics method start_time true None;
          mret result)
         (answer_error method start_time c))
      (count_active (fun n => Z.max 0 (n - 1))) |}.

(** The new handler keeps neither deserializer nor serializer. *)
Definition server_intercept_service (continuation : HandlerCallDetails -> M W (option handler)) (details : HandlerCallDetails) : M W (option handler) :=
  found ← continuation details;
  mret (h ← found;
        match unary_unary h with
        | Some b => Some (factory false false (enhanced_unary_unary (method details) b) None None)
        | None => Some h
        end).
End server.

(** ** Metrics make every call fail *)

(** A computation that never returns a value. *)
Definition never_returns {S A} (m : M S A) : Prop := forall s v s', m s <> (Ok v, s').

Lemma never_bind_l {S A B} (m : M S A) (f : A -> M S B) : never_returns m -> never_returns (m ≫= f).
Proof. intros Hm s v s' (a & s1 & E & _)%bind_inv_ok. by apply Hm in E. Qed.

Lemma never_bind_r {S A B} (m : M S A) (f : A -> M S B) : (forall a, never_returns (f a)) -> never_returns (m ≫= f).
Proof. intros Hf s v s' (a & s1 & _ & E)%bind_inv_ok. by apply Hf in E. Qed.

Lemma never_if {S A} (b : bool) (m1 m2 : M S A) : never_returns m1 -> never_returns m2 -> never_returns (if b then m1 else m2).
Proof. by destruct b. Qed.

Lemma never_raise {S A} e : never_returns (raise e : M S A).
Proof. by intros s v s'. Qed.

Lemma never_try {S A} (m : M S A) h : never_returns m -> (forall e, never_returns (h e)) -> never_returns (try_clauses m h).
Proof.
  intros Hm Hh s v s'. unfold try_clauses. destruct (m s) as [[a|e] s1] eqn:E; [by apply Hm in E|apply Hh].
Qed.

Lemma never_run {S A} (m : M S A) s : never_returns m -> exists e s', m s = (Raise e, s').
Proof. intros Hm. destruct (m s) as [[v|e] s'] eqn:E; [by apply Hm in E|by eexists _, _]. Qed.

Create HintDb never.
#[export] Hint Resolve never_if never_raise never_try : never.
#[export] Hint Extern 3 (never_returns (mbind _ _)) => apply never_bind_l; solve [eauto with never] : never.
#[export] Hint Extern 4 (never_returns (mbind _ _)) => apply never_bind_r; intros : never.

Lemma labels_cannot_be_added {W} `{World W, CollectorStore W} name l : never_returns (increment_counter (W := W) name NotANumber l).
Proof. unfold increment_counter. intros w v w'. apply never_bind_r. intros _. apply never_raise. Qed.

#[export] Hint Resolve labels_cannot_be_added : never.

Section metered.
Context {W : Type} `{World W, Sleeper W, BreakerStore W, CollectorStore W, GrpcErrors} {Call : Type}.
Context (cl : client) (Hmetered : metered cl = true).

Lemma recording_raises prefix base method start ok error : never_returns (_record_request_metrics (W := W) cl prefix base method start ok error).
Proof using Hmetered. unfold _record_request_metrics. rewrite Hmetered. simpl. eauto with never. Qed.

Lemma call_failed_raises base record method start e : never_returns (call_failed (W := W) (Call := Call) base record method start e).
Proof. unfold call_failed. eauto 10 with never. Qed.

#[local] Hint Resolve recording_raises call_failed_raises : never.

Lemma attempts_raise (continuation : M W Call) call_result method start :
  never_returns (make_call cl continuation call_result method start) /\ never_returns (async_make_call cl continuation method start).
Proof using Hmetered.
  unfold make_call, async_make_call, gates, record_metrics, async_record_metrics. split; eauto 12 with never.
Qed.

Lemma retried_raises is_async suffix (attempt : Q -> M W Call) method :
  (forall start, never_returns (attempt start)) -> never_returns (retried cl is_async suffix attempt method).
Proof.
  intros Ha. apply never_bind_r. intros start. apply never_bind_r. intros _.
  intros s v s' (w & w' & E)%retry_returned. by apply Ha in E.
Qed.
End metered.

(** With metrics, which are on by default, no call through a client interceptor ever
    returns, whatever the service answers: the recording of a success raises. *)
Theorem metered_calls_never_return {W} `{World W, Sleeper W, BreakerStore W, CollectorStore W, GrpcErrors} {Call} (cl : client)
    (continuation : M W Call) call_result method (s : manager W cb) :
  metered cl = true ->
  (exists e s', intercept_unary_unary cl continuation call_result method s = (Raise e, s')) /\
  (exists e s', async_intercept_unary_unary cl continuation method s = (Raise e, s')).
Proof.
  intros Hm. split; apply never_run, retried_raises; intros start; by apply attempts_raise.
Qed.

Section metered_server.
Context {W : Type} `{World W, RandomSource W, CollectorStore W, ActiveRequests W} {Req Msg : Type}.
Context (service : string) (injection : AdvancedFailureInjectionConfig).

Local Abbreviation behavior := (Behavior (W := W) (Req := Req) (Msg := Msg)).

Lemma server_recording_raises method start ok error (w : W) :
  exists w', _record_server_metrics service true method start ok error w = (Raise cannot_add, w').
Proof.
  unfold _record_server_metrics, EnhancedInterceptors.now, increment_counter, update, mbind, M_bind. simpl.
  destruct (time_time w). by eexists.
Qed.

(** What the server's caller gets in place of a result. *)
Definition masked {A} (r : result A) : exn :=
  match r with Raise e => if catchable e then cannot_add else e | Ok _ => cannot_add end.

(** The state in which the handler is called. *)
Definition begun (w : W) : W := let w := snd (time_time w) in set_active (active w + 1) w.

(** With metrics no unary call is answered and no status is set: its result or its
    exception is replaced by the failure to record it. *)
Theorem metered_server_never_answers method (b : behavior) request c (w : W) :
  inj_enabled injection = false ->
  exists w', forall abort', let c' := {| auth_context := auth_context c; peer_identity_key := peer_identity_key c;
      peer_identities := peer_identities c; context_metadata := context_metadata c; abort := abort' |} in
    call b request c' = call b request c ->
    call (enhanced_unary_unary service injection true method b) request c' w =
      (Raise (masked (fst (call b request c (begun w)))), w').
Proof.
  intros Hi. set (r := call b request c (begun w)).
  destruct (server_recording_raises method (fst (time_time w)) true None (snd r)) as [w1 Hok].
  set (e1 := match fst r with Ok _ => cannot_add | Raise e => e end).
  set (w2 := match fst r with Ok _ => w1 | Raise _ => snd r end).
  destruct (server_recording_raises method (fst (time_time w)) false (Some e1) w2) as [w3 Hbad].
  set (w4 := if catchable e1 then w3 else w2).
  exists (set_active (Z.max 0 (active w4 - 1)) w4). intros abort' c' Hc.
  cbn [enhanced_unary_unary call]. unfold mbind at 1, M_bind at 1, EnhancedInterceptors.now.
  destruct (time_time w) as [t0 w0] eqn:Ht. unfold mbind at 1, M_bind at 1, count_active at 1. simpl fst in *.
  assert (begun w = set_active (active w0 + 1) w0) as Hw by (unfold begun; by rewrite Ht).
  unfold try_finally, try_clauses, server_should_inject. rewrite Hi. cbn [negb].
  unfold mbind, M_bind. simpl. rewrite Hc, <- Hw. fold r. destruct r as [[o|e] wr] eqn:Hr; simpl in *.
  - rewrite Hok. unfold answer_error. simpl. unfold mbind, M_bind, e1, w2 in *. rewrite Hbad. done.
  - unfold answer_error, w4, e1, w2 in *. destruct (catchable e); [|done].
    destruct (map_exception_to_status e) as [status details]. unfold mbind, M_bind. by rewrite Hbad.
Qed.
End metered_server.

(** ** A deployment *)

Module Demo.
Record world := { breakers : pydict (CircuitBreakerConfig * cb); metrics_ : collector; calls : Z; requests : Z }.

#[export] Instance demo_world : World world := { time_time w := (0%Q, w); sleep _ w := w; randbelow _ w := (0, w) }.
#[export] Instance demo_sleeper : Sleeper world := { sleep_for _ w := (Ok tt, w) }.
#[export] Instance demo_random : RandomSource world := { random_random w := (0%Q, w); random_index _ w := (O, w) }.
#[export] Instance demo_breakers : BreakerStore world := {
  find_breaker name w := dget name (breakers w);
  put_breaker name b w := {| breakers := dset name b (breakers w); metrics_ := metrics_ w; calls := calls w; requests := requests w |} }.
#[export] Instance demo_collector : CollectorStore world := {
  collector_of := metrics_;
  set_collector c w := {| breakers := breakers w; metrics_ := c; calls := calls w; requests := requests w |} }.
#[export] Instance demo_active : ActiveRequests world := {
  active := requests;
  set_active n w := {| breakers := breakers w; metrics_ := metrics_ w; calls := calls w; requests := n |} }.

(** The text of an error starts with its code. *)
#[export] Instance demo_errors : GrpcErrors := {
  error_code e := if isinstance e RpcError then Some (exn_message e) else None;
  aio_rpc_error _ _ := raise_ TypeError "missing 1 required positional argument: 'trailing_metadata'" }.

Definition empty_world : world := {| breakers := []; metrics_ := MetricsCollector_init 10; calls := 0; requests := 0 |}.

(** A call that gives [r], counted. *)
Definition calling (r : result string) : M world string := fun w =>
  (r, {| breakers := breakers w; metrics_ := metrics_ w; calls := calls w + 1; requests := requests w |}).

Definition ask (enable_metrics : bool) (r : result string) (w : world) : result string * world :=
  let '(cl, s) := client_init "pkd" None None None enable_metrics w in
  let '(r, s) := intercept_unary_unary cl (calling r) (fun _ => mret tt) "/pkd/Get" s in (r, mg_world s).

Definition phase (w : world) : option (CircuitBreakerState * Z) := (fun x => (_state (snd x), _failure_count (snd x))) <$> dget service_key (breakers w).

(** A document that arrives is lost, and counts as a failure of the service. *)
Lemma document_is_lost : let '(r, w) := ask true (Ok "document") empty_world in
  r = Raise cannot_add /\ calls w = 1 /\ phase w = Some (CLOSED, 1).
Proof. by vm_compute. Qed.

Lemma document_without_metrics : let '(r, w) := ask false (Ok "document") empty_world in
  r = Ok "document" /\ calls w = 1 /\ phase w = Some (CLOSED, 0).
Proof. by vm_compute. Qed.

(** The error the code calls retryable is not retried by default. *)
Lemma unavailable_not_retried : let '(r, w) := ask false (Raise (raise_ RpcError "UNAVAILABLE")) empty_world in
  r = Raise (raise_ RpcError "UNAVAILABLE") /\ calls w = 1 /\ phase w = Some (CLOSED, 1).
Proof. by vm_compute. Qed.

Definition one_client : client := {|
  service_name := "pkd"; retry_config := default_retry_config; retry_breaker := default_config; metered := true |}.

Lemma metered_calls_never_return_witness :
  (exists e s', intercept_unary_unary one_client (calling (Ok "document")) (fun _ => mret tt) "/pkd/Get" (Mgr init_metrics None empty_world) = (Raise e, s')) /\
  (exists e s', async_intercept_unary_unary one_client (calling (Ok "document")) "/pkd/Get" (Mgr init_metrics None empty_world) = (Raise e, s')).
Proof. apply (metered_calls_never_return one_client (calling (Ok "document")) (fun _ => mret tt) "/pkd/Get" (Mgr init_metrics None empty_world)). reflexivity. Defined.

Definition quiet : AdvancedFailureInjectionConfig := AdvancedFailureInjectionConfig_init false 0 None None "x-failure-inject".
Definition serving : Behavior (W := world) (Req := unit) (Msg := string) :=
  {| kind := Plain; call := fun _ _ => mret (Now (RMessage "document")) |}.
Definition context : ServicerContext world := {|
  auth_context := Ok []; peer_identity_key := Ok None; peer_identities := Ok None; context_metadata := [];
  abort := fun _ _ w => (Raise (raise_ Exception_ "aborted"), w) |}.

Lemma metered_server_never_answers_witness :
  exists w', call (enhanced_unary_unary "pkd" quiet true "/pkd/Get" serving) tt context empty_world = (Raise cannot_add, w').
Proof.
  destruct (metered_server_never_answers "pkd" quiet "/pkd/Get" serving tt context empty_world eq_refl) as [w' Hw].
  exists w'. exact (Hw (abort context) eq_refl).
Defined.
End Demo.
