(* ===== verification/KeyRotation.v ===== *)
(** * Key rotation ([security/key_rotation.py], [security/hsm.py])

    The key store interface and its database implementation, the distributor,
    and the rotation manager. The 24-hour grace period of a rotated key and the
    jobs handed to the thread pool are pending work in the manager's state: a
    step of the system runs one of them. The database driver, the HSM and the
    distribution handlers are parameters; the clock ([utcnow]) and the
    identifiers come from the environment. *)

From Stdlib Require Import Sorted.
From stdpp Require Import sorting.
From S2P Require Import Prelude PyRuntime.
Local Open Scope Z_scope.

Inductive KeyType :=
| SIGNING | ENCRYPTION | ROOT_CA | INTERMEDIATE_CA | DOCUMENT_SIGNER | TLS | API_KEY.

Inductive KeyStatus :=
| ACTIVE | PENDING_ROTATION | ROTATION_IN_PROGRESS | DEPRECATED | REVOKED | EXPIRED.

#[export] Instance KeyType_eq_dec : EqDecision KeyType.
Proof. solve_decision. Defined.
#[export] Instance KeyStatus_eq_dec : EqDecision KeyStatus.
Proof. solve_decision. Defined.

Definition key_type_value (t : KeyType) : string :=
  match t with
  | SIGNING => "signing" | ENCRYPTION => "encryption" | ROOT_CA => "root_ca"
  | INTERMEDIATE_CA => "intermediate_ca" | DOCUMENT_SIGNER => "document_signer"
  | TLS => "tls" | API_KEY => "api_key"
  end.

Definition key_status_value (s : KeyStatus) : string :=
  match s with
  | ACTIVE => "active" | PENDING_ROTATION => "pending_rotation"
  | ROTATION_IN_PROGRESS => "rotation_in_progress" | DEPRECATED => "deprecated"
  | REVOKED => "revoked" | EXPIRED => "expired"
  end.

(** [KeyType(value)] and [KeyStatus(value)]; [None] for [ValueError]. *)
Definition key_type_of (s : string) : option KeyType :=
  List.find (fun t => String.eqb (key_type_value t) s)
    [SIGNING; ENCRYPTION; ROOT_CA; INTERMEDIATE_CA; DOCUMENT_SIGNER; TLS; API_KEY].
Definition key_status_of (s : string) : option KeyStatus :=
  List.find (fun t => String.eqb (key_status_value t) s)
    [ACTIVE; PENDING_ROTATION; ROTATION_IN_PROGRESS; DEPRECATED; REVOKED; EXPIRED].

(** Tags are strings; a time written with [isoformat] is a [JTime]. *)
Record KeyMetadata := {
  key_id : string; key_type : KeyType; algorithm : string; key_size : Z; service_name : string;
  created_at : Z; expires_at : Z; status : KeyStatus; version : Z;
  parent_key_id : option string; rotation_policy_id : option string; tags : pydict json }.

Definition set_status (st : KeyStatus) (m : KeyMetadata) : KeyMetadata := {|
  key_id := key_id m; key_type := key_type m; algorithm := algorithm m; key_size := key_size m;
  service_name := service_name m; created_at := created_at m; expires_at := expires_at m;
  status := st; version := version m; parent_key_id := parent_key_id m;
  rotation_policy_id := rotation_policy_id m; tags := tags m |}.

Definition set_lineage (parent : string) (ver : Z) (m : KeyMetadata) : KeyMetadata := {|
  key_id := key_id m; key_type := key_type m; algorithm := algorithm m; key_size := key_size m;
  service_name := service_name m; created_at := created_at m; expires_at := expires_at m;
  status := status m; version := ver; parent_key_id := Some parent;
  rotation_policy_id := rotation_policy_id m; tags := tags m |}.

Definition set_tag (name : string) (v : json) (m : KeyMetadata) : KeyMetadata := {|
  key_id := key_id m; key_type := key_type m; algorithm := algorithm m; key_size := key_size m;
  service_name := service_name m; created_at := created_at m; expires_at := expires_at m;
  status := status m; version := version m; parent_key_id := parent_key_id m;
  rotation_policy_id := rotation_policy_id m; tags := dset name v (tags m) |}.

(** [is_expired] and [needs_rotation] at a reading [now] of [utcnow]. *)
Definition is_expired (m : KeyMetadata) (now : Z) : bool := expires_at m <? now.
Definition needs_rotation (m : KeyMetadata) (warning_days : Z) (now : Z) : bool :=
  expires_at m <=? now + timedelta_days warning_days.

Record RotationPolicy := {
  policy_id : string; name : string; policy_key_type : KeyType; rotation_interval_days : Z;
  warning_days : Z; auto_rotate : bool; max_key_age_days : Z; min_overlap_hours : Z;
  notification_channels : list string; services : list string }.

(** ** Key stores *)

Class KeyStore (K : Type) := {
  store_key : string -> string -> KeyMetadata -> K -> bool * K;
  get_key : string -> K -> option (string * KeyMetadata) * K;
  list_keys : option string -> option KeyType -> K -> list KeyMetadata * K;
  delete_key : string -> K -> bool * K;
  update_key_metadata : string -> KeyMetadata -> K -> bool * K }.

(** What [update_key_metadata] replaces in a stored key. *)
Definition updated (m old : KeyMetadata) : KeyMetadata := {|
  key_id := key_id old; key_type := key_type old; algorithm := algorithm old;
  key_size := key_size old; service_name := service_name old; created_at := created_at old;
  expires_at := expires_at old; status := status m; version := version m;
  parent_key_id := parent_key_id m; rotation_policy_id := rotation_policy_id m; tags := tags m |}.

(** The listing filter: [None] and the empty service name select everything. *)
Definition listed (svc : option string) (ty : option KeyType) (m : KeyMetadata) : bool :=
  (if str_truthy svc then String.eqb (service_name m) (default "" svc) else true)
  && match ty with Some t => bool_decide (key_type m = t) | None => true end.

(** Newest first. *)
Definition newer (a b : KeyMetadata) : Prop := created_at b <= created_at a.

(** What a key store promises. [keys] is its content. An operation that fails changes nothing;
    a [reliable] store does not fail. *)
Class KeyStoreLaws (K : Type) `{KeyStore K} := {
  keys : K -> gmap string (string * KeyMetadata);
  reliable : K -> Prop;
  keys_id k id d m : keys k !! id = Some (d, m) -> key_id m = id;
  get_law id k : match get_key id k with (r, k') =>
    keys k' = keys k /\ (r = None \/ r = keys k !! id) /\
    (reliable k -> r = keys k !! id /\ reliable k') end;
  store_law id d m k : key_id m = id -> match store_key id d m k with (b, k') =>
    (if b then keys k !! id = None /\ keys k' = <[id := (d, m)]> (keys k)
     else keys k' = keys k) /\
    (reliable k -> reliable k' /\ (b = false -> is_Some (keys k !! id))) end;
  update_law id m k : match update_key_metadata id m k with (b, k') =>
    (forall id', id' <> id -> keys k' !! id' = keys k !! id') /\
    (if b then
       (forall d old, keys k !! id = Some (d, old) -> keys k' !! id = Some (d, updated m old)) /\
       (reliable k -> keys k !! id = None -> keys k' !! id = None)
     else keys k' = keys k) /\
    (reliable k -> b = true /\ reliable k') end;
  delete_law id k : match delete_key id k with (b, k') =>
    keys k' = (if b then delete id (keys k) else keys k) /\
    (reliable k -> b = true /\ reliable k') end;
  list_law svc ty k : match list_keys svc ty k with (l, k') =>
    keys k' = keys k /\ NoDup (map key_id l) /\ StronglySorted newer l /\
    (forall m, In m l -> listed svc ty m = true /\ exists d, keys k !! key_id m = Some (d, m)) /\
    (reliable k -> reliable k' /\ forall id d m, keys k !! id = Some (d, m) ->
      listed svc ty m = true -> In m l) end }.

(** ** The database key store *)

(** A row of the table. The tags column is NULL or empty ([None]), a text that is not JSON
    ([Some None]), or the text of a JSON object. *)
Record row := {
  r_key_id : string; r_key_data : string; r_key_type : string; r_algorithm : string;
  r_key_size : Z; r_service_name : string; r_created_at : Z; r_expires_at : Z; r_status : string;
  r_version : Z; r_parent_key_id : option string; r_rotation_policy_id : option string;
  r_tags : option (option (pydict json)) }.

(** The columns of the [UPDATE] statement. *)
Record row_update := {
  u_status : string; u_version : Z; u_parent_key_id : option string;
  u_rotation_policy_id : option string; u_tags : option (option (pydict json)) }.

Definition apply_update (u : row_update) (r : row) : row := {|
  r_key_id := r_key_id r; r_key_data := r_key_data r; r_key_type := r_key_type r;
  r_algorithm := r_algorithm r; r_key_size := r_key_size r; r_service_name := r_service_name r;
  r_created_at := r_created_at r; r_expires_at := r_expires_at r; r_status := u_status u;
  r_version := u_version u; r_parent_key_id := u_parent_key_id u;
  r_rotation_policy_id := u_rotation_policy_id u; r_tags := u_tags u |}.

(** The statements the store sends to [self.db]. *)
Class Db (D : Type) := {
  db_create_tables : D -> result unit * D;
  db_insert : row -> D -> result unit * D;
  db_fetchone : string -> D -> result (option row) * D;
  db_fetchall : option string -> option string -> D -> result (list row) * D;
  db_delete : string -> D -> result unit * D;
  db_update : row_update -> string -> D -> result unit * D }.

Definition row_selected (svc ty : option string) (r : row) : bool :=
  match svc with Some s => String.eqb (r_service_name r) s | None => true end
  && match ty with Some t => String.eqb (r_key_type r) t | None => true end.

Definition row_newer (a b : row) : Prop := r_created_at b <= r_created_at a.

(** The documented behaviour of the database: a table with a primary key; a statement that
    raises (an [Exception]) has no effect. *)
Class DbLaws (D : Type) `{Db D} := {
  rows : D -> gmap string row;
  available : D -> Prop;
  rows_id db id r : rows db !! id = Some r -> r_key_id r = id;
  create_tables_law db : match db_create_tables db with (r, db') =>
    rows db' = rows db /\ (forall e, r = Raise e -> catchable e = true) end;
  insert_law r db : match db_insert r db with
    | (Ok _, db') => rows db !! r_key_id r = None /\ rows db' = <[r_key_id r := r]> (rows db) /\
        (available db -> available db')
    | (Raise e, db') => catchable e = true /\ rows db' = rows db /\
        (available db -> available db' /\ is_Some (rows db !! r_key_id r)) end;
  fetchone_law id db : match db_fetchone id db with
    | (Ok r, db') => r = rows db !! id /\ rows db' = rows db /\ (available db -> available db')
    | (Raise e, db') => catchable e = true /\ rows db' = rows db /\ ~ available db end;
  fetchall_law svc ty db : match db_fetchall svc ty db with
    | (Ok l, db') => rows db' = rows db /\ NoDup (map r_key_id l) /\ StronglySorted row_newer l /\
        (forall r, In r l <-> rows db !! r_key_id r = Some r /\ row_selected svc ty r = true) /\
        (available db -> available db')
    | (Raise e, db') => catchable e = true /\ rows db' = rows db /\ ~ available db end;
  delete_row_law id db : match db_delete id db with
    | (Ok _, db') => rows db' = delete id (rows db) /\ (available db -> available db')
    | (Raise e, db') => catchable e = true /\ rows db' = rows db /\ ~ available db end;
  update_row_law u id db : match db_update u id db with
    | (Ok _, db') => rows db' = alter (apply_update u) id (rows db) /\
        (available db -> available db')
    | (Raise e, db') => catchable e = true /\ rows db' = rows db /\ ~ available db end }.

Module DatabaseKeyStore.
Definition encode (id data : string) (m : KeyMetadata) : row := {|
  r_key_id := id; r_key_data := data; r_key_type := key_type_value (key_type m);
  r_algorithm := algorithm m; r_key_size := key_size m; r_service_name := service_name m;
  r_created_at := created_at m; r_expires_at := expires_at m;
  r_status := key_status_value (status m); r_version := version m;
  r_parent_key_id := parent_key_id m; r_rotation_policy_id := rotation_policy_id m;
  r_tags := Some (Some (tags m)) |}.

(** The metadata of a row; [None] when a conversion raises. *)
Definition decode (id : string) (r : row) : option KeyMetadata :=
  ty ← key_type_of (r_key_type r);
  st ← key_status_of (r_status r);
  tg ← match r_tags r with None => Some [] | Some j => j end;
  Some {| key_id := id; key_type := ty; algorithm := r_algorithm r; key_size := r_key_size r;
          service_name := r_service_name r; created_at := r_created_at r;
          expires_at := r_expires_at r; status := st; version := r_version r;
          parent_key_id := r_parent_key_id r; rotation_policy_id := r_rotation_policy_id r;
          tags := tg |}.

Section store.
Context {D : Type} `{Db D}.

(** [try: ... except Exception: return failed / else: return f(value)]; an exception that is
    not an [Exception] does not occur (see [DbLaws]) and is treated alike. *)
Definition guarded {A B} (failed : B) (f : A -> B) (r : result A * D) : B * D :=
  match r with (Ok a, db) => (f a, db) | (Raise _, db) => (failed, db) end.

Definition ensure_tables (db : D) : D := snd (db_create_tables db).

Definition store_key (id data : string) (m : KeyMetadata) (db : D) : bool * D :=
  guarded false (fun _ => true) (db_insert (encode id data m) db).

Definition get_key (id : string) (db : D) : option (string * KeyMetadata) * D :=
  guarded None (fun found => r ← found; m ← decode id r; Some (r_key_data r, m))
    (db_fetchone id db).

(** One row that cannot be converted makes the whole listing empty. *)
Definition list_keys (svc : option string) (ty : option KeyType) (db : D) :
    list KeyMetadata * D :=
  guarded [] (fun rs => default [] (mapM (fun r => decode (r_key_id r) r) rs))
    (db_fetchall (if str_truthy svc then svc else None) (key_type_value <$> ty) db).

Definition delete_key (id : string) (db : D) : bool * D :=
  guarded false (fun _ => true) (db_delete id db).

Definition update_key_metadata (id : string) (m : KeyMetadata) (db : D) : bool * D :=
  guarded false (fun _ => true)
    (db_update {| u_status := key_status_value (status m); u_version := version m;
       u_parent_key_id := parent_key_id m; u_rotation_policy_id := rotation_policy_id m;
       u_tags := Some (Some (tags m)) |} id db).
End store.
End DatabaseKeyStore.

#[export] Instance database_key_store {D} `{Db D} : KeyStore D := {
  store_key := DatabaseKeyStore.store_key;
  get_key := DatabaseKeyStore.get_key;
  list_keys := DatabaseKeyStore.list_keys;
  delete_key := DatabaseKeyStore.delete_key;
  update_key_metadata := DatabaseKeyStore.update_key_metadata }.

Module DatabaseKeyStoreLaws.
Import DatabaseKeyStore.

Lemma key_type_roundtrip t : key_type_of (key_type_value t) = Some t.
Proof. by destruct t. Qed.
Lemma key_status_roundtrip t : key_status_of (key_status_value t) = Some t.
Proof. by destruct t. Qed.

(** What is written into a row is read back, under the identifier it is looked up with. *)
Lemma decode_encode id data m : key_id m = id -> decode id (encode id data m) = Some m.
Proof.
  unfold decode; simpl. rewrite key_type_roundtrip; simpl. rewrite key_status_roundtrip; simpl.
  destruct m; simpl. by intros ->.
Qed.

Lemma decode_update id m r old :
  decode id r = Some old ->
  decode id (apply_update {| u_status := key_status_value (status m); u_version := version m;
    u_parent_key_id := parent_key_id m; u_rotation_policy_id := rotation_policy_id m;
    u_tags := Some (Some (tags m)) |} r) = Some (updated m old).
Proof.
  unfold decode; simpl. rewrite key_status_roundtrip.
  destruct (key_type_of _) as [ty|]; simpl; [|done].
  destruct (key_status_of (r_status r)); simpl; [|done].
  destruct (r_tags r) as [ [j|]|]; simpl; intros [= <-]; done.
Qed.

Lemma decode_id id r m : decode id r = Some m -> key_id m = id.
Proof. unfold decode. intros H. repeat (apply bind_Some in H as (? & _ & H)). by simplify_eq. Qed.

Lemma decode_created id r m : decode id r = Some m -> created_at m = r_created_at r.
Proof. unfold decode. intros H. repeat (apply bind_Some in H as (? & _ & H)). by simplify_eq. Qed.

Lemma key_type_value_inj t1 t2 : key_type_value t1 = key_type_value t2 -> t1 = t2.
Proof. by destruct t1, t2. Qed.

Lemma decode_selected id r m svc ty :
  decode id r = Some m ->
  row_selected (if str_truthy svc then svc else None) (key_type_value <$> ty) r = listed svc ty m.
Proof.
  unfold decode. intros H. apply bind_Some in H as (t & Hty & H).
  repeat (apply bind_Some in H as (? & _ & H)). simplify_eq. unfold row_selected, listed; simpl.
  f_equal; [by destruct svc as [ [|? ?]|]|]. destruct ty as [t'|]; simpl; [|done].
  unfold key_type_of in Hty. apply List.find_some in Hty as [_ Hty]. apply String.eqb_eq in Hty.
  rewrite <- Hty. apply eq_true_iff_eq. rewrite String.eqb_eq, bool_decide_eq_true.
  split; [apply key_type_value_inj|by intros ->].
Qed.

(** The metadata of a list of rows that can all be converted. *)
Lemma decoded_rows rs ms :
  mapM (fun r => decode (r_key_id r) r) rs = Some ms ->
  map key_id ms = map r_key_id rs /\ map created_at ms = map r_created_at rs /\
  (forall m, In m ms <-> exists r, In r rs /\ decode (r_key_id r) r = Some m).
Proof.
  intros HF%mapM_Some. induction HF as [|r m rs ms Hm HF (IH1 & IH2 & IH3)]; simpl; [naive_solver|].
  rewrite (decode_id _ _ _ Hm), (decode_created _ _ _ Hm), IH1, IH2. split_and!; [done|done|].
  intros m'. rewrite IH3. naive_solver.
Qed.

Lemma sorted_by_created (rs : list row) (ms : list KeyMetadata) :
  map created_at ms = map r_created_at rs ->
  StronglySorted row_newer rs -> StronglySorted newer ms.
Proof.
  revert ms. induction rs as [|r rs IH]; intros [|m ms] Heq Hs; simplify_eq/=; [constructor|].
  apply StronglySorted_inv in Hs as [Hs Hr]. constructor; [auto|].
  clear Hs IH. revert ms H0. induction Hr as [|r' rs Hr' _ IH]; intros [|m' ms] Heq; simplify_eq/=; [done|].
  constructor; [|auto]. unfold newer, row_newer in *. congruence.
Qed.

Section laws.
Context {D : Type} `{DbLaws D}.

Definition content (r : row) : option (string * KeyMetadata) :=
  m ← decode (r_key_id r) r; Some (r_key_data r, m).

Definition db_keys (db : D) : gmap string (string * KeyMetadata) := omap content (rows db).

(** The connector answers and every row can be converted. *)
Definition db_reliable (db : D) : Prop :=
  available db /\ forall id r, rows db !! id = Some r -> is_Some (decode id r).

Lemma db_keys_lookup db id :
  db_keys db !! id = (r ← rows db !! id; m ← decode id r; Some (r_key_data r, m)).
Proof.
  unfold db_keys. rewrite lookup_omap. destruct (rows db !! id) as [r|] eqn:Hr; [|done].
  simpl. unfold content. by rewrite (rows_id _ _ _ Hr).
Qed.

Lemma db_keys_id db id d m : db_keys db !! id = Some (d, m) -> key_id m = id.
Proof.
  rewrite db_keys_lookup. intros (r & _ & Hm)%bind_Some.
  apply bind_Some in Hm as (m' & Hm & [= _ <-]). by eapply decode_id.
Qed.

Lemma db_keys_same db db' : rows db' = rows db -> db_keys db' = db_keys db.
Proof. unfold db_keys. by intros ->. Qed.

Lemma db_reliable_same db db' :
  rows db' = rows db -> (available db -> available db') -> db_reliable db -> db_reliable db'.
Proof. unfold db_reliable. intros ->. naive_solver. Qed.

Lemma db_keys_None db id :
  db_reliable db -> db_keys db !! id = None -> rows db !! id = None.
Proof.
  intros [_ Hdec] Hn. rewrite db_keys_lookup in Hn. destruct (rows db !! id) as [r|] eqn:Hr; [|done].
  destruct (Hdec _ _ Hr) as [m Hm]. simpl in Hn. by rewrite Hm in Hn.
Qed.

Lemma db_get_law id db : match get_key id db with (r, db') =>
  db_keys db' = db_keys db /\ (r = None \/ r = db_keys db !! id) /\
  (db_reliable db -> r = db_keys db !! id /\ db_reliable db') end.
Proof.
  unfold get_key, guarded. pose proof (fetchone_law id db) as Hl.
  destruct (db_fetchone id db) as [ [r|e] db'].
  - destruct Hl as (-> & Hrows & Hav). rewrite (db_keys_same _ _ Hrows), db_keys_lookup.
    split_and!; auto. intros Hr. split; [done|]. by eapply db_reliable_same.
  - destruct Hl as (_ & Hrows & Hav). rewrite (db_keys_same _ _ Hrows).
    split_and!; auto. by intros [? _].
Qed.

Lemma db_store_law id d m db : key_id m = id -> match store_key id d m db with (b, db') =>
  (if b then db_keys db !! id = None /\ db_keys db' = <[id := (d, m)]> (db_keys db)
   else db_keys db' = db_keys db) /\
  (db_reliable db -> db_reliable db' /\ (b = false -> is_Some (db_keys db !! id))) end.
Proof.
  intros Hid. unfold store_key, guarded. pose proof (insert_law (encode id d m) db) as Hl.
  destruct (db_insert _ db) as [ [r|e] db']; simpl in Hl.
  - destruct Hl as (Hn & Hrows & Hav). split.
    + split; [rewrite db_keys_lookup; by rewrite Hn|]. unfold db_keys at 1. rewrite Hrows.
      apply omap_insert_Some. unfold content; simpl. by rewrite decode_encode.
    + intros [Ha Hdec]. split; [|done]. split; [auto|]. intros id' r'. rewrite Hrows.
      rewrite lookup_insert_Some. intros [ [<- <-]|[_ ?] ]; [|eauto]. by rewrite decode_encode.
  - destruct Hl as (_ & Hrows & Hav). split; [by apply db_keys_same|].
    intros Hr. destruct (Hav (proj1 Hr)) as [Hav' [r Hrow] ]. split; [by eapply db_reliable_same|].
    intros _. rewrite db_keys_lookup, Hrow. simpl.
    destruct (proj2 Hr _ _ Hrow) as [m' ->]. eauto.
Qed.

Lemma db_update_law id m db : match update_key_metadata id m db with (b, db') =>
  (forall id', id' <> id -> db_keys db' !! id' = db_keys db !! id') /\
  (if b then
     (forall d old, db_keys db !! id = Some (d, old) ->
        db_keys db' !! id = Some (d, updated m old)) /\
     (db_reliable db -> db_keys db !! id = None -> db_keys db' !! id = None)
   else db_keys db' = db_keys db) /\
  (db_reliable db -> b = true /\ db_reliable db') end.
Proof.
  unfold update_key_metadata, guarded.
  match goal with |- context [db_update ?u id db] => pose proof (update_row_law u id db) as Hl;
    destruct (db_update u id db) as [ [r|e] db'] end.
  - destruct Hl as (Hrows & Hav). split_and!.
    + intros id' Hne. by rewrite !db_keys_lookup, Hrows, lookup_alter_ne.
    + intros d old. rewrite !db_keys_lookup, Hrows, lookup_alter_eq.
      intros (r0 & Hr0 & Hm)%bind_Some. apply bind_Some in Hm as (m' & Hm & [= <- <-]).
      rewrite Hr0; simpl. by rewrite (decode_update _ _ _ _ Hm).
    + intros Hr Hn%db_keys_None; [|done]. by rewrite db_keys_lookup, Hrows, lookup_alter_eq, Hn.
    + intros [Ha Hdec]. split; [done|]. split; [auto|]. intros id' r'. rewrite Hrows.
      destruct (decide (id = id')) as [<-|Hne].
      * rewrite lookup_alter_eq. intros (r0 & Hr0 & ->)%fmap_Some_1.
        destruct (Hdec _ _ Hr0) as [m' Hm]. rewrite (decode_update _ _ _ _ Hm). eauto.
      * rewrite lookup_alter_ne by done. eauto.
  - destruct Hl as (_ & Hrows & Hav). rewrite (db_keys_same _ _ Hrows).
    split_and!; [done|done|by intros [? _]].
Qed.

Lemma db_delete_law id db : match delete_key id db with (b, db') =>
  db_keys db' = (if b then delete id (db_keys db) else db_keys db) /\
  (db_reliable db -> b = true /\ db_reliable db') end.
Proof.
  unfold delete_key, guarded. pose proof (delete_row_law id db) as Hl.
  destruct (db_delete id db) as [ [r|e] db'].
  - destruct Hl as (Hrows & Hav). split; [unfold db_keys; by rewrite Hrows, omap_delete|].
    intros [Ha Hdec]. split; [done|]. split; [auto|]. intros id' r'. rewrite Hrows.
    rewrite lookup_delete_Some. naive_solver.
  - destruct Hl as (_ & Hrows & Hav). rewrite (db_keys_same _ _ Hrows).
    split; [done|by intros [? _] ].
Qed.

Lemma db_list_law svc ty db : match list_keys svc ty db with (l, db') =>
  db_keys db' = db_keys db /\ NoDup (map key_id l) /\ StronglySorted newer l /\
  (forall m, In m l -> listed svc ty m = true /\ exists d, db_keys db !! key_id m = Some (d, m)) /\
  (db_reliable db -> db_reliable db' /\ forall id d m, db_keys db !! id = Some (d, m) ->
    listed svc ty m = true -> In m l) end.
Proof.
  unfold list_keys, guarded.
  match goal with |- context [db_fetchall ?a ?b db] => pose proof (fetchall_law a b db) as Hl;
    destruct (db_fetchall a b db) as [ [rs|e] db'] end.
  2: { destruct Hl as (_ & Hrows & Hav). rewrite (db_keys_same _ _ Hrows).
       split_and!; [done|apply NoDup_nil_2|constructor|done|by intros [? _] ]. }
  destruct Hl as (Hrows & Hnd & Hsorted & Hin & Hav). rewrite (db_keys_same _ _ Hrows).
  destruct (mapM _ rs) as [ms|] eqn:HM; simpl.
  - destruct (decoded_rows _ _ HM) as (Hids & Hcr & Hms). rewrite Hids.
    split_and!; [done|done|by eapply sorted_by_created| |].
    + intros m (r & Hr & Hm)%Hms. apply Hin in Hr as [Hrow Hsel].
      rewrite (decode_selected _ _ _ _ _ Hm) in Hsel. split; [done|]. exists (r_key_data r).
      rewrite db_keys_lookup, (decode_id _ _ _ Hm), Hrow. simpl. by rewrite Hm.
    + intros Hrel. split; [by eapply db_reliable_same|]. intros id d m Hk Hsel.
      rewrite db_keys_lookup in Hk. apply bind_Some in Hk as (r & Hr & Hm).
      apply bind_Some in Hm as (m' & Hm & [= _ <-]). apply Hms. exists r.
      rewrite (rows_id _ _ _ Hr). split; [|done]. apply Hin.
      by rewrite (rows_id _ _ _ Hr), (decode_selected _ _ _ _ _ Hm).
  - split_and!; [done|apply NoDup_nil_2|constructor|done|]. intros [Ha Hdec]. exfalso.
    apply mapM_None, list.Exists_exists in HM as (r & Hr%list_elem_of_In & Hm).
    apply Hin in Hr as [Hr _]. destruct (Hdec _ _ Hr). congruence.
Qed.

#[export] Instance database_key_store_laws : KeyStoreLaws D := {
  keys := db_keys; reliable := db_reliable; keys_id := db_keys_id; get_law := db_get_law;
  store_law := db_store_law; update_law := db_update_law; delete_law := db_delete_law;
  list_law := db_list_law }.
End laws.
End DatabaseKeyStoreLaws.

(** ** A table in memory

    A database for concrete runs: its rows, and for each coming statement whether it fails. *)
Module Table.
Record table := { t_rows : gmap string row; t_faults : list bool }.

(** The rows stored under their own key. *)
Definition live (m : gmap string row) : gmap string row :=
  filter (fun '(id, r) => r_key_id r = id) m.

Definition t_keys (t : table) : gmap string row := live (t_rows t).

Definition db_error : exn := raise_ (subclass "DatabaseError" Exception_) "statement failed".

(** One statement: it fails if the next fault says so, otherwise [f] runs. *)
Definition statement {A} (f : gmap string row -> result A * gmap string row) (t : table) :
    result A * table :=
  match t_faults t with
  | true :: fs => (Raise db_error, {| t_rows := t_rows t; t_faults := fs |})
  | fs => let '(r, m) := f (t_keys t) in (r, {| t_rows := m; t_faults := tail fs |})
  end.

Definition t_available (t : table) : Prop := Forall (fun b => b = false) (t_faults t).

#[local] Instance newer_dec : RelDecision row_newer.
Proof. intros a b. unfold row_newer. apply _. Defined.

Definition fetchall (svc ty : option string) (m : gmap string row) : list row :=
  merge_sort row_newer (map snd (map_to_list (filter (fun '(_, r) => row_selected svc ty r = true) m))).

#[export] Instance table_db : Db table := {
  db_create_tables := statement (fun m => (Ok tt, m));
  db_insert r := statement (fun m =>
    match m !! r_key_id r with
    | Some _ => (Raise db_error, m)
    | None => (Ok tt, <[r_key_id r := r]> m)
    end);
  db_fetchone id := statement (fun m => (Ok (m !! id), m));
  db_fetchall svc ty := statement (fun m => (Ok (fetchall svc ty m), m));
  db_delete id := statement (fun m => (Ok tt, delete id m));
  db_update u id := statement (fun m => (Ok tt, alter (apply_update u) id m)) }.

Definition own_keys (m : gmap string row) : Prop := forall id r, m !! id = Some r -> r_key_id r = id.

Lemma live_own m : own_keys m -> live m = m.
Proof. intros Hm. apply map_filter_id. intros id r. apply Hm. Qed.

Lemma t_keys_own t : own_keys (t_keys t).
Proof. intros id r. unfold t_keys, live. by intros [_ ?]%map_lookup_filter_Some. Qed.

(** A statement that keeps rows under their own keys: it fails, or its function runs. *)
Lemma statement_spec {A} (f : gmap string row -> result A * gmap string row) t :
  (forall m, own_keys m -> own_keys (snd (f m))) ->
  match statement f t with
  | (r, t') =>
      (r = fst (f (t_keys t)) /\ t_keys t' = snd (f (t_keys t)) /\ (t_available t -> t_available t'))
      \/ (r = Raise db_error /\ t_keys t' = t_keys t /\ ~ t_available t)
  end.
Proof.
  intros Hf. pose proof (Hf _ (t_keys_own t)) as Hown. unfold statement, t_available.
  destruct (t_faults t) as [|[] fs]; simpl.
  2: { right. split_and!; [done|done|]. by intros [? _]%Forall_cons. }
  all: destruct (f (t_keys t)) as [r m] eqn:E; simpl in *; left.
  all: split_and!; [done|by apply live_own|]; try done.
  by intros [_ ?]%Forall_cons.
Qed.

Lemma own_insert m r : own_keys m -> own_keys (<[r_key_id r := r]> m).
Proof. intros Hm id r' [ [<- <-]|[_ ?] ]%lookup_insert_Some; eauto. Qed.

Lemma own_alter m u id : own_keys m -> own_keys (alter (apply_update u) id m).
Proof.
  intros Hm id' r' Hr'. destruct (decide (id = id')) as [<-|].
  - rewrite lookup_alter_eq in Hr'. apply fmap_Some_1 in Hr' as (r & Hr & ->). by apply Hm in Hr.
  - rewrite lookup_alter_ne in Hr' by done. eauto.
Qed.

Lemma own_delete m id : own_keys m -> own_keys (delete id m).
Proof. intros Hm id' r' [_ ?]%lookup_delete_Some. eauto. Qed.

Lemma fetchall_spec svc ty m :
  own_keys m ->
  NoDup (map r_key_id (fetchall svc ty m)) /\ StronglySorted row_newer (fetchall svc ty m) /\
  (forall r, In r (fetchall svc ty m) <-> m !! r_key_id r = Some r /\ row_selected svc ty r = true).
Proof.
  intros Hm. unfold fetchall. set (sel := filter _ m).
  assert (Hsel : forall r, In r (map snd (map_to_list sel)) <->
    m !! r_key_id r = Some r /\ row_selected svc ty r = true).
  { intros r. rewrite in_map_iff. split.
    - intros ([id r'] & <- & Hin%list_elem_of_In). apply elem_of_map_to_list in Hin.
      apply map_lookup_filter_Some in Hin as [Hin ?]. simpl. by rewrite (Hm _ _ Hin).
    - intros [? ?]. exists (r_key_id r, r). split; [done|]. apply list_elem_of_In.
      apply elem_of_map_to_list, map_lookup_filter_Some. done. }
  pose proof (merge_sort_Permutation row_newer (map snd (map_to_list sel))) as Hp. split_and!.
  - assert (Hk : map r_key_id (map snd (map_to_list sel)) = map fst (map_to_list sel)).
    { rewrite map_map. apply map_ext_in. intros [id r] Hin%list_elem_of_In; simpl.
      apply elem_of_map_to_list, map_lookup_filter_Some in Hin as [Hin _]. eauto. }
    apply (Permutation_map r_key_id) in Hp. rewrite Hp, Hk. apply NoDup_fst_map_to_list.
  - apply StronglySorted_merge_sort.
    + intros a b c. unfold row_newer. lia.
    + intros a b. unfold row_newer. lia.
  - intros r. rewrite <- Hsel. split; apply Permutation_in; by rewrite Hp.
Qed.

Lemma db_error_catchable : catchable db_error = true.
Proof. done. Qed.

Ltac run_statement t :=
  match goal with |- context [statement ?f t] =>
    let r := fresh "r" in let t' := fresh "t'" in let Hs := fresh "Hs" in let Hf := fresh "Hf" in
    assert (Hf : forall m, own_keys m -> own_keys (snd (f m)))
      by (intros m ?; simpl; try (destruct (m !! _); simpl); eauto using own_insert, own_alter, own_delete);
    pose proof (statement_spec f t Hf) as Hs; clear Hf; destruct (statement f t) as [r t']; simpl in Hs
  end.

#[export] Program Instance table_laws : DbLaws table := { rows := t_keys; available := t_available }.
Next Obligation. intros t id r. apply t_keys_own. Qed.
Next Obligation.
  intros t. simpl. run_statement t. destruct Hs as [(-> & ? & ?)|(-> & ? & ?)]; [done|].
  split; [done|]. by intros e [= <-].
Qed.
Next Obligation.
  intros r t. simpl. run_statement t. destruct Hs as [(-> & Hk & Ha)|(-> & Hk & Ha)]; [|by split_and!].
  destruct (t_keys t !! r_key_id r) eqn:E; simpl in *; split_and!; auto.
Qed.
Next Obligation. intros id t. simpl. run_statement t. destruct Hs as [(-> & ? & ?)|(-> & ? & ?)]; done. Qed.
Next Obligation.
  intros svc ty t. simpl. run_statement t. destruct Hs as [(-> & ? & ?)|(-> & ? & ?)]; [|done].
  destruct (fetchall_spec svc ty (t_keys t) (t_keys_own t)) as (? & ? & ?). done.
Qed.
Next Obligation. intros id t. simpl. run_statement t. destruct Hs as [(-> & ? & ?)|(-> & ? & ?)]; done. Qed.
Next Obligation. intros u id t. simpl. run_statement t. destruct Hs as [(-> & ? & ?)|(-> & ? & ?)]; done. Qed.
End Table.

(** ** The HSM and the distribution handlers

    [HSMInterface] declares no [revoke_key]: the method the manager calls exists only if a
    provider adds it. *)
Class Hsm (W : Type) := {
  hsm_generate_key : string -> string -> Z -> W -> result (option string) * W;
  hsm_revoke_key : option (string -> W -> result unit * W) }.

Definition AttributeError := subclass "AttributeError" Exception_.
Definition HSMOperationError := subclass "HSMOperationError" Exception_.

(** A handler: calling it, and its optional [on_key_rotation] attribute. *)
Record Handler (W : Type) := {
  handle : KeyMetadata -> string -> W -> result bool * W;
  on_key_rotation : option (string -> string -> W -> result bool * W) }.
Arguments handle {W}.
Arguments on_key_rotation {W}.

(** ** The manager *)

Section manager.
Context {K W : Type} `{KeyStore K, Env W, Hsm W}.

(** [deprecations]: the threads sleeping through the grace period, each with the metadata
    object it will write. [jobs]: the keys submitted to the executor and not rotated yet.
    [executor_open]: it has not been shut down. *)
Record krm := Krm {
  store : K; handlers : pydict (Handler W); policies : pydict RotationPolicy;
  deprecations : list (string * KeyMetadata); jobs : list string; executor_open : bool;
  running : bool; check_interval : Z; env : W }.

Definition on_store {A} (f : K -> A * K) : M krm A := fun s =>
  let '(a, k) := f (store s) in
  (Ok a, Krm k (handlers s) (policies s) (deprecations s) (jobs s) (executor_open s) (running s)
           (check_interval s) (env s)).

Definition on_env {A} (f : W -> result A * W) : M krm A := fun s =>
  let '(r, w) := f (env s) in
  (r, Krm (store s) (handlers s) (policies s) (deprecations s) (jobs s) (executor_open s)
        (running s) (check_interval s) w).

Definition utcnow : M krm Z := on_env (fun w => let '(t, w) := datetime_now w in (Ok t, w)).
(** [uuid.uuid4().hex[:8]] *)
Definition hex8 : M krm string :=
  on_env (fun w => let '(u, w) := uuid4 w in (Ok (String.substring 0 8 u), w)).

Definition set_handlers hs : M krm unit := modify (fun s =>
  Krm (store s) hs (policies s) (deprecations s) (jobs s) (executor_open s) (running s)
    (check_interval s) (env s)).
Definition set_policies ps : M krm unit := modify (fun s =>
  Krm (store s) (handlers s) ps (deprecations s) (jobs s) (executor_open s) (running s)
    (check_interval s) (env s)).
Definition set_deprecations ds : M krm unit := modify (fun s =>
  Krm (store s) (handlers s) (policies s) ds (jobs s) (executor_open s) (running s)
    (check_interval s) (env s)).
Definition set_jobs js : M krm unit := modify (fun s =>
  Krm (store s) (handlers s) (policies s) (deprecations s) js (executor_open s) (running s)
    (check_interval s) (env s)).
Definition set_running b interval : M krm unit := modify (fun s =>
  Krm (store s) (handlers s) (policies s) (deprecations s) (jobs s) (executor_open s) b
    interval (env s)).
Definition close_executor : M krm unit := modify (fun s =>
  Krm (store s) (handlers s) (policies s) (deprecations s) (jobs s) false (running s)
    (check_interval s) (env s)).

(** [KeyDistributor] *)
Definition register_handler (service : string) (h : Handler W) : M krm unit :=
  s ← get; set_handlers (dset service h (handlers s)).

Definition distribute_key (service : string) (m : KeyMetadata) (data : string) : M krm bool :=
  s ← get;
  match dget service (handlers s) with
  | None => mret false
  | Some h => try_except (on_env (handle h m data)) (fun _ => mret false)
  end.

Definition notify_key_rotation (service old_key_id new_key_id : string) : M krm bool :=
  s ← get;
  match dget service (handlers s) with
  | None => mret false
  | Some h =>
      try_except (match on_key_rotation h with
                  | Some f => on_env (f old_key_id new_key_id)
                  | None => mret true
                  end) (fun _ => mret false)
  end.

Definition add_rotation_policy (p : RotationPolicy) : M krm unit :=
  s ← get; set_policies (dset (policy_id p) p (policies s)).

Definition remove_rotation_policy (id : string) : M krm unit :=
  s ← get; set_policies (dpop id (policies s)).

Definition create_key (service : string) (ty : KeyType) (alg : string) (size validity_days : Z)
    (policy : option string) : M krm (option string) :=
  try_except
    (suffix ← hex8;
     let id := service +:+ "_" +:+ key_type_value ty +:+ "_" +:+ suffix in
     generated ← on_env (hsm_generate_key id alg size);
     if str_truthy generated then
       let data := default "" generated in
       created ← utcnow;
       issued ← utcnow;
       let m := {| key_id := id; key_type := ty; algorithm := alg; key_size := size;
         service_name := service; created_at := created;
         expires_at := issued + timedelta_days validity_days; status := ACTIVE; version := 1;
         parent_key_id := None; rotation_policy_id := policy; tags := [] |} in
       stored ← on_store (store_key id data m);
       if (stored : bool) then
         distribute_key service m data ≫= fun _ => mret (Some id)
       else mret None
     else mret None)
    (fun _ => mret None).

Definition rotate_key (id : string) : M krm (option string) :=
  try_except
    (found ← on_store (get_key id);
     match found with
     | None => mret None
     | Some (_, old) =>
         on_store (update_key_metadata id (set_status PENDING_ROTATION old)) ≫= fun _ =>
         new ← create_key (service_name old) (key_type old) (algorithm old) (key_size old) 365
                 (rotation_policy_id old);
         if str_truthy new then
           let new_id := default "" new in
           new_found ← on_store (get_key new_id);
           match new_found with
           | None => mret tt
           | Some (_, m) =>
               on_store (update_key_metadata new_id (set_lineage id (version old + 1) m)) ≫=
               fun _ => mret tt
           end ≫= fun _ =>
           notify_key_rotation (service_name old) id new_id ≫= fun _ =>
           (s ← get; set_deprecations (deprecations s ++ [(id, old)])) ≫= fun _ =>
           mret (Some new_id)
         else
           on_store (update_key_metadata id (set_status ACTIVE old)) ≫= fun _ => mret None
     end)
    (fun _ => mret None).

(** The body of [deprecate_old_key] after its sleep. *)
Definition deprecate_old_key (id : string) (old : KeyMetadata) : M krm unit :=
  on_store (update_key_metadata id (set_status DEPRECATED old)) ≫= fun _ => mret tt.

(** [self.hsm.revoke_key(key_id)] *)
Definition call_hsm_revoke (id : string) : M krm unit :=
  match hsm_revoke_key with
  | Some f => on_env (f id)
  | None => raise (raise_ AttributeError "object has no attribute 'revoke_key'")
  end.

Definition revoke_key (id reason : string) : M krm bool :=
  try_except
    (found ← on_store (get_key id);
     match found with
     | None => mret false
     | Some (_, m) =>
         t ← utcnow;
         let m' := set_tag "revoked_at" (JTime t)
           (set_tag "revocation_reason" (JStr reason) (set_status REVOKED m)) in
         stored ← on_store (update_key_metadata id m');
         if (stored : bool) then call_hsm_revoke id ≫= fun _ => mret true else mret false
     end)
    (fun _ => mret false).

(** [policy.should_rotate(key)] *)
Definition should_rotate (p : RotationPolicy) (m : KeyMetadata) : M krm bool :=
  if negb (auto_rotate p) then mret false
  else
    t ← utcnow;
    if rotation_interval_days p <=? td_days (t - created_at m) then mret true
    else t' ← utcnow; mret (needs_rotation m (warning_days p) t').

(** [self._executor.submit(self.rotate_key, key_id)] *)
Definition submit_rotation (id : string) : M krm unit :=
  s ← get;
  if executor_open s then set_jobs (jobs s ++ [id])
  else raise (raise_ RuntimeError "cannot schedule new futures after shutdown").

Definition check_key (m : KeyMetadata) : M krm unit :=
  if negb (mem (status m) [ACTIVE; DEPRECATED]) then mret tt
  else
    t ← utcnow;
    if is_expired m t then
      on_store (update_key_metadata (key_id m) (set_status EXPIRED m)) ≫= fun _ => mret tt
    else if str_truthy (rotation_policy_id m) then
      s ← get;
      match dget (default "" (rotation_policy_id m)) (policies s) with
      | None => mret tt
      | Some p =>
          due ← should_rotate p m;
          if (due : bool) then submit_rotation (key_id m) else mret tt
      end
    else mret tt.

Fixpoint check_keys (ms : list KeyMetadata) : M krm unit :=
  match ms with
  | [] => mret tt
  | m :: ms => check_key m ≫= fun _ => check_keys ms
  end.

Definition _check_for_rotations : M krm unit :=
  all_keys ← on_store (list_keys None None); check_keys all_keys.

(** One turn of [_rotation_loop]: the seconds it then sleeps. *)
Definition rotation_turn : M krm Z :=
  try_except (_check_for_rotations ≫= fun _ => gets check_interval) (fun _ => mret 60).

(** The executor runs its oldest job; whatever it raises goes to the discarded future. *)
Definition run_job : M krm unit := fun s =>
  match jobs s with
  | [] => (Ok tt, s)
  | id :: js => (Ok tt, snd (rotate_key id (snd (set_jobs js s))))
  end.

Definition start_automatic_rotation (interval : Z) : M krm unit := set_running true interval.

(** [shutdown(wait=True)] lets the submitted jobs finish. *)
Definition stop_automatic_rotation : M krm unit :=
  (s ← get; set_running false (check_interval s)) ≫= fun _ =>
  (s ← get; Nat.iter (length (jobs s)) (fun k => run_job ≫= fun _ => k) (mret tt)) ≫= fun _ =>
  close_executor.

Definition get_key_status (id : string) : M krm (option (pydict json)) :=
  found ← on_store (get_key id);
  match found with
  | None => mret None
  | Some (_, m) =>
      t ← utcnow;
      t' ← utcnow;
      mret (Some [("key_id", JStr (key_id m)); ("service", JStr (service_name m));
        ("type", JStr (key_type_value (key_type m))); ("algorithm", JStr (algorithm m));
        ("status", JStr (key_status_value (status m))); ("created_at", JTime (created_at m));
        ("expires_at", JTime (expires_at m)); ("version", JInt (version m));
        ("parent_key_id", jopt (parent_key_id m)); ("is_expired", JBool (is_expired m t));
        ("needs_rotation", JBool (needs_rotation m 30 t')); ("tags", JDict (tags m))])
  end.
End manager.
Arguments krm K W : clear implicits.
Arguments Krm {K W} _ _ _ _ _ _ _ _ _.

Definition standard_signing : RotationPolicy := {|
  policy_id := "standard_signing"; name := "Standard Signing Key Rotation";
  policy_key_type := SIGNING; rotation_interval_days := 90; warning_days := 30;
  auto_rotate := true; max_key_age_days := 365; min_overlap_hours := 24;
  notification_channels := []; services := [] |}.

Definition ca_keys : RotationPolicy := {|
  policy_id := "ca_keys"; name := "Certificate Authority Key Rotation";
  policy_key_type := ROOT_CA; rotation_interval_days := 1095; warning_days := 90;
  auto_rotate := false; max_key_age_days := 365; min_overlap_hours := 24;
  notification_channels := []; services := [] |}.

Definition tls_keys : RotationPolicy := {|
  policy_id := "tls_keys"; name := "TLS Key Rotation";
  policy_key_type := TLS; rotation_interval_days := 365; warning_days := 30;
  auto_rotate := true; max_key_age_days := 365; min_overlap_hours := 24;
  notification_channels := []; services := [] |}.

(** [hsm]: the HSM service given, if any. *)
Definition create_default_rotation_manager {D W} `{Db D, Env W, Hsm W} (db : D) (hsm : option W) :
    result (krm D W) :=
  match hsm with
  | None => Raise (raise_ HSMOperationError
      "Key rotation requires an explicitly configured HSM service")
  | Some w =>
      let s := Krm (DatabaseKeyStore.ensure_tables db) [] [] [] [] true false 3600 w in
      Ok (snd ((add_rotation_policy standard_signing ≫= fun _ =>
                add_rotation_policy ca_keys ≫= fun _ => add_rotation_policy tls_keys) s))
  end.

(** ** Theorems *)

Section theorems.
Context {K W : Type} `{KeyStoreLaws K, Env W, Hsm W}.
Implicit Types (s : krm K W) (m old : KeyMetadata).

(** The state with another store and environment: all that creating, rotating and revoking
    keys changes, apart from the pending deprecations. *)
Definition put s (k : K) (w : W) : krm K W :=
  Krm k (handlers s) (policies s) (deprecations s) (jobs s) (executor_open s) (running s)
    (check_interval s) w.

Definition skeys s : gmap string (string * KeyMetadata) := keys (store s).

(** The metadata [create_key] gives a key. *)
Definition fresh_key service ty alg size policy id m : Prop :=
  key_id m = id /\ key_type m = ty /\ algorithm m = alg /\ key_size m = size /\
  service_name m = service /\ status m = ACTIVE /\ version m = 1 /\ parent_key_id m = None /\
  rotation_policy_id m = policy /\ tags m = [].

Lemma distribute_key_run service m data s :
  exists r w, distribute_key service m data s = (r, put s (store s) w) /\
    (forall e, r = Raise e -> catchable e = false).
Proof.
  unfold distribute_key, try_except, on_env. run_m. destruct (dget service (handlers s)) as [h|].
  - destruct (handle h m data (env s)) as [ [b|e] w]; [by eexists _, w|]. simpl.
    destruct (catchable e) eqn:E; eexists _, w; (split; [reflexivity|]); naive_solver.
  - exists (Ok false), (env s). split; [by destruct s|done].
Qed.

Lemma notify_key_rotation_run service id new s :
  exists r w, notify_key_rotation service id new s = (r, put s (store s) w) /\
    (forall e, r = Raise e -> catchable e = false).
Proof.
  unfold notify_key_rotation, try_except, on_env. run_m. destruct (dget service (handlers s)) as [h|].
  - destruct (on_key_rotation h) as [f|]; [|by exists (Ok true), (env s); destruct s].
    destruct (f id new (env s)) as [ [b|e] w]; [by eexists _, w|]. simpl.
    destruct (catchable e) eqn:E; eexists _, w; (split; [reflexivity|]); naive_solver.
  - exists (Ok false), (env s). split; [by destruct s|done].
Qed.

(** [k] is the store of [s] with a key added. *)
Definition added service ty alg size policy s id k : Prop := exists d m,
  skeys s !! id = None /\ keys k = <[id := (d, m)]> (skeys s) /\
  fresh_key service ty alg size policy id m.

(** Creating a key adds at most that key, whatever fails. *)
Lemma create_key_run service ty alg size days policy s :
  exists r k w, create_key service ty alg size days policy s = (r, put s k w) /\
    (reliable (store s) -> reliable k) /\
    match r with
    | Ok (Some id) => added service ty alg size policy s id k
    | Ok None => keys k = skeys s
    | Raise e => catchable e = false /\
        (keys k = skeys s \/ exists id, added service ty alg size policy s id k)
    end.
Proof.
  unfold create_key, try_except, hex8, utcnow, on_env, on_store. run_m.
  destruct (uuid4 (env s)) as [u w1]; simpl.
  set (id := service +:+ _). destruct (hsm_generate_key id alg size w1) as [ [g|e] w2]; simpl.
  2: { destruct (catchable e) eqn:E; eexists _, (store s), w2; (split; [reflexivity|]); naive_solver. }
  destruct (str_truthy g); [|eexists _, (store s), w2; (split; [reflexivity|]); naive_solver].
  simpl. destruct (datetime_now w2) as [t w3]; simpl. destruct (datetime_now w3) as [t' w4]; simpl.
  match goal with |- context [store_key id ?d ?m ?k0] =>
    pose proof (store_law id d m k0 eq_refl) as Hst; destruct (store_key id d m k0) as [b k] eqn:E end.
  destruct Hst as [Hst Hrel]. destruct b; simpl.
  2: { eexists _, k, w4. split; [reflexivity|]. naive_solver. }
  match goal with |- context [distribute_key service ?m ?d ?s0] =>
    destruct (distribute_key_run service m d s0) as (r & w5 & Hd & Hr); rewrite Hd end.
  destruct Hst as [Hn Hk]. destruct r as [b|e]; [|rewrite (Hr e eq_refl)].
  all: eexists _, k, w5; split; [reflexivity|]; split; [naive_solver|].
  2: split; [auto|right; exists id].
  all: eexists _, _; split; [exact Hn|]; split; [exact Hk|]; by repeat split.
Qed.

(** When nothing fails, the key is created under the expected identifier. *)
Definition tame s : Prop := forall svc h, dget svc (handlers s) = Some h ->
  (forall m d w e, fst (handle h m d w) = Raise e -> catchable e = true) /\
  (forall f a b w e, on_key_rotation h = Some f -> fst (f a b w) = Raise e -> catchable e = true).

Definition hsm_generates : Prop := forall id alg size w,
  exists d, fst (hsm_generate_key id alg size w) = Ok (Some d) /\ d <> "".

Definition hsm_refuses : Prop := forall id alg size w,
  match fst (hsm_generate_key id alg size w) with
  | Ok d => str_truthy d = false
  | Raise e => catchable e = true
  end.

Definition next_key_id service ty s : string :=
  service +:+ "_" +:+ key_type_value ty +:+ "_" +:+ String.substring 0 8 (fst (uuid4 (env s))).

Lemma create_key_ok service ty alg size days policy s :
  reliable (store s) -> tame s -> hsm_generates ->
  skeys s !! next_key_id service ty s = None ->
  exists k w, create_key service ty alg size days policy s =
    (Ok (Some (next_key_id service ty s)), put s k w).
Proof.
  intros Hrel Ht Hgen Hfresh. unfold create_key, try_except, hex8, utcnow, on_env, on_store. run_m.
  unfold next_key_id, skeys in *. destruct (uuid4 (env s)) as [u w1]; simpl in *.
  set (id := service +:+ _) in *. destruct (Hgen id alg size w1) as (g & Hg & Hne).
  destruct (hsm_generate_key id alg size w1) as [r w2]; simpl in *; subst r.
  unfold str_truthy. rewrite (proj2 (String.eqb_neq g "") Hne). simpl.
  destruct (datetime_now w2) as [t w3]; simpl. destruct (datetime_now w3) as [t' w4]; simpl.
  match goal with |- context [store_key id ?d ?m ?k0] =>
    pose proof (store_law id d m k0 eq_refl) as Hst; destruct (store_key id d m k0) as [b k] eqn:E end.
  destruct Hst as [_ [_ Hb]%(fun f => f Hrel)]. destruct b; simpl.
  2: { destruct (Hb eq_refl); congruence. }
  unfold distribute_key, try_except, on_env. run_m. destruct (dget service (handlers s)) as [h|] eqn:Eh.
  - destruct (Ht _ _ Eh) as [Hh _].
    match goal with |- context [handle h ?m ?d ?w0] =>
      specialize (Hh m d w0); destruct (handle h m d w0) as [ [b|e] w5] end; simpl in *.
    + eexists k, w5. reflexivity.
    + rewrite (Hh e eq_refl). eexists k, w5. reflexivity.
  - eexists k, w4. reflexivity.
Qed.

Lemma create_key_refused service ty alg size days policy s :
  hsm_refuses ->
  exists w, create_key service ty alg size days policy s = (Ok None, put s (store s) w).
Proof.
  intros Hgen. unfold create_key, try_except, hex8, on_env. run_m.
  destruct (uuid4 (env s)) as [u w1]; simpl. set (id := service +:+ _).
  specialize (Hgen id alg size w1). destruct (hsm_generate_key id alg size w1) as [ [g|e] w2]; simpl in *.
  - rewrite Hgen. eexists w2. reflexivity.
  - rewrite Hgen. eexists w2. reflexivity.
Qed.

Lemma updated_set_status st m : updated (set_status st m) m = set_status st m.
Proof. by destruct m. Qed.

(** Writing metadata back under the key it was read from. *)
Lemma update_run id m old d s :
  reliable (store s) -> skeys s !! id = Some (d, old) ->
  exists k, on_store (update_key_metadata id m) s = (Ok true, put s k (env s)) /\ reliable k /\
    keys k = <[id := (d, updated m old)]> (skeys s).
Proof.
  intros Hrel Hk. unfold on_store, skeys in *. pose proof (update_law id m (store s)) as Hl.
  destruct (update_key_metadata id m (store s)) as [b k].
  destruct Hl as (Hother & Hb & [-> Hrel']%(fun f => f Hrel)). exists k. split_and!; [done|done|].
  apply map_eq. intros id'. destruct (decide (id' = id)) as [->|Hne].
  - rewrite lookup_insert_eq. by apply Hb.
  - rewrite lookup_insert_ne by done. by apply Hother.
Qed.

Lemma get_run id s :
  reliable (store s) ->
  exists k, on_store (get_key id) s = (Ok (skeys s !! id), put s k (env s)) /\ reliable k /\
    keys k = skeys s.
Proof.
  intros Hrel. unfold on_store, skeys. pose proof (get_law id (store s)) as Hl.
  destruct (get_key id (store s)) as [r k].
  destruct Hl as (Hk & _ & [-> Hr]%(fun f => f Hrel)). by exists k.
Qed.

#[local] Arguments create_key : simpl never.
#[local] Arguments on_store : simpl never.
#[local] Arguments notify_key_rotation : simpl never.

(** The first part of [rotate_key]: the old key is found and marked. *)
Lemma rotate_start id d old s :
  reliable (store s) -> skeys s !! id = Some (d, old) ->
  exists k1 k2, on_store (get_key id) s = (Ok (Some (d, old)), put s k1 (env s)) /\
    on_store (update_key_metadata id (set_status PENDING_ROTATION old)) (put s k1 (env s)) =
      (Ok true, put s k2 (env s)) /\
    reliable k2 /\ keys k2 = <[id := (d, set_status PENDING_ROTATION old)]> (skeys s).
Proof.
  intros Hrel Hk. destruct (get_run id s Hrel) as (k1 & Hget & Hrel1 & Hk1).
  rewrite Hk in Hget.
  destruct (update_run id (set_status PENDING_ROTATION old) old d (put s k1 (env s)))
    as (k2 & Hup & Hrel2 & Hk2); [done|unfold skeys; simpl; by rewrite Hk1|].
  exists k1, k2. split_and!; [done|done|done|].
  rewrite Hk2, updated_set_status. unfold skeys; simpl. by rewrite Hk1.
Qed.

Lemma notify_tame service id new s :
  tame s -> exists b w, notify_key_rotation service id new s = (Ok b, put s (store s) w).
Proof.
  intros Ht. unfold notify_key_rotation, try_except, on_env. run_m.
  destruct (dget service (handlers s)) as [h|] eqn:Eh; [|exists false, (env s); by destruct s].
  destruct (Ht _ _ Eh) as [_ Hn]. destruct (on_key_rotation h) as [f|];
    [|exists true, (env s); by destruct s].
  specialize (Hn f id new (env s)). destruct (f id new (env s)) as [ [b|e] w]; [by exists b, w|].
  simpl in *. rewrite (Hn e eq_refl eq_refl). by exists false, w.
Qed.

(** Linking the new key to the old one. *)
Lemma link_run new parent ver d m s :
  reliable (store s) -> skeys s !! new = Some (d, m) ->
  exists k1 k2, on_store (get_key new) s = (Ok (Some (d, m)), put s k1 (env s)) /\
    on_store (update_key_metadata new (set_lineage parent ver m)) (put s k1 (env s)) =
      (Ok true, put s k2 (env s)) /\
    keys k2 = <[new := (d, set_lineage parent ver m)]> (skeys s).
Proof.
  intros Hrel Hk. destruct (get_run new s Hrel) as (k1 & Hget & Hrel1 & Hk1). rewrite Hk in Hget.
  destruct (update_run new (set_lineage parent ver m) m d (put s k1 (env s)))
    as (k2 & Hup & _ & Hk2); [done|unfold skeys; simpl; by rewrite Hk1|].
  exists k1, k2. split_and!; [done|done|]. rewrite Hk2. unfold skeys; simpl. rewrite Hk1.
  by destruct m.
Qed.

(** [create_key] when nothing fails, with what it stores. *)
Lemma create_key_stores service ty alg size days policy s :
  reliable (store s) -> tame s -> hsm_generates ->
  skeys s !! next_key_id service ty s = None ->
  exists k w d m, create_key service ty alg size days policy s =
      (Ok (Some (next_key_id service ty s)), put s k w) /\ reliable k /\
    keys k = <[next_key_id service ty s := (d, m)]> (skeys s) /\
    fresh_key service ty alg size policy (next_key_id service ty s) m.
Proof.
  intros Hrel Ht Hgen Hf.
  destruct (create_key_ok service ty alg size days policy s) as (k & w & Hcr); [done..|].
  destruct (create_key_run service ty alg size days policy s) as (r & k' & w' & Hcr' & Hrel' & Hadd).
  rewrite Hcr in Hcr'. injection Hcr' as <- <- <-. destruct Hadd as (d & m & _ & Hk & Hm).
  exists k, w, d, m. auto.
Qed.

Lemma next_key_id_truthy service ty s : str_truthy (Some (next_key_id service ty s)) = true.
Proof.
  unfold next_key_id, str_truthy. apply negb_true_iff, String.eqb_neq. by destruct service.
Qed.

(** Rotating a key, when the store, the HSM and the handlers work and the new identifier is
    fresh: the call returns the new identifier; the store then holds a new ACTIVE key with the
    old key's service, type, algorithm, size and policy, version one higher and the old key as
    parent, and the old key is PENDING_ROTATION with nothing else about it changed; no other
    key changes; and the deprecation of the old key is pending. *)
Theorem rotation_replaces_key id d old s (Hrel : reliable (store s)) (Ht : tame s)
    (Hgen : hsm_generates) (Hk : skeys s !! id = Some (d, old))
    (Hfresh : skeys s !! next_key_id (service_name old) (key_type old) s = None) :
  let new := next_key_id (service_name old) (key_type old) s in
  exists s' d' m, rotate_key id s = (Ok (Some new), s') /\
    skeys s' = <[new := (d', m)]> (<[id := (d, set_status PENDING_ROTATION old)]> (skeys s)) /\
    status m = ACTIVE /\ version m = version old + 1 /\ parent_key_id m = Some id /\
    service_name m = service_name old /\ key_type m = key_type old /\
    algorithm m = algorithm old /\ key_size m = key_size old /\
    rotation_policy_id m = rotation_policy_id old /\
    deprecations s' = deprecations s ++ [(id, old)].
Proof.
  intros new. destruct (rotate_start id d old s Hrel Hk) as (k1 & k2 & Hget & Hup & Hrel2 & Hk2).
  assert (Hne : id <> new) by (intros ->; subst new; congruence).
  set (s2 := put s k2 (env s)) in *.
  destruct (create_key_stores (service_name old) (key_type old) (algorithm old) (key_size old) 365
    (rotation_policy_id old) s2) as (k3 & w3 & d' & m & Hcr & Hrel3 & Hk3 & Hm); [done|done|done| |].
  { unfold skeys; simpl. rewrite Hk2. by rewrite lookup_insert_ne. }
  change (next_key_id _ _ s2) with new in *. set (s3 := put s2 k3 w3) in *.
  destruct (link_run new id (version old + 1) d' m s3) as (k4 & k5 & Hget4 & Hup5 & Hk5);
    [done|unfold skeys; simpl; by rewrite Hk3, lookup_insert_eq|].
  set (s5 := put s3 k5 (env s3)) in *.
  destruct (notify_tame (service_name old) id new s5 Ht) as (b & w6 & Hnot).
  eexists _, d', (set_lineage id (version old + 1) m). split.
  - unfold rotate_key, try_except. unfold mbind, M_bind. rewrite Hget; cbn beta iota.
    rewrite Hup. cbn beta iota. fold s2. rewrite Hcr. cbn beta iota. fold s3.
    unfold new at 1. rewrite next_key_id_truthy. fold new.
    cbn beta iota zeta delta [default from_option Datatypes.id]. rewrite Hget4. cbn beta iota. rewrite Hup5.
    unfold mret, M_ret. cbn beta iota. fold s5. rewrite Hnot. reflexivity.
  - split; [|by destruct Hm as (? & ? & ? & ? & ? & ? & ? & ? & ? & ?); destruct m].
    unfold skeys in *; simpl in *. rewrite Hk5, Hk3, Hk2. by rewrite insert_insert_eq.
Qed.

(** A rotation that fails leaves the key ACTIVE, whatever its status was: when the HSM
    does not generate a key, [rotate_key] returns [None] and "reverts" the old key to ACTIVE, so
    a REVOKED, DEPRECATED or EXPIRED key becomes usable again. *)
Theorem failed_rotation_reactivates id d old s (Hrel : reliable (store s)) (Href : hsm_refuses)
    (Hk : skeys s !! id = Some (d, old)) :
  exists s', rotate_key id s = (Ok None, s') /\
    skeys s' = <[id := (d, set_status ACTIVE old)]> (skeys s).
Proof.
  destruct (rotate_start id d old s Hrel Hk) as (k1 & k2 & Hget & Hup & Hrel2 & Hk2).
  set (s2 := put s k2 (env s)) in *.
  destruct (create_key_refused (service_name old) (key_type old) (algorithm old) (key_size old) 365
    (rotation_policy_id old) s2 Href) as (w & Hcr). set (s3 := put s2 (store s2) w) in *.
  destruct (update_run id (set_status ACTIVE old) (set_status PENDING_ROTATION old) d s3)
    as (k4 & Hup4 & _ & Hk4); [done|unfold skeys; simpl; by rewrite Hk2, lookup_insert_eq|].
  eexists. split.
  - unfold rotate_key, try_except. unfold mbind, M_bind. rewrite Hget; cbn beta iota.
    rewrite Hup. cbn beta iota. fold s2. rewrite Hcr. cbn beta iota. fold s3. simpl.
    rewrite Hup4. reflexivity.
  - unfold skeys in *; simpl in *. rewrite Hk4, Hk2, insert_insert_eq. by destruct old.
Qed.

(** ** What a rotation cannot do, whatever fails *)

Definition preserved (id : string) (base ks : gmap string (string * KeyMetadata)) : Prop :=
  (forall id' x, id' <> id -> base !! id' = Some x -> ks !! id' = Some x) /\
  (forall d m, base !! id = Some (d, m) -> exists st, ks !! id = Some (d, set_status st m)).

Lemma preserved_refl id ks : preserved id ks ks.
Proof. split; [done|]. intros d m Hm. exists (status m). rewrite Hm. by destruct m. Qed.

Lemma preserved_status id base st d old k :
  base !! id = Some (d, old) -> preserved id base (keys k) ->
  preserved id base (keys (snd (update_key_metadata id (set_status st old) k))).
Proof.
  intros Hb [Hother Hid]. pose proof (update_law id (set_status st old) k) as Hl.
  destruct (update_key_metadata id _ k) as [b k']; simpl. destruct Hl as (Ho & Hl & _). split.
  - intros id' x Hne Hx. rewrite Ho by done. auto.
  - intros d0 m0 Hm. rewrite Hb in Hm. injection Hm as <- <-. destruct (Hid _ _ Hb) as [st0 Hst].
    destruct b.
    + exists st. rewrite (proj1 Hl _ _ Hst). by destruct old.
    + exists st0. by rewrite Hl.
Qed.

Lemma preserved_other id base ks ks' new :
  base !! new = None -> preserved id base ks ->
  (forall id', id' <> new -> ks' !! id' = ks !! id') -> preserved id base ks'.
Proof.
  intros Hn [Hother Hid] Heq. split.
  - intros id' x Hne Hx. rewrite Heq by congruence. auto.
  - intros d m Hm. rewrite Heq by congruence. auto.
Qed.

Lemma preserved_fresh id base ks new : preserved id base ks -> ks !! new = None -> base !! new = None.
Proof.
  intros [Hother Hid] Hn. destruct (base !! new) as [ [d m]|] eqn:E; [|done].
  destruct (decide (new = id)) as [->|].
  - destruct (Hid _ _ E). congruence.
  - rewrite (Hother _ _ ltac:(done) E) in Hn. done.
Qed.

Lemma on_store_put {A} (f : K -> A * K) s :
  on_store f s = (Ok (fst (f (store s))), put s (snd (f (store s))) (env s)).
Proof. unfold on_store, put. by destruct (f (store s)). Qed.

Lemma get_keys id k : keys (snd (get_key id k)) = keys k.
Proof. pose proof (get_law id k) as Hl. destruct (get_key id k). apply Hl. Qed.

Lemma get_found id k x : fst (get_key id k) = Some x -> keys k !! id = Some x.
Proof.
  pose proof (get_law id k) as Hl. destruct (get_key id k) as [r k']; simpl.
  destruct Hl as (_ & [-> | ->] & _); done.
Qed.

Lemma update_others id m k id' :
  id' <> id -> keys (snd (update_key_metadata id m k)) !! id' = keys k !! id'.
Proof.
  pose proof (update_law id m k) as Hl. destruct (update_key_metadata id m k) as [b k'].
  apply Hl.
Qed.

Lemma update_present id m k id' :
  is_Some (keys k !! id') -> is_Some (keys (snd (update_key_metadata id m k)) !! id').
Proof.
  pose proof (update_law id m k) as Hl. destruct (update_key_metadata id m k) as [b k']; simpl.
  destruct Hl as (Ho & Hb & _). intros [ [d old] Hx].
  destruct (decide (id' = id)) as [->|]; [|by rewrite Ho].
  destruct b; [rewrite (proj1 Hb _ _ Hx)|rewrite Hb]; eauto.
Qed.

(** The second part of [rotate_key], once the new key exists. *)
Definition finish_rotation id old new : M (krm K W) (option string) :=
  new_found ← on_store (get_key new);
  match new_found with
  | None => mret tt
  | Some (_, m) =>
      on_store (update_key_metadata new (set_lineage id (version old + 1) m)) ≫= fun _ => mret tt
  end ≫= fun _ =>
  notify_key_rotation (service_name old) id new ≫= fun _ =>
  (s ← get; set_deprecations (deprecations s ++ [(id, old)])) ≫= fun _ =>
  mret (Some new).

Lemma finish_rotation_keys id old new s :
  match finish_rotation id old new s with
  | (r, s') =>
      (forall id', id' <> new -> skeys s' !! id' = skeys s !! id') /\
      (is_Some (skeys s !! new) -> is_Some (skeys s' !! new)) /\
      (r = Ok (Some new) \/ exists e, r = Raise e /\ catchable e = false)
  end.
Proof.
  unfold finish_rotation. unfold mbind, M_bind. rewrite on_store_put.
  set (s1 := put s (snd (get_key new (store s))) (env s)).
  assert (Hs1 : skeys s1 = skeys s) by apply get_keys.
  set (link := match fst (get_key new (store s)) with None => _ | Some _ => _ end).
  assert (Hlink : exists k, link s1 = (Ok tt, put s1 k (env s)) /\
    (forall id', id' <> new -> keys k !! id' = skeys s !! id') /\
    (is_Some (skeys s !! new) -> is_Some (keys k !! new))).
  { subst link. destruct (fst (get_key new (store s))) as [ [d m]|].
    - rewrite on_store_put. eexists. split; [reflexivity|]. rewrite <- Hs1. split.
      + intros. by apply update_others.
      + apply update_present.
    - exists (store s1). split; [reflexivity|]. change (keys (store s1)) with (skeys s1).
      by rewrite Hs1. }
  destruct Hlink as (k & -> & Ho & Hp). set (s2 := put s1 k (env s)).
  destruct (notify_key_rotation_run (service_name old) id new s2) as (r & w & -> & Hr).
  destruct r as [b|e]; simpl; split_and!; try done; [by left|]. right. eauto.
Qed.

Lemma rotate_key_finish id s :
  rotate_key id s = try_except
    (found ← on_store (get_key id);
     match found with
     | None => mret None
     | Some (_, old) =>
         on_store (update_key_metadata id (set_status PENDING_ROTATION old)) ≫= fun _ =>
         new ← create_key (service_name old) (key_type old) (algorithm old) (key_size old) 365
                 (rotation_policy_id old);
         if str_truthy new then finish_rotation id old (default "" new)
         else on_store (update_key_metadata id (set_status ACTIVE old)) ≫= fun _ => mret None
     end) (fun _ => mret None) s.
Proof. reflexivity. Qed.

(** C4: Whatever fails during a rotation (any store operation, the HSM, a handler), no key is
    lost and no other key is touched: every other key is stored exactly as before, the rotated
    key keeps its material and all its metadata but the status, and an identifier that is
    returned is a key that was not stored before and is stored now. *)
Theorem rotation_never_loses_keys id s :
  match rotate_key id s with
  | (r, s') =>
      preserved id (skeys s) (skeys s') /\
      (forall new, r = Ok (Some new) -> skeys s !! new = None /\ is_Some (skeys s' !! new))
  end.
Proof.
  rewrite rotate_key_finish. unfold try_except. unfold mbind, M_bind. rewrite on_store_put.
  set (s1 := put s (snd (get_key id (store s))) (env s)).
  assert (Hs1 : skeys s1 = skeys s) by apply get_keys. rewrite <- Hs1.
  destruct (fst (get_key id (store s))) as [ [d old]|] eqn:Hf.
  2: { split; [apply preserved_refl|done]. }
  apply get_found in Hf. change (keys (store s)) with (skeys s) in Hf. rewrite <- Hs1 in Hf.
  rewrite on_store_put. set (s2 := put s1 _ (env s1)).
  assert (Hp2 : preserved id (skeys s1) (skeys s2))
    by (eapply preserved_status; [exact Hf|apply preserved_refl]).
  destruct (create_key_run (service_name old) (key_type old) (algorithm old) (key_size old) 365
    (rotation_policy_id old) s2) as (r & k3 & w3 & -> & _ & Hr). set (s3 := put s2 k3 w3).
  assert (Hadd : forall new, added (service_name old) (key_type old) (algorithm old) (key_size old)
    (rotation_policy_id old) s2 new k3 ->
    skeys s1 !! new = None /\ preserved id (skeys s1) (keys k3) /\ is_Some (keys k3 !! new)).
  { intros new (d' & m & Hn & Hk & _). pose proof (preserved_fresh _ _ _ _ Hp2 Hn) as Hn1.
    rewrite Hk, lookup_insert_eq. split_and!; [done| |eauto].
    eapply preserved_other; [exact Hn1|exact Hp2|]. intros id' Hne. by rewrite lookup_insert_ne. }
  destruct r as [ [new|]|e].
  - apply Hadd in Hr as (Hn & Hp3 & Hin).
    destruct (str_truthy (Some new)) eqn:Ht.
    + pose proof (finish_rotation_keys id old new s3) as Hfin. simpl.
      destruct (finish_rotation id old new s3) as [r s4].
      destruct Hfin as (Ho & Hin4 & [-> | (e & -> & He)]); [|rewrite He].
      all: split; [by eapply preserved_other|].
      * intros new' [= <-]. split; [done|]. by apply Hin4.
      * done.
    + rewrite on_store_put. simpl. split; [|done]. by eapply preserved_status.
  - simpl. rewrite on_store_put. simpl. split; [|done].
    eapply preserved_status; [exact Hf|]. unfold s3; simpl. by rewrite Hr.
  - destruct Hr as [He Hr]. rewrite He. split; [|done].
    destruct Hr as [Hr|[new Hr] ]; [|by apply Hadd in Hr as (_ & ? & _)].
    unfold s3, skeys at 2; simpl. by rewrite Hr.
Qed.

(** The metadata [revoke_key] writes at time [t]. *)
Definition revoked (reason : string) (t : Z) m : KeyMetadata :=
  set_tag "revoked_at" (JTime t) (set_tag "revocation_reason" (JStr reason) (set_status REVOKED m)).

(** The HSM's [revoke_key], if it has one, raises only [Exception]s. *)
Definition hsm_revoke_tame : Prop := forall id f w e,
  hsm_revoke_key = Some f -> fst (f id w) = Raise e -> catchable e = true.

Lemma revoke_run id reason d m s :
  reliable (store s) -> hsm_revoke_tame -> skeys s !! id = Some (d, m) ->
  let '(t, w) := datetime_now (env s) in
  exists k w', revoke_key id reason s =
      (Ok match hsm_revoke_key with Some f => is_ok (fst (f id w)) | None => false end,
       put s k w') /\
    reliable k /\ keys k = <[id := (d, revoked reason t m)]> (skeys s).
Proof.
  intros Hrel Hhsm Hm. unfold revoke_key, try_except. unfold mbind, M_bind.
  destruct (get_run id s Hrel) as (k1 & -> & Hrel1 & Hk1). cbn beta iota. rewrite Hm.
  unfold utcnow, on_env. cbn [env put]. destruct (datetime_now (env s)) as [t w]. cbn beta iota.
  fold (revoked reason t m).
  destruct (update_run id (revoked reason t m) m d (put s k1 w)) as (k2 & Hup & Hrel2 & Hk2);
    [done|unfold skeys; simpl; by rewrite Hk1|].
  assert (Hfinal : keys k2 = <[id := (d, revoked reason t m)]> (skeys s)).
  { rewrite Hk2. unfold skeys at 1; simpl. rewrite Hk1. by destruct m. }
  unfold put in Hup |- *; simpl in Hup |- *. rewrite Hup. cbn beta iota. unfold call_hsm_revoke.
  destruct hsm_revoke_key as [f|] eqn:Ef; [|by exists k2, w].
  unfold on_env; simpl. pose proof (Hhsm id f w) as Hc. destruct (f id w) as [ [ []|e] w']; simpl in *.
  - by exists k2, w'.
  - rewrite (Hc e Ef eq_refl). by exists k2, w'.
Qed.

(** Revoking a stored key marks it REVOKED with the reason and the time in its tags,
    and changes no other key. The call reports success only if the HSM then revokes the key
    too: with a provider that offers only the methods of [HSMInterface], which has no
    [revoke_key], the [AttributeError] is swallowed and [revoke_key] returns [False] for a key
    it has just revoked. An unknown key gives [False] and no change. *)
Theorem revoke_outcome id reason s (Hrel : reliable (store s)) (Hhsm : hsm_revoke_tame) :
  match skeys s !! id, revoke_key id reason s with
  | None, (r, s') => r = Ok false /\ skeys s' = skeys s
  | Some (d, m), (r, s') =>
      let '(t, w) := datetime_now (env s) in
      skeys s' = <[id := (d, revoked reason t m)]> (skeys s) /\
      r = Ok match hsm_revoke_key with Some f => is_ok (fst (f id w)) | None => false end
  end.
Proof.
  destruct (skeys s !! id) as [ [d m]|] eqn:Hm.
  - pose proof (revoke_run id reason d m s Hrel Hhsm Hm) as Hr.
    destruct (datetime_now (env s)) as [t w]. destruct Hr as (k & w' & -> & _ & Hk). done.
  - unfold revoke_key, try_except. unfold mbind, M_bind.
    destruct (get_run id s Hrel) as (k1 & -> & _ & Hk1). rewrite Hm. done.
Qed.

(** The end of the grace period undoes a revocation. If a rotated key, whose deprecation is
    pending with the metadata read at the rotation, is revoked in the meantime, the pending
    deprecation overwrites its status with DEPRECATED and its tags with the old ones, so that
    neither REVOKED nor the recorded reason and time survive. *)
Theorem grace_period_undoes_revocation id reason d old m s (Hrel : reliable (store s))
    (Hhsm : hsm_revoke_tame) (Hpending : In (id, old) (deprecations s))
    (Hk : skeys s !! id = Some (d, m)) :
  let s1 := snd (revoke_key id reason s) in
  let s2 := snd (deprecate_old_key id old s1) in
  (exists m1, skeys s1 !! id = Some (d, m1) /\ status m1 = REVOKED /\
     dget "revocation_reason" (tags m1) = Some (JStr reason)) /\
  In (id, old) (deprecations s1) /\
  exists m2, skeys s2 !! id = Some (d, m2) /\ status m2 = DEPRECATED /\ tags m2 = tags old.
Proof.
  pose proof (revoke_run id reason d m s Hrel Hhsm Hk) as Hr.
  destruct (datetime_now (env s)) as [t w]. destruct Hr as (k & w' & -> & Hrel1 & Hk1). simpl.
  assert (Hs1 : skeys (put s k w') !! id = Some (d, revoked reason t m))
    by (unfold skeys; simpl; by rewrite Hk1, lookup_insert_eq).
  destruct (update_run id (set_status DEPRECATED old) _ d (put s k w') Hrel1 Hs1)
    as (k2 & Hup & _ & Hk2).
  unfold deprecate_old_key. unfold mbind, M_bind. rewrite Hup. split_and!; [|done|].
  - eexists. split_and!; [exact Hs1|done|]. cbn [tags revoked set_tag].
    rewrite dget_dset_ne by done. apply dget_dset_eq.
  - eexists. unfold skeys; simpl. rewrite Hk2, lookup_insert_eq. by split_and!.
Qed.

(** ** The hourly check *)

Definition live m : bool := mem (status m) [ACTIVE; DEPRECATED].

(** The policy of a key, if it names one that is registered. *)
Definition policy_of (ps : pydict RotationPolicy) m : option RotationPolicy :=
  if str_truthy (rotation_policy_id m) then dget (default "" (rotation_policy_id m)) ps else None.

Definition policy_due (p : RotationPolicy) m (t : Z) : bool :=
  auto_rotate p
  && ((rotation_interval_days p <=? td_days (t - created_at m))
      || needs_rotation m (warning_days p) t).

(** What the check at time [t] does with a key: rotate it, or mark it EXPIRED. *)
Definition rotation_due (t : Z) (ps : pydict RotationPolicy) m : bool :=
  live m && negb (is_expired m t)
  && match policy_of ps m with Some p => policy_due p m t | None => false end.
Definition checked (t : Z) m : KeyMetadata :=
  if live m && is_expired m t then set_status EXPIRED m else m.

Definition clock_shows (t : Z) : Prop := forall w : W, fst (datetime_now w) = t.

Lemma utcnow_run t s : clock_shows t -> exists w, utcnow s = (Ok t, put s (store s) w).
Proof.
  intros Ht. specialize (Ht (env s)). unfold utcnow, on_env.
  destruct (datetime_now (env s)) as [t' w]; simpl in *; subst. by exists w.
Qed.

Lemma should_rotate_run t p m s :
  clock_shows t -> exists w, should_rotate p m s = (Ok (policy_due p m t), put s (store s) w).
Proof.
  intros Ht. unfold should_rotate, policy_due.
  destruct (auto_rotate p); simpl; [|exists (env s); by destruct s].
  unfold mbind, M_bind. destruct (utcnow_run t s Ht) as (w & ->).
  destruct (_ <=? _); simpl; [by exists w|].
  destruct (utcnow_run t (put s (store s) w) Ht) as (w' & ->). by exists w'.
Qed.

(** The state after a check that stored [k] and submitted [ids]. *)
Definition after_check s (k : K) (ids : list string) (w : W) : krm K W :=
  Krm k (handlers s) (policies s) (deprecations s) (jobs s ++ ids) (executor_open s) (running s)
    (check_interval s) w.

Lemma check_key_run t m d s :
  clock_shows t -> reliable (store s) -> executor_open s = true ->
  skeys s !! key_id m = Some (d, m) ->
  exists k w, check_key m s =
      (Ok tt, after_check s k (if rotation_due t (policies s) m then [key_id m] else []) w) /\
    reliable k /\ keys k = <[key_id m := (d, checked t m)]> (skeys s).
Proof.
  intros Ht Hrel Hopen Hk. unfold check_key, rotation_due, checked, live, policy_of, after_check.
  assert (Hsame : <[key_id m := (d, m)]> (skeys s) = skeys s) by by rewrite insert_id.
  destruct (mem (status m) _); simpl.
  2: { exists (store s), (env s). rewrite app_nil_r, Hsame. by destruct s. }
  unfold mbind, M_bind. destruct (utcnow_run t s Ht) as (w & ->). cbn beta iota.
  destruct (is_expired m t); simpl.
  - destruct (update_run (key_id m) (set_status EXPIRED m) m d (put s (store s) w)) as
      (k & -> & Hrel' & Hk'); [done|done|].
    exists k, w. rewrite app_nil_r, updated_set_status in *. done.
  - rewrite Hsame. destruct (str_truthy (rotation_policy_id m)); simpl.
    2: { exists (store s), w. by rewrite app_nil_r. }
    destruct (dget _ (policies s)) as [p|]; simpl; [|exists (store s), w; by rewrite app_nil_r].
    destruct (should_rotate_run t p m (put s (store s) w) Ht) as (w' & ->).
    exists (store s), w'. destruct (policy_due p m t); [|by rewrite app_nil_r].
    unfold submit_rotation, set_jobs. run_m. unfold put. simpl. by rewrite Hopen.
Qed.

Lemma check_keys_run t ms s :
  clock_shows t -> reliable (store s) -> executor_open s = true -> NoDup (map key_id ms) ->
  (forall m, In m ms -> exists d, skeys s !! key_id m = Some (d, m)) ->
  exists k w, check_keys ms s =
      (Ok tt, after_check s k (map key_id (lfilter (rotation_due t (policies s)) ms)) w) /\
    reliable k /\
    (forall id, ~ In id (map key_id ms) -> keys k !! id = skeys s !! id) /\
    (forall d m, In m ms -> skeys s !! key_id m = Some (d, m) ->
       keys k !! key_id m = Some (d, checked t m)).
Proof.
  intros Ht. revert s. induction ms as [|m ms IH]; intros s Hrel Hopen Hnd Hin; simpl.
  { exists (store s), (env s). unfold after_check. rewrite app_nil_r. by destruct s. }
  apply NoDup_cons in Hnd as [Hni Hnd]. rewrite list_elem_of_In in Hni.
  destruct (Hin m (or_introl eq_refl)) as [d Hm].
  destruct (check_key_run t m d s Ht Hrel Hopen Hm) as (k1 & w1 & Hrun & Hrel1 & Hk1).
  unfold mbind, M_bind. rewrite Hrun. set (s1 := after_check s k1 _ w1).
  assert (Hs1 : forall id, id <> key_id m -> skeys s1 !! id = skeys s !! id).
  { intros id Hne. unfold skeys, s1; simpl. by rewrite Hk1, lookup_insert_ne. }
  assert (Hne : forall m', In m' ms -> key_id m' <> key_id m).
  { intros m' Hm' Heq. apply Hni. rewrite <- Heq. by apply in_map. }
  destruct (IH s1) as (k2 & w2 & Hrun2 & Hrel2 & Hother & Hms); [done|done|done| |].
  { intros m' Hm'. rewrite Hs1 by auto. apply Hin. by right. }
  exists k2, w2. rewrite Hrun2. split_and!; [|done| |].
  - unfold after_check, s1; simpl. rewrite <- app_assoc.
    by destruct (rotation_due t (policies s) m).
  - intros id Hid. rewrite Hother, Hs1 by intuition. done.
  - intros d' m' [<-|Hm'] Hd'.
    + rewrite Hother by done. unfold skeys, s1; simpl. rewrite Hk1, lookup_insert_eq. congruence.
    + apply Hms; [done|]. by rewrite Hs1 by auto.
Qed.

(** One check for rotations at time [t]: every stored key that is ACTIVE or DEPRECATED and
    past its expiry becomes EXPIRED, no other metadata changes, and the keys submitted for
    rotation are exactly those that are ACTIVE or DEPRECATED, not expired, and due under a
    registered automatic policy (old enough in whole days, or within the warning period), each
    once, newest first. A DEPRECATED key is thus rotated again. *)
Theorem check_submits_due_keys t s (Ht : clock_shows t) (Hrel : reliable (store s))
    (Hopen : executor_open s = true) :
  exists s' ms, _check_for_rotations s = (Ok tt, s') /\
    NoDup (map key_id ms) /\ StronglySorted newer ms /\
    (forall m, In m ms <-> exists d, skeys s !! key_id m = Some (d, m)) /\
    jobs s' = jobs s ++ map key_id (lfilter (rotation_due t (policies s)) ms) /\
    skeys s' = (fun '(d, m) => (d, checked t m)) <$> skeys s.
Proof.
  unfold _check_for_rotations. unfold mbind, M_bind. rewrite on_store_put.
  pose proof (list_law None None (store s)) as Hl.
  destruct (list_keys None None (store s)) as [ms k]; simpl.
  destruct Hl as (Hk & Hnd & Hsort & Hin & [Hrel' Hall]%(fun f => f Hrel)).
  assert (Hms : forall m, In m ms <-> exists d, skeys s !! key_id m = Some (d, m)).
  { intros m. split; [intros Hm; by destruct (Hin m Hm)|]. intros [d Hd]. by eapply Hall. }
  destruct (check_keys_run t ms (put s k (env s)) Ht Hrel' Hopen Hnd) as
    (k' & w' & Hrun & _ & Hother & Hkeys).
  { intros m Hm. unfold skeys; simpl. rewrite Hk. by apply Hms. }
  rewrite Hrun. eexists _, ms. split_and!; [reflexivity|done|done|done|done|].
  unfold skeys in *; simpl in *. rewrite Hk in *. apply map_eq. intros id. rewrite lookup_fmap.
  destruct (keys (store s) !! id) as [ [d m]|] eqn:E; simpl.
  - pose proof (keys_id _ _ _ _ E) as Hid. rewrite <- Hid in *. apply Hkeys; [|done].
    apply Hms. eauto.
  - rewrite Hother; [done|]. intros (m & <- & Hm)%in_map_iff. apply Hms in Hm as [d Hd]. congruence.
Qed.

Definition shutdown_error : exn :=
  raise_ RuntimeError "cannot schedule new futures after shutdown".

Lemma check_key_closed t m s :
  clock_shows t -> executor_open s = false ->
  exists k w, check_key m s =
    (if rotation_due t (policies s) m then Raise shutdown_error else Ok tt, put s k w).
Proof.
  intros Ht Hclosed. unfold check_key, rotation_due, live, policy_of.
  destruct (mem (status m) _); simpl; [|exists (store s), (env s); by destruct s].
  unfold mbind, M_bind. destruct (utcnow_run t s Ht) as (w & ->). cbn beta iota.
  destruct (is_expired m t); simpl; [rewrite on_store_put; by eexists _, w|].
  destruct (str_truthy (rotation_policy_id m)); simpl; [|by exists (store s), w].
  destruct (dget _ (policies s)) as [p|]; simpl; [|by exists (store s), w].
  destruct (should_rotate_run t p m (put s (store s) w) Ht) as (w' & ->).
  exists (store s), w'. destruct (policy_due p m t); [|done].
  unfold submit_rotation. run_m. unfold put. simpl. by rewrite Hclosed.
Qed.

Lemma check_keys_closed t ms s :
  clock_shows t -> executor_open s = false ->
  exists k w, check_keys ms s =
    (if existsb (rotation_due t (policies s)) ms then Raise shutdown_error else Ok tt, put s k w).
Proof.
  intros Ht. revert s. induction ms as [|m ms IH]; intros s Hclosed; simpl.
  { exists (store s), (env s). by destruct s. }
  unfold mbind, M_bind. destruct (check_key_closed t m s Ht Hclosed) as (k & w & ->).
  destruct (rotation_due t (policies s) m); simpl; [by exists k, w|].
  destruct (IH (put s k w) Hclosed) as (k' & w' & ->). by exists k', w'.
Qed.

Lemma run_job_ok s : fst (run_job s) = Ok tt.
Proof. unfold run_job. by destruct (jobs s). Qed.

Lemma run_jobs_ok n s : fst (Nat.iter n (fun k => run_job ≫= fun _ => k) (mret tt) s) = Ok tt.
Proof.
  revert s. induction n as [|n IH]; intros s; simpl; [done|]. unfold mbind, M_bind.
  pose proof (run_job_ok s) as Hr. destruct (run_job s) as [r s']; simpl in Hr. subst r. apply IH.
Qed.

Lemma stop_closes s : executor_open (snd (stop_automatic_rotation s)) = false.
Proof.
  unfold stop_automatic_rotation, set_running. unfold mbind, M_bind, get, modify. cbn beta iota.
  match goal with |- context [Nat.iter ?n ?f ?g ?s0] =>
    pose proof (run_jobs_ok n s0) as Hr; unfold mbind, M_bind in Hr;
    destruct (Nat.iter n f g s0) as [r s'] end.
  simpl in Hr. by subst r.
Qed.

(** Automatic rotation cannot be started again: [stop_automatic_rotation] shuts the executor
    down for good, so after a later start a check that meets a due key raises: the loop logs the
    error, pauses for a minute, and nothing is ever submitted. *)
Theorem restart_cannot_rotate t s interval (Ht : clock_shows t)
    (Hrel : reliable (store (snd (stop_automatic_rotation s))))
    (Hdue : exists id d m, skeys (snd (stop_automatic_rotation s)) !! id = Some (d, m) /\
       rotation_due t (policies (snd (stop_automatic_rotation s))) m = true) :
  let s1 := snd (start_automatic_rotation interval (snd (stop_automatic_rotation s))) in
  running s1 = true /\ exists s2, rotation_turn s1 = (Ok 60, s2) /\
    jobs s2 = jobs s1 /\ executor_open s2 = false /\ policies s2 = policies s1.
Proof.
  pose proof (stop_closes s) as Hclosed.
  set (stopped := snd (stop_automatic_rotation s)) in *. split; [done|].
  unfold rotation_turn, _check_for_rotations, try_except. unfold mbind, M_bind.
  rewrite on_store_put. set (s1 := put _ _ _). simpl in s1.
  pose proof (list_law None None (store stopped)) as Hl. simpl.
  destruct (list_keys None None (store stopped)) as [ms k]; simpl in *.
  destruct Hl as (Hk & _ & _ & _ & [_ Hall]%(fun f => f Hrel)).
  destruct (check_keys_closed t ms s1 Ht Hclosed) as (k' & w' & ->).
  destruct Hdue as (id & d & m & Hm & Hdue).
  assert (existsb (rotation_due t (policies s1)) ms = true) as ->.
  { apply existsb_exists. exists m. split; [by eapply Hall|done]. }
  by eexists.
Qed.
End theorems.

Section database_theorems.
Context {D : Type} `{DbLaws D}.

(** The database store gives back what it stored, over any database that behaves as
    documented. When [store_key] reports success, the identifier was new, and reading it (while
    the connector answers) returns the same material and the same metadata, every field of it;
    after [update_key_metadata] it returns the metadata with status, version, parent, policy and
    tags replaced and nothing else. When [store_key] reports failure the table is unchanged. *)
Theorem stored_key_is_read_back id d m m' db (Hid : key_id m = id) :
  match DatabaseKeyStore.store_key id d m db with
  | (true, db1) => rows db !! id = None /\
      (available db1 -> fst (DatabaseKeyStore.get_key id db1) = Some (d, m)) /\
      let '(ok, db2) := DatabaseKeyStore.update_key_metadata id m' db1 in
      (ok = true -> available db2 ->
       fst (DatabaseKeyStore.get_key id db2) = Some (d, updated m' m))
  | (false, db1) => rows db1 = rows db
  end.
Proof.
  assert (Hget : forall db r m0, rows db !! id = Some r -> DatabaseKeyStore.decode id r = Some m0 ->
    available db -> fst (DatabaseKeyStore.get_key id db) = Some (r_key_data r, m0)).
  { intros db0 r m0 Hr Hm Ha. unfold DatabaseKeyStore.get_key, DatabaseKeyStore.guarded.
    pose proof (fetchone_law id db0) as Hl. destruct (db_fetchone id db0) as [ [r'|e] db1].
    - destruct Hl as (-> & _). rewrite Hr. simpl. by rewrite Hm.
    - by destruct Hl as (_ & _ & ?). }
  unfold DatabaseKeyStore.store_key, DatabaseKeyStore.guarded.
  pose proof (insert_law (DatabaseKeyStore.encode id d m) db) as Hl.
  destruct (db_insert _ db) as [ [[]|e] db1]; [|by destruct Hl as (_ & ? & _)].
  destruct Hl as (Hn & Hrows & _). simpl in Hn, Hrows. split; [done|].
  pose proof (DatabaseKeyStoreLaws.decode_encode id d m Hid) as Hdec. split.
  - intros Ha. rewrite (Hget db1 (DatabaseKeyStore.encode id d m) m); [done| |done|done].
    by rewrite Hrows, lookup_insert_eq.
  - unfold DatabaseKeyStore.update_key_metadata, DatabaseKeyStore.guarded.
    match goal with |- context [db_update ?u id db1] => set (upd := u) end.
    pose proof (update_row_law upd id db1) as Hu.
    destruct (db_update upd id db1) as [ [[]|e] db2]; [|done].
    destruct Hu as (Hrows2 & _). intros _ Ha.
    rewrite (Hget db2 (apply_update upd (DatabaseKeyStore.encode id d m)) (updated m' m));
      [done| | |done].
    + rewrite Hrows2, lookup_alter_eq, Hrows, lookup_insert_eq. reflexivity.
    + by eapply DatabaseKeyStoreLaws.decode_update.
Qed.
End database_theorems.

(** ** Concrete runs *)

Module Demo.
Import DatabaseKeyStoreLaws Table.

(** A clock standing at day 1000, an HSM that generates keys (and has no [revoke_key]). *)
#[local] Instance demo_env : Env unit := {
  uuid4 _ := ("1a2b3c4d-0000-4000-8000-000000000000", tt);
  datetime_now _ := (timedelta_days 1000, tt) }.
#[local] Instance demo_hsm : Hsm unit := {
  hsm_generate_key _ _ _ _ := (Ok (Some "material"), tt); hsm_revoke_key := None }.

Definition demo_key (id : string) (created : Z) (st : KeyStatus) : KeyMetadata := {|
  key_id := id; key_type := SIGNING; algorithm := "RSA"; key_size := 2048; service_name := "pkd";
  created_at := timedelta_days created; expires_at := timedelta_days (created + 365);
  status := st; version := 3; parent_key_id := None;
  rotation_policy_id := Some "standard_signing"; tags := [] |}.

Definition demo_table (ms : list KeyMetadata) : table := {|
  t_rows := list_to_map (map (fun m => (key_id m, DatabaseKeyStore.encode (key_id m) "k" m)) ms);
  t_faults := [] |}.

Definition demo (ms : list KeyMetadata) (open : bool) (ds : list (string * KeyMetadata)) :
    krm table unit :=
  Krm (demo_table ms) [] [("standard_signing", standard_signing)] ds [] open false 3600 tt.

Definition demo_rows_decode (db : table) : bool :=
  forallb (fun '(id, r) => opt_is_some (DatabaseKeyStore.decode id r)) (map_to_list (t_keys db)).

Lemma demo_reliable db :
  t_faults db = [] -> demo_rows_decode db = true -> reliable db.
Proof.
  intros Hf Hd. split; [by simpl; unfold t_available; rewrite Hf|]. intros id r Hr.
  unfold demo_rows_decode in Hd. rewrite forallb_forall in Hd.
  specialize (Hd (id, r)). simpl in Hd. destruct (DatabaseKeyStore.decode id r); [eauto|].
  simpl in Hd. exfalso. apply Bool.diff_false_true, Hd.
  apply list_elem_of_In, elem_of_map_to_list. exact Hr.
Qed.

Lemma demo_lookup ms open ds id d m :
  DatabaseKeyStoreLaws.db_keys (demo_table ms) !! id = Some (d, m) ->
  skeys (demo ms open ds) !! id = Some (d, m).
Proof. done. Qed.

Lemma demo_generates : hsm_generates (W := unit).
Proof. intros ? ? ? ?. by exists "material". Qed.

Lemma demo_tame ms open ds : tame (demo ms open ds).
Proof. done. Qed.

Lemma demo_clock : clock_shows (W := unit) (timedelta_days 1000).
Proof. by intros []. Qed.

Definition k1 := demo_key "pkd_signing_old" 900 ACTIVE.

Lemma rotation_replaces_key_witness :
  exists s', rotate_key "pkd_signing_old" (demo [k1] true []) =
      (Ok (Some "pkd_signing_1a2b3c4d"), s') /\
    deprecations s' = [("pkd_signing_old", k1)].
Proof.
  destruct (rotation_replaces_key "pkd_signing_old" "k" k1 (demo [k1] true []))
    as (s' & d' & m & Hrun & _ & _ & _ & _ & _ & _ & _ & _ & _ & Hdep).
  - by apply demo_reliable.
  - apply demo_tame.
  - apply demo_generates.
  - vm_compute. reflexivity.
  - vm_compute. reflexivity.
  - exists s'. split; [exact Hrun|exact Hdep].
Defined.

Lemma demo_no_hsm_revoke : hsm_revoke_tame (W := unit).
Proof. done. Qed.

Lemma revoke_outcome_witness :
  exists s', revoke_key "pkd_signing_old" "compromised" (demo [k1] true []) = (Ok false, s') /\
    skeys s' !! "pkd_signing_old" =
      Some ("k", revoked "compromised" (timedelta_days 1000) k1).
Proof.
  assert (Hk : skeys (demo [k1] true []) !! "pkd_signing_old" = Some ("k", k1))
    by (vm_compute; reflexivity).
  pose proof (revoke_outcome "pkd_signing_old" "compromised" (demo [k1] true [])
    (demo_reliable (demo_table [k1]) eq_refl eq_refl) demo_no_hsm_revoke) as Hr.
  rewrite Hk in Hr. destruct (revoke_key _ _ _) as [r s']. simpl in Hr. destruct Hr as [Hs' ->].
  exists s'. split; [done|]. unfold skeys; simpl. rewrite Hs'. apply lookup_insert_eq.
Defined.

Lemma grace_period_undoes_revocation_witness :
  let s := demo [set_status PENDING_ROTATION k1] true [("pkd_signing_old", k1)] in
  In ("pkd_signing_old", k1) (deprecations s) /\
  exists m2, skeys (snd (deprecate_old_key "pkd_signing_old" k1
    (snd (revoke_key "pkd_signing_old" "compromised" s)))) !! "pkd_signing_old" = Some ("k", m2) /\
    status m2 = DEPRECATED /\ tags m2 = [].
Proof.
  intros s. split; [by left|].
  apply (grace_period_undoes_revocation "pkd_signing_old" "compromised" "k" k1
    (set_status PENDING_ROTATION k1) s).
  - by apply demo_reliable.
  - apply demo_no_hsm_revoke.
  - by left.
  - vm_compute. reflexivity.
Defined.

(** One key already rotated away and deprecated, one revoked, one past its expiry. *)
Definition demo_keys : list KeyMetadata :=
  [demo_key "pkd_signing_deprecated" 800 DEPRECATED; demo_key "pkd_signing_revoked" 700 REVOKED;
   demo_key "pkd_signing_expired" 600 ACTIVE].

Lemma check_submits_due_keys_witness :
  exists s', _check_for_rotations (demo demo_keys true []) = (Ok tt, s') /\
    In "pkd_signing_deprecated" (jobs s') /\ ~ In "pkd_signing_revoked" (jobs s').
Proof.
  destruct (check_submits_due_keys (timedelta_days 1000) (demo demo_keys true []))
    as (s' & ms & Hrun & _ & _ & Hms & Hjobs & _).
  - apply demo_clock.
  - by apply demo_reliable.
  - reflexivity.
  - exists s'. split; [exact Hrun|]. rewrite Hjobs. split.
    + apply in_map_iff. exists (demo_key "pkd_signing_deprecated" 800 DEPRECATED).
      split; [done|]. apply lfilter_In. split; [|vm_compute; reflexivity].
      apply Hms. exists "k". vm_compute. reflexivity.
    + intros (m & Hid & [Hm Hdue]%lfilter_In)%in_map_iff. apply Hms in Hm as [d Hm].
      rewrite Hid in Hm. vm_compute in Hm. injection Hm as _ <-. vm_compute in Hdue. discriminate.
Defined.

Lemma restart_cannot_rotate_witness :
  exists s2, rotation_turn (snd (start_automatic_rotation 3600
    (snd (stop_automatic_rotation (demo demo_keys true []))))) = (Ok 60, s2) /\ jobs s2 = [].
Proof.
  destruct (restart_cannot_rotate (timedelta_days 1000) (demo demo_keys true []) 3600)
    as (_ & s2 & Hrun & Hjobs & _).
  - apply demo_clock.
  - by apply demo_reliable.
  - exists "pkd_signing_deprecated", "k", (demo_key "pkd_signing_deprecated" 800 DEPRECATED).
    split; vm_compute; reflexivity.
  - exists s2. split; [exact Hrun|]. rewrite Hjobs. reflexivity.
Defined.

Lemma stored_key_is_read_back_witness :
  let '(ok, db1) := DatabaseKeyStore.store_key "pkd_signing_old" "k" k1 (demo_table []) in
  ok = true /\ fst (DatabaseKeyStore.get_key "pkd_signing_old" db1) = Some ("k", k1).
Proof.
  pose proof (stored_key_is_read_back "pkd_signing_old" "k" k1 k1 (demo_table []) eq_refl) as Hr.
  destruct (DatabaseKeyStore.store_key "pkd_signing_old" "k" k1 (demo_table [])) as [ok db1] eqn:E.
  vm_compute in E. injection E as <- <-. split; [reflexivity|].
  apply (proj1 (proj2 Hr)). by simpl; unfold t_available.
Defined.
End Demo.

(** The same clock with an HSM that is unavailable. *)
Module DemoHsmDown.
Import DatabaseKeyStoreLaws Table.
#[local] Instance down_env : Env unit := {
  uuid4 _ := ("1a2b3c4d-0000-4000-8000-000000000000", tt);
  datetime_now _ := (timedelta_days 1000, tt) }.
#[local] Instance down_hsm : Hsm unit := {
  hsm_generate_key _ _ _ _ := (Raise (raise_ HSMOperationError "HSM unavailable"), tt);
  hsm_revoke_key := None }.

Lemma failed_rotation_reactivates_witness :
  let s := Demo.demo [set_status REVOKED Demo.k1] true [] in
  exists s', rotate_key "pkd_signing_old" s = (Ok None, s') /\
    skeys s' !! "pkd_signing_old" = Some ("k", Demo.k1).
Proof.
  intros s.
  destruct (failed_rotation_reactivates "pkd_signing_old" "k" (set_status REVOKED Demo.k1) s)
    as (s' & Hrun & Hs').
  - by apply Demo.demo_reliable.
  - intros ? ? ? ?. reflexivity.
  - vm_compute. reflexivity.
  - exists s'. split; [exact Hrun|]. rewrite Hs'. apply lookup_insert_eq.
Defined.
End DemoHsmDown.
