(* ===== verification/KeyAnomaly.v ===== *)
(** * Key usage anomaly detection ([security/key_anomaly_detector.py])

    The usage collector, the pattern learner, the eight detectors and the
    monitor that runs them on every event and periodically. Floats are exact
    rationals; [statistics.stdev] is the library's own algorithm (an integer
    square root rounded to odd, 55 significant bits) without its last rounding.
    Times are microseconds in UTC. SHA-256, alert callbacks and foreign event
    listeners are parameters. *)

From Stdlib Require Import Qabs.
From stdpp Require Import sorting pretty.
From S2P Require Import Prelude PyRuntime PyText PyNumbers.
Local Open Scope Z_scope.

Inductive KeyType :=
| SIGNING_KEY | ENCRYPTION_KEY | ROOT_CA_KEY | INTERMEDIATE_CA_KEY | DOCUMENT_SIGNER_KEY
| TLS_SERVER_KEY | CLIENT_AUTH_KEY | CSCA_KEY | DSC_KEY | HSM_KEY.

Inductive KeyOperation :=
| SIGN | ENCRYPT | DECRYPT | VERIFY | KEY_EXCHANGE | DERIVE | GENERATE | IMPORT | EXPORT | DELETE
| ACTIVATE | DEACTIVATE.

Inductive AnomalyType :=
| UNUSUAL_FREQUENCY | TIME_ANOMALY | LOCATION_ANOMALY | OPERATION_ANOMALY | VOLUME_SPIKE
| UNAUTHORIZED_ACCESS | FAILED_OPERATIONS | EXPIRED_KEY_USAGE | REVOKED_KEY_USAGE
| PATTERN_DEVIATION.

Inductive AnomalySeverity := LOW | MEDIUM | HIGH | CRITICAL.

#[export] Instance KeyOperation_eq_dec : EqDecision KeyOperation.
Proof. solve_decision. Defined.
#[export] Instance AnomalyType_eq_dec : EqDecision AnomalyType.
Proof. solve_decision. Defined.
#[export] Instance AnomalySeverity_eq_dec : EqDecision AnomalySeverity.
Proof. solve_decision. Defined.

Definition operation_value (o : KeyOperation) : string :=
  match o with
  | SIGN => "sign" | ENCRYPT => "encrypt" | DECRYPT => "decrypt" | VERIFY => "verify"
  | KEY_EXCHANGE => "key_exchange" | DERIVE => "derive" | GENERATE => "generate"
  | IMPORT => "import" | EXPORT => "export" | DELETE => "delete" | ACTIVATE => "activate"
  | DEACTIVATE => "deactivate"
  end.

Definition anomaly_value (a : AnomalyType) : string :=
  match a with
  | UNUSUAL_FREQUENCY => "unusual_frequency" | TIME_ANOMALY => "time_anomaly"
  | LOCATION_ANOMALY => "location_anomaly" | OPERATION_ANOMALY => "operation_anomaly"
  | VOLUME_SPIKE => "volume_spike" | UNAUTHORIZED_ACCESS => "unauthorized_access"
  | FAILED_OPERATIONS => "failed_operations" | EXPIRED_KEY_USAGE => "expired_key_usage"
  | REVOKED_KEY_USAGE => "revoked_key_usage" | PATTERN_DEVIATION => "pattern_deviation"
  end.

Record KeyUsageEvent := {
  event_id : string; timestamp : Z; e_key_id : string; e_key_type : KeyType;
  operation : KeyOperation; user_id : string; source_ip : string; user_agent : string;
  success : bool; error_message : option string; data_size : Z; duration_ms : Z;
  additional_metadata : pydict json }.

Record KeyInfo := {
  i_key_id : string; i_key_type : KeyType; created_at : Z; expires_at : option Z;
  is_active : bool; is_revoked : bool; revoked_at : option Z;
  allowed_operations : list KeyOperation; allowed_users : list string;
  allowed_ip_ranges : list string; max_daily_operations : Z; max_hourly_operations : Z }.

(** The statistics dictionary, once filled. *)
Record stats := { st_mean : Q; st_std : Q; st_min : Z; st_max : Z }.

Record UsagePattern := {
  p_key_id : string; daily_usage_stats : option stats; hourly_usage_stats : option stats;
  common_operations : list KeyOperation; common_users : list string;
  common_ip_ranges : list string; common_time_ranges : list (Z * Z); last_updated : Z }.

Record KeyAnomalyAlert := {
  alert_id : string; a_key_id : string; anomaly_type : AnomalyType; severity : AnomalySeverity;
  description : string; detected_at : Z; events_involved : list KeyUsageEvent;
  confidence_score : Q; recommended_actions : list string;
  acknowledged : bool; acknowledged_by : option string; acknowledged_at : option Z;
  resolved : bool; resolved_by : option string; resolved_at : option Z }.

(** ** The collector's queries *)

Definition in_window (start_time end_time : option Z) (e : KeyUsageEvent) : bool :=
  match start_time with Some s => s <=? timestamp e | None => true end
  && match end_time with Some t => timestamp e <=? t | None => true end.

Definition get_events_for_key (events : list KeyUsageEvent) (key_id : string)
    (start_time end_time : option Z) : list KeyUsageEvent :=
  lfilter (in_window start_time end_time)
    (lfilter (fun e => String.eqb (e_key_id e) key_id) events).

Definition get_events_for_user (events : list KeyUsageEvent) (uid : string)
    (start_time end_time : option Z) : list KeyUsageEvent :=
  lfilter (in_window start_time end_time)
    (lfilter (fun e => String.eqb (user_id e) uid) events).

(** ** The pattern learner *)

(** [counts[f(e)] += 1] over the events, keys in the order they appear. *)
Fixpoint bump (k : Z) (counts : list (Z * Z)) : list (Z * Z) :=
  match counts with
  | [] => [(k, 1)]
  | (k', n) :: counts => if k =? k' then (k', n + 1) :: counts else (k', n) :: bump k counts
  end.

Definition count_by (f : KeyUsageEvent -> Z) (events : list KeyUsageEvent) : list (Z * Z) :=
  foldl (fun counts e => bump (f e) counts) [] events.

Definition minimum (l : list Z) : Z := match l with [] => 0 | x :: l => foldl Z.min x l end.
Definition maximum (l : list Z) : Z := match l with [] => 0 | x :: l => foldl Z.max x l end.

Definition usage_stats (counts : list (Z * Z)) : option stats :=
  let values := map snd counts in
  match values with
  | [] => None
  | _ => Some {| st_mean := mean values;
                 st_std := if (1 <? length values)%nat then stdev values else 0%Q;
                 st_min := minimum values; st_max := maximum values |}
  end.

(** The first three octets, for an address with at least three dotted parts. *)
Definition ip_network (ip : string) : option string :=
  match split_on "."%char ip with
  | a :: b :: c :: _ => Some (join "." [a; b; c] +:+ ".0")
  | _ => None
  end.

Fixpoint group_from (start last : Z) (hours : list Z) : list (Z * Z) :=
  match hours with
  | [] => [(start, last)]
  | h :: hours =>
      if h =? last + 1 then group_from start h hours
      else (start, last) :: group_from h h hours
  end.

Definition group_consecutive_hours (hours : list Z) : list (Z * Z) :=
  match merge_sort Z.le hours with
  | [] => []
  | h :: hs => group_from h h hs
  end.

Definition hour_of (e : KeyUsageEvent) : Z := dt_hour (timestamp e).

(** [[h for h in range(24) if hourly_counts[h] > 0]] *)
Definition active_hours (events : list KeyUsageEvent) : list Z :=
  lfilter (fun h => existsb (fun e => hour_of e =? h) events) (map Z.of_nat (seq 0 24)).

(** [update_pattern] for a non-empty list of events, at time [now], over the previous pattern. *)
Definition learn (key_id : string) (events : list KeyUsageEvent) (now : Z)
    (old : option UsagePattern) : UsagePattern := {|
  p_key_id := match old with Some p => p_key_id p | None => key_id end;
  daily_usage_stats := usage_stats (count_by (fun e => dt_date (timestamp e)) events);
  hourly_usage_stats := usage_stats (count_by hour_of events);
  common_operations := remove_dups (map operation events);
  common_users := remove_dups (map user_id events);
  common_ip_ranges := remove_dups (omap (fun e => ip_network (source_ip e)) events);
  common_time_ranges :=
    match active_hours events with
    | [] => match old with Some p => common_time_ranges p | None => [] end
    | hs => group_consecutive_hours hs
    end;
  last_updated := now |}.

(** ** The detector *)

Record AnomalyDetector := { sensitivity : Q; min_events_for_detection : Z }.

Section detector.
Context {W : Type} `{Env W, Sha256}.

Definition now_utc : M W Z := fun w => let '(t, w) := datetime_now w in (Ok t, w).

Definition generate_alert_id (key_id : string) (ty : AnomalyType) : M W string :=
  t ← now_utc;
  mret (String.substring 0 16 (sha256_hexdigest
    (key_id +:+ "-" +:+ anomaly_value ty +:+ "-" +:+ pretty (Z.quot t second)))).

(** [KeyAnomalyAlert(...)] with the remaining fields at their defaults. *)
Definition new_alert (id key_id : string) (ty : AnomalyType) (sev : AnomalySeverity)
    (desc : string) (at_ : Z) (events : list KeyUsageEvent) (score : Q) (actions : list string) :
    KeyAnomalyAlert := {|
  alert_id := id; a_key_id := key_id; anomaly_type := ty; severity := sev; description := desc;
  detected_at := at_; events_involved := events; confidence_score := score;
  recommended_actions := actions; acknowledged := false; acknowledged_by := None;
  acknowledged_at := None; resolved := false; resolved_by := None; resolved_at := None |}.

(** An alert whose identifier and detection time are read from the clock in this order. *)
Definition alert_now (key_id : string) (ty : AnomalyType) (sev : AnomalySeverity)
    (desc : string) (events : list KeyUsageEvent) (score : Q) (actions : list string) :
    M W KeyAnomalyAlert :=
  id ← generate_alert_id key_id ty;
  t ← now_utc;
  mret (new_alert id key_id ty sev desc t events score actions).

Definition share (part whole : list KeyUsageEvent) : Q := (lenQ part / lenQ whole)%Q.

(** [f"{len(events)}"] *)
Definition count_str (events : list KeyUsageEvent) : string := pretty (Z.of_nat (length events)).

Definition _detect_frequency_anomalies (d : AnomalyDetector) (key_id : string)
    (events : list KeyUsageEvent) (pattern : option UsagePattern) :
    M W (list KeyAnomalyAlert) :=
  match pattern ≫= daily_usage_stats with
  | None => mret []
  | Some st =>
      now ← now_utc;
      let today_events := lfilter (fun e => dt_date (timestamp e) =? dt_date now) events in
      let expected_mean := st_mean st in
      let expected_std := st_std st in
      if Qltb 0 expected_std then
        let z_score := (Qabs (lenQ today_events - expected_mean) / expected_std)%Q in
        if Qltb (3 * sensitivity d) z_score then
          let sev := if Qltb 5 z_score then CRITICAL else HIGH in
          id ← generate_alert_id key_id UNUSUAL_FREQUENCY;
          mret [new_alert id key_id UNUSUAL_FREQUENCY sev
            ("Unusual frequency: " +:+ count_str today_events +:+ " operations today (expected: "
              +:+ fmt_1f expected_mean +:+ "±" +:+ fmt_1f expected_std +:+ ")")
            now today_events (py_min (z_score / 5) 1)
            ["Review recent key usage patterns"; "Check for automated processes";
             "Verify user authorization"]]
        else mret []
      else mret []
  end.

Definition in_normal_range (ranges : list (Z * Z)) (e : KeyUsageEvent) : bool :=
  existsb (fun '(s, t) => (s <=? hour_of e) && (hour_of e <=? t)) ranges.

Definition _detect_time_anomalies (key_id : string) (events : list KeyUsageEvent)
    (pattern : option UsagePattern) : M W (list KeyAnomalyAlert) :=
  match pattern with
  | None => mret []
  | Some p =>
      if negb (0 <? length (common_time_ranges p))%nat then mret []
      else
        let unusual := lfilter (fun e => negb (in_normal_range (common_time_ranges p) e)) events in
        if Qltb (lenQ events * (3 # 10)) (lenQ unusual) then
          a ← alert_now key_id TIME_ANOMALY MEDIUM
            ("Key used outside normal hours: " +:+ count_str unusual +:+ " events")
            unusual (share unusual events)
            ["Verify after-hours access authorization"; "Check for automated processes";
             "Review time-based access controls"];
          mret [a]
        else mret []
  end.

Definition _detect_operation_anomalies (key_id : string) (events : list KeyUsageEvent)
    (pattern : option UsagePattern) (info : option KeyInfo) : M W (list KeyAnomalyAlert) :=
  denied ← match info with
    | None => mret []
    | Some i =>
        if negb (0 <? length (allowed_operations i))%nat then mret []
        else
          let bad := lfilter (fun e => negb (mem (operation e) (allowed_operations i))) events in
          if (0 <? length bad)%nat then
            a ← alert_now key_id OPERATION_ANOMALY HIGH
              ("Unauthorized operations detected: " +:+ count_str bad +:+ " events") bad 1%Q
              ["Review key operation permissions"; "Investigate unauthorized access";
               "Consider revoking key if compromised"];
            mret [a]
          else mret []
    end;
  unusual ← match pattern with
    | None => mret []
    | Some p =>
        if negb (0 <? length (common_operations p))%nat then mret []
        else
          let odd := lfilter (fun e => negb (mem (operation e) (common_operations p))) events in
          if Qltb (lenQ events * (1 # 2)) (lenQ odd) then
            a ← alert_now key_id PATTERN_DEVIATION MEDIUM
              ("Unusual operations pattern: " +:+ count_str odd +:+ " events") odd
              (share odd events)
              ["Review new operation patterns"; "Verify legitimate usage";
               "Update usage patterns if appropriate"];
            mret [a]
          else mret []
    end;
  mret (denied ++ unusual).

Definition _detect_user_anomalies (key_id : string) (events : list KeyUsageEvent)
    (info : option KeyInfo) : M W (list KeyAnomalyAlert) :=
  match info with
  | None => mret []
  | Some i =>
      if negb (0 <? length (allowed_users i))%nat then mret []
      else
        let bad := lfilter (fun e => negb (mem (user_id e) (allowed_users i))) events in
        if (0 <? length bad)%nat then
          a ← alert_now key_id UNAUTHORIZED_ACCESS CRITICAL
            ("Unauthorized user access: " +:+ count_str bad +:+ " events") bad 1%Q
            ["Immediately investigate unauthorized access"; "Review user permissions";
             "Consider emergency key rotation"; "Check for compromised accounts"];
          mret [a]
        else mret []
  end.

Definition unusual_ip (ranges : list string) (e : KeyUsageEvent) : bool :=
  match ip_network (source_ip e) with Some n => negb (mem n ranges) | None => false end.

Definition _detect_ip_anomalies (key_id : string) (events : list KeyUsageEvent)
    (pattern : option UsagePattern) : M W (list KeyAnomalyAlert) :=
  match pattern with
  | None => mret []
  | Some p =>
      if negb (0 <? length (common_ip_ranges p))%nat then mret []
      else
        let unusual := lfilter (unusual_ip (common_ip_ranges p)) events in
        if Qltb (lenQ events * (1 # 5)) (lenQ unusual) then
          a ← alert_now key_id LOCATION_ANOMALY MEDIUM
            ("Access from unusual IP addresses: " +:+ count_str unusual +:+ " events")
            unusual (share unusual events)
            ["Verify source IP addresses"; "Check VPN and remote access logs";
             "Review network access controls"; "Consider IP whitelisting"];
          mret [a]
        else mret []
  end.

Definition _detect_failure_anomalies (key_id : string) (events : list KeyUsageEvent) :
    M W (list KeyAnomalyAlert) :=
  let failed := lfilter (fun e => negb (success e)) events in
  if negb (0 <? length failed)%nat then mret []
  else
    let failure_rate := share failed events in
    if Qltb (1 # 10) failure_rate then
      a ← alert_now key_id FAILED_OPERATIONS (if Qltb (1 # 2) failure_rate then HIGH else MEDIUM)
        ("High failure rate: " +:+ fmt_1f (failure_rate * 100) +:+ "% (" +:+ count_str failed
          +:+ " failed operations)")
        failed failure_rate
        ["Investigate operation failures"; "Check key validity and permissions";
         "Review error messages"; "Consider key health check"];
      mret [a]
    else mret [].

Definition after (limit : option Z) (e : KeyUsageEvent) : bool :=
  match limit with Some t => t <? timestamp e | None => false end.

Definition _detect_expired_key_usage (key_id : string) (events : list KeyUsageEvent)
    (info : option KeyInfo) : M W (list KeyAnomalyAlert) :=
  match info with
  | None => mret []
  | Some i =>
      let expired := lfilter (after (expires_at i)) events in
      expired_alerts ← (if (0 <? length expired)%nat then
          a ← alert_now key_id EXPIRED_KEY_USAGE CRITICAL
            ("Expired key usage detected: " +:+ count_str expired +:+ " events") expired 1%Q
            ["Immediately stop using expired key"; "Rotate to new key";
             "Investigate how expired key was used"; "Update key management procedures"];
          mret [a]
        else mret []);
      let revoked := if is_revoked i then lfilter (after (revoked_at i)) events else [] in
      revoked_alerts ← (if (0 <? length revoked)%nat then
          a ← alert_now key_id REVOKED_KEY_USAGE CRITICAL
            ("Revoked key usage detected: " +:+ count_str revoked +:+ " events") revoked 1%Q
            ["Immediately investigate revoked key usage"; "Check key revocation procedures";
             "Verify key access controls"; "Consider security incident response"];
          mret [a]
        else mret []);
      mret (expired_alerts ++ revoked_alerts)
  end.

(** [now.replace(minute=0, second=0, microsecond=0)] *)
Definition hour_start (t : Z) : Z := t / hour * hour.

Definition _detect_volume_spikes (d : AnomalyDetector) (key_id : string)
    (events : list KeyUsageEvent) (pattern : option UsagePattern) :
    M W (list KeyAnomalyAlert) :=
  match pattern ≫= hourly_usage_stats with
  | None => mret []
  | Some st =>
      now ← now_utc;
      let current_hour := hour_start now in
      let current := lfilter (fun e => (current_hour <=? timestamp e)
        && (timestamp e <? current_hour + timedelta_hours 1)) events in
      if Qltb 0 (st_std st) then
        let z_score := ((lenQ current - st_mean st) / st_std st)%Q in
        if Qltb (4 * sensitivity d) z_score then
          id ← generate_alert_id key_id VOLUME_SPIKE;
          mret [new_alert id key_id VOLUME_SPIKE HIGH
            ("Volume spike detected: " +:+ count_str current +:+ " operations this hour (expected: "
              +:+ fmt_1f (st_mean st) +:+ ")")
            now current (py_min (z_score / 6) 1)
            ["Investigate sudden increase in key usage"; "Check for bulk operations or attacks";
             "Review system logs for anomalies"; "Consider rate limiting"]]
        else mret []
      else mret []
  end.

Definition detect_anomalies (d : AnomalyDetector) (key_id : string)
    (recent : list KeyUsageEvent) (pattern : option UsagePattern) (info : option KeyInfo) :
    M W (list KeyAnomalyAlert) :=
  if Z.of_nat (length recent) <? min_events_for_detection d then mret []
  else
    a1 ← _detect_frequency_anomalies d key_id recent pattern;
    a2 ← _detect_time_anomalies key_id recent pattern;
    a3 ← _detect_operation_anomalies key_id recent pattern info;
    a4 ← _detect_user_anomalies key_id recent info;
    a5 ← _detect_ip_anomalies key_id recent pattern;
    a6 ← _detect_failure_anomalies key_id recent;
    a7 ← _detect_expired_key_usage key_id recent info;
    a8 ← _detect_volume_spikes d key_id recent pattern;
    mret (a1 ++ a2 ++ a3 ++ a4 ++ a5 ++ a6 ++ a7 ++ a8).
End detector.

(** ** The monitor *)

Section monitor.
Context {W : Type} `{Env W, Sha256}.

(** A listener of the collector: the monitor's own, or a foreign function. *)
Inductive listener :=
| RealTime
| Foreign (f : KeyUsageEvent -> W -> result unit * W).

(** [KeyUsageAnomalyMonitor] with its collector ([events], [listeners]) and its pattern learner
    ([patterns], [learning_window_days]). [monitoring]: the monitor thread is alive. *)
Record monitor := Monitor {
  check_interval_minutes : Z; learning_window_days : Z; detector : AnomalyDetector;
  events : list KeyUsageEvent; listeners : list listener; patterns : pydict UsagePattern;
  keys : pydict KeyInfo; alerts : pydict KeyAnomalyAlert;
  callbacks : list (KeyAnomalyAlert -> W -> result unit * W);
  monitoring : bool; env : W }.

Definition create_key_usage_monitor (interval window : Z) (sens : Q) (w : W) : monitor :=
  Monitor interval window {| sensitivity := sens; min_events_for_detection := 10 |}
    [] [] [] [] [] [] false w.

Definition set_collector es ls : M monitor unit := modify (fun s =>
  Monitor (check_interval_minutes s) (learning_window_days s) (detector s) es ls (patterns s)
    (keys s) (alerts s) (callbacks s) (monitoring s) (env s)).
Definition set_patterns ps : M monitor unit := modify (fun s =>
  Monitor (check_interval_minutes s) (learning_window_days s) (detector s) (events s)
    (listeners s) ps (keys s) (alerts s) (callbacks s) (monitoring s) (env s)).
Definition set_keys ks : M monitor unit := modify (fun s =>
  Monitor (check_interval_minutes s) (learning_window_days s) (detector s) (events s)
    (listeners s) (patterns s) ks (alerts s) (callbacks s) (monitoring s) (env s)).
Definition set_alerts al : M monitor unit := modify (fun s =>
  Monitor (check_interval_minutes s) (learning_window_days s) (detector s) (events s)
    (listeners s) (patterns s) (keys s) al (callbacks s) (monitoring s) (env s)).
Definition set_callbacks cs : M monitor unit := modify (fun s =>
  Monitor (check_interval_minutes s) (learning_window_days s) (detector s) (events s)
    (listeners s) (patterns s) (keys s) (alerts s) cs (monitoring s) (env s)).
Definition set_monitoring b : M monitor unit := modify (fun s =>
  Monitor (check_interval_minutes s) (learning_window_days s) (detector s) (events s)
    (listeners s) (patterns s) (keys s) (alerts s) (callbacks s) b (env s)).

(** Code of the detector and of callbacks, which only uses the environment. *)
Definition in_env {A} (m : M W A) : M monitor A := fun s =>
  let '(r, w) := m (env s) in
  (r, Monitor (check_interval_minutes s) (learning_window_days s) (detector s) (events s)
        (listeners s) (patterns s) (keys s) (alerts s) (callbacks s) (monitoring s) w).

Definition add_key (i : KeyInfo) : M monitor unit := s ← get; set_keys (dset (i_key_id i) i (keys s)).
Definition remove_key (id : string) : M monitor unit := s ← get; set_keys (dpop id (keys s)).
Definition add_alert_callback f : M monitor unit := s ← get; set_callbacks (callbacks s ++ [f]).
Definition add_event_listener (l : listener) : M monitor unit :=
  s ← get; set_collector (events s) (listeners s ++ [l]).

(** [for callback in self.alert_callbacks: try: callback(alert) except Exception: ...] *)
Fixpoint notify (cs : list (KeyAnomalyAlert -> W -> result unit * W)) (a : KeyAnomalyAlert) :
    M monitor unit :=
  match cs with
  | [] => mret tt
  | c :: cs => try_except (in_env (c a)) (fun _ => mret tt) ≫= fun _ => notify cs a
  end.

(** The earlier alerts that count as recent; the clock is read for each alert of this key and
    type. *)
Fixpoint recent_alerts (key_id : string) (ty : AnomalyType) (al : list KeyAnomalyAlert) :
    M W (list KeyAnomalyAlert) :=
  match al with
  | [] => mret []
  | a :: al =>
      if String.eqb (a_key_id a) key_id && bool_decide (anomaly_type a = ty) then
        t ← now_utc;
        rest ← recent_alerts key_id ty al;
        mret (if td_seconds (t - detected_at a) <? 3600 then a :: rest else rest)
      else recent_alerts key_id ty al
  end.

Definition _create_immediate_alert (key_id : string) (ty : AnomalyType) (sev : AnomalySeverity)
    (desc : string) (es : list KeyUsageEvent) : M monitor unit :=
  id ← in_env (generate_alert_id key_id ty);
  s ← get;
  recent ← in_env (recent_alerts key_id ty (dvalues (alerts s)));
  match recent with
  | _ :: _ => mret tt
  | [] =>
      t ← in_env now_utc;
      let a := new_alert id key_id ty sev desc t es 1%Q
        ["Immediate investigation required"; "Consider emergency response procedures"] in
      set_alerts (dset id a (alerts s)) ≫= fun _ => notify (callbacks s) a
  end.

(** [if cond: self._create_immediate_alert(...)] *)
Definition alert_if (cond : bool) (key_id : string) (ty : AnomalyType) (sev : AnomalySeverity)
    (desc : string) (e : KeyUsageEvent) : M monitor unit :=
  if cond then _create_immediate_alert key_id ty sev desc [e] else mret tt.

Definition _process_real_time_event (e : KeyUsageEvent) : M monitor unit :=
  s ← get;
  match dget (e_key_id e) (keys s) with
  | None => mret tt
  | Some i =>
      in_env now_utc ≫= fun _ =>
      alert_if (after (expires_at i) e) (e_key_id e) EXPIRED_KEY_USAGE CRITICAL
        "Expired key usage detected immediately" e ≫= fun _ =>
      alert_if (is_revoked i && after (revoked_at i) e) (e_key_id e) REVOKED_KEY_USAGE CRITICAL
        "Revoked key usage detected immediately" e ≫= fun _ =>
      alert_if ((0 <? length (allowed_users i))%nat && negb (mem (user_id e) (allowed_users i)))
        (e_key_id e) UNAUTHORIZED_ACCESS CRITICAL
        ("Unauthorized user access: " +:+ user_id e) e ≫= fun _ =>
      alert_if ((0 <? length (allowed_operations i))%nat
          && negb (mem (operation e) (allowed_operations i)))
        (e_key_id e) OPERATION_ANOMALY HIGH
        ("Unauthorized operation: " +:+ operation_value (operation e)) e
  end.

Fixpoint run_listeners (ls : list listener) (e : KeyUsageEvent) : M monitor unit :=
  match ls with
  | [] => mret tt
  | l :: ls =>
      try_except (match l with RealTime => _process_real_time_event e | Foreign f => in_env (f e) end)
        (fun _ => mret tt) ≫= fun _ => run_listeners ls e
  end.

Definition add_event (e : KeyUsageEvent) : M monitor unit :=
  s ← get;
  set_collector (events s ++ [e]) (listeners s) ≫= fun _ => run_listeners (listeners s) e.

Definition record_key_usage (e : KeyUsageEvent) : M monitor unit := add_event e.

Definition start_monitoring : M monitor unit :=
  s ← get;
  if monitoring s then mret tt
  else add_event_listener RealTime ≫= fun _ => set_monitoring true.

Definition stop_monitoring : M monitor unit := set_monitoring false.

Definition update_pattern (key_id : string) (es : list KeyUsageEvent) : M monitor unit :=
  match es with
  | [] => mret tt
  | _ =>
      s ← get;
      t ← in_env now_utc;
      set_patterns (dset key_id (learn key_id es t (dget key_id (patterns s))) (patterns s))
  end.

Fixpoint process_anomalies (found : list KeyAnomalyAlert) : M monitor unit :=
  match found with
  | [] => mret tt
  | a :: found =>
      s ← get;
      match dget (alert_id a) (alerts s) with
      | Some _ => mret tt
      | None => set_alerts (dset (alert_id a) a (alerts s)) ≫= fun _ => notify (callbacks s) a
      end ≫= fun _ => process_anomalies found
  end.

Definition analyze_key (now : Z) (key_id : string) : M monitor unit :=
  s ← get;
  let recent := get_events_for_key (events s) key_id (Some (now - timedelta_hours 24)) (Some now) in
  match recent with
  | [] => mret tt
  | _ =>
      let learning_start := now - timedelta_days (learning_window_days s) in
      let historical := get_events_for_key (events s) key_id (Some learning_start) (Some now) in
      update_pattern key_id historical ≫= fun _ =>
      s' ← get;
      found ← in_env (detect_anomalies (detector s') key_id recent (dget key_id (patterns s'))
                        (dget key_id (keys s')));
      process_anomalies found
  end.

Fixpoint analyze_keys (now : Z) (ids : list string) : M monitor unit :=
  match ids with
  | [] => mret tt
  | id :: ids =>
      try_except (analyze_key now id) (fun _ => mret tt) ≫= fun _ => analyze_keys now ids
  end.

Definition _run_periodic_analysis : M monitor unit :=
  t ← in_env now_utc;
  s ← get;
  analyze_keys t (dkeys (keys s)).

(** One turn of [_monitor_loop]: the seconds it then waits for the stop event. *)
Definition monitor_turn : M monitor Z :=
  try_except (_run_periodic_analysis ≫= fun _ => gets (fun s => check_interval_minutes s * 60))
    (fun _ => mret 300).

Definition newest_first (a b : KeyAnomalyAlert) : Prop := detected_at b <= detected_at a.
#[local] Instance newest_first_dec : RelDecision newest_first.
Proof. intros a b. unfold newest_first. apply _. Defined.

Definition get_alerts (key_id : option string) (sev : option AnomalySeverity)
    (unacknowledged_only : bool) (s : monitor) : list KeyAnomalyAlert :=
  let l := dvalues (alerts s) in
  let l := if str_truthy key_id
    then lfilter (fun a => String.eqb (a_key_id a) (default "" key_id)) l else l in
  let l := match sev with
    | Some v => lfilter (fun a => bool_decide (severity a = v)) l | None => l end in
  let l := if unacknowledged_only then lfilter (fun a => negb (acknowledged a)) l else l in
  merge_sort newest_first l.

Definition acknowledged_alert (who : string) (t : Z) (a : KeyAnomalyAlert) : KeyAnomalyAlert := {|
  alert_id := alert_id a; a_key_id := a_key_id a; anomaly_type := anomaly_type a;
  severity := severity a; description := description a; detected_at := detected_at a;
  events_involved := events_involved a; confidence_score := confidence_score a;
  recommended_actions := recommended_actions a; acknowledged := true;
  acknowledged_by := Some who; acknowledged_at := Some t; resolved := resolved a;
  resolved_by := resolved_by a; resolved_at := resolved_at a |}.

Definition resolved_alert (who : string) (t : Z) (a : KeyAnomalyAlert) : KeyAnomalyAlert := {|
  alert_id := alert_id a; a_key_id := a_key_id a; anomaly_type := anomaly_type a;
  severity := severity a; description := description a; detected_at := detected_at a;
  events_involved := events_involved a; confidence_score := confidence_score a;
  recommended_actions := recommended_actions a; acknowledged := acknowledged a;
  acknowledged_by := acknowledged_by a; acknowledged_at := acknowledged_at a; resolved := true;
  resolved_by := Some who; resolved_at := Some t |}.

Definition acknowledge_alert (id who : string) : M monitor bool :=
  s ← get;
  match dget id (alerts s) with
  | None => mret false
  | Some a =>
      t ← in_env now_utc;
      set_alerts (dset id (acknowledged_alert who t a) (alerts s)) ≫= fun _ => mret true
  end.

Definition resolve_alert (id who : string) : M monitor bool :=
  s ← get;
  match dget id (alerts s) with
  | None => mret false
  | Some a =>
      t ← in_env now_utc;
      set_alerts (dset id (resolved_alert who t a) (alerts s)) ≫= fun _ => mret true
  end.
End monitor.
Arguments monitor W : clear implicits.
Arguments listener W : clear implicits.

(** ** Grouping hours *)

Definition covered (ranges : list (Z * Z)) (h : Z) : Prop :=
  exists s t, In (s, t) ranges /\ s <= h <= t.

(** Ranges in increasing order with at least one hour missing between neighbours. *)
Definition separated (ranges : list (Z * Z)) : Prop :=
  Forall (fun '(s, t) => s <= t) ranges /\
  StronglySorted (fun r1 r2 => snd r1 + 1 < fst r2) ranges.

Lemma group_from_covers start last hours h :
  start <= last -> (covered (group_from start last hours) h <-> start <= h <= last \/ In h hours).
Proof.
  unfold covered. revert start last. induction hours as [|x hours IH]; intros start last Hle; simpl.
  { naive_solver. }
  destruct (Z.eqb_spec x (last + 1)) as [->|Hne].
  - rewrite IH by lia. intuition lia.
  - specialize (IH x x (Z.le_refl x)). split.
    + intros (s & t & [ [= <- <-]|Hin] & Hh); [by left|].
      destruct (proj1 IH) as [?|?]; [eauto|right; left; lia|by right; right].
    + intros [Hh|Hx].
      * exists start, last. split; [by left|done].
      * destruct (proj2 IH) as (s & t & Hin & Hh); [destruct Hx; [left; lia|by right]|].
        exists s, t. split; [by right|done].
Qed.

Lemma group_from_separated start last hours :
  start <= last -> StronglySorted Z.lt (last :: hours) ->
  separated (group_from start last hours) /\
  Forall (fun r => start <= fst r) (group_from start last hours).
Proof.
  revert start last. induction hours as [|x hours IH]; intros start last Hle Hs; simpl.
  { repeat constructor; simpl; lia. }
  apply StronglySorted_inv in Hs as [Hs Hlt]. apply Forall_cons in Hlt as [Hx Hlt].
  destruct (Z.eqb_spec x (last + 1)) as [->|Hne]; [by apply IH; [lia|]|].
  destruct (IH x x) as [ [Hwf Hsep] Hge]; [lia|done|]. split.
  - split; [by constructor|]. constructor; [done|].
    eapply Forall_impl; [exact Hge|]. intros [s t]; simpl. lia.
  - constructor; [simpl; lia|]. eapply Forall_impl; [exact Hge|]. intros [s t]; simpl. lia.
Qed.

Lemma sorted_lt (l : list Z) : StronglySorted Z.le l -> NoDup l -> StronglySorted Z.lt l.
Proof.
  induction 1 as [|x l Hs IH Hx]; intros Hnd; [constructor|].
  apply NoDup_cons in Hnd as [Hni Hnd]. constructor; [auto|].
  rewrite Forall_forall in Hx |- *. intros y Hy. specialize (Hx y Hy).
  assert (x <> y) by congruence. lia.
Qed.

(** Grouping hours into ranges is exact and maximal: the ranges cover exactly the given hours
    (in any order, repeated or not), and for distinct hours they are ordered, disjoint, and
    separated by at least one missing hour, so no two of them could be merged. *)
Theorem grouped_hours_exact hours :
  (forall h, covered (group_consecutive_hours hours) h <-> In h hours) /\
  (NoDup hours -> separated (group_consecutive_hours hours)).
Proof.
  unfold group_consecutive_hours. pose proof (merge_sort_Permutation Z.le hours) as Hp.
  assert (Hs : StronglySorted Z.le (merge_sort Z.le hours)) by (apply StronglySorted_merge_sort; apply _).
  destruct (merge_sort Z.le hours) as [|x l].
  - apply Permutation_nil in Hp; subst hours. split; [|intros _; split; constructor].
    intros h. unfold covered. naive_solver.
  - split.
    + intros h. rewrite group_from_covers by lia. rewrite <- Hp. simpl. intuition lia.
    + intros Hnd. apply group_from_separated; [lia|]. apply sorted_lt; [done|]. by rewrite Hp.
Qed.

(** ** What the detectors report *)

Section detector_theorems.
Context {W : Type} `{Env W, Sha256}.
Implicit Types (l : list KeyAnomalyAlert) (es recent : list KeyUsageEvent).

Lemma yields_now (P : Z -> Prop) : (forall t, P t) -> yields now_utc P.
Proof. intros HP w. unfold now_utc. destruct (datetime_now w) as [t w']. by exists t, w'. Qed.

Lemma yields_id key_id ty : yields (generate_alert_id key_id ty) (fun _ => True).
Proof. eapply yields_bind; [by apply (yields_now (fun _ => True))|]. intros. by apply yields_ret. Qed.

(** A fresh alert on a key: its type, severity, events, and a score between 0 and 1. *)
Record reports key_id ty (sev : AnomalySeverity -> Prop) es (a : KeyAnomalyAlert) : Prop := {
  rep_key : a_key_id a = key_id;
  rep_type : anomaly_type a = ty;
  rep_severity : sev (severity a);
  rep_events : events_involved a = es;
  rep_score : (0 <= confidence_score a <= 1)%Q;
  rep_fresh : acknowledged a = false /\ resolved a = false }.

(** The single alert of a detector that reports under a condition. *)
Definition reported (cond : bool) key_id ty sev es l : Prop :=
  if cond then exists a, l = [a] /\ reports key_id ty sev es a else l = [].

Lemma yields_reported key_id ty sev desc es score actions (Q : AnomalySeverity -> Prop) :
  Q sev -> (0 <= score <= 1)%Q ->
  yields (a ← alert_now key_id ty sev desc es score actions; mret [a])
    (reported true key_id ty Q es).
Proof.
  intros HQ Hscore. unfold alert_now. eapply yields_bind with (P := reports key_id ty Q es).
  - eapply yields_bind; [apply yields_id|]. intros id _. simpl.
    eapply yields_bind; [by apply (yields_now (fun _ => True))|].
    intros t _. by apply yields_ret.
  - intros a Ha. apply yields_ret. by exists a.
Qed.

Lemma lenQ_nonneg {A} (l : list A) : (0 <= lenQ l)%Q.
Proof. unfold lenQ. rewrite <- (Zle_Qle 0). lia. Qed.

Lemma lenQ_pos {A} (l : list A) : l <> [] -> (0 < lenQ l)%Q.
Proof. unfold lenQ. rewrite <- (Zlt_Qlt 0). destruct l; simpl; [done|lia]. Qed.

Lemma share_bounds f es : (0 <= share (lfilter f es) es <= 1)%Q.
Proof.
  unfold share. pose proof (lfilter_length f es) as Hle. destruct es as [|e es]; [vm_compute; split; discriminate|].
  assert (0 < lenQ (e :: es))%Q by by apply lenQ_pos. split.
  - apply Qle_shift_div_l; [done|]. rewrite Qmult_0_l. apply lenQ_nonneg.
  - apply Qle_shift_div_r; [done|]. rewrite Qmult_1_l. unfold lenQ. rewrite <- Zle_Qle. lia.
Qed.

Lemma is_nonempty {A} (l : list A) : (0 <? length l)%nat = true <-> l <> [].
Proof. destruct l; simpl; split; done. Qed.

(** The z-score capped at 1. *)
Lemma capped_score z d : (0 <= z)%Q -> (0 < d)%Q -> (0 <= py_min (z / d) 1 <= 1)%Q.
Proof.
  intros Hz Hd. assert (0 <= z / d)%Q by (apply Qle_shift_div_l; lra). q_cases; lra.
Qed.

(** At most one alert of the given type, about some of the events. *)
Definition at_most_one key_id ty es l : Prop :=
  exists cond part, reported cond key_id ty (fun _ => True) part l /\ (forall e, In e part -> In e es).

Lemma at_most_none key_id ty es : at_most_one key_id ty es [].
Proof. by exists false, []. Qed.

Lemma reported_at_most cond key_id ty sev f es l :
  reported cond key_id ty sev (lfilter f es) l -> at_most_one key_id ty es l.
Proof.
  intros Hr. exists cond, (lfilter f es). split; [|intros e He; apply lfilter_In in He; apply He].
  destruct cond; [|done]. destruct Hr as (a & -> & [ ]). exists a. split; [done|]. by split.
Qed.

(** The pattern accounts for the events: their hours, operations and networks are common. *)
Definition explains (p : UsagePattern) es : Prop := forall e, In e es ->
  in_normal_range (common_time_ranges p) e = true /\
  mem (operation e) (common_operations p) = true /\
  unusual_ip (common_ip_ranges p) e = false.

Lemma few_not_many f es (r : Q) :
  (0 <= r)%Q -> (forall e, In e es -> f e = false) -> Qltb (lenQ es * r) (lenQ (lfilter f es)) = false.
Proof.
  intros Hr Hf. apply lfilter_nil in Hf as ->. apply Qltb_ge. change (lenQ []) with 0%Q.
  pose proof (lenQ_nonneg es). nra.
Qed.

(** Detectors that compare with the pattern. *)
Definition deviation_spec key_id ty es (pattern : option UsagePattern) l : Prop :=
  at_most_one key_id ty es l /\ (forall p, pattern = Some p -> explains p es -> l = []).

Lemma yields_deviation key_id ty sev desc f es actions (r : Q) (pattern : option UsagePattern) :
  (0 <= r)%Q ->
  (forall p, pattern = Some p -> explains p es -> forall e, In e es -> f e = false) ->
  yields (if Qltb (lenQ es * r) (lenQ (lfilter f es)) then
      a ← alert_now key_id ty sev desc (lfilter f es) (share (lfilter f es) es) actions; mret [a]
    else mret []) (deviation_spec key_id ty es pattern).
Proof.
  intros Hr Hf. destruct (Qltb _ _) eqn:E.
  - eapply yields_weaken; [by apply (yields_reported _ _ _ _ _ _ _ (fun _ => True)), share_bounds|].
    intros l Hl. split; [by eapply reported_at_most|]. intros p Hp Hex.
    by rewrite (few_not_many f es r Hr (Hf p Hp Hex)) in E.
  - apply yields_ret. split; [apply at_most_none|done].
Qed.

Lemma deviation_none key_id ty es pattern : deviation_spec key_id ty es pattern [].
Proof. split; [apply at_most_none|done]. Qed.

Lemma time_spec key_id es pattern :
  yields (_detect_time_anomalies key_id es pattern) (deviation_spec key_id TIME_ANOMALY es pattern).
Proof.
  unfold _detect_time_anomalies. destruct pattern as [p|]; [|apply yields_ret, deviation_none].
  destruct (0 <? length (common_time_ranges p))%nat; simpl; [|apply yields_ret, deviation_none].
  apply yields_deviation; [done|]. intros p' [= <-] Hex e He. apply negb_false_iff. by apply Hex.
Qed.

Lemma ip_spec key_id es pattern :
  yields (_detect_ip_anomalies key_id es pattern)
    (deviation_spec key_id LOCATION_ANOMALY es pattern).
Proof.
  unfold _detect_ip_anomalies. destruct pattern as [p|]; [|apply yields_ret, deviation_none].
  destruct (0 <? length (common_ip_ranges p))%nat; simpl; [|apply yields_ret, deviation_none].
  apply yields_deviation; [done|]. intros p' [= <-] Hex e He. by apply Hex.
Qed.

(** The uses of a key that its [KeyInfo] forbids. *)
Definition operation_violations (info : option KeyInfo) es : list KeyUsageEvent :=
  match info with
  | Some i => if (0 <? length (allowed_operations i))%nat
      then lfilter (fun e => negb (mem (operation e) (allowed_operations i))) es else []
  | None => []
  end.
Definition user_violations (info : option KeyInfo) es : list KeyUsageEvent :=
  match info with
  | Some i => if (0 <? length (allowed_users i))%nat
      then lfilter (fun e => negb (mem (user_id e) (allowed_users i))) es else []
  | None => []
  end.
Definition expired_uses (info : option KeyInfo) es : list KeyUsageEvent :=
  match info with Some i => lfilter (after (expires_at i)) es | None => [] end.
Definition revoked_uses (info : option KeyInfo) es : list KeyUsageEvent :=
  match info with
  | Some i => if is_revoked i then lfilter (after (revoked_at i)) es else []
  | None => []
  end.

(** An alert exactly when there are such uses, about all of them. *)
Definition violation_spec key_id ty sev bad l : Prop :=
  reported (0 <? length bad)%nat key_id ty (eq sev) bad l.

Lemma yields_violation key_id ty sev desc bad actions :
  yields (if (0 <? length bad)%nat then
      a ← alert_now key_id ty sev desc bad 1%Q actions; mret [a]
    else mret []) (violation_spec key_id ty sev bad).
Proof.
  unfold violation_spec. destruct (0 <? length bad)%nat; [|by apply yields_ret].
  apply yields_reported; [done|lra].
Qed.

Lemma user_spec key_id es info :
  yields (_detect_user_anomalies key_id es info)
    (violation_spec key_id UNAUTHORIZED_ACCESS CRITICAL (user_violations info es)).
Proof.
  unfold _detect_user_anomalies. destruct info as [i|]; [|by apply yields_ret].
  simpl. destruct (0 <? length (allowed_users i))%nat; simpl; [|by apply yields_ret].
  apply yields_violation.
Qed.

Lemma operation_spec key_id es pattern info :
  yields (_detect_operation_anomalies key_id es pattern info)
    (fun l => exists l1 l2, l = l1 ++ l2 /\
       violation_spec key_id OPERATION_ANOMALY HIGH (operation_violations info es) l1 /\
       deviation_spec key_id PATTERN_DEVIATION es pattern l2).
Proof.
  unfold _detect_operation_anomalies.
  eapply yields_bind with
    (P := violation_spec key_id OPERATION_ANOMALY HIGH (operation_violations info es)).
  { destruct info as [i|]; [|by apply yields_ret]. simpl.
    destruct (0 <? length (allowed_operations i))%nat; simpl; [|by apply yields_ret].
    apply yields_violation. }
  intros l1 Hl1. eapply yields_bind with (P := deviation_spec key_id PATTERN_DEVIATION es pattern).
  { destruct pattern as [p|]; [|apply yields_ret, deviation_none].
    destruct (0 <? length (common_operations p))%nat; simpl; [|apply yields_ret, deviation_none].
    apply yields_deviation; [done|]. intros p' [= <-] Hex e He. apply negb_false_iff. by apply Hex. }
  intros l2 Hl2. apply yields_ret. by exists l1, l2.
Qed.

Lemma expiry_spec key_id es info :
  yields (_detect_expired_key_usage key_id es info)
    (fun l => exists l1 l2, l = l1 ++ l2 /\
       violation_spec key_id EXPIRED_KEY_USAGE CRITICAL (expired_uses info es) l1 /\
       violation_spec key_id REVOKED_KEY_USAGE CRITICAL (revoked_uses info es) l2).
Proof.
  unfold _detect_expired_key_usage. destruct info as [i|]; [|by apply yields_ret; exists [], []].
  eapply yields_bind; [apply yields_violation|]. intros l1 Hl1.
  eapply yields_bind; [apply yields_violation|]. intros l2 Hl2.
  apply yields_ret. exists l1, l2. split_and!; [done|done|]. simpl. by destruct (is_revoked i).
Qed.

Lemma failure_spec key_id es :
  yields (_detect_failure_anomalies key_id es) (at_most_one key_id FAILED_OPERATIONS es).
Proof.
  unfold _detect_failure_anomalies.
  destruct (0 <? length (lfilter _ es))%nat; simpl; [|apply yields_ret, at_most_none].
  destruct (Qltb _ _); [|apply yields_ret, at_most_none].
  eapply yields_weaken; [by apply (yields_reported _ _ _ _ _ _ _ (fun _ => True)), share_bounds|].
  intros l. apply reported_at_most.
Qed.

Lemma yields_scored key_id ty sev desc t f es score actions :
  (0 <= score <= 1)%Q ->
  yields (id ← generate_alert_id key_id ty;
          mret [new_alert id key_id ty sev desc t (lfilter f es) score actions])
    (at_most_one key_id ty es).
Proof.
  intros Hs. eapply yields_bind; [apply yields_id|]. intros id _. apply yields_ret.
  exists true, (lfilter f es). split; [|intros e He; apply lfilter_In in He; apply He].
  eexists. split; [done|]. by split.
Qed.

Lemma frequency_spec d key_id es pattern :
  yields (_detect_frequency_anomalies d key_id es pattern)
    (at_most_one key_id UNUSUAL_FREQUENCY es).
Proof.
  unfold _detect_frequency_anomalies. destruct (pattern ≫= _) as [st|]; [|apply yields_ret, at_most_none].
  eapply yields_bind; [by apply (yields_now (fun _ => True))|]. intros t _.
  destruct (Qltb 0 (st_std st)) eqn:Hstd; [|apply yields_ret, at_most_none].
  destruct (Qltb (3 * _) _); [|apply yields_ret, at_most_none].
  apply yields_scored, capped_score; [|lra]. apply Qltb_lt in Hstd.
  apply Qle_shift_div_l; [done|]. rewrite Qmult_0_l. apply Qabs_nonneg.
Qed.

Lemma volume_spec d key_id es pattern :
  (0 <= sensitivity d)%Q ->
  yields (_detect_volume_spikes d key_id es pattern) (at_most_one key_id VOLUME_SPIKE es).
Proof.
  intros Hsens. unfold _detect_volume_spikes.
  destruct (pattern ≫= _) as [st|]; [|apply yields_ret, at_most_none].
  eapply yields_bind; [by apply (yields_now (fun _ => True))|]. intros t _.
  destruct (Qltb 0 (st_std st)) eqn:Hstd; [|apply yields_ret, at_most_none].
  destruct (Qltb (4 * _) _) eqn:Hz; [|apply yields_ret, at_most_none].
  apply yields_scored, capped_score; [|lra]. apply Qltb_lt in Hz. lra.
Qed.

(** What one run of all detectors reports, part by part. *)
Record detection key_id recent pattern info l : Prop := {
  det_parts : exists fq tm op pd us ip fl ex rv vs,
    l = fq ++ tm ++ (op ++ pd) ++ us ++ ip ++ fl ++ (ex ++ rv) ++ vs /\
    at_most_one key_id UNUSUAL_FREQUENCY recent fq /\
    deviation_spec key_id TIME_ANOMALY recent pattern tm /\
    violation_spec key_id OPERATION_ANOMALY HIGH (operation_violations info recent) op /\
    deviation_spec key_id PATTERN_DEVIATION recent pattern pd /\
    violation_spec key_id UNAUTHORIZED_ACCESS CRITICAL (user_violations info recent) us /\
    deviation_spec key_id LOCATION_ANOMALY recent pattern ip /\
    at_most_one key_id FAILED_OPERATIONS recent fl /\
    violation_spec key_id EXPIRED_KEY_USAGE CRITICAL (expired_uses info recent) ex /\
    violation_spec key_id REVOKED_KEY_USAGE CRITICAL (revoked_uses info recent) rv /\
    at_most_one key_id VOLUME_SPIKE recent vs }.

Lemma detect_spec d key_id recent pattern info :
  (0 <= sensitivity d)%Q -> min_events_for_detection d <= Z.of_nat (length recent) ->
  yields (detect_anomalies d key_id recent pattern info) (detection key_id recent pattern info).
Proof.
  intros Hsens Hmin. unfold detect_anomalies. rewrite (proj2 (Z.ltb_ge _ _) Hmin).
  eapply yields_bind; [apply frequency_spec|]. intros fq Hfq.
  eapply yields_bind; [apply time_spec|]. intros tm Htm.
  eapply yields_bind; [apply operation_spec|]. intros ops (op & pd & -> & Hop & Hpd).
  eapply yields_bind; [apply user_spec|]. intros us Hus.
  eapply yields_bind; [apply ip_spec|]. intros ip Hip.
  eapply yields_bind; [apply failure_spec|]. intros fl Hfl.
  eapply yields_bind; [apply expiry_spec|]. intros exs (ex & rv & -> & Hex & Hrv).
  eapply yields_bind; [by apply volume_spec|]. intros vs Hvs.
  apply yields_ret. split. by exists fq, tm, op, pd, us, ip, fl, ex, rv, vs.
Qed.

(** The alerts of a type: their severities and events. *)
Definition of_type (ty : AnomalyType) l : list (AnomalySeverity * list KeyUsageEvent) :=
  map (fun a => (severity a, events_involved a))
    (lfilter (fun a => bool_decide (anomaly_type a = ty)) l).

Lemma of_type_app ty l1 l2 : of_type ty (l1 ++ l2) = of_type ty l1 ++ of_type ty l2.
Proof. unfold of_type. by rewrite lfilter_app, map_app. Qed.

Lemma of_type_none ty l : (forall a, In a l -> anomaly_type a <> ty) -> of_type ty l = [].
Proof.
  intros Hl. unfold of_type. replace (lfilter _ l) with (@nil KeyAnomalyAlert); [done|].
  symmetry. apply lfilter_nil. intros a Ha. apply bool_decide_eq_false. auto.
Qed.

Lemma at_most_types key_id ty es l a : at_most_one key_id ty es l -> In a l -> anomaly_type a = ty.
Proof.
  intros (cond & part & Hr & _). destruct cond; simpl in Hr; [|by subst].
  destruct Hr as (a' & -> & Ha). intros [<-|[] ]. apply Ha.
Qed.

Lemma deviation_types key_id ty es pattern l a :
  deviation_spec key_id ty es pattern l -> In a l -> anomaly_type a = ty.
Proof. intros [Hl _]. by eapply at_most_types. Qed.

Lemma violation_types key_id ty sev bad l a :
  violation_spec key_id ty sev bad l -> In a l -> anomaly_type a = ty.
Proof.
  unfold violation_spec, reported. destruct (0 <? length bad)%nat; [|by intros ->].
  intros (a' & -> & Ha) [<-|[] ]. apply Ha.
Qed.

(** The report about a list of forbidden uses. *)
Definition report_of (sev : AnomalySeverity) (bad : list KeyUsageEvent) :=
  match bad with [] => [] | _ => [(sev, bad)] end.

Lemma of_type_violation key_id ty sev bad l :
  violation_spec key_id ty sev bad l -> of_type ty l = report_of sev bad.
Proof.
  unfold violation_spec, reported. destruct bad as [|e bad]; simpl; [by intros ->|].
  intros (a & -> & [? Hty Hsev Hev _ _]). unfold of_type; simpl.
  rewrite bool_decide_eq_true_2 by done. simpl. congruence.
Qed.

(** Every type is reported by its own part only. *)
Ltac by_types :=
  rewrite !of_type_app;
  repeat match goal with
  | Hp : at_most_one _ ?t _ ?p |- context [of_type ?ty ?p] =>
      rewrite (of_type_none ty p)
        by (intros a Ha; rewrite (at_most_types _ _ _ _ _ Hp Ha); discriminate)
  | Hp : deviation_spec _ ?t _ _ ?p |- context [of_type ?ty ?p] =>
      rewrite (of_type_none ty p)
        by (intros a Ha; rewrite (deviation_types _ _ _ _ _ _ Hp Ha); discriminate)
  | Hp : violation_spec _ ?t _ _ ?p |- context [of_type ?ty ?p] =>
      first [rewrite (of_type_violation _ _ _ _ _ Hp)
        | rewrite (of_type_none ty p)
            by (intros a Ha; rewrite (violation_types _ _ _ _ _ _ Hp Ha); discriminate)]
  end;
  rewrite ?app_nil_r; reflexivity.

(** C17: With enough events, forbidden uses of a key are reported exactly: for each of the four
    policy rules (operation not allowed, user not allowed, use after expiry, use after
    revocation) there is one alert, with the rule's severity and precisely the offending
    events in order, when there are any, and none otherwise. With fewer events than
    [min_events_for_detection] nothing is reported at all. *)
Theorem violations_reported_exactly d key_id recent pattern info w (Hsens : (0 <= sensitivity d)%Q) :
  exists l w', detect_anomalies d key_id recent pattern info w = (Ok l, w') /\
  if Z.of_nat (length recent) <? min_events_for_detection d then l = []
  else
    of_type OPERATION_ANOMALY l = report_of HIGH (operation_violations info recent) /\
    of_type UNAUTHORIZED_ACCESS l = report_of CRITICAL (user_violations info recent) /\
    of_type EXPIRED_KEY_USAGE l = report_of CRITICAL (expired_uses info recent) /\
    of_type REVOKED_KEY_USAGE l = report_of CRITICAL (revoked_uses info recent).
Proof.
  destruct (Z.ltb_spec (Z.of_nat (length recent)) (min_events_for_detection d)) as [Hlt|Hge].
  - exists [], w. unfold detect_anomalies. by rewrite (proj2 (Z.ltb_lt _ _) Hlt).
  - destruct (detect_spec d key_id recent pattern info Hsens Hge w) as (l & w' & Hrun & Hl).
    exists l, w'. split; [done|]. clear Hrun.
    destruct Hl as [ (fq & tm & op & pd & us & ip & fl & ex & rv & vs & -> & ? & ? & ? & ? & ? & ? & ? & ? & ? & ?) ].
    split_and!; by_types.
Qed.

(** A new alert on the key, about some of the events, with a score between 0 and 1. *)
Definition well_formed key_id recent (a : KeyAnomalyAlert) : Prop :=
  a_key_id a = key_id /\ (forall e, In e (events_involved a) -> In e recent) /\
  (0 <= confidence_score a <= 1)%Q /\ acknowledged a = false /\ resolved a = false.

Lemma at_most_wf key_id ty recent l a :
  at_most_one key_id ty recent l -> In a l -> well_formed key_id recent a.
Proof.
  intros (cond & part & Hr & Hin). destruct cond; simpl in Hr; [|by subst].
  destruct Hr as (a' & -> & [? ? ? Hev [? ?] [? ?] ]). intros [<-|[] ].
  split_and!; try done. by rewrite Hev.
Qed.

Lemma violation_wf key_id ty sev bad recent l a :
  violation_spec key_id ty sev bad l -> (forall e, In e bad -> In e recent) -> In a l ->
  well_formed key_id recent a.
Proof.
  unfold violation_spec, reported. destruct (0 <? length bad)%nat; [|by intros ->].
  intros (a' & -> & [? ? ? Hev [? ?] [? ?] ]) Hin [<-|[] ].
  split_and!; try done. by rewrite Hev.
Qed.

Lemma violations_recent info recent e :
  (In e (operation_violations info recent) -> In e recent) /\
  (In e (user_violations info recent) -> In e recent) /\
  (In e (expired_uses info recent) -> In e recent) /\
  (In e (revoked_uses info recent) -> In e recent).
Proof.
  unfold operation_violations, user_violations, expired_uses, revoked_uses.
  destruct info as [i|]; [|done]. split_and!; repeat case_match; try done; by intros [? _]%lfilter_In.
Qed.

(** Every alert a detection returns is about the analysed key and about events among those
    analysed, is neither acknowledged nor resolved, and has a confidence score between 0
    and 1 (for a detector of non-negative sensitivity). *)
Theorem alerts_well_formed d key_id recent pattern info w (Hsens : (0 <= sensitivity d)%Q) :
  exists l w', detect_anomalies d key_id recent pattern info w = (Ok l, w') /\
    forall a, In a l -> well_formed key_id recent a.
Proof.
  destruct (Z.ltb_spec (Z.of_nat (length recent)) (min_events_for_detection d)) as [Hlt|Hge].
  { exists [], w. unfold detect_anomalies. by rewrite (proj2 (Z.ltb_lt _ _) Hlt). }
  destruct (detect_spec d key_id recent pattern info Hsens Hge w) as (l & w' & Hrun & Hl).
  exists l, w'. split; [done|]. clear Hrun. pose proof (violations_recent info recent) as Hv.
  destruct Hl as [ (fq & tm & op & pd & us & ip & fl & ex & rv & vs & -> & ? & [? _] & ? & [? _] & ? & [? _] & ? & ? & ? & ?) ].
  intros a Ha. rewrite !in_app_iff in Ha.
  destruct Ha as [|[|[ [|]|[|[|[|[ [|]|] ] ] ] ] ] ]; eauto using at_most_wf.
  all: match goal with Hp : violation_spec _ _ _ _ ?l, Ha : In _ ?l |- _ =>
    apply (violation_wf _ _ _ _ _ _ _ Hp); [|exact Ha] end.
  all: intros e; apply (Hv e).
Qed.

(** The types of the detectors that compare with the learned pattern's sets. *)
Definition deviation_type (ty : AnomalyType) : bool :=
  mem ty [TIME_ANOMALY; PATTERN_DEVIATION; LOCATION_ANOMALY].

Lemma explained_hidden d key_id recent p info w :
  (0 <= sensitivity d)%Q -> explains p recent ->
  exists l w', detect_anomalies d key_id recent (Some p) info w = (Ok l, w') /\
    forall a, In a l -> deviation_type (anomaly_type a) = false.
Proof.
  intros Hsens Hex.
  destruct (Z.ltb_spec (Z.of_nat (length recent)) (min_events_for_detection d)) as [Hlt|Hge].
  { exists [], w. unfold detect_anomalies. by rewrite (proj2 (Z.ltb_lt _ _) Hlt). }
  destruct (detect_spec d key_id recent (Some p) info Hsens Hge w) as (l & w' & Hrun & Hl).
  exists l, w'. split; [done|]. clear Hrun.
  destruct Hl as [ (fq & tm & op & pd & us & ip & fl & ex & rv & vs & -> & Hfq & [_ Htm] & Hop & [_ Hpd] & Hus & [_ Hip] & Hfl & Hxp & Hrv & Hvs) ].
  rewrite (Htm p eq_refl Hex), (Hpd p eq_refl Hex), (Hip p eq_refl Hex).
  intros a Ha. rewrite !in_app_iff in Ha.
  destruct Ha as [Ha|[ []|[ [Ha| []]|[Ha|[ []|[Ha|[ [Ha|Ha]|Ha] ] ] ] ] ] ].
  all: first [rewrite (at_most_types _ _ _ _ _ Hfq Ha) | rewrite (violation_types _ _ _ _ _ _ Hop Ha)
    | rewrite (violation_types _ _ _ _ _ _ Hus Ha) | rewrite (at_most_types _ _ _ _ _ Hfl Ha)
    | rewrite (violation_types _ _ _ _ _ _ Hxp Ha) | rewrite (violation_types _ _ _ _ _ _ Hrv Ha)
    | rewrite (at_most_types _ _ _ _ _ Hvs Ha)]; reflexivity.
Qed.
End detector_theorems.

(** ** Learning explains the learned events *)

Lemma active_hours_In es h : In h (active_hours es) <-> exists e, In e es /\ hour_of e = h.
Proof.
  unfold active_hours. rewrite lfilter_In, existsb_exists. setoid_rewrite Z.eqb_eq. split; [naive_solver|].
  intros (e & He & <-). split; [|eauto]. pose proof (dt_hour_range (timestamp e)) as Hr.
  apply in_map_iff. exists (Z.to_nat (hour_of e)). unfold hour_of. rewrite Z2Nat.id by lia.
  split; [done|]. apply in_seq. lia.
Qed.

Lemma grouped_covers hours h : In h hours -> covered (group_consecutive_hours hours) h.
Proof.
  unfold group_consecutive_hours. pose proof (merge_sort_Permutation Z.le hours) as Hp.
  intros Hh. rewrite <- Hp in Hh. destruct (merge_sort Z.le hours) as [|x l]; [done|].
  apply group_from_covers; [lia|]. destruct Hh as [->|Hh]; [left; lia|by right].
Qed.

Lemma learn_explains key_id es t old recent :
  (forall e, In e recent -> In e es) -> explains (learn key_id es t old) recent.
Proof.
  intros Hin e He. apply Hin in He. unfold learn; simpl. split_and!.
  - assert (Hh : In (hour_of e) (active_hours es)) by (apply active_hours_In; eauto).
    destruct (active_hours es) as [|h hs] eqn:E; [done|]. rewrite <- E in *.
    destruct (grouped_covers _ _ Hh) as (s & u & Hsu & Hle).
    unfold in_normal_range. apply existsb_exists. exists (s, u). split; [done|]. lia.
  - apply mem_true, list_elem_of_In, elem_of_remove_dups, list_elem_of_In. by apply in_map.
  - unfold unusual_ip. destruct (ip_network (source_ip e)) as [n|] eqn:En; [|done].
    apply negb_false_iff, mem_true, list_elem_of_In, elem_of_remove_dups, list_elem_of_omap.
    exists e. split; [by apply list_elem_of_In|done].
Qed.

(** ** The monitor *)

Section monitor_theorems.
Context {W : Type} `{Env W, Sha256}.
Implicit Types (s : monitor W).

(** An operation that keeps events, keys and configuration, and whose new alerts satisfy [P]. *)
Record grows (P : KeyAnomalyAlert -> Prop) s s' : Prop := {
  grows_events : events s' = events s;
  grows_window : learning_window_days s' = learning_window_days s;
  grows_detector : detector s' = detector s;
  grows_keys : keys s' = keys s;
  grows_alerts id a : dget id (alerts s') = Some a -> dget id (alerts s) = Some a \/ P a }.

Lemma grows_refl P s : grows P s s.
Proof. split; auto. Qed.

Lemma grows_trans P s1 s2 s3 : grows P s1 s2 -> grows P s2 s3 -> grows P s1 s3.
Proof.
  intros [? ? ? ? H12] [? ? ? ? H23]. split; [congruence..|].
  intros id a Ha. destruct (H23 _ _ Ha); eauto.
Qed.

Lemma in_env_grows {A} P (m : M W A) s : grows P s (snd (in_env m s)).
Proof. unfold in_env. destruct (m (env s)) as [r w]. split; simpl; auto. Qed.

Lemma bind_grows {A B} P (m : M (monitor W) A) (f : A -> M (monitor W) B) s :
  grows P s (snd (m s)) ->
  (forall a s1, m s = (Ok a, s1) -> grows P s1 (snd (f a s1))) -> grows P s (snd ((m ≫= f) s)).
Proof.
  intros Hm Hf. unfold mbind, M_bind. destruct (m s) as [ [a|e] s1] eqn:E; [|done].
  eapply grows_trans; [exact Hm|]. by apply Hf.
Qed.

Lemma try_grows {A} P (m : M (monitor W) A) h s :
  grows P s (snd (m s)) -> (forall e s1, grows P s1 (snd (h e s1))) ->
  grows P s (snd (try_except m h s)).
Proof.
  intros Hm Hh. unfold try_except. destruct (m s) as [ [a|e] s1]; [done|].
  destruct (catchable e); [|done]. eapply grows_trans; [exact Hm|apply Hh].
Qed.

Lemma notify_grows P cs a s : grows P s (snd (notify cs a s)).
Proof.
  revert s. induction cs as [|c cs IH]; intros s; simpl; [apply grows_refl|].
  apply bind_grows; [|intros; apply IH].
  apply try_grows; [apply in_env_grows|intros; apply grows_refl].
Qed.

Lemma notify_alerts cs a s : alerts (snd (notify cs a s)) = alerts s.
Proof.
  revert s. induction cs as [|c cs IH]; intros s; simpl; [done|].
  unfold mbind, M_bind, try_except, in_env. destruct (c a (env s)) as [ [r|e] w]; [by rewrite IH|].
  destruct (catchable e); [|done]. unfold mret, M_ret. by rewrite IH.
Qed.

Lemma add_alert_grows (P : KeyAnomalyAlert -> Prop) id a s :
  P a -> grows P s (snd (set_alerts (dset id a (alerts s)) s)).
Proof.
  intros Ha. split; simpl; [done..|]. intros id' a'. rewrite dget_dset.
  destruct (String.eqb id id'); naive_solver.
Qed.

Lemma process_grows (P : KeyAnomalyAlert -> Prop) found s :
  (forall a, In a found -> P a) -> grows P s (snd (process_anomalies found s)).
Proof.
  revert s. induction found as [|a found IH]; intros s Hf; simpl; [apply grows_refl|].
  apply (bind_grows P get); [apply grows_refl|]. intros ? ? [= <- <-].
  apply bind_grows; [|intros; apply IH; intros ? ?; apply Hf; by right].
  destruct (dget _ _); [apply grows_refl|].
  apply bind_grows; [|intros; apply notify_grows]. apply add_alert_grows, Hf. by left.
Qed.

(** The pattern in force after an update. *)
Lemma update_pattern_run P key_id es s :
  es <> [] -> exists t s', update_pattern key_id es s = (Ok tt, s') /\ grows P s s' /\
    dget key_id (patterns s') = Some (learn key_id es t (dget key_id (patterns s))).
Proof.
  intros Hne. unfold update_pattern, in_env, now_utc, set_patterns. run_m. destruct es; [done|].
  destruct (datetime_now (env s)) as [t w]. simpl. eexists t, _. split; [reflexivity|]. simpl.
  split; [split; simpl; auto|]. apply dget_dset_eq.
Qed.

Lemma window_subset es key_id t days e :
  1 <= days ->
  In e (get_events_for_key es key_id (Some (t - timedelta_hours 24)) (Some t)) ->
  In e (get_events_for_key es key_id (Some (t - timedelta_days days)) (Some t)).
Proof.
  intros Hd. unfold get_events_for_key. rewrite !lfilter_In. unfold in_window.
  intros [Hin Hw]. split; [done|]. bool_props. apply andb_true_intro.
  rewrite !Z.leb_le. unfold timedelta_hours, timedelta_days, hour, day, second in *. lia.
Qed.

Definition not_deviation (a : KeyAnomalyAlert) : Prop := deviation_type (anomaly_type a) = false.

Lemma analyze_key_grows t key_id s :
  (0 <= sensitivity (detector s))%Q -> 1 <= learning_window_days s ->
  grows not_deviation s (snd (analyze_key t key_id s)).
Proof.
  intros Hsens Hwin. unfold analyze_key. apply (bind_grows _ get); [apply grows_refl|].
  intros ? ? [= <- <-]. set (recent := get_events_for_key _ _ _ _).
  destruct recent as [|e0 es0] eqn:E; [apply grows_refl|]. rewrite <- E.
  set (hist := get_events_for_key _ _ (Some (t - timedelta_days _)) _).
  assert (Hsub : forall e, In e recent -> In e hist) by (intros e; by apply window_subset).
  assert (Hne : hist <> []).
  { specialize (Hsub e0). rewrite E in Hsub. destruct hist; [|done]. by destruct Hsub; left. }
  destruct (update_pattern_run not_deviation key_id hist s Hne) as (now & s1 & Hup & Hg & Hpat).
  unfold mbind at 1, M_bind at 1. rewrite Hup. eapply grows_trans; [exact Hg|].
  apply (bind_grows _ get); [apply grows_refl|]. intros ? ? [= <- <-]. rewrite Hpat.
  apply bind_grows; [apply in_env_grows|]. intros found s2 Hdet. apply process_grows.
  destruct (explained_hidden (detector s1) key_id recent
    (learn key_id hist now (dget key_id (patterns s))) (dget key_id (keys s1)) (env s1))
    as (l & w' & Hl & Htypes); [by rewrite (grows_detector _ _ _ Hg)|by apply learn_explains|].
  unfold in_env in Hdet. rewrite Hl in Hdet. by injection Hdet as <- _.
Qed.

Lemma analyze_keys_grows t ids s :
  (0 <= sensitivity (detector s))%Q -> 1 <= learning_window_days s ->
  grows not_deviation s (snd (analyze_keys t ids s)).
Proof.
  revert s. induction ids as [|id ids IH]; intros s Hsens Hwin; simpl; [apply grows_refl|].
  assert (Hg : grows not_deviation s (snd (try_except (analyze_key t id) (fun _ => mret tt) s)))
    by (apply try_grows; [by apply analyze_key_grows|intros; apply grows_refl]).
  apply bind_grows; [done|]. intros a s1 Hrun. rewrite Hrun in Hg. simpl in Hg.
  apply IH; [by rewrite (grows_detector _ _ _ Hg)|by rewrite (grows_window _ _ _ Hg)].
Qed.

(** The periodic analysis never raises a time, operation-pattern or location deviation. It
    first learns the pattern from a window that contains the very events it then compares with
    it (any window of a day or more), so their hours, operations and networks are always
    "common": every alert of those three types present after the analysis was there before. *)
Theorem analysis_hides_deviations s id a (Hsens : (0 <= sensitivity (detector s))%Q)
    (Hwin : 1 <= learning_window_days s)
    (Ha : dget id (alerts (snd (_run_periodic_analysis s))) = Some a)
    (Hty : deviation_type (anomaly_type a) = true) :
  dget id (alerts s) = Some a.
Proof.
  assert (Hg : grows not_deviation s (snd (_run_periodic_analysis s))).
  { unfold _run_periodic_analysis. apply bind_grows; [apply in_env_grows|]. intros t s1 Ht.
    pose proof (in_env_grows not_deviation now_utc s) as Hg1. rewrite Ht in Hg1. simpl in Hg1.
    apply (bind_grows _ get); [apply grows_refl|]. intros ? ? [= <- <-].
    apply analyze_keys_grows; [by rewrite (grows_detector _ _ _ Hg1)|by rewrite (grows_window _ _ _ Hg1)]. }
  destruct (grows_alerts _ _ _ Hg _ _ Ha) as [|Hn]; [done|].
  unfold not_deviation in Hn. congruence.
Qed.

(** ** Suppression of repeated immediate alerts *)

Definition clock_at (t : Z) : Prop := forall w : W, fst (datetime_now w) = t.

(** An alert of the same key and type whose age is less than an hour beyond whole days. *)
Definition suppresses (t : Z) key_id ty (a : KeyAnomalyAlert) : bool :=
  String.eqb (a_key_id a) key_id && bool_decide (anomaly_type a = ty)
  && ((t - detected_at a) mod day <? hour).

Lemma td_seconds_hour td : (td_seconds td <? 3600) = (td mod day <? hour).
Proof.
  unfold td_seconds. change hour with (3600 * second). apply eq_true_iff_eq. rewrite !Z.ltb_lt.
  assert (0 < second) by done. split; intros Hlt.
  - pose proof (Z.mod_pos_bound (td mod day) second). pose proof (Z.div_mod (td mod day) second). nia.
  - apply Z.div_lt_upper_bound; lia.
Qed.

Lemma recent_alerts_at t key_id ty al w :
  clock_at t -> exists w', recent_alerts key_id ty al w = (Ok (lfilter (suppresses t key_id ty) al), w').
Proof.
  intros Ht. revert w. induction al as [|a al IH]; intros w; simpl; [by exists w|].
  unfold suppresses at 1. destruct (String.eqb _ _ && bool_decide _); simpl; [|apply IH].
  unfold mbind, M_bind, now_utc. specialize (Ht w). destruct (datetime_now w) as [t' w1]; simpl in *.
  subst t'. destruct (IH w1) as (w2 & ->). rewrite td_seconds_hour.
  exists w2. by destruct (_ <? hour).
Qed.

(** An immediate alert is suppressed exactly when some earlier alert of the same key and type
    has an age that exceeds a whole number of days by less than an hour ([timedelta.seconds]
    drops the days). So besides the alerts of the last hour, as intended, an alert raised a day
    (or any number of days) before at this time of day suppresses a new one; otherwise the
    alert is stored under a fresh identifier. *)
Theorem immediate_alert_suppression t key_id ty sev desc es s (Ht : clock_at t) :
  let s' := snd (_create_immediate_alert key_id ty sev desc es s) in
  if existsb (suppresses t key_id ty) (dvalues (alerts s))
  then alerts s' = alerts s
  else exists id a, alerts s' = dset id a (alerts s) /\ reports key_id ty (eq sev) es a /\
         detected_at a = t.
Proof.
  unfold _create_immediate_alert, generate_alert_id, in_env, now_utc. run_m.
  pose proof (Ht (env s)) as Ht1. destruct (datetime_now (env s)) as [t1 w1]; simpl in *. subst t1.
  destruct (recent_alerts_at t key_id ty (dvalues (alerts s)) w1 Ht) as (w2 & Hr).
  rewrite Hr. destruct (lfilter _ (dvalues (alerts s))) as [|a0 al0] eqn:E.
  - assert (existsb (suppresses t key_id ty) (dvalues (alerts s)) = false) as ->.
    { apply not_true_is_false. intros (a & Hin & Ha)%existsb_exists.
      rewrite (proj1 (lfilter_nil _ _) E a Hin) in Ha. done. }
    pose proof (Ht w2) as Ht2. simpl. destruct (datetime_now w2) as [t2 w3]; simpl in *. subst t2.
    eexists _, _. rewrite notify_alerts. split; [reflexivity|]. by repeat split.
  - assert (existsb (suppresses t key_id ty) (dvalues (alerts s)) = true) as ->; [|done].
    apply existsb_exists. exists a0. apply lfilter_In. rewrite E. by left.
Qed.
End monitor_theorems.

(** ** Concrete runs *)

Module Demo.
(** A clock standing at noon of day 100, and identity in place of the digest. *)
Definition noon : Z := timedelta_days 100 + 12 * hour.
#[local] Instance demo_env : Env unit := {
  uuid4 _ := ("", tt); datetime_now _ := (noon, tt) }.
#[local] Instance demo_sha : Sha256 := { sha256_hexdigest s := s }.

Definition demo_event (user : string) (op : KeyOperation) (t : Z) : KeyUsageEvent := {|
  event_id := "e"; timestamp := t; e_key_id := "k"; e_key_type := DSC_KEY; operation := op;
  user_id := user; source_ip := "10.0.0.7"; user_agent := ""; success := true;
  error_message := None; data_size := 0; duration_ms := 0; additional_metadata := [] |}.

Definition demo_info : KeyInfo := {|
  i_key_id := "k"; i_key_type := DSC_KEY; created_at := 0; expires_at := Some (noon - hour);
  is_active := true; is_revoked := false; revoked_at := None; allowed_operations := [SIGN];
  allowed_users := ["alice"]; allowed_ip_ranges := []; max_daily_operations := 1000;
  max_hourly_operations := 100 |}.

Definition demo_detector : AnomalyDetector :=
  {| sensitivity := 8 # 10; min_events_for_detection := 3 |}.

Definition demo_events : list KeyUsageEvent :=
  [demo_event "alice" SIGN (noon - 2 * hour); demo_event "mallory" SIGN (noon - 2 * hour);
   demo_event "alice" SIGN (noon - second)].

Definition demo_monitor (es : list KeyUsageEvent) (al : pydict KeyAnomalyAlert) : monitor unit := {|
  check_interval_minutes := 15; learning_window_days := 30; detector := demo_detector;
  events := es; listeners := []; patterns := []; keys := [("k", demo_info)]; alerts := al;
  callbacks := []; monitoring := false; env := tt |}.

(** An alert of the day before, half an hour earlier in the day. *)
Definition demo_old_alert : KeyAnomalyAlert :=
  new_alert "old" "k" UNAUTHORIZED_ACCESS CRITICAL "" (noon - timedelta_days 1 - hour / 2) [] 1%Q [].

Lemma grouped_hours_exact_witness :
  NoDup [23; 8; 9; 0; 10] /\ separated (group_consecutive_hours [23; 8; 9; 0; 10]).
Proof.
  assert (Hnd : NoDup [23; 8; 9; 0; 10]) by (apply (bool_decide_unpack _); vm_compute; exact I).
  split; [exact Hnd|]. exact (proj2 (grouped_hours_exact [23; 8; 9; 0; 10]) Hnd).
Defined.

Lemma violations_reported_exactly_witness :
  exists l w', detect_anomalies demo_detector "k" demo_events None (Some demo_info) tt = (Ok l, w') /\
    of_type UNAUTHORIZED_ACCESS l = [(CRITICAL, [demo_event "mallory" SIGN (noon - 2 * hour)])] /\
    of_type EXPIRED_KEY_USAGE l = [(CRITICAL, [demo_event "alice" SIGN (noon - second)])].
Proof.
  destruct (violations_reported_exactly demo_detector "k" demo_events None (Some demo_info) tt)
    as (l & w' & Hrun & Hl); [discriminate|].
  exists l, w'. split; [exact Hrun|]. change (3 <? 3) with false in Hl.
  destruct Hl as (_ & -> & -> & _). split; vm_compute; reflexivity.
Defined.

Lemma alerts_well_formed_witness :
  exists l w', detect_anomalies demo_detector "k" demo_events None (Some demo_info) tt = (Ok l, w') /\
    forall a, In a l -> well_formed "k" demo_events a.
Proof. apply alerts_well_formed. discriminate. Defined.

Lemma analysis_hides_deviations_witness :
  let s := demo_monitor (demo_event "alice" EXPORT (noon - 9 * hour) :: demo_events)
             [("old", new_alert "old" "k" TIME_ANOMALY MEDIUM "" 0 [] 1%Q [])] in
  dget "old" (alerts s) = Some (new_alert "old" "k" TIME_ANOMALY MEDIUM "" 0 [] 1%Q []) /\
  (length (alerts (snd (_run_periodic_analysis s))) = 4)%nat.
Proof.
  intros s. split; [|vm_compute; reflexivity].
  apply analysis_hides_deviations; [discriminate|discriminate|vm_compute; reflexivity|reflexivity].
Defined.

Lemma immediate_alert_suppression_witness :
  let s := demo_monitor demo_events [("old", demo_old_alert)] in
  alerts (snd (_create_immediate_alert "k" UNAUTHORIZED_ACCESS CRITICAL "" [] s)) = alerts s.
Proof.
  intros s.
  apply (immediate_alert_suppression noon "k" UNAUTHORIZED_ACCESS CRITICAL "" [] s).
  intros []. reflexivity.
Defined.
End Demo.
