(* ===== verification/IncidentMonitor.v ===== *)
(** * Security incident monitoring ([security/incident_monitor.py])

    [monitor] is the state of a [SecurityMonitor] with its lock, the alerts it
    has handed to its executor and the clock. Methods run in [LM], where taking
    a lock that is held never returns. The alert channels deliver through a
    parameter; the texts of the e-mail are not modelled. *)

From stdpp Require Import sorting.
From S2P Require Import Prelude PyRuntime PyText Locks AccessControl.
Local Open Scope Z_scope.

(** ** Data *)

Inductive IncidentSeverity := LOW | MEDIUM | HIGH | CRITICAL.

Inductive IncidentType :=
| UNAUTHORIZED_ACCESS | BRUTE_FORCE_ATTACK | DATA_BREACH | MALICIOUS_REQUEST
| CERTIFICATE_COMPROMISE | KEY_COMPROMISE | SERVICE_DISRUPTION | CONFIGURATION_TAMPERING
| ANOMALOUS_BEHAVIOR | COMPLIANCE_VIOLATION.

Inductive IncidentStatus :=
| NEW | INVESTIGATING | CONFIRMED | RESPONDING | MITIGATED | RESOLVED | FALSE_POSITIVE.

#[export] Instance IncidentSeverity_eq_dec : EqDecision IncidentSeverity.
Proof. solve_decision. Defined.
#[export] Instance IncidentType_eq_dec : EqDecision IncidentType.
Proof. solve_decision. Defined.
#[export] Instance IncidentStatus_eq_dec : EqDecision IncidentStatus.
Proof. solve_decision. Defined.

Definition severity_value (s : IncidentSeverity) : string :=
  match s with LOW => "low" | MEDIUM => "medium" | HIGH => "high" | CRITICAL => "critical" end.

Definition incident_type_value (t : IncidentType) : string :=
  match t with
  | UNAUTHORIZED_ACCESS => "unauthorized_access" | BRUTE_FORCE_ATTACK => "brute_force_attack"
  | DATA_BREACH => "data_breach" | MALICIOUS_REQUEST => "malicious_request"
  | CERTIFICATE_COMPROMISE => "certificate_compromise" | KEY_COMPROMISE => "key_compromise"
  | SERVICE_DISRUPTION => "service_disruption"
  | CONFIGURATION_TAMPERING => "configuration_tampering"
  | ANOMALOUS_BEHAVIOR => "anomalous_behavior" | COMPLIANCE_VIOLATION => "compliance_violation"
  end.

Definition incident_status_value (s : IncidentStatus) : string :=
  match s with
  | NEW => "new" | INVESTIGATING => "investigating" | CONFIRMED => "confirmed"
  | RESPONDING => "responding" | MITIGATED => "mitigated" | RESOLVED => "resolved"
  | FALSE_POSITIVE => "false_positive"
  end.

Record SecurityIncident := {
  incident_id : string; incident_type : IncidentType; severity : IncidentSeverity;
  title : string; description : string; detected_at : Z; status : IncidentStatus;
  affected_services : list json; affected_users : list json; indicators : pydict pydata;
  response_actions : list string; assigned_to : option string;
  resolution_notes : option string; resolved_at : option Z; false_positive_reason : option string }.

Record SecurityRule := {
  rule_id : string; rule_name : string; rule_description : string;
  condition : AuditLogEntry -> result bool; rule_incident_type : IncidentType;
  rule_severity : IncidentSeverity; cooldown_seconds : Z; last_triggered : option Z }.

Definition set_last_triggered (t : Z) (r : SecurityRule) : SecurityRule := {|
  rule_id := rule_id r; rule_name := rule_name r; rule_description := rule_description r;
  condition := condition r; rule_incident_type := rule_incident_type r;
  rule_severity := rule_severity r; cooldown_seconds := cooldown_seconds r;
  last_triggered := Some t |}.

(** ** Default rules *)

(** ["authentication" in (entry.action or "")] *)
Definition authentication_in (action : json) : result bool :=
  match json_or action "" with
  | JStr s => Ok (contains "authentication" s)
  | JTime t => Ok (contains "authentication" (isoformat t))
  | JList l => Ok (existsb (fun j => jeq_str j "authentication") l)
  | JDict d => Ok (din "authentication" d)
  | _ => Raise (raise_ TypeError "argument is not iterable")
  end.

Definition among (j : json) (values : list string) : bool := existsb (jeq_str j) values.
Definition is_event (ev : AuditEvent) (e : AuditLogEntry) : bool := bool_decide (event_type e = ev).

Definition new_rule (id name desc : string) (cond : AuditLogEntry -> result bool)
    (ty : IncidentType) (sev : IncidentSeverity) (cooldown : Z) : SecurityRule := {|
  rule_id := id; rule_name := name; rule_description := desc; condition := cond;
  rule_incident_type := ty; rule_severity := sev; cooldown_seconds := cooldown;
  last_triggered := None |}.

Definition default_rules : list SecurityRule := [
  new_rule "brute_force_login" "Brute Force Login Detection"
    "Detect multiple failed login attempts from same user/IP"
    (fun e => if is_event USER_LOGIN e && jeq_str (ev_result e) "failure"
              then authentication_in (action e) else Ok false)
    BRUTE_FORCE_ATTACK MEDIUM 600;
  new_rule "unauthorized_access" "Unauthorized Access Detection"
    "Detect permission denied events"
    (fun e => Ok (is_event PERMISSION_DENIED e)) UNAUTHORIZED_ACCESS HIGH 300;
  new_rule "key_compromise" "Key Compromise Detection"
    "Detect suspicious key operations"
    (fun e => Ok (is_event KEY_DELETED e && among (risk_level e) ["high"; "critical"]))
    KEY_COMPROMISE CRITICAL 0;
  new_rule "config_tampering" "Configuration Tampering Detection"
    "Detect unauthorized configuration changes"
    (fun e => Ok (is_event CONFIGURATION_CHANGED e && jeq_str (ev_result e) "success"
                  && among (risk_level e) ["medium"; "high"; "critical"]))
    CONFIGURATION_TAMPERING HIGH 300;
  new_rule "anomaly_detected" "Anomalous Behavior Detection"
    "Detect flagged anomalous behavior"
    (fun e => Ok (is_event ANOMALY_DETECTED e)) ANOMALOUS_BEHAVIOR MEDIUM 600].

(** ** The monitor *)

Section monitor.
Context {W : Type} `{Env W}.

(** [submitted] holds the alerts given to the executor: channel and incident. *)
Record monitor := Monitor {
  rules : pydict SecurityRule; incidents : pydict SecurityIncident;
  alert_channels : list string; is_monitoring : bool; executor_up : bool;
  submitted : list (string * SecurityIncident); locked : bool; env : W }.

#[export] Instance monitor_lock : Lock monitor := {
  held := locked;
  set_held b s := Monitor (rules s) (incidents s) (alert_channels s) (is_monitoring s)
                    (executor_up s) (submitted s) b (env s) }.

#[export] Instance monitor_lock_laws : LockLaws monitor.
Proof. split; intros; by try match goal with s : monitor |- _ => destruct s end. Qed.

Definition set_rules (rs : pydict SecurityRule) (s : monitor) : monitor :=
  Monitor rs (incidents s) (alert_channels s) (is_monitoring s) (executor_up s) (submitted s)
    (locked s) (env s).
Definition set_incidents (ics : pydict SecurityIncident) (s : monitor) : monitor :=
  Monitor (rules s) ics (alert_channels s) (is_monitoring s) (executor_up s) (submitted s)
    (locked s) (env s).
Definition set_env (w : W) (s : monitor) : monitor :=
  Monitor (rules s) (incidents s) (alert_channels s) (is_monitoring s) (executor_up s)
    (submitted s) (locked s) w.
Definition set_monitoring (b up : bool) (s : monitor) : monitor :=
  Monitor (rules s) (incidents s) (alert_channels s) b up (submitted s) (locked s) (env s).

Definition now : LM monitor Z := fun s =>
  let '(t, w) := datetime_now (env s) in (Done (Ok t), set_env w s).

Definition add_rule (r : SecurityRule) : LM monitor unit :=
  with_lock (lmodify (fun s => set_rules (dset (rule_id r) r (rules s)) s)).

Definition remove_rule (id : string) : LM monitor bool :=
  with_lock (s ← lget;
             if din id (rules s)
             then _ ← lmodify (set_rules (dpop id (rules s))); mret true
             else mret false).

Definition add_alert_channel (channel : string) : LM monitor unit :=
  lmodify (fun s => Monitor (rules s) (incidents s) (alert_channels s ++ [channel])
    (is_monitoring s) (executor_up s) (submitted s) (locked s) (env s)).

(** The incident, as created before it is stored. *)
Definition new_incident (r : SecurityRule) (e : AuditLogEntry) (id : string) (t : Z) : SecurityIncident := {|
  incident_id := id; incident_type := rule_incident_type r; severity := rule_severity r;
  title := rule_name r +:+ " - " +:+ event_value (event_type e);
  description := rule_description r +:+ ". Event: " +:+ py_str (json_or (action e) "unknown")
    +:+ " by " +:+ py_str (json_or (ev_username e) "unknown user") +:+ ".";
  detected_at := t; status := NEW;
  affected_services := if json_truthy (service_name e) then [service_name e] else [];
  affected_users := if json_truthy (ev_user_id e) then [ev_user_id e] else [];
  indicators := [
    ("triggering_event_id", DJson (ev_id e)); ("event_type", DJson (JStr (event_value (event_type e))));
    ("user_id", DJson (ev_user_id e)); ("username", DJson (ev_username e)); ("service_name", DJson (service_name e));
    ("ip_address", DJson (ip_address e)); ("risk_level", DJson (risk_level e));
    ("additional_data", additional_data e)];
  response_actions := []; assigned_to := None; resolution_notes := None; resolved_at := None;
  false_positive_reason := None |}.

Definition _create_incident (r : SecurityRule) (e : AuditLogEntry) : LM monitor SecurityIncident :=
  t ← now;
  let id := "INC-" +:+ z_str (Z.quot t second) +:+ "-" +:+ rule_id r in
  t' ← now;
  let incident := new_incident r e id t' in
  _ ← with_lock (lmodify (fun s => set_incidents (dset id incident (incidents s)) s));
  mret incident.

(** The cooldown test of a rule. *)
Definition in_cooldown (r : SecurityRule) : LM monitor bool :=
  match last_triggered r with
  | Some last =>
      if 0 <? cooldown_seconds r
      then t ← now; mret (t - last <? cooldown_seconds r * second)
      else mret false
  | None => mret false
  end.

Definition lift_lm {A} (r : result A) : LM monitor A := fun s => (Done r, s).

(** The body of the loop for one rule: the incident it triggers, if any. *)
Definition evaluate_rule (e : AuditLogEntry) (id : string) : LM monitor (list SecurityIncident) :=
  ltry
    (s ← lget;
     match dget id (rules s) with
     | None => mret []
     | Some r =>
         cooling ← in_cooldown r;
         if (cooling : bool) then mret []
         else
           hit ← lift_lm (condition r e);
           if (hit : bool)
           then
             incident ← _create_incident r e;
             t ← now;
             _ ← lmodify (fun s => set_rules (dset id (set_last_triggered t r) (rules s)) s);
             mret [incident]
           else mret []
     end)
    (fun _ => mret []).

Fixpoint evaluate_rules (e : AuditLogEntry) (ids : list string) : LM monitor (list SecurityIncident) :=
  match ids with
  | [] => mret []
  | id :: ids => found ← evaluate_rule e id; rest ← evaluate_rules e ids; mret (found ++ rest)
  end.

(** [executor.submit] raises once the executor is shut down; the handler logs. *)
Definition submit (incident : SecurityIncident) (channel : string) (s : monitor) : monitor :=
  if executor_up s
  then Monitor (rules s) (incidents s) (alert_channels s) (is_monitoring s) (executor_up s)
         (submitted s ++ [(channel, incident)]) (locked s) (env s)
  else s.

Definition _send_alerts (incident : SecurityIncident) : LM monitor unit :=
  lmodify (fun s => foldl (fun s c => submit incident c s) s (alert_channels s)).

Fixpoint send_all (ics : list SecurityIncident) : LM monitor unit :=
  match ics with
  | [] => mret tt
  | i :: ics => _ ← _send_alerts i; send_all ics
  end.

Definition evaluate_event (e : AuditLogEntry) : LM monitor (list SecurityIncident) :=
  triggered ← with_lock (s ← lget; evaluate_rules e (dkeys (rules s)));
  _ ← send_all triggered;
  mret triggered.

Definition get_incident (id : string) : LM monitor (option SecurityIncident) :=
  with_lock (s ← lget; mret (dget id (incidents s))).

Definition is_closed (st : IncidentStatus) : bool := mem st [RESOLVED; FALSE_POSITIVE].

Definition updated_incident (st : IncidentStatus) (who notes : option string) (closed : option Z)
    (i : SecurityIncident) : SecurityIncident := {|
  incident_id := incident_id i; incident_type := incident_type i; severity := severity i;
  title := title i; description := description i; detected_at := detected_at i; status := st;
  affected_services := affected_services i; affected_users := affected_users i;
  indicators := indicators i; response_actions := response_actions i;
  assigned_to := if str_truthy who then who else assigned_to i;
  resolution_notes := if str_truthy notes then notes else resolution_notes i;
  resolved_at := match closed with Some t => Some t | None => resolved_at i end;
  false_positive_reason := false_positive_reason i |}.

Definition update_incident_status (id : string) (st : IncidentStatus) (who notes : option string) :
    LM monitor bool :=
  with_lock (s ← lget;
    match dget id (incidents s) with
    | None => mret false
    | Some i =>
        closed ← (if is_closed st then t ← now; mret (Some t) else mret None);
        _ ← lmodify (fun s => set_incidents (dset id (updated_incident st who notes closed i) (incidents s)) s);
        mret true
    end).

Definition selected (sev : option IncidentSeverity) (st : option IncidentStatus)
    (ty : option IncidentType) (start_time end_time : option Z) (i : SecurityIncident) : bool :=
  match sev with Some x => bool_decide (severity i = x) | None => true end
  && match st with Some x => bool_decide (status i = x) | None => true end
  && match ty with Some x => bool_decide (incident_type i = x) | None => true end
  && match start_time with Some t => t <=? detected_at i | None => true end
  && match end_time with Some t => detected_at i <=? t | None => true end.

Definition newest_first (a b : SecurityIncident) : Prop := detected_at b <= detected_at a.
#[export] Instance newest_first_dec : RelDecision newest_first.
Proof. intros a b. unfold newest_first. apply _. Defined.

Definition get_incidents (sev : option IncidentSeverity) (st : option IncidentStatus)
    (ty : option IncidentType) (start_time end_time : option Z) : LM monitor (list SecurityIncident) :=
  ics ← with_lock (s ← lget; mret (dvalues (incidents s)));
  mret (merge_sort newest_first (lfilter (selected sev st ty start_time end_time) ics)).

Definition start_monitoring : LM monitor unit :=
  lmodify (fun s => if is_monitoring s then s else set_monitoring true (executor_up s) s).
Definition stop_monitoring : LM monitor unit :=
  lmodify (fun s => if is_monitoring s then set_monitoring false false s else s).

(** [__init__] and [_setup_default_rules] *)
Definition bare_monitor (w : W) : monitor := Monitor [] [] [] false true [] false w.

Fixpoint add_rules (rs : list SecurityRule) : LM monitor unit :=
  match rs with [] => mret tt | r :: rs => _ ← add_rule r; add_rules rs end.

Definition create_security_monitor (w : W) : monitor := snd (add_rules default_rules (bare_monitor w)).
End monitor.
Arguments monitor : clear implicits.

(** ** The alert channels *)

Section channels.
Context {W : Type} (deliver : json -> M W unit).

(** Both channels return [False] when anything in the delivery raises. *)
Definition send_alert (payload : json) : M W bool :=
  try_except (_ ← deliver payload; mret true) (fun _ => mret false).

Definition color (s : IncidentSeverity) : string :=
  match s with LOW => "good" | MEDIUM => "warning" | HIGH | CRITICAL => "danger" end.

(** What the client makes of the indicators, if JSON can write all. *)
Fixpoint written_items (d : pydict pydata) : option (pydict json) :=
  match d with
  | [] => Some []
  | (k, v) :: d => j ← data_written v; js ← written_items d; Some ((k, j) :: js)
  end.

Definition plain_payload (i : SecurityIncident) : option json :=
  js ← written_items (indicators i); Some (JDict [
  ("incident_id", JStr (incident_id i)); ("type", JStr (incident_type_value (incident_type i)));
  ("severity", JStr (severity_value (severity i))); ("title", JStr (title i));
  ("description", JStr (description i)); ("detected_at", JTime (detected_at i));
  ("status", JStr (incident_status_value (status i)));
  ("affected_services", JList (affected_services i)); ("affected_users", JList (affected_users i));
  ("indicators", JDict js)]).

Definition slack_field (t v : json) : json := JDict [("title", t); ("value", v); ("short", JBool true)].

Definition slack_payload (i : SecurityIncident) : json := JDict [("attachments", JList [JDict [
  ("color", JStr (color (severity i)));
  ("title", JStr ("Security Incident: " +:+ title i));
  ("text", JStr (description i));
  ("fields", JList [
    slack_field (JStr "Incident ID") (JStr (incident_id i));
    slack_field (JStr "Type") (JStr (incident_type_value (incident_type i)));
    slack_field (JStr "Severity") (JStr (str_upper (severity_value (severity i))));
    slack_field (JStr "Status") (JStr (incident_status_value (status i)));
    slack_field (JStr "Detected") (JTime (detected_at i))]);
  ("ts", JInt (Z.quot (detected_at i) second))]])].

Definition WebhookAlertChannel_send_alert (webhook_url : string) (i : SecurityIncident) : M W bool :=
  if contains "slack" (str_lower webhook_url) then send_alert (slack_payload i)
  else match plain_payload i with Some payload => send_alert payload | None => mret false end.
End channels.

(** ** What a rule does *)

Section evaluation.
Context {W : Type} `{Env W}.
Implicit Types (s : monitor W).

(** The cooldown test on the clock alone, and the two readings of the clock
    that precede the storing of an incident. *)
Definition cooling (r : SecurityRule) (w : W) : bool * W :=
  match last_triggered r with
  | Some last =>
      if 0 <? cooldown_seconds r
      then let '(t, w) := datetime_now w in (t - last <? cooldown_seconds r * second, w)
      else (false, w)
  | None => (false, w)
  end.

Definition two_readings (w : W) : W := snd (datetime_now (snd (datetime_now w))).

(** Whether some rule that is not cooling down holds of the entry, trying the
    rules in order; a condition that raises is passed over. *)
Fixpoint fires (rs : list SecurityRule) (e : AuditLogEntry) (w : W) : bool * W :=
  match rs with
  | [] => (false, w)
  | r :: rs =>
      let '(cool, w) := cooling r w in
      if cool then fires rs e w
      else match condition r e with
           | Ok true => (true, two_readings w)
           | _ => fires rs e w
           end
  end.

Lemma now_run s : now s = (Done (Ok (fst (datetime_now (env s)))), set_env (snd (datetime_now (env s))) s).
Proof. unfold now. by destruct (datetime_now (env s)). Qed.

Lemma in_cooldown_run r s :
  in_cooldown r s = (Done (Ok (fst (cooling r (env s)))), set_env (snd (cooling r (env s))) s).
Proof.
  unfold in_cooldown, cooling. destruct s, (last_triggered r) as [last|]; [|done].
  destruct (0 <? cooldown_seconds r); [|done].
  unfold mbind, LM_bind. rewrite now_run. simpl. by destruct (datetime_now _).
Qed.

(** Storing the incident takes the lock the caller holds. *)
Lemma create_incident_blocks r e s : locked s = true ->
  _create_incident r e s = (Blocks, set_env (two_readings (env s)) s).
Proof.
  intros Hl. unfold _create_incident, mbind, LM_bind. rewrite now_run. cbn beta iota zeta.
  rewrite now_run. cbn beta iota zeta. rewrite with_lock_held by done. by destruct s.
Qed.

Lemma evaluate_rule_run e id r s : locked s = true -> dget id (rules s) = Some r ->
  evaluate_rule e id s =
  let '(cool, w) := cooling r (env s) in
  if cool then (Done (Ok []), set_env w s)
  else match condition r e with
       | Ok true => (Blocks, set_env (two_readings w) s)
       | Ok false => (Done (Ok []), set_env w s)
       | Raise x => (Done (if catchable x then Ok [] else Raise x), set_env w s)
       end.
Proof.
  intros Hl Hr. unfold evaluate_rule, ltry, mbind, LM_bind, lget, mret, LM_ret. rewrite Hr.
  cbn beta iota. rewrite in_cooldown_run. cbn beta iota.
  destruct (cooling r (env s)) as [cool w]. simpl. destruct cool; [done|].
  unfold lift_lm. destruct (condition r e) as [[]|x]; [|done|by destruct (catchable x)].
  rewrite create_incident_blocks by done. by destruct s.
Qed.

Lemma evaluate_rules_run e ids rs s : locked s = true ->
  Forall2 (fun id r => dget id (rules s) = Some r) ids rs ->
  Forall (fun r => forall x, condition r e = Raise x -> catchable x = true) rs ->
  evaluate_rules e ids s =
  let '(hit, w) := fires rs e (env s) in
  if hit then (Blocks, set_env w s) else (Done (Ok []), set_env w s).
Proof.
  intros Hl Hrs. revert s Hl Hrs. revert rs. induction ids as [|id ids IH]; intros rs s Hl Hrs Ht.
  { apply Forall2_nil_inv_l in Hrs as ->. by destruct s. }
  apply Forall2_cons_inv_l in Hrs as (r & rs' & Hr & Hrs & ->). apply Forall_cons in Ht as [Htr Ht].
  simpl. unfold mbind, LM_bind. rewrite (evaluate_rule_run e id r s Hl Hr).
  destruct (cooling r (env s)) as [cool w].
  assert (Hnext : evaluate_rules e ids (set_env w s) =
    let '(hit, w') := fires rs' e w in
    if hit then (Blocks, set_env w' s) else (Done (Ok []), set_env w' s)).
  { rewrite (IH rs' (set_env w s)) by (by destruct s). simpl.
    destruct (fires rs' e w) as [[] w']; by destruct s. }
  destruct cool; [rewrite Hnext; by destruct (fires rs' e w) as [[] w']|].
  destruct (condition r e) as [[]|x] eqn:Ec; [done|..].
  - rewrite Hnext. by destruct (fires rs' e w) as [[] w'].
  - rewrite (Htr x eq_refl), Hnext. by destruct (fires rs' e w) as [[] w'].
Qed.

(** A monitor either finds no rule that fires and returns nothing, or
    meets one and never returns, still holding its lock: [evaluate_event] holds
    the lock that [_create_incident] takes. *)
Theorem evaluate_event_exact e s :
  locked s = false -> dwf (rules s) ->
  Forall (fun r => forall x, condition r e = Raise x -> catchable x = true) (dvalues (rules s)) ->
  evaluate_event e s =
  let '(hit, w) := fires (dvalues (rules s)) e (env s) in
  if hit then (Blocks, set_held true (set_env w s)) else (Done (Ok []), set_env w s).
Proof.
  intros Hl Hwf Ht. unfold evaluate_event, with_lock, mbind, LM_bind.
  change (held s) with (locked s). rewrite Hl. unfold lget at 1. cbn beta iota.
  rewrite (evaluate_rules_run e _ (dvalues (rules s)) (set_held true s));
    [|done|by apply dwf_entries|done].
  simpl. destruct (fires _ e (env s)) as [[] w]; [by destruct s|].
  destruct s; simpl in *; subst. done.
Qed.
End evaluation.

(** ** Any use of the monitor *)

Section reachability.
Context {W : Type} `{Env W}.
Implicit Types (s : monitor W).

(** The public methods. *)
Inductive call :=
| AddRule (r : SecurityRule)
| RemoveRule (id : string)
| AddAlertChannel (channel : string)
| EvaluateEvent (e : AuditLogEntry)
| GetIncident (id : string)
| UpdateIncidentStatus (id : string) (st : IncidentStatus) (who notes : option string)
| GetIncidents (sev : option IncidentSeverity) (st : option IncidentStatus)
    (ty : option IncidentType) (start_time end_time : option Z)
| StartMonitoring
| StopMonitoring.

Definition drop_result {A} (m : LM (monitor W) A) : LM (monitor W) unit := _ ← m; mret tt.

Definition run_call (c : call) : LM (monitor W) unit :=
  match c with
  | AddRule r => add_rule r
  | RemoveRule id => drop_result (remove_rule id)
  | AddAlertChannel ch => add_alert_channel ch
  | EvaluateEvent e => drop_result (evaluate_event e)
  | GetIncident id => drop_result (get_incident id)
  | UpdateIncidentStatus id st who notes => drop_result (update_incident_status id st who notes)
  | GetIncidents sev st ty t1 t2 => drop_result (get_incidents sev st ty t1 t2)
  | StartMonitoring => start_monitoring
  | StopMonitoring => stop_monitoring
  end.

Definition takes_lock (c : call) : bool :=
  match c with AddAlertChannel _ | StartMonitoring | StopMonitoring => false | _ => true end.

(** Any sequence of calls, from any number of threads; calls that never return
    are the threads that stay behind. *)
Definition run_calls (cs : list call) s : monitor W := foldl (fun s c => snd (run_call c s)) s cs.

(** *** What users of a monitor meet

    Its rules, until an event is evaluated for which the condition of one of them
    holds; from then on nothing that needs the lock. *)
Definition meets := option (pydict SecurityRule).

Definition holds (e : AuditLogEntry) (r : SecurityRule) : bool := match condition r e with Ok b => b | Raise _ => false end.
Definition alarming (e : AuditLogEntry) (rs : pydict SecurityRule) : bool := existsb (holds e) (dvalues rs).

Definition next (a : meets) (c : call) : meets :=
  match a with
  | None => None
  | Some rs =>
      match c with
      | AddRule r => Some (dset (rule_id r) r rs)
      | RemoveRule id => Some (dpop id rs)
      | EvaluateEvent e => if alarming e rs then None else Some rs
      | _ => Some rs
      end
  end.

Definition hangs (a : meets) (c : call) : bool :=
  match a with
  | None => takes_lock c
  | Some rs => match c with EvaluateEvent e => alarming e rs | _ => false end
  end.

(** A rule as it is made, whose condition raises ordinary exceptions at most. *)
Definition new (r : SecurityRule) : Prop := last_triggered r = None /\ forall e x, condition r e = Raise x -> catchable x = true.
Definition adds_new (c : call) : Prop := match c with AddRule r => new r | _ => True end.

Definition in_step s (a : meets) : Prop :=
  incidents s = [] /\ submitted s = [] /\
  match a with
  | None => locked s = true
  | Some rs => locked s = false /\ rules s = rs /\ dwf rs /\ Forall new (dvalues rs)
  end.

Lemma fires_holds rs e w : Forall new rs -> fst (fires rs e w) = existsb (holds e) rs.
Proof.
  intros Hrs. revert w. induction Hrs as [|r rs [Hr _] _ IH]; intros w; [done|]. simpl. unfold cooling. rewrite Hr. unfold holds at 1.
  destruct (condition r e) as [[]|x]; [done|apply IH..].
Qed.

Lemma dvalues_dpop_new id (rs : pydict SecurityRule) : Forall new (dvalues rs) -> Forall new (dvalues (dpop id rs)).
Proof.
  unfold dvalues. rewrite !Forall_forall. intros Hrs r Hr. apply Hrs. rewrite list_elem_of_In in *. apply in_map_iff in Hr as (kv & <- & Hin).
  apply in_map. by apply dpop_In in Hin as [? _].
Qed.

Lemma dvalues_dset_new id r (rs : pydict SecurityRule) : new r -> Forall new (dvalues rs) -> Forall new (dvalues (dset id r rs)).
Proof.
  intros Hr Hrs. rewrite Forall_forall in *. intros r' Hin. rewrite list_elem_of_In in Hin.
  apply dset_values in Hin as [->|Hin]; [done|]. apply Hrs. by rewrite list_elem_of_In.
Qed.

Lemma dpop_absent id (rs : pydict SecurityRule) : din id rs = false -> dpop id rs = rs.
Proof.
  unfold dpop, din. induction rs as [|[k r] rs IH]; [done|]. simpl. destruct (String.eqb id k); [done|]. intros Hd. simpl. by rewrite IH.
Qed.

Lemma held_blocks c s : locked s = true -> takes_lock c = true -> run_call c s = (Blocks, s).
Proof.
  intros Hl Hc. destruct c; simpl in *; try done;
    unfold drop_result, add_rule, remove_rule, evaluate_event, get_incident, update_incident_status,
      get_incidents; unfold mbind, LM_bind; by rewrite with_lock_held.
Qed.

Lemma stuck_call c s : in_step s None ->
  fst (run_call c s) = (if takes_lock c then Blocks else Done (Ok tt)) /\ in_step (snd (run_call c s)) None.
Proof.
  intros (Hi & Hs & Hl). destruct (takes_lock c) eqn:Hc; [by rewrite held_blocks|].
  destruct c; try done; (split; [done|]); destruct s as [? ? ? [] ? ? ? ?]; by simpl in *.
Qed.

Lemma evaluate_call e s rs : in_step s (Some rs) ->
  evaluate_event e s = (if alarming e rs then (Blocks, set_held true (set_env (snd (fires (dvalues rs) e (env s))) s))
                        else (Done (Ok []), set_env (snd (fires (dvalues rs) e (env s))) s)).
Proof.
  intros (_ & _ & Hl & <- & Hwf & Hnew). rewrite evaluate_event_exact; [|done|done|].
  - pose proof (fires_holds _ e (env s) Hnew) as Hf. unfold alarming. destruct (fires _ e (env s)) as [b w]. simpl in Hf. by subst b.
  - eapply Forall_impl; [exact Hnew|]. intros r [_ Hr] x. apply Hr.
Qed.

(** [with_lock] around what neither takes the lock nor fails. *)
Lemma locked_read {A} (f : monitor W -> A) s : locked s = false -> with_lock (s ← lget; mret (f s)) s = (Done (Ok (f (set_held true s))), s).
Proof. intros Hl. destruct s. simpl in Hl. by subst. Qed.

Lemma open_call c s rs : adds_new c -> in_step s (Some rs) ->
  fst (run_call c s) = (if hangs (Some rs) c then Blocks else Done (Ok tt)) /\ in_step (snd (run_call c s)) (next (Some rs) c).
Proof.
  intros Hc Hs. destruct c as [r|id|ch|e|id|id st who notes|sev st ty t1 t2| |]; cbn [run_call hangs next].
  4: { pose proof (evaluate_call e s rs Hs) as He. unfold drop_result, mbind, LM_bind. rewrite He.
       destruct Hs as (Hi & Hsub & Hl & Hr & Hwf & Hn), s. by destruct (alarming e rs). }
  all: destruct Hs as (Hi & Hsub & Hl & Hr & Hwf & Hn), s as [rs' ics chs mon up sub lk w]; simpl in Hi, Hsub, Hl, Hr; subst.
  - split; [done|]. split_and!; [done|done|done|done|by apply dset_wf|by apply dvalues_dset_new].
  - unfold drop_result, remove_rule, with_lock, mbind, LM_bind, lget. simpl. destruct (din id rs) eqn:Hd; simpl.
    + split; [done|]. split_and!; [done|done|done|done|by apply dpop_wf|by apply dvalues_dpop_new].
    + split; [done|]. rewrite dpop_absent by done. by split_and!.
  - split; [done|]. by split_and!.
  - split; [done|]. by split_and!.
  - split; [done|]. by split_and!.
  - split; [done|]. by split_and!.
  - split; [done|]. destruct mon; by split_and!.
  - split; [done|]. destruct mon; by split_and!.
Qed.

Lemma call_in_step c s a : adds_new c -> in_step s a ->
  fst (run_call c s) = (if hangs a c then Blocks else Done (Ok tt)) /\ in_step (snd (run_call c s)) (next a c).
Proof. destruct a as [rs|]; intros Hc Hs; [by apply open_call|by apply stuck_call]. Qed.

Lemma run_calls_in_step cs s a : Forall adds_new cs -> in_step s a -> in_step (run_calls cs s) (foldl next a cs).
Proof.
  intros Hcs. revert s a. induction Hcs as [|c cs Hc _ IH]; intros s a Hs; [done|]. simpl. apply IH. by apply call_in_step.
Qed.

Definition default_meets : meets := Some (map (fun r => (rule_id r, r)) default_rules).

Lemma defaults_in_step (w : W) : in_step (create_security_monitor w) default_meets.
Proof.
  unfold default_meets. split_and!; [done|done|done|done|by apply (bool_decide_unpack _)|].
  simpl. repeat constructor; simpl; intros e x; repeat case_match; try done.
  all: intros Hx; unfold authentication_in in Hx; repeat case_match; by simplify_eq.
Qed.

(** C11: Whatever rules, channels and events a [SecurityMonitor] is given, in whatever
    order, it never holds an incident, never hands out an alert, and no evaluation
    returns an incident. What happens instead is this: its rules are those it has by
    default and those added and not removed, and the first event for which the
    condition of one of them holds makes its caller wait for ever; from then on, and
    not before, so does every call that needs the lock. *)
Theorem monitor_records_nothing (w : W) cs :
  Forall adds_new cs ->
  let s := run_calls cs (create_security_monitor w) in
  let a := foldl next default_meets cs in
  incidents s = [] /\ submitted s = [] /\ (forall rs, a = Some rs -> rules s = rs) /\
  (forall c, adds_new c -> fst (run_call c s) = if hangs a c then Blocks else Done (Ok tt)) /\
  (forall e, fst (evaluate_event e s) = if hangs a (EvaluateEvent e) then Blocks else Done (Ok [])).
Proof.
  intros Hcs s a. pose proof (run_calls_in_step cs _ _ Hcs (defaults_in_step w)) as Hs. fold s in Hs. fold a in Hs.
  split_and!; [apply Hs|apply Hs| | |].
  - intros rs Ha. rewrite Ha in Hs. apply Hs.
  - intros c Hc. by apply call_in_step.
  - intros e. destruct a as [rs|].
    + rewrite (evaluate_call e s rs Hs). simpl. by destruct (alarming e rs).
    + unfold evaluate_event, mbind, LM_bind. destruct Hs as (_ & _ & Hl). by rewrite with_lock_held.
Qed.
End reachability.

(** A denied permission, as [AccessControl] logs it, reaches a new monitor: the
    call never returns, and the next event hangs as well. *)
Definition denied_entry : AuditLogEntry := {|
  ev_id := JStr "e1"; event_type := PERMISSION_DENIED; timestamp := 0; ev_user_id := JStr "u1";
  ev_username := JStr "eve"; service_name := JNull; resource_id := JNull; resource_type := JNull;
  action := JStr "permission_check"; ev_result := JStr "failure"; error_message := JNull;
  ip_address := JNull; user_agent := JNull; additional_data := DJson (JDict []); risk_level := JStr "medium" |}.

Definition demo_script : script := {| script_ids := []; script_clock := 0 |}.

Lemma evaluate_event_exact_witness :
  let s := create_security_monitor demo_script in
  fst (evaluate_event denied_entry s) = Blocks /\
  evaluate_event denied_entry s =
  let '(hit, w) := fires (dvalues (rules s)) denied_entry (env s) in
  if hit then (Blocks, set_held true (set_env w s)) else (Done (Ok []), set_env w s).
Proof.
  split; [vm_compute; reflexivity|].
  apply (evaluate_event_exact denied_entry (create_security_monitor demo_script)).
  - vm_compute. reflexivity.
  - unfold dwf. replace (dkeys _) with (map rule_id default_rules) by (vm_compute; reflexivity).
    repeat (apply NoDup_cons; split; [intros Hin%list_elem_of_In; simpl in Hin; destruct_or!; discriminate|]).
    apply NoDup_nil_2.
  - replace (dvalues _) with default_rules by reflexivity.
    repeat constructor; intros x Hx; vm_compute in Hx; discriminate Hx.
Defined.

(** The denied permission hangs, and so does a reader of incidents after it; before,
    another event does not. *)
Definition login_entry : AuditLogEntry := {|
  ev_id := JStr "e0"; event_type := USER_LOGIN; timestamp := 0; ev_user_id := JStr "u1";
  ev_username := JStr "eve"; service_name := JNull; resource_id := JNull; resource_type := JNull;
  action := JStr "login"; ev_result := JStr "success"; error_message := JNull;
  ip_address := JNull; user_agent := JNull; additional_data := DJson (JDict []); risk_level := JStr "low" |}.

Lemma monitor_records_nothing_witness :
  let s0 := run_calls [EvaluateEvent login_entry] (create_security_monitor demo_script) in
  let s1 := run_calls [EvaluateEvent login_entry; EvaluateEvent denied_entry] (create_security_monitor demo_script) in
  fst (evaluate_event login_entry s0) = Done (Ok []) /\ fst (evaluate_event denied_entry s0) = Blocks /\
  fst (run_call (GetIncident "INC-0-unauthorized_access") s1) = Blocks.
Proof.
  intros s0 s1. assert (Forall adds_new [EvaluateEvent login_entry]) as H0' by (by repeat constructor).
  assert (Forall adds_new [EvaluateEvent login_entry; EvaluateEvent denied_entry]) as H1' by (by repeat constructor).
  destruct (monitor_records_nothing demo_script _ H0') as (_ & _ & _ & _ & He).
  destruct (monitor_records_nothing demo_script _ H1') as (_ & _ & _ & Hc & _).
  split; [exact (He login_entry)|]. split; [exact (He denied_entry)|]. exact (Hc (GetIncident "INC-0-unauthorized_access") I).
Defined.
