(* ===== verification/GracefulDegradation.v ===== *)
(** * Graceful degradation ([resilience/graceful_degradation.py])

    [manager] is a [GracefulDegradationManager] with the provider objects it
    refers to (a provider may serve several features, so the features hold
    identifiers and the objects live in one store) and the environment. A
    primary operation, a health check and a backup service act on the
    environment only; [asyncio.wait_for] is part of the primary operation, which
    is given the time limit and raises [TimeoutError] when it is exceeded.
    Values are [option V], [None] being Python's [None]. *)

From S2P Require Import Prelude PyRuntime PyText.
Local Open Scope Z_scope.

(** ** Levels and configuration *)

Inductive DegradationLevel := NONE | MINIMAL | PARTIAL | SIGNIFICANT | EMERGENCY.

#[export] Instance DegradationLevel_eq_dec : EqDecision DegradationLevel.
Proof. solve_decision. Defined.

Record DegradationConfig := {
  level : DegradationLevel; enabled_features : list string; disabled_features : list string;
  cache_ttl_seconds : Z; timeout_seconds : Q; max_concurrent_requests : Z }.

Definition default_config : DegradationConfig := {|
  level := NONE; enabled_features := []; disabled_features := []; cache_ttl_seconds := 300;
  timeout_seconds := 5; max_concurrent_requests := 100 |}.

Definition nonempty {A} (l : list A) : bool := match l with [] => false | _ => true end.

Definition is_feature_enabled (c : DegradationConfig) (feature : string) : bool :=
  if nonempty (disabled_features c) && mem feature (disabled_features c) then false
  else if nonempty (enabled_features c) then mem feature (enabled_features c)
  else mem (level c) [NONE; MINIMAL].

Definition set_level (l : DegradationLevel) (c : DegradationConfig) : DegradationConfig := {|
  level := l; enabled_features := enabled_features c; disabled_features := disabled_features c;
  cache_ttl_seconds := cache_ttl_seconds c; timeout_seconds := timeout_seconds c;
  max_concurrent_requests := max_concurrent_requests c |}.

Definition EnhancedMartyError := subclass "EnhancedMartyError" Exception_.
Definition TransientError := subclass "TransientError" EnhancedMartyError.

(** ** Cache keys *)

Definition context := pydict json.

(** The text of a scalar value. *)
Definition scalar_text (j : json) : option string :=
  match j with JStr _ | JTime _ | JBool _ | JInt _ => Some (py_str j) | _ => None end.

Definition _generate_cache_key (ctx : context) : string :=
  String.concat "|" (omap (fun key =>
    match dget key ctx with
    | Some v => match scalar_text v with Some t => Some (key +:+ ":" +:+ t) | None => None end
    | None => None
    end) (py_sorted (dkeys ctx))).

(** ** Providers *)

Section degradation.
Context {V W : Type} `{World W}.
(** The backup service a provider object calls. *)
Context (backup_service_call : string -> context -> M W (option V)).

Inductive provider :=
| CachedResponseProvider (cache : pydict (option V * Q)) (cache_ttl : Z)
| DefaultValueProvider (default_value : option V)
| BackupServiceProvider (available : bool).

Record manager := Manager {
  current_level : DegradationLevel; config : DegradationConfig;
  fallback_providers : pydict (list string); feature_health : pydict bool;
  objects : pydict provider; env : W }.

Definition set_env (w : W) (s : manager) : manager :=
  Manager (current_level s) (config s) (fallback_providers s) (feature_health s) (objects s) w.
Definition set_objects (o : pydict provider) (s : manager) : manager :=
  Manager (current_level s) (config s) (fallback_providers s) (feature_health s) o (env s).
Definition set_health (h : pydict bool) (s : manager) : manager :=
  Manager (current_level s) (config s) (fallback_providers s) h (objects s) (env s).

(** A computation of the environment. *)
Definition on_env {A} (m : M W A) : M manager A := fun s =>
  let '(r, w) := m (env s) in (r, set_env w s).

Definition time : M manager Q := on_env (fun w => let '(t, w) := time_time w in (Ok t, w)).

Definition fresh_entry (t : Q) (ttl : Z) (stamp : Q) : bool := Qltb (t - stamp) (inject_Z ttl).

(** [provider.is_available()]. The cache asks the clock even when it is empty. *)
Definition is_available (id : string) : M manager bool :=
  s ← get;
  match dget id (objects s) with
  | Some (CachedResponseProvider cache ttl) =>
      t ← time; mret (existsb (fun vt => fresh_entry t ttl (snd vt)) (dvalues cache))
  | Some (DefaultValueProvider _) => mret true
  | Some (BackupServiceProvider available) => mret available
  | None => mret false
  end.

(** [provider.get_fallback(context)] *)
Definition get_fallback (id : string) (ctx : context) : M manager (option V) :=
  s ← get;
  match dget id (objects s) with
  | Some (CachedResponseProvider cache ttl) =>
      match dget (_generate_cache_key ctx) cache with
      | Some (v, stamp) => t ← time; mret (if fresh_entry t ttl stamp then v else None)
      | None => mret None
      end
  | Some (DefaultValueProvider v) => mret v
  | Some (BackupServiceProvider _) =>
      try_except (on_env (backup_service_call id ctx))
        (fun e => _ ← modify (fun s => set_objects (dset id (BackupServiceProvider false) (objects s)) s);
                  raise e)
  | None => mret None
  end.

Definition cache_response (id : string) (ctx : context) (response : option V) : M manager unit :=
  s ← get;
  match dget id (objects s) with
  | Some (CachedResponseProvider cache ttl) =>
      t ← time;
      modify (fun s => set_objects (dset id (CachedResponseProvider
        (dset (_generate_cache_key ctx) (response, t) cache) ttl) (objects s)) s)
  | _ => mret tt
  end.

(** ** The manager *)

Definition set_degradation_level (l : DegradationLevel) : M manager unit :=
  modify (fun s => Manager l (set_level l (config s)) (fallback_providers s) (feature_health s)
    (objects s) (env s)).

Definition add_fallback_provider (feature id : string) : M manager unit :=
  modify (fun s => Manager (current_level s) (config s)
    (dset feature (default [] (dget feature (fallback_providers s)) ++ [id]) (fallback_providers s))
    (feature_health s) (objects s) (env s)).

Definition set_feature_health (feature : string) (healthy : bool) : M manager unit :=
  modify (fun s => set_health (dset feature healthy (feature_health s)) s).

Definition no_fallback (feature : string) : exn :=
  raise_ TransientError ("[TRANSIENT_ERROR] Feature '" +:+ feature +:+ "' unavailable and no fallback configured").

Fixpoint try_providers (ids : list string) (feature : string) (ctx : context) : M manager (option V) :=
  match ids with
  | [] => raise (no_fallback feature)
  | id :: ids =>
      available ← is_available id;
      if (available : bool)
      then
        answer ← try_except (get_fallback id ctx) (fun _ => mret None);
        match answer with
        | Some v => mret (Some v)
        | None => try_providers ids feature ctx
        end
      else try_providers ids feature ctx
  end.

Definition _get_fallback_response (feature : string) (ctx : context) : M manager (option V) :=
  s ← get;
  try_providers (default [] (dget feature (fallback_providers s))) feature ctx.

Definition is_cache (s : manager) (id : string) : bool :=
  match dget id (objects s) with Some (CachedResponseProvider _ _) => true | _ => false end.

(** Only the first cache of the feature is filled. *)
Definition _cache_successful_response (feature : string) (ctx : context) (response : option V) : M manager unit :=
  s ← get;
  match List.find (is_cache s) (default [] (dget feature (fallback_providers s))) with
  | Some id => cache_response id ctx response
  | None => mret tt
  end.

Definition healthy (s : manager) (feature : string) : bool :=
  default true (dget feature (feature_health s)).

(** Both [except] clauses of the code do the same. *)
Definition execute_with_fallback (feature : string) (primary_operation : Q -> M W (option V))
    (ctx : context) : M manager (option V) :=
  s ← get;
  if negb (is_feature_enabled (config s) feature) then _get_fallback_response feature ctx
  else if negb (healthy s feature) then _get_fallback_response feature ctx
  else
    try_except
      (result ← on_env (primary_operation (timeout_seconds (config s)));
       _ ← _cache_successful_response feature ctx result;
       mret result)
      (fun _ => _ ← set_feature_health feature false; _get_fallback_response feature ctx).

(** The wrapper of [with_graceful_degradation] with a manager: [args] and
    [kwargs] are those of the call, [func] the decorated function applied to
    them, [fresh] the identifier of the provider object it may create. *)
Definition with_graceful_degradation (feature : string) (fallback_value : option V) (fresh : string)
    (func : list json -> pydict json -> Q -> M W (option V)) (args : list json) (kwargs : pydict json) :
    M manager (option V) :=
  s ← get;
  _ ← (match fallback_value with
       | Some v =>
           if negb (din feature (fallback_providers s))
           then _ ← modify (fun s => set_objects (dset fresh (DefaultValueProvider (Some v)) (objects s)) s);
                add_fallback_provider feature fresh
           else mret tt
       | None => mret tt
       end);
  execute_with_fallback feature (func args kwargs) [("args", JList args); ("kwargs", JDict kwargs)].

(** [GracefulDegradationManager()] *)
Definition new_manager (w : W) : manager := Manager NONE default_config [] [] [] w.

(** Without a manager, every call makes a new one. *)
Definition without_manager (feature : string) (fallback_value : option V) (fresh : string)
    (func : list json -> pydict json -> Q -> M W (option V)) (args : list json) (kwargs : pydict json) :
    M W (option V) := fun w =>
  let '(r, s) := with_graceful_degradation feature fallback_value fresh func args kwargs (new_manager w) in
  (r, env s).

(** ** Feature toggles *)

Record FeatureToggle := {
  toggle_name : string; default_enabled : bool; has_manager : bool;
  _force_enabled : option bool; _force_disabled : option bool }.

Definition truthy (b : option bool) : bool := match b with Some true => true | _ => false end.

Definition is_enabled (t : FeatureToggle) (s : manager) : bool :=
  if truthy (_force_disabled t) then false
  else if truthy (_force_enabled t) then true
  else if has_manager t then is_feature_enabled (config s) (toggle_name t)
  else default_enabled t.

Definition set_force (en dis : option bool) (t : FeatureToggle) : FeatureToggle := {|
  toggle_name := toggle_name t; default_enabled := default_enabled t; has_manager := has_manager t;
  _force_enabled := en; _force_disabled := dis |}.
Definition force_enable := set_force (Some true) (Some false).
Definition force_disable := set_force (Some false) (Some true).
Definition reset := set_force None None.

(** ** Health-based monitoring *)

Definition target_level (health_ratio : Q) : DegradationLevel :=
  if Qle_bool (9 # 10) health_ratio then NONE
  else if Qle_bool (7 # 10) health_ratio then MINIMAL
  else if Qle_bool (5 # 10) health_ratio then PARTIAL
  else if Qle_bool (3 # 10) health_ratio then SIGNIFICANT
  else EMERGENCY.

(** The number of checks that return [True]; one that raises is not healthy. *)
Fixpoint count_healthy (checks : list (M W bool)) : M manager Z :=
  match checks with
  | [] => mret 0
  | c :: checks =>
      ok ← try_except (on_env c) (fun _ => mret false);
      n ← count_healthy checks;
      mret ((if (ok : bool) then 1 else 0) + n)
  end.

Definition ratio (n : Z) (total : nat) : Q := (inject_Z n / inject_Z (Z.of_nat total))%Q.

Definition _perform_health_checks (checks : list (M W bool)) : M manager unit :=
  match checks with
  | [] => mret tt
  | _ =>
      n ← count_healthy checks;
      s ← get;
      let target := target_level (ratio n (length checks)) in
      if bool_decide (target = current_level s) then mret tt else set_degradation_level target
  end.

(** One turn of [start_monitoring]'s loop, without its sleep. *)
Definition monitoring_turn (checks : list (M W bool)) : M manager unit :=
  try_except (_perform_health_checks checks) (fun _ => mret tt).
End degradation.
Arguments manager : clear implicits.
Arguments provider : clear implicits.

(** ** Outcomes *)

Section outcomes.
Context {V W : Type} `{World W}.
Context (backup_service_call : string -> context -> M W (option V)).
Local Abbreviation _get_fallback_response := (_get_fallback_response backup_service_call).
Local Abbreviation execute_with_fallback := (execute_with_fallback backup_service_call).
Implicit Types (s : manager V W).

Lemma time_run s : time s = (Ok (fst (time_time (env s))), set_env (snd (time_time (env s))) s).
Proof. unfold time, on_env. by destruct (time_time (env s)). Qed.

(** Filling the cache neither fails nor changes anything but caches and the clock. *)
Lemma cache_response_ok id ctx v s : exists o w,
  cache_response id ctx v s = (Ok tt, set_objects o (set_env w s)).
Proof.
  unfold cache_response, mbind, M_bind, get. cbn beta iota.
  destruct (dget id (objects s)) as [[cache ttl|d|b]|] eqn:E.
  1: { rewrite time_run. cbn beta iota. by do 2 eexists. }
  all: exists (objects s), (env s); by destruct s.
Qed.

Lemma cache_successful_ok feature ctx v s : exists o w,
  _cache_successful_response feature ctx v s = (Ok tt, set_objects o (set_env w s)).
Proof.
  unfold _cache_successful_response, mbind, M_bind, get. cbn beta iota.
  destruct (List.find _ _) as [id|]; [apply cache_response_ok|].
  exists (objects s), (env s). by destruct s.
Qed.

Lemma execute_run feature primary ctx s :
  execute_with_fallback feature primary ctx s =
  if is_feature_enabled (config s) feature && healthy s feature
  then match primary (timeout_seconds (config s)) (env s) with
       | (Ok v, w) => (Ok v, snd (_cache_successful_response feature ctx v (set_env w s)))
       | (Raise e, w) =>
           if catchable e
           then _get_fallback_response feature ctx (set_health (dset feature false (feature_health s)) (set_env w s))
           else (Raise e, set_env w s)
       end
  else _get_fallback_response feature ctx s.
Proof.
  unfold GracefulDegradation.execute_with_fallback, mbind, M_bind, get. cbn beta iota.
  destruct (is_feature_enabled (config s) feature); simpl; [|done].
  destruct (healthy s feature); simpl; [|done].
  unfold try_except, on_env. destruct (primary _ (env s)) as [[v|e] w]; [|by destruct (catchable e)].
  by destruct (cache_successful_ok feature ctx v (set_env w s)) as (o & w' & ->).
Qed.

(** *** What is promised of a call *)

Definition tick s : manager V W := set_env (snd (time_time (env s))) s.
Definition fresh_at (t stamp : Q) (ttl : Z) : Prop := (t - stamp < inject_Z ttl)%Q.

(** What a provider has for a context, [None] being nothing: a cache whose entries are
    all too old is not asked; a backup service that fails is not asked again. *)
Inductive consults (ctx : context) (id : string) s : result (option V) -> manager V W -> Prop :=
| consults_nothing : dget id (objects s) = None -> consults ctx id s (Ok None) s
| consults_old cache ttl : dget id (objects s) = Some (CachedResponseProvider cache ttl) ->
    (forall k v stamp, In (k, (v, stamp)) cache -> ~ fresh_at (fst (time_time (env s))) stamp ttl) -> consults ctx id s (Ok None) (tick s)
| consults_other cache ttl k v stamp : dget id (objects s) = Some (CachedResponseProvider cache ttl) ->
    In (k, (v, stamp)) cache -> fresh_at (fst (time_time (env s))) stamp ttl ->
    dget (_generate_cache_key ctx) cache = None -> consults ctx id s (Ok None) (tick s)
| consults_entry cache ttl k v stamp answer stamp' : dget id (objects s) = Some (CachedResponseProvider cache ttl) ->
    In (k, (v, stamp)) cache -> fresh_at (fst (time_time (env s))) stamp ttl ->
    dget (_generate_cache_key ctx) cache = Some (answer, stamp') -> fresh_at (fst (time_time (env (tick s)))) stamp' ttl ->
    consults ctx id s (Ok answer) (tick (tick s))
| consults_old_entry cache ttl k v stamp answer stamp' : dget id (objects s) = Some (CachedResponseProvider cache ttl) ->
    In (k, (v, stamp)) cache -> fresh_at (fst (time_time (env s))) stamp ttl ->
    dget (_generate_cache_key ctx) cache = Some (answer, stamp') -> ~ fresh_at (fst (time_time (env (tick s)))) stamp' ttl ->
    consults ctx id s (Ok None) (tick (tick s))
| consults_default v : dget id (objects s) = Some (DefaultValueProvider v) -> consults ctx id s (Ok v) s
| consults_down : dget id (objects s) = Some (BackupServiceProvider false) -> consults ctx id s (Ok None) s
| consults_backup v w : dget id (objects s) = Some (BackupServiceProvider true) ->
    backup_service_call id ctx (env s) = (Ok v, w) -> consults ctx id s (Ok v) (set_env w s)
| consults_failing e w : dget id (objects s) = Some (BackupServiceProvider true) ->
    backup_service_call id ctx (env s) = (Raise e, w) -> catchable e = true ->
    consults ctx id s (Ok None) (set_objects (dset id (BackupServiceProvider false) (objects s)) (set_env w s))
| consults_cancelled e w : dget id (objects s) = Some (BackupServiceProvider true) ->
    backup_service_call id ctx (env s) = (Raise e, w) -> catchable e = false -> consults ctx id s (Raise e) (set_env w s).

(** The first provider that has something, in the order in which they were added. *)
Inductive falls_back (feature : string) (ctx : context) : list string -> manager V W -> result (option V) -> manager V W -> Prop :=
| falls_back_none s : falls_back feature ctx [] s (Raise (no_fallback feature)) s
| falls_back_answer id ids s v s' : consults ctx id s (Ok (Some v)) s' -> falls_back feature ctx (id :: ids) s (Ok (Some v)) s'
| falls_back_next id ids s s1 r s' : consults ctx id s (Ok None) s1 -> falls_back feature ctx ids s1 r s' -> falls_back feature ctx (id :: ids) s r s'
| falls_back_cancelled id ids s e s' : consults ctx id s (Raise e) s' -> falls_back feature ctx (id :: ids) s (Raise e) s'.

Definition providers_of (feature : string) s : list string := match dget feature (fallback_providers s) with Some ids => ids | None => [] end.
Definition no_cache s (id : string) : Prop := forall cache ttl, dget id (objects s) <> Some (CachedResponseProvider cache ttl).

(** The answer is kept in the first cache of the feature, with the time; all else stays. *)
Inductive keeps (feature : string) (ctx : context) (v : option V) s : manager V W -> Prop :=
| keeps_nowhere : Forall (no_cache s) (providers_of feature s) -> keeps feature ctx v s s
| keeps_in_first pre id post cache ttl :
    providers_of feature s = pre ++ id :: post -> Forall (no_cache s) pre ->
    dget id (objects s) = Some (CachedResponseProvider cache ttl) ->
    keeps feature ctx v s
      (set_objects (dset id (CachedResponseProvider (dset (_generate_cache_key ctx) (v, fst (time_time (env s))) cache) ttl) (objects s)) (tick s)).

(** A feature that is not switched off, and switched on or left to the level. *)
Definition switched_on (feature : string) (c : DegradationConfig) : Prop :=
  ~ In feature (disabled_features c) /\
  (In feature (enabled_features c) \/ enabled_features c = [] /\ (level c = NONE \/ level c = MINIMAL)).

Lemma enabled_switched_on feature c : is_feature_enabled c feature = true <-> switched_on feature c.
Proof.
  unfold is_feature_enabled, switched_on. destruct (mem feature (disabled_features c)) eqn:Hd.
  - pose proof Hd as Hin. apply mem_true in Hin. destruct (disabled_features c); [done|]. simpl. split; [done|]. by intros [? _].
  - apply mem_false in Hd. rewrite andb_false_r. destruct (enabled_features c) as [|f fs] eqn:He; simpl.
    + rewrite mem_true. simpl. destruct (level c); split; intros Hx; try done; naive_solver.
    + rewrite mem_true. split; [by intros Hx; split; [|left]|]. intros [_ [Hx|[Hx _]]]; done.
Qed.

Lemma fresh_entry_at t ttl stamp : fresh_entry t ttl stamp = true <-> fresh_at t stamp ttl.
Proof. apply Qltb_lt. Qed.

Lemma some_fresh t ttl (cache : pydict (option V * Q)) : existsb (fun vt => fresh_entry t ttl (snd vt)) (dvalues cache) = true <->
  exists k v stamp, In (k, (v, stamp)) cache /\ fresh_at t stamp ttl.
Proof.
  rewrite existsb_exists. unfold dvalues. split.
  - intros (vt & Hin & Hf). apply in_map_iff in Hin as ([k [v stamp]] & <- & Hin). exists k, v, stamp. split; [done|]. by apply fresh_entry_at.
  - intros (k & v & stamp & Hin & Hf). exists (v, stamp). split; [by apply (in_map snd) in Hin|]. by apply fresh_entry_at.
Qed.

(** Asking whether a provider is available, and then what it has. *)
Lemma provider_consults ctx id s : exists r s', consults ctx id s r s' /\
  (available ← is_available id;
   if (available : bool) then try_except (get_fallback backup_service_call id ctx) (fun _ => mret None) else mret None) s = (r, s').
Proof.
  unfold is_available, get_fallback, mbind, M_bind, get. cbn beta iota. destruct (dget id (objects s)) as [[cache ttl|v|[]]|] eqn:E.
  - rewrite time_run. cbn beta iota. change (set_env (snd (time_time (env s))) s) with (tick s).
    destruct (existsb _ _) eqn:Hf; cbn beta iota; unfold mret at 1, M_ret at 1; cbn beta iota.
    + apply some_fresh in Hf as (k & v & stamp & Hin & Hfr). unfold try_except. cbn beta iota. change (objects (tick s)) with (objects s). rewrite E. cbn beta iota.
      destruct (dget (_generate_cache_key ctx) cache) as [[answer stamp']|] eqn:Hk.
      * rewrite time_run. cbn beta iota. change (set_env (snd (time_time (env (tick s)))) (tick s)) with (tick (tick s)).
        destruct (fresh_entry _ ttl stamp') eqn:Hs'.
        -- do 2 eexists. split; [eapply consults_entry; [done|done|done|done|by apply fresh_entry_at]|done].
        -- do 2 eexists. split; [eapply consults_old_entry; [done|done|done|done|]|done]. intros Hx%fresh_entry_at. congruence.
      * do 2 eexists. split; [by eapply consults_other|done].
    + do 2 eexists. split; [eapply consults_old; [done|]|done]. intros k v stamp Hin Hfr.
      assert (existsb (fun vt : option V * Q => fresh_entry (fst (time_time (env s))) ttl (snd vt)) (dvalues cache) = true); [|congruence].
      apply some_fresh. by exists k, v, stamp.
  - cbn beta iota. unfold mret, M_ret, try_except. rewrite E. do 2 eexists. split; [by apply consults_default|done].
  - unfold mret, M_ret. cbn beta iota. unfold try_except at 1. rewrite E. cbn beta iota. unfold try_except, on_env.
    destruct (backup_service_call id ctx (env s)) as [[v|e] w] eqn:Hb; [do 2 eexists; split; [by eapply consults_backup|done]|].
    destruct (catchable e) eqn:Hc; cbn beta iota.
    + unfold modify, raise. cbn beta iota. rewrite Hc. do 2 eexists. split; [by eapply consults_failing|done].
    + rewrite Hc. do 2 eexists. split; [by eapply consults_cancelled|done].
  - do 2 eexists. split; [by apply consults_down|done].
  - do 2 eexists. split; [by apply consults_nothing|done].
Qed.

Lemma try_falls_back ids feature ctx : forall s, exists r s', falls_back feature ctx ids s r s' /\ try_providers backup_service_call ids feature ctx s = (r, s').
Proof.
  induction ids as [|id ids IH]; intros s; [by exists (Raise (no_fallback feature)), s; split; [constructor|]|].
  destruct (provider_consults ctx id s) as (r & s1 & Hc & Hrun).
  assert (try_providers backup_service_call (id :: ids) feature ctx s =
    match r with Ok (Some v) => (Ok (Some v), s1) | Ok None => try_providers backup_service_call ids feature ctx s1 | Raise e => (Raise e, s1) end) as ->.
  { cbn [try_providers]. unfold mbind, M_bind in *. destruct (is_available id s) as [[[]|e] s0]; cbn beta iota in *.
    - rewrite Hrun. by destruct r as [[v|]|e].
    - unfold mret, M_ret in Hrun. by injection Hrun as <- <-.
    - by injection Hrun as <- <-. }
  destruct r as [[v|]|e].
  - exists (Ok (Some v)), s1. split; [by apply falls_back_answer|done].
  - destruct (IH s1) as (r & s' & Hf & ->). exists r, s'. split; [by eapply falls_back_next|done].
  - exists (Raise e), s1. split; [by apply falls_back_cancelled|done].
Qed.

Lemma is_cache_spec s id : is_cache s id = false -> no_cache s id.
Proof. unfold is_cache, no_cache. intros Hi cache ttl Hd. by rewrite Hd in Hi. Qed.

Lemma find_split {A} (p : A -> bool) l x : List.find p l = Some x ->
  exists pre post, l = pre ++ x :: post /\ p x = true /\ Forall (fun y => p y = false) pre.
Proof.
  induction l as [|y l IH]; [done|]. simpl. destruct (p y) eqn:Hy.
  - intros [= <-]. by exists [], l.
  - intros Hf. destruct (IH Hf) as (pre & post & -> & Hx & Hpre). exists (y :: pre), post. split; [done|]. split; [done|]. by constructor.
Qed.

Lemma cache_keeps feature ctx v s : exists s', keeps feature ctx v s s' /\ _cache_successful_response feature ctx v s = (Ok tt, s').
Proof.
  unfold _cache_successful_response, mbind, M_bind, get. cbn beta iota. change (default [] (dget feature (fallback_providers s))) with (providers_of feature s).
  destruct (List.find (is_cache s) (providers_of feature s)) as [id|] eqn:Hf.
  - apply find_split in Hf as (pre & post & Hp & Hid & Hpre). unfold is_cache in Hid.
    destruct (dget id (objects s)) as [[cache ttl|d|b]|] eqn:E; try done.
    eexists. split; [eapply keeps_in_first; [done| |done]; eapply Forall_impl; [exact Hpre|]; intros y; apply is_cache_spec|].
    unfold cache_response, mbind, M_bind, get. cbn beta iota. rewrite E, time_run. done.
  - exists s. split; [|done]. apply keeps_nowhere. apply Forall_forall. intros y Hy. apply is_cache_spec.
    apply (find_none _ _ Hf). by apply list_elem_of_In.
Qed.

(** C15: The primary operation is called, once, exactly when the feature is switched on
    and not marked as unhealthy. Its result is the caller's, and is kept in the first
    cache of the feature, under the key of the context and with the time; an exception
    marks the feature as unhealthy and is replaced by what the first provider has that
    has anything, asked in the order in which they were added, or by the
    [TransientError] that names the feature; a cancellation is passed on. *)
Theorem execute_outcome feature primary ctx s :
  (switched_on feature (config s) /\ dget feature (feature_health s) <> Some false ->
   match primary (timeout_seconds (config s)) (env s) with
   | (Ok v, w) => exists s', execute_with_fallback feature primary ctx s = (Ok v, s') /\ keeps feature ctx v (set_env w s) s'
   | (Raise e, w) =>
       if catchable e
       then exists r s', execute_with_fallback feature primary ctx s = (r, s') /\
              falls_back feature ctx (providers_of feature s) (set_health (dset feature false (feature_health s)) (set_env w s)) r s'
       else execute_with_fallback feature primary ctx s = (Raise e, set_env w s)
   end) /\
  (~ (switched_on feature (config s) /\ dget feature (feature_health s) <> Some false) ->
   exists r s', execute_with_fallback feature primary ctx s = (r, s') /\ falls_back feature ctx (providers_of feature s) s r s').
Proof.
  assert (is_feature_enabled (config s) feature && healthy s feature = true <->
    switched_on feature (config s) /\ dget feature (feature_health s) <> Some false) as Hruns.
  { rewrite andb_true_iff, enabled_switched_on. unfold healthy. destruct (dget feature (feature_health s)) as [[]|]; naive_solver. }
  rewrite execute_run. destruct (is_feature_enabled (config s) feature && healthy s feature); split; intros Hr.
  - destruct (primary _ (env s)) as [[v|e] w].
    + destruct (cache_keeps feature ctx v (set_env w s)) as (s' & Hk & ->). by exists s'.
    + destruct (catchable e); [|done].
      destruct (try_falls_back (providers_of feature s) feature ctx (set_health (dset feature false (feature_health s)) (set_env w s))) as (r & s' & Hf & Hrun).
      exists r, s'. by split.
  - destruct Hr. by apply Hruns.
  - by apply Hruns in Hr.
  - destruct (try_falls_back (providers_of feature s) feature ctx s) as (r & s' & Hf & Hrun). exists r, s'. by split.
Qed.
End outcomes.

(** ** A failed feature is not tried again *)

Section unhealthy.
Context {V W : Type} `{World W}.
Context (backup_service_call : string -> context -> M W (option V)).
Implicit Types (s : manager V W).

(** Everything the manager and its monitor can be asked to do. *)
Inductive call :=
| Execute (feature : string) (primary : Q -> M W (option V)) (ctx : context)
| Decorated (feature : string) (fallback_value : option V) (fresh : string)
    (func : list json -> pydict json -> Q -> M W (option V)) (args : list json) (kwargs : pydict json)
| SetLevel (l : DegradationLevel)
| AddProvider (feature id : string)
| SetHealth (feature : string) (healthy : bool)
| MonitoringTurn (checks : list (M W bool)).

Definition run_call (c : call) s : manager V W :=
  match c with
  | Execute f p ctx => snd (execute_with_fallback backup_service_call f p ctx s)
  | Decorated f v fresh func args kwargs =>
      snd (with_graceful_degradation backup_service_call f v fresh func args kwargs s)
  | SetLevel l => snd (set_degradation_level l s)
  | AddProvider f id => snd (add_fallback_provider f id s)
  | SetHealth f b => snd (set_feature_health f b s)
  | MonitoringTurn checks => snd (monitoring_turn checks s)
  end.

Definition run_calls (cs : list call) s : manager V W := foldl (fun s c => run_call c s) s cs.

(** The call does not declare the feature healthy. *)
Definition no_recovery (feature : string) (c : call) : Prop := c <> SetHealth feature true.

Context (feature : string).

Definition unhealthy s : Prop := dget feature (feature_health s) = Some false.

Lemma unhealthy_same s s' : feature_health s' = feature_health s -> unhealthy s -> unhealthy s'.
Proof. unfold unhealthy. by intros ->. Qed.

Lemma on_env_unhealthy {A} (m : M W A) : preserves unhealthy (on_env m).
Proof. intros s Hs. unfold on_env. destruct (m (env s)) as [r w]. by destruct s. Qed.

Lemma get_unhealthy : preserves unhealthy get.
Proof. by intros s. Qed.

Lemma modify_unhealthy (f : manager V W -> manager V W) :
  (forall s, feature_health (f s) = feature_health s) -> preserves unhealthy (modify f).
Proof. intros Hf s Hs. apply (unhealthy_same s); [apply Hf|done]. Qed.

Lemma set_health_unhealthy f b : (f = feature -> b = false) -> preserves unhealthy (set_feature_health f b).
Proof.
  intros Hb s Hs. unfold unhealthy. simpl. rewrite dget_dset.
  destruct (String.eqb_spec f feature); [by rewrite Hb|done].
Qed.

Ltac unhealthy_steps :=
  repeat first
    [ apply preserves_ret | apply preserves_raise | apply get_unhealthy | apply on_env_unhealthy
    | apply modify_unhealthy; intros []; reflexivity
    | apply preserves_bind; [|intros ?] | apply preserves_try_except; [|intros ?]
    | progress cbv beta zeta | case_match ].

Lemma try_providers_unhealthy ids f ctx : preserves unhealthy (try_providers backup_service_call ids f ctx).
Proof.
  induction ids as [|id ids IH]; simpl; unfold is_available, get_fallback, time; unhealthy_steps; apply IH.
Qed.

Lemma fallback_unhealthy f ctx : preserves unhealthy (_get_fallback_response backup_service_call f ctx).
Proof. intros s Hs. by apply try_providers_unhealthy. Qed.

Lemma execute_unhealthy f p ctx : preserves unhealthy (execute_with_fallback backup_service_call f p ctx).
Proof.
  intros s Hs. rewrite execute_run. destruct (_ && _) eqn:Eh; [|by apply fallback_unhealthy].
  destruct (p _ (env s)) as [[v|e] w].
  - destruct (cache_successful_ok f ctx v (set_env w s)) as (o & w' & ->). by destruct s.
  - destruct (catchable e); [|by destruct s]. apply fallback_unhealthy.
    unfold unhealthy. simpl. rewrite dget_dset. by destruct (String.eqb f feature).
Qed.

Lemma count_unhealthy checks : preserves unhealthy (count_healthy (V:=V) checks).
Proof. induction checks as [|c checks IH]; simpl; unhealthy_steps; apply IH. Qed.

Lemma run_call_unhealthy c s : no_recovery feature c -> unhealthy s -> unhealthy (run_call c s).
Proof.
  intros Hc Hs. destruct c as [f p ctx|f v fresh func args kwargs|l|f id|f b|checks]; simpl.
  - by apply execute_unhealthy.
  - assert (Hp : preserves unhealthy (with_graceful_degradation backup_service_call f v fresh func args kwargs)).
    { unfold with_graceful_degradation, add_fallback_provider.
      apply preserves_bind; [apply get_unhealthy|intros s0].
      apply preserves_bind; [unhealthy_steps|intros _; apply execute_unhealthy]. }
    by apply Hp.
  - done.
  - done.
  - apply (set_health_unhealthy f b); [|done]. intros ->. destruct b; [|done]. by destruct Hc.
  - assert (Hp : preserves unhealthy (monitoring_turn (V:=V) checks)); [|by apply Hp].
    unfold monitoring_turn, _perform_health_checks. destruct checks as [|c checks]; [unhealthy_steps|].
    apply preserves_try_except; [|intros; unhealthy_steps].
    apply preserves_bind; [apply count_unhealthy|intros n]. unfold set_degradation_level. unhealthy_steps.
Qed.

Lemma run_calls_unhealthy cs s : Forall (no_recovery feature) cs -> unhealthy s -> unhealthy (run_calls cs s).
Proof.
  intros Hcs. revert s. induction Hcs as [|c cs Hc _ IH]; intros s Hs; simpl; [done|].
  apply IH. by apply run_call_unhealthy.
Qed.

(** After one failure or timeout of its primary operation, a feature is
    served by fallbacks for good: whatever is executed, added, monitored or set
    later, as long as nobody declares the feature healthy, no primary operation
    of the feature is called again. Nothing in the module declares it. *)
Theorem failed_feature_never_retried primary ctx e w s cs :
  is_feature_enabled (config s) feature && healthy s feature = true ->
  primary (timeout_seconds (config s)) (env s) = (Raise e, w) -> catchable e = true ->
  Forall (no_recovery feature) cs ->
  let s' := run_calls cs (snd (execute_with_fallback backup_service_call feature primary ctx s)) in
  forall primary' ctx',
    execute_with_fallback backup_service_call feature primary' ctx' s' =
    _get_fallback_response backup_service_call feature ctx' s'.
Proof.
  intros Hon Hp He Hcs s' primary' ctx'. assert (Hs : unhealthy s').
  { apply run_calls_unhealthy; [done|]. rewrite execute_run, Hon, Hp, He.
    apply fallback_unhealthy. unfold unhealthy. simpl. apply dget_dset_eq. }
  rewrite execute_run. unfold healthy. rewrite Hs. simpl. by rewrite andb_false_r.
Qed.
End unhealthy.

(** ** Decorated calls share a cache entry *)

Section shared_cache.
Context {V W : Type} `{World W}.
Context (backup_service_call : string -> context -> M W (option V)).

Lemma decorated_key args kwargs :
  _generate_cache_key [("args", JList args); ("kwargs", JDict kwargs)] = "".
Proof. reflexivity. Qed.

(** The only provider of a feature, a cache, is filled by a success ... *)
Lemma fill_cache feature id cache ttl ctx v (s : manager V W) :
  dget feature (fallback_providers s) = Some [id] ->
  dget id (objects s) = Some (CachedResponseProvider cache ttl) ->
  _cache_successful_response feature ctx v s =
    (Ok tt, set_objects (dset id (CachedResponseProvider
       (dset (_generate_cache_key ctx) (v, fst (time_time (env s))) cache) ttl) (objects s))
       (set_env (snd (time_time (env s))) s)).
Proof.
  intros Hf Hid. unfold _cache_successful_response, mbind, M_bind, get. cbn beta iota.
  rewrite Hf. simpl. unfold is_cache. rewrite Hid.
  unfold cache_response, mbind, M_bind, get. cbn beta iota. rewrite Hid, time_run. by destruct s.
Qed.

(** ... and serves the fallback while the entry is fresh. *)
Lemma cached_fallback feature id cache ttl ctx v stamp (s : manager V W) :
  dget feature (fallback_providers s) = Some [id] ->
  dget id (objects s) = Some (CachedResponseProvider cache ttl) ->
  dget (_generate_cache_key ctx) cache = Some (Some v, stamp) ->
  (forall w, fresh_entry (fst (time_time w)) ttl stamp = true) ->
  fst (_get_fallback_response backup_service_call feature ctx s) = Ok (Some v).
Proof.
  intros Hf Hid Hv Hfresh. unfold _get_fallback_response, mbind, M_bind, get. cbn beta iota.
  rewrite Hf.
  change (default [] (Some [id])) with [id]. cbn [try_providers]. unfold mbind, M_bind.
  assert (Hav : is_available id s = (Ok true, set_env (snd (time_time (env s))) s)).
  { unfold is_available, mbind, M_bind, get. cbn beta iota. rewrite Hid, time_run. cbn beta iota.
    unfold mret, M_ret. f_equal. f_equal. apply existsb_exists. exists (Some v, stamp).
    split; [by eapply dget_dvalues|apply Hfresh]. }
  rewrite Hav. cbn beta iota. unfold try_except.
  set (s1 := set_env _ s). assert (Hid1 : dget id (objects s1) = Some (CachedResponseProvider cache ttl)) by done.
  unfold get_fallback, mbind, M_bind, get. cbn beta iota.
  rewrite Hid1, Hv, time_run. cbn beta iota. unfold mret, M_ret. by rewrite Hfresh.
Qed.

(** The positional and keyword arguments of a decorated function are no
    scalars, so they are no part of the cache key: when a call fails, it is
    answered with the response to the latest successful call, whatever
    the arguments of the two. *)
Theorem decorated_calls_share_cache feature fresh id cache ttl
    (func : list json -> pydict json -> Q -> M W (option V)) args kwargs args' kwargs'
    (s : manager V W) v w e :
  is_feature_enabled (config s) feature && healthy s feature = true ->
  dget feature (fallback_providers s) = Some [id] ->
  dget id (objects s) = Some (CachedResponseProvider cache ttl) ->
  (forall w w', (fst (time_time w') - fst (time_time w) < inject_Z ttl)%Q) ->
  func args kwargs (timeout_seconds (config s)) (env s) = (Ok (Some v), w) ->
  (forall w', exists w'', func args' kwargs' (timeout_seconds (config s)) w' = (Raise e, w'')) ->
  catchable e = true ->
  let decorated := with_graceful_degradation backup_service_call feature None fresh func in
  fst ((_ ← decorated args kwargs; decorated args' kwargs') s) = Ok (Some v).
Proof.
  intros Hon Hf Hid Hclock Hok Hfail He decorated. unfold mbind at 1, M_bind at 1.
  assert (Hrun : forall a k s', decorated a k s' = execute_with_fallback backup_service_call feature
    (func a k) [("args", JList a); ("kwargs", JDict k)] s') by done.
  rewrite !Hrun, execute_run, Hon, Hok.
  rewrite (fill_cache feature id cache ttl) by done. cbn [snd]. cbv beta iota. rewrite Hrun, execute_run.
  match goal with |- context [healthy ?x feature] => set (s1 := x) end.
  assert (Hon1 : is_feature_enabled (config s1) feature && healthy s1 feature = true) by exact Hon.
  rewrite Hon1. change (config s1) with (config s). destruct (Hfail (env s1)) as (w2 & ->). rewrite He.
  eapply cached_fallback; [exact Hf|by apply dget_dset_eq|apply dget_dset_eq|].
  intros w'. apply Qltb_lt, Hclock.
Qed.
End shared_cache.

(** ** The level follows the checks *)

Section levels.
Context {V W : Type} `{World W}.

(** The number of checks that return [True], and the environment after them,
    unless one is cancelled. *)
Fixpoint healthy_checks (checks : list (M W bool)) (w : W) : option (Z * W) :=
  match checks with
  | [] => Some (0, w)
  | c :: checks =>
      match c w with
      | (Ok b, w) => '(n, w) ← healthy_checks checks w; Some ((if (b : bool) then 1 else 0) + n, w)
      | (Raise e, w) => if catchable e then healthy_checks checks w else None
      end
  end.

Lemma count_healthy_run checks (s : manager V W) n w : healthy_checks checks (env s) = Some (n, w) ->
  count_healthy checks s = (Ok n, set_env w s).
Proof.
  revert s n. induction checks as [|c checks IH]; intros s n; simpl.
  { intros [= <- <-]. by destruct s. }
  unfold mbind at 2 3, M_bind, try_except, on_env.
  destruct (c (env s)) as [[b|e] w1] eqn:Ec; simpl.
  - destruct (healthy_checks checks w1) as [[n' w']|] eqn:Eh; simpl; [|done]. intros [= <- <-].
    unfold mret, M_ret. by rewrite (IH (set_env w1 s) n' Eh).
  - destruct (catchable e); [|done]. intros Eh. unfold mret, M_ret. by rewrite (IH (set_env w1 s) n Eh).
Qed.

Lemma target_level_cases r :
  (9 # 10 <= r /\ target_level r = NONE \/
   7 # 10 <= r < 9 # 10 /\ target_level r = MINIMAL \/
   5 # 10 <= r < 7 # 10 /\ target_level r = PARTIAL \/
   3 # 10 <= r < 5 # 10 /\ target_level r = SIGNIFICANT \/
   r < 3 # 10 /\ target_level r = EMERGENCY)%Q.
Proof.
  unfold target_level. repeat split_if; q_cases; naive_solver lra.
Qed.

Definition level_rank (l : DegradationLevel) : Z :=
  match l with NONE => 0 | MINIMAL => 1 | PARTIAL => 2 | SIGNIFICANT => 3 | EMERGENCY => 4 end.

Lemma target_level_mono r r' : (r <= r')%Q -> level_rank (target_level r') <= level_rank (target_level r).
Proof.
  intros Hle. destruct (target_level_cases r) as [[? ->]|[[? ->]|[[? ->]|[[? ->]|[? ->]]]]];
    destruct (target_level_cases r') as [[? ->]|[[? ->]|[[? ->]|[[? ->]|[? ->]]]]]; simpl; lia || lra.
Qed.

(** One turn of the monitor puts the manager and its configuration at
    the level of the share of checks that return [True], a check that raises
    counting as failed, and changes nothing else; with more healthy checks the
    level is no worse. Without checks nothing changes. *)
Theorem monitoring_turn_level checks (s : manager V W) n w :
  healthy_checks checks (env s) = Some (n, w) -> level (config s) = current_level s ->
  let l := match checks with [] => current_level s | _ => target_level (ratio n (length checks)) end in
  monitoring_turn checks s =
    (Ok tt, Manager l (set_level l (config s)) (fallback_providers s) (feature_health s) (objects s) w) /\
  forall n', n <= n' ->
    level_rank (target_level (ratio n' (length checks))) <= level_rank (target_level (ratio n (length checks))).
Proof.
  intros Hn Hl l. split.
  - assert (Hsame : set_level (current_level s) (config s) = config s) by (rewrite <- Hl; by destruct (config s)).
    unfold monitoring_turn, try_except, _perform_health_checks. destruct checks as [|c checks].
    { simpl in Hn. injection Hn as <- <-. unfold l. rewrite Hsame. by destruct s. }
    unfold mbind, M_bind. rewrite (count_healthy_run _ _ _ _ Hn). unfold get. cbn beta iota zeta.
    fold l. destruct (bool_decide_reflect (l = current_level (set_env w s))) as [->|Hne]; simpl.
    + rewrite Hsame. by destruct s.
    + by destruct s.
  - intros n' Hle. apply target_level_mono. unfold ratio, Qdiv. apply Qmult_le_compat_r.
    + by rewrite <- Zle_Qle.
    + apply Qinv_le_0_compat. change 0%Q with (inject_Z 0). rewrite <- Zle_Qle. lia.
Qed.
End levels.

(** ** Concrete runs *)

Module Demo.

(** A clock that stands still. *)
#[local] Instance still : World unit := {
  time_time w := (0%Q, w); sleep _ w := w; randbelow n w := (0, w) }.

Definition no_backup (id : string) (ctx : context) : M unit (option string) := fun w => (Ok None, w).
Definition works (v : string) : Q -> M unit (option string) := fun _ w => (Ok (Some v), w).
Definition fails : Q -> M unit (option string) := fun _ w => (Raise (raise_ TimeoutError ""), w).

Definition m0 : manager string unit := new_manager tt.

Lemma failed_feature_never_retried_witness :
  let s' := run_calls no_backup [SetLevel PARTIAL; AddProvider "pdf" "p"; SetLevel NONE]
              (snd (execute_with_fallback no_backup "pdf" fails [] m0)) in
  execute_with_fallback no_backup "pdf" (works "ok") [] s' = _get_fallback_response no_backup "pdf" [] s'.
Proof.
  apply (failed_feature_never_retried no_backup "pdf" fails [] (raise_ TimeoutError "") tt m0).
  - reflexivity.
  - reflexivity.
  - reflexivity.
  - repeat constructor; discriminate.
Defined.

Definition m1 : manager string unit :=
  Manager NONE default_config [("pdf", ["c"])] [] [("c", CachedResponseProvider [] 300)] tt.

(** The first call succeeds, the second, with other arguments, fails. *)
Definition render (args : list json) (kwargs : pydict json) : Q -> M unit (option string) :=
  if bool_decide (length args = 1%nat) then works "for one" else fails.

Lemma decorated_calls_share_cache_witness :
  let decorated := with_graceful_degradation no_backup "pdf" None "fresh" render in
  fst ((_ ← decorated [JInt 1] []; decorated [JInt 1; JInt 2] []) m1) = Ok (Some "for one").
Proof.
  apply (decorated_calls_share_cache no_backup "pdf" "fresh" "c" [] 300 render [JInt 1] []
    [JInt 1; JInt 2] [] m1 "for one" tt (raise_ TimeoutError "")); try reflexivity.
  - intros w'. exists w'. reflexivity.
Defined.

Lemma monitoring_turn_level_witness :
  let checks := [(fun w => (Ok true, w)); (fun w => (Raise (raise_ ValueError ""), w)); (fun w => (Ok true, w))] in
  let l := target_level (ratio 2 3) in
  l = PARTIAL /\
  monitoring_turn checks m0 = (Ok tt, Manager l (set_level l (config m0)) [] [] [] tt) /\
  forall n', 2 <= n' -> level_rank (target_level (ratio n' 3)) <= level_rank (target_level (ratio 2 3)).
Proof.
  intros checks l. split; [vm_compute; reflexivity|].
  apply (monitoring_turn_level checks m0 2 tt); reflexivity.
Defined.
End Demo.
