(* ===== verification/HealthMonitor.v ===== *)
(** * Health monitoring ([monitoring/health_monitor.py])

    The standard health checks, the metrics collector with its bounded series,
    the alert manager, and the [HealthMonitor] that runs them. psutil, the
    database connector and the HTTP client are parameters. The checks of one
    turn run in a pool but act on the environment only, so they run in the order
    in which their results are awaited; [late] tells which result does not
    arrive within the 30 seconds allowed. *)

From stdpp Require Import gmap.
From S2P Require Import Prelude PyRuntime PyText PyNumbers JsonText.
Local Open Scope Z_scope.

Inductive HealthStatus := HEALTHY | DEGRADED | UNHEALTHY | UNKNOWN.
Inductive AlertSeverity := INFO | WARNING | ERROR | CRITICAL.

#[export] Instance HealthStatus_eq_dec : EqDecision HealthStatus.
Proof. solve_decision. Defined.
#[export] Instance AlertSeverity_eq_dec : EqDecision AlertSeverity.
Proof. solve_decision. Defined.

Definition status_value (s : HealthStatus) : string :=
  match s with
  | HEALTHY => "healthy" | DEGRADED => "degraded" | UNHEALTHY => "unhealthy" | UNKNOWN => "unknown"
  end.

(** A value among the details of a result. *)
Inductive detail := DText (s : string) | DNumber (x : Q).

Record HealthCheckResult := {
  r_name : string; r_status : HealthStatus; r_message : string; r_details : pydict detail;
  r_duration_ms : Q; r_timestamp : Q }.

Record Metric := {
  m_name : string; m_value : Q; m_labels : pydict string; m_timestamp : Q; m_unit : string }.

Record Alert := {
  a_id : string; a_severity : AlertSeverity; a_title : string; a_message : string;
  a_service_name : string; a_metric_name : string; a_threshold_value : Q;
  a_current_value : Q; a_timestamp : Q; a_acknowledged : bool }.

Definition acknowledge (a : Alert) : Alert := {|
  a_id := a_id a; a_severity := a_severity a; a_title := a_title a; a_message := a_message a;
  a_service_name := a_service_name a; a_metric_name := a_metric_name a;
  a_threshold_value := a_threshold_value a; a_current_value := a_current_value a;
  a_timestamp := a_timestamp a; a_acknowledged := true |}.

(** ** psutil and texts of floats *)

Record virtual_memory_info := { vm_percent : Q; vm_used : Q; vm_available : Q }.
Record disk_usage_info := { du_percent : Q; du_used : Q; du_free : Q }.

Class PsUtil (W : Type) := {
  cpu_percent : Q -> M W Q;
  virtual_memory : M W virtual_memory_info;
  disk_usage : string -> M W disk_usage_info }.

(** [str] of a float. *)
Class FloatText := { float_text : Q -> string }.

(** ** The checks *)

Section checks.
Context {W : Type} `{World W, PsUtil W, FloatText}.

Definition now : M W Q := fun w => let '(t, w) := time_time w in (Ok t, w).

(** A result, stamped with the time of its creation. *)
Definition new_result (name : string) (st : HealthStatus) (msg : string) (details : pydict detail)
    (duration : Q) : M W HealthCheckResult :=
  t ← now;
  mret {| r_name := name; r_status := st; r_message := msg; r_details := details;
          r_duration_ms := duration; r_timestamp := t |}.

Definition elapsed_ms (start : Q) : M W Q := t ← now; mret ((t - start) * 1000)%Q.

(** [DatabaseHealthCheck.check], for the query [SELECT 1]. *)
Definition database_check (execute : M W unit) (name : string) : M W HealthCheckResult :=
  start_time ← now;
  try_except
    (_ ← execute;
     duration ← elapsed_ms start_time;
     new_result name HEALTHY "Database connection successful"
       [("response_time_ms", DNumber duration)] duration)
    (fun e =>
     duration ← elapsed_ms start_time;
     new_result name UNHEALTHY ("Database connection failed: " +:+ exn_message e)
       [("error", DText (exn_message e))] duration).

(** [ServiceHealthCheck.check]; [get] is the GET request for [/health] with
    the check's timeout and gives the status code. *)
Definition service_check (get : M W Z) (name : string) (expected_status : Z) : M W HealthCheckResult :=
  start_time ← now;
  try_except
    (code ← get;
     duration ← elapsed_ms start_time;
     if code =? expected_status
     then new_result name HEALTHY ("Service " +:+ name +:+ " is healthy")
            [("status_code", DNumber (inject_Z code)); ("response_time_ms", DNumber duration)] duration
     else new_result name DEGRADED ("Service returned unexpected status: " +:+ z_str code)
            [("status_code", DNumber (inject_Z code))] duration)
    (fun e =>
     duration ← elapsed_ms start_time;
     new_result name UNHEALTHY ("Service " +:+ name +:+ " unreachable: " +:+ exn_message e)
       [("error", DText (exn_message e))] duration).

(** One of the three tests of [ResourceHealthCheck.check]: a later test
    overwrites the status an earlier one has set. *)
Definition threshold (what : string) (elevated : Q) (x : Q) (acc : HealthStatus * list string) :
    HealthStatus * list string :=
  if Qltb 90 x then (UNHEALTHY, snd acc ++ ["High " +:+ what +:+ " usage: " +:+ float_text x +:+ "%"])
  else if Qltb elevated x then (DEGRADED, snd acc ++ ["Elevated " +:+ what +:+ " usage: " +:+ float_text x +:+ "%"])
  else acc.

Definition resource_status (cpu memory disk : Q) : HealthStatus * list string :=
  threshold "disk" 80 disk (threshold "memory" 75 memory (threshold "CPU" 75 cpu (HEALTHY, []))).

Definition resource_check (name : string) : M W HealthCheckResult :=
  start_time ← now;
  try_except
    (cpu ← cpu_percent (1 # 10);
     memory ← virtual_memory;
     disk ← disk_usage "/";
     duration ← elapsed_ms start_time;
     let '(st, messages) := resource_status cpu (vm_percent memory) (du_percent disk) in
     let message := match messages with [] => "All resources within normal limits" | _ => join "; " messages end in
     new_result name st message
       [("cpu_percent", DNumber cpu); ("memory_percent", DNumber (vm_percent memory));
        ("memory_available_gb", DNumber (vm_available memory / inject_Z (1024 * 1024 * 1024)));
        ("disk_percent", DNumber (du_percent disk));
        ("disk_free_gb", DNumber (du_free disk / inject_Z (1024 * 1024 * 1024)))] duration)
    (fun e =>
     duration ← elapsed_ms start_time;
     new_result name UNKNOWN ("Failed to check resources: " +:+ exn_message e)
       [("error", DText (exn_message e))] duration).
End checks.

(** ** The metrics collector *)

Record MetricsCollector := { max_datapoints : nat; series : pydict (list Metric) }.

Definition metric_key (name : string) (labels : pydict string) : string :=
  name +:+ ":" +:+ json_labels labels.

(** [deque(maxlen=n).append(x)] *)
Definition deque_append {A} (n : nat) (l : list A) (x : A) : list A :=
  let l' := l ++ [x] in drop (length l' - n) l'.

Definition record_metric (m : Metric) (c : MetricsCollector) : MetricsCollector :=
  let key := metric_key (m_name m) (m_labels m) in
  {| max_datapoints := max_datapoints c;
     series := dset key (deque_append (max_datapoints c) (default [] (dget key (series c))) m) (series c) |}.

(** [since] is used when it is neither [None] nor zero. *)
Definition since_filter (since : option Q) (ms : list Metric) : list Metric :=
  match since with
  | Some s => if Qeq_bool s 0 then ms else lfilter (fun m => Qle_bool s (m_timestamp m)) ms
  | None => ms
  end.

Definition get_metric_history (name : string) (labels : pydict string) (since : option Q)
    (c : MetricsCollector) : list Metric :=
  since_filter since (default [] (dget (metric_key name labels) (series c))).

Definition get_current_value (name : string) (labels : pydict string) (c : MetricsCollector) : option Q :=
  option_map m_value (List.last (map Some (get_metric_history name labels None c)) None).

Record metric_statistics := {
  count : Z; ms_min : Q; ms_max : Q; ms_mean : Q; ms_median : Q; ms_stddev : Q }.

(** [None] for the empty dictionary. *)
Definition get_statistics (name : string) (labels : pydict string) (since : option Q)
    (c : MetricsCollector) : option metric_statistics :=
  match map m_value (get_metric_history name labels since c) with
  | [] => None
  | values => Some {|
      count := Z.of_nat (length values); ms_min := minQ values; ms_max := maxQ values;
      ms_mean := meanQ values; ms_median := medianQ values;
      ms_stddev := if (1 <? length values)%nat then stdevQ values else 0%Q |}
  end.

(** ** The monitor *)

Section monitor.
Context {W : Type} `{World W, PsUtil W, FloatText}.

Record HealthCheck := { check_name : string; check : M W HealthCheckResult }.

(** Whether the result of the check of that name arrives too late. *)
Context (late : string -> W -> bool).

Record monitor := Monitor {
  service_name : string; health_checks : list HealthCheck; collector : MetricsCollector;
  alerts : pydict Alert; alert_handlers : list (Alert -> M W unit);
  running : bool; check_interval : Q; executor_up : bool; env : W }.

Definition set_env (w : W) (s : monitor) : monitor :=
  Monitor (service_name s) (health_checks s) (collector s) (alerts s) (alert_handlers s) (running s)
    (check_interval s) (executor_up s) w.
Definition set_collector (c : MetricsCollector) (s : monitor) : monitor :=
  Monitor (service_name s) (health_checks s) c (alerts s) (alert_handlers s) (running s)
    (check_interval s) (executor_up s) (env s).
Definition set_alerts (a : pydict Alert) (s : monitor) : monitor :=
  Monitor (service_name s) (health_checks s) (collector s) a (alert_handlers s) (running s)
    (check_interval s) (executor_up s) (env s).

Definition on_env {A} (m : M W A) : M monitor A := fun s =>
  let '(r, w) := m (env s) in (r, set_env w s).

(** *** [AlertManager] *)

Definition add_alert_handler (h : Alert -> M W unit) : M monitor unit :=
  modify (fun s => Monitor (service_name s) (health_checks s) (collector s) (alerts s)
    (alert_handlers s ++ [h]) (running s) (check_interval s) (executor_up s) (env s)).

Fixpoint notify (hs : list (Alert -> M W unit)) (a : Alert) : M monitor unit :=
  match hs with
  | [] => mret tt
  | h :: hs => _ ← try_except (on_env (h a)) (fun _ => mret tt); notify hs a
  end.

Definition acknowledged_in (id : string) (s : monitor) : bool :=
  match dget id (alerts s) with Some a => a_acknowledged a | None => false end.

Definition raise_alert (a : Alert) : M monitor unit :=
  s ← get;
  if acknowledged_in (a_id a) s then mret tt
  else
    _ ← modify (fun s => set_alerts (dset (a_id a) a (alerts s)) s);
    notify (alert_handlers s) a.

Definition acknowledge_alert (id : string) : M monitor bool :=
  s ← get;
  match dget id (alerts s) with
  | Some a => _ ← modify (fun s => set_alerts (dset id (acknowledge a) (alerts s)) s); mret true
  | None => mret false
  end.

Definition get_active_alerts (s : monitor) : list Alert :=
  lfilter (fun a => negb (a_acknowledged a)) (dvalues (alerts s)).

(** The default age is a day, 86400 seconds. *)
Definition clear_old_alerts (max_age_seconds : Q) : M monitor unit :=
  t ← on_env now;
  modify (fun s => set_alerts (List.filter (fun ka =>
    negb (Qltb (a_timestamp (snd ka)) (t - max_age_seconds) && a_acknowledged (snd ka))) (alerts s)) s).

(** *** [HealthMonitor] *)

Definition add_health_check (c : HealthCheck) : M monitor unit :=
  modify (fun s => Monitor (service_name s) (health_checks s ++ [c]) (collector s) (alerts s)
    (alert_handlers s) (running s) (check_interval s) (executor_up s) (env s)).

(** [start] and [stop], without the thread. *)
Definition start (interval : Q) : M monitor unit :=
  modify (fun s => Monitor (service_name s) (health_checks s) (collector s) (alerts s)
    (alert_handlers s) true interval (executor_up s) (env s)).
Definition stop : M monitor unit :=
  modify (fun s => Monitor (service_name s) (health_checks s) (collector s) (alerts s)
    (alert_handlers s) false (check_interval s) false (env s)).

(** [record_metric(Metric(name=..., value=..., labels=...))] *)
Definition record_now (name : string) (value : Q) (labels : pydict string) : M monitor unit :=
  t ← on_env now;
  modify (fun s => set_collector (record_metric
    {| m_name := name; m_value := value; m_labels := labels; m_timestamp := t; m_unit := "" |}
    (collector s)) s).

Definition _run_single_check (c : HealthCheck) : M W HealthCheckResult :=
  try_except (check c)
    (fun e => new_result (check_name c) UNKNOWN ("Health check exception: " +:+ exn_message e)
       [("error", DText (exn_message e))] 0).

(** The result of one future and its metrics; a late result is logged. *)
Definition await_check (c : HealthCheck) : M monitor unit :=
  try_except
    (result ← on_env (_run_single_check c);
     s ← get;
     if late (check_name c) (env s) then raise (raise_ TimeoutError "")
     else
       _ ← record_now "health_check_duration_ms" (r_duration_ms result) [("check_name", r_name result)];
       record_now "health_check_status"
         (if bool_decide (r_status result = HEALTHY) then 1%Q else 0%Q)
         [("check_name", r_name result); ("status", status_value (r_status result))])
    (fun _ => mret tt).

Fixpoint await_checks (cs : list HealthCheck) : M monitor unit :=
  match cs with [] => mret tt | c :: cs => _ ← await_check c; await_checks cs end.

(** [submit] raises once the executor is shut down. *)
Definition _run_health_checks : M monitor unit :=
  s ← get;
  if negb (executor_up s) && match health_checks s with [] => false | _ => true end
  then raise (raise_ RuntimeError "cannot schedule new futures after shutdown")
  else await_checks (health_checks s).

Definition _collect_system_metrics : M monitor unit :=
  s ← get;
  let labels := [("service", service_name s)] in
  try_except
    (cpu ← on_env (cpu_percent (1 # 10));
     _ ← record_now "cpu_usage_percent" cpu labels;
     memory ← on_env virtual_memory;
     _ ← record_now "memory_usage_percent" (vm_percent memory) labels;
     _ ← record_now "memory_available_bytes" (vm_available memory) labels;
     disk ← on_env (disk_usage "/");
     record_now "disk_usage_percent" (du_percent disk) labels)
    (fun _ => mret tt).

(** One of the two alert conditions; the value is looked up without labels. *)
Definition check_alert_condition (metric suffix alert_title what : string) : M monitor unit :=
  s ← get;
  match get_current_value metric [] (collector s) with
  | Some x =>
      if negb (Qeq_bool x 0) && Qltb 90 x
      then
        t ← on_env now;
        raise_alert {| a_id := service_name s +:+ suffix; a_severity := CRITICAL;
          a_title := alert_title; a_message := what +:+ " usage is " +:+ fmt_1f x +:+ "%";
          a_service_name := service_name s; a_metric_name := metric; a_threshold_value := 90;
          a_current_value := x; a_timestamp := t; a_acknowledged := false |}
      else mret tt
  | None => mret tt
  end.

Definition _check_alert_conditions : M monitor unit :=
  _ ← check_alert_condition "cpu_usage_percent" "_high_cpu" "High CPU Usage" "CPU";
  check_alert_condition "memory_usage_percent" "_high_memory" "High Memory Usage" "Memory".

(** One turn of [_monitor_loop], without its sleep. *)
Definition monitor_turn : M monitor unit :=
  try_except
    (_ ← _run_health_checks; _ ← _collect_system_metrics; _check_alert_conditions)
    (fun _ => mret tt).

(** The results [get_service_health] gathers. *)
Fixpoint gather (cs : list HealthCheck) : M monitor (list HealthCheckResult) :=
  match cs with
  | [] => mret []
  | c :: cs =>
      r ← try_except (on_env (check c))
            (fun e => on_env (new_result (check_name c) UNKNOWN ("Check failed: " +:+ exn_message e) [] 0));
      rs ← gather cs;
      mret (r :: rs)
  end.

Definition overall_status (results : list HealthCheckResult) : HealthStatus :=
  match results with
  | [] => UNKNOWN
  | _ => if existsb (fun r => bool_decide (r_status r = UNHEALTHY)) results then UNHEALTHY
         else if existsb (fun r => bool_decide (r_status r = DEGRADED)) results then DEGRADED
         else HEALTHY
  end.

Record service_health := {
  sh_service : string; sh_status : HealthStatus; sh_timestamp : Q;
  sh_checks : list HealthCheckResult; sh_active_alerts : Z }.

Definition get_service_health : M monitor service_health :=
  s ← get;
  results ← gather (health_checks s);
  t ← on_env now;
  s ← get;
  mret {| sh_service := service_name s; sh_status := overall_status results; sh_timestamp := t;
          sh_checks := results; sh_active_alerts := Z.of_nat (length (get_active_alerts s)) |}.

(** The statistics and the time at which they are reported. *)
Definition get_metrics_summary (since_minutes : Z) : M monitor (pydict (option metric_statistics) * Q) :=
  t ← on_env now;
  s ← get;
  let since := Some (t - inject_Z (since_minutes * 60))%Q in
  let summary metric := get_statistics metric [("service", service_name s)] since (collector s) in
  t' ← on_env now;
  mret ([("cpu_usage", summary "cpu_usage_percent"); ("memory_usage", summary "memory_usage_percent");
         ("disk_usage", summary "disk_usage_percent")], t').

Definition new_monitor (name : string) (w : W) : monitor :=
  Monitor name [] {| max_datapoints := 1000; series := [] |} [] [] false 30 true w.

Definition create_default_monitor (name : string) (db : option (M W unit)) (w : W) : monitor :=
  let s := snd (add_health_check {| check_name := "resources"; check := resource_check "resources" |}
                  (new_monitor name w)) in
  match db with
  | Some execute => snd (add_health_check {| check_name := "database";
                       check := database_check execute "database" |} s)
  | None => s
  end.
End monitor.
Arguments monitor : clear implicits.
Arguments HealthCheck : clear implicits.

(** ** The bounded series keep the latest values *)

Definition lastn {A} (n : nat) (l : list A) : list A := drop (length l - n) l.

Lemma deque_append_lastn {A} n (l : list A) x : deque_append n (lastn n l) x = lastn n (l ++ [x]).
Proof.
  unfold deque_append, lastn. rewrite !length_app, length_drop. simpl. destruct n as [|n].
  - by rewrite !drop_ge by (rewrite length_app, ?length_drop; simpl; lia).
  - rewrite <- (drop_app_le l [x]) by lia. rewrite drop_drop. f_equal. lia.
Qed.

Definition record_all (ms : list Metric) (c : MetricsCollector) : MetricsCollector :=
  foldl (fun c m => record_metric m c) c ms.

Definition has_key (key : string) (m : Metric) : bool :=
  String.eqb (metric_key (m_name m) (m_labels m)) key.

Lemma record_all_series ms key n :
  let c := record_all ms {| max_datapoints := n; series := [] |} in
  max_datapoints c = n /\ default [] (dget key (series c)) = lastn n (lfilter (has_key key) ms).
Proof.
  induction ms as [|m ms IH] using rev_ind; simpl; [done|]. unfold record_all. rewrite foldl_app.
  fold (record_all ms {| max_datapoints := n; series := [] |}). destruct IH as [Hn IH]. simpl.
  rewrite Hn, dget_dset, lfilter_app. simpl. unfold has_key at 2. split; [done|].
  destruct (String.eqb_spec (metric_key (m_name m) (m_labels m)) key) as [->|]; simpl.
  - by rewrite IH, deque_append_lastn.
  - by rewrite app_nil_r, IH.
Qed.

(** The measurements of one series: those of a name and of the same labels, in whatever
    order these are given. *)
Definition same_series (name : string) (labels : pydict string) (m : Metric) : bool :=
  bool_decide (m_name m = name /\ (list_to_map (m_labels m) : gmap string string) = list_to_map labels).

(** Those that are not before a time, if one is given that is not zero. *)
Definition from_time (since : option Q) (m : Metric) : bool :=
  match since with Some t => Qeq_bool t 0 || Qle_bool t (m_timestamp m) | None => true end.

Lemma list_to_map_perm (l l' : pydict string) : dwf l -> dwf l' ->
  (list_to_map l : gmap string string) = list_to_map l' <-> Permutation l l'.
Proof.
  unfold dwf, dkeys. intros Hl Hl'. split; [by apply list_to_map_inj|]. intros Hp. by apply list_to_map_proper.
Qed.

Lemma metric_key_series name labels m : dwf labels -> dwf (m_labels m) -> has_key (metric_key name labels) m = same_series name labels m.
Proof.
  intros Hl Hm. unfold has_key, same_series, metric_key. apply eq_true_iff_eq. rewrite String.eqb_eq, bool_decide_eq_true, list_to_map_perm by done. split.
  - intros He. by apply labelled_inj in He.
  - intros [-> Hp]. unfold json_labels. by rewrite (sorted_items_unique _ _ Hm Hp).
Qed.

Lemma lfilter_ext_in {A} (p q : A -> bool) l : Forall (fun x => p x = q x) l -> lfilter p l = lfilter q l.
Proof. induction 1 as [|x l Hx _ IH]; [done|]. simpl. by rewrite Hx, IH. Qed.

Lemma since_filter_from since ms : since_filter since ms = lfilter (from_time since) ms.
Proof.
  unfold since_filter, from_time. destruct since as [t|]; [destruct (Qeq_bool t 0); simpl|]; try done.
  all: induction ms as [|m ms IH]; [done|]; simpl; by f_equal.
Qed.

(** C16: The collector's bounded deques implement an unbounded log: after any
    metrics have been recorded, the history of a series is the last
    [max_datapoints] of those recorded under its name and labels, in order, from [since]
    on if that is given and not zero; names and labels with any characters are told
    apart, and the order of labels does not matter. *)
Theorem history_is_recent_log ms name labels since n :
  dwf labels -> Forall (fun m => dwf (m_labels m)) ms ->
  get_metric_history name labels since (record_all ms {| max_datapoints := n; series := [] |}) =
  lfilter (from_time since) (lastn n (lfilter (same_series name labels) ms)).
Proof.
  intros Hl Hms. unfold get_metric_history. rewrite (proj2 (record_all_series ms (metric_key name labels) n)), since_filter_from.
  do 2 f_equal. apply lfilter_ext_in. eapply Forall_impl; [exact Hms|]. intros m Hm. by apply metric_key_series.
Qed.

Lemma history_is_recent_log_witness :
  let m (v : Z) order := {| m_name := "load"; m_value := inject_Z v; m_timestamp := inject_Z v; m_labels := order [("host", "a"); ("zone", "b")]; m_unit := "" |} in
  get_metric_history "load" [("zone", "b"); ("host", "a")] (Some 2%Q) (record_all [m 1 id; m 2 (@rev _); m 3 id] {| max_datapoints := 2; series := [] |}) =
  [m 2 (@rev _); m 3 id].
Proof.
  intros m. refine (eq_trans (history_is_recent_log _ _ _ _ _ _ _) _).
  - unfold dwf. by apply (bool_decide_unpack _).
  - repeat constructor; unfold dwf; by apply (bool_decide_unpack _).
  - by vm_compute.
Defined.

(** ** What the monitor does over time *)

Section behaviour.
Context {W : Type} `{World W, PsUtil W, FloatText}.
Context (late : string -> W -> bool).
Implicit Types (s : monitor W).

(** Everything the monitor, its collector and its alert manager are asked to
    do. *)
Inductive call :=
| AddHealthCheck (c : HealthCheck W)
| AddAlertHandler (h : Alert -> M W unit)
| RecordMetric (m : Metric)
| RaiseAlert (a : Alert)
| AcknowledgeAlert (id : string)
| ClearOldAlerts (max_age : Q)
| Start (interval : Q)
| Stop
| Turn
| GetServiceHealth
| GetMetricsSummary (since_minutes : Z).

Definition run_call (c : call) s : monitor W :=
  match c with
  | AddHealthCheck c => snd (add_health_check c s)
  | AddAlertHandler h => snd (add_alert_handler h s)
  | RecordMetric m => set_collector (record_metric m (collector s)) s
  | RaiseAlert a => snd (raise_alert a s)
  | AcknowledgeAlert id => snd (acknowledge_alert id s)
  | ClearOldAlerts age => snd (clear_old_alerts age s)
  | Start interval => snd (start interval s)
  | Stop => snd (stop s)
  | Turn => snd (monitor_turn late s)
  | GetServiceHealth => snd (get_service_health s)
  | GetMetricsSummary n => snd (get_metrics_summary n s)
  end.

Definition run_calls (cs : list call) s : monitor W := foldl (fun s c => run_call c s) s cs.

(** A property of the state every step of the monitor's own keeps. *)
Section invariant.
Context (I : monitor W -> Prop).

Lemma get_preserves : preserves I get.
Proof. by intros s. Qed.

Lemma modify_preserves (f : monitor W -> monitor W) : (forall s, I s -> I (f s)) -> preserves I (modify f).
Proof. intros Hf s Hs. by apply Hf. Qed.

Context (Henv : forall w s, I s -> I (set_env w s)).

Lemma on_env_preserves {A} (m : M W A) : preserves I (on_env m).
Proof using Henv. intros s Hs. unfold on_env. destruct (m (env s)) as [r w]. by apply Henv. Qed.

Lemma notify_preserves hs a : preserves I (notify hs a).
Proof using Henv.
  induction hs as [|h hs IH]; simpl; [apply preserves_ret|].
  apply preserves_bind; [|done]. apply preserves_try_except; [apply on_env_preserves|intros; apply preserves_ret].
Qed.

Context (Hrecord : forall m s, m_labels m <> [] -> I s -> I (set_collector (record_metric m (collector s)) s)).

Lemma record_now_preserves name v labels : labels <> [] -> preserves I (record_now name v labels).
Proof using Henv Hrecord.
  intros Hl. apply preserves_bind; [apply on_env_preserves|intros t].
  apply modify_preserves. intros s. by apply Hrecord.
Qed.

Ltac preserve_steps :=
  repeat first
    [ apply preserves_ret | apply preserves_raise | apply get_preserves | apply on_env_preserves
    | apply record_now_preserves; done
    | apply preserves_bind; [|intros ?] | apply preserves_try_except; [|intros ?]
    | progress cbv beta zeta | case_match ].

Lemma await_checks_preserves cs : preserves I (await_checks late cs).
Proof using Henv Hrecord.
  induction cs as [|c cs IH]; simpl; [apply preserves_ret|]. apply preserves_bind; [|done].
  unfold await_check. preserve_steps.
Qed.

Lemma collect_preserves : preserves I _collect_system_metrics.
Proof using Henv Hrecord. unfold _collect_system_metrics. preserve_steps. Qed.

Lemma gather_preserves cs : preserves I (gather cs).
Proof using Henv.
  induction cs as [|c cs IH]; simpl; [apply preserves_ret|]. preserve_steps. apply IH.
Qed.

Lemma run_checks_preserves : preserves I (_run_health_checks late).
Proof using Henv Hrecord.
  unfold _run_health_checks. apply preserves_bind; [apply get_preserves|intros s].
  destruct (_ && _); [apply preserves_raise|apply await_checks_preserves].
Qed.

Lemma turn_preserves : preserves I _check_alert_conditions -> preserves I (monitor_turn late).
Proof using Henv Hrecord.
  intros Hc. apply preserves_try_except; [|intros; apply preserves_ret].
  apply preserves_bind; [apply run_checks_preserves|intros _].
  apply preserves_bind; [apply collect_preserves|done].
Qed.
End invariant.

(** *** The resource alerts *)

Definition unlabelled (metric : string) s : Prop := dget (metric_key metric []) (series (collector s)) = None.

Definition quiet s : Prop :=
  alerts s = [] /\ unlabelled "cpu_usage_percent" s /\ unlabelled "memory_usage_percent" s.

Lemma labelled_key name labels metric : labels <> [] -> has_char quote2 metric = false ->
  metric_key name labels <> metric_key metric [].
Proof.
  intros Hl Hm Heq. apply (f_equal (has_char quote2)) in Heq. unfold metric_key in Heq.
  rewrite !has_char_app, (json_labels_quote labels Hl), Hm, !orb_true_r in Heq. discriminate.
Qed.

Lemma record_quiet m s : m_labels m <> [] -> quiet s ->
  quiet (set_collector (record_metric m (collector s)) s).
Proof.
  intros Hl (Ha & Hc & Hm). unfold quiet, unlabelled in *. simpl.
  by rewrite !dget_dset_ne by (by apply labelled_key).
Qed.

Lemma env_quiet w s : quiet s -> quiet (set_env w s).
Proof. done. Qed.

Lemma condition_quiet metric suffix t what s : unlabelled metric s ->
  check_alert_condition metric suffix t what s = (Ok tt, s).
Proof.
  intros Hm. unfold check_alert_condition, mbind, M_bind, get. cbn beta iota.
  unfold get_current_value, get_metric_history. by rewrite Hm.
Qed.

Lemma conditions_quiet : preserves quiet _check_alert_conditions.
Proof.
  intros s Hs. unfold _check_alert_conditions, mbind, M_bind. destruct Hs as (Ha & Hc & Hm).
  by rewrite !condition_quiet.
Qed.

(** A call that neither raises an alert itself nor records a metric without labels. *)
Definition labelled_call (c : call) : Prop :=
  match c with RecordMetric m => m_labels m <> [] | RaiseAlert _ => False | _ => True end.

Lemma run_call_quiet c s : labelled_call c -> quiet s -> quiet (run_call c s).
Proof.
  intros Hc Hs. pose proof env_quiet. pose proof record_quiet.
  destruct c as [c|h|m|a|id|age|interval| | | |n]; simpl in *; try exact Hs.
  - by apply record_quiet.
  - done.
  - unfold acknowledge_alert, mbind, M_bind, get. cbn beta iota.
    destruct Hs as (Ha & ?). rewrite Ha. done.
  - unfold clear_old_alerts, mbind, M_bind, on_env. destruct (now (env s)) as [[t|e] w]; [|done].
    destruct Hs as (Ha & ?). simpl. rewrite Ha. done.
  - apply turn_preserves; [done..|apply conditions_quiet|done].
  - unfold get_service_health. apply preserves_bind; [apply get_preserves|intros s0|done].
    apply preserves_bind; [by apply gather_preserves|intros rs].
    apply preserves_bind; [by apply on_env_preserves|intros t].
    apply preserves_bind; [apply get_preserves|intros s1; apply preserves_ret].
  - unfold get_metrics_summary. apply preserves_bind; [by apply on_env_preserves|intros t|done].
    apply preserves_bind; [apply get_preserves|intros s1].
    apply preserves_bind; [by apply on_env_preserves|intros t1; apply preserves_ret].
Qed.

(** The resource alerts can never fire. The monitor records CPU and
    memory usage under the label of its service and looks them up without a
    label, so whatever psutil reports, for however many turns and whatever else
    is done (apart from raising alerts by hand and recording metrics without
    labels), no alert is ever raised. *)
Theorem resource_alerts_never_fire name w cs :
  Forall labelled_call cs -> alerts (run_calls cs (new_monitor name w)) = [].
Proof.
  intros Hcs. assert (Hq : quiet (new_monitor name w)) by done.
  assert (Hr : quiet (run_calls cs (new_monitor name w))); [|apply Hr].
  revert Hq. generalize (new_monitor name w). induction Hcs as [|c cs Hc _ IH]; intros s Hs; simpl; [done|].
  apply IH. by apply run_call_quiet.
Qed.

(** *** Acknowledged alerts *)

Definition settled (id : string) (a : Alert) s : Prop := dget id (alerts s) = Some a.

Lemma raise_acknowledged a b s : dget (a_id b) (alerts s) = Some a -> a_acknowledged a = true ->
  raise_alert b s = (Ok tt, s).
Proof.
  intros Ha Hack. unfold raise_alert, mbind, M_bind, get. cbn beta iota.
  unfold acknowledged_in. by rewrite Ha, Hack.
Qed.

Lemma raise_settled id a b : a_acknowledged a = true -> preserves (settled id a) (raise_alert b).
Proof.
  intros Hack s Hs. destruct (decide (a_id b = id)) as [<-|Hne]; [by rewrite (raise_acknowledged a)|].
  unfold raise_alert. apply preserves_bind; [apply get_preserves|intros s0|exact Hs].
  destruct (acknowledged_in (a_id b) s0); [apply preserves_ret|].
  apply preserves_bind; [|intros _; by apply notify_preserves].
  apply modify_preserves. intros s1 H1'. unfold settled in *. simpl. by rewrite dget_dset_ne.
Qed.

Lemma conditions_settled id a : a_acknowledged a = true -> preserves (settled id a) _check_alert_conditions.
Proof.
  intros Hack. unfold _check_alert_conditions, check_alert_condition.
  assert (Hraise : forall b, preserves (settled id a) (raise_alert b)) by (intros; by apply raise_settled).
  repeat first [apply preserves_ret | apply get_preserves | apply Hraise | by apply on_env_preserves
    | apply preserves_bind; [|intros ?] | progress cbv beta zeta | case_match].
Qed.

Definition no_clear (c : call) : Prop := match c with ClearOldAlerts _ => False | _ => True end.

Lemma run_call_settled id a c s : a_acknowledged a = true -> no_clear c -> settled id a s ->
  settled id a (run_call c s).
Proof.
  intros Hack Hc Hs.
  assert (Hrec : forall m s, m_labels m <> [] -> settled id a s ->
    settled id a (set_collector (record_metric m (collector s)) s)) by done.
  assert (Henv : forall w s, settled id a s -> settled id a (set_env w s)) by done.
  destruct c as [c|h|m|b|id'|age|interval| | | |n]; simpl in *; try exact Hs; try done.
  - by apply raise_settled.
  - unfold acknowledge_alert, mbind, M_bind, get. cbn beta iota.
    destruct (dget id' (alerts s)) as [b|] eqn:Eb; [|done]. unfold settled in *. simpl.
    rewrite dget_dset. destruct (String.eqb_spec id' id) as [->|]; [|done].
    rewrite Hs in Eb. simplify_eq. f_equal. destruct b. simpl in *. by subst.
  - apply turn_preserves; [done..|by apply conditions_settled|done].
  - unfold get_service_health. apply preserves_bind; [apply get_preserves|intros s0|done].
    apply preserves_bind; [by apply gather_preserves|intros rs].
    apply preserves_bind; [by apply on_env_preserves|intros t].
    apply preserves_bind; [apply get_preserves|intros s1; apply preserves_ret].
  - unfold get_metrics_summary. apply preserves_bind; [by apply on_env_preserves|intros t|done].
    apply preserves_bind; [apply get_preserves|intros s1].
    apply preserves_bind; [by apply on_env_preserves|intros t1; apply preserves_ret].
Qed.

(** An acknowledged alert silences its identifier: until old alerts are
    cleared, whatever else happens it stays as it is, and raising another alert
    with the same identifier changes nothing and calls no handler. *)
Theorem acknowledged_alert_silences id a s cs :
  dget id (alerts s) = Some a -> a_acknowledged a = true -> Forall no_clear cs ->
  let s' := run_calls cs s in
  dget id (alerts s') = Some a /\ forall b, a_id b = id -> raise_alert b s' = (Ok tt, s').
Proof.
  intros Ha Hack Hcs s'. assert (Hs : settled id a s').
  { unfold s'. clear s'. revert s Ha. induction Hcs as [|c cs Hc _ IH]; intros s Ha; simpl; [done|].
    apply IH. by apply run_call_settled. }
  split; [done|]. intros b <-. by apply (raise_acknowledged a).
Qed.

(** *** Health of the service *)

(** A check that raises counts as unknown, and unknown counts as healthy:
    when every check fails with an exception, the service is reported healthy. *)
Theorem failing_checks_report_healthy s :
  health_checks s <> [] ->
  Forall (fun c => forall w, exists e w', check c w = (Raise e, w') /\ catchable e = true) (health_checks s) ->
  exists h s', get_service_health s = (Ok h, s') /\ sh_status h = HEALTHY /\
    Forall (fun r => r_status r = UNKNOWN) (sh_checks h).
Proof.
  intros Hne Hall.
  assert (Hg : forall cs s, Forall (fun c => forall w, exists e w', check c w = (Raise e, w') /\ catchable e = true) cs ->
    exists rs s', gather cs s = (Ok rs, s') /\ Forall (fun r => r_status r = UNKNOWN) rs /\ length rs = length cs).
  { clear. induction cs as [|c cs IH]; intros s Hcs; [by exists [], s|].
    apply Forall_cons in Hcs as [Hc Hcs]. simpl. unfold mbind, M_bind, try_except.
    unfold on_env at 1. destruct (Hc (env s)) as (e & w & -> & He). rewrite He.
    unfold on_env at 1, new_result, now, mbind, M_bind. destruct (time_time _) as [t w'].
    cbn beta iota. destruct (IH (set_env w' (set_env w s)) Hcs) as (rs & s' & Hrs & Hun & Hlen).
    unfold mret, M_ret. rewrite Hrs. do 2 eexists. split; [done|]. split; [by constructor|by simpl; f_equal]. }
  destruct (Hg _ s Hall) as (rs & s1 & Hrs & Hun & Hlen).
  unfold get_service_health, mbind, M_bind, get. cbn beta iota. rewrite Hrs.
  unfold on_env, now. destruct (time_time (env s1)) as [t w].
  do 2 eexists. split; [done|]. simpl. split; [|done].
  assert (Hex : forall st, st <> UNKNOWN -> existsb (fun r => bool_decide (r_status r = st)) rs = false).
  { intros st Hst. apply not_true_is_false. intros (r & Hin & Hr)%existsb_exists.
    apply bool_decide_eq_true in Hr. rewrite Forall_forall in Hun.
    apply list_elem_of_In in Hin. specialize (Hun r Hin). congruence. }
  unfold overall_status. destruct rs as [|r rs]; [by destruct (health_checks s)|]. by rewrite !Hex.
Qed.

(** A later resource overrides an earlier one: a critical CPU is reported as
    merely degraded when memory is elevated and the disk is fine. *)
Lemma critical_cpu_downgraded cpu memory disk :
  (90 < cpu)%Q -> (75 < memory)%Q -> (memory <= 90)%Q -> (disk <= 80)%Q ->
  fst (resource_status cpu memory disk) = DEGRADED.
Proof.
  intros. unfold resource_status, threshold.
  repeat match goal with |- context [Qltb ?a ?b] => destruct (Qltb a b) eqn:? end; q_cases; try lra; done.
Qed.

(** *** Restarting *)

(** After [stop], the executor stays shut down: a monitor with a check that
    is started again runs no check, records no metric and raises no alert in
    any number of turns. *)
Theorem restarted_monitor_idles interval n s :
  health_checks s <> [] ->
  let s' := run_calls [Stop; Start interval] s in
  running s' = true /\ Nat.iter n (run_call Turn) s' = s'.
Proof.
  intros Hne s'. split; [done|].
  assert (Hc : negb (executor_up s') && match health_checks s' with [] => false | _ => true end = true).
  { unfold s'. simpl. by destruct (health_checks s). }
  clearbody s'. assert (Ht : run_call Turn s' = s').
  { simpl. unfold monitor_turn, try_except, mbind, M_bind, _run_health_checks, mbind, M_bind, get.
    cbn beta iota. by rewrite Hc. }
  induction n as [|n IH]; simpl; [done|]. rewrite IH. exact Ht.
Qed.
End behaviour.

(** ** Concrete runs: a machine under full load *)

Module Demo.

#[local] Instance still : World unit := {
  time_time w := (0%Q, w); sleep _ w := w; randbelow n w := (0, w) }.
#[local] Instance loaded : PsUtil unit := {
  cpu_percent _ w := (Ok 99%Q, w);
  virtual_memory w := (Ok {| vm_percent := 99; vm_used := 99; vm_available := 1 |}, w);
  disk_usage _ w := (Ok {| du_percent := 50; du_used := 50; du_free := 50 |}, w) }.
#[local] Instance no_text : FloatText := { float_text _ := "x" }.

Definition on_time (name : string) (w : unit) : bool := false.
Definition broken : HealthCheck unit := {| check_name := "db"; check w := (Raise (raise_ OSError "gone"), w) |}.
Definition svc : monitor unit := snd (add_health_check broken (new_monitor "svc" tt)).

Lemma resource_alerts_never_fire_witness :
  let cs := [AddHealthCheck broken; Start 30; Turn; Turn] in
  get_current_value "cpu_usage_percent" [("service", "svc")] (collector (run_calls on_time cs (new_monitor "svc" tt)))
    = Some 99%Q /\
  alerts (run_calls on_time cs (new_monitor "svc" tt)) = [].
Proof.
  intros cs. split; [vm_compute; reflexivity|].
  apply (resource_alerts_never_fire on_time "svc" tt cs). repeat constructor.
Defined.

Definition full_disk : Alert := {|
  a_id := "svc_disk"; a_severity := CRITICAL; a_title := "Disk"; a_message := ""; a_service_name := "svc";
  a_metric_name := ""; a_threshold_value := 90; a_current_value := 95; a_timestamp := 0;
  a_acknowledged := true |}.

Lemma acknowledged_alert_silences_witness :
  let s := set_alerts [("svc_disk", full_disk)] svc in
  let s' := run_calls on_time [RaiseAlert full_disk; Turn] s in
  dget "svc_disk" (alerts s') = Some full_disk /\
  forall b, a_id b = "svc_disk" -> raise_alert b s' = (Ok tt, s').
Proof.
  apply (acknowledged_alert_silences on_time "svc_disk" full_disk (set_alerts [("svc_disk", full_disk)] svc)).
  - reflexivity.
  - reflexivity.
  - repeat constructor.
Defined.

Lemma failing_checks_report_healthy_witness :
  exists h s', get_service_health svc = (Ok h, s') /\ sh_status h = HEALTHY /\
    Forall (fun r => r_status r = UNKNOWN) (sh_checks h).
Proof.
  apply (failing_checks_report_healthy svc).
  - discriminate.
  - repeat constructor. intros w. exists (raise_ OSError "gone"), w. split; reflexivity.
Defined.

Lemma restarted_monitor_idles_witness :
  let s' := run_calls on_time [Stop; Start 30] svc in
  running s' = true /\ Nat.iter 3 (run_call on_time Turn) s' = s'.
Proof. apply (restarted_monitor_idles on_time 30 3 svc). discriminate. Defined.
End Demo.
