(* ===== verification/TrustMonitor.v ===== *)
(** * Monitoring of trust services ([monitoring/trust_monitoring.py])

    The metrics of trust operations, the health of the database, the trust list, the
    keys and the PKD, and the measurement of an operation. The metrics library and the
    HTTP client are parameters. The ages and keys that the checks compare are constants
    of the source. *)

From S2P Require Import Prelude PyRuntime PyText PyNumbers PyDate PyIso.
Local Open Scope Z_scope.

Definition labels := list (string * string).

Class Prometheus (W : Type) := {
  inc : string -> labels -> W -> W;
  set_gauge : string -> labels -> Q -> W -> W;
  observe : string -> labels -> Q -> W -> W }.

(** [session.get(url, timeout=5)]: the status of the answer. *)
Class PkdClient (W : Type) := { pkd_get : string -> M W Z }.

Section monitoring.
Context {W : Type} `{World W, Env W, Prometheus W, PkdClient W}.

(** ** Metrics *)

Definition record_key_rotation (country role action : string) (success : bool) : M W unit :=
  modify (inc "key_rotation_events_total" [("country", country); ("role", role); ("action", action)]).

Definition record_trust_operation (operation status country role : string) : M W unit :=
  modify (inc "trust_operations_total" [("operation_type", operation); ("status", status); ("country", country); ("role", role)]).

Definition now : M W Z := fun w => let '(t, w) := datetime_now w in (Ok t, w).
Definition clock : M W Q := fun w => let '(t, w) := time_time w in (Ok t, w).

(** The instant of a time with a zone; [now(utc)] cannot be compared with one without. *)
Definition instant (t : datetime) : result Z :=
  match t with
  | DateTime t (Some offset) => Ok (t - offset * minute)
  | DateTime _ None => Raise (raise_ TypeError "can't subtract offset-naive and offset-aware datetimes")
  end.

Definition update_trust_list_age (country source : string) (last_updated : datetime) : M W unit :=
  n ← now;
  t ← lift (instant last_updated);
  modify (set_gauge "trust_list_age_seconds" [("country", country); ("source", source)] (inject_Z (n - t) / inject_Z second)).

Definition update_certificate_expiry (cert_type country identifier : string) (expiry_date : datetime) : M W unit :=
  n ← now;
  t ← lift (instant expiry_date);
  modify (set_gauge "certificate_expiry_days" [("certificate_type", cert_type); ("country", country); ("identifier", identifier)]
            (inject_Z (td_days (t - n)))).

Definition record_pkd_request (endpoint country : string) (status_code : Z) (duration : Q) : M W unit :=
  let status := if (200 <=? status_code) && (status_code <? 300) then "success" else "error" in
  _ ← modify (inc "pkd_requests_total" [("endpoint", endpoint); ("country", country); ("status", status)]);
  modify (observe "pkd_request_duration_seconds" [("endpoint", endpoint); ("country", country)] duration).

Definition update_active_keys_count (country role key_type : string) (count : Q) : M W unit :=
  modify (set_gauge "active_keys_count" [("country", country); ("role", role); ("key_type", key_type)] count).

(** ** Checks *)

(** An expiring key, as reported. *)
Record key_report := { kid : string; key_country : string; key_role : string; expires_at : string }.

Inductive detail :=
| Response (time_ms : Q)
| Failure (error : string)
| Freshness (level : string) (age_hours warning_threshold critical_threshold : Z)
| Expiring (level : string) (count warning_days : Z) (keys : list key_report)
| Endpoint (response : Q + Z) (endpoint : string)
| Timeout (seconds : Z).

Record check := { status : string; what : detail }.

(** [round(d * 1000, 2)] *)
Definition milliseconds (d : Q) : Q := (inject_Z (round_half_even (d * 1000 * 100)) / 100)%Q.

Definition check_database_health : M W check :=
  start_time ← clock;
  stop ← clock;
  mret {| status := "healthy"; what := Response (milliseconds (stop - start_time)) |}.

(** The age is a constant. *)
Definition age_hours : Z := 12.

Definition check_trust_list_freshness (warning_hours critical_hours : Z) : check :=
  let '(status, level) :=
    if critical_hours <? age_hours then ("critical", "error")
    else if warning_hours <? age_hours then ("warning", "warn") else ("healthy", "info") in
  {| status := status; what := Freshness level age_hours warning_hours critical_hours |}.

(** The list of expiring keys is a constant, too. *)
Definition expiring_keys : list key_report := [].

Definition check_key_expiration (warning_days : Z) : check :=
  match expiring_keys with
  | [] => {| status := "healthy"; what := Expiring "info" 0 warning_days [] |}
  | keys => {| status := "warning"; what := Expiring "warn" (Z.of_nat (length keys)) warning_days (take 5 keys) |}
  end.

Definition health_url (pkd_base_url : string) : string := pkd_base_url +:+ "/api/v1/pkd/health".

Definition ask_pkd (pkd_base_url : string) : M W check :=
  start_time ← clock;
  code ← pkd_get (health_url pkd_base_url);
  stop ← clock;
  mret (if code =? 200 then {| status := "healthy"; what := Endpoint (inl (milliseconds (stop - start_time))) (health_url pkd_base_url) |}
        else {| status := "unhealthy"; what := Endpoint (inr code) (health_url pkd_base_url) |}).

Definition check_pkd_connectivity (pkd_base_url : string) : M W check := fun w =>
  match ask_pkd pkd_base_url w with
  | (Raise e, w) =>
      if isinstance e TimeoutError then (Ok {| status := "unhealthy"; what := Timeout 5 |}, w)
      else if catchable e then (Ok {| status := "error"; what := Failure (exn_message e) |}, w)
      else (Raise e, w)
  | r => r
  end.

Record overall := { overall_status : string; timestamp : string; checks : pydict check; uptime_seconds : Q }.

(** A check under its name when its subject is given, and the status after it. *)
Definition add_check (given : bool) (name : string) (m : M W check) (judge : check -> string -> string)
    (so_far : string * pydict check) : M W (string * pydict check) :=
  if given then
    c ← m;
    mret (judge c (fst so_far), dset name c (snd so_far))
  else mret so_far.

Definition unless_healthy (c : check) (s : string) : string := if String.eqb (status c) "healthy" then s else "degraded".
Definition by_freshness (c : check) (s : string) : string :=
  let s := if mem (status c) ["warning"; "critical"] then "degraded" else s in
  if String.eqb (status c) "critical" then "unhealthy" else s.
Definition by_expiry (c : check) (s : string) : string := if String.eqb (status c) "warning" then "degraded" else s.

Definition get_overall_health (session trust_manager key_manager : bool) (pkd_base_url : string) : M W overall :=
  r ← add_check session "database" check_database_health unless_healthy ("healthy", []);
  r ← add_check trust_manager "trust_list" (mret (check_trust_list_freshness 24 48)) by_freshness r;
  r ← add_check key_manager "key_expiration" (mret (check_key_expiration 30)) by_expiry r;
  r ← add_check (negb (String.eqb pkd_base_url "")) "pkd_connectivity" (check_pkd_connectivity pkd_base_url) unless_healthy r;
  n ← now;
  t ← clock;
  mret {| overall_status := fst r; timestamp := isoformat_utc n; checks := snd r; uptime_seconds := t |}.

Definition ready_endpoint := get_overall_health.

Definition health_endpoint : M W string := n ← now; mret (isoformat_utc n).

(** ** Measured operations *)

(** [__exit__]; the duration is only logged. *)
Definition exit_operation (operation_type country role : string) (ok : bool) : M W unit :=
  _ ← clock;
  record_trust_operation operation_type (if ok then "success" else "failure") country role.

Definition measured {A} (operation_type country role : string) (body : M W A) : M W A := fun w =>
  let '(r, w) := body w in
  match exit_operation operation_type country role (is_ok r) w with
  | (Ok _, w) => (r, w)
  | (Raise e, w) => (Raise e, w)
  end.

(** [with monitor_operation(...): body] *)
Definition monitor_operation {A} (operation_type country role : string) (body : M W A) : M W A :=
  _ ← clock;
  measured operation_type country role body.

(** ** What the verdict depends on *)

Lemma bind_runs {A B} (m : M W A) (f : A -> M W B) a (w w' : W) : m w = (Ok a, w') -> (m ≫= f) w = f a w'.
Proof. intros Hm. unfold mbind, M_bind. by rewrite Hm. Qed.

Lemma clock_returns (w : W) : exists t w', clock w = (Ok t, w').
Proof. unfold clock. destruct (time_time w) as [t w']. by exists t, w'. Qed.

(** Whether the PKD is asked, and what it answers in the state the other checks leave. *)
Definition pkd_fine (url : string) (checks : pydict check) : Prop :=
  url = "" \/ exists c, dget "pkd_connectivity" checks = Some c /\ status c = "healthy".

(** A check that finds nothing. *)
Lemma add_check_healthy given name (m : M W check) judge cs w :
  (exists c w', m w = (Ok c, w') /\ judge c "healthy" = "healthy") ->
  exists cs' w', add_check given name m judge ("healthy", cs) w = (Ok ("healthy", cs'), w') /\ (forall k, k <> name -> dget k cs' = dget k cs).
Proof.
  intros (c & w' & Hm & Hj). unfold add_check, mbind, M_bind. destruct given; [|by exists cs, w].
  rewrite Hm. simpl. rewrite Hj. exists (dset name c cs), w'. split; [done|]. intros k Hk. by apply dget_dset_ne.
Qed.

Lemma add_check_given name (m : M W check) judge r w :
  add_check true name m judge r w =
  match m w with (Ok c, w') => (Ok (judge c (fst r), dset name c (snd r)), w') | (Raise e, w') => (Raise e, w') end.
Proof. unfold add_check, mbind, M_bind. by destruct (m w) as [[c|e] w']. Qed.

Lemma database_healthy (w : W) : exists c w', check_database_health w = (Ok c, w') /\ unless_healthy c "healthy" = "healthy".
Proof.
  unfold check_database_health, mbind, M_bind. destruct (clock_returns w) as (t & w1 & ->). destruct (clock_returns w1) as (t' & w2 & ->).
  by eexists _, w2.
Qed.

Lemma pkd_answers url (w : W) : match check_pkd_connectivity url w with (Ok _, _) => True | (Raise e, _) => catchable e = false end.
Proof.
  unfold check_pkd_connectivity. destruct (ask_pkd url w) as [[c|e] w']; [done|]. destruct (isinstance e TimeoutError); [done|].
  by destruct (catchable e) eqn:He.
Qed.

Lemma unless_healthy_iff c : (status c = "healthy" /\ unless_healthy c "healthy" = "healthy") \/ (status c <> "healthy" /\ unless_healthy c "healthy" = "degraded").
Proof. unfold unless_healthy. destruct (String.eqb_spec (status c) "healthy") as [He|He]; [by left|by right]. Qed.

(** The overall health is that of the PKD alone: it does not depend on the trust list or
    the keys, whatever they are, and is never [unhealthy]. *)
Theorem only_the_pkd_counts session trust_manager key_manager url (w : W) :
  match get_overall_health session trust_manager key_manager url w with
  | (Ok h, _) => (pkd_fine url (checks h) /\ overall_status h = "healthy") \/ (~ pkd_fine url (checks h) /\ overall_status h = "degraded")
  | (Raise e, _) => catchable e = false
  end.
Proof.
  unfold get_overall_health.
  destruct (add_check_healthy session "database" check_database_health unless_healthy [] w (database_healthy w)) as (c1 & w1 & Hr & H1').
  rewrite (bind_runs _ _ _ _ _ Hr). clear Hr.
  destruct (add_check_healthy trust_manager "trust_list" (mret (check_trust_list_freshness 24 48)) by_freshness c1 w1) as (c2 & w2 & Hr & H2').
  { by eexists _, w1. }
  rewrite (bind_runs _ _ _ _ _ Hr). clear Hr.
  destruct (add_check_healthy key_manager "key_expiration" (mret (check_key_expiration 30)) by_expiry c2 w2) as (c3 & w3 & Hr & H3').
  { by eexists _, w2. }
  rewrite (bind_runs _ _ _ _ _ Hr). clear Hr.
  assert (forall r (w : W), exists n t w', (n ← now; t ← clock; mret {| overall_status := fst r; timestamp := isoformat_utc n; checks := snd r; uptime_seconds := t |}) w =
    (Ok {| overall_status := fst r; timestamp := isoformat_utc n; checks := snd r; uptime_seconds := t |}, w')) as Hend.
  { intros r w0. unfold now, mbind, M_bind. destruct (datetime_now w0) as [n w4]. destruct (clock_returns w4) as (t & w5 & ->). by exists n, t, w5. }
  destruct (String.eqb_spec url "") as [->|Hurl]; simpl negb.
  - erewrite bind_runs by reflexivity. destruct (Hend ("healthy", c3) w3) as (n & t & w4 & ->). left. split; [by left|done].
  - pose proof (pkd_answers url w3) as Hp. unfold mbind at 1, M_bind at 1. rewrite add_check_given.
    destruct (check_pkd_connectivity url w3) as [[c|e] w4]; [|done].
    destruct (Hend (unless_healthy c "healthy", dset "pkd_connectivity" c c3) w4) as (n & t & w5 & Heq). simpl. simpl in Heq. rewrite Heq.
    cbn [overall_status checks]. unfold pkd_fine. rewrite dget_dset_eq. destruct (unless_healthy_iff c) as [[Hs ->]|[Hs ->]]; [left|right]; split; try done.
    + right. by exists c.
    + intros [Hu|(c' & Hc & Hs')]; [done|]. injection Hc as <-. done.
Qed.

(** A measured operation gives what it gives, and is counted once. *)
Theorem operation_counted {A} operation country role (body : M W A) (w : W) :
  exists w1, (exists t, clock w = (Ok t, w1)) /\
    let '(r, w2) := body w1 in
    exists w3, (exists t, clock w2 = (Ok t, w3)) /\
      monitor_operation operation country role body w =
        (r, inc "trust_operations_total"
              [("operation_type", operation); ("status", if is_ok r then "success" else "failure"); ("country", country); ("role", role)] w3).
Proof.
  unfold monitor_operation, measured, exit_operation, mbind, M_bind. destruct (clock_returns w) as (t & w1 & ->). exists w1.
  split; [by exists t|]. destruct (body w1) as [r w2]. destruct (clock_returns w2) as (t' & w3 & ->). exists w3. split; [by exists t'|].
  done.
Qed.
End monitoring.

Module Demo.
(** The times of the clock, and the metrics with their labels. *)
#[export] Instance demo_clock : World (list (string * labels)) := { time_time w := (0%Q, w); sleep _ w := w; randbelow _ w := (0, w) }.
#[export] Instance demo_env : Env (list (string * labels)) := { uuid4 w := ("", w); datetime_now w := (0, w) }.
#[export] Instance demo_metrics : Prometheus (list (string * labels)) := {
  inc n l w := (n, l) :: w; set_gauge n l _ w := (n, l) :: w; observe n l _ w := (n, l) :: w }.
#[export] Instance demo_pkd : PkdClient (list (string * labels)) := { pkd_get _ := mret 503 }.

(** A key rotation that failed is counted as one that did not. *)
Lemma failed_rotation_counted : record_key_rotation "UT" "csca" "rotated" false [] = record_key_rotation "UT" "csca" "rotated" true [].
Proof. reflexivity. Qed.

Definition shown (r : result overall * list (string * labels)) : option string :=
  match r with (Ok h, _) => Some (overall_status h) | _ => None end.

Lemma pkd_down : shown (get_overall_health true true true "https://pkd" []) = Some "degraded" /\
  shown (get_overall_health true true true "" []) = Some "healthy".
Proof. by vm_compute. Qed.
End Demo.
