(* ===== verification/HealthChecks.v ===== *)
(** * Health checks of dependencies ([health_checks.py])

    Whether a database, a gRPC service, a web address, a port and the resources of the
    machine are usable. Libraries that may be missing, the network and the machine are
    parameters; a check catches every exception of theirs. *)

From S2P Require Import Prelude PyRuntime PyText PyUrl.
Local Open Scope Z_scope.

Definition ImportError : pyclass := subclass "ImportError" Exception_.

(** The libraries that are installed, and whether the caller runs in an event loop. *)
Record host := {
  HAS_ASYNCPG : bool; HAS_GRPC : bool; has_grpc_health : bool; has_httpx : bool; has_psutil : bool; in_event_loop : bool }.

(** [http_get] and [open_url] give the status of the answer; [open_url] asks [follow]
    about every redirection. [fetchval] gives the value of [SELECT 1]. *)
Class Dependencies (W : Type) := {
  connect_database : string -> Q -> M W unit;
  fetchval : M W Z;
  close_database : M W unit;
  ensure_future : M W bool -> M W unit;
  insecure_channel : string -> M W unit;
  health_serving : Q -> M W bool;
  channel_ready : Q -> M W unit;
  close_channel : M W unit;
  http_get : string -> Q -> M W Z;
  open_url : (string -> result unit) -> string -> Q -> M W Z;
  connect_ex : string -> Z -> Q -> M W Z;
  path_exists : string -> M W bool;
  disk_free : string -> M W Z;
  memory_percent : M W Q;
  cpu_percent : Q -> M W Q }.

Definition FutureTimeoutError : pyclass := subclass "FutureTimeoutError" Exception_.

Section checks.
Context {W : Type} `{Dependencies W, BracketedHosts} (h : host).

(** [import] of a library. *)
Definition import (installed : bool) (name : string) : M W unit :=
  if installed then mret tt else raise (raise_ ImportError ("No module named '" +:+ name +:+ "'")).

(** [try: m except Exception: return False] *)
Definition or_false (m : M W bool) : M W bool := try_except m (fun _ => mret false).

Definition _check_db (connection_string : string) (timeout : Q) : M W bool := or_false (
  _ ← connect_database connection_string timeout;
  result ← fetchval;
  _ ← close_database;
  mret (result =? 1)).

(** In a running loop [run_until_complete] raises. *)
Definition check_database_connection (connection_string : string) (timeout : Q) : M W bool :=
  if negb (HAS_ASYNCPG h) then mret true else or_false (
  if in_event_loop h then
    _ ← ensure_future (_check_db connection_string timeout);
    raise (raise_ RuntimeError "This event loop is already running")
  else _check_db connection_string timeout).

Definition grpc_health_service (timeout : Q) : M W bool :=
  _ ← import (has_grpc_health h) "grpc_health";
  serving ← health_serving timeout;
  _ ← close_channel;
  mret serving.

Definition basic_connectivity (timeout : Q) : M W bool :=
  try_class FutureTimeoutError (_ ← channel_ready timeout; _ ← close_channel; mret true)
    (fun _ => _ ← close_channel; mret false).

Definition check_grpc_service (host_name : string) (port : Z) (timeout : Q) : M W bool :=
  if negb (HAS_GRPC h) then mret true else or_false (
  _ ← insecure_channel (host_name +:+ ":" +:+ z_str port);
  try_class ImportError (grpc_health_service timeout) (fun _ => basic_connectivity timeout)).

Definition is_http (url : string) : result bool :=
  parts ← urlsplit url; Ok (mem (str_lower (fst parts)) ["http"; "https"]).

Definition redirect_request (newurl : string) : result unit :=
  http ← is_http newurl;
  if http : bool then Ok tt else Raise (raise_ (subclass "URLError" OSError) "Non-HTTP health-check redirect").

Definition check_http_service (url : string) (timeout : Q) (expected_status : Z) : M W bool := or_false (
  try_class ImportError
    (http ← lift (is_http url);
     if negb http then mret false else
     _ ← import (has_httpx h) "httpx";
     status ← http_get url timeout;
     mret (status =? expected_status))
    (fun _ => status ← open_url redirect_request url timeout; mret (status =? expected_status))).

Definition check_tcp_port (host_name : string) (port : Z) (timeout : Q) : M W bool := or_false (
  result ← connect_ex host_name port timeout; mret (result =? 0)).

Definition check_file_system (path : string) (min_free_mb : Z) : M W bool := or_false (
  there ← path_exists path;
  if negb there then mret false else
  free ← disk_free path;
  mret (min_free_mb <=? free / (1024 * 1024))).

Definition usage_within (usage : M W Q) (max_usage_percent : Q) : M W bool := or_false (
  try_class ImportError
    (_ ← import (has_psutil h) "psutil"; u ← usage; mret (negb (Qltb max_usage_percent u)))
    (fun _ => mret true)).

Definition check_memory_usage (max_usage_percent : Q) : M W bool := usage_within memory_percent max_usage_percent.
Definition check_cpu_usage (max_usage_percent interval : Q) : M W bool := usage_within (cpu_percent interval) max_usage_percent.

(** ** Checks to be run later *)

Definition create_database_health_check (connection_string : string) (timeout : Q) : M W bool :=
  check_database_connection connection_string timeout.
Definition create_grpc_health_check (host_name : string) (port : Z) (timeout : Q) : M W bool := check_grpc_service host_name port timeout.
Definition create_http_health_check (url : string) (timeout : Q) (expected_status : Z) : M W bool :=
  check_http_service url timeout expected_status.
Definition create_tcp_health_check (host_name : string) (port : Z) (timeout : Q) : M W bool := check_tcp_port host_name port timeout.

(** [a and b] *)
Definition and_then (a b : M W bool) : M W bool := v ← a; if v : bool then b else mret false.

Definition create_resource_health_check (max_memory_percent max_cpu_percent : Q) (min_disk_mb : Z) (disk_path : string) : M W bool :=
  and_then (check_memory_usage max_memory_percent)
    (and_then (check_cpu_usage max_cpu_percent 1) (check_file_system disk_path min_disk_mb)).

(** ** What a check says *)

(** A check answers, unless it is interrupted. *)
Definition answers (m : M W bool) : Prop := forall w, match m w with (Ok _, _) => True | (Raise e, _) => catchable e = false end.

Lemma or_false_answers m : answers (or_false m).
Proof. intros w. unfold or_false, try_except. destruct (m w) as [[b|e] w']; [done|]. by destruct (catchable e) eqn:He. Qed.

Lemma and_then_answers a b : answers a -> answers b -> answers (and_then a b).
Proof.
  intros Ha Hb w. unfold and_then, mbind, M_bind. specialize (Ha w). destruct (a w) as [[[]|e] w']; [apply Hb|done|done].
Qed.

Theorem checks_answer url s host_name port t expected mem cpu disk path :
  answers (create_database_health_check s t) /\ answers (create_grpc_health_check host_name port t) /\
  answers (create_http_health_check url t expected) /\ answers (create_tcp_health_check host_name port t) /\
  answers (create_resource_health_check mem cpu disk path).
Proof.
  split; [|split; [|split; [|split]]].
  - unfold create_database_health_check, check_database_connection. destruct (negb _); [done|apply or_false_answers].
  - unfold create_grpc_health_check, check_grpc_service. destruct (negb _); [done|apply or_false_answers].
  - apply or_false_answers.
  - apply or_false_answers.
  - repeat apply and_then_answers; apply or_false_answers.
Qed.

(** The machine is usable when no resource is short, as far as it can be measured. *)
Lemma resources_ok_iff u c f mem cpu disk path (w w1 w2 w3 w4 : W) :
  has_psutil h = true -> memory_percent w = (Ok u, w1) -> cpu_percent 1 w1 = (Ok c, w2) ->
  path_exists path w2 = (Ok true, w3) -> disk_free path w3 = (Ok f, w4) ->
  fst (create_resource_health_check mem cpu disk path w) = Ok true <-> (u <= mem)%Q /\ (c <= cpu)%Q /\ disk * 1048576 <= f.
Proof.
  intros Hp Hu Hc He Hf.
  assert (forall a b, Qltb a b = false <-> (b <= a)%Q) as HQ.
  { intros a b. unfold Qltb. rewrite negb_false_iff. apply Qle_bool_iff. }
  unfold create_resource_health_check, and_then, check_memory_usage, check_cpu_usage, usage_within, check_file_system, or_false,
    try_except, try_class, import, mbind, M_bind. rewrite Hp. simpl. rewrite Hu. simpl.
  destruct (Qltb mem u) eqn:Hmem; simpl; [split; [done|intros (Hle & _)]|].
  { apply HQ in Hle. congruence. }
  rewrite Hc. simpl. destruct (Qltb cpu c) eqn:Hcpu; simpl; [split; [done|intros (_ & Hle & _)]|].
  { apply HQ in Hle. congruence. }
  rewrite He. simpl. rewrite Hf. simpl. apply HQ in Hmem, Hcpu.
  assert ((disk <=? f / 1048576) = true <-> disk * 1048576 <= f) as Hd.
  { rewrite Z.leb_le. split; intros Hle; [pose proof (Z.mul_div_le f 1048576 ltac:(lia)); nia|]. apply Z.div_le_lower_bound; lia. }
  change (1024 * 1024) with 1048576. split; [intros Heq; injection Heq as Heq; by rewrite <- Hd|].
  intros (_ & _ & Hle). apply Hd in Hle. by rewrite Hle.
Qed.

(** Where asyncpg is installed, a check of the database that is made inside an event
    loop fails, whatever the database says. *)
Theorem database_check_fails_in_loop s t (w : W) :
  HAS_ASYNCPG h = true -> in_event_loop h = true ->
  match create_database_health_check s t w with (Ok b, _) => b = false | (Raise e, _) => catchable e = false end.
Proof.
  intros Ha Hl. unfold create_database_health_check, check_database_connection. rewrite Ha, Hl. simpl.
  unfold or_false at 1, try_except, mbind, M_bind. destruct (ensure_future _ w) as [[[]|e] w']; [done|].
  by destruct (catchable e) eqn:He.
Qed.

(** Nothing is asked of an address of another protocol. *)
Theorem only_http_asked url t expected (w : W) :
  is_http url <> Ok true -> create_http_health_check url t expected w = (Ok false, w).
Proof.
  intros Hn. unfold create_http_health_check, check_http_service, or_false, try_except, try_class, mbind, M_bind, lift.
  destruct (is_http url) as [[]|e] eqn:Hu; [done|done|].
  assert (isinstance e ImportError = false /\ catchable e = true) as [-> ->]; [|done].
  unfold is_http, urlsplit in Hu. destruct (split_scheme _) as [scheme rest]. simpl in Hu.
  destruct (startswith "//" rest); [|done]. repeat case_match; simplify_eq/=; by vm_compute.
Qed.
End checks.

Module Demo.
(** A database that answers, and a machine with half of its memory in use. *)
#[export] Instance demo_dependencies : Dependencies Z := {
  connect_database _ _ := mret tt; fetchval := mret 1; close_database := mret tt; ensure_future _ := modify (Z.add 1);
  insecure_channel _ := mret tt; health_serving _ := mret true; channel_ready _ := mret tt; close_channel := mret tt;
  http_get _ _ := fun w => (Ok 200, w + 1); open_url follow _ _ := (_ ← lift (follow "file:///etc/passwd"); mret 200);
  connect_ex _ _ _ := mret 111; path_exists _ := mret true; disk_free _ := mret 209715200; memory_percent := mret 50%Q; cpu_percent _ := mret 99%Q }.
#[export] Instance demo_hosts : BracketedHosts := { bracketed_host_ok _ := true }.

Definition full : host :=
  {| HAS_ASYNCPG := true; HAS_GRPC := true; has_grpc_health := true; has_httpx := true; has_psutil := true; in_event_loop := true |}.
Definition bare : host :=
  {| HAS_ASYNCPG := false; HAS_GRPC := false; has_grpc_health := false; has_httpx := false; has_psutil := false; in_event_loop := false |}.

(** Without the libraries databases and services count as healthy, and a redirection
    to a file is not followed. *)
Lemma bare_checks :
  fst (create_database_health_check bare "postgres://db" 5 0) = Ok true /\ fst (create_grpc_health_check bare "pkd" 1 5 0) = Ok true /\
  fst (create_http_health_check bare "http://pkd" 5 200 0) = Ok false /\ fst (create_resource_health_check bare 10 10 100 "/" 0) = Ok true.
Proof. by vm_compute. Qed.

Lemma database_check_fails_in_loop_witness :
  match create_database_health_check full "postgres://db" 5 0 with (Ok b, _) => b = false | (Raise e, _) => catchable e = false end.
Proof. by apply (database_check_fails_in_loop full "postgres://db" 5 0). Defined.

Lemma only_http_asked_witness : create_http_health_check full "file:///etc/passwd" 5 200 0 = (Ok false, 0).
Proof. by apply (only_http_asked full "file:///etc/passwd" 5 200 0). Defined.
End Demo.
