(* ===== verification/StructuredLogging.v ===== *)
(** * Structured logging ([logging/structured_logging.py])

    The context of a request in a context variable, what is added to every record, the
    handlers that are set up, the loggers of performance, security and business events,
    and the middleware that logs requests. The logging libraries, the machine and the
    application behind the middleware are parameters. *)

From S2P Require Import Prelude PyRuntime PyText PyInt.
Local Open Scope Z_scope.

(** What a field of a record holds. *)
Inductive fv := FNone | FBool (b : bool) | FInt (z : Z) | FNum (q : Q) | FStr (s : string).
Definition opt_text (s : option string) : fv := match s with Some s => FStr s | None => FNone end.
Definition opt_num (q : option Q) : fv := match q with Some q => FNum q | None => FNone end.

Definition fields := pydict fv.

(** [d.update(new)] *)
Definition update (new d : fields) : fields := foldl (fun d kv => dset (fst kv) (snd kv) d) d new.

Class LogContext (W : Type) := { request_context : W -> option fields; set_context : option fields -> W -> W }.
Class ContextLaws (W : Type) `{LogContext W} := { context_set c (w : W) : request_context (set_context c w) = c }.

(** [write level event fields]: the record as it is handed to the library. *)
Class LogSink (W : Type) := { write : string -> string -> fields -> W -> W }.

(** ** The context of a request *)

Definition request_names : list string := ["request_id"; "user_id"; "session_id"; "correlation_id"].

Definition _request_fields (context : option fields) : fields :=
  match context with
  | None | Some [] => []
  | Some c => map (fun n => (n, default FNone (dget n c))) request_names
  end.

Section context.
Context {W : Type} `{LogContext W}.

Definition with_more (context : fields) (w : W) : W := set_context (Some (update context (default [] (request_context w)))) w.

(** [with _request_scope(context): body]; the context is put back however it ends. *)
Definition _request_scope {A} (context : fields) (body : M W A) : M W A := fun w =>
  let before := request_context w in
  let '(r, w) := body (with_more context w) in (r, set_context before w).

Definition set_request_context (context : fields) : M W unit := modify (with_more context).
Definition clear_request_context : M W unit := modify (set_context None).
End context.

(** ** Configuration *)

Record MartyStructuredLogger := {
  service_name : string; version : string; environment : string; log_level : Z; enable_console : bool; enable_file : bool;
  enable_syslog : bool; log_dir : string; hostname : string; pid : Z }.

Definition levels : pydict Z := [
  ("CRITICAL", 50); ("FATAL", 50); ("ERROR", 40); ("WARNING", 30); ("WARN", 30); ("INFO", 20); ("DEBUG", 10); ("NOTSET", 0)].

(** [getattr(logging, level.upper())] for the names of levels. *)
Definition level_of (level : string) : result Z :=
  match dget (str_upper level) levels with
  | Some z => Ok z
  | None => Raise (raise_ (subclass "AttributeError" Exception_) "module 'logging' has no attribute")
  end.

Definition new_logger (service version environment level : string) (console file syslog : bool) (dir host : string) (process : Z) : result MartyStructuredLogger :=
  l ← level_of level;
  Ok {| service_name := service; version := version; environment := environment; log_level := l; enable_console := console;
        enable_file := file; enable_syslog := syslog; log_dir := dir; hostname := host; pid := process |}.

(** The settings of [setup_logging_for_service] without further arguments. *)
Definition setup_logging_for_service (getenv : string -> option string) (host : string) (process : Z) (service : string) : result MartyStructuredLogger :=
  let text k d := default d (getenv k) in
  let flag k d := String.eqb (str_lower (text k d)) "true" in
  new_logger service (text "MARTY_VERSION" "1.0.0") (text "MARTY_ENVIRONMENT" "development") (text "LOG_LEVEL" "INFO")
    (flag "LOG_CONSOLE" "true") (flag "LOG_FILE" "true") (flag "LOG_SYSLOG" "false") (text "LOG_DIR" "logs") host process.

Section logger.
Context (self : MartyStructuredLogger).

Definition service_fields : fields := [
  ("service", FStr (service_name self)); ("version", FStr (version self)); ("environment", FStr (environment self));
  ("hostname", FStr (hostname self)); ("pid", FInt (pid self))].

(** The processors of the source, on the fields of a record. *)
Definition add_service_context (now : string) (event_dict : fields) : fields :=
  update (service_fields ++ [("timestamp", FStr now)]) event_dict.
Definition add_request_context (context : option fields) (event_dict : fields) : fields :=
  update (_request_fields context) event_dict.

(** [add_fields] of the JSON formatter, after that of the library; [span] is the trace
    that is being recorded. *)
Record log_record := { levelname : string; logger_name : string; filename : string; lineno : Z; func_name : string }.

Definition add_fields (record : log_record) (now : string) (context : option fields) (span : option (string * string)) (d : fields) : fields :=
  let d := update service_fields d in
  let d := match dget "timestamp" d with
           | Some (FStr t) => if String.eqb t "" then dset "timestamp" (FStr now) d else d
           | Some (FBool true) => d
           | Some (FInt z) => if z =? 0 then dset "timestamp" (FStr now) d else d
           | Some (FNum q) => if Qeq_bool q 0 then dset "timestamp" (FStr now) d else d
           | _ => dset "timestamp" (FStr now) d
           end in
  let d := update [("level", FStr (levelname record)); ("logger", FStr (logger_name record)); ("file", FStr (filename record));
                   ("line", FInt (lineno record)); ("function", FStr (func_name record))] d in
  let d := update (_request_fields context) d in
  match span with Some (t, s) => update [("trace_id", FStr t); ("span_id", FStr s)] d | None => d end.

Inductive formatter := Plain | MartyJSON.
Inductive log_handler := Console (f : formatter) | File (path : string) (max_bytes backups : Z) (f : formatter) | Syslog (f : formatter).

(** The handlers of the root logger; [syslog_up] is whether the handler can be made. *)
Definition _setup_standard_logging (syslog_up : bool) : list log_handler :=
  (if enable_console self then [Console (if String.eqb (environment self) "development" then Plain else MartyJSON)] else []) ++
  (if enable_file self then [File (log_dir self +:+ "/" +:+ service_name self +:+ ".log") (50 * 1024 * 1024) 10 MartyJSON] else []) ++
  (if enable_syslog self && syslog_up then [Syslog MartyJSON] else []).
End logger.

(** ** Loggers *)

Section loggers.
Context {W : Type} `{World W, LogContext W, LogSink W}.

(** [logger.level(event, **own, **kwargs)]: no name can be given twice. *)
Definition emit (level event : string) (own kwargs : fields) : M W unit :=
  if existsb (fun k => mem k ("event" :: dkeys own)) (dkeys kwargs)
  then raise (raise_ TypeError "got multiple values for keyword argument")
  else modify (write level event (own ++ kwargs)).

Definition log_request (method endpoint : string) (status_code : Z) (response_time : Q) (request_size response_size : Z) (kwargs : fields) : M W unit :=
  emit "info" "http_request" [("method", FStr method); ("endpoint", FStr endpoint); ("status_code", FInt status_code);
    ("response_time", FNum response_time); ("request_size", FInt request_size); ("response_size", FInt response_size)] kwargs.
Definition log_database_query (query_type table : string) (execution_time : Q) (rows_affected : Z) (kwargs : fields) : M W unit :=
  emit "info" "database_query" [("query_type", FStr query_type); ("table", FStr table); ("execution_time", FNum execution_time);
    ("rows_affected", FInt rows_affected)] kwargs.
Definition log_external_api_call (service endpoint method : string) (response_time : Q) (status_code : Z) (kwargs : fields) : M W unit :=
  emit "info" "external_api_call" [("service", FStr service); ("endpoint", FStr endpoint); ("method", FStr method);
    ("response_time", FNum response_time); ("status_code", FInt status_code)] kwargs.

Definition log_authentication (user_id : string) (success : bool) (method : string) (ip_address user_agent : option string) (kwargs : fields) : M W unit :=
  emit "info" "authentication" [("user_id", FStr user_id); ("success", FBool success); ("method", FStr method);
    ("ip_address", opt_text ip_address); ("user_agent", opt_text user_agent); ("event_type", FStr "security")] kwargs.
Definition log_authorization (user_id resource action : string) (granted : bool) (kwargs : fields) : M W unit :=
  emit "info" "authorization" [("user_id", FStr user_id); ("resource", FStr resource); ("action", FStr action); ("granted", FBool granted);
    ("event_type", FStr "security")] kwargs.
Definition log_security_event (event_type severity description : string) (kwargs : fields) : M W unit :=
  emit "warning" "security_event" [("event_type", FStr event_type); ("severity", FStr severity); ("description", FStr description)] kwargs.

Definition log_document_processed (document_id document_type : string) (processing_time : Q) (success : bool) (kwargs : fields) : M W unit :=
  emit "info" "document_processed" [("document_id", FStr document_id); ("document_type", FStr document_type);
    ("processing_time", FNum processing_time); ("success", FBool success); ("event_type", FStr "business")] kwargs.
Definition log_certificate_issued (certificate_id certificate_type issuer subject : string) (kwargs : fields) : M W unit :=
  emit "info" "certificate_issued" [("certificate_id", FStr certificate_id); ("certificate_type", FStr certificate_type);
    ("issuer", FStr issuer); ("subject", FStr subject); ("event_type", FStr "business")] kwargs.
Definition log_verification_result (document_id verification_type result : string) (confidence_score : option Q) (kwargs : fields) : M W unit :=
  emit "info" "verification_result" [("document_id", FStr document_id); ("verification_type", FStr verification_type); ("result", FStr result);
    ("confidence_score", opt_num confidence_score); ("event_type", FStr "business")] kwargs.

(** ** The middleware

    An application sends messages, changes the world between them, sees what becomes of
    a message, and returns or raises. *)

Inductive message := Start (status : Z) | Body (length : option Z) | Other.

Inductive asgi :=
| Returns
| Throws (e : exn)
| Does (f : W -> W) (k : asgi)
| Sends (m : message) (k : result unit -> asgi).

(** [response_status], [response_size] and the world. *)
Record seen := Seen { response_status : Z; response_size : Z; world : W }.

Definition note (m : message) (s : seen) : seen :=
  match m with
  | Start status => Seen status (response_size s) (world s)
  | Body (Some n) => Seen (response_status s) (response_size s + n) (world s)
  | _ => s
  end.

Context (send : message -> M W unit).

Definition send_wrapper (m : message) : M seen unit := fun s =>
  let s := note m s in
  let '(r, w) := send m (world s) in (r, Seen (response_status s) (response_size s) w).

Fixpoint run_app (app : asgi) : M seen unit := fun s =>
  match app with
  | Returns => (Ok tt, s)
  | Throws e => (Raise e, s)
  | Does f k => run_app k (Seen (response_status s) (response_size s) (f (world s)))
  | Sends m k => let '(r, s) := send_wrapper m s in run_app (k r) s
  end.

Definition clock : M W Q := fun w => let '(t, w) := time_time w in (Ok t, w).

(** [try: app() except Exception: log, raise finally: log]; [end_request] is the
    [finally] block. *)
Definition log_error (e : exn) : M W unit := emit "exception" "request_error" [("error", FStr (exn_message e)); ("error_type", FStr (cls_name (exn_class e)))] [].

Definition end_request (method path client_ip : string) (start_time : Q) (s : seen) : M W unit :=
  stop ← clock;
  log_request method path (response_status s) (stop - start_time) 0 (response_size s) [("client_ip", FStr client_ip)].

Definition within_scope (method path client_ip : string) (app : asgi) : M W unit := fun w =>
  let '(start_time, w) := time_time w in
  let '(r, s) := run_app app (Seen 500 0 w) in
  let '(r, w) := match r with
                 | Ok _ => (r, world s)
                 | Raise e => if catchable e then let '(l, w) := log_error e (world s) in (match l with Ok _ => r | Raise e' => Raise e' end, w)
                              else (r, world s)
                 end in
  match end_request method path client_ip start_time s w with
  | (Ok _, w) => (r, w)
  | (Raise e, w) => (Raise e, w)
  end.

Definition request_id_of (t : Q) (scope_id : Z) : string := z_str (py_int (t * 1000)) +:+ "-" +:+ z_str scope_id.

Definition middleware_call (http : bool) (method path : string) (client : option string) (scope_id : Z) (app : asgi) : M W unit := fun w =>
  if http then
    let client_ip := default "unknown" client in
    let '(t, w) := time_time w in
    _request_scope [("request_id", FStr (request_id_of t scope_id)); ("client_ip", FStr client_ip); ("method", FStr method); ("path", FStr path)]
      (within_scope method path client_ip app) w
  else
    let '(r, s) := (fix plain (app : asgi) : M W unit := fun w =>
      match app with
      | Returns => (Ok tt, w)
      | Throws e => (Raise e, w)
      | Does f k => plain k (f w)
      | Sends m k => let '(r, w) := send m w in plain (k r) w
      end) app w in (r, s).
End loggers.

(** ** What a record says *)

Lemma dget_update new : dwf new -> forall d k, dget k (update new d) = match dget k new with Some v => Some v | None => dget k d end.
Proof.
  unfold dwf, update. induction new as [|[k' v] new IH]; intros Hnd d k; [done|]. simpl in Hnd. apply NoDup_cons in Hnd as [Hni Hnd].
  simpl. rewrite IH by done. destruct (String.eqb_spec k k') as [->|Hne].
  - destruct (dget k' new) as [v'|] eqn:Hv; [|by rewrite dget_dset_eq].
    destruct Hni. apply list_elem_of_In. apply dget_In in Hv. by apply (in_map fst) in Hv.
  - by rewrite dget_dset_ne by congruence.
Qed.

Lemma request_fields_wf context : dwf (_request_fields context).
Proof.
  unfold dwf, dkeys, _request_fields. destruct context as [[|kv c]|]; [constructor| |constructor]. rewrite map_map.
  apply (bool_decide_unpack _). vm_compute. exact I.
Qed.

Lemma request_fields_all kv c n : In n request_names -> dget n (_request_fields (Some (kv :: c))) = Some (default FNone (dget n (kv :: c))).
Proof.
  intros Hin. unfold _request_fields. apply In_dget.
  - change (dwf (_request_fields (Some (kv :: c)))). apply request_fields_wf.
  - apply (in_map (fun n => (n, default FNone (dget n (kv :: c)))) request_names n Hin).
Qed.

Lemma request_fields_others context n : ~ In n request_names -> dget n (_request_fields context) = None.
Proof.
  intros Hn. destruct (dget n (_request_fields context)) as [v|] eqn:Hv; [|done]. destruct Hn. apply dget_In, (in_map fst) in Hv.
  unfold _request_fields in Hv. destruct context as [[|kv c]|]; [done| |done]. by rewrite map_map, map_id in Hv.
Qed.

Lemma update_not_empty new d : new <> [] -> update new d <> [].
Proof.
  unfold update. assert (forall k v (d : fields), dset k v d <> []) as Hset by (intros k v [|[] ?]; simpl; [done|by case_match]).
  assert (forall new (d : fields), d <> [] -> foldl (fun d kv => dset (fst kv) (snd kv) d) d new <> []) as Hfold.
  { intros l. induction l as [|kv l IH]; intros d' Hd; [done|]. simpl. by apply IH. }
  destruct new as [|kv new]; [done|]. intros _. simpl. by apply Hfold.
Qed.


Section middleware.
Context {W : Type} `{World W, LogContext W, LogSink W} (send : message -> M W unit).

(** The record of a request. *)
Definition request_record (method path client_ip : string) (duration : Q) (s : seen (W := W)) : fields := [
  ("method", FStr method); ("endpoint", FStr path); ("status_code", FInt (response_status s)); ("response_time", FNum duration);
  ("request_size", FInt 0); ("response_size", FInt (response_size s)); ("client_ip", FStr client_ip)].

Definition error_record (e : exn) : fields := [("error", FStr (exn_message e)); ("error_type", FStr (cls_name (exn_class e)))].

(** What an application does behind the middleware is what it does there: its result is
    passed on, one record tells the status and the bytes it sent, after one of its
    exception if it raised one, and the context is put back. *)
Theorem request_logged `{!ContextLaws W} method path client scope_id app (w : W) :
  let client_ip := default "unknown" client in
  let '(t, w1) := time_time w in
  let context := [("request_id", FStr (request_id_of t scope_id)); ("client_ip", FStr client_ip); ("method", FStr method); ("path", FStr path)] in
  let '(t0, w2) := time_time (with_more context w1) in
  let '(r, s) := run_app send app (Seen 500 0 w2) in
  let w3 := match r with Raise e => if catchable e then write "exception" "request_error" (error_record e) (world s) else world s | Ok _ => world s end in
  let '(t1, w4) := time_time w3 in
  let w5 := set_context (request_context w1) (write "info" "http_request" (request_record method path client_ip (t1 - t0) s) w4) in
  middleware_call send true method path client scope_id app w = (r, w5) /\ request_context w5 = request_context w1.
Proof.
  cbv zeta. unfold middleware_call, _request_scope, within_scope. destruct (time_time w) as [t w1].
  destruct (time_time (with_more _ w1)) as [t0 w2]. destruct (run_app send app (Seen 500 0 w2)) as [r s].
  assert (forall w', end_request method path (default "unknown" client) t0 s w' =
    let '(t1, w4) := time_time w' in (Ok tt, write "info" "http_request" (request_record method path (default "unknown" client) (t1 - t0) s) w4)) as Hend.
  { intros w'. unfold end_request, clock, mbind, M_bind. by destruct (time_time w') as [t1 w4]. }
  assert (forall e, log_error e (world s) = (Ok tt, write "exception" "request_error" (error_record e) (world s))) as Herr by done.
  destruct r as [[]|e]; [|rewrite Herr; destruct (catchable e) eqn:He]; cbn beta iota; rewrite Hend.
  - destruct (time_time (world s)) as [t1 w4]. by rewrite context_set.
  - destruct (time_time (write "exception" "request_error" (error_record e) (world s))) as [t1 w4]. by rewrite context_set.
  - destruct (time_time (world s)) as [t1 w4]. by rewrite context_set.
Qed.

(** What it notes: the last status that was sent, and the bytes of all bodies. *)
Fixpoint note_all (ms : list message) (status size : Z) : Z * Z :=
  match ms with
  | [] => (status, size)
  | Start st :: ms => note_all ms st size
  | Body (Some n) :: ms => note_all ms status (size + n)
  | _ :: ms => note_all ms status size
  end.

(** The messages an application sends, one after the other. *)
Fixpoint messages (app : asgi) (w : W) : list message :=
  match app with
  | Does f k => messages k (f w)
  | Sends m k => let '(r, w) := send m w in m :: messages (k r) w
  | _ => []
  end.

Theorem noted app : forall s, let s' := snd (run_app send app s) in
  (response_status s', response_size s') = note_all (messages app (world s)) (response_status s) (response_size s).
Proof.
  induction app as [|e|f k IH|m k IH]; intros s; simpl; [done|done|exact (IH (Seen (response_status s) (response_size s) (f (world s))))|].
  unfold send_wrapper. assert (world (note m s) = world s) as -> by (by destruct m as [| [] |]).
  destruct (send m (world s)) as [r w]. specialize (IH r (Seen (response_status (note m s)) (response_size (note m s)) w)).
  cbv zeta in IH. rewrite IH. by destruct m as [| [] |].
Qed.
End middleware.

Module Demo.
(** The records and the context. *)
Definition world := (list (string * fields) * option fields)%type.
#[export] Instance demo_clock : World world := { time_time w := (1%Q, w); sleep _ w := w; randbelow _ w := (0, w) }.
#[export] Instance demo_context : LogContext world := { request_context := snd; set_context c w := (fst w, c) }.
#[export] Instance demo_sink : LogSink world := { write _ event d w := ((event, add_request_context (snd w) d) :: fst w, snd w) }.
#[export] Instance demo_laws : ContextLaws world.
Proof. by split. Qed.

(** An application that logs who has logged in, and answers. *)
Definition login : asgi (W := world) :=
  Does (fun w => snd (log_authentication "anna" true "password" None None [] w))
    (Sends (Start 200) (fun _ => Sends (Body (Some 12)) (fun _ => Returns))).

Definition logged (w : world) : list (option fv * option fv) := map (fun r => (dget "user_id" (snd r), dget "status_code" (snd r))) (fst w).

(** Behind the middleware the record of the log-in has no user. *)
Lemma user_of_login_lost :
  logged (snd (middleware_call (fun _ => mret tt) true "POST" "/login" None 7 login ([], None))) =
    [(Some FNone, Some (FInt 200)); (Some FNone, None)] /\
  logged (snd (log_authentication "anna" true "password" None None [] ([], None))) = [(Some (FStr "anna"), None)].
Proof. by vm_compute. Qed.

(** Inside of a scope without user, within one that has one. *)
Definition annas : world := ([], Some [("user_id", FStr "anna"); ("session_id", FStr "s1")]).

(** A name that is given twice ends the call before anything is logged. *)
Lemma name_given_twice : is_ok (fst (log_authorization "anna" "passport" "read" true [("event_type", FStr "audit")] ([], None))) = false.
Proof. by vm_compute. Qed.
End Demo.
