(* ===== verification/ServiceMonitor.v ===== *)
(** * Service monitoring ([monitoring/service_monitor.py])

    [monitor] is the state of a [ServiceMonitor] with its metrics collector,
    health monitor and alert manager. The locks of the first two are taken by
    methods that call nothing outside and are not represented; the alert manager
    calls its callbacks while it holds its lock, so its methods run in [LM]. A
    callback is named by an identifier and may do anything to the monitor. *)

From S2P Require Import Prelude PyRuntime PyText PyNumbers Locks HealthMonitor.
Local Open Scope Z_scope.

Inductive MetricType := COUNTER | GAUGE | HISTOGRAM | SUMMARY.

Record HealthCheck (W : Type) := {
  description : string; check_function : M W bool; timeout_seconds : Q; critical : bool;
  interval_seconds : Q; last_check : option Z; last_result : option bool; last_error : option string }.
Arguments description {_} _.
Arguments check_function {_} _.
Arguments timeout_seconds {_} _.
Arguments critical {_} _.
Arguments interval_seconds {_} _.
Arguments last_check {_} _.
Arguments last_result {_} _.
Arguments last_error {_} _.

Record Metric := {
  m_name : string; metric_type : MetricType; m_value : Q; m_labels : pydict string;
  m_timestamp : Z; help_text : string }.

Record definition := { d_type : MetricType; d_help : string; d_created_at : Z }.

Record ServiceInfo := {
  service_name : string; service_version : string; instance_id : string; host : string; port : Z;
  start_time : Z; metadata : pydict string }.

Definition all_metrics := pydict (list Metric).

(** The condition of an alert reads the collector and the clock. *)
Record Alert (W : Type) := {
  alert_id : string; alert_name : string; alert_description : string; alert_severity : AlertSeverity;
  condition : all_metrics -> M W bool; triggered_at : option Z; resolved_at : option Z;
  is_active : bool; cooldown_seconds : Q; last_triggered : option Z }.
Arguments alert_id {_} _.
Arguments alert_name {_} _.
Arguments alert_description {_} _.
Arguments alert_severity {_} _.
Arguments condition {_} _.
Arguments triggered_at {_} _.
Arguments resolved_at {_} _.
Arguments is_active {_} _.
Arguments cooldown_seconds {_} _.
Arguments last_triggered {_} _.

(** psutil's view of the own process. *)
Class ProcessInfo (W : Type) := {
  memory_info_rss : M W Q; process_cpu_percent : M W Q; num_threads : M W Q }.

Section monitor.
Context {W : Type} `{World W, Env W, PsUtil W, ProcessInfo W, FloatText}.

Record monitor := Monitor {
  service_info : ServiceInfo;
  metrics : all_metrics; metric_definitions : pydict definition;
  health_checks : pydict (HealthCheck W); current_status : HealthStatus;
  status_history : list (HealthStatus * Z * pydict bool);
  alerts : pydict (Alert W); alert_callbacks : list string; alert_lock : bool;
  running : bool; stop_event : bool; env : W }.

Definition set_env (w : W) (s : monitor) : monitor :=
  Monitor (service_info s) (metrics s) (metric_definitions s) (health_checks s) (current_status s)
    (status_history s) (alerts s) (alert_callbacks s) (alert_lock s) (running s) (stop_event s) w.
Definition set_metrics (ms : all_metrics) (s : monitor) : monitor :=
  Monitor (service_info s) ms (metric_definitions s) (health_checks s) (current_status s)
    (status_history s) (alerts s) (alert_callbacks s) (alert_lock s) (running s) (stop_event s) (env s).
Definition set_definitions (ds : pydict definition) (s : monitor) : monitor :=
  Monitor (service_info s) (metrics s) ds (health_checks s) (current_status s)
    (status_history s) (alerts s) (alert_callbacks s) (alert_lock s) (running s) (stop_event s) (env s).
Definition set_checks (cs : pydict (HealthCheck W)) (s : monitor) : monitor :=
  Monitor (service_info s) (metrics s) (metric_definitions s) cs (current_status s)
    (status_history s) (alerts s) (alert_callbacks s) (alert_lock s) (running s) (stop_event s) (env s).
Definition set_status (st : HealthStatus) (h : list (HealthStatus * Z * pydict bool)) (s : monitor) : monitor :=
  Monitor (service_info s) (metrics s) (metric_definitions s) (health_checks s) st h
    (alerts s) (alert_callbacks s) (alert_lock s) (running s) (stop_event s) (env s).
Definition set_alerts (al : pydict (Alert W)) (s : monitor) : monitor :=
  Monitor (service_info s) (metrics s) (metric_definitions s) (health_checks s) (current_status s)
    (status_history s) al (alert_callbacks s) (alert_lock s) (running s) (stop_event s) (env s).
Definition set_running (r ev : bool) (s : monitor) : monitor :=
  Monitor (service_info s) (metrics s) (metric_definitions s) (health_checks s) (current_status s)
    (status_history s) (alerts s) (alert_callbacks s) (alert_lock s) r ev (env s).

#[export] Instance alert_manager_lock : Lock monitor := {
  held := alert_lock;
  set_held b s := Monitor (service_info s) (metrics s) (metric_definitions s) (health_checks s)
    (current_status s) (status_history s) (alerts s) (alert_callbacks s) b (running s) (stop_event s) (env s) }.

#[export] Instance alert_manager_lock_laws : LockLaws monitor.
Proof. split; intros; by try match goal with s : monitor |- _ => destruct s end. Qed.

Definition on_env {A} (m : M W A) : M monitor A := fun s =>
  let '(r, w) := m (env s) in (r, set_env w s).

Definition now_utc : M W Z := fun w => let '(t, w) := datetime_now w in (Ok t, w).
Definition clock : M W Q := fun w => let '(t, w) := time_time w in (Ok t, w).

(** ** [MetricsCollector] *)

Definition register_metric (name : string) (ty : MetricType) (help : string) : M monitor unit :=
  t ← on_env now_utc;
  modify (fun s => set_definitions
    (dset name {| d_type := ty; d_help := help; d_created_at := t |} (metric_definitions s)) s).

(** A series of 1000 is cut down to its latest 500 before the new metric. *)
Definition append_metric (m : Metric) (l : list Metric) : list Metric :=
  (if (1000 <=? length l)%nat then drop (length l - 500) l else l) ++ [m].

Definition record_metric (name : string) (value : Q) (labels : pydict string) : M monitor unit :=
  s ← get;
  let def := dget name (metric_definitions s) in
  t ← on_env now_utc;
  let m := {| m_name := name; metric_type := default GAUGE (option_map d_type def); m_value := value;
              m_labels := labels; m_timestamp := t; help_text := default "" (option_map d_help def) |} in
  modify (fun s => set_metrics (dset name (append_metric m (default [] (dget name (metrics s)))) (metrics s)) s).

Definition increment_counter (name : string) (labels : pydict string) : M monitor unit :=
  record_metric name 1 labels.
Definition set_gauge := record_metric.
Definition record_histogram := record_metric.

(** A filter that is [None] or empty selects everything. *)
Definition get_metrics (name_filter : option string) (ms : all_metrics) : list Metric :=
  let all := List.concat (dvalues ms) in
  if str_truthy name_filter then lfilter (fun m => contains (default "" name_filter) (m_name m)) all else all.

Definition get_latest_metric (name : string) (ms : all_metrics) : option Metric :=
  List.last (map Some (default [] (dget name ms))) None.

Definition collect_system_metrics : M monitor unit :=
  try_except
    (cpu ← on_env (cpu_percent 1);
     _ ← set_gauge "system.cpu.percent" cpu [];
     memory ← on_env virtual_memory;
     _ ← set_gauge "system.memory.percent" (vm_percent memory) [];
     _ ← set_gauge "system.memory.used" (vm_used memory) [];
     _ ← set_gauge "system.memory.available" (vm_available memory) [];
     disk ← on_env (disk_usage "/");
     _ ← set_gauge "system.disk.percent" (du_percent disk) [];
     _ ← set_gauge "system.disk.used" (du_used disk) [];
     _ ← set_gauge "system.disk.free" (du_free disk) [];
     rss ← on_env memory_info_rss;
     _ ← set_gauge "process.memory.rss" rss [];
     pcpu ← on_env process_cpu_percent;
     _ ← set_gauge "process.cpu.percent" pcpu [];
     threads ← on_env num_threads;
     set_gauge "process.num.threads" threads [])
    (fun _ => mret tt).

Definition _register_system_metrics : M monitor unit :=
  _ ← register_metric "system.cpu.percent" GAUGE "CPU usage percentage";
  _ ← register_metric "system.memory.percent" GAUGE "Memory usage percentage";
  _ ← register_metric "system.disk.percent" GAUGE "Disk usage percentage";
  _ ← register_metric "grpc.requests.total" COUNTER "Total gRPC requests";
  _ ← register_metric "grpc.requests.duration" HISTOGRAM "gRPC request duration";
  register_metric "grpc.errors.total" COUNTER "Total gRPC errors".

(** ** [HealthMonitor] *)

Definition add_health_check (name desc : string) (f : M W bool) (crit : bool) (timeout interval : Q) :
    M monitor unit :=
  modify (fun s => set_checks (dset name {| description := desc; check_function := f;
    timeout_seconds := timeout; critical := crit; interval_seconds := interval; last_check := None;
    last_result := None; last_error := None |} (health_checks s)) s).

(** A usage check: an exception of psutil is a failed check. *)
Definition below (limit : Q) (m : M W Q) : M W bool :=
  try_except (x ← m; mret (Qltb x limit)) (fun _ => mret false).
Definition _check_memory_usage : M W bool := below 90 (memory ← virtual_memory; mret (vm_percent memory)).
Definition _check_disk_usage : M W bool := below 85 (disk ← disk_usage "/"; mret (du_percent disk)).
Definition _check_cpu_usage : M W bool := below 95 (cpu_percent 1).

Definition _register_builtin_checks : M monitor unit :=
  _ ← add_health_check "memory_usage" "Check if memory usage is within acceptable limits"
        _check_memory_usage true 5 30;
  _ ← add_health_check "disk_usage" "Check if disk usage is within acceptable limits"
        _check_disk_usage true 5 30;
  add_health_check "cpu_usage" "Check if CPU usage is within acceptable limits"
    _check_cpu_usage false 5 30.

Definition checked (t : Z) (res : bool) (err : option string) (c : HealthCheck W) : HealthCheck W := {|
  description := description c; check_function := check_function c;
  timeout_seconds := timeout_seconds c; critical := critical c;
  interval_seconds := interval_seconds c; last_check := Some t; last_result := Some res;
  last_error := err |}.

Definition timeout_error (duration timeout : Q) : string :=
  "Health check timed out (" +:+ fmt_2f duration +:+ "s > " +:+ float_text timeout +:+ "s)".

Definition store_check (name : string) (c : HealthCheck W) : M monitor unit :=
  modify (fun s => set_checks (dset name c (health_checks s)) s).

Definition run_health_check (name : string) : M monitor bool :=
  s ← get;
  match dget name (health_checks s) with
  | None => mret false
  | Some c =>
      try_except
        (start ← on_env clock;
         res ← on_env (check_function c);
         finish ← on_env clock;
         let duration := (finish - start)%Q in
         let late := Qltb (timeout_seconds c) duration in
         let res := if late then false else res in
         let error := if late then Some (timeout_error duration (timeout_seconds c)) else None in
         t ← on_env now_utc;
         _ ← store_check name (checked t res error c);
         mret res)
        (fun e =>
         t ← on_env now_utc;
         _ ← store_check name (checked t false (Some (exn_message e)) c);
         mret false)
  end.

Fixpoint run_checks (names : list string) : M monitor (pydict bool) :=
  match names with
  | [] => mret []
  | n :: names => r ← run_health_check n; rs ← run_checks names; mret ((n, r) :: rs)
  end.

Definition is_critical (s : monitor) (name : string) : bool :=
  match dget name (health_checks s) with Some c => critical c | None => false end.

Definition status_of (s : monitor) (results : pydict bool) : HealthStatus :=
  let failed := map fst (lfilter (fun nr => negb (snd nr)) results) in
  if existsb (is_critical s) failed then UNHEALTHY
  else match failed with [] => HEALTHY | _ => DEGRADED end.

Definition _update_health_status (results : pydict bool) : M monitor unit :=
  s ← get;
  let new_status := status_of s results in
  if bool_decide (new_status = current_status s) then mret tt
  else
    t ← on_env now_utc;
    modify (fun s => set_status new_status (deque_append 100 (status_history s) (new_status, t, results)) s).

Definition run_all_health_checks : M monitor (pydict bool) :=
  s ← get;
  results ← run_checks (dkeys (health_checks s));
  _ ← _update_health_status results;
  mret results.

(** ** [AlertManager] *)

Definition now : LM monitor Z := lock_free (on_env now_utc).

Definition add_alert (name desc : string) (sev : AlertSeverity) (cond : all_metrics -> M W bool) (cooldown : Q) :
    LM monitor unit :=
  id ← lock_free (on_env (fun w => let '(u, w) := uuid4 w in (Ok u, w)));
  with_lock (lmodify (fun s => set_alerts (dset name {| alert_id := id; alert_name := name;
    alert_description := desc; alert_severity := sev; condition := cond; triggered_at := None;
    resolved_at := None; is_active := false; cooldown_seconds := cooldown; last_triggered := None |}
    (alerts s)) s)).

Definition _check_high_memory (ms : all_metrics) : M W bool :=
  mret (match get_latest_metric "system.memory.percent" ms with
        | Some m => Qltb 90 (m_value m) | None => false end).

(** The metrics whose age, less its whole days, is under [limit] seconds; the
    clock is read for each. *)
Fixpoint recent (limit : Z) (l : list Metric) : M W (list Metric) :=
  match l with
  | [] => mret []
  | m :: l =>
      t ← now_utc;
      rest ← recent limit l;
      mret (if td_seconds (t - m_timestamp m) <? limit then m :: rest else rest)
  end.

Definition _check_high_error_rate (ms : all_metrics) : M W bool :=
  recent_errors ← recent 300 (get_metrics (Some "grpc.errors.total") ms);
  mret (10 <? Z.of_nat (length recent_errors)).

Definition _check_service_unresponsive (ms : all_metrics) : M W bool :=
  recent_requests ← recent 600 (get_metrics (Some "grpc.requests.total") ms);
  mret (match recent_requests with
        | [] => match get_metrics (Some "grpc.requests.total") ms with [] => false | _ => true end
        | _ => false
        end).

Definition _register_builtin_alerts : LM monitor unit :=
  _ ← add_alert "high_memory_usage" "Memory usage is critically high" CRITICAL _check_high_memory 300;
  _ ← add_alert "high_error_rate" "Error rate is unusually high" ERROR _check_high_error_rate 300;
  add_alert "service_unresponsive" "Service appears to be unresponsive" CRITICAL
    _check_service_unresponsive 300.

Definition add_alert_callback (callback : string) : M monitor unit :=
  modify (fun s => Monitor (service_info s) (metrics s) (metric_definitions s) (health_checks s)
    (current_status s) (status_history s) (alerts s) (alert_callbacks s ++ [callback]) (alert_lock s)
    (running s) (stop_event s) (env s)).

Definition cooled_down (t : Z) (a : Alert W) : bool :=
  match last_triggered a with
  | None => true
  | Some last => Qltb (cooldown_seconds a * inject_Z second) (inject_Z (t - last))
  end.

Definition trigger (t : Z) (a : Alert W) : Alert W := {|
  alert_id := alert_id a; alert_name := alert_name a; alert_description := alert_description a;
  alert_severity := alert_severity a; condition := condition a; triggered_at := Some t;
  resolved_at := None; is_active := true; cooldown_seconds := cooldown_seconds a;
  last_triggered := Some t |}.

Definition resolve (t : Z) (a : Alert W) : Alert W := {|
  alert_id := alert_id a; alert_name := alert_name a; alert_description := alert_description a;
  alert_severity := alert_severity a; condition := condition a; triggered_at := triggered_at a;
  resolved_at := Some t; is_active := false; cooldown_seconds := cooldown_seconds a;
  last_triggered := last_triggered a |}.

Context (callback : string -> Alert W -> LM monitor unit).

Fixpoint notify (callbacks : list string) (a : Alert W) : LM monitor unit :=
  match callbacks with
  | [] => mret tt
  | c :: cs => _ ← ltry (callback c a) (fun _ => mret tt); notify cs a
  end.

Definition store_alert (name : string) (a : Alert W) : LM monitor unit :=
  lmodify (fun s => set_alerts (dset name a (alerts s)) s).

(** The body of the loop for one alert: the alert if it is triggered. *)
Definition check_alert (name : string) : LM monitor (list (Alert W)) :=
  ltry
    (s ← lget;
     match dget name (alerts s) with
     | None => mret []
     | Some a =>
         should_trigger ← lock_free (on_env (condition a (metrics s)));
         t ← now;
         if should_trigger && negb (is_active a)
         then
           if cooled_down t a
           then
             _ ← store_alert name (trigger t a);
             s ← lget;
             _ ← notify (alert_callbacks s) (trigger t a);
             mret [trigger t a]
           else mret []
         else if negb should_trigger && is_active a
         then _ ← store_alert name (resolve t a); mret []
         else mret []
     end)
    (fun _ => mret []).

Fixpoint check_each (names : list string) : LM monitor (list (Alert W)) :=
  match names with
  | [] => mret []
  | n :: names => t ← check_alert n; ts ← check_each names; mret (t ++ ts)
  end.

Definition check_alerts : LM monitor (list (Alert W)) :=
  with_lock (s ← lget; check_each (dkeys (alerts s))).

Definition get_active_alerts : LM monitor (list (Alert W)) :=
  with_lock (s ← lget; mret (lfilter is_active (dvalues (alerts s)))).

(** ** [ServiceMonitor] *)

(** [start_monitoring] and [stop_monitoring], without the threads. *)
Definition start_monitoring : M monitor unit :=
  modify (fun s => if running s then s else set_running true false s).
Definition stop_monitoring : M monitor unit :=
  modify (fun s => if running s then set_running false true s else s).

(** One turn of each loop, without its wait. *)
Definition metrics_turn : M monitor unit := try_except collect_system_metrics (fun _ => mret tt).
Definition health_turn : M monitor unit :=
  try_except (_ ← run_all_health_checks; mret tt) (fun _ => mret tt).
Definition alert_turn : LM monitor unit := ltry (_ ← check_alerts; mret tt) (fun _ => mret tt).

(** [MetricsInterceptor.measure] around a handler, and [monitor_operation]. *)
Definition error_labels (e : exn) : pydict string := [("error_type", cls_name (exn_class e))].

Definition measured {A} (total success errors duration : string) (labels : pydict string)
    (behavior : M W A) : M monitor A :=
  start ← on_env clock;
  _ ← (if String.eqb total "" then mret tt else increment_counter total labels);
  try_finally
    (try_except
      (res ← on_env behavior;
       _ ← increment_counter success labels;
       mret res)
      (fun e => _ ← increment_counter errors (labels ++ error_labels e); raise e))
    (finish ← on_env clock;
     record_histogram duration (finish - start) labels).

Definition measure {A} (method : string) (behavior : M W A) : M monitor A :=
  measured "grpc.requests.total" "grpc.requests.success.total" "grpc.errors.total"
    "grpc.requests.duration" [("method", method)] behavior.

Definition monitor_operation {A} (operation : string) (behavior : M W A) : M monitor A :=
  measured "" ("operations." +:+ operation +:+ ".success.total")
    ("operations." +:+ operation +:+ ".errors.total") ("operations." +:+ operation +:+ ".duration")
    [] behavior.

(** [create_service_monitor]: the collector, the health monitor and the alert
    manager with their built-in definitions. *)
Definition create_service_monitor (info : ServiceInfo) (w : W) : monitor :=
  let s0 := Monitor info [] [] [] UNKNOWN [] [] [] false false false w in
  let s1 := snd (_register_system_metrics s0) in
  let s2 := snd (_register_builtin_checks s1) in
  snd (_register_builtin_alerts s2).
End monitor.
Arguments monitor : clear implicits.

(** ** The series of a metric *)

(** What the collector keeps of a log: a suffix of at most 1000 metrics that
    is either everything or at least the latest 501. *)
Definition kept (log l : list Metric) : Prop :=
  exists old, log = old ++ l /\ (length l <= 1000)%nat /\ (old = [] \/ (501 <= length l)%nat).

Lemma kept_append log l m : kept log l -> kept (log ++ [m]) (append_metric m l).
Proof.
  intros (old & -> & Hlen & Hold). unfold append_metric.
  destruct (Nat.leb_spec 1000 (length l)) as [Hge|Hlt].
  - exists (old ++ take (length l - 500) l). split_and!.
    + rewrite <- !app_assoc. f_equal. by rewrite app_assoc, take_drop.
    + rewrite length_app, length_drop. simpl. lia.
    + right. rewrite length_app, length_drop. simpl. lia.
  - exists old. rewrite app_assoc. split_and!; [done|rewrite length_app; simpl; lia|].
    destruct Hold as [->|Hold]; [by left|right]. rewrite length_app. simpl. lia.
Qed.

Section metrics.
Context {W : Type} `{World W, Env W, PsUtil W, ProcessInfo W, FloatText}.
Implicit Types (s : monitor W).

(** A recording: name, value and labels. *)
Definition recording : Type := string * Q * pydict string.
Definition is_for (name : string) (c : recording) : bool := String.eqb (fst (fst c)) name.

Definition record_all (cs : list recording) s : monitor W :=
  foldl (fun s c => snd (record_metric (fst (fst c)) (snd (fst c)) (snd c) s)) s cs.

Definition matches (c : recording) (m : Metric) : Prop :=
  m_name m = fst (fst c) /\ m_value m = snd (fst c) /\ m_labels m = snd c.

Lemma record_metric_run name v labels s : exists m,
  matches (name, v, labels) m /\
  record_metric name v labels s = (Ok tt,
    set_metrics (dset name (append_metric m (default [] (dget name (metrics s)))) (metrics s))
      (set_env (snd (datetime_now (env s))) s)).
Proof.
  unfold record_metric, mbind, M_bind, get, on_env, now_utc. cbn beta iota.
  destruct (datetime_now (env s)) as [t w]. eexists. split; [|reflexivity]. done.
Qed.

(** However many metrics are recorded, of whatever names: a series never
    exceeds 1000 metrics and is the end of the log of the recordings of its
    name, in order, with their values and labels: all of it, or at least the
    latest 501. *)
Theorem series_keeps_recent cs s name : metrics s = [] ->
  exists log, Forall2 matches (lfilter (is_for name) cs) log /\
    kept log (default [] (dget name (metrics (record_all cs s)))).
Proof.
  intros Hs. induction cs as [|[[n v] labels] cs IH] using rev_ind.
  - exists []. simpl. rewrite Hs. split; [constructor|]. exists []. split_and!; [done|simpl; lia|by left].
  - destruct IH as (log & Hlog & Hkept). unfold record_all. rewrite foldl_app. simpl.
    fold (record_all cs s). destruct (record_metric_run n v labels (record_all cs s)) as (m & Hm & ->).
    simpl. rewrite lfilter_app, dget_dset. simpl. unfold is_for at 2. simpl.
    destruct (String.eqb_spec n name) as [->|Hne].
    + exists (log ++ [m]). split; [by apply Forall2_app; [|constructor]|]. by apply kept_append.
    + exists log. by rewrite app_nil_r.
Qed.

(** ** Errors of other days *)

Lemma recent_all limit l w now : (forall w, fst (datetime_now w) = now) ->
  Forall (fun m => td_seconds (now - m_timestamp m) < limit) l ->
  exists w', recent (W:=W) limit l w = (Ok l, w').
Proof.
  intros Hclock. revert w. induction l as [|m l IH]; intros w Hl; simpl; [by eexists|].
  apply Forall_cons in Hl as [Hm Hl]. unfold mbind, M_bind, now_utc.
  pose proof (Hclock w) as Hnow. destruct (datetime_now w) as [t w1]. simpl in Hnow. subst t.
  destruct (IH w1 Hl) as (w' & ->). unfold mret, M_ret.
  assert (td_seconds (now - m_timestamp m) <? limit = true) as -> by lia. by eexists.
Qed.

(** The error-rate alert takes the seconds of an age without its days:
    more than ten errors that happened at the same time of day any number of
    days ago raise it as if they were recent. *)
Theorem old_errors_still_alert (ms : all_metrics) errs now days w :
  get_metrics (Some "grpc.errors.total") ms = errs -> (10 < length errs)%nat ->
  (forall w, fst (datetime_now w) = now) ->
  Forall (fun m => 0 <= now - days * day - m_timestamp m < 300 * second) errs ->
  exists w', _check_high_error_rate ms w = (Ok true, w').
Proof.
  intros Herrs Hlen Hclock Hold. unfold _check_high_error_rate, mbind, M_bind. rewrite Herrs.
  destruct (recent_all 300 errs w now Hclock) as (w' & ->).
  - eapply Forall_impl; [exact Hold|]. intros m [Hlo Hhi]. simpl in Hlo, Hhi.
    replace (now - m_timestamp m) with (now - days * day - m_timestamp m + days * day) by lia.
    rewrite td_seconds_days. unfold td_seconds.
    rewrite Z.mod_small by (unfold day, second in *; lia).
    apply Z.div_lt_upper_bound; unfold second in *; lia.
  - exists w'. unfold mret, M_ret. f_equal. f_equal. lia.
Qed.
End metrics.

(** ** The life of an alert *)

Section alerts.
Context {W : Type} `{World W, Env W, PsUtil W, ProcessInfo W, FloatText}.
Context (callback : string -> Alert W -> LM (monitor W) unit).
Implicit Types (s : monitor W) (a : Alert W).

(** The automaton of one alert: its next state, and whether it is triggered,
    for the value of its condition at a time. *)
Definition alert_step (should_trigger : bool) (t : Z) a : Alert W * bool :=
  if should_trigger && negb (is_active a)
  then if cooled_down t a then (trigger t a, true) else (a, false)
  else if negb should_trigger && is_active a then (resolve t a, false)
  else (a, false).

(** A callback as a computation of the environment. *)
Context (effect : string -> Alert W -> M W unit).

Fixpoint effects (callbacks : list string) a (w : W) : W :=
  match callbacks with [] => w | c :: cs => effects cs a (snd (effect c a w)) end.

(** One round over the alerts, each stepping on its own. *)
Fixpoint round (callbacks : list string) (ms : all_metrics) (items : pydict (Alert W)) (w : W) :
    pydict (Alert W) * list (Alert W) * W :=
  match items with
  | [] => ([], [], w)
  | (name, a) :: items =>
      match condition a ms w with
      | (Raise _, w) =>
          let '(items', ts, w) := round callbacks ms items w in ((name, a) :: items', ts, w)
      | (Ok b, w) =>
          let '(t, w) := datetime_now w in
          let '(a', hit) := alert_step b t a in
          let w := if hit then effects callbacks a' w else w in
          let '(items', ts, w) := round callbacks ms items w in
          ((name, a') :: items', (if hit then a' :: ts else ts), w)
      end
  end.

(** *** What is promised of an alert

    The value of its condition at a time makes an inactive alert active, at that time,
    unless it was triggered at most its cooldown ago, and ends an active one; nothing
    else changes it. *)
Definition same_alert a a' : Prop :=
  alert_id a' = alert_id a /\ alert_name a' = alert_name a /\ alert_description a' = alert_description a /\
  alert_severity a' = alert_severity a /\ condition a' = condition a /\ cooldown_seconds a' = cooldown_seconds a.

Inductive moves a : bool -> Z -> Alert W -> bool -> Prop :=
| fires t a' :
    is_active a = false ->
    (forall last, last_triggered a = Some last -> (cooldown_seconds a * 1000000 < inject_Z (t - last))%Q) ->
    same_alert a a' -> is_active a' = true -> triggered_at a' = Some t -> last_triggered a' = Some t -> resolved_at a' = None ->
    moves a true t a' true
| cools t last :
    is_active a = false -> last_triggered a = Some last -> (inject_Z (t - last) <= cooldown_seconds a * 1000000)%Q ->
    moves a true t a false
| lasts t : is_active a = true -> moves a true t a false
| ends t a' :
    is_active a = true -> same_alert a a' -> is_active a' = false -> resolved_at a' = Some t ->
    triggered_at a' = triggered_at a -> last_triggered a' = last_triggered a ->
    moves a false t a' false
| rests t : is_active a = false -> moves a false t a false.

(** A round takes the alerts in order, each with the value of its own condition and the
    time that is read after it; the callbacks hear of one that fires, in order, before
    the next alert is looked at. *)
Inductive rounds (callbacks : list string) (ms : all_metrics) :
    pydict (Alert W) -> W -> pydict (Alert W) -> list (Alert W) -> W -> Prop :=
| rounds_end w : rounds callbacks ms [] w [] [] w
| rounds_raised name a e w w1 items items' ts w' :
    condition a ms w = (Raise e, w1) -> rounds callbacks ms items w1 items' ts w' ->
    rounds callbacks ms ((name, a) :: items) w ((name, a) :: items') ts w'
| rounds_quiet name a a' b t w w1 w2 items items' ts w' :
    condition a ms w = (Ok b, w1) -> datetime_now w1 = (t, w2) -> moves a b t a' false ->
    rounds callbacks ms items w2 items' ts w' ->
    rounds callbacks ms ((name, a) :: items) w ((name, a') :: items') ts w'
| rounds_fired name a a' b t w w1 w2 items items' ts w' :
    condition a ms w = (Ok b, w1) -> datetime_now w1 = (t, w2) -> moves a b t a' true ->
    rounds callbacks ms items (foldl (fun w c => snd (effect c a' w)) w2 callbacks) items' ts w' ->
    rounds callbacks ms ((name, a) :: items) w ((name, a') :: items') (a' :: ts) w'.

Lemma effects_foldl cs a w : effects cs a w = foldl (fun w c => snd (effect c a w)) w cs.
Proof. revert w. induction cs as [|c cs IH]; intros w; [done|]. apply IH. Qed.

Lemma alert_step_moves b t a a' hit : alert_step b t a = (a', hit) -> moves a b t a' hit.
Proof.
  unfold alert_step. destruct b, (is_active a) eqn:Ha; simpl.
  - intros [= <- <-]. by apply lasts.
  - unfold cooled_down. destruct (last_triggered a) as [last|] eqn:Hl; [destruct (Qltb _ _) eqn:Hq|]; intros [= <- <-].
    + apply fires; try done. intros last'. rewrite Hl. intros [= <-]. by apply Qltb_lt.
    + apply (cools a t last); [done..|]. apply Qnot_lt_le. intros Hlt.
      assert (Qltb (cooldown_seconds a * inject_Z second) (inject_Z (t - last)) = true) by (by apply Qltb_lt). congruence.
    + apply fires; try done. intros last'. by rewrite Hl.
  - intros [= <- <-]. by apply ends.
  - intros [= <- <-]. by apply rests.
Qed.

Lemma round_rounds cs ms items w : let '(items', ts, w') := round cs ms items w in rounds cs ms items w items' ts w'.
Proof.
  revert w. induction items as [|[name a] items IH]; intros w; simpl; [apply rounds_end|].
  destruct (condition a ms w) as [[b|e] w1] eqn:Hc.
  - destruct (datetime_now w1) as [t w2] eqn:Ht. destruct (alert_step b t a) as [a' []] eqn:Hs; apply alert_step_moves in Hs.
    + rewrite effects_foldl. specialize (IH (foldl (fun w c => snd (effect c a' w)) w2 cs)). destruct (round cs ms items _) as [[items' ts] w'].
      by eapply rounds_fired.
    + specialize (IH w2). destruct (round cs ms items w2) as [[items' ts] w']. by eapply rounds_quiet.
  - specialize (IH w1). destruct (round cs ms items w1) as [[items' ts] w']. by eapply rounds_raised.
Qed.

Definition tame_callbacks : Prop :=
  (forall c a s, callback c a s = lock_free (on_env (effect c a)) s) /\
  (forall c a w e, fst (effect c a w) = Raise e -> catchable e = true).

Definition tame_conditions (items : pydict (Alert W)) : Prop :=
  Forall (fun na => forall ms w e, fst (condition (snd na) ms w) = Raise e -> catchable e = true) items.

Context (Hcb : tame_callbacks).

Lemma notify_run cs a s : notify callback cs a s = (Done (Ok tt), set_env (effects cs a (env s)) s).
Proof using Hcb.
  destruct Hcb as [Hrun Htame]. revert s. induction cs as [|c cs IH]; intros s; simpl; [by destruct s|].
  unfold mbind, LM_bind, ltry. rewrite Hrun. unfold lock_free, on_env.
  pose proof (Htame c a (env s)) as Ht. destruct (effect c a (env s)) as [[[]|e] w]; simpl in *.
  - by rewrite IH.
  - rewrite (Ht e eq_refl). unfold mret, LM_ret. by rewrite IH.
Qed.

Lemma dget_middle {V} n (v : V) pre post : ~ In n (dkeys pre) -> dget n (pre ++ (n, v) :: post) = Some v.
Proof.
  induction pre as [|[k u] pre IH]; simpl; intros Hn; [by rewrite String.eqb_refl|].
  destruct (String.eqb_spec n k); [naive_solver|]. apply IH. naive_solver.
Qed.

Lemma dset_middle {V} n (v u : V) pre post : ~ In n (dkeys pre) ->
  dset n v (pre ++ (n, u) :: post) = pre ++ (n, v) :: post.
Proof.
  induction pre as [|[k x] pre IH]; simpl; intros Hn; [by rewrite String.eqb_refl|].
  destruct (String.eqb_spec n k); [naive_solver|]. f_equal. apply IH. naive_solver.
Qed.

Lemma set_alerts_same s : set_alerts (alerts s) s = s.
Proof. by destruct s. Qed.

(** One alert steps; the others, before and after it, stay. *)
Lemma check_alert_run name a pre post s :
  alerts s = pre ++ (name, a) :: post -> ~ In name (dkeys pre) ->
  (forall ms w e, fst (condition a ms w) = Raise e -> catchable e = true) ->
  check_alert callback name s =
  let '(items, ts, w) := round (alert_callbacks s) (metrics s) [(name, a)] (env s) in
  (Done (Ok ts), set_env w (set_alerts (pre ++ items ++ post) s)).
Proof using Hcb.
  intros Hal Hn Htame. unfold check_alert, ltry, mbind, LM_bind, lget, lock_free. cbn beta iota.
  rewrite Hal, dget_middle by done. unfold on_env at 1. simpl.
  pose proof (Htame (metrics s) (env s)) as Ht. destruct (condition a (metrics s) (env s)) as [[b|e] w].
  2:{ rewrite (Ht e eq_refl). unfold mret, LM_ret. simpl. rewrite <- Hal. by destruct s. }
  unfold now, lock_free, on_env, now_utc. simpl. destruct (datetime_now w) as [t w'].
  unfold alert_step. destruct (b && negb (is_active a)).
  - destruct (cooled_down t a).
    + unfold store_alert, lmodify. cbn beta iota. rewrite notify_run. unfold mret, LM_ret. simpl.
      by rewrite Hal, dset_middle by done.
    + unfold mret, LM_ret. simpl. rewrite <- Hal. by destruct s.
  - destruct (negb b && is_active a).
    + unfold store_alert, lmodify, mret, LM_ret. simpl. by rewrite Hal, dset_middle by done.
    + unfold mret, LM_ret. simpl. rewrite <- Hal. by destruct s.
Qed.

Lemma round_cons cs ms name a items w :
  round cs ms ((name, a) :: items) w =
  let '(i1, t1, w1) := round cs ms [(name, a)] w in
  let '(i2, t2, w2) := round cs ms items w1 in (i1 ++ i2, t1 ++ t2, w2).
Proof.
  simpl. destruct (condition a ms w) as [[b|e] w1]; [|by destruct (round cs ms items w1) as [[? ?] ?]].
  destruct (datetime_now w1) as [t w2]. destruct (alert_step b t a) as [a' []].
  - by destruct (round cs ms items _) as [[? ?] ?].
  - by destruct (round cs ms items _) as [[? ?] ?].
Qed.

Lemma round_keys cs ms items w : dkeys (fst (fst (round cs ms items w))) = dkeys items.
Proof.
  revert w. induction items as [|[n a] items IH]; intros w; [done|]. simpl.
  destruct (condition a ms w) as [[b|e] w1]; [destruct (datetime_now w1) as [t w2], (alert_step b t a) as [a' hit]|];
    match goal with |- context [round cs ms items ?w'] => specialize (IH w') end;
    destruct (round cs ms items _) as [[? ?] ?]; simpl in *; by f_equal.
Qed.

Lemma check_each_run items : forall pre s,
  alerts s = pre ++ items -> dwf (pre ++ items) -> tame_conditions items ->
  check_each callback (dkeys items) s =
  let '(items', ts, w) := round (alert_callbacks s) (metrics s) items (env s) in
  (Done (Ok ts), set_env w (set_alerts (pre ++ items') s)).
Proof using Hcb.
  induction items as [|[n a] items IH]; intros pre s Hal Hwf Htame.
  { simpl. unfold mret, LM_ret. rewrite <- Hal. by destruct s. }
  apply Forall_cons in Htame as [Ha Htame]. rewrite round_cons.
  assert (Hn : ~ In n (dkeys pre)).
  { unfold dwf, dkeys in Hwf. rewrite map_app in Hwf. apply NoDup_app in Hwf as (_ & Hdis & _).
    intros Hin. apply (Hdis n); [by apply list_elem_of_In|simpl; set_solver]. }
  change (check_each callback (dkeys ((n, a) :: items)) s)
    with ((t ← check_alert callback n; ts ← check_each callback (dkeys items); mret (t ++ ts)) s).
  unfold mbind, LM_bind.
  rewrite (check_alert_run n a pre items s Hal Hn Ha).
  pose proof (round_keys (alert_callbacks s) (metrics s) [(n, a)] (env s)) as Hk.
  destruct (round _ _ [(n, a)] (env s)) as [[i1 t1] w1]. simpl in Hk.
  destruct i1 as [|[n' a'] [|? ?]]; simpl in Hk; [done| |done]. injection Hk as ->.
  set (s1 := set_env w1 (set_alerts (pre ++ [(n, a')] ++ items) s)).
  assert (Hwf1 : dwf ((pre ++ [(n, a')]) ++ items)).
  { unfold dwf, dkeys in *. rewrite <- app_assoc, map_app in *. done. }
  rewrite (IH (pre ++ [(n, a')]) s1); [|by unfold s1; simpl; rewrite <- app_assoc|done|done].
  change (alert_callbacks s1) with (alert_callbacks s). change (metrics s1) with (metrics s).
  change (env s1) with w1.
  destruct (round _ _ items w1) as [[i2 t2] w2]. unfold mret, LM_ret. simpl.
  rewrite <- app_assoc. by destruct s.
Qed.


(** The states of an alert over values of its condition at given times, and
    whether any of the steps triggers it. *)
Fixpoint alert_run (tr : list (bool * Z)) a : Alert W * bool :=
  match tr with
  | [] => (a, false)
  | (b, t) :: tr =>
      let '(a, hit) := alert_step b t a in
      let '(a, hits) := alert_run tr a in (a, hit || hits)
  end.

Lemma alert_run_quiet tr a : snd (alert_run tr a) = false ->
  last_triggered (fst (alert_run tr a)) = last_triggered a /\
  cooldown_seconds (fst (alert_run tr a)) = cooldown_seconds a /\
  (is_active a = true -> is_active (fst (alert_run tr a)) = false -> In false (map fst tr)).
Proof.
  revert a. induction tr as [|[b t] tr IH]; intros a; simpl; [naive_solver congruence|].
  unfold alert_step. destruct b, (is_active a) eqn:Ea; simpl.
  - specialize (IH a). destruct (alert_run tr a). naive_solver.
  - destruct (cooled_down t a); [by destruct (alert_run tr (trigger t a))|].
    specialize (IH a). destruct (alert_run tr a). naive_solver.
  - specialize (IH (resolve t a)). destruct (alert_run tr (resolve t a)). naive_solver.
  - specialize (IH a). destruct (alert_run tr a). naive_solver.
Qed.

(** Two successive triggerings of an alert are more than its cooldown
    apart, and its condition has been found false in between. *)
Theorem triggers_are_paced a tr t1 t2 b1 b2 :
  snd (alert_step b1 t1 a) = true ->
  snd (alert_run tr (fst (alert_step b1 t1 a))) = false ->
  snd (alert_step b2 t2 (fst (alert_run tr (fst (alert_step b1 t1 a))))) = true ->
  (cooldown_seconds a * inject_Z second < inject_Z (t2 - t1))%Q /\ In false (map fst tr).
Proof.
  intros H1' Htr H2'. assert (Hstep : fst (alert_step b1 t1 a) = trigger t1 a).
  { revert H1'. unfold alert_step. repeat case_match; done. }
  rewrite Hstep in *. destruct (alert_run_quiet tr (trigger t1 a) Htr) as (Hlast & Hcool & Hin).
  destruct (alert_run tr (trigger t1 a)) as [a2 hits]. simpl in *. revert H2'. unfold alert_step.
  destruct (b2 && negb (is_active a2)) eqn:Eb; [|by destruct (negb b2 && is_active a2)].
  unfold cooled_down. rewrite Hlast, Hcool. destruct (Qltb _ _) eqn:Eq; [|done]. intros _.
  apply Qltb_lt in Eq. split; [done|]. apply Hin; [done|].
  apply andb_true_iff in Eb as [_ Eb]. by apply negb_true_iff in Eb.
Qed.
End alerts.

(** ** Callbacks that use the alert manager *)

Section reentrant.
Context {W : Type} `{World W, Env W, PsUtil W, ProcessInfo W, FloatText}.
Context (callback : string -> Alert W -> LM (monitor W) unit).

(** The alert manager's methods that take its lock. *)
Definition blocked (s : monitor W) : Prop :=
  check_alerts callback s = (Blocks, s) /\ get_active_alerts s = (Blocks, s) /\
  forall name desc sev cond cooldown, fst (add_alert name desc sev cond cooldown s) = Blocks.

Lemma check_alert_triggers name a (s : monitor W) w t w' :
  dget name (alerts s) = Some a -> condition a (metrics s) (env s) = (Ok true, w) ->
  datetime_now w = (t, w') -> is_active a = false -> cooled_down t a = true ->
  check_alert callback name s =
  ltry (_ ← notify callback (alert_callbacks s) (trigger t a); mret [trigger t a]) (fun _ => mret [])
    (set_env w' (set_alerts (dset name (trigger t a) (alerts s)) s)).
Proof.
  intros Ha Hcond Hnow Hact Hcool. unfold check_alert, ltry, mbind, LM_bind, lget. cbn beta iota.
  rewrite Ha. unfold lock_free at 1, on_env at 1. rewrite Hcond. cbn beta iota.
  unfold now, lock_free, on_env, now_utc. simpl env. rewrite Hnow. cbn beta iota.
  rewrite Hact, Hcool. done.
Qed.

(** A callback that asks for the active alerts hangs: it runs while
    [check_alerts] holds the lock. The check never returns, and from then on no
    alert is checked, listed or added. *)
Theorem reentrant_callback_hangs name a rest cs c w t w' (s : monitor W) :
  alert_lock s = false -> alerts s = (name, a) :: rest -> alert_callbacks s = c :: cs ->
  (forall a, callback c a = (_ ← get_active_alerts; mret tt)) ->
  condition a (metrics s) (env s) = (Ok true, w) -> datetime_now w = (t, w') ->
  is_active a = false -> cooled_down t a = true ->
  exists s', check_alerts callback s = (Blocks, s') /\ blocked s'.
Proof.
  intros Hl Hal Hcs Hc Hcond Hnow Hact Hcool.
  set (s1 := set_env w' (set_alerts ((name, trigger t a) :: rest) (set_held true s))).
  assert (Hcheck : check_alert callback name (set_held true s) = (Blocks, s1)).
  { rewrite (check_alert_triggers name a (set_held true s) w t w'); [|..|done|done];
      [|simpl; rewrite Hal; simpl; by rewrite String.eqb_refl|done|done].
    change (alerts (set_held true s)) with (alerts s).
    change (alert_callbacks (set_held true s)) with (alert_callbacks s).
    rewrite Hal, Hcs. cbn [dset]. rewrite String.eqb_refl. cbn [notify]. rewrite Hc.
    unfold mbind, LM_bind, ltry, get_active_alerts. by rewrite with_lock_held. }
  exists s1. split.
  - assert (Heach : check_each callback (dkeys (alerts (set_held true s))) (set_held true s) = (Blocks, s1)).
    { change (alerts (set_held true s)) with (alerts s). rewrite Hal.
      change (check_each callback (dkeys ((name, a) :: rest)) ?x)
        with ((t ← check_alert callback name; ts ← check_each callback (dkeys rest); mret (t ++ ts)) x).
      unfold mbind, LM_bind. by rewrite Hcheck. }
    unfold check_alerts, with_lock. change (held s) with (alert_lock s). rewrite Hl.
    unfold mbind, LM_bind, lget. cbn beta iota. by rewrite Heach.
  - split_and!; [by apply with_lock_held..|].
    intros. unfold add_alert, mbind, LM_bind, lock_free, on_env.
    destruct (uuid4 (env s1)) as [u w2]. by rewrite with_lock_held.
Qed.
End reentrant.

(** ** Concrete runs *)

Module Demo.

#[local] Instance still : World script := {
  time_time w := (0%Q, w); sleep _ w := w; randbelow n w := (0, w) }.
#[local] Instance machine : PsUtil script := {
  cpu_percent _ w := (Ok 10%Q, w);
  virtual_memory w := (Ok {| vm_percent := 95; vm_used := 95; vm_available := 5 |}, w);
  disk_usage _ w := (Ok {| du_percent := 50; du_used := 50; du_free := 50 |}, w) }.
#[local] Instance process : ProcessInfo script := {
  memory_info_rss w := (Ok 1%Q, w); process_cpu_percent w := (Ok 1%Q, w); num_threads w := (Ok 4%Q, w) }.
#[local] Instance no_text : FloatText := { float_text _ := "x" }.

Definition info : ServiceInfo := {|
  service_name := "svc"; service_version := "1.0.0"; instance_id := "i"; host := "h"; port := 0;
  start_time := 0; metadata := [] |}.
Definition noon : script := {| script_ids := ["a1"; "a2"; "a3"]; script_clock := 43200 * second |}.
Definition svc : monitor script := create_service_monitor info noon.

Lemma series_keeps_recent_witness :
  let cs := [("a", 1%Q, []); ("b", 2%Q, []); ("a", 3%Q, [])] in
  exists log, Forall2 matches (lfilter (is_for "a") cs) log /\
    kept log (default [] (dget "a" (metrics (record_all cs svc)))).
Proof. intros cs. apply (series_keeps_recent cs svc "a"). vm_compute. reflexivity. Defined.

(** A clock that stands still. *)
#[local] Instance frozen : Env unit := { uuid4 w := ("", w); datetime_now w := (100 * day, w) }.
#[local] Instance frozen_time : World unit := {
  time_time w := (0%Q, w); sleep _ w := w; randbelow n w := (0, w) }.

(** Eleven errors, a minute old but for three days. *)
Definition three_days_old : Metric := {|
  m_name := "grpc.errors.total"; metric_type := COUNTER; m_value := 1; m_labels := [];
  m_timestamp := 97 * day - 60 * second; help_text := "" |}.
Definition errors : list Metric := replicate 11 three_days_old.

Lemma old_errors_still_alert_witness :
  exists w', _check_high_error_rate [("grpc.errors.total", errors)] tt = (Ok true, w').
Proof.
  apply (old_errors_still_alert [("grpc.errors.total", errors)] errors (100 * day) 3 tt).
  - vm_compute. reflexivity.
  - simpl. lia.
  - reflexivity.
  - repeat constructor; vm_compute; done.
Defined.

(** A callback that works, and one that lists the active alerts. *)
Definition works (c : string) (a : Alert script) : M script unit := fun w => (Ok tt, w).
Definition log_only (c : string) (a : Alert script) : LM (monitor script) unit := lock_free (on_env (works c a)).
Definition lists_active (c : string) (a : Alert script) : LM (monitor script) unit :=
  _ ← get_active_alerts; mret tt.

Definition always : Alert script := {|
  alert_id := "a0"; alert_name := "always"; alert_description := ""; alert_severity := INFO;
  condition := fun _ w => (Ok true, w); triggered_at := None; resolved_at := None; is_active := false;
  cooldown_seconds := 300; last_triggered := None |}.

Definition busy : monitor script := snd (add_alert_callback "log" (set_alerts [("always", always)] svc)).


Lemma triggers_are_paced_witness :
  let tr := [(true, 10); (false, 20 * second)] in
  let again := fst (alert_run tr (fst (alert_step true 0 always))) in
  (cooldown_seconds always * inject_Z second < inject_Z (400 * second - 0))%Q /\ In false (map fst tr).
Proof.
  intros tr again. apply (triggers_are_paced always tr 0 (400 * second) true true); reflexivity.
Defined.

Lemma reentrant_callback_hangs_witness :
  exists s', check_alerts lists_active busy = (Blocks, s') /\ blocked lists_active s'.
Proof.
  apply (reentrant_callback_hangs lists_active "always" always [] [] "log" (env busy)
    (fst (datetime_now (env busy))) (snd (datetime_now (env busy))) busy);
    first [intros; reflexivity | vm_compute; reflexivity].
Defined.
End Demo.
