(* ===== verification/Annex9.v ===== *)
(** * Annex 9 policies ([policies/annex9_policies.py])

    Background checks, electronic records with their integrity hash, and
    visa-free entry records, and the [Annex9PolicyManager] that keeps them. The
    record objects are shared with the callers; here they live in the manager's
    dictionaries under their identifiers. SHA-256 and the storage service are
    parameters; the clock and the identifiers come from the environment. *)

From S2P Require Import Prelude PyRuntime PyText.
Local Open Scope Z_scope.

(** ** Data *)

Inductive BackgroundCheckStatus := PENDING | IN_PROGRESS | COMPLETED | FAILED | EXPIRED.
Inductive VisaFreeEntryStatus := ELIGIBLE | NOT_ELIGIBLE | SUSPENDED | UNDER_REVIEW.

#[export] Instance BackgroundCheckStatus_eq_dec : EqDecision BackgroundCheckStatus.
Proof. solve_decision. Defined.
#[export] Instance VisaFreeEntryStatus_eq_dec : EqDecision VisaFreeEntryStatus.
Proof. solve_decision. Defined.

Definition visa_status_value (s : VisaFreeEntryStatus) : string :=
  match s with
  | ELIGIBLE => "eligible" | NOT_ELIGIBLE => "not_eligible" | SUSPENDED => "suspended"
  | UNDER_REVIEW => "under_review"
  end.

Record BackgroundCheckRecord := {
  b_record_id : string; b_cmc_id : string; check_authority : string; check_reference : string;
  check_type : string; b_status : BackgroundCheckStatus; requested_at : Z; started_at : option Z;
  completed_at : option Z; expires_at : option Z; check_scope : list string; findings : pydict json;
  verification_code : option string; annex9_compliant : bool; b_retention_period_years : Z }.

Record ElectronicRecord := {
  e_record_id : string; e_cmc_id : string; issuer_authority : string; created_at : Z;
  last_updated : Z; version : Z; record_hash : option string; digital_signature : option string;
  signature_algorithm : string; holder_data : pydict json; background_checks : list string;
  audit_trail : list json; e_retention_period_years : Z; archival_date : option Z;
  compliance_status : pydict bool }.

Record VisaFreeEntryRecord := {
  v_record_id : string; v_cmc_id : string; v_status : VisaFreeEntryStatus;
  granting_authority : string; authorization_reference : string; granted_at : option Z;
  valid_from : option Z; valid_until : option Z; eligible_countries : list string;
  entry_purposes : list string; restrictions : list string; status_history : list json;
  last_verification : option Z; next_review_date : option Z }.

Definition AttributeError := subclass "AttributeError" Exception_.

(** ** Background checks *)

Section background.
Context `{Sha256}.

Definition generate_verification_code (b : BackgroundCheckRecord) : string :=
  str_upper (String.substring 0 16 (sha256_hexdigest
    (b_record_id b +:+ b_cmc_id b +:+ check_authority b +:+ check_reference b))).

Definition required_checks : list string :=
  ["criminal_history"; "employment_history"; "identity_verification"; "security_clearance";
   "aviation_experience"].

(** [findings[check].get("passed", False)], as a truth value. *)
Definition passed (finding : json) : result bool :=
  match finding with
  | JDict d => Ok (json_truthy (default (JBool false) (dget "passed" d)))
  | _ => Raise (raise_ AttributeError "no attribute 'get'")
  end.

Fixpoint assess (checks : list string) (fs : pydict json) : result bool :=
  match checks with
  | [] => Ok true
  | c :: checks =>
      match dget c fs with
      | None => Ok false
      | Some finding => ok ← passed finding; if (ok : bool) then assess checks fs else Ok false
      end
  end.

Definition _assess_annex9_compliance (fs : pydict json) : result bool := assess required_checks fs.

(** [a.update(b)] *)
Definition dict_update {V} (a b : pydict V) : pydict V := foldl (fun d kv => dset (fst kv) (snd kv) d) a b.

Definition with_fields (st : BackgroundCheckStatus) (started completed : option Z) (fs : pydict json)
    (code : option string) (compliant : bool) (b : BackgroundCheckRecord) : BackgroundCheckRecord := {|
  b_record_id := b_record_id b; b_cmc_id := b_cmc_id b; check_authority := check_authority b;
  check_reference := check_reference b; check_type := check_type b; b_status := st;
  requested_at := requested_at b; started_at := started; completed_at := completed;
  expires_at := expires_at b; check_scope := check_scope b; findings := fs;
  verification_code := code; annex9_compliant := compliant;
  b_retention_period_years := b_retention_period_years b |}.

Definition set_outcome (st : BackgroundCheckStatus) (t : Z) (compliant : bool) (b : BackgroundCheckRecord) :=
  with_fields st (started_at b) (Some t) (findings b) (verification_code b) compliant b.

(** [update_status] at the time [now]: when the assessment raises, the status
    and the completion time have already changed. *)
Definition update_status (st : BackgroundCheckStatus) (fs : pydict json) (now : Z)
    (b : BackgroundCheckRecord) : result unit * BackgroundCheckRecord :=
  let stage :=
    match st with
    | IN_PROGRESS =>
        let started := match started_at b with None => Some now | s => s end in
        (Ok tt, with_fields st started (completed_at b) (findings b) (verification_code b) (annex9_compliant b) b)
    | COMPLETED =>
        match _assess_annex9_compliance fs with
        | Ok compliant => (Ok tt, set_outcome st now compliant b)
        | Raise e => (Raise e, set_outcome st now (annex9_compliant b) b)
        end
    | FAILED => (Ok tt, set_outcome st now false b)
    | _ => (Ok tt, with_fields st (started_at b) (completed_at b) (findings b) (verification_code b) (annex9_compliant b) b)
    end in
  match stage with
  | (Raise e, b) => (Raise e, b)
  | (Ok _, b) =>
      let b := with_fields st (started_at b) (completed_at b) (dict_update (findings b) fs)
                 (verification_code b) (annex9_compliant b) b in
      (Ok tt,
       if mem st [COMPLETED; FAILED]
       then with_fields st (started_at b) (completed_at b) (findings b)
              (Some (generate_verification_code b)) (annex9_compliant b) b
       else b)
  end.

(** [is_expired] at a reading of the clock. *)
Definition is_expired (now : Z) (b : BackgroundCheckRecord) : bool :=
  match expires_at b with Some t => t <? now | None => false end.

(** ** Electronic records *)

(** [str(sorted(content.items()))]: the list of the pairs, by their keys. *)
Definition content_text (r : ElectronicRecord) : string :=
  "[" +:+ String.concat ", " (map (fun kv => "(" +:+ repr_str (fst kv) +:+ ", " +:+ py_repr (snd kv) +:+ ")")
    (sorted_items [("record_id", JStr (e_record_id r)); ("cmc_id", JStr (e_cmc_id r));
      ("issuer_authority", JStr (issuer_authority r)); ("version", JInt (version r));
      ("holder_data", JDict (holder_data r));
      ("background_checks", JList (map JStr (py_sorted (background_checks r))))])) +:+ "]".

Definition calculate_record_hash (r : ElectronicRecord) : string := sha256_hexdigest (content_text r).

Definition set_record (checks : list string) (trail : list json) (updated v : Z) (h : option string)
    (r : ElectronicRecord) : ElectronicRecord := {|
  e_record_id := e_record_id r; e_cmc_id := e_cmc_id r; issuer_authority := issuer_authority r;
  created_at := created_at r; last_updated := updated; version := v; record_hash := h;
  digital_signature := digital_signature r; signature_algorithm := signature_algorithm r;
  holder_data := holder_data r; background_checks := checks; audit_trail := trail;
  e_retention_period_years := e_retention_period_years r; archival_date := archival_date r;
  compliance_status := compliance_status r |}.

Definition rehash (r : ElectronicRecord) : ElectronicRecord :=
  set_record (background_checks r) (audit_trail r) (last_updated r) (version r)
    (Some (calculate_record_hash r)) r.

(** [add_audit_entry] at two readings of the clock. *)
Definition add_audit_entry (action actor : string) (details : pydict json) (now now' : Z)
    (r : ElectronicRecord) : ElectronicRecord :=
  let entry := JDict [("timestamp", JStr (isoformat_utc now)); ("action", JStr action);
                      ("actor", JStr actor); ("details", JDict details)] in
  rehash (set_record (background_checks r) (audit_trail r ++ [entry]) now' (version r + 1) (record_hash r) r).

Definition verify_integrity (r : ElectronicRecord) : bool :=
  if str_truthy (record_hash r) then String.eqb (default "" (record_hash r)) (calculate_record_hash r) else false.
End background.

(** ** Visa-free entry *)

Definition set_visa (st : VisaFreeEntryStatus) (granted from until : option Z) (history : list json)
    (v : VisaFreeEntryRecord) : VisaFreeEntryRecord := {|
  v_record_id := v_record_id v; v_cmc_id := v_cmc_id v; v_status := st;
  granting_authority := granting_authority v; authorization_reference := authorization_reference v;
  granted_at := granted; valid_from := from; valid_until := until;
  eligible_countries := eligible_countries v; entry_purposes := entry_purposes v;
  restrictions := restrictions v; status_history := history;
  last_verification := last_verification v; next_review_date := next_review_date v |}.

Definition status_change (now : Z) (old new : VisaFreeEntryStatus) (authority reason : string) : json :=
  JDict [("timestamp", JStr (isoformat_utc now)); ("old_status", JStr (visa_status_value old));
         ("new_status", JStr (visa_status_value new)); ("authority", JStr authority);
         ("reason", JStr reason)].

Section manager.
Context {W : Type} `{Env W, Sha256}.

Definition utcnow : M W Z := fun w => let '(t, w) := datetime_now w in (Ok t, w).
Definition new_id : M W string := fun w => let '(u, w) := uuid4 w in (Ok u, w).

(** [VisaFreeEntryRecord.update_status] *)
Definition update_visa_status (new : VisaFreeEntryStatus) (authority reason : string) (until : option Z)
    (v : VisaFreeEntryRecord) : M W VisaFreeEntryRecord :=
  t ← utcnow;
  let history := status_history v ++ [status_change t (v_status v) new authority reason] in
  match new with
  | ELIGIBLE =>
      granted ← utcnow;
      from ← utcnow;
      mret (set_visa new (Some granted) (Some from) until history v)
  | SUSPENDED | NOT_ELIGIBLE =>
      t' ← utcnow;
      mret (set_visa new (granted_at v) (valid_from v) (Some t') history v)
  | UNDER_REVIEW => mret (set_visa new (granted_at v) (valid_from v) (valid_until v) history v)
  end.

Definition is_currently_eligible (v : VisaFreeEntryRecord) : M W bool :=
  if negb (bool_decide (v_status v = ELIGIBLE)) then mret false
  else
    now ← utcnow;
    mret (negb match valid_from v with Some f => now <? f | None => false end
          && negb match valid_until v with Some u => u <? now | None => false end).

Definition is_eligible_for_country (country_code : string) (v : VisaFreeEntryRecord) : M W bool :=
  ok ← is_currently_eligible v;
  if negb ok then mret false
  else mret (mem country_code (eligible_countries v)
             || match eligible_countries v with [] => true | _ => false end).

(** ** The manager *)

(** The calls to the storage service; without one, nothing is called. *)
Context (storage : option (string -> string -> M W unit)).

Record manager := Manager {
  _background_checks : pydict BackgroundCheckRecord;
  _electronic_records : pydict ElectronicRecord;
  _visa_free_records : pydict VisaFreeEntryRecord; env : W }.

Definition set_env (w : W) (s : manager) : manager :=
  Manager (_background_checks s) (_electronic_records s) (_visa_free_records s) w.
Definition set_background (d : pydict BackgroundCheckRecord) (s : manager) : manager :=
  Manager d (_electronic_records s) (_visa_free_records s) (env s).
Definition set_electronic (d : pydict ElectronicRecord) (s : manager) : manager :=
  Manager (_background_checks s) d (_visa_free_records s) (env s).
Definition set_visas (d : pydict VisaFreeEntryRecord) (s : manager) : manager :=
  Manager (_background_checks s) (_electronic_records s) d (env s).

Definition on_env {A} (m : M W A) : M manager A := fun s =>
  let '(r, w) := m (env s) in (r, set_env w s).

(** [if self.storage: await self.storage.<operation>(record)] *)
Definition call_storage (operation record_id : string) : M manager unit :=
  match storage with Some call => on_env (call operation record_id) | None => mret tt end.

Definition or_default {A} (o : option (list A)) (d : list A) : list A :=
  match o with Some (x :: l) => x :: l | _ => d end.

Definition initiate_background_check (cmc_id authority : string) (scope : option (list string)) :
    M manager BackgroundCheckRecord :=
  t ← on_env utcnow;
  t' ← on_env utcnow;
  id ← on_env new_id;
  requested ← on_env utcnow;
  let b := {| b_record_id := id; b_cmc_id := cmc_id; check_authority := authority;
    check_reference := "BGC-" +:+ cmc_id +:+ "-" +:+ yyyymmddhhmm t; check_type := "comprehensive";
    b_status := PENDING; requested_at := requested; started_at := None; completed_at := None;
    expires_at := Some (t' + timedelta_days 365); check_scope := or_default scope required_checks;
    findings := []; verification_code := None; annex9_compliant := false;
    b_retention_period_years := 10 |} in
  _ ← modify (fun s => set_background (dset id b (_background_checks s)) s);
  _ ← call_storage "store_background_check" id;
  mret b.

Definition update_background_check (record_id : string) (st : BackgroundCheckStatus) (fs : pydict json) :
    M manager (option BackgroundCheckRecord) :=
  s ← get;
  match dget record_id (_background_checks s) with
  | None => mret None
  | Some b =>
      t ← on_env utcnow;
      let '(r, b') := update_status st fs t b in
      _ ← modify (fun s => set_background (dset record_id b' (_background_checks s)) s);
      _ ← lift r;
      _ ← call_storage "update_background_check" record_id;
      mret (Some b')
  end.

Definition create_electronic_record (cmc_id authority : string) (holder : pydict json) :
    M manager ElectronicRecord :=
  t ← on_env utcnow;
  id ← on_env new_id;
  created ← on_env utcnow;
  updated ← on_env utcnow;
  let r := {| e_record_id := id; e_cmc_id := cmc_id; issuer_authority := authority;
    created_at := created; last_updated := updated; version := 1; record_hash := None;
    digital_signature := None; signature_algorithm := "ES256"; holder_data := holder;
    background_checks := []; audit_trail := []; e_retention_period_years := 10;
    archival_date := Some (t + timedelta_days (365 * 10)); compliance_status := [] |} in
  t1 ← on_env utcnow;
  t2 ← on_env utcnow;
  let r := add_audit_entry "created" authority [("initial_creation", JBool true)] t1 t2 (rehash r) in
  _ ← modify (fun s => set_electronic (dset id r (_electronic_records s)) s);
  _ ← call_storage "store_electronic_record" id;
  mret r.

Definition link_background_check (electronic_record_id background_check_id : string) : M manager bool :=
  s ← get;
  match dget electronic_record_id (_electronic_records s), dget background_check_id (_background_checks s) with
  | Some r, Some _ =>
      t1 ← on_env utcnow;
      t2 ← on_env utcnow;
      let r := set_record (background_checks r ++ [background_check_id]) (audit_trail r)
                 (last_updated r) (version r) (record_hash r) r in
      let r := add_audit_entry "background_check_linked" "system"
                 [("background_check_id", JStr background_check_id)] t1 t2 r in
      _ ← modify (fun s => set_electronic (dset electronic_record_id r (_electronic_records s)) s);
      _ ← call_storage "update_electronic_record" electronic_record_id;
      mret true
  | _, _ => mret false
  end.

Definition find_visa (cmc_id : string) (s : manager) : option (string * VisaFreeEntryRecord) :=
  List.find (fun kv => String.eqb (v_cmc_id (snd kv)) cmc_id) (_visa_free_records s).

Definition new_visa (cmc_id authority : string) (countries : option (list string)) :
    M manager (string * VisaFreeEntryRecord) :=
  t ← on_env utcnow;
  t' ← on_env utcnow;
  id ← on_env new_id;
  mret (id, {| v_record_id := id; v_cmc_id := cmc_id; v_status := NOT_ELIGIBLE;
    granting_authority := authority; authorization_reference := "VFE-" +:+ cmc_id +:+ "-" +:+ yyyymmdd t;
    granted_at := None; valid_from := None; valid_until := None;
    eligible_countries := or_default countries []; entry_purposes := ["crew_duties"; "transit"];
    restrictions := []; status_history := []; last_verification := None;
    next_review_date := Some (t' + timedelta_days 365) |}).

Definition manage_visa_free_status (cmc_id : string) (st : VisaFreeEntryStatus) (authority reason : string)
    (countries : option (list string)) (until : option Z) : M manager VisaFreeEntryRecord :=
  s ← get;
  '(id, v) ← match find_visa cmc_id s with
             | Some kv => mret kv
             | None => new_visa cmc_id authority countries
             end;
  v ← on_env (update_visa_status st authority reason until v);
  _ ← modify (fun s => set_visas (dset id v (_visa_free_records s)) s);
  _ ← call_storage "store_visa_free_record" id;
  mret v.

Record compliance_result := {
  c_cmc_id : string; compliant : bool; background_verification : bool;
  electronic_record_keeping : bool; visa_free_management : bool; c_timestamp : string }.

(** The first completed check of the certificate decides. *)
Definition background_ok (cmc_id : string) (s : manager) : bool :=
  match List.find (fun b => String.eqb (b_cmc_id b) cmc_id && bool_decide (b_status b = COMPLETED))
          (dvalues (_background_checks s)) with
  | Some b => annex9_compliant b
  | None => false
  end.
Definition electronic_ok (cmc_id : string) (s : manager) : bool :=
  existsb (fun r => String.eqb (e_cmc_id r) cmc_id && verify_integrity r) (dvalues (_electronic_records s)).
Definition visa_ok (cmc_id : string) (s : manager) : bool :=
  existsb (fun v => String.eqb (v_cmc_id v) cmc_id) (dvalues (_visa_free_records s)).

Definition verify_annex9_compliance (cmc_id : string) : M manager compliance_result :=
  t ← on_env utcnow;
  s ← get;
  let b := background_ok cmc_id s in
  let e := electronic_ok cmc_id s in
  let v := visa_ok cmc_id s in
  mret {| c_cmc_id := cmc_id; compliant := forallb id [b; e; v]; background_verification := b;
          electronic_record_keeping := e; visa_free_management := v; c_timestamp := isoformat_utc t |}.

Definition get_background_check (id : string) (s : manager) := dget id (_background_checks s).
Definition get_electronic_record (id : string) (s : manager) := dget id (_electronic_records s).
Definition get_visa_free_record (cmc_id : string) (s : manager) := option_map snd (find_visa cmc_id s).

(** The keys of the expired checks; each check reads the clock if it has an
    expiry date. *)
Fixpoint expired_checks (items : pydict BackgroundCheckRecord) : M manager (list string) :=
  match items with
  | [] => mret []
  | (k, b) :: items =>
      gone ← match expires_at b with
             | None => mret false
             | Some _ => t ← on_env utcnow; mret (is_expired t b)
             end;
      rest ← expired_checks items;
      mret (if (gone : bool) then k :: rest else rest)
  end.

Fixpoint archive (ids : list string) : M manager unit :=
  match ids with
  | [] => mret tt
  | id :: ids =>
      _ ← call_storage "archive_electronic_record" id;
      _ ← modify (fun s => set_electronic (dpop id (_electronic_records s)) s);
      archive ids
  end.

Definition dpop_all {V} (ids : list string) (d : pydict V) : pydict V := foldl (fun d k => dpop k d) d ids.

Definition past (now : Z) (limit : option Z) : bool := match limit with Some t => t <? now | None => false end.
Definition grace (v : VisaFreeEntryRecord) : option Z := option_map (fun u => u + timedelta_days 30) (valid_until v).

(** Counts of background checks, electronic records and visa records. *)
Definition cleanup_expired_records : M manager (nat * nat * nat) :=
  now ← on_env utcnow;
  s ← get;
  bg ← expired_checks (_background_checks s);
  _ ← modify (fun s => set_background (dpop_all bg (_background_checks s)) s);
  s ← get;
  let er := dkeys (List.filter (fun kr => past now (archival_date (snd kr))) (_electronic_records s)) in
  _ ← archive er;
  s ← get;
  let vf := dkeys (List.filter (fun kv => past now (grace (snd kv))) (_visa_free_records s)) in
  _ ← modify (fun s => set_visas (dpop_all vf (_visa_free_records s)) s);
  mret (length bg, length er, length vf).

(** [Annex9PolicyManager()] *)
Definition new_manager (w : W) : manager := Manager [] [] [] w.
End manager.
Arguments manager : clear implicits.

(** ** Integrity of the electronic records *)

Section integrity.
Context {W : Type} `{Env W, Sha256}.
Context (storage : option (string -> string -> M W unit)).
Implicit Types (s : manager W).

(** A record whose hash is current and whose version counts its audit entries. *)
Definition well_formed (r : ElectronicRecord) : Prop :=
  record_hash r = Some (calculate_record_hash r) /\ version r = 1 + Z.of_nat (length (audit_trail r)).

Definition records_ok s : Prop := forall r, In r (dvalues (_electronic_records s)) -> well_formed r.

(** The operations of the manager. *)
Inductive call :=
| InitiateBackgroundCheck (cmc authority : string) (scope : option (list string))
| UpdateBackgroundCheck (id : string) (st : BackgroundCheckStatus) (fs : pydict json)
| CreateElectronicRecord (cmc authority : string) (holder : pydict json)
| LinkBackgroundCheck (electronic background : string)
| ManageVisaFreeStatus (cmc : string) (st : VisaFreeEntryStatus) (authority reason : string)
    (countries : option (list string)) (until : option Z)
| VerifyCompliance (cmc : string)
| CleanupExpiredRecords.

Definition run_call (c : call) s : manager W :=
  match c with
  | InitiateBackgroundCheck cmc a scope => snd (initiate_background_check storage cmc a scope s)
  | UpdateBackgroundCheck id st fs => snd (update_background_check storage id st fs s)
  | CreateElectronicRecord cmc a h => snd (create_electronic_record storage cmc a h s)
  | LinkBackgroundCheck e b => snd (link_background_check storage e b s)
  | ManageVisaFreeStatus cmc st a r cs u => snd (manage_visa_free_status storage cmc st a r cs u s)
  | VerifyCompliance cmc => snd (verify_annex9_compliance cmc s)
  | CleanupExpiredRecords => snd (cleanup_expired_records storage s)
  end.

Definition run_calls (cs : list call) s : manager W := foldl (fun s c => run_call c s) s cs.

Lemma rehash_hash r : record_hash (rehash r) = Some (calculate_record_hash (rehash r)).
Proof. done. Qed.

Lemma audit_well_formed action actor details t t' r :
  version r = 1 + Z.of_nat (length (audit_trail r)) ->
  well_formed (add_audit_entry action actor details t t' r).
Proof.
  intros Hv. split; [apply rehash_hash|]. simpl. rewrite length_app, Hv. simpl. lia.
Qed.

Lemma env_ok w s : records_ok s -> records_ok (set_env w s).
Proof. done. Qed.

Lemma on_env_ok {A} (m : M W A) : preserves records_ok (on_env m).
Proof. intros s Hs. unfold on_env. by destruct (m (env s)). Qed.

Lemma get_ok : preserves records_ok get.
Proof. by intros s. Qed.

Lemma lift_ok {A} (r : result A) : preserves records_ok (lift r).
Proof. by intros s. Qed.

Lemma modify_ok (f : manager W -> manager W) :
  (forall s, _electronic_records (f s) = _electronic_records s) -> preserves records_ok (modify f).
Proof. intros Hf s Hs r. simpl. rewrite Hf. apply Hs. Qed.

Lemma store_ok id r : well_formed r ->
  preserves records_ok (modify (fun s => set_electronic (dset id r (_electronic_records s)) s)).
Proof. intros Hr s Hs r' [->|Hin]%dset_values; [done|by apply Hs]. Qed.

Lemma dpop_ok id : preserves records_ok (modify (fun s => set_electronic (dpop id (_electronic_records s)) s)).
Proof.
  intros s Hs r. simpl. unfold dvalues, dpop. intros ([k v] & <- & Hin)%in_map_iff.
  apply filter_In in Hin as [Hin _]. apply Hs. unfold dvalues. apply in_map_iff. by exists (k, v).
Qed.

Lemma storage_ok op id : preserves records_ok (call_storage storage op id).
Proof. unfold call_storage. destruct storage; [apply on_env_ok|apply preserves_ret]. Qed.

Ltac ok_steps :=
  repeat first
    [ apply preserves_ret | apply preserves_raise | apply get_ok | apply lift_ok | apply on_env_ok
    | apply storage_ok | apply dpop_ok | apply modify_ok; done
    | apply preserves_bind; [|intros ?] | progress cbv beta zeta | case_match ].

Lemma expired_checks_ok items : preserves records_ok (expired_checks (W:=W) items).
Proof. induction items as [|[k b] items IH]; simpl; ok_steps; done. Qed.

Lemma archive_ok ids : preserves records_ok (archive storage ids).
Proof. induction ids as [|id ids IH]; simpl; ok_steps; done. Qed.

Lemma create_ok cmc a h : preserves records_ok (create_electronic_record storage cmc a h).
Proof.
  unfold create_electronic_record.
  do 6 (apply preserves_bind; [apply on_env_ok|intros ?]). cbv zeta.
  apply preserves_bind; [|intros _; ok_steps]. apply store_ok. by apply audit_well_formed.
Qed.

Lemma link_ok e b : preserves records_ok (link_background_check storage e b).
Proof.
  intros s Hs. unfold link_background_check, mbind at 1, M_bind at 1, get. cbn beta iota.
  destruct (dget e (_electronic_records s)) as [r|] eqn:Er; [|done].
  destruct (dget b (_background_checks s)); [|done].
  assert (Hv : version r = 1 + Z.of_nat (length (audit_trail r))) by (apply Hs; by eapply dget_dvalues).
  revert s Hs Er. intros s Hs _. revert s Hs.
  match goal with |- forall s, records_ok s -> records_ok (snd (?m s)) => change (preserves records_ok m) end.
  do 2 (apply preserves_bind; [apply on_env_ok|intros ?]). cbv zeta.
  apply preserves_bind; [|intros _; ok_steps]. apply store_ok. by apply audit_well_formed.
Qed.

Lemma run_call_ok c s : records_ok s -> records_ok (run_call c s).
Proof.
  intros Hs. destruct c as [cmc a scope|id st fs|cmc a h|e b|cmc st a r cs u|cmc|]; simpl.
  - unfold initiate_background_check. revert s Hs. change (preserves records_ok (initiate_background_check storage cmc a scope)).
    unfold initiate_background_check. ok_steps.
  - revert s Hs. change (preserves records_ok (update_background_check storage id st fs)).
    unfold update_background_check. ok_steps.
  - by apply create_ok.
  - by apply link_ok.
  - revert s Hs. change (preserves records_ok (manage_visa_free_status storage cmc st a r cs u)).
    unfold manage_visa_free_status, new_visa. ok_steps.
  - revert s Hs. change (preserves records_ok (verify_annex9_compliance (W:=W) cmc)).
    unfold verify_annex9_compliance. ok_steps.
  - revert s Hs. change (preserves records_ok (cleanup_expired_records storage)).
    unfold cleanup_expired_records.
    repeat first [apply preserves_bind; [|intros ?] | apply expired_checks_ok | apply archive_ok | progress cbv zeta];
      ok_steps.
Qed.

Lemma run_calls_ok cs s : records_ok s -> records_ok (run_calls cs s).
Proof.
  revert s. induction cs as [|c cs IH]; intros s Hs; simpl; [done|]. by apply IH, run_call_ok.
Qed.

Lemma verify_well_formed r : (forall t, sha256_hexdigest t <> "") -> well_formed r -> verify_integrity r = true.
Proof.
  intros Hsha [Hh _]. unfold verify_integrity. rewrite Hh. simpl.
  destruct (String.eqb_spec (calculate_record_hash r) "") as [He|]; [by destruct (Hsha _ He)|].
  apply String.eqb_refl.
Qed.

(** C9: Every electronic record is well formed after any sequence of
    operations, with any storage service, also when its calls fail: the hash is
    the current one and the version counts the entries of the audit trail; so,
    a digest not being empty, its integrity check passes. The check does not
    cover the audit trail: replacing it leaves the verdict unchanged. *)
Theorem records_stay_well_formed (w : W) cs r :
  (forall t, sha256_hexdigest t <> "") ->
  In r (dvalues (_electronic_records (run_calls cs (new_manager w)))) ->
  record_hash r = Some (calculate_record_hash r) /\
  version r = 1 + Z.of_nat (length (audit_trail r)) /\
  verify_integrity r = true /\
  forall trail, verify_integrity (set_record (background_checks r) trail (last_updated r) (version r)
    (record_hash r) r) = true.
Proof.
  intros Hsha Hin. assert (Hwf : well_formed r) by (by apply (run_calls_ok cs (new_manager w))).
  assert (Hv : verify_integrity r = true) by (by apply verify_well_formed).
  split_and!; [apply Hwf..|done|]. intros trail. exact Hv.
Qed.

(** ** Compliance *)

(** The verdict, in every state that is reached: the first completed
    check of the certificate is compliant, there is an electronic record, and
    there is a visa record. The clock plays no part, so a check that has
    expired counts until it is cleaned up. *)
Theorem compliance_verdict (w : W) cs cmc :
  (forall t, sha256_hexdigest t <> "") ->
  let s := run_calls cs (new_manager w) in
  exists r s', verify_annex9_compliance cmc s = (Ok r, s') /\
    (compliant r = true <->
       (exists b, List.find (fun b => String.eqb (b_cmc_id b) cmc && bool_decide (b_status b = COMPLETED))
                    (dvalues (_background_checks s)) = Some b /\ annex9_compliant b = true) /\
       (exists e, In e (dvalues (_electronic_records s)) /\ e_cmc_id e = cmc) /\
       (exists v, In v (dvalues (_visa_free_records s)) /\ v_cmc_id v = cmc)).
Proof.
  intros Hsha s. assert (Hs : records_ok s) by (by apply run_calls_ok).
  unfold verify_annex9_compliance, on_env, utcnow, mbind, M_bind, get. cbn beta iota.
  destruct (datetime_now (env s)) as [t w']. do 2 eexists. split; [done|]. simpl. rewrite !andb_true_iff.
  assert (He : electronic_ok cmc (set_env w' s) = true <->
    exists e, In e (dvalues (_electronic_records s)) /\ e_cmc_id e = cmc).
  { unfold electronic_ok. rewrite existsb_exists. split; intros (e & Hin & Hc); exists e.
    - split; [done|]. apply andb_true_iff in Hc as [Hc _]. by apply String.eqb_eq.
    - split; [done|]. apply andb_true_iff. split; [by apply String.eqb_eq|]. by apply verify_well_formed, Hs. }
  assert (Hv : visa_ok cmc (set_env w' s) = true <->
    exists v, In v (dvalues (_visa_free_records s)) /\ v_cmc_id v = cmc).
  { unfold visa_ok. rewrite existsb_exists. by setoid_rewrite String.eqb_eq. }
  assert (Hb : background_ok cmc (set_env w' s) = true <->
    exists b, List.find (fun b => String.eqb (b_cmc_id b) cmc && bool_decide (b_status b = COMPLETED))
      (dvalues (_background_checks s)) = Some b /\ annex9_compliant b = true).
  { unfold background_ok. simpl. destruct (List.find _ _) as [b|]; naive_solver. }
  rewrite Hb, He, Hv. naive_solver.
Qed.
End integrity.

(** ** Completing a background check *)

(** Only the findings given with the completion count: a check that
    receives its findings while in progress and is completed without repeating
    them is not compliant, whatever they say. *)
Theorem completion_ignores_earlier_findings `{Sha256} fs t t' (b : BackgroundCheckRecord) :
  let b1 := snd (update_status IN_PROGRESS fs t b) in
  let b2 := snd (update_status COMPLETED [] t' b1) in
  findings b2 = dict_update (findings b) fs /\ b_status b2 = COMPLETED /\ annex9_compliant b2 = false.
Proof. done. Qed.

(** ** Countries of a visa-free record *)

Section countries.
Context {W : Type} `{Env W, Sha256}.

Lemma update_visa_run st a r u (v : VisaFreeEntryRecord) (w : W) : exists v' w',
  update_visa_status st a r u v w = (Ok v', w') /\
  eligible_countries v' = eligible_countries v /\ v_cmc_id v' = v_cmc_id v /\ v_status v' = st /\
  (st = ELIGIBLE -> exists w1, valid_from v' = Some (fst (datetime_now w1)) /\ valid_until v' = u).
Proof.
  unfold update_visa_status, utcnow, mbind, M_bind, mret, M_ret.
  destruct (datetime_now w) as [t w0].
  destruct st; try destruct (datetime_now w0) as [t1 w1] eqn:E1; try destruct (datetime_now w1) as [t2 w2] eqn:E2;
    do 2 eexists; (split; [reflexivity|]); split_and!; try done; intros _; exists w1; by rewrite E2.
Qed.

Lemma find_visa_cmc cmc (s : manager W) k v : find_visa cmc s = Some (k, v) -> v_cmc_id v = cmc.
Proof. intros Hf. apply find_some in Hf as [_ Hc]. by apply String.eqb_eq in Hc. Qed.

Lemma find_visa_new cmc (d : pydict VisaFreeEntryRecord) id v :
  v_cmc_id v = cmc -> List.find (fun kv => String.eqb (v_cmc_id (snd kv)) cmc) d = None ->
  exists k, List.find (fun kv => String.eqb (v_cmc_id (snd kv)) cmc) (dset id v d) = Some (k, v).
Proof.
  intros Hv. induction d as [|[k v0] d IH]; simpl; intros Hn.
  - rewrite Hv, String.eqb_refl. by eexists.
  - destruct (String.eqb (v_cmc_id v0) cmc) eqn:E0; [done|].
    destruct (String.eqb id k); simpl; [rewrite Hv, String.eqb_refl; by eexists|].
    rewrite E0. by apply IH.
Qed.

(** A visa-free record made without countries stays without: the
    countries of a later decision are ignored. So a holder first recorded, say,
    as suspended without countries and then made eligible for some countries is
    eligible for every country, at every time the clock shows afterwards. *)
Theorem later_countries_ignored cmc st a r a' r' countries (s : manager W) country w :
  find_visa cmc s = None -> (forall w w', fst (datetime_now w) <= fst (datetime_now w')) ->
  let s1 := snd (manage_visa_free_status None cmc st a r None None s) in
  exists v s2, manage_visa_free_status None cmc ELIGIBLE a' r' (Some countries) None s1 = (Ok v, s2) /\
    eligible_countries v = [] /\ fst (is_eligible_for_country country v w) = Ok true.
Proof.
  intros Hn Hclock s1.
  assert (Hs1 : exists k v, find_visa cmc s1 = Some (k, v) /\ eligible_countries v = []).
  { unfold s1, manage_visa_free_status, mbind, M_bind, get. cbn beta iota. rewrite Hn.
    unfold new_visa, on_env, utcnow, new_id, mbind, M_bind, mret, M_ret.
    destruct (datetime_now (env s)) as [t w1]. simpl. destruct (datetime_now w1) as [t' w2]. simpl.
    destruct (uuid4 w2) as [id w3]. simpl.
    match goal with |- context [update_visa_status st a r None ?v w3] =>
      destruct (update_visa_run st a r None v w3) as (v' & w4 & -> & Hc & Hcmc & _) end.
    simpl. destruct (find_visa_new cmc (_visa_free_records s) id v' Hcmc Hn) as [k Hk].
    exists k, v'. by split. }
  destruct Hs1 as (k & v & Hf & Hc). clearbody s1.
  unfold manage_visa_free_status, mbind, M_bind, get. cbn beta iota. rewrite Hf.
  unfold mret at 1, M_ret at 1. unfold on_env.
  destruct (update_visa_run ELIGIBLE a' r' None v (env s1)) as (v' & w' & -> & Hc' & _ & Hst & Hval).
  destruct (Hval eq_refl) as (w1 & Hfrom & Huntil). do 2 eexists. split; [reflexivity|].
  split; [by rewrite Hc'|]. unfold is_eligible_for_country, is_currently_eligible, mbind, M_bind, utcnow, mret, M_ret.
  rewrite Hst, Hfrom, Huntil. simpl. pose proof (Hclock w1 w) as Hle.
  destruct (datetime_now w) as [t w2]. simpl in *. destruct (Z.ltb_spec t (fst (datetime_now w1))); [lia|].
  simpl. by rewrite Hc', Hc, orb_true_r.
Qed.
End countries.

(** ** A concrete manager *)

Module Demo.

(** A digest that is never empty. *)
#[local] Instance demo_sha : Sha256 := { sha256_hexdigest s := "d" +:+ s }.

Definition start : manager script :=
  new_manager {| script_ids := ["r1"; "b1"; "v1"]; script_clock := 1000 |}.
Definition calls : list call :=
  [CreateElectronicRecord "CMC1" "AUTH" [("name", JStr "A")];
   InitiateBackgroundCheck "CMC1" "POLICE" None;
   LinkBackgroundCheck "r1" "b1";
   UpdateBackgroundCheck "b1" COMPLETED
     (map (fun c => (c, JDict [("passed", JBool true)])) required_checks);
   ManageVisaFreeStatus "CMC1" SUSPENDED "BORDER" "review" None None].
Definition after : manager script := run_calls None calls start.

Lemma demo_digest t : sha256_hexdigest t <> "".
Proof. done. Qed.

Lemma records_stay_well_formed_witness : exists r,
  dget "r1" (_electronic_records after) = Some r /\ verify_integrity r = true /\ version r = 3.
Proof.
  eexists. split; [vm_compute; reflexivity|]. split; [|reflexivity].
  apply (records_stay_well_formed None (env start) calls); [exact demo_digest|].
  left. vm_compute. reflexivity.
Defined.

Lemma compliance_verdict_witness :
  exists r s', verify_annex9_compliance "CMC1" after = (Ok r, s') /\ compliant r = true.
Proof.
  destruct (compliance_verdict None (env start) calls "CMC1" demo_digest) as (r & s' & He & Hc).
  exists r, s'. split; [exact He|]. apply Hc. split_and!.
  - eexists. split; [vm_compute; reflexivity|vm_compute; reflexivity].
  - eexists. split; [left; vm_compute; reflexivity|vm_compute; reflexivity].
  - eexists. split; [left; vm_compute; reflexivity|vm_compute; reflexivity].
Defined.

(** A clock that stands still. *)
#[local] Instance frozen : Env unit := { uuid4 w := ("v", w); datetime_now w := (0, w) }.

Lemma later_countries_ignored_witness :
  let s1 := snd (manage_visa_free_status None "CMC1" SUSPENDED "BORDER" "review" None None (new_manager tt)) in
  exists v s2, manage_visa_free_status None "CMC1" ELIGIBLE "BORDER" "cleared" (Some ["FRA"]) None s1 = (Ok v, s2) /\
    eligible_countries v = [] /\ fst (is_eligible_for_country "USA" v tt) = Ok true.
Proof.
  apply (later_countries_ignored "CMC1" SUSPENDED "BORDER" "review" "BORDER" "cleared" ["FRA"] (new_manager tt) "USA" tt);
    [reflexivity|]. intros [] []. simpl. lia.
Defined.
End Demo.
