(* ===== verification/Outbox.v ===== *)
(** * Transactional outbox ([infrastructure/outbox.py], [infrastructure/event_bus.py],
    [session_scope] of [infrastructure/database.py])

    Services store an event in the transaction of the change it announces; one
    dispatcher publishes the stored events and moves those that fail too often
    to a dead-letter table. The database and the Kafka producer are parameters
    of the model ([OutboxWorld]); [OutboxLaws] is what is relied on of them. A
    session is its unit of work: the changes it writes when it commits. *)

From stdpp Require Import sorting.
From S2P Require Import Prelude PyRuntime PyText PyBytes PyNumbers.
Local Open Scope Z_scope.

(** ** Data *)

Record EventOutboxRecord := {
  o_id : Z; topic : string; key : option bytes; payload : bytes; headers : option (pydict string);
  attempts : Z; available_at : Z; created_at : Z; processed_at : option Z; last_error : option string }.

Record EventDeadLetterRecord := {
  original_topic : string; d_key : option bytes; d_payload : bytes; d_headers : option (pydict string);
  d_attempts : Z; d_last_error : string; original_created_at : Z }.

(** What [enqueue] gives; identifier, creation time and the remaining columns
    get their defaults when the row is inserted. *)
Record new_event := {
  n_topic : string; n_key : option bytes; n_payload : bytes; n_headers : option (pydict string);
  n_available_at : Z }.

Record EventBusMessage := {
  m_topic : string; m_payload : bytes; m_headers : option (pydict bytes); m_key : option bytes }.

Record OutboxDispatcherSettings := {
  poll_interval : Q; batch_size : Z; initial_retry_delay : Q; max_retry_delay : Q; max_attempts : Z }.

Definition default_settings : OutboxDispatcherSettings := {|
  poll_interval := 2; batch_size := 50; initial_retry_delay := 5; max_retry_delay := 300;
  max_attempts := 5 |}.

Record EventBusConfig := { topic_prefix : string; enabled : bool }.

(** ** Headers *)

Definition _encode_headers (h : option (pydict bytes)) : option (pydict string) :=
  match h with
  | None | Some [] => None
  | Some h => Some (map (fun kv => (fst kv, b64encode (snd kv))) h)
  end.

Fixpoint decode_items (h : pydict string) : result (pydict bytes) :=
  match h with
  | [] => Ok []
  | (k, v) :: h => bs ← b64decode v; rest ← decode_items h; Ok ((k, bs) :: rest)
  end.

Definition _decode_headers (h : option (pydict string)) : result (option (pydict bytes)) :=
  match h with
  | None | Some [] => Ok None
  | Some h => items ← decode_items h; Ok (Some items)
  end.

(** ** The world *)

Inductive change :=
| AddOutbox (e : new_event)
| AddDeadLetter (d : EventDeadLetterRecord)
| UpdateOutbox (r : EventOutboxRecord)
| DeleteOutbox (id : Z).

(** [db_select p n] is [SELECT ... WHERE p ORDER BY id LIMIT n]; [producer_send]
    is [send_and_wait(topic, payload, headers=..., key=...)]. *)
Class OutboxWorld (W : Type) := {
  db_select : (EventOutboxRecord -> bool) -> Z -> M W (list EventOutboxRecord);
  db_commit : list change -> M W unit;
  producer_new : M W unit;
  producer_start : M W unit;
  producer_send : string -> bytes -> option (pydict bytes) -> option bytes -> M W unit;
  producer_stop : M W unit }.

(** ** The dispatcher *)

Section outbox.
Context {W : Type} `{Env W, OutboxWorld W}.
Context (settings : OutboxDispatcherSettings) (bus : EventBusConfig).

(** [producer]: the event bus has a producer object; [changes]: the unit of
    work of the open session. *)
Record dispatcher := Dispatcher { producer : bool; changes : list change; world : W }.

Definition set_producer (b : bool) (s : dispatcher) := Dispatcher b (changes s) (world s).
Definition set_changes (cs : list change) (s : dispatcher) := Dispatcher (producer s) cs (world s).
Definition set_world (w : W) (s : dispatcher) := Dispatcher (producer s) (changes s) w.

Definition on_world {A} (m : M W A) : M dispatcher A := fun s =>
  let '(r, w) := m (world s) in (r, set_world w s).
Definition utcnow : M dispatcher Z := on_world (fun w => let '(t, w) := datetime_now w in (Ok t, w)).
Definition add_change (c : change) : M dispatcher unit := modify (fun s => set_changes (changes s ++ [c]) s).

(** [DatabaseManager.session_scope]: closing a session drops its changes. *)
Definition session_scope {A} (body : M dispatcher A) : M dispatcher A :=
  _ ← modify (set_changes []);
  try_finally
    (try_except
       (a ← body;
        s ← get;
        _ ← on_world (db_commit (changes s));
        mret a)
       (fun e => _ ← modify (set_changes []); raise e))
    (modify (set_changes [])).

(** *** [OutboxRepository] *)

Definition enqueue (tp : string) (pl : bytes) (k : option bytes) (h : option (pydict bytes))
    (at_ : option Z) : M dispatcher unit :=
  at_ ← match at_ with Some t => mret t | None => utcnow end;
  add_change (AddOutbox {| n_topic := tp; n_key := k; n_payload := pl; n_headers := _encode_headers h;
                           n_available_at := at_ |}).

Definition due (now : Z) (r : EventOutboxRecord) : bool :=
  negb (opt_is_some (processed_at r)) && (available_at r <=? now).

Definition claim_batch (limit : Z) : M dispatcher (list EventOutboxRecord) :=
  now ← utcnow;
  on_world (db_select (due now) limit).

Definition set_row (att at_ : Z) (processed : option Z) (err : option string) (r : EventOutboxRecord) :
    EventOutboxRecord := {|
  o_id := o_id r; topic := topic r; key := key r; payload := payload r; headers := headers r;
  attempts := att; available_at := at_; created_at := created_at r; processed_at := processed;
  last_error := err |}.

Definition mark_processed (r : EventOutboxRecord) : M dispatcher unit :=
  t ← utcnow;
  add_change (UpdateOutbox (set_row (attempts r) (available_at r) (Some t) None r)).

Definition dead_letter (r : EventOutboxRecord) (error : string) : EventDeadLetterRecord := {|
  original_topic := topic r; d_key := key r; d_payload := payload r; d_headers := headers r;
  d_attempts := attempts r; d_last_error := String.substring 0 1024 error;
  original_created_at := created_at r |}.

Definition _move_to_dead_letter_queue (r : EventOutboxRecord) (error : string) : M dispatcher unit :=
  _ ← add_change (AddDeadLetter (dead_letter r error));
  add_change (DeleteOutbox (o_id r)).

Definition mark_failed (r : EventOutboxRecord) (error : string) (retry_delay maximum : Z) :
    M dispatcher unit :=
  let r := set_row (attempts r + 1) (available_at r) (processed_at r)
             (Some (String.substring 0 1024 error)) r in
  if maximum <=? attempts r
  then _move_to_dead_letter_queue r error
  else
    t ← utcnow;
    add_change (UpdateOutbox (set_row (attempts r) (t + retry_delay) (processed_at r) (last_error r) r)).

Fixpoint requeue (rs : list EventOutboxRecord) (delay : Z) : M dispatcher unit :=
  match rs with
  | [] => mret tt
  | r :: rs =>
      t ← utcnow;
      _ ← add_change (UpdateOutbox (set_row (attempts r) (t + delay) (processed_at r) (last_error r) r));
      requeue rs delay
  end.

(** *** [EventBusProvider] *)

(** The producer is kept before it has been started. *)
Definition _ensure_started : M dispatcher unit :=
  if negb (enabled bus) then mret tt
  else
    s ← get;
    if producer s then mret tt
    else
      _ ← on_world producer_new;
      _ ← modify (set_producer true);
      on_world producer_start.

Definition full_topic (m : EventBusMessage) : string := topic_prefix bus +:+ m_topic m.

Definition sent_headers (m : EventBusMessage) : option (pydict bytes) :=
  match m_headers m with Some [] => None | h => h end.

Definition publish (m : EventBusMessage) : M dispatcher unit :=
  if negb (enabled bus) then mret tt
  else
    _ ← _ensure_started;
    on_world (producer_send (full_topic m) (m_payload m) (sent_headers m) (m_key m)).

(** [EventBusProvider.stop]: a producer that does not stop is kept. *)
Definition stop_bus : M dispatcher unit :=
  s ← get;
  if producer s then _ ← on_world producer_stop; modify (set_producer false) else mret tt.

(** *** [OutboxDispatcher] *)

(** Microseconds. *)
Definition _compute_retry_delay (attempt : Z) : Z :=
  let delay := (initial_retry_delay settings * inject_Z (2 ^ Z.max (attempt - 1) 0))%Q in
  round_half_even (py_min delay (max_retry_delay settings) * inject_Z second).

Definition attempt (m : M dispatcher unit) : M dispatcher (option exn) :=
  try_except (_ ← m; mret None) (fun e => mret (Some e)).

Definition message (r : EventOutboxRecord) (hs : option (pydict bytes)) : EventBusMessage := {|
  m_topic := topic r; m_payload := payload r; m_headers := hs; m_key := key r |}.

(** The loop of [flush_once] over the claimed records. *)
Fixpoint dispatch (rs : list EventOutboxRecord) (processed : Z) : M dispatcher Z :=
  match rs with
  | [] => mret processed
  | r :: rs =>
      hs ← lift (_decode_headers (headers r));
      failed ← attempt (publish (message r hs));
      match failed with
      | Some e =>
          _ ← mark_failed r (exn_message e) (_compute_retry_delay (attempts r + 1)) (max_attempts settings);
          dispatch rs processed
      | None =>
          _ ← mark_processed r;
          dispatch rs (processed + 1)
      end
  end.

Definition flush_once : M dispatcher Z :=
  session_scope (records ← claim_batch (batch_size settings); dispatch records 0).

(** One turn of the loop of [_run]: whether it then waits for the poll interval. *)
Definition run_turn : M dispatcher bool :=
  processed ← try_except flush_once (fun _ => mret 0);
  mret (processed =? 0).

(** The worker task: whether it is done, and whether it was asked to stop. *)
Record worker := Worker { task : option bool; stopping : bool }.

Definition start (k : worker) : worker :=
  match task k with Some false => k | _ => Worker (Some false) false end.
(** The awaited task ends, by its cancellation if not before. *)
Definition stop (k : worker) : worker := match task k with None => k | Some _ => Worker None false end.

(** A service that stores one event in a transaction of its own. *)
Definition enqueue_event (tp : string) (pl : bytes) (k : option bytes) (h : option (pydict bytes))
    (at_ : option Z) : M dispatcher unit :=
  session_scope (enqueue tp pl k h at_).
End outbox.
Arguments dispatcher : clear implicits.

(** ** What is relied on of the database and the producer *)

Definition sent_event : Type := string * bytes * option (pydict bytes) * option bytes.
Definition tables : Type := gmap Z EventOutboxRecord * list EventDeadLetterRecord.

(** The row of a new event. *)
Definition inserted (e : new_event) (id created : Z) : EventOutboxRecord := {|
  o_id := id; topic := n_topic e; key := n_key e; payload := n_payload e; headers := n_headers e;
  attempts := 0; available_at := n_available_at e; created_at := created; processed_at := None;
  last_error := None |}.

Inductive applied1 : change -> tables -> tables -> Prop :=
| applied_add e id created rws ds : rws !! id = None ->
    applied1 (AddOutbox e) (rws, ds) (<[id := inserted e id created]> rws, ds)
| applied_dead d rws ds : applied1 (AddDeadLetter d) (rws, ds) (rws, ds ++ [d])
| applied_update r rws ds : applied1 (UpdateOutbox r) (rws, ds) (alter (fun _ => r) (o_id r) rws, ds)
| applied_delete id rws ds : applied1 (DeleteOutbox id) (rws, ds) (delete id rws, ds).

Inductive applied : list change -> tables -> tables -> Prop :=
| applied_nil t : applied [] t t
| applied_cons c cs t t' t'' : applied1 c t t' -> applied cs t' t'' -> applied (c :: cs) t t''.

(** The rows a query gives: the first [n], by identifier, of those that satisfy [p]. *)
Record selected (p : EventOutboxRecord -> bool) (n : Z) (rws : gmap Z EventOutboxRecord)
    (l : list EventOutboxRecord) : Prop := {
  sel_rows r : In r l -> rws !! o_id r = Some r /\ p r = true;
  sel_sorted : StronglySorted (fun a b => o_id a < o_id b) l;
  sel_limit : 0 <= n -> Z.of_nat (length l) <= n;
  sel_first id r : rws !! id = Some r -> p r = true ->
    In r l \/ (n <= Z.of_nat (length l) /\ forall r', In r' l -> o_id r' < id) }.

(** A commit that raises has had no effect or its whole effect; a send that
    raises may have delivered its event. *)
Class OutboxLaws (W : Type) `{Env W, OutboxWorld W} := {
  rows : W -> gmap Z EventOutboxRecord;
  dead : W -> list EventDeadLetterRecord;
  sent : W -> list sent_event;
  same w w' := rows w' = rows w /\ dead w' = dead w /\ sent w' = sent w;
  clock_law w : same w (snd (datetime_now w));
  select_law p n w : let '(r, w') := db_select p n w in
    same w w' /\ forall l, r = Ok l -> selected p n (rows w) l;
  commit_law cs w : let '(r, w') := db_commit cs w in
    sent w' = sent w /\
    (applied cs (rows w, dead w) (rows w', dead w') \/
     r <> Ok tt /\ rows w' = rows w /\ dead w' = dead w);
  new_law w : same w (snd (producer_new w));
  start_law w : same w (snd (producer_start w));
  stop_law w : same w (snd (producer_stop w));
  send_law t p h k w : let '(r, w') := producer_send t p h k w in
    rows w' = rows w /\ dead w' = dead w /\
    (sent w' = sent w ++ [(t, p, h, k)] \/ r <> Ok tt /\ sent w' = sent w) }.

(** ** Headers survive the table *)

Lemma decode_encode_items h : decode_items (map (fun kv => (fst kv, b64encode (snd kv))) h) = Ok h.
Proof.
  induction h as [|[k v] h IH]; [done|]. simpl. rewrite b64decode_encode. simpl. by rewrite IH.
Qed.

(** The headers of an event are those it was stored with; no headers and
    an empty dictionary are the same. *)
Lemma headers_roundtrip h :
  _decode_headers (_encode_headers h) = Ok (match h with Some [] => None | h => h end).
Proof.
  destruct h as [[|kv h]|]; [done| |done]. simpl. rewrite b64decode_encode. simpl.
  rewrite decode_encode_items. simpl. by destruct kv.
Qed.

(** ** Retry delays *)

Section delays.
Context (settings : OutboxDispatcherSettings).

Lemma round_half_even_mono x y : (x <= y)%Q -> round_half_even x <= round_half_even y.
Proof.
  intros Hxy. unfold round_half_even.
  pose proof (Qfloor_le x) as Hx. pose proof (Qlt_floor x) as Hx'.
  pose proof (Qfloor_le y) as Hy. pose proof (Qlt_floor y) as Hy'.
  pose proof (Qfloor_resp_le _ _ Hxy) as Hf. rewrite inject_Z_plus in Hx', Hy'.
  destruct (Z.eq_dec (Qfloor x) (Qfloor y)) as [Heq|Hne].
  - rewrite Heq in *. repeat split_if; q_cases; try lia; exfalso; lra.
  - repeat split_if; lia.
Qed.

(** The delay starts at the initial one, never falls from one attempt to the
    next and never exceeds the maximum. *)
Theorem retry_delay_bounds n m : (0 <= initial_retry_delay settings)%Q -> n <= m ->
  _compute_retry_delay settings n <= _compute_retry_delay settings m /\
  _compute_retry_delay settings m <= round_half_even (max_retry_delay settings * inject_Z second) /\
  _compute_retry_delay settings 1 =
    round_half_even (py_min (initial_retry_delay settings) (max_retry_delay settings) * inject_Z second).
Proof.
  intros Hi Hnm. unfold _compute_retry_delay. assert (Hs : (0 <= inject_Z second)%Q) by done.
  split_and!.
  - apply round_half_even_mono, Qmult_le_compat_r; [|done].
    assert (Hp : (inject_Z (2 ^ Z.max (n - 1) 0) <= inject_Z (2 ^ Z.max (m - 1) 0))%Q).
    { rewrite <- Zle_Qle. apply Z.pow_le_mono_r; lia. }
    assert (Hd : (initial_retry_delay settings * inject_Z (2 ^ Z.max (n - 1) 0) <=
      initial_retry_delay settings * inject_Z (2 ^ Z.max (m - 1) 0))%Q).
    { rewrite !(Qmult_comm (initial_retry_delay settings)). by apply Qmult_le_compat_r. }
    q_cases; lra.
  - apply round_half_even_mono, Qmult_le_compat_r; [|done]. apply py_min_le_r.
  - change (inject_Z (2 ^ Z.max (1 - 1) 0)) with 1%Q.
    assert (E : (initial_retry_delay settings * 1)%Q = initial_retry_delay settings); [|by rewrite E].
    destruct (initial_retry_delay settings) as [a b]. unfold Qmult. simpl. by rewrite Z.mul_1_r, Pos.mul_1_r.
Qed.
End delays.

(** ** What one flush does *)

Section flush.
Context {W : Type} `{OutboxLaws W}.
Context (settings : OutboxDispatcherSettings) (bus : EventBusConfig).
Implicit Types (s : dispatcher W) (r : EventOutboxRecord).

Definition db_tables s : tables := (rows (world s), dead (world s)).

(** The tables are unchanged and more may have been sent. *)
Definition quiet s s' : Prop :=
  db_tables s' = db_tables s /\ exists more, sent (world s') = sent (world s) ++ more.

Lemma quiet_refl s : quiet s s.
Proof. split; [done|]. exists []. by rewrite app_nil_r. Qed.

Lemma quiet_trans s1 s2 s3 : quiet s1 s2 -> quiet s2 s3 -> quiet s1 s3.
Proof.
  intros [Ht [m Hm]] [Ht' [m' Hm']]. split; [by rewrite Ht'|]. exists (m ++ m'). by rewrite Hm', Hm, app_assoc.
Qed.

Lemma quiet_same s s' : same (world s) (world s') -> quiet s s'.
Proof.
  intros (Hr & Hd & Hs). split; [unfold db_tables; by rewrite Hr, Hd|]. exists []. by rewrite app_nil_r.
Qed.

Lemma quiet_sent s s' x : quiet s s' -> In x (sent (world s)) -> In x (sent (world s')).
Proof. intros [_ [m ->]] Hx. apply in_app_iff. by left. Qed.

Lemma outbox_clock_run s : exists t s',
  utcnow s = (Ok t, s') /\ quiet s s' /\ changes s' = changes s /\ producer s' = producer s.
Proof.
  unfold utcnow, on_world. pose proof (clock_law (world s)) as Hc.
  destruct (datetime_now (world s)) as [t w]. do 2 eexists. split; [reflexivity|]. split; [|done].
  by apply quiet_same.
Qed.

Definition event_of (m : EventBusMessage) : sent_event :=
  (full_topic bus m, m_payload m, sent_headers m, m_key m).

Lemma on_world_same {A} (m : M W A) s : same (world s) (snd (m (world s))) ->
  quiet s (snd (on_world m s)) /\ changes (snd (on_world m s)) = changes s.
Proof.
  intros Hs. unfold on_world. destruct (m (world s)) as [r w]. simpl. split; [by apply quiet_same|done].
Qed.

Lemma ensure_started_quiet s : quiet s (snd (_ensure_started bus s)) /\
  changes (snd (_ensure_started bus s)) = changes s.
Proof.
  unfold _ensure_started. destruct (negb (enabled bus)); [by split; [apply quiet_refl|]|].
  unfold mbind, M_bind, get. cbn beta iota. destruct (producer s); [by split; [apply quiet_refl|]|].
  destruct (on_world_same producer_new s (new_law _)) as [Hq Hc].
  destruct (on_world producer_new s) as [[[]|e] s1]; simpl in *; [|done].
  set (s2 := set_producer true s1).
  destruct (on_world_same producer_start s2 (start_law _)) as [Hq2 Hc2].
  split; [|by rewrite Hc2]. eapply quiet_trans; [exact Hq|]. exact Hq2.
Qed.

Lemma stop_bus_quiet s : quiet s (snd (stop_bus s)).
Proof.
  unfold stop_bus, mbind, M_bind, get. cbn beta iota. destruct (producer s); [|apply quiet_refl].
  destruct (on_world_same producer_stop s (stop_law _)) as [Hq _].
  destruct (on_world producer_stop s) as [[[]|e] s1]; done.
Qed.

(** Publishing leaves the tables and the unit of work alone, and a publication
    that returns has sent the event, unless the bus is disabled. *)
Lemma publish_run m s : let '(r, s') := publish bus m s in
  quiet s s' /\ changes s' = changes s /\
  (r = Ok tt -> enabled bus = true -> In (event_of m) (sent (world s'))).
Proof.
  unfold publish. destruct (enabled bus) eqn:En; simpl; [|by split; [apply quiet_refl|]].
  unfold mbind, M_bind. destruct (ensure_started_quiet s) as [Hq Hc].
  destruct (_ensure_started bus s) as [[[]|e] s1]; simpl in *; [|done]. unfold on_world.
  pose proof (send_law (full_topic bus m) (m_payload m) (sent_headers m) (m_key m) (world s1)) as Hl.
  destruct (producer_send _ _ _ _ (world s1)) as [r w]. destruct Hl as (Hr & Hd & Hs).
  split_and!; [|done|].
  - eapply quiet_trans; [exact Hq|]. split; [unfold db_tables; simpl; by rewrite Hr, Hd|]. simpl.
    destruct Hs as [->|[_ ->]]; [by eexists|]. exists []. by rewrite app_nil_r.
  - intros -> _. simpl. destruct Hs as [->|[? _]]; [|done]. apply in_app_iff. right. by left.
Qed.

(** The event of a stored record is among those sent. *)
Definition delivered (log : list sent_event) r : Prop :=
  enabled bus = true ->
  exists hs, _decode_headers (headers r) = Ok hs /\ In (event_of (message r hs)) log.

(** What the dispatcher writes for one claimed record. *)
Inductive verdict (log : list sent_event) r : option exn -> list change -> Prop :=
| published t : delivered log r ->
    verdict log r None [UpdateOutbox (set_row (attempts r) (available_at r) (Some t) None r)]
| postponed t e : attempts r + 1 < max_attempts settings ->
    verdict log r (Some e) [UpdateOutbox (set_row (attempts r + 1)
      (t + _compute_retry_delay settings (attempts r + 1)) (processed_at r)
      (Some (String.substring 0 1024 (exn_message e))) r)]
| given_up e err : max_attempts settings <= attempts r + 1 ->
    verdict log r (Some e)
      [AddDeadLetter (dead_letter (set_row (attempts r + 1) (available_at r) (processed_at r) err r)
         (exn_message e)); DeleteOutbox (o_id r)].

Lemma verdict_more log more r o cs : verdict log r o cs -> verdict (log ++ more) r o cs.
Proof.
  intros [t Hd|t e He|e err He]; [|by constructor..]. constructor. intros En. destruct (Hd En) as (hs & Hhs & Hin).
  exists hs. split; [done|]. apply in_app_iff. by left.
Qed.

Definition count_sent (os : list (option exn)) : Z :=
  Z.of_nat (length (lfilter (fun o => negb (opt_is_some o)) os)).

Lemma attempt_run (m : M (dispatcher W) unit) s : attempt m s =
  match m s with
  | (Ok _, s') => (Ok None, s')
  | (Raise e, s') => if catchable e then (Ok (Some e), s') else (Raise e, s')
  end.
Proof. unfold attempt, try_except, mbind, M_bind, mret, M_ret. by destruct (m s) as [[[]|e] s']. Qed.

Lemma add_change_run c s : add_change c s = (Ok tt, set_changes (changes s ++ [c]) s).
Proof. done. Qed.

Lemma mark_processed_run r s : exists t s', mark_processed r s = (Ok tt, s') /\ quiet s s' /\
  changes s' = changes s ++ [UpdateOutbox (set_row (attempts r) (available_at r) (Some t) None r)].
Proof.
  unfold mark_processed, mbind, M_bind. destruct (outbox_clock_run s) as (t & s1 & -> & Hq & Hc & _).
  cbn beta iota. rewrite add_change_run. do 2 eexists. split; [reflexivity|]. split; [done|].
  simpl. by rewrite Hc.
Qed.

Lemma mark_failed_run r e s : exists cs s',
  mark_failed r (exn_message e) (_compute_retry_delay settings (attempts r + 1)) (max_attempts settings) s =
    (Ok tt, s') /\ quiet s s' /\ changes s' = changes s ++ cs /\ forall log, verdict log r (Some e) cs.
Proof.
  unfold mark_failed. simpl. destruct (Z.leb_spec (max_attempts settings) (attempts r + 1)) as [Hm|Hm].
  - unfold _move_to_dead_letter_queue, mbind, M_bind. rewrite add_change_run. cbn beta iota.
    rewrite add_change_run. do 2 eexists. split; [reflexivity|]. split; [exact (quiet_refl s)|].
    split; [simpl; by rewrite <- app_assoc|]. intros log. by apply given_up.
  - unfold mbind, M_bind. destruct (outbox_clock_run s) as (t & s1 & -> & Hq & Hc & _). cbn beta iota.
    rewrite add_change_run. do 2 eexists. split; [reflexivity|]. split; [done|].
    split; [simpl; by rewrite Hc|]. intros log. exact (postponed log r t e Hm).
Qed.

(** The loop reaches a verdict on every claimed record and counts those
    published; an exception that is no [Exception] ends it. *)
Lemma dispatch_run rs : forall n s,
  let '(res, s') := dispatch settings bus rs n s in
  quiet s s' /\
  forall n', res = Ok n' -> exists os groups,
    Forall3 (verdict (sent (world s'))) rs os groups /\ n' = n + count_sent os /\
    changes s' = changes s ++ concat groups.
Proof.
  induction rs as [|r rs IH]; intros n s; cbn [dispatch].
  { split; [apply quiet_refl|]. intros n' [= <-]. exists [], []. split; [constructor|].
    split; [unfold count_sent; simpl; lia|simpl; by rewrite app_nil_r]. }
  unfold mbind at 1, M_bind at 1, lift.
  destruct (_decode_headers (headers r)) as [hs|e] eqn:Eh; [|by split; [apply quiet_refl|]].
  unfold mbind at 1, M_bind at 1. rewrite attempt_run. pose proof (publish_run (message r hs) s) as Hp.
  destruct (publish bus (message r hs) s) as [[[]|e] s1]; destruct Hp as (Hq & Hc & Hsent).
  - unfold mbind at 1, M_bind at 1. destruct (mark_processed_run r s1) as (t & s2 & -> & Hq2 & Hc2).
    cbn beta iota. specialize (IH (n + 1) s2). destruct (dispatch settings bus rs (n + 1) s2) as [res s3].
    destruct IH as [Hq3 IH]. split; [by eapply quiet_trans; [exact Hq|eapply quiet_trans]|].
    intros n' ->. destruct (IH n' eq_refl) as (os & groups & Hv & -> & Hc3).
    exists (None :: os), ([UpdateOutbox (set_row (attempts r) (available_at r) (Some t) None r)] :: groups).
    split; [constructor; [|done]|split].
    + constructor. intros En. exists hs. split; [done|]. eapply quiet_sent; [exact Hq3|].
      eapply quiet_sent; [exact Hq2|]. by apply Hsent.
    + unfold count_sent. simpl. lia.
    + rewrite Hc3, Hc2, Hc. simpl. by rewrite <- app_assoc.
  - destruct (catchable e); [|by split; [exact Hq|]]. unfold mbind at 1, M_bind at 1.
    destruct (mark_failed_run r e s1) as (cs & s2 & -> & Hq2 & Hc2 & Hv).
    cbn beta iota. specialize (IH n s2). destruct (dispatch settings bus rs n s2) as [res s3].
    destruct IH as [Hq3 IH]. split; [by eapply quiet_trans; [exact Hq|eapply quiet_trans]|].
    intros n' ->. destruct (IH n' eq_refl) as (os & groups & Hvs & -> & Hc3).
    exists (Some e :: os), (cs :: groups). split; [constructor; [apply Hv|done]|split].
    + unfold count_sent. simpl. lia.
    + rewrite Hc3, Hc2, Hc. simpl. by rewrite <- app_assoc.
Qed.

Lemma session_scope_run {A} (body : M (dispatcher W) A) s : session_scope body s =
  match body (set_changes [] s) with
  | (Ok a, s1) => let '(r, w) := db_commit (changes s1) (world s1) in
                  (match r with Ok _ => Ok a | Raise e => Raise e end, Dispatcher (producer s1) [] w)
  | (Raise e, s1) => (Raise e, set_changes [] s1)
  end.
Proof.
  unfold session_scope, try_finally, try_except, mbind, M_bind, get, modify, on_world, raise, mret, M_ret.
  destruct (body (set_changes [] s)) as [[a|e] s1]; cbn beta iota.
  - destruct (db_commit (changes s1) (world s1)) as [[[]|e] w]; cbn beta iota; [done|].
    by destruct (catchable e).
  - by destruct (catchable e).
Qed.
End flush.

(** ** No event is lost *)

Section accounting.
Context {W : Type} `{OutboxLaws W}.
Context (settings : OutboxDispatcherSettings) (bus : EventBusConfig).
Implicit Types (s : dispatcher W) (r : EventOutboxRecord) (t : tables) (log : list sent_event).

Definition give_up_at : Z := Z.max 1 (max_attempts settings).

Definition row_ok log r : Prop :=
  (exists hs, _decode_headers (headers r) = Ok hs) /\ 0 <= attempts r < give_up_at /\
  (processed_at r <> None -> delivered bus log r).

Definition tables_ok log t : Prop :=
  (forall id r, fst t !! id = Some r -> o_id r = id /\ row_ok log r) /\
  (forall d, In d (snd t) -> d_attempts d = give_up_at).

(** A record and a dead letter carry the event of [r]. *)
Definition same_event r r' : Prop :=
  topic r' = topic r /\ key r' = key r /\ payload r' = payload r /\ headers r' = headers r /\
  created_at r' = created_at r.
Definition letter_of r (d : EventDeadLetterRecord) : Prop :=
  original_topic d = topic r /\ d_key d = key r /\ d_payload d = payload r /\ d_headers d = headers r /\
  original_created_at d = created_at r.

(** The event stored as [r] under [id] is still there, or in the dead letters. *)
Definition tracked r id t : Prop :=
  (exists r', fst t !! id = Some r' /\ same_event r r') \/ (exists d, In d (snd t) /\ letter_of r d).

Lemma applied_app cs1 cs2 t t'' : applied (cs1 ++ cs2) t t'' ->
  exists t', applied cs1 t t' /\ applied cs2 t' t''.
Proof.
  revert t. induction cs1 as [|c cs1 IH]; simpl; intros t Ha.
  - exists t. by split; [constructor|].
  - inversion_clear Ha as [|? ? ? t1 ? H1' H2']. destruct (IH _ H2') as (t' & ? & ?).
    exists t'. split; [by econstructor|done].
Qed.

Lemma row_ok_more log more r : row_ok log r -> row_ok (log ++ more) r.
Proof.
  intros (Hh & Ha & Hp). split; [done|]. split; [done|]. intros Hproc En. destruct (Hp Hproc En) as (hs & ? & Hin).
  exists hs. split; [done|]. apply in_app_iff. by left.
Qed.

Lemma tables_ok_more log more t : tables_ok log t -> tables_ok (log ++ more) t.
Proof.
  intros [Hr Hd]. split; [|done]. intros id r Hl. destruct (Hr id r Hl) as [? ?].
  split; [done|by apply row_ok_more].
Qed.

Lemma update_ok log r t rws ds : row_ok log r -> applied1 (UpdateOutbox r) (rws, ds) t ->
  tables_ok log (rws, ds) -> tables_ok log t.
Proof.
  intros Hr Ha [Hrows Hd]. inversion_clear Ha. split; [|done]. simpl in *. intros id r' Hl.
  destruct (decide (id = o_id r)) as [->|Hne].
  - rewrite lookup_alter in Hl. rewrite decide_True in Hl by done.
    destruct (rws !! o_id r); simpl in Hl; [|done]. simplify_eq. done.
  - rewrite lookup_alter_ne in Hl by done. by apply Hrows.
Qed.

(** Every verdict keeps the tables well formed. *)
Lemma verdict_ok log r o cs t t' : row_ok log r -> verdict settings bus log r o cs ->
  applied cs t t' -> tables_ok log t -> tables_ok log t'.
Proof.
  intros (Hh & Ha & Hp) Hv Happ Hok. destruct t as [rws ds].
  destruct Hv as [n Hd|n e Hm|e err Hm].
  - inversion_clear Happ as [|? ? ? t1 ? H1' H2']. inversion H2'; subst.
    eapply update_ok; [|done..]. split; [done|]. split; [done|]. by intros _.
  - inversion_clear Happ as [|? ? ? t1 ? H1' H2']. inversion H2'; subst.
    eapply update_ok; [|done..]. unfold row_ok, give_up_at, delivered in *. simpl. split; [done|]. split; [lia|done].
  - inversion_clear Happ as [|? ? ? t1 ? H1' H2']. inversion H1'; subst.
    inversion_clear H2' as [|? ? ? t2 ? H3' H4']. inversion H4'; subst. inversion H3'; subst.
    destruct Hok as [Hrows Hdead]. split; simpl in *.
    + intros id r' [_ Hl]%lookup_delete_Some. by apply Hrows.
    + intros d [Hin|[<-|[]]]%in_app_iff; [by apply Hdead|]. unfold give_up_at in *. simpl. lia.
Qed.

Lemma applied1_dead c t t' d : applied1 c t t' -> In d (snd t) -> In d (snd t').
Proof. intros []; simpl; try done. intros. apply in_app_iff. by left. Qed.

Lemma applied1_tracked c r0 id t t' : applied1 c t t' ->
  (forall r, c = UpdateOutbox r -> o_id r = id -> same_event r0 r) -> c <> DeleteOutbox id ->
  tracked r0 id t -> tracked r0 id t'.
Proof.
  intros Ha Hu Hnd [(r & Hl & He)|(d & Hin & Hd)]; [|right; exists d; split; [by eapply applied1_dead|done]].
  left. destruct Ha as [e id' created rws ds Hf|d rws ds|r1 rws ds|id' rws ds]; simpl in *.
  - exists r. split; [|done]. apply lookup_insert_Some. right. split; [congruence|done].
  - by exists r.
  - destruct (decide (o_id r1 = id)) as [<-|Hne].
    + exists r1. rewrite lookup_alter, decide_True, Hl by done. split; [done|]. by apply Hu.
    + exists r. by rewrite lookup_alter_ne.
  - exists r. split; [|done]. rewrite lookup_delete_ne; congruence.
Qed.

(** Every verdict keeps every event. *)
Lemma verdict_tracked log r o cs r0 id t t' : (o_id r = id -> same_event r0 r) ->
  verdict settings bus log r o cs -> applied cs t t' -> tracked r0 id t -> tracked r0 id t'.
Proof.
  intros He Hv Happ Ht. destruct Hv as [n Hd|n e Hm|e err Hm].
  - inversion_clear Happ as [|? ? ? t1 ? H1' H2']. inversion H2'; subst.
    eapply applied1_tracked; [done| |done|done]. by intros ? [= <-].
  - inversion_clear Happ as [|? ? ? t1 ? H1' H2']. inversion H2'; subst.
    eapply applied1_tracked; [done| |done|done]. by intros ? [= <-].
  - inversion_clear Happ as [|? ? ? t1 ? H1' H2']. inversion_clear H2' as [|? ? ? t2 ? H3' H4'].
    inversion H4'; subst. inversion H1'; subst. inversion H3'; subst.
    destruct (decide (o_id r = id)) as [<-|Hne].
    + right. eexists. split; [apply in_app_iff; right; by left|]. by apply He.
    + eapply applied1_tracked; [exact H3'|done|congruence|].
      eapply applied1_tracked; [exact H1'|done|done|done].
Qed.

Lemma groups_applied log rs os groups : Forall3 (verdict settings bus log) rs os groups ->
  (forall r, In r rs -> row_ok log r) ->
  forall t t', applied (concat groups) t t' -> tables_ok log t ->
  tables_ok log t' /\
  (forall r0 id, (forall r, In r rs -> o_id r = id -> same_event r0 r) -> tracked r0 id t -> tracked r0 id t') /\
  (forall d, In d (snd t) -> In d (snd t')).
Proof.
  induction 1 as [|r o cs rs os groups Hv Hvs IH]; simpl; intros Hrs t t' Happ Hok.
  { by inversion Happ; subst. }
  apply applied_app in Happ as (t1 & Happ1 & Happ2).
  assert (Hok1 : tables_ok log t1) by (eapply verdict_ok; [apply Hrs; by left|done..]).
  destruct (IH (fun r Hr => Hrs r (or_intror Hr)) t1 t' Happ2 Hok1) as (Hok' & Htr & Hd).
  split_and!; [done| |].
  - intros r0 id Hsame Ht. apply Htr; [naive_solver|]. eapply verdict_tracked; [|done..]. naive_solver.
  - intros d Hin. apply Hd. clear - Happ1 Hin. induction Happ1; [done|]. apply IHHapp1. by eapply applied1_dead.
Qed.
(** *** Any sequence of operations *)

Inductive op :=
| Enqueue (tp : string) (pl : bytes) (k : option bytes) (h : option (pydict bytes)) (at_ : option Z)
| Flush
| StopBus.

Definition run_op (o : op) s : dispatcher W :=
  match o with
  | Enqueue tp pl k h at_ => snd (enqueue_event tp pl k h at_ s)
  | Flush => snd (flush_once settings bus s)
  | StopBus => snd (stop_bus s)
  end.
Definition run_ops (os : list op) s : dispatcher W := foldl (fun s o => run_op o s) s os.

Definition state_ok s : Prop := tables_ok (sent (world s)) (db_tables s).

(** [s'] follows [s]: it is well formed, what has been sent stays sent, and no
    stored event and no dead letter disappears. *)
Definition follows s s' : Prop :=
  state_ok s' /\ (exists more, sent (world s') = sent (world s) ++ more) /\
  forall r id, tracked r id (db_tables s) -> tracked r id (db_tables s').

Lemma follows_quiet s s' : state_ok s -> quiet s s' -> follows s s'.
Proof.
  intros Hs [Ht [more Hm]]. unfold follows, state_ok. rewrite Ht, Hm.
  split; [by apply tables_ok_more|]. split; [by exists more|done].
Qed.

Lemma follows_trans s1 s2 s3 : follows s1 s2 -> follows s2 s3 -> follows s1 s3.
Proof.
  intros (_ & [m1 H1'] & Ht1) (Hok & [m2 H2'] & Ht2). split; [done|]. split; [|auto].
  exists (m1 ++ m2). by rewrite H2', H1', app_assoc.
Qed.

(** The end of a session whose changes keep the tables well formed. *)
Lemma commit_follows s1 : state_ok s1 ->
  (forall t, applied (changes s1) (db_tables s1) t ->
     tables_ok (sent (world s1)) t /\ forall r id, tracked r id (db_tables s1) -> tracked r id t) ->
  follows s1 (Dispatcher (producer s1) [] (snd (db_commit (changes s1) (world s1)))).
Proof.
  intros Hs Happ. pose proof (commit_law (changes s1) (world s1)) as Hl.
  destruct (db_commit (changes s1) (world s1)) as [r w]. destruct Hl as [Hsent [Ha|(_ & Hr & Hd)]].
  - destruct (Happ _ Ha) as [Hok Ht]. unfold follows, state_ok, db_tables. simpl. rewrite Hsent.
    split; [done|]. split; [exists []; by rewrite app_nil_r|done].
  - apply follows_quiet; [done|]. apply quiet_same. by split_and!.
Qed.

Lemma flush_follows s : state_ok s -> follows s (snd (flush_once settings bus s)).
Proof.
  intros Hs. unfold flush_once. rewrite session_scope_run. unfold claim_batch, mbind, M_bind.
  set (s0 := set_changes [] s). destruct (outbox_clock_run s0) as (now & s1 & -> & Hq1 & Hc1 & _). cbn beta iota.
  unfold on_world. pose proof (select_law (due now) (batch_size settings) (world s1)) as Hsel.
  destruct (db_select (due now) (batch_size settings) (world s1)) as [res w]. destruct Hsel as [Hsame Hsel].
  set (s2 := set_world w s1). assert (Hq2 : quiet s s2).
  { eapply quiet_trans; [exact Hq1|]. by apply quiet_same. }
  destruct res as [rs|e]; cbn beta iota; [|by apply follows_quiet].
  pose proof (dispatch_run settings bus rs 0 s2) as Hd.
  destruct (dispatch settings bus rs 0 s2) as [res s3]. destruct Hd as [Hq3 Hd].
  assert (Hq : quiet s s3) by (by eapply quiet_trans).
  destruct res as [n|e]; cbn beta iota; [|by apply follows_quiet].
  destruct (Hd n eq_refl) as (os & groups & Hv & _ & Hc3).
  assert (Hf3 : follows s s3) by (by apply follows_quiet).
  pose proof (commit_follows s3 (proj1 Hf3)) as Hcf.
  destruct (db_commit (changes s3) (world s3)) as [r w3]. simpl in Hcf |- *.
  eapply follows_trans; [exact Hf3|]. apply Hcf. intros t Ha.
  assert (Hrows : forall r, In r rs -> fst (db_tables s3) !! o_id r = Some r).
  { intros x Hx. destruct (sel_rows _ _ _ _ (Hsel rs eq_refl) x Hx) as [Hl _].
    rewrite (proj1 Hq). change (fst (db_tables s)) with (fst (db_tables s0)). by rewrite <- (proj1 Hq1). }
  rewrite Hc3 in Ha. change (changes s2) with (changes s1) in Ha. rewrite Hc1 in Ha. simpl in Ha.
  destruct (groups_applied _ _ _ _ Hv) with (t := db_tables s3) (t' := t) as (Hok & Htr & _);
    [|done|apply Hf3|].
  { intros x Hx. by apply (proj1 (proj1 Hf3) (o_id x)), Hrows. }
  split; [done|]. intros r0 id [(r1 & Hl & He)|Hdead].
  - apply Htr; [|by left; exists r1]. intros x Hx Hid. pose proof (Hrows x Hx) as Hl'.
    rewrite Hid in Hl'. congruence.
  - right. destruct Hdead as (d & Hin & Hlet). exists d. split; [|done]. clear - Ha Hin.
    induction Ha; [done|]. apply IHHa. by eapply applied1_dead.
Qed.

Lemma enqueue_follows tp pl k h at_ s : state_ok s -> follows s (snd (enqueue_event tp pl k h at_ s)).
Proof.
  intros Hs. unfold enqueue_event. rewrite session_scope_run. unfold enqueue, mbind, M_bind.
  set (s0 := set_changes [] s).
  assert (Hat : exists a s1, (match at_ with Some t => mret t | None => utcnow end) s0 = (Ok a, s1) /\
    quiet s s1 /\ changes s1 = []).
  { destruct at_ as [a|]; [exists a, s0; split; [done|]; by split; [exact (quiet_refl s)|]|]. destruct (outbox_clock_run s0) as (a & s1 & -> & Hq & Hc & _).
    exists a, s1. split; [done|]. split; [exact Hq|by rewrite Hc]. }
  destruct Hat as (a & s1 & -> & Hq & Hc). cbn beta iota. rewrite add_change_run.
  set (s2 := set_changes _ s1). cbn beta iota. assert (Hf : follows s s2) by (by apply follows_quiet).
  pose proof (commit_follows s2 (proj1 Hf)) as Hcf.
  destruct (db_commit (changes s2) (world s2)) as [r w]. simpl in Hcf |- *.
  eapply follows_trans; [exact Hf|]. apply Hcf. simpl. rewrite Hc. simpl. intros t Ha.
  inversion_clear Ha as [|? ? ? t1 ? H1' H2']. inversion H2'; subst. inversion H1' as [e id created rws ds Hn| | |]; subst.
  assert (Hok : state_ok s2) by apply Hf. split.
  - destruct Hok as [Hrows Hdead]. split; [|exact Hdead]. simpl. intros id' r' [[<- <-]|[_ Hl]]%lookup_insert_Some.
    + split; [done|]. split; [eexists; apply headers_roundtrip|]. split; [unfold give_up_at; simpl; lia|done].
    + by apply Hrows.
  - intros r0 id' Ht. by eapply applied1_tracked.
Qed.

Lemma run_op_follows o s : state_ok s -> follows s (run_op o s).
Proof. intros Hs. destruct o; [by apply enqueue_follows|by apply flush_follows|].
  apply follows_quiet; [done|apply stop_bus_quiet]. Qed.

Lemma run_ops_follows os s : state_ok s -> follows s (run_ops os s).
Proof.
  revert s. induction os as [|o os IH]; intros s Hs; simpl.
  - apply follows_quiet; [done|apply quiet_refl].
  - pose proof (run_op_follows o s Hs) as Hf. eapply follows_trans; [exact Hf|]. apply IH, Hf.
Qed.

Definition empty_start s : Prop := rows (world s) = ∅ /\ dead (world s) = [].

Lemma start_ok s : empty_start s -> state_ok s.
Proof. intros [Hr Hd]. unfold state_ok, tables_ok, db_tables. rewrite Hr, Hd. split; simpl; [|done]. done. Qed.

(** C6: Once the event of a row is stored, it is never lost: after any further
    operations, whatever statement, commit or publication fails in them, the
    row is still there with the same event, and if it is marked processed the
    event has been sent; or the event is a dead letter that was tried the
    configured number of times. *)
Theorem no_event_lost s0 os os' id r :
  empty_start s0 -> rows (world (run_ops os s0)) !! id = Some r ->
  let s' := run_ops os' (run_ops os s0) in
  (exists r', rows (world s') !! id = Some r' /\ same_event r r' /\
     (processed_at r' <> None -> delivered bus (sent (world s')) r')) \/
  (exists d, In d (dead (world s')) /\ letter_of r d /\ d_attempts d = give_up_at).
Proof.
  intros H0s Hr s'. assert (Hs : state_ok (run_ops os s0)) by (by apply run_ops_follows, start_ok).
  destruct (run_ops_follows os' _ Hs) as ([Hrows Hdead] & _ & Htr). fold s' in Hrows, Hdead, Htr.
  destruct (Htr r id) as [(r' & Hl & He)|(d & Hin & Hd)]; [left; by exists r|..].
  - left. exists r'. split; [done|]. split; [done|]. by apply (Hrows id r' Hl).
  - right. exists d. split; [done|]. split; [done|]. by apply Hdead.
Qed.

(** No row is tried more often than configured, and its headers can always
    be decoded, so a flush never stumbles over a row. *)
Theorem attempts_bounded s0 os id r :
  empty_start s0 -> rows (world (run_ops os s0)) !! id = Some r ->
  0 <= attempts r < Z.max 1 (max_attempts settings) /\ exists hs, _decode_headers (headers r) = Ok hs.
Proof.
  intros H0s Hr. destruct (run_ops_follows os s0 (start_ok s0 H0s)) as ([Hrows _] & _).
  by destruct (Hrows id r Hr) as (_ & Hh & Ha & _).
Qed.

(** *** A flush when everything works *)

(** In the worlds [ok] the queries and the producer work. *)
Record works (ok : W -> Prop) : Prop := {
  works_clock w : ok w -> ok (snd (datetime_now w));
  works_select p n w : ok w -> exists l w', db_select p n w = (Ok l, w') /\ ok w';
  works_new w : ok w -> exists w', producer_new w = (Ok tt, w') /\ ok w';
  works_start w : ok w -> exists w', producer_start w = (Ok tt, w') /\ ok w';
  works_send tp p h k w : ok w -> exists w', producer_send tp p h k w = (Ok tt, w') /\ ok w' }.

Definition processed_row (n : Z) r := set_row (attempts r) (available_at r) (Some n) None r.

Definition event_from r (e : sent_event) : Prop :=
  exists hs, _decode_headers (headers r) = Ok hs /\ e = event_of bus (message r hs).

Section working.
Context (ok : W -> Prop) (Hok : works ok).

Lemma publish_works m s : ok (world s) -> exists s', publish bus m s = (Ok tt, s') /\ ok (world s') /\
  db_tables s' = db_tables s /\ changes s' = changes s /\
  sent (world s') = sent (world s) ++ (if enabled bus then [event_of bus m] else []).
Proof using Hok.
  intros Hw. unfold publish. destruct (enabled bus) eqn:En; simpl.
  2: { exists s. by rewrite app_nil_r. }
  assert (Hes : exists s1, _ensure_started bus s = (Ok tt, s1) /\ ok (world s1) /\
    same (world s) (world s1) /\ changes s1 = changes s).
  { unfold _ensure_started. rewrite En. simpl. unfold mbind, M_bind, get. cbn beta iota.
    destruct (producer s); [by exists s|]. unfold on_world at 1.
    pose proof (new_law (world s)) as Hn. destruct (works_new _ Hok (world s) Hw) as (w1 & Hnew & Hw1).
    rewrite Hnew in *. simpl in Hn. cbn beta iota. unfold modify, on_world. simpl.
    pose proof (start_law w1) as Hst. destruct (works_start _ Hok w1 Hw1) as (w2 & Hstart & Hw2).
    rewrite Hstart in *. simpl in Hst. eexists. split; [done|]. simpl. split; [done|].
    destruct Hn as (Ha & Hb & Hc), Hst as (Ha' & Hb' & Hc').
    split; [|done]. split; [by rewrite Ha', Ha|]. by rewrite Hb', Hb, Hc', Hc. }
  destruct Hes as (s1 & He & Hw1 & (Hr & Hd & Hs) & Hc). unfold mbind, M_bind. rewrite He. cbn beta iota.
  unfold on_world. pose proof (send_law (full_topic bus m) (m_payload m) (sent_headers m) (m_key m) (world s1)) as Hl.
  destruct (works_send _ Hok (full_topic bus m) (m_payload m) (sent_headers m) (m_key m) (world s1) Hw1) as (w & Hsend & Hw2).
  rewrite Hsend in *. destruct Hl as (Hr' & Hd' & Hs'). eexists. split; [done|]. split; [done|].
  unfold db_tables. simpl. rewrite Hr', Hd', Hr, Hd. split; [done|]. split; [done|].
  destruct Hs' as [->|[? _]]; [by rewrite Hs|done].
Qed.

Lemma mark_processed_works r s : ok (world s) -> exists n s', mark_processed r s = (Ok tt, s') /\ ok (world s') /\
  db_tables s' = db_tables s /\ changes s' = changes s ++ [UpdateOutbox (processed_row n r)] /\
  sent (world s') = sent (world s).
Proof using Hok.
  intros Hw. unfold mark_processed, mbind, M_bind, utcnow, on_world. pose proof (clock_law (world s)) as (Hr & Hd & Hs).
  pose proof (works_clock _ Hok (world s) Hw) as Hw'. destruct (datetime_now (world s)) as [n w].
  cbn beta iota. rewrite add_change_run. exists n. eexists. split; [reflexivity|]. unfold db_tables. simpl in *.
  by rewrite Hr, Hd.
Qed.

Lemma dispatch_works rs : (forall r, In r rs -> exists hs, _decode_headers (headers r) = Ok hs) ->
  forall n s, ok (world s) -> exists s' ts evs,
    dispatch settings bus rs n s = (Ok (n + Z.of_nat (length rs)), s') /\ ok (world s') /\
    db_tables s' = db_tables s /\ length ts = length rs /\ Forall2 event_from rs evs /\
    sent (world s') = sent (world s) ++ (if enabled bus then evs else []) /\
    changes s' = changes s ++ map UpdateOutbox (zip_with processed_row ts rs).
Proof using Hok.
  induction rs as [|r rs IH]; intros Hdec n s Hw.
  { exists s, [], []. simpl. rewrite Z.add_0_r, app_nil_r.
    split_and!; try done. destruct (enabled bus); by rewrite app_nil_r. }
  cbn [dispatch]. destruct (Hdec r (or_introl eq_refl)) as [hs Hhs]. unfold mbind at 1, M_bind at 1, lift.
  rewrite Hhs. cbn beta iota. unfold mbind at 1, M_bind at 1. rewrite attempt_run.
  destruct (publish_works (message r hs) s Hw) as (s1 & -> & Hw1 & Ht1 & Hc1 & Hs1). cbn beta iota.
  unfold mbind at 1, M_bind at 1.
  destruct (mark_processed_works r s1 Hw1) as (t & s2 & -> & Hw2 & Ht2 & Hc2 & Hs2). cbn beta iota.
  destruct (IH (fun x Hx => Hdec x (or_intror Hx)) (n + 1) s2 Hw2)
    as (s3 & ts & evs & -> & Hw3 & Ht3 & Hlen & Hev & Hs3 & Hc3).
  exists s3, (t :: ts), (event_of bus (message r hs) :: evs). split_and!.
  - f_equal. f_equal. simpl. lia.
  - done.
  - by rewrite Ht3, Ht2.
  - simpl. by rewrite Hlen.
  - constructor; [by exists hs|done].
  - rewrite Hs3, Hs2, Hs1, <- app_assoc. by destruct (enabled bus).
  - rewrite Hc3, Hc2, Hc1, <- app_assoc. done.
Qed.

(** The body of a flush, up to its commit. *)
Lemma flush_body_works s : state_ok s -> ok (world s) -> exists now claimed ts evs s3,
  (records ← claim_batch (batch_size settings); dispatch settings bus records 0) (set_changes [] s) =
    (Ok (Z.of_nat (length claimed)), s3) /\ ok (world s3) /\
  selected (due now) (batch_size settings) (rows (world s)) claimed /\
  Forall2 event_from claimed evs /\ length ts = length claimed /\ db_tables s3 = db_tables s /\
  sent (world s3) = sent (world s) ++ (if enabled bus then evs else []) /\
  changes s3 = map UpdateOutbox (zip_with processed_row ts claimed).
Proof using Hok.
  intros Hs Hw. unfold claim_batch, mbind, M_bind. set (s1 := set_changes [] s). unfold utcnow, on_world.
  pose proof (clock_law (world s1)) as (Hr1 & Hd1 & Hs1). pose proof (works_clock _ Hok (world s1) Hw) as Hw1.
  destruct (datetime_now (world s1)) as [now w1]. simpl in Hr1, Hd1, Hs1, Hw1. cbn beta iota.
  change (world (set_world w1 s1)) with w1.
  pose proof (select_law (due now) (batch_size settings) w1) as Hsel.
  destruct (works_select _ Hok (due now) (batch_size settings) w1 Hw1) as (rs & w2 & Hrs & Hw2).
  rewrite Hrs in *. destruct Hsel as [(Hr2 & Hd2 & Hs2) Hsel]. specialize (Hsel rs eq_refl). cbn beta iota.
  rewrite Hr1 in Hsel, Hr2. set (s2 := set_world w2 _).
  destruct (dispatch_works rs) with (n := 0) (s := s2) as (s3 & ts & evs & -> & Hw3 & Ht3 & Hlen & Hev & Hs3 & Hc3);
    [|done|].
  { intros x Hx. destruct (proj1 Hs (o_id x) x) as (_ & ? & _); [|done]. by apply (sel_rows _ _ _ _ Hsel). }
  exists now, rs, ts, evs, s3. split; [done|]. split; [done|]. split; [done|]. split; [done|]. split; [done|].
  unfold db_tables in *. simpl in Ht3, Hs3. rewrite Ht3, Hs3, Hr2, Hd2, Hd1, Hs2, Hs1. done.
Qed.
End working.

Lemma applied_updates us : forall rws ds t, applied (map UpdateOutbox us) (rws, ds) t ->
  NoDup (map o_id us) -> (forall u, In u us -> is_Some (rws !! o_id u)) ->
  snd t = ds /\ (forall u, In u us -> fst t !! o_id u = Some u) /\
  (forall id, ~ In id (map o_id us) -> fst t !! id = rws !! id).
Proof.
  induction us as [|u us IH]; simpl; intros rws ds t Ha Hnd Hin; [by inversion Ha; subst|].
  inversion_clear Ha as [|? ? ? t1 ? H1' H2']. inversion H1'; subst.
  apply NoDup_cons in Hnd as [Hni Hnd]. rewrite list_elem_of_In in Hni.
  destruct (IH _ _ _ H2' Hnd) as (Hs & Hu & Ho).
  { intros x Hx. destruct (decide (o_id x = o_id u)) as [He|Hne].
    - destruct Hni. rewrite <- He. by apply in_map.
    - rewrite lookup_alter_ne by done. auto. }
  split_and!; [done| |].
  - intros x [<-|Hx]; [|by apply Hu]. rewrite (Ho _ Hni), lookup_alter, decide_True by done.
    by destruct (Hin u (or_introl eq_refl)) as [? ->].
  - intros id Hid. rewrite Ho by naive_solver. by apply lookup_alter_ne; naive_solver.
Qed.

Lemma sorted_nodup (l : list EventOutboxRecord) : StronglySorted (fun a b => o_id a < o_id b) l -> NoDup (map o_id l).
Proof.
  induction 1 as [|r l Hs IH Hall]; simpl; constructor; [|done]. rewrite list_elem_of_In, in_map_iff.
  intros (x & Hx & Hin). rewrite Forall_forall in Hall. specialize (Hall x).
  rewrite list_elem_of_In in Hall. specialize (Hall Hin). lia.
Qed.

Lemma zip_ids ts (rs : list EventOutboxRecord) : length ts = length rs ->
  map o_id (zip_with processed_row ts rs) = map o_id rs.
Proof. revert ts. induction rs as [|r rs IH]; intros [|t ts]; simpl; intros Hl; [done..|]. f_equal. apply IH. lia. Qed.

Lemma zip_In ts (rs : list EventOutboxRecord) r : length ts = length rs -> In r rs ->
  exists n, In (processed_row n r) (zip_with processed_row ts rs).
Proof.
  revert ts. induction rs as [|x rs IH]; intros [|t ts]; simpl; intros Hl; try done.
  intros [->|Hr]; [exists t; by left|]. destruct (IH ts) as [t' Ht']; [lia|done|]. exists t'. by right.
Qed.

(** C19: A flush in which the database and the producer work publishes the due
    events with the least identifiers, up to the batch size, each once and in
    the order of their identifiers, marks exactly their rows processed, returns
    their number, and changes nothing else, whatever has failed before. With the
    event bus disabled it does the same and publishes nothing. *)
Theorem working_flush_delivers s0 os (ok : W -> Prop) :
  let s := run_ops os s0 in
  empty_start s0 -> works ok -> ok (world s) -> (forall cs w, ok w -> fst (db_commit cs w) = Ok tt) ->
  exists now claimed evs s',
    flush_once settings bus s = (Ok (Z.of_nat (length claimed)), s') /\
    selected (due now) (batch_size settings) (rows (world s)) claimed /\
    Forall2 event_from claimed evs /\
    sent (world s') = sent (world s) ++ (if enabled bus then evs else []) /\
    dead (world s') = dead (world s) /\
    (forall r, In r claimed -> exists n, rows (world s') !! o_id r = Some (processed_row n r)) /\
    (forall id, ~ In id (map o_id claimed) -> rows (world s') !! id = rows (world s) !! id).
Proof.
  intros s H0s Hok Hw Hcommit. assert (Hs : state_ok s) by (by apply run_ops_follows, start_ok).
  unfold flush_once. rewrite session_scope_run.
  destruct (flush_body_works ok Hok s Hs Hw) as (now & rs & ts & evs & s3 & -> & Hw3 & Hsel & Hev & Hlen & Ht3 & Hs3 & Hc3).
  pose proof (commit_law (changes s3) (world s3)) as Hl. specialize (Hcommit (changes s3) (world s3) Hw3).
  destruct (db_commit (changes s3) (world s3)) as [r w3]. simpl in Hcommit. subst r.
  destruct Hl as [Hsent [Ha|[? _]]]; [|done]. rewrite Hc3 in Ha. unfold db_tables in Ht3. injection Ht3 as Hr3 Hd3.
  rewrite Hr3, Hd3 in Ha. destruct (applied_updates _ _ _ _ Ha) as (Hdead & Hu & Ho).
  { rewrite zip_ids by done. apply sorted_nodup, Hsel. }
  { intros u Hin. apply (in_map o_id) in Hin. rewrite zip_ids in Hin by done.
    apply in_map_iff in Hin as (x & <- & Hx). destruct (sel_rows _ _ _ _ Hsel x Hx) as [-> _]. by eexists. }
  simpl in Hdead, Hu, Ho. exists now, rs, evs. eexists. split; [reflexivity|]. simpl. split; [done|]. split; [done|].
  split; [by rewrite Hsent, Hs3|]. split; [done|]. split.
  - intros x Hx. destruct (zip_In ts rs x Hlen Hx) as [t Ht]. exists t. exact (Hu _ Ht).
  - intros id Hid. apply Ho. by rewrite zip_ids.
Qed.

(** Events are delivered at least once, not exactly once: a flush whose
    commit fails has already published its batch, and leaves every row of it as
    it was, to be published again by the next flush. *)
Theorem failed_commit_republishes s0 os (ok : W -> Prop) e :
  let s := run_ops os s0 in
  empty_start s0 -> works ok -> ok (world s) -> enabled bus = true ->
  (forall cs w, ok w -> exists w', db_commit cs w = (Raise e, w') /\ rows w' = rows w /\ dead w' = dead w) ->
  exists now claimed evs s',
    flush_once settings bus s = (Raise e, s') /\
    selected (due now) (batch_size settings) (rows (world s)) claimed /\ Forall2 event_from claimed evs /\
    sent (world s') = sent (world s) ++ evs /\
    rows (world s') = rows (world s) /\ dead (world s') = dead (world s).
Proof.
  intros s H0s Hok Hw En Hcommit. assert (Hs : state_ok s) by (by apply run_ops_follows, start_ok).
  unfold flush_once. rewrite session_scope_run.
  destruct (flush_body_works ok Hok s Hs Hw) as (now & rs & ts & evs & s3 & -> & Hw3 & Hsel & Hev & _ & Ht3 & Hs3 & _).
  pose proof (commit_law (changes s3) (world s3)) as Hl.
  destruct (Hcommit (changes s3) (world s3) Hw3) as (w' & Hc & Hr & Hd). rewrite Hc in *. destruct Hl as [Hsent _].
  exists now, rs, evs. eexists. split; [reflexivity|]. simpl. unfold db_tables in Ht3. injection Ht3 as Hr3 Hd3.
  split; [done|]. split; [done|]. rewrite Hsent, Hs3, En. split; [done|]. by rewrite Hr, Hd.
Qed.
End accounting.

(** ** A database and a producer in memory

    [failing_commits] says of the coming commits whether they fail,
    [failing_sends] how many of the coming sends do. *)

Record mem := Mem {
  m_rows : gmap Z EventOutboxRecord; m_dead : list EventDeadLetterRecord; m_sent : list sent_event;
  m_clock : Z; failing_commits : list bool; failing_sends : nat }.

Definition reid (id : Z) (r : EventOutboxRecord) : EventOutboxRecord := {|
  o_id := id; topic := topic r; key := key r; payload := payload r; headers := headers r;
  attempts := attempts r; available_at := available_at r; created_at := created_at r;
  processed_at := processed_at r; last_error := last_error r |}.

Definition mem_rows (w : mem) : gmap Z EventOutboxRecord := map_imap (fun id r => Some (reid id r)) (m_rows w).

Definition next_id {A} (m : gmap Z A) : Z := 1 + foldr Z.max 0 (map fst (map_to_list m)).

Definition apply_change (c : change) (w : mem) : mem :=
  match c with
  | AddOutbox e =>
      let id := next_id (m_rows w) in
      Mem (<[id := inserted e id (m_clock w)]> (m_rows w)) (m_dead w) (m_sent w) (m_clock w)
        (failing_commits w) (failing_sends w)
  | AddDeadLetter d =>
      Mem (m_rows w) (m_dead w ++ [d]) (m_sent w) (m_clock w) (failing_commits w) (failing_sends w)
  | UpdateOutbox r =>
      Mem (alter (fun _ => r) (o_id r) (m_rows w)) (m_dead w) (m_sent w) (m_clock w)
        (failing_commits w) (failing_sends w)
  | DeleteOutbox id =>
      Mem (delete id (m_rows w)) (m_dead w) (m_sent w) (m_clock w) (failing_commits w) (failing_sends w)
  end.

Definition id_le (a b : EventOutboxRecord) : Prop := o_id a <= o_id b.
#[export] Instance id_le_dec : RelDecision id_le.
Proof. intros a b. unfold id_le. apply _. Defined.

Definition by_id (p : EventOutboxRecord -> bool) (m : gmap Z EventOutboxRecord) : list EventOutboxRecord :=
  merge_sort id_le (lfilter p (map snd (map_to_list m))).

#[export] Instance mem_env : Env mem := {
  uuid4 w := ("", w);
  datetime_now w := (m_clock w, Mem (m_rows w) (m_dead w) (m_sent w) (m_clock w + second)
    (failing_commits w) (failing_sends w)) }.

Definition broken (what : string) : exn := raise_ RuntimeError what.

#[export] Instance mem_world : OutboxWorld mem := {
  db_select p n w := (Ok (take (Z.to_nat n) (by_id p (mem_rows w))), w);
  db_commit cs w :=
    match failing_commits w with
    | true :: plan => (Raise (broken "commit"),
        Mem (m_rows w) (m_dead w) (m_sent w) (m_clock w) plan (failing_sends w))
    | plan => (Ok tt, foldl (fun w c => apply_change c w)
        (Mem (m_rows w) (m_dead w) (m_sent w) (m_clock w) (tail plan) (failing_sends w)) cs)
    end;
  producer_new w := (Ok tt, w);
  producer_start w := (Ok tt, w);
  producer_stop w := (Ok tt, w);
  producer_send t p h k w :=
    match failing_sends w with
    | S n => (Raise (broken "send"), Mem (m_rows w) (m_dead w) (m_sent w) (m_clock w) (failing_commits w) n)
    | O => (Ok tt, Mem (m_rows w) (m_dead w) (m_sent w ++ [(t, p, h, k)]) (m_clock w) (failing_commits w) O)
    end }.

Lemma next_id_fresh {A} (m : gmap Z A) : m !! next_id m = None.
Proof.
  destruct (m !! next_id m) as [a|] eqn:E; [|done]. apply elem_of_map_to_list in E.
  assert (Hle : forall l : list Z, In (next_id m) l -> next_id m <= foldr Z.max 0 l).
  { induction l as [|x l IH]; simpl; [done|]. intros [->|Hin]; [lia|]. specialize (IH Hin). lia. }
  apply list_elem_of_In, (in_map fst), Hle in E. unfold next_id in E at 1. lia.
Qed.

Lemma mem_rows_lookup w id : mem_rows w !! id = reid id <$> (m_rows w !! id).
Proof. unfold mem_rows. rewrite map_lookup_imap. by destruct (m_rows w !! id). Qed.

(** The rows after a change are those given. *)
Ltac after_is x := match goal with |- applied1 _ _ (?y, _) => replace y with x end.

Lemma apply_change_law c w :
  applied1 c (mem_rows w, m_dead w) (mem_rows (apply_change c w), m_dead (apply_change c w)) /\
  m_sent (apply_change c w) = m_sent w.
Proof.
  destruct c as [e|d|r|id]; simpl; (split; [|done]).
  - after_is (<[next_id (m_rows w) := inserted e (next_id (m_rows w)) (m_clock w)]> (mem_rows w)).
    { constructor. rewrite mem_rows_lookup, next_id_fresh. done. }
    symmetry. unfold mem_rows. by apply map_imap_insert_Some.
  - constructor.
  - after_is (alter (fun _ => r) (o_id r) (mem_rows w)); [constructor|].
    apply map_eq. intros id. rewrite mem_rows_lookup. simpl. destruct (decide (o_id r = id)) as [<-|Hne].
    + rewrite !lookup_alter, !decide_True, mem_rows_lookup by done. destruct (m_rows w !! o_id r); [|done].
      simpl. by destruct r.
    + by rewrite !lookup_alter_ne, mem_rows_lookup by done.
  - after_is (delete id (mem_rows w)); [constructor|].
    apply map_eq. intros id'. rewrite mem_rows_lookup. simpl. destruct (decide (id = id')) as [<-|Hne].
    + by rewrite !lookup_delete, !decide_True.
    + by rewrite !lookup_delete_ne, mem_rows_lookup.
Qed.

Lemma apply_changes_law cs : forall w, let w' := foldl (fun w c => apply_change c w) w cs in
  applied cs (mem_rows w, m_dead w) (mem_rows w', m_dead w') /\ m_sent w' = m_sent w.
Proof.
  induction cs as [|c cs IH]; intros w; simpl; [by split; [constructor|]|].
  destruct (apply_change_law c w) as [Ha Hs]. destruct (IH (apply_change c w)) as [Has Hss].
  split; [by econstructor|]. by rewrite Hss.
Qed.

Lemma by_id_In p m r : In r (by_id p m) <-> (exists id, m !! id = Some r) /\ p r = true.
Proof.
  unfold by_id. rewrite <- list_elem_of_In, merge_sort_Permutation, list_elem_of_In, lfilter_In, in_map_iff.
  split; (intros [Hr Hp]; split; [|done]).
  - destruct Hr as ([id x] & <- & Hin). exists id. apply elem_of_map_to_list. by apply list_elem_of_In.
  - destruct Hr as [id Hr]. exists (id, r). split; [done|]. apply list_elem_of_In. by apply elem_of_map_to_list.
Qed.

Lemma sorted_take_drop {A} (R : A -> A -> Prop) n (l : list A) x y :
  StronglySorted R l -> In x (take n l) -> In y (drop n l) -> R x y.
Proof.
  intros Hs. revert n. induction Hs as [|a l Hs IH Hall]; intros [|n] Hx Hy; simpl in *; try done.
  destruct Hx as [->|Hx]; [|by eapply IH]. rewrite Forall_forall in Hall. apply Hall.
  apply list_elem_of_In. rewrite <- (take_drop n l). apply in_app_iff. by right.
Qed.

Lemma sorted_take {A} (R : A -> A -> Prop) n (l : list A) : StronglySorted R l -> StronglySorted R (take n l).
Proof.
  intros Hs. revert n. induction Hs as [|a l Hs IH Hall]; intros [|n]; simpl; constructor; [done|].
  by apply Forall_take.
Qed.

Lemma by_id_sorted p w : StronglySorted (fun a b => o_id a < o_id b) (by_id p (mem_rows w)).
Proof.
  assert (Hs : StronglySorted id_le (by_id p (mem_rows w))).
  { apply Sorted_StronglySorted; [intros a b c; unfold id_le; lia|]. apply Sorted_merge_sort.
    intros a b. unfold id_le. lia. }
  assert (Hnd : NoDup (map o_id (by_id p (mem_rows w)))).
  { unfold by_id. rewrite (merge_sort_Permutation id_le (lfilter p _)).
    assert (Hnd : NoDup (map o_id (map snd (map_to_list (mem_rows w))))).
    { rewrite map_map. replace (map _ _) with (map fst (map_to_list (mem_rows w))); [apply NoDup_fst_map_to_list|].
      apply map_ext_in. intros [id r] Hin. apply list_elem_of_In, elem_of_map_to_list in Hin.
      rewrite mem_rows_lookup in Hin. apply fmap_Some in Hin as (x & _ & ->). done. }
    revert Hnd. generalize (map snd (map_to_list (mem_rows w))). induction l as [|r l IH]; simpl; [done|].
    intros [Hni Hnd]%NoDup_cons. destruct (p r); [|by apply IH]. simpl. constructor; [|by apply IH].
    rewrite list_elem_of_In in *. intros (x & Hx & Hin)%in_map_iff. apply Hni. rewrite <- Hx. apply in_map.
    apply lfilter_In in Hin. tauto. }
  revert Hnd Hs. generalize (by_id p (mem_rows w)). induction l as [|r l IH]; intros Hnd Hs; constructor.
  - apply NoDup_cons in Hnd as [_ Hnd]. apply IH; [done|]. by inversion Hs.
  - inversion_clear Hs as [|? ? _ Hall]. rewrite Forall_forall in *. intros x Hx. specialize (Hall x Hx).
    simpl in Hnd. apply NoDup_cons in Hnd as [Hni _]. rewrite list_elem_of_In in *.
    assert (o_id x <> o_id r) by (intros He; apply Hni; rewrite <- He; apply list_elem_of_In; by apply in_map). unfold id_le in Hall. lia.
Qed.

#[export] Instance mem_laws : OutboxLaws mem.
Proof.
  refine {| rows := mem_rows; dead := m_dead; sent := m_sent |}.
  - done.
  - intros p n w. simpl. split; [done|]. intros l [= <-]. pose proof (by_id_sorted p w) as Hs. split.
    + intros r Hin. assert (Hr : In r (by_id p (mem_rows w))).
      { rewrite <- (take_drop (Z.to_nat n) (by_id _ _)). apply in_app_iff. by left. }
      apply by_id_In in Hr as [[id Hl] Hp]. split; [|done]. pose proof Hl as Hl'. rewrite mem_rows_lookup in Hl'.
      apply fmap_Some in Hl' as (x & _ & ->). exact Hl.
    + by apply sorted_take.
    + intros Hn. rewrite length_take. lia.
    + intros id r Hl Hp. assert (Hr : In r (by_id p (mem_rows w))) by (apply by_id_In; naive_solver).
      rewrite <- (take_drop (Z.to_nat n) (by_id _ _)) in Hr. apply in_app_iff in Hr as [Hr|Hr]; [by left|right].
      assert (Hid : o_id r = id). { rewrite mem_rows_lookup in Hl. by apply fmap_Some in Hl as (x & _ & ->). }
      split.
      * rewrite length_take. destruct (decide (Z.to_nat n <= length (by_id p (mem_rows w)))%nat); [lia|].
        rewrite drop_ge in Hr by lia. done.
      * intros r' Hr'. rewrite <- Hid. exact (sorted_take_drop _ _ _ _ _ Hs Hr' Hr).
  - intros cs w. simpl. destruct (failing_commits w) as [|[] plan]; [|split; [done|right; by split_and!]|];
      match goal with |- context [foldl _ ?w' cs] => destruct (apply_changes_law cs w') as [Ha Hs] end;
      (split; [done|by left]).
  - done.
  - done.
  - done.
  - intros t p h k w. simpl. destruct (failing_sends w); simpl; split_and!; try done; [by left|by right].
Defined.

Module Demo.

Definition begin (commits : list bool) (sends : nat) : dispatcher mem :=
  Dispatcher false [] (Mem ∅ [] [] 0 commits sends).
Definition bus : EventBusConfig := {| topic_prefix := "marty."; enabled := true |}.
Definition hello : bytes := [Byte.x68; Byte.x69].
Definition stored : list op := [Enqueue "issued" hello None (Some [("trace", hello)]) None].
Definition after (commits : list bool) (sends : nat) (os : list op) : dispatcher mem :=
  run_ops default_settings bus os (begin commits sends).

Lemma start_empty commits sends : empty_start (begin commits sends).
Proof. done. Qed.

(** A publication fails, and the event is sent by a later flush. *)
Lemma no_event_lost_witness :
  let s' := run_ops default_settings bus [Flush; StopBus; Enqueue "x" hello None None None; Flush; Flush; Flush]
              (after [] 1 stored) in
  exists r, rows (world (after [] 1 stored)) !! 1 = Some r /\
  ((exists r', rows (world s') !! 1 = Some r' /\ same_event r r' /\
      (processed_at r' <> None -> delivered bus (sent (world s')) r')) \/
   (exists d, In d (dead (world s')) /\ letter_of r d /\ d_attempts d = give_up_at default_settings)).
Proof.
  intros s'. eexists. split; [vm_compute; reflexivity|].
  refine (no_event_lost default_settings bus (begin [] 1) stored _ 1 _ (start_empty [] 1) _).
  vm_compute. reflexivity.
Defined.

Lemma attempts_bounded_witness : exists r,
  rows (world (after [] 1 (stored ++ [Flush]))) !! 1 = Some r /\ 0 <= attempts r < 5.
Proof.
  eexists. split; [vm_compute; reflexivity|].
  refine (proj1 (attempts_bounded default_settings bus (begin [] 1) (stored ++ [Flush]) 1 _ (start_empty [] 1) _)).
  vm_compute. reflexivity.
Defined.

(** Sends work, and the coming commits go by the plan. *)
Definition steady (plan : list bool) (w : mem) : Prop := failing_sends w = O /\ failing_commits w = plan.

Lemma steady_works plan : works (steady plan).
Proof.
  split; unfold steady; simpl.
  - done.
  - intros p n w Hw. by do 2 eexists.
  - intros w Hw. by eexists.
  - intros w Hw. by eexists.
  - intros tp p h k w [-> Hc]. by eexists.
Qed.

Lemma working_flush_delivers_witness : exists now claimed evs s',
  flush_once default_settings bus (after [] 0 stored) = (Ok (Z.of_nat (length claimed)), s') /\
  selected (due now) 50 (rows (world (after [] 0 stored))) claimed /\
  sent (world s') = sent (world (after [] 0 stored)) ++ evs.
Proof.
  destruct (working_flush_delivers default_settings bus (begin [] 0) stored (steady []))
    as (now & claimed & evs & s' & Hf & Hsel & _ & Hs & _).
  - exact (start_empty [] 0).
  - exact (steady_works []).
  - split; vm_compute; reflexivity.
  - intros cs w [_ Hc]. simpl. by rewrite Hc.
  - exists now, claimed, evs, s'. split; [exact Hf|]. split; [exact Hsel|exact Hs].
Defined.

(** The second commit fails: the first has stored the event. *)
Lemma failed_commit_republishes_witness : exists evs s',
  flush_once default_settings bus (after [false; true] 0 stored) = (Raise (broken "commit"), s') /\
  sent (world s') = sent (world (after [false; true] 0 stored)) ++ evs /\
  rows (world s') = rows (world (after [false; true] 0 stored)).
Proof.
  destruct (failed_commit_republishes default_settings bus (begin [false; true] 0) stored (steady [true]) (broken "commit"))
    as (now & claimed & evs & s' & Hf & _ & _ & Hs & Hr & _).
  - exact (start_empty _ _).
  - exact (steady_works _).
  - split; vm_compute; reflexivity.
  - reflexivity.
  - intros cs w [_ Hc]. simpl. rewrite Hc. by eexists.
  - exists evs, s'. split; [exact Hf|]. split; [exact Hs|exact Hr].
Defined.

Lemma retry_delay_bounds_witness :
  _compute_retry_delay default_settings 3 <= _compute_retry_delay default_settings 40 /\
  _compute_retry_delay default_settings 40 <=
    round_half_even (max_retry_delay default_settings * inject_Z second) /\
  _compute_retry_delay default_settings 1 =
    round_half_even (py_min (initial_retry_delay default_settings) (max_retry_delay default_settings) * inject_Z second).
Proof. apply (retry_delay_bounds default_settings 3 40); [by vm_compute|lia]. Defined.

(** The event of that flush is sent again by the next. *)
Example sent_twice :
  let s1 := snd (flush_once default_settings bus (after [false; true] 0 stored)) in
  let s2 := snd (flush_once default_settings bus s1) in
  map (fun e => fst (fst (fst e))) (sent (world s2)) = ["marty.issued"; "marty.issued"].
Proof. vm_compute. reflexivity. Qed.

(** With the bus disabled, events are marked processed and sent to nobody. *)
Example disabled_bus_drops :
  let off := {| topic_prefix := ""; enabled := false |} in
  let s := run_ops default_settings off (stored ++ [Flush]) (begin [] 0) in
  sent (world s) = [] /\ option_map processed_at (rows (world s) !! 1) = Some (Some (2 * second)).
Proof. vm_compute. done. Qed.
End Demo.
