(* ===== verification/Passport.v ===== *)
(** * Passport models ([models/passport.py], first part)

    The MRZ data, data groups, signed object, passport data and passport of ICAO
    Doc 9303, as pydantic models ([Pydantic.v]): what their validators accept,
    and their conversions to and from dictionaries, texts and one another. *)

From stdpp Require Import pretty.
From S2P Require Import Prelude PyRuntime PyText PyUuid PyBytes PyDate PyInt Pydantic.
Local Open Scope Z_scope.

(** ** Key names *)

Definition is_lower (c : ascii) : bool := let n := nat_of_ascii c in (97 <=? n)%nat && (n <=? 122)%nat.
Definition is_upper (c : ascii) : bool := let n := nat_of_ascii c in (65 <=? n)%nat && (n <=? 90)%nat.

(** [s.title()] for ASCII: a letter after a letter is lowered, any other raised. *)
Fixpoint title_from (after_letter : bool) (s : string) : string :=
  match s with
  | EmptyString => ""
  | String c s =>
      String (if after_letter then lower_char c else upper_char c) (title_from (is_lower c || is_upper c) s)
  end.
Definition title : string -> string := title_from false.

Definition camel_case (snake_str : string) : string :=
  match split_on underscore snake_str with
  | c :: cs => c +:+ String.concat "" (map title cs)
  | [] => ""
  end.

(** [re.sub(r"(?<!^)(?=[A-Z])", "_", s)] after the first character. *)
Fixpoint mark_upper (s : string) : string :=
  match s with
  | EmptyString => ""
  | String c s => (if is_upper c then String underscore (String c (mark_upper s)) else String c (mark_upper s))
  end.

Definition camel_to_snake (camel_str : string) : string :=
  str_lower (match camel_str with EmptyString => "" | String c s => String c (mark_upper s) end).

(** [{f(k): v for k, v in d.items()}] *)
Definition rekey {V} (f : string -> string) (d : pydict V) : pydict V :=
  foldl (fun d' kv => dset (f (fst kv)) (snd kv) d') [] d.

Definition snake_to_camel_dict {V} (d : pydict V) : pydict V := rekey camel_case d.
Definition camel_to_snake_dict {V} (d : pydict V) : pydict V := rekey camel_to_snake d.

(** ** Enumerations *)

Definition Gender : ftype := TEnum "Gender" ["M"; "F"; "X"].
Definition DataGroupType : ftype := TEnum "DataGroupType"
  ["DG1"; "DG2"; "DG3"; "DG4"; "DG5"; "DG6"; "DG7"; "DG8"; "DG9"; "DG10"; "DG11"; "DG12"; "DG13";
   "DG14"; "DG15"; "DG16"; "SOD"].

(** ** Validators *)

Definition value_error (msg : string) : exn := raise_ ValueError msg.
Definition type_error : exn := raise_ TypeError "unexpected type".

(** The length is tested before the text is put in upper case. *)
Definition validate_country_code `{CaseMapping} : validator := fun _ v =>
  match v with
  | VStr s => if (String.length s =? 3)%nat then Ok (VStr (upper s))
              else Raise (value_error "Country code must be 3 characters")
  | _ => Raise type_error
  end.

(** [s.isdigit()] for Latin-1: the digits and the superscripts 1, 2, 3. *)
Definition isdigit (s : string) : bool :=
  negb (String.eqb s "") &&
  forallb (fun c => let n := nat_of_ascii c in
    (48 <=? n)%nat && (n <=? 57)%nat || (n =? 178)%nat || (n =? 179)%nat || (n =? 185)%nat)
    (String.list_ascii_of_string s).

Definition six_digits (msg : string) (s : string) : result pyval :=
  if negb (String.length s =? 6)%nat || negb (isdigit s) then Raise (value_error msg) else Ok (VStr s).

Definition validate_date_format : validator := fun _ v =>
  match v with VStr s => six_digits "Date must be in YYMMDD format" s | _ => Raise type_error end.

(** Every exception of [b64decode] becomes a [ValueError]. *)
Definition validate_base64 (msg : string) : validator := fun _ v =>
  match v with
  | VStr s => match b64decode s with Ok _ => Ok v | Raise _ => Raise (value_error msg) end
  | _ => Ok v
  end.
Definition validate_signature_base64 : validator := validate_base64 "Signature must be base64 encoded".
Definition validate_photo : validator := validate_base64 "Photo must be base64 encoded".
Definition validate_chip_content : validator :=
  validate_base64 "Chip content must be base64 encoded if provided as string".

(** [PassportData.validate_expiry_date] *)
Definition validate_expiry_date : validator := fun data v =>
  match dget "date_of_birth" data, v with
  | Some (VDate b), VDate e =>
      if e <? b then Raise (value_error "Expiry date must be after date of birth") else Ok v
  | _, _ => Ok v
  end.

(** ** Dates as texts *)

(** [datetime.fromisoformat] reads many formats; [iso_other] is what it makes of
    texts that are not [YYYY-MM-DD]: a time, and whether it has a time zone. *)
Class IsoFormats := { iso_other : string -> result (Z * bool) }.

Definition fromisoformat `{IsoFormats} (s : string) : result (Z * bool) :=
  match parse_date s with Some d => Ok (d * day, false) | None => iso_other s end.

(** [str] of a field value that is not a text or a number. *)
Class PyStr := { str_other : pyval -> string }.
Definition val_str `{PyStr} (v : pyval) : string :=
  match v with VStr s | VEnum _ s => s | VInt z => z_str z | VNone => "None" | v => str_other v end.

Section passport.
Context {W : Type} `{Env W, Pydantic, IsoFormats, PyStr, CaseMapping}.
Implicit Types (o d : pydict pyval).

Definition required (name : string) (t : ftype) (gs : list validator) : field W := Field name t None gs.
Definition with_default (name : string) (t : ftype) (v : pyval) (gs : list validator) : field W :=
  Field name t (Some (mret v)) gs.

(** ** [MRZData] *)

Definition MRZData : list (field W) := [
  required "document_type" TStr [];
  required "issuing_country" TStr [validate_country_code];
  required "document_number" TStr [];
  required "surname" TStr [];
  required "given_names" TStr [];
  required "nationality" TStr [validate_country_code];
  required "date_of_birth" TStr [validate_date_format];
  required "gender" Gender [];
  required "date_of_expiry" TStr [validate_date_format];
  with_default "personal_number" (optional TStr) VNone []].

(** [to_dict] of a model. *)
Definition model_to_dict o : pydict pyval := snake_to_camel_dict (model_dump o).
Definition MRZData_from_dict d : M W (pydict pyval) := construct MRZData (camel_to_snake_dict d).

(** ** [DataGroup] *)

Definition DataGroup : list (field W) := [required "type" DataGroupType []; required "data" TAny []].
Definition DataGroup_from_dict d : M W (pydict pyval) := construct DataGroup d.

(** ** [SignedObject] *)

Definition SignedObject : list (field W) := [
  required "signature" TStr [validate_signature_base64];
  required "timestamp" TInt [];
  with_default "algorithm" TStr (VStr "SHA256withRSA") []].

(** [f"{self.signature}.{self.timestamp}"] *)
Definition SignedObject_to_string o : string :=
  val_str (default VNone (dget "signature" o)) +:+ "." +:+ val_str (default VNone (dget "timestamp" o)).

Definition SignedObject_from_string (s : string) : M W (pydict pyval) :=
  match split_on (ascii_of_nat 46) s with
  | [signature; timestamp] =>
      t ← lift (parse_int timestamp);
      construct SignedObject [("signature", VStr signature); ("timestamp", VInt t)]
  | _ => raise (value_error "Invalid SOD format")
  end.
Definition SignedObject_from_dict d : M W (pydict pyval) := construct SignedObject (camel_to_snake_dict d).

(** ** [PassportData] *)

Definition photo_type : ftype := TUnion TStr (TUnion TBytes TNone).

Definition PassportData : list (field W) := [
  required "document_number" TStr [];
  required "issuing_country" TStr [validate_country_code];
  required "surname" TStr [];
  required "given_names" TStr [];
  required "nationality" TStr [validate_country_code];
  required "date_of_birth" TDate [];
  required "gender" Gender [];
  required "date_of_expiry" TDate [validate_expiry_date];
  with_default "personal_number" (optional TStr) VNone [];
  with_default "photo" photo_type VNone [validate_photo]].

(** [photo_bytes], [chip_content_bytes], [face_image_bytes] of the field [name]. *)
Definition field_bytes (name : string) o : result pyval :=
  match dget name o with
  | Some (VBytes bs) => Ok (VBytes bs)
  | Some (VStr s) => bs ← b64decode s; Ok (VBytes bs)
  | _ => Ok VNone
  end.

Definition field_base64 (name : string) o : pyval :=
  match dget name o with Some (VBytes bs) => VStr (b64encode bs) | Some (VStr s) => VStr s | _ => VNone end.

(** [strftime("%y%m%d")] of a date field. *)
Definition short_date (name : string) o : pyval :=
  match dget name o with Some (VDate d) => VStr (yymmdd d) | _ => VNone end.

Definition attr (name : string) o : pyval := default VNone (dget name o).

Definition to_mrz_data o : M W (pydict pyval) := construct MRZData [
  ("document_type", VStr "P"); ("issuing_country", attr "issuing_country" o);
  ("document_number", attr "document_number" o); ("surname", attr "surname" o);
  ("given_names", attr "given_names" o); ("nationality", attr "nationality" o);
  ("date_of_birth", short_date "date_of_birth" o); ("gender", attr "gender" o);
  ("date_of_expiry", short_date "date_of_expiry" o); ("personal_number", attr "personal_number" o)].

(** The conversions of [to_dict] and [from_dict] of a single field. *)
Definition encode_bytes (name : string) d : pydict pyval :=
  match dget name d with Some (VBytes bs) => dset name (VStr (b64encode bs)) d | _ => d end.
Definition encode_date (name : string) d : pydict pyval :=
  match dget name d with Some (VDate x) => dset name (VStr (date_isoformat x)) d | _ => d end.
Definition decode_date (name : string) d : result (pydict pyval) :=
  match dget name d with
  | Some (VStr s) => t ← fromisoformat s; Ok (dset name (VDate (dt_date (fst t))) d)
  | _ => Ok d
  end.

Definition PassportData_to_dict o : pydict pyval :=
  snake_to_camel_dict (encode_date "date_of_expiry" (encode_date "date_of_birth" (encode_bytes "photo" (model_dump o)))).

Definition PassportData_from_dict d : M W (pydict pyval) :=
  d ← lift (decode_date "date_of_birth" (camel_to_snake_dict d));
  d ← lift (decode_date "date_of_expiry" d);
  construct PassportData d.

(** ** [ICaoPassport] *)

(** [v.replace("Z", "+00:00")] *)
Definition utc_suffix (s : string) : string :=
  chars (fun c => if Ascii.eqb c (ascii_of_nat 90) then "+00:00" else String c "") s.

Definition validate_iso : validator := fun _ v =>
  match v with
  | VStr s => match fromisoformat (utc_suffix s) with
              | Ok _ => Ok v
              | Raise e => Raise (if isinstance e ValueError then value_error "Date must be in ISO format" else e)
              end
  | _ => Raise type_error
  end.

(** Times with and without a zone cannot be compared. *)
Definition compare_times (a b : Z * bool) : result bool :=
  if Bool.eqb (snd a) (snd b) then Ok (fst a <=? fst b)
  else Raise (raise_ TypeError "can't compare offset-naive and offset-aware datetimes").

(** [ICaoPassport.validate_expiry_date]: the [ValueError] for an expiry that is
    not after the issue is raised inside the [try] whose [except ValueError]
    ignores it. *)
Definition validate_icao_expiry : validator := fun data v =>
  match v, dget "issue_date" data with
  | VStr s, Some (VStr issue_date) =>
      if negb (String.eqb issue_date "")
      then
        match (issue ← fromisoformat (utc_suffix issue_date);
               expiry ← fromisoformat (utc_suffix s);
               not_after ← compare_times expiry issue;
               if (not_after : bool) then Raise (value_error "Expiry date must be after issue date") else Ok tt)
        with
        | Ok _ => Ok v
        | Raise e => if isinstance e ValueError then Ok v else Raise e
        end
      else Ok v
  | _, _ => Ok v
  end.

Definition ICaoPassport : list (field W) := [
  required "passport_number" TStr [];
  required "issue_date" TStr [validate_iso];
  required "expiry_date" TStr [validate_iso; validate_icao_expiry];
  required "data_groups" (TDict TStr) [];
  with_default "sod" TStr (VStr "") []].

Definition ICaoPassport_from_dict d : M W (pydict pyval) := construct ICaoPassport d.

(** ** [Passport] *)

Definition UUID (s : string) : result pyval := hex ← parse_uuid s; mret (VUUID hex).

Definition fresh_uuid : M W pyval := fun w => let '(u, w) := uuid4 w in (Ok (VUUID (uuid_digits u)), w).

Definition Passport : list (field W) := [
  Field "id" TUUID (Some fresh_uuid) [];
  required "passport_data" (TModel "PassportData") [];
  with_default "mrz" (optional TStr) VNone [];
  with_default "security_object" (optional TStr) VNone [];
  with_default "chip_content" photo_type VNone [validate_chip_content];
  with_default "data_groups" (TDict (TModel "DataGroup")) (VDict []) []].

Definition model_fields (v : pyval) : pydict pyval := match v with VModel _ d => d | _ => [] end.
Definition dict_items (v : pyval) : pydict pyval := match v with VDict d => d | _ => [] end.

(** [self.mrz or ...]: the text of an optional field, if there is any. *)
Definition field_text (name : string) o : option string :=
  match dget name o with Some (VStr s) => if String.eqb s "" then None else Some s | _ => None end.

Definition icao_groups o : pydict pyval :=
  match dict_items (attr "data_groups" o) with
  | [] => match field_text "mrz" o with Some mrz => [("DG1", VStr mrz)] | None => [] end
  | groups => map (fun kv => (fst kv, VStr (val_str (attr "data" (model_fields (snd kv)))))) groups
  end.

Definition to_icao_format o : M W (pydict pyval) := fun w =>
  let '(now, w) := datetime_now w in
  let pd := model_fields (attr "passport_data" o) in
  construct ICaoPassport [
    ("passport_number", attr "document_number" pd);
    ("issue_date", VStr (date_isoformat (dt_date now)));
    ("expiry_date", match dget "date_of_expiry" pd with Some (VDate d) => VStr (date_isoformat d) | _ => VNone end);
    ("data_groups", VDict (icao_groups o));
    ("sod", VStr (default "" (field_text "security_object" o)))] w.

(** [chipContent] of a dictionary, when there is any content. *)
Definition chip_entry o : pydict pyval :=
  match dget "chip_content" o with
  | Some (VBytes (b :: bs)) => [("chipContent", VStr (b64encode (b :: bs)))]
  | Some (VStr (String c s)) => [("chipContent", VStr (String c s))]
  | _ => []
  end.

Definition groups_to_dict o : pyval :=
  VDict (map (fun kv => (fst kv, VDict (model_dump (model_fields (snd kv))))) (dict_items (attr "data_groups" o))).

Definition Passport_to_dict o : pydict pyval :=
  [("id", VStr (match dget "id" o with Some (VUUID u) => uuid_str u | _ => "" end));
   ("documentData", VDict (PassportData_to_dict (model_fields (attr "passport_data" o))));
   ("mrz", attr "mrz" o);
   ("securityObject", attr "security_object" o);
   ("dataGroups", groups_to_dict o)] ++ chip_entry o.

Definition attribute_error : exn := raise_ (subclass "AttributeError" Exception_) "no attribute 'items'".

Fixpoint read_groups (gs : pydict pyval) : M W (pydict pyval) :=
  match gs with
  | [] => mret []
  | (k, v) :: gs =>
      d ← match v with VDict d => mret d | _ => raise type_error end;
      g ← DataGroup_from_dict d;
      rest ← read_groups gs;
      mret ((k, VModel "DataGroup" g) :: rest)
  end.

Definition Passport_from_dict d : M W (pydict pyval) :=
  pd ← match dget "documentData" d with
       | None => raise (raise_ KeyError "documentData")
       | Some (VDict dd) => PassportData_from_dict dd
       | Some _ => raise attribute_error
       end;
  id ← match dget "id" d with
       | Some (VStr s) => lift (UUID s)
       | Some v => mret v
       | None => mret VNone
       end;
  groups ← match dget "dataGroups" d with
           | None => mret []
           | Some (VDict gs) => read_groups gs
           | Some _ => raise attribute_error
           end;
  construct Passport [
    ("id", id); ("passport_data", VModel "PassportData" pd); ("mrz", attr "mrz" d);
    ("security_object", attr "securityObject" d); ("chip_content", attr "chipContent" d);
    ("data_groups", VDict groups)].

(** [self.data_groups[data_group.type.value] = data_group] *)
Definition add_data_group (g : pydict pyval) o : pydict pyval :=
  let k := match dget "type" g with Some (VEnum _ v) => v | _ => "" end in
  dset "data_groups" (VDict (dset k (VModel "DataGroup" g) (dict_items (attr "data_groups" o)))) o.

(** Verification fails closed: the parts that need trust anchors or a chip are
    not there. *)
Definition verify_sod_certificate o : bool :=
  match field_text "security_object" o with None => false | Some _ => false end.
Definition perform_active_authentication o : bool := false.
Definition read_data_groups o : bool := false.

(** ** [VerificationResult] *)

Definition VerificationResult : list (field W) := [
  required "is_valid" TBool [];
  required "passport_number" TStr [];
  Field "verification_date" TTime (Some (fun w => let '(t, w) := datetime_now w in (Ok (VTime t), w))) [];
  with_default "messages" (TList TStr) (VList []) [];
  with_default "details" (TDict TAny) (VDict []) []].

Definition VerificationResult_to_dict o : pydict pyval :=
  let o := model_dump o in
  snake_to_camel_dict
    match dget "verification_date" o with
    | Some (VTime t) => dset "verification_date" (VStr (isoformat t)) o
    | _ => o
    end.

Definition VerificationResult_from_dict d : M W (pydict pyval) :=
  let d := camel_to_snake_dict d in
  d ← match dget "verification_date" d with
      | Some (VStr s) => t ← lift (fromisoformat s); mret (dset "verification_date" (VTime (fst t)) d)
      | _ => mret d
      end;
  construct VerificationResult d.
End passport.

(** ** Names survive the conversions *)

Lemma rekey_app {V} f (d0 d : pydict V) : (forall k, In k (map f (dkeys d)) -> ~ In k (dkeys d0)) ->
  NoDup (map f (dkeys d)) ->
  foldl (fun d' kv => dset (f (fst kv)) (snd kv) d') d0 d = d0 ++ map (fun kv => (f (fst kv), snd kv)) d.
Proof.
  revert d0. induction d as [|[k v] d IH]; intros d0 Hdis Hnd; simpl; [by rewrite app_nil_r|].
  simpl in *. apply NoDup_cons in Hnd as [Hni Hnd]. rewrite list_elem_of_In in Hni.
  rewrite dset_lookup_length by (apply dget_None_In, Hdis; by left). rewrite IH; [by rewrite <- app_assoc| |done].
  intros k' Hk'. unfold dkeys. rewrite map_app, in_app_iff. simpl. intros [Hin|[<-|[]]]; [|done].
  by apply (Hdis k'); [right|].
Qed.

Lemma rekey_map {V} f (d : pydict V) : NoDup (map f (dkeys d)) -> rekey f d = map (fun kv => (f (fst kv), snd kv)) d.
Proof. intros Hnd. unfold rekey. by rewrite rekey_app; [|intros ? ? []|]. Qed.

(** The names of a model that the two conversions give back. *)
Definition good_names (l : list string) : bool :=
  bool_decide (NoDup l) && bool_decide (NoDup (map camel_case l)) &&
  forallb (fun k => String.eqb (camel_to_snake (camel_case k)) k) l.

Lemma keys_roundtrip {V} (d : pydict V) : good_names (dkeys d) = true ->
  camel_to_snake_dict (snake_to_camel_dict d) = d.
Proof.
  unfold good_names, camel_to_snake_dict, snake_to_camel_dict. intros Hg. bool_props. rewrite forallb_forall in *.
  assert (Hid : map (fun kv => (camel_to_snake (camel_case (fst kv)), snd kv)) d = d).
  { rewrite <- (map_id d) at 2. apply map_ext_in. intros [k v] Hin. simpl. f_equal. apply String.eqb_eq.
    apply H0. by apply (in_map fst) in Hin. }
  rewrite (rekey_map camel_case) by done. rewrite rekey_map; [by rewrite map_map|].
  assert (Hk : dkeys (map (fun kv : string * V => (camel_to_snake (camel_case (fst kv)), snd kv)) d) = dkeys d)
    by (by rewrite Hid). unfold dkeys in *. rewrite !map_map in *. simpl in *. by rewrite Hk.
Qed.

(** ** Validators *)

Lemma chars_single_length (g : ascii -> ascii) s : String.length (chars (fun c => String (g c) "") s) = String.length s.
Proof. induction s as [|c s IH]; [done|]. rewrite chars_single. simpl. by rewrite IH. Qed.

Lemma chars_single_idem (g : ascii -> ascii) s : (forall c, g (g c) = g c) ->
  chars (fun c => String (g c) "") (chars (fun c => String (g c) "") s) = chars (fun c => String (g c) "") s.
Proof. intros Hg. induction s as [|c s IH]; [done|]. by rewrite !chars_single, Hg, IH. Qed.

(** ** Country codes *)

Lemma upper_cons `{CaseMapping} c s : upper (String c s) = upper_text c +:+ upper s.
Proof. unfold upper, chars. cbn [String.list_ascii_of_string map]. by rewrite concat_cons. Qed.

Lemma plain_upper `{CaseMapping} c : plain_char c = true -> exists c', upper_text c = String c' "" /\ upper_text c' = String c' "".
Proof. intros Hp. destruct c as [[] [] [] [] [] [] [] []]; try discriminate Hp; (eexists; split; reflexivity). Qed.

(** Texts of other characters keep their length, and their capitals are their own. *)
Lemma plain_text_upper `{CaseMapping} s : plain_text s = true ->
  String.length (upper s) = String.length s /\ upper (upper s) = upper s.
Proof.
  unfold plain_text. induction s as [|c s IH]; [done|]. cbn [String.list_ascii_of_string forallb]. intros [Hc Hs]%andb_true_iff.
  destruct (plain_upper c Hc) as (c' & E1 & E2), (IH Hs) as [IH1 IH2]. rewrite upper_cons, E1.
  change (String c' "" +:+ upper s) with (String c' (upper s)). rewrite upper_cons, E2, IH2. simpl. by rewrite IH1.
Qed.

(** A country code that is accepted as it is. *)
Definition stable_code `{CaseMapping} (v : pyval) : Prop :=
  match v with VStr c => String.length c = 3%nat /\ upper c = c | _ => True end.

Definition country_fields : list string := ["issuing_country"; "nationality"].
Definition kept_field `{CaseMapping} (name : string) (v : pyval) : Prop := In name country_fields -> stable_code v.
Definition stable_countries `{CaseMapping} (o : pydict pyval) : Prop := forall name v, In (name, v) o -> kept_field name v.

Definition stable_countriesb `{CaseMapping} (o : pydict pyval) : bool :=
  forallb (fun kv => negb (mem (fst kv) country_fields) ||
    match snd kv with VStr c => (String.length c =? 3)%nat && String.eqb (upper c) c | _ => true end) o.

Lemma stable_checked `{CaseMapping} o : stable_countriesb o = true -> stable_countries o.
Proof.
  intros Hb name v Hin Hn. unfold stable_countriesb in Hb. rewrite forallb_forall in Hb. specialize (Hb _ Hin). simpl in Hb.
  rewrite (proj2 (mem_true name country_fields) Hn) in Hb. simpl in Hb. unfold stable_code. destruct v; try done.
  apply andb_true_iff in Hb as [Hl%Nat.eqb_eq Hu%String.eqb_eq]. done.
Qed.

Lemma country_settled `{CaseMapping} {W} (name : string) : mem name country_fields = true ->
  settled_if (kept_field name) (@required W name TStr [validate_country_code]).
Proof.
  intros Hn%mem_true. split; [|done]. intros data v v' Ht. destruct v as [| | |s| | | | | | | |]; try done. simpl.
  destruct (String.length s =? 3)%nat eqn:El; [|done]. simpl. intros [= <-]. split; [done|].
  intros Hk. destruct (Hk Hn) as [Hl Hu]. unfold validate_country_code. by rewrite Hl, Hu.
Qed.

Lemma validate_date_format_checks : checks validate_date_format.
Proof.
  intros data v v'. unfold validate_date_format, six_digits. destruct v; try done. case_match; [done|]. by intros [= <-].
Qed.

Lemma validate_base64_checks msg : checks (validate_base64 msg).
Proof. intros data v v'. unfold validate_base64. destruct v; try (by intros [= <-]). case_match; [by intros [= <-]|done]. Qed.

Lemma validate_expiry_date_checks : checks validate_expiry_date.
Proof. intros data v v'. unfold validate_expiry_date. repeat case_match; try done; by intros [= <-]. Qed.

Lemma validate_iso_checks `{IsoFormats} : checks validate_iso.
Proof. intros data v v'. unfold validate_iso. repeat case_match; try done; by intros [= <-]. Qed.

Lemma validate_icao_expiry_checks `{IsoFormats} : checks validate_icao_expiry.
Proof. intros data v v'. unfold validate_icao_expiry. repeat case_match; try done; by intros [= <-]. Qed.

Create HintDb checks.
#[export] Hint Resolve validate_date_format_checks validate_base64_checks validate_expiry_date_checks
  validate_iso_checks validate_icao_expiry_checks : checks.
#[export] Hint Extern 1 (checks validate_photo) => exact (validate_base64_checks _) : checks.
#[export] Hint Extern 1 (checks validate_signature_base64) => exact (validate_base64_checks _) : checks.
#[export] Hint Extern 1 (checks validate_chip_content) => exact (validate_base64_checks _) : checks.

Lemma required_settled {W} name t gs : Forall checks gs -> settled (@required W name t gs).
Proof. intros Hg. by apply settled_checks. Qed.

Lemma default_settled {W} name t v gs : Forall checks gs -> has_type t v = true ->
  (forall data, run_validators gs data v = Ok v) -> settled (@with_default W name t v gs).
Proof. intros Hg Ht Hr. apply settled_checks; [done|]. simpl. intros make data w x w' [= <-] [= <- _]. done. Qed.

Ltac all_checks := repeat (apply Forall_cons_2; [by auto with checks|]); apply Forall_nil_2.

(** Every field of a model is settled, or is when its country codes are stable. *)
Ltac settle :=
  repeat (apply Forall_cons_2;
    [first [apply country_settled; reflexivity
           |apply settled_always, required_settled; all_checks
           |apply settled_always, default_settled; [all_checks|done|done]
           |apply required_settled; all_checks
           |apply default_settled; [all_checks|done|done]]|]);
  try apply Forall_nil_2.

Section validity.
Context {W : Type} `{Env W, PydanticLaws, IsoFormats, PyStr, CaseMapping}.

(** Every object with stable country codes is valid. *)
Definition settled_codes (fs : list (field W)) : Prop := Forall (fun f => settled_if (kept_field (f_name f)) f) fs.

Lemma construct_stable (fs : list (field W)) kwargs w o w' : settled_codes fs -> construct fs kwargs w = (Ok o, w') ->
  stable_countries o -> valid_object fs o.
Proof. intros Hfs Hc Hs. by apply (construct_valid_if kept_field fs kwargs w o w'). Qed.

Lemma MRZData_settled : settled_codes (@MRZData W _).
Proof. settle. Qed.

Lemma PassportData_settled : settled_codes (@PassportData W _).
Proof. settle. Qed.

Lemma SignedObject_settled : Forall settled (@SignedObject W).
Proof. settle. Qed.

Lemma DataGroup_settled : Forall settled (@DataGroup W).
Proof. settle. Qed.
Lemma ICaoPassport_settled : Forall settled (@ICaoPassport W _).
Proof. settle. Qed.

(** The fields of a valid object, one by one. *)
Lemma valid_nth fs data o n f : valid (W:=W) fs data o -> nth_error fs n = Some f ->
  exists pre v post, o = pre ++ (f_name f, v) :: post /\ dkeys pre = names (take n fs) /\
    has_type (f_type f) v = true /\ run_validators (f_validators f) (data ++ pre) v = Ok v.
Proof.
  intros Hv. revert n. induction Hv as [data|f0 fs data v rest Ht Hr Hv IH]; intros [|n]; try done; simpl.
  - intros [= ->]. exists [], v, rest. by rewrite app_nil_r.
  - intros Hn. destruct (IH n Hn) as (pre & x & post & -> & Hk & Htx & Hrx).
    exists ((f_name f0, v) :: pre), x, post. rewrite <- app_assoc in Hrx. simpl. by rewrite Hk.
Qed.

Lemma valid_field fs o n f : valid_object (W:=W) fs o -> NoDup (names fs) -> nth_error fs n = Some f ->
  exists v data, dget (f_name f) o = Some v /\ has_type (f_type f) v = true /\
    run_validators (f_validators f) data v = Ok v /\
    forall k, In k (names (take n fs)) -> dget k data = dget k o.
Proof.
  intros Hv Hnd Hn. pose proof (valid_keys _ _ _ Hv) as Hk.
  destruct (valid_nth _ _ _ _ _ Hv Hn) as (pre & v & post & -> & Hpre & Ht & Hr). exists v, pre.
  split_and!; [|done|done|].
  - apply In_dget; [unfold dwf; by rewrite Hk|]. apply in_app_iff. right. by left.
  - intros k Hin. rewrite <- Hpre in Hin. rewrite dget_app. destruct (dget k pre) eqn:E; [done|].
    by apply dget_None_In in E.
Qed.

(** Three characters in upper case, of which no more than the capitals come to be. *)
Definition country_ok (v : option pyval) : Prop :=
  exists s, String.length s = 3%nat /\ v = Some (VStr (upper s)) /\
    (plain_text s = true -> String.length (upper s) = 3%nat /\ upper (upper s) = upper s).

Lemma country_field (name : string) data v :
  produced (@required W name TStr [validate_country_code]) data v -> country_ok (Some v).
Proof.
  intros [(v0 & Ht & Hr)|(make & w & w' & Hd & _)]; [|done]. simpl in *. destruct v0 as [| | |s| | | | | | | |]; try done. simpl in Hr.
  destruct (String.length s =? 3)%nat eqn:El; [|done]. simpl in Hr. injection Hr as <-. apply Nat.eqb_eq in El. exists s.
  split; [done|]. split; [done|]. intros Hp. destruct (plain_text_upper s Hp) as [Hl Hu]. by rewrite Hl.
Qed.

Definition date_field (o : pydict pyval) (name : string) (d : Z) : Prop :=
  dget name o = Some (VDate d) /\ valid_date d.

Lemma date_typed v : has_type TDate v = true -> exists d, v = VDate d /\ valid_date d.
Proof. destruct v as [| | | | | |d| | | | |]; try done. simpl. intros Hd. bool_props. by exists d. Qed.

Lemma photo_typed v : has_type photo_type v = true ->
  (exists s, v = VStr s) \/ (exists bs, v = VBytes bs) \/ v = VNone.
Proof. destruct v; try done; naive_solver. Qed.

(** What holds of every passport's data. *)
Record passport_data_ok (o : pydict pyval) : Prop := {
  ok_issuer : country_ok (dget "issuing_country" o);
  ok_nationality : country_ok (dget "nationality" o);
  ok_dates : exists b e, date_field o "date_of_birth" b /\ date_field o "date_of_expiry" e /\ b <= e;
  ok_photo : exists v, field_bytes "photo" o = Ok v }.

Lemma PassportData_names : NoDup (names (@PassportData W _)).
Proof. apply (bool_decide_unpack _). vm_compute. exact I. Qed.

Lemma required_checked name t gs data v : Forall checks gs -> produced (@required W name t gs) data v ->
  has_type t v = true /\ run_validators gs data v = Ok v.
Proof.
  intros Hg [(v0 & Ht & Hr)|(make & w & w' & Hd & _)]; [|done]. simpl in *.
  by destruct (checks_stable gs data v0 v Hg Hr) as [-> Hr'].
Qed.

Lemma default_checked name t v1 gs data v : Forall checks gs -> produced (@with_default W name t v1 gs) data v ->
  v = v1 \/ has_type t v = true /\ run_validators gs data v = Ok v.
Proof.
  intros Hg [(v0 & Ht & Hr)|(make & w & w' & Hd & Hm)]; simpl in *.
  - right. by destruct (checks_stable gs data v0 v Hg Hr) as [-> Hr'].
  - left. injection Hd as <-. by injection Hm as <- _.
Qed.

Lemma passport_data_fields (o : pydict pyval) : made (@PassportData W _) [] o -> passport_data_ok o.
Proof.
  intros Hv. pose proof PassportData_names as Hnd.
  destruct (made_field _ _ 1 _ Hv Hnd eq_refl) as (v1 & b1 & H1' & P1 & _).
  destruct (made_field _ _ 4 _ Hv Hnd eq_refl) as (v4 & b4 & H4' & P4 & _).
  destruct (made_field _ _ 5 _ Hv Hnd eq_refl) as (v5 & b5 & H5' & P5 & _).
  destruct (made_field _ _ 7 _ Hv Hnd eq_refl) as (v7 & b7 & H7' & P7 & D7).
  destruct (made_field _ _ 9 _ Hv Hnd eq_refl) as (v9 & b9 & H9' & P9 & _).
  simpl in H1', H4', H5', H7', H9'.
  apply required_checked in P5 as [T5 _]; [|all_checks]. apply required_checked in P7 as [T7 R7]; [|all_checks].
  apply date_typed in T5 as (b & -> & Hb), T7 as (e & -> & He).
  specialize (D7 "date_of_birth"). rewrite H5' in D7. simpl in R7. unfold validate_expiry_date in R7.
  rewrite D7 in R7 by (simpl; tauto). split.
  - rewrite H1'. by eapply (country_field "issuing_country").
  - rewrite H4'. by eapply (country_field "nationality").
  - exists b, e. split; [done|]. split; [done|]. destruct (Z.ltb_spec e b); [done|lia].
  - unfold field_bytes. rewrite H9'. apply default_checked in P9 as [->|[T9 R9]]; [by eexists| |all_checks].
    apply photo_typed in T9 as [[s ->]|[[bs ->]| ->]]; [|by eexists..].
    simpl in R9. unfold validate_photo, validate_base64 in R9. destruct (b64decode s); [by eexists|done].
Qed.
(** ** Conversions that give the object back *)

(** The last field of a valid object can be replaced by a valid value. *)
Lemma valid_last fs f o v : valid_object (W:=W) (fs ++ [f]) o -> NoDup (names (fs ++ [f])) ->
  has_type (f_type f) v = true -> (forall data, run_validators (f_validators f) data v = Ok v) ->
  valid_object (fs ++ [f]) (dset (f_name f) v o).
Proof.
  unfold valid_object. generalize (@nil (string * pyval)). revert o.
  induction fs as [|f0 fs IH]; intros o data Hv Hnd Ht Hr; simpl in *.
  - inversion Hv as [|? ? ? x rest ? ? Hrest]; subst. inversion Hrest; subst. simpl. rewrite String.eqb_refl.
    by repeat constructor.
  - inversion Hv as [|? ? ? x rest Hx Hrx Hrest]; subst. simpl. apply NoDup_cons in Hnd as [Hni Hnd].
    assert (Hne : f_name f <> f_name f0).
    { intros He. apply Hni. unfold names. rewrite map_app. apply elem_of_app. right. rewrite <- He. by constructor. }
    apply String.eqb_neq in Hne. rewrite Hne. constructor; [done..|]. by apply IH.
Qed.

(** Models without dates or bytes. *)
Lemma flat_roundtrip fs o (w : W) : good_names (names fs) = true -> valid_object (W:=W) fs o ->
  forallb (fun kv => no_models (snd kv)) o = true -> construct fs (camel_to_snake_dict (model_to_dict o)) w = (Ok o, w).
Proof.
  intros Hg Hv Hn. pose proof (valid_keys _ _ _ Hv) as Hk. unfold model_to_dict. rewrite model_dump_id, keys_roundtrip by (by rewrite ?Hk).
  apply construct_self; [|done..]. unfold good_names in Hg. by bool_props.
Qed.

Lemma fromisoformat_date d : valid_date d -> fromisoformat (date_isoformat d) = Ok (d * day, false).
Proof. intros Hv. unfold fromisoformat. by rewrite parse_date_isoformat. Qed.

Lemma dt_date_midnight d : dt_date (d * day) = d.
Proof. unfold dt_date. apply Z.div_mul. done. Qed.

Lemma encode_date_get name k o : dget k (encode_date name o) =
  if String.eqb name k then match dget name o with Some (VDate x) => Some (VStr (date_isoformat x)) | v => v end
  else dget k o.
Proof.
  unfold encode_date. destruct (String.eqb_spec name k) as [->|Hne].
  - destruct (dget k o) as [[]|] eqn:E; try done. apply dget_dset_eq.
  - destruct (dget name o) as [[]|]; try done. by apply dget_dset_ne.
Qed.

Lemma encode_date_keys name o : dkeys (encode_date name o) = dkeys o.
Proof.
  unfold encode_date. destruct (dget name o) as [[]|] eqn:E; try done. apply dkeys_dset_in.
  by apply (in_map fst) in E || (apply dget_In in E; by apply (in_map fst) in E).
Qed.

Lemma encode_bytes_keys name o : dkeys (encode_bytes name o) = dkeys o.
Proof.
  unfold encode_bytes. destruct (dget name o) as [[]|] eqn:E; try done. apply dkeys_dset_in.
  apply dget_In in E. by apply (in_map fst) in E.
Qed.

(** Two encoded dates are read back, and nothing else is touched. *)
Lemma decode_dates n1 n2 o a b : n1 <> n2 -> date_field o n1 a -> date_field o n2 b ->
  exists d1 d2, decode_date n1 (encode_date n2 (encode_date n1 o)) = Ok d1 /\ decode_date n2 d1 = Ok d2 /\
    dkeys d2 = dkeys o /\ forall k, dget k d2 = dget k o.
Proof.
  intros Hne [Ha Va] [Hb Vb]. apply String.eqb_neq in Hne as Hne'. apply not_eq_sym in Hne as Hne2.
  apply String.eqb_neq in Hne2 as Hne2'.
  set (e := encode_date n2 (encode_date n1 o)).
  assert (G1 : dget n1 e = Some (VStr (date_isoformat a))).
  { unfold e. rewrite !encode_date_get, Hne2', String.eqb_refl, Ha. done. }
  assert (G2 : dget n2 e = Some (VStr (date_isoformat b))).
  { unfold e. rewrite !encode_date_get, String.eqb_refl, Hne', Hb. done. }
  assert (Hk : dkeys e = dkeys o) by (unfold e; by rewrite !encode_date_keys).
  exists (dset n1 (VDate a) e), (dset n2 (VDate b) (dset n1 (VDate a) e)). split_and!.
  - unfold decode_date. rewrite G1, fromisoformat_date by done. simpl. by rewrite dt_date_midnight.
  - unfold decode_date. rewrite dget_dset_ne, G2, fromisoformat_date by done. simpl. by rewrite dt_date_midnight.
  - assert (I1 : In n1 (dkeys e)) by (apply dget_In in G1; by apply (in_map fst) in G1).
    assert (I2 : In n2 (dkeys e)) by (apply dget_In in G2; by apply (in_map fst) in G2).
    rewrite !dkeys_dset_in; [done|done|by rewrite dkeys_dset_in].
  - intros k. rewrite !dget_dset. unfold e. rewrite !encode_date_get.
    destruct (String.eqb_spec n2 k) as [<-|]; [by rewrite Hb|]. by destruct (String.eqb_spec n1 k) as [<-|].
Qed.

(** The bytes of a field are the same before and after its encoding. *)
Lemma encode_bytes_bytes name o : field_bytes name (encode_bytes name o) = field_bytes name o.
Proof.
  unfold encode_bytes. destruct (dget name o) as [[]|] eqn:E; try done. unfold field_bytes.
  by rewrite dget_dset_eq, E, b64decode_encode.
Qed.

(** A model whose last field holds bytes or their text stays valid when the
    bytes are encoded. *)
Lemma encode_last_valid fs name msg o :
  let f := with_default (W:=W) name photo_type VNone [validate_base64 msg] in
  valid_object (fs ++ [f]) o -> NoDup (names (fs ++ [f])) -> valid_object (fs ++ [f]) (encode_bytes name o).
Proof.
  intros f Hv Hnd. unfold encode_bytes. destruct (dget name o) as [[]|]; try done.
  apply (valid_last fs f); [done..|]. intros data. simpl. unfold validate_base64. by rewrite b64decode_encode.
Qed.

Lemma passport_data_back o (w : W) : valid_object (@PassportData W _) o ->
  PassportData_from_dict (PassportData_to_dict o) w = (Ok (encode_bytes "photo" o), w).
Proof.
  intros Hv. pose proof (passport_data_fields o (valid_made _ _ _ Hv)) as [_ _ (b & e & [Hb Vb] & [He Ve] & _) _].
  pose proof (valid_keys _ _ _ Hv) as Hk. unfold PassportData_to_dict, PassportData_from_dict.
  rewrite model_dump_id by (by apply (valid_no_models (@PassportData W _) [])).
  set (o' := encode_bytes "photo" o). assert (Hk' : dkeys o' = names (@PassportData W _)).
  { unfold o'. by rewrite encode_bytes_keys. }
  assert (Hget : forall k, k <> "photo" -> dget k o' = dget k o).
  { intros k Hne. unfold o', encode_bytes. destruct (dget "photo" o) as [[]|]; try done. by rewrite dget_dset_ne. }
  rewrite keys_roundtrip by (rewrite !encode_date_keys, Hk'; vm_compute; reflexivity).
  destruct (decode_dates "date_of_birth" "date_of_expiry" o' b e) as (d1 & d2 & E1 & E2 & Hkd & Hd);
    [done|by split; [rewrite Hget|]|by split; [rewrite Hget|]|].
  unfold mbind, M_bind, lift. rewrite E1. cbn beta iota. rewrite E2. cbn beta iota.
  apply construct_self; [apply PassportData_names| |done|by rewrite Hkd].
  apply (encode_last_valid (take 9 PassportData) "photo" "Photo must be base64 encoded"); [done|apply PassportData_names].
Qed.

Lemma digits_all acc s n : digits acc s = Some n ->
  forallb (fun c => opt_is_some (digit_of c)) (String.list_ascii_of_string s) = true.
Proof.
  revert acc. induction s as [|c s IH]; intros acc; simpl; [done|].
  destruct (digit_of c) as [v|]; simpl; [apply IH|done].
Qed.

(** ** The machine readable zone *)

Lemma digit_isdigit c : opt_is_some (digit_of c) = true ->
  let n := nat_of_ascii c in (48 <=? n)%nat && (n <=? 57)%nat = true /\ Ascii.eqb c (ascii_of_nat 90) = false.
Proof. destruct c as [[] [] [] [] [] [] [] []]; by vm_compute. Qed.

Lemma padded_digits w n : padded_ok w n = true -> String.length (zero_pad w n) = w /\ all_digits (zero_pad w n).
Proof. intros Hp. destruct (padded_inv w n Hp) as [Hl Hd]. split; [done|]. by eapply digits_all. Qed.

(** The short date is six digits. *)
Lemma yymmdd_six msg d : six_digits msg (yymmdd d) = Ok (VStr (yymmdd d)).
Proof.
  unfold yymmdd. pose proof (civil_spec d) as Hs. destruct (civil d) as [[y m] dd]. destruct Hs as (_ & Hm & Hd).
  destruct (padded_digits _ _ (padded2 (y mod 100) ltac:(pose proof (Z.mod_pos_bound y 100); lia))) as [L1 D1].
  destruct (padded_digits _ _ (padded2 m ltac:(lia))) as [L2 D2].
  destruct (padded_digits _ _ (padded2 dd ltac:(lia))) as [L3 D3].
  revert L1 D1 L2 D2 L3 D3. generalize (zero_pad 2 (y mod 100)) (zero_pad 2 m) (zero_pad 2 dd).
  intros s1 s2 s3 L1 D1 L2 D2 L3 D3. unfold six_digits.
  rewrite !string_length_app, L1, L2, L3. cbn [Nat.add Nat.eqb negb orb]. unfold isdigit.
  assert (Hne : String.eqb (s1 +:+ s2 +:+ s3) "" = false) by (destruct s1; [done|reflexivity]).
  rewrite Hne. cbn [negb andb]. replace (forallb _ _) with true; [done|]. symmetry. apply forallb_forall. intros c Hc.
  assert (Hall : all_digits (s1 +:+ s2 +:+ s3)) by (by repeat apply all_digits_app).
  unfold all_digits in Hall. rewrite forallb_forall in Hall. destruct (digit_isdigit c (Hall c Hc)) as [Hd1 _]. cbv zeta in *. by rewrite Hd1.
Qed.

Lemma valid_field_or v n fs o f : valid_object (W:=W) fs o -> NoDup (names fs) -> nth_error fs n = Some f ->
  v = attr (f_name f) o -> has_type (f_type f) v = true /\
    exists data, run_validators (f_validators f) data v = Ok v.
Proof.
  intros Hv Hnd Hn ->. destruct (valid_field fs o n f Hv Hnd Hn) as (v & data & Hg & Ht & Hr & _).
  unfold attr. rewrite Hg. simpl. split; [done|]. by exists data.
Qed.

Definition mrz_of o : pydict pyval := [
  ("document_type", VStr "P"); ("issuing_country", attr "issuing_country" o);
  ("document_number", attr "document_number" o); ("surname", attr "surname" o);
  ("given_names", attr "given_names" o); ("nationality", attr "nationality" o);
  ("date_of_birth", short_date "date_of_birth" o); ("gender", attr "gender" o);
  ("date_of_expiry", short_date "date_of_expiry" o); ("personal_number", attr "personal_number" o)].

Lemma mrz_of_valid o : valid_object (@PassportData W _) o -> valid_object (@MRZData W _) (mrz_of o).
Proof.
  intros Hv. pose proof PassportData_names as Hnd.
  pose proof (passport_data_fields o (valid_made _ _ _ Hv)) as [_ _ (b & e & [Hb _] & [He _] & _) _].
  assert (Hf : forall n f, nth_error (@PassportData W _) n = Some f -> has_type (f_type f) (attr (f_name f) o) = true /\
    exists data, run_validators (f_validators f) data (attr (f_name f) o) = Ok (attr (f_name f) o)).
  { intros n f Hn. by eapply valid_field_or. }
  unfold mrz_of, short_date. rewrite Hb, He.
  repeat (constructor; [| |]); simpl;
    first [ apply (Hf 0%nat _ eq_refl) | apply (Hf 1%nat _ eq_refl) | apply (Hf 2%nat _ eq_refl)
          | apply (Hf 3%nat _ eq_refl) | apply (Hf 4%nat _ eq_refl) | apply (Hf 6%nat _ eq_refl)
          | apply (Hf 8%nat _ eq_refl) | by rewrite yymmdd_six | done | by constructor
          | destruct (proj2 (Hf 1%nat _ eq_refl)) as [data Hd]; exact Hd
          | destruct (proj2 (Hf 4%nat _ eq_refl)) as [data Hd]; exact Hd ].
Qed.

Lemma MRZData_names : NoDup (names (@MRZData W _)).
Proof. apply (bool_decide_unpack _). vm_compute. exact I. Qed.

Lemma to_mrz_data_run o (w : W) : valid_object (@PassportData W _) o -> to_mrz_data o w = (Ok (mrz_of o), w).
Proof. intros Hv. apply construct_self; [apply MRZData_names|by apply mrz_of_valid|done..]. Qed.

(** C18: The data of a passport, however it is built, has countries that are three
    characters put in upper case, and are still three characters when each of them has
    a capital of one character (the sharp s, which becomes two, is accepted), two dates
    of which the expiry is not before the birth, and a photo that can be decoded. *)
Theorem passport_data_well_formed kwargs (w w' : W) o :
  construct PassportData kwargs w = (Ok o, w') ->
  country_ok (dget "issuing_country" o) /\ country_ok (dget "nationality" o) /\
  (exists b e, date_field o "date_of_birth" b /\ date_field o "date_of_expiry" e /\ b <= e) /\
  exists v, field_bytes "photo" o = Ok v.
Proof.
  intros Hc. apply construct_made in Hc. by destruct (passport_data_fields o Hc).
Qed.

(** [from_dict] of [to_dict] is the same data, except that a photo given as
    bytes comes back as its Base64 text, with the same [photo_bytes]. *)
Theorem passport_data_roundtrip kwargs (w w' w1 : W) o :
  construct PassportData kwargs w = (Ok o, w') -> stable_countries o ->
  exists o', PassportData_from_dict (PassportData_to_dict o) w1 = (Ok o', w1) /\
    field_bytes "photo" o' = field_bytes "photo" o /\ (forall k, k <> "photo" -> dget k o' = dget k o).
Proof.
  intros Hc Hs. apply construct_stable in Hc; [|apply PassportData_settled|done].
  exists (encode_bytes "photo" o). split; [by apply passport_data_back|]. split; [apply encode_bytes_bytes|].
  intros k Hk. unfold encode_bytes. destruct (dget "photo" o) as [[]|]; try done. by rewrite dget_dset_ne.
Qed.

(** The MRZ data of a passport can be made, and survives its own
    conversion to a dictionary and back; it carries the dates with two digits
    of the year only, so passports whose dates differ by whole centuries give
    the same MRZ data. *)
Theorem mrz_forgets_century kwargs (w w' w1 : W) o :
  construct PassportData kwargs w = (Ok o, w') -> stable_countries o ->
  exists m, to_mrz_data o w1 = (Ok m, w1) /\ MRZData_from_dict (model_to_dict m) w1 = (Ok m, w1) /\
  forall kwargs2 (w2 w2' : W) o2, construct PassportData kwargs2 w2 = (Ok o2, w2') -> stable_countries o2 ->
    (forall k, In k ["document_number"; "issuing_country"; "surname"; "given_names"; "nationality"; "gender";
                     "personal_number"] -> dget k o2 = dget k o) ->
    (forall k, In k ["date_of_birth"; "date_of_expiry"] -> exists d d2, dget k o = Some (VDate d) /\
       dget k o2 = Some (VDate d2) /\
       let '(y, mo, da) := civil d in let '(y2, mo2, da2) := civil d2 in
       mo2 = mo /\ da2 = da /\ y2 mod 100 = y mod 100) ->
    to_mrz_data o2 w1 = (Ok m, w1).
Proof.
  intros Hc Hst. apply construct_stable in Hc; [|apply PassportData_settled|done].
  exists (mrz_of o). split; [by apply to_mrz_data_run|]. split.
  { apply flat_roundtrip; [vm_compute; reflexivity|by apply mrz_of_valid|].
    by apply (valid_no_models (@MRZData W _) []), mrz_of_valid. }
  intros kwargs2 w2 w2' o2 Hc2 Hst2 Hsame Hdates. apply construct_stable in Hc2; [|apply PassportData_settled|done].
  rewrite to_mrz_data_run by done. f_equal. f_equal.
  assert (Hs : forall k, In k ["date_of_birth"; "date_of_expiry"] -> short_date k o2 = short_date k o).
  { intros k Hk. destruct (Hdates k Hk) as (d & d2 & E & E2 & Hd). unfold short_date. rewrite E, E2. f_equal.
    unfold yymmdd. destruct (civil d) as [[y mo] da], (civil d2) as [[y2 mo2] da2]. by destruct Hd as (-> & -> & ->). }
  unfold mrz_of, attr. rewrite !Hs, !Hsame by (simpl; tauto). done.
Qed.

(** ** The signed object as a text *)

Lemma signed_object_fields o : valid_object (@SignedObject W) o ->
  exists sig ts alg, o = [("signature", VStr sig); ("timestamp", VInt ts); ("algorithm", VStr alg)] /\
    run_validators [validate_signature_base64] [] (VStr sig) = Ok (VStr sig).
Proof.
  intros Hv. inversion Hv as [|? ? ? v1 r1 T1 R1 V1]; subst. inversion V1 as [|? ? ? v2 r2 T2 R2 V2]; subst.
  inversion V2 as [|? ? ? v3 r3 T3 R3 V3]; subst. inversion V3; subst.
  destruct v1 as [| | |sig| | | | | | | |], v2 as [| |ts| | | | | | | | |], v3 as [| | |alg| | | | | | | |]; try done.
  by exists sig, ts, alg.
Qed.

(** The text of a signed object is read back, except for its algorithm, which
    becomes the default one; but when the signature contains a dot, which the
    Base64 validator lets through, the text cannot be read. *)
Theorem sod_string_roundtrip kwargs (w w' w1 : W) o :
  construct SignedObject kwargs w = (Ok o, w') ->
  exists sig, dget "signature" o = Some (VStr sig) /\
    (free_of (ascii_of_nat 46) sig ->
     SignedObject_from_string (SignedObject_to_string o) w1 =
       (Ok (dset "algorithm" (VStr "SHA256withRSA") o), w1)) /\
    (~ free_of (ascii_of_nat 46) sig ->
     SignedObject_from_string (SignedObject_to_string o) w1 = (Raise (value_error "Invalid SOD format"), w1)).
Proof.
  intros Hc. apply construct_valid in Hc; [|apply SignedObject_settled].
  destruct (signed_object_fields o Hc) as (sig & ts & alg & -> & Hsig). exists sig. split; [done|].
  assert (Hs : split_on (ascii_of_nat 46) (SignedObject_to_string
      [("signature", VStr sig); ("timestamp", VInt ts); ("algorithm", VStr alg)]) =
    split_on (ascii_of_nat 46) sig ++ [z_str ts]).
  { rewrite <- (split_free (ascii_of_nat 46) (z_str ts)) by apply z_str_no_dot.
    exact (split_on_app (ascii_of_nat 46) sig (z_str ts)). }
  unfold SignedObject_from_string. rewrite Hs. split; intros Hdot.
  - rewrite (split_free _ sig) by done. cbn [app]. unfold mbind, M_bind, lift. rewrite parse_int_z_str. cbn beta iota.
    change (construct SignedObject [("signature", VStr sig); ("timestamp", VInt ts)] w1)
      with (process (@SignedObject W) [("signature", VStr sig); ("timestamp", VInt ts)] [] [] w1).
    unfold SignedObject. erewrite process_given by done. rewrite (process_given _ _ _ _ _ (VInt ts)) by done.
    by erewrite process_default by done.
  - destruct (split_on (ascii_of_nat 46) sig) as [|a [|b [|c l]]] eqn:E; [by destruct (split_on_ne (ascii_of_nat 46) sig)|..|done].
    + destruct Hdot. by eapply split_one_free.
    + done.
Qed.

(** ** Expiry of ICAO passports *)

Lemma utc_suffix_digits s : free_of (ascii_of_nat 90) s -> utc_suffix s = s.
Proof.
  unfold utc_suffix, chars. induction s as [|c s IH]; [done|]. cbn [free_of String.list_ascii_of_string map].
  intros [Hc Hs]. rewrite concat_cons, IH by done. apply Ascii.eqb_neq in Hc. by rewrite Hc.
Qed.

Lemma free_of_app c a b : free_of c a -> free_of c b -> free_of c (a +:+ b).
Proof.
  induction a as [|x a IH]; [done|]. change (String x a +:+ b) with (String x (a +:+ b)). simpl. naive_solver.
Qed.

Lemma digits_free_of c s : opt_is_some (digit_of c) = false -> all_digits s -> free_of c s.
Proof.
  intros Hc. induction s as [|x s IH]; [done|]. unfold all_digits. simpl. intros [Hx Hs]%andb_true_iff.
  split; [|by apply IH]. intros ->. congruence.
Qed.

Lemma date_isoformat_zone d : valid_date d -> utc_suffix (date_isoformat d) = date_isoformat d.
Proof.
  intros Hv. apply utc_suffix_digits. unfold valid_date, date_isoformat in *. pose proof (civil_spec d) as Hs.
  destruct (civil d) as [[y m] dd]. destruct Hs as (_ & Hm & Hd). simpl in Hv.
  apply free_of_app; [|apply free_of_app; [done|apply free_of_app; [|apply free_of_app; [done|]]]];
    (apply digits_free_of; [done|]).
  - apply (padded_digits _ _ (padded4 y ltac:(lia))).
  - apply (padded_digits _ _ (padded2 m ltac:(lia))).
  - apply (padded_digits _ _ (padded2 dd ltac:(lia))).
Qed.

Lemma date_isoformat_ne d : String.eqb (date_isoformat d) "" = false.
Proof. unfold date_isoformat. destruct (civil d) as [[y m] dd]. by destruct (zero_pad 4 y). Qed.

Lemma iso_date_ok d data : valid_date d -> validate_iso data (VStr (date_isoformat d)) = Ok (VStr (date_isoformat d)).
Proof. intros Hv. unfold validate_iso. by rewrite date_isoformat_zone, fromisoformat_date. Qed.

Lemma icao_expiry_ok d e data : valid_date d -> valid_date e ->
  dget "issue_date" data = Some (VStr (date_isoformat d)) ->
  validate_icao_expiry data (VStr (date_isoformat e)) = Ok (VStr (date_isoformat e)).
Proof.
  intros Hd He Hi. unfold validate_icao_expiry. rewrite Hi, date_isoformat_ne, !date_isoformat_zone by done.
  cbn [negb]. rewrite !fromisoformat_date by done. cbn. by destruct (e * day <=? d * day).
Qed.

(** The fields of an ICAO passport issued and expiring on given days. *)
Definition icao_fields (number : string) (issue expiry : Z) (groups : pydict pyval) (sod : string) : pydict pyval := [
  ("passport_number", VStr number); ("issue_date", VStr (date_isoformat issue));
  ("expiry_date", VStr (date_isoformat expiry)); ("data_groups", VDict groups); ("sod", VStr sod)].

Lemma icao_any_dates number d e groups sod (w : W) : valid_date d -> valid_date e ->
  has_type (TDict TStr) (VDict groups) = true ->
  construct ICaoPassport (icao_fields number d e groups sod) w = (Ok (icao_fields number d e groups sod), w).
Proof.
  intros Hd He Hg. set (o := icao_fields number d e groups sod).
  change (process (ICaoPassport (W:=W)) o [] [] w = (Ok o, w)). unfold ICaoPassport.
  rewrite (process_given _ _ _ _ _ (VStr number)) by reflexivity.
  rewrite (process_given _ _ _ _ _ (VStr (date_isoformat d)));
    [|reflexivity|reflexivity|cbn [run_validators f_validators required]; by rewrite iso_date_ok].
  rewrite (process_given _ _ _ _ _ (VStr (date_isoformat e))); [|reflexivity|reflexivity|].
  2: { cbn [run_validators f_validators required]. rewrite iso_date_ok by done. cbn [mbind result_bind].
       by rewrite (icao_expiry_ok d e). }
  rewrite (process_given _ _ _ _ _ (VDict groups)); [|reflexivity|exact Hg|reflexivity].
  rewrite (process_given _ _ _ _ _ (VStr sod)) by reflexivity. reflexivity.
Qed.

Lemma icao_groups_typed o : has_type (TDict TStr) (VDict (icao_groups o)) = true.
Proof.
  unfold icao_groups. destruct (dict_items (attr "data_groups" o)) as [|kv gs].
  - by destruct (field_text "mrz" o).
  - cbn [has_type]. apply forallb_forall. by intros x ([k v] & <- & _)%in_map_iff.
Qed.

(** A passport is converted to the ICAO format whatever its expiry: the result
    is issued on the day of the conversion and may have expired long before,
    because the check of the expiry against the issue ignores its own error. *)
Theorem icao_expiry_not_enforced kwargs (w w' w1 : W) pd p :
  construct PassportData kwargs w = (Ok pd, w') ->
  dget "passport_data" p = Some (VModel "PassportData" pd) ->
  valid_date (dt_date (fst (datetime_now w1))) ->
  exists number expiry, dget "document_number" pd = Some (VStr number) /\
    dget "date_of_expiry" pd = Some (VDate expiry) /\
    to_icao_format p w1 =
      (Ok (icao_fields number (dt_date (fst (datetime_now w1))) expiry (icao_groups p)
             (default "" (field_text "security_object" p))),
       snd (datetime_now w1)).
Proof.
  intros Hc Hp Hnow. apply construct_made in Hc.
  pose proof (passport_data_fields pd Hc) as [_ _ (b & e & _ & [He Ve] & _) _].
  destruct (made_field _ _ 0 _ Hc PassportData_names eq_refl) as (v & data & Hn & Pn & _).
  apply required_checked in Pn as [Tn _]; [|all_checks].
  simpl in Hn. destruct v as [| | |number| | | | | | | |]; try done. exists number, e. split_and!; [done..|].
  unfold to_icao_format. destruct (datetime_now w1) as [now w2] eqn:Ew. simpl in Hnow |- *.
  replace (attr "passport_data" p) with (VModel "PassportData" pd) by (unfold attr; by rewrite Hp).
  cbn [model_fields]. unfold attr. rewrite Hn, He.
  apply (icao_any_dates number (dt_date now) e); [done|done|apply icao_groups_typed].
Qed.

(** ** Whole passports *)

(** [uuid4()] is a UUID. *)
Class UuidLaws := {
  uuid4_hex (w : W) : has_type TUUID (VUUID (uuid_digits (fst (uuid4 w)))) = true }.

Lemma UUID_str hex : has_type TUUID (VUUID hex) = true -> UUID (uuid_str hex) = Ok (VUUID hex).
Proof. intros Ht. unfold UUID. by rewrite parse_uuid_str. Qed.

Definition data_group_ok (kv : string * pyval) : Prop :=
  exists g, snd kv = VModel "DataGroup" g /\ valid_object (@DataGroup W) g.

(** What a data group is read back as: models in its data have become dictionaries. *)
Definition dumped_group (kv : string * pyval) : string * pyval :=
  (fst kv, VModel "DataGroup" (model_dump (model_fields (snd kv)))).

Lemma data_group_dump g : valid_object (@DataGroup W) g -> valid_object (@DataGroup W) (model_dump g).
Proof.
  intros Hv. inversion Hv as [|? ? ? v1 r1 T1 R1 V1]; subst. inversion V1 as [|? ? ? v2 r2 T2 R2 V2]; subst.
  inversion V2; subst. cbn in *. destruct v1; try done. by repeat constructor.
Qed.

Lemma data_group_back g (w : W) : valid_object (@DataGroup W) g -> DataGroup_from_dict (model_dump g) w = (Ok (model_dump g), w).
Proof. intros Hg%data_group_dump. apply construct_self; [apply (bool_decide_unpack _); vm_compute; exact I|done..]. Qed.

Lemma read_groups_back gs (w : W) : Forall data_group_ok gs ->
  read_groups (map (fun kv => (fst kv, VDict (model_dump (model_fields (snd kv))))) gs) w = (Ok (map dumped_group gs), w).
Proof.
  induction 1 as [|[k v] gs (g & Hv & Hg) Hgs IH]; [done|]. simpl in Hv. subst v.
  cbn [map fst snd model_fields read_groups]. unfold mbind, M_bind, mret, M_ret.
  rewrite data_group_back by done. by rewrite IH.
Qed.

Lemma dumped_groups_typed gs : has_type (TDict (TModel "DataGroup")) (VDict (map dumped_group gs)) = true.
Proof. cbn [has_type]. apply forallb_forall. by intros x (kv & <- & _)%in_map_iff. Qed.

(** What the passport's chip content is read back as. *)
Definition chip_text (v : pyval) : pyval :=
  if val_truthy v then match v with VBytes bs => VStr (b64encode bs) | _ => v end else VNone.

Lemma passport_fields p : valid_object (@Passport W _) p ->
  exists u pd mrz so chip gs,
    p = [("id", VUUID u); ("passport_data", VModel "PassportData" pd); ("mrz", mrz); ("security_object", so);
         ("chip_content", chip); ("data_groups", VDict gs)] /\
    has_type TUUID (VUUID u) = true /\ has_type (optional TStr) mrz = true /\ has_type (optional TStr) so = true /\
    has_type photo_type chip = true /\ (exists data, validate_chip_content data chip = Ok chip) /\
    has_type (TDict (TModel "DataGroup")) (VDict gs) = true.
Proof.
  intros Hv. inversion Hv as [|? ? ? v1 r1 T1 R1 V1]; subst. inversion V1 as [|? ? ? v2 r2 T2 R2 V2]; subst.
  inversion V2 as [|? ? ? v3 r3 T3 R3 V3]; subst. inversion V3 as [|? ? ? v4 r4 T4 R4 V4]; subst.
  inversion V4 as [|? ? ? v5 r5 T5 R5 V5]; subst. inversion V5 as [|? ? ? v6 r6 T6 R6 V6]; subst.
  inversion V6; subst. clear - T1 T2 T3 T4 T5 R5 T6.
  cbn [f_type f_validators required with_default] in *.
  destruct v1 as [| | | | | | | |u| | |]; try done. destruct v6 as [| | | | | | | | | |gs|]; try done.
  destruct v2 as [| | | | | | | | | | |c pd]; try done. cbn [has_type] in T2. apply String.eqb_eq in T2 as <-.
  exists u, pd, v3, v4, v5, gs. split_and!; try done. cbn [run_validators] in R5.
  destruct (validate_chip_content _ v5) as [v|] eqn:E; [|done]. eexists. rewrite E. exact R5.
Qed.

Lemma chip_text_ok v data : has_type photo_type v = true -> validate_chip_content data v = Ok v ->
  has_type photo_type (chip_text v) = true /\ forall data', validate_chip_content data' (chip_text v) = Ok (chip_text v).
Proof.
  intros Ht Hv. apply photo_typed in Ht as [[s ->]|[[bs ->]| ->]]; unfold chip_text; cbn [val_truthy].
  - destruct (negb (String.eqb s "")); done.
  - destruct bs as [|x bs]; [done|]. split; [done|]. intros data'.
    unfold validate_chip_content, validate_base64. by rewrite b64decode_encode.
  - done.
Qed.

Lemma chip_entry_text o : has_type photo_type (attr "chip_content" o) = true ->
  chip_text (attr "chip_content" o) = attr "chipContent" (chip_entry o).
Proof.
  unfold chip_entry. intros Ht. apply photo_typed in Ht. unfold attr in *.
  destruct (dget "chip_content" o) as [v|]; simpl in *; [|done]. destruct Ht as [[s ->]|[[bs ->]| ->]]; [| |done].
  - by destruct s.
  - by destruct bs.
Qed.

Lemma fresh_uuid_typed `{UuidLaws} (w : W) v w' data : fresh_uuid w = (Ok v, w') ->
  has_type TUUID v = true /\ run_validators [] data v = Ok v.
Proof.
  unfold fresh_uuid. pose proof (uuid4_hex w) as Hu. destruct (uuid4 w) as [u w1]. by intros [= <- _].
Qed.

Lemma Passport_settled `{UuidLaws} : settled_codes (@Passport W _).
Proof.
  apply Forall_cons_2; [|settle]. apply settled_always, settled_checks; [by apply Forall_nil_2|].
  cbn [f_default f_type f_validators]. intros make data w v w' [= <-]. by apply fresh_uuid_typed.
Qed.

(** Every object of a model without country codes is valid. *)
Lemma no_countries (fs : list (field W)) o : made fs [] o -> forallb (fun n => negb (mem n country_fields)) (names fs) = true ->
  stable_countries o.
Proof.
  intros Hm Hn k v Hin Hc. apply made_keys in Hm. apply (in_map fst) in Hin. unfold dkeys in Hm. rewrite Hm in Hin. simpl in Hin.
  rewrite forallb_forall in Hn. specialize (Hn k Hin). apply negb_true_iff, mem_false in Hn. done.
Qed.

(** C7: A passport whose country codes are three characters in upper case is the same
    after its conversion to a dictionary and back, down to its identifier and data
    groups, except for what the dictionary has in another form: a photo or chip content
    in bytes becomes its Base64 text, empty chip content is lost, and models in the data
    of its groups become dictionaries. *)
Theorem passport_roundtrip `{UuidLaws} kwargs kwargs' (w w' w2 w2' w1 : W) pd p :
  construct PassportData kwargs w = (Ok pd, w') -> stable_countries pd -> construct Passport kwargs' w2 = (Ok p, w2') ->
  dget "passport_data" p = Some (VModel "PassportData" pd) ->
  Forall data_group_ok (dict_items (attr "data_groups" p)) ->
  Passport_from_dict (Passport_to_dict p) w1 =
    (Ok (dset "data_groups" (VDict (map dumped_group (dict_items (attr "data_groups" p))))
          (dset "chip_content" (chip_text (attr "chip_content" p))
            (dset "passport_data" (VModel "PassportData" (encode_bytes "photo" pd)) p))), w1).
Proof.
  intros Hc Hst Hp Hpd Hgs. apply construct_stable in Hc; [|apply PassportData_settled|done].
  pose proof (construct_made _ _ _ _ _ Hp) as Hmade. apply construct_stable in Hp; [|apply Passport_settled|by apply (no_countries _ _ Hmade)].
  destruct (passport_fields p Hp) as (u & pd' & mrz & so & chip & gs & -> & Hu & Hm & Hs & Hch & (data & Hcv) & Hg).
  change (Some (VModel "PassportData" pd') = Some (VModel "PassportData" pd)) in Hpd. injection Hpd as ->.
  change (Forall data_group_ok gs) in Hgs. change (attr "chip_content" _) with chip. change (dict_items (attr "data_groups" _)) with gs.
  destruct (chip_text_ok chip data Hch Hcv) as [Hct Hcv'].
  unfold Passport_from_dict.
  set (d := Passport_to_dict _).
  assert (Hchip : attr "chipContent" d = chip_text chip).
  { symmetry. exact (chip_entry_text [("id", VUUID u); ("passport_data", VModel "PassportData" pd); ("mrz", mrz);
      ("security_object", so); ("chip_content", chip); ("data_groups", VDict gs)] Hch). }
  change (dget "documentData" d) with (Some (VDict (PassportData_to_dict pd))).
  change (dget "id" d) with (Some (VStr (uuid_str u))).
  change (dget "dataGroups" d) with (Some (VDict (map (fun kv => (fst kv, VDict (model_dump (model_fields (snd kv))))) gs))).
  change (attr "mrz" d) with mrz. change (attr "securityObject" d) with so. rewrite Hchip. clear Hchip d.
  unfold mbind, M_bind, lift. rewrite passport_data_back, UUID_str, read_groups_back by done.
  set (kw := [("id", VUUID u); _; _; _; _; _]).
  change (process (Passport (W:=W)) kw [] [] w1 = (Ok kw, w1)). unfold Passport.
  rewrite (process_given _ _ _ _ _ (VUUID u)) by done.
  rewrite (process_given _ _ _ _ _ (VModel "PassportData" (encode_bytes "photo" pd))) by reflexivity.
  rewrite (process_given _ _ _ _ _ mrz); [|reflexivity|exact Hm|reflexivity].
  rewrite (process_given _ _ _ _ _ so); [|reflexivity|exact Hs|reflexivity].
  rewrite (process_given _ _ _ _ _ (chip_text chip)); [|reflexivity|exact Hct|].
  2: { cbn [run_validators f_validators with_default]. by rewrite Hcv'. }
  rewrite (process_given _ _ _ _ _ (VDict (map dumped_group gs))); [|reflexivity|apply dumped_groups_typed|reflexivity]. reflexivity.
Qed.
End validity.

(** ** Examples *)

Module Demo.

Definition day_of (s : string) : Z := default 0 (parse_date s).

#[export] Instance clock : Env unit := {
  uuid4 w := ("550e8400-e29b-41d4-a716-446655440000", w);
  datetime_now w := (day_of "2025-06-01" * day + 5, w) }.
#[export] Instance clock_laws : @UuidLaws unit clock.
Proof. split. intros w. vm_compute. reflexivity. Qed.
#[export] Instance no_formats : IsoFormats := { iso_other s := Raise (value_error "Invalid isoformat string") }.
#[export] Instance str : PyStr := { str_other v := "?" }.

#[export] Instance other_capitals : CaseMapping := { upper_other c := String c "" }.

Definition person (born expiry : string) (photo : pyval) : pydict pyval := [
  ("document_number", VStr "L898902C3"); ("issuing_country", VStr "uto"); ("surname", VStr "ERIKSSON");
  ("given_names", VStr "ANNA MARIA"); ("nationality", VStr "UTO"); ("date_of_birth", VDate (day_of born));
  ("gender", VEnum "Gender" "F"); ("date_of_expiry", VDate (day_of expiry)); ("photo", photo)].

Definition made (fs : list (field unit)) (kwargs : pydict pyval) : pydict pyval :=
  match fst (construct fs kwargs tt) with Ok o => o | Raise _ => [] end.

Definition face : pyval := VBytes [Byte.xff; Byte.xd8; Byte.x00; Byte.x41].
Definition anna : pydict pyval := made PassportData (person "1974-08-12" "2012-04-15" face).
Definition older_anna : pydict pyval := made PassportData (person "1874-08-12" "1912-04-15" VNone).

Lemma anna_made : construct PassportData (person "1974-08-12" "2012-04-15" face) tt = (Ok anna, tt).
Proof. vm_compute. reflexivity. Qed.
Lemma older_anna_made : construct PassportData (person "1874-08-12" "1912-04-15" VNone) tt = (Ok older_anna, tt).
Proof. vm_compute. reflexivity. Qed.

Lemma anna_stable : stable_countries anna.
Proof. apply stable_checked. vm_compute. reflexivity. Qed.
Lemma older_anna_stable : stable_countries older_anna.
Proof. apply stable_checked. vm_compute. reflexivity. Qed.

(** A sharp s in a country code passes for one character and becomes two; the passport
    cannot be read back. *)
Definition sharp : string := String (ascii_of_nat 223) "XY".
Lemma sharp_s_not_read_back : exists o,
  construct PassportData (dset "issuing_country" (VStr sharp) (person "1974-08-12" "2012-04-15" VNone)) tt = (Ok o, tt) /\
  dget "issuing_country" o = Some (VStr "SSXY") /\
  fst (PassportData_from_dict (PassportData_to_dict o) tt) = Raise (invalid "issuing_country").
Proof. eexists. split; [vm_compute; reflexivity|]. split; vm_compute; reflexivity. Qed.

(** The short dates of two centuries. *)
Example same_short_dates : map (fun o => (short_date "date_of_birth" o, short_date "date_of_expiry" o)) [anna; older_anna]
  = [(VStr "740812", VStr "120415"); (VStr "740812", VStr "120415")].
Proof. vm_compute. reflexivity. Qed.

(** The validators let through a date that is not one, and text that is not
    Base64. *)
Example not_a_date : validate_date_format [] (VStr "999999") = Ok (VStr "999999").
Proof. vm_compute. reflexivity. Qed.
Example not_base64 : validate_photo [] (VStr "a picture!") = Ok (VStr "a picture!").
Proof. vm_compute. reflexivity. Qed.

(** An expiry before the birth is refused, and so is an unknown field. *)
Example expired_before_birth :
  fst (construct (W:=unit) PassportData (person "1974-08-12" "1970-01-01" VNone) tt) = Raise (invalid "date_of_expiry").
Proof. vm_compute. reflexivity. Qed.
Example unknown_field :
  fst (construct (W:=unit) PassportData (("x", VNone) :: person "1974-08-12" "2012-04-15" VNone) tt) = Raise (invalid "extra").
Proof. vm_compute. reflexivity. Qed.

Lemma passport_data_well_formed_witness :
  country_ok (dget "issuing_country" anna) /\ country_ok (dget "nationality" anna) /\
  (exists b e, date_field anna "date_of_birth" b /\ date_field anna "date_of_expiry" e /\ b <= e) /\
  exists v, field_bytes "photo" anna = Ok v.
Proof. exact (passport_data_well_formed _ tt tt anna anna_made). Defined.

Lemma passport_data_roundtrip_witness :
  exists o', PassportData_from_dict (PassportData_to_dict anna) tt = (Ok o', tt) /\
    field_bytes "photo" o' = field_bytes "photo" anna /\ (forall k, k <> "photo" -> dget k o' = dget k anna).
Proof. exact (passport_data_roundtrip _ tt tt tt anna anna_made anna_stable). Defined.

Lemma mrz_forgets_century_witness :
  exists m, to_mrz_data anna tt = (Ok m, tt) /\ to_mrz_data older_anna tt = (Ok m, tt).
Proof.
  destruct (mrz_forgets_century _ tt tt tt anna anna_made anna_stable) as (m & Hm & _ & Hsame). exists m. split; [exact Hm|].
  apply (Hsame _ tt tt older_anna older_anna_made older_anna_stable).
  - intros k Hk. repeat (destruct Hk as [<-|Hk]; [vm_compute; reflexivity|]). destruct Hk.
  - intros k [<-|[<-|[]]]; [exists (day_of "1974-08-12"), (day_of "1874-08-12")
      |exists (day_of "2012-04-15"), (day_of "1912-04-15")]; vm_compute; repeat split; reflexivity.
Defined.

Definition sod_kwargs : pydict pyval :=
  [("signature", VStr "c2ln"); ("timestamp", VInt 1700000000); ("algorithm", VStr "SHA512withRSA")].
Definition dotted_kwargs : pydict pyval := [("signature", VStr "c2.ln"); ("timestamp", VInt (-5))].
Definition sod : pydict pyval := made SignedObject sod_kwargs.
Definition dotted_sod : pydict pyval := made SignedObject dotted_kwargs.

Lemma sod_made : construct SignedObject sod_kwargs tt = (Ok sod, tt).
Proof. vm_compute. reflexivity. Qed.
Lemma dotted_sod_made : construct SignedObject dotted_kwargs tt = (Ok dotted_sod, tt).
Proof. vm_compute. reflexivity. Qed.

Lemma sod_string_roundtrip_witness :
  SignedObject_from_string (SignedObject_to_string sod) tt = (Ok (dset "algorithm" (VStr "SHA256withRSA") sod), tt) /\
  SignedObject_from_string (SignedObject_to_string dotted_sod) tt = (Raise (value_error "Invalid SOD format"), tt).
Proof.
  split.
  - destruct (sod_string_roundtrip _ tt tt tt sod sod_made) as (s & Hs & Hok & _).
    assert (s = "c2ln") as -> by (vm_compute in Hs; by injection Hs). apply Hok. simpl. repeat split; discriminate.
  - destruct (sod_string_roundtrip _ tt tt tt dotted_sod dotted_sod_made) as (s & Hs & _ & Hbad).
    assert (s = "c2.ln") as -> by (vm_compute in Hs; by injection Hs). apply Hbad. simpl. intuition congruence.
Defined.

Definition photo_group : pydict pyval :=
  made DataGroup [("type", VEnum "DataGroupType" "DG2"); ("data", VStr "face")].
Definition passport_kwargs : pydict pyval := [
  ("passport_data", VModel "PassportData" anna); ("mrz", VStr "P<UTO"); ("chip_content", face);
  ("data_groups", VDict [("DG2", VModel "DataGroup" photo_group)])].
Definition passport : pydict pyval := made Passport passport_kwargs.

Lemma passport_made : construct Passport passport_kwargs tt = (Ok passport, tt).
Proof. vm_compute. reflexivity. Qed.
Lemma passport_anna : dget "passport_data" passport = Some (VModel "PassportData" anna).
Proof. vm_compute. reflexivity. Qed.
Lemma photo_group_made : construct DataGroup
  [("type", VEnum "DataGroupType" "DG2"); ("data", VStr "face")] tt = (Ok photo_group, tt).
Proof. vm_compute. reflexivity. Qed.
Lemma today_valid : valid_date (dt_date (fst (datetime_now tt))).
Proof. apply (bool_decide_unpack _). vm_compute. exact I. Qed.

(** A passport that expired in 2012 is converted in 2025. *)
Lemma icao_expiry_not_enforced_witness :
  exists number expiry, dget "document_number" anna = Some (VStr number) /\
    dget "date_of_expiry" anna = Some (VDate expiry) /\
    to_icao_format passport tt =
      (Ok (icao_fields number (dt_date (fst (datetime_now tt))) expiry (icao_groups passport)
             (default "" (field_text "security_object" passport))),
       snd (datetime_now tt)).
Proof. exact (icao_expiry_not_enforced _ tt tt tt anna passport anna_made passport_anna today_valid). Defined.

Example expired_converted : fst (to_icao_format passport tt) =
  Ok (icao_fields "L898902C3" (day_of "2025-06-01") (day_of "2012-04-15") [("DG2", VStr "face")] "").
Proof. vm_compute. reflexivity. Qed.

Lemma passport_roundtrip_witness :
  Passport_from_dict (Passport_to_dict passport) tt =
    (Ok (dset "data_groups" (VDict (map dumped_group (dict_items (attr "data_groups" passport))))
          (dset "chip_content" (chip_text (attr "chip_content" passport))
            (dset "passport_data" (VModel "PassportData" (encode_bytes "photo" anna)) passport))), tt).
Proof.
  apply (passport_roundtrip _ _ tt tt tt tt tt anna passport anna_made anna_stable passport_made passport_anna).
  assert (Hg : dict_items (attr "data_groups" passport) = [("DG2", VModel "DataGroup" photo_group)])
    by (vm_compute; reflexivity).
  rewrite Hg. apply Forall_cons_2; [|apply Forall_nil_2]. exists photo_group. split; [reflexivity|].
  exact (construct_valid DataGroup _ tt photo_group tt DataGroup_settled photo_group_made).
Defined.
End Demo.
