(* ===== verification/PydanticModels.v ===== *)
(** * Second passport models ([models/pydantic_models.py])

    The models beside those of [models/passport.py], with fewer validators: machine
    readable data, data groups, the signed object, passport data, the ICAO format, the
    passport and the result of a verification, and their conversions. *)

From stdpp Require Import pretty.
From S2P Require Import Prelude PyRuntime PyText PyUuid PyBytes PyDate PyInt PyRegex PyIso Pydantic Passport.
Local Open Scope Z_scope.

(** The features of a passport; [Gender] and [DataGroupType] are those of [Passport.v]. *)
Definition SecurityFeature : ftype := TEnum "SecurityFeature"
  ["DIGITAL_SIGNATURE"; "WATERMARK"; "HOLOGRAM"; "MICRO_TEXT"; "UV_FEATURES"; "IR_FEATURES"].

(** ** Dates of the machine readable zone *)

(** The pattern of six digits; the pattern's digits are those of ASCII in a text of
    single bytes. The year, the month and the day when it matches. *)
Definition six_digit_date (s : string) : option (Z * Z * Z) :=
  '(yy, rest) ← read_number 2 s; '(mm, rest) ← read_number 2 rest; '(dd, rest) ← read_number 2 rest;
  if String.eqb rest "" then Some (yy, mm, dd) else None.

Definition validate_date_format : validator := fun _ v =>
  match v with
  | VStr s =>
      match six_digit_date s with
      | None => Raise (value_error "String should match pattern")
      | Some (_, mm, dd) =>
          if (mm <? 1) || (12 <? mm) || (dd <? 1) || (31 <? dd)
          then Raise (value_error "Date must contain only digits in YYMMDD format") else Ok v
      end
  | _ => Raise type_error
  end.

Section models.
Context {W : Type} `{Env W, Pydantic, PyStr}.
Implicit Types (o d : pydict pyval).

(** ** Models *)

Definition MRZDataModel : list (field W) := [
  with_default "document_type" TStr (VStr "P") [];
  required "issuing_country" TStr [];
  required "document_number" TStr [];
  required "surname" TStr [];
  required "given_names" TStr [];
  required "nationality" TStr [];
  required "date_of_birth" TStr [validate_date_format];
  required "gender" Gender [];
  required "date_of_expiry" TStr [validate_date_format];
  with_default "personal_number" (optional TStr) VNone []].

Definition DataGroupModel : list (field W) := [required "type" DataGroupType []; required "data" TAny []].

Definition SignedObjectModel : list (field W) := [
  required "signature" TStr []; required "timestamp" TInt []; with_default "algorithm" TStr (VStr "SHA256withRSA") []].

Definition PassportDataModel : list (field W) := [
  required "document_number" TStr [];
  required "issuing_country" TStr [];
  required "surname" TStr [];
  required "given_names" TStr [];
  required "nationality" TStr [];
  required "date_of_birth" TDate [];
  required "gender" Gender [];
  required "date_of_expiry" TDate [];
  with_default "personal_number" (optional TStr) VNone [];
  with_default "photo" (optional TStr) VNone []].

Definition ICaoPassportModel : list (field W) := [
  required "passport_number" TStr []; required "issue_date" TStr []; required "expiry_date" TStr [];
  required "data_groups" (TDict TStr) []; required "sod" TStr []].

Definition PassportModel : list (field W) := [
  Field "id" TUUID (Some fresh_uuid) [];
  required "passport_data" (TModel "PassportDataModel") [];
  with_default "mrz" (optional TStr) VNone [];
  with_default "security_object" (optional TStr) VNone [];
  with_default "chip_content" (optional TStr) VNone [];
  with_default "data_groups" (TDict (TModel "DataGroupModel")) (VDict []) []].

Definition verification_time : M W pyval := fun w => let '(t, w) := datetime_now w in (Ok (VTime t), w).

Definition VerificationResultModel : list (field W) := [
  required "is_valid" TBool []; required "passport_number" TStr [];
  Field "verification_date" TTime (Some verification_time) [];
  with_default "messages" (TList TStr) (VList []) []; with_default "details" (TDict TAny) (VDict []) []].

(** ** Conversions *)

Definition to_string o : string := val_str (attr "signature" o) +:+ "." +:+ val_str (attr "timestamp" o).

Definition from_string (sod_string : string) : M W (pydict pyval) :=
  match split_on (ascii_of_nat 46) sod_string with
  | [signature; timestamp] =>
      t ← lift (parse_int timestamp);
      construct SignedObjectModel [("signature", VStr signature); ("timestamp", VInt t)]
  | _ => raise (value_error "Invalid SOD format")
  end.

Definition mrz_arguments o : pydict pyval := [
  ("document_type", VStr "P"); ("issuing_country", attr "issuing_country" o);
  ("document_number", attr "document_number" o); ("surname", attr "surname" o);
  ("given_names", attr "given_names" o); ("nationality", attr "nationality" o);
  ("date_of_birth", short_date "date_of_birth" o); ("gender", attr "gender" o);
  ("date_of_expiry", short_date "date_of_expiry" o); ("personal_number", attr "personal_number" o)].

Definition to_mrz_data o : M W (pydict pyval) := construct MRZDataModel (mrz_arguments o).

(** The data groups, or what there is without them. *)
Definition icao_groups o : pydict pyval :=
  match dict_items (attr "data_groups" o) with
  | [] => match field_text "mrz" o with Some mrz => [("DG1", VStr mrz)] | None => [] end
  | groups => map (fun kv => (fst kv, VStr (val_str (attr "data" (model_fields (snd kv)))))) groups
  end.

Definition icao_arguments (now : Z) o : pydict pyval :=
  let pd := model_fields (attr "passport_data" o) in [
  ("passport_number", attr "document_number" pd);
  ("issue_date", VStr (date_isoformat (dt_date now)));
  ("expiry_date", match dget "date_of_expiry" pd with Some (VDate d) => VStr (date_isoformat d) | _ => VNone end);
  ("data_groups", VDict (icao_groups o));
  ("sod", VStr (default "UNSIGNED.0" (field_text "security_object" o)))].

Definition to_icao_format o : M W (pydict pyval) := fun w =>
  let '(now, w) := datetime_now w in construct ICaoPassportModel (icao_arguments now o) w.
End models.

(** ** What the models promise *)

Lemma validate_date_checks : checks validate_date_format.
Proof. intros data [] v'; try done. simpl. destruct (six_digit_date s) as [[[yy mm] dd]|]; [|done]. destruct (_ || _); [done|]. by intros [= <-]. Qed.
#[local] Hint Resolve validate_date_checks : checks.

(** The short date of a date is one. *)
Lemma short_date_accepted d data : validate_date_format data (VStr (yymmdd d)) = Ok (VStr (yymmdd d)).
Proof.
  unfold validate_date_format, six_digit_date, yymmdd. pose proof (civil_spec d) as Hs. destruct (civil d) as [[y m] dd].
  destruct Hs as (_ & Hm & Hd). pose proof (Z.mod_pos_bound y 100 ltac:(lia)) as Hy.
  rewrite read_padded by (simpl; lia). cbn [mbind option_bind]. rewrite read_padded by (simpl; lia). cbn [mbind option_bind].
  pose proof (read_padded 2 dd "" ltac:(lia) ltac:(simpl; lia)) as Hr. rewrite append_nil in Hr. rewrite Hr. cbn [mbind option_bind].
  assert ((m <? 1) || (12 <? m) || (dd <? 1) || (31 <? dd) = false) as Hin by (repeat (apply orb_false_iff; split); apply Z.ltb_ge; lia).
  change ("" =? "")%string with true. cbn iota beta. by rewrite Hin.
Qed.

Section laws.
Context {W : Type} `{Env W, PydanticLaws, PyStr}.
Implicit Types (o d : pydict pyval).

Lemma PassportDataModel_settled : Forall settled (@PassportDataModel W).
Proof. settle. Qed.
Lemma MRZDataModel_settled : Forall settled (@MRZDataModel W).
Proof. settle. Qed.
Lemma SignedObjectModel_settled : Forall settled (@SignedObjectModel W).
Proof. settle. Qed.
Lemma PassportDataModel_names : NoDup (names (@PassportDataModel W)).
Proof. apply (bool_decide_unpack _). vm_compute. exact I. Qed.
Lemma MRZDataModel_names : NoDup (names (@MRZDataModel W)).
Proof. apply (bool_decide_unpack _). vm_compute. exact I. Qed.
Lemma ICaoPassportModel_names : NoDup (names (@ICaoPassportModel W)).
Proof. apply (bool_decide_unpack _). vm_compute. exact I. Qed.

Lemma date_field_of name n o : valid_object (@PassportDataModel W) o ->
  nth_error (@PassportDataModel W) n = Some (required name TDate []) -> exists x : Z, dget name o = Some (VDate x) /\ valid_date x.
Proof.
  intros Hv Hn. destruct (valid_field _ o n _ Hv PassportDataModel_names Hn) as (v & data & Hg & Ht & _).
  apply date_typed in Ht as (x & -> & Hx). by exists x.
Qed.

Lemma mrz_arguments_valid o : valid_object (@PassportDataModel W) o -> valid_object (@MRZDataModel W) (mrz_arguments o).
Proof.
  intros Hv. destruct (date_field_of "date_of_birth" 5 o Hv eq_refl) as (b & Hb & _).
  destruct (date_field_of "date_of_expiry" 7 o Hv eq_refl) as (e & He & _).
  assert (Hf : forall n f, nth_error (@PassportDataModel W) n = Some f -> has_type (f_type f) (attr (f_name f) o) = true).
  { intros n f Hn. by eapply valid_field_or; [| |exact Hn|]; [|apply PassportDataModel_names|]. }
  unfold mrz_arguments, short_date. rewrite Hb, He.
  repeat (constructor; [| |]); cbn [f_type f_validators f_name required with_default run_validators];
    first [ done | apply (Hf 0%nat _ eq_refl) | apply (Hf 1%nat _ eq_refl) | apply (Hf 2%nat _ eq_refl)
          | apply (Hf 3%nat _ eq_refl) | apply (Hf 4%nat _ eq_refl) | apply (Hf 6%nat _ eq_refl)
          | apply (Hf 8%nat _ eq_refl) | by rewrite short_date_accepted | by constructor ].
Qed.

(** The data of every passport can be written into the machine readable zone, with
    both dates in short; nothing is lost but their centuries and the photo. *)
Theorem mrz_always_made kwargs (w w' w1 : W) o :
  construct PassportDataModel kwargs w = (Ok o, w') ->
  to_mrz_data o w1 = (Ok (mrz_arguments o), w1) /\
  exists b e, dget "date_of_birth" o = Some (VDate b) /\ dget "date_of_expiry" o = Some (VDate e) /\
    dget "date_of_birth" (mrz_arguments o) = Some (VStr (yymmdd b)) /\ dget "date_of_expiry" (mrz_arguments o) = Some (VStr (yymmdd e)).
Proof.
  intros Hc. apply construct_valid in Hc; [|apply PassportDataModel_settled]. split.
  - by apply construct_self; [apply MRZDataModel_names|apply mrz_arguments_valid|..].
  - destruct (date_field_of "date_of_birth" 5 o Hc eq_refl) as (b & Hb & _).
    destruct (date_field_of "date_of_expiry" 7 o Hc eq_refl) as (e & He & _). exists b, e.
    split; [done|]. split; [done|]. unfold mrz_arguments, short_date. by rewrite Hb, He.
Qed.

Lemma model_groups_typed o : has_type (TDict TStr) (VDict (icao_groups o)) = true.
Proof.
  unfold icao_groups. destruct (dict_items (attr "data_groups" o)) as [|g gs]; [by destruct (field_text "mrz" o)|].
  cbn [has_type]. apply forallb_forall. intros kv (x & <- & _)%in_map_iff. done.
Qed.

Lemma icao_arguments_valid now o pd : attr "passport_data" o = VModel "PassportDataModel" pd -> valid_object (@PassportDataModel W) pd ->
  valid_object (@ICaoPassportModel W) (icao_arguments now o).
Proof.
  intros Hpd Hv. unfold icao_arguments. rewrite Hpd. cbn [model_fields].
  destruct (date_field_of "date_of_expiry" 7 pd Hv eq_refl) as (e & -> & _).
  assert (has_type TStr (attr "document_number" pd) = true) as Hn.
  { by destruct (valid_field_or _ 0 _ pd _ Hv PassportDataModel_names eq_refl eq_refl) as [Ht _]. }
  pose proof (model_groups_typed o) as Hg.
  repeat (constructor; [| |]); cbn [f_type f_validators f_name required run_validators]; try done. constructor.
Qed.

(** Every passport can be written in the ICAO format, whatever its dates: its expiry is
    read back from there, and its date of issue is the day on which it is written. *)
Theorem icao_always_made kwargs (w w' w1 : W) o pd :
  construct PassportDataModel kwargs w = (Ok pd, w') -> attr "passport_data" o = VModel "PassportDataModel" pd ->
  let '(now, w2) := datetime_now w1 in
  to_icao_format o w1 = (Ok (icao_arguments now o), w2) /\
  dget "issue_date" (icao_arguments now o) = Some (VStr (date_isoformat (dt_date now))) /\
  exists e text, dget "date_of_expiry" pd = Some (VDate e) /\
    dget "expiry_date" (icao_arguments now o) = Some (VStr text) /\ parse_date text = Some e.
Proof.
  intros Hc Hpd. apply construct_valid in Hc; [|apply PassportDataModel_settled]. unfold to_icao_format.
  destruct (datetime_now w1) as [now w2]. split; [|split].
  - by apply construct_self; [apply ICaoPassportModel_names|eapply icao_arguments_valid|..].
  - done.
  - destruct (date_field_of "date_of_expiry" 7 pd Hc eq_refl) as (e & He & Hd). exists e, (date_isoformat e). split; [done|].
    unfold icao_arguments. rewrite Hpd. cbn [model_fields]. rewrite He. split; [done|by apply parse_date_isoformat].
Qed.
End laws.

Module Demo.
#[export] Instance demo_env : Env unit := { uuid4 w := ("", w); datetime_now w := (1735689600000000, w) }.
#[export] Instance demo_str : PyStr := { str_other _ := "" }.

Definition anna : pydict pyval := [
  ("document_number", VStr "L898902C3"); ("issuing_country", VStr "Utopia"); ("surname", VStr "ERIKSSON"); ("given_names", VStr "ANNA MARIA");
  ("nationality", VStr "UTO"); ("date_of_birth", VDate 1684); ("gender", VEnum "Gender" "F"); ("date_of_expiry", VDate 15445);
  ("personal_number", VNone); ("photo", VStr "no Base64!")].

(** A country that is no code and a photo that is no Base64 are accepted here. *)
Lemma anna_model_made : construct PassportDataModel anna tt = (Ok anna, tt).
Proof. vm_compute. reflexivity. Qed.

Lemma mrz_always_made_witness : exists m, to_mrz_data anna tt = (Ok m, tt) /\ dget "date_of_birth" m = Some (VStr "740812").
Proof.
  destruct (mrz_always_made anna tt tt tt anna anna_model_made) as [Hm _]. exists (mrz_arguments anna). split; [exact Hm|]. vm_compute. reflexivity.
Defined.

Definition passport : pydict pyval := [("passport_data", VModel "PassportDataModel" anna); ("mrz", VNone); ("security_object", VNone)].

Lemma icao_always_made_witness : exists i, to_icao_format passport tt = (Ok i, tt) /\ dget "sod" i = Some (VStr "UNSIGNED.0") /\
  dget "issue_date" i = Some (VStr "2025-01-01") /\ dget "expiry_date" i = Some (VStr "2012-04-15").
Proof.
  destruct (icao_always_made anna tt tt tt passport anna anna_model_made eq_refl) as (Hi & _ & _).
  exists (icao_arguments 1735689600000000 passport). split; [exact Hi|]. split; [|split]; vm_compute; reflexivity.
Defined.

(** The thirty-first of February is a date of the zone. *)
Lemma february_accepted : six_digit_date "740231" = Some (74, 2, 31) /\ is_ok (validate_date_format [] (VStr "740231")) = true /\
  is_ok (validate_date_format [] (VStr "741301")) = false.
Proof. by vm_compute. Qed.
End Demo.
