(* ===== verification/Cmc.v ===== *)
(** * Crew member certificates ([models/passport.py], second part)

    The certificates of Doc 9303 Part 5 and Annex 9 as pydantic models: the data
    and TD-1 zone of a crew member, the visible digital seal, the certificate
    with its verification, and their conversions. *)

From stdpp Require Import pretty.
From S2P Require Import Prelude PyRuntime PyText PyBytes PyDate PyInt PyUuid Pydantic CanonicalJson Passport.
Local Open Scope Z_scope.

(** ** Models *)

Definition CMCSecurityModel : ftype := TEnum "CMCSecurityModel" ["CHIP_LDS"; "VDS_NC"].
Definition CHIP_LDS : pyval := VEnum "CMCSecurityModel" "CHIP_LDS".
Definition VDS_NC : pyval := VEnum "CMCSecurityModel" "VDS_NC".

Definition validate_time_format : validator := fun _ v =>
  match v with VStr s => six_digits "Time must be in HHMMSS format" s | _ => Ok v end.
Definition validate_face_image : validator := validate_base64 "Face image must be base64 encoded".

(** A text, or a [StrEnum], that equals [s]. *)
Definition equals_str (s : string) (v : option pyval) : bool :=
  match v with Some (VStr s') | Some (VEnum _ s') => String.eqb s s' | _ => false end.

Section cmc.
Context {W : Type} `{Env W, Pydantic, IsoFormats, CaseMapping}.
Implicit Types (o d : pydict pyval).

Definition CMCTD1MRZData : list (field W) := [
  with_default "document_type" TStr (VStr "I") [];
  required "issuing_country" TStr [validate_country_code];
  required "document_number" TStr [];
  required "surname" TStr [];
  required "given_names" TStr [];
  required "nationality" TStr [validate_country_code];
  required "date_of_birth" TStr [validate_date_format];
  required "gender" Gender [];
  required "date_of_expiry" TStr [validate_date_format];
  with_default "optional_data" (optional TStr) VNone []].

Definition CMCTD1MRZData_from_dict d : M W (pydict pyval) := construct CMCTD1MRZData (camel_to_snake_dict d).

Definition CMCData : list (field W) := [
  required "document_number" TStr [];
  required "issuing_country" TStr [validate_country_code];
  required "surname" TStr [];
  required "given_names" TStr [];
  required "nationality" TStr [validate_country_code];
  required "date_of_birth" TDate [];
  required "gender" Gender [];
  required "date_of_expiry" TDate [validate_expiry_date];
  with_default "employer" (optional TStr) VNone [];
  with_default "crew_id" (optional TStr) VNone [];
  with_default "security_model" CMCSecurityModel CHIP_LDS [];
  with_default "background_check_verified" TBool (VBool false) [];
  with_default "face_image" photo_type VNone [validate_face_image]].

Definition to_td1_mrz_data o : M W (pydict pyval) := construct CMCTD1MRZData [
  ("document_type", VStr "I"); ("issuing_country", attr "issuing_country" o);
  ("document_number", attr "document_number" o); ("surname", attr "surname" o);
  ("given_names", attr "given_names" o); ("nationality", attr "nationality" o);
  ("date_of_birth", short_date "date_of_birth" o); ("gender", attr "gender" o);
  ("date_of_expiry", short_date "date_of_expiry" o); ("optional_data", attr "crew_id" o)].

Definition CMCData_to_dict o : pydict pyval :=
  snake_to_camel_dict (encode_date "date_of_expiry" (encode_date "date_of_birth" (encode_bytes "face_image" (model_dump o)))).

Definition CMCData_from_dict d : M W (pydict pyval) :=
  d ← lift (decode_date "date_of_birth" (camel_to_snake_dict d));
  d ← lift (decode_date "date_of_expiry" d);
  construct CMCData d.

Definition VDSNCBarcode : list (field W) := [
  required "header" TStr [];
  with_default "message_type" TStr (VStr "CMC") [];
  required "issuing_country" TStr [validate_country_code];
  with_default "signature_algorithm" TStr (VStr "ES256") [];
  required "certificate_reference" TStr [];
  required "signature_creation_date" TStr [validate_date_format];
  with_default "signature_creation_time" (optional TStr) VNone [validate_time_format];
  required "cmc_data" (TDict TAny) [];
  required "signature" TStr []].

Definition encode_to_barcode o : result string :=
  text ← json_dumps false ", " ": " (VDict (model_dump o));
  Ok (b64encode (utf8 text)).

(** [model_dump(exclude={"signature"})] *)
Definition unsigned o : pydict pyval := model_dump (lfilter (fun kv => negb (String.eqb (fst kv) "signature")) o).
Definition _get_canonical_data o : result string := json_dumps true "," ":" (VDict (unsigned o)).

(** [VDSNCBarcode( **camel_to_snake_dict(d))] *)
Definition read_barcode d : M W (pydict pyval) := construct VDSNCBarcode (camel_to_snake_dict d).

Definition CMCCertificate : list (field W) := [
  Field "id" TUUID (Some fresh_uuid) [];
  required "cmc_data" (TModel "CMCData") [];
  with_default "td1_mrz" (optional TStr) VNone [];
  with_default "security_object" (optional TStr) VNone [];
  with_default "vds_nc_barcode" (optional (TModel "VDSNCBarcode")) VNone [];
  with_default "chip_content" photo_type VNone [validate_chip_content];
  with_default "data_groups" (TDict (TModel "DataGroup")) (VDict []) [];
  with_default "electronic_record_id" (optional TStr) VNone [];
  with_default "issuer_record_keeping" TBool (VBool false) [];
  with_default "visa_free_entry_eligible" TBool (VBool false) []].

Definition cmc_data o : pydict pyval := model_fields (attr "cmc_data" o).

Definition uses_chip_security o : bool := equals_str "CHIP_LDS" (dget "security_model" (cmc_data o)).
Definition uses_vds_nc_security o : bool := equals_str "VDS_NC" (dget "security_model" (cmc_data o)).

(** [CMCCertificate.add_data_group] *)
Definition add_cmc_group (g : pydict pyval) o : result (pydict pyval) :=
  if negb (uses_chip_security o)
  then Raise (value_error "Data groups only supported for chip-based security model")
  else Ok (add_data_group g o).

(** The verdict of a verification, and the warning it logs. *)
Definition _verify_chip_security o : bool * string :=
  match field_text "security_object" o with
  | None => (false, "No SOD present for chip-based CMC")
  | Some _ => (false, "CMC chip verification requires native SOD trust validation")
  end.

(** [payload.get(name) != field] of two texts. *)
Definition mismatch (name : string) (payload data : pydict pyval) : bool :=
  match dget name data with Some (VStr s) => negb (equals_str s (dget name payload)) | _ => true end.

Definition _verify_vds_nc_security o : bool * string :=
  match dget "vds_nc_barcode" o with
  | Some (VModel _ barcode) =>
      let vds_data := dict_items (attr "cmc_data" barcode) in
      if mismatch "document_number" vds_data (cmc_data o) then (false, "VDS-NC document number mismatch")
      else if mismatch "surname" vds_data (cmc_data o) then (false, "VDS-NC surname mismatch")
      else (false, "CMC VDS-NC verification requires a trusted issuer key")
  | _ => (false, "No VDS-NC barcode present")
  end.

Definition verify_certificate o : bool * string :=
  match field_text "td1_mrz" o with
  | None => (false, "No TD-1 MRZ present in CMC")
  | Some _ =>
      if uses_chip_security o then _verify_chip_security o
      else if uses_vds_nc_security o then _verify_vds_nc_security o
      else (false, "Unknown security model")
  end.

(** [vdsNcBarcode] of a dictionary, when there is a barcode. *)
Definition barcode_entry o : pydict pyval :=
  match dget "vds_nc_barcode" o with Some (VModel _ b) => [("vdsNcBarcode", VDict (model_to_dict b))] | _ => [] end.

Definition CMCCertificate_to_dict o : pydict pyval :=
  [("id", VStr (match dget "id" o with Some (VUUID u) => uuid_str u | _ => "" end));
   ("cmcData", VDict (CMCData_to_dict (cmc_data o)));
   ("td1Mrz", attr "td1_mrz" o);
   ("securityObject", attr "security_object" o);
   ("dataGroups", groups_to_dict o);
   ("electronicRecordId", attr "electronic_record_id" o);
   ("issuerRecordKeeping", attr "issuer_record_keeping" o);
   ("visaFreeEntryEligible", attr "visa_free_entry_eligible" o)] ++ barcode_entry o ++ chip_entry o.

(** A dictionary among the values, for the reading of a nested object. *)
Definition as_dict (v : pyval) : M W (pydict pyval) :=
  match v with VDict d => mret d | _ => raise attribute_error end.

(** The nested objects of a dictionary, one after another. *)
Definition read_cmc_data d : M W (pydict pyval) :=
  match dget "cmc_data" d with
  | Some v => dd ← as_dict v; c ← CMCData_from_dict dd; mret (dset "cmc_data" (VModel "CMCData" c) d)
  | None => mret d
  end.

Definition read_seal d : M W (pydict pyval) :=
  match dget "vds_nc_barcode" d with
  | Some v =>
      if val_truthy v
      then dd ← as_dict v; b ← read_barcode dd; mret (dset "vds_nc_barcode" (VModel "VDSNCBarcode" b) d)
      else mret d
  | None => mret d
  end.

Definition read_cmc_groups d : M W (pydict pyval) :=
  match dget "data_groups" d with
  | Some v => gs ← as_dict v; gs ← read_groups gs; mret (dset "data_groups" (VDict gs) d)
  | None => mret d
  end.

Definition CMCCertificate_from_dict d : M W (pydict pyval) :=
  d ← read_cmc_data (camel_to_snake_dict d);
  d ← read_seal d;
  d ← read_cmc_groups d;
  construct CMCCertificate d.
End cmc.

(** ** Canonical data *)

(** An object whose fields have names of their own, and whose values are dumped to
    dictionaries with distinct keys, as those of Python have. *)
Definition distinct_object (o : pydict pyval) : Prop := dwf o /\ forallb (fun kv => distinct (dump (snd kv))) o = true.

Lemma unsigned_get k o : dget k (unsigned o) = if String.eqb k "signature" then None else dump <$> dget k o.
Proof.
  unfold unsigned, model_dump. induction o as [|[k' v] o IH]; [by destruct (String.eqb k "signature")|]. simpl.
  destruct (String.eqb_spec k' "signature") as [->|Hne]; simpl; rewrite IH.
  - by destruct (String.eqb_spec k "signature").
  - destruct (String.eqb_spec k k') as [->|]; [|done]. by destruct (String.eqb_spec k' "signature").
Qed.

Lemma unsigned_keys o : dkeys (unsigned o) = lfilter (fun k => negb (String.eqb k "signature")) (dkeys o).
Proof.
  unfold unsigned. rewrite model_dump_keys. unfold dkeys. induction o as [|[k v] o IH]; [done|]. simpl.
  destruct (String.eqb k "signature"); simpl; by rewrite IH.
Qed.

Lemma unsigned_distinct o : distinct_object o -> dwf (unsigned o) /\ distinct (VDict (unsigned o)) = true.
Proof.
  intros [Hwf Hd]. assert (dwf (unsigned o)) as Hu.
  { unfold dwf in *. rewrite unsigned_keys. revert Hwf. generalize (dkeys o) as l. induction l as [|k l IH]; simpl; [done|].
    intros [Hni Hnd]%NoDup_cons. destruct (String.eqb k "signature"); simpl; [by apply IH|]. apply NoDup_cons. split; [|by apply IH].
    rewrite list_elem_of_In in *. intros [Hin _]%filter_In. by apply Hni. }
  split; [done|]. cbn [distinct]. apply andb_true_iff. split; [by apply bool_decide_eq_true|].
  rewrite forallb_forall in *. intros [k v] Hin. unfold unsigned, model_dump in Hin. apply in_map_iff in Hin as ([k' v'] & [= <- <-] & Hin).
  apply filter_In in Hin as [Hin _]. exact (Hd _ Hin).
Qed.


(** ** Verification *)

Definition seal_matches (o : pydict pyval) : Prop :=
  exists cls barcode number surname,
    dget "vds_nc_barcode" o = Some (VModel cls barcode) /\
    dget "document_number" (cmc_data o) = Some (VStr number) /\
    dget "surname" (cmc_data o) = Some (VStr surname) /\
    equals_str number (dget "document_number" (dict_items (attr "cmc_data" barcode))) = true /\
    equals_str surname (dget "surname" (dict_items (attr "cmc_data" barcode))) = true.

Lemma mismatch_false name payload data : mismatch name payload data = false <->
  exists s, dget name data = Some (VStr s) /\ equals_str s (dget name payload) = true.
Proof.
  unfold mismatch. split.
  - intros Hm. destruct (dget name data) as [[]|]; try discriminate. exists s. by apply negb_false_iff in Hm.
  - by intros (s & -> & ->).
Qed.

Lemma seal_warning o :
  snd (_verify_vds_nc_security o) = "CMC VDS-NC verification requires a trusted issuer key" <-> seal_matches o.
Proof.
  unfold _verify_vds_nc_security, seal_matches. destruct (dget "vds_nc_barcode" o) as [v|].
  2: { split; [discriminate|]. by intros (? & ? & ? & ? & ? & _). }
  destruct v as [| | | | | | | | | | |cls b]; try (split; [discriminate|]; by intros (? & ? & ? & ? & ? & _)).
  set (payload := dict_items (attr "cmc_data" b)).
  destruct (mismatch "document_number" payload (cmc_data o)) eqn:E1.
  { split; [discriminate|]. intros (c' & b' & n & s & [= <- <-] & Hn & _ & Hm & _).
    rewrite (proj2 (mismatch_false _ _ _)) in E1; [done|by exists n]. }
  destruct (mismatch "surname" payload (cmc_data o)) eqn:E2.
  { split; [discriminate|]. intros (c' & b' & n & s & [= <- <-] & _ & Hs & _ & Hm).
    rewrite (proj2 (mismatch_false _ _ _)) in E2; [done|by exists s]. }
  split; [intros _|done]. apply mismatch_false in E1 as (n & ? & ?), E2 as (s & ? & ?). by exists cls, b, n, s.
Qed.

Lemma verdict_negative o : fst (verify_certificate o) = false.
Proof.
  unfold verify_certificate, _verify_chip_security, _verify_vds_nc_security. by repeat case_match.
Qed.

(** No certificate is verified, and the warning says how far the verification
    came: only a certificate with a TD-1 zone and a seal whose payload has the
    printed document number and surname lacks nothing but a trusted key. *)
Theorem cmc_verification_fails_closed (o : pydict pyval) :
  fst (verify_certificate o) = false /\
  (snd (verify_certificate o) = "CMC VDS-NC verification requires a trusted issuer key" <->
   field_text "td1_mrz" o <> None /\ uses_chip_security o = false /\ uses_vds_nc_security o = true /\
   seal_matches o).
Proof.
  split; [apply verdict_negative|]. unfold verify_certificate.
  destruct (field_text "td1_mrz" o) as [mrz|]; [|split; [discriminate|by intros [? _]]].
  destruct (uses_chip_security o).
  { unfold _verify_chip_security. destruct (field_text "security_object" o); (split; [discriminate|by intros (_ & ? & _)]). }
  destruct (uses_vds_nc_security o); [|split; [discriminate|by intros (_ & _ & ? & _)]].
  rewrite seal_warning. split; [by intros Hs|by intros (_ & _ & _ & Hs)].
Qed.

(** ** Conversions *)

(** A UUID is read from its text. *)
Class UuidText `{Pydantic} := {
  coerce_uuid hex : has_type TUUID (VUUID hex) = true -> coerce TUUID (VStr (uuid_str hex)) = Some (VUUID hex) }.

(** Strict validation, except that a UUID may be given as a text. *)
#[local] Instance lax : Pydantic := {
  coerce t v := if has_type t v then Some v
                else match t, v with
                     | TUUID, VStr s => match UUID s with Ok u => Some u | Raise _ => None end
                     | _, _ => None
                     end }.
#[local] Instance lax_laws : @PydanticLaws lax.
Proof.
  split; simpl.
  - by intros t v ->.
  - intros t v v'. destruct (has_type t v) eqn:E; [by intros [= <-]|]. destruct t, v; try done.
    unfold UUID, parse_uuid. destruct (uuid_hex (uuid_digits s)) eqn:Eu; [by intros [= <-]|done].
Qed.
#[local] Instance lax_uuid : @UuidText lax.
Proof. split. intros hex Hx. cbn [coerce lax has_type]. by rewrite UUID_str. Qed.

Section conversions.
Context {W : Type} `{Env W, PydanticLaws, !UuidText, !UuidLaws, IsoFormats, CaseMapping}.

Lemma time_checks : checks validate_time_format.
Proof. intros data v v'. unfold validate_time_format, six_digits. repeat case_match; try done; by intros [= <-]. Qed.
#[local] Hint Resolve time_checks : checks.
#[local] Hint Extern 1 (checks validate_face_image) => exact (validate_base64_checks _) : checks.

Lemma CMCData_settled : settled_codes (@CMCData W _).
Proof. settle. Qed.
Lemma CMCTD1MRZData_settled : settled_codes (@CMCTD1MRZData W _).
Proof. settle. Qed.
Lemma VDSNCBarcode_settled : settled_codes (@VDSNCBarcode W _).
Proof. settle. Qed.
Lemma CMCCertificate_settled : settled_codes (@CMCCertificate W _).
Proof.
  apply Forall_cons_2; [|settle]. apply settled_always, settled_checks; [by apply Forall_nil_2|].
  cbn [f_default f_type f_validators]. intros make data w v w' [= <-]. by apply fresh_uuid_typed.
Qed.

Lemma CMCData_names : NoDup (names (@CMCData W _)).
Proof. apply (bool_decide_unpack _). vm_compute. exact I. Qed.

(** The dates of a crew member. *)
Lemma cmc_data_dates o : valid_object (@CMCData W _) o ->
  exists b e, date_field o "date_of_birth" b /\ date_field o "date_of_expiry" e /\ b <= e.
Proof.
  intros Hv. pose proof CMCData_names as Hnd.
  destruct (valid_field _ _ 5 _ Hv Hnd eq_refl) as (v5 & b5 & H5' & T5 & _ & _).
  destruct (valid_field _ _ 7 _ Hv Hnd eq_refl) as (v7 & b7 & H7' & T7 & R7 & D7).
  simpl in H5', H7'. apply date_typed in T5 as (b & -> & Hb), T7 as (e & -> & He).
  specialize (D7 "date_of_birth"). rewrite H5' in D7. simpl in R7. unfold validate_expiry_date in R7.
  rewrite D7 in R7 by (simpl; tauto). exists b, e. split; [done|]. split; [done|].
  destruct (Z.ltb_spec e b); [done|lia].
Qed.

Lemma cmc_data_back o (w : W) : valid_object (@CMCData W _) o ->
  CMCData_from_dict (CMCData_to_dict o) w = (Ok (encode_bytes "face_image" o), w).
Proof.
  intros Hv. destruct (cmc_data_dates o Hv) as (b & e & [Hb Vb] & [He Ve] & _).
  pose proof (valid_keys _ _ _ Hv) as Hk. unfold CMCData_to_dict, CMCData_from_dict.
  rewrite model_dump_id by (by apply (valid_no_models (@CMCData W _) [])).
  set (o' := encode_bytes "face_image" o). assert (Hk' : dkeys o' = names (@CMCData W _)).
  { unfold o'. by rewrite encode_bytes_keys. }
  assert (Hget : forall k, k <> "face_image" -> dget k o' = dget k o).
  { intros k Hne. unfold o', encode_bytes. destruct (dget "face_image" o) as [[]|]; try done. by rewrite dget_dset_ne. }
  rewrite keys_roundtrip by (rewrite !encode_date_keys, Hk'; vm_compute; reflexivity).
  destruct (decode_dates "date_of_birth" "date_of_expiry" o' b e) as (d1 & d2 & E1 & E2 & Hkd & Hd);
    [done|by split; [rewrite Hget|]|by split; [rewrite Hget|]|].
  unfold mbind, M_bind, lift. rewrite E1. cbn beta iota. rewrite E2. cbn beta iota.
  apply construct_self; [apply CMCData_names| |done|by rewrite Hkd].
  apply (encode_last_valid (take 12 CMCData) "face_image" "Face image must be base64 encoded"); [done|apply CMCData_names].
Qed.

(** A seal whose payload holds no models. *)
Definition plain_seal (b : pydict pyval) : Prop := valid_object (@VDSNCBarcode W _) b /\ forallb (fun kv => no_models (snd kv)) b = true.

Lemma barcode_back b (w : W) : plain_seal b -> read_barcode (model_to_dict b) w = (Ok b, w).
Proof. intros [Hb Hn]. apply flat_roundtrip; [vm_compute; reflexivity|done..]. Qed.

Definition td1_of (o : pydict pyval) : pydict pyval := [
  ("document_type", VStr "I"); ("issuing_country", attr "issuing_country" o);
  ("document_number", attr "document_number" o); ("surname", attr "surname" o);
  ("given_names", attr "given_names" o); ("nationality", attr "nationality" o);
  ("date_of_birth", short_date "date_of_birth" o); ("gender", attr "gender" o);
  ("date_of_expiry", short_date "date_of_expiry" o); ("optional_data", attr "crew_id" o)].

Lemma td1_of_valid o : valid_object (@CMCData W _) o -> valid_object (@CMCTD1MRZData W _) (td1_of o).
Proof.
  intros Hv. pose proof CMCData_names as Hnd.
  destruct (cmc_data_dates o Hv) as (b & e & [Hb _] & [He _] & _).
  assert (Hf : forall n f, nth_error (@CMCData W _) n = Some f -> has_type (f_type f) (attr (f_name f) o) = true /\
    exists data, run_validators (f_validators f) data (attr (f_name f) o) = Ok (attr (f_name f) o)).
  { intros n f Hn. by eapply valid_field_or. }
  unfold td1_of, short_date. rewrite Hb, He.
  repeat (constructor; [| |]); simpl;
    first [ apply (Hf 0%nat _ eq_refl) | apply (Hf 1%nat _ eq_refl) | apply (Hf 2%nat _ eq_refl)
          | apply (Hf 3%nat _ eq_refl) | apply (Hf 4%nat _ eq_refl) | apply (Hf 6%nat _ eq_refl)
          | apply (Hf 9%nat _ eq_refl) | by rewrite yymmdd_six | done | by constructor
          | destruct (proj2 (Hf 1%nat _ eq_refl)) as [data Hd]; exact Hd
          | destruct (proj2 (Hf 4%nat _ eq_refl)) as [data Hd]; exact Hd ].
Qed.

(** The TD-1 zone of a crew member can always be made, carries the crew
    identification as optional data, and survives its dictionary form. *)
Theorem td1_always_made kwargs (w w' w1 : W) o :
  construct CMCData kwargs w = (Ok o, w') -> stable_countries o ->
  exists m, to_td1_mrz_data o w1 = (Ok m, w1) /\ CMCTD1MRZData_from_dict (model_to_dict m) w1 = (Ok m, w1) /\
    dget "document_type" m = Some (VStr "I") /\ dget "optional_data" m = dget "crew_id" o.
Proof.
  intros Hc Hst. apply construct_stable in Hc; [|apply CMCData_settled|done]. exists (td1_of o).
  pose proof (td1_of_valid o Hc) as Hv.
  split_and!; [|by apply flat_roundtrip; [vm_compute; reflexivity| |apply (valid_no_models (@CMCTD1MRZData W _) [])]|done|].
  - apply construct_self; [apply (bool_decide_unpack _); vm_compute; exact I|done..].
  - destruct (valid_field _ _ 9 _ Hc CMCData_names eq_refl) as (v & _ & Hg & _). simpl in Hg.
    change (dget "optional_data" (td1_of o)) with (Some (attr "crew_id" o)). unfold attr. by rewrite Hg.
Qed.

Lemma cmc_fields o : valid_object (@CMCCertificate W _) o ->
  exists u cd mrz so bar chip gs rec keep free,
    o = [("id", VUUID u); ("cmc_data", VModel "CMCData" cd); ("td1_mrz", mrz); ("security_object", so);
         ("vds_nc_barcode", bar); ("chip_content", chip); ("data_groups", VDict gs); ("electronic_record_id", rec);
         ("issuer_record_keeping", keep); ("visa_free_entry_eligible", free)] /\
    has_type TUUID (VUUID u) = true /\ has_type (optional TStr) mrz = true /\ has_type (optional TStr) so = true /\
    (bar = VNone \/ exists b, bar = VModel "VDSNCBarcode" b) /\
    has_type photo_type chip = true /\ (exists data, validate_chip_content data chip = Ok chip) /\
    has_type (TDict (TModel "DataGroup")) (VDict gs) = true /\ has_type (optional TStr) rec = true /\
    has_type TBool keep = true /\ has_type TBool free = true.
Proof.
  intros Hv. inversion Hv as [|? ? ? v1 r1 T1 R1 V1]; subst. inversion V1 as [|? ? ? v2 r2 T2 R2 V2]; subst.
  inversion V2 as [|? ? ? v3 r3 T3 R3 V3]; subst. inversion V3 as [|? ? ? v4 r4 T4 R4 V4]; subst.
  inversion V4 as [|? ? ? v5 r5 T5 R5 V5]; subst. inversion V5 as [|? ? ? v6 r6 T6 R6 V6]; subst.
  inversion V6 as [|? ? ? v7 r7 T7 R7 V7]; subst. inversion V7 as [|? ? ? v8 r8 T8 R8 V8]; subst.
  inversion V8 as [|? ? ? v9 r9 T9 R9 V9]; subst. inversion V9 as [|? ? ? v10 r10 T10 R10 V10]; subst.
  inversion V10; subst. clear - T1 T2 T3 T4 T5 T6 R6 T7 T8 T9 T10.
  cbn [f_type f_validators required with_default] in *.
  destruct v1 as [| | | | | | | |u| | |]; try done. destruct v7 as [| | | | | | | | | |gs|]; try done.
  destruct v2 as [| | | | | | | | | | |c cd]; try done. cbn [has_type] in T2. apply String.eqb_eq in T2 as <-.
  exists u, cd, v3, v4, v5, v6, gs, v8, v9, v10. split_and!; try done.
  - destruct v5 as [| | | | | | | | | | |c b]; try done; [by left|]. right. exists b. cbn [has_type optional] in T5.
    rewrite orb_false_r in T5. by apply String.eqb_eq in T5 as <-.
  - cbn [run_validators] in R6. destruct (validate_chip_content _ v6) as [v|] eqn:E; [|done].
    eexists. rewrite E. exact R6.
Qed.

(** A field that is given the value, or left out when the value is its default. *)
Definition supplies (k : pydict pyval) (name : string) (v : pyval) : Prop :=
  dget name k = Some v \/ dget name k = None /\ v = VNone.

Lemma process_supplied name t gs fs k data errors v (w : W) : supplies k name v -> has_type t v = true ->
  run_validators gs data v = Ok v ->
  process (with_default name t VNone gs :: fs) k data errors w = process fs k (data ++ [(name, v)]) errors w.
Proof.
  intros [Hg|[Hg ->]] Ht Hr; [by apply (process_given (with_default name t VNone gs))|].
  by eapply (process_default (with_default name t VNone gs)).
Qed.

Lemma cmc_constructed u cd mrz so bar chip gs rec keep free (k : pydict pyval) (w : W) :
  let o := [("id", VUUID u); ("cmc_data", VModel "CMCData" cd); ("td1_mrz", mrz); ("security_object", so);
            ("vds_nc_barcode", bar); ("chip_content", chip); ("data_groups", VDict gs); ("electronic_record_id", rec);
            ("issuer_record_keeping", keep); ("visa_free_entry_eligible", free)] in
  forallb (fun n => mem n (names (@CMCCertificate W _))) (dkeys k) = true ->
  has_type TUUID (VUUID u) = true -> has_type (optional TStr) mrz = true -> has_type (optional TStr) so = true ->
  has_type (optional (TModel "VDSNCBarcode")) bar = true -> has_type photo_type chip = true ->
  (forall data, validate_chip_content data chip = Ok chip) -> has_type (TDict (TModel "DataGroup")) (VDict gs) = true ->
  has_type (optional TStr) rec = true -> has_type TBool keep = true -> has_type TBool free = true ->
  dget "id" k = Some (VStr (uuid_str u)) -> supplies k "vds_nc_barcode" bar -> supplies k "chip_content" chip ->
  (forall n, In n ["cmc_data"; "td1_mrz"; "security_object"; "data_groups"; "electronic_record_id";
                   "issuer_record_keeping"; "visa_free_entry_eligible"] -> dget n k = dget n o) ->
  construct CMCCertificate k w = (Ok o, w).
Proof.
  intros o Hk Hu Hm Hs Hb Hc Hcv Hg Hr Hkeep Hfree Hid Hbar Hchip Hrest. unfold construct. rewrite Hk.
  unfold CMCCertificate.
  rewrite (process_coerced _ _ _ _ _ (VStr (uuid_str u)) (VUUID u)); [|exact Hid|exact (coerce_uuid u Hu)|done].
  rewrite (process_given _ _ _ _ _ (VModel "CMCData" cd)) by (done || (apply Hrest; simpl; tauto)).
  rewrite (process_given _ _ _ _ _ mrz); [|apply Hrest; simpl; tauto|exact Hm|done].
  rewrite (process_given _ _ _ _ _ so); [|apply Hrest; simpl; tauto|exact Hs|done].
  rewrite (process_supplied _ _ _ _ _ _ _ bar) by done.
  rewrite (process_supplied _ _ _ _ _ _ _ chip); [|done..|by cbn [run_validators]; rewrite Hcv].
  rewrite (process_given _ _ _ _ _ (VDict gs)); [|apply Hrest; simpl; tauto|exact Hg|done].
  rewrite (process_given _ _ _ _ _ rec); [|apply Hrest; simpl; tauto|exact Hr|done].
  rewrite (process_given _ _ _ _ _ keep); [|apply Hrest; simpl; tauto|exact Hkeep|done].
  rewrite (process_given _ _ _ _ _ free); [|apply Hrest; simpl; tauto|exact Hfree|done]. done.
Qed.

(** The dictionary of a certificate, with the names of its fields. *)
Lemma cmc_dict_names i c t s g e k f (bar chip : option pyval) :
  camel_to_snake_dict ([("id", i); ("cmcData", c); ("td1Mrz", t); ("securityObject", s); ("dataGroups", g);
    ("electronicRecordId", e); ("issuerRecordKeeping", k); ("visaFreeEntryEligible", f)] ++
    match bar with Some b => [("vdsNcBarcode", b)] | None => [] end ++
    match chip with Some h => [("chipContent", h)] | None => [] end) =
  [("id", i); ("cmc_data", c); ("td1_mrz", t); ("security_object", s); ("data_groups", g);
    ("electronic_record_id", e); ("issuer_record_keeping", k); ("visa_free_entry_eligible", f)] ++
    match bar with Some b => [("vds_nc_barcode", b)] | None => [] end ++
    match chip with Some h => [("chip_content", h)] | None => [] end.
Proof. destruct bar, chip; vm_compute; reflexivity. Qed.

Lemma chip_entry_option o : has_type photo_type (attr "chip_content" o) = true ->
  exists h, chip_entry o = match h with Some v => [("chipContent", v)] | None => [] end /\
    (h = Some (chip_text (attr "chip_content" o)) \/ h = None /\ chip_text (attr "chip_content" o) = VNone).
Proof.
  unfold chip_entry. intros Ht. apply photo_typed in Ht. unfold attr in *.
  destruct (dget "chip_content" o) as [v|]; simpl in *; [|by exists None; split; [|right]].
  destruct Ht as [[s ->]|[[bs ->]| ->]].
  - destruct s; [by exists None; split; [|right]|by eexists (Some _); split; [|left]].
  - destruct bs; [by exists None; split; [|right]|by eexists (Some _); split; [|left]].
  - by exists None; split; [|right].
Qed.

Lemma bind_run {A B} (m : M W A) (f : A -> M W B) (w : W) a w' :
  m w = (Ok a, w') -> (a ← m; f a) w = f a w'.
Proof. intros Hm. unfold mbind, M_bind. by rewrite Hm. Qed.

Lemma read_cmc_data_run d dd c (w : W) : dget "cmc_data" d = Some (VDict dd) -> CMCData_from_dict dd w = (Ok c, w) ->
  read_cmc_data d w = (Ok (dset "cmc_data" (VModel "CMCData" c) d), w).
Proof. intros Hd Hc. unfold read_cmc_data. rewrite Hd. cbn [as_dict]. unfold mbind, M_bind, mret, M_ret. by rewrite Hc. Qed.

Lemma read_cmc_groups_run d gs (w : W) :
  dget "data_groups" d = Some (VDict (map (fun kv => (fst kv, VDict (model_dump (model_fields (snd kv))))) gs)) ->
  Forall (data_group_ok (W:=W)) gs -> read_cmc_groups d w = (Ok (dset "data_groups" (VDict (map dumped_group gs)) d), w).
Proof.
  intros Hd Hgs. unfold read_cmc_groups. rewrite Hd. cbn [as_dict]. unfold mbind, M_bind, mret, M_ret.
  by rewrite read_groups_back.
Qed.

(** The seal of a dictionary that has the one of [bar], if any. *)
Lemma read_seal_run d bar (w : W) :
  match bar with
  | VModel _ b => dget "vds_nc_barcode" d = Some (VDict (model_to_dict b))
  | _ => dget "vds_nc_barcode" d = None /\ bar = VNone
  end ->
  (forall c b, bar = VModel c b -> c = "VDSNCBarcode" /\ plain_seal b) ->
  exists d', read_seal d w = (Ok d', w) /\ supplies d' "vds_nc_barcode" bar /\
    (forall n, n <> "vds_nc_barcode" -> dget n d' = dget n d) /\ dkeys d' = dkeys d.
Proof.
  intros Hd Hb. unfold read_seal.
  destruct bar as [| | | | | | | | | | |c b]; try (by destruct Hd).
  - destruct Hd as [Hd _]. rewrite Hd. exists d. split; [done|]. split; [by right|done].
  - destruct (Hb c b eq_refl) as [-> Hseal]. pose proof (proj1 Hseal) as Hv. rewrite Hd.
    assert (Ht : val_truthy (VDict (model_to_dict b)) = true).
    { destruct (model_to_dict b) eqn:E; [|done]. apply (f_equal camel_to_snake_dict) in E.
      pose proof (valid_keys _ _ _ Hv) as Hk. unfold model_to_dict in E. rewrite (model_dump_id b (proj2 Hseal)), keys_roundtrip in E by (by rewrite Hk).
      by rewrite E in Hk. }
    rewrite Ht. cbn [as_dict]. unfold mbind, M_bind, mret, M_ret. rewrite barcode_back by done.
    exists (dset "vds_nc_barcode" (VModel "VDSNCBarcode" b) d). split; [done|].
    split; [left; apply dget_dset_eq|]. split; [intros n Hn; by apply dget_dset_ne, not_eq_sym|].
    apply dkeys_dset_in. apply dget_In in Hd. by apply (in_map fst) in Hd.
Qed.

(** A certificate is the same after its conversion to a dictionary and back,
    its seal and data groups included; an image or chip content in bytes becomes
    its Base64 text, empty chip content is lost, and models in the data of a group
    become dictionaries. *)
Theorem cmc_roundtrip kwargs kwargs' (w w' w2 w2' w1 : W) cd o :
  construct CMCData kwargs w = (Ok cd, w') -> stable_countries cd -> construct CMCCertificate kwargs' w2 = (Ok o, w2') ->
  dget "cmc_data" o = Some (VModel "CMCData" cd) ->
  (forall b, dget "vds_nc_barcode" o = Some (VModel "VDSNCBarcode" b) -> plain_seal b) ->
  Forall (data_group_ok (W:=W)) (dict_items (attr "data_groups" o)) ->
  CMCCertificate_from_dict (CMCCertificate_to_dict o) w1 =
    (Ok (dset "data_groups" (VDict (map dumped_group (dict_items (attr "data_groups" o))))
          (dset "chip_content" (chip_text (attr "chip_content" o))
            (dset "cmc_data" (VModel "CMCData" (encode_bytes "face_image" cd)) o))), w1).
Proof.
  intros Hc Hst Ho Hcd Hbar Hgs. apply construct_stable in Hc; [|apply CMCData_settled|done].
  pose proof (construct_made _ _ _ _ _ Ho) as Hmade. apply construct_stable in Ho; [|apply CMCCertificate_settled|by apply (no_countries _ _ Hmade)].
  destruct (cmc_fields o Ho) as (u & cd' & mrz & so & bar & chip & gs & rec & keep & free & -> & Hu & Hm & Hs & Hb &
    Hch & (data & Hcv) & Hg & Hr & Hk & Hf).
  change (Some (VModel "CMCData" cd') = Some (VModel "CMCData" cd)) in Hcd. injection Hcd as ->.
  change (Forall (data_group_ok (W:=W)) gs) in Hgs. change (attr "chip_content" _) with chip.
  change (forall b, Some bar = Some (VModel "VDSNCBarcode" b) -> plain_seal b) in Hbar.
  destruct (chip_text_ok chip data Hch Hcv) as [Hct Hcv'].
  set (o := [("id", VUUID u); _; _; _; _; _; _; _; _; _]).
  destruct (chip_entry_option o Hch) as (h & Hh & Hchip). change (attr "chip_content" o) with chip in Hchip.
  set (sb := match bar with VModel _ b => Some (VDict (model_to_dict b)) | _ => None end).
  assert (Hsb : barcode_entry o = match sb with Some b => [("vdsNcBarcode", b)] | None => [] end).
  { unfold sb. destruct Hb as [->|[b ->]]; reflexivity. }
  unfold CMCCertificate_from_dict, CMCCertificate_to_dict. rewrite Hh, Hsb, cmc_dict_names.
  set (d := [("id", _); _; _; _; _; _; _; _] ++ _). set (cd' := encode_bytes "face_image" cd).
  rewrite (bind_run _ _ _ _ _ (read_cmc_data_run d (CMCData_to_dict cd) cd' w1 eq_refl (cmc_data_back cd w1 Hc))).
  set (d1 := dset "cmc_data" _ d).
  destruct (read_seal_run d1 bar w1) as (d2 & Hseal & Hbar2 & Hget2 & Hkeys2);
    [by unfold d1, d, sb; destruct Hb as [->|[b ->]]; destruct h| |].
  { intros c b ->. destruct Hb as [?|[b' [= -> ->]]]; [done|]. split; [done|by apply Hbar]. }
  rewrite (bind_run _ _ _ _ _ Hseal).
  rewrite (bind_run _ _ _ _ _ (read_cmc_groups_run d2 gs w1 ltac:(by rewrite Hget2) Hgs)).
  assert (Hget3 : forall n, n <> "data_groups" -> n <> "vds_nc_barcode" ->
    dget n (dset "data_groups" (VDict (map dumped_group gs)) d2) = dget n d1).
  { intros n Hn1 Hn2. by rewrite dget_dset_ne, Hget2 by congruence. }
  apply (cmc_constructed u cd' mrz so bar (chip_text chip) (map dumped_group gs) rec keep free); try done.
  - rewrite dkeys_dset_in by (rewrite Hkeys2; simpl; tauto). rewrite Hkeys2. by destruct sb, h.
  - by destruct Hb as [->|[b ->]].
  - apply dumped_groups_typed.
  - by rewrite Hget3.
  - unfold supplies in *. by rewrite dget_dset_ne.
  - unfold supplies. rewrite Hget3 by done. destruct Hchip as [->|[-> ->]]; [left|right]; unfold d1, d; by destruct sb.
  - intros n Hn. destruct (String.eqb_spec n "data_groups") as [->|Hne]; [apply dget_dset_eq|].
    rewrite Hget3; [|done|]; repeat (destruct Hn as [<-|Hn]; [done|]); by destruct Hn.
Qed.
End conversions.

(** ** Examples *)

Module Demo.
Import Passport.Demo.
Local Existing Instances lax lax_laws lax_uuid.

Definition built (fs : list (field unit)) (kwargs : pydict pyval) : pydict pyval :=
  match fst (construct fs kwargs tt) with Ok o => o | Raise _ => [] end.

Definition crew_kwargs : pydict pyval := [
  ("document_number", VStr "CMC123456"); ("issuing_country", VStr "usa"); ("surname", VStr "SMITH");
  ("given_names", VStr "JOHN"); ("nationality", VStr "USA"); ("date_of_birth", VDate (day_of "1985-05-15"));
  ("gender", VEnum "Gender" "M"); ("date_of_expiry", VDate (day_of "2030-12-31")); ("crew_id", VStr "A1");
  ("security_model", VDS_NC); ("face_image", face)].
Definition crew : pydict pyval := built CMCData crew_kwargs.

Definition seal_kwargs (payload : pydict pyval) (signature : string) : pydict pyval := [
  ("header", VStr "DC03"); ("issuing_country", VStr "USA"); ("certificate_reference", VStr "US01");
  ("signature_creation_date", VStr "250101"); ("cmc_data", VDict payload); ("signature", VStr signature)].
Definition payload : pydict pyval := [
  ("document_number", VStr "CMC123456"); ("surname", VStr "SMITH"); ("flags", VDict [("a", VInt 1); ("b", VNone)])].
Definition payload' : pydict pyval := [
  ("surname", VStr "SMITH"); ("document_number", VStr "CMC123456"); ("flags", VDict [("b", VNone); ("a", VInt 1)])].
Definition seal (p : pydict pyval) (signature : string) : pydict pyval := built VDSNCBarcode (seal_kwargs p signature).

Lemma crew_made : construct CMCData crew_kwargs tt = (Ok crew, tt).
Proof. vm_compute. reflexivity. Qed.
Lemma crew_stable : stable_countries crew.
Proof. apply stable_checked. vm_compute. reflexivity. Qed.
Lemma seal_made : construct VDSNCBarcode (seal_kwargs payload "sig") tt = (Ok (seal payload "sig"), tt).
Proof. vm_compute. reflexivity. Qed.

(** The payload in another order and another signature do not matter; another number does. *)
Lemma payload_reordered : reordered (VDict payload) (VDict payload').
Proof.
  eapply reordered_trans with (VDict [("surname", VStr "SMITH"); ("document_number", VStr "CMC123456");
    ("flags", VDict [("a", VInt 1); ("b", VNone)])]).
  - apply reordered_order; [apply (bool_decide_unpack _); vm_compute; exact I|]. apply Permutation_swap.
  - apply (reordered_entry [("surname", VStr "SMITH"); ("document_number", VStr "CMC123456")] "flags" _ _ []).
    apply reordered_order; [apply (bool_decide_unpack _); vm_compute; exact I|]. apply Permutation_swap.
Qed.

Definition forged : pydict pyval := [("document_number", VStr "CMC123457"); ("surname", VStr "SMITH")].

Lemma seals_distinct : distinct_object (seal payload "sig") /\ distinct_object (seal payload' "other") /\ distinct_object (seal forged "sig").
Proof. split_and!; (split; [apply (bool_decide_unpack _); vm_compute; exact I|by vm_compute]). Qed.


Example canonical_text : _get_canonical_data (seal payload' "other") = Ok (chars
  (fun c => if Ascii.eqb c quote1 then String quote2 "" else String c "")
  ("{'certificate_reference':'US01','cmc_data':{'document_number':'CMC123456','flags':{'a':1,'b':null}," +:+
   "'surname':'SMITH'},'header':'DC03','issuing_country':'USA','message_type':'CMC'," +:+
   "'signature_algorithm':'ES256','signature_creation_date':'250101','signature_creation_time':null}")).
Proof. vm_compute. reflexivity. Qed.

Lemma td1_always_made_witness :
  exists m, to_td1_mrz_data crew tt = (Ok m, tt) /\ CMCTD1MRZData_from_dict (model_to_dict m) tt = (Ok m, tt) /\
    dget "document_type" m = Some (VStr "I") /\ dget "optional_data" m = dget "crew_id" crew.
Proof. exact (td1_always_made crew_kwargs tt tt tt crew crew_made crew_stable). Defined.

Definition certificate_kwargs : pydict pyval := [
  ("cmc_data", VModel "CMCData" crew); ("td1_mrz", VStr "I<USA");
  ("vds_nc_barcode", VModel "VDSNCBarcode" (seal payload "sig")); ("chip_content", VBytes [])].
Definition certificate : pydict pyval := built CMCCertificate certificate_kwargs.

Lemma certificate_made : construct CMCCertificate certificate_kwargs tt = (Ok certificate, tt).
Proof. vm_compute. reflexivity. Qed.
Lemma certificate_crew : dget "cmc_data" certificate = Some (VModel "CMCData" crew).
Proof. vm_compute. reflexivity. Qed.
Lemma certificate_seal b : dget "vds_nc_barcode" certificate = Some (VModel "VDSNCBarcode" b) -> b = seal payload "sig".
Proof. vm_compute. by intros [= <-]. Qed.
Lemma certificate_groups : dict_items (attr "data_groups" certificate) = [].
Proof. vm_compute. reflexivity. Qed.

Lemma cmc_roundtrip_witness :
  CMCCertificate_from_dict (CMCCertificate_to_dict certificate) tt =
    (Ok (dset "data_groups" (VDict (map dumped_group (dict_items (attr "data_groups" certificate))))
          (dset "chip_content" (chip_text (attr "chip_content" certificate))
            (dset "cmc_data" (VModel "CMCData" (encode_bytes "face_image" crew)) certificate))), tt).
Proof.
  apply (cmc_roundtrip crew_kwargs certificate_kwargs tt tt tt tt tt crew certificate
    crew_made crew_stable certificate_made certificate_crew).
  - intros b Hb. rewrite (certificate_seal b Hb).
    split; [|vm_compute; reflexivity]. apply (construct_stable VDSNCBarcode _ tt (seal payload "sig") tt VDSNCBarcode_settled seal_made).
    apply stable_checked. vm_compute. reflexivity.
  - rewrite certificate_groups. apply Forall_nil_2.
Defined.

(** The seal has the printed number and surname: only the trusted key lacks. *)
Example matching_seal :
  verify_certificate certificate = (false, "CMC VDS-NC verification requires a trusted issuer key").
Proof. vm_compute. reflexivity. Qed.

Example no_groups_without_chip : add_cmc_group photo_group certificate =
  Raise (value_error "Data groups only supported for chip-based security model").
Proof. vm_compute. reflexivity. Qed.
End Demo.
