(* ===== verification/WebMiddleware.v ===== *)
(** * Web middleware ([web_middleware.py], first part)

    Requests and responses, the middlewares that stamp, secure and cache
    responses or take the user from the gateway's headers, and the checks routes
    make on that user. [Idempotency.v] has the idempotency middleware. *)

From S2P Require Import Prelude PyRuntime PyText PyBytes PyDate PyInt.
Local Open Scope Z_scope.

(** ** Requests and responses *)

Record user := {
  user_id : string; organization_id : option string; email : option string; roles : list string }.

(** The attributes of [request.state]; one that is not set is like [None]. *)
Record req_state := {
  st_request_id : option string;
  st_user_id : option string;
  st_organization_id : option string;
  st_user_email : option string;
  st_user_roles : list string;
  st_user : option user }.

(** [header]: [request.headers.get], whose names are not case-sensitive. *)
Record request := {
  method : string; path : string; query : string;
  header : string -> option string;
  body : bytes;
  state : req_state }.

(** What a body iterator yields, and the exception it ends with, if any. *)
Inductive content :=
| Body (bs : bytes)
| Stream (chunks : list (bytes + string)) (failure : option exn)
| Json (j : json).

(** [headers]: the names, in lower case, with their values; of a name that
    occurs twice the first value is read. *)
Record response := Response {
  status_code : Z; headers : pydict string; media_type : option string; contents : content }.

Definition response_header (name : string) (r : response) : option string := dget (str_lower name) (headers r).
Definition set_header (name value : string) (r : response) : response :=
  Response (status_code r) (dset (str_lower name) value (headers r)) (media_type r) (contents r).
Definition with_state (s : req_state) (r : request) : request :=
  {| method := method r; path := path r; query := query r; header := header r; body := body r; state := s |}.

Definition chunk_bytes (c : bytes + string) : bytes := match c with inl bs => bs | inr s => utf8 s end.

(** [200 <= status < 300] *)
Definition successful (r : response) : bool := (200 <=? status_code r) && (status_code r <? 300).

(** The bytes of a body, when its iterator does not raise; a JSON body is
    rendered by the framework. *)
Class Render := { render : json -> bytes }.
Definition read_body `{Render} (r : response) : result bytes :=
  match contents r with
  | Body bs => Ok bs
  | Stream cs None => Ok (concat (map chunk_bytes cs))
  | Stream _ (Some e) => Raise e
  | Json j => Ok (render j)
  end.

Definition HTTPException : pyclass := subclass "HTTPException" Exception_.
Definition http_error (status detail : string) : exn := Exn HTTPException detail [("status_code", status)].

(** ** Middlewares *)

Section middleware.
Context {W : Type} `{Env W, Render, Sha256Bytes}.
Implicit Types (call_next : request -> M W response) (rq : request).

Definition new_uuid : M W string := fun w => let '(u, w) := uuid4 w in (Ok u, w).

Definition set_request_id (id : string) (s : req_state) : req_state := {|
  st_request_id := Some id; st_user_id := st_user_id s; st_organization_id := st_organization_id s;
  st_user_email := st_user_email s; st_user_roles := st_user_roles s; st_user := st_user s |}.

Definition RequestIdMiddleware call_next rq : M W response :=
  request_id ← match header rq "X-Request-ID" with
               | Some id => if String.eqb id "" then new_uuid else mret id
               | None => new_uuid
               end;
  response ← call_next (with_state (set_request_id request_id (state rq)) rq);
  mret (set_header "X-Request-ID" request_id response).

(** The default of [getattr] is made whether it is needed or not. *)
Definition get_request_id rq : M W string :=
  id ← new_uuid; mret (default id (st_request_id (state rq))).

Definition header_roles (text : string) : list string :=
  lfilter (fun r => negb (String.eqb r "")) (map strip (split_on ","%char text)).

(** [if user_id]: the dictionary of the user is set for a user that is named. *)
Definition user_context rq : req_state :=
  let user_id := header rq "X-User-ID" in
  let organization_id := header rq "X-Organization-ID" in
  let user_email := header rq "X-User-Email" in
  let user_roles := header_roles (default "" (header rq "X-User-Roles")) in
  {| st_request_id := st_request_id (state rq);
     st_user_id := user_id; st_organization_id := organization_id; st_user_email := user_email;
     st_user_roles := user_roles;
     st_user := match user_id with
                | Some id => if String.eqb id "" then None
                             else Some {| user_id := id; organization_id := organization_id;
                                          email := user_email; roles := user_roles |}
                | None => None
                end |}.

Definition UserContextMiddleware call_next rq : M W response := call_next (with_state (user_context rq) rq).

Definition security_headers : list (string * string) := [
  ("X-Content-Type-Options", "nosniff"); ("X-Frame-Options", "DENY");
  ("Strict-Transport-Security", "max-age=31536000; includeSubDomains");
  ("Referrer-Policy", "strict-origin-when-cross-origin");
  ("Content-Security-Policy",
   "default-src 'self'; script-src 'self'; style-src 'self'; img-src 'self' data: https:; " +:+
   "connect-src 'self'; font-src 'self'; object-src 'none'; frame-src 'none';")].

Definition SecurityHeadersMiddleware call_next rq : M W response :=
  response ← call_next rq;
  mret (foldl (fun r h => set_header (fst h) (snd h) r) response security_headers).

Definition get_current_user rq : option user := st_user (state rq).

Definition require_authenticated rq : result user :=
  match get_current_user rq with
  | Some u => Ok u
  | None => Raise (http_error "401" "Authentication required")
  end.

Definition require_organization rq : result string :=
  u ← require_authenticated rq;
  match organization_id u with
  | Some org => if String.eqb org "" then Raise (http_error "403" "Organization context required") else Ok org
  | None => Raise (http_error "403" "Organization context required")
  end.

(** *** ETags

    The new header is written next to one the application may have set. *)

Definition given (h : option string) : bool := match h with Some s => negb (String.eqb s "") | None => false end.

Definition _is_authenticated_request rq : bool := existsb (fun n => given (header rq n)) ["authorization"; "cookie"].

Definition _cache_control_disables_etag (r : response) : bool :=
  let cache_control := str_lower (default "" (response_header "Cache-Control" r)) in
  existsb (fun token => contains token cache_control) ["no-store"; "no-cache"; "private"].

Definition etag_of (bs : bytes) : string :=
  "W/" +:+ String quote2 (String.substring 0 16 (sha256 bs) +:+ String quote2 "").

Definition ETagMiddleware call_next rq : M W response :=
  if negb (String.eqb (method rq) "GET") || _is_authenticated_request rq then call_next rq
  else
    let if_none_match := header rq "If-None-Match" in
    response ← call_next rq;
    if negb (successful response) then mret response
    else if _cache_control_disables_etag response then mret response
    else
      body ← lift (read_body response);
      let etag := etag_of body in
      if given if_none_match && String.eqb (default "" if_none_match) etag
      then mret (Response 304 [("etag", etag)] None (Body []))
      else mret (Response (status_code response) (headers response ++ [("etag", etag)]) (media_type response) (Body body)).
End middleware.

(** ** Theorems *)

Section theorems.
Context {W : Type} `{Env W, Render, Sha256Bytes}.
Implicit Types (call_next : request -> M W response) (rq : request).

Definition security_value (name : string) : option string := dget (str_lower name)
  (map (fun h => (str_lower (fst h), snd h)) security_headers).

Lemma set_headers_get hs (r : response) name :
  response_header name (foldl (fun r h => set_header (fst h) (snd h) r) r hs) =
  match dget (str_lower name) (rev (map (fun h => (str_lower (fst h), snd h)) hs)) with
  | Some v => Some v
  | None => response_header name r
  end.
Proof.
  revert r. induction hs as [|[k v] hs IH] using rev_ind; intros r; [done|].
  rewrite foldl_snoc, map_app, rev_app_distr. cbn [map rev app dget fst snd]. unfold response_header, set_header in *.
  cbn [headers]. rewrite dget_dset, String.eqb_sym. destruct (String.eqb (str_lower name) (str_lower k)); [done|apply IH].
Qed.

(** Every response that leaves the security middleware has each of its headers
    with the value listed there, whatever the application set, and the others as
    the application set them. *)
Theorem security_headers_win call_next rq (w : W) r w' :
  SecurityHeadersMiddleware call_next rq w = (Ok r, w') ->
  exists r0, call_next rq w = (Ok r0, w') /\ status_code r = status_code r0 /\ contents r = contents r0 /\
    forall name, response_header name r =
      match security_value name with Some v => Some v | None => response_header name r0 end.
Proof.
  unfold SecurityHeadersMiddleware. intros (r0 & w1 & Hc & [= <- <-])%bind_inv_ok. exists r0. split; [done|].
  assert (Hkeep : forall hs r, status_code (foldl (fun r h => set_header (fst h) (snd h) r) r hs) = status_code r /\
    contents (foldl (fun r h => set_header (fst h) (snd h) r) r hs) = contents r).
  { induction hs as [|h hs IH]; intros r; [done|]. simpl. destruct (IH (set_header (fst h) (snd h) r)) as [-> ->]. done. }
  split; [exact (proj1 (Hkeep security_headers r0))|]. split; [exact (proj2 (Hkeep security_headers r0))|].
  intros name. etrans; [exact (set_headers_get security_headers r0 name)|]. unfold security_value.
  assert (Hrev : forall k, dget k (rev (map (fun h => (str_lower (fst h), snd h)) security_headers)) =
    dget k (map (fun h => (str_lower (fst h), snd h)) security_headers)).
  { intros k. cbn [security_headers map rev app dget fst snd].
    repeat match goal with |- context [String.eqb k ?x] => destruct (String.eqb_spec k x); subst end; done. }
  by rewrite Hrev.
Qed.

(** Behind the gateway's headers, a route gets the organisation exactly when the
    user and the organisation are named; without a user it answers 401, and
    without an organisation 403. *)
Theorem organization_gate rq :
  let rq' := with_state (user_context rq) rq in
  require_organization rq' =
    if negb (given (header rq "X-User-ID")) then Raise (http_error "401" "Authentication required")
    else if negb (given (header rq "X-Organization-ID"))
         then Raise (http_error "403" "Organization context required")
         else Ok (default "" (header rq "X-Organization-ID")).
Proof.
  unfold require_organization, require_authenticated, get_current_user, user_context, given. cbn.
  destruct (header rq "X-User-ID") as [u|]; [|done]. destruct (String.eqb u ""); [done|]. cbn.
  destruct (header rq "X-Organization-ID") as [o|]; [|done]. by destruct (String.eqb o "").
Qed.

Definition cacheable rq (r : response) : Prop :=
  method rq = "GET" /\ _is_authenticated_request rq = false /\ successful r = true /\
  _cache_control_disables_etag r = false.

(** A client that sends back the ETag of a response is answered 304, without a
    body, exactly as long as the hash of the body has the same first sixteen
    digits, and otherwise gets the new body with its own ETag; provided the
    application sets no ETag of its own. *)
Theorem etag_revalidation call_next rq rq' (w w1 w' w1' : W) r r' b b' :
  call_next rq w = (Ok r, w1) -> call_next rq' w' = (Ok r', w1') ->
  cacheable rq r -> cacheable rq' r' ->
  read_body r = Ok b -> read_body r' = Ok b' -> dget "etag" (headers r) = None ->
  header rq "If-None-Match" = None ->
  exists first, ETagMiddleware call_next rq w = (Ok first, w1) /\ contents first = Body b /\
    response_header "ETag" first = Some (etag_of b) /\
    (header rq' "If-None-Match" = response_header "ETag" first ->
     exists second, ETagMiddleware call_next rq' w' = (Ok second, w1') /\
       if String.eqb (etag_of b) (etag_of b')
       then status_code second = 304 /\ contents second = Body []
       else status_code second = status_code r' /\ contents second = Body b').
Proof.
  intros Hc Hc' (Hm & Ha & Hs & Hd) (Hm' & Ha' & Hs' & Hd') Hb Hb' Hn Hfirst.
  set (first := Response (status_code r) (headers r ++ [("etag", etag_of b)]) (media_type r) (Body b)).
  assert (Hrun : forall call rq r b (w w1 : W), call rq w = (Ok r, w1) -> method rq = "GET" ->
    _is_authenticated_request rq = false -> successful r = true -> _cache_control_disables_etag r = false ->
    read_body r = Ok b ->
    ETagMiddleware call rq w =
      (Ok (if given (header rq "If-None-Match") && String.eqb (default "" (header rq "If-None-Match")) (etag_of b)
           then Response 304 [("etag", etag_of b)] None (Body [])
           else Response (status_code r) (headers r ++ [("etag", etag_of b)]) (media_type r) (Body b)), w1)).
  { clear. intros call rq r b w w1 Hc Hm Ha Hs Hd Hb. unfold ETagMiddleware. rewrite Hm, Ha.
    change (negb (String.eqb "GET" "GET") || false) with false. cbn iota.
    unfold mbind, M_bind. rewrite Hc, Hs, Hd. cbn [negb]. unfold lift. rewrite Hb. by case_match. }
  assert (He : response_header "ETag" first = Some (etag_of b)).
  { change (dget "etag" (headers r ++ [("etag", etag_of b)]) = Some (etag_of b)). by rewrite dget_app, Hn. }
  exists first. split; [by rewrite (Hrun _ _ r b w w1) by done; rewrite Hfirst|]. split; [done|]. split; [done|].
  rewrite He. intros Hback. rewrite (Hrun _ _ r' b' w' w1') by done. rewrite Hback.
  replace (given (Some (etag_of b))) with true by reflexivity.
  change (default "" (Some (etag_of b))) with (etag_of b). cbn [andb].
  destruct (String.eqb (etag_of b) (etag_of b')); (eexists; split; [reflexivity|by split]).
Qed.
End theorems.

(** ** A concrete run *)

Module Demo.

#[local] Instance digest : Sha256Bytes := { sha256 bs := fold_right String "" (map ascii_of_byte bs) }.
#[local] Instance rendered : Render := { render _ := [] }.

Definition nobody : req_state := {|
  st_request_id := None; st_user_id := None; st_organization_id := None; st_user_email := None;
  st_user_roles := []; st_user := None |}.
Definition get (if_none_match : option string) : request := {|
  method := "GET"; path := "/"; query := ""; body := []; state := nobody;
  header n := if String.eqb n "If-None-Match" then if_none_match else None |}.
Definition app (rq : request) : M unit response := mret (Response 200 [] None (Body (utf8 "page"))).

Example etag_revalidation_witness : exists first,
  ETagMiddleware app (get None) tt = (Ok first, tt) /\ contents first = Body (utf8 "page") /\
    response_header "ETag" first = Some (etag_of (utf8 "page")) /\
    (Some (etag_of (utf8 "page")) = response_header "ETag" first ->
     exists second, ETagMiddleware app (get (Some (etag_of (utf8 "page")))) tt = (Ok second, tt) /\
       status_code second = 304 /\ contents second = Body []).
Proof.
  refine (etag_revalidation app (get None) (get (Some (etag_of (utf8 "page")))) tt tt tt tt
    (Response 200 [] None (Body (utf8 "page"))) (Response 200 [] None (Body (utf8 "page")))
    (utf8 "page") (utf8 "page") eq_refl eq_refl _ _ eq_refl eq_refl eq_refl eq_refl);
    (split; [reflexivity|split; [reflexivity|split; reflexivity]]).
Defined.

Definition secured : response :=
  foldl (fun r h => set_header (fst h) (snd h) r) (Response 200 [] None (Body (utf8 "page"))) security_headers.

Example security_headers_win_witness : SecurityHeadersMiddleware app (get None) tt = (Ok secured, tt) /\
  exists r0, app (get None) tt = (Ok r0, tt) /\ status_code secured = status_code r0 /\ contents secured = contents r0 /\
    forall name, response_header name secured =
      match security_value name with Some v => Some v | None => response_header name r0 end.
Proof. split; [reflexivity|exact (security_headers_win app (get None) tt secured tt eq_refl)]. Defined.
End Demo.
