(* ===== verification/Idempotency.v ===== *)
(** * Idempotency keys ([web_middleware.py], [IdempotencyMiddleware])

    A client that repeats a request with its [Idempotency-Key] is answered with
    the stored response. Between its [await]s a request runs alone, so what it
    does is cut there: with the store in memory into [begin] and [finish], with
    Redis into the steps of [advance]. The interleavings of requests are
    sequences of such steps. *)

From Stdlib Require Import Lqa.
From S2P Require Import Prelude PyRuntime PyText PyBytes PyDate PyInt WebMiddleware.
Local Open Scope Z_scope.

(** ** Responses in the store *)

(** [c_headers]: texts, unless Redis gave back something else. *)
Record _CachedResponse := Cached {
  c_status : Z; c_body : bytes; c_type : option string; c_headers : pydict json;
  created_at : Q; c_hash : string }.

Definition cached_of (r : response) (body : bytes) (request_hash : string) (now : Q) : _CachedResponse :=
  Cached (status_code r) body (media_type r) (map (fun h => (fst h, JStr (snd h))) (headers r)) now request_hash.

Definition REPLAY_HEADER : string := "Idempotency-Replayed".

(** A header value that is not a text cannot be encoded. *)
Fixpoint header_texts (d : pydict json) : result (pydict string) :=
  match d with
  | [] => Ok []
  | (k, JStr v) :: d => hs ← header_texts d; Ok ((str_lower k, v) :: hs)
  | _ => Raise (raise_ (subclass "AttributeError" Exception_) "no attribute 'encode'")
  end.

Definition _response_from_cached (c : _CachedResponse) : result response :=
  hs ← header_texts (dset REPLAY_HEADER (JStr "true") (c_headers c));
  Ok (Response (c_status c) hs (c_type c) (Body (c_body c))).

Definition conflict (error description : string) : response :=
  Response 409 [] (Some "application/json") (Json (JDict [("error", JStr error); ("error_description", JStr description)])).

Definition _conflict_response : response :=
  conflict "idempotency_conflict" "Idempotency-Key has already been used with a different request".
Definition _in_progress_response : response :=
  set_header "Retry-After" "1" (conflict "idempotency_in_progress"
    ("An operation with this Idempotency-Key is already in progress. " +:+
     "Retry with the same key after the first request completes.")).

(** ** JSON in Redis *)

(** What a key holds: the JSON of [json.dumps], or another text. *)
Inductive payload := PJson (j : json) | PText (s : string).

Definition _serialise_lock (request_hash token : string) : payload :=
  PJson (JDict [("request_hash", JStr request_hash); ("token", JStr token)]).

(** [d.get(k)] *)
Definition jget (k : string) (d : list (string * json)) : json := default JNull (dget k d).

(** [str(a or b or "")] *)
Definition str_or (a b : json) : string := py_str (if json_truthy a then a else json_or b "").

(** The request hash and the token, unless the dictionary is empty. *)
Definition _deserialise_lock (p : option payload) : option (string * string) :=
  match p with
  | None => None
  | Some (PText s) => if String.eqb s "" then None else Some (s, "")
  | Some (PJson (JDict d)) =>
      Some (str_or (jget "request_hash" d) (jget "body_hash" d), py_str (json_or (jget "token" d) ""))
  | Some (PJson _) => None
  end.

Definition lock_token (p : option payload) : option string := option_map snd (_deserialise_lock p).

Definition _serialise_cached (c : _CachedResponse) : payload :=
  PJson (JDict [("status_code", JInt (c_status c)); ("body", JStr (b64encode (c_body c)));
    ("content_type", jopt (c_type c)); ("request_hash", JStr (c_hash c)); ("headers", JDict (c_headers c))]).

(** [int(j)] *)
Definition json_int (j : json) : option Z :=
  match j with
  | JInt z => Some z
  | JBool b => Some (if b then 1 else 0)
  | JStr s => match parse_int s with Ok z => Some z | Raise _ => None end
  | _ => None
  end.

(** A media type that is no text is left out. *)
Definition json_text (j : json) : option string := match j with JStr s => Some s | _ => None end.

(** Any error makes the payload invalid. *)
Definition _deserialise_cached (p : option payload) (now : Q) : option _CachedResponse :=
  match p with
  | Some (PJson (JDict d)) =>
      status ← (j ← dget "status_code" d; json_int j);
      body ← (j ← dget "body" d; s ← json_text j; match b64decode s with Ok bs => Some bs | Raise _ => None end);
      let hash := jget "request_hash" d in
      Some (Cached status body (json_text (jget "content_type" d))
        (match jget "headers" d with JDict hs => hs | _ => [] end) now
        (py_str (if json_truthy hash then hash else jget "body_hash" d)))
  | _ => None
  end.

(** A stored response is read back as it was, when its request hash is not empty. *)
Lemma deserialise_serialise (c : _CachedResponse) (now : Q) : c_hash c <> "" ->
  _deserialise_cached (Some (_serialise_cached c)) now =
    Some (Cached (c_status c) (c_body c) (c_type c) (c_headers c) now (c_hash c)).
Proof.
  intros Hh. apply String.eqb_neq in Hh. unfold _deserialise_cached, _serialise_cached.
  cbn [dget String.eqb jget default json_int json_text mbind option_bind].
  simpl. rewrite b64decode_encode. simpl. rewrite Hh. simpl. by destruct (c_type c).
Qed.

Section idempotency.
Context `{Render, Sha256Bytes}.

Definition METHODS : list string := ["POST"; "PUT"; "PATCH"].

Definition _request_hash (rq : request) : string :=
  sha256 (utf8 (join nl [str_upper (method rq); path rq; query rq; sha256 (body rq)])).

Definition _cache_namespace (rq : request) (idem_key : string) : string :=
  let user_id :=
    if given (st_user_id (state rq)) then default "" (st_user_id (state rq))
    else if given (header rq "X-User-ID") then default "" (header rq "X-User-ID")
    else "anonymous" in
  user_id +:+ ":" +:+ idem_key.

(** ** The store in memory *)

Record middleware := Middleware {
  ttl : Q; cache : pydict _CachedResponse; inflight : pydict string; last_eviction : Q }.

Definition _evict_expired (now : Q) (s : middleware) : middleware :=
  if Qltb (now - last_eviction s) 600 then s
  else Middleware (ttl s) (lfilter (fun kv => negb (Qltb (ttl s) (now - created_at (snd kv)))) (cache s)) (inflight s) now.

Definition set_inflight (d : pydict string) (s : middleware) : middleware :=
  Middleware (ttl s) (cache s) d (last_eviction s).
Definition set_cache (d : pydict _CachedResponse) (s : middleware) : middleware :=
  Middleware (ttl s) d (inflight s) (last_eviction s).

(** What a request does up to the call of the next application. *)
Inductive decision :=
| Bypass
| Answer (r : result response)
| Proceed (cache_key request_hash : string).

(** The key of a request the middleware is for. *)
Definition idempotency_key (rq : request) : option string :=
  if mem (method rq) METHODS
  then match header rq "Idempotency-Key" with Some k => if String.eqb k "" then None else Some k | None => None end
  else None.

Definition begin (now : Q) (rq : request) (s : middleware) : decision * middleware :=
  match idempotency_key rq with
  | None => (Bypass, s)
  | Some idem_key =>
      let cache_key := _cache_namespace rq idem_key in
      let request_hash := _request_hash rq in
      let s := _evict_expired now s in
      match dget cache_key (cache s) with
      | Some c =>
          (Answer (if negb (String.eqb (c_hash c) request_hash) then Ok _conflict_response
                   else _response_from_cached c), s)
      | None =>
          match dget cache_key (inflight s) with
          | Some hash =>
              (Answer (Ok (if negb (String.eqb hash request_hash) then _conflict_response
                           else _in_progress_response)), s)
          | None => (Proceed cache_key request_hash, set_inflight (dset cache_key request_hash (inflight s)) s)
          end
      end
  end.

(** What it does with the answer, which may be an exception. *)
Definition finish (now : Q) (cache_key request_hash : string) (outcome : result response) (s : middleware) :
    result response * middleware :=
  let done s := set_inflight (dpop cache_key (inflight s)) s in
  match outcome with
  | Raise e => (Raise e, done s)
  | Ok response =>
      if successful response
      then match read_body response with
           | Raise e => (Raise e, done s)
           | Ok resp_body =>
               (Ok (Response (status_code response) (headers response) (media_type response) (Body resp_body)),
                done (set_cache (dset cache_key (cached_of response resp_body request_hash now) (cache s)) s))
           end
      else (Ok response, done s)
  end.

(** *** Interleaved requests *)

(** A request arrives, or the application answers the [n]-th of those it has. *)
Inductive event :=
| Arrive (now : Q) (rq : request)
| Complete (now : Q) (n : nat) (outcome : result response).

Definition event_time (e : event) : Q := match e with Arrive now _ | Complete now _ _ => now end.

Inductive entry :=
| Ran (cache_key request_hash : string) (t : Q)
| Ended (cache_key : string)
| Stored (cache_key : string) (c : _CachedResponse)
| Answered (cache_key request_hash : string) (r : result response).

Record system := System { mw : middleware; running : list (string * string); log : list entry }.

Definition stored (now : Q) (key hash : string) (outcome : result response) : list entry :=
  match outcome with
  | Ok r => if successful r
            then match read_body r with Ok b => [Stored key (cached_of r b hash now)] | Raise _ => [] end
            else []
  | Raise _ => []
  end.

Definition run_event (e : event) (s : system) : system :=
  match e with
  | Arrive now rq =>
      match begin now rq (mw s) with
      | (Bypass, m) => System m (running s) (log s)
      | (Answer r, m) =>
          let key := _cache_namespace rq (default "" (idempotency_key rq)) in
          System m (running s) (log s ++ [Answered key (_request_hash rq) r])
      | (Proceed key hash, m) => System m (running s ++ [(key, hash)]) (log s ++ [Ran key hash now])
      end
  | Complete now n outcome =>
      match nth_error (running s) n with
      | None => s
      | Some (key, hash) =>
          System (snd (finish now key hash outcome (mw s))) (take n (running s) ++ drop (S n) (running s))
            (log s ++ stored now key hash outcome ++ [Ended key])
      end
  end.

Definition run_events (es : list event) (s : system) : system := foldl (fun s e => run_event e s) s es.

Definition start (ttl now : Q) : system := System (Middleware ttl [] [] now) [] [].

(** The clock does not go back. *)
Fixpoint ordered (t : Q) (es : list event) : Prop :=
  match es with [] => True | e :: es => (t <= event_time e)%Q /\ ordered (event_time e) es end.

Definition count_key (f : entry -> option string) (key : string) (l : list entry) : nat :=
  length (lfilter (fun e => match f e with Some k => String.eqb k key | None => false end) l).
Definition runs : string -> list entry -> nat := count_key (fun e => match e with Ran k _ _ => Some k | _ => None end).
Definition ends : string -> list entry -> nat := count_key (fun e => match e with Ended k => Some k | _ => None end).

(** What an entry of the log means after the entries before it. *)
Definition justified (T : Q) (before : list entry) (e : entry) : Prop :=
  match e with
  | Ran k h t => runs k before = ends k before /\ forall c, In (Stored k c) before -> (T < t - created_at c)%Q
  | Answered k h r =>
      r = Ok _conflict_response \/ r = Ok _in_progress_response \/
      exists c, In (Stored k c) before /\ c_hash c = h /\ r = _response_from_cached c
  | Ended _ | Stored _ _ => True
  end.

Definition explained (T : Q) (l : list entry) : Prop :=
  forall before e after, l = before ++ e :: after -> justified T before e.

Lemma explained_snoc T l e : explained T l -> justified T l e -> explained T (l ++ [e]).
Proof.
  intros Hl He before x after Heq. destruct after as [|y after] using rev_ind.
  - apply app_inj_tail in Heq as [-> ->]. done.
  - rewrite app_comm_cons, app_assoc in Heq. apply app_inj_tail in Heq as [-> _]. by eapply Hl.
Qed.

Lemma count_snoc f k l e : count_key f k (l ++ [e]) =
  (count_key f k l + match f e with Some k' => if String.eqb k' k then 1 else 0 | None => 0 end)%nat.
Proof.
  unfold count_key. rewrite lfilter_app, length_app. simpl. destruct (f e) as [k'|]; [|done]. by destruct (String.eqb k' k).
Qed.

Record inv (T t : Q) (s : system) : Prop := {
  inv_ttl : ttl (mw s) = T;
  inv_wf : dwf (cache (mw s));
  inv_keys : NoDup (map fst (running s));
  inv_running k : dget k (inflight (mw s)) <> None <-> In k (map fst (running s));
  inv_counts k : runs k (log s) = (ends k (log s) + if mem k (map fst (running s)) then 1 else 0)%nat;
  inv_stored k c : In (Stored k c) (log s) ->
    (exists c', dget k (cache (mw s)) = Some c' /\ (created_at c <= created_at c')%Q) \/ (T < t - created_at c)%Q;
  inv_cache k c : dget k (cache (mw s)) = Some c -> In (Stored k c) (log s);
  inv_time k c : In (Stored k c) (log s) -> (created_at c <= t)%Q;
  inv_log : explained T (log s) }.

Lemma start_inv T t : inv T t (start T t).
Proof.
  split; simpl; try done; try apply NoDup_nil_2. intros before e after Heq. by destruct before.
Qed.

(** Time passes. *)
Lemma inv_later T t t' s : (t <= t')%Q -> inv T t s -> inv T t' s.
Proof.
  intros Ht [? ? ? ? ? Hs ? Hc ?]. split; try done.
  - intros k c Hin. destruct (Hs k c Hin) as [?|Hlt]; [by left|right; lra].
  - intros k c Hin. specialize (Hc k c Hin). lra.
Qed.

Lemma lfilter_wf {V} (f : string * V -> bool) (d : pydict V) : dwf d -> dwf (lfilter f d).
Proof.
  unfold dwf. induction d as [|kv d IH]; simpl; [done|]. intros [Hni Hnd]%NoDup_cons.
  destruct (f kv); [|by apply IH]. simpl. apply NoDup_cons. split; [|by apply IH].
  intros Hin. apply Hni. apply list_elem_of_In in Hin. apply list_elem_of_In.
  apply in_map_iff in Hin as (x & Hx & Hin). apply in_map_iff. exists x. split; [done|].
  by apply lfilter_In in Hin as [? _].
Qed.

Lemma dget_lfilter {V} (f : string * V -> bool) (d : pydict V) k : dwf d ->
  dget k (lfilter f d) = match dget k d with Some v => if f (k, v) then Some v else None | None => None end.
Proof.
  intros Hwf. destruct (dget k (lfilter f d)) as [v|] eqn:E.
  - apply dget_In in E. apply lfilter_In in E as [Hin Hf]. apply In_dget in Hin; [|done]. by rewrite Hin, Hf.
  - destruct (dget k d) as [v|] eqn:Ed; [|done]. destruct (f (k, v)) eqn:Hf; [|done].
    apply dget_None_In in E. destruct E. apply (in_map fst (lfilter f d) (k, v)). apply lfilter_In.
    split; [by apply dget_In|done].
Qed.

(** Only entries older than their lifetime are evicted. *)
Lemma evict_inv T t s : inv T t s ->
  inv T t (System (_evict_expired t (mw s)) (running s) (log s)).
Proof.
  intros [Ht Hwf Hk Hr Hn Hs Hc Hti Hl]. unfold _evict_expired. destruct (Qltb (t - last_eviction (mw s)) 600).
  { by split. }
  split; try done; simpl.
  - by apply lfilter_wf.
  - intros k c Hin. destruct (Hs k c Hin) as [(c' & Hg & Hle)|Hlt]; [|by right].
    rewrite dget_lfilter by done. rewrite Hg. simpl. destruct (Qltb (ttl (mw s)) (t - created_at c')) eqn:E; simpl.
    + right. apply Qltb_lt in E. rewrite Ht in E. lra.
    + left. by exists c'.
  - intros k c. rewrite dget_lfilter by done. destruct (dget k (cache (mw s))) as [c'|] eqn:E; [|done].
    destruct (negb _); [|done]. intros [= ->]. by apply Hc.
Qed.

Lemma In_log_snoc (x e : entry) l : In x (l ++ [e]) <-> In x l \/ x = e.
Proof. rewrite in_app_iff. simpl. naive_solver. Qed.

Lemma log_inv T t s e : inv T t s -> (forall k c, e <> Stored k c) -> (forall k, e <> Ended k) -> (forall k h t, e <> Ran k h t) ->
  justified T (log s) e -> inv T t (System (mw s) (running s) (log s ++ [e])).
Proof.
  intros [Ht Hwf Hk Hr Hn Hs Hc Hti Hl] H1' H2' H3' Hj. split; try done; simpl.
  - intros k. unfold runs, ends in *. rewrite !count_snoc, Hn. destruct e; naive_solver lia.
  - intros k c [Hin|Heq]%In_log_snoc; [by apply Hs|]. by destruct (H1' k c).
  - intros k c Hg. apply In_log_snoc. left. by apply Hc.
  - intros k c [Hin|Heq]%In_log_snoc; [by eapply Hti|]. by destruct (H1' k c).
  - by apply explained_snoc.
Qed.

Lemma arrive_inv T t rq s : inv T t s -> inv T t (run_event (Arrive t rq) s).
Proof.
  intros Hi. unfold run_event, begin. destruct (idempotency_key rq) as [ik|] eqn:Ek.
  2: { destruct Hi. by split. }
  cbn [default]. set (key := _cache_namespace rq ik). pose proof (evict_inv _ _ _ Hi) as He.
  set (m := _evict_expired t (mw s)) in *.
  destruct (dget key (cache m)) as [c|] eqn:Ec.
  { apply (log_inv T t (System m (running s) (log s))); [done..|]. unfold justified.
    destruct (String.eqb (c_hash c) (_request_hash rq)) eqn:Eh; cbn [negb]; [|by left]. right. right.
    exists c. split; [by apply (inv_cache _ _ _ He)|]. by apply String.eqb_eq in Eh. }
  destruct (dget key (inflight m)) as [h|] eqn:Eh.
  { apply (log_inv T t (System m (running s) (log s))); [done..|]. unfold justified.
    destruct (negb (String.eqb h (_request_hash rq))); naive_solver. }
  destruct He as [Ht Hwf Hk Hr Hn Hs Hc Hti Hl]. simpl in *.
  assert (Hnew : ~ In key (map fst (running s))) by (intros Hin; by apply Hr in Hin).
  split; try done; simpl.
  - rewrite map_app. apply NoDup_app. split; [done|]. split; [|apply NoDup_singleton].
    intros x Hx%list_elem_of_In Hx'%list_elem_of_singleton. by subst.
  - intros k. rewrite map_app, in_app_iff, dget_dset. simpl. specialize (Hr k).
    destruct (String.eqb_spec key k) as [->|Hne]; [by split; [right; left|]|]. rewrite Hr. naive_solver.
  - intros k. unfold runs, ends in *. rewrite !count_snoc, Hn, map_app. simpl.
    destruct (String.eqb_spec key k) as [->|Hne].
    + replace (mem k (map fst (running s))) with false by (symmetry; by apply mem_false).
      replace (mem k (map fst (running s) ++ [k])) with true; [lia|].
      symmetry. apply mem_true, in_app_iff. right. by left.
    + replace (mem k (map fst (running s) ++ [key])) with (mem k (map fst (running s))); [lia|].
      apply eq_iff_eq_true. rewrite !mem_true, in_app_iff. simpl. naive_solver.
  - intros k c [Hin|Heq]%In_log_snoc; [by apply Hs|done].
  - intros k c Hg. apply In_log_snoc. left. by apply Hc.
  - intros k c [Hin|Heq]%In_log_snoc; [by eapply Hti|done].
  - apply explained_snoc; [done|]. split.
    + rewrite Hn. replace (mem key (map fst (running s))) with false by (symmetry; by apply mem_false). lia.
    + intros c Hin. destruct (Hs key c Hin) as [(c' & Hg & _)|?]; [congruence|done].
Qed.

Lemma remove_nth {A} n (l : list A) x : nth_error l n = Some x -> Permutation l (x :: take n l ++ drop (S n) l).
Proof.
  revert l. induction n as [|n IH]; intros [|y l]; simpl; try done; [by intros [= ->]|].
  intros Hn. rewrite (IH l Hn) at 1. apply Permutation_swap.
Qed.

(** The end of a request whose answer is not stored. *)
Lemma end_inv T t s n key hash : inv T t s -> nth_error (running s) n = Some (key, hash) ->
  inv T t (System (set_inflight (dpop key (inflight (mw s))) (mw s)) (take n (running s) ++ drop (S n) (running s))
    (log s ++ [Ended key])).
Proof.
  intros [Ht Hwf Hk Hr Hn Hs Hc Hti Hl] Hnth. pose proof (remove_nth _ _ _ Hnth) as Hp.
  apply (Permutation_map fst) in Hp. simpl in Hp. set (rest := take n (running s) ++ drop (S n) (running s)) in *.
  pose proof Hk as Hk'. rewrite Hp in Hk'. apply NoDup_cons in Hk' as [Hni Hnd]. rewrite list_elem_of_In in Hni.
  assert (Hin : forall k, In k (map fst (running s)) <-> k = key \/ In k (map fst rest)).
  { intros k. rewrite <- !list_elem_of_In, Hp. rewrite elem_of_cons. done. }
  split; try done; simpl.
  - intros k. destruct (String.eqb_spec key k) as [->|Hne]; [by rewrite dget_dpop_eq|].
    rewrite dget_dpop_ne, Hr, Hin by done. naive_solver.
  - intros k. unfold runs, ends in *. rewrite !count_snoc, Hn.
    destruct (String.eqb_spec key k) as [->|Hne].
    + replace (mem k (map fst (running s))) with true by (symmetry; apply mem_true, Hin; by left).
      replace (mem k (map fst rest)) with false by (symmetry; by apply mem_false). lia.
    + replace (mem k (map fst rest)) with (mem k (map fst (running s))); [lia|].
      apply eq_iff_eq_true. rewrite !mem_true, Hin. naive_solver.
  - intros k c [Hin'|Heq]%In_log_snoc; [by apply Hs|done].
  - intros k c Hg. apply In_log_snoc. left. by apply Hc.
  - intros k c [Hin'|Heq]%In_log_snoc; [by eapply Hti|done].
  - by apply explained_snoc.
Qed.

Lemma store_inv T t s key c : inv T t s -> created_at c = t ->
  inv T t (System (set_cache (dset key c (cache (mw s))) (mw s)) (running s) (log s ++ [Stored key c])).
Proof.
  intros [Ht Hwf Hk Hr Hn Hs Hc Hti Hl] Hat. split; try done; simpl.
  - by apply dset_wf.
  - intros k. unfold runs, ends in *. rewrite !count_snoc, Hn. lia.
  - intros k c' [Hin|[= -> ->]]%In_log_snoc.
    + destruct (Hs k c' Hin) as [(c2 & Hg & Hle)|?]; [|by right]. left. rewrite dget_dset.
      destruct (String.eqb_spec key k) as [->|]; [|by exists c2]. exists c. split; [done|].
      rewrite Hat. by eapply Hti.
    + left. exists c. rewrite dget_dset_eq. split; [done|lra].
  - intros k c'. rewrite dget_dset, In_log_snoc. destruct (String.eqb_spec key k) as [->|]; [|naive_solver].
    intros [= ->]. by right.
  - intros k c' [Hin|[= -> ->]]%In_log_snoc; [by eapply Hti|]. rewrite Hat. lra.
  - by apply explained_snoc.
Qed.

Lemma complete_inv T t n outcome s : inv T t s -> inv T t (run_event (Complete t n outcome) s).
Proof.
  intros Hi. unfold run_event. destruct (nth_error (running s) n) as [[key hash]|] eqn:En; [|done].
  unfold finish, stored. destruct outcome as [r|e]; [|by eapply end_inv].
  destruct (successful r); [|by eapply end_inv]. destruct (read_body r) as [b|e]; [|by eapply end_inv].
  set (c := cached_of r b hash t). pose proof (store_inv T t s key c Hi eq_refl) as Hst.
  apply (end_inv T t _ n key hash) in Hst; [|done]. simpl in Hst. rewrite <- app_assoc in Hst. exact Hst.
Qed.

Lemma run_events_inv T es : forall t s, ordered t es -> inv T t s -> exists t', inv T t' (run_events es s).
Proof.
  induction es as [|e es IH]; intros t s Ho Hi; [by exists t|]. destruct Ho as [Hle Ho]. simpl.
  apply (IH (event_time e)); [done|]. apply (inv_later _ _ _ _ Hle) in Hi.
  destruct e as [now rq|now n o]; [by apply arrive_inv|by apply complete_inv].
Qed.

(** C22: Whatever the order in which requests arrive and are answered, the
    application runs a request under a key only when all earlier runs under that
    key have ended, and when every response stored under it is older than its
    lifetime. *)
Theorem no_repeated_run T t0 es before after k h t : ordered t0 es ->
  log (run_events es (start T t0)) = before ++ Ran k h t :: after ->
  runs k before = ends k before /\ forall c, In (Stored k c) before -> (T < t - created_at c)%Q.
Proof.
  intros Ho Hl. destruct (run_events_inv T es t0 _ Ho (start_inv T t0)) as [t' Hi].
  exact (inv_log _ _ _ Hi _ _ _ Hl).
Qed.

(** C23: A request that is answered without running is told of a conflict or of a
    request in progress, or gets the stored response of an earlier run under the
    same key for a request with the same hash. *)
Theorem replay_is_earlier_response T t0 es before after k h r : ordered t0 es ->
  log (run_events es (start T t0)) = before ++ Answered k h r :: after ->
  r = Ok _conflict_response \/ r = Ok _in_progress_response \/
  exists c, In (Stored k c) before /\ c_hash c = h /\ r = _response_from_cached c.
Proof.
  intros Ho Hl. destruct (run_events_inv T es t0 _ Ho (start_inv T t0)) as [t' Hi].
  exact (inv_log _ _ _ Hi _ _ _ Hl).
Qed.
End idempotency.

(** ** The store in Redis *)

(** [redis_nx]: [set(key, value, ex=..., nx=True)]; [redis_eval]: the script
    that deletes a lock that holds the token. *)
Class IdemRedis (W : Type) := {
  redis_get : string -> M W (option payload);
  redis_nx : string -> payload -> Z -> M W bool;
  redis_setex : string -> Z -> payload -> M W unit;
  redis_delete : string -> M W unit;
  has_eval : bool;
  redis_eval : string -> string -> M W unit;
  has_expire : bool;
  redis_expire : string -> Z -> M W unit }.

(** [time.monotonic()] *)
Class Monotonic (W : Type) := { monotonic : W -> Q * W }.

Section redis.
Context {W : Type} `{IdemRedis W, Monotonic W, Render, Sha256Bytes}.

Definition LOCK_TTL : Z := 300.

Definition data_key (cache_key : string) : string := "idempotency:" +:+ sha256 (utf8 cache_key).
Definition lock_key (cache_key : string) : string := data_key cache_key +:+ ":lock".

(** Where a request stands, between two operations on Redis: [Running] waits for
    the application, [Save] has its response, [Release] and after are the
    [finally] that gives the lock back. *)
Inductive place :=
| Lookup | Acquire | Contended | Running
| Save (c : _CachedResponse) (r : response)
| Release (r : result response) | ReleaseRead (r : result response) | ReleaseDelete (r : result response)
| Done (r : result response).

(** [renewal]: the exception the task that renews the lock has ended with. *)
Record process := Process {
  cache_key : string; request_hash : string; token : string; renewal : option exn; at_place : place }.

Definition at_ (l : place) (p : process) : process := Process (cache_key p) (request_hash p) (token p) (renewal p) l.

Definition reading (w : W) : Q := fst (monotonic w).

(** [try: m except Exception: h] around one operation, for a step that goes on
    with [k] and otherwise ends with the exception. *)
Definition step {A} (m : M W A) (k : A -> place) (h : exn -> place) : M W place := fun w =>
  let '(r, w) := m w in
  (Ok match r with Ok a => k a | Raise e => if catchable e then h e else Done (Raise e) end, w).

(** The next operation of [_dispatch_redis], or the application's answer. The
    [finally] awaits the renewal before it releases the lock, so its exception
    takes the place of the result, and the lock stays. *)
Definition advance (ttl : Z) (outcome : result response) (p : process) : M W place :=
  match at_place p with
  | Lookup => fun w =>
      step (redis_get (data_key (cache_key p)))
        (fun data => match _deserialise_cached data (reading w) with
                     | Some c => Done (if negb (String.eqb (c_hash c) (request_hash p)) then Ok _conflict_response
                                       else _response_from_cached c)
                     | None => Acquire
                     end)
        (fun e => Done (Raise e)) w
  | Acquire =>
      step (redis_nx (lock_key (cache_key p)) (_serialise_lock (request_hash p) (token p)) LOCK_TTL)
        (fun acquired : bool => if acquired then Running else Contended) (fun e => Done (Raise e))
  | Contended =>
      step (redis_get (lock_key (cache_key p)))
        (fun lock => Done (Ok match _deserialise_lock lock with
                              | Some (hash, _) =>
                                  if negb (String.eqb hash "") && negb (String.eqb hash (request_hash p))
                                  then _conflict_response else _in_progress_response
                              | None => _in_progress_response
                              end))
        (fun e => Done (Raise e))
  | Running => fun w =>
      (Ok match outcome with
          | Raise e => Release (Raise e)
          | Ok r =>
              if successful r
              then match read_body r with
                   | Raise e => Release (Raise e)
                   | Ok b => Save (cached_of r b (request_hash p) (reading w))
                                  (Response (status_code r) (headers r) (media_type r) (Body b))
                   end
              else Release (Ok r)
          end, w)
  | Save c r => fun w =>
      let '(res, w) := redis_setex (data_key (cache_key p)) ttl (_serialise_cached c) w in
      (Ok (Release match res with Ok _ => Ok r | Raise e => Raise e end), w)
  | Release r =>
      match renewal p with
      | Some e => mret (Done (Raise e))
      | None =>
      if has_eval
      then step (redis_eval (lock_key (cache_key p)) (token p)) (fun _ => Done r) (fun _ => ReleaseRead r)
      else mret (ReleaseRead r)
      end
  | ReleaseRead r =>
      step (redis_get (lock_key (cache_key p)))
        (fun lock => match lock_token lock with
                     | Some t => if String.eqb t (token p) then ReleaseDelete r else Done r
                     | None => Done r
                     end)
        (fun _ => Done r)
  | ReleaseDelete r => step (redis_delete (lock_key (cache_key p))) (fun _ => Done r) (fun _ => Done r)
  | Done r => mret (Done r)
  end.

(** One turn of [_renew_redis_lock]; whether it goes on. *)
Definition renew (p : process) : M W bool :=
  lock ← redis_get (lock_key (cache_key p));
  match lock_token lock with
  | Some t =>
      if negb (String.eqb t (token p)) then mret false
      else if has_expire
           then try_except (_ ← redis_expire (lock_key (cache_key p)) LOCK_TTL; mret true) (fun _ => mret false)
           else mret true
  | None => mret false
  end.

(** *** The request alone *)

Definition finished (l : place) : option (result response) := match l with Done r => Some r | _ => None end.

(** The steps in sequence; no request takes more than eight. *)
Fixpoint drive (fuel : nat) (ttl : Z) (call_next : M W response) (p : process) : M W place :=
  match fuel with
  | O => mret (at_place p)
  | S fuel =>
      match at_place p with
      | Done r => mret (Done r)
      | Running => fun w =>
          let '(outcome, w) := call_next w in
          (l ← advance ttl outcome p; drive fuel ttl call_next (at_ l p)) w
      | _ => l ← advance ttl (Raise (raise_ RuntimeError "no answer")) p; drive fuel ttl call_next (at_ l p)
      end
  end.

Definition _dispatch_redis (ttl : Z) (call_next : M W response) (cache_key request_hash token : string) : M W response :=
  l ← drive 8 ttl call_next (Process cache_key request_hash token None Lookup);
  match l with Done r => lift r | _ => raise (raise_ RuntimeError "unfinished") end.
End redis.

(** [dispatch]: with Redis when there is a client, else in memory; the state and
    the environment may change while the application runs. *)
Section dispatch.
Context {W : Type} `{IdemRedis W, Monotonic W, Env W, Render, Sha256Bytes}.

Definition dispatch_memory (call_next : request -> M (middleware * W) response) (rq : request) :
    M (middleware * W) response := fun sw =>
  let '(s, w) := sw in
  let '(now, w) := monotonic w in
  match begin now rq s with
  | (Bypass, s) => call_next rq (s, w)
  | (Answer r, s) => (r, (s, w))
  | (Proceed key hash, s) =>
      let '(outcome, (s, w)) := call_next rq (s, w) in
      let '(now, w) := monotonic w in
      let '(r, s) := finish now key hash outcome s in (r, (s, w))
  end.

Definition dash_free (s : string) : string :=
  chars (fun c => if Ascii.eqb c (ascii_of_nat 45) then "" else String c "") s.

Definition dispatch_redis (ttl : Z) (call_next : request -> M W response) (rq : request) : M W response :=
  match idempotency_key rq with
  | None => call_next rq
  | Some idem_key => fun w =>
      let '(u, w) := uuid4 w in
      _dispatch_redis ttl (call_next rq) (_cache_namespace rq idem_key) (_request_hash rq) (dash_free u) w
  end.
End dispatch.

(** *** Interleaved requests *)

Section interleaving.
Context {W : Type} `{IdemRedis W, Monotonic W, Render, Sha256Bytes}.
Context (ttl : Z).

Inductive redis_event :=
| Spawn (cache_key request_hash token : string)
| Step (i : nat) (outcome : result response)
| Renew (i : nat).

Record cluster := Cluster { world : W; procs : list process; handled : list (string * string) }.

Definition in_charge (p : process) : bool := match at_place p with Running | Save _ _ => true | _ => false end.

Definition failed (e : exn) (p : process) : process :=
  Process (cache_key p) (request_hash p) (token p) (Some e) (at_place p).

Definition redis_step (e : redis_event) (s : cluster) : cluster :=
  match e with
  | Spawn k h t => Cluster (world s) (procs s ++ [Process k h t None Lookup]) (handled s)
  | Step i outcome =>
      match procs s !! i with
      | None => s
      | Some p =>
          match advance ttl outcome p (world s) with
          | (Ok l, w) =>
              Cluster w (<[i := at_ l p]> (procs s))
                (match at_place p, l with
                 | Acquire, Running => handled s ++ [(cache_key p, request_hash p)]
                 | _, _ => handled s
                 end)
          | (Raise _, w) => Cluster w (procs s) (handled s)
          end
      end
  | Renew i =>
      match procs s !! i with
      | None => s
      | Some p =>
          if in_charge p
          then match renew p (world s) with
               | (Raise e, w) => Cluster w (<[i := failed e p]> (procs s)) (handled s)
               | (Ok _, w) => Cluster w (procs s) (handled s)
               end
          else s
      end
  end.

Definition redis_run (es : list redis_event) (s : cluster) : cluster := foldl (fun s e => redis_step e s) s es.

(** The tokens of the requests that arrive. *)
Definition tokens (es : list redis_event) : list string :=
  omap (fun e => match e with Spawn _ _ t => Some t | _ => None end) es.
End interleaving.
Arguments cluster : clear implicits.

(** What is relied on of Redis while no lock lapses: an operation that raises
    may have taken effect. *)
Class IdemRedisLaws (W : Type) `{IdemRedis W} := {
  held : W -> string -> option payload;
  get_law k w : let '(r, w') := redis_get k w in
    held w' = held w /\ forall v, r = Ok v -> v = held w k;
  nx_law k v ttl w : let '(r, w') := redis_nx k v ttl w in
    (forall k', k' <> k -> held w' k' = held w k') /\
    match r with
    | Ok true => held w k = None /\ held w' k = Some v
    | Ok false => held w' k = held w k
    | Raise _ => held w' k = held w k \/ held w k = None
    end;
  setex_law k ttl v w : forall k', k' <> k -> held (snd (redis_setex k ttl v w)) k' = held w k';
  delete_law k w : forall k', k' <> k -> held (snd (redis_delete k w)) k' = held w k';
  eval_law k t w : let w' := snd (redis_eval k t w) in
    (forall k', k' <> k -> held w' k' = held w k') /\ (held w' k = held w k \/ lock_token (held w k) = Some t);
  expire_law k ttl w : held (snd (redis_expire k ttl w)) = held w }.

(** ** Theorems on Redis *)

Section termination.
Context {W : Type} `{IdemRedis W, Monotonic W, Render, Sha256Bytes}.

(** The operations a request has still to do, at most. *)
Definition rank (l : place) : nat :=
  match l with
  | Lookup => 7 | Acquire => 6 | Running => 5 | Save _ _ => 4 | Release _ => 3 | ReleaseRead _ => 2
  | ReleaseDelete _ | Contended => 1 | Done _ => 0
  end.

(** What a step of the request does to its place. *)
Lemma step_ok {A} (m : M W A) k h w : exists l, step m k h w = (Ok l, snd (m w)) /\
  ((exists a, fst (m w) = Ok a /\ l = k a) \/ exists e, fst (m w) = Raise e /\ (l = h e \/ l = Done (Raise e))).
Proof.
  unfold step. destruct (m w) as [[a|e] w']; simpl; eexists; (split; [done|]); [left; by exists a|].
  right. exists e. split; [done|]. destruct (catchable e); auto.
Qed.

Ltac by_step :=
  match goal with |- context [step ?m ?k ?h ?w] =>
    let l := fresh "l" in destruct (step_ok m k h w) as (l & -> & [(? & _ & ->)|(? & _ & [-> | ->])])
  end; eexists _, _; (split; [reflexivity|left]); simpl; repeat case_match; simpl; lia.

Lemma advance_rank ttl outcome p (w : W) : exists l w', advance ttl outcome p w = (Ok l, w') /\
  ((rank l < rank (at_place p))%nat \/ exists r, at_place p = Done r).
Proof.
  unfold advance. destruct (at_place p) eqn:Ep; [by_step..| | | | by_step | by_step | ].
  - destruct outcome as [r|e]; [destruct (successful r); [destruct (read_body r)|]|];
      (eexists _, _; split; [reflexivity|left; simpl; lia]).
  - destruct (redis_setex _ _ _ w) as [res w']. eexists _, _. split; [reflexivity|left; simpl; lia].
  - destruct (renewal p); [eexists _, _; split; [reflexivity|left; simpl; lia]|].
    destruct has_eval; [by_step|eexists _, _; split; [reflexivity|left; simpl; lia]].
  - eexists _, _. split; [reflexivity|right; by eexists].
Qed.

Lemma drive_ends ttl call_next n : forall p (w : W), (rank (at_place p) <= n)%nat ->
  exists r w', drive n ttl call_next p w = (Ok (Done r), w').
Proof.
  induction n as [|n IH]; intros p w Hn.
  { destruct (at_place p) as [| | | | | | | |r] eqn:E; simpl in Hn; try lia. exists r, w. simpl. by rewrite E. }
  destruct (finished (at_place p)) as [r|] eqn:Ef.
  { destruct (at_place p) eqn:E; try done. injection Ef as ->. exists r, w. simpl. by rewrite E. }
  assert (Hgo : forall o (w : W), exists r w', (l ← advance ttl o p; drive n ttl call_next (at_ l p)) w = (Ok (Done r), w')).
  { intros o w1. unfold mbind, M_bind. destruct (advance_rank ttl o p w1) as (l & w2 & -> & [Hl|[r Er]]); [|by rewrite Er in Ef].
    apply IH. simpl. lia. }
  simpl. destruct (at_place p) eqn:E; try apply Hgo; [|done].
  destruct (call_next w) as [o w1]. apply Hgo.
Qed.
(** Whatever Redis and the application answer, the request ends, with the result
    its last step has. *)
Theorem redis_request_ends ttl call_next k h t (w : W) :
  exists r w', drive 8 ttl call_next (Process k h t None Lookup) w = (Ok (Done r), w') /\
    _dispatch_redis ttl call_next k h t w = (r, w').
Proof.
  destruct (drive_ends ttl call_next 8 (Process k h t None Lookup) w) as (r & w' & Hd); [simpl; lia|].
  exists r, w'. split; [done|]. unfold _dispatch_redis, mbind, M_bind. rewrite Hd. by destruct r.
Qed.

Lemma drive_done n ttl call_next p r : at_place p = Done r -> drive (W:=W) n ttl call_next p = mret (Done r).
Proof. destruct n; simpl; by intros ->. Qed.

(** While a response is stored under the key, a request is answered without the
    application: the same request gets the response, marked as replayed, and
    another a conflict. *)
Theorem redis_replays ttl call_next k h t c (w w' : W) :
  redis_get (data_key k) w = (Ok (Some (_serialise_cached c)), w') -> c_hash c <> "" ->
  _dispatch_redis ttl call_next k h t w =
    ((if String.eqb (c_hash c) h then _response_from_cached c else Ok _conflict_response), w').
Proof.
  intros Hg Hh. unfold _dispatch_redis. generalize 7%nat. intros n. cbn [drive at_place].
  set (next := fun l => drive n ttl call_next (at_ l _)). unfold mbind, M_bind, advance, step. cbn [at_place].
  cbn [cache_key request_hash]. rewrite Hg, deserialise_serialise by done. cbn [c_hash]. unfold next.
  rewrite (drive_done n _ _ _ (if String.eqb (c_hash c) h then _response_from_cached c else Ok _conflict_response))
    by (by destruct (String.eqb (c_hash c) h)).
  unfold mret, M_ret, lift. destruct (if String.eqb (c_hash c) h then _ else _); reflexivity.
Qed.
End termination.

Section exclusion.
Context {W : Type} `{IdemRedis W, Monotonic W, Render, Sha256Bytes, !IdemRedisLaws W, !Sha256Laws}.
Implicit Types (w : W) (p q : process).

Lemma keys_differ k k' : data_key k <> lock_key k'.
Proof.
  intros Hk. apply (f_equal String.length) in Hk. revert Hk. unfold lock_key, data_key.
  rewrite !string_length_app, !sha256_length. simpl. lia.
Qed.

Lemma json_truthy_str s : py_str (json_or (JStr s) "") = s.
Proof. unfold json_or. simpl. destruct s; done. Qed.

Lemma lock_token_own hash t : lock_token (Some (_serialise_lock hash t)) = Some t.
Proof. unfold lock_token, _serialise_lock. simpl. apply (f_equal Some), json_truthy_str. Qed.

(** Its lock holds the token of the request. *)
Definition holds w p : Prop := lock_token (held w (lock_key (cache_key p))) = Some (token p).

(** What a request may change: its data, and a lock that is free or its own. *)
Definition touches_own p w w' : Prop := forall k, held w' k = held w k \/ k = data_key (cache_key p) \/
  k = lock_key (cache_key p) /\ (held w k = None \/ lock_token (held w k) = Some (token p)).

(** The lock is sure to be held: after [Release], the script may have deleted it. *)
Definition holder p : bool :=
  match at_place p with Running | Save _ _ | ReleaseDelete _ => true | _ => false end.

Lemma step_world {A} (m : M W A) k h w : snd (step m k h w) = snd (m w).
Proof. unfold step. by destruct (m w). Qed.

Lemma get_world k w : held (snd (redis_get k w)) = held w.
Proof. pose proof (get_law k w) as Hl. destruct (redis_get k w) as [r w']. apply Hl. Qed.

Lemma advance_touches ttl o p w : (holder p = true -> holds w p) ->
  touches_own p w (snd (advance ttl o p w)).
Proof.
  intros Hh. unfold advance. destruct (at_place p) eqn:Ep; try (intros k; left; done).
  - rewrite step_world. intros k. left. by rewrite get_world.
  - rewrite step_world. intros k. pose proof (nx_law (lock_key (cache_key p)) (_serialise_lock (request_hash p) (token p)) LOCK_TTL w) as Hl.
    destruct (redis_nx _ _ _ w) as [res w']. destruct Hl as [Hf Hl]. cbn [snd].
    destruct (decide (k = lock_key (cache_key p))) as [->|Hne]; [|left; by apply Hf].
    destruct res as [[]|e]; [|by left|]; [right; right; naive_solver|destruct Hl; [by left|right; right; naive_solver]].
  - rewrite step_world. intros k. left. by rewrite get_world.
  - intros k. destruct (decide (k = data_key (cache_key p))) as [->|Hne]; [by right; left|left].
    pose proof (setex_law (data_key (cache_key p)) ttl (_serialise_cached c) w k Hne) as Hl.
    by destruct (redis_setex _ _ _ w).
  - destruct (renewal p); [intros k; by left|]. destruct has_eval; [|intros k; by left]. rewrite step_world. intros k.
    pose proof (eval_law (lock_key (cache_key p)) (token p) w) as [Hf Hl]. cbv zeta in *.
    destruct (decide (k = lock_key (cache_key p))) as [->|Hne]; [|left; by apply Hf].
    destruct Hl; [by left|right; right; naive_solver].
  - rewrite step_world. intros k. left. by rewrite get_world.
  - rewrite step_world. intros k. destruct (decide (k = lock_key (cache_key p))) as [->|Hne].
    + right. right. split; [done|right]. apply Hh. unfold holder. by rewrite Ep.
    + left. by apply delete_law.
Qed.

(** A place where the lock is sure to be held is reached with it. *)
Lemma advance_holds ttl o p w l w' : (holder p = true -> holds w p) ->
  advance ttl o p w = (Ok l, w') -> holder (at_ l p) = true -> holds w' p.
Proof.
  intros Hh. unfold advance, holds. destruct (at_place p) eqn:Ep.
  - unfold step. destruct (redis_get _ w) as [[d|e] w1]; repeat case_match; intros [= <- <-]; done.
  - unfold step. pose proof (nx_law (lock_key (cache_key p)) (_serialise_lock (request_hash p) (token p)) LOCK_TTL w) as Hl.
    destruct (redis_nx _ _ _ w) as [[[]|e] w1]; repeat case_match; intros [= <- <-]; try done.
    destruct Hl as [_ [_ ->]]. intros _. apply lock_token_own.
  - unfold step. destruct (redis_get _ w) as [[d|e] w1]; repeat case_match; intros [= <- <-]; done.
  - intros [= <- <-] _. apply Hh. unfold holder. by rewrite Ep.
  - destruct (redis_setex _ _ _ w) as [res w1]. intros [= <- <-]. done.
  - destruct (renewal p); [by intros [= <- <-]|]. destruct has_eval; [|by intros [= <- <-]].
    unfold step. destruct (redis_eval _ _ w) as [[d|e'] w1]; repeat case_match; intros [= <- <-]; done.
  - unfold step. pose proof (get_law (lock_key (cache_key p)) w) as Hl.
    destruct (redis_get _ w) as [[d|e] w1]; destruct Hl as [Hw Hv]; [|repeat case_match; by intros [= <- <-]].
    specialize (Hv d eq_refl). destruct (lock_token d) as [t|] eqn:Et; [|by intros [= <- <-]].
    destruct (String.eqb_spec t (token p)) as [<-|]; intros [= <- <-]; [|done]. by rewrite Hw, <- Hv.
  - unfold step. destruct (redis_delete _ w) as [[d|e] w1]; repeat case_match; intros [= <- <-]; done.
  - intros [= <- <-]. done.
Qed.
Lemma renew_world p w : held (snd (renew p w)) = held w.
Proof.
  unfold renew, mbind, M_bind. pose proof (get_law (lock_key (cache_key p)) w) as Hl.
  destruct (redis_get _ w) as [[lock|e] w1]; destruct Hl as [Hw Hv]; [|done].
  destruct (lock_token lock) as [t|]; [|done]. destruct (negb _); [done|]. destruct has_expire; [|done].
  pose proof (expire_law (lock_key (cache_key p)) LOCK_TTL w1) as He. unfold try_except.
  destruct (redis_expire _ _ w1) as [[[]|e] w2]; simpl in *; [congruence|]. destruct (catchable e); simpl; congruence.
Qed.

(** No two requests have the same token, and each has the lock its place says. *)
Record exclusive (es : list redis_event) (s : cluster W) : Prop := {
  excl_tokens : NoDup ((token <$> procs s) ++ tokens es);
  excl_holds i p : procs s !! i = Some p -> holder p = true -> holds (world s) p }.

Lemma tokens_insert (ps : list process) i p q : ps !! i = Some p -> token q = token p ->
  token <$> <[i:=q]> ps = token <$> ps.
Proof. intros Hi Ht. rewrite list_fmap_insert. apply list_insert_id. by rewrite list_lookup_fmap, Hi, Ht. Qed.

(** Requests at different positions have different tokens. *)
Lemma token_inj (ps : list process) i j p q : NoDup (token <$> ps) -> ps !! i = Some p -> ps !! j = Some q ->
  token p = token q -> i = j.
Proof. intros Hn Hi Hj Ht. eapply (NoDup_lookup _ i j (token p)); [done|by rewrite list_lookup_fmap, Hi|by rewrite list_lookup_fmap, Hj, Ht]. Qed.

(** The step of one request leaves the locks of the others. *)
Lemma others_hold w w' p q : touches_own p w w' -> token p <> token q -> holds w q -> holds w' q.
Proof.
  unfold holds. intros Ht Hne Hq. destruct (Ht (lock_key (cache_key q))) as [->|[Hk|[Hk [Hf|Hf]]]]; [done|..].
  - by apply eq_sym, keys_differ in Hk.
  - by rewrite Hf in Hq.
  - rewrite Hf in Hq. by injection Hq.
Qed.

Lemma step_exclusive ttl e es s : exclusive (e :: es) s -> exclusive es (redis_step ttl e s).
Proof.
  intros [Hn Hh]. destruct e as [k h t|i o|i]; simpl in Hn |- *.
  - split; simpl.
    + rewrite fmap_app, <- app_assoc. done.
    + intros j p Hj Hp. apply lookup_app_Some in Hj as [Hj|[_ Hj]]; [by eapply Hh|].
      apply list_lookup_singleton_Some in Hj as [_ <-]. done.
  - destruct (procs s !! i) as [p|] eqn:Hi; [|by split]. pose proof (proj1 (proj1 (NoDup_app _ _) Hn)) as Hn'.
    pose proof (advance_touches ttl o p (world s) (Hh _ _ Hi)) as Ht.
    pose proof (fun l w' => advance_holds ttl o p (world s) l w' (Hh _ _ Hi)) as Ha.
    assert (Hkeep : forall w' j q, touches_own p (world s) w' -> j <> i -> procs s !! j = Some q -> holder q = true -> holds w' q).
    { intros w' j q Hw Hji Hj Hq. apply (others_hold (world s) w' p); [done| |by eapply Hh].
      intros Heq. by destruct Hji; eapply token_inj. }
    destruct (advance_rank ttl o p (world s)) as (l & w' & Heq & _). rewrite Heq in *. simpl in Ht.
    split; simpl; [by rewrite (tokens_insert _ _ p)|]. intros j q [[<- [<- _]]|[Hne Hj]]%list_lookup_insert_Some Hq.
    + by apply (Ha l w').
    + by eapply Hkeep.
  - destruct (procs s !! i) as [p|] eqn:Hi; [|by split]. destruct (in_charge p); [|by split].
    pose proof (renew_world p (world s)) as Hw. destruct (renew p (world s)) as [[b|e] w']; simpl in Hw.
    + split; [done|]. simpl. unfold holds in *. rewrite Hw. done.
    + split; simpl; [by rewrite (tokens_insert _ _ p)|]. unfold holds in *. rewrite Hw.
      intros j q [[<- [<- _]]|[Hne Hj]]%list_lookup_insert_Some Hq; [by apply (Hh i p)|by eapply Hh].
Qed.

Lemma run_exclusive ttl es : forall s, exclusive es s -> exclusive [] (redis_run ttl es s).
Proof. induction es as [|e es IH]; intros s Hs; [done|]. by apply IH, (step_exclusive _ e). Qed.

(** C21: However the operations of the requests interleave, whichever of them fail,
    and whatever the renewal of the locks does, at most one request under a key
    is running or storing its response, when the tokens are distinct and no lock
    lapses. *)
Theorem redis_mutual_exclusion ttl es w i j p q : NoDup (tokens es) ->
  let s := redis_run ttl es (Cluster w [] []) in
  procs s !! i = Some p -> procs s !! j = Some q -> in_charge p = true -> in_charge q = true ->
  lock_key (cache_key p) = lock_key (cache_key q) -> i = j.
Proof.
  intros Hn. destruct (run_exclusive ttl es (Cluster w [] [])) as [Ht Hh]; [by split|]. intros s Hi Hj Hp Hq Hk.
  rewrite app_nil_r in Ht. eapply token_inj; [done..|].
  assert (Hc : forall p, in_charge p = true -> holder p = true) by (intros r; unfold in_charge, holder; by destruct (at_place r)).
  apply Hc in Hp, Hq. apply (Hh _ _ Hi) in Hp. apply (Hh _ _ Hj) in Hq. unfold holds in *. rewrite Hk in Hp. congruence.
Qed.
End exclusion.

(** ** Concrete runs *)

Module Demo.

Definition zeros : list ascii := repeat "0"%char 64.
Definition fit (n : nat) (s : list ascii) : string := String.string_of_list_ascii (take n (s ++ zeros)).

(** A digest of 64 characters, enough for the keys below. *)
#[local] Instance digest : Sha256Bytes := { sha256 bs := fit 64 (map ascii_of_byte bs) }.
#[local] Instance digest_laws : Sha256Laws.
Proof.
  split. intros bs. unfold sha256, digest, fit.
  assert (Hl : forall l, String.length (String.string_of_list_ascii l) = length l) by (induction l; simpl; congruence).
  rewrite Hl, length_take, length_app, (repeat_length "0"%char 64 : length zeros = 64%nat). lia.
Qed.
#[local] Instance rendered : Render := { render _ := [] }.

(** The values by key, whether each of the next readings fails, and a clock that
    advances at each reading. *)
Record store := Store { data : pydict payload; outages : list bool; clock : Q }.
Definition offline : exn := raise_ (subclass "ConnectionError" Exception_) "connection lost".

#[local] Instance store_redis : IdemRedis store := {
  redis_get k s := let s' := Store (data s) (tl (outages s)) (clock s) in
    (if hd false (outages s) then Raise offline else Ok (dget k (data s)), s');
  redis_nx k v _ s := match dget k (data s) with
                      | Some _ => (Ok false, s)
                      | None => (Ok true, Store (dset k v (data s)) (outages s) (clock s))
                      end;
  redis_setex k _ v s := (Ok tt, Store (dset k v (data s)) (outages s) (clock s));
  redis_delete k s := (Ok tt, Store (dpop k (data s)) (outages s) (clock s));
  has_eval := true;
  redis_eval k t s := (Ok tt, match lock_token (dget k (data s)) with
                              | Some t' => if String.eqb t' t then Store (dpop k (data s)) (outages s) (clock s) else s
                              | None => s
                              end);
  has_expire := true;
  redis_expire _ _ s := (Ok tt, s) }.

#[local] Instance store_clock : Monotonic store := {
  monotonic s := (clock s, Store (data s) (outages s) (clock s + 1)) }.

#[local] Program Instance store_laws : IdemRedisLaws store := { held s k := dget k (data s) }.
Next Obligation. intros k w. simpl. destruct (hd false _); [done|]. split; [done|]. by intros v [= <-]. Qed.
Next Obligation.
  intros k v ttl w. simpl. destruct (dget k (data w)) eqn:E; [done|]. simpl. rewrite dget_dset_eq.
  split; [|done]. intros k' Hne. rewrite dget_dset. by destruct (String.eqb_spec k k') as [->|].
Qed.
Next Obligation. intros k ttl v w k' Hne. simpl. rewrite dget_dset. by destruct (String.eqb_spec k k') as [->|]. Qed.
Next Obligation. intros k w k' Hne. simpl. apply dget_dpop_ne. done. Qed.
Next Obligation.
  intros k t w. simpl. destruct (lock_token _) as [t'|] eqn:E; [|by split; [|left]].
  destruct (String.eqb_spec t' t) as [->|]; [|by split; [|left]]. split; [|by right].
  intros k' Hne. apply dget_dpop_ne. done.
Qed.
Next Obligation. done. Qed.

(** *** In memory *)

Definition nobody : req_state := {|
  st_request_id := None; st_user_id := None; st_organization_id := None; st_user_email := None;
  st_user_roles := []; st_user := None |}.
Definition post (user key path : string) : request := {|
  method := "POST"; path := path; query := ""; body := [];
  header n := if String.eqb n "Idempotency-Key" then Some key else if String.eqb n "X-User-ID" then Some user else None;
  state := nobody |}.
Definition created : response := Response 201 [] None (Body (utf8 "made")).

(** A key is used, replayed while its response is there, and used anew when it
    has been evicted. *)
Definition day : list event := [
  Arrive 1 (post "u" "k" "/a"); Arrive 2 (post "u" "k" "/a"); Complete 3 0 (Ok created);
  Arrive 4 (post "u" "k" "/a"); Arrive 5 (post "u" "k" "/b"); Arrive 900 (post "u" "k" "/b")].
Definition hash_a : string := _request_hash (post "u" "k" "/a").
Definition hash_b : string := _request_hash (post "u" "k" "/b").
Definition first_part : list entry := [
  Ran "u:k" hash_a 1; Answered "u:k" hash_a (Ok _in_progress_response);
  Stored "u:k" (cached_of created (utf8 "made") hash_a 3); Ended "u:k"].
Definition replayed : result response :=
  Ok (Response 201 [("idempotency-replayed", "true")] None (Body (utf8 "made"))).

Lemma day_ordered : ordered 0 day.
Proof. cbn. lra. Qed.
Definition second_part : list entry :=
  first_part ++ [Answered "u:k" hash_a replayed; Answered "u:k" hash_b (Ok _conflict_response)].
Lemma day_logged : log (run_events day (start 300 0)) = second_part ++ [Ran "u:k" hash_b 900].
Proof. vm_compute. reflexivity. Qed.
Lemma day_replayed : log (run_events day (start 300 0)) =
  first_part ++ Answered "u:k" hash_a replayed :: [Answered "u:k" hash_b (Ok _conflict_response); Ran "u:k" hash_b 900].
Proof. vm_compute. reflexivity. Qed.

Example no_repeated_run_witness :
  runs "u:k" second_part = ends "u:k" second_part /\
  forall c, In (Stored "u:k" c) second_part -> (300 < 900 - created_at c)%Q.
Proof. exact (no_repeated_run 300 0 day second_part [] "u:k" hash_b 900 day_ordered day_logged). Defined.

Example replay_is_earlier_response_witness :
  replayed = Ok _conflict_response \/ replayed = Ok _in_progress_response \/
  exists c, In (Stored "u:k" c) first_part /\ c_hash c = hash_a /\ replayed = _response_from_cached c.
Proof. exact (replay_is_earlier_response 300 0 day first_part _ "u:k" hash_a replayed day_ordered day_replayed). Defined.

(** The user and the key are joined without escaping, so one user's key can be
    another's. *)
Example keys_of_two_users : _cache_namespace (post "a" "b:c" "/") "b:c" = _cache_namespace (post "a:b" "c" "/") "c".
Proof. reflexivity. Qed.

(** Entries are looked for only every ten minutes, so that a response is
    replayed after its lifetime. *)
Example replayed_after_its_lifetime :
  log (run_events [Arrive 1 (post "u" "k" "/a"); Complete 2 0 (Ok created); Arrive 500 (post "u" "k" "/a")] (start 10 0))
  = [Ran "u:k" hash_a 1; Stored "u:k" (cached_of created (utf8 "made") hash_a 2); Ended "u:k";
     Answered "u:k" hash_a replayed].
Proof. vm_compute. reflexivity. Qed.

(** *** In Redis *)

Definition empty : store := Store [] [] 0.
Definition go (i : nat) : redis_event := Step i (Ok created).

Definition two : list redis_event := [Spawn "u:k" hash_a "t1"; Spawn "u:k" hash_a "t2"; go 0; go 1; go 0; go 1].
Definition first_running : process := Process "u:k" hash_a "t1" None Running.

Example redis_mutual_exclusion_witness :
  procs (redis_run 300 two (Cluster empty [] [])) !! 0%nat = Some first_running /\ 0%nat = 0%nat.
Proof.
  assert (Hp : procs (redis_run 300 two (Cluster empty [] [])) !! 0%nat = Some first_running) by (vm_compute; reflexivity).
  split; [exact Hp|]. refine (redis_mutual_exclusion 300 two empty 0 0 first_running first_running _ Hp Hp eq_refl eq_refl eq_refl).
  apply (bool_decide_unpack _). vm_compute. exact I.
Defined.

Definition kept : _CachedResponse := cached_of created (utf8 "made") hash_a 3.
Definition with_kept : store := Store [(data_key "u:k", _serialise_cached kept)] [] 0.

Example redis_replays_witness :
  _dispatch_redis 300 (raise offline) "u:k" hash_a "t1" with_kept = (replayed, with_kept).
Proof.
  assert (Hg : redis_get (data_key "u:k") with_kept = (Ok (Some (_serialise_cached kept)), with_kept)) by (vm_compute; reflexivity).
  etrans; [refine (redis_replays 300 (raise offline) "u:k" hash_a "t1" kept with_kept with_kept Hg _); vm_compute; discriminate|].
  vm_compute. reflexivity.
Defined.

(** A request looks for a stored response before it takes the lock and not
    after: two requests with one key and one body both run, one after the other,
    though Redis works and the first response is stored before the second runs. *)
Theorem redis_runs_twice :
  let s := redis_run 300 [Spawn "u:k" hash_a "t1"; Spawn "u:k" hash_a "t2"; go 0; go 1; go 0; go 0; go 0; go 0; go 1]
    (Cluster empty [] []) in
  (at_place <$> procs s) = [Done (Ok created); Running] /\
  handled s = [("u:k", hash_a); ("u:k", hash_a)] /\
  exists c, _deserialise_cached (dget (data_key "u:k") (data (world s))) 0 = Some c /\ c_hash c = hash_a.
Proof. cbv zeta. split; [vm_compute; reflexivity|]. split; [vm_compute; reflexivity|].
  exists (Cached 201 (utf8 "made") None [] 0 hash_a). split; vm_compute; reflexivity.
Qed.

(** The release awaits the task that renews the lock: when a reading of that
    task failed, its exception takes the place of the stored response, and the
    lock is left. *)
Theorem failed_renewal_loses_response :
  let s := redis_run 300 [Spawn "u:k" hash_a "t1"; go 0; go 0; Renew 0; go 0; go 0; go 0]
    (Cluster (Store [] [false; true] 0) [] []) in
  (at_place <$> procs s) = [Done (Raise offline)] /\
  (exists c, _deserialise_cached (dget (data_key "u:k") (data (world s))) 0 = Some c /\ c_status c = 201) /\
  lock_token (dget (lock_key "u:k") (data (world s))) = Some "t1".
Proof.
  cbv zeta. split; [vm_compute; reflexivity|]. split; [|vm_compute; reflexivity].
  exists (Cached 201 (utf8 "made") None [] 0 hash_a). split; vm_compute; reflexivity.
Qed.
End Demo.
