(* ===== verification/ErrorHandling.v ===== *)
(** * Error handling ([error_handling.py])

    The package's second hierarchy of exceptions, the handler that classifies,
    counts, logs and announces them, its gRPC form, and the decorator, context
    manager and function that wrap other code in it. *)

From S2P Require Import Prelude PyRuntime PyText PyInt.
Local Open Scope Z_scope.

Inductive ErrorSeverity := DEBUG | INFO | WARNING | ERROR | CRITICAL | FATAL.

Inductive ErrorCategory :=
| VALIDATION | AUTHENTICATION | AUTHORIZATION | NETWORK | DATABASE | EXTERNAL_SERVICE | CERTIFICATE | CRYPTOGRAPHY
| PROTOCOL | CONFIGURATION | RESOURCE | BUSINESS_LOGIC | SYSTEM | UNKNOWN.

Definition category_text (c : ErrorCategory) : string :=
  match c with
  | VALIDATION => "validation" | AUTHENTICATION => "authentication" | AUTHORIZATION => "authorization"
  | NETWORK => "network" | DATABASE => "database" | EXTERNAL_SERVICE => "external_service"
  | CERTIFICATE => "certificate" | CRYPTOGRAPHY => "cryptography" | PROTOCOL => "protocol"
  | CONFIGURATION => "configuration" | RESOURCE => "resource" | BUSINESS_LOGIC => "business_logic"
  | SYSTEM => "system" | UNKNOWN => "unknown"
  end.

Inductive RecoveryAction := RETRY | FALLBACK | CIRCUIT_BREAK | ESCALATE | IGNORE | FAIL_FAST.

Definition action_text (a : RecoveryAction) : string :=
  match a with
  | RETRY => "retry" | FALLBACK => "fallback" | CIRCUIT_BREAK => "circuit_break" | ESCALATE => "escalate"
  | IGNORE => "ignore" | FAIL_FAST => "fail_fast"
  end.

#[export] Instance severity_eq : EqDecision ErrorSeverity. Proof. solve_decision. Defined.
#[export] Instance category_eq : EqDecision ErrorCategory. Proof. solve_decision. Defined.
#[export] Instance action_eq : EqDecision RecoveryAction. Proof. solve_decision. Defined.

(** Two categories have different texts. *)
Lemma category_text_inj c c' : category_text c = category_text c' -> c = c'.
Proof. destruct c, c'; by intros. Qed.

Record ErrorContext := Context_ {
  error_id : string; timestamp : Z; ctx_service : string; operation_name : string; user_id : option string;
  request_id : option string; correlation_id : option string; additional_context : pydict string }.

(** ** Exceptions

    [Exc cls text from marty]: the class, [str(e)], [e.__cause__], and what a
    [MartyException] has besides. A chain of causes is finite. *)
Inductive exc := Exc (cls : pyclass) (text : string) (from : option exc) (marty : option fields)
with fields := Fields (message : string) (severity : ErrorSeverity) (category : ErrorCategory) (context : ErrorContext)
  (cause : option exc) (is_retryable is_user_error : bool) (recovery_actions : list RecoveryAction).

Definition exc_class (e : exc) : pyclass := let 'Exc c _ _ _ := e in c.
Definition exc_text (e : exc) : string := let 'Exc _ t _ _ := e in t.
Definition type_name (e : exc) : string := cls_name (exc_class e).
Definition is_a (c : pyclass) (e : exc) : bool := mem (cls_name c) (mro (exc_class e)).
Definition new_exc (c : pyclass) (text : string) : exc := Exc c text None None.

Definition MartyException_cls : pyclass := subclass "MartyException" Exception_.
Definition AttributeError : pyclass := subclass "AttributeError" Exception_.

(** A computation over a state that may raise one of these; what it did to the
    state before remains. *)
Definition E (S A : Type) : Type := S -> (exc + A) * S.
#[export] Instance E_ret {S} : MRet (E S) := fun A a s => (inr a, s).
#[export] Instance E_bind {S} : MBind (E S) := fun A B f m s =>
  match m s with (inr a, s') => f a s' | (inl e, s') => (inl e, s') end.
Definition fails {S A} (e : exc) : E S A := fun s => (inl e, s).

(** [try: m except C as e: h(e)] *)
Definition except {S A} (c : pyclass) (m : E S A) (h : exc -> E S A) : E S A := fun s =>
  match m s with (inl e, s') => if is_a c e then h e s' else (inl e, s') | r => r end.

(** What a computation does when the class caught is [Exception] or
    [BaseException]. *)
Lemma except_ok {S A} c (m : E S A) h s a s' : m s = (inr a, s') -> except c m h s = (inr a, s').
Proof. unfold except. by intros ->. Qed.
Lemma except_raised {S A} c (m : E S A) h s e s' : m s = (inl e, s') -> is_a c e = true -> except c m h s = h e s'.
Proof. unfold except. by intros -> ->. Qed.

(** *** Contexts and [MartyException] *)

Section errors.
Context {W : Type} `{Env W}.

(** [ErrorContext(operation_name=..., ...)]: the default factories run in the
    order of the fields. *)
Definition new_context (operation_name : string) (user_id request_id : option string)
    (additional_context : pydict string) : E W ErrorContext := fun w =>
  let '(id, w) := uuid4 w in
  let '(now, w) := datetime_now w in
  (inr (Context_ id now "" operation_name user_id request_id None additional_context), w).

(** Keyword arguments that are given. *)
Record marty_kwargs := Kwargs {
  k_severity : option ErrorSeverity; k_category : option ErrorCategory; k_context : option ErrorContext;
  k_cause : option exc; k_is_retryable : option bool; k_is_user_error : option bool;
  k_recovery_actions : option (list RecoveryAction) }.
Definition no_kwargs : marty_kwargs := Kwargs None None None None None None None.

Definition MartyException (cls : pyclass) (text : string) (kw : marty_kwargs) : E W exc :=
  context ← match k_context kw with Some c => mret c | None => new_context "" None None [] end;
  mret (Exc cls text None (Some (Fields text (default ERROR (k_severity kw)) (default UNKNOWN (k_category kw)) context
    (k_cause kw) (default false (k_is_retryable kw)) (default false (k_is_user_error kw))
    (default [] (k_recovery_actions kw))))).

Definition both {A} (a b : option A) : bool := opt_is_some a && opt_is_some b.
Definition either {A} (a b : option A) : option A := match a with Some _ => a | None => b end.

(** [super().__init__(message, severity=..., **kwargs)]: a keyword may not be
    given twice. *)
Definition subclass_init (name : string) (own : marty_kwargs) (message : string) (kw : marty_kwargs) : E W exc :=
  if both (k_severity own) (k_severity kw) || both (k_category own) (k_category kw) ||
     both (k_is_retryable own) (k_is_retryable kw) || both (k_is_user_error own) (k_is_user_error kw) ||
     both (k_recovery_actions own) (k_recovery_actions kw)
  then fails (new_exc TypeError "got multiple values for keyword argument")
  else MartyException (subclass name MartyException_cls) message
    (Kwargs (either (k_severity own) (k_severity kw)) (either (k_category own) (k_category kw)) (k_context kw) (k_cause kw)
       (either (k_is_retryable own) (k_is_retryable kw)) (either (k_is_user_error own) (k_is_user_error kw))
       (either (k_recovery_actions own) (k_recovery_actions kw))).

Definition ValidationError := subclass_init "ValidationError"
  (Kwargs (Some WARNING) (Some VALIDATION) None None None (Some true) None).
Definition AuthenticationError := subclass_init "AuthenticationError"
  (Kwargs (Some ERROR) (Some AUTHENTICATION) None None None None (Some [FAIL_FAST])).
Definition AuthorizationError := subclass_init "AuthorizationError"
  (Kwargs (Some ERROR) (Some AUTHORIZATION) None None None None (Some [FAIL_FAST])).
Definition NetworkError := subclass_init "NetworkError"
  (Kwargs (Some ERROR) (Some NETWORK) None None (Some true) None (Some [RETRY; CIRCUIT_BREAK])).
Definition ExternalServiceError := subclass_init "ExternalServiceError"
  (Kwargs (Some ERROR) (Some EXTERNAL_SERVICE) None None (Some true) None (Some [RETRY; FALLBACK])).
Definition CertificateError := subclass_init "CertificateError"
  (Kwargs (Some CRITICAL) (Some CERTIFICATE) None None None None (Some [ESCALATE])).
Definition CryptographyError := subclass_init "CryptographyError"
  (Kwargs (Some CRITICAL) (Some CRYPTOGRAPHY) None None None None (Some [ESCALATE])).
Definition ConfigurationError := subclass_init "ConfigurationError"
  (Kwargs (Some FATAL) (Some CONFIGURATION) None None None None (Some [FAIL_FAST])).
Definition ResourceError := subclass_init "ResourceError"
  (Kwargs (Some CRITICAL) (Some RESOURCE) None None None None (Some [CIRCUIT_BREAK; ESCALATE])).
End errors.

Record ErrorDetails := Details {
  exception_type : string; message : string; severity : ErrorSeverity; category : ErrorCategory; context : ErrorContext;
  traceback_info : string; cause_chain : list string; recovery_actions : list RecoveryAction; is_retryable : bool;
  is_user_error : bool; sensitive_data : bool }.

(** ** The handler *)

(** [str(e)] with its class, for the exception and the causes behind it. *)
Fixpoint chain (e : exc) : list string :=
  (type_name e +:+ ": " +:+ exc_text e) :: match e with Exc _ _ (Some e') _ => chain e' | Exc _ _ None _ => [] end.

Definition any_in (keywords : list string) (text : string) : bool := existsb (fun k => contains k text) keywords.

Definition _classify_exception (e : exc) : ErrorCategory * ErrorSeverity * bool :=
  let exception_type := str_lower (type_name e) in
  let exception_message := str_lower (exc_text e) in
  if any_in ["connection"; "network"; "timeout"; "socket"] exception_type then (NETWORK, ERROR, true)
  else if any_in ["value"; "type"; "attribute"; "key"] exception_type then (VALIDATION, WARNING, false)
  else if any_in ["certificate"; "crypto"; "ssl"; "tls"] exception_message then (CERTIFICATE, CRITICAL, false)
  else if any_in ["database"; "sql"; "connection"] exception_type then (DATABASE, ERROR, true)
  else if contains "permission" exception_type || contains "access" exception_type then (AUTHORIZATION, ERROR, false)
  else if any_in ["memory"; "resource"; "limit"] exception_type then (RESOURCE, CRITICAL, false)
  else (UNKNOWN, ERROR, false).

Definition _suggest_recovery_actions (c : ErrorCategory) (s : ErrorSeverity) : list RecoveryAction :=
  if decide (s = FATAL) then [FAIL_FAST]
  else if decide (c = NETWORK) then [RETRY; CIRCUIT_BREAK]
  else if decide (c = EXTERNAL_SERVICE) then [RETRY; FALLBACK]
  else if mem c [VALIDATION; AUTHENTICATION; AUTHORIZATION] then [FAIL_FAST]
  else if mem c [CERTIFICATE; CRYPTOGRAPHY] then [ESCALATE]
  else if decide (c = RESOURCE) then [CIRCUIT_BREAK; ESCALATE]
  else [RETRY].

(** The handler's own state, and what its logger has written, by level. *)
Record handler := Handler {
  service_name : string; error_counts : pydict Z; last_errors : pydict Z; logged : list (string * string) }.

Definition new_handler (service_name : string) : handler := Handler service_name [] [] [].

Definition log (level text : string) (h : handler) : handler :=
  Handler (service_name h) (error_counts h) (last_errors h) (logged h ++ [(level, text)]).

Definition error_key (d : ErrorDetails) : string := category_text (category d) +:+ ":" +:+ exception_type d.

Definition _update_error_statistics (d : ErrorDetails) (h : handler) : handler :=
  let key := error_key d in
  Handler (service_name h) (dset key (default 0 (dget key (error_counts h)) + 1) (error_counts h))
    (dset key (timestamp (context d)) (last_errors h)) (logged h).

(** [traceback.format_exc()] *)
Class Traceback (W : Type) := { format_exc : W -> string }.

Section handling.
Context {W : Type} `{Env W, Traceback W}.
(** The callbacks, which may use the handler they belong to. *)
Context (error_callbacks : list (ErrorDetails -> E (handler * W) unit)).
Local Abbreviation S := (handler * W)%type.

Definition in_world {A} (m : E W A) : E S A := fun s => let '(r, w) := m (snd s) in (r, (fst s, w)).
Definition change (f : handler -> handler) : E S unit := fun s => (inr tt, (f (fst s), snd s)).

Definition _get_traceback : E S string := fun s => (inr (format_exc (snd s)), s).

Definition _handle_marty_exception (e : exc) (f : fields) (c : ErrorContext) : E S ErrorDetails :=
  let 'Fields msg sev cat _ cause retry user actions := f in
  tb ← _get_traceback;
  mret (Details (type_name e) msg sev cat c tb (match cause with Some e' => chain e' | None => [] end) actions retry user false).

Definition _handle_generic_exception (e : exc) (c : ErrorContext) : E S ErrorDetails :=
  let '(cat, sev, retry) := _classify_exception e in
  tb ← _get_traceback;
  mret (Details (type_name e) (exc_text e) sev cat c tb [] (_suggest_recovery_actions cat sev) retry false false).

(** *** Logging

    The attributes of [ErrorDetails] whose values are texts. *)
Definition text_attributes (d : ErrorDetails) : pydict string :=
  [("exception_type", exception_type d); ("message", message d); ("traceback_info", traceback_info d)].

Definition text_attribute (name : string) (d : ErrorDetails) : E S string :=
  match dget name (text_attributes d) with
  | Some t => mret t
  | None => fails (new_exc AttributeError ("'ErrorDetails' object has no attribute '" +:+ name +:+ "'"))
  end.

Definition labelled (label : string) (value : option string) : list string :=
  match value with Some v => if String.eqb v "" then [] else [label +:+ v] | None => [] end.

Definition _format_log_message (d : ErrorDetails) : E S string :=
  let c := context d in
  id ← text_attribute "error_id" d;
  mret (join " | " (
    ["[" +:+ String.substring 0 8 id +:+ "]"; exception_type d +:+ ": " +:+ message d;
     "Category: " +:+ category_text (category d)] ++
    labelled "Operation: " (Some (operation_name c)) ++
    (if sensitive_data d then [] else labelled "User: " (user_id c)) ++
    labelled "Request: " (request_id c) ++
    (if is_retryable d then ["(Retryable)"] else []) ++
    match recovery_actions d with
    | [] => []
    | actions => ["Recovery: [" +:+ join ", " (map action_text actions) +:+ "]"]
    end)).

Definition _log_error (d : ErrorDetails) : E S unit :=
  log_message ← _format_log_message d;
  change match severity d with
         | DEBUG => log "DEBUG" log_message | INFO => log "INFO" log_message | WARNING => log "WARNING" log_message
         | ERROR => log "ERROR" log_message | CRITICAL => log "CRITICAL" log_message
         | FATAL => log "CRITICAL" ("FATAL ERROR: " +:+ log_message)
         end.

Definition notify (d : ErrorDetails) (callback : ErrorDetails -> E S unit) : E S unit :=
  except Exception_ (callback d) (fun _ => change (log "ERROR" "Error callback failed")).

Fixpoint notify_all (d : ErrorDetails) (callbacks : list (ErrorDetails -> E S unit)) : E S unit :=
  match callbacks with [] => mret tt | cb :: cbs => _ ← notify d cb; notify_all d cbs end.

Definition with_service (name : string) (c : ErrorContext) : ErrorContext :=
  Context_ (error_id c) (timestamp c) name (operation_name c) (user_id c) (request_id c) (correlation_id c)
    (additional_context c).

Definition details_of (e : exc) (c : ErrorContext) : E S ErrorDetails :=
  match e with
  | Exc _ _ _ (Some f) => _handle_marty_exception e f c
  | Exc _ _ _ None => _handle_generic_exception e c
  end.

(** The context is the object that was passed, with its service set. *)
Definition handle_error (e : exc) (given : option ErrorContext) (suppress_logging : bool) : E S ErrorDetails :=
  context ← match given with Some c => mret c | None => in_world (new_context "" None None []) end;
  error_details ← (fun s => details_of e (with_service (service_name (fst s)) context) s);
  _ ← change (_update_error_statistics error_details);
  _ ← (if suppress_logging then mret tt else _log_error error_details);
  _ ← notify_all error_details error_callbacks;
  mret error_details.
End handling.

(** ** gRPC *)

Class GrpcContext (W : Type) := {
  invocation_metadata : E W (list (string * string));
  set_code : string -> E W unit;
  set_details : string -> E W unit;
  set_trailing_metadata : list (string * string) -> E W unit }.

Definition pairs_dict (l : list (string * string)) : pydict string := foldl (fun d kv => dset (fst kv) (snd kv) d) [] l.

Definition status_code_map : list (ErrorCategory * string) := [
  (VALIDATION, "INVALID_ARGUMENT"); (AUTHENTICATION, "UNAUTHENTICATED"); (AUTHORIZATION, "PERMISSION_DENIED");
  (NETWORK, "UNAVAILABLE"); (EXTERNAL_SERVICE, "UNAVAILABLE"); (CERTIFICATE, "INTERNAL"); (CRYPTOGRAPHY, "INTERNAL");
  (CONFIGURATION, "FAILED_PRECONDITION"); (RESOURCE, "RESOURCE_EXHAUSTED"); (BUSINESS_LOGIC, "FAILED_PRECONDITION");
  (UNKNOWN, "INTERNAL")].

Definition status_of (c : ErrorCategory) : string :=
  match List.find (fun kv => bool_decide (fst kv = c)) status_code_map with Some (_, s) => s | None => "INTERNAL" end.

Section grpc.
Context {W : Type} `{Env W, Traceback W, GrpcContext W}.
Context (error_callbacks : list (ErrorDetails -> E (handler * W) unit)).
Local Abbreviation S := (handler * W)%type.

Definition _get_grpc_request_id : E W (option string) :=
  except BaseException
    (md ← invocation_metadata;
     let d := pairs_dict md in
     mret (if str_truthy (dget "request-id" d) then dget "request-id" d else dget "x-request-id" d))
    (fun _ => mret None).

Definition _get_grpc_metadata : E W (pydict string) :=
  except BaseException (md ← invocation_metadata; mret (pairs_dict md)) (fun _ => mret []).

Definition client_details (d : ErrorDetails) : string :=
  if is_user_error d then message d
  else "Internal error occurred. Error ID: " +:+ String.substring 0 8 (error_id (context d)).

Definition _set_grpc_context (d : ErrorDetails) : E W unit :=
  _ ← set_code (status_of (category d));
  _ ← set_details (client_details d);
  set_trailing_metadata [("error-id", error_id (context d)); ("error-category", category_text (category d))].

Definition handle_grpc_error (e : exc) (operation_name : string) (user_id : option string) : E S unit :=
  error_context ← in_world (
    request_id ← _get_grpc_request_id;
    metadata ← _get_grpc_metadata;
    new_context operation_name user_id request_id metadata);
  error_details ← handle_error error_callbacks e (Some error_context) false;
  in_world (_set_grpc_context error_details).
End grpc.

(** ** The texts [uuid.UUID] reads *)

Definition is_brace (c : ascii) : bool := (nat_of_ascii c =? 123)%nat || (nat_of_ascii c =? 125)%nat.
Fixpoint strip_left (f : ascii -> bool) (s : string) : string :=
  match s with String c s' => if f c then strip_left f s' else s | EmptyString => "" end.
Definition strip_braces (s : string) : string :=
  String.rev (strip_left is_brace (String.rev (strip_left is_brace s))).

Definition hex_value (c : ascii) : option Z :=
  let n := nat_of_ascii c in
  if (48 <=? n)%nat && (n <=? 57)%nat then Some (Z.of_nat n - 48)
  else if (97 <=? n)%nat && (n <=? 102)%nat then Some (Z.of_nat n - 87)
  else if (65 <=? n)%nat && (n <=? 70)%nat then Some (Z.of_nat n - 55)
  else None.

(** Digits with single underscores between them. *)
Fixpoint hex_digits (acc : Z) (after_digit : bool) (s : string) : option Z :=
  match s with
  | EmptyString => if after_digit then Some acc else None
  | String c s =>
      if Ascii.eqb c underscore then if after_digit then hex_digits acc false s else None
      else v ← hex_value c; hex_digits (acc * 16 + v) true s
  end.

(** After the prefix [0x] an underscore may come first. *)
Definition hex_unsigned (s : string) : option Z :=
  match s with
  | String z (String x s') =>
      if (nat_of_ascii z =? 48)%nat && ((nat_of_ascii x =? 120)%nat || (nat_of_ascii x =? 88)%nat)
      then match s' with
           | String u s'' => if Ascii.eqb u underscore then hex_digits 0 false s'' else hex_digits 0 false s'
           | EmptyString => None
           end
      else hex_digits 0 false s
  | _ => hex_digits 0 false s
  end.

(** [int(s, 16)] *)
Definition parse_hex (s : string) : option Z :=
  match strip s with
  | String c s' =>
      if Ascii.eqb c (ascii_of_nat 45) then option_map Z.opp (hex_unsigned s')
      else if Ascii.eqb c (ascii_of_nat 43) then hex_unsigned s'
      else hex_unsigned (String c s')
  | EmptyString => None
  end.

Definition dashes : string := String (ascii_of_nat 45) "".
Definition uuid_value (s : string) : option Z :=
  let hex := str_replace dashes "" (strip_braces (str_replace "uuid:" "" (str_replace "urn:" "" s))) in
  if (String.length hex =? 32)%nat
  then n ← parse_hex hex; if (0 <=? n) && (n <? 2 ^ 128) then Some n else None
  else None.

(** ** Wrappers *)

Section wrappers.
Context {W : Type} `{Env W, Traceback W}.
Context (error_callbacks : list (ErrorDetails -> E (handler * W) unit)).
Local Abbreviation S := (handler * W)%type.

(** Handling by the handler, or by one made for the occasion. *)
Definition handle_with (own : bool) (e : exc) (c : ErrorContext) (suppress : bool) : E S ErrorDetails :=
  if own then handle_error error_callbacks e (Some c) suppress
  else fun s => let '(r, s') := handle_error [] e (Some c) suppress (new_handler "unknown", snd s) in (r, (fst s, snd s')).

(** [handle_errors(handler, operation_name, ...)(func)], with [func.__name__]. *)
Definition handle_errors {A} (own : bool) (operation_name func_name : string) (suppress_logging reraise : bool)
    (func : E S A) : E S (A + ErrorDetails) :=
  except Exception_ (a ← func; mret (inl a)) (fun e =>
    c ← in_world (new_context (if String.eqb operation_name "" then func_name else operation_name) None None []);
    d ← handle_with own e c suppress_logging;
    if reraise then fails e else mret (inr d)).

(** [with error_context(...) as c: body] *)
Definition error_context {A} (operation_name : string) (user_id : option string) (extra : pydict string)
    (body : ErrorContext -> E S A) : E S A :=
  c ← in_world (new_context operation_name user_id None extra);
  except Exception_ (body c) (fun e => _ ← handle_error error_callbacks e (Some c) false; fails e).

Definition safe_execute {A} (func : E S A) (operation_name : string) (default_return : A) (suppress_errors : bool) : E S A :=
  except Exception_ func (fun e =>
    c ← in_world (new_context operation_name None None []);
    _ ← handle_error error_callbacks e (Some c) suppress_errors;
    if suppress_errors then mret default_return else fails e).

(** *** Requirements on values *)

Definition require_not_none {A} (value : option A) (text : string) : E W A :=
  match value with Some a => mret a | None => e ← ValidationError text no_kwargs; fails e end.

Definition require_not_empty (value text : string) : E W string :=
  if String.eqb value "" || String.eqb (strip value) "" then e ← ValidationError text no_kwargs; fails e else mret value.
Definition require_valid_uuid (value text : string) : E W string :=
  match uuid_value value with Some _ => mret value | None => e ← ValidationError text no_kwargs; fails e end.
End wrappers.

(** ** Theorems *)

Section theorems.
Context {W : Type} `{Env W, Traceback W}.
Local Abbreviation S := (handler * W)%type.
Implicit Types (cbs : list (ErrorDetails -> E S unit)) (h : handler) (w : W) (c : ErrorContext) (d : ErrorDetails).

Definition no_error_id : exc := new_exc AttributeError "'ErrorDetails' object has no attribute 'error_id'".

(** The details made of an exception. *)
Definition described (e : exc) c h w : ErrorDetails :=
  match details_of (W:=W) e (with_service (service_name h) c) (h, w) with (inr d, _) => d | (inl _, _) => 
    Details "" "" ERROR UNKNOWN c "" [] [] false false false end.

Lemma details_described e c h w :
  details_of e (with_service (service_name h) c) (h, w) = (inr (described e c h w), (h, w)).
Proof.
  unfold described. destruct e as [cls t from [[m sv cat cx cz r u a]|]]; simpl; [done|].
  unfold _handle_generic_exception. by destruct (_classify_exception _) as [[? ?] ?].
Qed.

Lemma handle_given cbs e c suppress h w :
  handle_error cbs e (Some c) suppress (h, w) =
    (_ ← (if suppress then mret tt else _log_error (described e c h w));
     _ ← notify_all (described e c h w) cbs;
     mret (described e c h w)) (_update_error_statistics (described e c h w) h, w).
Proof. unfold handle_error. unfold mbind at 1 2 3, E_bind, mret at 1, E_ret. simpl fst. by rewrite details_described. Qed.

Lemma log_fails d s : _log_error (W:=W) d s = (inl no_error_id, s).
Proof. done. Qed.

(** An error that is to be logged is counted and nothing else: handling it ends
    with an [AttributeError], no line is written and no callback is told. *)
Theorem logged_error_raises cbs e c h w :
  handle_error cbs e (Some c) false (h, w) =
    (inl no_error_id, (_update_error_statistics (described e c h w) h, w)) /\
  logged (_update_error_statistics (described e c h w) h) = logged h.
Proof. split; [|done]. rewrite handle_given. unfold mbind, E_bind. by rewrite log_fails. Qed.

(** Only [Exception]s: a callback that is interrupted interrupts the handler. *)
Definition tame cbs : Prop := forall cb d s e s', In cb cbs -> cb d s = (inl e, s') -> is_a Exception_ e = true.

Lemma callbacks_return cbs d s : tame cbs -> exists s', notify_all d cbs s = (inr tt, s').
Proof.
  revert s. induction cbs as [|cb cbs IH]; intros s Ht; [by exists s|]. simpl.
  unfold mbind, E_bind, notify, except. destruct (cb d s) as [[e|[]] s'] eqn:Hc.
  - rewrite (Ht cb d s e s'); [|by left|done]. apply IH. intros ? ? ? ? ? Hin. apply (Ht _ _ _ _ _ (or_intror Hin)).
  - apply IH. intros ? ? ? ? ? Hin. apply (Ht _ _ _ _ _ (or_intror Hin)).
Qed.

(** Without logging the details are always given, whatever exceptions the
    callbacks raise. *)
Lemma suppressed_handled cbs e c h w : tame cbs -> exists s',
  handle_error cbs e (Some c) true (h, w) = (inr (described e c h w), s') /\
  notify_all (described e c h w) cbs (_update_error_statistics (described e c h w) h, w) = (inr tt, s').
Proof.
  intros Ht. destruct (callbacks_return cbs (described e c h w) (_update_error_statistics (described e c h w) h, w) Ht) as [s' Hs].
  exists s'. split; [|done]. rewrite handle_given. unfold mbind, E_bind, mret, E_ret. by rewrite Hs.
Qed.

(** *** Statistics *)

(** The calls of a handler: the exception, its context, and whether logging is
    suppressed. *)
Definition call := (exc * ErrorContext * bool)%type.
Definition handle_all cbs (calls : list call) (s : S) : S :=
  foldl (fun s '(e, c, q) => snd (handle_error cbs e (Some c) q s)) s calls.

(** The callbacks leave the statistics alone. *)
Definition discreet cbs : Prop := forall cb d s, In cb cbs ->
  error_counts (fst (snd (cb d s))) = error_counts (fst s) /\ last_errors (fst (snd (cb d s))) = last_errors (fst s) /\
  service_name (fst (snd (cb d s))) = service_name (fst s).

Lemma notify_discreet cbs d s : discreet cbs ->
  error_counts (fst (snd (notify_all d cbs s))) = error_counts (fst s) /\
  last_errors (fst (snd (notify_all d cbs s))) = last_errors (fst s).
Proof.
  revert s. induction cbs as [|cb cbs IH]; intros s Hd; [done|]. simpl.
  assert (Hd' : discreet cbs) by (intros cb' d' s' Hin; apply Hd; by right).
  destruct (Hd cb d s (or_introl eq_refl)) as (Hc & Hl & _). unfold mbind, E_bind, notify, except.
  destruct (cb d s) as [[e|[]] s'] eqn:Hcb; simpl in Hc, Hl.
  - destruct (is_a Exception_ e); [|done]. destruct (IH (log "ERROR" "Error callback failed" (fst s'), snd s') Hd') as [H1 H2].
    unfold change. rewrite H1, H2. done.
  - destruct (IH s' Hd') as [H1 H2]. rewrite H1, H2. done.
Qed.

Lemma handle_statistics cbs e c q h w : discreet cbs ->
  let s' := snd (handle_error cbs e (Some c) q (h, w)) in
  let h' := _update_error_statistics (described e c h w) h in
  error_counts (fst s') = error_counts h' /\ last_errors (fst s') = last_errors h'.
Proof.
  intros Hd. cbv zeta. rewrite handle_given. destruct q.
  - unfold mbind, E_bind, mret, E_ret. pose proof (notify_discreet cbs (described e c h w)
      (_update_error_statistics (described e c h w) h, w) Hd) as Hn.
    destruct (notify_all _ _ _) as [[?|[]] s']; done.
  - unfold mbind, E_bind. by rewrite log_fails.
Qed.

(** The key depends on the exception only. *)
Definition key_of (e : exc) : string :=
  match e with
  | Exc cls _ _ (Some (Fields _ _ cat _ _ _ _ _)) => category_text cat
  | _ => category_text (fst (fst (_classify_exception e)))
  end +:+ ":" +:+ type_name e.

Lemma described_key e c h w : error_key (described e c h w) = key_of e.
Proof.
  unfold described. destruct e as [cls t from [[m sv cat cx cz r u a]|]]; simpl; [done|].
  unfold _handle_generic_exception, error_key, key_of. by destruct (_classify_exception _) as [[? ?] ?].
Qed.

Lemma described_context e c h w : context (described e c h w) = with_service (service_name h) c.
Proof.
  unfold described. destruct e as [cls t from [[m sv cat cx cz r u a]|]]; simpl; [done|].
  unfold _handle_generic_exception. by destruct (_classify_exception _) as [[? ?] ?].
Qed.

Definition of_key (key : string) (calls : list call) : list call :=
  lfilter (fun '(e, _, _) => String.eqb (key_of e) key) calls.

(** C25: The statistics are exact: for each category and type, the number of errors
    handled, logged or not, and the time of the last one. *)
Theorem statistics_exact cbs calls name w key : discreet cbs ->
  let h := fst (handle_all cbs calls (new_handler name, w)) in
  default 0 (dget key (error_counts h)) = Z.of_nat (length (of_key key calls)) /\
  dget key (last_errors h) = option_map (fun '(_, c, _) => timestamp c) (last (of_key key calls)).
Proof.
  intros Hd. induction calls as [|[[e c] q] calls IH] using rev_ind; [done|].
  unfold handle_all in *. rewrite foldl_snoc. cbv zeta in *.
  destruct (foldl _ _ calls) as [h w1]. simpl fst in *.
  destruct (handle_statistics cbs e c q h w1 Hd) as [Hc Hl]. rewrite Hc, Hl.
  unfold _update_error_statistics. simpl. rewrite described_key, described_context. simpl.
  unfold of_key in *. rewrite lfilter_app. simpl. rewrite !dget_dset.
  destruct (String.eqb_spec (key_of e) key) as [->|Hne].
  - rewrite length_app, last_snoc. simpl. destruct IH as [IHc IHl]. split; [|done].
    rewrite IHc, Nat2Z.inj_add. reflexivity.
  - by rewrite app_nil_r.
Qed.
(** *** Wrapped code *)

Lemma handle_unsuppressed cbs e c s : exists s', handle_error cbs e (Some c) false s = (inl no_error_id, s') /\ snd s' = snd s.
Proof. destruct s as [h w]. rewrite handle_given. unfold mbind, E_bind. rewrite log_fails. by eexists. Qed.

Lemma new_context_total op u r md w : exists c w', new_context op u r md w = (inr c, w').
Proof. unfold new_context. destruct (uuid4 w) as [i w1]. destruct (datetime_now w1) as [t w2]. by eexists _, _. Qed.

Lemma in_context op u r md s : exists c w', in_world (new_context op u r md) s = (inr c, (fst s, w')).
Proof.
  unfold in_world. destruct (new_context_total op u r md (snd s)) as (c & w' & Hn). exists c, w'. by rewrite Hn.
Qed.

(** Code wrapped without suppressing the log never raises its own exception: the
    caller gets the handler's [AttributeError] in its place. *)
Theorem original_exception_masked {A} cbs (func : E S A) e s s' own op name reraise dflt user extra :
  func s = (inl e, s') -> is_a Exception_ e = true ->
  fst (handle_errors cbs own op name false reraise func s) = inl no_error_id /\
  fst (safe_execute cbs func op dflt false s) = inl no_error_id /\
  (forall w1 c, new_context op user None extra (snd s) = (inr c, w1) -> forall (body : ErrorContext -> E S A) s2,
     body c (fst s, w1) = (inl e, s2) -> fst (error_context cbs op user extra body s) = inl no_error_id).
Proof.
  intros Hf He. split; [|split].
  - unfold handle_errors. rewrite (except_raised _ _ _ s e s'); [|unfold mbind, E_bind; by rewrite Hf|done].
    unfold mbind, E_bind. destruct (in_context (if String.eqb op "" then name else op) None None [] s') as (c & w' & ->).
    unfold handle_with. destruct own.
    + by destruct (handle_unsuppressed cbs e c (fst s', w')) as (s2 & -> & _).
    + by destruct (handle_unsuppressed [] e c (new_handler "unknown", snd (fst s', w'))) as (s2 & -> & _).
  - unfold safe_execute. rewrite (except_raised _ _ _ s e s') by done. unfold mbind, E_bind.
    destruct (in_context op None None [] s') as (c & w' & ->).
    by destruct (handle_unsuppressed cbs e c (fst s', w')) as (s2 & -> & _).
  - intros w1 c Hc body s2 Hb. unfold error_context, in_world, mbind, E_bind. rewrite Hc.
    rewrite (except_raised _ _ _ _ e s2) by done.
    by destruct (handle_unsuppressed cbs e c s2) as (s3 & -> & _).
Qed.

(** With errors suppressed a function's exception becomes the default value. *)
Theorem suppressed_gives_default {A} cbs (func : E S A) op dflt s : tame cbs ->
  match func s with
  | (inr a, s') => safe_execute cbs func op dflt true s = (inr a, s')
  | (inl e, s') => fst (safe_execute cbs func op dflt true s) = if is_a Exception_ e then inr dflt else inl e
  end.
Proof.
  intros Ht. unfold safe_execute, except. destruct (func s) as [[e|a] s']; [|done].
  destruct (is_a Exception_ e); [|done]. unfold mbind, E_bind.
  destruct (in_context op None None [] s') as (c & w' & ->).
  destruct (suppressed_handled cbs e c (fst s') w' Ht) as (s2 & -> & _). done.
Qed.

(** *** Answers to clients *)

(** Errors that are not the user's own show the client nothing but their
    identifier and category. *)
Theorem internal_errors_are_opaque `{GrpcContext W} d d' :
  is_user_error d = false -> is_user_error d' = false ->
  category d = category d' -> error_id (context d) = error_id (context d') ->
  forall w, _set_grpc_context d w = _set_grpc_context d' w.
Proof. intros Hu Hu' Hc Hi w. unfold _set_grpc_context, client_details. by rewrite Hu, Hu', Hc, Hi. Qed.

(** What of a gRPC request is read before its error is handled. *)
Definition grpc_reading `{GrpcContext W} op user : E W ErrorContext :=
  request_id ← _get_grpc_request_id; metadata ← _get_grpc_metadata; new_context op user request_id metadata.

(** The failure of the log line also keeps the answer from the client: after the
    metadata have been read, nothing more is done to the gRPC context. *)
Theorem grpc_never_answered `{GrpcContext W} cbs e op user h w c w' :
  grpc_reading op user w = (inr c, w') ->
  handle_grpc_error cbs e op user (h, w) = (inl no_error_id, (_update_error_statistics (described e c h w') h, w')).
Proof.
  intros Hr. unfold handle_grpc_error. fold (grpc_reading op user). unfold mbind, E_bind, in_world. simpl. rewrite Hr.
  rewrite handle_given. unfold mbind, E_bind. by rewrite log_fails.
Qed.

(** *** Classification *)

(** What is retryable is told to retry; and an exception that nothing is known
    of is told to retry though it is not retryable. *)
Theorem retry_advice e c h w : (exists cls t from, e = Exc cls t from None) ->
  let d := described e c h w in
  (In RETRY (recovery_actions d) <-> is_retryable d = true \/ category d = UNKNOWN) /\
  (category d = UNKNOWN -> is_retryable d = false).
Proof.
  intros (cls & t & from & ->). unfold described. simpl. unfold _handle_generic_exception.
  destruct (_classify_exception _) as [[cat sev] retry] eqn:Hc. simpl.
  unfold _classify_exception in Hc. repeat case_match; injection Hc as <- <- <-; simpl; naive_solver.
Qed.
End theorems.

(** ** Concrete runs *)

Module Demo.

#[local] Instance no_traceback : Traceback script := { format_exc _ := "NoneType: None" }.
Definition world : script := {| script_ids := ["11111111-1111"; "22222222-2222"]; script_clock := 0 |}.
Definition ctx (now : Z) : ErrorContext := Context_ "00000000-0000" now "" "op" None None None [].

Definition refused : exc := new_exc ConnectionError "refused".
Definition missing : exc := new_exc KeyError "'name'".
Definition odd : exc := new_exc RuntimeError "odd".

(** One callback raises, one works. *)
Definition callbacks : list (ErrorDetails -> E (handler * script) unit) :=
  [(fun d => fails odd); (fun d => mret tt)].

Lemma callbacks_discreet : discreet callbacks.
Proof. by intros cb d s [<-|[<-|[]]]. Qed.
Lemma callbacks_tame : tame callbacks.
Proof. intros cb d s e s' [<-|[<-|[]]]; by intros [= <- <-]. Qed.

Definition calls : list call := [(refused, ctx 1, false); (missing, ctx 2, true); (refused, ctx 3, true)].

Example statistics_exact_witness :
  let h := fst (handle_all callbacks calls (new_handler "demo", world)) in
  default 0 (dget "network:ConnectionError" (error_counts h)) = 2 /\
  dget "network:ConnectionError" (last_errors h) = Some 3.
Proof. exact (statistics_exact callbacks calls "demo" world "network:ConnectionError" callbacks_discreet). Defined.

Example original_exception_masked_witness :
  fst (handle_errors callbacks true "op" "f" false true (fails refused) (new_handler "demo", world)) =
    inl (A:=exc) (B:=unit + ErrorDetails) no_error_id.
Proof.
  exact (proj1 (original_exception_masked (A:=unit) callbacks (fails refused) refused (new_handler "demo", world)
    (new_handler "demo", world) true "op" "f" true tt None [] eq_refl eq_refl)).
Defined.

Example suppressed_gives_default_witness :
  fst (safe_execute callbacks (fails refused) "op" 7 true (new_handler "demo", world)) = inr 7.
Proof. exact (suppressed_gives_default callbacks (fails refused) "op" 7 (new_handler "demo", world) callbacks_tame). Defined.

Example retry_advice_witness :
  let d := described (W:=script) odd (ctx 0) (new_handler "demo") world in
  (In RETRY (recovery_actions d) <-> is_retryable d = true \/ category d = UNKNOWN) /\
  (category d = UNKNOWN -> is_retryable d = false).
Proof. apply (retry_advice odd (ctx 0) (new_handler "demo") world). by eexists _, _, _. Defined.

(** *** A gRPC call *)

(** The metadata, and what the server has set. *)
Record server := Server { environment : script; metadata : list (string * string); answers : list (string * string) }.

#[local] Instance server_env : Env server := {
  uuid4 s := let '(u, e) := uuid4 (environment s) in (u, Server e (metadata s) (answers s));
  datetime_now s := let '(t, e) := datetime_now (environment s) in (t, Server e (metadata s) (answers s)) }.
#[local] Instance server_traceback : Traceback server := { format_exc _ := "" }.
Definition answer (name value : string) : E server unit := fun s =>
  (inr tt, Server (environment s) (metadata s) (answers s ++ [(name, value)])).
#[local] Instance server_grpc : GrpcContext server := {
  invocation_metadata s := (inr (metadata s), s);
  set_code := answer "code";
  set_details := answer "details";
  set_trailing_metadata l := answer "trailing" (join "," (map snd l)) }.

Definition listening : server := Server world [("x-request-id", "r1")] [].
Definition read : ErrorContext := Context_ "11111111-1111" 0 "" "Sign" None (Some "r1") None [("x-request-id", "r1")].
Definition listening' : server := Server (snd (datetime_now (snd (uuid4 world)))) [("x-request-id", "r1")] [].

Example grpc_never_answered_witness :
  handle_grpc_error [] refused "Sign" None (new_handler "demo", listening) =
    (inl no_error_id,
     (_update_error_statistics (described refused read (new_handler "demo") listening') (new_handler "demo"), listening')) /\
  answers listening' = [].
Proof.
  split; [|reflexivity].
  assert (Hr : grpc_reading "Sign" None listening = (inr read, listening')) by (vm_compute; reflexivity).
  exact (grpc_never_answered [] refused "Sign" None (new_handler "demo") listening read listening' Hr).
Defined.

(** [uuid.UUID] takes other texts than the canonical ones. *)
Example canonical_uuid : uuid_value "12345678-1234-5678-1234-567812345678" <> None.
Proof. vm_compute. discriminate. Qed.
Example lenient_uuid : uuid_value "{urn:uuid:0x-1_2_3_4_5_6_7_8_9_0_1_2_3_4_55-}" <> None.
Proof. vm_compute. discriminate. Qed.
Example short_uuid : uuid_value "12345678-1234-5678-1234-56781234567" = None.
Proof. vm_compute. reflexivity. Qed.

(** A keyword the class itself passes cannot be given. *)
Example severity_given_twice :
  fst (ValidationError "m" (Kwargs (Some ERROR) None None None None None None) world) =
    inl (new_exc TypeError "got multiple values for keyword argument").
Proof. vm_compute. reflexivity. Qed.
End Demo.
