(* ===== verification/Biometrics.v ===== *)
(** * Biometric data groups ([security/enhanced_biometric_processing.py])

    What the processor makes of the bytes of DG2 to DG5: headers, templates,
    minutiae and the quality it gives them. Pillow, NumPy and OpenCV are
    [Imaging]; a loop over offsets works on the bytes from the offset on. *)

From Stdlib Require Import Lqa Qabs.
From S2P Require Import Prelude PyRuntime PyText PyBytes PyNumbers.
Local Open Scope Z_scope.

Definition BiometricError : pyclass := subclass "BiometricError" Exception_.
Definition BiometricTemplateError : pyclass := subclass "BiometricTemplateError" BiometricError.
Definition BiometricQualityError : pyclass := subclass "BiometricQualityError" BiometricError.
Definition template_error (msg : string) : exn := raise_ BiometricTemplateError msg.
Definition quality_error (msg : string) : exn := raise_ BiometricQualityError msg.

Inductive BiometricType := FACE | FINGER | IRIS | VOICE | DNA.
Inductive BiometricQualityLevel := EXCELLENT | GOOD | FAIR | POOR | UNUSABLE.
Inductive FaceImageFormat := JPEG | JPEG2000 | PNG | BMP.
Inductive FingerprintFormat := WSQ | ISO_FINGER_MINUTIAE | ANSI_FINGER_MINUTIAE | ISO_FINGER_PATTERN.

Definition image_format_text (f : FaceImageFormat) : string :=
  match f with JPEG => "jpeg" | JPEG2000 => "jpeg2000" | PNG => "png" | BMP => "bmp" end.

#[export] Instance level_eq : EqDecision BiometricQualityLevel. Proof. solve_decision. Defined.
#[export] Instance face_format_eq : EqDecision FaceImageFormat. Proof. solve_decision. Defined.
#[export] Instance finger_format_eq : EqDecision FingerprintFormat. Proof. solve_decision. Defined.

(** ** Environment *)

(** A single-precision float. *)
Inductive float := Finite (q : Q) | Infinite (negative : bool) | NaN.

(** [open_image]: the size [Image.open] finds; [gray_stats]: mean and standard
    deviation of the grey image, and the variance of its Laplacian when OpenCV is
    there; [float_text]: [str] of a float. *)
Class Imaging := {
  open_image : bytes -> result (Z * Z);
  gray_stats : bytes -> result (Q * Q * option Q);
  float_text : float -> string }.

(** Grey values are bytes. *)
Class ImagingLaws `{Imaging} := {
  stats_range bs mean std lap : gray_stats bs = Ok (mean, std, lap) ->
    (0 <= mean <= 255)%Q /\ (0 <= std)%Q /\ forall v, lap = Some v -> (0 <= v)%Q }.

(** ** Data

    Fields with a default that nothing sets or reads are left out. *)

Record BiometricHeader := Header {
  format_owner : Z; format_type : Z; biometric_type : BiometricType; biometric_subtype : Z; creation_date : Z;
  creator : string }.

Record BiometricQualityScore := Score {
  overall_score : Z; quality_level : BiometricQualityLevel; assessment_algorithm : string;
  individual_scores : pydict Z; quality_issues : list string; assessment_timestamp : Z }.

Record FaceTemplate := Face_ {
  f_header : BiometricHeader; image_data : bytes; image_format : FaceImageFormat; width : Z; height : Z;
  compression_ratio : option Q; f_quality : option BiometricQualityScore }.

Record Minutia := Minutia_ {
  m_id : Z; m_x : Z; m_y : Z; m_angle : Z; m_type : string; m_quality : Z }.

Record FingerprintTemplate := Finger_ {
  p_header : BiometricHeader; p_data : bytes; p_format : FingerprintFormat; image_width : Z; image_height : Z;
  resolution : Z; minutiae_count : Z; minutiae_points : list Minutia; p_quality : option BiometricQualityScore }.

Record IrisTemplate := Iris_ {
  i_header : BiometricHeader; i_data : bytes; i_image_format : string; image_diameter : Z; capture_device_id : string;
  rotation_angle : float; iris_center_x : Z; iris_center_y : Z; iris_radius : Z; pupil_radius : Z;
  i_quality : option BiometricQualityScore }.

(** [BiometricHeader.__post_init__] *)
Definition check_header (h : BiometricHeader) : result BiometricHeader :=
  if format_owner h <=? 0 then Raise (template_error "Invalid format owner")
  else if format_type h <=? 0 then Raise (template_error "Invalid format type")
  else Ok h.

(** [BiometricQualityScore.__post_init__] *)
Definition check_score (s : BiometricQualityScore) : result BiometricQualityScore :=
  if (0 <=? overall_score s) && (overall_score s <=? 100) then Ok s
  else Raise (quality_error "Quality score must be between 0 and 100").

Definition level_of (overall_score : Z) : BiometricQualityLevel :=
  if 85 <=? overall_score then EXCELLENT else if 70 <=? overall_score then GOOD
  else if 55 <=? overall_score then FAIR else if 40 <=? overall_score then POOR else UNUSABLE.

(** [int(np.mean(scores))]: the rounded quotient of such small numbers truncates
    to the same integer. *)
Definition int_mean (l : list Z) : Z := Z.quot (sumZ l) (Z.of_nat (length l)).

(** [struct.unpack] of two or four bytes *)
Definition struct_error (n : Z) : exn :=
  raise_ (subclass "error" Exception_) ("unpack requires a buffer of " +:+ z_str n +:+ " bytes").
Definition unpack (n : nat) (bs : bytes) : result Z :=
  if (length bs =? n)%nat then Ok (be bs) else Raise (struct_error (Z.of_nat n)).

(** [bs[a:b]] *)
Definition slice (a b : nat) (bs : bytes) : bytes := take (b - a) (drop a bs).

(** [struct.unpack(">f", bs)] for the 32 bits [n]. *)
Definition float_of (n : Z) : float :=
  let negative := Z.testbit n 31 in
  let e := Z.land (Z.shiftr n 23) 255 in
  let m := Z.land n (2 ^ 23 - 1) in
  let sign (q : Q) := if negative then (- q)%Q else q in
  if e =? 255 then if m =? 0 then Infinite negative else NaN
  else if e =? 0 then Finite (sign (Qmake m (2 ^ 149)))
  else Finite (sign (inject_Z (2 ^ 23 + m) * (if 150 <=? e then inject_Z (2 ^ (e - 150)) else 1 / inject_Z (2 ^ (150 - e))))%Q).

(** [abs(x) <= q] *)
Definition abs_le (x : float) (q : Q) : bool :=
  match x with Finite v => Qle_bool (Qabs v) q | Infinite _ | NaN => false end.

(** ** Quality *)

Section quality.
Context {W : Type} `{Env W, World W, Imaging}.

Definition utcnow : M W Z := fun w => let '(t, w) := datetime_now w in (Ok t, w).

Definition scored (algorithm : string) (scores : pydict Z) (issues : list string) : M W BiometricQualityScore :=
  let overall := int_mean (dvalues scores) in
  now ← utcnow;
  lift (check_score (Score overall (level_of overall) algorithm scores issues now)).

(** A score with an issue when it is not the best. *)
Definition graded (good fair : bool) (best middle worst : Z) (issue : string) : Z * list string :=
  if good then (best, []) else if fair then (middle, []) else (worst, [issue]).

Definition wrapped {A} (what : string) (make : string -> exn) (m : M W A) : M W A :=
  try_except m (fun e => raise (make (what +:+ exn_message e))).

Definition get_image (t : FaceTemplate) : M W (Z * Z) :=
  wrapped "Failed to extract image: " template_error (lift (open_image (image_data t))).

Definition brightness_score (brightness : Q) : Z :=
  Z.max 0 (Z.min 100 (py_int ((255 - Qabs (brightness - 128)) / 127 * 100)%Q)).

Definition face_scores (t : FaceTemplate) (brightness contrast : Q) (laplacian : option Q) : pydict Z * list string :=
  let '(sharp, i1) := match laplacian with
    | Some sharpness => (Z.min (py_int (sharpness / 100)%Q) 100, if Qltb sharpness 50 then ["Image appears blurry"] else [])
    | None => (75, [])
    end in
  let i2 := if Qltb brightness 50 then ["Image is too dark"] else if Qltb 200 brightness then ["Image is too bright"] else [] in
  let i3 := if Qltb contrast 20 then ["Low contrast image"] else [] in
  let pixel_count := width t * height t in
  let '(res, i4) := graded (640 * 480 <=? pixel_count) (320 * 240 <=? pixel_count) 100 75 50 "Low resolution image" in
  let '(comp, i5) :=
    if decide (image_format t = JPEG)
    then match compression_ratio t with
         | Some r => if negb (Qeq_bool r 0) && Qltb (8 # 10) r then (60, ["High compression artifacts detected"]) else (85, [])
         | None => (85, [])
         end
    else (100, []) in
  ([("sharpness", sharp); ("brightness", brightness_score brightness); ("contrast", Z.min (py_int (contrast * 2)%Q) 100);
    ("resolution", res); ("compression", comp)], i1 ++ i2 ++ i3 ++ i4 ++ i5).

Definition with_face_quality (q : BiometricQualityScore) (t : FaceTemplate) : FaceTemplate :=
  Face_ (f_header t) (image_data t) (image_format t) (width t) (height t) (compression_ratio t) (Some q).

(** The template with its quality. *)
Definition calculate_image_quality (t : FaceTemplate) : M W FaceTemplate :=
  wrapped "Failed to calculate face quality: " quality_error (
    _ ← get_image t;
    stats ← lift (gray_stats (image_data t));
    let '(brightness, contrast, laplacian) := stats in
    let '(scores, issues) := face_scores t brightness contrast laplacian in
    q ← scored "Marty_Face_Quality_v1.0" scores issues;
    mret (with_face_quality q t)).

Definition finger_scores (t : FingerprintTemplate) : pydict Z * list string :=
  let '(count, i1) :=
    if 30 <=? minutiae_count t then (100, [])
    else graded (20 <=? minutiae_count t) (12 <=? minutiae_count t) 80 60 30
           ("Low minutiae count: " +:+ z_str (minutiae_count t)) in
  let '(res, i2) := graded (500 <=? resolution t) (400 <=? resolution t) 100 80 60
           ("Low resolution: " +:+ z_str (resolution t) +:+ " DPI") in
  let template_size := Z.of_nat (length (p_data t)) in
  let '(size, i3) := graded (1000 <=? template_size) (500 <=? template_size) 100 80 60 "Small template size" in
  let '(fmt, i4) := if mem (p_format t) [ISO_FINGER_MINUTIAE; WSQ] then (100, [])
                    else (70, ["Non-standard fingerprint format"]) in
  ([("minutiae_count", count); ("resolution", res); ("template_size", size); ("format", fmt)], i1 ++ i2 ++ i3 ++ i4).

Definition with_finger_quality (q : BiometricQualityScore) (t : FingerprintTemplate) : FingerprintTemplate :=
  Finger_ (p_header t) (p_data t) (p_format t) (image_width t) (image_height t) (resolution t) (minutiae_count t)
    (minutiae_points t) (Some q).

Definition calculate_fingerprint_quality (t : FingerprintTemplate) : M W FingerprintTemplate :=
  wrapped "Failed to calculate fingerprint quality: " quality_error (
    let '(scores, issues) := finger_scores t in
    q ← scored "Marty_Fingerprint_Quality_v1.0" scores issues;
    mret (with_finger_quality q t)).

Definition pupil_ratio (t : IrisTemplate) : Q :=
  if 0 <? iris_radius t then (inject_Z (pupil_radius t) / inject_Z (iris_radius t))%Q else 0%Q.
Definition within (a b x : Q) : bool := Qle_bool a x && Qle_bool x b.

Definition iris_scores (t : IrisTemplate) : pydict Z * list string :=
  let '(diameter, i1) := graded (200 <=? image_diameter t) (150 <=? image_diameter t) 100 80 60
           ("Small iris diameter: " +:+ z_str (image_diameter t)) in
  let ratio := pupil_ratio t in
  let '(pupil, i2) := graded (within (2 # 10) (4 # 10) ratio) (within (1 # 10) (6 # 10) ratio) 100 80 50
           ("Abnormal pupil-iris ratio: " +:+ fmt_2f ratio) in
  let template_size := Z.of_nat (length (i_data t)) in
  let '(size, i3) := graded (2000 <=? template_size) (1000 <=? template_size) 100 80 60 "Small iris template" in
  let '(rot, i4) := graded (abs_le (rotation_angle t) 5) (abs_le (rotation_angle t) 15) 100 80 60
           ("High rotation angle: " +:+ float_text (rotation_angle t) +:+ String (ascii_of_nat 176) "") in
  ([("diameter", diameter); ("pupil_ratio", pupil); ("template_size", size); ("rotation", rot)], i1 ++ i2 ++ i3 ++ i4).

Definition with_iris_quality (q : BiometricQualityScore) (t : IrisTemplate) : IrisTemplate :=
  Iris_ (i_header t) (i_data t) (i_image_format t) (image_diameter t) (capture_device_id t) (rotation_angle t)
    (iris_center_x t) (iris_center_y t) (iris_radius t) (pupil_radius t) (Some q).

Definition calculate_iris_quality (t : IrisTemplate) : M W IrisTemplate :=
  wrapped "Failed to calculate iris quality: " quality_error (
    let '(scores, issues) := iris_scores t in
    q ← scored "Marty_Iris_Quality_v1.0" scores issues;
    mret (with_iris_quality q t)).

(** The values of the dictionary of iris features. *)
Inductive feature := FInt (z : Z) | FPair (x y : Z) | FFloat (x : float) | FRatio (q : Q) | FText (s : string).

Definition extract_iris_features (t : IrisTemplate) : pydict feature := [
  ("iris_diameter", FInt (image_diameter t)); ("iris_center", FPair (iris_center_x t) (iris_center_y t));
  ("iris_radius", FInt (iris_radius t)); ("pupil_radius", FInt (pupil_radius t));
  ("rotation_angle", FFloat (rotation_angle t)); ("pupil_iris_ratio", FRatio (pupil_ratio t));
  ("template_size", FInt (Z.of_nat (length (i_data t)))); ("capture_device", FText (capture_device_id t))].

(** ** Minutiae *)

(** [secrets.randbelow(n)] *)
Definition randbelow_ (n : Z) : M W Z := fun w =>
  if n <=? 0 then (Raise (raise_ ValueError "Upper bound must be positive."), w)
  else let '(z, w) := randbelow n w in (Ok z, w).

Fixpoint mock_minutiae (n : nat) (i : Z) (t : FingerprintTemplate) : M W (list Minutia) :=
  match n with
  | O => mret []
  | S n =>
      x ← randbelow_ (image_width t); y ← randbelow_ (image_height t); angle ← randbelow_ 360;
      quality ← randbelow_ 100;
      rest ← mock_minutiae n (i + 1) t;
      mret (Minutia_ (i + 1) x y angle (if i mod 2 =? 0 then "ridge_ending" else "ridge_bifurcation") (quality + 1) :: rest)
  end.

Definition with_minutiae (l : list Minutia) (t : FingerprintTemplate) : FingerprintTemplate :=
  Finger_ (p_header t) (p_data t) (p_format t) (image_width t) (image_height t) (resolution t) (minutiae_count t)
    l (p_quality t).

(** The list returned, and the template with its points. *)
Definition _extract_wsq_minutiae (t : FingerprintTemplate) : M W (list Minutia * FingerprintTemplate) :=
  minutiae ← mock_minutiae (Z.to_nat (Z.min (minutiae_count t) 50)) 0 t;
  mret (minutiae, with_minutiae minutiae t).

Definition minutia_of (i : Z) (x y angle_type : Z) : Minutia :=
  Minutia_ (i + 1) x y (Z.shiftr (Z.land angle_type 65280) 8)
    (if Z.land angle_type 192 =? 64 then "ridge_ending" else "ridge_bifurcation") (Z.land angle_type 63 * 100 / 63).

(** At most [n] minutiae, of six bytes each. *)
Fixpoint read_minutiae (n : nat) (i : Z) (rest : bytes) : list Minutia :=
  match n, rest with
  | S n, x1 :: x0 :: y1 :: y0 :: a :: t :: rest =>
      minutia_of i (be [x1; x0]) (be [y1; y0]) (be [a; t]) :: read_minutiae n (i + 1) rest
  | _, _ => []
  end.

Definition _extract_iso_minutiae (t : FingerprintTemplate) : list Minutia * FingerprintTemplate :=
  let data := p_data t in
  if (length data <? 28)%nat then ([], t)
  else
    match (_ ← unpack 4 (slice 0 4 data); _ ← unpack 4 (slice 4 8 data);
           count ← unpack 2 (slice 28 30 data);
           Ok (read_minutiae (Z.to_nat (Z.min count 100)) 0 (drop 30 data))) with
    | Ok minutiae => (minutiae, with_minutiae minutiae t)
    | Raise _ => ([], t)
    end.

Definition extract_minutiae (t : FingerprintTemplate) : M W (list Minutia * FingerprintTemplate) :=
  wrapped "Failed to extract minutiae: " template_error
    match p_format t with
    | WSQ => _extract_wsq_minutiae t
    | ISO_FINGER_MINUTIAE => mret (_extract_iso_minutiae t)
    | ANSI_FINGER_MINUTIAE | ISO_FINGER_PATTERN => mret ([], t)
    end.
End quality.

(** ** The processor *)

Record log_entry := LogEntry { l_timestamp : string; l_data_group : string; l_message : string; l_level : string }.

Inductive stored := StoredFace (t : FaceTemplate) | StoredFingers (ts : list FingerprintTemplate) | StoredIrises (ts : list IrisTemplate).

Record processor := Processor {
  enable_quality_assessment : bool; security_validation : bool; processed_templates : pydict stored;
  processing_log : list log_entry }.

Definition new_processor (quality security : bool) : processor := Processor quality security [] [].

(** *** Formats and metadata *)

Definition of_values (l : list Z) : bytes := map byte_of l.
Definition starts (p bs : bytes) : bool := bool_decide (take (length p) bs = p).

Definition _detect_image_format (image_data : bytes) : FaceImageFormat :=
  if starts (of_values [255; 216; 255]) image_data then JPEG
  else if starts (of_values [0; 0; 0; 12; 106; 80; 32; 32]) image_data then JPEG2000
  else if starts (of_values [137; 80; 78; 71]) image_data then PNG
  else if starts (of_values [66; 77]) image_data then BMP
  else JPEG.

Definition _detect_fingerprint_format (template_data : bytes) : FingerprintFormat :=
  if starts (of_values [255; 160]) template_data then WSQ
  else if (4 <=? length template_data)%nat
  then let format_id := be (take 4 template_data) in
       if format_id =? 1179472384 then ISO_FINGER_MINUTIAE
       else if format_id =? 1095652169 then ANSI_FINGER_MINUTIAE
       else ISO_FINGER_MINUTIAE
  else ISO_FINGER_MINUTIAE.

Definition _extract_fingerprint_metadata (template_data : bytes) (fmt : FingerprintFormat) : Z * Z * Z :=
  if bool_decide (fmt = ISO_FINGER_MINUTIAE) && (20 <=? length template_data)%nat
  then (be (slice 14 16 template_data), be (slice 16 18 template_data), be (slice 18 20 template_data))
  else (256, 360, 500).

Definition _count_minutiae (template_data : bytes) (fmt : FingerprintFormat) : Z :=
  if bool_decide (fmt = ISO_FINGER_MINUTIAE) && (30 <=? length template_data)%nat
  then Z.min (be (slice 28 30 template_data)) 100
  else 0.

Section processing.
Context {W : Type} `{Env W, World W, Imaging, Sha256Bytes}.
Local Abbreviation S := (processor * W)%type.

Definition outside {A} (m : M W A) : M S A := fun s => let '(r, w) := m (snd s) in (r, (fst s, w)).

Definition _get_image_dimensions (image_data : bytes) : M W (Z * Z) :=
  try_except (lift (open_image image_data)) (fun _ => mret (480, 640)).

Definition _extract_iris_metadata (template_data : bytes) : M W (Z * string * float) :=
  if (16 <=? length template_data)%nat
  then
    n ← randbelow_ 1000;
    mret (be (slice 8 10 template_data), "IRIS_DEV_" +:+ zero_pad 3 n, float_of (be (slice 12 16 template_data)))
  else mret (200, "UNKNOWN", Finite 0).

Definition _parse_cbeff_header (header_data : bytes) (bio_type : BiometricType) : M W BiometricHeader :=
  wrapped "Failed to parse CBEFF header: " template_error (
    if (length header_data <? 20)%nat then raise (template_error "Invalid CBEFF header length")
    else
      format_owner ← lift (unpack 2 (slice 0 2 header_data));
      format_type ← lift (unpack 2 (slice 2 4 header_data));
      subtype ← lift (unpack 2 (slice 4 6 header_data));
      now ← utcnow;
      lift (check_header (Header format_owner format_type bio_type subtype now "Marty_Biometric_Processor"))).

(** *** The log *)

Definition _log_processing (dg_type message level : string) : M S unit :=
  now ← outside utcnow;
  modify (fun s => (Processor (enable_quality_assessment (fst s)) (security_validation (fst s)) (processed_templates (fst s))
    (processing_log (fst s) ++ [LogEntry (isoformat now) dg_type message level]), snd s)).

(** [processed_templates[f"{dg_type}_{utcnow}"] = t] *)
Definition keep (dg_type : string) (t : stored) : M S unit :=
  now ← outside utcnow;
  modify (fun s => (Processor (enable_quality_assessment (fst s)) (security_validation (fst s))
    (dset (dg_type +:+ "_" +:+ isoformat now) t (processed_templates (fst s))) (processing_log (fst s)), snd s)).

Definition log_hash (what : string) (data : bytes) : M S unit :=
  _log_processing "SECURITY" (what +:+ " template hash: " +:+ String.substring 0 16 (sha256 data) +:+ "...") "info".

Definition _validate_face_template_security (t : FaceTemplate) : M S unit := log_hash "Face" (image_data t).
Definition _validate_fingerprint_template_security (t : FingerprintTemplate) : M S unit := log_hash "Fingerprint" (p_data t).
Definition _validate_iris_template_security (t : IrisTemplate) : M S unit := log_hash "Iris" (i_data t).

(** The [except] around each data group. *)
Definition guarded {A} (dg_type what : string) (m : M S A) : M S A :=
  try_except m (fun e =>
    _ ← _log_processing dg_type ("Processing failed: " +:+ exn_message e) "error";
    raise (template_error ("Failed to process " +:+ what +:+ ": " +:+ exn_message e))).

Definition if_quality {A} (f : A -> M W A) (t : A) : M S A := fun s =>
  if enable_quality_assessment (fst s) then outside (f t) s else (Ok t, s).
Definition if_security {A} (f : A -> M S unit) (t : A) : M S unit := fun s =>
  if security_validation (fst s) then f t s else (Ok tt, s).

(** *** Faces *)

Definition size_text (t : FaceTemplate) : string :=
  z_str (width t) +:+ "x" +:+ z_str (height t) +:+ " " +:+ image_format_text (image_format t).

Definition process_dg2_face (dg2_data : bytes) : M S FaceTemplate :=
  guarded "DG2" "DG2 face data" (
    _ ← _log_processing "DG2" "Processing encoded face data" "info";
    if (length dg2_data <? 20)%nat then raise (template_error "Invalid DG2 data length")
    else
      header ← outside (_parse_cbeff_header (take 20 dg2_data) FACE);
      let image_data := drop 20 dg2_data in
      let image_format := _detect_image_format image_data in
      size ← outside (_get_image_dimensions image_data);
      face_template ← if_quality calculate_image_quality
        (Face_ header image_data image_format (fst size) (snd size) None None);
      _ ← if_security _validate_face_template_security face_template;
      _ ← keep "DG2" (StoredFace face_template);
      _ ← _log_processing "DG2" ("Face template processed successfully: " +:+ size_text face_template) "info";
      mret face_template).

Definition process_dg5_portrait (dg5_data : bytes) : M S FaceTemplate :=
  guarded "DG5" "DG5 portrait data" (
    _ ← _log_processing "DG5" "Processing displayed portrait data" "info";
    now ← outside utcnow;
    header ← lift (check_header (Header 27 1281 FACE 0 now "DG5_Portrait_Processor"));
    let image_data := if (10 <? length dg5_data)%nat then drop 10 dg5_data else dg5_data in
    let image_format := _detect_image_format image_data in
    size ← outside (_get_image_dimensions image_data);
    portrait_template ← if_quality calculate_image_quality
      (Face_ header image_data image_format (fst size) (snd size) None None);
    _ ← keep "DG5" (StoredFace portrait_template);
    _ ← _log_processing "DG5" ("Portrait processed: " +:+ size_text portrait_template) "info";
    mret portrait_template).

(** *** Fingerprints and irises

    A data group is a sequence of headers, lengths and templates. [each_template]
    is the loop over it, with the bytes from the offset on: [while offset <
    len(data) - 20], and the [break]s when the length or the template is cut off. *)

Definition make_finger (header : BiometricHeader) (template_data : bytes) : M S FingerprintTemplate :=
  let fp_format := _detect_fingerprint_format template_data in
  let '(width, height, resolution) := _extract_fingerprint_metadata template_data fp_format in
  points ← outside (extract_minutiae (Finger_ header template_data fp_format width height resolution
    (_count_minutiae template_data fp_format) [] None));
  fp_template ← if_quality calculate_fingerprint_quality (snd points);
  _ ← if_security _validate_fingerprint_template_security fp_template;
  mret fp_template.

Definition make_iris (header : BiometricHeader) (template_data : bytes) : M S IrisTemplate :=
  metadata ← outside (_extract_iris_metadata template_data);
  let '(iris_diameter, device_id, rotation) := metadata in
  iris_template ← if_quality calculate_iris_quality
    (Iris_ header template_data "ISO_19794_6" iris_diameter device_id rotation (iris_diameter / 2) (iris_diameter / 2)
      (iris_diameter / 3) (iris_diameter / 8) None);
  _ ← if_security _validate_iris_template_security iris_template;
  mret iris_template.

Fixpoint each_template {A} (fuel : nat) (bio_type : BiometricType) (make : BiometricHeader -> bytes -> M S A) (rest : bytes) :
    M S (list A) :=
  match fuel with
  | O => mret []
  | Datatypes.S fuel =>
      if negb (20 <? length rest)%nat then mret []
      else
        header ← outside (_parse_cbeff_header (take 20 rest) bio_type);
        let rest := drop 20 rest in
        if (length rest <? 4)%nat then mret []
        else
          let template_length := be (take 4 rest) in
          let rest := drop 4 rest in
          if Z.of_nat (length rest) <? template_length then mret []
          else
            t ← make header (take (Z.to_nat template_length) rest);
            ts ← each_template fuel bio_type make (drop (Z.to_nat template_length) rest);
            mret (t :: ts)
  end.

Definition process_dg3_fingerprint (dg3_data : bytes) : M S (list FingerprintTemplate) :=
  guarded "DG3" "DG3 fingerprint data" (
    _ ← _log_processing "DG3" "Processing encoded fingerprint data" "info";
    templates ← each_template (length dg3_data) FINGER make_finger dg3_data;
    _ ← keep "DG3" (StoredFingers templates);
    _ ← _log_processing "DG3" ("Processed " +:+ len_str templates +:+ " fingerprint template(s)") "info";
    mret templates).

Definition process_dg4_iris (dg4_data : bytes) : M S (list IrisTemplate) :=
  guarded "DG4" "DG4 iris data" (
    _ ← _log_processing "DG4" "Processing encoded iris data" "info";
    templates ← each_template (length dg4_data) IRIS make_iris dg4_data;
    _ ← keep "DG4" (StoredIrises templates);
    _ ← _log_processing "DG4" ("Processed " +:+ len_str templates +:+ " iris template(s)") "info";
    mret templates).

(** *** Summary *)

Record summary := Summary {
  templates_processed : nat; processing_events : nat; quality_assessment_enabled : bool;
  security_validation_enabled : bool; template_types : list string; last_processing : option string }.

Definition get_processing_summary (p : processor) : summary :=
  Summary (length (processed_templates p)) (length (processing_log p)) (enable_quality_assessment p)
    (security_validation p) (dkeys (processed_templates p)) (option_map l_timestamp (last (processing_log p))).
End processing.

(** ** Mock data *)

Definition words (l : list Z) : bytes := concat (map (be_bytes 2) l).

Definition iso_template : bytes := of_values (
  [70; 77; 82; 0; 32; 32; 0; 0; 1; 0; 1; 0; 0; 1; 0] ++
  [1; 0; 244; 1; 104; 1; 244; 0; 24; 0; 0; 0; 12] ++
  [0; 80; 0; 80; 90; 64; 0; 85; 0; 85; 90; 128]).

Definition create_mock_dg3_data : bytes :=
  words [27; 257; 8; 1; 0; 0; 0; 0; 0; 0] ++ be_bytes 4 100 ++
  iso_template ++ of_values (repeat 0 (100 - length iso_template)).

(** ** Theorems *)

Section theorems.
Context {W : Type} `{Env W, World W, Imaging, Sha256Bytes}.
Local Abbreviation S := (processor * W)%type.

Lemma yields_outside {A} (m : M W A) P : yields m P -> yields (S:=S) (outside m) P.
Proof. intros Hm s. destruct (Hm (snd s)) as (a & w & Hs & Ha). exists a, (fst s, w). unfold outside. by rewrite Hs. Qed.

Lemma yields_utcnow : yields (S:=W) utcnow (fun _ => True).
Proof. intros w. unfold utcnow. destruct (datetime_now w) as [t w']. by exists t, w'. Qed.

Lemma yields_log dg msg level : yields (S:=S) (_log_processing dg msg level) (fun _ => True).
Proof. eapply yields_bind; [apply yields_outside, yields_utcnow|]. intros now _ s. exists tt. eexists. split; [reflexivity|done]. Qed.
Lemma yields_keep dg t : yields (S:=S) (keep dg t) (fun _ => True).
Proof. eapply yields_bind; [apply yields_outside, yields_utcnow|]. intros now _ s. exists tt. eexists. split; [reflexivity|done]. Qed.

Lemma yields_if_security {A} (f : A -> M S unit) t : yields (f t) (fun _ => True) -> yields (if_security f t) (fun _ => True).
Proof. intros Hf s. unfold if_security. destruct (security_validation (fst s)); [apply Hf|by exists tt, s]. Qed.

(** The quality, when it is computed. *)
Lemma yields_if_quality {A} (f : A -> M W A) t (P : A -> Prop) : P t -> yields (f t) P -> yields (S:=S) (if_quality f t) P.
Proof.
  intros Ht Hf s. unfold if_quality. destruct (enable_quality_assessment (fst s)); [apply (yields_outside _ _ Hf)|by exists t, s].
Qed.

(** *** Quality scores *)

Lemma score_yields alg scores issues : 0 <= int_mean (dvalues scores) <= 100 ->
  yields (S:=W) (scored alg scores issues) (fun q =>
    overall_score q = int_mean (dvalues scores) /\ quality_level q = level_of (int_mean (dvalues scores)) /\
    individual_scores q = scores /\ quality_issues q = issues).
Proof.
  intros Hr. eapply yields_bind; [apply yields_utcnow|]. intros now _. destruct Hr as [H1' H2'].
  apply Z.leb_le in H1', H2'. eapply yields_lift; [unfold check_score; simpl; rewrite H1', H2'; reflexivity|by repeat split].
Qed.

Lemma int_mean_4 a b c d n : 0 <= n -> 4 * n <= a + b + c + d <= 400 -> n <= int_mean [a; b; c; d] <= 100.
Proof.
  intros Hn Hr. unfold int_mean. simpl sumZ. change (Z.of_nat _) with 4. rewrite Z.quot_div_nonneg by lia.
  split; [apply Z.div_le_lower_bound; lia|apply Z.lt_succ_r, Z.div_lt_upper_bound; lia].
Qed.

Lemma level_fair n : 55 <= n -> level_of n <> POOR /\ level_of n <> UNUSABLE.
Proof.
  intros Hn. unfold level_of. replace (55 <=? n) with true by (symmetry; by apply Z.leb_le).
  by destruct (85 <=? n), (70 <=? n).
Qed.

Lemma finger_range t : 55 <= int_mean (dvalues (fst (finger_scores t))) <= 100.
Proof.
  unfold finger_scores, graded.
  destruct (30 <=? minutiae_count t), (20 <=? minutiae_count t), (12 <=? minutiae_count t), (500 <=? resolution t),
    (400 <=? resolution t), (1000 <=? Z.of_nat (length (p_data t))), (500 <=? Z.of_nat (length (p_data t))),
    (mem (p_format t) [ISO_FINGER_MINUTIAE; WSQ]); cbn [fst snd dvalues map]; apply int_mean_4; lia.
Qed.

Lemma iris_range t : 55 <= int_mean (dvalues (fst (iris_scores t))) <= 100.
Proof.
  unfold iris_scores, graded.
  destruct (200 <=? image_diameter t), (150 <=? image_diameter t), (within (2 # 10) (4 # 10) (pupil_ratio t)),
    (within (1 # 10) (6 # 10) (pupil_ratio t)), (2000 <=? Z.of_nat (length (i_data t))),
    (1000 <=? Z.of_nat (length (i_data t))), (abs_le (rotation_angle t) 5), (abs_le (rotation_angle t) 15);
    cbn [fst snd dvalues map]; apply int_mean_4; lia.
Qed.

Definition passable (q : option BiometricQualityScore) : Prop :=
  exists s, q = Some s /\ 55 <= overall_score s <= 100 /\ quality_level s <> POOR /\ quality_level s <> UNUSABLE.

Lemma score_passable q n : overall_score q = n -> quality_level q = level_of n -> 55 <= n <= 100 -> passable (Some q).
Proof.
  intros Ho Hl Hn. exists q. split; [done|]. rewrite Ho, Hl. split; [done|]. apply level_fair. lia.
Qed.

Lemma finger_quality_yields t : yields (S:=W) (calculate_fingerprint_quality t) (fun t' =>
  exists q, t' = with_finger_quality q t /\ passable (Some q) /\ overall_score q = int_mean (dvalues (fst (finger_scores t)))).
Proof.
  unfold calculate_fingerprint_quality, wrapped. pose proof (finger_range t) as Hr.
  destruct (finger_scores t) as [scores issues] eqn:Es. simpl fst in *. apply yields_try.
  eapply yields_bind; [apply score_yields; lia|]. intros q (Ho & Hl & _ & _). apply yields_ret. exists q.
  split; [done|]. split; [|done]. by apply (score_passable q _ Ho Hl).
Qed.

Lemma iris_quality_yields t : yields (S:=W) (calculate_iris_quality t) (fun t' =>
  exists q, t' = with_iris_quality q t /\ passable (Some q)).
Proof.
  unfold calculate_iris_quality, wrapped. pose proof (iris_range t) as Hr.
  destruct (iris_scores t) as [scores issues] eqn:Es. simpl fst in *. apply yields_try.
  eapply yields_bind; [apply score_yields; lia|]. intros q (Ho & Hl & _ & _). apply yields_ret. exists q.
  split; [done|]. by apply (score_passable q _ Ho Hl).
Qed.

(** The quality of a fingerprint or iris template is always computed, is at least
    55, and so never poor or unusable, whatever the template holds. *)
Theorem templates_always_passable (t : FingerprintTemplate) (u : IrisTemplate) (w : W) :
  (exists t' w', calculate_fingerprint_quality t w = (Ok t', w') /\ passable (p_quality t')) /\
  (exists u' w', calculate_iris_quality u w = (Ok u', w') /\ passable (i_quality u')).
Proof.
  split.
  - destruct (finger_quality_yields t w) as (t' & w' & Hw & q & -> & Hq & _). by eexists _, _.
  - destruct (iris_quality_yields u w) as (t' & w' & Hw & q & -> & Hq). by eexists _, _.
Qed.
(** *** Data groups *)

Definition valid_header (bs : bytes) : Prop := length bs = 20%nat /\ 0 < be (slice 0 2 bs) /\ 0 < be (slice 2 4 bs).

(** The header made of the bytes. *)
Definition header_of (bio_type : BiometricType) (bs : bytes) (h : BiometricHeader) : Prop :=
  format_owner h = be (slice 0 2 bs) /\ format_type h = be (slice 2 4 bs) /\
  biometric_subtype h = be (slice 4 6 bs) /\ biometric_type h = bio_type.

Lemma slice_length a b (bs : bytes) : (b <= length bs)%nat -> length (slice a b bs) = (b - a)%nat.
Proof. intros Hb. unfold slice. rewrite length_take, length_drop. lia. Qed.

Lemma unpack_slice a b n (bs : bytes) : (b <= length bs)%nat -> (b - a = n)%nat -> unpack n (slice a b bs) = Ok (be (slice a b bs)).
Proof. intros Hb <-. unfold unpack. by rewrite slice_length, Nat.eqb_refl by done. Qed.

Lemma parse_yields bs bt : valid_header bs -> yields (S:=W) (_parse_cbeff_header bs bt) (header_of bt bs).
Proof.
  intros (Hl & Ho & Ht). unfold _parse_cbeff_header, wrapped. apply yields_try. rewrite Hl. simpl.
  eapply (yields_bind _ _ (eq (be (slice 0 2 bs)))); [eapply yields_lift; [apply unpack_slice; lia|done]|]. intros o <-.
  eapply (yields_bind _ _ (eq (be (slice 2 4 bs)))); [eapply yields_lift; [apply unpack_slice; lia|done]|]. intros ft <-.
  eapply (yields_bind _ _ (eq (be (slice 4 6 bs)))); [eapply yields_lift; [apply unpack_slice; lia|done]|]. intros st <-.
  eapply yields_bind; [apply yields_utcnow|]. intros now _. apply Z.lt_nge in Ho, Ht. rewrite <- Z.leb_nle in Ho, Ht.
  eapply yields_lift; [unfold check_header; simpl; rewrite Ho, Ht; reflexivity|done].
Qed.

Definition encode_record (r : bytes * bytes) : bytes := fst r ++ be_bytes 4 (Z.of_nat (length (snd r))) ++ snd r.
Definition valid_record (r : bytes * bytes) : Prop := valid_header (fst r) /\ Z.of_nat (length (snd r)) < 2 ^ 32.

(** The end of a data group that holds no further template: too short for one,
    or cut off. *)
Definition cut_off (tail : bytes) : Prop := (length tail <= 20)%nat \/
  exists r n, valid_record r /\ tail = take n (encode_record r) /\ (n < length (encode_record r))%nat.

Lemma be_length_4 z : 0 <= z < 2 ^ 32 -> be (be_bytes 4 z) = z.
Proof. intros Hz. apply be_be_bytes. change (256 ^ Z.of_nat 4) with (2 ^ 32). done. Qed.

Section loop.
Context {A : Type} (bt : BiometricType) (make : BiometricHeader -> bytes -> M S A).
Context (P : BiometricHeader -> bytes -> A -> Prop).
Hypothesis make_yields : forall h d, yields (make h d) (P h d).

Lemma each_cut_off fuel tail : cut_off tail -> yields (each_template fuel bt make tail) (eq []).
Proof.
  destruct fuel as [|fuel]; intros Hc; [by apply yields_ret|]. simpl.
  destruct (20 <? length tail)%nat eqn:E; [|by apply yields_ret]. apply Nat.ltb_lt in E. simpl.
  destruct Hc as [?|([hd d] & n & [Hv Hd] & -> & Hn)]; [lia|]. unfold encode_record in *. simpl fst in *. simpl snd in *.
  pose proof Hv as (Hl & _). rewrite length_take in E. rewrite !length_app, be_bytes_length in Hn.
  assert (Ht : take 20 (take n (hd ++ be_bytes 4 (Z.of_nat (length d)) ++ d)) = hd).
  { rewrite take_take, Nat.min_l by lia. by apply take_app_length'. }
  rewrite Ht. eapply yields_bind; [by apply yields_outside, parse_yields|]. intros h _.
  assert (Hr : drop 20 (take n (hd ++ be_bytes 4 (Z.of_nat (length d)) ++ d)) =
    take (n - 20) (be_bytes 4 (Z.of_nat (length d)) ++ d)).
  { replace n with (20 + (n - 20))%nat at 1 by lia. by rewrite <- take_drop_commute, drop_app_length' by done. }
  rewrite Hr. destruct (length _ <? 4)%nat eqn:E4; [by apply yields_ret|]. apply Nat.ltb_ge in E4.
  rewrite length_take, length_app, be_bytes_length in E4.
  assert (Hb : take 4 (take (n - 20) (be_bytes 4 (Z.of_nat (length d)) ++ d)) = be_bytes 4 (Z.of_nat (length d))).
  { rewrite take_take, Nat.min_l by lia. by apply take_app_length'; rewrite be_bytes_length. }
  rewrite Hb, be_length_4 by lia. rewrite length_drop, length_take, length_app, be_bytes_length.
  replace (Z.of_nat _ <? Z.of_nat _) with true by (symmetry; apply Z.ltb_lt; lia). by apply yields_ret.
Qed.

Lemma each_yields records : forall fuel tail, Forall valid_record records -> cut_off tail ->
  (length records <= fuel)%nat ->
  yields (each_template fuel bt make (concat (map encode_record records) ++ tail)) (fun ts =>
    Forall2 (fun r t => exists h, header_of bt (fst r) h /\ P h (snd r) t) records ts).
Proof.
  induction records as [|[hd d] records IH]; intros fuel tail Hv Ht Hf.
  { simpl. intros s. destruct (each_cut_off fuel tail Ht s) as (ts & s' & Hs & <-). exists [], s'. by split. }
  destruct fuel as [|fuel]; [simpl in Hf; lia|]. apply Forall_cons in Hv as [[Hh Hd] Hv]. simpl in Hh, Hd.
  pose proof Hh as (Hl & _). cbn [map concat]. unfold encode_record at 1. cbn [fst snd]. rewrite <- !app_assoc.
  set (rest := concat (map encode_record records) ++ tail). cbn [each_template].
  replace (20 <? length _)%nat with true by (symmetry; apply Nat.ltb_lt; rewrite !length_app, be_bytes_length; lia).
  cbn [negb]. rewrite take_app_length', drop_app_length' by done.
  eapply yields_bind; [by apply yields_outside, parse_yields|]. intros h Hh'.
  rewrite !length_app, be_bytes_length. cbn [Nat.ltb Nat.leb Nat.add].
  rewrite take_app_length', drop_app_length', be_length_4 by (rewrite ?be_bytes_length; lia).
  rewrite length_app. replace (Z.of_nat _ <? Z.of_nat _) with false by (symmetry; apply Z.ltb_ge; lia).
  rewrite Nat2Z.id, take_app_length, drop_app_length.
  eapply yields_bind; [apply make_yields|]. intros t Hp. eapply yields_bind; [apply IH; [done..|simpl in Hf; lia]|].
  intros ts Hts. apply yields_ret. constructor; [by exists h|done].
Qed.

(** Once there are as many turns as bytes, more change nothing. *)
Lemma each_fuel : forall n m rest, (length rest <= n)%nat -> (length rest <= m)%nat ->
  forall s, each_template n bt make rest s = each_template m bt make rest s.
Proof.
  induction n as [|n IH]; intros m rest Hn Hm s.
  { destruct rest; [|simpl in Hn; lia]. by destruct m. }
  destruct m as [|m]; [destruct rest; [done|simpl in Hm; lia]|]. cbn [each_template].
  destruct (20 <? length rest)%nat eqn:E; [|done]. apply Nat.ltb_lt in E. cbn [negb].
  unfold mbind, M_bind. destruct (outside _ s) as [[h|e] s1]; [|done].
  destruct (length (drop 20 rest) <? 4)%nat; [done|]. destruct (_ <? be _); [done|].
  destruct (make h _ s1) as [[t|e] s2]; [|done]. rewrite (IH m); [done|..]; rewrite !length_drop; lia.
Qed.
End loop.
(** What is kept of the bytes of a template. *)
Definition finger_of (h : BiometricHeader) (d : bytes) (t : FingerprintTemplate) : Prop :=
  p_header t = h /\ p_data t = d /\ p_format t = _detect_fingerprint_format d /\
  minutiae_count t = _count_minutiae d (p_format t) /\ (p_quality t = None \/ passable (p_quality t)).

Lemma count_format d fmt : fmt <> ISO_FINGER_MINUTIAE -> _count_minutiae d fmt = 0.
Proof. intros Hf. unfold _count_minutiae. by rewrite bool_decide_eq_false_2. Qed.

Lemma extract_yields h d w1 w2 w3 : let f := _detect_fingerprint_format d in
  yields (S:=W) (extract_minutiae (Finger_ h d f w1 w2 w3 (_count_minutiae d f) [] None)) (fun lt =>
    p_header (snd lt) = h /\ p_data (snd lt) = d /\ p_format (snd lt) = f /\
    minutiae_count (snd lt) = _count_minutiae d f /\ p_quality (snd lt) = None).
Proof.
  intros f. unfold extract_minutiae, wrapped. apply yields_try. cbn [p_format].
  destruct f eqn:Ef; [|apply yields_ret|by apply yields_ret..].
  - unfold _extract_wsq_minutiae. cbn [minutiae_count]. rewrite count_format by done. by apply yields_ret.
  - unfold _extract_iso_minutiae. by repeat case_match.
Qed.

Lemma make_finger_yields h d : yields (make_finger h d) (finger_of h d).
Proof.
  unfold make_finger. destruct (_extract_fingerprint_metadata _ _) as [[w1 w2] w3].
  eapply yields_bind; [apply yields_outside, extract_yields|]. intros [l t] (Hh & Hd & Hf & Hc & Hq). simpl in *.
  assert (Ht : finger_of h d t) by (repeat split; [done..|by rewrite Hf|by left]).
  eapply (yields_bind _ _ (finger_of h d)).
  { apply yields_if_quality; [done|]. intros w. destruct (finger_quality_yields t w) as (t' & w' & Hw & q & -> & Hp & _).
    exists (with_finger_quality q t), w'. split; [done|]. destruct Ht as (? & ? & ? & ? & _). repeat split; [done..|by right]. }
  intros t' Ht'. eapply yields_bind; [apply yields_if_security, yields_log|]. intros _ _. by apply yields_ret.
Qed.

Lemma guarded_yields {A} dg what (m : M S A) P : yields m P -> yields (guarded dg what m) P.
Proof. apply yields_try. Qed.

(** A fingerprint group that is a sequence of headers and templates gives back
    exactly those, in their order, with their formats and minutiae counts. What
    follows them, a template that is cut off included, is dropped without an
    error. *)
Theorem dg3_reads_templates records tail (s : S) : Forall valid_record records -> cut_off tail ->
  exists ts s', process_dg3_fingerprint (concat (map encode_record records) ++ tail) s = (Ok ts, s') /\
    Forall2 (fun r t => exists h, header_of FINGER (fst r) h /\ finger_of h (snd r) t) records ts.
Proof.
  intros Hv Ht. revert s. apply guarded_yields. eapply yields_bind; [apply yields_log|]. intros _ _.
  eapply yields_bind.
  - apply (each_yields FINGER make_finger finger_of make_finger_yields records _ tail Hv Ht).
    rewrite length_app. clear Ht. induction Hv as [|[hd d] records [[Hl _] _] _ IH]; [simpl; lia|].
    cbn [map concat length]. unfold encode_record at 1. simpl fst in *. rewrite !length_app. lia.
  - intros ts Hts. eapply yields_bind; [apply yields_keep|]. intros _ _.
    eapply yields_bind; [apply yields_log|]. intros _ _. by apply yields_ret.
Qed.

(** *** Minutiae *)

(** A minutia as its template has it: the upper bits of its last byte are its
    kind, the lower ones its quality. *)
Record raw := Raw { r_x : Z; r_y : Z; r_angle : Z; r_kind : Z; r_grade : Z }.
Definition raw_ok (r : raw) : Prop :=
  0 <= r_x r < 65536 /\ 0 <= r_y r < 65536 /\ 0 <= r_angle r < 256 /\ 0 <= r_kind r < 4 /\ 0 <= r_grade r < 64.
Definition encode_minutia (r : raw) : bytes :=
  be_bytes 2 (r_x r) ++ be_bytes 2 (r_y r) ++ [byte_of (r_angle r); byte_of (r_kind r * 64 + r_grade r)].
Definition raw_minutia (i : Z) (r : raw) : Minutia :=
  Minutia_ (i + 1) (r_x r) (r_y r) (r_angle r) (if r_kind r =? 1 then "ridge_ending" else "ridge_bifurcation")
    (r_grade r * 100 / 63).

Fixpoint numbered (i : Z) (l : list raw) : list Minutia :=
  match l with [] => [] | r :: l => raw_minutia i r :: numbered (i + 1) l end.

Lemma land_low n k : 0 <= k < 256 -> Z.land n k = Z.land (n mod 256) k.
Proof.
  intros Hk. change 256 with (2 ^ 8). rewrite <- Z.land_ones, <- Z.land_assoc by lia. f_equal.
  rewrite Z.land_comm, Z.land_ones by lia. symmetry. by apply Z.mod_small.
Qed.

Lemma shifted_angle n : Z.shiftr (Z.land n 65280) 8 = n / 256 mod 256.
Proof.
  rewrite Z.shiftr_land. change (Z.shiftr 65280 8) with (Z.ones 8). rewrite Z.land_ones, Z.shiftr_div_pow2 by lia. done.
Qed.

Lemma kind_bits k q : 0 <= k < 4 -> 0 <= q < 64 ->
  Z.land (k * 64 + q) 192 = k * 64 /\ Z.land (k * 64 + q) 63 = q.
Proof.
  intros Hk Hq.
  assert (Hall : forallb (fun k => forallb (fun q => (Z.land (k * 64 + q) 192 =? k * 64) && (Z.land (k * 64 + q) 63 =? q))
    (seqZ 0 64)) (seqZ 0 4) = true) by (vm_compute; reflexivity).
  rewrite forallb_forall in Hall. specialize (Hall k). rewrite forallb_forall in Hall.
  assert (Hin : forall n m, 0 <= n < m -> In n (seqZ 0 m)) by (intros n m Hn; apply list_elem_of_In, elem_of_seqZ; lia).
  specialize (Hall (Hin _ _ Hk) q (Hin _ _ Hq)). apply andb_true_iff in Hall as [H1' H2']. lia.
Qed.

Lemma minutia_of_raw i r : raw_ok r ->
  minutia_of i (r_x r) (r_y r) (be [byte_of (r_angle r); byte_of (r_kind r * 64 + r_grade r)]) = raw_minutia i r.
Proof.
  intros (Hx & Hy & Ha & Hk & Hq). unfold minutia_of, raw_minutia. destruct (kind_bits _ _ Hk Hq) as [H1' H2'].
  assert (Hbe : be [byte_of (r_angle r); byte_of (r_kind r * 64 + r_grade r)] = r_angle r * 256 + (r_kind r * 64 + r_grade r)).
  { unfold be. simpl. rewrite !val_of_byte by lia. lia. }
  assert (Hmod : (r_angle r * 256 + (r_kind r * 64 + r_grade r)) mod 256 = r_kind r * 64 + r_grade r).
  { rewrite Z.add_comm, Z.mod_add by lia. apply Z.mod_small. lia. }
  rewrite Hbe, shifted_angle, (land_low _ 192), (land_low _ 63), Hmod, H1', H2' by lia.
  rewrite Z.div_add_l, (Z.div_small (_ + _)), Z.add_0_r, (Z.mod_small (r_angle r)) by lia. f_equal.
  destruct (Z.eqb_spec (r_kind r * 64) 64), (Z.eqb_spec (r_kind r) 1); done || lia.
Qed.

Lemma two_bytes z : 0 <= z < 65536 -> exists a b, be_bytes 2 z = [a; b] /\ be [a; b] = z.
Proof.
  intros Hz. pose proof (be_be_bytes 2 z Hz) as Hb. pose proof (be_bytes_length 2 z) as Hl.
  destruct (be_bytes 2 z) as [|a [|b [|? ?]]]; try done. by exists a, b.
Qed.

Lemma read_raws l : forall i rest, Forall raw_ok l ->
  read_minutiae (length l) i (concat (map encode_minutia l) ++ rest) = numbered i l.
Proof.
  induction l as [|r l IH]; intros i rest Hl; [done|]. apply Forall_cons in Hl as [Hr Hl].
  pose proof Hr as (Hx & Hy & _). destruct (two_bytes _ Hx) as (x1 & x0 & Hx1 & Hx2).
  destruct (two_bytes _ Hy) as (y1 & y0 & Hy1 & Hy2).
  cbn [map concat]. unfold encode_minutia at 1. rewrite Hx1, Hy1. cbn [app length read_minutiae numbered].
  rewrite Hx2, Hy2, minutia_of_raw, IH by done. done.
Qed.

Definition encode_iso (prefix : bytes) (l : list raw) (rest : bytes) : bytes :=
  prefix ++ be_bytes 2 (Z.of_nat (length l)) ++ concat (map encode_minutia l) ++ rest.

(** The minutiae of an ISO template are read as they were written, in order. *)
Theorem minutiae_roundtrip t prefix l rest (w : W) : p_format t = ISO_FINGER_MINUTIAE -> length prefix = 28%nat ->
  (length l <= 100)%nat -> Forall raw_ok l -> p_data t = encode_iso prefix l rest ->
  extract_minutiae t w = (Ok (numbered 0 l, with_minutiae (numbered 0 l) t), w).
Proof.
  intros Hf Hp Hn Hl Hd. unfold extract_minutiae, wrapped, try_except. rewrite Hf. unfold mret, M_ret.
  unfold _extract_iso_minutiae. rewrite Hd. unfold encode_iso.
  assert (Hlen : (30 <= length (prefix ++ be_bytes 2 (Z.of_nat (length l)) ++ concat (map encode_minutia l) ++ rest))%nat).
  { rewrite !length_app, be_bytes_length. lia. }
  destruct (_ <? 28)%nat eqn:E; [apply Nat.ltb_lt in E; lia|]. rewrite !unpack_slice by (done || lia).
  cbn [mbind result_bind].
  assert (Hs : slice 28 30 (prefix ++ be_bytes 2 (Z.of_nat (length l)) ++ concat (map encode_minutia l) ++ rest) =
    be_bytes 2 (Z.of_nat (length l))).
  { unfold slice. rewrite drop_app_length' by done. apply take_app_length'. by rewrite be_bytes_length. }
  assert (Hdr : drop 30 (prefix ++ be_bytes 2 (Z.of_nat (length l)) ++ concat (map encode_minutia l) ++ rest) =
    concat (map encode_minutia l) ++ rest).
  { change 30%nat with (28 + 2)%nat. rewrite <- drop_drop, drop_app_length' by done. apply drop_app_length'.
    by rewrite be_bytes_length. }
  rewrite Hs, Hdr, be_be_bytes, Z.min_l, Nat2Z.id, read_raws by (done || lia). done.
Qed.

(** *** Faces *)

Lemma py_int_ge x n : 0 <= n -> (inject_Z n <= x)%Q -> n <= py_int x.
Proof.
  intros Hn. destruct x as [a b]. unfold Qle, py_int, inject_Z. simpl. intros Hle.
  rewrite Z.quot_div_nonneg by nia. apply Z.div_le_lower_bound; lia.
Qed.

(** The brightness score is the best one for every image, black ones included. *)
Theorem brightness_always_best `{!ImagingLaws} t mean std lap : gray_stats (image_data t) = Ok (mean, std, lap) ->
  dget "brightness" (fst (face_scores t mean std lap)) = Some 100.
Proof.
  intros Hg. destruct (stats_range _ _ _ _ Hg) as ([Hlo Hhi] & _).
  assert (Hb : brightness_score mean = 100).
  { unfold brightness_score. assert (Ha : (Qabs (mean - 128) <= 128)%Q) by (apply Qabs_case; intros; lra).
    assert (100 <= py_int ((255 - Qabs (mean - 128)) / 127 * 100)%Q); [|lia]. apply py_int_ge; [lia|].
    change (inject_Z 100) with 100%Q. assert ((255 - Qabs (mean - 128)) / 127 == (255 - Qabs (mean - 128)) * (1 # 127))%Q as -> by field.
    lra. }
  unfold face_scores. destruct lap as [v|]; simpl; repeat case_match; simpl; by rewrite Hb.
Qed.

(** A computation that keeps the processor's options. *)
Definition returns {A} (p : processor) (m : M S A) (P : A -> Prop) : Prop := forall s,
  enable_quality_assessment (fst s) = enable_quality_assessment p ->
  exists a s', m s = (Ok a, s') /\ P a /\ enable_quality_assessment (fst s') = enable_quality_assessment p.

Lemma returns_bind {A B} p (m : M S A) (f : A -> M S B) P Q :
  returns p m P -> (forall a, P a -> returns p (f a) Q) -> returns p (m ≫= f) Q.
Proof.
  intros Hm Hf s Hs. destruct (Hm s Hs) as (a & s1 & Ha & Hp & Hs1). destruct (Hf a Hp s1 Hs1) as (b & s2 & Hb & Hq).
  exists b, s2. unfold mbind, M_bind. by rewrite Ha, Hb.
Qed.
Lemma returns_ret {A} p (a : A) (P : A -> Prop) : P a -> returns p (mret a) P.
Proof. intros Ha s Hs. by exists a, s. Qed.
Lemma returns_outside {A} p (m : M W A) P : yields m P -> returns p (outside m) P.
Proof. intros Hm s Hs. destruct (Hm (snd s)) as (a & w & Ha & Hp). exists a, (fst s, w). unfold outside. by rewrite Ha. Qed.
Lemma returns_log p dg msg level : returns p (_log_processing dg msg level) (fun _ => True).
Proof.
  eapply returns_bind; [apply returns_outside, yields_utcnow|]. intros now _ s Hs. exists tt. eexists.
  split; [reflexivity|done].
Qed.
Lemma returns_keep p dg t : returns p (keep dg t) (fun _ => True).
Proof.
  eapply returns_bind; [apply returns_outside, yields_utcnow|]. intros now _ s Hs. exists tt. eexists.
  split; [reflexivity|done].
Qed.

Definition size_found (bs : bytes) : Z * Z := match open_image bs with Ok size => size | Raise _ => (480, 640) end.

(** Without quality assessment any bytes after a valid header are accepted as a
    face, whether or not hashes are logged, and bytes Pillow cannot open get a
    size of their own. *)
Theorem any_face_accepted data p (w : W) : enable_quality_assessment p = false -> valid_header (take 20 data) ->
  (forall e, open_image (drop 20 data) = Raise e -> catchable e = true) ->
  exists t s', process_dg2_face data (p, w) = (Ok t, s') /\ image_data t = drop 20 data /\
    (width t, height t) = size_found (drop 20 data) /\ header_of FACE (take 20 data) (f_header t).
Proof.
  intros Hq Hv Ho. set (P := fun t => image_data t = drop 20 data /\ (width t, height t) = size_found (drop 20 data) /\
    header_of FACE (take 20 data) (f_header t)).
  assert (Hm : returns p (process_dg2_face data) P); [|destruct (Hm (p, w) eq_refl) as (t & s' & Hr & Ht & _); by exists t, s'].
  intros s Hs. unfold process_dg2_face, guarded, try_except.
  assert (Hlen : (20 <= length data)%nat) by (destruct Hv as (Hl & _); rewrite length_take in Hl; lia).
  match goal with |- context [match ?m s with _ => _ end] => assert (Hb : returns p m P) end.
  { eapply returns_bind; [apply returns_log|]. intros _ _. destruct (_ <? 20)%nat eqn:E; [apply Nat.ltb_lt in E; lia|].
    eapply returns_bind; [by apply returns_outside, parse_yields|]. intros h Hh.
    eapply (returns_bind _ _ _ (eq (size_found (drop 20 data)))).
    { apply returns_outside. unfold _get_image_dimensions, size_found. intros w1. unfold try_except, lift.
      destruct (open_image _) as [size|e]; [by exists size, w1|]. rewrite Ho by done. by exists (480, 640), w1. }
    intros [wd ht] Hsize. eapply (returns_bind _ _ _ P).
    { intros s1 Hs1. unfold if_quality. rewrite Hs1, Hq. eexists _, s1. split; [reflexivity|].
      split; [split; [done|split; [by rewrite Hsize|done]]|by rewrite Hs1]. }
    intros t Ht. eapply (returns_bind _ _ _ (fun _ => True)).
    { intros s1 Hs1. unfold if_security. destruct (security_validation _); [by apply returns_log|]. by exists tt, s1. }
    intros _ _. eapply returns_bind; [apply returns_keep|]. intros _ _.
    eapply returns_bind; [apply returns_log|]. intros _ _. by apply returns_ret. }
  destruct (Hb s Hs) as (t & s' & -> & Ht). by exists t, s'.
Qed.
(** *** Bounds *)

Definition minutia_ok (m : Minutia) : Prop :=
  0 <= m_x m < 65536 /\ 0 <= m_y m < 65536 /\ 0 <= m_angle m < 256 /\ 0 <= m_quality m <= 100.

Lemma be2_range a b : 0 <= be [a; b] < 65536.
Proof. apply (be_range [a; b]). Qed.

Lemma read_ok n : forall i rest, 0 <= i -> Forall minutia_ok (read_minutiae n i rest) /\
  (6 * length (read_minutiae n i rest) <= length rest)%nat /\ (length (read_minutiae n i rest) <= n)%nat /\
  map m_id (read_minutiae n i rest) = seqZ (i + 1) (Z.of_nat (length (read_minutiae n i rest))).
Proof.
  induction n as [|n IH]; intros i rest Hi; [by repeat split; simpl; try lia|].
  destruct rest as [|x1 [|x0 [|y1 [|y0 [|a [|t rest]]]]]]; try (simpl; repeat split; simpl; try lia; by constructor).
  cbn [read_minutiae]. destruct (IH (i + 1) rest ltac:(lia)) as (Ho & Hl & Hn & Hid). cbn [length].
  split; [|split; [lia|split; [lia|]]].
  - constructor; [|done]. unfold minutia_of, minutia_ok. cbn [m_x m_y m_angle m_quality].
    split; [apply be2_range|]. split; [apply be2_range|]. rewrite shifted_angle. split; [apply Z.mod_pos_bound; lia|].
    change 63 with (Z.ones 6) at 1 3. rewrite Z.land_ones by lia.
    pose proof (Z.mod_pos_bound (be [a; t]) (2 ^ 6) ltac:(lia)). change (2 ^ 6) with 64 in *.
    split; [apply Z.div_pos; lia|apply Z.lt_succ_r, Z.div_lt_upper_bound; lia].
  - cbn [map]. rewrite Hid. rewrite Nat2Z.inj_succ, (seqZ_cons (i + 1)) by lia. f_equal. f_equal; lia.
Qed.

(** Whatever the bytes, the minutiae read are numbered from one, are at most as
    many as the template says and has room for, never more than a hundred, and
    their coordinates, angles and qualities are in range. *)
Theorem minutiae_bounded t : let l := fst (_extract_iso_minutiae t) in
  Forall minutia_ok l /\ map m_id l = seqZ 1 (Z.of_nat (length l)) /\ (length l <= 100)%nat /\
  (l <> [] -> 28 + 2 + 6 * length l <= length (p_data t))%nat /\
  Z.of_nat (length l) <= _count_minutiae (p_data t) ISO_FINGER_MINUTIAE.
Proof.
  unfold _extract_iso_minutiae, _count_minutiae. rewrite bool_decide_eq_true_2 by done. cbn [andb].
  pose proof (be_range (slice 28 30 (p_data t))) as Hb.
  assert (Hnil : 0 <= (if (30 <=? length (p_data t))%nat then Z.min (be (slice 28 30 (p_data t))) 100 else 0)).
  { destruct (30 <=? _)%nat; lia. }
  destruct (_ <? 28)%nat eqn:E; [simpl; by repeat split; try lia|]. apply Nat.ltb_ge in E.
  rewrite (unpack_slice 0 4), (unpack_slice 4 8) by lia. cbn [mbind result_bind]. unfold unpack.
  destruct (length (slice 28 30 (p_data t)) =? 2)%nat eqn:E2; [|simpl; by repeat split; try lia].
  apply Nat.eqb_eq in E2. unfold slice in E2 at 1. rewrite length_take, length_drop in E2.
  replace (30 <=? length (p_data t))%nat with true by (symmetry; apply Nat.leb_le; lia). cbn [mbind result_bind fst].
  destruct (read_ok (Z.to_nat (Z.min (be (slice 28 30 (p_data t))) 100)) 0 (drop 30 (p_data t)) ltac:(lia)) as (H1' & H2' & H3' & H4').
  rewrite length_drop in H2'. repeat split; [done|done|lia| |lia]. intros Hne.
  destruct (read_minutiae _ _ _); [done|]. simpl length in *. lia.
Qed.

(** *** Failures *)

Definition keeps_templates {A} (m : M S A) : Prop := forall s,
  processed_templates (fst (snd (m s))) = processed_templates (fst s).

Lemma keeps_bind {A B} (m : M S A) (f : A -> M S B) :
  keeps_templates m -> (forall a, keeps_templates (f a)) -> keeps_templates (m ≫= f).
Proof.
  intros Hm Hf s. unfold mbind, M_bind. specialize (Hm s). destruct (m s) as [[a|e] s']; [|done].
  by rewrite Hf.
Qed.
Lemma keeps_outside {A} (m : M W A) : keeps_templates (outside m).
Proof. intros s. unfold outside. by destruct (m (snd s)). Qed.
Lemma keeps_log dg msg level : keeps_templates (_log_processing dg msg level).
Proof. apply keeps_bind; [apply keeps_outside|]. by intros now s. Qed.
Lemma keeps_make_finger h d : keeps_templates (make_finger h d).
Proof.
  unfold make_finger. destruct (_extract_fingerprint_metadata _ _) as [[w1 w2] w3].
  apply keeps_bind; [apply keeps_outside|]. intros a. apply keeps_bind.
  { intros s. unfold if_quality. destruct (enable_quality_assessment _); [apply keeps_outside|done]. }
  intros b. apply keeps_bind; [|by intros ? s]. intros s. unfold if_security.
  destruct (security_validation _); [apply keeps_log|done].
Qed.
Lemma keeps_each {A} bt (make : BiometricHeader -> bytes -> M S A) : (forall h d, keeps_templates (make h d)) ->
  forall fuel rest, keeps_templates (each_template fuel bt make rest).
Proof.
  intros Hk fuel. induction fuel as [|fuel IH]; intros rest; [by intros s|]. simpl.
  destruct (negb _); [by intros s|]. apply keeps_bind; [apply keeps_outside|]. intros h.
  destruct (_ <? 4)%nat; [by intros s|]. destruct (_ <? be _); [by intros s|].
  apply keeps_bind; [done|]. intros t. apply keeps_bind; [done|]. by intros ts s.
Qed.

(** Only a header can fail, and its exception is a template error. *)
Lemma parse_raises bs bt w e w' : _parse_cbeff_header bs bt w = (Raise e, w') -> exists msg, e = template_error msg.
Proof.
  unfold _parse_cbeff_header, wrapped, try_except.
  match goal with |- context [match ?m w with _ => _ end] => assert (Hc : forall e w', m w = (Raise e, w') -> catchable e = true) end.
  { intros e1 w1. destruct (_ <? 20)%nat; [by intros [= <- _]|]. unfold mbind, M_bind, lift, unpack.
    repeat (match goal with |- context [if ?b then Ok _ else Raise _] => destruct b end; [|by intros [= <- _]]).
    destruct (utcnow w) as [[now|e2] w2] eqn:Eu; [|unfold utcnow in Eu; by destruct (datetime_now w)].
    unfold check_header. repeat case_match; try done; by intros [= <- _]. }
  match goal with |- context [match ?m w with _ => _ end] => destruct (m w) as [[a|e1] w1] end; [done|].
  rewrite (Hc _ _ eq_refl). intros [= <- _]. by eexists.
Qed.

Lemma each_raises {A} bt (make : BiometricHeader -> bytes -> M S A) : (forall h d, yields (make h d) (fun _ => True)) ->
  forall fuel rest s e s', each_template fuel bt make rest s = (Raise e, s') -> exists msg, e = template_error msg.
Proof.
  intros Hm fuel. induction fuel as [|fuel IH]; intros rest s e s'; [done|]. cbn [each_template].
  destruct (negb _); [done|]. unfold mbind, M_bind, outside.
  destruct (_parse_cbeff_header _ _ _) as [[h|e1] w1] eqn:Ep; [|intros [= <- _]; by eapply parse_raises].
  destruct (_ <? 4)%nat; [done|]. destruct (_ <? be _); [done|].
  destruct (Hm h (take (Z.to_nat (be (take 4 (drop 20 rest)))) (drop 4 (drop 20 rest))) (fst s, w1)) as (t & s1 & -> & _).
  destruct (each_template fuel bt make _ s1) as [[ts|e1] s2] eqn:Ee; [done|]. intros [= <- _]. by eapply IH.
Qed.

(** When a fingerprint group is refused, the caller gets a template error, the
    log ends with the error, and the templates processed before are kept as they
    were. *)
Theorem dg3_failure data (s : S) e s' : process_dg3_fingerprint data s = (Raise e, s') ->
  exn_class e = BiometricTemplateError /\ processed_templates (fst s') = processed_templates (fst s) /\
  option_map l_level (last (processing_log (fst s'))) = Some "error".
Proof.
  unfold process_dg3_fingerprint, guarded, try_except, mbind at 1 2, M_bind at 1 2.
  pose proof (keeps_log "DG3" "Processing encoded fingerprint data" "info" s) as Hk.
  destruct (yields_log "DG3" "Processing encoded fingerprint data" "info" s) as ([] & s1 & Hl & _).
  rewrite Hl in *. simpl in Hk.
  pose proof (keeps_each FINGER make_finger keeps_make_finger (length data) data s1) as Hk2.
  assert (Hy : forall h d, yields (make_finger h d) (fun _ => True)).
  { intros h d s2. destruct (make_finger_yields h d s2) as (a & s3 & Ha & _). by exists a, s3. }
  destruct (each_template _ _ _ _ s1) as [[ts|e1] s2] eqn:Ee.
  { unfold mbind, M_bind. destruct (yields_keep "DG3" (StoredFingers ts) s2) as (? & s3 & -> & _).
    destruct (yields_log "DG3" ("Processed " +:+ len_str ts +:+ " fingerprint template(s)") "info" s3) as (? & s4 & -> & _).
    done. }
  destruct (each_raises FINGER make_finger Hy _ _ _ _ _ Ee) as [msg ->]. simpl in Hk2.
  change (catchable (template_error msg)) with true. cbn iota. unfold mbind, M_bind.
  pose proof (keeps_log "DG3" ("Processing failed: " +:+ exn_message (template_error msg)) "error" s2) as Hk3.
  unfold _log_processing, mbind, M_bind in *. destruct (outside utcnow s2) as [[now|e2] s3] eqn:Eu.
  - simpl in *. intros [= <- <-]. simpl in *. split; [done|]. split; [congruence|]. by rewrite last_snoc.
  - unfold outside, utcnow in Eu. by destruct (datetime_now (snd s2)).
Qed.
End theorems.

(** ** Concrete runs *)

Module Demo.

#[local] Instance still : Env unit := { uuid4 w := ("", w); datetime_now w := (0, w) }.
#[local] Instance steady : World unit := { time_time w := (0%Q, w); sleep _ w := w; randbelow _ w := (0, w) }.
#[local] Instance digest : Sha256Bytes := { sha256 _ := "0123456789abcdef0123456789abcdef0123456789abcdef0123456789abcdef" }.
Definition unknown_image : exn := raise_ (subclass "UnidentifiedImageError" OSError) "cannot identify image file".

(** A library that opens nothing but a black image of two bytes. *)
#[local] Instance dark : Imaging := {
  open_image bs := if (length bs =? 2)%nat then Ok (640, 480) else Raise unknown_image;
  gray_stats bs := if (length bs =? 2)%nat then Ok (0%Q, 0%Q, Some 0%Q) else Raise unknown_image;
  float_text _ := "" }.
#[local] Instance dark_laws : ImagingLaws.
Proof.
  split. intros bs mean std lap. simpl. destruct (_ =? 2)%nat; [|done]. intros [= <- <- <-].
  split; [lra|]. split; [lra|]. intros v [= <-]. lra.
Qed.

Definition header : bytes := words [27; 257; 8; 1; 0; 0; 0; 0; 0; 0].
Definition finger (points : list raw) : bytes := encode_iso (of_values (repeat 0 28)) points [].
Definition points : list raw := [Raw 80 90 200 1 63; Raw 300 2 0 2 7].
Definition records : list (bytes * bytes) := [(header, finger points); (header, finger [])].
Definition fresh : processor * unit := (new_processor true true, tt).

Lemma header_valid : valid_header header.
Proof. by vm_compute. Qed.
Lemma records_valid : Forall valid_record records.
Proof. apply Forall_cons_2; [|apply Forall_cons_2; [|apply Forall_nil_2]]; (split; [exact header_valid|by vm_compute]). Qed.
Lemma cut_in_template : cut_off (take 30 (encode_record (header, finger points))).
Proof.
  right. exists (header, finger points), 30%nat. split; [split; [exact header_valid|by vm_compute]|].
  split; [done|]. apply Nat.ltb_lt. by vm_compute.
Qed.

Example dg3_reads_templates_witness :
  exists ts s', process_dg3_fingerprint (concat (map encode_record records) ++ take 30 (encode_record (header, finger points))) fresh
    = (Ok ts, s') /\
    Forall2 (fun r t => exists h, header_of FINGER (fst r) h /\ finger_of h (snd r) t) records ts.
Proof. exact (dg3_reads_templates records _ fresh records_valid cut_in_template). Defined.

Definition blank (d : bytes) : FingerprintTemplate :=
  Finger_ (Header 27 257 FINGER 1 0 "") d ISO_FINGER_MINUTIAE 256 360 500 (_count_minutiae d ISO_FINGER_MINUTIAE) [] None.

Example minutiae_roundtrip_witness :
  extract_minutiae (blank (finger points)) tt =
    (Ok (numbered 0 points, with_minutiae (numbered 0 points) (blank (finger points))), tt).
Proof.
  refine (minutiae_roundtrip (blank (finger points)) (of_values (repeat 0 28)) points [] tt eq_refl eq_refl _ _ eq_refl).
  - simpl. lia.
  - apply Forall_cons_2; [|apply Forall_cons_2; [|apply Forall_nil_2]]; unfold raw_ok; simpl; lia.
Defined.

Example brightness_always_best_witness :
  dget "brightness" (fst (face_scores (Face_ (Header 27 513 FACE 0 0 "") (of_values [0; 0]) PNG 640 480 None None) 0 0 (Some 0%Q)))
    = Some 100.
Proof. exact (brightness_always_best (Face_ (Header 27 513 FACE 0 0 "") (of_values [0; 0]) PNG 640 480 None None) 0 0 (Some 0%Q) eq_refl). Defined.

Definition no_image : bytes := words [27; 513; 2; 0; 0; 0; 0; 0; 0; 0] ++ of_values [1; 2; 3].

Example any_face_accepted_witness :
  exists t s', process_dg2_face no_image (new_processor false true, tt) = (Ok t, s') /\ image_data t = of_values [1; 2; 3] /\
    (width t, height t) = (480, 640) /\ header_of FACE (take 20 no_image) (f_header t).
Proof.
  refine (any_face_accepted no_image (new_processor false true) tt eq_refl _ _).
  - by vm_compute.
  - by intros e [= <-].
Defined.

Definition bad_header : bytes := words [0; 257; 8; 1; 0; 0; 0; 0; 0; 0; 0].

Example dg3_failure_witness : exists e s', process_dg3_fingerprint bad_header fresh = (Raise e, s') /\
  exn_class e = BiometricTemplateError /\ processed_templates (fst s') = [] /\
  option_map l_level (last (processing_log (fst s'))) = Some "error".
Proof.
  destruct (process_dg3_fingerprint bad_header fresh) as [[ts|e] s'] eqn:E.
  - exfalso. vm_compute in E. discriminate.
  - exists e, s'. split; [reflexivity|]. exact (dg3_failure bad_header fresh e s' E).
Defined.

Definition hollow : bytes := of_values ([70; 77; 82; 0] ++ repeat 0 14 ++ [1; 244] ++ repeat 0 8 ++ [0; 100]).

(** A template of thirty bytes that says it has a hundred minutiae and holds
    none is of excellent quality. *)
Theorem excellent_without_minutiae : exists t s',
  process_dg3_fingerprint (encode_record (header, hollow)) fresh = (Ok [t], s') /\
  minutiae_points t = [] /\ minutiae_count t = 100 /\ option_map quality_level (p_quality t) = Some EXCELLENT.
Proof.
  eexists _, _. split; [vm_compute; reflexivity|]. by vm_compute.
Qed.

(** The mock template is meant to hold two minutiae; its bytes are not where they
    are read from, so that it is taken to have eighty and gives eleven. *)
Example mock_misaligned : exists t s', process_dg3_fingerprint create_mock_dg3_data fresh = (Ok [t], s') /\
  minutiae_count t = 80 /\ length (minutiae_points t) = 11%nat.
Proof.
  eexists _, _. split; [vm_compute; reflexivity|]. by vm_compute.
Qed.
End Demo.
