(* ===== verification/Certificates.v ===== *)
(** * Certificates ([models/certificates.py])

    X.509 names, certificates, revocation lists and the master list of the country
    signing certificates: their dictionaries and texts, their validity, and what
    they are asked. *)

From S2P Require Import Prelude PyRuntime PyText PyUuid PyDate PyInt PyRegex PyIso Dataclass.
Local Open Scope Z_scope.

(** ** Data *)

Inductive KeyAlgorithm := RSA | EC | DSA.

Inductive SignatureAlgorithm :=
| SHA1_WITH_RSA | SHA256_WITH_RSA | SHA384_WITH_RSA | SHA512_WITH_RSA
| SHA256_WITH_ECDSA | SHA384_WITH_ECDSA | SHA512_WITH_ECDSA.

Inductive KeyUsage :=
| DIGITAL_SIGNATURE | NON_REPUDIATION | KEY_ENCIPHERMENT | DATA_ENCIPHERMENT | KEY_AGREEMENT
| KEY_CERT_SIGN | CRL_SIGN | ENCIPHER_ONLY | DECIPHER_ONLY.

Inductive CertificateType := CSCA | DOCUMENT_SIGNER | MASTER_LIST_SIGNER | CRL_SIGNER | TERMINAL.

#[export] Instance KeyAlgorithm_enum : PyEnum KeyAlgorithm := {
  enum_value a := JStr (match a with RSA => "RSA" | EC => "EC" | DSA => "DSA" end);
  enum_members := [RSA; EC; DSA] }.

#[export] Instance SignatureAlgorithm_enum : PyEnum SignatureAlgorithm := {
  enum_value a := JStr (match a with
    | SHA1_WITH_RSA => "SHA1withRSA" | SHA256_WITH_RSA => "SHA256withRSA" | SHA384_WITH_RSA => "SHA384withRSA"
    | SHA512_WITH_RSA => "SHA512withRSA" | SHA256_WITH_ECDSA => "SHA256withECDSA"
    | SHA384_WITH_ECDSA => "SHA384withECDSA" | SHA512_WITH_ECDSA => "SHA512withECDSA" end);
  enum_members := [SHA1_WITH_RSA; SHA256_WITH_RSA; SHA384_WITH_RSA; SHA512_WITH_RSA;
    SHA256_WITH_ECDSA; SHA384_WITH_ECDSA; SHA512_WITH_ECDSA] }.

#[export] Instance KeyUsage_enum : PyEnum KeyUsage := {
  enum_value a := JStr (match a with
    | DIGITAL_SIGNATURE => "digitalSignature" | NON_REPUDIATION => "nonRepudiation"
    | KEY_ENCIPHERMENT => "keyEncipherment" | DATA_ENCIPHERMENT => "dataEncipherment"
    | KEY_AGREEMENT => "keyAgreement" | KEY_CERT_SIGN => "keyCertSign" | CRL_SIGN => "cRLSign"
    | ENCIPHER_ONLY => "encipherOnly" | DECIPHER_ONLY => "decipherOnly" end);
  enum_members := [DIGITAL_SIGNATURE; NON_REPUDIATION; KEY_ENCIPHERMENT; DATA_ENCIPHERMENT; KEY_AGREEMENT;
    KEY_CERT_SIGN; CRL_SIGN; ENCIPHER_ONLY; DECIPHER_ONLY] }.

#[export] Instance CertificateType_enum : PyEnum CertificateType := {
  enum_value a := JStr (match a with
    | CSCA => "CSCA" | DOCUMENT_SIGNER => "DS" | MASTER_LIST_SIGNER => "MLS" | CRL_SIGNER => "CRL"
    | TERMINAL => "TERMINAL" end);
  enum_members := [CSCA; DOCUMENT_SIGNER; MASTER_LIST_SIGNER; CRL_SIGNER; TERMINAL] }.

#[export] Instance KeyAlgorithm_laws : PyEnumLaws KeyAlgorithm.
Proof. split. by intros []. Qed.
#[export] Instance SignatureAlgorithm_laws : PyEnumLaws SignatureAlgorithm.
Proof. split. by intros []. Qed.
#[export] Instance KeyUsage_laws : PyEnumLaws KeyUsage.
Proof. split. by intros []. Qed.
#[export] Instance CertificateType_laws : PyEnumLaws CertificateType.
Proof. split. by intros []. Qed.

Record X509Name := {
  country : json; organization : json; organizational_unit : json; common_name : json;
  state_or_province : json; locality : json; email : json }.

Record X509Extension := { oid : json; critical : json; value : json }.

Record CertificateRequest := {
  cr_subject : X509Name; cr_key_algorithm : KeyAlgorithm; cr_key_size : json; cr_validity_days : json;
  cr_key_usage : list KeyUsage; cr_extensions : list X509Extension }.

(** [id] holds the 32 digits of the UUID. *)
Record Certificate := {
  serial_number : json; subject : X509Name; issuer : X509Name; not_before : datetime; not_after : datetime;
  public_key : json; signature_algorithm : SignatureAlgorithm; signature : json;
  certificate_type : CertificateType; key_usage : list KeyUsage; extensions : list X509Extension;
  raw_data : json; cert_id : string }.

Record CertificateRevocationList := {
  crl_issuer : X509Name; this_update : datetime; crl_next_update : datetime; revoked_certificates : json;
  crl_signature_algorithm : option SignatureAlgorithm; crl_signature : json; crl_raw_data : json; crl_id : string }.

Record CSCAMasterListEntry := { entry_country : json; certificate : Certificate }.

Record CSCAMasterList := {
  ml_version : json; ml_issuer : X509Name; issued_date : datetime; ml_next_update : datetime;
  entries : list CSCAMasterListEntry; ml_signature : json; ml_id : string }.

(** ** Names *)

Definition name_dict (n : X509Name) : pydict json :=
  [("C", country n); ("O", organization n)] ++ if_truthy "OU" (organizational_unit n) ++
  if_truthy "CN" (common_name n) ++ if_truthy "ST" (state_or_province n) ++ if_truthy "L" (locality n) ++
  if_truthy "E" (email n) ++ [].

Definition name_from_dict (data : json) : result X509Name :=
  c ← get_or "C" (JStr "") data; o ← get_or "O" (JStr "") data; ou ← get_item "OU" data; cn ← get_item "CN" data;
  st ← get_item "ST" data; l ← get_item "L" data; e ← get_item "E" data;
  mret {| country := c; organization := o; organizational_unit := ou; common_name := cn;
          state_or_province := st; locality := l; email := e |}.

Definition name_part (key : string) (v : json) : list string :=
  if json_truthy v then [key +:+ "=" +:+ py_str v] else [].

Definition name_parts (n : X509Name) : list string :=
  name_part "C" (country n) ++ name_part "O" (organization n) ++ name_part "OU" (organizational_unit n) ++
  name_part "CN" (common_name n) ++ name_part "ST" (state_or_province n) ++ name_part "L" (locality n) ++
  name_part "E" (email n).

Definition to_string (n : X509Name) : string := String.concat ", " (name_parts n).

Definition component (components : pydict json) (part : string) : pydict json :=
  if has_char "=" part
  then let '(key, value) := partition_on "=" (strip part) in dset (strip key) (JStr (strip value)) components
  else components.

Definition from_string (name_string : string) : result X509Name :=
  name_from_dict (JDict (foldl component [] (split_on "," name_string))).

(** What reading the dictionary of a name back gives. *)
Definition name_settle (n : X509Name) : X509Name := {|
  country := country n; organization := organization n; organizational_unit := kept (organizational_unit n);
  common_name := kept (common_name n); state_or_province := kept (state_or_province n);
  locality := kept (locality n); email := kept (email n) |}.

#[export] Instance X509Name_codec : DictCodec X509Name := { to_dict n := JDict (name_dict n); from_dict := name_from_dict }.

#[export] Program Instance X509Name_round : RoundTrip X509Name := { settle := name_settle; admissible _ := True }.
Next Obligation.
  intros n _. simpl. unfold name_from_dict, name_dict. look_up. done.
Qed.
Next Obligation. intros n _. simpl. unfold name_dict. simpl. by rewrite !kept_truthy. Qed.

(** ** Extensions and requests *)

Definition extension_dict (x : X509Extension) : json :=
  JDict ([("oid", oid x); ("critical", critical x)] ++ unless_none "value" (value x) ++ []).

(** The comprehension of [Certificate.from_dict]. *)
Definition extension_from_dict (ext : json) : result X509Extension :=
  o ← item "oid" ext; c ← get_or "critical" (JBool false) ext; v ← get_item "value" ext;
  mret {| oid := o; critical := c; value := v |}.

#[export] Instance X509Extension_codec : DictCodec X509Extension := {
  to_dict := extension_dict; from_dict := extension_from_dict }.

#[export] Program Instance X509Extension_round : RoundTrip X509Extension := { settle := id; admissible _ := True }.
Next Obligation. intros [o c v] _. simpl. unfold extension_from_dict, extension_dict. simpl. look_up. done. Qed.
Next Obligation. done. Qed.

Definition CertificateRequest_to_dict (r : CertificateRequest) : json := JDict [
  ("subject", to_dict (cr_subject r)); ("keyAlgorithm", enum_value (cr_key_algorithm r));
  ("keySize", cr_key_size r); ("validityDays", cr_validity_days r);
  ("keyUsage", JList (map enum_value (cr_key_usage r)));
  ("extensions", JList (map extension_dict (cr_extensions r)))].

(** ** Certificates *)

Definition read_uuid (v : json) : result string :=
  match v with JStr s => parse_uuid s | _ => Raise (raise_ AttributeError "replace") end.

Section models.
Context {W : Type} `{Env W, IsoTimes}.

(** [UUID(data["id"]) if "id" in data else uuid4()] *)
Definition read_id (data : json) : M W string :=
  present ← lift (has_key "id" data);
  if (present : bool) then lift (v ← item "id" data; read_uuid v)
  else fun w => let '(u, w) := uuid4 w in (Ok (uuid_digits u), w).

Definition certificate_dict (c : Certificate) : json := JDict [
  ("id", JStr (uuid_str (cert_id c))); ("serialNumber", serial_number c); ("subject", to_dict (subject c));
  ("issuer", to_dict (issuer c)); ("notBefore", time_json (not_before c)); ("notAfter", time_json (not_after c));
  ("publicKey", public_key c); ("signatureAlgorithm", enum_value (signature_algorithm c));
  ("signature", signature c); ("certificateType", enum_value (certificate_type c));
  ("keyUsage", JList (map enum_value (key_usage c))); ("extensions", JList (map extension_dict (extensions c)));
  ("rawData", raw_data c)].

(** Everything but the identifier. *)
Definition certificate_body (data : json) (id : string) : result Certificate :=
  serial ← item "serialNumber" data; s ← (v ← item "subject" data; from_dict v); i ← (v ← item "issuer" data; from_dict v);
  nb ← (v ← item "notBefore" data; read_time v); na ← (v ← item "notAfter" data; read_time v);
  pk ← item "publicKey" data; sa ← (v ← item "signatureAlgorithm" data; enum_of v); sg ← item "signature" data;
  ct ← (v ← item "certificateType" data; enum_of v); raw ← get_item "rawData" data;
  ku ← if_present "keyUsage" (read_list enum_of) [] data;
  exts ← if_present "extensions" (read_list extension_from_dict) [] data;
  mret {| serial_number := serial; subject := s; issuer := i; not_before := nb; not_after := na; public_key := pk;
          signature_algorithm := sa; signature := sg; certificate_type := ct; key_usage := ku; extensions := exts;
          raw_data := raw; cert_id := id |}.

Definition certificate_from_dict (data : json) : M W Certificate :=
  id ← read_id data; lift (certificate_body data id).

(** The given time, or [datetime.now()]. *)
Definition time_or_now (current_time : option datetime) : M W datetime :=
  match current_time with
  | Some t => mret t
  | None => fun w => let '(t, w) := datetime_now w in (Ok (naive t), w)
  end.

Definition certificate_is_valid (c : Certificate) (current_time : option datetime) : M W bool :=
  t ← time_or_now current_time; lift (dt_between (not_before c) t (not_after c)).

(** [{k.lower(): v for k, v in name.to_dict().items()}] *)
Definition lowered (n : X509Name) : pydict json :=
  foldl (fun d kv => dset (str_lower (fst kv)) (snd kv) d) [] (name_dict n).

Definition none_or (v : option json) : json := default JNull v.

Definition is_self_signed (c : Certificate) : bool :=
  let subject_dict := lowered (subject c) in
  let issuer_dict := lowered (issuer c) in
  if negb (json_eq (none_or (dget "c" subject_dict)) (none_or (dget "c" issuer_dict))) then false
  else if negb (json_eq (none_or (dget "o" subject_dict)) (none_or (dget "o" issuer_dict))) then false
  else match dget "cn" subject_dict, dget "cn" issuer_dict with
       | Some a, Some b => json_eq a b
       | _, _ => true
       end.

(** ** Revocation lists *)

Definition crl_dict (l : CertificateRevocationList) : json := JDict ([
  ("id", JStr (uuid_str (crl_id l))); ("issuer", to_dict (crl_issuer l)); ("thisUpdate", time_json (this_update l));
  ("nextUpdate", time_json (crl_next_update l)); ("revokedCertificates", revoked_certificates l)] ++
  if_some "signatureAlgorithm" enum_value (crl_signature_algorithm l) ++ if_truthy "signature" (crl_signature l) ++
  if_truthy "rawData" (crl_raw_data l) ++ []).

Definition crl_body (data : json) (id : string) : result CertificateRevocationList :=
  i ← (v ← item "issuer" data; from_dict v); tu ← (v ← item "thisUpdate" data; read_time v);
  nu ← (v ← item "nextUpdate" data; read_time v); rc ← get_or "revokedCertificates" (JList []) data;
  raw ← get_item "rawData" data;
  sa ← if_present "signatureAlgorithm" (option_of enum_of) None data;
  sg ← if_present "signature" Ok JNull data;
  mret {| crl_issuer := i; this_update := tu; crl_next_update := nu; revoked_certificates := rc;
          crl_signature_algorithm := sa; crl_signature := sg; crl_raw_data := raw; crl_id := id |}.

Definition crl_from_dict (data : json) : M W CertificateRevocationList := id ← read_id data; lift (crl_body data id).

(** [any(cert.get("serialNumber") == serial_number for cert in certs)] *)
Fixpoint any_revoked (serial : json) (certs : list json) : result bool :=
  match certs with
  | [] => Ok false
  | cert :: certs => v ← get_item "serialNumber" cert; if json_eq v serial then Ok true else any_revoked serial certs
  end.
Definition is_certificate_revoked (l : CertificateRevocationList) (serial : json) : result bool :=
  certs ← elems (revoked_certificates l); any_revoked serial certs.

Definition crl_is_valid (l : CertificateRevocationList) (current_time : option datetime) : M W bool :=
  t ← time_or_now current_time; lift (dt_between (this_update l) t (crl_next_update l)).

(** ** The master list *)

Definition entry_dict (e : CSCAMasterListEntry) : json :=
  JDict [("country", entry_country e); ("certificate", certificate_dict (certificate e))].

Definition entry_from_dict (data : json) : M W CSCAMasterListEntry :=
  c ← lift (item "country" data); v ← lift (item "certificate" data); cert ← certificate_from_dict v;
  mret {| entry_country := c; certificate := cert |}.

Fixpoint each_entry (l : list json) : M W (list CSCAMasterListEntry) :=
  match l with
  | [] => mret []
  | x :: l => e ← entry_from_dict x; es ← each_entry l; mret (e :: es)
  end.

Definition master_list_dict (l : CSCAMasterList) : json := JDict ([
  ("id", JStr (uuid_str (ml_id l))); ("version", ml_version l); ("issuer", to_dict (ml_issuer l));
  ("issuedDate", time_json (issued_date l)); ("nextUpdate", time_json (ml_next_update l));
  ("entries", JList (map entry_dict (entries l)))] ++ if_truthy "signature" (ml_signature l) ++ []).

Definition master_list_from_dict (data : json) : M W CSCAMasterList :=
  id ← read_id data; ver ← lift (item "version" data); i ← lift (v ← item "issuer" data; from_dict v);
  issued ← lift (v ← item "issuedDate" data; read_time v); next ← lift (v ← item "nextUpdate" data; read_time v);
  sg ← lift (get_item "signature" data); present ← lift (has_key "entries" data);
  es ← (if (present : bool) then (v ← lift (item "entries" data); l ← lift (elems v); each_entry l) else mret []);
  mret {| ml_version := ver; ml_issuer := i; issued_date := issued; ml_next_update := next; entries := es;
          ml_signature := sg; ml_id := id |}.

(** [country.upper()] *)
Definition upper_of (v : json) : result string :=
  match v with JStr s => Ok (str_upper s) | _ => Raise (raise_ AttributeError "upper") end.

Fixpoint certificates_of (country_code : json) (l : list CSCAMasterListEntry) : result (list Certificate) :=
  match l with
  | [] => Ok []
  | e :: l =>
      a ← upper_of (entry_country e); b ← upper_of country_code;
      rest ← certificates_of country_code l;
      mret (if String.eqb a b then certificate e :: rest else rest)
  end.
Definition get_certificates_for_country (l : CSCAMasterList) (country_code : json) : result (list Certificate) :=
  certificates_of country_code (entries l).

Definition master_list_is_valid (l : CSCAMasterList) (current_time : option datetime) : M W bool :=
  t ← time_or_now current_time; lift (dt_between (issued_date l) t (ml_next_update l)).
End models.

(** ** Theorems *)

(** *** Dictionaries are read back *)

(** What [from_dict] gives for a written certificate: the empty optional parts of
    its names are [None]. *)
Definition certificate_settle (c : Certificate) : Certificate := {|
  serial_number := serial_number c; subject := settle (subject c); issuer := settle (issuer c);
  not_before := not_before c; not_after := not_after c; public_key := public_key c;
  signature_algorithm := signature_algorithm c; signature := signature c; certificate_type := certificate_type c;
  key_usage := key_usage c; extensions := extensions c; raw_data := raw_data c; cert_id := cert_id c |}.

Definition certificate_ok (c : Certificate) : Prop :=
  uuid_hex (cert_id c) = true /\ valid_datetime (not_before c) /\ valid_datetime (not_after c).

Definition crl_settle (l : CertificateRevocationList) : CertificateRevocationList := {|
  crl_issuer := settle (crl_issuer l); this_update := this_update l; crl_next_update := crl_next_update l;
  revoked_certificates := revoked_certificates l; crl_signature_algorithm := crl_signature_algorithm l;
  crl_signature := kept (crl_signature l); crl_raw_data := kept (crl_raw_data l); crl_id := crl_id l |}.

Definition crl_ok (l : CertificateRevocationList) : Prop :=
  uuid_hex (crl_id l) = true /\ valid_datetime (this_update l) /\ valid_datetime (crl_next_update l).

Definition entry_settle (e : CSCAMasterListEntry) : CSCAMasterListEntry := {|
  entry_country := entry_country e; certificate := certificate_settle (certificate e) |}.

Definition master_list_settle (l : CSCAMasterList) : CSCAMasterList := {|
  ml_version := ml_version l; ml_issuer := settle (ml_issuer l); issued_date := issued_date l;
  ml_next_update := ml_next_update l; entries := map entry_settle (entries l);
  ml_signature := kept (ml_signature l); ml_id := ml_id l |}.

Definition master_list_ok (l : CSCAMasterList) : Prop :=
  uuid_hex (ml_id l) = true /\ valid_datetime (issued_date l) /\ valid_datetime (ml_next_update l) /\
  Forall (fun e => certificate_ok (certificate e)) (entries l).

Lemma read_extensions l : read_list extension_from_dict (JList (map extension_dict l)) = Ok l.
Proof.
  rewrite (read_list_map _ _ id); [by rewrite map_id|]. intros x _. exact (read_back x I).
Qed.

Lemma read_name n : from_dict (to_dict (A:=X509Name) n) = Ok (settle n).
Proof. exact (read_back n I). Qed.

Section theorems.
Context {W : Type} `{Env W, IsoTimes}.

Lemma read_id_str id data (w : W) : uuid_hex id = true -> has_key "id" data = Ok true ->
  item "id" data = Ok (JStr (uuid_str id)) -> read_id data w = (Ok id, w).
Proof.
  intros Hid Hk Hi. unfold read_id, mbind, M_bind, lift. rewrite Hk, Hi. simpl. by rewrite parse_uuid_str.
Qed.

Lemma certificate_body_dict c : certificate_ok c ->
  certificate_body (certificate_dict c) (cert_id c) = Ok (certificate_settle c).
Proof.
  intros (Hid & Hb & Ha). unfold certificate_body, certificate_dict. look_up.
  rewrite !read_name, !read_time_json by done. look_up. rewrite read_extensions. by destruct c.
Qed.

Lemma certificate_back c (w : W) : certificate_ok c ->
  certificate_from_dict (certificate_dict c) w = (Ok (certificate_settle c), w).
Proof.
  intros Hc. unfold certificate_from_dict, mbind, M_bind. rewrite (read_id_str (cert_id c)) by (done || apply Hc).
  unfold lift. by rewrite certificate_body_dict.
Qed.

Lemma crl_back l (w : W) : crl_ok l -> crl_from_dict (crl_dict l) w = (Ok (crl_settle l), w).
Proof.
  intros (Hid & Ht & Hn). unfold crl_from_dict, mbind, M_bind. rewrite (read_id_str (crl_id l)) by (reflexivity || done).
  unfold lift, crl_body, crl_dict. look_up. rewrite read_name, !read_time_json by done. look_up.
  done.
Qed.

Lemma entry_back e (w : W) : certificate_ok (certificate e) ->
  entry_from_dict (entry_dict e) w = (Ok (entry_settle e), w).
Proof.
  intros Hc. unfold entry_from_dict, entry_dict, mbind, M_bind, lift, item. cbn [dget String.eqb Ascii.eqb eqb].
  by rewrite certificate_back.
Qed.

Lemma entries_back l (w : W) : Forall (fun e => certificate_ok (certificate e)) l ->
  each_entry (map entry_dict l) w = (Ok (map entry_settle l), w).
Proof.
  induction 1 as [|e l He Hl IH]; [done|]. cbn [map each_entry]. unfold mbind, M_bind in *. rewrite entry_back by done.
  by rewrite IH.
Qed.

Lemma certificate_written c : certificate_dict (certificate_settle c) = certificate_dict c.
Proof.
  unfold certificate_dict. cbn [certificate_settle serial_number subject issuer not_before not_after public_key
    signature_algorithm signature certificate_type key_usage extensions raw_data cert_id]. by rewrite !settle_written by exact I.
Qed.

Lemma entries_written l : map entry_dict (map entry_settle l) = map entry_dict l.
Proof.
  rewrite map_map. apply map_ext. intros e. unfold entry_dict, entry_settle. cbn [entry_country certificate].
  by rewrite certificate_written.
Qed.

(** A master list is read back from its dictionary without an identifier being
    drawn, but for the empty optional parts of names and an empty signature, which
    become [None]; and the dictionary of what is read is the same again. *)
Theorem master_list_roundtrip l (w : W) : master_list_ok l ->
  master_list_from_dict (master_list_dict l) w = (Ok (master_list_settle l), w) /\
  master_list_dict (master_list_settle l) = master_list_dict l.
Proof.
  intros (Hid & Hi & Hn & He). split.
  - unfold master_list_from_dict, mbind, M_bind. rewrite (read_id_str (ml_id l)) by (reflexivity || done).
    unfold lift, master_list_dict. look_up. rewrite read_name, !read_time_json by done.
    simpl. rewrite entries_back by done. by destruct l.
  - unfold master_list_dict. cbn [master_list_settle ml_version ml_issuer issued_date ml_next_update entries ml_signature ml_id].
    by rewrite settle_written, entries_written, kept_truthy by exact I.
Qed.

(** A revocation list is read back, and revokes the same certificates. *)
Theorem crl_roundtrip l (w : W) : crl_ok l ->
  crl_from_dict (crl_dict l) w = (Ok (crl_settle l), w) /\ crl_dict (crl_settle l) = crl_dict l /\
  forall serial, is_certificate_revoked (crl_settle l) serial = is_certificate_revoked l serial.
Proof.
  intros Hl. split; [by apply crl_back|]. split; [|done].
  unfold crl_dict. cbn [crl_settle crl_issuer this_update crl_next_update revoked_certificates crl_signature_algorithm
    crl_signature crl_raw_data crl_id]. by rewrite settle_written, !kept_truthy by exact I.
Qed.

(** *** Validity *)

(** A certificate holds at a time of the kind of its own two times exactly from the
    first to the last; without a given time the clock of the machine is used, which
    has no time zone, and a certificate whose first time has one raises. *)
Theorem certificate_validity c (w : W) :
  (forall t, dt_offset (not_before c) = None -> dt_offset (not_after c) = None ->
    fst (certificate_is_valid c (Some (naive t)) w) = Ok ((dt_local (not_before c) <=? t) && (t <=? dt_local (not_after c)))) /\
  (forall t x y z, dt_offset (not_before c) = Some x -> dt_offset (not_after c) = Some y ->
    fst (certificate_is_valid c (Some (DateTime t (Some z))) w) =
      Ok ((dt_local (not_before c) - x * minute <=? t - z * minute) && (t - z * minute <=? dt_local (not_after c) - y * minute))) /\
  (dt_offset (not_before c) <> None ->
    exists msg, fst (certificate_is_valid c None w) = Raise (raise_ TypeError msg)).
Proof.
  unfold certificate_is_valid, time_or_now, mbind, M_bind, mret, M_ret, lift, dt_between, dt_le.
  split_and!.
  - intros t Hb Ha. rewrite Hb. simpl. rewrite Ha. by destruct (_ <=? t).
  - intros t x y z Hb Ha. rewrite Hb. simpl. rewrite Ha. by destruct (_ <=? t - _).
  - intros Hb. destruct (dt_offset (not_before c)); [|done]. destruct (datetime_now w) as [t w']. simpl. by eexists.
Qed.
End theorems.

(** *** Questions *)

Lemma lowered_get n : dget "c" (lowered n) = Some (country n) /\ dget "o" (lowered n) = Some (organization n) /\
  dget "cn" (lowered n) = if json_truthy (common_name n) then Some (common_name n) else None.
Proof.
  unfold lowered, name_dict, if_truthy.
  by destruct (json_truthy (organizational_unit n)), (json_truthy (common_name n)), (json_truthy (state_or_province n)),
    (json_truthy (locality n)), (json_truthy (email n)).
Qed.

(** A certificate counts as self-signed when its two names agree on country and
    organisation, and on the common name where both have one: neither the other
    parts of the names, nor its key or signature, are looked at. *)
Theorem self_signed_iff c : is_self_signed c = true <->
  json_eq (country (subject c)) (country (issuer c)) = true /\
  json_eq (organization (subject c)) (organization (issuer c)) = true /\
  (json_truthy (common_name (subject c)) = true -> json_truthy (common_name (issuer c)) = true ->
   json_eq (common_name (subject c)) (common_name (issuer c)) = true).
Proof.
  unfold is_self_signed. destruct (lowered_get (subject c)) as (-> & -> & ->), (lowered_get (issuer c)) as (-> & -> & ->).
  simpl. destruct (json_eq (country _) _); simpl; [|by split; [|intros [? _]]].
  destruct (json_eq (organization _) _); simpl; [|by split; [|intros (_ & ? & _)]].
  destruct (json_truthy (common_name (subject c))), (json_truthy (common_name (issuer c))); naive_solver.
Qed.

(** The certificates of a country are those of its entries, in their order, the
    case of the code apart. *)
Theorem country_lookup l code (countries : list string) : map entry_country (entries l) = map JStr countries ->
  get_certificates_for_country l (JStr code) =
  Ok (map certificate (map fst (lfilter (fun ec => String.eqb (str_upper (snd ec)) (str_upper code)) (zip (entries l) countries)))).
Proof.
  unfold get_certificates_for_country. generalize (entries l). clear l. intros es. revert countries.
  induction es as [|e es IH]; intros countries Hc; [by destruct countries|].
  destruct countries as [|x countries]; [done|]. injection Hc as He Hc. simpl. rewrite He. simpl.
  rewrite (IH _ Hc). simpl. unfold lfilter. simpl. by destruct (String.eqb _ _).
Qed.

Lemma any_revoked_iff serial (ds : list (pydict json)) :
  any_revoked serial (map JDict ds) = Ok (existsb (fun d => json_eq (default JNull (dget "serialNumber" d)) serial) ds).
Proof. induction ds as [|d ds IH]; [done|]. simpl. by destruct (json_eq _ serial). Qed.

(** A list of dictionaries revokes exactly the serial numbers they hold. *)
Theorem revoked_iff l serial (ds : list (pydict json)) : revoked_certificates l = JList (map JDict ds) ->
  is_certificate_revoked l serial = Ok (existsb (fun d => json_eq (default JNull (dget "serialNumber" d)) serial) ds).
Proof. intros Hl. unfold is_certificate_revoked. rewrite Hl. apply any_revoked_iff. Qed.

(** *** Names as texts *)

Definition comma : ascii := ascii_of_nat 44.

(** A value without commas and without spaces at its ends. *)
Definition plain (s : string) : Prop := s <> "" /\ free_of comma s /\ lstrip s = s /\ rstrip s = s.
Definition plain_part (v : json) : Prop := v = JNull \/ exists s, v = JStr s /\ plain s.
Definition plain_name (n : X509Name) : Prop :=
  Forall (fun v => v = JStr "" \/ exists s, v = JStr s /\ plain s) [country n; organization n] /\
  Forall plain_part [organizational_unit n; common_name n; state_or_province n; locality n; email n].

Definition key_char (c : ascii) : bool := negb (is_blank c) && negb (Ascii.eqb c "=") && negb (Ascii.eqb c comma).
Definition key_ok (k : string) : Prop := k <> "" /\ forallb key_char (String.list_ascii_of_string k) = true.

Lemma key_free k : forallb key_char (String.list_ascii_of_string k) = true -> free_of comma k.
Proof.
  induction k as [|c k IH]; [done|]. cbn [String.list_ascii_of_string forallb free_of]. unfold key_char.
  rewrite !andb_true_iff, !negb_true_iff, Ascii.eqb_neq. naive_solver.
Qed.

Lemma key_strip k : key_ok k -> strip k = k.
Proof.
  intros [Hne Hk]. destruct k as [|c k]; [done|]. cbn [String.list_ascii_of_string forallb] in Hk.
  rewrite andb_true_iff in Hk. destruct Hk as [Hc Hk]. unfold key_char in Hc. rewrite !andb_true_iff in Hc.
  destruct Hc as [[Hb _] _]. apply strip_plain; [by apply negb_true_iff|]. apply forallb_forall. intros x Hx.
  rewrite forallb_forall in Hk. specialize (Hk x Hx). unfold key_char in Hk. rewrite !andb_true_iff in Hk. by destruct Hk as [[? _] _].
Qed.

Lemma rstrip_append a s : s <> "" -> rstrip s = s -> rstrip (a +:+ s) = a +:+ s.
Proof.
  intros Hne Hs. induction a as [|c a IH]; [done|]. rewrite append_cons. cbn [rstrip]. rewrite IH.
  destruct (a +:+ s) eqn:E; [|done]. by destruct a, s.
Qed.

Lemma partition_key k s : forallb key_char (String.list_ascii_of_string k) = true ->
  partition_on "=" (k +:+ "=" +:+ s) = (k, s) /\ has_char "=" (k +:+ "=" +:+ s) = true.
Proof.
  induction k as [|c k IH]; [done|]. cbn [String.list_ascii_of_string forallb]. intros [Hc Hk]%andb_true_iff.
  destruct (IH Hk) as [Hp Hh]. rewrite append_cons. cbn [partition_on]. rewrite Hp, has_char_cons, Hh, orb_true_r.
  unfold key_char in Hc. rewrite !andb_true_iff, !negb_true_iff in Hc. by destruct Hc as [[_ ->] _].
Qed.

Lemma lstrip_key k s : key_ok k -> lstrip (k +:+ s) = k +:+ s.
Proof.
  intros [Hne Hk]. destruct k as [|c k]; [done|]. rewrite append_cons. cbn [lstrip]. cbn [String.list_ascii_of_string forallb] in Hk.
  unfold key_char in Hk. rewrite !andb_true_iff, !negb_true_iff in Hk. by destruct Hk as [[[-> _] _] _].
Qed.

Lemma component_part d k s (pre : string) : key_ok k -> plain s -> pre = "" \/ pre = " " ->
  component d (pre +:+ k +:+ "=" +:+ s) = dset k (JStr s) d.
Proof.
  intros Hk (Hne & _ & Hl & Hr) Hpre. destruct (partition_key k s (proj2 Hk)) as [Hp Hh].
  assert (Hs : strip (pre +:+ k +:+ "=" +:+ s) = k +:+ "=" +:+ s).
  { assert (Hls : lstrip (pre +:+ k +:+ "=" +:+ s) = k +:+ "=" +:+ s) by (destruct Hpre as [-> | ->]; exact (lstrip_key k ("=" +:+ s) Hk)).
    unfold strip. rewrite Hls. apply (rstrip_append k ("=" +:+ s)); [done|]. by apply (rstrip_append "=" s). }
  unfold component. rewrite has_char_app, Hh, orb_true_r, Hs, Hp, key_strip by done. unfold strip. by rewrite Hl, Hr.
Qed.

Lemma split_concat p ps : Forall (free_of comma) (p :: ps) ->
  split_on comma (String.concat ", " (p :: ps)) = p :: map (String " ") ps.
Proof.
  revert p. induction ps as [|q ps IH]; intros p Hf; apply Forall_cons in Hf as [Hp Hf].
  - by apply split_free.
  - change (String.concat ", " (p :: q :: ps)) with (p +:+ String comma "" +:+ String " " (String.concat ", " (q :: ps))).
    rewrite split_cons by done. cbn [map]. f_equal. specialize (IH q Hf).
    change (split_on comma (String " " ?x)) with (match split_on comma x with h :: t => String " " h :: t | [] => [String " " ""] end).
    by rewrite IH.
Qed.

(** The parts a name shows, with their keys. *)
Definition shown (n : X509Name) : pydict json :=
  if_truthy "C" (country n) ++ if_truthy "O" (organization n) ++ if_truthy "OU" (organizational_unit n) ++
  if_truthy "CN" (common_name n) ++ if_truthy "ST" (state_or_province n) ++ if_truthy "L" (locality n) ++
  if_truthy "E" (email n) ++ [].

Definition shown_ok (kv : string * json) : Prop := key_ok (fst kv) /\ exists s, snd kv = JStr s /\ plain s.
Definition part_text (kv : string * json) : string := fst kv +:+ "=" +:+ py_str (snd kv).

Lemma name_part_shown k v : name_part k v = map part_text (if_truthy k v).
Proof. unfold name_part, if_truthy. by destruct (json_truthy v). Qed.

Lemma name_parts_shown n : name_parts n = map part_text (shown n).
Proof. unfold name_parts, shown. by rewrite !map_app, !name_part_shown, app_nil_r. Qed.

Lemma shown_part k v : key_ok k -> v = JStr "" \/ plain_part v -> Forall shown_ok (if_truthy k v).
Proof.
  intros Hk Hv. unfold if_truthy. destruct (json_truthy v) eqn:E; [|constructor]. constructor; [|constructor].
  split; [done|]. destruct Hv as [->|[->|(s & -> & Hs)]]; [done|done|]. simpl. eauto.
Qed.

Lemma plain_name_parts n : plain_name n ->
  (country n = JStr "" \/ exists s, country n = JStr s /\ plain s) /\
  (organization n = JStr "" \/ exists s, organization n = JStr s /\ plain s) /\
  plain_part (organizational_unit n) /\ plain_part (common_name n) /\ plain_part (state_or_province n) /\
  plain_part (locality n) /\ plain_part (email n).
Proof.
  intros [Hr Ho]. repeat match goal with H : Forall _ (_ :: _) |- _ => apply Forall_cons in H as [? H] end. done.
Qed.

Lemma shown_parts n : plain_name n -> Forall shown_ok (shown n).
Proof.
  intros Hn%plain_name_parts. destruct Hn as (Hc & Ho & H1 & H2 & H3 & H4 & H5). unfold shown.
  repeat (apply Forall_app; split); try exact (Forall_nil_2 _); (apply shown_part; [by split|]); unfold plain_part; naive_solver.
Qed.

Lemma fold_components l : Forall shown_ok l -> forall d (pre : string * json -> string),
  (forall kv, pre kv = "" \/ pre kv = " ") ->
  foldl component d (map (fun kv => pre kv +:+ part_text kv) l) = foldl (fun d kv => dset (fst kv) (snd kv) d) d l.
Proof.
  induction 1 as [|kv l [Hk (s & Hv & Hs)] Hl IH]; intros d pre Hpre; [done|]. cbn [map foldl].
  change (part_text kv) with (fst kv +:+ "=" +:+ py_str (snd kv)). rewrite Hv. simpl py_str.
  rewrite component_part by done. by apply IH.
Qed.

Lemma dget_fold k (l : pydict json) : forall d, dwf l ->
  dget k (foldl (fun d kv => dset (fst kv) (snd kv) d) d l) = match dget k l with Some v => Some v | None => dget k d end.
Proof.
  unfold dwf. induction l as [|[k' v] l IH]; intros d Hwf; [done|]. cbn [dkeys map fst] in Hwf. apply NoDup_cons in Hwf as [Hni Hwf].
  simpl. rewrite IH by done. rewrite dget_dset, String.eqb_sym.
  destruct (String.eqb_spec k k') as [->|]; [|done].
  rewrite (proj2 (dget_None_In k' l)); [done|]. by rewrite <- list_elem_of_In.
Qed.

Lemma shown_wf n : dwf (shown n).
Proof.
  unfold shown, if_truthy, dwf, dkeys.
  destruct (json_truthy (country n)), (json_truthy (organization n)), (json_truthy (organizational_unit n)),
    (json_truthy (common_name n)), (json_truthy (state_or_province n)), (json_truthy (locality n)), (json_truthy (email n));
  apply (bool_decide_unpack _); vm_compute; exact I.
Qed.

Lemma parts_free l : Forall shown_ok l -> Forall (free_of comma) (map part_text l).
Proof.
  induction 1 as [|kv l [[_ Hk] (s & Hv & _ & Hs & _)] Hl IH]; [constructor|]. constructor; [|done].
  unfold part_text. rewrite Hv. simpl py_str. clear -Hk Hs. apply key_free in Hk. induction (fst kv) as [|c k IHk].
  - rewrite append_empty. by split.
  - destruct Hk as [Hc Hk]. rewrite append_cons. split; auto.
Qed.

(** The dictionary [from_string] makes of the text of a name. *)
Lemma components_shown n : plain_name n ->
  foldl component [] (split_on comma (to_string n)) = foldl (fun d kv => dset (fst kv) (snd kv) d) [] (shown n).
Proof.
  intros Hn%shown_parts. unfold to_string. rewrite name_parts_shown. destruct Hn as [|kv l Hkv Hl]; [done|].
  assert (Hf : Forall (free_of comma) (map part_text (kv :: l))) by (apply parts_free; by constructor).
  cbn [map]. rewrite split_concat by done. cbn [foldl]. destruct Hkv as [Hk (s & Hv & Hs)].
  rewrite <- (fold_components l Hl _ (fun _ => " ")) by auto. rewrite map_map. f_equal.
  unfold part_text. rewrite Hv. apply (component_part [] _ s ""); auto.
Qed.

(** Reading the text of a name gives the name back, where no value has a comma or
    spaces at its ends. *)
Theorem name_text_roundtrip n : plain_name n -> from_string (to_string n) = Ok n.
Proof.
  intros Hn. unfold from_string. change (split_on "," ?x) with (split_on comma x). rewrite components_shown by done.
  assert (Hget : forall k, dget k (foldl (fun d kv => dset (fst kv) (snd kv) d) [] (shown n)) = dget k (shown n)).
  { intros k. rewrite dget_fold by apply shown_wf. by destruct (dget k (shown n)). }
  unfold name_from_dict, get_item, get_or. rewrite !Hget. unfold shown. look_up.
  destruct (plain_name_parts n Hn) as (Hc & Hor & H1 & H2 & H3 & H4 & H5).
  assert (Hopt : forall v, plain_part v -> kept v = v).
  { intros v [->|(s & -> & Hne & _)]; [done|]. unfold kept. simpl. by apply String.eqb_neq in Hne as ->. }
  assert (Hreq : forall v, v = JStr "" \/ (exists s, v = JStr s /\ plain s) -> default (JStr "") (if json_truthy v then Some v else None) = v).
  { intros v [->|(s & -> & Hne & _)]; [done|]. simpl. by apply String.eqb_neq in Hne as ->. }
  rewrite !Hopt, !Hreq by done. by destruct n.
Qed.

(** ** Runs *)

Module Demo.

#[export] Instance no_other_times : IsoTimes := { iso_time_other s := Raise (raise_ ValueError "Invalid isoformat string") }.

Definition csca_name : X509Name := {|
  country := JStr "UT"; organization := JStr "Utopia"; organizational_unit := JStr "Passports"; common_name := JStr "CSCA Utopia";
  state_or_province := JNull; locality := JNull; email := JNull |}.

Definition signer_name (cn : json) : X509Name := {|
  country := JStr "UT"; organization := JStr "Utopia"; organizational_unit := JStr ""; common_name := cn;
  state_or_province := JNull; locality := JNull; email := JNull |}.

Definition hex : string := "0123456789abcdef0123456789abcdef".
Definition day0 : Z := 1704067200 * second.

Definition signer (cn : json) (tz : option Z) : Certificate := {|
  serial_number := JStr "01"; subject := signer_name cn; issuer := csca_name;
  not_before := DateTime day0 tz; not_after := DateTime (day0 + 365 * day) tz;
  public_key := JStr "cGs="; signature_algorithm := SHA256_WITH_ECDSA; signature := JStr "c2ln";
  certificate_type := DOCUMENT_SIGNER; key_usage := [DIGITAL_SIGNATURE]; extensions := [];
  raw_data := JNull; cert_id := hex |}.

Definition master : CSCAMasterList := {|
  ml_version := JStr "1"; ml_issuer := csca_name; issued_date := naive day0; ml_next_update := naive (day0 + 90 * day);
  entries := [{| entry_country := JStr "ut"; certificate := signer (JStr "DS 1") None |}];
  ml_signature := JStr ""; ml_id := hex |}.

Definition now : script := {| script_ids := []; script_clock := day0 |}.

Lemma valid_day0 n tz : bool_decide (valid_date (dt_date (day0 + n * day))) = true ->
  match tz with Some m => -1440 < m < 1440 | None => True end -> valid_datetime (DateTime (day0 + n * day) tz).
Proof. intros Hv%bool_decide_eq_true Hz. by split. Qed.

Lemma signer_ok cn : certificate_ok (signer cn None).
Proof. split; [done|]. split; [apply (valid_day0 0)|apply (valid_day0 365)]; done. Qed.

Lemma master_list_roundtrip_witness :
  master_list_from_dict (master_list_dict master) now = (Ok (master_list_settle master), now) /\
  master_list_dict (master_list_settle master) = master_list_dict master.
Proof.
  apply master_list_roundtrip. split; [reflexivity|]. split; [apply (valid_day0 0); done|].
  split; [apply (valid_day0 90); done|]. constructor; [apply signer_ok|constructor].
Defined.

Definition revocations : CertificateRevocationList := {|
  crl_issuer := csca_name; this_update := naive day0; crl_next_update := naive (day0 + 7 * day);
  revoked_certificates := JList (map JDict [[("serialNumber", JStr "02")]; [("serial", JStr "01")]]);
  crl_signature_algorithm := Some SHA256_WITH_ECDSA; crl_signature := JStr ""; crl_raw_data := JNull; crl_id := hex |}.

Lemma crl_roundtrip_witness :
  crl_from_dict (crl_dict revocations) now = (Ok (crl_settle revocations), now) /\
  crl_dict (crl_settle revocations) = crl_dict revocations /\
  forall serial, is_certificate_revoked (crl_settle revocations) serial = is_certificate_revoked revocations serial.
Proof.
  apply crl_roundtrip. split; [reflexivity|]. split; [apply (valid_day0 0); done|apply (valid_day0 7); done].
Defined.

Lemma revoked_iff_witness : is_certificate_revoked revocations (JStr "02") = Ok true.
Proof. exact (revoked_iff revocations (JStr "02") [[("serialNumber", JStr "02")]; [("serial", JStr "01")]] eq_refl). Defined.

Lemma country_lookup_witness : get_certificates_for_country master (JStr "Ut") = Ok [signer (JStr "DS 1") None].
Proof. exact (country_lookup master "Ut" ["ut"] eq_refl). Defined.

Lemma plain_bool s : negb (String.eqb s "") && negb (has_char comma s) && String.eqb (lstrip s) s && String.eqb (rstrip s) s = true ->
  plain s.
Proof.
  rewrite !andb_true_iff, !negb_true_iff, !String.eqb_eq, String.eqb_neq. intros [[[Hne Hc] Hl] Hr]. split_and!; try done.
  clear Hne Hl Hr. induction s as [|c s IH]; [done|]. rewrite has_char_cons, orb_false_iff, Ascii.eqb_neq in Hc.
  destruct Hc as [Hc Hs]. split; [congruence|auto].
Qed.

Lemma name_text_roundtrip_witness :
  to_string csca_name = "C=UT, O=Utopia, OU=Passports, CN=CSCA Utopia" /\ from_string (to_string csca_name) = Ok csca_name.
Proof.
  split; [reflexivity|]. apply name_text_roundtrip. split.
  - repeat apply Forall_cons_2; [| |apply Forall_nil_2]; right; eexists; (split; [reflexivity|by apply plain_bool]).
  - repeat apply Forall_cons_2; [| | | | |apply Forall_nil_2]; try (by left); right; eexists; (split; [reflexivity|by apply plain_bool]).
Defined.

(** A comma in a value makes another part of the name. *)
Example name_injection :
  from_string (to_string (signer_name (JStr "Visitor, O=Passport Office"))) =
  Ok {| country := JStr "UT"; organization := JStr "Passport Office"; organizational_unit := JNull; common_name := JStr "Visitor";
        state_or_province := JNull; locality := JNull; email := JNull |}.
Proof. vm_compute. reflexivity. Qed.

(** A signer of the same organisation without a common name counts as self-signed. *)
Example signer_self_signed : is_self_signed (signer JNull None) = true.
Proof. vm_compute. reflexivity. Qed.
Example signer_not_self_signed : is_self_signed (signer (JStr "DS 1") None) = false.
Proof. vm_compute. reflexivity. Qed.

(** A certificate read from a text with a time zone cannot be checked against the clock. *)
Example aware_certificate : fst (certificate_is_valid (signer JNull (Some 0)) None now) =
  Raise (raise_ TypeError "can't compare offset-naive and offset-aware datetimes").
Proof. vm_compute. reflexivity. Qed.
End Demo.
