(* ===== verification/Signatures.v ===== *)
(** * Digital signatures ([models/digital_signatures.py])

    The data classes of XML signatures and of CMS signed data: their dictionaries,
    what reading them back gives, and the certificate data of a key. The DER and
    XML texts of the stub implementations are left out. *)

From S2P Require Import Prelude PyRuntime PyText PyBytes PyDate PyInt PyRegex PyIso Dataclass.
Local Open Scope Z_scope.

(** ** Data *)

Inductive DigestAlgorithm := SHA1 | SHA256 | SHA384 | SHA512.

Inductive SignatureAlgorithm :=
| RSA_WITH_SHA1 | RSA_WITH_SHA256 | RSA_WITH_SHA384 | RSA_WITH_SHA512
| ECDSA_WITH_SHA256 | ECDSA_WITH_SHA384 | ECDSA_WITH_SHA512.

Inductive CanonicalizationMethod :=
| CANONICAL_XML_1_0 | CANONICAL_XML_1_0_WITH_COMMENTS | CANONICAL_XML_1_1 | CANONICAL_XML_1_1_WITH_COMMENTS.

Inductive TransformAlgorithm := ENVELOPED_SIGNATURE | BASE64 | XPATH | XPATH2.

#[export] Instance DigestAlgorithm_enum : PyEnum DigestAlgorithm := {
  enum_value a := JStr (match a with SHA1 => "SHA1" | SHA256 => "SHA256" | SHA384 => "SHA384" | SHA512 => "SHA512" end);
  enum_members := [SHA1; SHA256; SHA384; SHA512] }.

#[export] Instance SignatureAlgorithm_enum : PyEnum SignatureAlgorithm := {
  enum_value a := JStr (match a with
    | RSA_WITH_SHA1 => "RSA-SHA1" | RSA_WITH_SHA256 => "RSA-SHA256" | RSA_WITH_SHA384 => "RSA-SHA384"
    | RSA_WITH_SHA512 => "RSA-SHA512" | ECDSA_WITH_SHA256 => "ECDSA-SHA256" | ECDSA_WITH_SHA384 => "ECDSA-SHA384"
    | ECDSA_WITH_SHA512 => "ECDSA-SHA512" end);
  enum_members := [RSA_WITH_SHA1; RSA_WITH_SHA256; RSA_WITH_SHA384; RSA_WITH_SHA512; ECDSA_WITH_SHA256;
    ECDSA_WITH_SHA384; ECDSA_WITH_SHA512] }.

#[export] Instance CanonicalizationMethod_enum : PyEnum CanonicalizationMethod := {
  enum_value a := JStr (match a with
    | CANONICAL_XML_1_0 => "http://www.w3.org/TR/2001/REC-xml-c14n-20010315"
    | CANONICAL_XML_1_0_WITH_COMMENTS => "http://www.w3.org/TR/2001/REC-xml-c14n-20010315#WithComments"
    | CANONICAL_XML_1_1 => "http://www.w3.org/2006/12/xml-c14n11"
    | CANONICAL_XML_1_1_WITH_COMMENTS => "http://www.w3.org/2006/12/xml-c14n11#WithComments" end);
  enum_members := [CANONICAL_XML_1_0; CANONICAL_XML_1_0_WITH_COMMENTS; CANONICAL_XML_1_1; CANONICAL_XML_1_1_WITH_COMMENTS] }.

#[export] Instance TransformAlgorithm_enum : PyEnum TransformAlgorithm := {
  enum_value a := JStr (match a with
    | ENVELOPED_SIGNATURE => "http://www.w3.org/2000/09/xmldsig#enveloped-signature"
    | BASE64 => "http://www.w3.org/2000/09/xmldsig#base64" | XPATH => "http://www.w3.org/TR/1999/REC-xpath-19991116"
    | XPATH2 => "http://www.w3.org/2002/06/xmldsig-filter2" end);
  enum_members := [ENVELOPED_SIGNATURE; BASE64; XPATH; XPATH2] }.

#[export] Instance DigestAlgorithm_laws : PyEnumLaws DigestAlgorithm.
Proof. split. by intros []. Qed.
#[export] Instance SignatureAlgorithm_laws : PyEnumLaws SignatureAlgorithm.
Proof. split. by intros []. Qed.
#[export] Instance CanonicalizationMethod_laws : PyEnumLaws CanonicalizationMethod.
Proof. split. by intros []. Qed.
#[export] Instance TransformAlgorithm_laws : PyEnumLaws TransformAlgorithm.
Proof. split. by intros []. Qed.

Record Reference := {
  uri : json; digest_method : DigestAlgorithm; digest_value : json; transforms : list TransformAlgorithm;
  ref_id : json; ref_type : json }.

Record KeyInfo := {
  key_id : json; x509_data : json; key_name : json; key_value : json; retrieval_method : json }.

Record SignedInfo := {
  canonicalization_method : CanonicalizationMethod; signature_method : SignatureAlgorithm;
  references : list Reference; info_id : json }.

Record XMLDSigSignature := {
  signed_info : SignedInfo; signature_value : json; key_info : option KeyInfo; sig_id : json; object_data : json }.

Record IssuerAndSerialNumber := { issuer_name : json; serial_number : json }.

Record SignerIdentifier := { issuer_and_serial : option IssuerAndSerialNumber; subject_key_identifier : json }.

Record AlgorithmIdentifier := { algorithm : json; parameters : json }.

Record SignerInfo := {
  si_version : json; signer_identifier : SignerIdentifier; digest_algorithm : AlgorithmIdentifier;
  signature_algorithm : AlgorithmIdentifier; si_signature : json; signed_attrs : json; unsigned_attrs : json }.

(** The content is bytes, or anything else. *)
Inductive content := Bytes (bs : bytes) | Other (j : json).
Record EncapsulatedContent := { content_type : json; encap_content : content }.

Record CMSSignedData := {
  cms_version : json; digest_algorithms : list AlgorithmIdentifier; encap_content_info : EncapsulatedContent;
  signer_infos : list SignerInfo; certificates : json; crls : json }.

Record SignatureValidationResult := {
  valid : json; signing_time : option datetime; signer_certificate : json; errors : json; warnings : json }.

(** ** References and keys *)

#[export] Instance Reference_codec : DictCodec Reference := {
  to_dict r := JDict ([("uri", uri r); ("digestMethod", enum_value (digest_method r)); ("digestValue", digest_value r)] ++
    if_any "transforms" enum_value (transforms r) ++ if_truthy "id" (ref_id r) ++ if_truthy "type" (ref_type r) ++ []);
  from_dict data :=
    u ← item "uri" data; m ← (v ← item "digestMethod" data; enum_of v); d ← item "digestValue" data;
    i ← get_item "id" data; t ← get_item "type" data;
    ts ← if_present "transforms" (read_list enum_of) [] data;
    mret {| uri := u; digest_method := m; digest_value := d; transforms := ts; ref_id := i; ref_type := t |} }.

#[export] Instance KeyInfo_codec : DictCodec KeyInfo := {
  to_dict k := JDict (if_truthy "id" (key_id k) ++ if_truthy "x509Data" (x509_data k) ++ if_truthy "keyName" (key_name k) ++
    if_truthy "keyValue" (key_value k) ++ if_truthy "retrievalMethod" (retrieval_method k) ++ []);
  from_dict data :=
    i ← get_item "id" data; x ← get_item "x509Data" data; n ← get_item "keyName" data; v ← get_item "keyValue" data;
    m ← get_item "retrievalMethod" data;
    mret {| key_id := i; x509_data := x; key_name := n; key_value := v; retrieval_method := m |} }.

(** [d[k] = v] *)
Definition set_item (k : string) (v d : json) : result json :=
  match d with JDict d => Ok (JDict (dset k v d)) | _ => Raise type_error end.

Definition set_x509_certificate (cert_data : json) (k : KeyInfo) : result KeyInfo :=
  let d := if json_truthy (x509_data k) then x509_data k else JDict [] in
  d ← set_item "X509Certificate" cert_data d;
  mret {| key_id := key_id k; x509_data := d; key_name := key_name k; key_value := key_value k;
          retrieval_method := retrieval_method k |}.

#[export] Instance SignedInfo_codec : DictCodec SignedInfo := {
  to_dict s := JDict ([("canonicalizationMethod", enum_value (canonicalization_method s));
    ("signatureMethod", enum_value (signature_method s)); ("references", JList (map to_dict (references s)))] ++
    if_truthy "id" (info_id s) ++ []);
  from_dict data :=
    c ← (v ← item "canonicalizationMethod" data; enum_of v); m ← (v ← item "signatureMethod" data; enum_of v);
    rs ← (v ← item "references" data; read_list from_dict v); i ← get_item "id" data;
    mret {| canonicalization_method := c; signature_method := m; references := rs; info_id := i |} }.

#[export] Instance XMLDSigSignature_codec : DictCodec XMLDSigSignature := {
  to_dict s := JDict ([("signedInfo", to_dict (signed_info s)); ("signatureValue", signature_value s)] ++
    if_some "keyInfo" to_dict (key_info s) ++ if_truthy "id" (sig_id s) ++ if_truthy "objects" (object_data s) ++ []);
  from_dict data :=
    s ← (v ← item "signedInfo" data; from_dict v); v ← item "signatureValue" data; i ← get_item "id" data;
    o ← get_item "objects" data; k ← if_present "keyInfo" (option_of from_dict) None data;
    mret {| signed_info := s; signature_value := v; key_info := k; sig_id := i; object_data := o |} }.

Definition to_xml (s : XMLDSigSignature) : string := "<Signature>" +:+ py_str (json_or (sig_id s) "") +:+ "</Signature>".

(** ** Signed data *)

#[export] Instance IssuerAndSerialNumber_codec : DictCodec IssuerAndSerialNumber := {
  to_dict i := JDict [("issuerName", issuer_name i); ("serialNumber", serial_number i)];
  from_dict data :=
    n ← item "issuerName" data; s ← item "serialNumber" data; mret {| issuer_name := n; serial_number := s |} }.

#[export] Instance SignerIdentifier_codec : DictCodec SignerIdentifier := {
  to_dict s := JDict (if_some "issuerAndSerial" to_dict (issuer_and_serial s) ++
    if_truthy "subjectKeyIdentifier" (subject_key_identifier s) ++ []);
  from_dict data :=
    i ← if_present "issuerAndSerial" (option_of from_dict) None data;
    k ← if_present "subjectKeyIdentifier" Ok JNull data;
    mret {| issuer_and_serial := i; subject_key_identifier := k |} }.

#[export] Instance AlgorithmIdentifier_codec : DictCodec AlgorithmIdentifier := {
  to_dict a := JDict ([("algorithm", algorithm a)] ++ unless_none "parameters" (parameters a) ++ []);
  from_dict data :=
    a ← item "algorithm" data; p ← get_item "parameters" data; mret {| algorithm := a; parameters := p |} }.

#[export] Instance SignerInfo_codec : DictCodec SignerInfo := {
  to_dict s := JDict ([("version", si_version s); ("signerIdentifier", to_dict (signer_identifier s));
    ("digestAlgorithm", to_dict (digest_algorithm s)); ("signatureAlgorithm", to_dict (signature_algorithm s));
    ("signature", si_signature s)] ++ if_truthy "signedAttrs" (signed_attrs s) ++
    if_truthy "unsignedAttrs" (unsigned_attrs s) ++ []);
  from_dict data :=
    v ← item "version" data; i ← (v ← item "signerIdentifier" data; from_dict v);
    d ← (v ← item "digestAlgorithm" data; from_dict v); a ← (v ← item "signatureAlgorithm" data; from_dict v);
    s ← item "signature" data; sa ← get_item "signedAttrs" data; ua ← get_item "unsignedAttrs" data;
    mret {| si_version := v; signer_identifier := i; digest_algorithm := d; signature_algorithm := a; si_signature := s;
            signed_attrs := sa; unsigned_attrs := ua |} }.

(** A text of a multiple of four characters that can be decoded becomes bytes;
    every exception of the decoder is ignored. *)
Definition read_content (v : json) : content :=
  match v with
  | JStr s => if negb (String.eqb s "") && (String.length s mod 4 =? 0)%nat
              then match b64decode s with Ok bs => Bytes bs | Raise _ => Other v end
              else Other v
  | _ => Other v
  end.

#[export] Instance EncapsulatedContent_codec : DictCodec EncapsulatedContent := {
  to_dict e := JDict ([("contentType", content_type e)] ++
    match encap_content e with Bytes bs => [("content", JStr (b64encode bs))] | Other v => if_truthy "content" v end ++ []);
  from_dict data :=
    c ← get_item "content" data; t ← item "contentType" data;
    mret {| content_type := t; encap_content := read_content c |} }.

#[export] Instance CMSSignedData_codec : DictCodec CMSSignedData := {
  to_dict c := JDict ([("version", cms_version c); ("digestAlgorithms", JList (map to_dict (digest_algorithms c)));
    ("encapContentInfo", to_dict (encap_content_info c)); ("signerInfos", JList (map to_dict (signer_infos c)))] ++
    if_truthy "certificates" (certificates c) ++ if_truthy "crls" (crls c) ++ []);
  from_dict data :=
    v ← item "version" data; d ← (v ← item "digestAlgorithms" data; read_list from_dict v);
    e ← (v ← item "encapContentInfo" data; from_dict v); s ← (v ← item "signerInfos" data; read_list from_dict v);
    cs ← get_item "certificates" data; l ← get_item "crls" data;
    mret {| cms_version := v; digest_algorithms := d; encap_content_info := e; signer_infos := s; certificates := cs; crls := l |} }.

#[export] Instance SignatureValidationResult_codec `{IsoTimes} : DictCodec SignatureValidationResult := {
  to_dict r := JDict ([("valid", valid r)] ++ if_some "signingTime" time_json (signing_time r) ++
    if_truthy "signerCertificate" (signer_certificate r) ++ if_truthy "errors" (errors r) ++
    if_truthy "warnings" (warnings r) ++ []);
  from_dict data :=
    v ← item "valid" data; t ← if_present "signingTime" (option_of read_time) None data;
    c ← if_present "signerCertificate" Ok JNull data; e ← if_present "errors" Ok (JList []) data;
    w ← if_present "warnings" Ok (JList []) data;
    mret {| valid := v; signing_time := t; signer_certificate := c; errors := e; warnings := w |} }.

(** ** What is written is read back *)

#[export] Program Instance Reference_round : RoundTrip Reference := {
  settle r := {| uri := uri r; digest_method := digest_method r; digest_value := digest_value r; transforms := transforms r;
                 ref_id := kept (ref_id r); ref_type := kept (ref_type r) |};
  admissible _ := True }.
Next Obligation. intros r _. cbn [from_dict to_dict Reference_codec]. by look_up. Qed.
Next Obligation. intros r _. cbn. by rewrite !kept_truthy. Qed.

#[export] Program Instance KeyInfo_round : RoundTrip KeyInfo := {
  settle k := {| key_id := kept (key_id k); x509_data := kept (x509_data k); key_name := kept (key_name k);
                 key_value := kept (key_value k); retrieval_method := kept (retrieval_method k) |};
  admissible _ := True }.
Next Obligation. intros k _. cbn [from_dict to_dict KeyInfo_codec]. by look_up. Qed.
Next Obligation. intros k _. cbn. by rewrite !kept_truthy. Qed.

#[export] Program Instance SignedInfo_round : RoundTrip SignedInfo := {
  settle s := {| canonicalization_method := canonicalization_method s; signature_method := signature_method s;
                 references := map settle (references s); info_id := kept (info_id s) |};
  admissible s := Forall admissible (references s) }.
Next Obligation. intros s Hs. cbn [from_dict to_dict SignedInfo_codec]. look_up. rewrite read_models by done. by look_up. Qed.
Next Obligation. intros s Hs. cbn [to_dict SignedInfo_codec references info_id canonicalization_method signature_method].
  by rewrite settle_all, kept_truthy. Qed.

#[export] Program Instance XMLDSigSignature_round : RoundTrip XMLDSigSignature := {
  settle s := {| signed_info := settle (signed_info s); signature_value := signature_value s;
                 key_info := option_map settle (key_info s); sig_id := kept (sig_id s); object_data := kept (object_data s) |};
  admissible s := admissible (signed_info s) }.
Next Obligation.
  intros s Hs. cbn [from_dict to_dict XMLDSigSignature_codec]. look_up. rewrite read_back by done. look_up.
  by rewrite reading_optional_model.
Qed.
Next Obligation.
  intros s Hs. cbn [to_dict XMLDSigSignature_codec signed_info signature_value key_info sig_id object_data].
  rewrite (settle_written (signed_info s)), !kept_truthy by done. destruct (key_info s) as [k|]; [|done].
  cbn [option_map if_some]. by rewrite (settle_written k) by exact I.
Qed.

#[export] Program Instance IssuerAndSerialNumber_round : RoundTrip IssuerAndSerialNumber := {
  settle := id; admissible _ := True }.
Next Obligation. by intros []. Qed.
Next Obligation. done. Qed.

#[export] Program Instance SignerIdentifier_round : RoundTrip SignerIdentifier := {
  settle s := {| issuer_and_serial := issuer_and_serial s; subject_key_identifier := kept (subject_key_identifier s) |};
  admissible _ := True }.
Next Obligation.
  intros s _. cbn [from_dict to_dict SignerIdentifier_codec]. look_up. rewrite reading_optional_model by done.
  simpl. by destruct (issuer_and_serial s).
Qed.
Next Obligation. intros s _. simpl. by rewrite kept_truthy. Qed.

#[export] Program Instance AlgorithmIdentifier_round : RoundTrip AlgorithmIdentifier := { settle := id; admissible _ := True }.
Next Obligation. intros a _. cbn [from_dict to_dict AlgorithmIdentifier_codec]. look_up. by destruct a. Qed.
Next Obligation. done. Qed.

#[export] Program Instance SignerInfo_round : RoundTrip SignerInfo := {
  settle s := {| si_version := si_version s; signer_identifier := settle (signer_identifier s);
                 digest_algorithm := digest_algorithm s; signature_algorithm := signature_algorithm s;
                 si_signature := si_signature s; signed_attrs := kept (signed_attrs s); unsigned_attrs := kept (unsigned_attrs s) |};
  admissible _ := True }.
Next Obligation.
  intros s _. cbn [from_dict to_dict SignerInfo_codec]. look_up. rewrite !read_back by exact I. by look_up.
Qed.
Next Obligation.
  intros s _. cbn [to_dict SignerInfo_codec si_version signer_identifier digest_algorithm signature_algorithm si_signature
    signed_attrs unsigned_attrs]. by rewrite (settle_written (signer_identifier s)), !kept_truthy by exact I.
Qed.

(** A content that is read back: bytes that are not empty, and anything but a text
    that could be Base64. *)
Definition settled_content (c : content) : content := match c with Bytes bs => Bytes bs | Other v => Other (kept v) end.
Definition kept_content (c : content) : Prop :=
  match c with Bytes bs => bs <> [] | Other v => read_content v = Other v end.

Lemma b64encode_length bs : (String.length (b64encode bs) mod 4 = 0)%nat /\ (bs <> [] -> b64encode bs <> "").
Proof.
  induction bs as [| | |a b c bs [IH _]] using list_ind3; [by split..|]. split; [|done].
  cbn [b64encode String.length]. change (S (S (S (S ?n)))) with (4 + n)%nat.
  replace (4 + String.length (b64encode bs))%nat with (String.length (b64encode bs) + 1 * 4)%nat by lia.
  by rewrite Nat.Div0.mod_add.
Qed.

Lemma read_content_bytes bs : bs <> [] -> read_content (JStr (b64encode bs)) = Bytes bs.
Proof.
  intros Hne. destruct (b64encode_length bs) as [Hl He]. unfold read_content. rewrite Hl, b64decode_encode.
  by apply He, String.eqb_neq in Hne as ->.
Qed.

#[export] Program Instance EncapsulatedContent_round : RoundTrip EncapsulatedContent := {
  settle e := {| content_type := content_type e; encap_content := settled_content (encap_content e) |};
  admissible e := kept_content (encap_content e) }.
Next Obligation.
  intros [t [bs|v]] Hk; cbn [from_dict to_dict EncapsulatedContent_codec content_type encap_content kept_content] in *.
  - look_up. by rewrite read_content_bytes.
  - look_up. unfold settled_content, kept. destruct (json_truthy v); [by rewrite Hk|done].
Qed.
Next Obligation. intros [t [bs|v]] Hk; [done|]. simpl. by rewrite kept_truthy. Qed.

#[export] Program Instance CMSSignedData_round : RoundTrip CMSSignedData := {
  settle c := {| cms_version := cms_version c; digest_algorithms := digest_algorithms c;
                 encap_content_info := settle (encap_content_info c); signer_infos := map settle (signer_infos c);
                 certificates := kept (certificates c); crls := kept (crls c) |};
  admissible c := admissible (encap_content_info c) }.
Next Obligation.
  intros c Hc. assert (Hs : Forall admissible (signer_infos c)) by (by apply Forall_forall).
  assert (Hd : Forall admissible (digest_algorithms c)) by (by apply Forall_forall).
  cbn [from_dict to_dict CMSSignedData_codec]. look_up. rewrite !read_models, read_back by done. by look_up.
Qed.
Next Obligation.
  intros c Hc. assert (Hs : Forall admissible (signer_infos c)) by (by apply Forall_forall).
  cbn [to_dict CMSSignedData_codec cms_version digest_algorithms encap_content_info signer_infos certificates crls].
  by rewrite (settle_written (encap_content_info c)), settle_all, !kept_truthy.
Qed.

#[export] Program Instance SignatureValidationResult_round `{IsoTimes} : RoundTrip SignatureValidationResult := {
  settle r := {| valid := valid r; signing_time := signing_time r; signer_certificate := kept (signer_certificate r);
                 errors := if json_truthy (errors r) then errors r else JList [];
                 warnings := if json_truthy (warnings r) then warnings r else JList [] |};
  admissible r := valid_optional (signing_time r) }.
Next Obligation.
  intros ? r Hr. cbn [from_dict to_dict SignatureValidationResult_codec]. look_up.
  rewrite (reading_optional _ _ id); [look_up; rewrite !reading_truthy_or; by destruct (signing_time r)|].
  intros t Ht. apply read_time_json. cbv beta in Hr. by rewrite Ht in Hr.
Qed.
Next Obligation.
  intros ? r Hr. simpl. rewrite kept_truthy. unfold if_truthy.
  by destruct (json_truthy (errors r)) eqn:E, (json_truthy (warnings r)) eqn:F; rewrite ?E, ?F.
Qed.

(** ** Theorems *)

(** CMS signed data is read back from its dictionary, but for empty optional parts,
    which become [None]; this needs a content that is not empty bytes, nor a text
    that could be Base64. *)
Theorem cms_roundtrip (c : CMSSignedData) : kept_content (encap_content (encap_content_info c)) ->
  from_dict (to_dict c) = Ok (settle c) /\ to_dict (settle c) = to_dict c.
Proof. intros Hc. split; [by apply read_back|by apply settle_written]. Qed.

(** An XML signature is read back, whatever its attributes are. *)
Theorem xml_roundtrip (s : XMLDSigSignature) :
  from_dict (to_dict s) = Ok (settle s) /\ to_dict (settle s) = to_dict s.
Proof.
  assert (Hs : admissible s) by (by apply Forall_forall). split; [by apply read_back|by apply settle_written].
Qed.

(** What becomes of every content: a text of a multiple of four characters that the
    decoder takes comes back as the bytes it decodes to. *)
Theorem content_read_back (e : EncapsulatedContent) :
  from_dict (to_dict e) = Ok {| content_type := content_type e; encap_content :=
    match encap_content e with
    | Bytes [] => Other (JStr "")
    | Bytes bs => Bytes bs
    | Other v => read_content (kept v)
    end |}.
Proof.
  destruct e as [t [bs|v]]; cbn [from_dict to_dict EncapsulatedContent_codec content_type encap_content].
  - destruct bs as [|b bs]; [done|]. look_up. by rewrite read_content_bytes.
  - by look_up.
Qed.

(** The certificate is put into the data of the key, which is a dictionary from
    then on; a key whose data is something else raises. *)
Theorem set_certificate (cert : json) (k : KeyInfo) :
  match set_x509_certificate cert k with
  | Ok k' => get_item "X509Certificate" (x509_data k') = Ok cert /\ key_name k' = key_name k /\ key_value k' = key_value k /\
      forall name, name <> "X509Certificate" -> forall v, item name (x509_data k) = Ok v -> item name (x509_data k') = Ok v
  | Raise e => e = type_error /\ json_truthy (x509_data k) = true /\ forall d, x509_data k <> JDict d
  end.
Proof.
  unfold set_x509_certificate. destruct (json_truthy (x509_data k)) eqn:Et; simpl.
  - destruct (x509_data k) as [| | | | | |d] eqn:Ed; simpl; try done. rewrite dget_dset_eq. split_and!; try done.
    intros name Hn v. by rewrite dget_dset_ne.
  - split_and!; try done. intros name _ v Hv. unfold item in Hv. destruct (x509_data k) as [| | | | | |[|]]; done.
Qed.

(** ** Runs *)

Module Demo.

Definition signed (c : content) : CMSSignedData := {|
  cms_version := JInt 3; digest_algorithms := [{| algorithm := JStr "2.16.840.1.101.3.4.2.1"; parameters := JNull |}];
  encap_content_info := {| content_type := JStr "2.23.136.1.1.1"; encap_content := c |};
  signer_infos := [{| si_version := JInt 1;
    signer_identifier := {| issuer_and_serial := Some {| issuer_name := JStr "C=UT"; serial_number := JStr "1" |};
                            subject_key_identifier := JStr "" |};
    digest_algorithm := {| algorithm := JStr "2.16.840.1.101.3.4.2.1"; parameters := JNull |};
    signature_algorithm := {| algorithm := JStr "1.2.840.10045.4.3.2"; parameters := JNull |};
    si_signature := JStr "c2ln"; signed_attrs := JList []; unsigned_attrs := JNull |}];
  certificates := JList [JStr "Y2VydA=="]; crls := JList [] |}.

Lemma cms_roundtrip_witness :
  from_dict (to_dict (signed (Bytes [Byte.x01]))) = Ok (settle (signed (Bytes [Byte.x01]))) /\
  to_dict (settle (signed (Bytes [Byte.x01]))) = to_dict (signed (Bytes [Byte.x01])).
Proof. apply cms_roundtrip. done. Defined.

(** The text "data" is taken for the Base64 of three bytes. *)
Example text_becomes_bytes :
  from_dict (to_dict {| content_type := JNull; encap_content := Other (JStr "data") |}) =
  Ok {| content_type := JNull; encap_content := Bytes [Byte.x75; Byte.xab; Byte.x5a] |}.
Proof. vm_compute. reflexivity. Qed.

(** Characters the decoder skips are lost. *)
Example text_is_lost :
  (v ← from_dict (to_dict {| content_type := JNull; encap_content := Other (JStr "a b c d ") |}); Ok (to_dict (A:=EncapsulatedContent) v)) =
  Ok (JDict [("contentType", JNull); ("content", JStr "abcd")]).
Proof. vm_compute. reflexivity. Qed.
End Demo.
