(* ===== verification/BiometricData.v ===== *)
(** * Biometric data ([models/biometrics.py])

    The data classes of facial, finger and iris images in CBEFF containers: their
    dictionaries, the check of a group's elements, and the search for a group.
    Integer enumerations are their numbers in a dictionary. *)

From S2P Require Import Prelude PyRuntime PyText PyBytes PyDate PyInt PyRegex PyIso Dataclass.
Local Open Scope Z_scope.

(** ** Data *)

Inductive BiometricType := FACIAL | FINGER | IRIS | SIGNATURE | RESERVED.
Inductive CompressionType := JPEG | JPEG2000 | PNG | WSQ | UNCOMPRESSED.
Inductive FaceImageType := BASIC | FULL_FRONTAL | TOKEN_FRONTAL.
Inductive FacePoseAngle := UNSPECIFIED | FRONTAL | HALF_LEFT | POSE_LEFT | HALF_RIGHT | POSE_RIGHT.
Inductive FaceFeaturePoint :=
| RIGHT_EYE_CENTER | LEFT_EYE_CENTER | MOUTH_RIGHT_CORNER | MOUTH_LEFT_CORNER | NOSE_TIP | RIGHT_EAR_TRAGUS
| LEFT_EAR_TRAGUS | RIGHT_EYE_OUTER_CORNER | RIGHT_EYE_INNER_CORNER | LEFT_EYE_INNER_CORNER | LEFT_EYE_OUTER_CORNER
| NOSE_ROOT.
Inductive FingerPosition :=
| UNKNOWN | RIGHT_THUMB | RIGHT_INDEX | RIGHT_MIDDLE | RIGHT_RING | RIGHT_LITTLE | LEFT_THUMB | LEFT_INDEX
| LEFT_MIDDLE | LEFT_RING | LEFT_LITTLE.
Inductive FingerImpressionType :=
| LIVE_SCAN_PLAIN | LIVE_SCAN_ROLLED | NONLIVE_SCAN_PLAIN | NONLIVE_SCAN_ROLLED | LATENT_IMPRESSION | LATENT_TRACING
| LATENT_PHOTO | LATENT_LIFT.
Inductive IrisImageType := UNCROPPED | VGA | CROPPED | CROPPED_AND_MASKED.
Inductive IrisEyePosition := UNDEFINED | EYE_RIGHT | EYE_LEFT.

#[export] Instance BiometricType_eq : EqDecision BiometricType.
Proof. solve_decision. Defined.

#[export] Instance BiometricType_enum : PyEnum BiometricType := {
  enum_value a := JInt (match a with FACIAL => 1 | FINGER => 2 | IRIS => 3 | SIGNATURE => 7 | RESERVED => 8 end);
  enum_members := [FACIAL; FINGER; IRIS; SIGNATURE; RESERVED] }.
#[export] Instance CompressionType_enum : PyEnum CompressionType := {
  enum_value a := JStr (match a with JPEG => "JPEG" | JPEG2000 => "JPEG2000" | PNG => "PNG" | WSQ => "WSQ"
                        | UNCOMPRESSED => "UNCOMPRESSED" end);
  enum_members := [JPEG; JPEG2000; PNG; WSQ; UNCOMPRESSED] }.
#[export] Instance FaceImageType_enum : PyEnum FaceImageType := {
  enum_value a := JInt (match a with BASIC => 0 | FULL_FRONTAL => 1 | TOKEN_FRONTAL => 2 end);
  enum_members := [BASIC; FULL_FRONTAL; TOKEN_FRONTAL] }.
#[export] Instance FacePoseAngle_enum : PyEnum FacePoseAngle := {
  enum_value a := JInt (match a with UNSPECIFIED => 0 | FRONTAL => 1 | HALF_LEFT => 2 | POSE_LEFT => 3 | HALF_RIGHT => 4
                        | POSE_RIGHT => 5 end);
  enum_members := [UNSPECIFIED; FRONTAL; HALF_LEFT; POSE_LEFT; HALF_RIGHT; POSE_RIGHT] }.
#[export] Instance FaceFeaturePoint_enum : PyEnum FaceFeaturePoint := {
  enum_value a := JInt (match a with
    | RIGHT_EYE_CENTER => 1 | LEFT_EYE_CENTER => 2 | MOUTH_RIGHT_CORNER => 3 | MOUTH_LEFT_CORNER => 4 | NOSE_TIP => 5
    | RIGHT_EAR_TRAGUS => 6 | LEFT_EAR_TRAGUS => 7 | RIGHT_EYE_OUTER_CORNER => 8 | RIGHT_EYE_INNER_CORNER => 9
    | LEFT_EYE_INNER_CORNER => 10 | LEFT_EYE_OUTER_CORNER => 11 | NOSE_ROOT => 12 end);
  enum_members := [RIGHT_EYE_CENTER; LEFT_EYE_CENTER; MOUTH_RIGHT_CORNER; MOUTH_LEFT_CORNER; NOSE_TIP; RIGHT_EAR_TRAGUS;
    LEFT_EAR_TRAGUS; RIGHT_EYE_OUTER_CORNER; RIGHT_EYE_INNER_CORNER; LEFT_EYE_INNER_CORNER; LEFT_EYE_OUTER_CORNER;
    NOSE_ROOT] }.
#[export] Instance FingerPosition_enum : PyEnum FingerPosition := {
  enum_value a := JInt (match a with
    | UNKNOWN => 0 | RIGHT_THUMB => 1 | RIGHT_INDEX => 2 | RIGHT_MIDDLE => 3 | RIGHT_RING => 4 | RIGHT_LITTLE => 5
    | LEFT_THUMB => 6 | LEFT_INDEX => 7 | LEFT_MIDDLE => 8 | LEFT_RING => 9 | LEFT_LITTLE => 10 end);
  enum_members := [UNKNOWN; RIGHT_THUMB; RIGHT_INDEX; RIGHT_MIDDLE; RIGHT_RING; RIGHT_LITTLE; LEFT_THUMB; LEFT_INDEX;
    LEFT_MIDDLE; LEFT_RING; LEFT_LITTLE] }.
#[export] Instance FingerImpressionType_enum : PyEnum FingerImpressionType := {
  enum_value a := JInt (match a with
    | LIVE_SCAN_PLAIN => 0 | LIVE_SCAN_ROLLED => 1 | NONLIVE_SCAN_PLAIN => 2 | NONLIVE_SCAN_ROLLED => 3
    | LATENT_IMPRESSION => 4 | LATENT_TRACING => 5 | LATENT_PHOTO => 6 | LATENT_LIFT => 7 end);
  enum_members := [LIVE_SCAN_PLAIN; LIVE_SCAN_ROLLED; NONLIVE_SCAN_PLAIN; NONLIVE_SCAN_ROLLED; LATENT_IMPRESSION;
    LATENT_TRACING; LATENT_PHOTO; LATENT_LIFT] }.
#[export] Instance IrisImageType_enum : PyEnum IrisImageType := {
  enum_value a := JInt (match a with UNCROPPED => 1 | VGA => 2 | CROPPED => 3 | CROPPED_AND_MASKED => 7 end);
  enum_members := [UNCROPPED; VGA; CROPPED; CROPPED_AND_MASKED] }.
#[export] Instance IrisEyePosition_enum : PyEnum IrisEyePosition := {
  enum_value a := JInt (match a with UNDEFINED => 0 | EYE_RIGHT => 1 | EYE_LEFT => 2 end);
  enum_members := [UNDEFINED; EYE_RIGHT; EYE_LEFT] }.

#[export] Instance BiometricType_laws : PyEnumLaws BiometricType.
Proof. split. by intros []. Qed.
#[export] Instance CompressionType_laws : PyEnumLaws CompressionType.
Proof. split. by intros []. Qed.
#[export] Instance FaceImageType_laws : PyEnumLaws FaceImageType.
Proof. split. by intros []. Qed.
#[export] Instance FacePoseAngle_laws : PyEnumLaws FacePoseAngle.
Proof. split. by intros []. Qed.
#[export] Instance FaceFeaturePoint_laws : PyEnumLaws FaceFeaturePoint.
Proof. split. by intros []. Qed.
#[export] Instance FingerPosition_laws : PyEnumLaws FingerPosition.
Proof. split. by intros []. Qed.
#[export] Instance FingerImpressionType_laws : PyEnumLaws FingerImpressionType.
Proof. split. by intros []. Qed.
#[export] Instance IrisImageType_laws : PyEnumLaws IrisImageType.
Proof. split. by intros []. Qed.
#[export] Instance IrisEyePosition_laws : PyEnumLaws IrisEyePosition.
Proof. split. by intros []. Qed.

Record BiometricSubtypeInfo := { st_type : BiometricType; subtype : json }.
Record FeaturePoint := { feature_type : FaceFeaturePoint; fp_x : json; fp_y : json }.

Record FacialImageInfo := {
  face_type : FaceImageType; face_width : json; face_height : json; color_space : json; source_type : json;
  device_type : json; face_quality : json; pose_angle : option FacePoseAngle; pose_angle_yaw : json;
  pose_angle_pitch : json; pose_angle_roll : json; feature_points : list FeaturePoint }.

Record FingerImageInfo := {
  position : FingerPosition; finger_width : json; finger_height : json; impression_type : FingerImpressionType;
  horizontal_resolution : json; vertical_resolution : json; grayscale_depth : json; finger_quality : json }.

Record IrisImageInfo := {
  iris_type : IrisImageType; eye_position : IrisEyePosition; iris_width : json; iris_height : json;
  device_unique_id : json; iris_quality : json }.

Record BiometricDataBlock := {
  block_type : BiometricType; biometric_subtype : json; creation_date : datetime; block_format_owner : json;
  block_format_type : json; compression_type : CompressionType; image_data : bytes;
  facial_info : option FacialImageInfo; finger_info : option FingerImageInfo; iris_info : option IrisImageInfo }.

Record BiometricInfoGroup := {
  group_type : BiometricType; group_format_owner : json; group_format_type : json; elements : list BiometricDataBlock }.

Record CBEFFContainer := { version : json; biometric_groups : list BiometricInfoGroup }.

Record BiometricMatchResult := {
  match_type : BiometricType; score : json; decision : json; match_time : datetime; match_details : json }.

(** ** Dictionaries *)

#[export] Instance BiometricSubtypeInfo_codec : DictCodec BiometricSubtypeInfo := {
  to_dict s := JDict [("biometricType", enum_value (st_type s)); ("subtype", subtype s)];
  from_dict data :=
    t ← (v ← item "biometricType" data; enum_of v); s ← item "subtype" data; mret {| st_type := t; subtype := s |} }.

#[export] Instance FeaturePoint_codec : DictCodec FeaturePoint := {
  to_dict p := JDict [("featureType", enum_value (feature_type p)); ("x", fp_x p); ("y", fp_y p)];
  from_dict data :=
    t ← (v ← item "featureType" data; enum_of v); x ← item "x" data; y ← item "y" data;
    mret {| feature_type := t; fp_x := x; fp_y := y |} }.

#[export] Instance FacialImageInfo_codec : DictCodec FacialImageInfo := {
  to_dict i := JDict ([("imageType", enum_value (face_type i)); ("width", face_width i); ("height", face_height i);
    ("colorSpace", color_space i); ("sourceType", source_type i); ("deviceType", device_type i)] ++
    unless_none "quality" (face_quality i) ++ if_some "poseAngle" enum_value (pose_angle i) ++
    unless_none "poseAngleYaw" (pose_angle_yaw i) ++ unless_none "poseAnglePitch" (pose_angle_pitch i) ++
    unless_none "poseAngleRoll" (pose_angle_roll i) ++ if_any "featurePoints" to_dict (feature_points i) ++ []);
  from_dict data :=
    t ← (v ← item "imageType" data; enum_of v); w ← item "width" data; h ← item "height" data;
    c ← item "colorSpace" data; s ← item "sourceType" data; d ← item "deviceType" data; q ← get_item "quality" data;
    p ← if_present "poseAngle" (option_of enum_of) None data; yaw ← get_item "poseAngleYaw" data;
    pitch ← get_item "poseAnglePitch" data; roll ← get_item "poseAngleRoll" data;
    fs ← if_present "featurePoints" (read_list from_dict) [] data;
    mret {| face_type := t; face_width := w; face_height := h; color_space := c; source_type := s; device_type := d;
            face_quality := q; pose_angle := p; pose_angle_yaw := yaw; pose_angle_pitch := pitch; pose_angle_roll := roll;
            feature_points := fs |} }.

#[export] Instance FingerImageInfo_codec : DictCodec FingerImageInfo := {
  to_dict i := JDict ([("position", enum_value (position i)); ("width", finger_width i); ("height", finger_height i);
    ("impressionType", enum_value (impression_type i)); ("horizontalResolution", horizontal_resolution i);
    ("verticalResolution", vertical_resolution i); ("grayscaleDepth", grayscale_depth i)] ++
    unless_none "quality" (finger_quality i) ++ []);
  from_dict data :=
    p ← (v ← item "position" data; enum_of v); w ← item "width" data; h ← item "height" data;
    i ← (v ← item "impressionType" data; enum_of v); hr ← item "horizontalResolution" data;
    vr ← item "verticalResolution" data; g ← item "grayscaleDepth" data; q ← get_item "quality" data;
    mret {| position := p; finger_width := w; finger_height := h; impression_type := i; horizontal_resolution := hr;
            vertical_resolution := vr; grayscale_depth := g; finger_quality := q |} }.

#[export] Instance IrisImageInfo_codec : DictCodec IrisImageInfo := {
  to_dict i := JDict ([("imageType", enum_value (iris_type i)); ("eyePosition", enum_value (eye_position i));
    ("width", iris_width i); ("height", iris_height i); ("deviceUniqueId", device_unique_id i)] ++
    unless_none "quality" (iris_quality i) ++ []);
  from_dict data :=
    t ← (v ← item "imageType" data; enum_of v); p ← (v ← item "eyePosition" data; enum_of v); w ← item "width" data;
    h ← item "height" data; d ← item "deviceUniqueId" data; q ← get_item "quality" data;
    mret {| iris_type := t; eye_position := p; iris_width := w; iris_height := h; device_unique_id := d;
            iris_quality := q |} }.

(** [base64.b64decode(v)] *)
Definition read_bytes (v : json) : result bytes := match v with JStr s => b64decode s | _ => Raise type_error end.

Section times.
Context `{IsoTimes}.

#[export] Instance BiometricDataBlock_codec : DictCodec BiometricDataBlock := {
  to_dict b := JDict ([("biometricType", enum_value (block_type b)); ("biometricSubtype", biometric_subtype b);
    ("creationDate", time_json (creation_date b)); ("formatOwner", block_format_owner b);
    ("formatType", block_format_type b); ("compressionType", enum_value (compression_type b));
    ("imageData", JStr (b64encode (image_data b)))] ++ if_some "facialInfo" to_dict (facial_info b) ++
    if_some "fingerInfo" to_dict (finger_info b) ++ if_some "irisInfo" to_dict (iris_info b) ++ []);
  from_dict data :=
    t ← (v ← item "biometricType" data; enum_of v); s ← item "biometricSubtype" data;
    d ← (v ← item "creationDate" data; read_time v); fo ← item "formatOwner" data; ft ← item "formatType" data;
    c ← (v ← item "compressionType" data; enum_of v); i ← (v ← item "imageData" data; read_bytes v);
    face ← if_present "facialInfo" (option_of from_dict) None data;
    finger ← if_present "fingerInfo" (option_of from_dict) None data;
    iris ← if_present "irisInfo" (option_of from_dict) None data;
    mret {| block_type := t; biometric_subtype := s; creation_date := d; block_format_owner := fo; block_format_type := ft;
            compression_type := c; image_data := i; facial_info := face; finger_info := finger; iris_info := iris |} }.

#[export] Instance BiometricInfoGroup_codec : DictCodec BiometricInfoGroup := {
  to_dict g := JDict [("biometricType", enum_value (group_type g)); ("formatOwner", group_format_owner g);
    ("formatType", group_format_type g); ("elements", JList (map to_dict (elements g)))];
  from_dict data :=
    t ← (v ← item "biometricType" data; enum_of v); fo ← item "formatOwner" data; ft ← item "formatType" data;
    es ← if_present "elements" (read_list from_dict) [] data;
    mret {| group_type := t; group_format_owner := fo; group_format_type := ft; elements := es |} }.

#[export] Instance CBEFFContainer_codec : DictCodec CBEFFContainer := {
  to_dict c := JDict [("version", version c); ("biometricGroups", JList (map to_dict (biometric_groups c)))];
  from_dict data :=
    v ← get_or "version" (JInt 1) data; gs ← if_present "biometricGroups" (read_list from_dict) [] data;
    mret {| version := v; biometric_groups := gs |} }.

#[export] Instance BiometricMatchResult_codec : DictCodec BiometricMatchResult := {
  to_dict r := JDict ([("biometricType", enum_value (match_type r)); ("score", score r); ("decision", decision r);
    ("matchTime", time_json (match_time r))] ++ if_truthy "matchDetails" (match_details r) ++ []);
  from_dict data :=
    t ← (v ← item "biometricType" data; enum_of v); s ← item "score" data; d ← item "decision" data;
    m ← (v ← item "matchTime" data; read_time v); x ← get_item "matchDetails" data;
    mret {| match_type := t; score := s; decision := d; match_time := m; match_details := x |} }.
End times.

(** ** Operations *)

Inductive specific_info := FaceInfo (i : FacialImageInfo) | FingerInfo (i : FingerImageInfo) | IrisInfo (i : IrisImageInfo).

Definition get_specific_info (b : BiometricDataBlock) : option specific_info :=
  if decide (block_type b = FACIAL) then option_map FaceInfo (facial_info b)
  else if decide (block_type b = FINGER) then option_map FingerInfo (finger_info b)
  else if decide (block_type b = IRIS) then option_map IrisInfo (iris_info b)
  else None.

Definition type_text (t : BiometricType) : string := match enum_value t with JInt z => z_str z | _ => "" end.

Definition add_element (element : BiometricDataBlock) (g : BiometricInfoGroup) : result BiometricInfoGroup :=
  if decide (block_type element = group_type g)
  then Ok {| group_type := group_type g; group_format_owner := group_format_owner g;
             group_format_type := group_format_type g; elements := elements g ++ [element] |}
  else Raise (raise_ ValueError ("Biometric type mismatch: " +:+ type_text (block_type element) +:+ " vs " +:+
                                 type_text (group_type g))).

Definition get_group_by_type (t : BiometricType) (c : CBEFFContainer) : option BiometricInfoGroup :=
  List.find (fun g => bool_decide (group_type g = t)) (biometric_groups c).

Definition add_group (g : BiometricInfoGroup) (c : CBEFFContainer) : CBEFFContainer :=
  {| version := version c; biometric_groups := biometric_groups c ++ [g] |}.

(** ** What is written is read back *)

#[export] Program Instance BiometricSubtypeInfo_round : RoundTrip BiometricSubtypeInfo := { settle := id; admissible _ := True }.
Next Obligation. intros s _. cbn [from_dict to_dict BiometricSubtypeInfo_codec]. look_up. by destruct s. Qed.
Next Obligation. done. Qed.

#[export] Program Instance FeaturePoint_round : RoundTrip FeaturePoint := { settle := id; admissible _ := True }.
Next Obligation. intros p _. cbn [from_dict to_dict FeaturePoint_codec]. look_up. by destruct p. Qed.
Next Obligation. done. Qed.

Lemma read_points l : reading (read_list from_dict) [] (match l with [] => None | _ => Some (JList (map to_dict l)) end) =
  Ok (l : list FeaturePoint).
Proof. rewrite (reading_any _ _ id); [by rewrite map_id|]. intros p _. exact (read_back p I). Qed.

#[export] Program Instance FacialImageInfo_round : RoundTrip FacialImageInfo := { settle := id; admissible _ := True }.
Next Obligation. intros i _. cbn [from_dict to_dict FacialImageInfo_codec]. look_up. rewrite read_points. by destruct i. Qed.
Next Obligation. done. Qed.

#[export] Program Instance FingerImageInfo_round : RoundTrip FingerImageInfo := { settle := id; admissible _ := True }.
Next Obligation. intros i _. cbn [from_dict to_dict FingerImageInfo_codec]. look_up. by destruct i. Qed.
Next Obligation. done. Qed.

#[export] Program Instance IrisImageInfo_round : RoundTrip IrisImageInfo := { settle := id; admissible _ := True }.
Next Obligation. intros i _. cbn [from_dict to_dict IrisImageInfo_codec]. look_up. by destruct i. Qed.
Next Obligation. done. Qed.

Section round.
Context `{IsoTimes}.

#[export] Program Instance BiometricDataBlock_round : RoundTrip BiometricDataBlock := {
  settle := id; admissible b := valid_datetime (creation_date b) }.
Next Obligation.
  intros b Hb. cbn [from_dict to_dict BiometricDataBlock_codec]. look_up. rewrite read_time_json by done. look_up.
  cbn [read_bytes]. rewrite b64decode_encode. look_up. rewrite !reading_optional_model by done.
  destruct b as [? ? ? ? ? ? ? [] [] []]; done.
Qed.
Next Obligation. done. Qed.

#[export] Program Instance BiometricInfoGroup_round : RoundTrip BiometricInfoGroup := {
  settle := id; admissible g := Forall admissible (elements g) }.
Next Obligation.
  intros g Hg. cbn [from_dict to_dict BiometricInfoGroup_codec]. look_up. rewrite read_models by done.
  cbn. rewrite map_id. by destruct g.
Qed.
Next Obligation. done. Qed.

#[export] Program Instance CBEFFContainer_round : RoundTrip CBEFFContainer := {
  settle := id; admissible c := Forall admissible (biometric_groups c) }.
Next Obligation.
  intros c Hc. cbn [from_dict to_dict CBEFFContainer_codec]. look_up. rewrite read_models by done.
  cbn. rewrite map_id. by destruct c.
Qed.
Next Obligation. done. Qed.

#[export] Program Instance BiometricMatchResult_round : RoundTrip BiometricMatchResult := {
  settle r := {| match_type := match_type r; score := score r; decision := decision r; match_time := match_time r;
                 match_details := kept (match_details r) |};
  admissible r := valid_datetime (match_time r) }.
Next Obligation.
  intros r Hr. cbn [from_dict to_dict BiometricMatchResult_codec]. look_up. rewrite read_time_json by done. by look_up.
Qed.
Next Obligation. intros r _. simpl. by rewrite kept_truthy. Qed.

(** ** Theorems *)

(** Containers whose creation dates are those of Python come back from their
    dictionaries as they were, images bit for bit. *)
Theorem cbeff_roundtrip (c : CBEFFContainer) :
  Forall (fun g => Forall (fun b => valid_datetime (creation_date b)) (elements g)) (biometric_groups c) ->
  from_dict (to_dict c) = Ok c.
Proof. intros Hc. exact (read_back c Hc). Qed.
End round.

(** Every element of a group has the group's type. *)
Definition homogeneous (g : BiometricInfoGroup) : Prop := Forall (fun b => block_type b = group_type g) (elements g).

(** [add_element] adds at the end exactly the elements of the group's type, so a
    group built with it stays homogeneous. *)
Theorem add_element_homogeneous b g : homogeneous g ->
  match add_element b g with
  | Ok g' => homogeneous g' /\ elements g' = elements g ++ [b] /\ group_type g' = group_type g /\ block_type b = group_type g
  | Raise e => exn_class e = ValueError /\ block_type b <> group_type g
  end.
Proof.
  unfold homogeneous, add_element. intros Hg. destruct (decide _) as [E|E]; [|done].
  split_and!; try done. simpl. rewrite Forall_app. split; [done|by constructor].
Qed.

(** The group of a type is the first that was added. *)
Theorem group_search t g c : get_group_by_type t (add_group g c) =
  match get_group_by_type t c with
  | Some g' => Some g'
  | None => if decide (group_type g = t) then Some g else None
  end.
Proof.
  unfold get_group_by_type, add_group. simpl. induction (biometric_groups c) as [|g' gs IH]; simpl.
  - case_bool_decide; by destruct (decide _).
  - by destruct (bool_decide (group_type g' = t)).
Qed.

(** The information that belongs to the type of a block, whatever else it carries. *)
Theorem specific_info_of_type b i : get_specific_info b = Some i ->
  match i with
  | FaceInfo x => block_type b = FACIAL /\ facial_info b = Some x
  | FingerInfo x => block_type b = FINGER /\ finger_info b = Some x
  | IrisInfo x => block_type b = IRIS /\ iris_info b = Some x
  end.
Proof.
  unfold get_specific_info. destruct (decide _) as [E|_].
  { destruct (facial_info b) eqn:F; [|done]. by intros [= <-]. }
  destruct (decide _) as [E|_].
  { destruct (finger_info b) eqn:F; [|done]. by intros [= <-]. }
  destruct (decide _) as [E|_]; [|done]. destruct (iris_info b) eqn:F; [|done]. by intros [= <-].
Qed.

(** ** Runs *)

Module Demo.

#[export] Instance no_times : IsoTimes := { iso_time_other s := Raise (raise_ ValueError "Invalid isoformat string") }.

Definition block (t : BiometricType) : BiometricDataBlock := {|
  block_type := t; biometric_subtype := JInt 0; creation_date := DateTime (1704067200 * second) (Some 60);
  block_format_owner := JInt 257; block_format_type := JInt 8; compression_type := JPEG;
  image_data := [Byte.xff; Byte.xd8; Byte.xff];
  facial_info := Some {| face_type := FULL_FRONTAL; face_width := JInt 480; face_height := JInt 640; color_space := JStr "RGB";
    source_type := JStr "camera"; device_type := JStr ""; face_quality := JInt 0; pose_angle := Some UNSPECIFIED;
    pose_angle_yaw := JNull; pose_angle_pitch := JNull; pose_angle_roll := JNull;
    feature_points := [{| feature_type := NOSE_TIP; fp_x := JInt 240; fp_y := JInt 320 |}] |};
  finger_info := None; iris_info := None |}.

Definition group (es : list BiometricDataBlock) : BiometricInfoGroup := {|
  group_type := FACIAL; group_format_owner := JInt 257; group_format_type := JInt 8; elements := es |}.
Definition container (es : list BiometricDataBlock) : CBEFFContainer := {| version := JInt 1; biometric_groups := [group es] |}.

Lemma cbeff_roundtrip_witness : from_dict (to_dict (container [block FACIAL])) = Ok (container [block FACIAL]).
Proof.
  apply cbeff_roundtrip. repeat constructor; simpl; try lia. all: by vm_compute.
Defined.

Lemma add_element_homogeneous_witness :
  match add_element (block FACIAL) (group []) with
  | Ok g' => homogeneous g' /\ elements g' = [block FACIAL] /\ group_type g' = FACIAL /\ block_type (block FACIAL) = FACIAL
  | Raise e => exn_class e = ValueError /\ block_type (block FACIAL) <> FACIAL
  end.
Proof. exact (add_element_homogeneous (block FACIAL) (group []) (Forall_nil_2 _)). Defined.

Lemma specific_info_of_type_witness : block_type (block FACIAL) = FACIAL /\
  facial_info (block FACIAL) = facial_info (block FACIAL).
Proof. split; [|done]. by eapply (specific_info_of_type (block FACIAL) (FaceInfo _)). Defined.

(** A dictionary can put an element of another type into a group. *)
Example mixed_group : from_dict (to_dict (container [block FINGER])) = Ok (container [block FINGER]) /\
  ~ homogeneous (group [block FINGER]).
Proof. split; [vm_compute; reflexivity|]. by intros [Hh _]%Forall_cons. Qed.

(** [True] is the number one, so it is a type. *)
Example true_is_facial : enum_of (A:=BiometricType) (JBool true) = Ok FACIAL.
Proof. reflexivity. Qed.
End Demo.
