(* ===== verification/Authentication.v ===== *)
(** * Authentication models ([models/authentication.py])

    The keys, parameters, challenges and results of the access protocols of a
    passport (BAC, PACE, chip, terminal and active authentication): their
    dictionaries, the key made from the machine-readable zone, and the expiry of a
    challenge. *)

From S2P Require Import Prelude PyRuntime PyText PyBytes PyDate PyInt PyRegex PyIso Dataclass.
Local Open Scope Z_scope.

(** ** Data *)

Inductive AuthenticationProtocol := BAC | PACE | EAC_TA | EAC_CA | ACTIVE_AUTH.
Inductive PACEMappingType := GM | IM | CAM | DH | ECDH.
Inductive ActiveAuthenticationAlgorithm := RSA_SHA1 | RSA_SHA256 | ECDSA_SHA256.

#[export] Instance AuthenticationProtocol_enum : PyEnum AuthenticationProtocol := {
  enum_value a := JStr (match a with BAC => "BAC" | PACE => "PACE" | EAC_TA => "EAC_TA" | EAC_CA => "EAC_CA"
                        | ACTIVE_AUTH => "ACTIVE_AUTH" end);
  enum_members := [BAC; PACE; EAC_TA; EAC_CA; ACTIVE_AUTH] }.
#[export] Instance PACEMappingType_enum : PyEnum PACEMappingType := {
  enum_value a := JStr (match a with GM => "GM" | IM => "IM" | CAM => "CAM" | DH => "DH" | ECDH => "ECDH" end);
  enum_members := [GM; IM; CAM; DH; ECDH] }.
#[export] Instance ActiveAuthenticationAlgorithm_enum : PyEnum ActiveAuthenticationAlgorithm := {
  enum_value a := JStr (match a with RSA_SHA1 => "RSA_SHA1" | RSA_SHA256 => "RSA_SHA256" | ECDSA_SHA256 => "ECDSA_SHA256" end);
  enum_members := [RSA_SHA1; RSA_SHA256; ECDSA_SHA256] }.

#[export] Instance AuthenticationProtocol_laws : PyEnumLaws AuthenticationProtocol.
Proof. split. by intros []. Qed.
#[export] Instance PACEMappingType_laws : PyEnumLaws PACEMappingType.
Proof. split. by intros []. Qed.
#[export] Instance ActiveAuthenticationAlgorithm_laws : PyEnumLaws ActiveAuthenticationAlgorithm.
Proof. split. by intros []. Qed.

Record AccessKey := { key_id : json; key_type : json; key_data : json }.

Record BACKey := {
  access_key : AccessKey; document_number : json; date_of_birth : json; date_of_expiry : json }.

Record PACEInfo := {
  pace_protocol_id : json; mapping_type : PACEMappingType; key_agreement_algorithm : json; key_length : json }.

Record ChipAuthenticationInfo := { ca_protocol_id : json; ca_key_id : json; ca_version : json }.
Record TerminalAuthenticationInfo := { ta_protocol_id : json; ta_version : json }.
Record ActiveAuthenticationInfo := { aa_protocol_id : json; aa_signature_algorithm : ActiveAuthenticationAlgorithm }.

Record SecurityInfo := {
  bac_info : json; pace_info : option PACEInfo; chip_auth_info : option ChipAuthenticationInfo;
  terminal_auth_info : option TerminalAuthenticationInfo; active_auth_info : option ActiveAuthenticationInfo }.

Record AuthenticationResult := {
  res_protocol : AuthenticationProtocol; success : json; res_timestamp : datetime; session_keys : json;
  error_message : json }.

Record AuthenticationChallenge := {
  ch_protocol : AuthenticationProtocol; challenge_id : json; challenge_data : json; ch_timestamp : datetime;
  expiry : option datetime }.

Record AuthenticationResponse := { resp_challenge_id : json; response_data : json; resp_timestamp : datetime }.

(** ** Keys *)

#[export] Instance AccessKey_codec : DictCodec AccessKey := {
  to_dict k := JDict [("keyId", key_id k); ("keyType", key_type k); ("keyData", key_data k)];
  from_dict data :=
    i ← item "keyId" data; t ← item "keyType" data; d ← item "keyData" data;
    mret {| key_id := i; key_type := t; key_data := d |} }.

#[export] Instance BACKey_codec : DictCodec BACKey := {
  to_dict k := JDict [("keyId", key_id (access_key k)); ("keyType", key_type (access_key k));
    ("keyData", key_data (access_key k)); ("documentNumber", document_number k); ("dateOfBirth", date_of_birth k);
    ("dateOfExpiry", date_of_expiry k)];
  from_dict data :=
    i ← item "keyId" data; t ← item "keyType" data; d ← item "keyData" data; n ← item "documentNumber" data;
    b ← item "dateOfBirth" data; e ← item "dateOfExpiry" data;
    mret {| access_key := {| key_id := i; key_type := t; key_data := d |}; document_number := n; date_of_birth := b;
            date_of_expiry := e |} }.

Definition from_mrz_info (number birth expiry : string) : BACKey := {|
  access_key := {| key_id := JStr ("BAC-" +:+ number); key_type := JStr "BAC";
                   key_data := JStr (b64encode (utf8 (number +:+ birth +:+ expiry))) |};
  document_number := JStr number; date_of_birth := JStr birth; date_of_expiry := JStr expiry |}.

(** ** Parameters *)

#[export] Instance PACEInfo_codec : DictCodec PACEInfo := {
  to_dict i := JDict [("protocolId", pace_protocol_id i); ("mappingType", enum_value (mapping_type i));
    ("keyAgreementAlgorithm", key_agreement_algorithm i); ("keyLength", key_length i)];
  from_dict data :=
    p ← item "protocolId" data; m ← (v ← item "mappingType" data; enum_of v); a ← item "keyAgreementAlgorithm" data;
    l ← item "keyLength" data;
    mret {| pace_protocol_id := p; mapping_type := m; key_agreement_algorithm := a; key_length := l |} }.

#[export] Instance ChipAuthenticationInfo_codec : DictCodec ChipAuthenticationInfo := {
  to_dict i := JDict ([("protocolId", ca_protocol_id i); ("version", ca_version i)] ++ unless_none "keyId" (ca_key_id i) ++ []);
  from_dict data :=
    p ← item "protocolId" data; k ← get_item "keyId" data; v ← get_or "version" (JInt 1) data;
    mret {| ca_protocol_id := p; ca_key_id := k; ca_version := v |} }.

#[export] Instance TerminalAuthenticationInfo_codec : DictCodec TerminalAuthenticationInfo := {
  to_dict i := JDict [("protocolId", ta_protocol_id i); ("version", ta_version i)];
  from_dict data :=
    p ← item "protocolId" data; v ← get_or "version" (JInt 1) data; mret {| ta_protocol_id := p; ta_version := v |} }.

#[export] Instance ActiveAuthenticationInfo_codec : DictCodec ActiveAuthenticationInfo := {
  to_dict i := JDict [("protocolId", aa_protocol_id i); ("signatureAlgorithm", enum_value (aa_signature_algorithm i))];
  from_dict data :=
    p ← item "protocolId" data; a ← (v ← item "signatureAlgorithm" data; enum_of v);
    mret {| aa_protocol_id := p; aa_signature_algorithm := a |} }.

#[export] Instance SecurityInfo_codec : DictCodec SecurityInfo := {
  to_dict i := JDict (unless_none "bacInfo" (bac_info i) ++ if_some "paceInfo" to_dict (pace_info i) ++
    if_some "chipAuthInfo" to_dict (chip_auth_info i) ++ if_some "terminalAuthInfo" to_dict (terminal_auth_info i) ++
    if_some "activeAuthInfo" to_dict (active_auth_info i) ++ []);
  from_dict data :=
    b ← get_item "bacInfo" data; p ← if_present "paceInfo" (option_of from_dict) None data;
    c ← if_present "chipAuthInfo" (option_of from_dict) None data;
    t ← if_present "terminalAuthInfo" (option_of from_dict) None data;
    a ← if_present "activeAuthInfo" (option_of from_dict) None data;
    mret {| bac_info := b; pace_info := p; chip_auth_info := c; terminal_auth_info := t; active_auth_info := a |} }.

(** ** Challenges and results *)

Section times.
Context `{IsoTimes}.

#[export] Instance AuthenticationResult_codec : DictCodec AuthenticationResult := {
  to_dict r := JDict ([("protocol", enum_value (res_protocol r)); ("success", success r);
    ("timestamp", time_json (res_timestamp r))] ++ if_truthy "sessionKeys" (session_keys r) ++
    if_truthy "errorMessage" (error_message r) ++ []);
  from_dict data :=
    p ← (v ← item "protocol" data; enum_of v); s ← item "success" data; t ← (v ← item "timestamp" data; read_time v);
    k ← get_item "sessionKeys" data; e ← get_item "errorMessage" data;
    mret {| res_protocol := p; success := s; res_timestamp := t; session_keys := k; error_message := e |} }.

#[export] Instance AuthenticationChallenge_codec : DictCodec AuthenticationChallenge := {
  to_dict c := JDict ([("protocol", enum_value (ch_protocol c)); ("challengeId", challenge_id c);
    ("timestamp", time_json (ch_timestamp c))] ++ if_truthy "challengeData" (challenge_data c) ++
    if_some "expiry" time_json (expiry c) ++ []);
  from_dict data :=
    p ← (v ← item "protocol" data; enum_of v); i ← item "challengeId" data; d ← get_item "challengeData" data;
    t ← (v ← item "timestamp" data; read_time v); e ← if_present "expiry" (option_of read_time) None data;
    mret {| ch_protocol := p; challenge_id := i; challenge_data := d; ch_timestamp := t; expiry := e |} }.

#[export] Instance AuthenticationResponse_codec : DictCodec AuthenticationResponse := {
  to_dict r := JDict [("challengeId", resp_challenge_id r); ("responseData", response_data r);
    ("timestamp", time_json (resp_timestamp r))];
  from_dict data :=
    i ← item "challengeId" data; d ← item "responseData" data; t ← (v ← item "timestamp" data; read_time v);
    mret {| resp_challenge_id := i; response_data := d; resp_timestamp := t |} }.
End times.

Section clock.
Context {W : Type} `{Env W}.

Definition is_expired (c : AuthenticationChallenge) (current_time : option datetime) : M W bool :=
  match expiry c with
  | None => mret false
  | Some e =>
      match current_time with
      | Some t => lift (dt_gt t e)
      | None => fun w => let '(t, w) := datetime_now w in (dt_gt (naive t) e, w)
      end
  end.
End clock.

(** ** What is written is read back *)

#[export] Program Instance AccessKey_round : RoundTrip AccessKey := { settle := id; admissible _ := True }.
Next Obligation. by intros []. Qed.
Next Obligation. done. Qed.

#[export] Program Instance BACKey_round : RoundTrip BACKey := { settle := id; admissible _ := True }.
Next Obligation. by intros [[] ]. Qed.
Next Obligation. done. Qed.

#[export] Program Instance PACEInfo_round : RoundTrip PACEInfo := { settle := id; admissible _ := True }.
Next Obligation. intros i _. cbn [from_dict to_dict PACEInfo_codec]. look_up. by destruct i. Qed.
Next Obligation. done. Qed.

#[export] Program Instance ChipAuthenticationInfo_round : RoundTrip ChipAuthenticationInfo := { settle := id; admissible _ := True }.
Next Obligation. intros i _. cbn [from_dict to_dict ChipAuthenticationInfo_codec]. look_up. by destruct i. Qed.
Next Obligation. done. Qed.

#[export] Program Instance TerminalAuthenticationInfo_round : RoundTrip TerminalAuthenticationInfo := {
  settle := id; admissible _ := True }.
Next Obligation. by intros []. Qed.
Next Obligation. done. Qed.

#[export] Program Instance ActiveAuthenticationInfo_round : RoundTrip ActiveAuthenticationInfo := {
  settle := id; admissible _ := True }.
Next Obligation. intros i _. cbn [from_dict to_dict ActiveAuthenticationInfo_codec]. look_up. by destruct i. Qed.
Next Obligation. done. Qed.

#[export] Program Instance SecurityInfo_round : RoundTrip SecurityInfo := { settle := id; admissible _ := True }.
Next Obligation.
  intros i _. cbn [from_dict to_dict SecurityInfo_codec]. look_up. rewrite !reading_optional_model by done.
  by destruct i as [? [] [] [] []].
Qed.
Next Obligation. done. Qed.

Section round.
Context `{IsoTimes}.

#[export] Program Instance AuthenticationResult_round : RoundTrip AuthenticationResult := {
  settle r := {| res_protocol := res_protocol r; success := success r; res_timestamp := res_timestamp r;
                 session_keys := kept (session_keys r); error_message := kept (error_message r) |};
  admissible r := valid_datetime (res_timestamp r) }.
Next Obligation.
  intros r Hr. cbn [from_dict to_dict AuthenticationResult_codec]. look_up. rewrite read_time_json by done. by look_up.
Qed.
Next Obligation. intros r _. simpl. by rewrite !kept_truthy. Qed.

#[export] Program Instance AuthenticationChallenge_round : RoundTrip AuthenticationChallenge := {
  settle c := {| ch_protocol := ch_protocol c; challenge_id := challenge_id c; challenge_data := kept (challenge_data c);
                 ch_timestamp := ch_timestamp c; expiry := expiry c |};
  admissible c := valid_datetime (ch_timestamp c) /\ valid_optional (expiry c) }.
Next Obligation.
  intros c [Ht He]. cbn [from_dict to_dict AuthenticationChallenge_codec]. look_up. rewrite read_time_json by done. look_up.
  rewrite (reading_optional _ _ id); [by destruct (expiry c)|]. intros t E. apply read_time_json. by rewrite E in He.
Qed.
Next Obligation. intros c _. simpl. by rewrite kept_truthy. Qed.

#[export] Program Instance AuthenticationResponse_round : RoundTrip AuthenticationResponse := {
  settle := id; admissible r := valid_datetime (resp_timestamp r) }.
Next Obligation.
  intros r Hr. cbn [from_dict to_dict AuthenticationResponse_codec]. look_up. rewrite read_time_json by done. by destruct r.
Qed.
Next Obligation. done. Qed.
End round.

(** ** Theorems *)

(** The security information of a chip comes back from its dictionary as it was. *)
Theorem security_info_roundtrip (i : SecurityInfo) : from_dict (to_dict i) = Ok i.
Proof. exact (read_back i I). Qed.

Section theorems.
Context {W : Type} `{Env W, IsoTimes}.

(** A challenge without an expiry never expires. One with an expiry of the kind of
    the time it is checked at has expired exactly after it, for good; at the clock
    of the machine, a challenge whose expiry has a time zone raises. *)
Theorem challenge_expiry (c : AuthenticationChallenge) (w : W) :
  (expiry c = None -> forall t, is_expired c t w = (Ok false, w)) /\
  (forall e t, expiry c = Some (naive e) -> is_expired c (Some (naive t)) w = (Ok (e <? t), w)) /\
  (forall e x t z, expiry c = Some (DateTime e (Some x)) ->
     is_expired c (Some (DateTime t (Some z))) w = (Ok (e - x * minute <? t - z * minute), w)) /\
  (forall e x, expiry c = Some (DateTime e (Some x)) -> exists msg, fst (is_expired c None w) = Raise (raise_ TypeError msg)).
Proof.
  unfold is_expired, dt_gt, dt_le, lift. split_and!.
  - intros E t. by rewrite E.
  - intros e t E. rewrite E. simpl. by rewrite Z.ltb_antisym.
  - intros e x t z E. rewrite E. simpl. by rewrite Z.ltb_antisym.
  - intros e x E. rewrite E. destruct (datetime_now w) as [t w']. simpl. by eexists.
Qed.

(** A challenge comes back from its dictionary, but for empty data, which becomes
    [None], and expires when it did. *)
Theorem challenge_roundtrip (c : AuthenticationChallenge) : valid_datetime (ch_timestamp c) ->
  valid_optional (expiry c) ->
  exists c', from_dict (to_dict c) = Ok c' /\ to_dict c' = to_dict c /\ challenge_data c' = kept (challenge_data c) /\
    forall t (w : W), is_expired c' t w = is_expired c t w.
Proof.
  intros Ht He. assert (Ha : admissible c) by (by split). exists (settle c).
  split; [exact (read_back c Ha)|]. split; [exact (settle_written c Ha)|]. done.
Qed.
End theorems.

(** The key made from the machine-readable zone is the zone: decoding it gives the
    document number and the two dates. *)
Theorem bac_key_is_mrz number birth expiry_date :
  exists s, key_data (access_key (from_mrz_info number birth expiry_date)) = JStr s /\
    b64decode s = Ok (utf8 number ++ utf8 birth ++ utf8 expiry_date) /\
    from_dict (to_dict (from_mrz_info number birth expiry_date)) = Ok (from_mrz_info number birth expiry_date).
Proof.
  assert (Hu : forall a b, utf8 (a +:+ b) = utf8 a ++ utf8 b).
  { intros a b. unfold utf8. by rewrite list_ascii_app, map_app, concat_app. }
  eexists. split; [reflexivity|]. split; [by rewrite b64decode_encode, !Hu|]. reflexivity.
Qed.

(** ** Runs *)

Module Demo.

#[export] Instance no_times : IsoTimes := { iso_time_other s := Raise (raise_ ValueError "Invalid isoformat string") }.

Definition start : Z := 1704067200 * second.

Definition challenge (tz : option Z) : AuthenticationChallenge := {|
  ch_protocol := EAC_TA; challenge_id := JStr "c1"; challenge_data := JStr ""; ch_timestamp := DateTime start tz;
  expiry := Some (DateTime (start + 5 * minute) tz) |}.

Definition now : script := {| script_ids := []; script_clock := start |}.

Lemma challenge_roundtrip_witness :
  exists c', from_dict (to_dict (challenge None)) = Ok c' /\ to_dict c' = to_dict (challenge None) /\
    challenge_data c' = kept (challenge_data (challenge None)) /\
    forall t (w : script), is_expired c' t w = is_expired (challenge None) t w.
Proof. apply challenge_roundtrip; by vm_compute. Defined.

Example not_yet : is_expired (challenge None) None now = (Ok false, {| script_ids := []; script_clock := start + second |}).
Proof. vm_compute. reflexivity. Qed.
Example at_expiry : fst (is_expired (challenge None) (Some (naive (start + 5 * minute))) now) = Ok false.
Proof. vm_compute. reflexivity. Qed.
Example aware : fst (is_expired (challenge (Some 0)) None now) =
  Raise (raise_ TypeError "can't compare offset-naive and offset-aware datetimes").
Proof. vm_compute. reflexivity. Qed.
End Demo.
